(* ===== verification/_CoqProject ===== *)
-Q . S2P
Prelude.v
Effects.v
GoTime.v
Http.v
Platform.v
Availability.v
SchedulingRepo.v
SchedulingApp.v
AppointmentRepo.v
Outbox.v
AppointmentApp.v
Booking.v
AppointmentSystem.v
Notification.v
Gateway.v
Catalog.v
Barber.v
Roster.v
Accounts.v
Customer.v
CustomerAccounts.v
CustomerSessions.v
Auth.v
AuthAccounts.v
AuthRequests.v
AuthSessions.v
AuthPasswords.v
Tenant.v
TenantRegistry.v
TenantCache.v
TenantSettings.v
TenantStaleness.v
TenantOnboarding.v
FrontDoor.v
Links.v
Migrate.v
Server.v
Daemons.v
Startup.v
Delivery.v
HealthPage.v
Counters.v
Router.v
Services.v
Contract.v
Exposure.v
Calls.v
