(* ===== verification/Prelude.v ===== *)
(** * Verification of the barber appointment platform

    The platform is a set of Go services for barber shops, one PostgreSQL
    database per service and many tenants per database.  Browsers reach only
    the gateway, which resolves the host name to a tenant and an application
    type (booking or admin) and forwards requests with an internal token.  The
    scheduling service keeps working hours, overrides and blocked periods and
    computes free slots; to do so it asks the appointment service which periods
    are occupied.  The appointment service keeps appointments; to book or move
    one it asks the scheduling service for the slots of the day, and the
    exclusion constraint of its database has the last word.  Every change is
    recorded as an event in the same transaction; an outbox relay publishes the
    events to a JetStream stream, from which the notification service plans
    e-mails and reminders that a worker delivers.  The tenant service keeps
    tenants, their settings and the hostnames that lead to them, behind a Redis
    cache; the auth service keeps staff identities, memberships and sessions,
    which every admin route of the other services asks for; the customer service
    keeps customers and their sessions; the barber and the catalog service keep
    branches, barbers and the services they offer.  Shared packages hold the
    trust boundary and the clients between services.

    ** Files

    - [Prelude]: Go values ([res], [uuid]), boolean tests, tables as lists with
      [sel], [upd], [del] and [order_by], tactics and the hint database.
    - [Effects]: the state-and-error monad [IO] with a script of faults,
      [WithTenantTx] of platform/db/tenant.go, and the reasoning principles
      [det], [atomic], [step_in], [quiet].
    - [GoTime]: instants, int64 durations, civil dates and locations.
    - [Http]: requests, replies, internal and platform tokens, tenant context
      and admin sessions (platform/internalauth, platformauth, tenantctx,
      adminauth).
    - [Platform]: REST clients (platform/schedulingdeps, tenantsettings,
      barberclient), mail senders and retry (platform/email), the rate limit
      (platform/ratelimit), request ids (platform/httpx) and configuration
      (platform/config).
    - [Availability]: scheduling-service/internal/domain and internal/service.
    - [SchedulingRepo], [SchedulingApp]: scheduling-service repository with its
      tables, and its use cases and HTTP handlers.
    - [AppointmentRepo], [Outbox], [AppointmentApp]: appointment-service
      repository with its tables; outbox functions and relay; booking,
      lifecycle and query services, client and HTTP handlers.
    - [Booking]: both services connected to each other.
    - [AppointmentSystem]: the appointment service as a transition system.
    - [Notification]: notification-service table, repository, consumer,
      recipient client and delivery worker, as a transition system.
    - [Gateway]: gateway-service resolver, forwarding handlers, the platform
      health page with its metric totals, and the whole route table.
    - [Catalog]: catalog-service; [Barber]: barber-service; [Roster]: an
      abstract roster the barber service refines.
    - [Accounts]: what the customer and the auth service share (passwords, mail,
      the lease on the delivery of an initial password).
    - [Customer], [CustomerAccounts], [CustomerSessions]: customer-service, what
      no request to it can break, and the life of a session.
    - [Auth], [AuthAccounts], [AuthRequests], [AuthSessions], [AuthPasswords]:
      auth-service, its invariant, what a request may change, what a session
      stands for, and how passwords are replaced and recovered.
    - [Tenant]: tenant-service; [TenantRegistry]: the abstract registry its
      requests refine; [TenantCache]: the simulation between the service with
      and without a cache; [TenantSettings]: validation and updates of settings;
      [TenantStaleness]: interleaved resolutions; [TenantOnboarding]: the way of
      a tenant, and concrete requests.
    - [FrontDoor]: the gateway connected to the tenant service.
    - [Links]: the clients of platform/schedulingdeps, tenantsettings and
      barberclient connected to the handlers of the barber, the catalog and the
      tenant service, and the availability query across all of them.
    - [Migrate]: the migration job (platform/migrate) and interleaved jobs.
    - [Server]: what is installed in front of the routes of every service:
      request ids, log line, span and metrics, health routes, graceful shutdown
      (platform/httpx, logging, obsmetrics, otelsetup).
    - [Daemons]: the loops of the consumer and the worker of the notification
      service, over an interface of the broker, and the life of the outbox
      publisher.
    - [Startup]: connection pools (platform/db/pool.go), optional connections
      (platform/infra) and cmd/api/main.go of the nine services.
    - [Delivery]: an event on its way from the outbox to the mail server.
    - [HealthPage]: what the platform health page of the gateway shows.
    - [Counters]: the counters of the notification service's consumer and worker.
    - [Router]: the interface of fiber's router, and the computation of what a
      path can reach in a table; [Services]: Handler.Register of the seven
      services behind the gateway, and what each row runs; [Contract]: the
      harness platform/authcontract and the tables the services run it on.
    - [Exposure]: the route table of the gateway composed with the tables of the
      services; [Calls]: where the calls of the clients of the services arrive.

    Operations keep the names of the code, prefixed where a name occurs in
    several packages ([Repository_Create] is Repository.Create of the
    appointment service; [SRepository_...], [NRepository_...], [CRepository_...],
    [BRepository_...], [CuRepository_...], [ARepository_...] and
    [TRepository_...] are those of the scheduling, notification, catalog,
    barber, customer, auth and tenant service).  A table is a list of
    rows; a statement is a function on tables that checks the constraints of
    the migrations and returns a SQLSTATE class when one is violated.

    ** What the theorems show

    - Bookings: no two live appointments of a barber overlap in any reachable
      state ([no_double_booking]); creation is atomic and idempotent, and two
      attempts under any failures insert at most once ([Create_atomic],
      [Create_retry_once], [Create_idempotent]);
      transitions and reschedulings succeed exactly when they may; statuses
      move along the status graph; tenants are isolated.
    - Events: every committed event reaches the stream or is still in the
      outbox, whatever fails ([events_delivered]); the relay makes progress,
      leases exclude each other and retries are bounded; an event that finds
      relay, consumer, appointment service and worker undisturbed ends as a sent
      mail ([event_mailed]).
    - Slots: [Available] offers exactly the free grid slots; validated hours
      give increasing slots; the stored schedule satisfies its constraints in
      every reachable state; hours and overrides round-trip; the query fails
      closed; an offered slot can be booked ([offered_slot_books], across both
      services); the query is answered from the roster, the catalog and the
      settings the other services keep ([availability_across_services]).
    - Authority: a writing route of the appointment service needs the internal
      token, the application type and a manager's session or the ownership of the
      appointment, and changes only the row it names ([writes_need_authority]);
      schedules likewise ([schedule_writes_authorised]); all the gateway sends,
      its health page and web pages included, carries exactly the context
      resolved from the host or the platform credential's right, and forged
      headers have no effect ([gateway_trust]).
    - Routes: a request without the internal token is refused by every handler of
      every service before anything happens ([unauthenticated_refused]), and the
      contract tests of the services pass whatever data they run on
      ([contracts_hold]); whatever a client writes into a path, a route of the
      gateway reaches only handlers for its audience ([gateway_exposes]), and a
      request that may pass and has ordinary values does arrive at the handler
      the route names, with these values, and is answered ([gateway_delivers]); every call between services arrives at the handler
      it is meant for ([service_calls_arrive], [edge_calls_arrive]).
    - Notifications: at most one per event and type, final states are kept,
      redelivery is idempotent for events that do not move an appointment,
      poisonous messages are terminated with an audit row, and the worker
      settles exactly what it claims; the consumer loses no message and empties
      its queue once the broker answers ([consumer_settles]); the counters of
      both tell what happened to the table ([consumer_counters_exact],
      [worker_counters_exact]).
    - Rosters and catalogs: the tables stay consistent and change only for an
      admin of the tenant with write authority ([roster_writes_safe],
      [catalog_writes_safe]); the barber service refines one roster per tenant
      ([roster_refinement]); the public list shows exactly the barbers that can
      be booked ([public_barbers_bookable]); the clients of the other services
      see exactly these tables ([clients_see_roster], [clients_see_services]).
    - Customers and staff: accounts, memberships, passwords and sessions change
      only for who may change them, whatever fails ([customer_accounts_safe],
      [auth_requests_safe]); a session stands for a live membership
      ([membership_governs_access]), other services see exactly that
      ([services_see_sessions]); replacing a password is all or nothing and ends
      the other sessions ([password_replacement]); a registered member can sign
      in with the mailed password exactly if the account is active, so a new
      member always ([staff_can_sign_in]).
    - Tenants: a request leaves the tables alone or executes one command of the
      registry its caller may issue ([tenant_requests]); a request reaches a
      tenant through the gateway only by a hostname whose owner proved control
      in the DNS ([front_door]), and exactly so without failures
      ([host_decides]); the clients get the stored, usable settings
      ([clients_see_settings]); the cache is invisible without failures
      ([cache_invisible]) and its resolutions are at most five minutes and the
      duration of a request old with them ([resolution_age_bounded]); a tenant
      can be onboarded and suspended ([tenant_way]).
    - Operation: migration jobs may interleave and be killed, and apply each
      file once and in order ([concurrent_migrations], [migration_exact],
      [connect_bounded]); a process that listens is properly set up and one that
      returns has closed what it opened ([startup_safe]); /ready tells the truth
      and sets exactly the gauges of the dependencies it looked at
      ([readiness_truthful]); log, traces and metrics agree with
      what clients saw and contain nothing else of a request
      ([observers_agree], [observations_allowlisted]); the health page is
      complete and its totals are exact ([health_page_exact],
      [metric_totals_exact]).
    - Deviations from the intended behaviour: an admin cannot create or move
      appointments ([admin_never_books]), an override with intervals cannot be
      moved ([override_move_conflict]), the member routes of the gateway stick
      to the first member ([auth_keeps_first_id]), a redelivered rescheduling
      loses its reminders ([reschedule_redelivery_loses_reminders]), the recovery
      route tells members from strangers while mail is down
      ([recovery_reveals_members]), an update of the settings can undo another
      ([acknowledged_update_lost]), a suspended tenant can stay reachable
      until a cache entry expires ([suspended_tenant_still_resolves]), and the
      backlog gauges always show zero ([backlog_gauges_zero]).

    ** Assumptions and bounds

    A transaction is atomic and transactions are serial: concurrency is the
    interleaving of transactions (of statements outside transactions, each of
    which commits by itself).  A fault script decides for every statement
    whether it runs, fails, or runs with its acknowledgement lost; theorems
    hold for all scripts unless they say fault-free, which is the empty script.
    Each call reads the clock once, and the clock readings of the Go process
    and of the database are arguments.  Ids and claim tokens the database draws
    are arguments; where a theorem needs them to be new it says so.  Library
    functions whose algorithms are not modelled are the fields of the classes
    [GoLib], [PgText], [ReminderIds], [GatewayLib], [AccountLib],
    [Collation], [Fiber] (the error handler of fiber), [Tracing] and
    [NatsPropagation] (tracer and propagator), [Wire] (the JSON and the query
    escaping between gateway and tenant service) and the record [Machine] (what
    drivers, flags and signals answer a starting process), [Router] (the router
    of fiber: the first route that matches, segment by segment), [Decoders]
    (json.Unmarshal into the inputs of the handlers), [SegmentWire] (how a
    segment of a path arrives), [JetStream] (when the broker delivers a message
    again) and [StatusTexts]; the laws a theorem needs are
    the classes [GoLibLaws], [PgTextLaws], [AccountLaws], [LowerLaws],
    [FiberLaws], [WireLaws], [RouterLaws], [SegmentWireLaws], [JetStreamLaws],
    [UuidTexts],
    [UuidLength] and [StatusTextLaws], which concrete instances satisfy.  The
    laws of the router are about every method but HEAD.  [GatewayLib] holds
    among others whether http.NewRequest accepts a URL, floating-point numbers,
    and the order in which the runtime walks a map.  A GET, SET or DEL sent to Redis takes one entry of the fault
    script.  [resolution_age_bounded] is about an interleaving of single reads
    and writes of the cache and the tables; its parameter bounds the time
    between the query of a request and its answer.  Services answer each other
    through functions from requests to replies.  Loops over finite data are
    structural; the loop of [Available] and the trimming of strings run on a
    fuel computed from the length of the window and of the string, and the
    exactness theorem shows that it suffices.  The connection loop of a
    migration job runs on a fuel of 47, which [connect_bounded] shows is enough
    while the clock advances by a second per attempt.  The endless loops of the
    consumer, the worker and the publisher run over a list of rounds, one per
    iteration, and the theorems hold for every list.

    ** Not modelled

    What third-party code does: the inside of fiber's router, the wire format of
    JSON, the SMTP dialogue below its commands, the Prometheus and
    OpenTelemetry exporters and the instrumented HTTP transport
    (otelsetup.WrapTransport), the drivers of PostgreSQL, Redis and NATS.  The
    spans of the consumer and the relay and their log lines are left out.
    Generated sqlc queries are modelled as far as the repositories call them. *)
From Stdlib Require Export Ascii String Lia ZifyBool.
From stdpp Require Export base strings sorting fin_maps gmap numbers list_relations list.

Set Default Proof Using "Type".

(** ** Go values *)

(** [uuid.UUID] is a 128-bit value; only equality and [uuid.Nil] matter. *)
Abbreviation uuid := N (only parsing).
Definition uuid_Nil : uuid := 0%N.

(** A Go [(A, error)] pair in which the value is meaningless when the error
    is not nil. *)
Inductive res (E A : Type) : Type :=
| Ok (a : A)
| Err (e : E).
Arguments Ok {E A} a.
Arguments Err {E A} e.

Definition is_ok {E A} (r : res E A) : bool :=
  match r with Ok _ => true | Err _ => false end.

(** [map_err f] is the shape of the [mapRepositoryError]-like helpers. *)
Definition map_err {E F A} (f : E -> F) (r : res E A) : res F A :=
  match r with Ok a => Ok a | Err e => Err (f e) end.

(** ** Boolean tests *)

Declare Scope go_scope.
Delimit Scope go_scope with go.
Notation "a ==? b" := (bool_decide (a = b)) (at level 70, no associativity) : go_scope.
Notation "a !=? b" := (negb (bool_decide (a = b))) (at level 70, no associativity) : go_scope.
#[global] Open Scope go_scope.

Lemma bool_decide_refl {A} `{!EqDecision A} (a : A) : (a ==? a) = true.
Proof. by rewrite bool_decide_eq_true. Qed.

(** [bsimpl] turns the boolean tests of the context and of the goal into the
    propositions they decide. *)
Ltac bsimpl_step :=
  match goal with
  | H : context [Is_true] |- _ => apply Is_true_true in H
  | H : andb _ _ = true |- _ => apply andb_true_iff in H; destruct H
  | H : orb _ _ = false |- _ => apply orb_false_iff in H; destruct H
  | H : negb _ = true |- _ => apply negb_true_iff in H
  | H : negb _ = false |- _ => apply negb_false_iff in H
  | H : bool_decide _ = true |- _ => apply bool_decide_eq_true in H
  | H : bool_decide _ = false |- _ => apply bool_decide_eq_false in H
  | H : (_ <? _)%Z = true |- _ => apply Z.ltb_lt in H
  | H : (_ <? _)%Z = false |- _ => apply Z.ltb_ge in H
  | H : (_ <=? _)%Z = true |- _ => apply Z.leb_le in H
  | H : (_ <=? _)%Z = false |- _ => apply Z.leb_gt in H
  | |- andb _ _ = true => apply andb_true_iff; split
  | |- orb _ _ = false => apply orb_false_iff; split
  | |- negb _ = true => apply negb_true_iff
  | |- negb _ = false => apply negb_false_iff
  | |- bool_decide _ = true => apply bool_decide_eq_true
  | |- bool_decide _ = false => apply bool_decide_eq_false
  | |- (_ <? _)%Z = true => apply Z.ltb_lt
  | |- (_ <? _)%Z = false => apply Z.ltb_ge
  | |- (_ <=? _)%Z = true => apply Z.leb_le
  | |- (_ <=? _)%Z = false => apply Z.leb_gt
  end.
Ltac bsimpl := repeat bsimpl_step.

(** The integer equality tests of the context. *)
Ltac zeqs :=
  repeat match goal with
  | H : (_ =? _)%Z = true |- _ => apply Z.eqb_eq in H
  | H : (_ =? _)%Z = false |- _ => apply Z.eqb_neq in H
  end.

(** Split every [match]/[if] of the goal, keeping the equations. *)
Ltac split_match :=
  repeat match goal with
  | |- context [match ?x with _ => _ end] =>
      lazymatch x with
      | context [match _ with _ => _ end] => fail
      | _ => destruct x eqn:?
      end
  end.

(** The same in a hypothesis. *)
Ltac split_match_in H :=
  repeat match type of H with
  | context [match ?x with _ => _ end] =>
      lazymatch x with
      | context [match _ with _ => _ end] => fail
      | _ => destruct x eqn:?
      end
  end.

(** The development's hint database: closure lemmas of the effect monad and of
    the table operations are registered in it as the files introduce them. *)
Create HintDb barber.

(** ** List lemmas shared by the components *)

Section Lists.
Context {A : Type}.
Implicit Types (p : A -> bool) (l : list A).

(** [sel p l]: the rows of [l] a WHERE clause keeps, in table order. *)
Definition sel p l : list A := List.filter p l.

(** [upd p f l]: UPDATE ... SET f WHERE p. *)
Definition upd p (f : A -> A) l : list A := map (fun x => if p x then f x else x) l.

(** [del p l]: DELETE ... WHERE p. *)
Definition del p l : list A := List.filter (fun x => negb (p x)) l.

Lemma elem_of_sel p l x : x ∈ sel p l ↔ p x = true ∧ x ∈ l.
Proof. unfold sel. rewrite !list_elem_of_In, filter_In. tauto. Qed.

Lemma elem_of_del p l x : x ∈ del p l ↔ p x = false ∧ x ∈ l.
Proof. unfold del. rewrite !list_elem_of_In, filter_In, negb_true_iff. tauto. Qed.

Lemma elem_of_upd p f l x :
  x ∈ upd p f l ↔ ∃ y, y ∈ l ∧ x = (if p y then f y else y).
Proof.
  unfold upd. rewrite list_elem_of_In, in_map_iff.
  split; intros (y & H1 & H2); exists y; rewrite list_elem_of_In in *.
  - by rewrite H1.
  - by rewrite H2.
Qed.

Lemma upd_nothing p f l : (∀ x, x ∈ l → p x = false) → upd p f l = l.
Proof.
  induction l as [|x l IH]; intros H; [done|]; cbn.
  rewrite (H x) by set_solver. f_equal. apply IH. set_solver.
Qed.

Lemma sel_upd_id p q f l :
  (∀ x, x ∈ l → q x = true → p x = false) →
  (∀ x, x ∈ l → p x = true → q (f x) = false) →
  sel q (upd p f l) = sel q l.
Proof.
  induction l as [|x l IH]; intros H1 H2; [done|]; cbn.
  assert (sel q (upd p f l) = sel q l) as IH' by (apply IH; set_solver).
  unfold sel, upd in *. destruct (p x) eqn:Hp; cbn.
  - rewrite (H2 x), IH' by set_solver.
    destruct (q x) eqn:Hq; [|done]. rewrite (H1 x) in Hp by set_solver. done.
  - by rewrite IH'.
Qed.

Lemma length_upd p f l : length (upd p f l) = length l.
Proof. apply length_map. Qed.

Lemma map_upd {B} (g : A -> B) p f l :
  (∀ x, x ∈ l → p x = true → g (f x) = g x) → map g (upd p f l) = map g l.
Proof.
  intros H. unfold upd. rewrite map_map. apply map_ext_in. intros x Hx.
  destruct (p x) eqn:E; [|done]. apply H; [by apply list_elem_of_In|done].
Qed.

Lemma NoDup_map_eq {B} (g : A -> B) l x y :
  NoDup (map g l) → x ∈ l → y ∈ l → g x = g y → x = y.
Proof.
  induction l as [|z l IH]; cbn; intros Hnd Hx Hy E; [set_solver|].
  apply NoDup_cons in Hnd as [Hz Hnd].
  assert (∀ w, w ∈ l → g w ∈ map g l) as Hin.
  { intros w Hw. apply list_elem_of_In, in_map, list_elem_of_In, Hw. }
  apply elem_of_cons in Hx as [->|Hx], Hy as [->|Hy]; auto.
  - exfalso. apply Hz. rewrite E. auto.
  - exfalso. apply Hz. rewrite <- E. auto.
Qed.

Lemma NoDup_map_sel {B} (g : A -> B) p l : NoDup (map g l) → NoDup (map g (sel p l)).
Proof.
  induction l as [|x l IH]; cbn; intros H; [done|].
  apply NoDup_cons in H as [Hx H]. destruct (p x); cbn; [|auto].
  apply NoDup_cons. split; [|auto]. intros Hin. apply Hx.
  apply list_elem_of_In, in_map_iff in Hin as (y & <- & Hy).
  apply list_elem_of_In, in_map. unfold sel in Hy. apply filter_In in Hy. tauto.
Qed.

Lemma NoDup_map_snoc {B} (f : A -> B) l x :
  NoDup (map f l) → (∀ y, y ∈ l → f y ≠ f x) → NoDup (map f (l ++ [x])).
Proof.
  intros Hnd Hf. rewrite map_app. apply NoDup_app. split; [done|]. split; [|apply NoDup_singleton].
  intros b Hb Hin. apply list_elem_of_singleton in Hin as ->.
  apply list_elem_of_In, in_map_iff in Hb as (y & Hy & Hin). apply (Hf y); [by apply list_elem_of_In|done].
Qed.

(** [find]-style access to the first row a WHERE clause keeps. *)
Lemma head_sel_Some p l x : head (sel p l) = Some x → p x = true ∧ x ∈ l.
Proof.
  intros H. apply elem_of_sel. destruct (sel p l) as [|y k]; [done|].
  cbn in H. simplify_eq. set_solver.
Qed.

Lemma head_sel_None p l : head (sel p l) = None → ∀ x, x ∈ l → p x = false.
Proof.
  intros H x Hx. destruct (p x) eqn:E; [|done].
  assert (x ∈ sel p l) as Hin by (by apply elem_of_sel).
  destruct (sel p l); [set_solver|done].
Qed.

Lemma head_sel_unique {B} (g : A -> B) p l x :
  NoDup (map g l) → (∀ y, p y = true → g y = g x) → x ∈ l → p x = true →
  head (sel p l) = Some x.
Proof.
  intros Hnd Hp Hx Hpx. destruct (head (sel p l)) as [y|] eqn:E.
  - apply head_sel_Some in E as [Hy Hin]. f_equal.
    eapply NoDup_map_eq; eauto.
  - by rewrite (head_sel_None _ _ E x Hx) in Hpx.
Qed.

Lemma existsb_elem p l : existsb p l = true ↔ ∃ x, x ∈ l ∧ p x = true.
Proof. rewrite existsb_exists. by setoid_rewrite list_elem_of_In. Qed.

Lemma existsb_none p l : existsb p l = false ↔ ∀ x, x ∈ l → p x = false.
Proof.
  split.
  - intros H x Hx. destruct (p x) eqn:E; [|done].
    assert (existsb p l = true) by (apply existsb_elem; eauto). congruence.
  - intros H. destruct (existsb p l) eqn:E; [|done].
    apply existsb_elem in E as (x & Hx & E). rewrite H in E; done.
Qed.

(** No row has the key yet. *)
Lemma existsb_fresh {B} `{!EqDecision B} (f : A -> B) v l :
  existsb (λ x, f x ==? v) l = false ↔ ∀ x, x ∈ l → f x ≠ v.
Proof.
  rewrite existsb_none. split; intros H x Hx; specialize (H x Hx); by bsimpl.
Qed.
End Lists.

(** [bsimpl] for the constraint checks. *)
Ltac consimpl :=
  repeat (bsimpl; match goal with
  | H : existsb (λ x, bool_decide (_ = _)) _ = false |- _ => rewrite existsb_fresh in H
  | H : existsb _ _ = false |- _ => rewrite existsb_none in H
  end); bsimpl.

(** ** ORDER BY a numeric key *)
Section OrderBy.
Context {A : Type} (key : A -> Z).

Definition key_le (a b : A) : Prop := (key a <= key b)%Z.
#[global] Instance key_le_dec : RelDecision key_le.
Proof. intros a b. unfold key_le. apply _. Defined.
#[global] Instance key_le_total : Total key_le.
Proof. intros a b. unfold key_le. lia. Qed.
#[global] Instance key_le_trans : Transitive key_le.
Proof. intros a b c. unfold key_le. lia. Qed.

Definition order_by (l : list A) : list A := merge_sort key_le l.

Lemma order_by_perm l : order_by l ≡ₚ l.
Proof. apply merge_sort_Permutation. Qed.

Lemma elem_of_order_by l x : x ∈ order_by l ↔ x ∈ l.
Proof. by rewrite order_by_perm. Qed.

Lemma order_by_sorted l : StronglySorted key_le (order_by l).
Proof. apply StronglySorted_merge_sort; apply _. Qed.

Definition key_lt (a b : A) : Prop := (key a < key b)%Z.

Lemma sorted_perm_eq l k :
  l ≡ₚ k → StronglySorted key_le l → StronglySorted key_lt k → l = k.
Proof.
  revert l. induction k as [|y k IH]; intros l Hp Hl Hk.
  { by apply Permutation_nil_r in Hp. }
  destruct l as [|x l]; [by apply Permutation_nil_cons in Hp|].
  apply StronglySorted_inv in Hl as [Hl Hx], Hk as [Hk Hy].
  assert (x = y) as ->.
  { assert (x ∈ y :: k) as Hxk by (rewrite <- Hp; set_solver).
    assert (y ∈ x :: l) as Hyl by (rewrite Hp; set_solver).
    apply elem_of_cons in Hxk as [|Hxk]; [done|]. apply elem_of_cons in Hyl as [|Hyl]; [done|].
    rewrite Forall_forall in Hx, Hy. specialize (Hx y Hyl). specialize (Hy x Hxk).
    unfold key_le, key_lt in *. lia. }
  f_equal. apply IH; [|done..]. by apply Permutation_cons_inv in Hp.
Qed.

(** Strictly sorted rows come back in their order. *)
Lemma order_by_eq l k : l ≡ₚ k → StronglySorted key_lt k → order_by l = k.
Proof.
  intros Hp Hk. apply sorted_perm_eq; [by rewrite order_by_perm|apply order_by_sorted|done].
Qed.
End OrderBy.

Lemma sel_perm {A} (p : A -> bool) l k : l ≡ₚ k → sel p l ≡ₚ sel p k.
Proof.
  induction 1 as [|x l k _ IH|x y l|l k m _ IH1 _ IH2]; cbn; unfold sel in *; cbn.
  - done.
  - destruct (p x); by rewrite IH.
  - destruct (p x), (p y); try done. constructor.
  - by rewrite IH1.
Qed.

Lemma StronglySorted_sel {A} (R : relation A) (p : A -> bool) l :
  StronglySorted R l → StronglySorted R (sel p l).
Proof.
  induction 1 as [|x l _ IH Hx]; cbn; [constructor|]. destruct (p x); [|done].
  constructor; [done|]. rewrite Forall_forall in *. intros y Hy. apply Hx.
  by apply elem_of_sel in Hy as [_ Hy].
Qed.

(** ORDER BY and WHERE commute when the rows kept are strictly ordered. *)
Lemma sel_order_by {A} (key : A -> Z) p l k :
  sel p l ≡ₚ k → StronglySorted (key_lt key) k → sel p (order_by key l) = k.
Proof.
  intros Hp Hk. apply (sorted_perm_eq key); [|apply StronglySorted_sel, order_by_sorted|done].
  rewrite <- Hp. apply sel_perm, order_by_perm.
Qed.

Lemma sel_app {A} (p : A -> bool) l k : sel p (l ++ k) = sel p l ++ sel p k.
Proof. apply List.filter_app. Qed.

Lemma sel_nothing {A} (p : A -> bool) l : (∀ x, x ∈ l → p x = false) → sel p l = [].
Proof.
  induction l as [|x l IH]; intros H; [done|]; cbn. rewrite (H x) by set_solver.
  apply IH. set_solver.
Qed.

Lemma sel_all {A} (p : A -> bool) l : (∀ x, x ∈ l → p x = true) → sel p l = l.
Proof.
  induction l as [|x l IH]; intros H; [done|]; cbn. rewrite (H x) by set_solver.
  f_equal. apply IH. set_solver.
Qed.

Lemma sel_del_id {A} (q p : A -> bool) l :
  (∀ x, x ∈ l → p x = true → q x = false) → sel q (del p l) = sel q l.
Proof.
  induction l as [|x l IH]; intros H; [done|]. unfold sel, del in *; cbn.
  assert (List.filter q (List.filter (λ x, negb (p x)) l) = List.filter q l) as IH' by (apply IH; set_solver).
  destruct (p x) eqn:Hp; cbn; rewrite IH'; [|done]. by rewrite (H x) by set_solver.
Qed.

Lemma sel_snoc_id {A} (q : A -> bool) l r : q r = false → sel q (l ++ [r]) = sel q l.
Proof. intros H. rewrite sel_app. unfold sel at 2. cbn. rewrite H. apply app_nil_r. Qed.

(** The only row that meets a condition. *)
Lemma sel_one {A B} (g : A -> B) p (l : list A) x :
  NoDup (map g l) → x ∈ l → p x = true → (∀ y, y ∈ l → p y = true → g y = g x) → sel p l = [x].
Proof.
  induction l as [|z l IH]; intros Hnd Hx Hpx Hu; [set_solver|]. cbn in Hnd.
  apply NoDup_cons in Hnd as [Hz Hnd].
  assert (∀ w, w ∈ l → g w ∈ map g l) as Hin by (intros w Hw; by apply list_elem_of_In, in_map, list_elem_of_In).
  apply elem_of_cons in Hx as [<-|Hx].
  - cbn. rewrite Hpx. f_equal. apply sel_nothing. intros y Hy. destruct (p y) eqn:E; [|done].
    exfalso. apply Hz. rewrite <- (Hu y) by set_solver. auto.
  - cbn. destruct (p z) eqn:E.
    + exfalso. apply Hz. rewrite (Hu z) by set_solver. auto.
    + apply IH; [done..|]. intros y Hy. apply Hu. set_solver.
Qed.

(** A row of an UPDATE that keeps a column. *)
Lemma upd_keeps {A B} (g : A -> B) (q : A -> bool) f x :
  (q x = true → g (f x) = g x) → g (if q x then f x else x) = g x.
Proof. destruct (q x); auto. Qed.

(** Changing one row whose new key no other row has. *)
Lemma NoDup_map_upd_one {A B C} (i : A -> B) (g : A -> C) (q : A -> bool) f l :
  NoDup (map i l) → NoDup (map g l) →
  (∀ s x, s ∈ l → x ∈ l → q s = true → q x = true → i s = i x) →
  (∀ s x, s ∈ l → x ∈ l → q s = true → i x ≠ i s → g x ≠ g (f s)) →
  NoDup (map g (upd q f l)).
Proof.
  intros Hi Hn Hq Hf. induction l as [|a l IH]; [constructor|]. cbn in Hi, Hn |- *.
  apply NoDup_cons in Hi as [Hai Hi]. apply NoDup_cons in Hn as [Han Hn].
  apply NoDup_cons. split; [|apply IH; [done..| |]; intros s x Hs Hx; [apply Hq|apply Hf]; set_solver].
  intros Hin. apply list_elem_of_In, in_map_iff in Hin as (y & Ey & Hy%list_elem_of_In).
  apply elem_of_upd in Hy as (x & Hx & ->).
  assert (i x ≠ i a) as Hne
    by (intros E; apply Hai; rewrite <- E; by apply list_elem_of_In, in_map, list_elem_of_In).
  destruct (q a) eqn:Ea, (q x) eqn:Ex.
  - apply Hne. apply Hq; set_solver.
  - apply (Hf a x); [set_solver|set_solver|done|done|done].
  - apply (Hf x a); [set_solver|set_solver|done| |done]. congruence.
  - apply Han. rewrite <- Ey. by apply list_elem_of_In, in_map, list_elem_of_In.
Qed.

(** The first row of an UPDATE and of an INSERT. *)
Lemma head_sel_upd {A} (p : A -> bool) f l :
  (∀ x, p x = true → p (f x) = true) → head (sel p (upd p f l)) = f <$> head (sel p l).
Proof.
  intros Hp. induction l as [|x l IH]; [done|]. unfold sel, upd in *. cbn.
  destruct (p x) eqn:E; cbn; [by rewrite Hp|by rewrite E].
Qed.

Lemma head_sel_snoc {A} (p : A -> bool) l r :
  head (sel p (l ++ [r])) = match head (sel p l) with Some x => Some x | None => if p r then Some r else None end.
Proof. rewrite sel_app. destruct (sel p l); [|done]. cbn. by destruct (p r). Qed.

Lemma sel_sel {A} (p q : A -> bool) l : (∀ x, p x = true → q x = true) → sel p (sel q l) = sel p l.
Proof.
  intros H. induction l as [|x l IH]; [done|]. unfold sel in *. cbn.
  destruct (q x) eqn:Eq; cbn; rewrite IH; [done|]. destruct (p x) eqn:Ep; [|done]. by rewrite (H x Ep) in Eq.
Qed.

Lemma existsb_ext_in {A} (p q : A -> bool) l : (∀ x, x ∈ l → p x = q x) → existsb p l = existsb q l.
Proof.
  induction l as [|x l IH]; intros H; [done|]; cbn. rewrite (H x), IH by set_solver. done.
Qed.

Lemma upd_same {A} (p : A -> bool) f l : (∀ x, x ∈ l → p x = true → f x = x) → upd p f l = l.
Proof.
  intros H. unfold upd. rewrite <- (map_id l) at 2. apply map_ext_in. intros x Hx%list_elem_of_In.
  destruct (p x) eqn:E; auto.
Qed.
