(* ===== verification/Effects.v ===== *)
(** * Effects: the state-and-error monad of the services

    A service operation runs against one PostgreSQL database [D].  It can fail
    at every statement it sends (lost connection, timeout, cancelled context),
    so an operation is run against a script of faults, one entry per statement;
    [WithTenantTx] is [platform/db/tenant.go].  An empty script means that
    nothing fails. *)
From S2P Require Import Prelude.

(** What happens to one statement: it runs; it fails and has no effect; or,
    only for a COMMIT and for an autocommitted statement, it takes effect but
    the acknowledgement is lost and the client sees an error. *)
Inductive fault := FOk | FFail | FLost.

Definition pop (fs : list fault) : fault * list fault :=
  match fs with [] => (FOk, []) | f :: fs' => (f, fs') end.

(** Errors PostgreSQL and pgx report: SQLSTATE classes, [pgx.ErrNoRows], a
    NULL scanned into a string, and infrastructure failures that carry no SQLSTATE. *)
Inductive pg_error :=
| NoRows
| UniqueViolation
| ExclusionViolation
| CheckViolation
| ForeignKeyViolation
| RlsViolation
| NoPrivilege
| UndefinedTable
| InvalidText
| OutOfRange
| BadEncoding
| ScanError
| Infra.

#[export] Instance pg_error_eq_dec : EqDecision pg_error.
Proof. solve_decision. Defined.

(** [SQLState()] of the error, for the errors that carry one. *)
Definition SQLState (e : pg_error) : option string :=
  match e with
  | UniqueViolation => Some "23505"
  | ExclusionViolation => Some "23P01"
  | CheckViolation => Some "23514"
  | ForeignKeyViolation => Some "23503"
  | RlsViolation => Some "42501"
  | NoPrivilege => Some "42501"
  | UndefinedTable => Some "42P01"
  | InvalidText => Some "22P02"
  | OutOfRange => Some "22003"
  | BadEncoding => Some "22021"
  | NoRows | ScanError | Infra => None
  end%string.

(** How a package's error type embeds the errors of pgx. *)
Class FromPg (E : Type) := from_pg : pg_error -> E.
#[export] Instance from_pg_id : FromPg pg_error := fun e => e.

(** Row-level security: the rows of the session's tenant. *)
Definition rls {R} (tenant_of : R -> uuid) (tx : uuid) (p : R -> bool) (r : R) : bool :=
  (tenant_of r ==? tx) && p r.

(** A WHERE clause that names the session's tenant is not restricted further. *)
Lemma rls_tenant {R} (tenant_of : R -> uuid) tx p :
  (∀ r, p r = true → tenant_of r = tx) →
  (∀ l, sel (rls tenant_of tx p) l = sel p l) ∧ ∀ l, del (rls tenant_of tx p) l = del p l.
Proof.
  intros Hp. assert (∀ r, rls tenant_of tx p r = p r) as E.
  { intros r. unfold rls. destruct (p r) eqn:Er; [|by rewrite andb_false_r].
    by rewrite (Hp r Er), bool_decide_refl. }
  split; intros l; apply filter_ext; intros r; by rewrite E.
Qed.

(** A [text] value holds no zero byte. *)
Fixpoint text_ok (s : string) : bool :=
  match s with
  | EmptyString => true
  | String c s' => (c !=? zero) && text_ok s'
  end.

Definition IO (D E A : Type) : Type := list fault -> D -> res E A * (list fault * D).

Section Monad.
Context {D E : Type}.

Definition io_ret {A} (a : A) : IO D E A := fun fs d => (Ok a, (fs, d)).
Definition io_fail {A} (e : E) : IO D E A := fun fs d => (Err e, (fs, d)).
Definition io_bind {A B} (k : A -> IO D E B) (m : IO D E A) : IO D E B :=
  fun fs d =>
    match m fs d with
    | (Ok a, (fs', d')) => k a fs' d'
    | (Err e, s) => (Err e, s)
    end.

(** [attempt m] runs [m] and hands its error to the caller as a value, as Go
    code does when it inspects [err]. *)
Definition attempt {F A} (m : IO D F A) : IO D E (res F A) :=
  fun fs d => match m fs d with (r, s) => (Ok r, s) end.

Definition lift {A} (r : res E A) : IO D E A := fun fs d => (r, (fs, d)).
End Monad.

#[export] Instance io_mret D E : MRet (IO D E) := fun A => io_ret.
#[export] Instance io_mbind D E : MBind (IO D E) := fun A B => io_bind.

Section Statements.
Context {D E : Type} `{!FromPg E}.

(** A statement of an open transaction. *)
Definition stmt {A} (f : D -> res pg_error (A * D)) : IO D E A :=
  fun fs d =>
    match pop fs with
    | (FOk, fs') =>
        match f d with
        | Ok (a, d') => (Ok a, (fs', d'))
        | Err e => (Err (from_pg e), (fs', d))
        end
    | (_, fs') => (Err (from_pg Infra), (fs', d))
    end.

(** A read-only statement. *)
Definition query {A} (f : D -> A) : IO D E A := stmt (fun d => Ok (f d, d)).

(** A SELECT that can fail: it changes nothing. *)
Definition reading {A} (f : D -> res pg_error A) (d : D) : res pg_error (A * D) :=
  match f d with Ok v => Ok (v, d) | Err e => Err e end.

(** A statement sent to the pool directly: it commits by itself. *)
Definition autocommit {A} (f : D -> res pg_error (A * D)) : IO D E A :=
  fun fs d =>
    match pop fs with
    | (FFail, fs') => (Err (from_pg Infra), (fs', d))
    | (FOk, fs') =>
        match f d with
        | Ok (a, d') => (Ok a, (fs', d'))
        | Err e => (Err (from_pg e), (fs', d))
        end
    | (FLost, fs') =>
        match f d with
        | Ok (_, d') => (Err (from_pg Infra), (fs', d'))
        | Err e => (Err (from_pg Infra), (fs', d))
        end
    end.

(** [db.WithTenantTx]: BEGIN, [set_config('app.tenant_id')], the callback, and
    COMMIT when the callback returned nil; every error path rolls back.  The
    callback gets the value of [app.tenant_id], which the row-level security
    policies compare with. *)
Definition WithTenantTx {A} (tenantID : uuid) (fn : uuid -> IO D E A) : IO D E A :=
  fun fs d =>
    match pop fs with                                (* pool.Begin *)
    | (FOk, fs1) =>
        match pop fs1 with                           (* set_config *)
        | (FOk, fs2) =>
            match fn tenantID fs2 d with
            | (Err e, (fs3, _)) => (Err e, (fs3, d)) (* tx.Rollback *)
            | (Ok a, (fs3, d')) =>
                match pop fs3 with                   (* tx.Commit *)
                | (FOk, fs4) => (Ok a, (fs4, d'))
                | (FFail, fs4) => (Err (from_pg Infra), (fs4, d))
                | (FLost, fs4) => (Err (from_pg Infra), (fs4, d'))
                end
            end
        | (_, fs2) => (Err (from_pg Infra), (fs2, d))
        end
    | (_, fs1) => (Err (from_pg Infra), (fs1, d))
    end.

(** A transaction without a tenant context: BEGIN, the body, and COMMIT when
    the body succeeded. *)
Definition WithTx {A} (fn : IO D E A) : IO D E A :=
  fun fs d =>
    match pop fs with                            (* pool.Begin *)
    | (FOk, fs1) =>
        match fn fs1 d with
        | (Err e, (fs2, _)) => (Err e, (fs2, d)) (* tx.Rollback *)
        | (Ok a, (fs2, d')) =>
            match pop fs2 with                   (* tx.Commit *)
            | (FOk, fs3) => (Ok a, (fs3, d'))
            | (FFail, fs3) => (Err (from_pg Infra), (fs3, d))
            | (FLost, fs3) => (Err (from_pg Infra), (fs3, d'))
            end
        end
    | (_, fs1) => (Err (from_pg Infra), (fs1, d))
    end.

(** [SELECT set_config('app.tenant_id', ...)] within an open transaction: the
    value the row-level security policies compare with from then on. *)
Definition set_config (t : uuid) : IO D E uuid := stmt (fun d => Ok (t, d)).
End Statements.

(** Fault-free execution. *)
Definition run {D E A} (m : IO D E A) (d : D) : res E A * D :=
  match m [] d with (r, (_, d')) => (r, d') end.

(** ** Deterministic bodies

    [det m]: without faults [m] leaves an empty script, and with faults it
    either does what it does without them or reports an infrastructure error. *)
Section Det.
Context {D E : Type} `{!FromPg E}.

Definition det {A} (m : IO D E A) : Prop :=
  (∀ d, (m [] d).2.1 = []) ∧
  ∀ fs d, ((m fs d).1, (m fs d).2.2) = run m d ∨ (m fs d).1 = Err (from_pg Infra).

Lemma det_ret {A} (a : A) : det (mret a).
Proof. split; [done|]. intros fs d. by left. Qed.

Lemma det_fail {A} (e : E) : det (A:=A) (io_fail e).
Proof. split; [done|]. intros fs d. by left. Qed.

Lemma det_lift {A} (r : res E A) : det (lift r).
Proof. split; [done|]. intros fs d. by left. Qed.

Lemma det_stmt {A} (f : D -> res pg_error (A * D)) : det (stmt f).
Proof.
  split.
  - intros d. unfold stmt; cbn. by destruct (f d) as [[]|].
  - intros fs d. unfold run, stmt. destruct (pop fs) as [[] fs']; cbn; [|by right..].
    left. by destruct (f d) as [[]|].
Qed.

Lemma det_query {A} (f : D -> A) : det (query f).
Proof. apply det_stmt. Qed.

Lemma run_bind {A B} (m : IO D E A) (k : A -> IO D E B) d :
  det m →
  run (m ≫= k) d = match run m d with (Ok a, d') => run (k a) d' | (Err e, d') => (Err e, d') end.
Proof.
  intros [Hq _]. specialize (Hq d). unfold run, mbind, io_mbind, io_bind.
  destruct (m [] d) as [[a|e] [fs d']]; cbn in *; by subst.
Qed.

Lemma det_bind {A B} (m : IO D E A) (k : A -> IO D E B) :
  det m → (∀ a, det (k a)) → det (m ≫= k).
Proof.
  intros Hm Hk. split.
  - intros d. destruct Hm as [Hq _]. specialize (Hq d). unfold mbind, io_mbind, io_bind.
    destruct (m [] d) as [[a|e] [fs d']]; cbn in *; subst; [apply Hk|done].
  - intros fs d. rewrite run_bind by done. destruct Hm as [_ Hm]. specialize (Hm fs d).
    unfold mbind, io_mbind, io_bind. destruct (m fs d) as [[a|e] [fs' d']]; cbn in *.
    + destruct Hm as [<-|]; [apply Hk|done].
    + destruct Hm as [<-|[= ->]]; [by left|by right].
Qed.

(** A body that looks at the error of [m] is deterministic when it passes an
    infrastructure error on. *)
Lemma det_attempt {A B} (m : IO D E A) (k : res E A -> IO D E B) :
  det m → (∀ r, det (k r)) → k (Err (from_pg Infra)) = io_fail (from_pg Infra) →
  det (attempt m ≫= k).
Proof.
  intros [Hq Hm] Hk Hinfra. split.
  - intros d. specialize (Hq d). unfold mbind, io_mbind, io_bind, attempt.
    destruct (m [] d) as [r [fs d']]; cbn in *. subst. apply Hk.
  - intros fs d. specialize (Hm fs d). specialize (Hq d).
    unfold run, mbind, io_mbind, io_bind, attempt in *.
    destruct (m fs d) as [r [fs' d']], (m [] d) as [r0 [fs0 d0]]; cbn in *; subst.
    destruct Hm as [[= -> ->]| ->]; [apply Hk|]. rewrite Hinfra. by right.
Qed.

Lemma run_tx {A} t (fn : uuid -> IO D E A) d :
  det (fn t) →
  run (WithTenantTx t fn) d =
    match run (fn t) d with (Ok a, d') => (Ok a, d') | (Err e, _) => (Err e, d) end.
Proof.
  intros [Hq _]. specialize (Hq d). unfold run, WithTenantTx; cbn.
  destruct (fn t [] d) as [[a|e] [fs d']]; cbn in *; by subst.
Qed.

(** ** Atomic operations *)

(** An operation is atomic: under any faults it either behaves as without
    them, or reports an infrastructure error and has had its whole effect or
    none. *)
Definition atomic {A} (m : IO D E A) : Prop :=
  ∀ fs d, ((m fs d).1, (m fs d).2.2) = run m d ∨
    ((m fs d).1 = Err (from_pg Infra) ∧ ((m fs d).2.2 = d ∨ (m fs d).2.2 = (run m d).2)).

Lemma atomic_tx {A} t (fn : uuid -> IO D E A) :
  det (fn t) → atomic (WithTenantTx t fn).
Proof.
  intros Hd fs d. rewrite run_tx by done. destruct Hd as [_ Hd].
  unfold WithTenantTx. destruct (pop fs) as [[] fs1]; cbn; [|by eauto..].
  destruct (pop fs1) as [[] fs2]; cbn; [|by eauto..].
  specialize (Hd fs2 d). destruct (fn t fs2 d) as [[a|e] [fs3 d']]; cbn in *.
  - destruct Hd as [<-|]; [|done]. destruct (pop fs3) as [[] fs4]; cbn; auto.
  - destruct Hd as [<-|[= ->]]; auto.
Qed.

Lemma run_WithTx {A} (fn : IO D E A) d :
  det fn →
  run (WithTx fn) d = match run fn d with (Ok a, d') => (Ok a, d') | (Err e, _) => (Err e, d) end.
Proof.
  intros [Hq _]. specialize (Hq d). unfold run, WithTx; cbn.
  destruct (fn [] d) as [[a|e] [fs d']]; cbn in *; by subst.
Qed.

Lemma atomic_WithTx {A} (fn : IO D E A) : det fn → atomic (WithTx fn).
Proof.
  intros Hd fs d. rewrite run_WithTx by done. destruct Hd as [_ Hd].
  unfold WithTx. destruct (pop fs) as [[] fs1]; cbn; [|by eauto..].
  specialize (Hd fs1 d). destruct (fn fs1 d) as [[a|e] [fs3 d']]; cbn in *.
  - destruct Hd as [<-|]; [|done]. destruct (pop fs3) as [[] fs4]; cbn; auto.
  - destruct Hd as [<-|[= ->]]; auto.
Qed.

Lemma atomic_autocommit {A} (f : D -> res pg_error (A * D)) : atomic (autocommit f).
Proof.
  intros fs d. unfold run, autocommit; cbn.
  destruct (pop fs) as [[] fs']; cbn; destruct (f d) as [[]|]; cbn; auto.
Qed.

Lemma det_tx {A} t (fn : uuid -> IO D E A) : det (fn t) → det (WithTenantTx t fn).
Proof.
  intros Hd. pose proof (atomic_tx t fn Hd) as Ha. destruct Hd as [Hq _]. split.
  - intros d. specialize (Hq d). unfold WithTenantTx; cbn.
    destruct (fn t [] d) as [[a|e] [fs d']]; cbn in *; by subst.
  - intros fs d. destruct (Ha fs d) as [Hr|[Hr _]]; auto.
Qed.

Lemma det_WithTx {A} (fn : IO D E A) : det fn → det (WithTx fn).
Proof.
  intros Hd. pose proof (atomic_WithTx fn Hd) as Ha. destruct Hd as [Hq _]. split.
  - intros d. specialize (Hq d). unfold WithTx; cbn.
    destruct (fn [] d) as [[a|e] [fs d']]; cbn in *; by subst.
  - intros fs d. destruct (Ha fs d) as [Hr|[Hr _]]; auto.
Qed.

(** A successful atomic operation did exactly what it does without faults. *)
Lemma atomic_ok {A} (m : IO D E A) fs d a :
  atomic m → (m fs d).1 = Ok a → run m d = (Ok a, (m fs d).2.2).
Proof. intros Hm H. destruct (Hm fs d) as [<-|[Hf _]]; congruence. Qed.
End Det.

#[export] Hint Resolve det_ret det_fail det_lift det_stmt det_query det_bind det_attempt
  atomic_tx atomic_autocommit : barber.

(** Prove [det] and [atomic] by following the shape of the body. *)
Ltac det_step :=
  match goal with
  | |- forall _, _ => intro
  | |- atomic _ => apply atomic_tx
  | |- det (WithTenantTx _ _) => apply det_tx
  | |- det (WithTx _) => apply det_WithTx
  | |- det (attempt _ ≫= _) => apply det_attempt
  | |- det (_ ≫= _) => apply det_bind
  | |- det (match ?x with _ => _ end) => destruct x
  | |- det _ => solve [auto with barber nocore]
  | |- _ = io_fail _ => reflexivity
  end.
Ltac solve_det := repeat (det_step; cbn beta).

(** ** Reachability *)
Section Steps.
Context {D E : Type} (I : D -> D -> Prop).

(** [step_in I m]: every execution of [m], whatever fails, moves the database
    along [I]. *)
Definition step_in {A} (m : IO D E A) : Prop := ∀ fs d, I d (m fs d).2.2.

Context `{!FromPg E}.
Lemma atomic_step {A} (m : IO D E A) fs d : Reflexive I → atomic m → I d (run m d).2 → I d (m fs d).2.2.
Proof. intros HI Hm Hrun. destruct (Hm fs d) as [H|[_ [->| ->]]]; [|done|done]. by rewrite <- H in Hrun. Qed.
Lemma step_in_atomic {A} (m : IO D E A) :
  Reflexive I → atomic m → (∀ d, I d (run m d).2) → step_in m.
Proof. intros HI Hm Hrun fs d. by apply atomic_step. Qed.

Context `{!PreOrder I}.
Lemma step_in_ret {A} (a : A) : step_in (mret a).
Proof. intros fs d. reflexivity. Qed.
Lemma step_in_fail {A} (e : E) : step_in (A:=A) (io_fail e).
Proof. intros fs d. reflexivity. Qed.
Lemma step_in_lift {A} (r : res E A) : step_in (lift r).
Proof. intros fs d. reflexivity. Qed.
Lemma step_in_bind {A B} (m : IO D E A) (k : A -> IO D E B) :
  step_in m → (∀ a, step_in (k a)) → step_in (m ≫= k).
Proof.
  intros Hm Hk fs d. specialize (Hm fs d). unfold mbind, io_mbind, io_bind.
  destruct (m fs d) as [[a|e] [fs' d']]; cbn in *; [|done]. etrans; [exact Hm|apply Hk].
Qed.
End Steps.

Lemma step_in_run {D E A} (I : D -> D -> Prop) (m : IO D E A) d : step_in I m → I d (run m d).2.
Proof. intros Hm. specialize (Hm [] d). unfold run. by destruct (m [] d) as [? [? ?]]. Qed.

Lemma step_in_attempt {D E F} (I : D -> D -> Prop) {A} (m : IO D F A) :
  step_in I m → step_in I (attempt (E:=E) m).
Proof.
  intros Hm fs d. specialize (Hm fs d). unfold attempt. by destruct (m fs d) as [r [fs' d']].
Qed.

Lemma step_in_stmt {D E A} `{!FromPg E} (I : D -> D -> Prop) (f : D -> res pg_error (A * D)) :
  Reflexive I → (∀ d a d', f d = Ok (a, d') → I d d') → step_in I (E:=E) (stmt f).
Proof.
  intros HI Hf fs d. unfold stmt. destruct (pop fs) as [[] fs']; cbn; [|done..].
  destruct (f d) as [[a d']|e] eqn:E0; cbn; [by eapply Hf|done].
Qed.

Lemma step_in_autocommit {D E A} `{!FromPg E} (I : D -> D -> Prop) (f : D -> res pg_error (A * D)) :
  Reflexive I → (∀ d a d', f d = Ok (a, d') → I d d') → step_in I (E:=E) (autocommit f).
Proof.
  intros HI Hf fs d. unfold autocommit.
  destruct (pop fs) as [[] fs']; cbn; [|done|]; destruct (f d) as [[a d']|e] eqn:E0; cbn; eauto.
Qed.

Lemma step_in_tx {D E A} `{!FromPg E} (I : D -> D -> Prop) t (fn : uuid -> IO D E A) :
  Reflexive I → step_in I (fn t) → step_in I (WithTenantTx t fn).
Proof.
  intros HI Hfn fs d. unfold WithTenantTx.
  destruct (pop fs) as [[] fs1]; cbn; [|done..]. destruct (pop fs1) as [[] fs2]; cbn; [|done..].
  specialize (Hfn fs2 d). destruct (fn t fs2 d) as [[a|e] [fs3 d']]; cbn in *; [|done].
  destruct (pop fs3) as [[] fs4]; cbn; done.
Qed.

Lemma step_in_WithTx {D E A} `{!FromPg E} (I : D -> D -> Prop) (fn : IO D E A) :
  Reflexive I → step_in I fn → step_in I (WithTx fn).
Proof.
  intros HI Hfn fs d. unfold WithTx. destruct (pop fs) as [[] fs1]; cbn; [|done..].
  specialize (Hfn fs1 d). destruct (fn fs1 d) as [[a|e] [fs3 d']]; cbn in *; [|done].
  destruct (pop fs3) as [[] fs4]; cbn; done.
Qed.

#[export] Hint Resolve step_in_ret step_in_fail step_in_lift step_in_bind step_in_attempt : barber.

(** A read-only operation. *)
Abbreviation readonly := (step_in eq).

(** Prove [step_in] by following the shape of the body. *)
Ltac step_step :=
  match goal with
  | |- forall _, _ => intro
  | |- step_in _ (WithTenantTx _ _) => apply step_in_tx; [apply _|]
  | |- step_in _ (_ ≫= _) => apply step_in_bind; [apply _|..]
  | |- step_in _ (attempt _) => apply step_in_attempt
  | |- step_in _ (mret _) => apply step_in_ret; apply _
  | |- step_in _ (io_fail _) => apply step_in_fail; apply _
  | |- step_in _ (lift _) => apply step_in_lift; apply _
  | |- step_in _ (query _) => apply step_in_stmt; [apply _|by intros ??? [= _ <-]]
  | |- step_in _ (match ?x with _ => _ end) => destruct x
  | |- step_in _ _ => solve [eauto with barber nocore]
  end.
Ltac solve_step := repeat (step_step; cbn beta).

(** A failed transaction leaves the database as it was. *)
Lemma run_tx_err {D E A} `{!FromPg E} t (fn : uuid -> IO D E A) d e :
  det (fn t) → (run (WithTenantTx t fn) d).1 = Err e → (run (WithTenantTx t fn) d).2 = d.
Proof. intros Hd. rewrite run_tx by done. by destruct (run (fn t) d) as [[] ?]. Qed.

(** Run a statement. *)
Lemma run_stmt {D E A} `{!FromPg E} (f : D -> res pg_error (A * D)) d :
  run (D:=D) (E:=E) (stmt f) d
  = match f d with Ok (a, d') => (Ok a, d') | Err e => (Err (from_pg e), d) end.
Proof. unfold run, stmt; cbn. by destruct (f d) as [[]|]. Qed.

Lemma run_attempt {D E F A} (m : IO D F A) d :
  run (E:=E) (attempt m) d = (Ok (run m d).1, (run m d).2).
Proof. unfold run, attempt. by destruct (m [] d) as [? []]. Qed.

Lemma run_attempt_bind {D E F A B} (m : IO D F A) (k : res F A -> IO D E B) d :
  (m [] d).2.1 = [] →
  run (attempt m ≫= k) d = run (k (run m d).1) (run m d).2.
Proof.
  unfold run, attempt, mbind, io_mbind, io_bind. intros H.
  destruct (m [] d) as [r [fs d']]. cbn in *. by subst.
Qed.

Lemma run_ret {D E A} (a : A) (d : D) : run (E:=E) (mret a) d = (Ok a, d).
Proof. done. Qed.
Lemma run_fail {D E A} (e : E) (d : D) : run (A:=A) (io_fail e) d = (Err e, d).
Proof. done. Qed.

(** One step of a body that inspects an error. *)
Lemma attempt_bind {D E F A B} (m : IO D F A) (k : res F A -> IO D E B) fs d :
  (attempt m ≫= k) fs d = k (m fs d).1 (m fs d).2.1 (m fs d).2.2.
Proof. unfold attempt, mbind, io_mbind, io_bind. by destruct (m fs d) as [r [fs' d']]. Qed.

Lemma bind_eq {D E A B} (m : IO D E A) (k : A -> IO D E B) fs d :
  (m ≫= k) fs d = match m fs d with
                  | (Ok a, (fs', d')) => k a fs' d'
                  | (Err e, s) => (Err e, s)
                  end.
Proof. done. Qed.

Lemma ret_bind {D E A B} (a : A) (k : A -> IO D E B) fs d : (mret a ≫= k) fs d = k a fs d.
Proof. done. Qed.
Lemma fail_bind {D E A B} (e : E) (k : A -> IO D E B) fs d : (io_fail e ≫= k) fs d = (Err e, (fs, d)).
Proof. done. Qed.

(** ** Bodies that leave an empty script empty *)
Section Quiet.
Context {D E : Type}.

Definition quiet {A} (m : IO D E A) : Prop := ∀ d, (m [] d).2.1 = [].

Lemma quiet_ret {A} (a : A) : quiet (mret a).
Proof. done. Qed.
Lemma quiet_fail {A} (e : E) : quiet (A:=A) (io_fail e).
Proof. done. Qed.
Lemma quiet_lift {A} (r : res E A) : quiet (lift r).
Proof. done. Qed.
Lemma quiet_bind {A B} (m : IO D E A) (k : A -> IO D E B) :
  quiet m → (∀ a, quiet (k a)) → quiet (m ≫= k).
Proof.
  intros Hm Hk d. specialize (Hm d). rewrite bind_eq.
  destruct (m [] d) as [[a|e] [fs d']]; cbn in *; subst; [apply Hk|done].
Qed.
Lemma runq_bind {A B} (m : IO D E A) (k : A -> IO D E B) d :
  quiet m →
  run (m ≫= k) d = match run m d with (Ok a, d') => run (k a) d' | (Err e, d') => (Err e, d') end.
Proof.
  intros Hm. specialize (Hm d). unfold run. rewrite bind_eq.
  destruct (m [] d) as [[a|e] [fs d']]; cbn in *; by subst.
Qed.
Lemma det_quiet `{!FromPg E} {A} (m : IO D E A) : det m → quiet m.
Proof. by intros [H _]. Qed.
End Quiet.

Lemma quiet_attempt {D E F A} (m : IO D F A) : quiet m → quiet (attempt (E:=E) m).
Proof. intros Hm d. specialize (Hm d). unfold attempt. by destruct (m [] d) as [r [fs d']]. Qed.

#[export] Hint Resolve quiet_ret quiet_fail quiet_lift quiet_bind quiet_attempt det_quiet : barber.

(** ** Repository calls of the application layers *)

(** A repository call whose error is translated. *)
Definition calling {D E F A} (f : E -> F) (m : IO D E A) : IO D F A :=
  r ← attempt m; match r with Ok a => mret a | Err e => io_fail (f e) end.

Lemma run_calling {D E F A} (f : E -> F) (m : IO D E A) d :
  quiet m → run (calling f m) d = (map_err f (run m d).1, (run m d).2).
Proof.
  intros Hm. unfold calling. rewrite run_attempt_bind by apply Hm. by destruct (run m d) as [[] ?].
Qed.

Lemma step_in_calling {D E F A} (I : D -> D -> Prop) `{!PreOrder I} (f : E -> F) (m : IO D E A) :
  step_in I m → step_in I (calling f m).
Proof. intros Hm. unfold calling. solve_step. Qed.

Lemma quiet_calling {D E F A} (f : E -> F) (m : IO D E A) : quiet m → quiet (calling f m).
Proof.
  intros Hm. apply quiet_bind; [by apply quiet_attempt|]. intros []; [apply quiet_ret|apply quiet_fail].
Qed.

Lemma run_lift_bind {D E A B} (x : res E A) (k : A -> IO D E B) d :
  run (lift x ≫= k) d = match x with Ok a => run (k a) d | Err e => (Err e, d) end.
Proof. by destruct x. Qed.

Lemma quiet_tx {D E A} `{!FromPg E} t (fn : uuid -> IO D E A) : det (fn t) → quiet (WithTenantTx t fn).
Proof. intros Hd. by apply det_quiet, det_tx. Qed.

(** A transaction moves along [I] when its successful runs do. *)
Lemma step_in_tx_run {D E A} `{!FromPg E} (I : D -> D -> Prop) `{!Reflexive I} t (fn : uuid -> IO D E A) :
  det (fn t) → (∀ d a d', run (WithTenantTx t fn) d = (Ok a, d') → I d d') →
  step_in I (WithTenantTx t fn).
Proof.
  intros Hdet Hrun. apply (step_in_atomic (E:=E) I (FromPg0:=FromPg0)); [apply _|by apply atomic_tx|]. intros d.
  destruct (run (WithTenantTx t fn) d) as [[a|e] d'] eqn:E0; [by eapply Hrun|].
  pose proof (run_tx_err t fn d e Hdet) as He. rewrite E0 in He. cbn in *. rewrite He by done. reflexivity.
Qed.

(** ** Values of the database *)

(** The collation of a database, as the rank of a text. *)
Class Collation := name_rank : string -> Z.

Definition int4 (n : Z) : bool := (- 2 ^ 31 <=? n)%Z && (n <? 2 ^ 31)%Z.

(** ORDER BY a comparison of rows. *)
Definition sort_with {A} (le : A -> A -> bool) : list A -> list A :=
  merge_sort (λ x y, Is_true (le x y)) (H:=λ x y, Is_true_dec (le x y)).

(** ** Guarded changes *)

(** [guarded P I m]: [m] leaves the database alone or moves it along [I], and
    the latter only when [P]. *)
Definition guarded {D E A} (P : Prop) (I : D -> D -> Prop) (m : IO D E A) : Prop :=
  ∀ fs d, (m fs d).2.2 = d ∨ P ∧ I d (m fs d).2.2.

Section Guarded.
Context {D E : Type} (P : Prop) (I : D -> D -> Prop).

Lemma guarded_ret {A} (a : A) : guarded (E:=E) P I (mret a).
Proof. by left. Qed.
Lemma guarded_fail {A} (e : E) : guarded (A:=A) P I (io_fail e).
Proof. by left. Qed.
(** A check that returns an error when it refuses. *)
Lemma guarded_lift {A B} (x : res E A) (k : A -> IO D E B) :
  (∀ a, x = Ok a → guarded P I (k a)) → guarded P I (lift x ≫= k).
Proof. intros H fs d. rewrite bind_eq. unfold lift. destruct x as [a|e]; [by apply H|by left]. Qed.
Lemma guarded_step {A} (m : IO D E A) : P → step_in I m → guarded P I m.
Proof. intros HP Hm fs d. right. by split; [|apply Hm]. Qed.
Lemma guarded_reply {F A B} (m : IO D F A) (k : res F A -> B) :
  guarded P I m → guarded P I (r ← attempt m; mret (M:=IO D E) (k r)).
Proof. intros Hm fs d. rewrite attempt_bind. apply Hm. Qed.
End Guarded.
