(* ===== verification/GoTime.v ===== *)
(** * GoTime: the part of Go's [time] package the services use

    An instant ([time.Time] compared with [Before], [After], [Equal]) is a
    number of nanoseconds since the Unix epoch; the location a [time.Time]
    carries is passed separately to the operations that look at it.  A
    [time.Duration] is an int64 number of nanoseconds, and the multiplications
    that build one wrap around.  A civil date is the number of days since
    1970-01-01 that its year, month and day denote. *)
From S2P Require Import Prelude.

Local Open Scope Z_scope.

(** ** Machine integers *)

(** Wrap-around of a signed 64-bit integer. *)
Definition int64 (x : Z) : Z := (x + 2 ^ 63) mod 2 ^ 64 - 2 ^ 63.

Definition in_int64 (x : Z) : Prop := - 2 ^ 63 <= x < 2 ^ 63.

Lemma int64_id x : in_int64 x → int64 x = x.
Proof. unfold in_int64, int64. intros H. rewrite Z.mod_small; lia. Qed.

Lemma int64_range x : in_int64 (int64 x).
Proof.
  unfold in_int64, int64. pose proof (Z.mod_pos_bound (x + 2 ^ 63) (2 ^ 64)). lia.
Qed.

(** ** Instants and durations *)

Abbreviation time := Z (only parsing).
Abbreviation duration := Z (only parsing).

Definition Microsecond : duration := 1000.
Definition Second : duration := 1000000000.
Definition Minute : duration := 60 * Second.
Definition Hour : duration := 60 * Minute.
Definition Day : duration := 24 * Hour.

(** [time.Duration(n) * time.Minute] *)
Definition Minutes (n : Z) : duration := int64 (n * Minute).

Lemma Minutes_exact n : 0 <= n <= 2 ^ 26 → Minutes n = n * Minute.
Proof. intros H. apply int64_id. unfold in_int64, Minute, Second. lia. Qed.

Definition Before (a b : time) : bool := a <? b.
Definition After (a b : time) : bool := b <? a.
Definition Add (t : time) (d : duration) : time := t + d.

(** The zero [time.Time], 0001-01-01T00:00:00Z. *)
Definition zero_time : time := -719162 * Day.
Definition IsZero (t : time) : bool := t =? zero_time.

(** PostgreSQL's [timestamptz] keeps microseconds; pgx truncates. *)
Definition pg_ts (t : time) : time := t / Microsecond * Microsecond.

Lemma pg_ts_le t : pg_ts t <= t.
Proof. unfold pg_ts, Microsecond. pose proof (Z.mul_div_le t 1000). lia. Qed.

Lemma pg_ts_mono a b : a <= b → pg_ts a <= pg_ts b.
Proof.
  intros H. unfold pg_ts, Microsecond.
  pose proof (Z.div_le_mono a b 1000). lia.
Qed.

Lemma pg_ts_id t : (Microsecond | t) → pg_ts t = t.
Proof. intros [k ->]. unfold pg_ts, Microsecond. by rewrite Z.div_mul. Qed.

Lemma pg_ts_idem t : pg_ts (pg_ts t) = pg_ts t.
Proof. apply pg_ts_id. by exists (t / Microsecond). Qed.

(** ** Locations *)

(** A [time.Location]: the offset in force before the first transition, and
    the transitions with the offset (nanoseconds east of UTC) each starts. *)
Record Location := mkLocation {
  first_offset : Z;
  transitions : list (time * Z)
}.

Definition UTC : Location := mkLocation 0 [].

(** [Location.lookup]: the offset in force at an instant and the range of
    instants it is in force for ([None] is unbounded). *)
Fixpoint lookup_from (start : option time) (off : Z) (ts : list (time * Z)) (t : time)
  : Z * option time * option time :=
  match ts with
  | [] => (off, start, None)
  | (at_, off') :: ts' =>
      if t <? at_ then (off, start, Some at_) else lookup_from (Some at_) off' ts' t
  end.
Definition lookup (l : Location) (t : time) : Z * option time * option time :=
  lookup_from None (first_offset l) (transitions l) t.
Definition offset_at (l : Location) (t : time) : Z := (lookup l t).1.1.

Definition in_range (t : time) (start end_ : option time) : bool :=
  match start with Some s => s <=? t | None => true end
  && match end_ with Some e => t <? e | None => true end.

(** [time.Date(year, month, day, 0, 0, 0, 0, loc)] for the civil date [day]. *)
Definition Date (day : Z) (l : Location) : time :=
  let unix := day * Day in
  match lookup l unix with
  | (off, start, end_) =>
      if off =? 0 then unix
      else
        let utc := unix - off in
        if in_range utc start end_ then utc
        else unix - offset_at l utc
  end.

(** The civil date of an instant: [t.Year(), t.Month(), t.Day()]. *)
Definition civil (l : Location) (t : time) : Z := (t + offset_at l t) / Day.

(** [t.Weekday()]: 1970-01-01 was a Thursday. *)
Definition weekday_of (day : Z) : Z := (day + 4) mod 7.
Definition Weekday (l : Location) (t : time) : Z := weekday_of (civil l t).

(** [t.AddDate(0, 0, n)] of a local midnight. *)
Definition AddDays (l : Location) (t : time) (n : Z) : time := Date (civil l t + n) l.

Lemma weekday_range day : 0 <= weekday_of day <= 6.
Proof. unfold weekday_of. pose proof (Z.mod_pos_bound (day + 4) 7). lia. Qed.

Lemma civil_Date_UTC day : civil UTC (Date day UTC) = day.
Proof.
  unfold civil, Date, offset_at, UTC; cbn. rewrite Z.add_0_r. by rewrite Z.div_mul.
Qed.

(** In a location without transitions the civil date of a local midnight is
    the date it was built from. *)
Lemma civil_Date_fixed day off :
  civil (mkLocation off []) (Date day (mkLocation off [])) = day.
Proof.
  unfold civil, Date, offset_at; cbn. destruct (off =? 0) eqn:E; bsimpl.
  - apply Z.eqb_eq in E as ->. rewrite Z.add_0_r. by rewrite Z.div_mul.
  - rewrite Z.sub_add. by rewrite Z.div_mul.
Qed.

(** ** Parsing *)

Definition digit (c : ascii) : option Z :=
  let n := Z.of_nat (nat_of_ascii c) in
  if (48 <=? n) && (n <=? 57) then Some (n - 48) else None.

Definition digit_char (d : Z) : ascii := ascii_of_nat (Z.to_nat (48 + d)).

Lemma digit_digit_char d : 0 <= d <= 9 → digit (digit_char d) = Some d.
Proof.
  intros H. assert (d = 0 ∨ d = 1 ∨ d = 2 ∨ d = 3 ∨ d = 4 ∨ d = 5 ∨ d = 6 ∨ d = 7 ∨ d = 8 ∨ d = 9) as Hd by lia.
  repeat destruct Hd as [->|Hd]; try done. by subst.
Qed.

(** [getnum(s, fixed)]: one or two digits, exactly two when [fixed]. *)
Definition getnum (s : list ascii) (fixed : bool) : option (Z * list ascii) :=
  match s with
  | c0 :: s1 =>
      match digit c0 with
      | None => None
      | Some d0 =>
          match s1 with
          | c1 :: s2 =>
              match digit c1 with
              | Some d1 => Some (d0 * 10 + d1, s2)
              | None => if fixed then None else Some (d0, s1)
              end
          | [] => if fixed then None else Some (d0, s1)
          end
      end
  | [] => None
  end.

Definition skip (c : ascii) (s : list ascii) : option (list ascii) :=
  match s with c' :: s' => if c ==? c' then Some s' else None | [] => None end.

Definition colon : ascii := ":"%char.
Definition dash : ascii := "-"%char.

(** [time.Parse("15:04", v)]: the hour and the minute. *)
Definition parse_15_04 (v : string) : option (Z * Z) :=
  '(hour, s1) ← getnum (list_ascii_of_string v) false;
  if negb (hour <? 24) then None else
  s2 ← skip colon s1;
  '(minute, s3) ← getnum s2 true;
  if negb (minute <? 60) then None else
  match s3 with [] => Some (hour, minute) | _ => None end.

(** Four digits of a year. *)
Definition getyear (s : list ascii) : option (Z * list ascii) :=
  match s with
  | a :: b :: c :: d :: s' =>
      a' ← digit a; b' ← digit b; c' ← digit c; d' ← digit d;
      Some (a' * 1000 + b' * 100 + c' * 10 + d', s')
  | _ => None
  end.

Definition is_leap (y : Z) : bool :=
  (y mod 4 =? 0) && (negb (y mod 100 =? 0) || (y mod 400 =? 0)).

Definition daysIn (m y : Z) : Z :=
  if m =? 2 then (if is_leap y then 29 else 28)
  else if (m =? 4) || (m =? 6) || (m =? 9) || (m =? 11) then 30 else 31.

(** The day number of a civil date of the proleptic Gregorian calendar. *)
Definition days_from_civil (y m d : Z) : Z :=
  let y' := if m <=? 2 then y - 1 else y in
  let era := y' / 400 in
  let yoe := y' - era * 400 in
  let mp := (m + 9) mod 12 in
  let doy := (153 * mp + 2) / 5 + d - 1 in
  let doe := yoe * 365 + yoe / 4 - yoe / 100 + doy in
  era * 146097 + doe - 719468.

(** [time.Parse("2006-01-02", v)]: the day number; the instant is that day's
    midnight in UTC. *)
Definition parse_date (v : string) : option Z :=
  '(y, s1) ← getyear (list_ascii_of_string v);
  s2 ← skip dash s1;
  '(m, s3) ← getnum s2 true;
  if negb ((1 <=? m) && (m <=? 12)) then None else
  s4 ← skip dash s3;
  '(d, s5) ← getnum s4 true;
  match s5 with
  | [] => if (1 <=? d) && (d <=? daysIn m y) then Some (days_from_civil y m d) else None
  | _ => None
  end.

(** [fmt.Sprintf("%02d", n)] for the two-digit numbers it is used with; Go
    writes the whole decimal representation of larger ones. *)
Definition digits2 (n : Z) : list ascii :=
  [digit_char (n / 10); digit_char (n mod 10)].

Lemma getnum_digits2 n fixed s :
  0 <= n <= 99 → getnum (digits2 n ++ s) fixed = Some (n, s).
Proof.
  intros H. unfold digits2; cbn -[digit digit_char Z.div Z.modulo].
  rewrite !digit_digit_char.
  - do 2 f_equal. pose proof (Z.div_mod n 10). lia.
  - pose proof (Z.mod_pos_bound n 10). lia.
  - split; [apply Z.div_pos; lia|]. assert (n / 10 < 10) by (apply Z.div_lt_upper_bound; lia). lia.
Qed.

(** The bounds of what [getnum] can return. *)
Lemma digit_bounds c d : digit c = Some d → 0 <= d <= 9.
Proof. unfold digit. intros H. split_match_in H; simplify_eq. bsimpl. lia. Qed.

Lemma getnum_bounds s fixed n s' : getnum s fixed = Some (n, s') → 0 <= n <= 99.
Proof.
  unfold getnum. intros H. split_match_in H; simplify_eq;
  repeat match goal with H : digit _ = Some _ |- _ => apply digit_bounds in H end; lia.
Qed.

(** ** Formatting a date *)

(** Year, month and day of a day number, by the cascade of 400-, 100-, 4- and
    1-year cycles of a year that starts in March. *)
Definition civil_from_days (day : Z) : Z * Z * Z :=
  let z := day + 719468 in
  let era := z / 146097 in
  let doe := z mod 146097 in
  let c := Z.min (doe / 36524) 3 in
  let r1 := doe - 36524 * c in
  let q := r1 / 1461 in
  let r2 := r1 - 1461 * q in
  let a := Z.min (r2 / 365) 3 in
  let doy := r2 - 365 * a in
  let mp := (5 * doy + 2) / 153 in
  let d := doy - (153 * mp + 2) / 5 + 1 in
  let m := if mp <? 10 then mp + 3 else mp - 9 in
  (era * 400 + (100 * c + 4 * q + a) + (if m <=? 2 then 1 else 0), m, d).

Definition digits4 (n : Z) : list ascii := digits2 (n / 100) ++ digits2 (n mod 100).

(** [t.Format("2006-01-02")] for a date of the years 0 to 9999. *)
Definition format_date (day : Z) : string :=
  match civil_from_days day with
  | (y, m, d) => string_of_list_ascii (digits4 y ++ dash :: digits2 m ++ dash :: digits2 d)
  end.

(** The March-based day of the year determines month and day. *)
Definition doy_ok (doy : Z) : bool :=
  let mp := (5 * doy + 2) / 153 in
  let d := doy - (153 * mp + 2) / 5 + 1 in
  let m := if mp <? 10 then mp + 3 else mp - 9 in
  (1 <=? m) && (m <=? 12) && (1 <=? d) && (d <=? (if m =? 2 then (if doy =? 365 then 29 else 28) else daysIn m 0))
  && ((m + 9) mod 12 =? mp) && ((153 * mp + 2) / 5 + d - 1 =? doy).

Lemma doy_ok_all doy : 0 <= doy <= 365 → doy_ok doy = true.
Proof.
  intros H. assert (forallb doy_ok (map Z.of_nat (seq 0 366)) = true) as Hall by (vm_compute; reflexivity).
  rewrite forallb_forall in Hall. apply Hall. apply in_map_iff. exists (Z.to_nat doy).
  split; [lia|]. apply in_seq. lia.
Qed.

Lemma civil_from_days_spec day y m d :
  civil_from_days day = (y, m, d) →
  1 <= m <= 12 ∧ 1 <= d <= daysIn m y ∧ days_from_civil y m d = day.
Proof.
  unfold civil_from_days. set (z := day + 719468).
  set (era := z / 146097). set (doe := z mod 146097).
  set (c := Z.min (doe / 36524) 3). set (r1 := doe - 36524 * c). set (q := r1 / 1461).
  set (r2 := r1 - 1461 * q). set (a := Z.min (r2 / 365) 3). set (doy := r2 - 365 * a).
  set (yoe := 100 * c + 4 * q + a).
  assert (0 <= doe < 146097 ∧ z = era * 146097 + doe) as [Hdoe Hz].
  { pose proof (Z.div_mod z 146097). pose proof (Z.mod_pos_bound z 146097). unfold era, doe. lia. }
  assert (0 <= c <= 3 ∧ 0 <= r1 <= 36524 ∧ (c < 3 → r1 < 36524)) as (Hc & Hr1 & Hr1').
  { unfold r1, c. pose proof (Z.div_mod doe 36524). pose proof (Z.mod_pos_bound doe 36524). lia. }
  assert (0 <= q <= 24 ∧ 0 <= r2 <= 1460) as (Hq & Hr2).
  { unfold r2, q. pose proof (Z.div_mod r1 1461). pose proof (Z.mod_pos_bound r1 1461). lia. }
  assert (0 <= a <= 3 ∧ 0 <= doy <= 365 ∧ (doy = 365 → a = 3 ∧ r2 = 1460)) as (Ha & Hdoy & Hleap).
  { unfold doy, a. pose proof (Z.div_mod r2 365). pose proof (Z.mod_pos_bound r2 365). lia. }
  assert (yoe / 4 = 25 * c + q ∧ yoe / 100 = c ∧ 0 <= yoe < 400) as (Hy4 & Hy100 & Hyoe).
  { split; [symmetry; apply (Z.div_unique _ _ _ a); unfold yoe; lia|].
    split; [symmetry; apply (Z.div_unique _ _ _ (4 * q + a)); unfold yoe; lia|unfold yoe; lia]. }
  assert (365 * yoe + yoe / 4 - yoe / 100 + doy = doe) as Hsum
    by (rewrite Hy4, Hy100; unfold yoe, doy, r2, r1; lia).
  pose proof (doy_ok_all doy Hdoy) as Hok. unfold doy_ok in Hok.
  set (mp := (5 * doy + 2) / 153) in *. set (dd := doy - (153 * mp + 2) / 5 + 1) in *.
  set (mm := if mp <? 10 then mp + 3 else mp - 9) in *. bsimpl. zeqs.
  intros [= <- <- <-]. set (y0 := era * 400 + yoe + (if mm <=? 2 then 1 else 0)).
  split; [lia|]. split; [split; [lia|]|].
  - unfold daysIn in *. destruct (mm =? 2) eqn:E2; zeqs; [|lia].
    destruct (doy =? 365) eqn:Ed; zeqs; [|split_match; lia].
    replace (is_leap y0) with true; [lia|]. symmetry. destruct (Hleap Ed) as [Ha3 Hr].
    assert (y0 = era * 400 + yoe + 1) as Ey by (unfold y0; rewrite E2; done).
    unfold is_leap. rewrite Ey.
    assert ((era * 400 + yoe + 1) mod 4 = 0) as -> by (symmetry; apply (Z.mod_unique _ _ (era * 100 + 25 * c + q + 1)); unfold yoe; lia).
    cbn [Z.eqb andb]. destruct (Z.eq_dec q 24) as [Eq|Eq].
    + assert (c = 3) as Ec by (unfold r2 in Hr; lia).
      assert ((era * 400 + yoe + 1) mod 400 = 0) as -> by (symmetry; apply (Z.mod_unique _ _ (era + 1)); unfold yoe; lia).
      by rewrite orb_true_r.
    + assert ((era * 400 + yoe + 1) mod 100 = 4 * q + 4) as -> by (symmetry; apply (Z.mod_unique _ _ (era * 4 + c)); unfold yoe; lia).
      destruct (Z.eqb_spec (4 * q + 4) 0); [lia|done].
  - unfold days_from_civil. assert ((if mm <=? 2 then y0 - 1 else y0) = era * 400 + yoe) as ->
      by (unfold y0; destruct (mm <=? 2); lia).
    assert ((era * 400 + yoe) / 400 = era) as -> by (symmetry; apply (Z.div_unique _ _ _ yoe); lia).
    replace (era * 400 + yoe - era * 400) with yoe by lia.
    repeat match goal with H : (mm + 9) mod 12 = mp |- _ => rewrite H end. lia.
Qed.

Lemma getyear_digits4 n s : 0 <= n <= 9999 → getyear (digits4 n ++ s) = Some (n, s).
Proof.
  intros H. assert (0 <= n / 100 <= 99) by (split; [apply Z.div_pos; lia|];
    assert (n / 100 < 100) by (apply Z.div_lt_upper_bound; lia); lia).
  pose proof (Z.mod_pos_bound n 100 ltac:(lia)) as Hm. pose proof (Z.div_mod n 100 ltac:(lia)) as Hn.
  unfold digits4, digits2. cbn -[digit digit_char Z.div Z.modulo].
  assert (∀ x, 0 <= x <= 99 → 0 <= x / 10 <= 9 ∧ 0 <= x mod 10 <= 9 ∧ x = 10 * (x / 10) + x mod 10) as Hx.
  { intros x Hx. pose proof (Z.div_mod x 10). pose proof (Z.mod_pos_bound x 10). lia. }
  destruct (Hx (n / 100)) as (? & ? & ?); [lia|]. destruct (Hx (n mod 100)) as (? & ? & ?); [lia|].
  rewrite !digit_digit_char by lia. cbn [mbind option_bind]. do 2 f_equal. lia.
Qed.

(** A formatted date parses back. *)
Lemma parse_format_date day :
  0 <= (civil_from_days day).1.1 <= 9999 → parse_date (format_date day) = Some day.
Proof.
  unfold format_date. destruct (civil_from_days day) as [[y m] d] eqn:E. cbn [fst]. intros Hy.
  apply civil_from_days_spec in E as (Hm & Hd & Hday).
  assert (daysIn m y <= 31) by (unfold daysIn; split_match; lia).
  unfold parse_date. rewrite list_ascii_of_string_of_list_ascii. rewrite getyear_digits4 by lia.
  cbn [mbind option_bind skip]. rewrite bool_decide_refl. cbn [mbind option_bind].
  rewrite getnum_digits2 by lia. cbn [mbind option_bind].
  replace ((1 <=? m) && (m <=? 12)) with true by lia. cbn [negb skip mbind option_bind].
  rewrite bool_decide_refl. cbn [mbind option_bind].
  rewrite <- (app_nil_r (digits2 d)), getnum_digits2 by lia. cbn [mbind option_bind].
  replace ((1 <=? d) && (d <=? daysIn m y)) with true by lia. by rewrite Hday.
Qed.
