(* ===== verification/Http.v ===== *)
(** * Http: requests, replies and the platform's trust boundary

    The pieces of [src/platform] every service handler goes through: the
    internal-token verifiers ([internalauth], [platformauth]), the tenant
    context ([tenantctx]), and the admin session client and role tables
    ([adminauth]).  Library functions that are not modelled are the fields of
    [GoLib]. *)
From S2P Require Import Prelude GoTime.

Local Open Scope Z_scope.

(** ** Library functions whose tables or algorithms are not modelled *)

Class GoLib := mkGoLib {
  uuid_Parse : string -> option uuid;
  uuid_String : uuid -> string;
  ToLower : string -> string;
  (** [mail.ParseAddress(s).Address] *)
  ParseAddress : string -> option string;
  (** [hex.EncodeToString(sha256.Sum256(s))] *)
  sha256_hex : string -> string;
  (** [json.Marshal] of a struct of strings *)
  json_strings : list string -> string;
  (** [t.UTC().Format(time.RFC3339Nano)] *)
  format_nano : time -> string;
  (** [time.LoadLocation] *)
  LoadLocation : string -> option Location
}.

(** Documented laws, for the theorems that need them. *)
Class GoLibLaws `{GoLib} := {
  uuid_Parse_String : ∀ u, uuid_Parse (uuid_String u) = Some u
}.

(** ** Strings *)

Definition byte_of (c : ascii) : Z := Z.of_nat (nat_of_ascii c).

(** The length of the white-space character a list of bytes starts with, 0 if
    it starts with none: the ASCII spaces and the UTF-8 encodings of
    U+0085, U+00A0, U+1680, U+2000-200A, U+2028, U+2029, U+202F, U+205F and
    U+3000. *)
Definition space_len (l : list Z) : nat :=
  match l with
  | [] => 0%nat
  | b0 :: l1 =>
      if ((9 <=? b0) && (b0 <=? 13)) || (b0 =? 32) then 1%nat
      else
        match l1 with
        | [] => 0%nat
        | b1 :: l2 =>
            if (b0 =? 194) && ((b1 =? 133) || (b1 =? 160)) then 2%nat
            else
              match l2 with
              | [] => 0%nat
              | b2 :: _ =>
                  if ((b0 =? 225) && (b1 =? 154) && (b2 =? 128))
                     || ((b0 =? 226) && (b1 =? 128)
                         && (((128 <=? b2) && (b2 <=? 138)) || (b2 =? 168) || (b2 =? 169) || (b2 =? 175)))
                     || ((b0 =? 226) && (b1 =? 129) && (b2 =? 159))
                     || ((b0 =? 227) && (b1 =? 128) && (b2 =? 128))
                  then 3%nat else 0%nat
              end
        end
  end.

(** The same at the end, on the reversed bytes. *)
Definition rspace_len (l : list Z) : nat :=
  match l with
  | [] => 0%nat
  | b0 :: l1 =>
      if (0 <? space_len [b0])%nat then 1%nat
      else match l1 with
           | [] => 0%nat
           | b1 :: l2 =>
               if (0 <? space_len [b1; b0])%nat then 2%nat
               else match l2 with
                    | [] => 0%nat
                    | b2 :: _ => if (0 <? space_len [b2; b1; b0])%nat then 3%nat else 0%nat
                    end
           end
  end.

Fixpoint trim (len : list Z -> nat) (fuel : nat) (l : list ascii) : list ascii :=
  match fuel with
  | O => l
  | S fuel' =>
      match len (map byte_of l) with
      | O => l
      | n => trim len fuel' (drop n l)
      end
  end.

(** [strings.TrimSpace] *)
Definition TrimSpace (s : string) : string :=
  let l := list_ascii_of_string s in
  let l1 := trim space_len (length l) l in
  string_of_list_ascii (rev (trim rspace_len (length l1) (rev l1))).

(** [strings.TrimSuffix(s, ".")] *)
Fixpoint TrimSuffixDot (s : string) : string :=
  match s with
  | EmptyString => EmptyString
  | String c EmptyString => if c ==? "."%char then EmptyString else s
  | String c s' => String c (TrimSuffixDot s')
  end.

(** [strings.HasSuffix(s, suffix)] *)
Fixpoint HasSuffix (s suffix : string) : bool :=
  (s ==? suffix) || match s with EmptyString => false | String _ s' => HasSuffix s' suffix end.

(** [strings.TrimSuffix(s, suffix)]: the suffix can start at one place only. *)
Fixpoint TrimSuffix (s suffix : string) : string :=
  if s ==? suffix then EmptyString
  else match s with EmptyString => EmptyString | String c s' => String c (TrimSuffix s' suffix) end.

Lemma string_app_assoc (a b c : string) : ((a +:+ b) +:+ c = a +:+ (b +:+ c))%string.
Proof. induction a as [|x a IH]; [done|]. change (String x ((a +:+ b) +:+ c) = String x (a +:+ (b +:+ c)))%string. by rewrite IH. Qed.

Lemma string_app_nil (a : string) : (a +:+ "" = a)%string.
Proof. induction a as [|x a IH]; [done|]. change (String x (a +:+ "") = String x a)%string. by rewrite IH. Qed.

Lemma TrimSuffix_app s suffix : HasSuffix s suffix = true → TrimSuffix s suffix +:+ suffix = s.
Proof.
  induction s as [|c s IH]; cbn; case_bool_decide as E; intros Hs; try done.
  change (String c (TrimSuffix s suffix +:+ suffix) = String c s). f_equal. by apply IH.
Qed.

(** [strings.Split(s, sep)] for a separator of one byte. *)
Fixpoint Split (sep : ascii) (s : string) : list string :=
  match s with
  | EmptyString => [EmptyString]
  | String c s' =>
      if c ==? sep then EmptyString :: Split sep s'
      else match Split sep s' with
           | [] => [String c EmptyString]
           | label :: rest => String c label :: rest
           end
  end.

(** [strings.Join(parts, sep)] *)
Fixpoint Join (sep : ascii) (parts : list string) : string :=
  match parts with
  | [] => EmptyString
  | [s] => s
  | s :: rest => s +:+ String sep (Join sep rest)
  end.

(** The text contains the character. *)
Fixpoint has_char (x : ascii) (s : string) : bool :=
  match s with EmptyString => false | String c s' => (c ==? x) || has_char x s' end.

Lemma has_char_app x a b : has_char x (a +:+ b) = has_char x a || has_char x b.
Proof. induction a as [|c a IH]; [done|]. change (has_char x (String c a +:+ b)) with ((c ==? x) || has_char x (a +:+ b)). cbn. by rewrite IH, orb_assoc. Qed.

Lemma Split_cons sep s : ∃ label rest, Split sep s = label :: rest.
Proof.
  destruct s as [|c s]; cbn; [by eexists _, _|]. destruct (c ==? sep); [by eexists _, _|].
  destruct (Split sep s); by eexists _, _.
Qed.

Lemma Split_none sep s : has_char sep s = false → Split sep s = [s].
Proof.
  induction s as [|c s IH]; cbn; [done|]. intros Hs. apply orb_false_iff in Hs as [Hc Hs]. by rewrite Hc, (IH Hs).
Qed.

Lemma Split_char_free sep s : Forall (λ label, has_char sep label = false) (Split sep s).
Proof.
  induction s as [|c s IH]; cbn; [by constructor|]. destruct (c ==? sep) eqn:Hc; [by constructor|].
  destruct (Split_cons sep s) as (label & rest & E). rewrite E in *. apply Forall_cons in IH as [Hl Hr].
  constructor; [|done]. cbn. by rewrite Hc.
Qed.

(** The text before the first separator, and what follows. *)
Lemma Split_app sep a b :
  has_char sep a = false →
  ∀ label rest, Split sep b = label :: rest → Split sep (a +:+ b) = (a +:+ label) :: rest.
Proof.
  intros Ha label rest E. induction a as [|c a IH]; [done|]. cbn in Ha. apply orb_false_iff in Ha as [Hc Ha].
  change (String c a +:+ b) with (String c (a +:+ b)). cbn [Split]. by rewrite Hc, (IH Ha).
Qed.

Lemma Split_Join sep l :
  l ≠ [] → Forall (λ s, has_char sep s = false) l → Split sep (Join sep l) = l.
Proof.
  intros Hne Hl. induction Hl as [|s l Hs Hl IH]; [done|]. destruct l as [|s' l]; cbn [Join].
  - by apply Split_none.
  - rewrite (Split_app sep s _ Hs EmptyString (s' :: l)); [by rewrite string_app_nil|].
    cbn [Split]. rewrite bool_decide_refl. f_equal. by apply IH.
Qed.

(** The number of runes of a text that is valid UTF-8, as decoded JSON is; also
    PostgreSQL's [char_length]. *)
Definition rune_count (s : string) : Z :=
  Z.of_nat (length (List.filter (λ c, negb ((128 <=? byte_of c) && (byte_of c <? 192))) (list_ascii_of_string s))).

(** [strconv.Atoi]: an optional sign and decimal digits that fit an int. *)
Fixpoint atoi_digits (acc : Z) (l : list ascii) : option Z :=
  match l with
  | [] => Some acc
  | c :: l' => match digit c with Some d => atoi_digits (acc * 10 + d) l' | None => None end
  end.
Definition Atoi (s : string) : option Z :=
  let (neg, ds) := match list_ascii_of_string s with
                   | "-"%char :: ds => (true, ds)
                   | "+"%char :: ds => (false, ds)
                   | ds => (false, ds)
                   end in
  match ds with
  | [] => None
  | _ =>
      match atoi_digits 0 ds with
      | None => None
      | Some n =>
          let v := if neg then - n else n in
          if (- 2 ^ 63 <=? v) && (v <? 2 ^ 63) then Some v else None
      end
  end.

(** ** Requests and replies *)

(** What a handler reads of a request; [c.Get] of an absent header is the
    empty string, [Body] is [None] when [json.Unmarshal] fails. *)
Record Request (B : Type) := mkRequest {
  Method : string;
  Header : string -> string;
  Params : string -> string;
  Query : string -> string;
  Body : option B
}.
Arguments mkRequest {B} Method Header Params Query Body.
Arguments Method {B} r.
Arguments Header {B} r.
Arguments Params {B} r.
Arguments Query {B} r.
Arguments Body {B} r.

Inductive Response (A : Type) :=
| SendStatus (status : Z)
| SendError (status : Z) (code : string)
| SendJSON (status : Z) (body : A).
Arguments SendStatus {A} status.
Arguments SendError {A} status code.
Arguments SendJSON {A} status body.

Definition status_of {A} (r : Response A) : Z :=
  match r with SendStatus s | SendError s _ | SendJSON s _ => s end.

(** A request one service sends to another, and how the exchange ends. *)
Inductive query_value := QText (s : string) | QTime (t : time) | QDate (day : Z).

Record Outgoing := mkOutgoing {
  out_path : list string;
  out_query : list (string * query_value);
  out_token : string;
  out_tenant : string;
  out_app : string;
  out_request_id : string;
  out_cookie : string
}.

Inductive exchange (A : Type) :=
| BuildFailed
| TransportFailed
| Replied (status : Z) (body : option A).
Arguments BuildFailed {A}.
Arguments TransportFailed {A}.
Arguments Replied {A} status body.

Definition is_2xx (status : Z) : bool := (200 <=? status) && (status <=? 299).

(** ** [internalauth] and [platformauth] *)

(** [subtle.ConstantTimeCompare(a, b) = 1] *)
Definition ConstantTimeCompare (a b : string) : bool := a ==? b.

(** A verifier of presented tokens. *)
Class Verifier (V : Type) := Verify : V -> string -> bool.

Record TokenVerifier := NewTokenVerifier { TokenVerifier_expected : string }.
Definition TokenVerifier_Verify (v : TokenVerifier) (presented : string) : bool :=
  negb ((TokenVerifier_expected v ==? EmptyString) || (presented ==? EmptyString)
        || negb (ConstantTimeCompare (TokenVerifier_expected v) presented)).
#[export] Instance TokenVerifier_verifier : Verifier TokenVerifier := TokenVerifier_Verify.

Record MultiTokenVerifier := mkMultiTokenVerifier { MultiTokenVerifier_expected : list string }.
Definition NewMultiTokenVerifier (expected : list string) : MultiTokenVerifier :=
  mkMultiTokenVerifier (List.filter (λ token, token !=? EmptyString) expected).
Definition MultiTokenVerifier_Verify (v : MultiTokenVerifier) (presented : string) : bool :=
  if presented ==? EmptyString then false
  else existsb (λ expected, ConstantTimeCompare expected presented) (MultiTokenVerifier_expected v).
#[export] Instance MultiTokenVerifier_verifier : Verifier MultiTokenVerifier :=
  MultiTokenVerifier_Verify.

(** [platformauth.TokenVerifier] *)
Record PlatformVerifier := NewPlatformVerifier { PlatformVerifier_expected : string }.
Definition PlatformVerifier_Verify (v : PlatformVerifier) (presented : string) : bool :=
  negb ((PlatformVerifier_expected v ==? EmptyString) || (presented ==? EmptyString)
        || negb (ConstantTimeCompare (PlatformVerifier_expected v) presented)).
#[export] Instance PlatformVerifier_verifier : Verifier PlatformVerifier := PlatformVerifier_Verify.

(** ** [tenantctx] *)

Definition InternalTokenHeader : string := "X-Internal-Token".
Definition TenantIDHeader : string := "X-Tenant-ID".
Definition AppTypeHeader : string := "X-App-Type".
Definition RequestIDHeader : string := "X-Request-ID".

Record TenantContext := mkTenantContext { TenantID : uuid; AppType : string; RequestID_ : string }.

Section Trust.
Context `{GoLib}.

Definition tenantctx_New (tenantID appType requestID : string) : option TenantContext :=
  match uuid_Parse tenantID with
  | None => None
  | Some id =>
      if (appType !=? "booking"%string) && (appType !=? "admin"%string) then None
      else Some (mkTenantContext id appType requestID)
  end.

(** The headers every internal client sets. *)
Definition outgoing (path : list string) (query : list (string * query_value)) (token : string)
    (t : TenantContext) (cookie : string) : Outgoing :=
  mkOutgoing path query token (uuid_String (TenantID t)) (AppType t) (RequestID_ t) cookie.

(** ** [adminauth] *)

Definition adminauth_Context {V B} `{Verifier V} (r : Request B) (verifier : V)
  : option TenantContext :=
  if negb (Verify verifier (Header r InternalTokenHeader)) then None
  else tenantctx_New (Header r TenantIDHeader) (Header r AppTypeHeader) (Header r RequestIDHeader).

Record AdminPrincipal := mkAdminPrincipal {
  AdminPrincipal_Role : string;
  AdminPrincipal_TenantID : string;
  AdminPrincipal_IdentityID : uuid;
  AdminPrincipal_MustChangePassword : bool
}.

(** [Client.Authenticate]; [send] is the exchange with the auth service. *)
Definition Authenticate (token : string) (send : Outgoing -> exchange AdminPrincipal)
    (tenant : TenantContext) (cookie : string) : option AdminPrincipal :=
  if (AppType tenant !=? "admin"%string) || (cookie ==? EmptyString) then None
  else
    match send (outgoing ["internal"; "v1"; "auth"; "me"] [] token tenant cookie) with
    | Replied 200 (Some principal) =>
        if AdminPrincipal_TenantID principal !=? uuid_String (TenantID tenant) then None
        else if AdminPrincipal_MustChangePassword principal then None
        else Some principal
    | _ => None
    end.

Inductive membership_error := MembershipInvalid | ErrBarberMembershipIneligible | MembershipFailed.

Definition EnsureBarberMembership (token : string) (send : Outgoing -> exchange unit)
    (tenant : TenantContext) (identityID : uuid) : res membership_error unit :=
  if (AppType tenant !=? "admin"%string) || (identityID ==? uuid_Nil) then Err MembershipInvalid
  else
    match send (outgoing ["internal"; "v1"; "auth"; "members"; uuid_String identityID;
                          "barber-eligibility"] [] token tenant EmptyString) with
    | Replied status _ =>
        if status =? 204 then Ok tt
        else if status =? 404 then Err ErrBarberMembershipIneligible
        else Err MembershipFailed
    | _ => Err MembershipFailed
    end.
End Trust.

Definition CanManageMembers (role : string) : bool := role ==? "OWNER"%string.
Definition CanManageTenantSettings (role : string) : bool :=
  (role ==? "OWNER"%string) || (role ==? "MANAGER"%string).
Definition CanWrite (role : string) : bool :=
  (role ==? "OWNER"%string) || (role ==? "MANAGER"%string).
Definition CanRead (role : string) : bool :=
  (role ==? "OWNER"%string) || (role ==? "MANAGER"%string) || (role ==? "BARBER"%string)
  || (role ==? "RECEPTIONIST"%string).

(** ** A concrete library, for the witnesses *)

Fixpoint pos_digits (p : positive) : string :=
  match p with
  | xH => "1"
  | xO p' => String "0" (pos_digits p')
  | xI p' => String "1" (pos_digits p')
  end.
Definition digits_of (u : uuid) : string :=
  match u with N0 => "nil" | Npos p => pos_digits p end.

Fixpoint parse_pos (s : string) : option positive :=
  match s with
  | String c s' =>
      match s' with
      | EmptyString => if c ==? "1"%char then Some xH else None
      | _ =>
          match parse_pos s' with
          | None => None
          | Some p => if c ==? "0"%char then Some (xO p) else if c ==? "1"%char then Some (xI p) else None
          end
      end
  | EmptyString => None
  end.
Definition parse_digits (s : string) : option uuid :=
  if s ==? "nil"%string then Some 0%N
  else match parse_pos s with Some p => Some (Npos p) | None => None end.

Lemma pos_digits_nonempty p : pos_digits p ≠ EmptyString.
Proof. by destruct p. Qed.

Lemma parse_pos_digits p : parse_pos (pos_digits p) = Some p.
Proof.
  induction p as [p IH|p IH|]; cbn; [..|done]; pose proof (pos_digits_nonempty p);
    destruct (pos_digits p); try done; by rewrite IH.
Qed.

Lemma parse_digits_of u : parse_digits (digits_of u) = Some u.
Proof.
  destruct u as [|p]; [done|]. unfold parse_digits, digits_of.
  rewrite bool_decide_false; [by rewrite parse_pos_digits|]. by destruct p.
Qed.

Fixpoint ascii_lower (s : string) : string :=
  match s with
  | EmptyString => EmptyString
  | String c s' =>
      String (if (65 <=? byte_of c) && (byte_of c <=? 90) then ascii_of_nat (Z.to_nat (byte_of c + 32)) else c)
        (ascii_lower s')
  end.

Definition test_digest : string :=
  "00000000000000000000000000000000000000000000000000000000000000aa".

Definition TestLib : GoLib :=
  mkGoLib parse_digits digits_of ascii_lower
    (λ s, if s ==? EmptyString then None else Some s)
    (λ _, test_digest) (foldr (λ a b, a +:+ b) EmptyString) (λ _, EmptyString)
    (λ _, Some UTC).

Lemma TestLib_laws : @GoLibLaws TestLib.
Proof. split. apply parse_digits_of. Qed.
