(* ===== verification/Platform.v ===== *)
(** * Platform: shared adapters of [src/platform]

    The private REST clients ([schedulingdeps], [tenantsettings],
    [barberclient]), the mail senders and the synchronous retry ([email]), the fixed-window
    rate limit ([ratelimit]), the request-id middleware ([httpx]) and the
    configuration check ([config]). *)
From S2P Require Import Prelude GoTime Http.

Local Open Scope Z_scope.

(** ** [schedulingdeps] *)

Record Service := mkService {
  DurationMinutes : Z;
  BufferBeforeMinutes : Z;
  BufferAfterMinutes : Z
}.
Record Barber := mkBarber { Barber_IdentityID : option uuid }.
Record TenantSettings := mkTenantSettings {
  Timezone : string;
  BookingIntervalMinutes : Z;
  CancellationPolicy : string;
  CancellationNoticeMinutes : Z
}.

Inductive dep_error := DepNotFound | DepFailed.

(** The JSON document of the tenant service's public configuration. *)
Record PublicConfig := mkPublicConfig {
  business_timezone : string;
  booking_interval_minutes : Z;
  cancellation_policy : string;
  cancellation_notice_minutes : Z
}.

Section Clients.
Context `{GoLib}.

(** [Client.request] with a body to decode. *)
Definition dep_request {A} (token : string) (send : Outgoing -> exchange A)
    (tenant : TenantContext) (path : list string) : res dep_error A :=
  match send (outgoing path [] token tenant EmptyString) with
  | Replied status body =>
      if status =? 404 then Err DepNotFound
      else if (status <? 200) || (300 <=? status) then Err DepFailed
      else match body with Some b => Ok b | None => Err DepFailed end
  | _ => Err DepFailed
  end.

(** [Client.request] with [out = nil]: the body is not read. *)
Definition dep_request_nil {A} (token : string) (send : Outgoing -> exchange A)
    (tenant : TenantContext) (path : list string) : res dep_error unit :=
  match send (outgoing path [] token tenant EmptyString) with
  | Replied status _ =>
      if status =? 404 then Err DepNotFound
      else if (status <? 200) || (300 <=? status) then Err DepFailed
      else Ok tt
  | _ => Err DepFailed
  end.

Definition schedulingdeps_Barber (token : string) (send : Outgoing -> exchange Barber)
    (t : TenantContext) (id : uuid) : res dep_error Barber :=
  dep_request token send t ["internal"; "v1"; "barbers"; uuid_String id; "scheduling-access"].

Definition schedulingdeps_BranchBarber {A} (token : string) (send : Outgoing -> exchange A)
    (t : TenantContext) (branchID barberID : uuid) : res dep_error unit :=
  dep_request_nil token send t
    ["internal"; "v1"; "branches"; uuid_String branchID; "barbers"; uuid_String barberID;
     "booking-access"].

Definition schedulingdeps_Service (token : string) (send : Outgoing -> exchange Service)
    (t : TenantContext) (b s : uuid) : res dep_error Service :=
  dep_request token send t
    ["internal"; "v1"; "barbers"; uuid_String b; "services"; uuid_String s; "availability"].

Definition schedulingdeps_Settings (token : string) (send : Outgoing -> exchange PublicConfig)
    (t : TenantContext) : res dep_error TenantSettings :=
  match dep_request token send t ["internal"; "v1"; "public"; "config"] with
  | Ok v => Ok (mkTenantSettings (business_timezone v) (booking_interval_minutes v)
                  (cancellation_policy v) (cancellation_notice_minutes v))
  | Err e => Err e
  end.

(** ** [tenantsettings] *)

Record ReminderSettings := mkReminderSettings {
  RS_Timezone : string;
  RS_BookingIntervalMinutes : Z;
  RS_ReminderOffsetsMinutes : list Z
}.

Inductive settings_error :=
  SettingsNotConfigured | SettingsFailed | SettingsEmptyOffsets | SettingsInvalidOffset.

Definition tenantsettings_Settings (baseURL token : string)
    (send : Outgoing -> exchange ReminderSettings) (tenant : TenantContext)
  : res settings_error ReminderSettings :=
  if (baseURL ==? EmptyString) || (token ==? EmptyString) || (TenantID tenant ==? uuid_Nil)
  then Err SettingsNotConfigured
  else
    match send (outgoing ["internal"; "v1"; "settings"] [] token tenant EmptyString) with
    | Replied status body =>
        if (status <? 200) || (300 <=? status) then Err SettingsFailed
        else match body with Some s => Ok s | None => Err SettingsFailed end
    | _ => Err SettingsFailed
    end.

(** The loop over the offsets. *)
Fixpoint offsets_loop (minutes : list Z) : res settings_error (list duration) :=
  match minutes with
  | [] => Ok []
  | m :: rest =>
      if m <=? 0 then Err SettingsInvalidOffset
      else match offsets_loop rest with
           | Ok ds => Ok (Minutes m :: ds)
           | Err e => Err e
           end
  end.

Definition ReminderOffsets (baseURL token : string)
    (send : Outgoing -> exchange ReminderSettings) (tenantID : uuid)
  : res settings_error (list duration) :=
  match tenantsettings_Settings baseURL token send (mkTenantContext tenantID "booking" EmptyString) with
  | Err e => Err e
  | Ok s =>
      match RS_ReminderOffsetsMinutes s with
      | [] => Err SettingsEmptyOffsets
      | ms => offsets_loop ms
      end
  end.

(** ** [barberclient] *)

Inductive barber_error := BarberInvalid | BarberNotFound | BarberFailed.

Definition EnsureExists (token : string) (send : Outgoing -> exchange unit)
    (tenant : TenantContext) (barberID : uuid) : res barber_error unit :=
  if (AppType tenant !=? "admin"%string) || (barberID ==? uuid_Nil) then Err BarberInvalid
  else
    match send (outgoing ["internal"; "v1"; "barbers"; uuid_String barberID; "exists"] []
                  token tenant EmptyString) with
    | Replied status _ =>
        if status =? 204 then Ok tt
        else if status =? 404 then Err BarberNotFound
        else Err BarberFailed
    | _ => Err BarberFailed
    end.
End Clients.

(** ** [email] *)

Record Message := mkMessage {
  Message_To : string;
  Message_Subject : string;
  Message_Text : string;
  Message_Template : string;
  Message_IdempotencyKey : string
}.

Inductive send_error := Temporary (e : string) | Permanent (e : string) | Cancelled.

Definition IsTemporary (e : send_error) : bool :=
  match e with Temporary _ => true | _ => false end.

Definition Millisecond : duration := 1000000.
Definition retryBaseDelay : duration := 200 * Millisecond.
Definition retryMaxDelay : duration := 2 * Second.

(** The delay of [sleepBackoff] before the jitter. *)
Definition backoff_delay (attempt : Z) : duration :=
  let delay := int64 (Z.shiftl retryBaseDelay attempt) in
  if (retryMaxDelay <? delay) || (delay <=? 0) then retryMaxDelay else delay.

(** [rand.Int63n(delay + 1)] *)
Definition jitter (rand : Z) (delay : duration) : duration := rand mod (delay + 1).

(** One attempt's outcome: the sender's answer, whether the context is done
    right after it, the random number drawn, and whether the context is
    cancelled during the wait. *)
Record attempt_script := mkAttempt {
  at_send : res send_error string;
  at_ctx_done : bool;
  at_rand : Z;
  at_wait_cancelled : bool
}.

(** [realBackoffWait]: a non-positive wait returns at once. *)
Definition realBackoffWait (d : duration) (cancelled : bool) : bool :=
  if d <=? 0 then true else negb cancelled.

(** The loop of [SendWithRetry] over the outcomes of the attempts; the result
    also lists the waits.  [attempts] counts the attempts left. *)
Fixpoint SendWithRetry_loop (attempts : nat) (attempt : Z) (script : Z -> attempt_script)
  : res send_error string * list duration :=
  match attempts with
  | O => (Err Cancelled, [])
  | S remaining =>
      let s := script attempt in
      match at_send s with
      | Ok id => (Ok id, [])
      | Err e =>
          if negb (IsTemporary e) then (Err e, [])
          else if at_ctx_done s then (Err Cancelled, [])
          else if (remaining =? 0)%nat then (Err e, [])
          else
            let d := jitter (at_rand s) (backoff_delay attempt) in
            if negb (realBackoffWait d (at_wait_cancelled s)) then (Err Cancelled, [d])
            else
              let '(r, ds) := SendWithRetry_loop remaining (attempt + 1) script in
              (r, d :: ds)
      end
  end.

Definition SendWithRetry (attempts : Z) (script : Z -> attempt_script)
  : res send_error string * list duration :=
  SendWithRetry_loop (Z.to_nat (if attempts <? 1 then 1 else attempts)) 0 script.

Fixpoint sanitizeHeader (v : string) : string :=
  match v with
  | EmptyString => EmptyString
  | String c v' =>
      if (byte_of c =? 13) || (byte_of c =? 10) then sanitizeHeader v'
      else String c (sanitizeHeader v')
  end.

Definition LoggingSender_Send (m : Message) : res send_error string :=
  if (TrimSpace (Message_To m) ==? EmptyString) || (TrimSpace (Message_Template m) ==? EmptyString)
  then Err (Permanent "invalid email message")
  else Ok ("dev-" +:+ Message_IdempotencyKey m).

Record SMTPConfig := mkSMTPConfig {
  SMTP_Address : string; SMTP_Username : string; SMTP_Password : string; SMTP_From : string;
  SMTP_ImplicitTLS : bool; SMTP_Timeout : duration
}.

(** What the sender asks of the mail server. *)
Inductive smtp_command :=
| Dial (address : string) (timeout : duration)
| NewClient (tls : bool) (host : string)
| Extension (name : string)
| StartTLS (host : string)
| AuthPlain (username password host : string)
| Mail (from : string)
| Rcpt (to : string)
| Data
| WriteClose (body : string).

(** The parts before and after the first [x]. *)
Fixpoint split_at (x : ascii) (s : string) : option (string * string) :=
  match s with
  | EmptyString => None
  | String c s' =>
      if c ==? x then Some (EmptyString, s')
      else match split_at x s' with Some (a, b) => Some (String c a, b) | None => None end
  end.
Definition has_byte (x : ascii) (s : string) : bool :=
  match split_at x s with Some _ => true | None => false end.

(** The host of [net.SplitHostPort]: [host:port] with one colon, or
    [[host]:port]. *)
Definition SplitHostPort (s : string) : option string :=
  match s with
  | String "["%char s' =>
      match split_at "]" s' with
      | Some (host, String ":"%char port) =>
          if has_byte ":" port || has_byte "[" s' || has_byte "]" port then None else Some host
      | _ => None
      end
  | _ =>
      match split_at ":" s with
      | Some (host, port) =>
          if has_byte ":" port || has_byte "[" s || has_byte "]" s then None else Some host
      | None => None
      end
  end.

Definition CRLF : string := String "013" (String "010" EmptyString).

Definition smtp_body (c : SMTPConfig) (m : Message) : string :=
  "From: " +:+ SMTP_From c +:+ CRLF +:+ "To: " +:+ Message_To m +:+ CRLF +:+ "Subject: "
  +:+ sanitizeHeader (Message_Subject m) +:+ CRLF +:+ "MIME-Version: 1.0" +:+ CRLF
  +:+ "Content-Type: text/plain; charset=UTF-8" +:+ CRLF +:+ CRLF +:+ Message_Text m.

(** Commands in order until one fails; the commands issued and the failed one,
    if any. *)
Fixpoint smtp_run (ok : smtp_command -> bool) (cmds : list smtp_command)
  : list smtp_command * option smtp_command :=
  match cmds with
  | [] => ([], None)
  | x :: rest =>
      if ok x then let '(done, failed) := smtp_run ok rest in (x :: done, failed) else ([x], Some x)
  end.

(** [SMTPSender.Send]: the commands it issues and its result; [ok] says
    whether the server accepts a command (for [Extension], whether it offers
    it). *)
Definition SMTPSender_Send (c : SMTPConfig) (ctx_done : bool) (ok : smtp_command -> bool) (m : Message)
  : list smtp_command * res send_error string :=
  if ctx_done then ([], Err Cancelled)
  else
    match SplitHostPort (SMTP_Address c) with
    | None => ([], Err (Permanent "invalid SMTP configuration"))
    | Some host =>
        if (host ==? EmptyString) || (SMTP_From c ==? EmptyString)
        then ([], Err (Permanent "invalid SMTP configuration"))
        else
          let timeout := if SMTP_Timeout c <=? 0 then 10 * Second else SMTP_Timeout c in
          let starttls := if SMTP_ImplicitTLS c then []
                          else if ok (Extension "STARTTLS") then [StartTLS host] else [] in
          let asked := if SMTP_ImplicitTLS c then [] else [Extension "STARTTLS"] in
          let auth := if SMTP_Username c !=? EmptyString
                      then [AuthPlain (SMTP_Username c) (SMTP_Password c) host] else [] in
          let '(opened, failed1) := smtp_run ok [Dial (SMTP_Address c) timeout; NewClient (SMTP_ImplicitTLS c) host] in
          match failed1 with
          | Some _ => (opened, Err (Temporary "smtp"))
          | None =>
              let '(cmds, failed) :=
                smtp_run ok (starttls ++ auth ++ [Mail (SMTP_From c); Rcpt (Message_To m); Data;
                                                  WriteClose (smtp_body c m)]) in
              (opened ++ asked ++ cmds,
               match failed with
               | None => Ok ("smtp-" +:+ Message_IdempotencyKey m)
               | Some (AuthPlain _ _ _) => Err (Permanent "smtp")
               | Some _ => Err (Temporary "smtp")
               end)
          end
    end.

Inductive sender := SenderLogging | SenderSMTP (c : SMTPConfig).

Inductive sender_error :=
  LoggingForbidden | UnsupportedProvider (mode : string) | InvalidTimeout | MissingAddress | MissingPassword.

(** [email.FromEnvironment]; [ParseDuration] is [time.ParseDuration] and
    [EqualFold] [strings.EqualFold]. *)
Definition FromEnvironment `{GoLib} (ParseDuration : string -> option duration)
    (EqualFold : string -> string -> bool) (getenv : string -> string) : res sender_error sender :=
  let mode := ToLower (TrimSpace (getenv "EMAIL_PROVIDER"%string)) in
  let mode := if mode ==? EmptyString then "log"%string else mode in
  if (mode ==? "log"%string) || (mode ==? "mock"%string) then
    if EqualFold (getenv "APP_ENV"%string) "production" then Err LoggingForbidden else Ok SenderLogging
  else if mode !=? "smtp"%string then Err (UnsupportedProvider mode)
  else
    let raw := getenv "SMTP_TIMEOUT"%string in
    let timeout := if raw ==? EmptyString then Some (10 * Second)
                   else match ParseDuration raw with
                        | Some parsed => if parsed <=? 0 then None else Some parsed
                        | None => None
                        end in
    match timeout with
    | None => Err InvalidTimeout
    | Some timeout =>
        let config := mkSMTPConfig (getenv "SMTP_ADDRESS"%string) (getenv "SMTP_USERNAME"%string)
                        (getenv "SMTP_PASSWORD"%string) (getenv "EMAIL_FROM"%string)
                        (EqualFold (getenv "SMTP_IMPLICIT_TLS"%string) "true") timeout in
        if (SMTP_Address config ==? EmptyString) || (SMTP_From config ==? EmptyString) then Err MissingAddress
        else if (SMTP_Username config !=? EmptyString) && (SMTP_Password config ==? EmptyString)
        then Err MissingPassword
        else Ok (SenderSMTP config)
    end.

(** [Send] of the configured sender; only its result. *)
Definition Send (s : sender) (ctx_done : bool) (ok : smtp_command -> bool) (m : Message)
  : res send_error string :=
  match s with
  | SenderLogging => LoggingSender_Send m
  | SenderSMTP c => (SMTPSender_Send c ctx_done ok m).2
  end.

(** ** [ratelimit] *)

(** A Redis key: its counter and the time it expires at. *)
Record bucket := mkBucket { bucket_count : Z; bucket_expires : time }.
Abbreviation redis := (gmap string bucket).

(** A key past its expiry does not exist. *)
Definition redis_get (now : time) (key : string) (r : redis) : option bucket :=
  match r !! key with
  | Some b => if bucket_expires b <=? now then None else Some b
  | None => None
  end.

(** The script of [Redis.Allow]: INCR, PEXPIRE on the first increment, and the
    comparison with the limit; the window has millisecond resolution. *)
Definition Allow (now : time) (key : string) (limit : Z) (window : duration) (r : redis)
  : bool * redis :=
  let n := match redis_get now key r with Some b => bucket_count b + 1 | None => 1 end in
  let expires := match redis_get now key r with
                 | Some b => bucket_expires b
                 | None => now + Z.quot window Millisecond * Millisecond
                 end in
  (negb (limit <? n), <[key := mkBucket n expires]> r).

(** A sequence of calls for one key at the given times. *)
Fixpoint Allow_all (times : list time) (key : string) (limit : Z) (window : duration) (r : redis)
  : list bool * redis :=
  match times with
  | [] => ([], r)
  | now :: rest =>
      let '(b, r1) := Allow now key limit window r in
      let '(bs, r2) := Allow_all rest key limit window r1 in
      (b :: bs, r2)
  end.

(** ** [httpx] *)

Definition maxRequestIDLen : Z := 128.

Definition token_char (c : ascii) : bool :=
  let r := byte_of c in
  ((97 <=? r) && (r <=? 122)) || ((65 <=? r) && (r <=? 90)) || ((48 <=? r) && (r <=? 57))
  || (r =? 45) || (r =? 95) || (r =? 46) || (r =? 58).

(** Runes outside ASCII start with a byte that is not in the set. *)
Fixpoint isBoundedToken (s : string) : bool :=
  match s with EmptyString => true | String c s' => token_char c && isBoundedToken s' end.

(** The id the middleware stores; [fresh] is [uuid.NewString()]. *)
Definition RequestID (presented fresh : string) : string :=
  if (presented ==? EmptyString) || (maxRequestIDLen <? Z.of_nat (String.length presented))
     || negb (isBoundedToken presented)
  then fresh else presented.

(** What the chain of handlers returned. *)
Inductive chain_error := ErrRouteNotFound | ErrMethodNotAllowed | OtherError (status : Z).

Definition RoutePattern (route : option string) (err : option chain_error) : string :=
  match err with
  | Some ErrRouteNotFound | Some ErrMethodNotAllowed => "unmatched"
  | _ =>
      match route with
      | None => "unmatched"
      | Some path => if path ==? EmptyString then "unmatched" else path
      end
  end.

(** ** [config] *)

Record ServiceConfig := mkServiceConfig {
  ServiceName : string;
  Port : string;
  InternalAuthToken : string;
  ServiceInternalToken : string;
  DatabaseURL : string;
  RedisURL : string;
  NATSURL : string
}.

Fixpoint has_prefix (p s : string) : bool :=
  match p, s with
  | EmptyString, _ => true
  | String c p', String c' s' => (c ==? c') && has_prefix p' s'
  | _, _ => false
  end.

(** [strings.Contains(s, sub)] *)
Fixpoint Contains (s sub : string) : bool :=
  has_prefix sub s || match s with EmptyString => false | String _ s' => Contains s' sub end.

Inductive config_error :=
  MissingInternalToken | MissingDatabaseURL | UnsafeSecret | RedisWithoutCredentials | NatsWithoutCredentials.

Definition unsafe_words : list string :=
  ["development"; "dev-password"; "dev-user"; "changeme"; "replace-with"; "default"]%string.

(** [production] is [strings.EqualFold(os.Getenv("APP_ENV"), "production")]. *)
Definition ServiceConfig_Validate `{GoLib} (production : bool) (c : ServiceConfig)
  : res config_error unit :=
  if InternalAuthToken c ==? EmptyString then Err MissingInternalToken
  else if (DatabaseURL c ==? EmptyString) && (ServiceName c !=? "gateway-service"%string)
  then Err MissingDatabaseURL
  else if production then
    let values := map ToLower [InternalAuthToken c; ServiceInternalToken c; DatabaseURL c;
                               RedisURL c; NATSURL c] in
    if existsb (λ unsafe, existsb (λ value, Contains value unsafe) values) unsafe_words
    then Err UnsafeSecret
    else if (RedisURL c !=? EmptyString) && negb (Contains (RedisURL c) "@")
    then Err RedisWithoutCredentials
    else if (NATSURL c !=? EmptyString) && negb (Contains (NATSURL c) "@")
    then Err NatsWithoutCredentials
    else Ok tt
  else Ok tt.

Definition value (getenv : string -> string) (key fallback : string) : string :=
  if getenv key !=? EmptyString then getenv key else fallback.

Definition Load (getenv : string -> string) (serviceName : string) : ServiceConfig :=
  let internalAuthToken := getenv "INTERNAL_AUTH_TOKEN"%string in
  let serviceInternalToken := value getenv "SERVICE_INTERNAL_TOKEN" internalAuthToken in
  mkServiceConfig serviceName (value getenv "PORT" "8080") internalAuthToken serviceInternalToken
    (getenv "DATABASE_URL"%string) (getenv "REDIS_URL"%string) (getenv "NATS_URL"%string).

(** * Lemmas *)

Lemma backoff_delay_bound attempt : 0 < backoff_delay attempt <= retryMaxDelay.
Proof.
  unfold backoff_delay. destruct (_ || _) eqn:E; [unfold retryMaxDelay, Second; lia|].
  bsimpl. lia.
Qed.

Lemma jitter_bound rand d : 0 < d → 0 <= jitter rand d <= d.
Proof. intros H. unfold jitter. pose proof (Z.mod_pos_bound rand (d + 1)). lia. Qed.

Lemma SendWithRetry_waits n attempt script :
  let '(_, ds) := SendWithRetry_loop n attempt script in
  (length ds < Nat.max 1 n)%nat ∧
  ∀ i d, ds !! i = Some d → 0 <= d <= backoff_delay (attempt + Z.of_nat i).
Proof.
  revert attempt. induction n as [|n IH]; intros attempt; cbn [SendWithRetry_loop].
  { split; [cbn; lia|done]. }
  destruct (at_send (script attempt)) as [id|e]; [by split; [cbn; lia|]|].
  destruct (negb _); [by split; [cbn; lia|]|].
  destruct (at_ctx_done _); [by split; [cbn; lia|]|].
  destruct (Nat.eqb_spec n 0); [by split; [cbn; lia|]|].
  set (d := jitter _ _). assert (0 <= d <= backoff_delay attempt) as Hd.
  { apply jitter_bound. apply backoff_delay_bound. }
  destruct (negb _).
  { split; [cbn; lia|]. intros [|i] x; [|done]. intros [= <-]. rewrite Z.add_0_r. done. }
  specialize (IH (attempt + 1)). destruct (SendWithRetry_loop n (attempt + 1) script) as [r ds].
  destruct IH as [Hlen IH]. split; [cbn; lia|]. intros [|i] x; cbn.
  - intros [= <-]. rewrite Z.add_0_r. done.
  - intros Hx. specialize (IH i x Hx). replace (attempt + Z.of_nat (S i)) with (attempt + 1 + Z.of_nat i) by lia. done.
Qed.

(** ** The fixed window *)

(** While the key's window lasts, every call counts one more. *)
Lemma Allow_all_open times key limit window r n expires :
  r !! key = Some (mkBucket n expires) →
  Forall (λ t, t < expires) times →
  Allow_all times key limit window r =
    (map (λ i, negb (limit <? n + 1 + Z.of_nat i)) (seq 0 (length times)),
     match times with [] => r | _ => <[key := mkBucket (n + Z.of_nat (length times)) expires]> r end).
Proof.
  revert r n. induction times as [|t times IH]; intros r n Hr Ht; [done|].
  apply Forall_cons in Ht as [Ht Hts]. cbn [Allow_all]. unfold Allow, redis_get. rewrite Hr.
  cbn [bucket_expires bucket_count]. destruct (Z.leb_spec expires t); [lia|].
  cbn [bucket_expires bucket_count].
  rewrite (IH _ (n + 1)); [|apply lookup_insert_eq|done]. f_equal.
  - cbn. f_equal; [by rewrite Z.add_0_r|]. rewrite <- seq_shift, map_map.
    apply map_ext. intros i. do 2 f_equal. lia.
  - destruct times as [|t' times]; [done|].
    cbn [length]. rewrite insert_insert_eq. f_equal. f_equal. lia.
Qed.

Lemma token_chars_bounded s : isBoundedToken s = true ↔ Forall (λ c, token_char c = true) (list_ascii_of_string s).
Proof.
  induction s as [|c s IH]; cbn; [split; [constructor|done]|]. rewrite andb_true_iff, Forall_cons. by rewrite IH.
Qed.

Lemma MultiTokenVerifier_iff l p :
  MultiTokenVerifier_Verify (NewMultiTokenVerifier l) p = true ↔ p ≠ EmptyString ∧ p ∈ l.
Proof.
  unfold MultiTokenVerifier_Verify, NewMultiTokenVerifier; cbn.
  destruct (bool_decide_reflect (p = EmptyString)) as [->|Hp]; [split; [done|tauto]|].
  rewrite existsb_elem. split.
  - intros (x & Hx & Hc). split; [done|]. unfold ConstantTimeCompare in Hc. bsimpl. subst x.
    apply elem_of_sel in Hx. tauto.
  - intros [_ Hin]. exists p. split; [|by apply bool_decide_refl].
    apply elem_of_sel. by split; [bsimpl|].
Qed.

(** * Properties *)

(** the trust boundary fails closed: the context of a request exists
    exactly when the presented internal token is one of the configured
    non-empty tokens, the tenant header parses and the application type is
    booking or admin; an empty token is never accepted, whatever is
    configured, and the context carries the parsed header values. *)
Theorem trust_boundary `{GoLib} {B} (r : Request B) (tokens : list string) (t : TenantContext) :
  adminauth_Context r (NewMultiTokenVerifier tokens) = Some t ↔
  Header r InternalTokenHeader ≠ EmptyString ∧ Header r InternalTokenHeader ∈ tokens ∧
  uuid_Parse (Header r TenantIDHeader) = Some (TenantID t) ∧
  (Header r AppTypeHeader = "booking"%string ∨ Header r AppTypeHeader = "admin"%string) ∧
  AppType t = Header r AppTypeHeader ∧ RequestID_ t = Header r RequestIDHeader.
Proof.
  unfold adminauth_Context, Verify, MultiTokenVerifier_verifier, tenantctx_New.
  destruct (MultiTokenVerifier_Verify _ _) eqn:Ev; cbn [negb].
  - apply MultiTokenVerifier_iff in Ev as [He Hin].
    destruct (uuid_Parse _) as [id|]; [|split; [done|by intros (_ & _ & ? & _)]].
    destruct (bool_decide_reflect (Header r AppTypeHeader = "booking"%string)) as [Hb|Hb];
    destruct (bool_decide_reflect (Header r AppTypeHeader = "admin"%string)) as [Ha|Ha]; cbn;
    (split; [intros [= <-]; cbn; auto 10|]); destruct t; cbn; intros (_ & _ & [= <-] & Hor & -> & ->); try done.
    by destruct Hor.
  - split; [done|]. intros (He & Hin & _). exfalso.
    by rewrite (proj2 (MultiTokenVerifier_iff _ _)) in Ev.
Qed.

(** [SendWithRetry] waits between attempts only, each wait lies between
    zero and the capped exponential delay of its attempt, and with the three
    attempts its callers use the waits add up to at most 600 ms, as the
    package's comment promises. *)
Theorem SendWithRetry_bounded attempts script :
  let '(_, waits) := SendWithRetry attempts script in
  Z.of_nat (length waits) < Z.max 1 attempts ∧
  (∀ i d, waits !! i = Some d → 0 <= d <= backoff_delay (Z.of_nat i) ∧ d <= retryMaxDelay) ∧
  (attempts = 3 → fold_right Z.add 0 waits <= 600 * Millisecond).
Proof.
  unfold SendWithRetry. set (n := Z.to_nat _).
  pose proof (SendWithRetry_waits n 0 script) as H.
  destruct (SendWithRetry_loop n 0 script) as [r ds]. destruct H as [Hlen Hb].
  assert (Z.of_nat (Nat.max 1 n) = Z.max 1 attempts) as Hn.
  { unfold n. destruct (Z.ltb_spec attempts 1); lia. }
  split; [lia|]. split.
  - intros i d Hd. specialize (Hb i d Hd). rewrite Z.add_0_l in Hb.
    pose proof (backoff_delay_bound (Z.of_nat i)). lia.
  - intros ->. assert (length ds <= 2)%nat as Hl by lia.
    assert (backoff_delay 0 = 200 * Millisecond) as H0 by reflexivity.
    assert (backoff_delay 1 = 400 * Millisecond) as H1 by reflexivity.
    destruct ds as [|a [|b [|c ds]]]; cbn in Hl |- *; [unfold Millisecond; lia| | |lia].
    + pose proof (Hb 0%nat a eq_refl) as Ha. change (0 + Z.of_nat 0) with 0 in Ha. lia.
    + pose proof (Hb 0%nat a eq_refl) as Ha. pose proof (Hb 1%nat b eq_refl) as Hb1.
      change (0 + Z.of_nat 0) with 0 in Ha. change (0 + Z.of_nat 1) with 1 in Hb1. lia.
Qed.

Lemma SendWithRetry_bounded_witness :
  SendWithRetry 3 (λ _, mkAttempt (Err (Temporary "busy")) false 12345 false)
    = (Err (Temporary "busy"), [12345; 12345]) ∧ 12345 + (12345 + 0) <= 600 * Millisecond.
Proof.
  split; [vm_compute; reflexivity|].
  pose proof (SendWithRetry_bounded 3 (λ _, mkAttempt (Err (Temporary "busy")) false 12345 false)) as H.
  replace (SendWithRetry 3 (λ _, mkAttempt (Err (Temporary "busy")) false 12345 false))
    with (Err (A:=string) (Temporary "busy"), [12345; 12345]) in H by (vm_compute; reflexivity).
  destruct H as (_ & _ & H). exact (H eq_refl).
Defined.

(** the rate limit is a fixed window: a first call opens it, and of all
    the calls before it expires exactly the first [limit] are allowed (none
    when the limit is not positive); a call at or after the expiry opens a new
    window whatever was counted before. *)
Theorem Allow_fixed_window now times key limit window r :
  Millisecond <= window → redis_get now key r = None →
  let expires := now + Z.quot window Millisecond * Millisecond in
  Forall (λ t, t < expires) times →
  let '(answers, r') := Allow_all (now :: times) key limit window r in
  answers = map (λ i, negb (limit <? 1 + Z.of_nat i)) (seq 0 (S (length times))) ∧
  (Z.of_nat (length (sel id answers)) <= Z.max 0 limit) ∧
  ∀ later, expires <= later → redis_get later key r' = None.
Proof.
  intros Hw Hr expires Ht. cbn [Allow_all]. unfold Allow. rewrite Hr. fold expires.
  rewrite (Allow_all_open times key limit window _ 1 expires); [|apply lookup_insert_eq|done].
  assert (negb (limit <? 1) :: map (λ i, negb (limit <? 1 + 1 + Z.of_nat i)) (seq 0 (length times))
          = map (λ i, negb (limit <? 1 + Z.of_nat i)) (seq 0 (S (length times)))) as Heq.
  { cbn. f_equal. rewrite <- seq_shift, map_map. apply map_ext. intros i. do 2 f_equal. lia. }
  split; [exact Heq|]. split.
  - rewrite Heq. clear. generalize (S (length times)) as n. intros n.
    assert (∀ k, Z.of_nat (length (sel id (map (λ i, negb (limit <? 1 + Z.of_nat i)) (seq k n))))
      <= Z.max 0 (limit - Z.of_nat k)) as Hk; [|specialize (Hk 0%nat); lia].
    induction n as [|n IH]; intros k; cbn; [lia|]. specialize (IH (S k)). unfold sel, id in *.
    destruct (Z.ltb_spec limit (1 + Z.of_nat k)); cbn; lia.
  - intros later Hl. destruct times as [|t0 times0]; unfold redis_get;
      rewrite lookup_insert_eq; cbn; by destruct (Z.leb_spec expires later); [|lia].
Qed.

Lemma Allow_fixed_window_witness :
  (Allow_all [0; 1; 2; 3] "k" 2 Second ∅).1 = [true; true; false; false].
Proof.
  pose proof (Allow_fixed_window 0 [1; 2; 3] "k" 2 Second ∅ ltac:(vm_compute; discriminate) eq_refl
    ltac:(repeat constructor)) as H.
  destruct (Allow_all [0; 1; 2; 3] "k" 2 Second ∅) as [answers r']. destruct H as [-> _].
  reflexivity.
Defined.

(** whatever a caller presents, the request id that reaches logs, metrics
    and downstream services is a non-empty token of at most 128 characters of
    the safe set, and an acceptable presented id is kept. *)
Theorem RequestID_bounded presented fresh :
  fresh ≠ EmptyString → (Z.of_nat (String.length fresh) <= 128) → isBoundedToken fresh = true →
  let id := RequestID presented fresh in
  id ≠ EmptyString ∧ Z.of_nat (String.length id) <= 128 ∧
  Forall (λ c, token_char c = true) (list_ascii_of_string id) ∧
  (presented ≠ EmptyString → Z.of_nat (String.length presented) <= 128 →
   isBoundedToken presented = true → id = presented).
Proof.
  intros Hne Hlen Htok. cbn zeta. unfold RequestID. rewrite <- token_chars_bounded.
  destruct (_ || _) eqn:E.
  - split_and!; try done. intros H1 H2 H3. rewrite H3 in E.
    apply orb_true_iff in E as [E|E]; [|done]. apply orb_true_iff in E as [E|E]; bsimpl; [done|].
    unfold maxRequestIDLen in *. lia.
  - bsimpl. unfold maxRequestIDLen in *. split_and!; done.
Qed.

Lemma RequestID_bounded_witness :
  RequestID "bad id!" "0b5e" = "0b5e"%string ∧ Z.of_nat (String.length (RequestID "bad id!" "0b5e")) <= 128.
Proof.
  split; [reflexivity|].
  apply (RequestID_bounded "bad id!" "0b5e"); [discriminate|vm_compute; discriminate|reflexivity].
Defined.
