(* ===== verification/Availability.v ===== *)
(** * Availability: scheduling-service, packages [domain] and [service]

    The pure core of the scheduling service ([internal/domain/domain.go],
    [internal/service/availability.go]): validation of wall-clock intervals,
    the windows of one civil date, and the enumeration of free slots. *)
From S2P Require Import Prelude GoTime Http.

Local Open Scope Z_scope.

(** ** Domain *)

Record Interval := mkInterval { Interval_Start : string; Interval_End : string }.

Record WorkingDay := mkWorkingDay { Weekday_ : Z; Intervals_ : list Interval }.
Definition WorkingHoursInput := list WorkingDay.

Record OverrideInput := mkOverrideInput {
  OverrideInput_Date : string;
  OverrideInput_Kind : string;
  OverrideInput_Intervals : list Interval
}.

Record Override := mkOverride {
  Override_ID : uuid;
  Override_Date : string;
  Override_Kind : string;
  Override_Intervals : list Interval
}.

(** [var o domain.Override] *)
Definition zero_Override : Override := mkOverride uuid_Nil "" "" [].

Record BlockedPeriodInput := mkBlockedPeriodInput {
  BlockedPeriodInput_StartAt : time;
  BlockedPeriodInput_EndAt : time
}.

Record BlockedPeriod := mkBlockedPeriod {
  BlockedPeriod_ID : uuid;
  BlockedPeriod_StartAt : time;
  BlockedPeriod_EndAt : time
}.

Record Schedule := mkSchedule {
  Schedule_WorkingHours : WorkingHoursInput;
  Schedule_Overrides : list Override;
  Schedule_BlockedPeriods : list BlockedPeriod
}.

Record Slot := mkSlot { Slot_StartAt : time; Slot_EndAt : time }.

#[export] Instance Interval_eq_dec : EqDecision Interval.
Proof. solve_decision. Defined.
#[export] Instance WorkingDay_eq_dec : EqDecision WorkingDay.
Proof. solve_decision. Defined.
#[export] Instance Override_eq_dec : EqDecision Override.
Proof. solve_decision. Defined.
#[export] Instance BlockedPeriod_eq_dec : EqDecision BlockedPeriod.
Proof. solve_decision. Defined.
#[export] Instance Slot_eq_dec : EqDecision Slot.
Proof. solve_decision. Defined.

(** ** Wall-clock intervals *)

Definition parseWall (v : string) : duration :=
  match parse_15_04 v with
  | None => -1
  | Some (h, m) => int64 (int64 (h * Hour) + int64 (m * Minute))
  end.

Definition wall (v : Interval) : duration * duration * bool :=
  let s := parseWall (Interval_Start v) in
  let e := parseWall (Interval_End v) in
  (s, e, (0 <=? s) && (0 <=? e)).

Fixpoint ValidIntervals_loop (prev : duration) (l : list Interval) : bool :=
  match l with
  | [] => true
  | v :: l' =>
      match wall v with
      | (s, e, ok) =>
          if negb ok || (e <=? s) || (s <? prev) then false
          else ValidIntervals_loop e l'
      end
  end.
Definition ValidIntervals (l : list Interval) : bool := ValidIntervals_loop (-1) l.

(** ** The windows of one date *)

(** The first entry of the weekday, as the [for ... break] finds it. *)
Fixpoint intervals_of_weekday (hours : WorkingHoursInput) (weekday : Z) : list Interval :=
  match hours with
  | [] => []
  | d :: hours' =>
      if Weekday_ d =? weekday then Intervals_ d else intervals_of_weekday hours' weekday
  end.

Definition window (date : time) (zone : Location) (v : Interval) : option Slot :=
  match wall v with
  | (s, e, ok) =>
      if negb ok then None
      else
        let base := Date (civil zone date) zone in
        Some (mkSlot (Add base s) (Add base e))
  end.

Definition IntervalsForDate (hours : WorkingHoursInput) (over : Override)
    (date : time) (zone : Location) : list Slot :=
  if Override_ID over !=? uuid_Nil then
    if Override_Kind over !=? "custom_hours"%string then []
    else omap (window date zone) (Override_Intervals over)
  else omap (window date zone) (intervals_of_weekday hours (Weekday zone date)).

(** ** Free slots *)

(** [occStart.Before(x.EndAt) && occEnd.After(x.StartAt)] *)
Definition clashes (occStart occEnd : time) (x : BlockedPeriod) : bool :=
  Before occStart (BlockedPeriod_EndAt x) && After occEnd (BlockedPeriod_StartAt x).

(** The body of the inner loop of [Available] at one start. *)
Definition slot_at (i : Slot) (busy : list BlockedPeriod)
    (duration before after : Z) (now start : time) : option Slot :=
  let occStart := Add start (int64 (int64 (- before) * Minute)) in
  let occEnd := Add start (Minutes (int64 (duration + after))) in
  if Before occStart (Slot_StartAt i) || negb (After start now) then None
  else if existsb (clashes occStart occEnd) busy then None
  else Some (mkSlot start (Add start (Minutes duration))).

(** The loop over the starts of one interval; [None] is a loop that has not
    ended after [fuel] iterations. *)
Fixpoint Available_loop (fuel : nat) (i : Slot) (busy : list BlockedPeriod)
    (duration before after step : Z) (now start : time) : option (list Slot) :=
  if After (Add start (Minutes (int64 (duration + after)))) (Slot_EndAt i) then Some []
  else
    match fuel with
    | O => None
    | S fuel' =>
        rest ← Available_loop fuel' i busy duration before after step now
                 (Add start (Minutes step));
        Some (match slot_at i busy duration before after now start with
              | Some s => s :: rest
              | None => rest
              end)
    end.

(** Enough iterations for the loop when the step is positive. *)
Definition Available_fuel (i : Slot) (duration after step : Z) : nat :=
  Z.to_nat ((Slot_EndAt i - Slot_StartAt i - Minutes (int64 (duration + after)))
            / Z.max 1 (Minutes step) + 1).

(** [Available]; [None] when the loop does not end. *)
Fixpoint Available (intervals : list Slot) (blocked occupied : list BlockedPeriod)
    (duration before after step : Z) (now : time) : option (list Slot) :=
  match intervals with
  | [] => Some []
  | i :: rest =>
      out ← Available_loop (Available_fuel i duration after step) i (blocked ++ occupied)
              duration before after step now (Slot_StartAt i);
      out' ← Available rest blocked occupied duration before after step now;
      Some (out ++ out')
  end.

(** ** Occupancy *)

(** The reply of the appointment service's occupancy endpoint. *)
Record OccupancyRow := mkOccupancyRow { OccupiedStartAt : time; OccupiedEndAt : time }.

Inductive occupancy_error := ErrOccupancyUnavailable.

(** [time.RFC3339] keeps whole seconds. *)
Definition rfc3339 (t : time) : time := t / Second * Second.

(** [HTTPOccupancy.Occupied]; [send] is the exchange with the appointment
    service. *)
Definition HTTPOccupancy_Occupied `{GoLib} (token : string)
    (send : Outgoing -> exchange (list OccupancyRow))
    (tenant : TenantContext) (barberID : uuid) (from to : time)
  : res occupancy_error (list BlockedPeriod) :=
  let query := [("barber_id", QText (uuid_String barberID)); ("from", QTime (rfc3339 from));
                ("to", QTime (rfc3339 to))]%string in
  match send (outgoing ["internal"; "v1"; "occupancy"] query token tenant EmptyString) with
  | Replied status body =>
      if negb (is_2xx status) then Err ErrOccupancyUnavailable
      else
        match body with
        | None => Err ErrOccupancyUnavailable
        | Some rows =>
            Ok (map (fun row => mkBlockedPeriod uuid_Nil (OccupiedStartAt row) (OccupiedEndAt row))
                  (List.filter (fun row => Before (OccupiedStartAt row) (OccupiedEndAt row)) rows))
        end
  | _ => Err ErrOccupancyUnavailable
  end.

Definition EmptyOccupancy_Occupied : res occupancy_error (list BlockedPeriod) := Ok [].

(** * Lemmas *)

(** ** Wall-clock values *)

Lemma parseWall_value v h m : parse_15_04 v = Some (h, m) →
  0 <= h <= 23 ∧ 0 <= m <= 59 ∧ parseWall v = h * Hour + m * Minute.
Proof.
  intros H. assert (0 <= h <= 23 ∧ 0 <= m <= 59) as [Hh Hm].
  { unfold parse_15_04, mbind, option_bind in H. split_match_in H; simplify_eq; bsimpl.
    repeat match goal with H : getnum _ _ = Some _ |- _ => apply getnum_bounds in H end. lia. }
  repeat split; [lia..|]. unfold parseWall. rewrite H.
  assert (∀ x, 0 <= x < 2 ^ 63 → int64 x = x) as Hid
    by (intros x Hx; apply int64_id; unfold in_int64; lia).
  rewrite (Hid (h * Hour)), (Hid (m * Minute)), Hid; unfold Hour, Minute, Second; lia.
Qed.

(** A wall-clock value is [-1] or a whole number of minutes of one day. *)
Lemma parseWall_range v :
  parseWall v = -1 ∨ ∃ n, 0 <= n < 1440 ∧ parseWall v = n * Minute.
Proof.
  destruct (parse_15_04 v) as [[h m]|] eqn:E.
  - right. apply parseWall_value in E as (Hh & Hm & ->). exists (h * 60 + m).
    unfold Hour. lia.
  - left. unfold parseWall. by rewrite E.
Qed.

Definition wall_ok (v : Interval) : Prop :=
  0 <= parseWall (Interval_Start v) ∧
  parseWall (Interval_Start v) < parseWall (Interval_End v).

(** The first ends before the second starts. *)
Definition wall_before (v w : Interval) : Prop :=
  parseWall (Interval_End v) <= parseWall (Interval_Start w).

Lemma wall_before_trans v w x :
  wall_ok w → wall_before v w → wall_before w x → wall_before v x.
Proof. unfold wall_ok, wall_before. lia. Qed.

Lemma ValidIntervals_loop_spec prev l :
  -1 <= prev →
  ValidIntervals_loop prev l = true ↔
  Forall wall_ok l ∧ Forall (λ v, prev <= parseWall (Interval_Start v)) l ∧
  StronglySorted wall_before l.
Proof.
  revert prev. induction l as [|v l IH]; intros prev Hp; cbn [ValidIntervals_loop].
  { split; [|done]. by repeat constructor. }
  unfold wall. set (s := parseWall (Interval_Start v)). set (e := parseWall (Interval_End v)).
  destruct (negb _ || _ || _) eqn:E.
  - split; [done|]. intros (Hok & Hge & _).
    apply Forall_cons in Hok as [Hok _]. apply Forall_cons in Hge as [Hge _].
    unfold wall_ok in Hok. fold s e in Hok, Hge. lia.
  - bsimpl. rewrite IH by lia. rewrite !Forall_cons.
    split.
    + intros (Hok & Hge & Hs). split; [done|split]; [|by constructor].
      split; [done|]. eapply Forall_impl; [exact Hge|]. cbn. intros. lia.
    + intros ((_ & Hok) & _ & Hs). inversion Hs; subst. done.
Qed.

(** ** The starts of one interval *)

Section Grid.
Context (i : Slot) (busy : list BlockedPeriod) (duration before after step : Z) (now : time).
Let L := Minutes (int64 (duration + after)).
Let st := Minutes step.

(** The reference enumeration: the starts [start], [start + step], ... whose
    occupancy ends inside the interval. *)
Definition grid (start : time) : list time :=
  map (λ k, start + k * Minutes step)
    (seqZ 0 ((Slot_EndAt i - start - Minutes (int64 (duration + after))) / Minutes step + 1)).

Hypothesis Hst : 0 < st.

Lemma grid_end start : Slot_EndAt i < start + L → grid start = [].
Proof.
  intros H. unfold grid. fold L st.
  assert ((Slot_EndAt i - start - L) / st < 0) by (apply Z.div_lt_upper_bound; lia).
  rewrite seqZ_nil by lia. done.
Qed.

Lemma grid_step start : start + L <= Slot_EndAt i →
  grid start = start :: grid (start + st).
Proof.
  intros H. unfold grid. fold L st.
  set (q := (Slot_EndAt i - start - L) / st).
  assert (0 <= q) by (apply Z.div_pos; lia).
  assert ((Slot_EndAt i - (start + st) - L) / st = q - 1) as ->.
  { unfold q. replace (Slot_EndAt i - (start + st) - L) with (Slot_EndAt i - start - L + -1 * st) by lia.
    rewrite Z.div_add by lia. lia. }
  rewrite seqZ_cons by lia. cbn. f_equal; [lia|].
  change (Z.succ 0) with (1 + 0). rewrite <- fmap_add_seqZ.
  replace (Z.pred (q + 1)) with (q - 1 + 1) by lia.
  rewrite <- list_fmap_compose. apply map_ext. intros k. cbn. lia.
Qed.

Lemma elem_of_grid start x :
  x ∈ grid start ↔ ∃ k, 0 <= k ∧ x = start + k * st ∧ x + L <= Slot_EndAt i.
Proof.
  unfold grid. fold L st. set (q := (Slot_EndAt i - start - L) / st).
  assert (∀ k, k <= q ↔ start + k * st + L <= Slot_EndAt i) as Hq.
  { intros k. unfold q. split; intros H.
    - pose proof (Z.mul_div_le (Slot_EndAt i - start - L) st). nia.
    - apply Z.div_le_lower_bound; lia. }
  rewrite list_elem_of_In, in_map_iff. setoid_rewrite <- list_elem_of_In.
  setoid_rewrite elem_of_seqZ. split.
  - intros (k & <- & Hk). exists k. rewrite <- Hq. lia.
  - intros (k & Hk & -> & Hle). exists k. rewrite <- Hq in Hle. split; lia.
Qed.

(** The loop computes the enumeration, and ends: [fuel] iterations are enough
    when they cover the distance to the end of the interval. *)
Lemma Available_loop_spec fuel start :
  Slot_EndAt i - start - L < Z.of_nat fuel * st →
  Available_loop fuel i busy duration before after step now start
  = Some (omap (slot_at i busy duration before after now) (grid start)).
Proof.
  revert start. induction fuel as [|fuel IH]; intros start Hf; cbn [Available_loop];
    unfold After, Add; fold L st.
  - destruct (Z.ltb_spec (Slot_EndAt i) (start + L)); [|lia]. by rewrite grid_end.
  - destruct (Z.ltb_spec (Slot_EndAt i) (start + L)); [by rewrite grid_end|].
    rewrite IH by lia. rewrite (grid_step start) by lia. done.
Qed.

Lemma Available_fuel_enough :
  Slot_EndAt i - Slot_StartAt i - L < Z.of_nat (Available_fuel i duration after step) * st.
Proof.
  unfold Available_fuel. fold L st. replace (Z.max 1 st) with st by lia.
  set (d := Slot_EndAt i - Slot_StartAt i - L).
  pose proof (Z.mul_succ_div_gt d st Hst). destruct (Z.le_gt_cases 0 (d / st + 1)).
  - rewrite Z2Nat.id by lia. lia.
  - rewrite Z2Nat.nonpos by lia. cbn. assert (d / st < -1) by lia.
    assert (d < 0) by (apply Z.nle_gt; intros Hd; pose proof (Z.div_pos d st); lia). lia.
Qed.
End Grid.

(** ** The reference enumeration of free slots *)

Definition free_slots (intervals : list Slot) (busy : list BlockedPeriod)
    (duration before after step : Z) (now : time) : list Slot :=
  flat_map (λ i, omap (slot_at i busy duration before after now)
                   (grid i duration after step (Slot_StartAt i))) intervals.

Lemma Available_free_slots intervals blocked occupied duration before after step now :
  0 < Minutes step →
  Available intervals blocked occupied duration before after step now
  = Some (free_slots intervals (blocked ++ occupied) duration before after step now).
Proof.
  intros Hst. induction intervals as [|i l IH]; cbn [Available]; [done|].
  rewrite Available_loop_spec by (try done; by apply Available_fuel_enough).
  by rewrite IH.
Qed.

(** What [slot_at] checks, in minutes that do not overflow. *)
Lemma slot_at_spec i busy duration before after now start s :
  0 <= duration <= 2 ^ 25 → 0 <= before <= 2 ^ 25 → 0 <= after <= 2 ^ 25 →
  slot_at i busy duration before after now start = Some s ↔
  s = mkSlot start (start + duration * Minute) ∧
  Slot_StartAt i <= start - before * Minute ∧ now < start ∧
  ∀ x, x ∈ busy →
    start + (duration + after) * Minute <= BlockedPeriod_StartAt x ∨
    BlockedPeriod_EndAt x <= start - before * Minute.
Proof.
  intros Hd Hb Ha. unfold slot_at, Add.
  assert (int64 (int64 (- before) * Minute) = - before * Minute) as ->.
  { rewrite (int64_id (- before)), int64_id; unfold in_int64, Minute, Second; lia. }
  rewrite (int64_id (duration + after)) by (unfold in_int64; lia).
  rewrite !Minutes_exact by lia. unfold Before, After.
  destruct (_ || _) eqn:E1; [|destruct (existsb _ _) eqn:E2].
  - split; [done|]. intros (_ & H1 & H2 & _). apply orb_true_iff in E1 as [E1|E1]; bsimpl; lia.
  - split; [done|]. intros (_ & _ & _ & H). apply existsb_elem in E2 as (x & Hx & Hc).
    specialize (H x Hx). unfold clashes, Before, After in Hc. bsimpl. lia.
  - bsimpl. rewrite existsb_none in E2. split.
    + intros [= <-]. repeat split; [lia..|]. intros x Hx. specialize (E2 x Hx).
      unfold clashes, Before, After in E2. apply andb_false_iff in E2 as [E2|E2]; bsimpl; lia.
    + by intros (-> & _).
Qed.

Lemma elem_of_free_slots intervals busy duration before after step now s :
  0 < Minutes step →
  s ∈ free_slots intervals busy duration before after step now ↔
  ∃ i k, i ∈ intervals ∧ 0 <= k ∧
    Slot_StartAt i + k * Minutes step + Minutes (int64 (duration + after)) <= Slot_EndAt i ∧
    slot_at i busy duration before after now (Slot_StartAt i + k * Minutes step) = Some s.
Proof.
  intros Hst. unfold free_slots. rewrite list_elem_of_In, in_flat_map.
  setoid_rewrite <- list_elem_of_In. setoid_rewrite list_elem_of_omap.
  setoid_rewrite elem_of_grid; [|done]. split.
  - intros (i & Hi & x & (k & Hk & -> & Hle) & Hs). by exists i, k.
  - intros (i & k & Hi & Hk & Hle & Hs). exists i. split; [done|]. eexists; eauto 6.
Qed.

(** Order of the slots. *)
Definition starts_before (s t : Slot) : Prop := Slot_StartAt s < Slot_StartAt t.

Lemma slot_at_start i busy duration before after now start s :
  slot_at i busy duration before after now start = Some s → Slot_StartAt s = start.
Proof. unfold slot_at. intros H. split_match_in H; by simplify_eq. Qed.

Lemma grid_slots_sorted i busy duration before after step now start :
  0 < Minutes step →
  StronglySorted starts_before
    (omap (slot_at i busy duration before after now) (grid i duration after step start)).
Proof.
  intros Hst. unfold grid. generalize 0 at 1.
  set (n := (_ / _ + 1)). generalize n; clear n. intros n.
  destruct (Z.le_gt_cases n 0) as [Hn|Hn]; [by intros z; rewrite seqZ_nil by lia; constructor|].
  pose proof (Z2Nat.id n ltac:(lia)) as <-. generalize (Z.to_nat n); clear n Hn; intros n.
  induction n as [|n IH]; intros z; [by rewrite seqZ_nil by lia; constructor|].
  rewrite seqZ_cons by lia. replace (Z.pred (Z.of_nat (S n))) with (Z.of_nat n) by lia.
  specialize (IH (Z.succ z)). cbn. destruct (slot_at _ _ _ _ _ _ _) eqn:E; [|exact IH].
  constructor; [exact IH|]. apply Forall_forall. intros t Ht.
  apply list_elem_of_omap in Ht as (x & Hx & Hs).
  apply list_elem_of_In, in_map_iff in Hx as (k & <- & Hk). apply list_elem_of_In, elem_of_seqZ in Hk.
  apply slot_at_start in E, Hs. unfold starts_before. rewrite E, Hs. nia.
Qed.

Lemma StronglySorted_app {A} (R : relation A) l k :
  StronglySorted R l → StronglySorted R k → (∀ x y, x ∈ l → y ∈ k → R x y) →
  StronglySorted R (l ++ k).
Proof.
  induction 1 as [|x l Hl IH Hx]; intros Hk Hlk; [done|]. cbn. constructor.
  - apply IH; [done|]. set_solver.
  - apply Forall_app. split; [done|]. apply Forall_forall. set_solver.
Qed.

(** ** Windows *)

Definition window_ok (s : Slot) : Prop := Slot_StartAt s < Slot_EndAt s.
Definition window_before (s t : Slot) : Prop := Slot_EndAt s <= Slot_StartAt t.

Lemma window_spec date zone v s :
  window date zone v = Some s ↔
  0 <= parseWall (Interval_Start v) ∧ 0 <= parseWall (Interval_End v) ∧
  s = mkSlot (Date (civil zone date) zone + parseWall (Interval_Start v))
             (Date (civil zone date) zone + parseWall (Interval_End v)).
Proof.
  unfold window, wall, Add. destruct (negb _) eqn:E.
  - split; [done|]. intros (H1 & H2 & _). lia.
  - bsimpl. split; [by intros [= <-]|by intros (_ & _ & ->)].
Qed.

Lemma windows_ordered date zone l :
  ValidIntervals l = true →
  Forall window_ok (omap (window date zone) l) ∧
  StronglySorted window_before (omap (window date zone) l).
Proof.
  unfold ValidIntervals. rewrite ValidIntervals_loop_spec by done. intros (Hok & _ & Hs).
  split.
  - apply Forall_forall. intros s Hs'. apply list_elem_of_omap in Hs' as (v & Hv & Hw).
    apply window_spec in Hw as (_ & _ & ->). rewrite Forall_forall in Hok.
    destruct (Hok v Hv). unfold window_ok; cbn. lia.
  - induction Hs as [|v l Hl IH Hv]; [constructor|]. apply Forall_cons in Hok as [_ Hok].
    cbn -[window]. destruct (window date zone v) as [s|] eqn:E; [|auto]. constructor; [auto|].
    apply Forall_forall. intros t Ht. apply list_elem_of_omap in Ht as (w & Hw & Ht).
    apply window_spec in E as (_ & _ & ->). apply window_spec in Ht as (_ & _ & ->).
    rewrite Forall_forall in Hv. specialize (Hv w Hw). unfold wall_before in Hv.
    unfold window_before; cbn. lia.
Qed.

Lemma free_slots_sorted intervals busy duration before after step now :
  0 < Minutes step → 0 < Minutes (int64 (duration + after)) →
  0 <= before <= 2 ^ 25 →
  Forall window_ok intervals → StronglySorted window_before intervals →
  StronglySorted starts_before (free_slots intervals busy duration before after step now).
Proof.
  intros Hst HL Hb Hok Hs. induction Hs as [|i l Hl IH Hi]; cbn; [constructor|].
  apply Forall_cons in Hok as [_ Hok].
  apply StronglySorted_app; [by apply grid_slots_sorted|by apply IH|].
  intros s t Hsin Ht. apply list_elem_of_omap in Hsin as (x & Hx & Hs).
  apply elem_of_grid in Hx as (k & Hk & -> & Hle); [|done].
  apply elem_of_free_slots in Ht as (j & k' & Hj & Hk' & Hle' & Ht); [|done].
  apply slot_at_start in Hs, Ht. unfold starts_before. rewrite Hs, Ht.
  rewrite Forall_forall in Hi. specialize (Hi j Hj). unfold window_before in Hi. nia.
Qed.

(** The intervals of a date are those of one list of wall-clock intervals. *)
Lemma IntervalsForDate_cases hours over date zone :
  IntervalsForDate hours over date zone =
    omap (window date zone)
      (if Override_ID over ==? uuid_Nil then intervals_of_weekday hours (Weekday zone date)
       else if Override_Kind over ==? "custom_hours"%string then Override_Intervals over
       else []).
Proof.
  unfold IntervalsForDate. destruct (Override_ID over ==? uuid_Nil); cbn; [done|].
  by destruct (Override_Kind over ==? "custom_hours"%string).
Qed.

Lemma intervals_of_weekday_valid hours d :
  Forall (λ w, ValidIntervals (Intervals_ w) = true) hours →
  ValidIntervals (intervals_of_weekday hours d) = true.
Proof. induction 1 as [|w l Hw _ IH]; cbn; [done|]. by destruct (Weekday_ w =? d). Qed.

(** The enumeration in exact arithmetic. *)
Lemma elem_of_free_slots_exact intervals busy duration before after step now s :
  0 <= duration <= 2 ^ 25 → 0 <= before <= 2 ^ 25 → 0 <= after <= 2 ^ 25 →
  1 <= step <= 2 ^ 26 →
  s ∈ free_slots intervals busy duration before after step now ↔
    ∃ i k start, i ∈ intervals ∧ 0 <= k ∧ start = Slot_StartAt i + k * (step * Minute) ∧
      s = mkSlot start (start + duration * Minute) ∧
      Slot_StartAt i <= start - before * Minute ∧
      start + (duration + after) * Minute <= Slot_EndAt i ∧
      now < start ∧
      ∀ x, x ∈ busy →
        start + (duration + after) * Minute <= BlockedPeriod_StartAt x ∨
        BlockedPeriod_EndAt x <= start - before * Minute.
Proof.
  intros Hd Hb Ha Hs.
  assert (0 < Minutes step) as Hst by (rewrite Minutes_exact; unfold Minute, Second; lia).
  rewrite elem_of_free_slots by done. rewrite (Minutes_exact step) by lia.
  rewrite (int64_id (duration + after)) by (unfold in_int64; lia).
  rewrite (Minutes_exact (duration + after)) by lia.
  split.
  - intros (i & k & Hi & Hk & Hle & Hsl). apply slot_at_spec in Hsl; [|done..].
    destruct Hsl as (-> & Hlo & Hnow & Hbusy).
    exists i, k, (Slot_StartAt i + k * (step * Minute)). by repeat split.
  - intros (i & k & start & Hi & Hk & -> & Heq & Hlo & Hhi & Hnow & Hbusy).
    exists i, k. rewrite slot_at_spec by done. by repeat split.
Qed.

Lemma step_positive step : 1 <= step <= 2 ^ 26 → 0 < Minutes step.
Proof. intros. rewrite Minutes_exact; unfold Minute, Second; lia. Qed.

(** The slots of a date with validated hours. *)
Lemma free_slots_for_date_sorted hours over date zone busy duration before after step now :
  Forall (λ w, ValidIntervals (Intervals_ w) = true) hours →
  ValidIntervals (Override_Intervals over) = true →
  0 <= duration <= 2 ^ 25 → 0 <= before <= 2 ^ 25 → 0 <= after <= 2 ^ 25 →
  1 <= duration + after → 1 <= step <= 2 ^ 26 →
  StronglySorted starts_before
    (free_slots (IntervalsForDate hours over date zone) busy duration before after step now).
Proof.
  intros Hh Ho Hd Hb Ha Hda Hs. rewrite IntervalsForDate_cases.
  assert (0 < Minutes (int64 (duration + after))) as HL.
  { rewrite (int64_id (duration + after)) by (unfold in_int64; lia).
    rewrite Minutes_exact; unfold Minute, Second; lia. }
  match goal with |- context [omap _ ?l] => assert (ValidIntervals l = true) as Hv end.
  { split_match; [by apply intervals_of_weekday_valid|done|done]. }
  apply (windows_ordered date zone) in Hv as [].
  apply free_slots_sorted; try done. by apply step_positive.
Qed.

Lemma starts_before_NoDup l : StronglySorted starts_before l → NoDup l.
Proof.
  induction 1 as [|s l Hl IH Hsl]; constructor; [|done].
  intros Hin. rewrite Forall_forall in Hsl. specialize (Hsl s Hin). unfold starts_before in Hsl. lia.
Qed.

(** * Properties *)

(** C13: [Available] terminates for every positive booking interval and returns
    exactly the bookable slots: a slot is offered if and only if its start lies
    on the step grid of a working window, lies in the future, leaves room for
    the service and the buffers inside the window, and its whole occupancy
    (buffers included) is disjoint from every blocked and occupied period. *)
Theorem Available_exact intervals blocked occupied duration before after step now :
  0 <= duration <= 2 ^ 25 → 0 <= before <= 2 ^ 25 → 0 <= after <= 2 ^ 25 →
  1 <= step <= 2 ^ 26 →
  ∃ out, Available intervals blocked occupied duration before after step now = Some out ∧
  ∀ s, s ∈ out ↔
    ∃ i k start, i ∈ intervals ∧ 0 <= k ∧ start = Slot_StartAt i + k * (step * Minute) ∧
      s = mkSlot start (start + duration * Minute) ∧
      Slot_StartAt i <= start - before * Minute ∧
      start + (duration + after) * Minute <= Slot_EndAt i ∧
      now < start ∧
      ∀ x, x ∈ blocked ++ occupied →
        start + (duration + after) * Minute <= BlockedPeriod_StartAt x ∨
        BlockedPeriod_EndAt x <= start - before * Minute.
Proof.
  intros Hd Hb Ha Hs. eexists; split; [by apply Available_free_slots, step_positive|].
  intros s. by apply elem_of_free_slots_exact.
Qed.

Definition ex_window : Slot := mkSlot (9 * Hour) (11 * Hour).
Definition ex_occupied : BlockedPeriod := mkBlockedPeriod 7%N (9 * Hour + 30 * Minute) (10 * Hour).

Lemma Available_exact_witness :
  (∃ out, Available [ex_window] [] [ex_occupied] 30 0 0 30 0 = Some out ∧
     mkSlot (10 * Hour) (10 * Hour + 30 * Minute) ∈ out).
Proof.
  destruct (Available_exact [ex_window] [] [ex_occupied] 30 0 0 30 0
              ltac:(lia) ltac:(lia) ltac:(lia) ltac:(lia)) as (out & Heq & Hspec).
  exists out. split; [exact Heq|]. apply Hspec.
  exists ex_window, 2, (10 * Hour). split; [by constructor|].
  unfold ex_window, Hour, Minute, Second; cbn. repeat split; try lia.
  intros x Hx. right. apply list_elem_of_singleton in Hx as ->. cbn.
  unfold Hour, Minute, Second. lia.
Defined.

(** for validated working hours, validated override intervals and a service
    that occupies at least a minute, the slots offered for a date come in
    strictly increasing order of their start, so none is offered twice. *)
Theorem Available_for_date_increasing hours over date zone blocked occupied
    duration before after step now :
  Forall (λ w, ValidIntervals (Intervals_ w) = true) hours →
  ValidIntervals (Override_Intervals over) = true →
  0 <= duration <= 2 ^ 25 → 0 <= before <= 2 ^ 25 → 0 <= after <= 2 ^ 25 →
  1 <= duration + after → 1 <= step <= 2 ^ 26 →
  ∃ out, Available (IntervalsForDate hours over date zone) blocked occupied
           duration before after step now = Some out ∧
    StronglySorted starts_before out ∧ NoDup out.
Proof.
  intros Hh Ho Hd Hb Ha Hda Hs. eexists; split; [by apply Available_free_slots, step_positive|].
  pose proof (free_slots_for_date_sorted hours over date zone (blocked ++ occupied)
    duration before after step now Hh Ho Hd Hb Ha Hda Hs). split; [done|by apply starts_before_NoDup].
Qed.

Definition ex_hours : WorkingHoursInput :=
  [mkWorkingDay 4 [mkInterval "09:00" "12:00"; mkInterval "13:00" "17:30"]].

Lemma Available_for_date_increasing_witness :
  ∃ out, Available (IntervalsForDate ex_hours zero_Override 0 UTC) [] [] 30 0 10 15 0
         = Some out ∧ StronglySorted starts_before out ∧ NoDup out.
Proof.
  apply (Available_for_date_increasing ex_hours zero_Override 0 UTC [] [] 30 0 10 15 0);
    try lia; [|reflexivity].
  repeat constructor.
Defined.

(** [ValidIntervals] accepts exactly the lists of intervals whose bounds
    parse as wall-clock times, whose start is before their end, and which are
    in order without overlapping. *)
Theorem ValidIntervals_iff l :
  ValidIntervals l = true ↔ Forall wall_ok l ∧ StronglySorted wall_before l.
Proof.
  unfold ValidIntervals. rewrite ValidIntervals_loop_spec by done.
  split; [tauto|]. intros [Hok Hs]. repeat split; try done.
  eapply Forall_impl; [exact Hok|]. unfold wall_ok. intros v Hv. cbn in *. lia.
Qed.
