(* ===== verification/SchedulingRepo.v ===== *)
(** * SchedulingRepo: scheduling-service, package [repository]

    The scheduling database ([migrations/000002...up.sql]: working hours,
    overrides with their intervals, blocked periods, and their constraints) and
    every operation of [internal/repository/repository.go]. *)
From S2P Require Import Prelude Effects GoTime Http Availability.

Local Open Scope Z_scope.

(** ** PostgreSQL's text input *)

(** [::time] (microseconds since midnight), [::date] (day number) and
    [date::text]. *)
Class PgText := mkPgText {
  pg_time : string -> option Z;
  pg_date : string -> option Z;
  pg_date_text : Z -> string
}.

(** 0001-01-01: the input syntax of dates has no year 0. *)
Definition first_day : Z := -719162.

(** PostgreSQL reads the texts the service accepts as the same time of day and
    the same date. *)
Class PgTextLaws `{PgText} := {
  pg_time_wall : ∀ s, 0 <= parseWall s → pg_time s = Some (parseWall s / Microsecond);
  pg_date_iso : ∀ s day, parse_date s = Some day → first_day <= day → pg_date s = Some day
}.

(** ** Tables *)

Record hours_row := mkHoursRow {
  wh_id : uuid; wh_tenant : uuid; wh_barber : uuid; wh_weekday : Z; wh_start : Z; wh_end : Z
}.

Record override_row := mkOverrideRow {
  or_id : uuid; or_tenant : uuid; or_barber : uuid; or_date : Z; or_kind : string; or_updated : time
}.

Record interval_row := mkIntervalRow {
  oi_id : uuid; oi_tenant : uuid; oi_override : uuid; oi_barber : uuid; oi_date : Z;
  oi_start : Z; oi_end : Z
}.

Record block_row := mkBlockRow {
  bp_id : uuid; bp_tenant : uuid; bp_barber : uuid; bp_start : time; bp_end : time
}.

Record sdb := mkSdb {
  working_hours : list hours_row;
  schedule_overrides : list override_row;
  override_intervals : list interval_row;
  blocked_periods : list block_row
}.

#[export] Instance hours_row_eq_dec : EqDecision hours_row.
Proof. solve_decision. Defined.
#[export] Instance override_row_eq_dec : EqDecision override_row.
Proof. solve_decision. Defined.
#[export] Instance interval_row_eq_dec : EqDecision interval_row.
Proof. solve_decision. Defined.
#[export] Instance block_row_eq_dec : EqDecision block_row.
Proof. solve_decision. Defined.

Definition set_hours l (d : sdb) : sdb :=
  mkSdb l (schedule_overrides d) (override_intervals d) (blocked_periods d).
Definition set_overrides l (d : sdb) : sdb :=
  mkSdb (working_hours d) l (override_intervals d) (blocked_periods d).
Definition set_intervals l (d : sdb) : sdb :=
  mkSdb (working_hours d) (schedule_overrides d) l (blocked_periods d).
Definition set_blocks l (d : sdb) : sdb :=
  mkSdb (working_hours d) (schedule_overrides d) (override_intervals d) l.

Definition empty_sdb : sdb := mkSdb [] [] [] [].

(** ** Constraints *)

Definition hours_overlap (a b : hours_row) : bool :=
  (wh_tenant a ==? wh_tenant b) && (wh_barber a ==? wh_barber b) && (wh_weekday a =? wh_weekday b)
  && (wh_start a <? wh_end b) && (wh_start b <? wh_end a).

Definition interval_overlap (a b : interval_row) : bool :=
  (oi_tenant a ==? oi_tenant b) && (oi_barber a ==? oi_barber b) && (oi_date a =? oi_date b)
  && (oi_start a <? oi_end b) && (oi_start b <? oi_end a).

Definition kinds : list string := ["unavailable"; "vacation"; "custom_hours"]%string.

(** The foreign key of an interval: (tenant_id, override_id, barber_id,
    override_date). *)
Definition references (i : interval_row) (o : override_row) : bool :=
  (oi_tenant i ==? or_tenant o) && (oi_override i ==? or_id o) && (oi_barber i ==? or_barber o)
  && (oi_date i =? or_date o).

(** ** Statements *)

Definition insert_hours (tx : uuid) (r : hours_row) (d : sdb) : res pg_error (unit * sdb) :=
  if wh_tenant r !=? tx then Err RlsViolation
  else if negb ((0 <=? wh_weekday r) && (wh_weekday r <=? 6) && (wh_start r <? wh_end r))
  then Err CheckViolation
  else if existsb (λ x, wh_id x ==? wh_id r) (working_hours d) then Err UniqueViolation
  else if existsb (hours_overlap r) (working_hours d) then Err ExclusionViolation
  else Ok (tt, set_hours (working_hours d ++ [r]) d).

(** The (tenant_id, barber_id, override_date) key. *)
Definition same_day (a b : override_row) : bool :=
  (or_tenant a ==? or_tenant b) && (or_barber a ==? or_barber b) && (or_date a =? or_date b).

Definition insert_override (tx : uuid) (r : override_row) (d : sdb)
  : res pg_error (override_row * sdb) :=
  if or_tenant r !=? tx then Err RlsViolation
  else if negb (bool_decide (or_kind r ∈ kinds)) then Err CheckViolation
  else if existsb (λ x, or_id x ==? or_id r) (schedule_overrides d) then Err UniqueViolation
  else if existsb (same_day r) (schedule_overrides d) then Err UniqueViolation
  else Ok (r, set_overrides (schedule_overrides d ++ [r]) d).

(** The UPDATE of an override; referencing intervals keep the old key, since
    the foreign key has no ON UPDATE action. *)
Definition update_override (tx t b id : uuid) (f : override_row -> override_row) (d : sdb)
  : res pg_error (override_row * sdb) :=
  match head (sel (rls or_tenant tx (λ r, (or_tenant r ==? t) && (or_barber r ==? b) && (or_id r ==? id)))
                (schedule_overrides d)) with
  | None => Err NoRows
  | Some r =>
      if negb (bool_decide (or_kind (f r) ∈ kinds)) then Err CheckViolation
      else if existsb (λ x, (or_id x !=? or_id r) && same_day (f r) x) (schedule_overrides d)
      then Err UniqueViolation
      else if existsb (λ i, references i r && negb (references i (f r))) (override_intervals d)
      then Err ForeignKeyViolation
      else Ok (f r, set_overrides (upd (λ x, or_id x ==? or_id r) f (schedule_overrides d)) d)
  end.

Definition insert_interval (tx : uuid) (r : interval_row) (d : sdb) : res pg_error (unit * sdb) :=
  if oi_tenant r !=? tx then Err RlsViolation
  else if negb (oi_start r <? oi_end r) then Err CheckViolation
  else if existsb (λ x, oi_id x ==? oi_id r) (override_intervals d) then Err UniqueViolation
  else if existsb (interval_overlap r) (override_intervals d) then Err ExclusionViolation
  else if negb (existsb (references r) (schedule_overrides d)) then Err ForeignKeyViolation
  else Ok (tt, set_intervals (override_intervals d ++ [r]) d).

Definition insert_block (tx : uuid) (r : block_row) (d : sdb) : res pg_error (block_row * sdb) :=
  if bp_tenant r !=? tx then Err RlsViolation
  else if negb (bp_start r <? bp_end r) then Err CheckViolation
  else if existsb (λ x, bp_id x ==? bp_id r) (blocked_periods d) then Err UniqueViolation
  else Ok (r, set_blocks (blocked_periods d ++ [r]) d).

(** ** Operations *)

Inductive srepo_error := SNotFound | SPg (e : pg_error).
#[export] Instance srepo_error_eq_dec : EqDecision srepo_error.
Proof. solve_decision. Defined.
#[export] Instance srepo_from_pg : FromPg srepo_error := SPg.

Abbreviation SM := (IO sdb srepo_error).

(** [fmt.Sprintf("%02d:%02d", minutes/60, minutes%60)] *)
Definition timeText (microseconds : Z) : string :=
  let minutes := Z.quot microseconds (Z.quot Minute Microsecond) in
  string_of_list_ascii (digits2 (Z.quot minutes 60) ++ colon :: digits2 (Z.rem minutes 60)).

Section Operations.
Context `{PgText}.

(** One INSERT of [ReplaceHours]; the casts are evaluated first. *)
Definition insert_hours_text (tx t b id : uuid) (weekday : Z) (v : Interval) : SM unit :=
  stmt (λ d,
    match pg_time (Interval_Start v), pg_time (Interval_End v) with
    | Some s, Some e => insert_hours tx (mkHoursRow id t b weekday s e) d
    | _, _ => Err InvalidText
    end).

(** The inner loop over the intervals of a day; [gen n] is the id the server
    draws for the n-th row of the operation. *)
Fixpoint insert_day (gen : nat -> uuid) (n : nat) (tx t b : uuid) (weekday : Z) (l : list Interval)
  : SM nat :=
  match l with
  | [] => mret n
  | v :: l' =>
      insert_hours_text tx t b (gen n) weekday v ;;
      insert_day gen (S n) tx t b weekday l'
  end.

Fixpoint insert_days (gen : nat -> uuid) (n : nat) (tx t b : uuid) (l : WorkingHoursInput) : SM nat :=
  match l with
  | [] => mret n
  | d :: l' =>
      n' ← insert_day gen n tx t b (Weekday_ d) (Intervals_ d);
      insert_days gen n' tx t b l'
  end.

Definition hours_of (t b : uuid) (r : hours_row) : bool := (wh_tenant r ==? t) && (wh_barber r ==? b).

Definition SRepository_ReplaceHours (gen : nat -> uuid) (t b : uuid) (input : WorkingHoursInput)
  : SM unit :=
  WithTenantTx t (λ tx,
    stmt (λ d, Ok (tt, set_hours (del (rls wh_tenant tx (hours_of t b)) (working_hours d)) d)) ;;
    insert_days gen 0 tx t b input ;;
    mret tt).

(** ORDER BY weekday, start_time *)
Definition hours_key (r : hours_row) : Z := wh_weekday r * 10 ^ 12 + wh_start r.

(** [out[i].Intervals = append(...)] for the day [d], which [idx] may not know
    yet: the day is appended then. *)
Fixpoint add_interval (d : Z) (v : Interval) (out : WorkingHoursInput) : WorkingHoursInput :=
  match out with
  | [] => [mkWorkingDay d [v]]
  | w :: out' =>
      if Weekday_ w =? d then mkWorkingDay d (Intervals_ w ++ [v]) :: out'
      else w :: add_interval d v out'
  end.

Definition group_hours (rows : list hours_row) : WorkingHoursInput :=
  fold_left (λ out row,
    add_interval (wh_weekday row) (mkInterval (timeText (wh_start row)) (timeText (wh_end row))) out)
    rows [].

(** The query ListWorkingHours of sqlc. *)
Definition ListWorkingHours (tx t b : uuid) (d : sdb) : list hours_row :=
  order_by hours_key (sel (rls wh_tenant tx (hours_of t b)) (working_hours d)).

Definition SRepository_Hours (t b : uuid) : SM WorkingHoursInput :=
  WithTenantTx t (λ tx,
    rows ← query (ListWorkingHours tx t b);
    mret (group_hours rows)).

Definition overrides_of (t b : uuid) (r : override_row) : bool :=
  (or_tenant r ==? t) && (or_barber r ==? b).

Definition scan_override (r : override_row) : Override :=
  mkOverride (or_id r) (pg_date_text (or_date r)) (or_kind r) [].

Definition scan_interval (i : interval_row) : Interval :=
  mkInterval (timeText (oi_start i)) (timeText (oi_end i)).

(** The intervals of an override, ORDER BY start_time. *)
Definition select_intervals (tx t id : uuid) : SM (list Interval) :=
  query (λ d, map scan_interval (order_by oi_start
    (sel (rls oi_tenant tx (λ i, (oi_tenant i ==? t) && (oi_override i ==? id))) (override_intervals d)))).

Definition set_override_intervals (l : list Interval) (o : Override) : Override :=
  mkOverride (Override_ID o) (Override_Date o) (Override_Kind o) l.

(** The second loop of [Overrides]. *)
Fixpoint fill_overrides (tx t : uuid) (l : list Override) : SM (list Override) :=
  match l with
  | [] => mret []
  | o :: l' =>
      ivs ← select_intervals tx t (Override_ID o);
      rest ← fill_overrides tx t l';
      mret (set_override_intervals ivs o :: rest)
  end.

Definition SRepository_Overrides (t b : uuid) : SM (list Override) :=
  WithTenantTx t (λ tx,
    out ← query (λ d, map scan_override (order_by or_date
            (sel (rls or_tenant tx (overrides_of t b)) (schedule_overrides d))));
    fill_overrides tx t out).

Fixpoint insert_override_intervals (gen : nat -> uuid) (n : nat) (tx t b oid : uuid) (date : string)
    (l : list Interval) : SM unit :=
  match l with
  | [] => mret tt
  | v :: l' =>
      stmt (λ d,
        match pg_date date, pg_time (Interval_Start v), pg_time (Interval_End v) with
        | Some day, Some s, Some e => insert_interval tx (mkIntervalRow (gen n) t oid b day s e) d
        | _, _, _ => Err InvalidText
        end) ;;
      insert_override_intervals gen (S n) tx t b oid date l'
  end.

(** [now] is the transaction's [now()]; [oid] the id of a new override. *)
Definition SRepository_SaveOverride (gen : nat -> uuid) (oid : uuid) (now : time) (t b id : uuid)
    (input : OverrideInput) : SM Override :=
  WithTenantTx t (λ tx,
    r ← attempt (stmt (λ d,
          match pg_date (OverrideInput_Date input) with
          | None => Err InvalidText
          | Some day =>
              if id !=? uuid_Nil
              then update_override tx t b id
                     (λ r, mkOverrideRow (or_id r) (or_tenant r) (or_barber r) day
                             (OverrideInput_Kind input) now) d
              else insert_override tx (mkOverrideRow oid t b day (OverrideInput_Kind input) now) d
          end));
    match r with
    | Err (SPg NoRows) => io_fail SNotFound
    | Err e => io_fail e
    | Ok row =>
        stmt (λ d, Ok (tt, set_intervals (del (rls oi_tenant tx
                (λ i, (oi_tenant i ==? t) && (oi_override i ==? or_id row))) (override_intervals d)) d)) ;;
        insert_override_intervals gen 0 tx t b (or_id row) (OverrideInput_Date input)
          (OverrideInput_Intervals input) ;;
        mret (set_override_intervals (OverrideInput_Intervals input) (scan_override row))
    end).

(** [tag.RowsAffected() == 0] is ErrNotFound. *)
Definition affected (n : nat) : SM unit := if (n =? 0)%nat then io_fail SNotFound else mret tt.

(** ON DELETE CASCADE removes the intervals. *)
Definition SRepository_DeleteOverride (t b id : uuid) : SM unit :=
  WithTenantTx t (λ tx,
    let p := rls or_tenant tx (λ r, overrides_of t b r && (or_id r ==? id)) in
    n ← stmt (λ d,
      let gone := sel p (schedule_overrides d) in
      Ok (length gone,
          mkSdb (working_hours d) (del p (schedule_overrides d))
            (del (λ i, existsb (references i) gone) (override_intervals d)) (blocked_periods d)));
    affected n).

Definition blocks_of (t b : uuid) (r : block_row) : bool := (bp_tenant r ==? t) && (bp_barber r ==? b).

Definition scan_block (r : block_row) : BlockedPeriod := mkBlockedPeriod (bp_id r) (bp_start r) (bp_end r).

Definition SRepository_Blocks (t b : uuid) : SM (list BlockedPeriod) :=
  WithTenantTx t (λ tx,
    query (λ d, map scan_block (order_by bp_start
      (sel (rls bp_tenant tx (blocks_of t b)) (blocked_periods d))))).

Definition SRepository_SaveBlock (id : uuid) (t b : uuid) (input : BlockedPeriodInput)
  : SM BlockedPeriod :=
  WithTenantTx t (λ tx,
    r ← stmt (insert_block tx (mkBlockRow id t b (pg_ts (BlockedPeriodInput_StartAt input))
                                 (pg_ts (BlockedPeriodInput_EndAt input))));
    mret (scan_block r)).

Definition SRepository_DeleteBlock (t b id : uuid) : SM unit :=
  WithTenantTx t (λ tx,
    let p := rls bp_tenant tx (λ r, blocks_of t b r && (bp_id r ==? id)) in
    n ← stmt (λ d, Ok (length (sel p (blocked_periods d)),
                       set_blocks (del p (blocked_periods d)) d));
    affected n).

(** [date] is a local midnight of [zone]: the override is looked up by its
    civil date, the blocks by the instants of the day. *)
Definition SRepository_Day (t b : uuid) (date : time) (zone : Location)
  : SM (Override * list BlockedPeriod) :=
  WithTenantTx t (λ tx,
    r ← attempt (stmt (λ d,
          match head (sel (rls or_tenant tx (λ r, overrides_of t b r && (or_date r =? civil zone date)))
                        (schedule_overrides d)) with
          | Some r => Ok (r, d)
          | None => Err NoRows
          end));
    o ← match r with
        | Err (SPg NoRows) => mret zero_Override
        | Err e => io_fail e
        | Ok row =>
            ivs ← select_intervals tx t (or_id row);
            mret (set_override_intervals ivs (scan_override row))
        end;
    blocks ← query (λ d, map scan_block
      (sel (rls bp_tenant tx (λ r, blocks_of t b r && (bp_start r <? pg_ts (AddDays zone date 1))
                                   && (pg_ts date <? bp_end r))) (blocked_periods d)));
    mret (o, blocks)).
End Operations.

(** * Lemmas *)

(** ** Times of day *)

(** A whole minute of a day, in microseconds. *)
Definition minute_of_day (us : Z) : Prop := ∃ n, 0 <= n < 1440 ∧ us = n * (60 * 1000000).

Lemma parse_timeText us : minute_of_day us → parseWall (timeText us) = us * Microsecond.
Proof.
  intros (n & Hn & ->).
  assert (parse_15_04 (timeText (n * (60 * 1000000))) = Some (n / 60, n mod 60)) as E.
  { assert (0 <= n / 60 <= 23) by (split; [apply Z.div_pos; lia|];
      assert (n / 60 < 24) by (apply Z.div_lt_upper_bound; lia); lia).
    pose proof (Z.mod_pos_bound n 60 ltac:(lia)) as Hm.
    unfold timeText. change (Z.quot Minute Microsecond) with (60 * 1000000).
    rewrite Z.quot_mul by lia. rewrite Z.quot_div_nonneg, Z.rem_mod_nonneg by lia.
    unfold parse_15_04. rewrite list_ascii_of_string_of_list_ascii.
    rewrite getnum_digits2 by lia. cbn [mbind option_bind].
    destruct (Z.ltb_spec (n / 60) 24) as [_|]; [|lia]. cbn [negb skip].
    rewrite bool_decide_refl. cbn [mbind option_bind].
    rewrite <- (app_nil_r (digits2 (n mod 60))), getnum_digits2 by lia. cbn [mbind option_bind].
    destruct (Z.ltb_spec (n mod 60) 60) as [_|]; [done|lia]. }
  apply parseWall_value in E as (_ & _ & ->). unfold Hour, Minute, Second, Microsecond.
  pose proof (Z.div_mod n 60 ltac:(lia)). lia.
Qed.

Section Texts.
Context `{PgTextLaws}.

(** The database reads a validated wall-clock text as the minute it denotes. *)
Lemma pg_time_valid s : 0 <= parseWall s →
  ∃ us, pg_time s = Some us ∧ minute_of_day us ∧ us * Microsecond = parseWall s.
Proof.
  intros Hs. exists (parseWall s / Microsecond). split; [by apply pg_time_wall|].
  destruct (parseWall_range s) as [|(n & Hn & ->)]; [lia|].
  replace (n * Minute) with (n * (60 * 1000000) * Microsecond) by (unfold Minute, Second, Microsecond; lia).
  rewrite Z.div_mul by (unfold Microsecond; lia). split; [by exists n|done].
Qed.
End Texts.

(** ** Disjoint spans in order *)
Section Spans.
Context {R : Type} (start end_ : R -> Z).

Lemma spans_ordered l :
  NoDup l → StronglySorted (key_le start) l → (∀ x, x ∈ l → start x < end_ x) →
  (∀ x y, x ∈ l → y ∈ l → x ≠ y → end_ x <= start y ∨ end_ y <= start x) →
  StronglySorted (λ x y, end_ x <= start y) l.
Proof.
  intros Hnd Hs. induction Hs as [|x l Hl IH Hx]; intros Hok Hd; [constructor|].
  apply NoDup_cons in Hnd as [Hxl Hnd]. constructor.
  - apply IH; [done|..]; intros; [apply Hok|apply Hd]; set_solver.
  - apply Forall_forall. intros y Hy. rewrite Forall_forall in Hx. specialize (Hx y Hy).
    unfold key_le in Hx. pose proof (Hok y ltac:(set_solver)).
    destruct (Hd x y) as [|Hyx]; [set_solver..|lia|lia].
Qed.

(** Rows with whole minutes become valid intervals. *)
Lemma spans_valid (scan : R -> Interval) l :
  (∀ x, scan x = mkInterval (timeText (start x)) (timeText (end_ x))) →
  (∀ x, x ∈ l → minute_of_day (start x) ∧ minute_of_day (end_ x) ∧ start x < end_ x) →
  StronglySorted (λ x y, end_ x <= start y) l → ValidIntervals (map scan l) = true.
Proof.
  intros Hscan Hok Hs. unfold ValidIntervals. rewrite ValidIntervals_loop_spec by done.
  assert (∀ x, x ∈ l → wall_ok (scan x) ∧ -1 <= parseWall (Interval_Start (scan x))) as Hw.
  { intros x Hx. destruct (Hok x Hx) as (H1 & H2 & Hlt). unfold wall_ok. rewrite Hscan; cbn [Interval_Start Interval_End].
    rewrite !parse_timeText by done. destruct H1 as (n & ? & E1), H2 as (m & ? & E2).
    unfold Microsecond. lia. }
  split; [|split].
  - apply Forall_map, Forall_forall. intros x Hx. by apply Hw.
  - apply Forall_map, Forall_forall. intros x Hx. by apply Hw.
  - clear Hw. induction Hs as [|x l Hl IH Hx]; cbn; constructor.
    + apply IH. intros y Hy. apply Hok. set_solver.
    + apply Forall_map, Forall_forall. intros y Hy. rewrite Forall_forall in Hx.
      destruct (Hok x ltac:(set_solver)) as (_ & Hex & _), (Hok y ltac:(set_solver)) as (Hsy & _ & _).
      unfold wall_before. rewrite !Hscan; cbn [Interval_Start Interval_End]. rewrite !parse_timeText by done.
      specialize (Hx y Hy). unfold Microsecond. cbn in Hx. lia.
Qed.
End Spans.

(** ** Grouping by weekday *)

Definition scan_hours (r : hours_row) : Interval :=
  mkInterval (timeText (wh_start r)) (timeText (wh_end r)).

Lemma intervals_add_interval d v out w :
  intervals_of_weekday (add_interval d v out) w
  = intervals_of_weekday out w ++ (if d =? w then [v] else []).
Proof.
  induction out as [|x out IH]; cbn; [by destruct (d =? w)|].
  destruct (Weekday_ x =? d) eqn:E; cbn.
  - apply Z.eqb_eq in E. rewrite E. destruct (d =? w); by rewrite ?app_nil_r.
  - destruct (Weekday_ x =? w) eqn:E'; [|done]. destruct (d =? w) eqn:E2; [lia|]. by rewrite app_nil_r.
Qed.

(** The intervals of a weekday are those of its rows, in the rows' order. *)
Lemma intervals_group_hours rows w :
  intervals_of_weekday (group_hours rows) w
  = map scan_hours (sel (λ r, wh_weekday r =? w) rows).
Proof.
  unfold group_hours. rewrite <- (app_nil_l (map _ _)).
  change [] with (intervals_of_weekday [] w) at 2. generalize ([] : WorkingHoursInput).
  induction rows as [|r rows IH]; intros out; cbn; [by rewrite app_nil_r|].
  rewrite IH, intervals_add_interval. rewrite <- app_assoc. f_equal. by destruct (wh_weekday r =? w).
Qed.

Lemma group_hours_weekdays rows :
  NoDup (map Weekday_ (group_hours rows)) ∧
  ∀ w, w ∈ map Weekday_ (group_hours rows) ↔ w ∈ map wh_weekday rows.
Proof.
  assert (∀ out d v w, w ∈ map Weekday_ (add_interval d v out) ↔ w ∈ map Weekday_ out ∨ w = d) as Hel.
  { induction out as [|x out IH]; intros d v w; cbn; [set_solver|].
    destruct (Weekday_ x =? d) eqn:E; cbn; [apply Z.eqb_eq in E; set_solver|].
    rewrite !elem_of_cons, IH. tauto. }
  assert (∀ out d v, NoDup (map Weekday_ out) → NoDup (map Weekday_ (add_interval d v out))) as Hnd.
  { induction out as [|x out IH]; intros d v H; cbn; [by apply NoDup_singleton|].
    destruct (Weekday_ x =? d) eqn:E; cbn; [apply Z.eqb_eq in E; by subst|].
    apply NoDup_cons in H as [Hx H]. apply NoDup_cons. split; [|by apply IH].
    rewrite Hel. intros [|]; [done|lia]. }
  unfold group_hours.
  assert (∀ out, NoDup (map Weekday_ out) →
    NoDup (map Weekday_ (fold_left (λ out row, add_interval (wh_weekday row) (scan_hours row) out) rows out)) ∧
    ∀ w, w ∈ map Weekday_ (fold_left (λ out row, add_interval (wh_weekday row) (scan_hours row) out) rows out)
         ↔ w ∈ map Weekday_ out ∨ w ∈ map wh_weekday rows) as H.
  { induction rows as [|r rows IH]; intros out Hout; cbn; [set_solver|].
    destruct (IH _ (Hnd _ (wh_weekday r) (scan_hours r) Hout)) as [H1 H2]. split; [done|].
    intros w. rewrite H2, Hel, elem_of_cons. tauto. }
  destruct (H [] (NoDup_nil_2)) as [H1 H2]. split; [exact H1|]. intros w. rewrite (H2 w). set_solver.
Qed.

(** ** Writing and reading working hours *)

(** The loops of [ReplaceHours] as one loop over (weekday, interval). *)
Definition flat_hours (input : WorkingHoursInput) : list (Z * Interval) :=
  flat_map (λ d, map (pair (Weekday_ d)) (Intervals_ d)) input.

Definition wall_us (v : Interval) : Z * Z :=
  (parseWall (Interval_Start v) / Microsecond, parseWall (Interval_End v) / Microsecond).

Fixpoint flat_rows (gen : nat -> uuid) (n : nat) (t b : uuid) (l : list (Z * Interval))
  : list hours_row :=
  match l with
  | [] => []
  | (w, v) :: l' => mkHoursRow (gen n) t b w (wall_us v).1 (wall_us v).2 :: flat_rows gen (S n) t b l'
  end.

(** The wall-clock values of a list of intervals, whatever their spelling. *)
Definition walls (l : list Interval) : list (Z * Z) :=
  map (λ v, (parseWall (Interval_Start v), parseWall (Interval_End v))) l.

(** What the application checks of the hours it stores. *)
Definition hours_valid (input : WorkingHoursInput) : Prop :=
  Forall (λ d, 0 <= Weekday_ d <= 6 ∧ ValidIntervals (Intervals_ d) = true) input.

Definition apart (p q : Z * Interval) : Prop := p.1 ≠ q.1 ∨ wall_before p.2 q.2.

Lemma flat_hours_ok input :
  hours_valid input → Forall (λ p, 0 <= p.1 <= 6 ∧ wall_ok p.2) (flat_hours input).
Proof.
  intros H. apply Forall_forall. intros [w v] Hin. apply list_elem_of_In, in_flat_map in Hin as (d & Hd & Hin).
  apply in_map_iff in Hin as (v' & [= <- <-] & Hv). apply list_elem_of_In in Hd, Hv.
  unfold hours_valid in H. rewrite Forall_forall in H. destruct (H d Hd) as [Hw Hok].
  unfold ValidIntervals in Hok. rewrite ValidIntervals_loop_spec in Hok by done. destruct Hok as [Hok _].
  rewrite Forall_forall in Hok. cbn. auto.
Qed.

Lemma flat_hours_apart input :
  hours_valid input → NoDup (map Weekday_ input) → StronglySorted apart (flat_hours input).
Proof.
  intros H. induction H as [|d l [_ Hd] Hl IH]; intros Hnd; cbn; [constructor|].
  apply NoDup_cons in Hnd as [Hx Hnd]. apply StronglySorted_app; [|by apply IH|].
  - unfold ValidIntervals in Hd. rewrite ValidIntervals_loop_spec in Hd by done.
    destruct Hd as (_ & _ & Hs). clear -Hs. induction Hs as [|v l _ IH Hv]; cbn; constructor; [done|].
    apply Forall_map. eapply Forall_impl; [exact Hv|]. intros w Hw. by right.
  - intros p q Hp Hq. left. apply list_elem_of_In, in_map_iff in Hp as (v & <- & _). cbn.
    apply list_elem_of_In, in_flat_map in Hq as (d' & Hd' & Hq). apply in_map_iff in Hq as (v' & <- & _).
    cbn. intros E. apply Hx. rewrite E. apply list_elem_of_In, in_map, Hd'.
Qed.

Section Write.
Context `{PgTextLaws} (gen : nat -> uuid) (t b : uuid).

Fixpoint insert_flat (n : nat) (l : list (Z * Interval)) : SM nat :=
  match l with
  | [] => mret n
  | (w, v) :: l' => insert_hours_text t t b (gen n) w v ;; insert_flat (S n) l'
  end.

Lemma insert_flat_app n l k fs d :
  (n' ← insert_flat n l; insert_flat n' k) fs d = insert_flat n (l ++ k) fs d.
Proof.
  revert n fs d. induction l as [|[w v] l IH]; intros n fs d; cbn [insert_flat app]; [done|].
  rewrite !bind_eq. destruct (insert_hours_text _ _ _ _ _ _ fs d) as [[[]|e] [fs' d']]; [|done].
  rewrite <- IH. by rewrite bind_eq.
Qed.

Lemma insert_day_flat n w l fs d :
  insert_day gen n t t b w l fs d = insert_flat n (map (pair w) l) fs d.
Proof.
  revert n fs d. induction l as [|v l IH]; intros n fs d; cbn [insert_day insert_flat map]; [done|].
  rewrite !bind_eq. destruct (insert_hours_text _ _ _ _ _ _ fs d) as [[[]|e] [fs' d']]; [apply IH|done].
Qed.

Lemma insert_days_flat n input fs d :
  insert_days gen n t t b input fs d = insert_flat n (flat_hours input) fs d.
Proof.
  revert n fs d. induction input as [|x input IH]; intros n fs d; [done|].
  cbn [insert_days flat_hours flat_map]. rewrite <- insert_flat_app, !bind_eq, insert_day_flat.
  destruct (insert_flat _ _ fs d) as [[]?] eqn:E; [|done]. destruct p as [fs' d']. apply IH.
Qed.

Lemma det_insert_hours_text id w v : det (insert_hours_text t t b id w v).
Proof. apply det_stmt. Qed.

Lemma det_insert_flat n l : det (insert_flat n l).
Proof.
  revert n. induction l as [|[w v] l IH]; intros n; cbn [insert_flat]; [apply det_ret|].
  apply det_bind; [apply det_insert_hours_text|intros []; apply IH].
Qed.

(** The INSERTs succeed when the intervals do not overlap each other or the
    barber's rows, and append one row each. *)
Lemma run_insert_flat n l d :
  (∀ i j, gen i = gen j → i = j) →
  (∀ i x, (n <= i)%nat → x ∈ working_hours d → wh_id x ≠ gen i) →
  Forall (λ p, 0 <= p.1 <= 6 ∧ wall_ok p.2) l → StronglySorted apart l →
  (∀ x p, x ∈ working_hours d → wh_tenant x = t → wh_barber x = b → p ∈ l → wh_weekday x = p.1 →
     wh_end x <= (wall_us p.2).1) →
  run (insert_flat n l) d
  = (Ok (n + length l)%nat, set_hours (working_hours d ++ flat_rows gen n t b l) d).
Proof.
  intros Hinj. revert n d. induction l as [|[w v] l IH]; intros n d Hid Hok Hs Hov; cbn [insert_flat flat_rows].
  { rewrite run_ret, app_nil_r, Nat.add_0_r. by destruct d. }
  apply Forall_cons in Hok as [[Hw [Hv0 Hv1]] Hok]. apply StronglySorted_inv in Hs as [Hs Hv]. cbn in Hw, Hv0, Hv1.
  destruct (pg_time_valid (Interval_Start v)) as (us & Hps & (a & Ha & ->) & Hus); [done|].
  destruct (pg_time_valid (Interval_End v)) as (ue & Hpe & (c & Hc & ->) & Hue); [lia|].
  assert (wall_us v = (a * (60 * 1000000), c * (60 * 1000000))) as Hwall.
  { unfold wall_us. by rewrite <- Hus, <- Hue, !Z.div_mul. }
  set (r := mkHoursRow (gen n) t b w (a * (60 * 1000000)) (c * (60 * 1000000))).
  assert (run (insert_hours_text t t b (gen n) w v) d = (Ok tt, set_hours (working_hours d ++ [r]) d)) as E.
  { unfold insert_hours_text. rewrite run_stmt, Hps, Hpe. fold r. unfold insert_hours.
    rewrite bool_decide_refl; cbn [negb wh_tenant r]. cbn [wh_weekday wh_start wh_end r].
    replace (negb _) with false by (unfold Microsecond in *; lia).
    rewrite (proj2 (existsb_fresh wh_id (gen n) _)) by (intros; by apply Hid).
    replace (existsb _ _) with false; [done|]. symmetry. apply existsb_none. intros x Hx.
    unfold hours_overlap; cbn [wh_tenant wh_barber wh_weekday wh_start wh_end r].
    destruct (t ==? wh_tenant x) eqn:E1; [|done]. destruct (b ==? wh_barber x) eqn:E2; [|done].
    destruct (w =? wh_weekday x) eqn:E3; [|done]. bsimpl. apply Z.eqb_eq in E3. cbn.
    specialize (Hov x (w, v) Hx ltac:(done) ltac:(done) ltac:(set_solver) ltac:(done)).
    cbn [fst snd] in Hov. rewrite Hwall in Hov. cbn in Hov. apply andb_false_iff. left. apply Z.ltb_ge. lia. }
  rewrite run_bind, E by apply det_insert_hours_text. cbn [working_hours set_hours].
  rewrite IH; clear IH; [|..].
  - rewrite Hwall. cbn [set_hours working_hours]. rewrite <- app_assoc. cbn. f_equal. f_equal. lia.
  - intros i x Hi [Hx|Hx%list_elem_of_singleton]%elem_of_app; [apply Hid; [lia|done]|].
    subst x. cbn. intros Hg%Hinj. lia.
  - done.
  - done.
  - intros x p [Hx|Hx%list_elem_of_singleton]%elem_of_app Ht Hb Hp Hwd.
    + apply Hov; set_solver.
    + subst x. cbn in Hwd |- *. rewrite Forall_forall in Hv. destruct (Hv p Hp) as [|Hv'].
      { cbn in *. congruence. } unfold wall_before in Hv'. cbn in Hv'. unfold wall_us; cbn.
      apply Z.div_le_lower_bound; unfold Microsecond in *; lia.
Qed.

(** The rows of a weekday carry the intervals of that weekday. *)
Lemma walls_flat_rows n l w :
  Forall (λ p, 0 <= p.1 <= 6 ∧ wall_ok p.2) l →
  walls (map scan_hours (sel (λ r, wh_weekday r =? w) (flat_rows gen n t b l)))
  = walls (map snd (sel (λ p, p.1 =? w) l)).
Proof.
  revert n. induction l as [|[w' v] l IH]; intros n Hok; [done|].
  apply Forall_cons in Hok as [[_ [Hv0 Hv1]] Hok]. cbn [fst snd] in *.
  cbn [flat_rows sel List.filter wh_weekday fst]. specialize (IH (S n) Hok). unfold sel in *.
  destruct (w' =? w); [|exact IH]. cbn [map walls scan_hours wh_start wh_end Interval_Start Interval_End snd].
  unfold walls in *. cbn [map Interval_Start Interval_End]. f_equal; [|exact IH].
  destruct (pg_time_valid (Interval_Start v)) as (us & _ & Hus & Es); [done|].
  destruct (pg_time_valid (Interval_End v)) as (ue & _ & Hue & Ee); [lia|].
  assert (wall_us v = (us, ue)) as -> by (unfold wall_us; by rewrite <- Es, <- Ee, !Z.div_mul).
  cbn [fst snd]. rewrite !parse_timeText by done. by rewrite Es, Ee.
Qed.
End Write.

Lemma intervals_flat_hours input w :
  NoDup (map Weekday_ input) →
  map snd (sel (λ p, p.1 =? w) (flat_hours input)) = intervals_of_weekday input w.
Proof.
  assert (∀ d (l : list Interval),
    map snd (sel (λ p, p.1 =? w) (map (pair d) l)) = if d =? w then l else []) as Hd.
  { intros d l. induction l as [|v l IH]; cbn; [by destruct (d =? w)|].
    unfold sel in IH. destruct (d =? w); cbn; by rewrite IH. }
  induction input as [|d input IH]; intros Hnd; [done|]. cbn [flat_hours flat_map intervals_of_weekday].
  apply NoDup_cons in Hnd as [Hx Hnd]. rewrite sel_app, map_app, Hd. destruct (Weekday_ d =? w) eqn:E.
  - apply Z.eqb_eq in E. rewrite sel_nothing; [by rewrite app_nil_r|]. intros p Hp.
    apply list_elem_of_In, in_flat_map in Hp as (d' & Hd' & Hp). apply in_map_iff in Hp as (v & <- & _). cbn.
    apply Z.eqb_neq. intros E'. apply Hx. rewrite E, <- E'. apply list_elem_of_In, in_map, Hd'.
  - by apply IH.
Qed.

Section Read.
Context `{PgTextLaws} (gen : nat -> uuid) (t b : uuid).

Lemma elem_of_flat_rows n l x :
  x ∈ flat_rows gen n t b l →
  wh_tenant x = t ∧ wh_barber x = b ∧
  ∃ p, p ∈ l ∧ wh_weekday x = p.1 ∧ (wh_start x, wh_end x) = wall_us p.2.
Proof.
  revert n. induction l as [|[w v] l IH]; intros n; cbn; [set_solver|].
  intros [->|Hx]%elem_of_cons.
  - cbn. repeat split. exists (w, v). split; [by constructor|done].
  - destruct (IH _ Hx) as (? & ? & p & ? & ?). repeat split; [done..|]. exists p. split; [set_solver|done].
Qed.

Lemma wall_us_lt v w : wall_ok v → wall_ok w → wall_before v w → (wall_us v).1 < (wall_us w).1.
Proof.
  unfold wall_ok, wall_before, wall_us. intros [Hv Hv'] [Hw Hw'] Hvw. cbn [fst].
  destruct (pg_time_valid _ Hv) as (a & _ & _ & Ea), (pg_time_valid _ Hw) as (c & _ & _ & Ec).
  rewrite <- Ea, <- Ec, !Z.div_mul by done. unfold Microsecond in *. lia.
Qed.

Lemma flat_rows_sorted n l w :
  Forall (λ p, 0 <= p.1 <= 6 ∧ wall_ok p.2) l → StronglySorted apart l →
  StronglySorted (key_lt hours_key) (sel (λ r, wh_weekday r =? w) (flat_rows gen n t b l)).
Proof.
  intros Hok Hs. revert n. induction Hs as [|[w' v] l Hs IH Hv]; intros n; [constructor|].
  apply Forall_cons in Hok as [[_ Hvok] Hok]. specialize (IH Hok (S n)).
  cbn [flat_rows sel List.filter wh_weekday]. destruct (w' =? w) eqn:E; [|exact IH].
  constructor; [exact IH|]. apply Forall_forall. intros x [Hw Hx]%elem_of_sel.
  apply elem_of_flat_rows in Hx as (_ & _ & p & Hp & Hpw & Hpu).
  rewrite Forall_forall in Hv, Hok. destruct (Hok p Hp) as [_ Hpok].
  destruct (Hv p Hp) as [Hne|Hb]; [cbn in Hne; lia|]. cbn [snd] in *.
  pose proof (wall_us_lt _ _ Hvok Hpok Hb) as Hlt. rewrite <- Hpu in Hlt.
  unfold key_lt, hours_key. cbn [wh_weekday wh_start]. cbn [fst] in Hlt. lia.
Qed.

Lemma del_rls_hours (l : list hours_row) :
  del (rls wh_tenant t (hours_of t b)) l = del (hours_of t b) l
  ∧ sel (rls wh_tenant t (hours_of t b)) l = sel (hours_of t b) l.
Proof.
  destruct (rls_tenant wh_tenant t (hours_of t b)) as [Hs Hd]; [|done].
  unfold hours_of. intros r Hr. by bsimpl.
Qed.

Lemma det_ReplaceHours_body input :
  det (stmt (λ d, Ok (tt, set_hours (del (rls wh_tenant t (hours_of t b)) (working_hours d)) d)) ;;
       insert_days gen 0 t t b input ;; mret (M:=SM) tt).
Proof.
  solve_det. unfold det, run. setoid_rewrite insert_days_flat. apply det_insert_flat.
Qed.

Lemma run_ReplaceHours input d :
  (∀ i j, gen i = gen j → i = j) → (∀ i x, x ∈ working_hours d → wh_id x ≠ gen i) →
  hours_valid input → NoDup (map Weekday_ input) →
  run (SRepository_ReplaceHours gen t b input) d
  = (Ok tt, set_hours (del (hours_of t b) (working_hours d) ++ flat_rows gen 0 t b (flat_hours input)) d).
Proof.
  intros Hinj Hid Hv Hnd. unfold SRepository_ReplaceHours.
  rewrite run_tx by apply det_ReplaceHours_body.
  rewrite run_bind, run_stmt by apply det_stmt.
  assert (det (insert_days gen 0 t t b input)) as Hdet.
  { unfold det, run. setoid_rewrite insert_days_flat. apply det_insert_flat. }
  rewrite run_bind by exact Hdet. unfold run at 1. rewrite insert_days_flat.
  change (match insert_flat gen t b 0 (flat_hours input) [] ?d0 with (r, (_, d')) => (r, d') end)
    with (run (insert_flat gen t b 0 (flat_hours input)) d0).
  rewrite run_insert_flat; [| done | | by apply flat_hours_ok | by apply flat_hours_apart |].
  - rewrite run_ret. cbn [set_hours working_hours]. by rewrite (proj1 (del_rls_hours _)).
  - intros i x _ Hx. cbn [set_hours working_hours] in Hx. apply elem_of_del in Hx as [_ Hx]. auto.
  - intros x p Hx Ht Hb. exfalso. cbn [set_hours working_hours] in Hx. rewrite (proj1 (del_rls_hours _)) in Hx.
    apply elem_of_del in Hx as [Hx _]. unfold hours_of in Hx. by rewrite Ht, Hb, !bool_decide_refl in Hx.
Qed.

Lemma run_Hours d :
  run (SRepository_Hours t b) d
  = (Ok (group_hours (order_by hours_key (sel (hours_of t b) (working_hours d)))), d).
Proof.
  unfold SRepository_Hours. rewrite run_tx by solve_det. rewrite run_bind by apply det_query.
  unfold query. unfold ListWorkingHours. rewrite run_stmt, run_ret. by rewrite (proj2 (del_rls_hours _)).
Qed.

(** Replacing the hours and reading them back. *)
Lemma ReplaceHours_Hours input d :
  (∀ i j, gen i = gen j → i = j) → (∀ i x, x ∈ working_hours d → wh_id x ≠ gen i) →
  hours_valid input → NoDup (map Weekday_ input) →
  ∃ d' out, run (SRepository_ReplaceHours gen t b input) d = (Ok tt, d') ∧
    run (SRepository_Hours t b) d' = (Ok out, d') ∧
    ∀ w, walls (intervals_of_weekday out w) = walls (intervals_of_weekday input w).
Proof.
  intros Hinj Hid Hv Hnd. eexists _, _. split; [by apply run_ReplaceHours|].
  split; [apply run_Hours|]. intros w. cbn [set_hours working_hours].
  rewrite intervals_group_hours, sel_app.
  rewrite (sel_nothing _ (del _ _)) by (intros x [Hx _]%elem_of_del; exact Hx).
  rewrite (sel_all _ (flat_rows _ _ _ _ _)).
  2:{ intros x (Ht & Hb & _)%elem_of_flat_rows. unfold hours_of. by rewrite Ht, Hb, !bool_decide_refl. }
  cbn [app]. rewrite (sel_order_by hours_key _ _ _ (reflexivity _)).
  - rewrite walls_flat_rows by (by apply flat_hours_ok). by rewrite intervals_flat_hours.
  - by apply flat_rows_sorted; [apply flat_hours_ok|apply flat_hours_apart].
Qed.
End Read.

(** ** The invariant of the database *)

Section Table.
Context {R : Type} (idf : R -> uuid) (row : R -> Prop) (clash : R -> R -> bool).

Definition table_ok (l : list R) : Prop :=
  NoDup (map idf l) ∧ Forall row l ∧ ∀ x y, x ∈ l → y ∈ l → x ≠ y → clash x y = false.

Lemma table_ok_nil : table_ok [].
Proof. repeat split; [constructor|constructor|set_solver]. Qed.

Lemma table_ok_sel p l : table_ok l → table_ok (sel p l).
Proof.
  intros (Hid & Hrow & Hc). repeat split.
  - by apply NoDup_map_sel.
  - rewrite Forall_forall in *. intros x [_ Hx]%elem_of_sel. auto.
  - intros x y [_ Hx]%elem_of_sel [_ Hy]%elem_of_sel. auto.
Qed.

Lemma table_ok_del p l : table_ok l → table_ok (del p l).
Proof. apply (table_ok_sel (λ x, negb (p x))). Qed.

Context (Hsym : ∀ x y, clash x y = clash y x).

Lemma table_ok_snoc l r :
  table_ok l → row r → (∀ x, x ∈ l → idf x ≠ idf r) → (∀ x, x ∈ l → clash r x = false) →
  table_ok (l ++ [r]).
Proof.
  intros (Hid & Hrow & Hc) Hr Hfresh Hclash. repeat split.
  - rewrite map_app. apply NoDup_app. repeat split; [done| |by apply NoDup_singleton].
    intros u Hu. apply list_elem_of_In, in_map_iff in Hu as (x & <- & Hx). apply list_elem_of_In in Hx.
    cbn. intros E%list_elem_of_singleton. by apply (Hfresh x).
  - apply Forall_app. by repeat constructor.
  - intros x y [Hx|Hx%list_elem_of_singleton]%elem_of_app [Hy|Hy%list_elem_of_singleton]%elem_of_app Hne;
      subst; auto; [|done]. rewrite Hsym. auto.
Qed.

Lemma table_ok_upd l r f :
  table_ok l → r ∈ l → (∀ x, idf (f x) = idf x) → row (f r) →
  (∀ x, x ∈ l → idf x ≠ idf r → clash (f r) x = false) →
  table_ok (upd (λ x, idf x ==? idf r) f l).
Proof.
  intros (Hid & Hrow & Hc) Hr Hf Hfr Hclash.
  assert (∀ x, x ∈ upd (λ x, idf x ==? idf r) f l → (x ∈ l ∧ idf x ≠ idf r) ∨ x = f r) as Hel.
  { intros x (y & Hy & ->)%elem_of_upd. destruct (idf y ==? idf r) eqn:E; bsimpl; [|by left].
    right. by rewrite (NoDup_map_eq idf l y r). }
  repeat split.
  - rewrite map_upd; [done|]. intros x _ _. apply Hf.
  - apply Forall_forall. intros x [[Hx _]|Hx]%Hel; subst; [|done]. rewrite Forall_forall in Hrow. auto.
  - intros x y [[Hx Hxr]|Hx]%Hel [[Hy Hyr]|Hy]%Hel Hne; subst; auto; [|done]. rewrite Hsym. auto.
Qed.
End Table.

Definition hours_row_ok (x : hours_row) : Prop :=
  0 <= wh_weekday x <= 6 ∧ minute_of_day (wh_start x) ∧ minute_of_day (wh_end x) ∧ wh_start x < wh_end x.
Definition override_row_ok (x : override_row) : Prop := or_kind x ∈ kinds.
Definition interval_row_ok (x : interval_row) : Prop :=
  minute_of_day (oi_start x) ∧ minute_of_day (oi_end x) ∧ oi_start x < oi_end x.
Definition block_row_ok (x : block_row) : Prop := bp_start x < bp_end x.

Record sched_ok (d : sdb) : Prop := mkSchedOk {
  so_hours : table_ok wh_id hours_row_ok hours_overlap (working_hours d);
  so_overrides : table_ok or_id override_row_ok same_day (schedule_overrides d);
  so_intervals : table_ok oi_id interval_row_ok interval_overlap (override_intervals d);
  so_blocks : table_ok bp_id block_row_ok (λ _ _, false) (blocked_periods d);
  so_refs : ∀ i, i ∈ override_intervals d → ∃ o, o ∈ schedule_overrides d ∧ references i o = true
}.

Definition keeps_ok (d d' : sdb) : Prop := sched_ok d → sched_ok d'.
#[export] Instance keeps_ok_preorder : PreOrder keeps_ok.
Proof. split; [by intros d H|]. intros a b c H1 H2 H. auto. Qed.

Lemma sched_ok_empty : sched_ok empty_sdb.
Proof. constructor; try apply table_ok_nil. cbn. set_solver. Qed.

Lemma bool_decide_sym {A} `{!EqDecision A} (x y : A) : (x ==? y) = (y ==? x).
Proof. by apply bool_decide_ext. Qed.

Lemma hours_overlap_sym x y : hours_overlap x y = hours_overlap y x.
Proof.
  unfold hours_overlap. rewrite (bool_decide_sym (wh_tenant x)), (bool_decide_sym (wh_barber x)), Z.eqb_sym.
  rewrite <- !andb_assoc. do 3 f_equal. apply andb_comm.
Qed.
Lemma interval_overlap_sym x y : interval_overlap x y = interval_overlap y x.
Proof.
  unfold interval_overlap. rewrite (bool_decide_sym (oi_tenant x)), (bool_decide_sym (oi_barber x)), Z.eqb_sym.
  rewrite <- !andb_assoc. do 3 f_equal. apply andb_comm.
Qed.
Lemma same_day_sym x y : same_day x y = same_day y x.
Proof.
  unfold same_day. by rewrite (bool_decide_sym (or_tenant x)), (bool_decide_sym (or_barber x)), Z.eqb_sym.
Qed.

(** Every statement keeps the invariant. *)
Lemma insert_hours_ok tx r d u d' :
  minute_of_day (wh_start r) → minute_of_day (wh_end r) →
  insert_hours tx r d = Ok (u, d') → keeps_ok d d'.
Proof.
  intros Hs He H [Hh Ho Hi Hb Hr]. unfold insert_hours in H. split_match_in H; simplify_eq. consimpl.
  constructor; cbn; [|done..]. apply table_ok_snoc; [apply hours_overlap_sym|done| |done|done].
  unfold hours_row_ok. repeat split; try done; lia.
Qed.

Lemma insert_override_ok tx r d o d' :
  insert_override tx r d = Ok (o, d') → keeps_ok d d'.
Proof.
  intros H [Hh Ho Hi Hb Hr]. unfold insert_override in H. split_match_in H; simplify_eq. consimpl.
  constructor; cbn; [done| |done|done|].
  - by apply table_ok_snoc; [apply same_day_sym|..].
  - intros i Hin. destruct (Hr i Hin) as (x & Hx & Href). exists x. split; [|done]. apply elem_of_app. by left.
Qed.

Lemma update_override_ok tx t b id f d o d' :
  (∀ x, or_id (f x) = or_id x) → update_override tx t b id f d = Ok (o, d') → keeps_ok d d'.
Proof.
  intros Hf H [Hh Ho Hi Hb Hr]. unfold update_override in H.
  destruct (head _) as [r|] eqn:Eh; [|done]. split_match_in H; simplify_eq.
  apply head_sel_Some in Eh as [_ Hin]. consimpl.
  constructor; cbn; [done| |done|done|].
  - apply table_ok_upd; [apply same_day_sym|done..|].
    intros x Hx Hne. specialize (Heqb1 x Hx). apply andb_false_iff in Heqb1 as [E|E]; bsimpl; [done|exact E].
  - intros i Hii. destruct (Hr i Hii) as (x & Hx & Href). specialize (Heqb2 i Hii).
    destruct (decide (or_id x = or_id r)) as [E|E].
    + assert (x = r) as -> by (eapply NoDup_map_eq; [apply Ho|done..]).
      exists (f r). rewrite Href in Heqb2. cbn in Heqb2. bsimpl. split; [|done].
      apply elem_of_upd. exists r. by rewrite bool_decide_refl.
    + exists x. split; [|done]. apply elem_of_upd. exists x. by rewrite bool_decide_false.
Qed.

Lemma insert_interval_ok tx r d u d' :
  minute_of_day (oi_start r) → minute_of_day (oi_end r) →
  insert_interval tx r d = Ok (u, d') → keeps_ok d d'.
Proof.
  intros Hs He H [Hh Ho Hi Hb Hr]. unfold insert_interval in H. split_match_in H; simplify_eq. consimpl.
  constructor; cbn; [done|done| |done|].
  - apply table_ok_snoc; [apply interval_overlap_sym|done|by repeat split|done|done].
  - intros i [Hii|Hii%list_elem_of_singleton]%elem_of_app; [auto|]. subst i.
    apply existsb_elem. done.
Qed.

Lemma insert_block_ok tx r d o d' : insert_block tx r d = Ok (o, d') → keeps_ok d d'.
Proof.
  intros H [Hh Ho Hi Hb Hr]. unfold insert_block in H. split_match_in H; simplify_eq. consimpl.
  constructor; cbn; [done..| |done]. by apply table_ok_snoc.
Qed.

(** ** Every operation keeps the invariant, whatever fails *)
Section Keeps.
Context `{PgTextLaws} (t b : uuid).

Lemma insert_hours_text_keeps tx id w v :
  wall_ok v → step_in keeps_ok (insert_hours_text tx t b id w v).
Proof.
  intros [Hs He]. apply step_in_stmt; [apply _|]. intros d a d'.
  destruct (pg_time_valid (Interval_Start v)) as (us & -> & Hus & _); [done|].
  destruct (pg_time_valid (Interval_End v)) as (ue & -> & Hue & _); [lia|].
  by apply insert_hours_ok.
Qed.

Lemma insert_flat_keeps gen n l :
  Forall (λ p, 0 <= p.1 <= 6 ∧ wall_ok p.2) l → step_in keeps_ok (insert_flat gen t b n l).
Proof.
  intros Hl. revert n. induction Hl as [|[w v] l [_ Hv] _ IH]; intros n; cbn [insert_flat]; [solve_step|].
  apply step_in_bind; [apply _|by apply insert_hours_text_keeps|]. intros _. apply IH.
Qed.

Lemma SRepository_ReplaceHours_keeps gen input :
  hours_valid input → step_in keeps_ok (SRepository_ReplaceHours gen t b input).
Proof.
  intros Hv. unfold SRepository_ReplaceHours. solve_step.
  - apply step_in_stmt; [apply _|]. intros d a d' [= _ <-] [Hh Ho Hi Hb Hr].
    constructor; cbn; [by apply table_ok_del|done..].
  - intros fs d. rewrite insert_days_flat. by apply insert_flat_keeps, flat_hours_ok.
Qed.

Lemma insert_override_intervals_keeps gen n oid date l :
  Forall wall_ok l → step_in keeps_ok (insert_override_intervals gen n t t b oid date l).
Proof.
  intros Hl. revert n. induction Hl as [|v l [Hs He] _ IH]; intros n;
    cbn [insert_override_intervals]; [solve_step|].
  apply step_in_bind; [apply _| |intros _; apply IH].
  apply step_in_stmt; [apply _|]. intros d a d'. destruct (pg_date date) as [day|]; [|done].
  destruct (pg_time_valid (Interval_Start v)) as (us & -> & Hus & _); [done|].
  destruct (pg_time_valid (Interval_End v)) as (ue & -> & Hue & _); [lia|].
  by apply insert_interval_ok.
Qed.

Lemma delete_intervals_keeps p d :
  keeps_ok d (set_intervals (del p (override_intervals d)) d).
Proof.
  intros [Hh Ho Hi Hb Hr]. constructor; cbn; [done|done|by apply table_ok_del|done|].
  intros i [_ Hin]%elem_of_del. auto.
Qed.

Lemma SRepository_SaveOverride_keeps gen oid now id input :
  ValidIntervals (OverrideInput_Intervals input) = true →
  step_in keeps_ok (SRepository_SaveOverride gen oid now t b id input).
Proof.
  unfold ValidIntervals. rewrite ValidIntervals_loop_spec by done. intros (Hok & _).
  unfold SRepository_SaveOverride. solve_step.
  - apply step_in_stmt; [apply _|]. intros d r d'. destruct (pg_date _) as [day|]; [|done].
    destruct (id !=? uuid_Nil); [by apply update_override_ok|apply insert_override_ok].
  - apply step_in_stmt; [apply _|]. intros d u d' [= _ <-]. apply delete_intervals_keeps.
  - by apply insert_override_intervals_keeps.
Qed.

Lemma SRepository_DeleteOverride_keeps id :
  step_in keeps_ok (SRepository_DeleteOverride t b id).
Proof.
  unfold SRepository_DeleteOverride. apply step_in_tx; [apply _|].
  cbv beta zeta. set (p := rls or_tenant t _). apply step_in_bind; [apply _| |unfold affected; solve_step].
  apply step_in_stmt; [apply _|]. intros d u d' [= _ <-] [Hh Ho Hi Hb Hr].
  constructor; cbn; [done|by apply table_ok_del|by apply table_ok_del|done|].
  intros i [Hex Hin]%elem_of_del. destruct (Hr i Hin) as (o & Hoin & Href). exists o. split; [|done].
  apply elem_of_del. split; [|done]. destruct (p o) eqn:E; [|done].
  rewrite existsb_none in Hex. rewrite Hex in Href; [done|]. by apply elem_of_sel.
Qed.

Lemma SRepository_SaveBlock_keeps id input :
  step_in keeps_ok (SRepository_SaveBlock id t b input).
Proof.
  unfold SRepository_SaveBlock. solve_step. apply step_in_stmt; [apply _|].
  intros d u d'. apply insert_block_ok.
Qed.

Lemma SRepository_DeleteBlock_keeps id : step_in keeps_ok (SRepository_DeleteBlock t b id).
Proof.
  unfold SRepository_DeleteBlock. apply step_in_tx; [apply _|].
  cbv beta zeta. set (p := rls bp_tenant t _). apply step_in_bind; [apply _| |unfold affected; solve_step].
  apply step_in_stmt; [apply _|]. intros d u d' [= _ <-] [Hh Ho Hi Hb Hr].
  constructor; cbn; [done..|by apply table_ok_del|done].
Qed.
End Keeps.

(** ** What the reading operations return *)
Section Reads.
Context `{PgText} (t b : uuid).

(** The hours read from a consistent database are hours the application would
    have accepted. *)
Lemma Hours_valid d :
  sched_ok d →
  ∃ out, run (SRepository_Hours t b) d = (Ok out, d) ∧ hours_valid out ∧ NoDup (map Weekday_ out).
Proof.
  intros [(Hid & Hrow & Hdis) _ _ _ _]. eexists. split; [apply run_Hours|].
  set (rows := order_by hours_key (sel (hours_of t b) (working_hours d))).
  assert (∀ x, x ∈ rows → hours_of t b x = true ∧ x ∈ working_hours d) as Hel.
  { intros x Hx. unfold rows in Hx. by rewrite elem_of_order_by, elem_of_sel in Hx. }
  destruct (group_hours_weekdays rows) as [Hnd Hwd]. split; [|done].
  rewrite Forall_forall in Hrow. apply Forall_forall. intros w Hw.
  assert (Weekday_ w ∈ map wh_weekday rows) as Hin.
  { rewrite <- Hwd. by apply list_elem_of_In, in_map, list_elem_of_In. }
  apply list_elem_of_In, in_map_iff in Hin as (x & Ex & Hx). apply list_elem_of_In, Hel in Hx as [_ Hx].
  split; [rewrite <- Ex; apply Hrow, Hx|].
  assert (Intervals_ w = intervals_of_weekday (group_hours rows) (Weekday_ w)) as ->.
  { clear -Hnd Hw. induction (group_hours rows) as [|y l IH]; [set_solver|]. cbn in *.
    apply NoDup_cons in Hnd as [Hy Hnd]. apply elem_of_cons in Hw as [->|Hw]; [by rewrite Z.eqb_refl|].
    destruct (Weekday_ y =? Weekday_ w) eqn:E; [|auto]. apply Z.eqb_eq in E. exfalso. apply Hy. rewrite E.
    by apply list_elem_of_In, in_map, list_elem_of_In. }
  rewrite intervals_group_hours. set (day := sel _ rows).
  assert (∀ y, y ∈ day → wh_weekday y = Weekday_ w ∧ hours_of t b y = true ∧ y ∈ working_hours d) as Hday.
  { intros y [E Hy]%elem_of_sel. apply Z.eqb_eq in E. destruct (Hel y Hy). auto. }
  apply (spans_valid wh_start wh_end); [done| |].
  { intros y Hy. destruct (Hday y Hy) as (_ & _ & Hy'). destruct (Hrow y Hy') as (_ & ? & ? & ?). auto. }
  apply spans_ordered.
  - apply (NoDup_fmap_1 wh_id), NoDup_map_sel. unfold rows. rewrite order_by_perm. by apply NoDup_map_sel.
  - pose proof (StronglySorted_sel _ (λ r, wh_weekday r =? Weekday_ w) _
      (order_by_sorted hours_key (sel (hours_of t b) (working_hours d)))) as Hs. fold rows day in Hs.
    clearbody day. clear -Hs Hday. induction Hs as [|y l _ IH Hy]; constructor.
    + apply IH. intros z Hz. apply Hday. set_solver.
    + rewrite Forall_forall in *. intros z Hz. specialize (Hy z Hz). unfold key_le, hours_key in *.
      destruct (Hday y ltac:(set_solver)) as [Ey _], (Hday z ltac:(set_solver)) as [Ez _]. lia.
  - intros y Hy. destruct (Hday y Hy) as (_ & _ & Hy'). by destruct (Hrow y Hy') as (_ & _ & _ & ?).
  - intros y z Hy Hz Hne. destruct (Hday y Hy) as (Ey & Hy1 & Hy2), (Hday z Hz) as (Ez & Hz1 & Hz2).
    specialize (Hdis y z Hy2 Hz2 Hne). unfold hours_of in Hy1, Hz1. bsimpl.
    unfold hours_overlap in Hdis. rewrite Ey, Ez, Z.eqb_refl in Hdis.
    rewrite !bool_decide_true in Hdis by congruence. cbn in Hdis. lia.
Qed.

(** The override of a day and its intervals. *)
Definition day_override (day : Z) (d : sdb) : option override_row :=
  head (sel (λ r, overrides_of t b r && (or_date r =? day)) (schedule_overrides d)).

Definition intervals_for (id : uuid) (d : sdb) : list Interval :=
  map scan_interval (order_by oi_start
    (sel (λ i, (oi_tenant i ==? t) && (oi_override i ==? id)) (override_intervals d))).

Definition day_blocks (from to : time) (d : sdb) : list BlockedPeriod :=
  map scan_block (sel (λ r, blocks_of t b r && (bp_start r <? to) && (from <? bp_end r))
                    (blocked_periods d)).

Lemma run_select_intervals id d : run (select_intervals t t id) d = (Ok (intervals_for id d), d).
Proof.
  unfold select_intervals, query. rewrite run_stmt. unfold intervals_for.
  rewrite (proj1 (rls_tenant oi_tenant t (λ i, (oi_tenant i ==? t) && (oi_override i ==? id))
                    (λ i Hi, bool_decide_eq_true_1 _ (proj1 (andb_prop _ _ Hi))))). done.
Qed.

Lemma run_Day date zone d :
  run (SRepository_Day t b date zone) d
  = (Ok (match day_override (civil zone date) d with
         | Some r => set_override_intervals (intervals_for (or_id r) d) (scan_override r)
         | None => zero_Override
         end,
         day_blocks (pg_ts date) (pg_ts (AddDays zone date 1)) d), d).
Proof.
  assert (∀ p, (∀ r, p r = true → or_tenant r = t) →
    sel (rls or_tenant t p) (schedule_overrides d) = sel p (schedule_overrides d)) as Ho
    by (intros p Hp; by apply rls_tenant).
  assert (∀ p, (∀ r, p r = true → bp_tenant r = t) →
    sel (rls bp_tenant t p) (blocked_periods d) = sel p (blocked_periods d)) as Hb
    by (intros p Hp; by apply rls_tenant).
  unfold SRepository_Day. rewrite run_tx by (unfold select_intervals; solve_det).
  rewrite run_attempt_bind by (apply det_stmt). rewrite run_stmt.
  rewrite Ho by (unfold overrides_of; intros; bsimpl; done).
  unfold day_override. destruct (head _) as [r|]; cbn [fst snd].
  - rewrite run_bind by (unfold select_intervals; solve_det).
    rewrite run_bind by (unfold select_intervals; solve_det).
    rewrite run_select_intervals, run_ret. rewrite run_bind by solve_det.
    unfold query. rewrite run_stmt, run_ret, Hb; [done|]. unfold blocks_of. intros; by bsimpl.
  - cbn [from_pg srepo_from_pg]. rewrite run_bind by solve_det. rewrite run_ret.
    rewrite run_bind by solve_det.
    unfold query. rewrite run_stmt, run_ret, Hb; [done|]. unfold blocks_of. intros; by bsimpl.
Qed.

(** The intervals of an override read from a consistent database are valid. *)
Lemma intervals_for_valid r d :
  sched_ok d → r ∈ schedule_overrides d → ValidIntervals (intervals_for (or_id r) d) = true.
Proof.
  intros [_ (Hoid & _ & _) (Hid & Hrow & Hdis) _ Href] Hr. unfold intervals_for.
  set (rows := order_by _ _).
  assert (∀ x, x ∈ rows → oi_tenant x = t ∧ oi_barber x = or_barber r ∧ oi_date x = or_date r
          ∧ x ∈ override_intervals d) as Hel.
  { intros x Hx. unfold rows in Hx. rewrite elem_of_order_by, elem_of_sel in Hx. destruct Hx as [Hk Hx].
    destruct (Href x Hx) as (o & Ho & E). unfold references in E. bsimpl.
    assert (o = r) as -> by (eapply NoDup_map_eq; [exact Hoid|done..|congruence]).
    zeqs. repeat split; congruence. }
  rewrite Forall_forall in Hrow.
  apply (spans_valid oi_start oi_end); [done| |].
  { intros x Hx. destruct (Hel x Hx) as (_ & _ & _ & Hx'). exact (Hrow x Hx'). }
  apply spans_ordered.
  - apply (NoDup_fmap_1 oi_id). unfold rows. rewrite order_by_perm. by apply NoDup_map_sel.
  - apply order_by_sorted.
  - intros x Hx. destruct (Hel x Hx) as (_ & _ & _ & Hx'). apply (Hrow x Hx').
  - intros x y Hx Hy Hne. destruct (Hel x Hx) as (? & ? & ? & Hx'), (Hel y Hy) as (? & ? & ? & Hy').
    specialize (Hdis x y Hx' Hy' Hne). unfold interval_overlap in Hdis.
    rewrite !bool_decide_true in Hdis by congruence. lia.
Qed.
End Reads.

(** ** Saving an override *)
Section SaveOverride.
Context `{PgTextLaws} (gen : nat -> uuid) (t b : uuid).

Fixpoint interval_rows (n : nat) (oid : uuid) (day : Z) (l : list Interval) : list interval_row :=
  match l with
  | [] => []
  | v :: l' =>
      mkIntervalRow (gen n) t oid b day (wall_us v).1 (wall_us v).2 :: interval_rows (S n) oid day l'
  end.

Lemma det_insert_override_intervals n oid date l :
  det (insert_override_intervals gen n t t b oid date l).
Proof.
  revert n. induction l as [|v l IH]; intros n; cbn [insert_override_intervals]; [apply det_ret|].
  apply det_bind; [apply det_stmt|intros []; apply IH].
Qed.

Lemma run_insert_override_intervals n o date l d :
  (∀ i j, gen i = gen j → i = j) →
  (∀ i x, (n <= i)%nat → x ∈ override_intervals d → oi_id x ≠ gen i) →
  Forall wall_ok l → StronglySorted wall_before l →
  pg_date date = Some (or_date o) → o ∈ schedule_overrides d → or_tenant o = t → or_barber o = b →
  (∀ x v, x ∈ override_intervals d → oi_tenant x = t → oi_barber x = b → oi_date x = or_date o →
     v ∈ l → oi_end x <= (wall_us v).1) →
  run (insert_override_intervals gen n t t b (or_id o) date l) d
  = (Ok tt, set_intervals (override_intervals d ++ interval_rows n (or_id o) (or_date o) l) d).
Proof.
  intros Hinj Hid Hok Hs Hdate Ho Hot Hob. revert n d Hid Ho Hok.
  induction Hs as [|v l Hs IH Hv]; intros n d Hid Ho Hok Hov; cbn [insert_override_intervals interval_rows].
  { rewrite run_ret, app_nil_r. by destruct d. }
  apply Forall_cons in Hok as [[Hv0 Hv1] Hok].
  destruct (pg_time_valid (Interval_Start v)) as (us & Hps & (a & Ha & ->) & Hus); [done|].
  destruct (pg_time_valid (Interval_End v)) as (ue & Hpe & (c & Hc & ->) & Hue); [lia|].
  assert (wall_us v = (a * (60 * 1000000), c * (60 * 1000000))) as Hwall.
  { unfold wall_us. by rewrite <- Hus, <- Hue, !Z.div_mul. }
  set (r := mkIntervalRow (gen n) t (or_id o) b (or_date o) (a * (60 * 1000000)) (c * (60 * 1000000))).
  rewrite run_bind, run_stmt, Hdate, Hps, Hpe by apply det_stmt. fold r.
  assert (insert_interval t r d = Ok (tt, set_intervals (override_intervals d ++ [r]) d)) as ->.
  { unfold insert_interval. rewrite bool_decide_refl; cbn [negb oi_tenant r]. cbn [oi_start oi_end r].
    replace (negb _) with false by (unfold Microsecond in *; lia).
    rewrite (proj2 (existsb_fresh oi_id (gen n) _)) by (intros; by apply Hid).
    replace (existsb (interval_overlap r) _) with false.
    2:{ symmetry. apply existsb_none. intros x Hx.
        unfold interval_overlap; cbn [oi_tenant oi_barber oi_date oi_start oi_end r].
        destruct (t ==? oi_tenant x) eqn:E1; [|done]. destruct (b ==? oi_barber x) eqn:E2; [|done].
        destruct (or_date o =? oi_date x) eqn:E3; [|done]. bsimpl. apply Z.eqb_eq in E3. cbn.
        specialize (Hov x v Hx ltac:(done) ltac:(done) ltac:(done) ltac:(set_solver)).
        rewrite Hwall in Hov. cbn in Hov. apply andb_false_iff. left. apply Z.ltb_ge. lia. }
    replace (existsb (references r) _) with true; [done|]. symmetry. apply existsb_elem. exists o.
    split; [done|]. unfold references; cbn. by rewrite Hot, Hob, !bool_decide_refl, Z.eqb_refl. }
  cbn [set_intervals override_intervals]. rewrite IH; clear IH; [|..].
  - rewrite Hwall. cbn [set_intervals override_intervals]. by rewrite <- app_assoc.
  - intros i x Hi [Hx|Hx%list_elem_of_singleton]%elem_of_app; [apply Hid; [lia|done]|].
    subst x. cbn. intros Hg%Hinj. lia.
  - done.
  - done.
  - intros x w [Hx|Hx%list_elem_of_singleton]%elem_of_app Ht Hb Hd Hw.
    + apply Hov; set_solver.
    + subst x. cbn in *. rewrite Forall_forall in Hv. specialize (Hv w Hw). unfold wall_before in Hv.
      unfold wall_us; cbn [fst]. apply Z.div_le_lower_bound; unfold Microsecond in *; lia.
Qed.

Lemma elem_of_interval_rows n oid day l x :
  x ∈ interval_rows n oid day l →
  oi_tenant x = t ∧ oi_override x = oid ∧ ∃ v, v ∈ l ∧ oi_start x = (wall_us v).1.
Proof.
  revert n. induction l as [|v l IH]; intros n; cbn; [set_solver|].
  intros [->|Hx]%elem_of_cons; [by repeat split; exists v; split; [constructor|]|].
  destruct (IH _ Hx) as (? & ? & w & ? & ?). repeat split; [done..|]. exists w. split; [set_solver|done].
Qed.

Lemma interval_rows_sorted n oid day l :
  Forall wall_ok l → StronglySorted wall_before l →
  StronglySorted (key_lt oi_start) (interval_rows n oid day l).
Proof.
  intros Hok Hs. revert n. induction Hs as [|v l Hs IH Hv]; intros n; [constructor|].
  apply Forall_cons in Hok as [Hvok Hok]. cbn. constructor; [by apply IH|].
  apply Forall_forall. intros x (_ & _ & w & Hw & E)%elem_of_interval_rows.
  rewrite Forall_forall in Hv, Hok. unfold key_lt. rewrite E. apply wall_us_lt; auto.
Qed.

Lemma walls_interval_rows n oid day l :
  Forall wall_ok l → walls (map scan_interval (interval_rows n oid day l)) = walls l.
Proof.
  intros Hok. revert n. induction Hok as [|v l [Hv0 Hv1] _ IH]; intros n; [done|].
  unfold walls in *. cbn [interval_rows map scan_interval oi_start oi_end Interval_Start Interval_End].
  f_equal; [|apply IH].
  destruct (pg_time_valid (Interval_Start v)) as (us & _ & Hus & Es); [done|].
  destruct (pg_time_valid (Interval_End v)) as (ue & _ & Hue & Ee); [lia|].
  assert (wall_us v = (us, ue)) as -> by (unfold wall_us; by rewrite <- Es, <- Ee, !Z.div_mul).
  cbn [fst snd]. rewrite !parse_timeText by done. by rewrite Es, Ee.
Qed.

(** The rest of [SaveOverride] once the override's row is written: the old
    intervals of the override go, the new ones come. *)
Lemma run_SaveOverride_tail o date l d :
  (∀ i j, gen i = gen j → i = j) → (∀ i x, x ∈ override_intervals d → oi_id x ≠ gen i) →
  ValidIntervals l = true → pg_date date = Some (or_date o) →
  sched_ok d → o ∈ schedule_overrides d → or_tenant o = t → or_barber o = b →
  let d1 := set_intervals (del (λ i, (oi_tenant i ==? t) && (oi_override i ==? or_id o))
                             (override_intervals d)) d in
  let d2 := set_intervals (override_intervals d1 ++ interval_rows 0 (or_id o) (or_date o) l) d1 in
  run (insert_override_intervals gen 0 t t b (or_id o) date l) d1 = (Ok tt, d2) ∧
  walls (intervals_for t (or_id o) d2) = walls l.
Proof.
  intros Hinj Hid Hl Hdate Hok Ho Hot Hob d1 d2.
  unfold ValidIntervals in Hl. rewrite ValidIntervals_loop_spec in Hl by done. destruct Hl as (Hlok & _ & Hls).
  split.
  - apply run_insert_override_intervals; try done.
    + intros i x _ [_ Hx]%elem_of_del. auto.
    + intros x v [Hx Hin]%elem_of_del Ht Hb Hday _. exfalso.
      destruct Hok as [_ (_ & _ & Hsame) _ _ Href]. destruct (Href x Hin) as (o' & Ho' & E).
      unfold references in E. bsimpl. zeqs.
      destruct (decide (o' = o)) as [->|Hne].
      { by rewrite !bool_decide_true in Hx by congruence. }
      specialize (Hsame o' o Ho' Ho Hne). unfold same_day in Hsame.
      rewrite !bool_decide_true in Hsame by congruence. cbn in Hsame. lia.
  - unfold intervals_for. cbn [d1 d2 set_intervals override_intervals]. rewrite sel_app.
    rewrite (sel_nothing _ (del _ _)) by (intros x [Hx _]%elem_of_del; exact Hx).
    rewrite sel_all by (intros x (-> & -> & _)%elem_of_interval_rows; by rewrite !bool_decide_refl).
    cbn [app]. rewrite (order_by_eq oi_start _ _ (reflexivity _)) by (by apply interval_rows_sorted).
    by apply walls_interval_rows.
Qed.

(** [SaveOverride] once its first statement is known. *)
Lemma run_SaveOverride oid now id input d day o d1 :
  pg_date (OverrideInput_Date input) = Some day →
  (if id !=? uuid_Nil
   then update_override t t b id
          (λ r, mkOverrideRow (or_id r) (or_tenant r) (or_barber r) day (OverrideInput_Kind input) now) d
   else insert_override t (mkOverrideRow oid t b day (OverrideInput_Kind input) now) d) = Ok (o, d1) →
  run (SRepository_SaveOverride gen oid now t b id input) d
  = match run (insert_override_intervals gen 0 t t b (or_id o) (OverrideInput_Date input)
                 (OverrideInput_Intervals input))
              (set_intervals (del (λ i, (oi_tenant i ==? t) && (oi_override i ==? or_id o))
                                (override_intervals d1)) d1) with
    | (Ok _, d2) =>
        (Ok (set_override_intervals (OverrideInput_Intervals input) (scan_override o)), d2)
    | (Err e, _) => (Err e, d)
    end.
Proof.
  intros Hdate Hfirst. unfold SRepository_SaveOverride.
  assert (∀ x, det (insert_override_intervals gen 0 t t b x (OverrideInput_Date input)
                 (OverrideInput_Intervals input))) as Hdet by (intros; apply det_insert_override_intervals).
  rewrite run_tx by solve_det. rewrite run_attempt_bind by apply det_stmt.
  rewrite run_stmt, Hdate, Hfirst. cbn [fst snd]. rewrite run_bind, run_stmt by apply det_stmt.
  rewrite (proj2 (rls_tenant oi_tenant t (λ i, (oi_tenant i ==? t) && (oi_override i ==? or_id o))
                    (λ i Hi, bool_decide_eq_true_1 _ (proj1 (andb_prop _ _ Hi))))).
  rewrite run_bind by apply Hdet. destruct (run (insert_override_intervals _ _ _ _ _ _ _ _) _) as [[[]|e] d2]; [|done].
  by rewrite run_ret.
Qed.
End SaveOverride.

(** ** Writes stay within one barber of one tenant *)

Definition intervals_of (t b : uuid) (i : interval_row) : bool :=
  (oi_tenant i ==? t) && (oi_barber i ==? b).

(** The rows of every other barber and tenant are untouched. *)
Record elsewhere (t b : uuid) (d d' : sdb) : Prop := mkElsewhere {
  ew_hours : sel (λ r, negb (hours_of t b r)) (working_hours d') = sel (λ r, negb (hours_of t b r)) (working_hours d);
  ew_overrides : sel (λ r, negb (overrides_of t b r)) (schedule_overrides d')
                 = sel (λ r, negb (overrides_of t b r)) (schedule_overrides d);
  ew_intervals : sel (λ i, negb (intervals_of t b i)) (override_intervals d')
                 = sel (λ i, negb (intervals_of t b i)) (override_intervals d);
  ew_blocks : sel (λ r, negb (blocks_of t b r)) (blocked_periods d')
              = sel (λ r, negb (blocks_of t b r)) (blocked_periods d)
}.
#[export] Instance elsewhere_preorder t b : PreOrder (elsewhere t b).
Proof.
  split; [by intros d; constructor|]. intros d1 d2 d3 [] []. constructor; congruence.
Qed.

Definition sched_good (t b : uuid) (d d' : sdb) : Prop := sched_ok d → sched_ok d' ∧ elsewhere t b d d'.
#[export] Instance sched_good_preorder t b : PreOrder (sched_good t b).
Proof.
  split; [by intros d H; split|]. intros d1 d2 d3 H1 H2 H. destruct (H1 H) as [H' E1].
  destruct (H2 H') as [H'' E2]. split; [done|]. by etrans.
Qed.

Lemma sched_good_intro {A E} t b (m : IO sdb E A) :
  step_in keeps_ok m → step_in (elsewhere t b) m → step_in (sched_good t b) m.
Proof. intros H1 H2 fs d Hd. split; [by apply H1|apply H2]. Qed.

Section Elsewhere.
Context `{PgTextLaws} (t b : uuid).

Lemma insert_hours_elsewhere tx id w st e d u d' :
  insert_hours tx (mkHoursRow id t b w st e) d = Ok (u, d') → elsewhere t b d d'.
Proof.
  unfold insert_hours. intros E. split_match_in E; simplify_eq. constructor; cbn; try done.
  apply sel_snoc_id. unfold hours_of; cbn. by rewrite !bool_decide_refl.
Qed.

Lemma SRepository_ReplaceHours_good gen input :
  hours_valid input → step_in (sched_good t b) (SRepository_ReplaceHours gen t b input).
Proof.
  intros Hv. apply sched_good_intro; [by apply SRepository_ReplaceHours_keeps|].
  unfold SRepository_ReplaceHours. solve_step.
  - apply step_in_stmt; [apply _|]. intros d a d' [= _ <-]. constructor; cbn; try done.
    rewrite (proj1 (del_rls_hours t b _)). apply sel_del_id. intros x _ ->. done.
  - intros fs d. rewrite insert_days_flat. revert fs d.
    change (step_in (elsewhere t b) (insert_flat gen t b 0 (flat_hours input))). generalize 0%nat.
    induction (flat_hours input) as [|[w v] l IH]; intros n; cbn [insert_flat]; [solve_step|].
    apply step_in_bind; [apply _| |intros _; apply IH].
    apply step_in_stmt; [apply _|]. intros d0 u d0'.
    destruct (pg_time _); [|done]. destruct (pg_time _); [|done]. apply insert_hours_elsewhere.
Qed.

Lemma SRepository_DeleteOverride_good id :
  step_in (sched_good t b) (SRepository_DeleteOverride t b id).
Proof.
  apply sched_good_intro; [apply SRepository_DeleteOverride_keeps|].
  unfold SRepository_DeleteOverride. apply step_in_tx; [apply _|]. cbv beta zeta.
  apply step_in_bind; [apply _| |unfold affected; solve_step].
  apply step_in_stmt; [apply _|]. intros d u d' [= _ <-]. constructor; cbn; try done.
  - apply sel_del_id. intros x _. unfold rls, overrides_of. intros Hx. by bsimpl.
  - apply sel_del_id. intros i _ Hi. apply existsb_elem in Hi as (o & Ho & Href).
    apply elem_of_sel in Ho as [Ho _]. unfold rls, overrides_of, references in *. bsimpl.
    unfold intervals_of. bsimpl; congruence.
Qed.

Lemma SRepository_SaveBlock_good id input :
  step_in (sched_good t b) (SRepository_SaveBlock id t b input).
Proof.
  apply sched_good_intro; [apply SRepository_SaveBlock_keeps|].
  unfold SRepository_SaveBlock. solve_step. apply step_in_stmt; [apply _|].
  intros d u d'. unfold insert_block. intros E. split_match_in E; simplify_eq. constructor; cbn; try done.
  apply sel_snoc_id. unfold blocks_of; cbn. by rewrite !bool_decide_refl.
Qed.

Lemma SRepository_DeleteBlock_good id :
  step_in (sched_good t b) (SRepository_DeleteBlock t b id).
Proof.
  apply sched_good_intro; [apply SRepository_DeleteBlock_keeps|].
  unfold SRepository_DeleteBlock. apply step_in_tx; [apply _|]. cbv beta zeta.
  apply step_in_bind; [apply _| |unfold affected; solve_step].
  apply step_in_stmt; [apply _|]. intros d u d' [= _ <-]. constructor; cbn; try done.
  apply sel_del_id. intros x _. unfold rls. intros Hx. bsimpl. done.
Qed.

(** The first statement of [SaveOverride]. *)
Definition save_header (oid : uuid) (now : time) (id : uuid) (day : Z) (kind : string) (d : sdb)
  : res pg_error (override_row * sdb) :=
  if id !=? uuid_Nil
  then update_override t t b id
         (λ r, mkOverrideRow (or_id r) (or_tenant r) (or_barber r) day kind now) d
  else insert_override t (mkOverrideRow oid t b day kind now) d.

Lemma save_header_spec oid now id day kind d o d1 :
  save_header oid now id day kind d = Ok (o, d1) → sched_ok d →
  sched_ok d1 ∧ elsewhere t b d d1 ∧ override_intervals d1 = override_intervals d ∧
  o ∈ schedule_overrides d1 ∧ or_tenant o = t ∧ or_barber o = b ∧ or_date o = day ∧ or_kind o = kind ∧
  (id ≠ uuid_Nil → or_id o = id).
Proof.
  intros E Hd. unfold save_header in E. destruct (id !=? uuid_Nil) eqn:Hid.
  - split; [by eapply update_override_ok; [|exact E|]|]. unfold update_override in E.
    destruct (head _) as [r|] eqn:Eh; [|done]. split_match_in E; simplify_eq.
    apply head_sel_Some in Eh as [Hr Hin]. unfold rls in Hr. bsimpl. split; [|split; [done|split; [|done]]].
    + constructor; cbn; try done. apply sel_upd_id.
      * intros x Hx Ho. bsimpl. intros Eid.
        assert (x = r) as -> by (eapply NoDup_map_eq; [apply Hd|done..]).
        unfold overrides_of in Ho. by rewrite !bool_decide_true in Ho by congruence.
      * intros x Hx Ex. bsimpl. assert (x = r) as -> by (eapply NoDup_map_eq; [apply Hd|done..]).
        unfold overrides_of; cbn. by rewrite !bool_decide_true by congruence.
    + apply elem_of_upd. exists r. by rewrite bool_decide_refl.
  - bsimpl. split; [by eapply insert_override_ok|]. unfold insert_override in E.
    split_match_in E; simplify_eq. split; [|split; [done|split; [|done]]].
    + constructor; cbn; try done. apply sel_snoc_id. unfold overrides_of; cbn. by rewrite !bool_decide_refl.
    + cbn. set_solver.
Qed.

Lemma insert_override_intervals_elsewhere gen n oid date l :
  step_in (elsewhere t b) (insert_override_intervals gen n t t b oid date l).
Proof.
  revert n. induction l as [|v l IH]; intros n; cbn [insert_override_intervals]; [solve_step|].
  apply step_in_bind; [apply _| |intros _; apply IH]. apply step_in_stmt; [apply _|]. intros d u d'.
  destruct (pg_date date); [|done]. do 2 (destruct (pg_time _); [|done]). unfold insert_interval.
  intros E. split_match_in E; simplify_eq. constructor; cbn; try done.
  apply sel_snoc_id. unfold intervals_of; cbn. by rewrite !bool_decide_refl.
Qed.

Lemma atomic_SaveOverride gen oid now id input :
  atomic (SRepository_SaveOverride gen oid now t b id input).
Proof.
  unfold SRepository_SaveOverride.
  assert (∀ x, det (insert_override_intervals gen 0 t t b x (OverrideInput_Date input)
                 (OverrideInput_Intervals input))) by (intros; apply det_insert_override_intervals).
  solve_det.
Qed.

(** A failing first statement is the operation's error. *)
Lemma run_SaveOverride_fails gen oid now id input d e :
  match pg_date (OverrideInput_Date input) with
  | Some day => save_header oid now id day (OverrideInput_Kind input) d = Err e
  | None => e = InvalidText
  end →
  run (SRepository_SaveOverride gen oid now t b id input) d
  = (Err (match e with NoRows => SNotFound | _ => SPg e end), d).
Proof.
  intros Hfirst. unfold SRepository_SaveOverride.
  assert (∀ x, det (insert_override_intervals gen 0 t t b x (OverrideInput_Date input)
                 (OverrideInput_Intervals input))) by (intros; apply det_insert_override_intervals).
  rewrite run_tx by solve_det. rewrite run_attempt_bind by apply det_stmt. rewrite run_stmt.
  destruct (pg_date _) as [day|]; [unfold save_header in Hfirst; rewrite Hfirst; by destruct e|by subst e].
Qed.

Lemma SRepository_SaveOverride_good gen oid now id input :
  ValidIntervals (OverrideInput_Intervals input) = true →
  step_in (sched_good t b) (SRepository_SaveOverride gen oid now t b id input).
Proof.
  intros Hv. refine (step_in_atomic _ _ _ (atomic_SaveOverride gen oid now id input) _). intros d Hd.
  split; [exact (step_in_run _ _ d (SRepository_SaveOverride_keeps t b gen oid now id input Hv) Hd)|].
  destruct (match pg_date (OverrideInput_Date input) with
            | Some day => save_header oid now id day (OverrideInput_Kind input) d
            | None => Err InvalidText
            end) as [[o d1]|e] eqn:E.
  - destruct (pg_date (OverrideInput_Date input)) as [day|] eqn:Hdate; [|done].
    erewrite run_SaveOverride by (exact Hdate || exact E).
    apply save_header_spec in E as (Hd1 & He1 & Hi1 & Ho & Hot & Hob & _); [|done].
    set (d2 := set_intervals _ d1).
    assert (elsewhere t b d d2) as He2.
    { etrans; [exact He1|]. constructor; cbn; try done. apply sel_del_id. intros i Hi Hk. bsimpl.
      destruct (so_refs d1 Hd1 i Hi) as (o' & Ho' & Href). unfold references in Href. bsimpl.
      assert (o' = o) as -> by (eapply NoDup_map_eq; [apply Hd1|done..|congruence]).
      unfold intervals_of. bsimpl; congruence. }
    pose proof (insert_override_intervals_elsewhere gen 0 (or_id o) (OverrideInput_Date input)
                  (OverrideInput_Intervals input) [] d2) as He3. unfold run.
    destruct (insert_override_intervals _ _ _ _ _ _ _ _ [] d2) as [[[]|e] [fs d3]]; [|reflexivity].
    cbn in He3 |- *. by etrans.
  - rewrite (run_SaveOverride_fails gen oid now id input d e); [reflexivity|].
    revert E. destruct (pg_date _); [done|by intros [= <-]].
Qed.
End Elsewhere.
