(* ===== verification/SchedulingApp.v ===== *)
(** * SchedulingApp: scheduling-service, packages [application] and [handler]

    The use cases of [internal/application/application.go] over the repository
    of [SchedulingRepo] and over the interfaces [Dependencies] and
    [Occupancy], and the HTTP handlers of [internal/handler/http.go]. *)
From S2P Require Import Prelude Effects GoTime Http Platform Availability SchedulingRepo.

Local Open Scope Z_scope.

(** ** Application types *)

Inductive app_error :=
| ErrInvalid
| ErrForbidden
| ErrNotFound
| ErrConflict
| ErrUnavailable
| OccupancyUnavailable
| RepoError (e : srepo_error)
| OtherError.

#[export] Instance app_error_eq_dec : EqDecision app_error.
Proof. solve_decision. Defined.

Record Principal := mkPrincipal { Principal_IdentityID : uuid; Principal_Role : string }.

(** The interface [application.Dependencies]. *)
Record Dependencies := mkDependencies {
  dep_Barber : TenantContext -> uuid -> res dep_error Barber;
  dep_Service : TenantContext -> uuid -> uuid -> res dep_error Service;
  dep_Settings : TenantContext -> res dep_error TenantSettings
}.

(** What an implementation of [application.Occupancy] may fail with:
    [service.ErrOccupancyUnavailable], or another error. *)
Inductive occ_failure := OccUnavailable | OccOther.

Definition Occupancy : Type :=
  TenantContext -> uuid -> time -> time -> res occ_failure (list BlockedPeriod).

(** [application.Service]; the repository is the database the operations run
    on, the clock is an argument of the operation that reads it. *)
Record AppService := mkAppService {
  s_deps : Dependencies;
  s_occupancy : Occupancy;
  s_fallbackInterval : Z
}.

(** The ids and the time the database draws during one operation. *)
Record SGen := mkSGen { sg_ids : nat -> uuid; sg_row : uuid; sg_now : time }.

(** ** Authorisation and validation *)

Definition authorize (s : AppService) (t : TenantContext) (p : Principal) (barber : uuid) (write : bool)
  : res app_error unit :=
  if (Principal_Role p ==? "OWNER"%string) || (Principal_Role p ==? "MANAGER"%string) then Ok tt
  else if Principal_Role p ==? "RECEPTIONIST"%string then
    if negb write then Ok tt else Err ErrForbidden
  else if Principal_Role p ==? "BARBER"%string then
    match dep_Barber (s_deps s) t barber with
    | Ok b =>
        match Barber_IdentityID b with
        | Some i => if i ==? Principal_IdentityID p then Ok tt else Err ErrForbidden
        | None => Err ErrForbidden
        end
    | Err _ => Err ErrForbidden
    end
  else Err ErrForbidden.

Fixpoint validHours (input : WorkingHoursInput) : bool :=
  match input with
  | [] => true
  | d :: input' =>
      if (Weekday_ d <? 0) || (6 <? Weekday_ d) || negb (ValidIntervals (Intervals_ d)) then false
      else validHours input'
  end.

Definition validOverride (input : OverrideInput) : bool :=
  match parse_date (OverrideInput_Date input) with
  | None => false
  | Some _ =>
      if OverrideInput_Kind input ==? "custom_hours"%string then
        (0 <? length (OverrideInput_Intervals input))%nat && ValidIntervals (OverrideInput_Intervals input)
      else
        ((OverrideInput_Kind input ==? "unavailable"%string)
         || (OverrideInput_Kind input ==? "vacation"%string))
        && (length (OverrideInput_Intervals input) =? 0)%nat
  end.

Definition mapRepo (e : srepo_error) : app_error :=
  match e with SNotFound => ErrNotFound | _ => RepoError e end.

Abbreviation App := (IO sdb app_error).

(** A repository call whose error becomes [f err]. *)
Definition repo {A} (f : srepo_error -> app_error) (m : SM A) : App A :=
  r ← attempt m;
  match r with Ok a => mret a | Err e => io_fail (f e) end.

(** [if err != nil { return ErrX }] after a dependency. *)
Definition require {E A} (r : res E A) (e : app_error) : App A :=
  match r with Ok a => mret a | Err _ => io_fail e end.

(** ** Use cases *)

Section Application.
Context `{GoLib} `{PgText} (s : AppService).

Definition AppService_Schedule (t : TenantContext) (p : Principal) (barber : uuid) : App Schedule :=
  lift (authorize s t p barber false) ;;
  hours ← repo RepoError (SRepository_Hours (TenantID t) barber);
  overrides ← repo RepoError (SRepository_Overrides (TenantID t) barber);
  blocks ← repo RepoError (SRepository_Blocks (TenantID t) barber);
  mret (mkSchedule hours overrides blocks).

Definition AppService_ReplaceHours (g : SGen) (t : TenantContext) (p : Principal) (barber : uuid)
    (input : WorkingHoursInput) : App unit :=
  lift (authorize s t p barber true) ;;
  if negb (validHours input) then io_fail ErrInvalid
  else repo (λ _, ErrConflict) (SRepository_ReplaceHours (sg_ids g) (TenantID t) barber input).

Definition AppService_Overrides (t : TenantContext) (p : Principal) (barber : uuid)
  : App (list Override) :=
  lift (authorize s t p barber false) ;;
  repo RepoError (SRepository_Overrides (TenantID t) barber).

Definition AppService_SaveOverride (g : SGen) (t : TenantContext) (p : Principal) (barber id : uuid)
    (input : OverrideInput) : App Override :=
  lift (authorize s t p barber true) ;;
  if negb (validOverride input) then io_fail ErrInvalid
  else repo (λ e, match e with SNotFound => ErrNotFound | _ => ErrConflict end)
         (SRepository_SaveOverride (sg_ids g) (sg_row g) (sg_now g) (TenantID t) barber id input).

Definition AppService_DeleteOverride (t : TenantContext) (p : Principal) (barber id : uuid) : App unit :=
  lift (authorize s t p barber true) ;;
  repo mapRepo (SRepository_DeleteOverride (TenantID t) barber id).

Definition AppService_Blocks (t : TenantContext) (p : Principal) (barber : uuid)
  : App (list BlockedPeriod) :=
  lift (authorize s t p barber false) ;;
  repo RepoError (SRepository_Blocks (TenantID t) barber).

Definition AppService_SaveBlock (g : SGen) (t : TenantContext) (p : Principal) (barber : uuid)
    (input : BlockedPeriodInput) : App BlockedPeriod :=
  lift (authorize s t p barber true) ;;
  if negb (Before (BlockedPeriodInput_StartAt input) (BlockedPeriodInput_EndAt input))
  then io_fail ErrInvalid
  else repo (λ _, ErrConflict) (SRepository_SaveBlock (sg_row g) (TenantID t) barber input).

Definition AppService_DeleteBlock (t : TenantContext) (p : Principal) (barber id : uuid) : App unit :=
  lift (authorize s t p barber true) ;;
  repo mapRepo (SRepository_DeleteBlock (TenantID t) barber id).

(** [Date] is a day number: the handler parses a date without a time. *)
Record AvailabilityQuery := mkAvailabilityQuery {
  Q_Tenant : TenantContext;
  Q_Principal : option Principal;
  Q_BarberID : uuid;
  Q_ServiceID : uuid;
  Q_Date : Z
}.

(** [Availability]; the result is [None] when the slot enumeration does not
    end. *)
Definition AppService_Availability (now : time) (q : AvailabilityQuery) : App (option (list Slot)) :=
  let refused := match Q_Principal q with
                 | None => false
                 | Some p => (Principal_Role p !=? "OWNER"%string) && (Principal_Role p !=? "MANAGER"%string)
                             && (Principal_Role p !=? "BARBER"%string)
                             && (Principal_Role p !=? "RECEPTIONIST"%string)
                 end in
  if refused then io_fail ErrForbidden
  else if (Q_BarberID q ==? uuid_Nil) || (Q_ServiceID q ==? uuid_Nil) || IsZero (Date (Q_Date q) UTC)
  then io_fail ErrInvalid
  else
    require (dep_Barber (s_deps s) (Q_Tenant q) (Q_BarberID q)) ErrNotFound ;;
    svc ← require (dep_Service (s_deps s) (Q_Tenant q) (Q_BarberID q) (Q_ServiceID q)) ErrNotFound;
    settings ← require (dep_Settings (s_deps s) (Q_Tenant q)) ErrUnavailable;
    zone ← match LoadLocation (Timezone settings) with Some z => mret z | None => io_fail OtherError end;
    let localDate := Date (Q_Date q) zone in
    hours ← repo RepoError (SRepository_Hours (TenantID (Q_Tenant q)) (Q_BarberID q));
    day ← repo RepoError (SRepository_Day (TenantID (Q_Tenant q)) (Q_BarberID q) localDate zone);
    let windows := IntervalsForDate hours day.1 localDate zone in
    occupied ← match s_occupancy s (Q_Tenant q) (Q_BarberID q) (Add localDate (- (24 * Hour)))
                       (Add (AddDays zone localDate 1) (24 * Hour)) with
               | Ok l => mret l
               | Err OccUnavailable => io_fail OccupancyUnavailable
               | Err OccOther => io_fail ErrUnavailable
               end;
    let step := if BookingIntervalMinutes settings <? 1 then s_fallbackInterval s
                else BookingIntervalMinutes settings in
    mret (Available windows day.2 occupied (DurationMinutes svc) (BufferBeforeMinutes svc)
            (BufferAfterMinutes svc) step now).
End Application.

(** ** HTTP handlers *)

Record Handler := mkHandler {
  h_app : AppService;
  h_verify : MultiTokenVerifier;
  h_auth : TenantContext -> string -> option AdminPrincipal
}.

Definition sendError {A} (e : app_error) (conflictStatus : Z) : Response A :=
  match e with
  | ErrInvalid => SendStatus 400
  | ErrForbidden => SendStatus 403
  | ErrNotFound => SendStatus 404
  | ErrConflict => SendStatus conflictStatus
  | OccupancyUnavailable => SendError 503 "occupancy_unavailable"
  | ErrUnavailable => SendStatus 502
  | RepoError _ | OtherError => SendStatus 500
  end.

(** A handler's [if err != nil { return sendError(...) }] and its reply. *)
Definition answer {A B} (m : App A) (conflictStatus : Z) (reply : A -> Response B) : App (Response B) :=
  r ← attempt m;
  mret (match r with Ok a => reply a | Err e => sendError e conflictStatus end).

Definition respond {A} (x : Response A) : App (Response A) := mret x.

Section Handlers.
Context `{GoLib} `{PgText} (h : Handler).

Definition admin {B} (r : Request B) : res app_error (TenantContext * Principal * uuid) :=
  match adminauth_Context r (h_verify h) with
  | None => Err ErrForbidden
  | Some t =>
      if AppType t !=? "admin"%string then Err ErrForbidden
      else
        match uuid_Parse (Params r "barber_id"%string) with
        | None => Err ErrInvalid
        | Some b =>
            match h_auth h t (Header r "Cookie"%string) with
            | None => Err ErrForbidden
            | Some p => Ok (t, mkPrincipal (AdminPrincipal_IdentityID p) (AdminPrincipal_Role p), b)
            end
        end
  end.

Definition schedule {B} (r : Request B) : App (Response Schedule) :=
  match admin r with
  | Err e => respond (sendError e 409)
  | Ok (t, p, b) => answer (AppService_Schedule (h_app h) t p b) 409 (SendJSON 200)
  end.

Definition hours (g : SGen) (r : Request WorkingHoursInput) : App (Response unit) :=
  match admin r with
  | Err e => respond (sendError e 409)
  | Ok (t, p, b) =>
      match Body r with
      | None => respond (SendStatus 400)
      | Some input =>
          answer (AppService_ReplaceHours (h_app h) g t p b input) 409 (λ _, SendStatus 204)
      end
  end.

Definition overrides {B} (r : Request B) : App (Response (list Override)) :=
  match admin r with
  | Err e => respond (sendError e 409)
  | Ok (t, p, b) => answer (AppService_Overrides (h_app h) t p b) 409 (SendJSON 200)
  end.

Definition saveOverride (g : SGen) (r : Request OverrideInput) : App (Response Override) :=
  match admin r with
  | Err e => respond (sendError e 409)
  | Ok (t, p, b) =>
      match Body r with
      | None => respond (SendStatus 400)
      | Some input =>
          let save oid := answer (AppService_SaveOverride (h_app h) g t p b oid input) 409
                            (SendJSON (if oid ==? uuid_Nil then 201 else 200)) in
          if Method r ==? "PATCH"%string then
            match uuid_Parse (Params r "id"%string) with
            | None => respond (SendStatus 400)
            | Some oid => save oid
            end
          else save uuid_Nil
      end
  end.

Definition deleteOverride {B} (r : Request B) : App (Response unit) :=
  match admin r with
  | Err e => respond (sendError e 500)
  | Ok (t, p, b) =>
      match uuid_Parse (Params r "id"%string) with
      | None => respond (SendStatus 400)
      | Some oid => answer (AppService_DeleteOverride (h_app h) t p b oid) 500 (λ _, SendStatus 204)
      end
  end.

Definition blocks {B} (r : Request B) : App (Response (list BlockedPeriod)) :=
  match admin r with
  | Err e => respond (sendError e 409)
  | Ok (t, p, b) => answer (AppService_Blocks (h_app h) t p b) 409 (SendJSON 200)
  end.

Definition saveBlock (g : SGen) (r : Request BlockedPeriodInput) : App (Response BlockedPeriod) :=
  match admin r with
  | Err e => respond (sendError e 409)
  | Ok (t, p, b) =>
      match Body r with
      | None => respond (SendStatus 400)
      | Some input => answer (AppService_SaveBlock (h_app h) g t p b input) 409 (SendJSON 201)
      end
  end.

Definition deleteBlock {B} (r : Request B) : App (Response unit) :=
  match admin r with
  | Err e => respond (sendError e 500)
  | Ok (t, p, b) =>
      match uuid_Parse (Params r "id"%string) with
      | None => respond (SendStatus 400)
      | Some bid => answer (AppService_DeleteBlock (h_app h) t p b bid) 500 (λ _, SendStatus 204)
      end
  end.

Definition availabilityInput {B} (r : Request B) (t : TenantContext) (p : option Principal)
  : res app_error AvailabilityQuery :=
  match uuid_Parse (Query r "barber_id"%string), uuid_Parse (Query r "service_id"%string),
        parse_date (Query r "date"%string) with
  | Some b, Some s, Some date => Ok (mkAvailabilityQuery t p b s date)
  | _, _, _ => Err ErrInvalid
  end.

Definition availability (now : time) {B} (r : Request B) : App (Response (option (list Slot))) :=
  match adminauth_Context r (h_verify h) with
  | None => respond (SendStatus 401)
  | Some t =>
      if AppType t !=? "booking"%string then respond (SendStatus 401)
      else
        match availabilityInput r t None with
        | Err _ => respond (SendStatus 400)
        | Ok q => answer (AppService_Availability (h_app h) now q) 500 (SendJSON 200)
        end
  end.

Definition adminAvailability (now : time) {B} (r : Request B) : App (Response (option (list Slot))) :=
  match adminauth_Context r (h_verify h) with
  | None => respond (SendStatus 401)
  | Some t =>
      if AppType t !=? "admin"%string then respond (SendStatus 401)
      else
        match h_auth h t (Header r "Cookie"%string) with
        | None => respond (SendStatus 403)
        | Some p =>
            let principal := mkPrincipal (AdminPrincipal_IdentityID p) (AdminPrincipal_Role p) in
            match availabilityInput r t (Some principal) with
            | Err _ => respond (SendStatus 400)
            | Ok q => answer (AppService_Availability (h_app h) now q) 500 (SendJSON 200)
            end
        end
  end.
End Handlers.

(** [handler.Interval]: the booking interval of the configuration. *)
Definition handler_Interval (v : string) : Z :=
  match Atoi v with
  | None => 15
  | Some n => if n <? 1 then 15 else n
  end.

(** * Lemmas *)

Lemma validHours_spec input : validHours input = true ↔ hours_valid input.
Proof.
  induction input as [|d input IH]; cbn; [split; [constructor|done]|]. unfold hours_valid.
  rewrite Forall_cons. fold (hours_valid input). rewrite <- IH.
  destruct (ValidIntervals (Intervals_ d)) eqn:E; cbn [negb]; [|by rewrite orb_true_r; split; [|intros [[]]]].
  rewrite orb_false_r. destruct (_ || _) eqn:E'; [split; [done|lia]|]. bsimpl. split; [|tauto].
  intros. repeat split; [lia..|done].
Qed.

Lemma validOverride_intervals input :
  validOverride input = true → ValidIntervals (OverrideInput_Intervals input) = true.
Proof.
  unfold validOverride. destruct (parse_date _); [|done].
  destruct (_ ==? _); intros Hv; bsimpl; [done|]. by destruct (OverrideInput_Intervals input).
Qed.

Lemma sched_step_repo {A} I f (m : SM A) : PreOrder I → step_in I m → step_in I (repo f m).
Proof. intros HI Hm. unfold repo. solve_step. Qed.
Lemma sched_step_require {E A} I (r : res E A) e : PreOrder I → step_in I (require r e).
Proof. intros HI. unfold require. solve_step. Qed.
Lemma sched_step_answer {A B} I (m : App A) c (k : A -> Response B) :
  PreOrder I → step_in I m → step_in I (answer m c k).
Proof. intros HI Hm. unfold answer. solve_step. Qed.
Lemma sched_step_readonly {A} I (m : SM A) : PreOrder I → readonly m → step_in I m.
Proof. intros HI Hm fs d. rewrite <- (Hm fs d). reflexivity. Qed.
#[export] Hint Resolve sched_step_repo sched_step_require sched_step_answer sched_step_readonly : barber.

Lemma sched_lift_Ok {A B} (a : A) (k : A -> App B) fs d : (lift (Ok a) ≫= k) fs d = k a fs d.
Proof. done. Qed.

Section ReadOnly.
Context `{PgText} (t b : uuid).

Lemma readonly_Hours : readonly (SRepository_Hours t b).
Proof. unfold SRepository_Hours. solve_step. Qed.
Lemma readonly_Overrides : readonly (SRepository_Overrides t b).
Proof.
  unfold SRepository_Overrides. solve_step. rename a into l.
  induction l as [|o l IH]; cbn [fill_overrides]; unfold select_intervals; solve_step.
Qed.
Lemma readonly_Blocks : readonly (SRepository_Blocks t b).
Proof. unfold SRepository_Blocks. solve_step. Qed.
Lemma readonly_Day date zone : readonly (SRepository_Day t b date zone).
Proof.
  unfold SRepository_Day, select_intervals. solve_step.
  apply step_in_stmt; [apply _|]. intros d a d' E. split_match_in E; by simplify_eq.
Qed.
End ReadOnly.
#[export] Hint Resolve readonly_Hours readonly_Overrides readonly_Blocks readonly_Day : barber.

(** [eauto] closes the leaves of a use case. *)
Ltac solve_usecase := solve_step; eauto 6 with barber typeclass_instances.

Section Availability.
Context `{GoLib} `{PgText} (s : AppService).

Lemma readonly_Availability now q : readonly (AppService_Availability s now q).
Proof. unfold AppService_Availability. cbn zeta. solve_usecase. Qed.
End Availability.

(** Every write of a use case is one of the repository's, after the check of
    the principal. *)
Section Authority.
Context `{GoLib} `{PgTextLaws} (s : AppService).

(** Who may write a barber's schedule. *)
Definition may_write (t : TenantContext) (p : Principal) (barber : uuid) : Prop :=
  Principal_Role p = "OWNER"%string ∨ Principal_Role p = "MANAGER"%string ∨
  (Principal_Role p = "BARBER"%string ∧
   ∃ b, dep_Barber (s_deps s) t barber = Ok b ∧ Barber_IdentityID b = Some (Principal_IdentityID p)).

Lemma authorize_write t p barber :
  authorize s t p barber true = Ok tt ↔ may_write t p barber.
Proof.
  unfold authorize, may_write. destruct (_ || _) eqn:E1.
  { split; [|done]. intros _. apply orb_true_iff in E1 as [E|E]; bsimpl; auto. }
  apply orb_false_iff in E1 as [E1 E1']. bsimpl.
  destruct (Principal_Role p ==? "RECEPTIONIST"%string) eqn:E2; bsimpl.
  { cbn. split; [done|]. rewrite E2. by intros [|[|[? _]]]. }
  destruct (Principal_Role p ==? "BARBER"%string) eqn:E3; bsimpl.
  2:{ split; [done|]. by intros [|[|[]]]. }
  destruct (dep_Barber _ t barber) as [b|] eqn:Eb.
  2:{ split; [done|]. intros [|[|(_ & b & ? & _)]]; done. }
  destruct (Barber_IdentityID b) as [i|] eqn:Ei.
  - destruct (i ==? Principal_IdentityID p) eqn:E4; bsimpl.
    + subst. split; [|done]. intros _. right; right. eauto.
    + split; [done|]. intros [|[|(_ & b' & [= <-] & Hi)]]; [done..|]. rewrite Ei in Hi. congruence.
  - split; [done|]. intros [|[|(_ & b' & [= <-] & Hi)]]; [done..|]. congruence.
Qed.

(** A use case that writes only after the check. *)
Lemma authorized_step {A} t p barber (m : App A) fs d :
  step_in (sched_good (TenantID t) barber) m →
  let d' := ((lift (authorize s t p barber true) ;; m) fs d).2.2 in
  d' = d ∨ (may_write t p barber ∧ sched_good (TenantID t) barber d d').
Proof.
  intros Hm. cbn zeta. destruct (authorize s t p barber true) as [[]|e] eqn:E; [|by left].
  right. split; [by apply authorize_write|]. rewrite sched_lift_Ok. apply Hm.
Qed.

Lemma good_ReplaceHours g t p barber input fs d :
  let d' := (AppService_ReplaceHours s g t p barber input fs d).2.2 in
  d' = d ∨ (may_write t p barber ∧ sched_good (TenantID t) barber d d').
Proof.
  apply authorized_step. destruct (validHours input) eqn:E; cbn [negb]; [|solve_step].
  apply sched_step_repo; [apply _|]. by apply SRepository_ReplaceHours_good, validHours_spec.
Qed.

Lemma good_SaveOverride g t p barber id input fs d :
  let d' := (AppService_SaveOverride s g t p barber id input fs d).2.2 in
  d' = d ∨ (may_write t p barber ∧ sched_good (TenantID t) barber d d').
Proof.
  apply authorized_step. destruct (validOverride input) eqn:E; cbn [negb]; [|solve_step].
  apply sched_step_repo; [apply _|]. by apply SRepository_SaveOverride_good, validOverride_intervals.
Qed.

Lemma good_DeleteOverride t p barber id fs d :
  let d' := (AppService_DeleteOverride s t p barber id fs d).2.2 in
  d' = d ∨ (may_write t p barber ∧ sched_good (TenantID t) barber d d').
Proof.
  apply authorized_step, sched_step_repo; [apply _|]. apply SRepository_DeleteOverride_good.
Qed.

Lemma good_SaveBlock g t p barber input fs d :
  let d' := (AppService_SaveBlock s g t p barber input fs d).2.2 in
  d' = d ∨ (may_write t p barber ∧ sched_good (TenantID t) barber d d').
Proof.
  apply authorized_step. destruct (negb _); [solve_step|].
  apply sched_step_repo; [apply _|]. apply SRepository_SaveBlock_good.
Qed.

Lemma good_DeleteBlock t p barber id fs d :
  let d' := (AppService_DeleteBlock s t p barber id fs d).2.2 in
  d' = d ∨ (may_write t p barber ∧ sched_good (TenantID t) barber d d').
Proof.
  apply authorized_step, sched_step_repo; [apply _|]. apply SRepository_DeleteBlock_good.
Qed.
End Authority.

Lemma answer_db {A B} (m : App A) c (k : A -> Response B) fs d :
  (answer m c k fs d).2.2 = (m fs d).2.2.
Proof. unfold answer. rewrite attempt_bind. done. Qed.

(** ** The service as a state machine *)
Section System.
Context `{GoLib} `{PgTextLaws} (h : Handler).

(** One request, with whatever fails while it is served. *)
Inductive sched_step (d : sdb) : sdb -> Prop :=
| step_hours g r fs : sched_step d (hours h g r fs d).2.2
| step_saveOverride g r fs : sched_step d (saveOverride h g r fs d).2.2
| step_deleteOverride B (r : Request B) fs : sched_step d (deleteOverride h r fs d).2.2
| step_saveBlock g r fs : sched_step d (saveBlock h g r fs d).2.2
| step_deleteBlock B (r : Request B) fs : sched_step d (deleteBlock h r fs d).2.2
| step_schedule B (r : Request B) fs : sched_step d (schedule h r fs d).2.2
| step_overrides B (r : Request B) fs : sched_step d (overrides h r fs d).2.2
| step_blocks B (r : Request B) fs : sched_step d (blocks h r fs d).2.2
| step_availability now B (r : Request B) fs : sched_step d (availability h now r fs d).2.2
| step_adminAvailability now B (r : Request B) fs : sched_step d (adminAvailability h now r fs d).2.2.

(** A request that is a principal's, for the tenant and barber it names. *)
Definition admin_write {B} (r : Request B) (d d' : sdb) : Prop :=
  d' = d ∨ ∃ t p b, admin h r = Ok (t, p, b) ∧ AppType t = "admin"%string ∧
    may_write (h_app h) t p b ∧ sched_good (TenantID t) b d d'.

Lemma admin_app_type {B} (r : Request B) t p b : admin h r = Ok (t, p, b) → AppType t = "admin"%string.
Proof. unfold admin. intros E. split_match_in E; simplify_eq. by bsimpl. Qed.

(** One handler around a use case. *)
Lemma admin_write_case {B} (r : Request B) d d' :
  (∀ t p b, admin h r = Ok (t, p, b) →
     d' = d ∨ (may_write (h_app h) t p b ∧ sched_good (TenantID t) b d d')) →
  (∀ x, admin h r = Err x → d' = d) → admin_write r d d'.
Proof.
  intros Hk He. unfold admin_write. destruct (admin h r) as [[[t p] b]|x] eqn:E; [|left; by eapply He].
  destruct (Hk t p b) as [Hd|[Hm Hgood]]; [done|by left|]. right.
  exists t, p, b. split; [done|]. split; [by eapply admin_app_type|done].
Qed.

Lemma hours_write g r fs d : admin_write r d (hours h g r fs d).2.2.
Proof.
  unfold hours. apply admin_write_case; intros *; intros ->; [|done]. destruct (Body r); [|by left].
  rewrite answer_db. apply good_ReplaceHours.
Qed.
Lemma saveOverride_write g r fs d : admin_write r d (saveOverride h g r fs d).2.2.
Proof.
  unfold saveOverride. apply admin_write_case; intros *; intros ->; [|done]. destruct (Body r); [|by left].
  cbn zeta. destruct (_ ==? _); [destruct (uuid_Parse _); [|by left]|]; rewrite answer_db; apply good_SaveOverride.
Qed.
Lemma deleteOverride_write {B} (r : Request B) fs d : admin_write r d (deleteOverride h r fs d).2.2.
Proof.
  unfold deleteOverride. apply admin_write_case; intros *; intros ->; [|done].
  destruct (uuid_Parse _); [|by left]. rewrite answer_db. apply good_DeleteOverride.
Qed.
Lemma saveBlock_write g r fs d : admin_write r d (saveBlock h g r fs d).2.2.
Proof.
  unfold saveBlock. apply admin_write_case; intros *; intros ->; [|done]. destruct (Body r); [|by left].
  rewrite answer_db. apply good_SaveBlock.
Qed.
Lemma deleteBlock_write {B} (r : Request B) fs d : admin_write r d (deleteBlock h r fs d).2.2.
Proof.
  unfold deleteBlock. apply admin_write_case; intros *; intros ->; [|done].
  destruct (uuid_Parse _); [|by left]. rewrite answer_db. apply good_DeleteBlock.
Qed.

Lemma admin_write_ok {B} (r : Request B) d d' : admin_write r d d' → sched_ok d → sched_ok d'.
Proof. intros [->|(t & p & b & _ & _ & _ & Hg)] Hd; [done|]. by apply Hg. Qed.

Lemma sched_readers d :
  (∀ B (r : Request B) fs, (schedule h r fs d).2.2 = d) ∧
  (∀ B (r : Request B) fs, (overrides h r fs d).2.2 = d) ∧
  (∀ B (r : Request B) fs, (blocks h r fs d).2.2 = d) ∧
  (∀ now B (r : Request B) fs, (availability h now r fs d).2.2 = d) ∧
  (∀ now B (r : Request B) fs, (adminAvailability h now r fs d).2.2 = d).
Proof.
  assert (∀ A B (m : App A) c (k : A -> Response B) fs, readonly m → (answer m c k fs d).2.2 = d) as Hro.
  { intros A B m c k fs Hm. rewrite answer_db. symmetry. apply Hm. }
  split_and!.
  - intros B r fs. unfold schedule. destruct (admin h r) as [[[t p] b]|]; [|done].
    apply Hro. unfold AppService_Schedule. solve_usecase.
  - intros B r fs. unfold overrides. destruct (admin h r) as [[[t p] b]|]; [|done].
    apply Hro. unfold AppService_Overrides. solve_usecase.
  - intros B r fs. unfold blocks. destruct (admin h r) as [[[t p] b]|]; [|done].
    apply Hro. unfold AppService_Blocks. solve_usecase.
  - intros now B r fs. unfold availability. split_match; try done; apply Hro, readonly_Availability.
  - intros now B r fs. unfold adminAvailability. split_match; try done; apply Hro, readonly_Availability.
Qed.

Lemma sched_step_ok d d' : sched_step d d' → sched_ok d → sched_ok d'.
Proof.
  destruct (sched_readers d) as (R1 & R2 & R3 & R4 & R5). destruct 1; rewrite ?R1, ?R2, ?R3, ?R4, ?R5; try done;
    eapply admin_write_ok; eauto using hours_write, saveOverride_write, @deleteOverride_write,
      saveBlock_write, @deleteBlock_write.
Qed.

Lemma sched_reachable_ok d : rtc sched_step empty_sdb d → sched_ok d.
Proof.
  intros Hr. assert (sched_ok empty_sdb) as Hd by apply sched_ok_empty.
  induction Hr as [|x y z Hxy _ IH]; [done|]. by eapply IH, sched_step_ok.
Qed.

(** * Properties *)

(** C30: every write of the schedule needs its authority: whatever is sent to
    the five writing routes and whatever fails, the database stays as it was,
    or the request carried a valid internal token, the admin application type
    and an authenticated principal that is an owner, a manager or the barber
    whose schedule it is; and the rows of every other barber and of every
    other tenant are untouched. *)
Theorem schedule_writes_authorised fs d :
  (∀ g r, admin_write r d (hours h g r fs d).2.2) ∧
  (∀ g r, admin_write r d (saveOverride h g r fs d).2.2) ∧
  (∀ B (r : Request B), admin_write r d (deleteOverride h r fs d).2.2) ∧
  (∀ g r, admin_write r d (saveBlock h g r fs d).2.2) ∧
  (∀ B (r : Request B), admin_write r d (deleteBlock h r fs d).2.2).
Proof.
  split_and!; intros; eauto using hours_write, saveOverride_write, @deleteOverride_write,
    saveBlock_write, @deleteBlock_write.
Qed.

(** C29: in every state the service can reach, whatever requests it served and
    whatever failed meanwhile, the stored schedule of every barber reads back
    as data the application would accept: weekly hours with distinct weekdays
    and valid intervals, and for every date an override with valid intervals;
    all constraints of the tables hold. *)
Theorem stored_schedule_valid d :
  rtc sched_step empty_sdb d →
  sched_ok d ∧ ∀ t b,
    (∃ out, run (SRepository_Hours t b) d = (Ok out, d) ∧
       validHours out = true ∧ NoDup (map Weekday_ out)) ∧
    ∀ date zone, ∃ over bl, run (SRepository_Day t b date zone) d = (Ok (over, bl), d) ∧
       ValidIntervals (Override_Intervals over) = true.
Proof.
  intros Hr%sched_reachable_ok. split; [done|]. intros t b. split.
  - destruct (Hours_valid t b d Hr) as (out & Hout & Hv & Hnd). exists out.
    split; [done|]. by rewrite validHours_spec.
  - intros date zone. eexists _, _. split; [apply run_Day|].
    destruct (day_override t b _ d) as [r|] eqn:E; [|done]. cbn.
    apply head_sel_Some in E as [_ Hin]. by apply intervals_for_valid.
Qed.
End System.

(** ** The answer of [Availability] *)

Lemma sched_run_repo {A} f (m : SM A) d :
  det m →
  run (repo f m) d = match run m d with
                     | (Ok a, d') => (Ok a, d')
                     | (Err e, d') => (Err (f e), d')
                     end.
Proof.
  intros [Hq _]. unfold repo. rewrite run_attempt_bind by apply Hq. by destruct (run m d) as [[] ?].
Qed.

Lemma sched_quiet_repo {A} f (m : SM A) : det m → quiet (repo f m).
Proof. intros Hm. unfold repo. apply quiet_bind; [by apply quiet_attempt, det_quiet|]. by intros []. Qed.

(** A repository call that succeeds did what it does without faults. *)
Lemma sched_repo_ok {A B} f (m : SM A) (k : A -> App B) fs d r :
  det m → ((repo f m ≫= k) fs d).1 = Ok r →
  ∃ a fs' d', run m d = (Ok a, d') ∧ (k a fs' d').1 = Ok r.
Proof.
  intros [_ Hm]. specialize (Hm fs d). rewrite bind_eq. unfold repo. rewrite attempt_bind.
  destruct (m fs d) as [[a|e] [fs' d']]; cbn in *; [|done].
  destruct Hm as [<-|]; [|done]. intros Hk. by exists a, fs', d'.
Qed.

Section Answer.
Context `{GoLib} `{PgText}.

Lemma det_Hours t b : det (SRepository_Hours t b).
Proof. unfold SRepository_Hours. solve_det. Qed.
Lemma det_Day t b date zone : det (SRepository_Day t b date zone).
Proof. unfold SRepository_Day, select_intervals. solve_det. Qed.

(** What the other services answer to a query. *)
Record Answers (s : AppService) (q : AvailabilityQuery) (svc : Service) (settings : TenantSettings)
    (zone : Location) (occupied : list BlockedPeriod) : Prop := mkAnswers {
  an_principal : match Q_Principal q with None => True | Some p => CanRead (Principal_Role p) = true end;
  an_ids : Q_BarberID q ≠ uuid_Nil ∧ Q_ServiceID q ≠ uuid_Nil;
  an_date : IsZero (Date (Q_Date q) UTC) = false;
  an_barber : ∃ b, dep_Barber (s_deps s) (Q_Tenant q) (Q_BarberID q) = Ok b;
  an_service : dep_Service (s_deps s) (Q_Tenant q) (Q_BarberID q) (Q_ServiceID q) = Ok svc;
  an_settings : dep_Settings (s_deps s) (Q_Tenant q) = Ok settings;
  an_zone : LoadLocation (Timezone settings) = Some zone;
  an_occupied : s_occupancy s (Q_Tenant q) (Q_BarberID q) (Date (Q_Date q) zone - 24 * Hour)
                  (AddDays zone (Date (Q_Date q) zone) 1 + 24 * Hour) = Ok occupied
}.

Definition step_of (s : AppService) (settings : TenantSettings) : Z :=
  if BookingIntervalMinutes settings <? 1 then s_fallbackInterval s else BookingIntervalMinutes settings.

(** The guards of [Availability] in front of the repository. *)
Lemma role_guard (p : option Principal) :
  match p with
  | None => false
  | Some p => (Principal_Role p !=? "OWNER"%string) && (Principal_Role p !=? "MANAGER"%string)
              && (Principal_Role p !=? "BARBER"%string) && (Principal_Role p !=? "RECEPTIONIST"%string)
  end = false ↔ match p with None => True | Some p => CanRead (Principal_Role p) = true end.
Proof.
  destruct p as [p|]; [|done]. unfold CanRead.
  destruct (Principal_Role p ==? "OWNER"%string), (Principal_Role p ==? "MANAGER"%string),
    (Principal_Role p ==? "BARBER"%string), (Principal_Role p ==? "RECEPTIONIST"%string); done.
Qed.

Lemma run_Availability s now q d svc settings zone occupied :
  Answers s q svc settings zone occupied →
  let date := Date (Q_Date q) zone in
  ∃ hours over blocked,
    run (SRepository_Hours (TenantID (Q_Tenant q)) (Q_BarberID q)) d = (Ok hours, d) ∧
    run (SRepository_Day (TenantID (Q_Tenant q)) (Q_BarberID q) date zone) d = (Ok (over, blocked), d) ∧
    run (AppService_Availability s now q) d
    = (Ok (Available (IntervalsForDate hours over date zone) blocked occupied (DurationMinutes svc)
             (BufferBeforeMinutes svc) (BufferAfterMinutes svc) (step_of s settings) now), d).
Proof.
  intros [Hp [Hb Hs] Hz [b Hbar] Hsvc Hset Hzone Hocc] date. eexists _, _, _.
  split; [apply run_Hours|]. split; [apply run_Day|].
  unfold AppService_Availability. cbv zeta. rewrite (proj2 (role_guard _) Hp), Hz.
  rewrite !bool_decide_false by done. cbn [orb]. rewrite Hbar, Hsvc, Hset. cbn [require].
  do 3 (rewrite runq_bind by done; rewrite run_ret). rewrite Hzone.
  rewrite runq_bind by done. rewrite run_ret.
  rewrite runq_bind by (apply sched_quiet_repo, det_Hours).
  rewrite sched_run_repo, run_Hours by apply det_Hours.
  rewrite runq_bind by (apply sched_quiet_repo, det_Day).
  rewrite sched_run_repo, run_Day by apply det_Day. unfold Add.
  change (Date (Q_Date q) zone + - (24 * Hour)) with (Date (Q_Date q) zone - 24 * Hour).
  rewrite Hocc. rewrite runq_bind by done. rewrite run_ret. done.
Qed.

(** A slot list implies that everything answered. *)
Lemma Availability_ok s now q fs d r :
  (AppService_Availability s now q fs d).1 = Ok r →
  ∃ svc settings zone occupied, Answers s q svc settings zone occupied ∧
    ∃ hours over blocked,
      run (SRepository_Hours (TenantID (Q_Tenant q)) (Q_BarberID q)) d = (Ok hours, d) ∧
      run (SRepository_Day (TenantID (Q_Tenant q)) (Q_BarberID q) (Date (Q_Date q) zone) zone) d
      = (Ok (over, blocked), d) ∧
      r = Available (IntervalsForDate hours over (Date (Q_Date q) zone) zone) blocked occupied
            (DurationMinutes svc) (BufferBeforeMinutes svc) (BufferAfterMinutes svc) (step_of s settings) now.
Proof.
  unfold AppService_Availability. cbv zeta.
  match goal with |- context [if ?x then io_fail ErrForbidden else _] => destruct x eqn:Ep end; [done|].
  apply role_guard in Ep.
  destruct (_ || _) eqn:Ei; [done|]. bsimpl.
  destruct (dep_Barber _ _ _) as [b|] eqn:Eb; [|done].
  destruct (dep_Service _ _ _ _) as [svc|] eqn:Es; [|done].
  destruct (dep_Settings _ _) as [settings|] eqn:Eset; [|done]. cbn [require].
  rewrite !ret_bind. destruct (LoadLocation (Timezone settings)) as [zone|] eqn:Ez; [|by rewrite fail_bind].
  rewrite ret_bind.
  intros Hr. apply sched_repo_ok in Hr as (hours & fs1 & d1 & Hh & Hr); [|apply det_Hours].
  apply sched_repo_ok in Hr as ([over blocked] & fs2 & d2 & Hday & Hr); [|apply det_Day].
  rewrite run_Hours in Hh. simplify_eq. cbn [fst snd] in Hr.
  pose proof Hday as Hday'. rewrite run_Day in Hday'. assert (d2 = d1) as -> by congruence.
  destruct (s_occupancy s _ _ _ _) as [occ|[]] eqn:Eocc; [|by rewrite fail_bind in Hr..].
  rewrite ret_bind in Hr. injection Hr as <-. exists svc, settings, zone, occ. split; [by constructor; eauto|].
  eexists _, over, blocked. split; [apply run_Hours|]. by split.
Qed.

(** availability fails closed: under any failures a slot list is returned
    only when the barber, catalog and tenant services and the occupancy source
    all answered, the caller may read, and both reads of the schedule
    succeeded; it is then the list of a run without failures. *)
Theorem availability_fail_closed s now q fs d r :
  (AppService_Availability s now q fs d).1 = Ok r →
  ∃ svc settings zone occupied, Answers s q svc settings zone occupied ∧
    run (AppService_Availability s now q) d = (Ok r, d).
Proof.
  intros Hr. apply Availability_ok in Hr as (svc & settings & zone & occ & Ha & hrs & over & blocked & Hh & Hday & ->).
  exists svc, settings, zone, occ. split; [done|].
  destruct (run_Availability s now q d svc settings zone occ Ha) as (h' & o' & b' & Hh' & Hd' & ->).
  rewrite Hh in Hh'. rewrite Hday in Hd'. by simplify_eq.
Qed.
End Answer.

(** ** Saving and reading back *)
Section RoundTrip.
Context `{GoLib} `{PgTextLaws} (s : AppService) (g : SGen) (t : TenantContext) (p : Principal) (barber : uuid).
#[local] Abbreviation T := (TenantID t).

Lemma authorize_read : may_write s t p barber → authorize s t p barber false = Ok tt.
Proof.
  intros Hw. pose proof (proj2 (authorize_write s t p barber) Hw) as E. revert E. unfold authorize.
  destruct (_ || _); [done|]. by destruct (Principal_Role p ==? "RECEPTIONIST"%string).
Qed.

Lemma det_fill_overrides tx l : det (fill_overrides tx T l).
Proof.
  induction l as [|o l IH]; cbn [fill_overrides]; [apply det_ret|]. unfold select_intervals. solve_det.
Qed.

Lemma det_Overrides : det (SRepository_Overrides T barber).
Proof.
  unfold SRepository_Overrides. apply det_tx, det_bind; [apply det_query|]. intros l. apply det_fill_overrides.
Qed.
Lemma det_Blocks : det (SRepository_Blocks T barber).
Proof. unfold SRepository_Blocks. solve_det. Qed.

Lemma run_Overrides d : ∃ l, run (SRepository_Overrides T barber) d = (Ok l, d).
Proof.
  unfold SRepository_Overrides. rewrite run_tx by (apply det_bind; [apply det_query|intros; apply det_fill_overrides]).
  rewrite run_bind by apply det_query. unfold query at 1. rewrite run_stmt.
  match goal with |- context [fill_overrides T T ?l] => assert (∃ k, run (fill_overrides T T l) d = (Ok k, d)) as [k ->] end.
  { generalize (map scan_override (order_by or_date (sel (rls or_tenant T (overrides_of T barber)) (schedule_overrides d)))).
    intros l. induction l as [|o l [k IH]]; cbn [fill_overrides]; [by eexists|].
    rewrite run_bind by (unfold select_intervals; solve_det). rewrite run_select_intervals.
    rewrite run_bind, IH by apply det_fill_overrides. rewrite run_ret. by eexists. }
  by eexists.
Qed.
Lemma run_Blocks d : ∃ l, run (SRepository_Blocks T barber) d = (Ok l, d).
Proof. unfold SRepository_Blocks. rewrite run_tx by solve_det. unfold query. rewrite run_stmt. by eexists. Qed.

Lemma run_authorized {A} (m : App A) w d :
  authorize s t p barber w = Ok tt → run (lift (authorize s t p barber w) ;; m) d = run m d.
Proof. by intros ->. Qed.

Lemma atomic_ReplaceHours gen input : atomic (SRepository_ReplaceHours gen T barber input).
Proof. unfold SRepository_ReplaceHours. apply atomic_tx, det_ReplaceHours_body. Qed.

(** replacing weekly hours is all or nothing and reads back: for accepted
    hours with distinct weekdays, an authorised replacement succeeds, the
    schedule then shows for every weekday exactly the wall-clock intervals
    that were sent, and under any failures the database holds either the old
    hours or the new ones, never a mixture. *)
Theorem hours_roundtrip input d :
  may_write s t p barber → validHours input = true → NoDup (map Weekday_ input) →
  (∀ i j, sg_ids g i = sg_ids g j → i = j) → (∀ i x, x ∈ working_hours d → wh_id x ≠ sg_ids g i) →
  ∃ d' sch,
    run (AppService_ReplaceHours s g t p barber input) d = (Ok tt, d') ∧
    run (AppService_Schedule s t p barber) d' = (Ok sch, d') ∧
    (∀ w, walls (intervals_of_weekday (Schedule_WorkingHours sch) w)
          = walls (intervals_of_weekday input w)) ∧
    ∀ fs, let d1 := (AppService_ReplaceHours s g t p barber input fs d).2.2 in d1 = d ∨ d1 = d'.
Proof.
  intros Hw Hv Hnd Hinj Hfresh. pose proof (proj2 (authorize_write s t p barber) Hw) as Ha.
  destruct (ReplaceHours_Hours (sg_ids g) T barber input d Hinj Hfresh (proj1 (validHours_spec _) Hv) Hnd)
    as (d' & out & Hrep & Hh & Hwalls).
  destruct (run_Overrides d') as [ov Hov], (run_Blocks d') as [bl Hbl].
  exists d', (mkSchedule out ov bl). split; [|split; [|split; [done|]]].
  - unfold AppService_ReplaceHours. rewrite run_authorized, Hv by done. cbn [negb].
    rewrite sched_run_repo; [by rewrite Hrep|apply det_tx, det_ReplaceHours_body].
  - unfold AppService_Schedule. rewrite run_authorized by (by apply authorize_read).
    rewrite runq_bind by (apply sched_quiet_repo, det_Hours). rewrite sched_run_repo by apply det_Hours.
    rewrite Hh.
    rewrite runq_bind by (apply sched_quiet_repo, det_Overrides). rewrite sched_run_repo by apply det_Overrides.
    rewrite Hov.
    rewrite runq_bind by (apply sched_quiet_repo, det_Blocks). rewrite sched_run_repo by apply det_Blocks.
    by rewrite Hbl.
  - intros fs. cbn zeta. unfold AppService_ReplaceHours. rewrite Ha, sched_lift_Ok, Hv. cbn [negb].
    unfold repo. rewrite attempt_bind.
    pose proof (atomic_ReplaceHours (sg_ids g) input fs d) as Hat. rewrite Hrep in Hat. cbn [snd] in Hat.
    match goal with |- context [match ?r with Ok _ => _ | Err _ => _ end] => destruct r eqn:Er end;
      cbn [io_fail mret io_mret io_ret fst snd]; destruct Hat as [[= _ ->]|[_ [->| ->]]]; auto.
Qed.

(** The two ways [SaveOverride] can succeed: a new override on a free day, or
    an override saved again on its own day. *)
Definition saveable (id : uuid) (day : Z) (d : sdb) : Prop :=
  (id = uuid_Nil ∧ (∀ o, o ∈ schedule_overrides d → or_id o ≠ sg_row g) ∧
   ∀ o, o ∈ schedule_overrides d → or_tenant o = T → or_barber o = barber → or_date o ≠ day) ∨
  (id ≠ uuid_Nil ∧ ∃ o, o ∈ schedule_overrides d ∧ or_tenant o = T ∧ or_barber o = barber ∧
     or_id o = id ∧ or_date o = day).

Lemma save_header_succeeds id day kind d :
  sched_ok d → saveable id day d → kind ∈ kinds →
  ∃ o d1, save_header T barber (sg_row g) (sg_now g) id day kind d = Ok (o, d1).
Proof.
  intros Hd Hs Hk. unfold save_header. destruct Hs as [(-> & Hid & Hday)|(Hid & r & Hr & Ht & Hb & <- & <-)].
  - rewrite bool_decide_refl. cbn [negb]. unfold insert_override. cbn [or_tenant or_kind or_id].
    rewrite bool_decide_refl. cbn [negb]. rewrite bool_decide_true by done. cbn [negb].
    rewrite (proj2 (existsb_fresh or_id _ _)) by done.
    replace (existsb _ _) with false; [by eexists _, _|]. symmetry. apply existsb_none. intros x Hx.
    unfold same_day; cbn. destruct (T ==? or_tenant x) eqn:E1; [|done]. destruct (barber ==? or_barber x) eqn:E2; [|done].
    bsimpl. cbn. apply Z.eqb_neq. intros E. by apply (Hday x Hx).
  - rewrite bool_decide_false by done. cbn [negb]. unfold update_override.
    rewrite (head_sel_unique or_id _ _ r).
    + cbn [or_kind]. rewrite bool_decide_true by done. cbn [negb].
      replace (existsb _ (schedule_overrides d)) with false.
      2:{ symmetry. apply existsb_none. intros x Hx. destruct (decide (x = r)) as [->|Hne];
            [by rewrite bool_decide_refl|].
          apply andb_false_iff. right. destruct (so_overrides d Hd) as (_ & _ & Hsame).
          specialize (Hsame r x Hr Hx ltac:(done)). exact Hsame. }
      replace (existsb _ (override_intervals d)) with false; [by eexists _, _|].
      symmetry. apply existsb_none. intros i _. unfold references; cbn. by rewrite andb_negb_r.
    + apply Hd.
    + unfold rls. intros y Hy. by bsimpl.
    + done.
    + unfold rls. rewrite !bool_decide_true by done. done.
Qed.

Lemma validOverride_kind input : validOverride input = true → OverrideInput_Kind input ∈ kinds.
Proof.
  unfold validOverride, kinds. destruct (parse_date _); [|done].
  destruct (_ ==? "custom_hours"%string) eqn:E; bsimpl; [rewrite E; set_solver|].
  intros Hv. apply andb_true_iff in Hv as [Hv _]. apply orb_true_iff in Hv as [Hv|Hv]; bsimpl; rewrite Hv; set_solver.
Qed.

(** a saved override takes effect: for an authorised principal, an accepted
    override on a free day (or saved again on its own day) is stored, and the
    lookup of [Availability] for that civil date, in any time zone, returns
    it with the kind and the wall-clock intervals that were sent. *)
Theorem override_takes_effect id input day d :
  may_write s t p barber → validOverride input = true →
  parse_date (OverrideInput_Date input) = Some day → first_day <= day →
  sched_ok d → saveable id day d →
  (∀ i j, sg_ids g i = sg_ids g j → i = j) → (∀ i x, x ∈ override_intervals d → oi_id x ≠ sg_ids g i) →
  ∃ o d', run (AppService_SaveOverride s g t p barber id input) d = (Ok o, d') ∧ sched_ok d' ∧
    ∀ zone date, civil zone date = day →
      ∃ over bl, run (SRepository_Day (TenantID t) barber date zone) d' = (Ok (over, bl), d') ∧
        Override_ID over = Override_ID o ∧ Override_Kind over = OverrideInput_Kind input ∧
        walls (Override_Intervals over) = walls (OverrideInput_Intervals input).
Proof.
  intros Hw Hv Hpd Hfirst Hd Hs Hinj Hfresh. pose proof (proj2 (authorize_write s t p barber) Hw) as Ha.
  pose proof (pg_date_iso _ _ Hpd Hfirst) as Hpg.
  destruct (save_header_succeeds id day (OverrideInput_Kind input) d Hd Hs (validOverride_kind _ Hv)) as (o & d1 & Eh).
  pose proof Eh as Eh'. apply save_header_spec in Eh' as (Hd1 & _ & Hi1 & Ho & Hot & Hob & Hod & Hok & _); [|done].
  destruct (run_SaveOverride_tail (sg_ids g) T barber o (OverrideInput_Date input) (OverrideInput_Intervals input) d1)
    as [Htail Hwalls]; try done.
  { by rewrite Hi1. } { by apply validOverride_intervals. } { by rewrite Hod. }
  set (d2 := set_intervals (override_intervals (set_intervals _ d1) ++ _) _) in *.
  assert (run (SRepository_SaveOverride (sg_ids g) (sg_row g) (sg_now g) T barber id input) d
    = (Ok (set_override_intervals (OverrideInput_Intervals input) (scan_override o)), d2)) as Hrun.
  { erewrite run_SaveOverride by (exact Hpg || exact Eh). by rewrite Htail. }
  assert (sched_ok d2) as Hd2.
  { pose proof (step_in_run _ _ d (SRepository_SaveOverride_keeps T barber (sg_ids g) (sg_row g) (sg_now g) id input
      (validOverride_intervals _ Hv)) Hd) as Hk. by rewrite Hrun in Hk. }
  eexists _, d2. split; [|split; [done|]].
  - unfold AppService_SaveOverride. rewrite run_authorized, Hv by done. cbn [negb].
    rewrite sched_run_repo; [by rewrite Hrun|].
    unfold SRepository_SaveOverride.
    assert (∀ x, det (insert_override_intervals (sg_ids g) 0 T T barber x (OverrideInput_Date input)
                 (OverrideInput_Intervals input))) by (intros; apply det_insert_override_intervals).
    solve_det.
  - intros zone date Hc. eexists _, _. split; [apply run_Day|]. rewrite Hc.
    assert (day_override T barber day d2 = Some o) as ->.
    { assert (o ∈ schedule_overrides d2) as Ho2 by done.
      unfold day_override. destruct (head _) as [o'|] eqn:E.
      - apply head_sel_Some in E as [E Ho']. unfold overrides_of in E. bsimpl. zeqs. f_equal.
        destruct (decide (o' = o)) as [|Hne]; [done|]. destruct (so_overrides d2 Hd2) as (_ & _ & Hsame).
        specialize (Hsame o' o Ho' Ho2 Hne). unfold same_day in Hsame.
        rewrite !bool_decide_true in Hsame by congruence. cbn in Hsame. lia.
      - pose proof (head_sel_None _ _ E o Ho2) as E'. cbn in E'. unfold overrides_of in E'.
        rewrite Hot, Hob, !bool_decide_refl in E'. cbn in E'. lia. }
    cbn. by rewrite Hok.
Qed.

(** an override that has intervals cannot be moved to another date: the
    UPDATE of [override_date] runs before the DELETE of the intervals that
    reference the old date, the foreign key rejects it, and the caller gets a
    conflict although the new day may be free. *)
Theorem override_move_conflict id input day d o i :
  may_write s t p barber → validOverride input = true →
  pg_date (OverrideInput_Date input) = Some day →
  sched_ok d → id ≠ uuid_Nil → o ∈ schedule_overrides d →
  or_tenant o = TenantID t → or_barber o = barber → or_id o = id → or_date o ≠ day →
  i ∈ override_intervals d → references i o = true →
  run (AppService_SaveOverride s g t p barber id input) d = (Err ErrConflict, d).
Proof.
  intros Hw Hv Hpg Hd Hid Ho Hot Hob Hoid Hday Hi Href. pose proof (proj2 (authorize_write s t p barber) Hw) as Ha.
  unfold AppService_SaveOverride. rewrite run_authorized, Hv by done. cbn [negb].
  assert (∃ e, e ≠ NoRows ∧
    save_header T barber (sg_row g) (sg_now g) id day (OverrideInput_Kind input) d = Err e) as (e & He & Hh).
  { unfold save_header. rewrite bool_decide_false by done. cbn [negb]. unfold update_override.
    rewrite (head_sel_unique or_id _ _ o).
    - destruct (negb _); [by eexists; split; cycle 1|]. destruct (existsb _ (schedule_overrides d)); [by eexists; split; cycle 1|].
      replace (existsb _ (override_intervals d)) with true; [by eexists; split; cycle 1|]. symmetry. apply existsb_elem.
      exists i. split; [done|]. rewrite Href. cbn. unfold references in *; cbn. bsimpl. zeqs.
      rewrite (proj2 (Z.eqb_neq _ _)) by congruence. by rewrite andb_false_r.
    - apply Hd.
    - unfold rls. intros y Hy. bsimpl. congruence.
    - done.
    - unfold rls. rewrite !bool_decide_true by done. done. }
  rewrite sched_run_repo.
  2:{ unfold SRepository_SaveOverride.
      assert (∀ x, det (insert_override_intervals (sg_ids g) 0 T T barber x (OverrideInput_Date input)
                   (OverrideInput_Intervals input))) by (intros; apply det_insert_override_intervals).
      solve_det. }
  rewrite (run_SaveOverride_fails T barber _ _ _ _ _ _ e); [by destruct e|]. by rewrite Hpg.
Qed.
End RoundTrip.

Section Exact.
Context `{GoLib} `{PgText}.

(** the answer of the availability query: from any consistent schedule,
    when the other services answer, [Availability] returns - so the slot
    enumeration ends, also when the tenant's interval is unset and the
    fallback is used - and the slots are, in increasing order, exactly the
    starts on the step grid of the date's windows (the override's if the date
    has one, else the weekday's) that lie in the future, fit with their
    buffers into the window and meet no blocked and no occupied period. *)
Theorem availability_exact s now q d svc settings zone occupied :
  sched_ok d → Answers s q svc settings zone occupied →
  0 <= DurationMinutes svc <= 2 ^ 25 → 0 <= BufferBeforeMinutes svc <= 2 ^ 25 →
  0 <= BufferAfterMinutes svc <= 2 ^ 25 → 1 <= DurationMinutes svc + BufferAfterMinutes svc →
  BookingIntervalMinutes settings <= 2 ^ 26 → 1 <= s_fallbackInterval s <= 2 ^ 26 →
  let date := Date (Q_Date q) zone in
  ∃ hours over blocked out,
    run (SRepository_Hours (TenantID (Q_Tenant q)) (Q_BarberID q)) d = (Ok hours, d) ∧
    run (SRepository_Day (TenantID (Q_Tenant q)) (Q_BarberID q) date zone) d = (Ok (over, blocked), d) ∧
    run (AppService_Availability s now q) d = (Ok (Some out), d) ∧
    StronglySorted starts_before out ∧
    ∀ sl, sl ∈ out ↔
      ∃ i k start, i ∈ IntervalsForDate hours over date zone ∧ 0 <= k ∧
        start = Slot_StartAt i + k * (step_of s settings * Minute) ∧
        sl = mkSlot start (start + DurationMinutes svc * Minute) ∧
        Slot_StartAt i <= start - BufferBeforeMinutes svc * Minute ∧
        start + (DurationMinutes svc + BufferAfterMinutes svc) * Minute <= Slot_EndAt i ∧
        now < start ∧
        ∀ x, x ∈ blocked ++ occupied →
          start + (DurationMinutes svc + BufferAfterMinutes svc) * Minute <= BlockedPeriod_StartAt x ∨
          BlockedPeriod_EndAt x <= start - BufferBeforeMinutes svc * Minute.
Proof.
  intros Hd Ha H1 H2 H3 H4 H5 H6 date.
  assert (1 <= step_of s settings <= 2 ^ 26) as Hstep.
  { unfold step_of. destruct (Z.ltb_spec (BookingIntervalMinutes settings) 1); lia. }
  destruct (run_Availability s now q d svc settings zone occupied Ha) as (hrs & over & blocked & Hh & Hday & Hrun).
  destruct (Hours_valid (TenantID (Q_Tenant q)) (Q_BarberID q) d Hd) as (hrs' & Hh' & Hv & _).
  assert (hrs' = hrs) as -> by congruence.
  assert (ValidIntervals (Override_Intervals over) = true) as Ho.
  { rewrite run_Day in Hday. injection Hday as <- _.
    destruct (day_override _ _ _ d) as [r|] eqn:E; [|done]. cbn.
    apply head_sel_Some in E as [_ Hin]. by apply intervals_for_valid. }
  eexists _, _, _, _. split; [done|]. split; [done|]. split.
  { rewrite Hrun. rewrite Available_free_slots by (by apply step_positive). done. }
  split; [|intros sl; by apply elem_of_free_slots_exact].
  apply free_slots_for_date_sorted; try done.
  eapply Forall_impl; [exact Hv|]. by intros w [_ Hw].
Qed.
End Exact.

(** * Witnesses *)

Definition TestPg : PgText :=
  mkPgText (λ s, if 0 <=? parseWall s then Some (parseWall s / Microsecond) else None)
    parse_date (λ _, EmptyString).
Lemma TestPg_laws : @PgTextLaws TestPg.
Proof.
  split.
  - intros s Hs. cbn. by rewrite (proj2 (Z.leb_le _ _) Hs).
  - intros s day Hs _. exact Hs.
Defined.

Definition ex_admin : TenantContext := mkTenantContext 1 "admin" "req".
Definition ex_owner : Principal := mkPrincipal 5 "OWNER".
Definition ex_sgen (n : N) : SGen := mkSGen (λ i, (1000 * n + N.of_nat i)%N) n 0.
Definition ex_service : AppService :=
  mkAppService
    (mkDependencies (λ _ _, Ok (mkBarber None)) (λ _ _ _, Ok (mkService 30 0 10))
       (λ _, Ok (mkTenantSettings "UTC" 0 "flexible" 60)))
    (λ _ _ _ _, Ok [mkBlockedPeriod uuid_Nil (100 * Day + 10 * Hour) (100 * Day + 11 * Hour)]) 15.
Definition ex_week : WorkingHoursInput :=
  [mkWorkingDay 6 [mkInterval "9:00" "12:00"; mkInterval "13:00" "17:30"]; mkWorkingDay 0 []].
Definition ex_custom (date : string) : OverrideInput :=
  mkOverrideInput date "custom_hours" [mkInterval "10:00" "14:00"].

Lemma ex_may_write : may_write ex_service ex_admin ex_owner 12.
Proof. by left. Defined.

Lemma ex_sgen_inj n i j : sg_ids (ex_sgen n) i = sg_ids (ex_sgen n) j → i = j.
Proof. cbn. lia. Defined.

Definition ex_custom_db : sdb :=
  (run (@AppService_SaveOverride TestPg ex_service (ex_sgen 2) ex_admin ex_owner 12 uuid_Nil
          (ex_custom "1970-04-11")) empty_sdb).2.
Definition ex_override : override_row := mkOverrideRow 2 1 12 100 "custom_hours" 0.
Definition ex_interval : interval_row := mkIntervalRow 2000 1 2 12 100 36000000000 50400000000.

Lemma ex_custom_db_eq : ex_custom_db = mkSdb [] [ex_override] [ex_interval] [].
Proof. vm_compute. reflexivity. Defined.

Lemma ex_custom_db_ok : sched_ok ex_custom_db.
Proof.
  rewrite ex_custom_db_eq. constructor; cbn.
  - apply table_ok_nil.
  - repeat split; [by apply NoDup_singleton| |].
    + apply Forall_singleton. unfold override_row_ok, kinds; cbn. set_solver.
    + intros x y ->%list_elem_of_singleton ->%list_elem_of_singleton. done.
  - repeat split; [by apply NoDup_singleton| |].
    + apply Forall_singleton. unfold interval_row_ok, minute_of_day; cbn.
      split; [by exists 600|]. split; [by exists 840|done].
    + intros x y ->%list_elem_of_singleton ->%list_elem_of_singleton. done.
  - apply table_ok_nil.
  - intros i ->%list_elem_of_singleton. exists ex_override. split; [by apply list_elem_of_singleton|done].
Qed.

Lemma override_move_conflict_witness :
  run (@AppService_SaveOverride TestPg ex_service (ex_sgen 3) ex_admin ex_owner 12 2
         (ex_custom "1970-04-12")) ex_custom_db = (Err ErrConflict, ex_custom_db).
Proof.
  apply (@override_move_conflict TestPg ex_service (ex_sgen 3) ex_admin ex_owner 12 2
           (ex_custom "1970-04-12") 101 ex_custom_db ex_override ex_interval); try reflexivity; try discriminate.
  - exact ex_may_write.
  - exact ex_custom_db_ok.
  - rewrite ex_custom_db_eq. apply list_elem_of_here.
  - rewrite ex_custom_db_eq. apply list_elem_of_here.
Defined.

Lemma override_takes_effect_witness :
  ∃ o d', run (@AppService_SaveOverride TestPg ex_service (ex_sgen 2) ex_admin ex_owner 12 uuid_Nil
                 (ex_custom "1970-04-11")) empty_sdb = (Ok o, d') ∧ sched_ok d' ∧
    ∀ zone date, civil zone date = 100 →
      ∃ over bl, run (@SRepository_Day TestPg 1 12 date zone) d' = (Ok (over, bl), d') ∧
        Override_ID over = Override_ID o ∧ Override_Kind over = "custom_hours"%string ∧
        walls (Override_Intervals over) = walls [mkInterval "10:00" "14:00"].
Proof.
  apply (@override_takes_effect TestPg TestPg_laws ex_service (ex_sgen 2) ex_admin ex_owner 12 uuid_Nil
           (ex_custom "1970-04-11") 100 empty_sdb); try reflexivity.
  - exact ex_may_write.
  - unfold first_day. lia.
  - exact sched_ok_empty.
  - left. split; [reflexivity|]. split; intros o Ho; apply not_elem_of_nil in Ho; destruct Ho.
  - exact (ex_sgen_inj 2).
  - intros i x Hx. apply not_elem_of_nil in Hx. destruct Hx.
Defined.

Lemma hours_roundtrip_witness :
  ∃ d' sch,
    run (@AppService_ReplaceHours TestPg ex_service (ex_sgen 1) ex_admin ex_owner 12 ex_week) empty_sdb
      = (Ok tt, d') ∧
    run (@AppService_Schedule TestPg ex_service ex_admin ex_owner 12) d' = (Ok sch, d') ∧
    (∀ w, walls (intervals_of_weekday (Schedule_WorkingHours sch) w)
          = walls (intervals_of_weekday ex_week w)) ∧
    ∀ fs, let d1 := (@AppService_ReplaceHours TestPg ex_service (ex_sgen 1) ex_admin ex_owner 12 ex_week
                       fs empty_sdb).2.2 in d1 = empty_sdb ∨ d1 = d'.
Proof.
  apply (@hours_roundtrip TestPg TestPg_laws ex_service (ex_sgen 1) ex_admin ex_owner 12 ex_week empty_sdb).
  - exact ex_may_write.
  - reflexivity.
  - apply (bool_decide_unpack _). vm_compute. exact I.
  - exact (ex_sgen_inj 1).
  - intros i x Hx. apply not_elem_of_nil in Hx. destruct Hx.
Defined.

Definition ex_query : AvailabilityQuery := mkAvailabilityQuery ex_admin (Some ex_owner) 12 13 100.
Definition ex_answer : list BlockedPeriod :=
  [mkBlockedPeriod uuid_Nil (100 * Day + 10 * Hour) (100 * Day + 11 * Hour)].

Lemma ex_answers :
  @Answers TestLib ex_service ex_query (mkService 30 0 10) (mkTenantSettings "UTC" 0 "flexible" 60) UTC ex_answer.
Proof. constructor; try reflexivity; [split; discriminate|by eexists]. Defined.

Lemma availability_exact_witness :
  ∃ out, run (@AppService_Availability TestLib TestPg ex_service 0 ex_query) ex_custom_db
         = (Ok (Some out), ex_custom_db) ∧ StronglySorted starts_before out ∧
    mkSlot (100 * Day + 11 * Hour) (100 * Day + 11 * Hour + 30 * Minute) ∈ out.
Proof.
  destruct (@availability_exact TestLib TestPg ex_service 0 ex_query ex_custom_db (mkService 30 0 10)
    (mkTenantSettings "UTC" 0 "flexible" 60) UTC ex_answer ex_custom_db_ok ex_answers
    ltac:(cbn; lia) ltac:(cbn; lia) ltac:(cbn; lia) ltac:(cbn; lia) ltac:(cbn; lia) ltac:(cbn; lia))
    as (hrs & over & blocked & out & Hh & Hday & Hrun & Hs & Hel).
  exists out. split; [exact Hrun|]. split; [exact Hs|]. apply Hel.
  rewrite run_Hours, ex_custom_db_eq in Hh. rewrite run_Day, ex_custom_db_eq in Hday.
  injection Hh as <-. vm_compute in Hday. injection Hday as <- <-.
  exists (mkSlot (100 * Day + 10 * Hour) (100 * Day + 14 * Hour)), 4, (100 * Day + 11 * Hour).
  split; [vm_compute; apply list_elem_of_here|].
  unfold step_of, Day, Hour, Minute, Second; cbn. repeat split; try lia.
  intros x Hx. apply list_elem_of_singleton in Hx as ->. right. cbn. unfold Day, Hour, Minute, Second. lia.
Defined.

Lemma availability_fail_closed_witness :
  ∃ svc settings zone occupied, @Answers TestLib ex_service ex_query svc settings zone occupied ∧
    run (@AppService_Availability TestLib TestPg ex_service 0 ex_query) ex_custom_db
    = (Ok (Some (map (λ m, mkSlot (100 * Day + m * Minute) (100 * Day + (m + 30) * Minute))
                   [660; 675; 690; 705; 720; 735; 750; 765; 780; 795])), ex_custom_db).
Proof.
  apply (@availability_fail_closed TestLib TestPg ex_service 0 ex_query [FOk; FOk; FOk; FOk] ex_custom_db).
  rewrite ex_custom_db_eq. vm_compute. reflexivity.
Defined.

Definition ex_handler : Handler :=
  mkHandler ex_service (NewMultiTokenVerifier ["secret"%string])
    (λ _ _, Some (mkAdminPrincipal "OWNER" "1" 5 false)).
Definition ex_header (name : string) : string :=
  if name ==? InternalTokenHeader then "secret"
  else if name ==? TenantIDHeader then "1"
  else if name ==? AppTypeHeader then "admin" else EmptyString.
Definition ex_put : Request WorkingHoursInput :=
  mkRequest "PUT" ex_header (λ _, "0011"%string) (λ _, EmptyString) (Some ex_week).
Definition ex_week_db : sdb := (@hours TestLib TestPg ex_handler (ex_sgen 1) ex_put [] empty_sdb).2.2.

Lemma schedule_writes_authorised_witness :
  length (working_hours ex_week_db) = 2%nat ∧
  @admin_write TestLib ex_handler _ ex_put empty_sdb ex_week_db.
Proof.
  split; [vm_compute; reflexivity|].
  exact (proj1 (@schedule_writes_authorised TestLib TestPg TestPg_laws ex_handler [] empty_sdb) (ex_sgen 1) ex_put).
Defined.

Lemma stored_schedule_valid_witness :
  sched_ok ex_week_db ∧
  ∃ out, run (@SRepository_Hours 1 12) ex_week_db = (Ok out, ex_week_db) ∧
    validHours out = true ∧ NoDup (map Weekday_ out).
Proof.
  destruct (@stored_schedule_valid TestLib TestPg TestPg_laws ex_handler ex_week_db) as [Hok Hread].
  - apply rtc_once. exact (@step_hours TestLib TestPg ex_handler empty_sdb (ex_sgen 1) ex_put []).
  - split; [exact Hok|]. exact (proj1 (Hread 1%N 12%N)).
Defined.
