(* ===== verification/AppointmentRepo.v ===== *)
(** * AppointmentRepo: appointment-service, packages [domain] and [repository]

    The appointment database ([migrations/*.up.sql]: tables, CHECK, unique,
    foreign-key and exclusion constraints, row-level security) and every
    operation of [internal/repository/repository.go] that runs in a tenant
    transaction.  The outbox operations are in [Outbox]. *)
From S2P Require Import Prelude Effects GoTime.

Local Open Scope Z_scope.

(** ** Domain *)

Record CreateInput := mkCreateInput {
  CreateInput_BranchID : uuid;
  CreateInput_BarberID : uuid;
  CreateInput_ServiceID : uuid;
  CreateInput_CustomerName : string;
  CreateInput_CustomerContact : string;
  CreateInput_StartAt : time;
  CreateInput_CustomerID : option uuid
}.

Record Appointment := mkAppointment {
  Appointment_ID : uuid;
  Appointment_BranchID : uuid;
  Appointment_BarberID : uuid;
  Appointment_ServiceID : uuid;
  Appointment_CustomerName : string;
  Appointment_CustomerContact : string;
  Appointment_StartAt : time;
  Appointment_EndAt : time;
  Appointment_OccupiedStartAt : time;
  Appointment_OccupiedEndAt : time;
  Appointment_Status : string;
  Appointment_CanCancel : bool;
  Appointment_CancellationDeadline : option time
}.

(** The JSON body of an event. *)
Record EventPayload := mkEventPayload {
  EventPayload_AppointmentID : uuid;
  EventPayload_BranchID : uuid;
  EventPayload_BarberID : uuid;
  EventPayload_ServiceID : uuid;
  EventPayload_StartAt : time;
  EventPayload_EndAt : time;
  EventPayload_Status : string
}.

#[export] Instance Appointment_eq_dec : EqDecision Appointment.
Proof. solve_decision. Defined.
#[export] Instance EventPayload_eq_dec : EqDecision EventPayload.
Proof. solve_decision. Defined.

(** ** Tables *)

Record appointment_row := mkAppointmentRow {
  ap_id : uuid;
  ap_tenant : uuid;
  ap_branch : uuid;
  ap_barber : uuid;
  ap_service : uuid;
  ap_customer : option uuid;
  ap_customer_name : string;
  ap_customer_contact : string;
  ap_start : time;
  ap_end : time;
  ap_occupied_start : time;
  ap_occupied_end : time;
  ap_status : string;
  ap_created : time;
  ap_updated : time
}.

Record event_row := mkEventRow {
  ev_id : uuid; ev_tenant : uuid; ev_appointment : uuid; ev_type : string;
  ev_payload : EventPayload; ev_created : time
}.

Record idempotency_row := mkIdempotencyRow {
  ik_tenant : uuid; ik_scope : string; ik_operation : string; ik_key : string;
  ik_fingerprint : string; ik_appointment : uuid; ik_created : time
}.

Record outbox_row := mkOutboxRow {
  ob_id : uuid; ob_tenant : uuid; ob_aggregate : uuid; ob_type : string;
  ob_payload : EventPayload; ob_created : time;
  ob_published : option time; ob_publishing : option time;
  ob_attempts : Z; ob_failed : option time
}.

Record db := mkDb {
  appointments : list appointment_row;
  appointment_events : list event_row;
  idempotency_keys : list idempotency_row;
  outbox_events : list outbox_row
}.

Definition set_appointments l (d : db) : db :=
  mkDb l (appointment_events d) (idempotency_keys d) (outbox_events d).
Definition set_events l (d : db) : db :=
  mkDb (appointments d) l (idempotency_keys d) (outbox_events d).
Definition set_keys l (d : db) : db :=
  mkDb (appointments d) (appointment_events d) l (outbox_events d).
Definition set_outbox l (d : db) : db :=
  mkDb (appointments d) (appointment_events d) (idempotency_keys d) l.

Definition empty_db : db := mkDb [] [] [] [].

(** ** Constraints *)

(** The status CHECK, and the predicate of the exclusion constraint. *)
Definition statuses : list string :=
  ["pending"; "confirmed"; "cancelled"; "completed"; "no_show"]%string.
Definition live (status : string) : bool :=
  (status ==? "pending"%string) || (status ==? "confirmed"%string).

Definition appointment_check (r : appointment_row) : bool :=
  bool_decide (ap_status r ∈ statuses)
  && (ap_start r <? ap_end r)
  && (ap_occupied_start r <? ap_occupied_end r).

(** [appointments_no_overlap]: two live rows of one barber whose occupied
    half-open ranges intersect. *)
Definition overlaps (a b : appointment_row) : bool :=
  live (ap_status a) && live (ap_status b)
  && (ap_tenant a ==? ap_tenant b) && (ap_barber a ==? ap_barber b)
  && (ap_occupied_start a <? ap_occupied_end b)
  && (ap_occupied_start b <? ap_occupied_end a).

(** The number of characters of a UTF-8 text: the bytes that are not
    continuation bytes. *)
Fixpoint pg_length (s : string) : Z :=
  match s with
  | EmptyString => 0
  | String c s' =>
      (if (128 <=? Z.of_nat (nat_of_ascii c)) && (Z.of_nat (nat_of_ascii c) <? 192)
       then 0 else 1) + pg_length s'
  end.

(** The character class [A-Za-z0-9._:-]. *)
Definition key_char (c : ascii) : bool :=
  let n := Z.of_nat (nat_of_ascii c) in
  ((65 <=? n) && (n <=? 90)) || ((97 <=? n) && (n <=? 122)) || ((48 <=? n) && (n <=? 57))
  || (n =? 46) || (n =? 95) || (n =? 58) || (n =? 45).

(** The character class [0-9a-f]. *)
Definition hex_char (c : ascii) : bool :=
  let n := Z.of_nat (nat_of_ascii c) in
  ((48 <=? n) && (n <=? 57)) || ((97 <=? n) && (n <=? 102)).

Fixpoint all_chars (p : ascii -> bool) (s : string) : bool :=
  match s with EmptyString => true | String c s' => p c && all_chars p s' end.

(** [^...+$] *)
Definition match_plus (p : ascii -> bool) (s : string) : bool :=
  (s !=? EmptyString) && all_chars p s.

Definition idempotency_check (r : idempotency_row) : bool :=
  (1 <=? pg_length (ik_key r)) && (pg_length (ik_key r) <=? 128)
  && match_plus key_char (ik_key r)
  && (Z.of_nat (String.length (ik_fingerprint r)) =? 64)
  && all_chars hex_char (ik_fingerprint r).

(** ** Statements *)

(** What the server draws for one operation: the transaction's [now()] and the
    [gen_random_uuid()] of the rows it inserts. *)
Record Gen := mkGen { g_now : time; g_appointment : uuid; g_event : uuid; g_outbox : uuid }.

(** [scan] of [appointmentColumns]. *)
Definition scan (r : appointment_row) : Appointment :=
  mkAppointment (ap_id r) (ap_branch r) (ap_barber r) (ap_service r)
    (ap_customer_name r) (ap_customer_contact r) (ap_start r) (ap_end r)
    (ap_occupied_start r) (ap_occupied_end r) (ap_status r) false None.

(** QueryRow: the first row, or [pgx.ErrNoRows]. *)
Definition query_row {A} (l : list A) (d : db) : res pg_error (A * db) :=
  match head l with Some a => Ok (a, d) | None => Err NoRows end.

Definition select_appointments (tx : uuid) (p : appointment_row -> bool) (d : db)
  : list appointment_row := sel (rls ap_tenant tx p) (appointments d).

Definition select_key (tx tenantID : uuid) (scope operation key : string) (d : db)
  : res pg_error (idempotency_row * db) :=
  if negb (text_ok scope && text_ok operation && text_ok key) then Err BadEncoding
  else
    query_row
      (sel (rls ik_tenant tx (λ r, (ik_tenant r ==? tenantID) && (ik_scope r ==? scope)
              && (ik_operation r ==? operation) && (ik_key r ==? key)))
         (idempotency_keys d)) d.

Definition insert_appointment (tx : uuid) (r : appointment_row) (d : db)
  : res pg_error (appointment_row * db) :=
  if negb (text_ok (ap_customer_name r) && text_ok (ap_customer_contact r)) then Err BadEncoding
  else if ap_tenant r !=? tx then Err RlsViolation
  else if negb (appointment_check r) then Err CheckViolation
  else if existsb (λ x, ap_id x ==? ap_id r) (appointments d) then Err UniqueViolation
  else if existsb (overlaps r) (appointments d) then Err ExclusionViolation
  else Ok (r, set_appointments (appointments d ++ [r]) d).

(** UPDATE ... SET f WHERE tenant_id=$1 AND id=$2 RETURNING ... *)
Definition update_appointment (tx tenantID id : uuid) (f : appointment_row -> appointment_row)
    (d : db) : res pg_error (appointment_row * db) :=
  match head (select_appointments tx (λ r, (ap_tenant r ==? tenantID) && (ap_id r ==? id)) d) with
  | None => Err NoRows
  | Some r =>
      if negb (appointment_check (f r)) then Err CheckViolation
      else if existsb (λ x, (ap_id x !=? ap_id r) && overlaps (f r) x) (appointments d)
      then Err ExclusionViolation
      else Ok (f r, set_appointments (upd (λ x, ap_id x ==? ap_id r) f (appointments d)) d)
  end.

Definition has_appointment (tenantID id : uuid) (d : db) : bool :=
  existsb (λ r, (ap_tenant r ==? tenantID) && (ap_id r ==? id)) (appointments d).

Definition insert_key (tx : uuid) (r : idempotency_row) (d : db) : res pg_error (unit * db) :=
  if negb (text_ok (ik_scope r) && text_ok (ik_operation r)) then Err BadEncoding
  else if ik_tenant r !=? tx then Err RlsViolation
  else if negb (idempotency_check r) then Err CheckViolation
  else if existsb (λ x, (ik_tenant x ==? ik_tenant r) && (ik_scope x ==? ik_scope r)
                        && (ik_operation x ==? ik_operation r) && (ik_key x ==? ik_key r))
            (idempotency_keys d) then Err UniqueViolation
  else if negb (has_appointment (ik_tenant r) (ik_appointment r) d) then Err ForeignKeyViolation
  else Ok (tt, set_keys (idempotency_keys d ++ [r]) d).

Definition insert_event (tx : uuid) (r : event_row) (d : db) : res pg_error (unit * db) :=
  if ev_tenant r !=? tx then Err RlsViolation
  else if existsb (λ x, ev_id x ==? ev_id r) (appointment_events d) then Err UniqueViolation
  else if negb (has_appointment (ev_tenant r) (ev_appointment r) d) then Err ForeignKeyViolation
  else Ok (tt, set_events (appointment_events d ++ [r]) d).

Definition insert_outbox (tx : uuid) (r : outbox_row) (d : db) : res pg_error (unit * db) :=
  if ob_tenant r !=? tx then Err RlsViolation
  else if existsb (λ x, ob_id x ==? ob_id r) (outbox_events d) then Err UniqueViolation
  else Ok (tt, set_outbox (outbox_events d ++ [r]) d).

(** ** Operations *)

Inductive repo_error :=
| ErrNotFound
| ErrIdempotencyConflict
| ErrInvalidTransition
| Pg (e : pg_error).

#[export] Instance repo_error_eq_dec : EqDecision repo_error.
Proof. solve_decision. Defined.
#[export] Instance repo_from_pg : FromPg repo_error := Pg.

Abbreviation M := (IO db repo_error).

(** [errors.Is(err, pgx.ErrNoRows)] turned into [ErrNotFound]. *)
Definition or_not_found {A} (m : M A) : M A :=
  r ← attempt m;
  match r with
  | Ok a => mret a
  | Err (Pg NoRows) => io_fail ErrNotFound
  | Err e => io_fail e
  end.

Definition by_id (tenantID id : uuid) (r : appointment_row) : bool :=
  (ap_tenant r ==? tenantID) && (ap_id r ==? id).

Definition select_by_id (tx tenantID id : uuid) : M appointment_row :=
  stmt (λ d, query_row (select_appointments tx (by_id tenantID id) d) d).

Definition Repository_Replay (tenantID : uuid) (principalScope operation key fingerprint : string)
  : M (option Appointment) :=
  WithTenantTx tenantID (λ tx,
    r ← attempt (stmt (select_key tx tenantID principalScope operation key));
    match r with
    | Err (Pg NoRows) => mret None
    | Err e => io_fail e
    | Ok k =>
        if ik_fingerprint k !=? fingerprint then io_fail ErrIdempotencyConflict
        else
          a ← select_by_id tx tenantID (ik_appointment k);
          mret (Some (scan a))
    end).

Definition eventPayload (a : Appointment) : EventPayload :=
  mkEventPayload (Appointment_ID a) (Appointment_BranchID a) (Appointment_BarberID a)
    (Appointment_ServiceID a) (Appointment_StartAt a) (Appointment_EndAt a) (Appointment_Status a).

Definition appendEvent (g : Gen) (tx tenantID : uuid) (a : Appointment)
    (eventName outboxType : string) : M unit :=
  let payload := eventPayload a in
  stmt (insert_event tx
    (mkEventRow (g_event g) tenantID (Appointment_ID a) eventName payload (g_now g))) ;;
  stmt (insert_outbox tx
    (mkOutboxRow (g_outbox g) tenantID (Appointment_ID a) outboxType payload (g_now g)
       None None 0 None)).

(** The INSERT of [Create] up to the event: the row and its key. *)
Definition create_rows (g : Gen) (tx tenantID : uuid) (input : CreateInput)
    (endAt occupiedStartAt occupiedEndAt : time)
    (principalScope operation key fingerprint : string) : M Appointment :=
  row ← stmt (insert_appointment tx
    (mkAppointmentRow (g_appointment g) tenantID (CreateInput_BranchID input)
       (CreateInput_BarberID input) (CreateInput_ServiceID input) (CreateInput_CustomerID input)
       (CreateInput_CustomerName input) (CreateInput_CustomerContact input)
       (pg_ts (CreateInput_StartAt input)) (pg_ts endAt)
       (pg_ts occupiedStartAt) (pg_ts occupiedEndAt) "pending" (g_now g) (g_now g)));
  let appointment := scan row in
  (if key !=? ""%string then
     stmt (insert_key tx (mkIdempotencyRow tenantID principalScope operation key fingerprint
                            (Appointment_ID appointment) (g_now g)))
   else mret tt) ;;
  appendEvent g tx tenantID appointment "AppointmentCreated" "appointment.created" ;;
  mret appointment.

Definition Repository_Create (g : Gen) (tenantID : uuid) (input : CreateInput)
    (endAt occupiedStartAt occupiedEndAt : time)
    (principalScope operation key fingerprint : string) : M Appointment :=
  WithTenantTx tenantID (λ tx,
    if key !=? ""%string then
      (* pg_advisory_xact_lock on the key's scope *)
      stmt (λ d, Ok (tt, d)) ;;
      r ← attempt (stmt (select_key tx tenantID principalScope operation key));
      match r with
      | Ok k =>
          if ik_fingerprint k !=? fingerprint then io_fail ErrIdempotencyConflict
          else a ← select_by_id tx tenantID (ik_appointment k); mret (scan a)
      | Err (Pg NoRows) =>
          create_rows g tx tenantID input endAt occupiedStartAt occupiedEndAt
            principalScope operation key fingerprint
      | Err e => io_fail e
      end
    else
      create_rows g tx tenantID input endAt occupiedStartAt occupiedEndAt
        principalScope operation key fingerprint).

Definition Repository_Get (tenantID id : uuid) : M Appointment :=
  WithTenantTx tenantID (λ tx,
    a ← or_not_found (select_by_id tx tenantID id); mret (scan a)).

(** ORDER BY start_at DESC *)
Definition by_start_desc (l : list appointment_row) : list appointment_row :=
  order_by (λ r, - ap_start r) l.

Definition Repository_List (tenantID : uuid) : M (list Appointment) :=
  WithTenantTx tenantID (λ tx,
    query (λ d, map scan (by_start_desc
      (select_appointments tx (λ r, ap_tenant r ==? tenantID) d)))).

(** The WHERE clause that [upcoming] selects; [now] is the transaction's
    [now()]. *)
Definition customer_filter (upcoming : bool) (now : time) (r : appointment_row) : bool :=
  if upcoming then (now <=? ap_start r) && live (ap_status r)
  else (ap_start r <? now)
       || bool_decide (ap_status r ∈ ["cancelled"; "completed"; "no_show"]%string).

Definition Repository_ListForCustomer (now : time) (tenantID customerID : uuid) (upcoming : bool)
  : M (list Appointment) :=
  WithTenantTx tenantID (λ tx,
    query (λ d, map scan (by_start_desc
      (select_appointments tx (λ r, (ap_tenant r ==? tenantID)
         && (ap_customer r ==? Some customerID) && customer_filter upcoming now r) d)))).

Definition Repository_GetForCustomer (tenantID customerID id : uuid) : M Appointment :=
  WithTenantTx tenantID (λ tx,
    a ← or_not_found (stmt (λ d, query_row (select_appointments tx
          (λ r, (ap_tenant r ==? tenantID) && (ap_customer r ==? Some customerID)
                && (ap_id r ==? id)) d) d));
    mret (scan a)).

(** [transitions[from][to]]; a missing entry is [false]. *)
Definition transitions (from to : string) : bool :=
  ((from ==? "pending"%string)
   && ((to ==? "confirmed"%string) || (to ==? "cancelled"%string)))
  || ((from ==? "confirmed"%string)
      && ((to ==? "cancelled"%string) || (to ==? "completed"%string) || (to ==? "no_show"%string))).

Definition titles (to : string) : string :=
  if to ==? "confirmed"%string then "AppointmentConfirmed"
  else if to ==? "cancelled"%string then "AppointmentCancelled"
  else if to ==? "completed"%string then "AppointmentCompleted"
  else if to ==? "no_show"%string then "AppointmentNoShow"
  else "".

Definition set_status (to : string) (now : time) (r : appointment_row) : appointment_row :=
  mkAppointmentRow (ap_id r) (ap_tenant r) (ap_branch r) (ap_barber r) (ap_service r)
    (ap_customer r) (ap_customer_name r) (ap_customer_contact r) (ap_start r) (ap_end r)
    (ap_occupied_start r) (ap_occupied_end r) to (ap_created r) now.

Definition set_times (startAt endAt occupiedStartAt occupiedEndAt now : time) (r : appointment_row)
  : appointment_row :=
  mkAppointmentRow (ap_id r) (ap_tenant r) (ap_branch r) (ap_barber r) (ap_service r)
    (ap_customer r) (ap_customer_name r) (ap_customer_contact r) (pg_ts startAt) (pg_ts endAt)
    (pg_ts occupiedStartAt) (pg_ts occupiedEndAt) (ap_status r) (ap_created r) now.

Definition Repository_Transition (g : Gen) (tenantID id : uuid) (to : string) : M Appointment :=
  WithTenantTx tenantID (λ tx,
    from ← or_not_found (select_by_id tx tenantID id);
    if negb (transitions (ap_status from) to) then io_fail ErrInvalidTransition
    else
      row ← stmt (update_appointment tx tenantID id (set_status to (g_now g)));
      appendEvent g tx tenantID (scan row) (titles to) ("appointment." +:+ to) ;;
      mret (scan row)).

Definition Repository_Reschedule (g : Gen) (tenantID id : uuid)
    (startAt endAt occupiedStartAt occupiedEndAt : time) : M Appointment :=
  WithTenantTx tenantID (λ tx,
    old ← or_not_found (select_by_id tx tenantID id);
    if (ap_status old !=? "pending"%string) && (ap_status old !=? "confirmed"%string)
    then io_fail ErrInvalidTransition
    else
      row ← stmt (update_appointment tx tenantID id
                    (set_times startAt endAt occupiedStartAt occupiedEndAt (g_now g)));
      appendEvent g tx tenantID (scan row) "AppointmentRescheduled" "appointment.rescheduled" ;;
      mret (scan row)).

Definition Repository_Occupancy (tenantID barberID : uuid) (from to : time)
  : M (list Appointment) :=
  WithTenantTx tenantID (λ tx,
    query (λ d, map scan (select_appointments tx
      (λ r, (ap_tenant r ==? tenantID) && (ap_barber r ==? barberID) && live (ap_status r)
            && (ap_occupied_start r <? pg_ts to) && (pg_ts from <? ap_occupied_end r)) d))).

Definition IsConflict (e : repo_error) : bool :=
  match e with
  | Pg pe => (SQLState pe ==? Some "23P01"%string) || (SQLState pe ==? Some "23505"%string)
  | _ => false
  end.

(** * Lemmas *)

(** ** Atomicity *)

Lemma det_or_not_found {A} (m : M A) : det m → det (or_not_found m).
Proof. intros Hm. unfold or_not_found. solve_det. Qed.
Lemma det_select_by_id tx t id : det (select_by_id tx t id).
Proof. apply det_stmt. Qed.
Lemma det_appendEvent g tx t a n o : det (appendEvent g tx t a n o).
Proof. unfold appendEvent. solve_det. Qed.
#[export] Hint Resolve det_or_not_found det_select_by_id det_appendEvent : barber.

Lemma det_create_rows g tx t input e os oe s o k f : det (create_rows g tx t input e os oe s o k f).
Proof. unfold create_rows. solve_det. Qed.
#[export] Hint Resolve det_create_rows : barber.

Ltac solve_op_det op := unfold op; solve_det.

Lemma atomic_Replay t s o k f : atomic (Repository_Replay t s o k f).
Proof. solve_op_det Repository_Replay. Qed.
Lemma atomic_Create g t input e os oe s o k f :
  atomic (Repository_Create g t input e os oe s o k f).
Proof. solve_op_det Repository_Create. Qed.
Lemma atomic_Get t id : atomic (Repository_Get t id).
Proof. solve_op_det Repository_Get. Qed.
Lemma atomic_List t : atomic (Repository_List t).
Proof. solve_op_det Repository_List. Qed.
Lemma atomic_ListForCustomer n t c u : atomic (Repository_ListForCustomer n t c u).
Proof. solve_op_det Repository_ListForCustomer. Qed.
Lemma atomic_GetForCustomer t c id : atomic (Repository_GetForCustomer t c id).
Proof. solve_op_det Repository_GetForCustomer. Qed.
Lemma atomic_Transition g t id to : atomic (Repository_Transition g t id to).
Proof. solve_op_det Repository_Transition. Qed.
Lemma atomic_Reschedule g t id s e os oe : atomic (Repository_Reschedule g t id s e os oe).
Proof. solve_op_det Repository_Reschedule. Qed.
Lemma atomic_Occupancy t b f u : atomic (Repository_Occupancy t b f u).
Proof. solve_op_det Repository_Occupancy. Qed.
#[export] Hint Resolve atomic_Replay atomic_Create atomic_Get atomic_List atomic_ListForCustomer
  atomic_GetForCustomer atomic_Transition atomic_Reschedule atomic_Occupancy : barber.

Lemma det_Replay t s o k f : det (Repository_Replay t s o k f).
Proof. solve_op_det Repository_Replay. Qed.
Lemma det_Create g t input e os oe s o k f : det (Repository_Create g t input e os oe s o k f).
Proof. solve_op_det Repository_Create. Qed.
Lemma det_Get t id : det (Repository_Get t id).
Proof. solve_op_det Repository_Get. Qed.
Lemma det_ListForCustomer n t c u : det (Repository_ListForCustomer n t c u).
Proof. solve_op_det Repository_ListForCustomer. Qed.
Lemma det_GetForCustomer t c id : det (Repository_GetForCustomer t c id).
Proof. solve_op_det Repository_GetForCustomer. Qed.
Lemma det_Transition g t id to : det (Repository_Transition g t id to).
Proof. solve_op_det Repository_Transition. Qed.
Lemma det_Reschedule g t id s e os oe : det (Repository_Reschedule g t id s e os oe).
Proof. solve_op_det Repository_Reschedule. Qed.
Lemma det_Occupancy t b f u : det (Repository_Occupancy t b f u).
Proof. solve_op_det Repository_Occupancy. Qed.
#[export] Hint Resolve det_Replay det_Create det_Get det_ListForCustomer det_GetForCustomer
  det_Transition det_Reschedule det_Occupancy : barber.

(** ** Reads *)

Lemma readonly_query_row {A} (f : db -> list A) : readonly (stmt (E:=repo_error) (λ d, query_row (f d) d)).
Proof.
  apply step_in_stmt; [apply _|]. intros d a d'. unfold query_row. destruct (head (f d)); by intros [= _ <-].
Qed.
Lemma readonly_select_key tx t s o k : readonly (stmt (E:=repo_error) (select_key tx t s o k)).
Proof.
  apply step_in_stmt; [apply _|]. intros d a d'. unfold select_key, query_row.
  destruct (negb _); [done|]. destruct (head _); by intros [= _ <-].
Qed.
Lemma readonly_by_id tx t id : readonly (select_by_id tx t id).
Proof. apply readonly_query_row. Qed.
#[export] Hint Resolve readonly_query_row readonly_select_key readonly_by_id : barber.
Lemma readonly_or_not_found {A} (m : M A) : readonly m → readonly (or_not_found m).
Proof. intros Hm. unfold or_not_found. solve_step. Qed.
#[export] Hint Resolve readonly_or_not_found : barber.

Lemma readonly_Replay t s o k f : readonly (Repository_Replay t s o k f).
Proof. unfold Repository_Replay. solve_step. Qed.
Lemma readonly_Get t id : readonly (Repository_Get t id).
Proof. unfold Repository_Get. solve_step. Qed.
Lemma readonly_List t : readonly (Repository_List t).
Proof. unfold Repository_List. solve_step. Qed.
Lemma readonly_ListForCustomer n t c u : readonly (Repository_ListForCustomer n t c u).
Proof. unfold Repository_ListForCustomer. solve_step. Qed.
Lemma readonly_GetForCustomer t c id : readonly (Repository_GetForCustomer t c id).
Proof. unfold Repository_GetForCustomer. solve_step. Qed.
Lemma readonly_Occupancy t b f u : readonly (Repository_Occupancy t b f u).
Proof. unfold Repository_Occupancy. solve_step. Qed.
#[export] Hint Resolve readonly_Replay readonly_Get readonly_List readonly_ListForCustomer
  readonly_GetForCustomer readonly_Occupancy : barber.

(** ** What the statements do *)

Lemma query_row_Ok {A} (l : list A) d a d' :
  query_row l d = Ok (a, d') → head l = Some a ∧ d' = d.
Proof. unfold query_row. destruct (head l); by intros [= -> ->]. Qed.

Lemma select_by_id_run tx t id d r d' :
  run (select_by_id tx t id) d = (Ok r, d') →
  d' = d ∧ r ∈ appointments d ∧ ap_tenant r = t ∧ ap_tenant r = tx ∧ ap_id r = id.
Proof.
  unfold select_by_id. rewrite run_stmt. destruct (query_row _ _) as [[a d0]|] eqn:E; [|done].
  intros [= -> ->]. apply query_row_Ok in E as [E ->].
  apply head_sel_Some in E as [Hp Hin]. unfold rls, by_id in Hp. by bsimpl.
Qed.

Lemma or_not_found_run {A} (m : M A) d a d' :
  det m → run (or_not_found m) d = (Ok a, d') → run m d = (Ok a, d').
Proof.
  intros Hm. unfold or_not_found. rewrite run_attempt_bind by apply Hm.
  destruct (run m d) as [[x|[]] d0]; cbn; try done. by destruct e.
Qed.

(** The constraints an inserted row has passed. *)
Definition insertable (tx : uuid) (r : appointment_row) (d : db) : Prop :=
  ap_tenant r = tx ∧ appointment_check r = true ∧
  (∀ x, x ∈ appointments d → ap_id x ≠ ap_id r) ∧
  (∀ x, x ∈ appointments d → overlaps r x = false).

Lemma insert_appointment_Ok tx r d x d' :
  insert_appointment tx r d = Ok (x, d') →
  x = r ∧ d' = set_appointments (appointments d ++ [r]) d ∧ insertable tx r d.
Proof.
  unfold insert_appointment. intros H. split_match_in H; simplify_eq.
  consimpl. by repeat split.
Qed.

(** An insertion succeeds on a row that passes the constraints. *)
Lemma insert_appointment_total tx r d :
  text_ok (ap_customer_name r) = true → text_ok (ap_customer_contact r) = true →
  insertable tx r d →
  insert_appointment tx r d = Ok (r, set_appointments (appointments d ++ [r]) d).
Proof.
  intros H1 H2 (Ht & Hc & Hid & Ho). unfold insert_appointment.
  rewrite H1, H2, Hc; cbn. rewrite bool_decide_true by done. cbn.
  replace (existsb _ _) with false; [|symmetry; apply existsb_none; intros x Hx; bsimpl; by apply Hid].
  replace (existsb _ _) with false; [done|symmetry; apply existsb_none; intros x Hx; by apply Ho].
Qed.

Lemma update_appointment_Ok tx t id f d x d' :
  update_appointment tx t id f d = Ok (x, d') →
  ∃ r, r ∈ appointments d ∧ ap_tenant r = t ∧ ap_tenant r = tx ∧ ap_id r = id ∧ x = f r ∧
    d' = set_appointments (upd (λ x, ap_id x ==? ap_id r) f (appointments d)) d ∧
    appointment_check (f r) = true ∧
    (∀ y, y ∈ appointments d → ap_id y ≠ ap_id r → overlaps (f r) y = false).
Proof.
  unfold update_appointment. destruct (head _) as [r|] eqn:E; [|done].
  apply head_sel_Some in E as [Hp Hin]. unfold rls in Hp. bsimpl. intros Hu.
  split_match_in Hu; simplify_eq. consimpl. exists r. repeat split; try done. intros y Hy Hne.
  match goal with H : ∀ x, x ∈ _ → _ && _ = false |- _ =>
    specialize (H y Hy); apply andb_false_iff in H as [H|H] end; [by bsimpl|done].
Qed.

(** ** The database after the operations *)

Definition created_row (g : Gen) (t : uuid) (input : CreateInput) (e os oe : time)
  : appointment_row :=
  mkAppointmentRow (g_appointment g) t (CreateInput_BranchID input)
    (CreateInput_BarberID input) (CreateInput_ServiceID input) (CreateInput_CustomerID input)
    (CreateInput_CustomerName input) (CreateInput_CustomerContact input)
    (pg_ts (CreateInput_StartAt input)) (pg_ts e) (pg_ts os) (pg_ts oe)
    "pending" (g_now g) (g_now g).

Definition new_event (g : Gen) (t : uuid) (a : Appointment) (name : string) : event_row :=
  mkEventRow (g_event g) t (Appointment_ID a) name (eventPayload a) (g_now g).
Definition new_outbox (g : Gen) (t : uuid) (a : Appointment) (type : string) : outbox_row :=
  mkOutboxRow (g_outbox g) t (Appointment_ID a) type (eventPayload a) (g_now g) None None 0 None.

(** One event and one outbox row about [a] are appended. *)
Definition with_event (g : Gen) (t : uuid) (a : Appointment) (name type : string) (d : db) : db :=
  mkDb (appointments d) (appointment_events d ++ [new_event g t a name])
    (idempotency_keys d) (outbox_events d ++ [new_outbox g t a type]).

Lemma appendEvent_run g tx t a name type d d' :
  run (appendEvent g tx t a name type) d = (Ok tt, d') →
  d' = with_event g t a name type d ∧
  (∀ x, x ∈ appointment_events d → ev_id x ≠ g_event g) ∧
  (∀ x, x ∈ outbox_events d → ob_id x ≠ g_outbox g) ∧
  has_appointment t (Appointment_ID a) d = true.
Proof.
  unfold appendEvent. rewrite run_bind by auto with barber. rewrite !run_stmt.
  destruct (insert_event _ _ _) as [[[] d1]|] eqn:E1; [|done]. rewrite run_stmt.
  destruct (insert_outbox _ _ _) as [[[] d2]|] eqn:E2; [|done]. intros [= ->].
  unfold insert_event in E1. split_match_in E1; simplify_eq.
  unfold insert_outbox in E2. split_match_in E2; simplify_eq. cbn in *.
  consimpl. done.
Qed.

Definition new_key (g : Gen) (t : uuid) (scope operation key fp : string) : idempotency_row :=
  mkIdempotencyRow t scope operation key fp (g_appointment g) (g_now g).

(** The database after [Create] inserted an appointment. *)
Definition created (g : Gen) (t : uuid) (input : CreateInput) (e os oe : time)
    (scope operation key fp : string) (d : db) : db :=
  let r := created_row g t input e os oe in
  with_event g t (scan r) "AppointmentCreated" "appointment.created"
    (mkDb (appointments d ++ [r]) (appointment_events d)
       (if key ==? ""%string then idempotency_keys d
        else idempotency_keys d ++ [new_key g t scope operation key fp]) (outbox_events d)).

Definition key_ident (r : idempotency_row) : uuid * string * string * string :=
  (ik_tenant r, ik_scope r, ik_operation r, ik_key r).

Lemma insert_key_Ok tx r d d' :
  insert_key tx r d = Ok (tt, d') →
  d' = set_keys (idempotency_keys d ++ [r]) d ∧ idempotency_check r = true ∧
  (∀ x, x ∈ idempotency_keys d → key_ident x ≠ key_ident r) ∧
  has_appointment (ik_tenant r) (ik_appointment r) d = true.
Proof.
  unfold insert_key. intros H. split_match_in H; simplify_eq. consimpl. repeat split; try done.
  intros x Hx [= ?]. match goal with H : ∀ x, x ∈ _ → _ = false |- _ => specialize (H x Hx) end.
  by rewrite !bool_decide_true in * by congruence.
Qed.

(** What a successful insertion by [Create] implies. *)
Definition create_ok (g : Gen) (t : uuid) (input : CreateInput) (e os oe : time)
    (scope operation key fp : string) (d : db) : Prop :=
  insertable t (created_row g t input e os oe) d ∧
  (key ≠ ""%string →
     idempotency_check (new_key g t scope operation key fp) = true ∧
     ∀ x, x ∈ idempotency_keys d → key_ident x ≠ (t, scope, operation, key)) ∧
  (∀ x, x ∈ appointment_events d → ev_id x ≠ g_event g) ∧
  (∀ x, x ∈ outbox_events d → ob_id x ≠ g_outbox g).

Lemma create_rows_run g t input e os oe scope operation key fp d a d' :
  run (create_rows g t t input e os oe scope operation key fp) d = (Ok a, d') →
  a = scan (created_row g t input e os oe) ∧
  d' = created g t input e os oe scope operation key fp d ∧
  create_ok g t input e os oe scope operation key fp d.
Proof.
  unfold create_rows. rewrite run_bind by auto with barber. rewrite run_stmt.
  fold (created_row g t input e os oe).
  destruct (insert_appointment _ _ _) as [[r d1]|] eqn:E1; [|done].
  apply insert_appointment_Ok in E1 as (-> & -> & Hins).
  rewrite run_bind by solve_det.
  set (m := if key !=? ""%string then _ else _).
  destruct (run m _) as [[[]|] d2] eqn:E2; [|done].
  rewrite run_bind by auto with barber.
  destruct (run (appendEvent _ _ _ _ _ _) d2) as [[[]|] d3] eqn:E3; [|done].
  intros [= <- <-]. apply appendEvent_run in E3 as (-> & Hev & Hob & _).
  split; [done|]. unfold m, created, create_ok in *. clear m.
  destruct (bool_decide_reflect (key = ""%string)) as [Hk|Hk]; cbn [negb] in E2.
  - injection E2 as <-. split; [done|]. split; [done|]. split; [done|]. done.
  - rewrite run_stmt in E2. destruct (insert_key _ _ _) as [[[] d4]|] eqn:E4; [|done].
    injection E2 as <-. apply insert_key_Ok in E4 as (-> & Hc & Hf & _).
    split; [done|]. split; [done|]. split; [|done]. intros _. by split.
Qed.

(** [Create] with the same key: the stored result. *)
Definition stored_key (t : uuid) (scope operation key : string) (d : db) (k : idempotency_row) : Prop :=
  k ∈ idempotency_keys d ∧ key_ident k = (t, scope, operation, key).

Lemma select_key_run t scope operation key d :
  run (D:=db) (E:=repo_error) (stmt (select_key t t scope operation key)) d =
    match run (D:=db) (E:=repo_error) (stmt (select_key t t scope operation key)) d with
    | (Ok k, _) => (Ok k, d) | (Err e, _) => (Err e, d) end.
Proof.
  rewrite run_stmt. unfold select_key, query_row. by split_match.
Qed.

Lemma select_key_Ok t scope operation key d k d' :
  run (D:=db) (E:=repo_error) (stmt (select_key t t scope operation key)) d = (Ok k, d') →
  d' = d ∧ stored_key t scope operation key d k.
Proof.
  rewrite run_stmt. destruct (select_key _ _ _ _ _ _) as [[k0 d0]|] eqn:E; [|done].
  intros [= -> ->]. unfold select_key in E. split_match_in E; [done|].
  apply query_row_Ok in E as [E ->]. apply head_sel_Some in E as [Hp Hin].
  unfold rls in Hp. bsimpl. unfold stored_key, key_ident. by subst.
Qed.

Lemma Create_run g t input e os oe scope operation key fp d a d' :
  run (Repository_Create g t input e os oe scope operation key fp) d = (Ok a, d') →
  (d' = d ∧ key ≠ ""%string ∧ ∃ k r, stored_key t scope operation key d k ∧
     ik_fingerprint k = fp ∧ r ∈ appointments d ∧ ap_tenant r = t ∧
     ap_id r = ik_appointment k ∧ a = scan r) ∨
  (a = scan (created_row g t input e os oe) ∧
   d' = created g t input e os oe scope operation key fp d ∧
   create_ok g t input e os oe scope operation key fp d).
Proof.
  unfold Repository_Create. rewrite run_tx by solve_det.
  destruct (bool_decide_reflect (key = ""%string)) as [->|Hk]; cbn [negb].
  - destruct (run _ d) as [[x|] d1] eqn:E; [|done]. intros [= -> ->].
    right. by apply create_rows_run in E.
  - rewrite run_bind by auto with barber. rewrite run_stmt.
    rewrite run_attempt_bind by apply det_stmt.
    destruct (run (stmt (select_key _ _ _ _ _)) d) as [[k|err] d1] eqn:E; cbn.
    + apply select_key_Ok in E as [-> Hst].
      destruct (bool_decide_reflect (ik_fingerprint k = fp)) as [Hf|Hf]; cbn; [|done].
      rewrite run_bind by auto with barber.
      destruct (run (select_by_id _ _ _) d) as [[r|] d2] eqn:E2; [|done].
      apply select_by_id_run in E2 as (-> & Hin & Ht & _ & Hid).
      intros [= <- <-]. left. split; [done|]. split; [done|]. exists k, r.
      destruct Hst. by repeat split.
    + pose proof (select_key_run t scope operation key d) as Hsel. rewrite E in Hsel.
      injection Hsel as ->. destruct err as [| | |[]]; try done.
      destruct (run (create_rows _ _ _ _ _ _ _ _ _ _ _) d) as [[x|] d1] eqn:E3; [|done].
      intros [= -> ->]. right. by apply create_rows_run in E3.
Qed.

(** One row is replaced by [f row], with its event. *)
Definition updated (g : Gen) (t : uuid) (r : appointment_row)
    (f : appointment_row -> appointment_row) (name type : string) (d : db) : db :=
  with_event g t (scan (f r)) name type
    (set_appointments (upd (λ x, ap_id x ==? ap_id r) f (appointments d)) d).

(** What a successful update implies. *)
Definition update_ok (g : Gen) (t id : uuid) (r : appointment_row)
    (f : appointment_row -> appointment_row) (d : db) : Prop :=
  r ∈ appointments d ∧ ap_tenant r = t ∧ ap_id r = id ∧
  appointment_check (f r) = true ∧
  (∀ y, y ∈ appointments d → ap_id y ≠ ap_id r → overlaps (f r) y = false) ∧
  (∀ x, x ∈ appointment_events d → ev_id x ≠ g_event g) ∧
  (∀ x, x ∈ outbox_events d → ob_id x ≠ g_outbox g).

(** The common part of [Transition] and [Reschedule]. *)
Lemma update_run g t id f name type d row d1 d2 :
  update_appointment t t id f d = Ok (row, d1) →
  run (appendEvent g t t (scan row) name type) d1 = (Ok tt, d2) →
  ∃ r, update_ok g t id r f d ∧ row = f r ∧ d2 = updated g t r f name type d.
Proof.
  intros Hu Ha. apply update_appointment_Ok in Hu as (r & Hin & Ht & _ & Hid & -> & -> & Hc & Ho).
  apply appendEvent_run in Ha as (-> & Hev & Hob & _). exists r. by split.
Qed.

Lemma Transition_run g t id to d a d' :
  run (Repository_Transition g t id to) d = (Ok a, d') →
  ∃ r0 r, r0 ∈ appointments d ∧ ap_id r0 = id ∧ transitions (ap_status r0) to = true ∧
    update_ok g t id r (set_status to (g_now g)) d ∧
    a = scan (set_status to (g_now g) r) ∧
    d' = updated g t r (set_status to (g_now g)) (titles to) ("appointment." +:+ to) d.
Proof.
  unfold Repository_Transition. rewrite run_tx by solve_det.
  rewrite run_bind by auto with barber.
  destruct (run (or_not_found _) d) as [[r0|] d0] eqn:E0; [|done].
  apply or_not_found_run in E0; [|auto with barber].
  apply select_by_id_run in E0 as (-> & Hin & Ht & _ & Hid).
  destruct (transitions (ap_status r0) to) eqn:Htr; cbn [negb]; [|done].
  rewrite run_bind by auto with barber. rewrite run_stmt.
  destruct (update_appointment _ _ _ _ _) as [[row d1]|] eqn:Eu; [|done].
  rewrite run_bind by auto with barber.
  destruct (run (appendEvent _ _ _ _ _ _) d1) as [[[]|] d2] eqn:Ea; [|done].
  intros [= <- <-]. destruct (update_run _ _ _ _ _ _ _ _ _ _ Eu Ea) as (r & Hok & -> & ->).
  exists r0, r. by repeat split; try apply Hok.
Qed.

Lemma Reschedule_run g t id s e os oe d a d' :
  run (Repository_Reschedule g t id s e os oe) d = (Ok a, d') →
  ∃ r0 r, r0 ∈ appointments d ∧ ap_id r0 = id ∧ live (ap_status r0) = true ∧
    update_ok g t id r (set_times s e os oe (g_now g)) d ∧
    a = scan (set_times s e os oe (g_now g) r) ∧
    d' = updated g t r (set_times s e os oe (g_now g)) "AppointmentRescheduled"
           "appointment.rescheduled" d.
Proof.
  unfold Repository_Reschedule. rewrite run_tx by solve_det.
  rewrite run_bind by auto with barber.
  destruct (run (or_not_found _) d) as [[r0|] d0] eqn:E0; [|done].
  apply or_not_found_run in E0; [|auto with barber].
  apply select_by_id_run in E0 as (-> & Hin & Ht & _ & Hid).
  destruct (_ && _) eqn:Htr; [done|].
  rewrite run_bind by auto with barber. rewrite run_stmt.
  destruct (update_appointment _ _ _ _ _) as [[row d1]|] eqn:Eu; [|done].
  rewrite run_bind by auto with barber.
  destruct (run (appendEvent _ _ _ _ _ _) d1) as [[[]|] d2] eqn:Ea; [|done].
  intros [= <- <-]. destruct (update_run _ _ _ _ _ _ _ _ _ _ Eu Ea) as (r & Hok & -> & ->).
  exists r0, r. repeat split; try done; try apply Hok.
  unfold live. apply andb_false_iff in Htr as [H|H]; bsimpl; rewrite H; done.
Qed.

(** ** The database invariant *)

(** The name in the audit log of an event type of the outbox. *)
Definition event_title (type : string) : string :=
  (if type ==? "appointment.created" then "AppointmentCreated"
   else if type ==? "appointment.rescheduled" then "AppointmentRescheduled"
   else if type ==? "appointment.confirmed" then "AppointmentConfirmed"
   else if type ==? "appointment.cancelled" then "AppointmentCancelled"
   else if type ==? "appointment.completed" then "AppointmentCompleted"
   else if type ==? "appointment.no_show" then "AppointmentNoShow" else EmptyString)%string.

Lemma titles_event from to : transitions from to = true → titles to = event_title ("appointment." +:+ to).
Proof.
  unfold transitions. intros Ht.
  repeat match goal with
         | H : _ || _ = true |- _ => apply orb_true_iff in H as [H|H]
         | H : _ && _ = true |- _ => apply andb_true_iff in H as [_ H]
         end; apply bool_decide_eq_true in Ht as ->; reflexivity.
Qed.

(** The event of the audit log that an outbox row announces: its kind, tenant,
    appointment, content and time. *)
Definition backs (e : event_row) (o : outbox_row) : Prop :=
  ev_type e = event_title (ob_type o) ∧ ev_created e = ob_created o ∧
  ev_tenant e = ob_tenant o ∧ ev_appointment e = ob_aggregate o ∧ ev_payload e = ob_payload o.

Record db_ok (d : db) : Prop := mkDbOk {
  ok_ids : NoDup (map ap_id (appointments d));
  ok_rows : ∀ r, r ∈ appointments d → appointment_check r = true;
  ok_no_overlap : ∀ a b, a ∈ appointments d → b ∈ appointments d →
    ap_id a ≠ ap_id b → overlaps a b = false;
  ok_keys : NoDup (map key_ident (idempotency_keys d));
  ok_keys_ref : ∀ k, k ∈ idempotency_keys d →
    idempotency_check k = true ∧ has_appointment (ik_tenant k) (ik_appointment k) d = true;
  ok_events : NoDup (map ev_id (appointment_events d));
  ok_events_ref : ∀ e, e ∈ appointment_events d →
    has_appointment (ev_tenant e) (ev_appointment e) d = true;
  ok_outbox : NoDup (map ob_id (outbox_events d));
  ok_outbox_ref : ∀ o, o ∈ outbox_events d →
    has_appointment (ob_tenant o) (ob_aggregate o) d = true ∧ 0 <= ob_attempts o;
  ok_outbox_log : ∀ o, o ∈ outbox_events d → ∃ e, e ∈ appointment_events d ∧ backs e o
}.

Lemma empty_db_ok : db_ok empty_db.
Proof. split; cbn; try constructor; set_solver. Qed.

Lemma overlaps_sym a b : overlaps a b = overlaps b a.
Proof.
  unfold overlaps. rewrite (bool_decide_ext (ap_tenant a = _) (ap_tenant b = ap_tenant a)) by done.
  rewrite (bool_decide_ext (ap_barber a = _) (ap_barber b = ap_barber a)) by done.
  destruct (live (ap_status a)), (live (ap_status b)), (ap_tenant b ==? ap_tenant a),
    (ap_barber b ==? ap_barber a), (ap_occupied_start a <? ap_occupied_end b),
    (ap_occupied_start b <? ap_occupied_end a); done.
Qed.

Lemma has_appointment_iff t id d :
  has_appointment t id d = true ↔ ∃ r, r ∈ appointments d ∧ ap_tenant r = t ∧ ap_id r = id.
Proof.
  unfold has_appointment. rewrite existsb_elem. split; intros (r & Hr & H); exists r.
  - by bsimpl.
  - destruct H. split; [done|]. by bsimpl.
Qed.

(** References survive when every row keeps an image with its tenant and id. *)
Lemma has_appointment_mono t id d d' :
  (∀ r, r ∈ appointments d → ∃ r', r' ∈ appointments d' ∧ ap_tenant r' = ap_tenant r ∧ ap_id r' = ap_id r) →
  has_appointment t id d = true → has_appointment t id d' = true.
Proof.
  rewrite !has_appointment_iff. intros Hm (r & Hr & <- & <-).
  destruct (Hm r Hr) as (r' & Hr' & Ht & Hid). by exists r'.
Qed.

Lemma with_event_ok g t a name type d :
  name = event_title type → db_ok d → has_appointment t (Appointment_ID a) d = true →
  (∀ x, x ∈ appointment_events d → ev_id x ≠ g_event g) →
  (∀ x, x ∈ outbox_events d → ob_id x ≠ g_outbox g) →
  db_ok (with_event g t a name type d).
Proof.
  intros Hname [] Hfk Hev Hob. split; cbn; try done.
  - by apply NoDup_map_snoc.
  - intros e [He| ->%list_elem_of_singleton]%elem_of_app; [by apply ok_events_ref0|done].
  - by apply NoDup_map_snoc.
  - intros o [Ho| ->%list_elem_of_singleton]%elem_of_app; [by apply ok_outbox_ref0|done].
  - intros o [Ho| ->%list_elem_of_singleton]%elem_of_app.
    + destruct (ok_outbox_log0 o Ho) as (e & He & Hb). exists e. rewrite elem_of_app. eauto.
    + exists (new_event g t a name). rewrite elem_of_app, list_elem_of_singleton. by split; [right|].
Qed.

(** Appending a row that passes the constraints. *)
Lemma insert_ok tx r d :
  db_ok d → insertable tx r d → db_ok (set_appointments (appointments d ++ [r]) d).
Proof.
  intros [] (_ & Hc & Hid & Ho).
  assert (∀ t id, has_appointment t id d = true →
    has_appointment t id (set_appointments (appointments d ++ [r]) d) = true) as Hmono.
  { intros t id. apply has_appointment_mono. intros x Hx. exists x.
    split; [apply elem_of_app; by left|done]. }
  split; cbn; try done.
  - by apply NoDup_map_snoc.
  - intros x [Hx| ->%list_elem_of_singleton]%elem_of_app; auto.
  - intros a b [Ha| ->%list_elem_of_singleton]%elem_of_app [Hb| ->%list_elem_of_singleton]%elem_of_app Hne;
      auto; try done. rewrite overlaps_sym. auto.
  - intros k Hk. destruct (ok_keys_ref0 k Hk). split; [done|by apply Hmono].
  - intros e He. by apply Hmono, ok_events_ref0.
  - intros o Hob. destruct (ok_outbox_ref0 o Hob). split; [by apply Hmono|done].
Qed.

(** Adding a key that passes the constraints. *)
Lemma insert_key_db_ok k d :
  db_ok d → idempotency_check k = true →
  (∀ x, x ∈ idempotency_keys d → key_ident x ≠ key_ident k) →
  has_appointment (ik_tenant k) (ik_appointment k) d = true →
  db_ok (set_keys (idempotency_keys d ++ [k]) d).
Proof.
  intros [] Hc Hf Hfk. split; cbn; try done; [by apply NoDup_map_snoc|].
  intros x [Hx| ->%list_elem_of_singleton]%elem_of_app; [by apply ok_keys_ref0|done].
Qed.

Lemma created_ok g t input e os oe scope operation key fp d :
  db_ok d → create_ok g t input e os oe scope operation key fp d →
  db_ok (created g t input e os oe scope operation key fp d).
Proof.
  intros Hd (Hins & Hk & Hev & Hob). unfold created.
  pose proof (insert_ok _ _ _ Hd Hins) as H1.
  assert (has_appointment t (g_appointment g)
    (set_appointments (appointments d ++ [created_row g t input e os oe]) d) = true) as Hfk.
  { apply has_appointment_iff. exists (created_row g t input e os oe).
    split; [apply elem_of_app; right; by apply list_elem_of_singleton|done]. }
  destruct (bool_decide_reflect (key = ""%string)).
  - by apply with_event_ok.
  - destruct Hk as [Hc Hf]; [done|].
    pose proof (insert_key_db_ok (new_key g t scope operation key fp) _ H1 Hc Hf Hfk).
    by apply with_event_ok.
Qed.

(** Replacing one row by one that passes the constraints. *)
Lemma updated_ok g t id r f name type d :
  name = event_title type → (∀ x, ap_id (f x) = ap_id x ∧ ap_tenant (f x) = ap_tenant x) →
  db_ok d → update_ok g t id r f d → db_ok (updated g t r f name type d).
Proof.
  intros Hname Hf Hd (Hin & Ht & Hid & Hc & Ho & Hev & Hob). unfold updated.
  set (l := upd _ _ _).
  assert (∀ x, x ∈ l → (x = f r ∨ x ∈ appointments d ∧ ap_id x ≠ ap_id r)) as Hl.
  { intros x (y & Hy & ->)%elem_of_upd. destruct (bool_decide_reflect (ap_id y = ap_id r)) as [E|E].
    - left. f_equal. by apply (NoDup_map_eq ap_id (appointments d)); [apply Hd|..].
    - by right. }
  assert (∀ t id, has_appointment t id d = true →
    has_appointment t id (set_appointments l d) = true) as Hmono.
  { intros t' id'. apply has_appointment_mono. intros x Hx. cbn.
    exists (if ap_id x ==? ap_id r then f x else x). split; [apply elem_of_upd; eauto|].
    destruct (_ ==? _); [split; apply Hf|done]. }
  assert (db_ok (set_appointments l d)) as Hl_ok.
  { destruct Hd. split; cbn; try done.
    - unfold l. rewrite map_upd; [done|]. intros x _ _. apply Hf.
    - intros x [->|[Hx _]]%Hl; auto.
    - intros a b [->|[Ha Ha']]%Hl [->|[Hb Hb']]%Hl Hne; auto; [done|].
      rewrite overlaps_sym. auto.
    - intros k Hk. destruct (ok_keys_ref0 k Hk). split; [done|by apply Hmono].
    - intros e He. by apply Hmono, ok_events_ref0.
    - intros o Ho'. destruct (ok_outbox_ref0 o Ho'). split; [by apply Hmono|done]. }
  apply with_event_ok; try done. cbn. rewrite (proj1 (Hf r)).
  apply Hmono, has_appointment_iff. by exists r.
Qed.

(** ** History and isolation *)

Definition status_step (from to : string) : Prop := transitions from to = true.

(** The columns no operation changes. *)
Definition same_booking (r r' : appointment_row) : Prop :=
  ap_id r' = ap_id r ∧ ap_tenant r' = ap_tenant r ∧ ap_branch r' = ap_branch r ∧
  ap_barber r' = ap_barber r ∧ ap_service r' = ap_service r ∧ ap_customer r' = ap_customer r ∧
  ap_customer_name r' = ap_customer_name r ∧ ap_customer_contact r' = ap_customer_contact r ∧
  ap_created r' = ap_created r.

#[export] Instance same_booking_po : PreOrder same_booking.
Proof. split; [done|]. unfold same_booking. intros a b c. intuition congruence. Qed.

(** Appointments are never deleted, keep their identity and move along the
    status graph; the event log only grows. *)
Record evolves (d d' : db) : Prop := mkEvolves {
  ev_rows : ∀ r, r ∈ appointments d → ∃ r', r' ∈ appointments d' ∧ same_booking r r' ∧
    rtc status_step (ap_status r) (ap_status r');
  ev_log : appointment_events d `prefix_of` appointment_events d'
}.

#[export] Instance evolves_po : PreOrder evolves.
Proof.
  split.
  - intros d. split; [|done]. intros r Hr. exists r. by repeat split.
  - intros d1 d2 d3 [H1 L1] [H2 L2]. split; [|by etrans]. intros r Hr.
    destruct (H1 r Hr) as (r' & Hr' & Hs & Ht). destruct (H2 r' Hr') as (r'' & Hr'' & Hs' & Ht').
    exists r''. split; [done|]. split; [by etrans|by etrans].
Qed.

(** The rows of the other tenants are untouched. *)
Definition others {A} (tenant_of : A -> uuid) (t : uuid) (l : list A) : list A :=
  sel (λ r, tenant_of r !=? t) l.

Record isolated (t : uuid) (d d' : db) : Prop := mkIsolated {
  iso_appointments : others ap_tenant t (appointments d') = others ap_tenant t (appointments d);
  iso_events : others ev_tenant t (appointment_events d') = others ev_tenant t (appointment_events d);
  iso_keys : others ik_tenant t (idempotency_keys d') = others ik_tenant t (idempotency_keys d);
  iso_outbox : others ob_tenant t (outbox_events d') = others ob_tenant t (outbox_events d)
}.

#[export] Instance isolated_po t : PreOrder (isolated t).
Proof. split; [done|]. intros d1 d2 d3 [] []. split; congruence. Qed.

(** The outbox only gets new rows, which wait to be published. *)
Definition waiting (o : outbox_row) : Prop :=
  ob_published o = None ∧ ob_publishing o = None ∧ ob_failed o = None ∧ ob_attempts o = 0.
Definition outbox_grows (d d' : db) : Prop :=
  ∃ l, outbox_events d' = outbox_events d ++ l ∧ Forall waiting l.

#[export] Instance outbox_grows_po : PreOrder outbox_grows.
Proof.
  split.
  - intros d. exists []. by rewrite app_nil_r.
  - intros d1 d2 d3 (l & H1 & Hl) (k & H2 & Hk). exists (l ++ k).
    rewrite H2, H1, app_assoc. split; [done|]. by apply Forall_app.
Qed.

(** What every operation of a tenant guarantees. *)
Definition good (t : uuid) (d d' : db) : Prop :=
  db_ok d → db_ok d' ∧ evolves d d' ∧ isolated t d d' ∧ outbox_grows d d'.

#[export] Instance good_po t : PreOrder (good t).
Proof.
  split.
  - intros d Hd. by split.
  - intros d1 d2 d3 H1 H2 Hd. destruct (H1 Hd) as (Hd2 & E1 & I1 & G1).
    destruct (H2 Hd2) as (Hd3 & E2 & I2 & G2). split; [done|]. split_and!; by etrans.
Qed.

Lemma others_app {A} (f : A -> uuid) t l x : f x = t → others f t (l ++ [x]) = others f t l.
Proof.
  intros Hx. unfold others, sel. rewrite List.filter_app; cbn.
  rewrite bool_decide_true by done. cbn. by rewrite app_nil_r.
Qed.

Lemma created_good g t input e os oe scope operation key fp d :
  create_ok g t input e os oe scope operation key fp d →
  good t d (created g t input e os oe scope operation key fp d).
Proof.
  intros Hc Hd. split; [by apply created_ok|]. split; [|split; [|by eexists; split; [|repeat constructor]]].
  - split; cbn.
    + intros r Hr. exists r. split; [apply elem_of_app; by left|]. by split.
    + by eexists.
  - split; cbn -[others]; rewrite ?others_app by done; try done.
    destruct (bool_decide_reflect (key = EmptyString)); [done|]. by rewrite others_app.
Qed.

Lemma updated_good g t id r f name type d :
  name = event_title type → (∀ x, same_booking x (f x)) → rtc status_step (ap_status r) (ap_status (f r)) →
  update_ok g t id r f d → good t d (updated g t r f name type d).
Proof.
  intros Hname Hsame Hst Hu Hd. split.
  { eapply updated_ok; [done| |done|done]. intros x. destruct (Hsame x) as (? & ? & _). done. }
  destruct Hu as (Hin & Ht & Hid & _).
  assert (∀ x, x ∈ appointments d → ap_id x = ap_id r → x = r) as Huniq.
  { intros x Hx Hxr. by apply (NoDup_map_eq ap_id (appointments d)); [apply Hd|..]. }
  split; [|split; [|by eexists; split; [|repeat constructor]]].
  - split; cbn.
    + intros x Hx. exists (if ap_id x ==? ap_id r then f x else x).
      split; [apply elem_of_upd; eauto|]. destruct (bool_decide_reflect (ap_id x = ap_id r)) as [E|E].
      * rewrite (Huniq x Hx E). by split.
      * by split.
    + by eexists.
  - split; cbn -[others]; rewrite ?others_app by done; try done.
    apply sel_upd_id; intros x Hx Hp; bsimpl.
    + intros E. apply Hp. by rewrite (Huniq x Hx E).
    + rewrite (Huniq x Hx Hp). destruct (Hsame r) as (_ & -> & _). done.
Qed.

(** ** Every operation is good *)

Lemma run_cases {A} t (m : M A) d :
  (∀ a d', run m d = (Ok a, d') → good t d d') →
  (∀ e, (run m d).1 = Err e → (run m d).2 = d) → good t d (run m d).2.
Proof.
  intros H1 H2. destruct (run m d) as [[a|e] d'] eqn:E; cbn in *; [eauto|].
  rewrite (H2 e); [reflexivity|done].
Qed.

Lemma good_Create g t input e os oe scope operation key fp d :
  good t d (run (Repository_Create g t input e os oe scope operation key fp) d).2.
Proof.
  apply run_cases; [|intros err; apply run_tx_err; solve_det].
  intros a d' [[-> _]|(_ & -> & Hc)]%Create_run; [reflexivity|by apply created_good].
Qed.

Lemma same_booking_set_status to now r : same_booking r (set_status to now r).
Proof. done. Qed.
Lemma same_booking_set_times s e os oe now r : same_booking r (set_times s e os oe now r).
Proof. done. Qed.

(** The row [Transition] read is the row it updates. *)
Lemma good_Transition g t id to d :
  good t d (run (Repository_Transition g t id to) d).2.
Proof.
  apply run_cases; [|intros err; apply run_tx_err; solve_det].
  intros a d' (r0 & r & Hr0 & Hid0 & Htr & Hu & _ & ->)%Transition_run Hd.
  assert (r0 = r) as ->.
  { destruct Hu as (Hr & _ & Hid & _). apply (NoDup_map_eq ap_id (appointments d)); try done.
    - apply Hd.
    - congruence. }
  eapply updated_good; try done; [by eapply titles_event|]. apply rtc_once. exact Htr.
Qed.

Lemma good_Reschedule g t id s e os oe d :
  good t d (run (Repository_Reschedule g t id s e os oe) d).2.
Proof.
  apply run_cases; [|intros err; apply run_tx_err; solve_det].
  intros a d' (r0 & r & _ & _ & _ & Hu & _ & ->)%Reschedule_run.
  eapply updated_good; try done.
Qed.

(** The guarantees of an atomic operation hold under faults. *)
Lemma good_faults {A} t (m : M A) fs d :
  atomic m → (∀ d, good t d (run m d).2) → good t d (m fs d).2.2.
Proof. intros Ha Hg. exact (step_in_atomic (good t) m _ Ha Hg fs d). Qed.

(** ** When the operations succeed *)

(** The server's fresh ids. *)
Definition fresh (g : Gen) (d : db) : Prop :=
  (∀ x, x ∈ appointments d → ap_id x ≠ g_appointment g) ∧
  (∀ x, x ∈ appointment_events d → ev_id x ≠ g_event g) ∧
  (∀ x, x ∈ outbox_events d → ob_id x ≠ g_outbox g).

Lemma appendEvent_total g t a name type d :
  (∀ x, x ∈ appointment_events d → ev_id x ≠ g_event g) →
  (∀ x, x ∈ outbox_events d → ob_id x ≠ g_outbox g) →
  has_appointment t (Appointment_ID a) d = true →
  run (appendEvent g t t a name type) d = (Ok tt, with_event g t a name type d).
Proof.
  intros Hev Hob Hfk. unfold appendEvent. rewrite run_bind by auto with barber. rewrite run_stmt.
  unfold insert_event; cbn. rewrite bool_decide_refl; cbn.
  rewrite (proj2 (existsb_fresh ev_id _ _)) by done. rewrite Hfk; cbn. rewrite run_stmt.
  unfold insert_outbox; cbn. rewrite bool_decide_refl; cbn.
  rewrite (proj2 (existsb_fresh ob_id _ _)) by done. done.
Qed.

Lemma head_by_id d t r :
  db_ok d → r ∈ appointments d → ap_tenant r = t →
  head (select_appointments t (by_id t (ap_id r)) d) = Some r.
Proof.
  intros Hd Hr Ht. apply (head_sel_unique ap_id); [apply Hd| |done|].
  - unfold rls, by_id. intros y Hy. by bsimpl.
  - unfold rls, by_id. by bsimpl.
Qed.

Lemma head_by_id_none d t id :
  (∀ r, r ∈ appointments d → ap_tenant r = t → ap_id r ≠ id) →
  head (select_appointments t (by_id t id) d) = None.
Proof.
  intros H. destruct (head _) as [r|] eqn:E; [|done].
  apply head_sel_Some in E as [Hp Hr]. unfold rls, by_id in Hp. bsimpl. by destruct (H r).
Qed.

Lemma select_by_id_total d t r :
  db_ok d → r ∈ appointments d → ap_tenant r = t →
  run (select_by_id t t (ap_id r)) d = (Ok r, d).
Proof.
  intros Hd Hr Ht. unfold select_by_id. rewrite run_stmt. unfold query_row. by rewrite head_by_id.
Qed.

Lemma or_not_found_total d t id :
  (∀ r, r ∈ appointments d → ap_tenant r = t → ap_id r ≠ id) →
  run (or_not_found (select_by_id t t id)) d = (Err ErrNotFound, d).
Proof.
  intros H. unfold or_not_found. rewrite run_attempt_bind by apply det_select_by_id.
  unfold select_by_id. rewrite run_stmt. unfold query_row. by rewrite head_by_id_none.
Qed.

Lemma or_not_found_found d t r :
  db_ok d → r ∈ appointments d → ap_tenant r = t →
  run (or_not_found (select_by_id t t (ap_id r))) d = (Ok r, d).
Proof.
  intros Hd Hr Ht. unfold or_not_found. rewrite run_attempt_bind by apply det_select_by_id.
  by rewrite select_by_id_total.
Qed.

(** An update to a row that passes the constraints succeeds. *)
Lemma update_total d t r f :
  db_ok d → r ∈ appointments d → ap_tenant r = t → appointment_check (f r) = true →
  (∀ y, y ∈ appointments d → ap_id y ≠ ap_id r → overlaps (f r) y = false) →
  update_appointment t t (ap_id r) f d
  = Ok (f r, set_appointments (upd (λ x, ap_id x ==? ap_id r) f (appointments d)) d).
Proof.
  intros Hd Hr Ht Hc Ho. unfold update_appointment.
  change (λ r0, (ap_tenant r0 ==? t) && (ap_id r0 ==? ap_id r)) with (by_id t (ap_id r)).
  rewrite head_by_id by done. rewrite Hc; cbn.
  replace (existsb _ _) with false; [done|]. symmetry. apply existsb_none. intros y Hy.
  destruct (bool_decide_reflect (ap_id y = ap_id r)); cbn; [done|auto].
Qed.

Lemma has_appointment_upd d t r f :
  ap_id (f r) = ap_id r → ap_tenant (f r) = ap_tenant r → r ∈ appointments d → ap_tenant r = t →
  has_appointment t (ap_id r) (set_appointments (upd (λ x, ap_id x ==? ap_id r) f (appointments d)) d) = true.
Proof.
  intros H1 H2 Hr Ht. apply has_appointment_iff. exists (f r). split; [|by split; congruence].
  apply elem_of_upd. exists r. by rewrite bool_decide_refl.
Qed.

(** A status change keeps the constraints. *)
Lemma transitions_live from to : transitions from to = true → live from = true.
Proof.
  unfold transitions, live. intros [H|H]%orb_true_iff; bsimpl; by rewrite H.
Qed.

Lemma transitions_check from to : transitions from to = true → to ∈ statuses.
Proof.
  unfold transitions. intros H. repeat (apply orb_true_iff in H as [H|H] || bsimpl);
  repeat match goal with H : _ || _ = true |- _ => apply orb_true_iff in H as [H|H] end; bsimpl;
  subst; vm_compute; set_solver.
Qed.

Lemma set_status_check to now r :
  appointment_check r = true → to ∈ statuses → appointment_check (set_status to now r) = true.
Proof.
  unfold appointment_check; cbn. intros H Hto. bsimpl; try done.
Qed.

Lemma set_status_overlaps to now r y :
  live (ap_status r) = true → overlaps r y = false → overlaps (set_status to now r) y = false.
Proof.
  unfold overlaps; cbn. intros -> H. destruct (live to); [done|by destruct (live (ap_status y))].
Qed.

Lemma Transition_total g t to d r :
  db_ok d → fresh g d → r ∈ appointments d → ap_tenant r = t →
  transitions (ap_status r) to = true →
  run (Repository_Transition g t (ap_id r) to) d =
    (Ok (scan (set_status to (g_now g) r)),
     updated g t r (set_status to (g_now g)) (titles to) ("appointment." +:+ to) d).
Proof.
  intros Hd (_ & Hev & Hob) Hr Ht Htr. unfold Repository_Transition. rewrite run_tx by solve_det.
  rewrite run_bind by auto with barber. rewrite or_not_found_found by done. rewrite Htr; cbn [negb].
  rewrite run_bind by auto with barber. rewrite run_stmt.
  rewrite update_total; try done.
  - rewrite run_bind by auto with barber. rewrite appendEvent_total; try done.
    by apply (has_appointment_upd d t r (set_status to (g_now g))).
  - apply set_status_check; [by apply Hd|by eapply transitions_check].
  - intros y Hy Hne. apply set_status_overlaps; [by eapply transitions_live|].
    apply (ok_no_overlap d Hd); congruence.
Qed.

(** A [Create] whose row passes the constraints succeeds. *)
Lemma Create_total g t input e os oe scope operation key fp d :
  text_ok (CreateInput_CustomerName input) = true →
  text_ok (CreateInput_CustomerContact input) = true →
  text_ok scope = true → text_ok operation = true → text_ok key = true →
  key ≠ EmptyString → create_ok g t input e os oe scope operation key fp d →
  run (Repository_Create g t input e os oe scope operation key fp) d =
    (Ok (scan (created_row g t input e os oe)),
     created g t input e os oe scope operation key fp d).
Proof.
  intros Hn Hc Hs Hop Hkt Hk (Hins & Hkey & Hev & Hob). destruct (Hkey Hk) as [Hchk Hfresh].
  unfold Repository_Create. rewrite run_tx by solve_det.
  rewrite bool_decide_false by done; cbn [negb].
  rewrite run_bind by auto with barber. rewrite run_stmt.
  rewrite run_attempt_bind by apply det_stmt. rewrite run_stmt.
  assert (select_key t t scope operation key d = Err NoRows) as ->.
  { unfold select_key. rewrite Hs, Hop, Hkt; cbn. unfold query_row.
    destruct (head _) as [k|] eqn:E; [|done]. apply head_sel_Some in E as [Hp Hin].
    unfold rls in Hp. bsimpl. destruct (Hfresh k Hin). unfold key_ident. congruence. }
  cbn. unfold create_rows. rewrite run_bind by auto with barber. rewrite run_stmt.
  fold (created_row g t input e os oe). rewrite insert_appointment_total by done.
  rewrite run_bind by solve_det. rewrite bool_decide_false by done; cbn [negb]. rewrite run_stmt.
  assert (has_appointment t (g_appointment g)
    (set_appointments (appointments d ++ [created_row g t input e os oe]) d) = true) as Hfk.
  { apply has_appointment_iff. exists (created_row g t input e os oe).
    split; [apply elem_of_app; right; by apply list_elem_of_singleton|done]. }
  unfold insert_key. cbn [ik_scope ik_operation ik_tenant]. rewrite Hs, Hop, bool_decide_refl; cbn [negb andb].
  change (mkIdempotencyRow _ _ _ _ _ _ _) with (new_key g t scope operation key fp). rewrite Hchk; cbn [negb].
  replace (existsb _ _) with false.
  2: { symmetry. apply existsb_none. intros x Hx. apply not_true_iff_false. intros Hp. bsimpl.
       cbn in *. destruct (Hfresh x Hx). unfold key_ident. congruence. }
  change (has_appointment _ _ _) with (has_appointment t (g_appointment g)
    (set_appointments (appointments d ++ [created_row g t input e os oe]) d)). rewrite Hfk; cbn [negb].
  rewrite run_bind by auto with barber. rewrite appendEvent_total; try done.
  unfold created. by rewrite bool_decide_false.
Qed.

(** The stored result of a key, found by its identity. *)
Lemma select_key_total d t scope operation key k :
  db_ok d → stored_key t scope operation key d k →
  text_ok scope = true → text_ok operation = true → text_ok key = true →
  select_key t t scope operation key d = Ok (k, d).
Proof.
  intros Hd [Hin Hid] Hs Ho Hk. unfold select_key. rewrite Hs, Ho, Hk; cbn. unfold query_row.
  erewrite (head_sel_unique key_ident); [done|apply Hd| |done|].
  - unfold rls. intros y Hy. bsimpl. rewrite Hid. unfold key_ident. congruence.
  - unfold rls, key_ident in *. injection Hid as <- <- <- <-. by bsimpl.
Qed.

Lemma stored_appointment d t scope operation key k :
  db_ok d → stored_key t scope operation key d k →
  ∃ r, r ∈ appointments d ∧ ap_tenant r = t ∧ ap_id r = ik_appointment k.
Proof.
  intros Hd [Hin Hid]. destruct (ok_keys_ref d Hd k Hin) as [_ Hfk].
  apply has_appointment_iff in Hfk as (r & Hr & Ht & Hid'). exists r.
  unfold key_ident in Hid. split; [done|]. split; congruence.
Qed.

(** [Create] with a stored key. *)
Lemma Create_stored g t input e os oe scope operation key fp d k r :
  db_ok d → stored_key t scope operation key d k → key ≠ EmptyString →
  text_ok scope = true → text_ok operation = true → text_ok key = true →
  r ∈ appointments d → ap_tenant r = t → ap_id r = ik_appointment k →
  run (Repository_Create g t input e os oe scope operation key fp) d =
    ((if ik_fingerprint k ==? fp then Ok (scan r) else Err ErrIdempotencyConflict), d).
Proof.
  intros Hd Hst Hk Hs Ho Hkt Hr Ht Hid. unfold Repository_Create. rewrite run_tx by solve_det.
  rewrite bool_decide_false by done; cbn [negb].
  rewrite run_bind by auto with barber. rewrite run_stmt.
  rewrite run_attempt_bind by apply det_stmt. rewrite run_stmt, (select_key_total d _ _ _ _ k) by done.
  cbn. destruct (ik_fingerprint k ==? fp); cbn; [|done].
  rewrite run_bind by auto with barber. rewrite <- Hid. by rewrite select_by_id_total.
Qed.

(** [Create] with faults: nothing or a complete insertion. *)
Lemma Create_outcome g t input e os oe scope operation key fp fs d :
  let d' := (Repository_Create g t input e os oe scope operation key fp fs d).2.2 in
  d' = d ∨ d' = created g t input e os oe scope operation key fp d.
Proof.
  assert ((run (Repository_Create g t input e os oe scope operation key fp) d).2 = d ∨
    (run (Repository_Create g t input e os oe scope operation key fp) d).2
    = created g t input e os oe scope operation key fp d) as Hrun.
  { destruct (run (Repository_Create _ _ _ _ _ _ _ _ _ _) d) as [[a|err] d1] eqn:Hr.
    - apply Create_run in Hr as [[-> _]|(_ & -> & _)]; auto.
    - left. change d1 with ((Err (A:=Appointment) err, d1).2). rewrite <- Hr.
      apply (run_tx_err _ _ _ err); [solve_det|]. fold (Repository_Create g t input e os oe scope operation key fp).
      by rewrite Hr. }
  cbn zeta. destruct (atomic_Create g t input e os oe scope operation key fp fs d) as [H|[_ [->| ->]]]; auto.
  rewrite <- H in Hrun. done.
Qed.

Lemma Replay_stored t scope operation key fp d k r :
  db_ok d → stored_key t scope operation key d k →
  text_ok scope = true → text_ok operation = true → text_ok key = true →
  r ∈ appointments d → ap_tenant r = t → ap_id r = ik_appointment k → ik_fingerprint k = fp →
  run (Repository_Replay t scope operation key fp) d = (Ok (Some (scan r)), d).
Proof.
  intros Hd Hst Hs Ho Hk Hr Ht Hid <-. unfold Repository_Replay. rewrite run_tx by solve_det.
  rewrite run_attempt_bind by apply det_stmt. rewrite run_stmt, (select_key_total d _ _ _ _ k) by done.
  cbn. rewrite bool_decide_refl; cbn. rewrite run_bind by auto with barber. rewrite <- Hid.
  by rewrite select_by_id_total.
Qed.

Lemma GetForCustomer_total d t c r :
  db_ok d → r ∈ appointments d → ap_tenant r = t → ap_customer r = Some c →
  run (Repository_GetForCustomer t c (ap_id r)) d = (Ok (scan r), d).
Proof.
  intros Hd Hr Ht Hc. unfold Repository_GetForCustomer. rewrite run_tx by (solve_det; auto with barber).
  rewrite run_bind by auto with barber. unfold or_not_found.
  rewrite run_attempt_bind by apply det_stmt. rewrite run_stmt. unfold query_row, select_appointments.
  erewrite (head_sel_unique ap_id); [done|apply Hd| |done|].
  - unfold rls. intros y Hy. by bsimpl.
  - unfold rls. by bsimpl.
Qed.

Lemma GetForCustomer_none d t c id :
  (∀ r, r ∈ appointments d → ap_tenant r = t → ap_id r = id → ap_customer r ≠ Some c) →
  run (Repository_GetForCustomer t c id) d = (Err ErrNotFound, d).
Proof.
  intros Hno. unfold Repository_GetForCustomer. rewrite run_tx by (solve_det; auto with barber).
  rewrite run_bind by auto with barber. unfold or_not_found.
  rewrite run_attempt_bind by apply det_stmt. rewrite run_stmt. unfold query_row.
  destruct (head _) as [r|] eqn:E; [|done]. apply head_sel_Some in E as [Hp Hr].
  unfold rls in Hp. bsimpl. by destruct (Hno r).
Qed.

(** The key a creation stores. *)
Lemma created_stored g t input e os oe scope operation key fp d :
  key ≠ EmptyString →
  stored_key t scope operation key (created g t input e os oe scope operation key fp d)
    (new_key g t scope operation key fp).
Proof.
  intros Hk. split; [|done]. unfold created; cbn. rewrite bool_decide_false by done.
  apply elem_of_app. right. by apply list_elem_of_singleton.
Qed.

(** * Properties *)

Section CreateProperties.
Context (t : uuid) (input : CreateInput) (e os oe : time) (scope operation key fp : string).

Let op (g : Gen) := Repository_Create g t input e os oe scope operation key fp.

(** C5: [Create] is atomic under every failure of every statement: when it
    reports success it has either replayed the stored result of the same key
    and fingerprint without touching the database, or inserted the
    appointment, its key, its event and its outbox row together; when it
    reports an error nothing has changed, except that a lost acknowledgement
    of the COMMIT may hide a complete insertion. *)
Theorem Create_atomic g fs d :
  let '(r, (_, d')) := Repository_Create g t input e os oe scope operation key fp fs d in
  match r with
  | Ok a =>
      (d' = d ∧ ∃ k x, stored_key t scope operation key d k ∧ ik_fingerprint k = fp ∧
         x ∈ appointments d ∧ ap_id x = ik_appointment k ∧ a = scan x) ∨
      (a = scan (created_row g t input e os oe) ∧
       d' = created g t input e os oe scope operation key fp d)
  | Err err =>
      d' = d ∨ (err = Pg Infra ∧ d' = created g t input e os oe scope operation key fp d)
  end.
Proof.
  pose proof (atomic_Create g t input e os oe scope operation key fp fs d) as Hat.
  destruct (Repository_Create _ _ _ _ _ _ _ _ _ _ fs d) as [r [fs' d']]; cbn in Hat.
  assert (∀ a d1, run (op g) d = (Ok a, d1) →
    (d1 = d ∧ ∃ k x, stored_key t scope operation key d k ∧ ik_fingerprint k = fp ∧
         x ∈ appointments d ∧ ap_id x = ik_appointment k ∧ a = scan x) ∨
    (a = scan (created_row g t input e os oe) ∧
     d1 = created g t input e os oe scope operation key fp d)) as Hok.
  { intros a d1 [(-> & _ & k & x & ?)|(-> & -> & _)]%Create_run; [left|by right].
    split; [done|]. exists k, x. tauto. }
  assert (∀ err, (run (op g) d).1 = Err err → (run (op g) d).2 = d) as Herr
    by (intros err; apply run_tx_err; solve_det).
  destruct Hat as [Hrun|[-> Hd]].
  - destruct r as [a|err]; [by apply Hok|]. left. specialize (Herr err).
    unfold op in Herr. rewrite <- Hrun in Herr. by apply Herr.
  - destruct Hd as [->|Hd]; [by left|]. fold (op g) in Hd.
    destruct (run (op g) d) as [[a|err] d1] eqn:Hr; cbn in Hd; subst d'.
    + destruct (Hok a d1 eq_refl) as [[-> _]|[_ ->]]; auto.
    + left. by apply (Herr err).
Qed.

Context (Hkey : key ≠ EmptyString).
Context (Hscope : text_ok scope = true) (Hoperation : text_ok operation = true)
  (Hkeytext : text_ok key = true).

(** a key that is already stored makes [Create] read-only under every
    failure: the same fingerprint gets the stored appointment, a different one
    gets an idempotency conflict, and anything else is an infrastructure
    error. *)
Theorem Create_idempotent g fs d k x :
  db_ok d → stored_key t scope operation key d k →
  x ∈ appointments d → ap_tenant x = t → ap_id x = ik_appointment k →
  let '(r, (_, d')) := Repository_Create g t input e os oe scope operation key fp fs d in
  d' = d ∧ (r = (if ik_fingerprint k ==? fp then Ok (scan x) else Err ErrIdempotencyConflict)
            ∨ r = Err (Pg Infra)).
Proof using Hkey Hscope Hoperation Hkeytext.
  intros Hd Hst Hx Ht Hid.
  pose proof (atomic_Create g t input e os oe scope operation key fp fs d) as Hat.
  rewrite (Create_stored g t input e os oe scope operation key fp d k x) in Hat by done.
  destruct (Repository_Create _ _ _ _ _ _ _ _ _ _ fs d) as [r [fs' d']]; cbn in Hat.
  destruct Hat as [[= -> ->]|[-> [->| ->]]]; auto.
Qed.

(** An attempt with a key that is not stored: nothing happens and the caller is
    told so, or the insertion is complete and the caller has its appointment or
    lost the acknowledgement. *)
Definition untouched (r : res repo_error Appointment) (d d' : db) : Prop := d' = d ∧ ∀ a, r ≠ Ok a.
Definition inserted_by (g : Gen) (r : res repo_error Appointment) (d d' : db) : Prop :=
  d' = created g t input e os oe scope operation key fp d ∧
  (r = Ok (scan (created_row g t input e os oe)) ∨ r = Err (Pg Infra)).

Lemma Create_attempt g fs d :
  (∀ k, ~ stored_key t scope operation key d k) →
  let o := op g fs d in untouched o.1 d o.2.2 ∨ inserted_by g o.1 d o.2.2.
Proof using Hkey Hscope Hoperation Hkeytext.
  intros Hno. cbv zeta. pose proof (atomic_Create g t input e os oe scope operation key fp fs d) as Hat.
  fold (op g) in Hat. unfold untouched, inserted_by.
  assert (∀ err, (run (op g) d).1 = Err err → (run (op g) d).2 = d) as Herr by (intros err; apply run_tx_err; solve_det).
  assert (∀ a d', run (op g) d = (Ok a, d') → inserted_by g (Ok a) d d') as Hok.
  { intros a d' [(_ & _ & k & x & Hst & _)|(-> & -> & _)]%Create_run; [by destruct (Hno k)|]. split; [done|by left]. }
  destruct (op g fs d) as [r [fs' d']]. destruct (run (op g) d) as [[a|err] d0]; cbn in Hat, Herr |- *.
  - destruct (Hok a d0 eq_refl) as [-> Ha]. destruct Hat as [[= -> ->]|[-> [->| ->]]]; [right|left|right]; auto; by split.
  - specialize (Herr err eq_refl) as ->. left. by destruct Hat as [[= -> ->]|[-> [->| ->]]].
Qed.

(** C7: retrying never books twice and never loses a booking.  Take any two
    attempts of the same request (same key and fingerprint), each with any
    failures.  Either the first attempt inserted the appointment, whether the
    caller learned it or lost the acknowledgement: then the retry changes
    nothing under any failures, answers with the appointment of the first
    attempt or with an infrastructure error, and does answer with it when
    nothing fails.  Or the first attempt changed nothing and reported an error:
    then the retry stands alone, inserts once or changes nothing, and does
    insert when nothing fails and the row passes the constraints of the
    tables. *)
Theorem Create_retry_once g1 g2 fs1 fs2 d :
  db_ok d → (∀ k, ~ stored_key t scope operation key d k) →
  let '(r1, (_, d1)) := Repository_Create g1 t input e os oe scope operation key fp fs1 d in
  let '(r2, (_, d2)) := Repository_Create g2 t input e os oe scope operation key fp fs2 d1 in
  let retry := run (Repository_Create g2 t input e os oe scope operation key fp) d1 in
  let first := scan (created_row g1 t input e os oe) in
  (inserted_by g1 r1 d d1 ∧ d2 = d1 ∧ (r2 = Ok first ∨ r2 = Err (Pg Infra)) ∧ retry = (Ok first, d1)) ∨
  (untouched r1 d d1 ∧ (untouched r2 d d2 ∨ inserted_by g2 r2 d d2) ∧
   (create_ok g2 t input e os oe scope operation key fp d →
    text_ok (CreateInput_CustomerName input) = true → text_ok (CreateInput_CustomerContact input) = true →
    retry = (Ok (scan (created_row g2 t input e os oe)), created g2 t input e os oe scope operation key fp d))).
Proof using Hkey Hscope Hoperation Hkeytext.
  intros Hd Hno. fold (op g1). fold (op g2).
  pose proof (good_Create g1 t input e os oe scope operation key fp d Hd) as (Hok & _). fold (op g1) in Hok.
  pose proof (atomic_Create g1 t input e os oe scope operation key fp fs1 d) as Hat. fold (op g1) in Hat.
  pose proof (Create_attempt g1 fs1 d Hno) as H1. cbv zeta in H1.
  destruct (op g1 fs1 d) as [r1 [fs1' d1]]. cbn [fst snd] in *. destruct H1 as [[-> Hr1]|[-> Hr1]].
  - pose proof (Create_attempt g2 fs2 d Hno) as H2. cbv zeta in H2.
    destruct (op g2 fs2 d) as [r2 [fs2' d2]]. right. split; [done|]. split; [done|].
    intros Hc Hn Hco. by apply Create_total.
  - set (d1 := created g1 t input e os oe scope operation key fp d) in *.
    assert (run (op g2) d1 = (Ok (scan (created_row g1 t input e os oe)), d1)) as Hretry.
    { assert (db_ok d1) as Hd1.
      { destruct Hat as [Hat|[_ [Hat|Hat]]]; [by rewrite <- Hat in Hok|by rewrite Hat|by rewrite Hat]. }
      unfold op. rewrite (Create_stored g2 t input e os oe scope operation key fp _
        (new_key g1 t scope operation key fp) (created_row g1 t input e os oe)); try done.
      - cbn. by rewrite bool_decide_refl.
      - by apply created_stored.
      - apply elem_of_app. right. by apply list_elem_of_singleton. }
    pose proof (atomic_Create g2 t input e os oe scope operation key fp fs2 d1) as Hat2. fold (op g2) in Hat2.
    rewrite Hretry in Hat2. destruct (op g2 fs2 d1) as [r2 [fs2' d2]]. left. split; [done|].
    cbn in Hat2. destruct Hat2 as [[= -> ->]|[-> [->| ->]]]; auto.
Qed.
End CreateProperties.

(** A concrete booking for the witnesses: fingerprint of 64 hexadecimal
    digits, one hour from second 3600 on. *)
Definition ex_fp : string :=
  "0123456789abcdef0123456789abcdef0123456789abcdef0123456789abcdef".
Definition ex_gen (n : N) : Gen := mkGen (Hour * 24 + Z.of_N n) (100 + n) (200 + n) (300 + n).
Definition ex_input : CreateInput := mkCreateInput 11 12 13 "Ada" "ada@example.com" (30 * Hour) None.
Definition ex_op (g : Gen) : M Appointment :=
  Repository_Create g 1 ex_input (31 * Hour) (30 * Hour) (31 * Hour) "guest:x" "create" "k1" ex_fp.
Definition ex_db : db := (run (ex_op (ex_gen 1)) empty_db).2.
Definition ex_row : appointment_row :=
  created_row (ex_gen 1) 1 ex_input (31 * Hour) (30 * Hour) (31 * Hour).

Lemma ex_db_ok : db_ok ex_db.
Proof. apply good_Create, empty_db_ok. Defined.
Lemma ex_row_in : ex_row ∈ appointments ex_db.
Proof. apply list_elem_of_singleton. reflexivity. Defined.

Lemma Create_idempotent_witness :
  let '(r, (_, d')) := ex_op (ex_gen 2) [FOk; FOk] ex_db in
  d' = ex_db ∧ (r = Ok (scan ex_row) ∨ r = Err (Pg Infra)).
Proof.
  apply (Create_idempotent 1 ex_input (31 * Hour) (30 * Hour) (31 * Hour) "guest:x" "create" "k1" ex_fp
           ltac:(done) eq_refl eq_refl eq_refl (ex_gen 2) [FOk; FOk] ex_db
           (new_key (ex_gen 1) 1 "guest:x" "create" "k1" ex_fp) ex_row ex_db_ok).
  - split; [apply list_elem_of_singleton|]; reflexivity.
  - exact ex_row_in.
  - reflexivity.
  - reflexivity.
Defined.

(** The acknowledgement of the COMMIT is lost; the retry gets the appointment. *)
Lemma Create_retry_once_witness :
  let '(r1, (_, d1)) := ex_op (ex_gen 1) [FOk; FOk; FOk; FOk; FOk; FOk; FOk; FOk; FLost] empty_db in
  r1 = Err (Pg Infra) ∧ run (ex_op (ex_gen 2)) d1 = (Ok (scan ex_row), d1).
Proof.
  pose proof (Create_retry_once 1 ex_input (31 * Hour) (30 * Hour) (31 * Hour) "guest:x" "create" "k1" ex_fp
           ltac:(done) eq_refl eq_refl eq_refl (ex_gen 1) (ex_gen 2)
           [FOk; FOk; FOk; FOk; FOk; FOk; FOk; FOk; FLost] [] empty_db empty_db_ok) as H.
  destruct H as [(_ & _ & _ & H)|([H _] & _)].
  - intros k [Hk _]. apply not_elem_of_nil in Hk. exact Hk.
  - split; [reflexivity|exact H].
  - vm_compute in H. discriminate H.
Defined.

(** [Transition] is a total function of the stored row: an unknown id is
    ErrNotFound, a step outside the status graph is ErrInvalidTransition, and
    neither changes the database; an allowed step always succeeds (no
    constraint can reject it), changes only the status and the update time of
    that row, and appends one event and one outbox row about the new state. *)
Theorem Transition_exact g t id to d :
  db_ok d → fresh g d →
  (∀ r, r ∈ appointments d → ap_tenant r = t → ap_id r = id →
     run (Repository_Transition g t id to) d =
       if transitions (ap_status r) to then
         (Ok (scan (set_status to (g_now g) r)),
          updated g t r (set_status to (g_now g)) (titles to) ("appointment." +:+ to) d)
       else (Err ErrInvalidTransition, d)) ∧
  ((∀ r, r ∈ appointments d → ap_tenant r = t → ap_id r ≠ id) →
     run (Repository_Transition g t id to) d = (Err ErrNotFound, d)).
Proof.
  intros Hd Hg. split.
  - intros r Hr Ht <-. destruct (transitions (ap_status r) to) eqn:Htr; [by apply Transition_total|].
    unfold Repository_Transition. rewrite run_tx by solve_det. rewrite run_bind by auto with barber.
    rewrite or_not_found_found by done. by rewrite Htr.
  - intros Hno. unfold Repository_Transition. rewrite run_tx by solve_det.
    rewrite run_bind by auto with barber. by rewrite or_not_found_total.
Qed.

Lemma ex_fresh : fresh (ex_gen 2) ex_db.
Proof.
  repeat split; intros x Hx%list_elem_of_singleton; subst x; vm_compute; discriminate.
Defined.

Lemma Transition_exact_witness :
  run (Repository_Transition (ex_gen 2) 1 101 "confirmed") ex_db
  = (Ok (scan (set_status "confirmed" (g_now (ex_gen 2)) ex_row)),
     updated (ex_gen 2) 1 ex_row (set_status "confirmed" (g_now (ex_gen 2)))
       "AppointmentConfirmed" "appointment.confirmed" ex_db) ∧
  run (Repository_Transition (ex_gen 2) 1 101 "completed") ex_db = (Err ErrInvalidTransition, ex_db).
Proof.
  destruct (Transition_exact (ex_gen 2) 1 101 "confirmed" ex_db ex_db_ok ex_fresh) as [H1 _].
  destruct (Transition_exact (ex_gen 2) 1 101 "completed" ex_db ex_db_ok ex_fresh) as [H2 _].
  split; [exact (H1 ex_row ex_row_in eq_refl eq_refl)|exact (H2 ex_row ex_row_in eq_refl eq_refl)].
Defined.

(** [Reschedule] moves a pending or confirmed appointment to new times
    that satisfy the range checks exactly when no other live appointment of
    the barber occupies them; otherwise the exclusion constraint rejects it,
    the error is a conflict, and nothing changes. *)
Theorem Reschedule_exact g t s e os oe d r :
  db_ok d → fresh g d → r ∈ appointments d → ap_tenant r = t → live (ap_status r) = true →
  pg_ts s < pg_ts e → pg_ts os < pg_ts oe →
  let f := set_times s e os oe (g_now g) in
  run (Repository_Reschedule g t (ap_id r) s e os oe) d =
    if existsb (λ x, (ap_id x !=? ap_id r) && overlaps (f r) x) (appointments d)
    then (Err (Pg ExclusionViolation), d)
    else (Ok (scan (f r)), updated g t r f "AppointmentRescheduled" "appointment.rescheduled" d).
Proof.
  intros Hd (_ & Hev & Hob) Hr Ht Hl Hse Hoe f. unfold Repository_Reschedule.
  rewrite run_tx by solve_det. rewrite run_bind by auto with barber.
  rewrite or_not_found_found by done.
  assert ((ap_status r !=? "pending"%string) && (ap_status r !=? "confirmed"%string) = false) as ->.
  { unfold live in Hl. by apply orb_true_iff in Hl as [-> | ->]; rewrite ?andb_false_r. }
  rewrite run_bind by auto with barber. rewrite run_stmt. fold f.
  assert (appointment_check (f r) = true) as Hc.
  { unfold appointment_check, f; cbn. pose proof (ok_rows d Hd r Hr) as Hrow.
    unfold appointment_check in Hrow. bsimpl; done. }
  destruct (existsb _ _) eqn:Eo.
  - unfold update_appointment.
    change (λ r0, (ap_tenant r0 ==? t) && (ap_id r0 ==? ap_id r)) with (by_id t (ap_id r)).
    rewrite head_by_id by done. rewrite Hc; cbn [negb]. by rewrite Eo.
  - rewrite update_total; try done.
    + rewrite run_bind by auto with barber. rewrite appendEvent_total; try done.
      by apply (has_appointment_upd d t r f).
    + rewrite existsb_none in Eo. intros y Hy Hne. specialize (Eo y Hy).
      by rewrite bool_decide_false in Eo.
Qed.

Lemma Reschedule_exact_witness :
  run (Repository_Reschedule (ex_gen 2) 1 101 (40 * Hour) (41 * Hour) (40 * Hour) (41 * Hour)) ex_db
  = (Ok (scan (set_times (40 * Hour) (41 * Hour) (40 * Hour) (41 * Hour) (g_now (ex_gen 2)) ex_row)),
     updated (ex_gen 2) 1 ex_row
       (set_times (40 * Hour) (41 * Hour) (40 * Hour) (41 * Hour) (g_now (ex_gen 2)))
       "AppointmentRescheduled" "appointment.rescheduled" ex_db).
Proof.
  exact (Reschedule_exact (ex_gen 2) 1 (40 * Hour) (41 * Hour) (40 * Hour) (41 * Hour) ex_db ex_row
    ex_db_ok ex_fresh ex_row_in eq_refl eq_refl eq_refl eq_refl).
Defined.

(** ** Isolation of tenants *)

(** The rows of one tenant. *)
Definition mine {A} (tenant_of : A -> uuid) (t : uuid) (l : list A) : list A :=
  sel (λ r, tenant_of r ==? t) l.

Definition same_view (t : uuid) (d d' : db) : Prop :=
  mine ap_tenant t (appointments d) = mine ap_tenant t (appointments d') ∧
  mine ik_tenant t (idempotency_keys d) = mine ik_tenant t (idempotency_keys d').

Lemma sel_rls {A} (f : A -> uuid) t p l : sel (rls f t p) l = sel p (mine f t l).
Proof.
  unfold sel, mine, rls. induction l as [|x l IH]; cbn; [done|].
  destruct (f x ==? t); cbn; rewrite IH; done.
Qed.

Lemma same_view_select t p d d' :
  same_view t d d' → select_appointments t p d = select_appointments t p d'.
Proof. intros [H _]. unfold select_appointments. by rewrite !sel_rls, H. Qed.

Lemma same_view_key t s o k d d' :
  same_view t d d' →
  (run (D:=db) (E:=repo_error) (stmt (select_key t t s o k)) d).1
  = (run (D:=db) (E:=repo_error) (stmt (select_key t t s o k)) d').1.
Proof.
  intros [_ H]. rewrite !run_stmt. unfold select_key, query_row. rewrite !sel_rls, H. by split_match.
Qed.

Lemma same_view_by_id t id d d' :
  same_view t d d' → (run (select_by_id t t id) d).1 = (run (select_by_id t t id) d').1.
Proof.
  intros H. unfold select_by_id. rewrite !run_stmt. unfold query_row.
  rewrite (same_view_select _ _ _ _ H). by split_match.
Qed.

Lemma same_view_query {A} t (f : list appointment_row -> A) p d d' :
  same_view t d d' →
  (run (D:=db) (E:=repo_error) (WithTenantTx t (λ tx, query (λ d, f (select_appointments tx p d)))) d).1
  = (run (D:=db) (E:=repo_error) (WithTenantTx t (λ tx, query (λ d, f (select_appointments tx p d)))) d').1.
Proof. intros H. rewrite !run_tx by solve_det. unfold query. rewrite !run_stmt. by rewrite (same_view_select _ _ _ _ H). Qed.

Lemma same_view_row t p d d' :
  same_view t d d' →
  (run (WithTenantTx t (λ tx, a ← or_not_found (stmt (λ d, query_row (select_appointments tx p d) d));
     mret (scan a))) d).1
  = (run (WithTenantTx t (λ tx, a ← or_not_found (stmt (λ d, query_row (select_appointments tx p d) d));
     mret (scan a))) d').1.
Proof.
  intros H. assert (∀ A (m : M A), det m → det (or_not_found m)) by auto with barber.
  rewrite !run_tx by (solve_det; auto with barber). rewrite !run_bind by auto with barber.
  unfold or_not_found. rewrite !run_attempt_bind by apply det_stmt. rewrite !run_stmt.
  unfold query_row. rewrite (same_view_select _ _ _ _ H). by destruct (head _).
Qed.

(** C22: a tenant's operations never see or touch another tenant's rows: every
    write, whatever fails, leaves the rows of the other tenants in all four
    tables as they were, and every read returns the same answer on any two
    databases that agree on the tenant's own rows. *)
Theorem tenant_isolation t :
  (∀ d fs, db_ok d →
     (∀ g input e os oe scope op key fp,
        isolated t d (Repository_Create g t input e os oe scope op key fp fs d).2.2) ∧
     (∀ g id to, isolated t d (Repository_Transition g t id to fs d).2.2) ∧
     (∀ g id s e os oe, isolated t d (Repository_Reschedule g t id s e os oe fs d).2.2)) ∧
  (∀ d d', same_view t d d' →
     (∀ scope op key fp, (run (Repository_Replay t scope op key fp) d).1
                         = (run (Repository_Replay t scope op key fp) d').1) ∧
     (∀ id, (run (Repository_Get t id) d).1 = (run (Repository_Get t id) d').1) ∧
     (run (Repository_List t) d).1 = (run (Repository_List t) d').1 ∧
     (∀ now c u, (run (Repository_ListForCustomer now t c u) d).1
                 = (run (Repository_ListForCustomer now t c u) d').1) ∧
     (∀ c id, (run (Repository_GetForCustomer t c id) d).1
              = (run (Repository_GetForCustomer t c id) d').1) ∧
     (∀ b from to, (run (Repository_Occupancy t b from to) d).1
                   = (run (Repository_Occupancy t b from to) d').1)).
Proof.
  split.
  - intros d fs Hd.
    split_and!; intros; eapply good_faults; eauto with barber; intros;
      [apply good_Create|apply good_Transition|apply good_Reschedule].
  - intros d d' Hv. split_and!; intros.
    + unfold Repository_Replay. rewrite !run_tx by solve_det.
      rewrite !run_attempt_bind by apply det_stmt.
      rewrite (select_key_run t scope op key d), (select_key_run t scope op key d').
      pose proof (same_view_key t scope op key d d' Hv) as Hk.
      destruct (run (stmt _) d) as [[k|err] d1], (run (stmt _) d') as [[k'|err'] d1'];
        cbn in *; simplify_eq.
      * destruct (_ !=? fp); [done|]. rewrite !run_bind by auto with barber.
        pose proof (same_view_by_id t (ik_appointment k') d d' Hv) as Hb.
        destruct (run (select_by_id _ _ _) d) as [[]], (run (select_by_id _ _ _) d') as [[]];
          cbn in *; simplify_eq; done.
      * destruct err' as [| | |[]]; done.
    + by apply (same_view_row t (by_id t id)).
    + by apply (same_view_query t (λ l, map scan (by_start_desc l))).
    + by apply (same_view_query t (λ l, map scan (by_start_desc l))).
    + by apply same_view_row.
    + by apply (same_view_query t (map scan)).
Qed.

Lemma tenant_isolation_witness :
  isolated 2 ex_db (Repository_Create (ex_gen 5) 2 ex_input (31 * Hour) (30 * Hour) (31 * Hour)
                      "guest:x" "create" "k1" ex_fp [] ex_db).2.2 ∧
  (run (Repository_Get 2 101) ex_db).1 = (run (Repository_Get 2 101) empty_db).1.
Proof.
  destruct (tenant_isolation 2) as [Hw Hr]. split.
  - apply (Hw ex_db [] ex_db_ok).
  - apply (Hr ex_db empty_db). split; reflexivity.
Defined.

(** ** The customer's lists *)

Lemma customer_filter_complement now r :
  ap_status r ∈ statuses → customer_filter false now r = negb (customer_filter true now r).
Proof.
  intros Hs. unfold customer_filter.
  assert (bool_decide (ap_status r ∈ ["cancelled"; "completed"; "no_show"]%string)
          = negb (live (ap_status r))) as ->.
  { unfold statuses in Hs. repeat (apply elem_of_cons in Hs as [->|Hs]; [reflexivity|]). set_solver. }
  rewrite negb_andb. f_equal. rewrite Z.leb_antisym. by rewrite negb_involutive.
Qed.

Lemma sel_partition {A} (p : A -> bool) l : sel p l ++ sel (λ x, negb (p x)) l ≡ₚ l.
Proof.
  unfold sel. induction l as [|x l IH]; cbn; [done|]. destruct (p x); cbn.
  - by rewrite IH.
  - by rewrite <- Permutation_middle, IH.
Qed.

Lemma sel_ext_in {A} (p q : A -> bool) l : (∀ x, x ∈ l → p x = q x) → sel p l = sel q l.
Proof. intros H. apply List.filter_ext_in. intros x Hx. apply H. by apply list_elem_of_In. Qed.

Lemma sel_and {A} (p q : A -> bool) l : sel p (sel q l) = sel (λ x, q x && p x) l.
Proof.
  unfold sel. induction l as [|x l IH]; cbn; [done|].
  destruct (q x); cbn; [destruct (p x); by rewrite IH|done].
Qed.

Definition latest_first (a b : Appointment) : Prop := Appointment_StartAt b <= Appointment_StartAt a.

Lemma by_start_desc_sorted l : StronglySorted latest_first (map scan (by_start_desc l)).
Proof.
  unfold by_start_desc. pose proof (order_by_sorted (λ r, - ap_start r) l) as H.
  induction H as [|x k _ IH Hx]; cbn; constructor; [done|]. apply Forall_forall. intros a Ha.
  apply list_elem_of_In, in_map_iff in Ha as (y & <- & Hy). apply list_elem_of_In in Hy.
  rewrite Forall_forall in Hx. specialize (Hx y Hy). unfold key_le in Hx.
  unfold latest_first; cbn. lia.
Qed.

(** at any moment the upcoming list and the history of a customer split
    that customer's appointments of the tenant: each one is in exactly one of
    the two lists, and both lists are ordered by start, latest first. *)
Theorem customer_lists_partition now t c d :
  db_ok d →
  ∃ up hist,
    run (Repository_ListForCustomer now t c true) d = (Ok up, d) ∧
    run (Repository_ListForCustomer now t c false) d = (Ok hist, d) ∧
    up ++ hist ≡ₚ map scan (sel (λ r, (ap_tenant r ==? t) && (ap_customer r ==? Some c)) (appointments d)) ∧
    StronglySorted latest_first up ∧ StronglySorted latest_first hist.
Proof.
  intros Hd. eexists _, _. split; [unfold Repository_ListForCustomer; rewrite run_tx by solve_det; reflexivity|].
  split; [unfold Repository_ListForCustomer; rewrite run_tx by solve_det; reflexivity|].
  split; [|split; apply by_start_desc_sorted].
  rewrite <- map_app. apply Permutation_map. unfold by_start_desc. rewrite !order_by_perm.
  set (q := λ r, (ap_tenant r ==? t) && (ap_customer r ==? Some c)).
  assert (∀ u, select_appointments t (λ r, (ap_tenant r ==? t) && (ap_customer r ==? Some c)
     && customer_filter u now r) d = sel (customer_filter u now) (sel q (appointments d))) as H.
  { intros u. rewrite sel_and. apply sel_ext_in. intros r _. unfold rls, q.
    by destruct (ap_tenant r ==? t). }
  rewrite !H. rewrite (sel_ext_in (customer_filter false now) (λ r, negb (customer_filter true now r))).
  - apply sel_partition.
  - intros r [_ Hr]%elem_of_sel. apply customer_filter_complement.
    pose proof (ok_rows d Hd r Hr) as Hc. unfold appointment_check in Hc. by bsimpl.
Qed.

Lemma customer_lists_partition_witness :
  ∃ up hist, run (Repository_ListForCustomer 0 1 9 true) ex_db = (Ok up, ex_db) ∧
    run (Repository_ListForCustomer 0 1 9 false) ex_db = (Ok hist, ex_db) ∧ up = [] ∧ hist = [].
Proof.
  destruct (customer_lists_partition 0 1 9 ex_db ex_db_ok) as (up & hist & H1 & H2 & _).
  exists up, hist. split; [exact H1|]. split; [exact H2|].
  vm_compute in H1, H2. split; congruence.
Defined.
