(* ===== verification/Outbox.v ===== *)
(** * Outbox: appointment-service, the outbox relay

    The SECURITY DEFINER functions of [migrations/000003..000006], the outbox
    operations of [internal/repository/repository.go] and the publisher of
    [internal/outbox/publisher.go], which moves committed outbox rows to the
    JetStream stream.  Every call reads the database clock once ([now]). *)
From S2P Require Import Prelude Effects GoTime AppointmentRepo.

Local Open Scope Z_scope.

(** ** Database functions *)

Record OutboxEvent := mkOutboxEvent {
  OutboxEvent_ID : uuid;
  OutboxEvent_TenantID : uuid;
  OutboxEvent_AggregateID : uuid;
  OutboxEvent_Type : string;
  OutboxEvent_Payload : EventPayload;
  OutboxEvent_OccurredAt : time
}.

Definition event_of (r : outbox_row) : OutboxEvent :=
  mkOutboxEvent (ob_id r) (ob_tenant r) (ob_aggregate r) (ob_type r) (ob_payload r) (ob_created r).

Definition set_publishing (v : option time) (r : outbox_row) : outbox_row :=
  mkOutboxRow (ob_id r) (ob_tenant r) (ob_aggregate r) (ob_type r) (ob_payload r) (ob_created r)
    (ob_published r) v (ob_attempts r) (ob_failed r).

(** [LEAST(GREATEST(p_limit, 1), max)] *)
Definition bounded_limit (limit max : Z) : nat := Z.to_nat (Z.min (Z.max limit 1) max).

Definition is_none {A} (o : option A) : bool := match o with None => true | Some _ => false end.

(** The WHERE clause of [claim_outbox_events]. *)
Definition claimable (now : time) (r : outbox_row) : bool :=
  is_none (ob_published r) && is_none (ob_failed r)
  && match ob_publishing r with None => true | Some p => p <? now - Minute end.

Definition claim_outbox_events (now : time) (limit : Z) (d : db)
  : res pg_error (list OutboxEvent * db) :=
  let candidates := take (bounded_limit limit 100)
                      (order_by ob_created (sel (claimable now) (outbox_events d))) in
  let ids := map ob_id candidates in
  Ok (map event_of candidates,
      set_outbox (upd (λ r, bool_decide (ob_id r ∈ ids)) (set_publishing (Some now))
                    (outbox_events d)) d).

Definition set_published (now : time) (r : outbox_row) : outbox_row :=
  mkOutboxRow (ob_id r) (ob_tenant r) (ob_aggregate r) (ob_type r) (ob_payload r) (ob_created r)
    (Some now) None (ob_attempts r) (ob_failed r).

Definition mark_outbox_event_published (now : time) (id : uuid) (d : db)
  : res pg_error (unit * db) :=
  Ok (tt, set_outbox (upd (λ r, (ob_id r ==? id) && is_none (ob_published r))
                        (set_published now) (outbox_events d)) d).

Definition set_released (now : time) (r : outbox_row) : outbox_row :=
  mkOutboxRow (ob_id r) (ob_tenant r) (ob_aggregate r) (ob_type r) (ob_payload r) (ob_created r)
    (ob_published r) None (ob_attempts r + 1)
    (if 20 <=? ob_attempts r + 1 then Some now else ob_failed r).

Definition release_outbox_event (now : time) (id : uuid) (d : db)
  : res pg_error ((Z * bool) * db) :=
  let p := λ r, (ob_id r ==? id) && is_none (ob_published r) in
  match head (sel p (outbox_events d)) with
  | None => Err NoRows
  | Some r =>
      Ok ((ob_attempts (set_released now r), negb (is_none (ob_failed (set_released now r)))),
          set_outbox (upd p (set_released now) (outbox_events d)) d)
  end.

Definition cleanup_expired_idempotency_keys (now : time) (limit : Z) (d : db)
  : res pg_error (Z * db) :=
  let candidates := map key_ident (take (bounded_limit limit 1000)
    (order_by ik_created (sel (λ k, ik_created k <? now - 7 * Day) (idempotency_keys d)))) in
  let p := λ k, bool_decide (key_ident k ∈ candidates) in
  Ok (Z.of_nat (length (sel p (idempotency_keys d))), set_keys (del p (idempotency_keys d)) d).

Definition published_before (limit : time) (r : outbox_row) : bool :=
  match ob_published r with Some p => p <? limit | None => false end.

Definition cleanup_published_outbox_events (now : time) (limit : Z) (d : db)
  : res pg_error (Z * db) :=
  let candidates := map ob_id (take (bounded_limit limit 1000)
    (order_by (λ r, default 0 (ob_published r))
       (sel (published_before (now - 30 * Day)) (outbox_events d)))) in
  let p := λ r, bool_decide (ob_id r ∈ candidates) in
  Ok (Z.of_nat (length (sel p (outbox_events d))), set_outbox (del p (outbox_events d)) d).

(** ** Repository *)

(** The privileges [000004_idempotency_retention_privileges.up.sql] leaves to
    the application role. *)
Inductive privilege := SELECT | INSERT | UPDATE.
#[export] Instance privilege_eq_dec : EqDecision privilege.
Proof. solve_decision. Defined.

Definition app_grants (table : string) : list privilege :=
  if table ==? "appointments"%string then [SELECT; INSERT; UPDATE]
  else if table ==? "appointment_events"%string then [INSERT]
  else if table ==? "idempotency_keys"%string then [SELECT; INSERT]
  else if table ==? "outbox_events"%string then [INSERT]
  else [].

Definition Repository_ClaimOutbox (now : time) (limit : Z) : M (list OutboxEvent) :=
  autocommit (claim_outbox_events now limit).

Definition Repository_MarkOutboxPublished (now : time) (id : uuid) : M unit :=
  autocommit (mark_outbox_event_published now id).

Definition Repository_ReleaseOutbox (now : time) (id : uuid) : M (Z * bool) :=
  autocommit (release_outbox_event now id).

Definition pending (r : outbox_row) : bool := is_none (ob_published r) && is_none (ob_failed r).

(** The minimum of [created_at], for the age of the oldest pending row. *)
Definition oldest (l : list outbox_row) : option time :=
  head (map ob_created (order_by ob_created l)).

(** A plain SELECT on [outbox_events], sent with the application role. *)
Definition Repository_OutboxBacklogStats (now : time) : M (Z * duration) :=
  autocommit (λ d,
    if negb (bool_decide (SELECT ∈ app_grants "outbox_events")) then Err NoPrivilege
    else
      let rows := sel pending (outbox_events d) in
      Ok ((Z.of_nat (length rows),
           match oldest rows with Some c => now - c | None => 0 end), d)).

Definition Repository_CleanupRetention (now : time) (limit : Z) : M (Z * Z) :=
  idempotencyDeleted ← autocommit (cleanup_expired_idempotency_keys now limit);
  outboxDeleted ← autocommit (cleanup_published_outbox_events now limit);
  mret (idempotencyDeleted, outboxDeleted).

(** ** Publisher *)

Record Envelope := mkEnvelope {
  Envelope_EventID : uuid;
  Envelope_EventType : string;
  Envelope_EventVersion : Z;
  Envelope_TenantID : uuid;
  Envelope_AggregateID : uuid;
  Envelope_OccurredAt : time;
  Envelope_Payload : EventPayload
}.

(** A stored message: subject, [Nats-Msg-Id] and body. *)
Record Msg := mkMsg { Msg_Subject : string; Msg_Id : uuid; Msg_Data : Envelope }.

(** A counter vector, [None] when metrics are not registered. *)
Record Publisher := mkPublisher {
  ready : bool;
  lastCleanup : time;
  publishFailures : option Z;
  publishRetries : option Z;
  terminalTotal : option Z
}.

(** The database, the stream and the publisher's own state. *)
Record world := mkWorld { w_db : db; w_stream : list Msg; w_pub : Publisher }.

Definition set_pub (f : Publisher -> Publisher) (w : world) : world :=
  mkWorld (w_db w) (w_stream w) (f (w_pub w)).

Abbreviation W := (IO world repo_error).

(** A repository call of the publisher. *)
Definition on_db {A} (m : M A) : W A :=
  λ fs w, match m fs (w_db w) with
          | (r, (fs', d')) => (r, (fs', mkWorld d' (w_stream w) (w_pub w)))
          end.

Definition modify (f : world -> world) : W unit := λ fs w, (Ok tt, (fs, f w)).
Definition get_world : W world := λ fs w, (Ok w, (fs, w)).

Definition set_ready (b : bool) (p : Publisher) : Publisher :=
  mkPublisher b (lastCleanup p) (publishFailures p) (publishRetries p) (terminalTotal p).
Definition set_lastCleanup (t : time) (p : Publisher) : Publisher :=
  mkPublisher (ready p) t (publishFailures p) (publishRetries p) (terminalTotal p).

Definition incCounter (c : option Z) : option Z := option_map (λ n, n + 1) c.
Definition inc_failures (p : Publisher) : Publisher :=
  mkPublisher (ready p) (lastCleanup p) (incCounter (publishFailures p)) (publishRetries p)
    (terminalTotal p).
Definition inc_retries (p : Publisher) : Publisher :=
  mkPublisher (ready p) (lastCleanup p) (publishFailures p) (incCounter (publishRetries p))
    (terminalTotal p).
Definition inc_terminal (p : Publisher) : Publisher :=
  mkPublisher (ready p) (lastCleanup p) (publishFailures p) (publishRetries p)
    (incCounter (terminalTotal p)).

Definition message (e : OutboxEvent) : Msg :=
  mkMsg ("appointments.v1." +:+ OutboxEvent_Type e) (OutboxEvent_ID e)
    (mkEnvelope (OutboxEvent_ID e) (OutboxEvent_Type e) 1 (OutboxEvent_TenantID e)
       (OutboxEvent_AggregateID e) (OutboxEvent_OccurredAt e) (OutboxEvent_Payload e)).

(** [js.PublishMsg]: a lost acknowledgement leaves the message stored. *)
Definition PublishMsg (m : Msg) : W unit :=
  autocommit (λ w, Ok (tt, mkWorld (w_db w) (w_stream w ++ [m]) (w_pub w))).

Definition publishOne (now : time) (e : OutboxEvent) : W unit :=
  err ← attempt (PublishMsg (message e));
  match err with
  | Err _ =>
      modify (set_pub (λ p, inc_failures (set_ready false p))) ;;
      released ← attempt (on_db (Repository_ReleaseOutbox now (OutboxEvent_ID e)));
      match released with
      | Err _ => mret tt
      | Ok (_, terminal) => modify (set_pub (if terminal : bool then inc_terminal else inc_retries))
      end
  | Ok _ =>
      marked ← attempt (on_db (Repository_MarkOutboxPublished now (OutboxEvent_ID e)));
      mret tt
  end.

Fixpoint publishAll (now : time) (events : list OutboxEvent) : W unit :=
  match events with
  | [] => mret tt
  | e :: rest => publishOne now e ;; publishAll now rest
  end.

Definition publishBatch (now : time) : W unit :=
  claimed ← attempt (on_db (Repository_ClaimOutbox now 50));
  match claimed with
  | Err _ => mret tt
  | Ok events => publishAll now events
  end.

Definition cleanupRetention (now : time) : W unit :=
  w ← get_world;
  let last := lastCleanup (w_pub w) in
  if negb (IsZero last) && (now - last <? Hour) then mret tt
  else
    r ← attempt (on_db (Repository_CleanupRetention now 500));
    match r with
    | Err _ => mret tt
    | Ok _ => modify (set_pub (set_lastCleanup now))
    end.

(** What the connection answers in one iteration. *)
Record Broker := mkBroker { IsConnected : bool; StreamInfo_ok : bool; AddStream_ok : bool }.

Definition ensureReady (ctx_err : bool) (b : Broker) : W bool :=
  let up := negb (ctx_err || negb (IsConnected b)) && (StreamInfo_ok b || AddStream_ok b) in
  modify (set_pub (set_ready up)) ;; mret up.

(** One iteration of the loop of [Start]. *)
Definition tick (now : time) (ctx_err : bool) (b : Broker) : W unit :=
  if ctx_err then mret tt
  else
    up ← ensureReady ctx_err b;
    if up : bool then publishBatch now ;; cleanupRetention now else mret tt.

Definition Publisher_Ready (b : Broker) (w : world) : bool := ready (w_pub w) && IsConnected b.

(** * Lemmas *)

(** ** What the relay may do to the database *)

(** A row may move from [r] to [r']: the event is the same, attempts only
    grow, and a terminal row has used up its attempts. *)
Definition row_step (r r' : outbox_row) : Prop :=
  event_of r' = event_of r ∧ ob_attempts r <= ob_attempts r' ∧
  (ob_failed r = None → ob_failed r' ≠ None → 20 <= ob_attempts r').

#[export] Instance row_step_refl : Reflexive row_step.
Proof. intros r. split; [done|]. split; [lia|]. congruence. Qed.

Lemma row_step_trans r1 r2 r3 : row_step r1 r2 → row_step r2 r3 → row_step r1 r3.
Proof.
  intros (E1 & A1 & F1) (E2 & A2 & F2). split; [congruence|]. split; [lia|].
  intros H1 H3. destruct (ob_failed r2) eqn:E; [|auto]. specialize (F1 H1). assert (20 <= ob_attempts r2) by (apply F1; congruence). lia.
Qed.

Record relays (d d' : db) : Prop := mkRelays {
  rl_appointments : appointments d' = appointments d;
  rl_events : appointment_events d' = appointment_events d;
  rl_keys : idempotency_keys d' `sublist_of` idempotency_keys d;
  rl_ids : map ob_id (outbox_events d') `sublist_of` map ob_id (outbox_events d);
  rl_from : ∀ r', r' ∈ outbox_events d' → ∃ r, r ∈ outbox_events d ∧ row_step r r';
  rl_keep : ∀ r, r ∈ outbox_events d → ob_published r = None →
    ∃ r', r' ∈ outbox_events d' ∧ row_step r r'
}.

Lemma relays_refl d : relays d d.
Proof. split; try done; intros r Hr; exists r; by split. Qed.

Lemma event_of_id r r' : event_of r = event_of r' → ob_id r = ob_id r'.
Proof. by intros [=]. Qed.

(** An update of outbox rows that keeps their events. *)
Lemma relays_upd p f d :
  (∀ r, row_step r (f r)) → relays d (set_outbox (upd p f (outbox_events d)) d).
Proof.
  intros Hf. split; cbn; try done.
  - rewrite map_upd; [done|]. intros x _ _. apply event_of_id. apply Hf.
  - intros r' (r & Hr & ->)%elem_of_upd. exists r. split; [done|]. by destruct (p r).
  - intros r Hr _. exists (if p r then f r else r). split; [apply elem_of_upd; eauto|].
    by destruct (p r).
Qed.

Lemma sublist_bfilter {A} (p : A -> bool) l : List.filter p l `sublist_of` l.
Proof. induction l as [|x l IH]; cbn; [done|]. destruct (p x); by constructor. Qed.

Lemma sublist_map {A B} (f : A -> B) l k : l `sublist_of` k → map f l `sublist_of` map f k.
Proof. induction 1; cbn; by constructor. Qed.

Lemma claim_relays now limit d e d' :
  claim_outbox_events now limit d = Ok (e, d') → relays d d'.
Proof.
  intros [= _ <-]. apply relays_upd. intros r. split; [done|]. split; [done|]. cbn. congruence.
Qed.

Lemma mark_relays now id d d' :
  mark_outbox_event_published now id d = Ok (tt, d') → relays d d'.
Proof.
  intros [= <-]. apply relays_upd. intros r. split; [done|]. split; [done|]. cbn. congruence.
Qed.

Lemma set_released_step now r : row_step r (set_released now r).
Proof.
  split; [done|]. split; [cbn; lia|]. cbn. intros H1.
  destruct (20 <=? ob_attempts r + 1) eqn:E; [bsimpl; lia|congruence].
Qed.

Lemma release_relays now id d e d' :
  release_outbox_event now id d = Ok (e, d') → relays d d'.
Proof.
  unfold release_outbox_event. destruct (head _) as [r|]; [|done].
  intros [= _ <-]. apply relays_upd. apply set_released_step.
Qed.

Lemma cleanup_keys_relays now limit d n d' :
  cleanup_expired_idempotency_keys now limit d = Ok (n, d') → relays d d'.
Proof.
  intros [= _ <-]. split; cbn; try done; [apply sublist_bfilter|..]; intros r Hr; exists r; by split.
Qed.

Lemma take_In {A} n (l : list A) x : x ∈ take n l → x ∈ l.
Proof. intros Hx. rewrite <- (take_drop n l). apply elem_of_app. by left. Qed.

Lemma cleanup_outbox_relays now limit d n d' :
  NoDup (map ob_id (outbox_events d)) →
  cleanup_published_outbox_events now limit d = Ok (n, d') → relays d d'.
Proof.
  intros Hnd [= _ <-]. split; cbn; try done.
  - apply sublist_map, sublist_bfilter.
  - intros r [_ Hr]%elem_of_del. exists r. by split.
  - intros r Hr Hp. exists r. split; [|done]. apply elem_of_del. split; [|done].
    apply bool_decide_eq_false. intros Hin.
    apply list_elem_of_In, in_map_iff in Hin as (x & Hid & Hx).
    apply list_elem_of_In, take_In, elem_of_order_by, elem_of_sel in Hx as [Hx Hin].
    assert (x = r) as -> by (by apply (NoDup_map_eq ob_id (outbox_events d))).
    unfold published_before in Hx. by rewrite Hp in Hx.
Qed.

(** The relay preserves the database invariant. *)
Lemma relays_ok d d' : db_ok d → relays d d' → db_ok d'.
Proof.
  intros Hd Hr. assert (∀ t id, has_appointment t id d' = has_appointment t id d) as Hh.
  { intros. unfold has_appointment. by rewrite (rl_appointments _ _ Hr). }
  split; rewrite ?(rl_appointments _ _ Hr), ?(rl_events _ _ Hr); try apply Hd.
  - eapply sublist_NoDup; [apply (ok_keys d Hd)|apply sublist_map, Hr].
  - intros k Hk. rewrite Hh. eapply Hd, elem_of_sublist; [done|apply Hr].
  - intros e He. rewrite Hh. by eapply Hd.
  - eapply sublist_NoDup; [apply (ok_outbox d Hd)|apply Hr].
  - intros o Ho. rewrite Hh. destruct (rl_from _ _ Hr o Ho) as (r & Hin & [= _ Ht Ha _ _ _] & Hle & _).
    destruct (ok_outbox_ref d Hd r Hin). rewrite Ht, Ha. split; [done|lia].
  - intros o Ho. destruct (rl_from _ _ Hr o Ho) as (r & Hin & [= _ Ht Ha Hy Hp Hc] & _).
    destruct (ok_outbox_log d Hd r Hin) as (e & He & Hb). exists e. split; [done|].
    unfold backs. by rewrite Ht, Ha, Hy, Hp, Hc.
Qed.

(** ** The relay's invariant *)

Definition outbox (w : world) : list outbox_row := outbox_events (w_db w).

(** The event of the log that a stored message announces. *)
Definition backs_msg (e : event_row) (m : Msg) : Prop :=
  ev_type e = event_title (Envelope_EventType (Msg_Data m)) ∧ ev_created e = Envelope_OccurredAt (Msg_Data m) ∧
  ev_tenant e = Envelope_TenantID (Msg_Data m) ∧
  ev_appointment e = Envelope_AggregateID (Msg_Data m) ∧
  ev_payload e = Envelope_Payload (Msg_Data m).

Record relay_ok (w : world) : Prop := mkRelayOk {
  ry_db : db_ok (w_db w);
  ry_published : ∀ r, r ∈ outbox w → ob_published r ≠ None → message (event_of r) ∈ w_stream w;
  ry_failed : ∀ r, r ∈ outbox w → ob_failed r ≠ None → 20 <= ob_attempts r;
  ry_stream : ∀ m, m ∈ w_stream w → ∃ e, e ∈ appointment_events (w_db w) ∧ backs_msg e m
}.

(** No event is lost: it is still in the outbox or it is in the stream. *)
Definition delivers (w w' : world) : Prop :=
  ∀ r, r ∈ outbox w →
    (∃ r', r' ∈ outbox w' ∧ event_of r' = event_of r) ∨ message (event_of r) ∈ w_stream w'.

(** What a step of the relay guarantees. *)
Definition wstep (w w' : world) : Prop :=
  relay_ok w →
  relay_ok w' ∧ delivers w w' ∧ w_stream w `prefix_of` w_stream w' ∧
  appointments (w_db w') = appointments (w_db w) ∧
  appointment_events (w_db w') = appointment_events (w_db w).

Lemma prefix_elem {A} (l k : list A) x : l `prefix_of` k → x ∈ l → x ∈ k.
Proof. intros [m ->] Hx. apply elem_of_app. by left. Qed.

#[export] Instance wstep_po : PreOrder wstep.
Proof.
  split.
  - intros w Hw. split; [done|]. split; [|done]. intros r Hr. left. by exists r.
  - intros w1 w2 w3 H1 H2 Hw. destruct (H1 Hw) as (Hw2 & D1 & P1 & A1 & E1).
    destruct (H2 Hw2) as (Hw3 & D2 & P2 & A2 & E2). split; [done|]. split.
    + intros r Hr. destruct (D1 r Hr) as [(r' & Hr' & <-)|Hm]; [by apply D2|].
      right. by eapply prefix_elem.
    + split; [by etrans|]. split; congruence.
Qed.

(** A database step that publishes nothing beyond the stream. *)
Lemma wstep_db d' w :
  relays (w_db w) d' →
  (∀ r, r ∈ outbox_events d' → ob_published r ≠ None →
     ∃ r0, r0 ∈ outbox w ∧ event_of r0 = event_of r ∧
       (ob_published r0 ≠ None ∨ message (event_of r) ∈ w_stream w)) →
  wstep w (mkWorld d' (w_stream w) (w_pub w)).
Proof.
  intros Hr Hp Hw. split; [split; cbn|].
  - eapply relays_ok; [apply Hw|done].
  - intros r Hin Hpub. destruct (Hp r Hin Hpub) as (r0 & Hr0 & <- & [H|H]); [|done].
    by apply (ry_published w Hw).
  - intros r Hin Hf. destruct (rl_from _ _ Hr r Hin) as (r0 & Hr0 & _ & Hle & H20).
    destruct (ob_failed r0) as [x|] eqn:E; [|by apply H20].
    pose proof (ry_failed w Hw r0 Hr0 ltac:(by rewrite E)). lia.
  - rewrite (rl_events _ _ Hr). apply Hw.
  - split; [|split; [done|by split; apply Hr]]. intros r Hin. cbn.
    destruct (ob_published r) as [x|] eqn:E.
    + right. apply (ry_published w Hw); [done|]. by rewrite E.
    + left. destruct (rl_keep _ _ Hr r Hin E) as (r' & Hr' & He & _). by exists r'.
Qed.

(** The publisher's own state is irrelevant. *)
Lemma wstep_pub f w : wstep w (set_pub f w).
Proof.
  intros Hw. split; [by destruct Hw|]. split; [|done]. intros r Hr. left. by exists r.
Qed.

(** A message about a row of the outbox is stored. *)
Lemma wstep_publish r w :
  r ∈ outbox w → wstep w (mkWorld (w_db w) (w_stream w ++ [message (event_of r)]) (w_pub w)).
Proof.
  intros Hr Hw. split; [split; cbn; try apply Hw|].
  - intros x Hx Hp. apply elem_of_app. left. by apply (ry_published w Hw).
  - intros m [Hm| ->%list_elem_of_singleton]%elem_of_app; [by apply (ry_stream w Hw)|].
    destruct (ok_outbox_log _ (ry_db w Hw) r Hr) as (e & He & Hb). by exists e.
  - split; [|split; [by eexists|done]]. intros x Hx. left. by exists x.
Qed.

(** Updates that do not publish. *)
Lemma wstep_upd p f w :
  (∀ r, row_step r (f r)) → (∀ r, ob_published (f r) = ob_published r) →
  wstep w (mkWorld (set_outbox (upd p f (outbox w)) (w_db w)) (w_stream w) (w_pub w)).
Proof.
  intros Hf Hp. apply wstep_db; [by apply relays_upd|].
  intros r' (r & Hr & ->)%elem_of_upd Hpub. exists r. split; [done|].
  destruct (p r); [|by auto]. destruct (Hf r) as (-> & _). rewrite Hp in Hpub. auto.
Qed.

(** Marking a row whose message is stored. *)
Lemma wstep_mark now e w :
  message e ∈ w_stream w → (∀ r, r ∈ outbox w → ob_id r = OutboxEvent_ID e → event_of r = e) →
  wstep w (mkWorld (set_outbox (upd (λ r, (ob_id r ==? OutboxEvent_ID e) && is_none (ob_published r))
             (set_published now) (outbox w)) (w_db w)) (w_stream w) (w_pub w)).
Proof.
  intros Hm He. apply wstep_db.
  - apply relays_upd. intros r. split; [done|]. split; [done|]. cbn. congruence.
  - intros r' (r & Hr & ->)%elem_of_upd Hpub. exists r. split; [done|].
    destruct (_ && _) eqn:E; [|by auto]. bsimpl. split; [done|]. right.
    by rewrite <- (He r Hr) in Hm.
Qed.

(** ** The publisher's calls, under faults *)

Lemma on_db_autocommit {A} (f : db -> res pg_error (A * db)) (I : world -> world -> Prop) fs w :
  Reflexive I →
  (∀ a d', f (w_db w) = Ok (a, d') → I w (mkWorld d' (w_stream w) (w_pub w))) →
  I w (on_db (autocommit f) fs w).2.2.
Proof.
  intros HI Hf. unfold on_db, autocommit.
  assert (I w (mkWorld (w_db w) (w_stream w) (w_pub w))) by (destruct w; apply HI).
  destruct (pop fs) as [[] fs']; destruct (f (w_db w)) as [[a d']|] eqn:E; cbn; eauto.
Qed.

(** Steps that neither add nor remove events. *)
Definition pstep (w w' : world) : Prop :=
  wstep w w' ∧ map event_of (outbox w') = map event_of (outbox w).

#[export] Instance pstep_po : PreOrder pstep.
Proof.
  split; [done|]. intros w1 w2 w3 [H1 E1] [H2 E2]. split; [by etrans|congruence].
Qed.

Lemma map_event_upd p f l :
  (∀ r, event_of (f r) = event_of r) → map event_of (upd p f l) = map event_of l.
Proof. intros Hf. apply map_upd. auto. Qed.

Lemma step_in_modify f : step_in pstep (modify (set_pub f)).
Proof. intros fs w. split; [apply wstep_pub|done]. Qed.

Lemma step_in_Release now id : step_in pstep (on_db (Repository_ReleaseOutbox now id)).
Proof.
  intros fs w. apply (on_db_autocommit _ pstep); [apply _|]. intros a d'.
  unfold release_outbox_event. destruct (head _) as [r|]; [|done]. intros [= _ <-]. split.
  - by apply (wstep_upd _ (set_released now)); [apply set_released_step|].
  - by apply map_event_upd.
Qed.

Lemma step_in_Claim now n : step_in pstep (on_db (Repository_ClaimOutbox now n)).
Proof.
  intros fs w. apply (on_db_autocommit _ pstep); [apply _|]. intros a d' [= _ <-]. split.
  - apply (wstep_upd _ (set_publishing (Some now))); [|done].
    intros r. split; [done|]. split; [done|]. cbn. congruence.
  - by apply map_event_upd.
Qed.
#[export] Hint Resolve step_in_modify step_in_Release step_in_Claim : barber.

Lemma step_in_released now id :
  step_in pstep
    (released ← attempt (on_db (Repository_ReleaseOutbox now id));
     match released with
     | Err _ => mret tt
     | Ok (_, terminal) => modify (set_pub (if terminal : bool then inc_terminal else inc_retries))
     end).
Proof.
  apply step_in_bind; [apply _|auto with barber|]. intros [[n b]|e]; [|apply step_in_ret; apply _].
  destruct b; auto with barber.
Qed.

(** Ids identify events. *)
Lemma event_by_id w e r :
  relay_ok w → e ∈ map event_of (outbox w) → r ∈ outbox w → ob_id r = OutboxEvent_ID e →
  event_of r = e.
Proof.
  intros Hw He Hr Hid. apply list_elem_of_In, in_map_iff in He as (x & <- & Hx).
  apply list_elem_of_In in Hx. f_equal.
  apply (NoDup_map_eq ob_id (outbox w)); [apply (ry_db w Hw)|done..].
Qed.

Lemma publishOne_step now e fs w :
  e ∈ map event_of (outbox w) → relay_ok w → pstep w (publishOne now e fs w).2.2.
Proof.
  intros He Hw. pose proof He as Hx.
  apply list_elem_of_In, in_map_iff in Hx as (r & <- & Hr). apply list_elem_of_In in Hr.
  set (w1 := mkWorld (w_db w) (w_stream w ++ [message (event_of r)]) (w_pub w)).
  assert (pstep w w1) as H1 by (split; [by apply wstep_publish|done]).
  set (fl := λ p, inc_failures (set_ready false p)).
  assert (∀ fs w, pstep w (((modify (set_pub fl) ;;
     (released ← attempt (on_db (Repository_ReleaseOutbox now (ob_id r)));
     match released with
     | Err _ => mret tt
     | Ok (_, terminal) => modify (set_pub (if terminal : bool then inc_terminal else inc_retries))
     end)) : W unit) fs w).2.2) as Hfail.
  { intros fs0 w0. apply step_in_bind; [apply _|auto with barber|].
    intros _. apply step_in_released. }
  unfold publishOne. rewrite attempt_bind. unfold PublishMsg, autocommit.
  destruct (pop fs) as [[] fs1]; cbn beta iota zeta delta [fst snd]; fold w1.
  - etrans; [exact H1|]. rewrite attempt_bind.
    change (pstep w1 (on_db (Repository_MarkOutboxPublished now (ob_id r)) fs1 w1).2.2).
    apply (on_db_autocommit _ pstep); [apply _|]. intros a d' [= _ <-]. split.
    + apply (wstep_mark now (event_of r) w1); [apply elem_of_app; right; by apply list_elem_of_singleton|].
      intros x Hx Hid. by apply (event_by_id w).
    + by apply map_event_upd.
  - apply (Hfail fs1 w).
  - etrans; [exact H1|]. apply (Hfail fs1 w1).
Qed.

Lemma publishAll_step now es fs w :
  Forall (λ e, e ∈ map event_of (outbox w)) es → relay_ok w →
  pstep w (publishAll now es fs w).2.2.
Proof.
  revert fs w. induction es as [|e es IH]; intros fs w Hes Hw; cbn [publishAll]; [reflexivity|].
  apply Forall_cons in Hes as [He Hes].
  pose proof (publishOne_step now e fs w He Hw) as H1.
  unfold mbind, io_mbind, io_bind. destruct (publishOne now e fs w) as [[[]|] [fs' w']]; [|done].
  cbn in H1. etrans; [exact H1|]. destruct H1 as [H1 E1]. apply IH; [by rewrite E1|].
  by apply H1.
Qed.

(** The events a claim returns are events of the outbox. *)
Lemma claim_events now n d es d' :
  claim_outbox_events now n d = Ok (es, d') →
  Forall (λ e, e ∈ map event_of (outbox_events d)) es.
Proof.
  intros [= <- _]. apply Forall_forall. intros e He.
  apply list_elem_of_In, in_map_iff in He as (r & <- & Hr).
  apply list_elem_of_In, take_In, elem_of_order_by, elem_of_sel in Hr as [_ Hr].
  apply list_elem_of_In, in_map, list_elem_of_In, Hr.
Qed.

Lemma publishBatch_step now fs w : relay_ok w → pstep w (publishBatch now fs w).2.2.
Proof.
  intros Hw. pose proof (step_in_Claim now 50 fs w) as H1. unfold publishBatch.
  assert (∀ es, (on_db (Repository_ClaimOutbox now 50) fs w).1 = Ok es →
    Forall (λ e, e ∈ map event_of (outbox w)) es) as Hes.
  { intros es. unfold on_db, Repository_ClaimOutbox, autocommit.
    destruct (pop fs) as [[] fs']; try done; cbn; intros [= <-].
    by eapply (claim_events now 50 (w_db w)). }
  unfold mbind, io_mbind, io_bind, attempt.
  destruct (on_db (Repository_ClaimOutbox now 50) fs w) as [[es|err] [fs' w']]; [|done].
  cbn in *. etrans; [exact H1|]. destruct H1 as [H1 E1].
  apply publishAll_step; [rewrite E1; by apply Hes|by apply H1].
Qed.

(** ** Cleanup and the whole iteration *)

Lemma on_db_bind {A B} (m : M A) (k : A -> M B) fs w :
  on_db (m ≫= k) fs w = (on_db m ≫= λ a, on_db (k a)) fs w.
Proof.
  unfold on_db, mbind, io_mbind, io_bind. by destruct (m fs (w_db w)) as [[a|e] [fs' d']].
Qed.

Lemma step_in_on_db_bind {A B} I (m : M A) (k : A -> M B) :
  PreOrder I → step_in I (on_db m) → (∀ a, step_in I (on_db (k a))) → step_in I (on_db (m ≫= k)).
Proof.
  intros HI Hm Hk fs w. rewrite on_db_bind. by apply step_in_bind.
Qed.

Lemma step_in_Cleanup now n : step_in wstep (on_db (Repository_CleanupRetention now n)).
Proof.
  apply step_in_on_db_bind; [apply _|..].
  { intros fs w. apply (on_db_autocommit _ wstep); [apply _|]. intros a d' Hc.
    apply wstep_db; [by eapply cleanup_keys_relays|]. injection Hc as _ <-.
    intros r Hr Hp. exists r. auto. }
  intros a. apply step_in_on_db_bind; [apply _|..].
  { intros fs w. apply (on_db_autocommit _ wstep); [apply _|]. intros b d' Hc Hw.
    apply wstep_db; [|injection Hc as _ <-; intros r [_ Hr]%elem_of_del Hp; exists r; auto|done].
    eapply cleanup_outbox_relays; [apply (ok_outbox _ (ry_db w Hw))|done]. }
  intros b fs w. destruct w. reflexivity.
Qed.

Lemma step_in_cleanupRetention now : step_in wstep (cleanupRetention now).
Proof.
  apply step_in_bind; [apply _|intros fs w; reflexivity|]. intros w0.
  cbn zeta. match goal with |- step_in _ (if ?c then _ else _) => destruct c end;
    [apply step_in_ret; apply _|].
  apply step_in_bind; [apply _|apply step_in_attempt, step_in_Cleanup|].
  intros [|]; [intros fs w; apply wstep_pub|apply step_in_ret; apply _].
Qed.

Lemma step_in_tick now c b : step_in wstep (tick now c b).
Proof.
  unfold tick. destruct c; [apply step_in_ret; apply _|].
  apply step_in_bind; [apply _|..].
  { apply step_in_bind; [apply _|intros fs w; apply wstep_pub|intros; apply step_in_ret; apply _]. }
  intros [|]; [|apply step_in_ret; apply _].
  apply step_in_bind; [apply _| |intros; apply step_in_cleanupRetention].
  intros fs w Hw. pose proof (publishBatch_step now fs w Hw) as [H _]. by apply H.
Qed.

(** ** Fault-free progress *)

Definition mark_one (now : time) (e : OutboxEvent) (d : db) : db :=
  set_outbox (upd (λ r, (ob_id r ==? OutboxEvent_ID e) && is_none (ob_published r))
                (set_published now) (outbox_events d)) d.
Fixpoint mark_all (now : time) (es : list OutboxEvent) (d : db) : db :=
  match es with [] => d | e :: es' => mark_all now es' (mark_one now e d) end.

Lemma publishAll_run now es w :
  publishAll now es [] w =
    (Ok tt, ([], mkWorld (mark_all now es (w_db w)) (w_stream w ++ map message es) (w_pub w))).
Proof.
  revert w. induction es as [|e es IH]; intros w; cbn [publishAll].
  { cbn. rewrite app_nil_r. by destruct w. }
  unfold mbind, io_mbind, io_bind. replace (publishOne now e [] w)
    with (Ok (E:=repo_error) tt, ([] : list fault, mkWorld (mark_one now e (w_db w)) (w_stream w ++ [message e]) (w_pub w)))
    by reflexivity.
  rewrite IH; cbn. by rewrite <- app_assoc.
Qed.

Lemma mark_all_published now es d r :
  r ∈ outbox_events d →
  ob_published r = Some now ∨ (ob_published r = None ∧ ob_id r ∈ map OutboxEvent_ID es) →
  ∃ r', r' ∈ outbox_events (mark_all now es d) ∧ event_of r' = event_of r ∧
    ob_published r' = Some now.
Proof.
  revert d r. induction es as [|e es IH]; intros d r Hr Hp; cbn [mark_all].
  { exists r. destruct Hp as [Hp|[_ Hp]]; [done|cbn in Hp; set_solver]. }
  set (p := λ r, (ob_id r ==? OutboxEvent_ID e) && is_none (ob_published r)).
  destruct (IH (mark_one now e d) (if p r then set_published now r else r)) as (r' & Hr' & He & Hp').
  - apply elem_of_upd. eauto.
  - unfold p. destruct Hp as [Hp|[Hp Hin]].
    + left. rewrite Hp; cbn. by rewrite andb_false_r.
    + rewrite Hp; cbn. rewrite andb_true_r.
      destruct (bool_decide_reflect (ob_id r = OutboxEvent_ID e)) as [E|E]; [by left|]. right.
      split; [done|]. cbn in Hin. apply elem_of_cons in Hin as [?|]; done.
  - exists r'. split; [done|]. split; [|done]. rewrite He. by destruct (p r).
Qed.

(** A row published now survives the cleanup. *)
Lemma cleanup_keeps now limit d r n d' :
  NoDup (map ob_id (outbox_events d)) → r ∈ outbox_events d → ob_published r = Some now →
  cleanup_published_outbox_events now limit d = Ok (n, d') → r ∈ outbox_events d'.
Proof.
  intros Hnd Hr Hp [= _ <-]. apply elem_of_del. split; [|done]. apply bool_decide_eq_false.
  intros (x & Hid & Hx)%list_elem_of_In%in_map_iff.
  apply list_elem_of_In, take_In, elem_of_order_by, elem_of_sel in Hx as [Hx Hin].
  assert (x = r) as -> by (by apply (NoDup_map_eq ob_id (outbox_events d))).
  unfold published_before in Hx. rewrite Hp in Hx. unfold Day, Hour, Minute, Second in Hx. bsimpl. lia.
Qed.

Lemma get_world_bind {A} (k : world -> W A) fs w : (get_world ≫= k) fs w = k w fs w.
Proof. done. Qed.

(** ** Leases *)

Lemma claimable_lease now now' r :
  now' <= now + Minute → claimable now' (set_publishing (Some now) r) = false.
Proof.
  intros H. unfold claimable; cbn. apply andb_false_iff. right. apply Z.ltb_ge. lia.
Qed.

Lemma claim_ids now limit d es d' :
  claim_outbox_events now limit d = Ok (es, d') →
  ∀ r, r ∈ outbox_events d' → ob_id r ∈ map OutboxEvent_ID es → ∃ r0, r = set_publishing (Some now) r0.
Proof.
  intros [= <- <-] r Hr Hin. cbn in Hr. apply elem_of_upd in Hr as (x & Hx & ->).
  rewrite map_map in Hin. cbn in Hin. destruct (bool_decide_reflect (ob_id x ∈ map ob_id
    (take (bounded_limit limit 100) (order_by ob_created (sel (claimable now) (outbox_events d)))))) as [E|E].
  - by exists x.
  - done.
Qed.
