(* ===== verification/AppointmentApp.v ===== *)
(** * AppointmentApp: appointment-service, packages [application], [client]
      and [handler]

    The booking, lifecycle and query services over the repository of
    [AppointmentRepo] and over an interface of dependencies, the client that
    implements that interface over HTTP, and the HTTP handlers. *)
From S2P Require Import Prelude Effects GoTime Http Platform AppointmentRepo.

Local Open Scope Z_scope.

(** ** Application types *)

Inductive app_error :=
| ErrInvalid
| ErrInvalidIdempotencyKey
| ErrUnauthorized
| ErrForbidden
| AppNotFound
| ErrConflict
| AppIdempotencyConflict
| ErrUnavailable
| RepoError (e : repo_error).

#[export] Instance app_error_eq_dec : EqDecision app_error.
Proof. solve_decision. Defined.

Record Principal := mkPrincipal {
  Principal_Kind : string;
  Principal_IdentityID : uuid;
  Principal_CustomerID : option uuid;
  Principal_Role : string
}.

Record CustomerSnapshot := mkCustomerSnapshot { Snapshot_Name : string; Snapshot_Email : string }.

Record CreateCommand := mkCreateCommand {
  Cmd_Tenant : TenantContext;
  Cmd_Principal : Principal;
  Cmd_Operation : string;
  Cmd_IdempotencyKey : string;
  Cmd_Input : CreateInput
}.

(** The interface [application.Dependencies]. *)
Record Dependencies := mkDependencies {
  dep_BranchBarber : TenantContext -> uuid -> uuid -> res dep_error unit;
  dep_Barber : TenantContext -> uuid -> res dep_error unit;
  dep_Service : TenantContext -> uuid -> uuid -> res dep_error Service;
  dep_Settings : TenantContext -> res dep_error TenantSettings;
  dep_Available : TenantContext -> CreateInput -> time -> res dep_error unit;
  dep_Customer : TenantContext -> uuid -> res dep_error CustomerSnapshot
}.

(** ** Validation *)

Definition ValidIdempotencyKey (key : string) : bool :=
  (1 <=? Z.of_nat (String.length key)) && (Z.of_nat (String.length key) <=? 128)
  && match_plus key_char key.

Definition canManage (role : string) : bool :=
  (role ==? "OWNER"%string) || (role ==? "MANAGER"%string) || (role ==? "RECEPTIONIST"%string).

Definition canRead (role : string) : bool := canManage role || (role ==? "BARBER"%string).

Definition mapRepositoryError (e : repo_error) : app_error :=
  match e with
  | ErrNotFound => AppNotFound
  | ErrIdempotencyConflict => AppIdempotencyConflict
  | ErrInvalidTransition => ErrConflict
  | _ => if IsConflict e then ErrConflict else RepoError e
  end.

Abbreviation App := (IO db app_error).

(** A repository call whose error goes through [mapRepositoryError]. *)
Definition repo {A} (m : M A) : App A :=
  r ← attempt m;
  match r with Ok a => mret a | Err e => io_fail (mapRepositoryError e) end.

(** [if err != nil { return ErrX }] after a dependency. *)
Definition require {E A} (r : res E A) (e : app_error) : App A :=
  match r with Ok a => mret a | Err _ => io_fail e end.

(** [t.Add(-time.Duration(n) * time.Minute)] *)
Definition SubMinutes (t : time) (n : Z) : time := Add t (int64 (int64 (- n) * Minute)).

Section Application.
Context `{GoLib}.

Definition principalScope (p : Principal) (email : string) : res app_error string :=
  if Principal_Kind p ==? "customer"%string then
    match Principal_CustomerID p with
    | None => Err ErrUnauthorized
    | Some c => if c ==? uuid_Nil then Err ErrUnauthorized else Ok ("customer:" +:+ uuid_String c)
    end
  else if Principal_Kind p ==? "admin"%string then
    if (Principal_IdentityID p ==? uuid_Nil) || negb (canManage (Principal_Role p))
    then Err ErrForbidden
    else Ok ("admin:" +:+ uuid_String (Principal_IdentityID p))
  else if Principal_Kind p ==? "guest"%string then Ok ("guest:" +:+ sha256_hex email)
  else Err ErrUnauthorized.

Definition set_contact (name contact : string) (customer : option uuid) (input : CreateInput)
  : CreateInput :=
  mkCreateInput (CreateInput_BranchID input) (CreateInput_BarberID input)
    (CreateInput_ServiceID input) name contact (CreateInput_StartAt input) customer.

Definition normalizeCreate (input : CreateInput) : res app_error CreateInput :=
  let name := TrimSpace (CreateInput_CustomerName input) in
  let contact := ToLower (TrimSpace (CreateInput_CustomerContact input)) in
  let input := set_contact name contact (CreateInput_CustomerID input) input in
  if (ParseAddress contact !=? Some contact) || (320 <? Z.of_nat (String.length contact))
     || (name ==? EmptyString) || (CreateInput_BranchID input ==? uuid_Nil)
     || (CreateInput_BarberID input ==? uuid_Nil) || (CreateInput_ServiceID input ==? uuid_Nil)
     || IsZero (CreateInput_StartAt input)
  then Err ErrInvalid
  else Ok input.

Definition fingerprint (t : uuid) (scope operation : string) (input : CreateInput) : string :=
  sha256_hex (json_strings
    [uuid_String t; scope; operation; uuid_String (CreateInput_BranchID input);
     uuid_String (CreateInput_BarberID input); uuid_String (CreateInput_ServiceID input);
     TrimSpace (CreateInput_CustomerName input); CreateInput_CustomerContact input;
     format_nano (CreateInput_StartAt input)]).

(** The customer's own name and address replace the submitted ones. *)
Definition with_customer (deps : Dependencies) (cmd : CreateCommand) (input : CreateInput)
  : res app_error CreateInput :=
  match Principal_CustomerID (Cmd_Principal cmd) with
  | None => Ok input
  | Some c =>
      match dep_Customer deps (Cmd_Tenant cmd) c with
      | Err _ => Err ErrUnauthorized
      | Ok snapshot =>
          match normalizeCreate (set_contact (Snapshot_Name snapshot)
                  (ToLower (TrimSpace (Snapshot_Email snapshot))) (Some c) input) with
          | Ok input => Ok input
          | Err _ => Err ErrUnauthorized
          end
      end
  end.

(** ** [BookingService] *)

Definition BookingService_Create (deps : Dependencies) (g : Gen) (cmd : CreateCommand)
  : App Appointment :=
  let t := Cmd_Tenant cmd in
  if negb (ValidIdempotencyKey (Cmd_IdempotencyKey cmd)) then io_fail ErrInvalidIdempotencyKey
  else
    input ← lift (normalizeCreate (Cmd_Input cmd));
    input ← lift (with_customer deps cmd input);
    scope ← lift (principalScope (Cmd_Principal cmd) (CreateInput_CustomerContact input));
    let fp := fingerprint (TenantID t) scope (Cmd_Operation cmd) input in
    replay ← repo (Repository_Replay (TenantID t) scope (Cmd_Operation cmd)
                     (Cmd_IdempotencyKey cmd) fp);
    match replay with
    | Some a => mret a
    | None =>
        require (dep_BranchBarber deps t (CreateInput_BranchID input) (CreateInput_BarberID input))
          ErrConflict ;;
        require (dep_Barber deps t (CreateInput_BarberID input)) ErrConflict ;;
        svc ← require (dep_Service deps t (CreateInput_BarberID input) (CreateInput_ServiceID input))
                ErrConflict;
        let start := CreateInput_StartAt input in
        let end_ := Add start (Minutes (DurationMinutes svc)) in
        let occupiedStart := SubMinutes start (BufferBeforeMinutes svc) in
        let occupiedEnd := Add end_ (Minutes (BufferAfterMinutes svc)) in
        require (dep_Available deps t input start) ErrConflict ;;
        repo (Repository_Create g (TenantID t) input end_ occupiedStart occupiedEnd scope
                (Cmd_Operation cmd) (Cmd_IdempotencyKey cmd) fp)
    end.

(** ** [LifecycleService] *)

Definition LifecycleService_Transition (g : Gen) (tenant : uuid) (principal : Principal)
    (id : uuid) (to : string) : App Appointment :=
  let allowed := ((Principal_Kind principal ==? "admin"%string) && canManage (Principal_Role principal))
                 || ((Principal_Kind principal ==? "guest"%string) && (to ==? "cancelled"%string)) in
  if negb allowed then io_fail ErrForbidden
  else if (to !=? "cancelled"%string) && (to !=? "confirmed"%string)
          && (to !=? "completed"%string) && (to !=? "no_show"%string) then io_fail ErrInvalid
  else repo (Repository_Transition g tenant id to).

Definition LifecycleService_CancelCustomer (deps : Dependencies) (g : Gen) (tenant : TenantContext)
    (customerID id : uuid) (now : time) : App Appointment :=
  a ← repo (Repository_GetForCustomer (TenantID tenant) customerID id);
  settings ← require (dep_Settings deps tenant) ErrUnavailable;
  if (CancellationPolicy settings ==? "no_cancellation"%string)
     || negb (Before now (SubMinutes (Appointment_StartAt a) (CancellationNoticeMinutes settings)))
  then io_fail ErrConflict
  else repo (Repository_Transition g (TenantID tenant) id "cancelled").

Definition LifecycleService_Reschedule (deps : Dependencies) (g : Gen) (tenant : TenantContext)
    (principal : Principal) (id : uuid) (start : time) : App Appointment :=
  if (Principal_Kind principal !=? "admin"%string) || negb (canManage (Principal_Role principal))
  then io_fail ErrForbidden
  else
    old ← repo (Repository_Get (TenantID tenant) id);
    let input := mkCreateInput (Appointment_BranchID old) (Appointment_BarberID old)
                   (Appointment_ServiceID old) (Appointment_CustomerName old)
                   (Appointment_CustomerContact old) start None in
    require (dep_BranchBarber deps tenant (CreateInput_BranchID input) (CreateInput_BarberID input))
      ErrConflict ;;
    require (dep_Barber deps tenant (CreateInput_BarberID input)) ErrConflict ;;
    svc ← require (dep_Service deps tenant (CreateInput_BarberID input) (CreateInput_ServiceID input))
            ErrConflict;
    require (dep_Available deps tenant input start) ErrConflict ;;
    let end_ := Add start (Minutes (DurationMinutes svc)) in
    repo (Repository_Reschedule g (TenantID tenant) id start end_
            (SubMinutes start (BufferBeforeMinutes svc)) (Add end_ (Minutes (BufferAfterMinutes svc)))).

(** ** [QueryService] *)

Definition QueryService_Get (tenant id : uuid) : App Appointment := repo (Repository_Get tenant id).

Definition QueryService_GetAdmin (tenant id : uuid) (p : Principal) : App Appointment :=
  if (Principal_Kind p !=? "admin"%string) || negb (canRead (Principal_Role p))
  then io_fail ErrForbidden
  else QueryService_Get tenant id.

Definition QueryService_NotificationRecipient (tenant id : uuid) : App string :=
  a ← QueryService_Get tenant id;
  let recipient := ToLower (TrimSpace (Appointment_CustomerContact a)) in
  if ParseAddress recipient !=? Some recipient then io_fail ErrInvalid else mret recipient.

Definition QueryService_List (tenant : uuid) (p : Principal) : App (list Appointment) :=
  if (Principal_Kind p !=? "admin"%string) || negb (canRead (Principal_Role p))
  then io_fail ErrForbidden
  else repo (Repository_List tenant).

Definition QueryService_CustomerGet (tenant customer id : uuid) : App Appointment :=
  repo (Repository_GetForCustomer tenant customer id).

Definition set_cancel (can : bool) (deadline : option time) (a : Appointment) : Appointment :=
  mkAppointment (Appointment_ID a) (Appointment_BranchID a) (Appointment_BarberID a)
    (Appointment_ServiceID a) (Appointment_CustomerName a) (Appointment_CustomerContact a)
    (Appointment_StartAt a) (Appointment_EndAt a) (Appointment_OccupiedStartAt a)
    (Appointment_OccupiedEndAt a) (Appointment_Status a) can deadline.

Definition cancellationState (settings : TenantSettings) (now : time) (a : Appointment)
  : Appointment :=
  if CancellationPolicy settings ==? "no_cancellation"%string then set_cancel false None a
  else
    let deadline := SubMinutes (Appointment_StartAt a) (CancellationNoticeMinutes settings) in
    set_cancel ((Appointment_Status a !=? "cancelled"%string)
                && (Appointment_Status a !=? "completed"%string)
                && (Appointment_Status a !=? "no_show"%string) && Before now deadline)
      (Some deadline) a.

(** [dbnow] is the transaction's [now()], [now] the caller's clock. *)
Definition QueryService_CustomerList (deps : Dependencies) (dbnow : time) (tenant : TenantContext)
    (customer : uuid) (upcoming : bool) (now : time) : App (list Appointment) :=
  v ← repo (Repository_ListForCustomer dbnow (TenantID tenant) customer upcoming);
  if upcoming then
    settings ← require (dep_Settings deps tenant) ErrUnavailable;
    mret (map (cancellationState settings now) v)
  else mret v.

Definition QueryService_Occupancy (tenant barber : uuid) (from to : time) : App (list Appointment) :=
  if negb (Before from to) then io_fail ErrInvalid
  else repo (Repository_Occupancy tenant barber from to).
End Application.

(** ** The HTTP client of the dependencies ([internal/client]) *)

(** The services the client talks to. *)
Record Network := mkNetwork {
  net_branch : Outgoing -> exchange unit;
  net_barber : Outgoing -> exchange Barber;
  net_service : Outgoing -> exchange Service;
  net_config : Outgoing -> exchange PublicConfig;
  net_scheduling : Outgoing -> exchange (list time);
  net_customer : Outgoing -> exchange CustomerSnapshot
}.

Section Client.
Context `{GoLib}.

Definition client_Barber (token : string) (net : Network) (t : TenantContext) (barber : uuid)
  : res dep_error unit :=
  match schedulingdeps_Barber token (net_barber net) t barber with
  | Ok _ => Ok tt
  | Err e => Err e
  end.

(** [Dependencies.Available]: the slot is one the scheduling service offers. *)
Definition client_Available (token : string) (net : Network) (t : TenantContext)
    (input : CreateInput) (start : time) : res dep_error unit :=
  match schedulingdeps_Settings token (net_config net) t with
  | Err e => Err e
  | Ok settings =>
      match LoadLocation (Timezone settings) with
      | None => Err DepFailed
      | Some zone =>
          let query := [("barber_id", QText (uuid_String (CreateInput_BarberID input)));
                        ("service_id", QText (uuid_String (CreateInput_ServiceID input)));
                        ("date", QDate (civil zone start))]%string in
          match net_scheduling net
                  (outgoing ["internal"; "v1"; "public"; "availability"] query token t EmptyString) with
          | Replied status body =>
              if negb (is_2xx status) then Err DepFailed
              else
                match body with
                | None => Err DepFailed
                | Some slots => if existsb (λ s, s =? start) slots then Ok tt else Err DepFailed
                end
          | _ => Err DepFailed
          end
      end
  end.

Definition client_Customer (token : string) (net : Network) (t : TenantContext) (id : uuid)
  : res dep_error CustomerSnapshot :=
  match net_customer net (outgoing ["internal"; "v1"; "customer"; uuid_String id] [] token t EmptyString) with
  | Replied status body =>
      if (status <? 200) || (300 <=? status) then Err DepFailed
      else match body with Some c => Ok c | None => Err DepFailed end
  | _ => Err DepFailed
  end.

Definition client_New (token : string) (net : Network) : Dependencies :=
  mkDependencies
    (schedulingdeps_BranchBarber token (net_branch net))
    (client_Barber token net)
    (schedulingdeps_Service token (net_service net))
    (schedulingdeps_Settings token (net_config net))
    (client_Available token net)
    (client_Customer token net).
End Client.

(** ** HTTP handlers ([internal/handler]) *)

(** What the handlers are built from; [auth] is [adminauth.Client]. *)
Record Handler := mkHandler {
  h_deps : Dependencies;
  h_verify : MultiTokenVerifier;
  h_auth : TenantContext -> string -> option AdminPrincipal
}.

Definition appointmentResult {A} (r : res app_error A) (success : Z) : Response A :=
  match r with
  | Ok a => SendJSON success a
  | Err ErrInvalidIdempotencyKey => SendError 400 "invalid_idempotency_key"
  | Err ErrInvalid => SendStatus 400
  | Err AppIdempotencyConflict => SendError 409 "idempotency_conflict"
  | Err ErrConflict => SendStatus 409
  | Err AppNotFound => SendStatus 404
  | Err ErrForbidden => SendStatus 403
  | Err ErrUnauthorized => SendStatus 401
  | Err ErrUnavailable => SendStatus 502
  | Err (RepoError _) => SendStatus 500
  end.

(** A handler that ends in [appointmentResult]. *)
Definition answer {A} (m : App A) (success : Z) : App (Response A) :=
  r ← attempt m; mret (appointmentResult r success).

Section Handlers.
Context `{GoLib} (h : Handler).

Definition trusted {B} (r : Request B) (appType : string) : option TenantContext :=
  match adminauth_Context r (h_verify h) with
  | Some t => if AppType t !=? appType then None else Some t
  | None => None
  end.

Definition admin {B} (r : Request B) : option (TenantContext * Principal) :=
  match trusted r "admin" with
  | None => None
  | Some t =>
      match h_auth h t (Header r "Cookie"%string) with
      | None => None
      | Some p => Some (t, mkPrincipal "admin" (AdminPrincipal_IdentityID p) None (AdminPrincipal_Role p))
      end
  end.

Definition customer {B} (r : Request B) : option (TenantContext * uuid) :=
  match trusted r "booking" with
  | None => None
  | Some t =>
      match uuid_Parse (Header r "X-Customer-ID"%string) with
      | None => None
      | Some id => if id ==? uuid_Nil then None else Some (t, id)
      end
  end.

Definition status {A} (code : Z) : App (Response A) := mret (SendStatus code).

Definition pubCreate (g : Gen) (r : Request CreateInput) : App (Response Appointment) :=
  match trusted r "booking" with
  | None => status 401
  | Some t =>
      match Body r with
      | None => status 400
      | Some input =>
          let create p := answer (BookingService_Create (h_deps h) g
            (mkCreateCommand t p "public.create_appointment" (Header r "Idempotency-Key"%string) input)) 201 in
          let raw := Header r "X-Customer-ID"%string in
          if raw !=? EmptyString then
            match uuid_Parse raw with
            | None => status 401
            | Some id =>
                if id ==? uuid_Nil then status 401
                else create (mkPrincipal "customer" uuid_Nil (Some id) EmptyString)
            end
          else create (mkPrincipal "guest" uuid_Nil None EmptyString)
      end
  end.

Definition admCreate (g : Gen) (r : Request CreateInput) : App (Response Appointment) :=
  match admin r with
  | None => status 403
  | Some (t, p) =>
      match Body r with
      | None => status 400
      | Some input =>
          answer (BookingService_Create (h_deps h) g
            (mkCreateCommand t p "admin.create_appointment" (Header r "Idempotency-Key"%string) input)) 201
      end
  end.

Definition customerList (dbnow now : time) (upcoming : bool) {B} (r : Request B)
  : App (Response (list Appointment)) :=
  match customer r with
  | None => status 401
  | Some (t, id) =>
      v ← attempt (QueryService_CustomerList (h_deps h) dbnow t id upcoming now);
      match v with
      | Ok l => mret (SendJSON 200 l)
      | Err ErrUnavailable => status 502
      | Err _ => status 500
      end
  end.

Definition customerGet {B} (r : Request B) : App (Response Appointment) :=
  match customer r with
  | None => status 401
  | Some (t, customerID) =>
      match uuid_Parse (Params r "id"%string) with
      | None => status 400
      | Some id => answer (QueryService_CustomerGet (TenantID t) customerID id) 200
      end
  end.

Definition customerCancel (g : Gen) (now : time) {B} (r : Request B) : App (Response Appointment) :=
  match customer r with
  | None => status 401
  | Some (t, customerID) =>
      match uuid_Parse (Params r "id"%string) with
      | None => status 400
      | Some id => answer (LifecycleService_CancelCustomer (h_deps h) g t customerID id now) 200
      end
  end.

Definition pubGet {B} (r : Request B) : App (Response Appointment) :=
  match trusted r "booking" with
  | None => status 401
  | Some t =>
      match uuid_Parse (Params r "id"%string) with
      | None => status 400
      | Some id => answer (QueryService_Get (TenantID t) id) 200
      end
  end.

Definition get {B} (r : Request B) : App (Response Appointment) :=
  match admin r with
  | None => status 403
  | Some (t, p) =>
      match uuid_Parse (Params r "id"%string) with
      | None => status 400
      | Some id => answer (QueryService_GetAdmin (TenantID t) id p) 200
      end
  end.

Definition list_ {B} (r : Request B) : App (Response (list Appointment)) :=
  match admin r with
  | None => status 403
  | Some (t, p) =>
      v ← attempt (QueryService_List (TenantID t) p);
      match v with
      | Ok l => mret (SendJSON 200 l)
      | Err ErrForbidden => status 403
      | Err _ => status 500
      end
  end.

Definition transition (g : Gen) (to : string) {B} (r : Request B) : App (Response Appointment) :=
  match admin r with
  | None => status 403
  | Some (t, p) =>
      match uuid_Parse (Params r "id"%string) with
      | None => status 400
      | Some id => answer (LifecycleService_Transition g (TenantID t) p id to) 200
      end
  end.

(** Same body as [customerCancel]. *)
Definition pubCancel (g : Gen) (now : time) {B} (r : Request B) : App (Response Appointment) :=
  match customer r with
  | None => status 401
  | Some (t, customerID) =>
      match uuid_Parse (Params r "id"%string) with
      | None => status 400
      | Some id => answer (LifecycleService_CancelCustomer (h_deps h) g t customerID id now) 200
      end
  end.

(** The body is the start time. *)
Definition reschedule (g : Gen) (r : Request time) : App (Response Appointment) :=
  match admin r with
  | None => status 403
  | Some (t, p) =>
      match uuid_Parse (Params r "id"%string) with
      | None => status 400
      | Some id =>
          match Body r with
          | None => status 400
          | Some start =>
              if IsZero start then status 400
              else answer (LifecycleService_Reschedule (h_deps h) g t p id start) 200
          end
      end
  end.

(** [from] and [to] are the parsed RFC 3339 query values. *)
Definition occ (from to : option time) {B} (r : Request B) : App (Response (list (time * time))) :=
  match adminauth_Context r (h_verify h), uuid_Parse (Query r "barber_id"%string), from, to with
  | Some t, Some barber, Some from, Some to =>
      if (AppType t !=? "booking"%string) && (AppType t !=? "admin"%string) then status 400
      else
        v ← attempt (QueryService_Occupancy (TenantID t) barber from to);
        match v with
        | Err _ => status 500
        | Ok l => mret (SendJSON 200 (map (λ a, (Appointment_OccupiedStartAt a, Appointment_OccupiedEndAt a)) l))
        end
  | _, _, _, _ => status 400
  end.

Definition notificationRecipient {B} (r : Request B) : App (Response string) :=
  match trusted r "booking" with
  | None => status 401
  | Some t =>
      match uuid_Parse (Params r "id"%string) with
      | None => status 400
      | Some id =>
          v ← attempt (QueryService_NotificationRecipient (TenantID t) id);
          match v with
          | Ok email => mret (SendJSON 200 email)
          | Err AppNotFound => status 404
          | Err ErrInvalid => status 422
          | Err _ => status 500
          end
      end
  end.
End Handlers.

(** * Lemmas *)

Lemma step_in_repo {A} I (m : M A) : PreOrder I → step_in I m → step_in I (repo m).
Proof. intros HI Hm. unfold repo. solve_step. Qed.

Lemma step_in_require {E A} I (r : res E A) e : PreOrder I → step_in I (require r e).
Proof. intros HI. unfold require. solve_step. Qed.

Lemma require_Ok {E A B} (a : A) e (k : A -> App B) fs d :
  (require (Ok (E:=E) a) e ≫= k) fs d = k a fs d.
Proof. done. Qed.
Lemma lift_Ok {A B} (a : A) (k : A -> App B) fs d : (lift (Ok a) ≫= k) fs d = k a fs d.
Proof. done. Qed.

Lemma step_in_answer {A} I (m : App A) s : PreOrder I → step_in I m → step_in I (answer m s).
Proof. intros HI Hm. unfold answer. solve_step. Qed.

Lemma step_in_readonly {A} I (m : M A) : PreOrder I → readonly m → step_in I m.
Proof. intros HI Hm fs d. rewrite <- (Hm fs d). reflexivity. Qed.

Lemma step_in_good_Create t g input e os oe s o k f :
  step_in (good t) (Repository_Create g t input e os oe s o k f).
Proof. intros fs d. apply good_faults; [auto with barber|]. intros. apply good_Create. Qed.
Lemma step_in_good_Transition t g id to : step_in (good t) (Repository_Transition g t id to).
Proof. intros fs d. apply good_faults; [auto with barber|]. intros. apply good_Transition. Qed.
Lemma step_in_good_Reschedule t g id s e os oe :
  step_in (good t) (Repository_Reschedule g t id s e os oe).
Proof. intros fs d. apply good_faults; [auto with barber|]. intros. apply good_Reschedule. Qed.

#[export] Hint Resolve step_in_repo step_in_require step_in_answer step_in_readonly
  step_in_good_Create step_in_good_Transition step_in_good_Reschedule : barber.

(** [eauto] closes the leaves of a service body. *)
Ltac solve_service := solve_step; eauto 6 with barber typeclass_instances.

Section Services.
Context `{GoLib}.

Lemma good_BookingService_Create deps g cmd :
  step_in (good (TenantID (Cmd_Tenant cmd))) (BookingService_Create deps g cmd).
Proof. unfold BookingService_Create. cbn zeta. solve_service. Qed.

Lemma good_LifecycleService_Transition g t p id to :
  step_in (good t) (LifecycleService_Transition g t p id to).
Proof. unfold LifecycleService_Transition. cbn zeta. solve_service. Qed.

Lemma good_CancelCustomer deps g t c id now :
  step_in (good (TenantID t)) (LifecycleService_CancelCustomer deps g t c id now).
Proof. unfold LifecycleService_CancelCustomer. solve_service. Qed.

Lemma good_LifecycleService_Reschedule deps g t p id start :
  step_in (good (TenantID t)) (LifecycleService_Reschedule deps g t p id start).
Proof. unfold LifecycleService_Reschedule. cbn zeta. solve_service. Qed.

(** Principals that may not manage change nothing. *)
Lemma readonly_forbidden_Create deps g cmd :
  Principal_Kind (Cmd_Principal cmd) = "admin"%string →
  canManage (Principal_Role (Cmd_Principal cmd)) = false →
  readonly (BookingService_Create deps g cmd).
Proof.
  intros Hk Hr. unfold BookingService_Create. cbn zeta.
  assert (∀ e, principalScope (Cmd_Principal cmd) e = Err ErrForbidden) as Hs.
  { intros e. unfold principalScope. rewrite Hk, Hr. by rewrite orb_true_r. }
  destruct (negb _); [apply step_in_fail; apply _|].
  do 2 (apply step_in_bind; [apply _|apply step_in_lift; apply _|intros ?]).
  rewrite Hs. intros fs d. reflexivity.
Qed.
End Services.

Lemma quiet_repo {A} (m : M A) : quiet m → quiet (repo m).
Proof.
  intros Hm. unfold repo. apply quiet_bind; [by apply quiet_attempt|]. by intros [].
Qed.
Lemma quiet_require {E A} (r : res E A) e : quiet (require r e).
Proof. by destruct r. Qed.
#[export] Hint Resolve quiet_repo quiet_require : barber.

(** Repository calls leave an empty script empty. *)
Ltac solve_quiet := first [apply quiet_repo, det_quiet | apply det_quiet]; auto with barber.

Lemma run_repo {A} (m : M A) d :
  quiet m →
  run (repo m) d = match run m d with
                   | (Ok a, d') => (Ok a, d')
                   | (Err e, d') => (Err (mapRepositoryError e), d')
                   end.
Proof.
  intros Hm. unfold repo. rewrite run_attempt_bind by apply Hm. by destruct (run m d) as [[] ?].
Qed.
Lemma run_lift {A B} (r : res app_error A) (k : A -> App B) d :
  run (lift r ≫= k) d = match r with Ok a => run (k a) d | Err e => (Err e, d) end.
Proof. by destruct r. Qed.
Lemma run_require {E A B} (r : res E A) e (k : A -> App B) d :
  run (require r e ≫= k) d = match r with Ok a => run (k a) d | Err _ => (Err e, d) end.
Proof. by destruct r. Qed.

Lemma all_chars_length key :
  all_chars key_char key = true →
  pg_length key = Z.of_nat (String.length key) ∧ text_ok key = true.
Proof.
  induction key as [|c key IH]; cbn [all_chars pg_length String.length text_ok]; [done|].
  intros Hc. apply andb_true_iff in Hc as [Hc Hk]. destruct (IH Hk) as [-> ->].
  unfold key_char in Hc. split.
  - match goal with |- context [if ?b then _ else _] => destruct b eqn:E end; lia.
  - apply andb_true_iff. split; [|done]. bsimpl. intros ->. vm_compute in Hc. done.
Qed.

Lemma ValidIdempotencyKey_text key :
  ValidIdempotencyKey key = true → text_ok key = true ∧ key ≠ EmptyString.
Proof.
  unfold ValidIdempotencyKey, match_plus. intros Hv. bsimpl.
  split; [by apply all_chars_length|done].
Qed.

Lemma ValidIdempotencyKey_eq key :
  ValidIdempotencyKey key
  = (1 <=? pg_length key) && (pg_length key <=? 128) && match_plus key_char key.
Proof.
  unfold ValidIdempotencyKey. destruct (match_plus key_char _) eqn:E; [|by rewrite !andb_false_r].
  unfold match_plus in E. apply andb_true_iff in E as [_ E]. by destruct (all_chars_length _ E) as [-> _].
Qed.

(** An accepted key with a digest as its fingerprint passes the table's CHECK. *)
Lemma key_checked r :
  ValidIdempotencyKey (ik_key r) = true →
  String.length (ik_fingerprint r) = 64%nat → all_chars hex_char (ik_fingerprint r) = true →
  idempotency_check r = true.
Proof.
  intros Hv Hlen Hhex. rewrite ValidIdempotencyKey_eq in Hv.
  unfold idempotency_check. rewrite Hv, Hlen, Hhex. done.
Qed.

Section Properties.
Context `{GoLib}.

(** The times of a booking follow from the catalog's metadata. *)
Definition booked (g : Gen) (cmd : CreateCommand) (input : CreateInput) (scope : string)
    (svc : Service) (d : db) : db :=
  let t := TenantID (Cmd_Tenant cmd) in
  let start := CreateInput_StartAt input in
  let end_ := Add start (Minutes (DurationMinutes svc)) in
  created g t input end_ (SubMinutes start (BufferBeforeMinutes svc))
    (Add end_ (Minutes (BufferAfterMinutes svc))) scope (Cmd_Operation cmd) (Cmd_IdempotencyKey cmd)
    (fingerprint t scope (Cmd_Operation cmd) input) d.

Lemma booking_approval deps g cmd fs d :
  let d' := (BookingService_Create deps g cmd fs d).2.2 in
  let t := Cmd_Tenant cmd in
  d' = d ∨
  ∃ input0 input scope svc,
    ValidIdempotencyKey (Cmd_IdempotencyKey cmd) = true ∧
    normalizeCreate (Cmd_Input cmd) = Ok input0 ∧ with_customer deps cmd input0 = Ok input ∧
    principalScope (Cmd_Principal cmd) (CreateInput_CustomerContact input) = Ok scope ∧
    dep_BranchBarber deps t (CreateInput_BranchID input) (CreateInput_BarberID input) = Ok tt ∧
    dep_Barber deps t (CreateInput_BarberID input) = Ok tt ∧
    dep_Service deps t (CreateInput_BarberID input) (CreateInput_ServiceID input) = Ok svc ∧
    dep_Available deps t input (CreateInput_StartAt input) = Ok tt ∧
    d' = booked g cmd input scope svc d.
Proof.
  cbn zeta. unfold BookingService_Create. cbn zeta.
  destruct (ValidIdempotencyKey (Cmd_IdempotencyKey cmd)) eqn:Hv; cbn [negb]; [|by left].
  destruct (normalizeCreate (Cmd_Input cmd)) as [input0|] eqn:Hn; [|by left].
  rewrite lift_Ok.
  destruct (with_customer deps cmd input0) as [input|] eqn:Hw; [|by left].
  rewrite lift_Ok.
  destruct (principalScope _ _) as [scope|] eqn:Hs; [|by left].
  rewrite lift_Ok.
  set (fp := fingerprint _ _ _ _).
  set (m := repo (Repository_Replay _ _ _ _ _)).
  assert (readonly m) as Hro by (unfold m; auto with barber typeclass_instances).
  specialize (Hro fs d). rewrite (bind_eq m).
  destruct (m fs d) as [[replay|e] [fs1 d1]]; cbn in Hro; subst d1; [|by left].
  destruct replay as [a|]; [by left|].
  destruct (dep_BranchBarber _ _ _ _) as [[]|] eqn:H1; [|by left].
  destruct (dep_Barber _ _ _) as [[]|] eqn:H2; [|by left].
  destruct (dep_Service _ _ _ _) as [svc|] eqn:H3; [|by left].
  destruct (dep_Available _ _ _ _) as [[]|] eqn:H4; [|by left].
  rewrite !require_Ok.
  match goal with |- context [repo (Repository_Create ?g ?t ?i ?e ?os ?oe ?s ?o ?k ?f)] =>
    pose proof (Create_outcome g t i e os oe s o k f fs1 d) as Ho;
    set (mc := Repository_Create g t i e os oe s o k f) in * end.
  assert ((repo mc fs1 d).2.2 = (mc fs1 d).2.2) as ->.
  { unfold repo. rewrite attempt_bind. by destruct (mc fs1 d) as [[] [? ?]]. }
  destruct Ho as [->|Ho]; [by left|right]. exists input0, input, scope, svc.
  do 8 (split; [done|]). exact Ho.
Qed.

(** no booking without approval: under any failures [BookingService.Create]
    either leaves the database as it was, or every check passed - a valid
    idempotency key, normalised input, an authorised principal, the branch,
    the barber, the service and the availability of the slot - and the only
    change is one complete insertion whose end and occupied range are computed
    from the service's duration and buffers. *)
Theorem booking_approved deps g cmd fs d :
  let d' := (BookingService_Create deps g cmd fs d).2.2 in
  let t := Cmd_Tenant cmd in
  d' = d ∨
  ∃ input0 input scope svc,
    ValidIdempotencyKey (Cmd_IdempotencyKey cmd) = true ∧
    normalizeCreate (Cmd_Input cmd) = Ok input0 ∧ with_customer deps cmd input0 = Ok input ∧
    principalScope (Cmd_Principal cmd) (CreateInput_CustomerContact input) = Ok scope ∧
    dep_BranchBarber deps t (CreateInput_BranchID input) (CreateInput_BarberID input) = Ok tt ∧
    dep_Barber deps t (CreateInput_BarberID input) = Ok tt ∧
    dep_Service deps t (CreateInput_BarberID input) (CreateInput_ServiceID input) = Ok svc ∧
    dep_Available deps t input (CreateInput_StartAt input) = Ok tt ∧
    d' = booked g cmd input scope svc d.
Proof. apply booking_approval. Qed.

(** a replay never depends on the other services: when the command's key is
    stored with the command's fingerprint, [BookingService.Create] returns the
    stored appointment and leaves the database alone, whatever the branch,
    barber, catalog and scheduling services would answer now. *)
Theorem booking_replay_first deps g cmd d input0 input scope k x :
  ValidIdempotencyKey (Cmd_IdempotencyKey cmd) = true →
  normalizeCreate (Cmd_Input cmd) = Ok input0 → with_customer deps cmd input0 = Ok input →
  principalScope (Cmd_Principal cmd) (CreateInput_CustomerContact input) = Ok scope →
  text_ok scope = true → text_ok (Cmd_Operation cmd) = true → db_ok d →
  stored_key (TenantID (Cmd_Tenant cmd)) scope (Cmd_Operation cmd) (Cmd_IdempotencyKey cmd) d k →
  ik_fingerprint k = fingerprint (TenantID (Cmd_Tenant cmd)) scope (Cmd_Operation cmd) input →
  x ∈ appointments d → ap_tenant x = TenantID (Cmd_Tenant cmd) → ap_id x = ik_appointment k →
  run (BookingService_Create deps g cmd) d = (Ok (scan x), d).
Proof.
  intros Hv Hn Hw Hs Hst Hop Hd Hk Hfp Hx Ht Hid.
  destruct (ValidIdempotencyKey_text _ Hv) as [Hkt _].
  unfold BookingService_Create. cbn zeta. rewrite Hv, Hn; cbn [negb].
  rewrite run_lift, Hw, run_lift, Hs, run_lift.
  rewrite runq_bind by solve_quiet.
  rewrite run_repo by solve_quiet.
  by rewrite (Replay_stored _ _ _ _ _ _ k x).
Qed.

(** the cancellation policy: a customer's cancellation succeeds exactly
    when [cancellationState] tells that customer [can_cancel], it then moves
    the appointment to cancelled with one event; otherwise it is a conflict
    that changes nothing; and an appointment that is not the customer's own is
    simply not found. *)
Theorem cancel_policy deps g tenant c id now d settings :
  db_ok d → fresh g d → dep_Settings deps tenant = Ok settings →
  (∀ r, r ∈ appointments d → ap_tenant r = TenantID tenant → ap_id r = id → ap_customer r = Some c →
     run (LifecycleService_CancelCustomer deps g tenant c id now) d =
       if Appointment_CanCancel (cancellationState settings now (scan r)) then
         (Ok (scan (set_status "cancelled" (g_now g) r)),
          updated g (TenantID tenant) r (set_status "cancelled" (g_now g))
            "AppointmentCancelled" "appointment.cancelled" d)
       else (Err ErrConflict, d)) ∧
  ((∀ r, r ∈ appointments d → ap_tenant r = TenantID tenant → ap_id r = id → ap_customer r ≠ Some c) →
     run (LifecycleService_CancelCustomer deps g tenant c id now) d = (Err AppNotFound, d)).
Proof.
  intros Hd Hg Hset. unfold LifecycleService_CancelCustomer. split.
  - intros r Hr Ht <- Hc. rewrite runq_bind by solve_quiet. rewrite run_repo by solve_quiet.
    rewrite GetForCustomer_total by done. rewrite run_require, Hset.
    unfold cancellationState. cbn [Appointment_StartAt Appointment_Status scan].
    destruct (CancellationPolicy settings ==? "no_cancellation"%string); cbn [orb]; [done|].
    destruct (Before now _) eqn:Eb; cbn [negb]; [|by rewrite andb_false_r].
    rewrite andb_true_r, run_repo by solve_quiet. cbn [Appointment_CanCancel set_cancel].
    destruct (transitions (ap_status r) "cancelled") eqn:Etr.
    + rewrite Transition_total by done.
      replace (_ && _) with true; [done|]. symmetry. apply transitions_live in Etr.
      unfold live in Etr. by apply orb_true_iff in Etr as [E|E]; bsimpl; rewrite E.
    + replace (run (Repository_Transition g (TenantID tenant) (ap_id r) "cancelled") d)
        with (Err (A:=Appointment) ErrInvalidTransition, d).
      2: { symmetry. unfold Repository_Transition. rewrite run_tx by solve_det.
           rewrite run_bind by auto with barber. rewrite or_not_found_found by done. by rewrite Etr. }
      replace (_ && _) with false; [done|]. symmetry.
      pose proof (ok_rows d Hd r Hr) as Hrow. unfold appointment_check in Hrow. bsimpl.
      match goal with H : ap_status r ∈ statuses |- _ =>
        unfold statuses in H; repeat (apply elem_of_cons in H as [E|H]; [by rewrite E in *|]) end.
      set_solver.
  - intros Hno. rewrite runq_bind by solve_quiet. rewrite run_repo by solve_quiet.
    by rewrite GetForCustomer_none.
Qed.

(** the service's key check and the database's CHECK on keys are the same
    predicate (bytes and characters agree on it), so with a hexadecimal
    64-digit fingerprint an accepted key is never rejected by the table. *)
Theorem ValidIdempotencyKey_db r :
  ValidIdempotencyKey (ik_key r)
    = (1 <=? pg_length (ik_key r)) && (pg_length (ik_key r) <=? 128) && match_plus key_char (ik_key r) ∧
  (ValidIdempotencyKey (ik_key r) = true →
   String.length (ik_fingerprint r) = 64%nat → all_chars hex_char (ik_fingerprint r) = true →
   idempotency_check r = true).
Proof. split; [apply ValidIdempotencyKey_eq|apply key_checked]. Qed.

(** *** What the writes change *)

Lemma repo_db {A} (m : M A) fs d : (repo m fs d).2.2 = (m fs d).2.2.
Proof. unfold repo. rewrite attempt_bind. by destruct (m fs d) as [[] [? ?]]. Qed.
Lemma repo_outcome {A} (m : M A) fs d a : (repo m fs d).1 = Ok a → (m fs d).1 = Ok a.
Proof. unfold repo. rewrite attempt_bind. destruct (m fs d) as [[] [? ?]]; cbn; [by intros [= ->]|done]. Qed.
Lemma answer_keeps_db {A} (m : App A) s fs d : (answer m s fs d).2.2 = (m fs d).2.2.
Proof. unfold answer. rewrite attempt_bind. by destruct (m fs d) as [[] [? ?]]. Qed.

(** An operation that reports success did what it does without failures. *)
Lemma atomic_result {A} (m : M A) fs d a : atomic m → (m fs d).1 = Ok a → run m d = (Ok a, (m fs d).2.2).
Proof. intros Hm Ha. destruct (Hm fs d) as [<-|[He _]]; [by rewrite Ha|congruence]. Qed.

(** One appointment of the tenant is replaced, and no other. *)
Definition changes_one (tenant id : uuid) (f : appointment_row -> appointment_row) (x : appointment_row) (d d' : db) : Prop :=
  x ∈ appointments d ∧ ap_tenant x = tenant ∧ ap_id x = id ∧
  appointments d' = upd (λ y, ap_id y ==? id) f (appointments d).
(** One appointment of the tenant is added. *)
Definition adds_one (tenant : uuid) (customer : option uuid) (d d' : db) : Prop :=
  ∃ x, appointments d' = (appointments d ++ [x])%list ∧ ap_tenant x = tenant ∧ ap_customer x = customer.

Lemma atomic_outcome {A} (P : db -> Prop) (m : M A) fs d :
  atomic m → P d → (∀ a d', run m d = (Ok a, d') → P d') → (∀ e, (run m d).1 = Err e → (run m d).2 = d) → P (m fs d).2.2.
Proof.
  intros Hm Hd Hok Herr. assert (P (run m d).2) as Hrun.
  { destruct (run m d) as [[a|e] d'] eqn:E; cbn; [by eapply Hok|]. specialize (Herr e eq_refl). cbn in Herr. by subst. }
  destruct (Hm fs d) as [Hr|[_ [->| ->]]]; [by rewrite <- Hr in Hrun|done..].
Qed.

Lemma Transition_changes gen t id to fs d :
  db_ok d →
  let d' := (Repository_Transition gen t id to fs d).2.2 in
  d' = d ∨ ∃ x, changes_one t id (set_status to (g_now gen)) x d d' ∧ transitions (ap_status x) to = true.
Proof.
  intros Hd. cbv zeta. apply (atomic_outcome (λ d', d' = d ∨ ∃ x, changes_one t id (set_status to (g_now gen)) x d d' ∧
    transitions (ap_status x) to = true)); [auto with barber|by left| |intros e; apply run_tx_err; solve_det].
  intros a d' (r0 & r & Hr0 & Hid0 & Htr & (Hr & Ht & Hid & _) & _ & ->)%Transition_run. right.
  assert (r0 = r) as -> by (apply (NoDup_map_eq ap_id (appointments d)); [apply Hd|done..|congruence]).
  exists r. split; [|done]. split_and!; try done. cbn. by rewrite Hid.
Qed.

Lemma Reschedule_changes gen t id s e os oe fs d :
  db_ok d →
  let d' := (Repository_Reschedule gen t id s e os oe fs d).2.2 in
  d' = d ∨ ∃ x, changes_one t id (set_times s e os oe (g_now gen)) x d d' ∧ live (ap_status x) = true.
Proof.
  intros Hd. cbv zeta. apply (atomic_outcome (λ d', d' = d ∨ ∃ x, changes_one t id (set_times s e os oe (g_now gen)) x d d' ∧
    live (ap_status x) = true)); [auto with barber|by left| |intros e0; apply run_tx_err; solve_det].
  intros a d' (r0 & r & Hr0 & Hid0 & Hl & (Hr & Ht & Hid & _) & _ & ->)%Reschedule_run. right.
  assert (r0 = r) as -> by (apply (NoDup_map_eq ap_id (appointments d)); [apply Hd|done..|congruence]).
  exists r. split; [|done]. split_and!; try done. cbn. by rewrite Hid.
Qed.

Lemma GetForCustomer_row t c id d a d' :
  run (Repository_GetForCustomer t c id) d = (Ok a, d') →
  ∃ x, x ∈ appointments d ∧ ap_tenant x = t ∧ ap_customer x = Some c ∧ ap_id x = id ∧ a = scan x.
Proof.
  unfold Repository_GetForCustomer. rewrite run_tx by (solve_det; auto with barber).
  rewrite run_bind by auto with barber. unfold or_not_found.
  rewrite run_attempt_bind by apply det_stmt. rewrite run_stmt. unfold query_row.
  destruct (head _) as [x|] eqn:E; [|done]. apply head_sel_Some in E as [Hp Hx]. unfold rls in Hp. bsimpl.
  cbn. intros [= <- _]. exists x. by split_and!.
Qed.

Lemma Cancel_changes deps gen t c id at_ fs d :
  db_ok d →
  let d' := (LifecycleService_CancelCustomer deps gen t c id at_ fs d).2.2 in
  d' = d ∨ ∃ x settings, changes_one (TenantID t) id (set_status "cancelled" (g_now gen)) x d d' ∧ ap_customer x = Some c ∧
    transitions (ap_status x) "cancelled" = true ∧ dep_Settings deps t = Ok settings ∧
    CancellationPolicy settings ≠ "no_cancellation"%string ∧
    Before at_ (SubMinutes (ap_start x) (CancellationNoticeMinutes settings)) = true.
Proof.
  intros Hd. cbv zeta. unfold LifecycleService_CancelCustomer. rewrite bind_eq.
  set (m := Repository_GetForCustomer (TenantID t) c id).
  assert (readonly m) as Hro by (unfold m; auto with barber). specialize (Hro fs d).
  pose proof (repo_db m fs d) as Hdb. pose proof (λ a, repo_outcome m fs d a) as Hres.
  destruct (repo m fs d) as [[a|e] [fs1 d1]]; cbn in Hdb, Hres; rewrite <- Hro in Hdb; subst d1; [|by left].
  specialize (Hres a eq_refl). apply atomic_result in Hres; [|unfold m; auto with barber].
  apply GetForCustomer_row in Hres as (x & Hx & Ht & Hc & Hid & ->).
  destruct (dep_Settings deps t) as [settings|] eqn:Es; [|by left]. rewrite require_Ok.
  destruct (_ || _) eqn:Ep; [by left|]. apply orb_false_iff in Ep as [Ep Eb]. bsimpl. rewrite repo_db.
  destruct (Transition_changes gen (TenantID t) id "cancelled" fs1 d Hd) as [->|(y & Hy & Htr)]; [by left|].
  right. assert (y = x) as ->.
  { destruct Hy as (Hy & _ & Hyid & _). apply (NoDup_map_eq ap_id (appointments d)); [apply Hd|done..|congruence]. }
  exists x, settings. by split_and!.
Qed.

Lemma LifecycleService_Reschedule_changes deps gen t p id start fs d :
  db_ok d →
  let d' := (LifecycleService_Reschedule deps gen t p id start fs d).2.2 in
  d' = d ∨ ∃ x e os oe, changes_one (TenantID t) id (set_times start e os oe (g_now gen)) x d d' ∧ live (ap_status x) = true.
Proof.
  intros Hd. cbv zeta. unfold LifecycleService_Reschedule. destruct (_ || _); [by left|]. rewrite bind_eq.
  set (m := Repository_Get (TenantID t) id). assert (readonly m) as Hro by (unfold m; auto with barber). specialize (Hro fs d).
  pose proof (repo_db m fs d) as Hdb. destruct (repo m fs d) as [[old|e] [fs1 d1]]; cbn in Hdb; rewrite <- Hro in Hdb; subst d1;
    [|by left]. cbv zeta.
  destruct (dep_BranchBarber _ _ _ _) as [[]|]; [|by left]. destruct (dep_Barber _ _ _) as [[]|]; [|by left].
  destruct (dep_Service _ _ _ _) as [svc|]; [|by left]. destruct (dep_Available _ _ _ _) as [[]|]; [|by left].
  rewrite !require_Ok, repo_db.
  match goal with |- context [Repository_Reschedule ?gg ?tt ?ii ?s ?e ?os ?oe] =>
    destruct (Reschedule_changes gg tt ii s e os oe fs1 d Hd) as [->|(x & Hx & Hl)] end; [by left|].
  right. by eexists _, _, _, _.
Qed.

Lemma normalize_customer input input' :
  normalizeCreate input = Ok input' → CreateInput_CustomerID input' = CreateInput_CustomerID input.
Proof. unfold normalizeCreate. cbv zeta. destruct (_ || _); [done|]. by intros [= <-]. Qed.

Lemma Booking_adds deps gen cmd fs d :
  let d' := (BookingService_Create deps gen cmd fs d).2.2 in
  let customer := match Principal_CustomerID (Cmd_Principal cmd) with
                  | Some c => Some c | None => CreateInput_CustomerID (Cmd_Input cmd) end in
  d' = d ∨ adds_one (TenantID (Cmd_Tenant cmd)) customer d d'.
Proof.
  cbv zeta. destruct (booking_approval deps gen cmd fs d) as [->|(i0 & i & scope & svc & _ & Hn & Hw & _ & _ & _ & _ & _ & ->)];
    [by left|right].
  eexists. split; [reflexivity|]. split; [done|]. cbn. unfold with_customer in Hw.
  destruct (Principal_CustomerID _) as [c|]; [|injection Hw as <-; by eapply normalize_customer].
  destruct (dep_Customer deps _ c) as [s|]; [|done]. destruct (normalizeCreate (set_contact _ _ _ _)) as [i1|] eqn:E1; [|done].
  injection Hw as <-. by apply normalize_customer in E1.
Qed.

Context (h : Handler) (g : Gen) (now : time).

(** *** Authority, in terms of the request *)

(** The internal token is one of the configured ones, the tenant header names
    the tenant, and the application type is [app]. *)
Definition from_gateway {B} (r : Request B) (app : string) (t : TenantContext) : Prop :=
  Header r InternalTokenHeader ≠ EmptyString ∧
  Header r InternalTokenHeader ∈ MultiTokenVerifier_expected (h_verify h) ∧
  uuid_Parse (Header r TenantIDHeader) = Some (TenantID t) ∧ Header r AppTypeHeader = app ∧ AppType t = app.

(** auth-service knows the session of the cookie, in that tenant, as one of a
    member who manages appointments; barbers do not. *)
Definition by_manager {B} (r : Request B) (t : TenantContext) : Prop :=
  from_gateway r "admin" t ∧
  ∃ p, h_auth h t (Header r "Cookie"%string) = Some p ∧
    AdminPrincipal_Role p ∈ ["OWNER"; "MANAGER"; "RECEPTIONIST"]%string.

(** The customer the gateway identified. *)
Definition by_customer {B} (r : Request B) (t : TenantContext) (c : uuid) : Prop :=
  from_gateway r "booking" t ∧ uuid_Parse (Header r "X-Customer-ID"%string) = Some c ∧ c ≠ uuid_Nil.

(** A customer cancels an appointment of their own, in time. *)
Definition own_cancellation {B} (r : Request B) (d d' : db) : Prop :=
  ∃ t c id x settings, by_customer r t c ∧ uuid_Parse (Params r "id"%string) = Some id ∧
    changes_one (TenantID t) id (set_status "cancelled" (g_now g)) x d d' ∧ ap_customer x = Some c ∧
    transitions (ap_status x) "cancelled" = true ∧ dep_Settings (h_deps h) t = Ok settings ∧
    CancellationPolicy settings ≠ "no_cancellation"%string ∧
    Before now (SubMinutes (ap_start x) (CancellationNoticeMinutes settings)) = true ∧ good (TenantID t) d d'.

Lemma trusted_gateway {B} (r : Request B) app t : trusted h r app = Some t → from_gateway r app t.
Proof.
  unfold trusted, adminauth_Context, Verify, MultiTokenVerifier_verifier, MultiTokenVerifier_Verify, tenantctx_New.
  case_bool_decide as He; [done|]. destruct (existsb _ _) eqn:Ev; cbn [negb]; [|done].
  apply existsb_elem in Ev as (tok & Htok & Hcmp). unfold ConstantTimeCompare in Hcmp. bsimpl. subst tok.
  destruct (uuid_Parse _) as [id|] eqn:Et; [|done]. destruct (_ && _); [done|]. cbn [AppType TenantID].
  case_bool_decide as Ha; [|done]. intros [= <-]. by split_and!.
Qed.

Lemma canManage_role role : canManage role = true → role ∈ ["OWNER"; "MANAGER"; "RECEPTIONIST"]%string.
Proof. unfold canManage. intros [[Hr|Hr]%orb_true_iff|Hr]%orb_true_iff; apply bool_decide_eq_true in Hr as ->; set_solver. Qed.

Lemma admin_manager {B} (r : Request B) t p :
  admin h r = Some (t, p) → Principal_Kind p = "admin"%string ∧ Principal_CustomerID p = None ∧
  (canManage (Principal_Role p) = true → by_manager r t).
Proof.
  unfold admin. destruct (trusted h r "admin") as [t'|] eqn:Et; [|done].
  destruct (h_auth h t' _) as [a|] eqn:Ea; [|done]. intros [= <- <-]. split; [done|]. split; [done|]. intros Hr.
  split; [by apply trusted_gateway|]. exists a. split; [done|]. by apply canManage_role.
Qed.

Lemma customer_header {B} (r : Request B) t c : customer h r = Some (t, c) → by_customer r t c.
Proof.
  unfold customer. destruct (trusted h r "booking") as [t'|] eqn:Et; [|done].
  destruct (uuid_Parse _) as [id|] eqn:Ei; [|done]. case_bool_decide as Hn; [done|]. intros [= <- <-].
  split; [by apply trusted_gateway|done].
Qed.

Lemma cancel_writes {B} (r : Request B) fs d :
  db_ok d → (customerCancel h g now r fs d).2.2 = d ∨ own_cancellation r d (customerCancel h g now r fs d).2.2.
Proof.
  intros Hd. unfold customerCancel. destruct (customer h r) as [[t c]|] eqn:Hc; [|by left].
  destruct (uuid_Parse _) as [id|] eqn:Ei; [|by left]. rewrite answer_keeps_db.
  destruct (Cancel_changes (h_deps h) g t c id now fs d Hd) as [->|(x & s & Hx & Hrest)]; [by left|]. right.
  exists t, c, id, x, s. split; [by apply customer_header|]. split; [done|].
  pose proof (good_CancelCustomer (h_deps h) g t c id now fs d). by split_and!; try apply Hrest.
Qed.

(** C37: every write needs its authority, spelled out on the request and on the
    rows.  Whatever is sent to the six writing routes and whatever fails, the
    database stays as it was, or the request carried one of the configured
    internal tokens, a tenant and the application type of the route, and
    - a booking by the public route adds one appointment in that tenant, for the
      customer of the customer header if there is one;
    - a booking, a change of status and a rescheduling by the admin routes come
      with a session cookie that auth-service accepts as an owner's, a manager's
      or a receptionist's, and add one appointment or change exactly the
      appointment of the path, in that tenant, along the status graph;
    - a cancellation by a customer changes exactly the appointment of the path,
      which belongs to the customer of the customer header in that tenant, along
      the status graph and in the time the tenant's policy allows.
    Other tenants' rows and all invariants of the tables are kept. *)
Theorem writes_need_authority fs d :
  db_ok d →
  (∀ r, let d' := (pubCreate h g r fs d).2.2 in
     d' = d ∨ ∃ t input, from_gateway r "booking" t ∧ Body r = Some input ∧ good (TenantID t) d d' ∧
       (Header r "X-Customer-ID"%string = EmptyString ∧ adds_one (TenantID t) (CreateInput_CustomerID input) d d' ∨
        ∃ c, by_customer r t c ∧ adds_one (TenantID t) (Some c) d d')) ∧
  (∀ r, let d' := (admCreate h g r fs d).2.2 in
     d' = d ∨ ∃ t input, by_manager r t ∧ Body r = Some input ∧ good (TenantID t) d d' ∧
       adds_one (TenantID t) (CreateInput_CustomerID input) d d') ∧
  (∀ B to (r : Request B), let d' := (transition h g to r fs d).2.2 in
     d' = d ∨ ∃ t id x, by_manager r t ∧ uuid_Parse (Params r "id"%string) = Some id ∧ good (TenantID t) d d' ∧
       changes_one (TenantID t) id (set_status to (g_now g)) x d d' ∧ transitions (ap_status x) to = true) ∧
  (∀ r, let d' := (reschedule h g r fs d).2.2 in
     d' = d ∨ ∃ t id x start e os oe, by_manager r t ∧ uuid_Parse (Params r "id"%string) = Some id ∧ Body r = Some start ∧
       good (TenantID t) d d' ∧ changes_one (TenantID t) id (set_times start e os oe (g_now g)) x d d' ∧
       live (ap_status x) = true) ∧
  (∀ B (r : Request B), let d' := (customerCancel h g now r fs d).2.2 in d' = d ∨ own_cancellation r d d') ∧
  (∀ B (r : Request B), let d' := (pubCancel h g now r fs d).2.2 in d' = d ∨ own_cancellation r d d').
Proof.
  intros Hd. split_and!.
  - intros r. cbv zeta. unfold pubCreate. destruct (trusted h r "booking") as [t|] eqn:Et; [|by left].
    apply trusted_gateway in Et. destruct (Body r) as [input|] eqn:Eb; [|by left]. cbv zeta.
    destruct (_ !=? _) eqn:Eraw; [destruct (uuid_Parse (Header r "X-Customer-ID"%string)) as [c|] eqn:Ec; [|by left];
      destruct (c ==? uuid_Nil) eqn:Hnil; [by left|]; bsimpl|];
      rewrite answer_keeps_db; match goal with |- context [BookingService_Create _ _ ?cmd] =>
        destruct (Booking_adds (h_deps h) g cmd fs d) as [->|Ha]; [by left|right]; exists t, input;
        pose proof (good_BookingService_Create (h_deps h) g cmd fs d) as Hg end; split_and!; try done.
    + right. by exists c.
    + left. by bsimpl.
  - intros r. cbv zeta. unfold admCreate. destruct (admin h r) as [[t p]|] eqn:Ha; [|by left].
    destruct (admin_manager _ _ _ Ha) as (Hk & Hnc & Hm). destruct (Body r) as [input|] eqn:Eb; [|by left].
    rewrite answer_keeps_db. match goal with |- context [BookingService_Create _ _ ?cmd] => set (cmd0 := cmd) end.
    destruct (canManage (Principal_Role p)) eqn:Hc.
    + destruct (Booking_adds (h_deps h) g cmd0 fs d) as [->|Hadd]; [by left|right]. exists t, input.
      cbn [Cmd_Principal cmd0] in Hadd. rewrite Hnc in Hadd.
      pose proof (good_BookingService_Create (h_deps h) g cmd0 fs d). split_and!; auto.
    + left. symmetry. by apply (readonly_forbidden_Create (h_deps h) g cmd0).
  - intros B to r. cbv zeta. unfold transition. destruct (admin h r) as [[t p]|] eqn:Ha; [|by left].
    destruct (admin_manager _ _ _ Ha) as (Hk & _ & Hm). destruct (uuid_Parse _) as [id|] eqn:Ei; [|by left].
    rewrite answer_keeps_db. pose proof (good_LifecycleService_Transition g (TenantID t) p id to fs d) as Hg. revert Hg.
    unfold LifecycleService_Transition. cbv zeta. rewrite Hk.
    rewrite (bool_decide_eq_true_2 ("admin"%string = "admin"%string)), (bool_decide_eq_false_2 ("admin"%string = "guest"%string)) by done.
    destruct (canManage (Principal_Role p)) eqn:Hc; cbn [orb andb negb]; [|intros _; left; reflexivity].
    destruct (_ && _); [intros _; left; reflexivity|]. rewrite repo_db. intros Hg.
    destruct (Transition_changes g (TenantID t) id to fs d Hd) as [->|(x & Hx & Htr)]; [by left|right].
    exists t, id, x. split_and!; auto; apply Hx.
  - intros r. cbv zeta. unfold reschedule. destruct (admin h r) as [[t p]|] eqn:Ha; [|by left].
    destruct (admin_manager _ _ _ Ha) as (Hk & _ & Hm). destruct (uuid_Parse _) as [id|] eqn:Ei; [|by left].
    destruct (Body r) as [start|] eqn:Eb; [|by left]. destruct (IsZero start); [by left|]. rewrite answer_keeps_db.
    pose proof (good_LifecycleService_Reschedule (h_deps h) g t p id start fs d) as Hg.
    destruct (canManage (Principal_Role p)) eqn:Hc.
    + destruct (LifecycleService_Reschedule_changes (h_deps h) g t p id start fs d Hd) as [->|(x & e & os & oe & Hx & Hl)];
        [by left|right]. exists t, id, x, start, e, os, oe. split_and!; auto; apply Hx.
    + left. unfold LifecycleService_Reschedule. by rewrite Hc, orb_true_r.
  - intros B r. by apply cancel_writes.
  - intros B r. by apply cancel_writes.
Qed.
End Properties.

(** * Witnesses *)

Definition ex_tenant : TenantContext := mkTenantContext 1 "booking" "req".
Definition ex_settings : TenantSettings := mkTenantSettings "UTC" 15 "flexible" 60.
Definition ex_deps : Dependencies :=
  mkDependencies (λ _ _ _, Ok tt) (λ _ _, Ok tt) (λ _ _ _, Ok (mkService 60 0 0))
    (λ _, Ok ex_settings) (λ _ _ _, Ok tt) (λ _ _, Ok (mkCustomerSnapshot "Ada" "ada@example.com")).
Definition ex_cmd : CreateCommand :=
  mkCreateCommand ex_tenant (mkPrincipal "customer" uuid_Nil (Some 9%N) EmptyString)
    "create" "k1" ex_input.
Definition ex_customer_input : CreateInput :=
  mkCreateInput 11 12 13 "Ada" "ada@example.com" (30 * Hour) (Some 9%N).
Definition ex_booked : db :=
  (run (@BookingService_Create TestLib ex_deps (ex_gen 1) ex_cmd) empty_db).2.
Definition ex_booked_row : appointment_row :=
  created_row (ex_gen 1) 1 ex_customer_input (31 * Hour) (30 * Hour) (31 * Hour).

Lemma ex_booked_ok : db_ok ex_booked.
Proof. apply (@good_BookingService_Create TestLib ex_deps (ex_gen 1) ex_cmd [] empty_db), empty_db_ok. Defined.
Lemma ex_booked_rows : appointments ex_booked = [ex_booked_row].
Proof. vm_compute. reflexivity. Defined.
Lemma ex_booked_keys :
  idempotency_keys ex_booked = [new_key (ex_gen 1) 1 "customer:1001" "create" "k1" test_digest].
Proof. vm_compute. reflexivity. Defined.

Lemma booking_replay_first_witness :
  run (@BookingService_Create TestLib
         (mkDependencies (λ _ _ _, Err DepFailed) (λ _ _, Err DepFailed) (λ _ _ _, Err DepFailed)
            (λ _, Err DepFailed) (λ _ _ _, Err DepFailed)
            (λ _ _, Ok (mkCustomerSnapshot "Ada" "ada@example.com")))
         (ex_gen 2) ex_cmd) ex_booked = (Ok (scan ex_booked_row), ex_booked).
Proof.
  apply (@booking_replay_first TestLib _ (ex_gen 2) ex_cmd ex_booked ex_input ex_customer_input
           "customer:1001" (new_key (ex_gen 1) 1 "customer:1001" "create" "k1" test_digest) ex_booked_row);
    try reflexivity; try exact ex_booked_ok.
  - split; [rewrite ex_booked_keys; apply list_elem_of_here|reflexivity].
  - rewrite ex_booked_rows. apply list_elem_of_here.
Defined.

Lemma ex_booked_fresh : fresh (ex_gen 2) ex_booked.
Proof.
  assert (appointment_events ex_booked = [new_event (ex_gen 1) 1 (scan ex_booked_row) "AppointmentCreated"])
    as He by (vm_compute; reflexivity).
  assert (outbox_events ex_booked = [new_outbox (ex_gen 1) 1 (scan ex_booked_row) "appointment.created"])
    as Ho by (vm_compute; reflexivity).
  repeat split; intros x; rewrite ?ex_booked_rows, ?He, ?Ho; intros Hx%list_elem_of_singleton; subst x;
    vm_compute; discriminate.
Defined.

Lemma cancel_policy_witness :
  run (LifecycleService_CancelCustomer ex_deps (ex_gen 2) ex_tenant 9 101 (28 * Hour)) ex_booked =
    (Ok (scan (set_status "cancelled" (g_now (ex_gen 2)) ex_booked_row)),
     updated (ex_gen 2) 1 ex_booked_row (set_status "cancelled" (g_now (ex_gen 2)))
       "AppointmentCancelled" "appointment.cancelled" ex_booked) ∧
  run (LifecycleService_CancelCustomer ex_deps (ex_gen 2) ex_tenant 9 101 (29 * Hour)) ex_booked
    = (Err ErrConflict, ex_booked).
Proof.
  assert (ex_booked_row ∈ appointments ex_booked) as Hin
    by (rewrite ex_booked_rows; apply list_elem_of_here).
  split.
  - exact (proj1 (cancel_policy ex_deps (ex_gen 2) ex_tenant 9 101 (28 * Hour) ex_booked ex_settings
      ex_booked_ok ex_booked_fresh eq_refl) ex_booked_row Hin eq_refl eq_refl eq_refl).
  - exact (proj1 (cancel_policy ex_deps (ex_gen 2) ex_tenant 9 101 (29 * Hour) ex_booked ex_settings
      ex_booked_ok ex_booked_fresh eq_refl) ex_booked_row Hin eq_refl eq_refl eq_refl).
Defined.

Lemma ValidIdempotencyKey_db_witness :
  idempotency_check (new_key (ex_gen 1) 1 "customer:1001" "create" "k1" test_digest) = true.
Proof.
  apply (ValidIdempotencyKey_db (new_key (ex_gen 1) 1 "customer:1001" "create" "k1" test_digest));
    reflexivity.
Defined.

(** The customer of the appointment cancels it in time. *)
Definition ex_cancel_handler : Handler := mkHandler ex_deps (mkMultiTokenVerifier ["secret"%string]) (λ _ _, None).
Definition ex_cancellation : Request unit :=
  mkRequest "POST"
    (λ k, if k ==? InternalTokenHeader then "secret"
          else if k ==? TenantIDHeader then @uuid_String TestLib 1
          else if k ==? AppTypeHeader then "booking"
          else if k ==? "X-Customer-ID" then @uuid_String TestLib 9 else EmptyString)%string
    (λ k, if k ==? "id"%string then @uuid_String TestLib 101 else EmptyString) (λ _, EmptyString) None.

Lemma writes_need_authority_witness :
  let d' := (@customerCancel TestLib ex_cancel_handler (ex_gen 2) (28 * Hour) _ ex_cancellation [] ex_booked).2.2 in
  @own_cancellation TestLib ex_cancel_handler (ex_gen 2) (28 * Hour) _ ex_cancellation ex_booked d'.
Proof.
  destruct (@writes_need_authority TestLib ex_cancel_handler (ex_gen 2) (28 * Hour) [] ex_booked ex_booked_ok)
    as (_ & _ & _ & _ & Hc & _).
  destruct (Hc _ ex_cancellation) as [H|H]; [|exact H].
  exfalso. apply (f_equal (λ d, map ap_status (appointments d))) in H. vm_compute in H. discriminate H.
Defined.
