(* ===== verification/Booking.v ===== *)
(** * Booking: the appointment and the scheduling service together

    The two services call each other: a booking asks the scheduling service
    for the slots of the day ([client.Available]), which asks the appointment
    service for the occupancy ([HTTPOccupancy]).  Here the client of each is
    connected to the handlers of the other. *)
From S2P Require Import Prelude Effects GoTime Http Platform Availability SchedulingRepo.
From S2P Require Import AppointmentRepo AppointmentApp SchedulingApp.

Local Open Scope Z_scope.

(** ** The wire *)

(** A request as the other service's handler reads it. *)
Definition header_of (o : Outgoing) (name : string) : string :=
  if name ==? InternalTokenHeader then out_token o
  else if name ==? TenantIDHeader then out_tenant o
  else if name ==? AppTypeHeader then out_app o
  else if name ==? RequestIDHeader then out_request_id o
  else if name ==? "Cookie"%string then out_cookie o
  else EmptyString.

Fixpoint query_of (q : list (string * query_value)) (name : string) : option query_value :=
  match q with
  | [] => None
  | (k, v) :: q' => if k ==? name then Some v else query_of q' name
  end.

Definition query_text (v : option query_value) : string :=
  match v with
  | Some (QText s) => s
  | Some (QDate day) => format_date day
  | _ => EmptyString
  end.

(** [time.Parse(time.RFC3339, v)] of an instant the client formatted. *)
Definition query_time (v : option query_value) : option time :=
  match v with Some (QTime t) => Some t | _ => None end.

Definition receive (o : Outgoing) : Request unit :=
  mkRequest "GET" (header_of o) (λ _, EmptyString) (λ k, query_text (query_of (out_query o) k)) None.

Section Wire.
Context `{GoLib} `{PgText}.

(** The appointment service's occupancy endpoint, without faults. *)
Definition serve_occupancy (ha : AppointmentApp.Handler) (ad : db) (o : Outgoing)
  : exchange (list OccupancyRow) :=
  if out_path o !=? ["internal"; "v1"; "occupancy"]%string then Replied 404 None
  else
    match (run (occ ha (query_time (query_of (out_query o) "from"))
                  (query_time (query_of (out_query o) "to")) (receive o)) ad).1 with
    | Ok (SendJSON status rows) => Replied status (Some (map (λ p, mkOccupancyRow p.1 p.2) rows))
    | Ok r => Replied (status_of r) None
    | Err _ => TransportFailed
    end.

(** [service.NewHTTPOccupancy] as the scheduling service's [Occupancy]. *)
Definition http_occupancy (token : string) (send : Outgoing -> exchange (list OccupancyRow)) : Occupancy :=
  λ t b from to, map_err (λ e, match e with ErrOccupancyUnavailable => OccUnavailable end)
                   (HTTPOccupancy_Occupied token send t b from to).

(** The scheduling service's public availability endpoint, without faults; an
    enumeration that does not end is a client timeout. *)
Definition serve_availability (hs : Handler) (sd : sdb) (now : time) (o : Outgoing)
  : exchange (list time) :=
  if out_path o !=? ["internal"; "v1"; "public"; "availability"]%string then Replied 404 None
  else
    match (run (availability hs now (receive o)) sd).1 with
    | Ok (SendJSON status (Some slots)) => Replied status (Some (map Slot_StartAt slots))
    | Ok (SendJSON status None) => TransportFailed
    | Ok r => Replied (status_of r) None
    | Err _ => TransportFailed
    end.
End Wire.

(** ** The occupancy a slot is checked against *)

Lemma run_Occupancy t b from to d :
  run (Repository_Occupancy t b from to) d =
    (Ok (map scan (sel (λ r, (ap_tenant r ==? t) && (ap_barber r ==? b) && live (ap_status r)
                             && (ap_occupied_start r <? pg_ts to) && (pg_ts from <? ap_occupied_end r))
                     (appointments d))), d).
Proof.
  unfold Repository_Occupancy. rewrite run_tx by solve_det. unfold query. rewrite run_stmt.
  unfold select_appointments. do 3 f_equal. apply rls_tenant. intros r Hr. by bsimpl.
Qed.

Lemma adminauth_receive `{GoLibLaws} o (v : MultiTokenVerifier) u c :
  out_tenant o = uuid_String u → adminauth_Context (receive o) v = Some c →
  TenantID c = u ∧ AppType c = out_app o.
Proof.
  intros Ho. unfold adminauth_Context, tenantctx_New. destruct (negb _); [done|].
  change (Header (receive o) TenantIDHeader) with (out_tenant o).
  change (Header (receive o) AppTypeHeader) with (out_app o). rewrite Ho, uuid_Parse_String. intros E. split_match_in E; by simplify_eq.
Qed.

(** What the scheduling service is told covers every live appointment of the
    barber in the period. *)
Lemma occupied_complete `{GoLibLaws} ha ad token t b from to l x :
  db_ok ad →
  HTTPOccupancy_Occupied token (serve_occupancy ha ad) t b from to = Ok l →
  x ∈ appointments ad → ap_tenant x = TenantID t → ap_barber x = b → live (ap_status x) = true →
  ap_occupied_start x < pg_ts (rfc3339 to) → pg_ts (rfc3339 from) < ap_occupied_end x →
  mkBlockedPeriod uuid_Nil (ap_occupied_start x) (ap_occupied_end x) ∈ l.
Proof.
  intros Hd Hocc Hx Ht Hb Hl Hto Hfrom. unfold HTTPOccupancy_Occupied, serve_occupancy in Hocc.
  rewrite bool_decide_refl in Hocc. cbn [negb] in Hocc. set (o := outgoing _ _ _ _ _) in *.
  change (query_time (query_of (out_query o) "from")) with (Some (rfc3339 from)) in Hocc.
  change (query_time (query_of (out_query o) "to")) with (Some (rfc3339 to)) in Hocc. unfold occ in Hocc.
  destruct (adminauth_Context (receive o) (AppointmentApp.h_verify ha)) as [c|] eqn:Ec; [|done].
  destruct (adminauth_receive o _ (TenantID t) c eq_refl Ec) as [Hct _].
  change (Query (receive o) "barber_id") with (uuid_String b) in Hocc. rewrite uuid_Parse_String in Hocc.
  cbv beta iota in Hocc. match type of Hocc with context [if ?x then AppointmentApp.status 400 else _] => destruct x end; [done|].
  rewrite run_attempt_bind in Hocc.
  2:{ unfold QueryService_Occupancy. destruct (negb _); [done|]. apply quiet_repo, det_quiet, det_Occupancy. }
  unfold QueryService_Occupancy in Hocc. destruct (negb _) eqn:Eft in Hocc; [done|].
  rewrite AppointmentApp.run_repo, run_Occupancy in Hocc by (apply det_quiet, det_Occupancy).
  cbn in Hocc. injection Hocc as <-. rewrite Hct.
  apply list_elem_of_In, in_map_iff.
  exists (mkOccupancyRow (ap_occupied_start x) (ap_occupied_end x)). split; [done|].
  apply filter_In. split.
  - apply in_map_iff. exists (ap_occupied_start x, ap_occupied_end x). split; [done|].
    apply in_map_iff. exists (scan x). split; [done|]. apply in_map, list_elem_of_In, elem_of_sel.
    split; [|done]. rewrite Ht, Hb, !bool_decide_refl, Hl. cbn. lia.
  - pose proof (ok_rows ad Hd x Hx) as Hrow. unfold appointment_check in Hrow. bsimpl.
    unfold Before; cbn. lia.
Qed.

(** A day whose local midnight exists, is a whole number of microseconds, and
    is not after the next one. *)
Definition regular (zone : Location) (day : Z) : Prop :=
  civil zone (Date day zone) = day ∧ Date day zone <= Date (day + 1) zone ∧
  (Microsecond | Date day zone).

(** Services the theorems speak about: minutes that do not overflow. *)
Definition bounded_service (svc : Service) : Prop :=
  1 <= DurationMinutes svc <= 2 ^ 25 ∧ 0 <= BufferBeforeMinutes svc <= 2 ^ 25 ∧
  0 <= BufferAfterMinutes svc <= 2 ^ 25.

Lemma window_bounds hours over date zone i :
  i ∈ IntervalsForDate hours over date zone →
  ∃ n m, 0 <= n < 1440 ∧ 0 <= m < 1440 ∧
    Slot_StartAt i = Date (civil zone date) zone + n * Minute ∧
    Slot_EndAt i = Date (civil zone date) zone + m * Minute.
Proof.
  rewrite IntervalsForDate_cases. intros (v & _ & Hw)%list_elem_of_omap.
  apply window_spec in Hw as (H1 & H2 & ->).
  destruct (parseWall_range (Interval_Start v)) as [|(n & Hn & En)]; [lia|].
  destruct (parseWall_range (Interval_End v)) as [|(m & Hm & Em)]; [lia|].
  exists n, m. cbn [Slot_StartAt Slot_EndAt]. rewrite En, Em. auto.
Qed.

(** An offered slot, buffers included, meets no live appointment. *)
Lemma offered_slot_free `{GoLibLaws} `{PgText} ha ad token s q svc settings zone occupied hours over blocked out now sl :
  db_ok ad → s_occupancy s = http_occupancy token (serve_occupancy ha ad) →
  Answers s q svc settings zone occupied → regular zone (Q_Date q) → bounded_service svc →
  1 <= step_of s settings <= 2 ^ 26 →
  Available (IntervalsForDate hours over (Date (Q_Date q) zone) zone) blocked occupied
    (DurationMinutes svc) (BufferBeforeMinutes svc) (BufferAfterMinutes svc) (step_of s settings) now = Some out →
  sl ∈ out →
  let os := Slot_StartAt sl - BufferBeforeMinutes svc * Minute in
  let oe := Slot_StartAt sl + (DurationMinutes svc + BufferAfterMinutes svc) * Minute in
  (Microsecond | Slot_StartAt sl) ∧
  ∀ x, x ∈ appointments ad → ap_tenant x = TenantID (Q_Tenant q) → ap_barber x = Q_BarberID q →
    live (ap_status x) = true → oe <= ap_occupied_start x ∨ ap_occupied_end x <= os.
Proof.
  intros Hd Hs Ha (Hcivil & Hnext & [m0 Hm0]) (Hdur & Hbef & Haft) Hstep Havail Hsl os oe.
  rewrite Available_free_slots in Havail by (by apply step_positive). injection Havail as <-.
  apply elem_of_free_slots_exact in Hsl as (i & k & start & Hi & Hk & Hstart & Esl & Hlo & Hhi & _ & Hbusy); [|lia..].
  assert (Slot_StartAt sl = start) as Est by (by rewrite Esl).
  unfold os, oe. rewrite Est. clear os oe Esl Est.
  apply window_bounds in Hi as (n & m & Hn & Hm & En & Em). rewrite Hcivil in En, Em.
  set (base := Date (Q_Date q) zone) in *.
  split.
  { exists (m0 + n * 60000000 + k * step_of s settings * 60000000). rewrite Hstart, En, Hm0.
    unfold Minute, Second, Microsecond. lia. }
  intros x Hx Ht Hb Hl.
  destruct (Z_le_gt_dec (start + (DurationMinutes svc + BufferAfterMinutes svc) * Minute) (ap_occupied_start x))
    as [|Hgt]; [by left|].
  destruct (Z_le_gt_dec (ap_occupied_end x) (start - BufferBeforeMinutes svc * Minute)) as [|Hgt2]; [by right|].
  assert (0 <= n * Minute) by (unfold Minute, Second; lia).
  assert (m * Minute <= 24 * Hour - Minute) by (unfold Hour, Minute, Second; lia).
  assert (∀ y, y - Second < rfc3339 y <= y) as Hr.
  { intros y. unfold rfc3339. pose proof (Z.div_mod y Second). pose proof (Z.mod_pos_bound y Second).
    unfold Second in *. lia. }
  assert (∀ y, y - Second < pg_ts (rfc3339 y) <= y) as Hpg.
  { intros y. rewrite pg_ts_id; [auto|]. exists (y / Second * 1000000). unfold rfc3339, Second, Microsecond. lia. }
  destruct Ha as [_ _ _ _ _ _ _ Hocc]. rewrite Hs in Hocc. unfold http_occupancy, map_err in Hocc.
  fold base in Hocc. unfold AddDays in Hocc. rewrite Hcivil in Hocc.
  destruct (HTTPOccupancy_Occupied _ _ _ _ _ _) as [l|[]] eqn:Eocc; [|done]. injection Hocc as <-.
  specialize (Hbusy (mkBlockedPeriod uuid_Nil (ap_occupied_start x) (ap_occupied_end x))). cbn in Hbusy.
  destruct Hbusy as [|]; [|lia|lia].
  apply elem_of_app. right. eapply occupied_complete; try done.
  - specialize (Hpg (Date (Q_Date q + 1) zone + 24 * Hour)). unfold Minute, Second, Hour in *. lia.
  - specialize (Hpg (base - 24 * Hour)). unfold Minute, Second, Hour in *. lia.
Qed.

(** ** Booking an offered slot *)

(** [sha256] in hexadecimal. *)
Class DigestLaws `{GoLib} := {
  digest_length : ∀ s, String.length (sha256_hex s) = 64%nat;
  digest_hex : ∀ s, all_chars hex_char (sha256_hex s) = true
}.

Section Client.
Context `{GoLibLaws} `{PgText}.

Lemma adminauth_outgoing path query token t cookie (v : MultiTokenVerifier) :
  Verify v token = true → AppType t = "booking"%string ∨ AppType t = "admin"%string →
  adminauth_Context (receive (outgoing path query token t cookie)) v = Some t.
Proof.
  intros Hv Happ. unfold adminauth_Context. set (o := outgoing _ _ _ _ _).
  change (Header (receive o) InternalTokenHeader) with token. rewrite Hv. cbn [negb].
  change (Header (receive o) TenantIDHeader) with (uuid_String (TenantID t)).
  change (Header (receive o) AppTypeHeader) with (AppType t).
  change (Header (receive o) RequestIDHeader) with (RequestID_ t). unfold tenantctx_New.
  rewrite uuid_Parse_String. destruct t as [tid app rid]. cbn in *. by destruct Happ as [-> | ->].
Qed.

(** The client finds the slot the scheduling service lists for its date. *)
Lemma client_Available_ok hs sd now token net t input settings zone out sl :
  net_scheduling net = serve_availability hs sd now →
  Verify (h_verify hs) token = true → AppType t = "booking"%string →
  schedulingdeps_Settings token (net_config net) t = Ok settings →
  LoadLocation (Timezone settings) = Some zone →
  0 <= (civil_from_days (civil zone (Slot_StartAt sl))).1.1 <= 9999 →
  run (AppService_Availability (h_app hs) now
         (mkAvailabilityQuery t None (CreateInput_BarberID input) (CreateInput_ServiceID input)
            (civil zone (Slot_StartAt sl)))) sd = (Ok (Some out), sd) →
  sl ∈ out → client_Available token net t input (Slot_StartAt sl) = Ok tt.
Proof.
  intros Hnet Hv Happ Hset Hz Hyear Hrun Hsl. unfold client_Available. rewrite Hset, Hz, Hnet.
  unfold serve_availability. cbn [out_path outgoing]. rewrite bool_decide_refl. cbn [negb].
  unfold availability. fold (outgoing ["internal"; "v1"; "public"; "availability"]%string
    [("barber_id"%string, QText (uuid_String (CreateInput_BarberID input)));
     ("service_id"%string, QText (uuid_String (CreateInput_ServiceID input)));
     ("date"%string, QDate (civil zone (Slot_StartAt sl)))] token t EmptyString).
  rewrite adminauth_outgoing by auto. rewrite Happ, bool_decide_refl. cbn [negb].
  set (o := outgoing _ _ _ _ _). unfold availabilityInput.
  change (Query (receive o) "barber_id") with (uuid_String (CreateInput_BarberID input)).
  change (Query (receive o) "service_id") with (uuid_String (CreateInput_ServiceID input)).
  change (Query (receive o) "date") with (format_date (civil zone (Slot_StartAt sl))).
  rewrite !uuid_Parse_String, parse_format_date by done. unfold SchedulingApp.answer.
  assert (run (attempt (E:=SchedulingApp.app_error) (AppService_Availability (h_app hs) now
    (mkAvailabilityQuery t None (CreateInput_BarberID input) (CreateInput_ServiceID input)
       (civil zone (Slot_StartAt sl))))) sd = (Ok (Ok (Some out)), sd)) as Hatt by (by rewrite run_attempt, Hrun).
  unfold run in Hatt |- *. rewrite bind_eq.
  destruct (attempt _ [] sd) as [[r|e] [fs d']]; [|done]. injection Hatt as -> ->. cbn.
  replace (existsb _ _) with true; [done|]. symmetry. apply existsb_elem. exists (Slot_StartAt sl).
  split; [|apply Z.eqb_refl]. by apply list_elem_of_In, in_map, list_elem_of_In.
Qed.


(** An admin context never finds a slot: the public route refuses it. *)
Lemma client_Available_admin hs sd now token net t input start :
  net_scheduling net = serve_availability hs sd now → AppType t = "admin"%string →
  is_ok (client_Available token net t input start) = false.
Proof.
  intros Hnet Happ. unfold client_Available. destruct (schedulingdeps_Settings _ _ _); [|done].
  destruct (LoadLocation _); [|done]. rewrite Hnet. unfold serve_availability. set (o := outgoing _ _ _ _ _).
  change (out_path o) with ["internal"; "v1"; "public"; "availability"]%string.
  rewrite bool_decide_refl. cbn [negb]. unfold availability.
  destruct (adminauth_Context (receive o) (h_verify hs)) as [c|] eqn:E; [|done].
  apply (adminauth_receive o _ (TenantID t)) in E as [_ E]; [|done]. rewrite E.
  change (out_app o) with (AppType t). by rewrite Happ.
Qed.
End Client.

Section Times.
Context (svc : Service) (Hsvc : bounded_service svc) (start : time).

(** The times of a booking without overflow. *)
Lemma booking_times :
  Add start (Minutes (DurationMinutes svc)) = start + DurationMinutes svc * Minute ∧
  SubMinutes start (BufferBeforeMinutes svc) = start - BufferBeforeMinutes svc * Minute ∧
  Add (Add start (Minutes (DurationMinutes svc))) (Minutes (BufferAfterMinutes svc))
  = start + (DurationMinutes svc + BufferAfterMinutes svc) * Minute.
Proof using Hsvc.
  destruct Hsvc as (H1 & H2 & H3). unfold SubMinutes, Add. rewrite !Minutes_exact by lia.
  rewrite (int64_id (- _)), int64_id; unfold in_int64, Minute, Second; lia.
Qed.

Lemma whole_minutes k : (Microsecond | start) → (Microsecond | start + k * Minute).
Proof. intros [m ->]. exists (m + k * 60000000). unfold Minute, Second, Microsecond. lia. Qed.
End Times.

(** The row of a slot that meets no live appointment can be inserted. *)
Lemma booking_insertable g t input svc d :
  bounded_service svc → (Microsecond | CreateInput_StartAt input) → fresh g d →
  let start := CreateInput_StartAt input in
  (∀ x, x ∈ appointments d → ap_tenant x = t → ap_barber x = CreateInput_BarberID input →
     live (ap_status x) = true →
     start + (DurationMinutes svc + BufferAfterMinutes svc) * Minute <= ap_occupied_start x ∨
     ap_occupied_end x <= start - BufferBeforeMinutes svc * Minute) →
  insertable t (created_row g t input (Add start (Minutes (DurationMinutes svc)))
    (SubMinutes start (BufferBeforeMinutes svc))
    (Add (Add start (Minutes (DurationMinutes svc))) (Minutes (BufferAfterMinutes svc)))) d.
Proof.
  intros Hb Hus (Hid & _) start Hfree. destruct (booking_times svc Hb start) as (-> & -> & ->).
  pose proof (whole_minutes start (DurationMinutes svc) Hus) as He.
  pose proof (whole_minutes start (- BufferBeforeMinutes svc) Hus) as Hos.
  pose proof (whole_minutes start (DurationMinutes svc + BufferAfterMinutes svc) Hus) as Hoe.
  replace (start + - BufferBeforeMinutes svc * Minute) with (start - BufferBeforeMinutes svc * Minute) in Hos by lia.
  unfold created_row. fold start. rewrite !pg_ts_id by done. destruct Hb as (H1 & H2 & H3).
  repeat split; [|done|].
  - unfold appointment_check. cbn [ap_status ap_start ap_end ap_occupied_start ap_occupied_end].
    rewrite bool_decide_true by (unfold statuses; set_solver). unfold Minute, Second. lia.
  - intros x Hx. unfold overlaps. cbn [ap_status ap_tenant ap_barber ap_occupied_start ap_occupied_end].
    destruct (live (ap_status x)) eqn:El; [|by rewrite andb_false_r].
    destruct (t ==? ap_tenant x) eqn:Et; [|by rewrite andb_false_r].
    destruct (CreateInput_BarberID input ==? ap_barber x) eqn:Eb; [|by rewrite andb_false_r]. bsimpl.
    destruct (Hfree x Hx) as [|]; [done..| |]; cbn; lia.
Qed.

(** The wiring of the two services and the tenant they are asked about. *)
Record Wired `{GoLib} `{PgText} (hs : Handler) (ha : AppointmentApp.Handler) (sd : sdb) (ad : db)
    (token : string) (net : Network) (now : time) (t : TenantContext) (b s : uuid)
    (svc : Service) (settings : TenantSettings) (zone : Location) : Prop := mkWired {
  w_scheduling : net_scheduling net = serve_availability hs sd now;
  w_occupancy : ∃ token', s_occupancy (h_app hs) = http_occupancy token' (serve_occupancy ha ad);
  w_token : Verify (h_verify hs) token = true;
  w_app : AppType t = "booking"%string;
  w_service : dep_Service (s_deps (h_app hs)) t b s = Ok svc;
  w_service' : schedulingdeps_Service token (net_service net) t b s = Ok svc;
  w_settings : dep_Settings (s_deps (h_app hs)) t = Ok settings;
  w_settings' : schedulingdeps_Settings token (net_config net) t = Ok settings;
  w_zone : LoadLocation (Timezone settings) = Some zone;
  w_step : 1 <= step_of (h_app hs) settings <= 2 ^ 26
}.

(** What a booking command must satisfy apart from the slot. *)
Record Bookable `{GoLib} (deps : AppointmentApp.Dependencies) (g : Gen) (cmd : CreateCommand)
    (input : CreateInput) (scope : string) (ad : db) : Prop := mkBookable {
  bk_key : ValidIdempotencyKey (Cmd_IdempotencyKey cmd) = true;
  bk_input : ∃ input0, normalizeCreate (Cmd_Input cmd) = Ok input0 ∧ with_customer deps cmd input0 = Ok input;
  bk_scope : principalScope (Cmd_Principal cmd) (CreateInput_CustomerContact input) = Ok scope;
  bk_text : text_ok (CreateInput_CustomerName input) && text_ok (CreateInput_CustomerContact input)
            && text_ok scope && text_ok (Cmd_Operation cmd) = true;
  bk_branch : dep_BranchBarber deps (Cmd_Tenant cmd) (CreateInput_BranchID input)
                (CreateInput_BarberID input) = Ok tt;
  bk_barber : AppointmentApp.dep_Barber deps (Cmd_Tenant cmd) (CreateInput_BarberID input) = Ok tt;
  bk_unused : ∀ k, k ∈ idempotency_keys ad →
    key_ident k ≠ (TenantID (Cmd_Tenant cmd), scope, Cmd_Operation cmd, Cmd_IdempotencyKey cmd);
  bk_fresh : fresh g ad
}.

Lemma Replay_unused t scope operation key fp d :
  text_ok scope = true → text_ok operation = true → text_ok key = true →
  (∀ k, k ∈ idempotency_keys d → key_ident k ≠ (t, scope, operation, key)) →
  run (Repository_Replay t scope operation key fp) d = (Ok None, d).
Proof.
  intros Hs Ho Hk Hun. unfold Repository_Replay. rewrite run_tx by solve_det.
  rewrite run_attempt_bind by apply det_stmt. rewrite run_stmt.
  assert (select_key t t scope operation key d = Err NoRows) as ->.
  { unfold select_key. rewrite Hs, Ho, Hk. cbn [negb andb].
    unfold query_row. rewrite sel_nothing; [done|]. intros k Hin. specialize (Hun k Hin).
    unfold rls, key_ident in *. destruct (_ && _) eqn:E; [|done]. bsimpl. congruence. }
  done.
Qed.

Section EndToEnd.
Context `{GoLibLaws} `{!DigestLaws} `{PgText}.

(** C4: a slot that is offered can be booked: when the two services are
    connected and nothing else happens in between, a start the scheduling
    service lists for its local date passes the booking's own availability
    check, and the booking commits - the exclusion constraint never rejects
    it, because the occupancy the slot was computed from covers every live
    appointment of the barber around that date, buffers included. *)
Theorem offered_slot_books hs ha sd ad token net now g cmd input scope svc settings zone out sl :
  let t := Cmd_Tenant cmd in
  let deps := client_New token net in
  let day := civil zone (Slot_StartAt sl) in
  db_ok ad →
  Wired hs ha sd ad token net now t (CreateInput_BarberID input) (CreateInput_ServiceID input) svc settings zone →
  Bookable deps g cmd input scope ad → bounded_service svc → regular zone day →
  0 <= (civil_from_days day).1.1 <= 9999 →
  run (AppService_Availability (h_app hs) now
         (mkAvailabilityQuery t None (CreateInput_BarberID input) (CreateInput_ServiceID input) day)) sd
    = (Ok (Some out), sd) →
  sl ∈ out → Slot_StartAt sl = CreateInput_StartAt input →
  ∃ row, run (BookingService_Create deps g cmd) ad = (Ok (scan row), booked g cmd input scope svc ad) ∧
    row ∈ appointments (booked g cmd input scope svc ad) ∧
    ap_start row = CreateInput_StartAt input ∧ ap_status row = "pending"%string.
Proof.
  intros t deps day Hd [Hnet [token' Hocc] Htok Happ Hsvc Hsvc' Hset Hset' Hz Hstep]
    [Hkey (input0 & Hn & Hw) Hscope Htext Hbr Hba Hun Hfresh] Hb Hreg Hyear Hav Hsl Hst.
  destruct (ValidIdempotencyKey_text _ Hkey) as [Hkt Hkne]. bsimpl.
  set (q := mkAvailabilityQuery t None (CreateInput_BarberID input) (CreateInput_ServiceID input) day) in *.
  assert ((AppService_Availability (h_app hs) now q [] sd).1 = Ok (Some out)) as Hok.
  { unfold run in Hav. destruct (AppService_Availability _ _ _ [] sd) as [r [? ?]]. by injection Hav as -> _. }
  apply Availability_ok in Hok as (svc0 & set0 & zone0 & occ0 & Ha & hrs & over & blocked & _ & _ & Hsome).
  pose proof (an_service _ _ _ _ _ _ Ha) as E1. pose proof (an_settings _ _ _ _ _ _ Ha) as E2.
  cbn in E1, E2. assert (svc0 = svc) as -> by congruence. assert (set0 = settings) as -> by congruence.
  pose proof (an_zone _ _ _ _ _ _ Ha) as E3. assert (zone0 = zone) as -> by congruence.
  destruct (offered_slot_free ha ad token' (h_app hs) q svc settings zone occ0 hrs over blocked out now sl
              Hd Hocc Ha Hreg Hb Hstep (eq_sym Hsome) Hsl) as [Hus Hfree].
  rewrite Hst in Hus, Hfree.
  pose proof (booking_insertable g (TenantID t) input svc ad Hb Hus Hfresh Hfree) as Hins.
  eexists. split.
  - subst t deps. unfold BookingService_Create. cbn zeta. rewrite Hkey, Hn. cbn [negb].
    rewrite run_lift, Hw, run_lift, Hscope, run_lift.
    rewrite runq_bind by solve_quiet. rewrite run_repo by solve_quiet. rewrite Replay_unused by done.
    rewrite run_require, Hbr, run_require, Hba, run_require.
    cbn [client_New AppointmentApp.dep_Service dep_Available]. rewrite Hsvc', run_require.
    rewrite <- Hst. rewrite (client_Available_ok hs sd now token net (Cmd_Tenant cmd) input settings zone out sl) by done.
    rewrite Hst, run_repo by solve_quiet.
    rewrite Create_total; [done|done..|]. split; [exact Hins|]. split; [|split; apply Hfresh].
    intros _. split; [|exact Hun]. apply key_checked; [done|apply digest_length|apply digest_hex].
  - split; [unfold booked, created, with_event; cbn; set_solver|]. split; [|done]. cbn. by apply pg_ts_id.
Qed.

(** C38: with an admin context no appointment is ever created or rescheduled:
    the client forwards the admin application type to the public availability
    route, which only answers the booking application, so the availability
    check fails for every slot, whatever fails besides. *)
Theorem admin_never_books hs sd now token net g fs ad :
  net_scheduling net = serve_availability hs sd now →
  (∀ cmd, AppType (Cmd_Tenant cmd) = "admin"%string →
     (BookingService_Create (client_New token net) g cmd fs ad).2.2 = ad) ∧
  (∀ t p id start, AppType t = "admin"%string →
     (LifecycleService_Reschedule (client_New token net) g t p id start fs ad).2.2 = ad ∧
     is_ok (LifecycleService_Reschedule (client_New token net) g t p id start fs ad).1 = false).
Proof.
  intros Hnet.
  assert (∀ t input start, AppType t = "admin"%string →
    ∃ e, client_Available token net t input start = Err e) as Hno.
  { intros t input start Happ. pose proof (client_Available_admin hs sd now token net t input start Hnet Happ) as E.
    destruct (client_Available _ _ _ _ _); [done|by eexists]. }
  split.
  - intros cmd Happ. destruct (booking_approval (client_New token net) g cmd fs ad)
      as [|(input0 & input & scope & svc & _ & _ & _ & _ & _ & _ & _ & Hav & _)]; [done|].
    destruct (Hno (Cmd_Tenant cmd) input (CreateInput_StartAt input) Happ) as [e He]. cbn in Hav. congruence.
  - intros t p id start Happ. unfold LifecycleService_Reschedule. destruct (_ || _); [done|].
    set (m := AppointmentApp.repo (Repository_Get _ _)).
    assert (readonly m) as Hro by (unfold m; auto with barber typeclass_instances).
    specialize (Hro fs ad). rewrite (bind_eq m).
    destruct (m fs ad) as [[old|e] [fs1 d1]]; cbn in Hro; subst d1; [|done].
    set (input := mkCreateInput _ _ _ _ _ _ _). cbn [client_New dep_BranchBarber AppointmentApp.dep_Barber
      AppointmentApp.dep_Service dep_Available].
    destruct (schedulingdeps_BranchBarber _ _ _ _ _); [|done]. rewrite require_Ok.
    destruct (client_Barber _ _ _ _); [|done]. rewrite require_Ok.
    destruct (schedulingdeps_Service _ _ _ _ _); [|done]. rewrite require_Ok.
    destruct (Hno t input start Happ) as [e ->]. done.
Qed.
End EndToEnd.

(** * Witnesses *)

Lemma TestLib_digest : @DigestLaws TestLib.
Proof. split; intros s; reflexivity. Defined.

Definition wx_ha : AppointmentApp.Handler :=
  AppointmentApp.mkHandler ex_deps (NewMultiTokenVerifier ["secret"%string]) (λ _ _, None).
Definition wx_service : Service := mkService 60 0 15.
Definition wx_settings : TenantSettings := mkTenantSettings "UTC" 30 "flexible" 60.
Definition wx_hs : Handler :=
  mkHandler
    (mkAppService
       (mkDependencies (λ _ _, Ok (mkBarber None)) (λ _ _ _, Ok wx_service) (λ _, Ok wx_settings))
       (@http_occupancy TestLib "secret" (@serve_occupancy TestLib wx_ha ex_booked)) 15)
    (NewMultiTokenVerifier ["secret"%string]) (λ _ _, None).
Definition wx_net : Network :=
  mkNetwork (λ _, Replied 204 None) (λ _, Replied 200 (Some (mkBarber None)))
    (λ _, Replied 200 (Some wx_service))
    (λ _, Replied 200 (Some (mkPublicConfig "UTC" 30 "flexible" 60)))
    (@serve_availability TestLib TestPg wx_hs ex_week_db 0) (λ _, TransportFailed).
Definition wx_input : CreateInput :=
  mkCreateInput 11 12 13 "Ada" "ada@example.com" (100 * Day + 9 * Hour) None.
Definition wx_cmd : CreateCommand :=
  mkCreateCommand ex_tenant (AppointmentApp.mkPrincipal "guest" uuid_Nil None EmptyString)
    "public.create_appointment" "k9" wx_input.
Definition wx_scope : string := "guest:" +:+ test_digest.
Definition wx_slot (m : Z) : Slot := mkSlot (100 * Day + m * Minute) (100 * Day + (m + 60) * Minute).

Lemma wx_wired :
  @Wired TestLib TestPg wx_hs wx_ha ex_week_db ex_booked "secret" wx_net 0 ex_tenant 12 13
    wx_service wx_settings UTC.
Proof.
  constructor; try reflexivity; [by exists "secret"%string|].
  change (step_of (h_app wx_hs) wx_settings) with 30. lia.
Defined.

Lemma wx_bookable :
  @Bookable TestLib (@client_New TestLib "secret" wx_net) (ex_gen 2) wx_cmd wx_input wx_scope ex_booked.
Proof.
  constructor; try reflexivity.
  - exists wx_input. split; reflexivity.
  - intros k. rewrite ex_booked_keys. intros Hk%list_elem_of_singleton. subst k. discriminate.
  - exact ex_booked_fresh.
Defined.

Lemma offered_slot_books_witness :
  ∃ row, run (@BookingService_Create TestLib (@client_New TestLib "secret" wx_net) (ex_gen 2) wx_cmd) ex_booked
         = (Ok (scan row), @booked TestLib (ex_gen 2) wx_cmd wx_input wx_scope wx_service ex_booked) ∧
    row ∈ appointments (@booked TestLib (ex_gen 2) wx_cmd wx_input wx_scope wx_service ex_booked) ∧
    ap_start row = 100 * Day + 9 * Hour ∧ ap_status row = "pending"%string.
Proof.
  apply (@offered_slot_books TestLib TestLib_laws TestLib_digest TestPg wx_hs wx_ha ex_week_db ex_booked
           "secret" wx_net 0 (ex_gen 2) wx_cmd wx_input wx_scope wx_service wx_settings UTC
           (map wx_slot [540; 570; 600; 630; 780; 810; 840; 870; 900; 930; 960]) (wx_slot 540)).
  - exact ex_booked_ok.
  - exact wx_wired.
  - exact wx_bookable.
  - unfold bounded_service, wx_service; cbn. lia.
  - split; [reflexivity|]. split; [vm_compute; discriminate|]. exists (100 * 86400000000). reflexivity.
  - vm_compute. split; discriminate.
  - vm_compute. reflexivity.
  - apply list_elem_of_here.
  - reflexivity.
Defined.

Lemma admin_never_books_witness :
  (@BookingService_Create TestLib (@client_New TestLib "secret" wx_net) (ex_gen 2)
     (mkCreateCommand (mkTenantContext 1 "admin" "req") (AppointmentApp.mkPrincipal "admin" 5 None "OWNER")
        "admin.create_appointment" "k9" wx_input) [] ex_booked).2.2 = ex_booked.
Proof.
  exact (proj1 (@admin_never_books TestLib TestLib_laws TestPg wx_hs ex_week_db 0 "secret" wx_net
    (ex_gen 2) [] ex_booked eq_refl)
    (mkCreateCommand (mkTenantContext 1 "admin" "req") (AppointmentApp.mkPrincipal "admin" 5 None "OWNER")
        "admin.create_appointment" "k9" wx_input) eq_refl).
Defined.
