(* ===== verification/AppointmentSystem.v ===== *)
(** * AppointmentSystem: the appointment service as a transition system

    Requests of all tenants and iterations of the outbox relay interleave at
    the granularity of database transactions, each of them under an arbitrary
    script of failures.  The invariants of every reachable world follow from
    the lemmas of [AppointmentRepo] and [Outbox]. *)
From S2P Require Import Prelude Effects GoTime AppointmentRepo Outbox.

Local Open Scope Z_scope.

Definition with_db (d : db) (w : world) : world := mkWorld d (w_stream w) (w_pub w).

(** One transaction of a request, or one iteration of the relay. *)
Inductive step (w : world) : world -> Prop :=
| step_Create g t input e os oe scope op key fp fs :
    step w (with_db (Repository_Create g t input e os oe scope op key fp fs (w_db w)).2.2 w)
| step_Transition g t id to fs :
    step w (with_db (Repository_Transition g t id to fs (w_db w)).2.2 w)
| step_Reschedule g t id s e os oe fs :
    step w (with_db (Repository_Reschedule g t id s e os oe fs (w_db w)).2.2 w)
| step_relay now ctx_err b fs :
    step w (tick now ctx_err b fs w).2.2.

Definition init : world := mkWorld empty_db [] (mkPublisher false zero_time None None None).

Definition reachable (w : world) : Prop := rtc step init w.

(** * Lemmas *)

Lemma init_ok : relay_ok init.
Proof. split; cbn; [apply empty_db_ok|set_solver..]. Qed.

(** A step of a request: a good step of the database. *)
Lemma request_step t d w :
  good t (w_db w) d → relay_ok w →
  relay_ok (with_db d w) ∧ evolves (w_db w) d ∧ outbox_grows (w_db w) d.
Proof.
  intros Hg Hw. destruct (Hg (ry_db w Hw)) as (Hd & He & _ & (l & Hl & Hwait)).
  assert (∀ r, r ∈ outbox_events d → r ∈ outbox w ∨ waiting r) as Hrow.
  { intros r Hr. rewrite Hl in Hr. apply elem_of_app in Hr as [Hr|Hr]; [by left|right].
    rewrite Forall_forall in Hwait. by apply Hwait. }
  split; [|split; [done|by exists l]]. split; cbn; [done|..].
  - intros r [Hr|(Hp & _)]%Hrow; [by apply (ry_published w Hw)|done].
  - intros r [Hr|(_ & _ & Hf & _)]%Hrow; [by apply (ry_failed w Hw)|done].
  - intros m Hm. destruct (ry_stream w Hw m Hm) as (e & Hin & Hb). exists e. split; [|done].
    eapply prefix_elem; [apply He|done].
Qed.

Lemma good_step w w' :
  step w w' → (∃ t d, w' = with_db d w ∧ good t (w_db w) d) ∨ wstep w w'.
Proof.
  destruct 1; [left|left|left|right; apply step_in_tick]; exists t; eexists; (split; [reflexivity|]);
    (apply good_faults; [auto with barber|]).
  - intros. apply good_Create.
  - intros. apply good_Transition.
  - intros. apply good_Reschedule.
Qed.

Lemma step_ok w w' : step w w' → relay_ok w → relay_ok w' ∧ evolves (w_db w) (w_db w').
Proof.
  intros [(t & d & -> & Hg)|Hs]%good_step Hw.
  - destruct (request_step t d w Hg Hw) as (? & ? & _). done.
  - destruct (Hs Hw) as (Hok & _ & _ & Ha & He). split; [done|]. split.
    + intros r Hr. exists r. rewrite Ha. done.
    + by rewrite He.
Qed.

Lemma steps_ok w w' : rtc step w w' → relay_ok w → relay_ok w' ∧ evolves (w_db w) (w_db w').
Proof.
  induction 1 as [w|w1 w2 w3 H12 _ IH]; intros Hw; [done|].
  destruct (step_ok _ _ H12 Hw) as [Hw2 He]. destruct (IH Hw2) as [Hw3 He']. split; [done|]. by etrans.
Qed.

Lemma reachable_ok w : reachable w → relay_ok w.
Proof. intros H. by apply (steps_ok init w H init_ok). Qed.

Lemma overlaps_false_disjoint a b :
  overlaps a b = false → live (ap_status a) = true → live (ap_status b) = true →
  ap_tenant a = ap_tenant b → ap_barber a = ap_barber b →
  ap_occupied_end a <= ap_occupied_start b ∨ ap_occupied_end b <= ap_occupied_start a.
Proof.
  unfold overlaps. intros H Ha Hb Ht Hbb. rewrite Ha, Hb, !bool_decide_true in H by done. cbn in H.
  apply andb_false_iff in H as [H|H]; bsimpl; lia.
Qed.

(** Every committed event is waiting in the outbox or is in the stream. *)
Definition covered (w : world) : Prop :=
  ∀ e, e ∈ appointment_events (w_db w) →
    (∃ o, o ∈ outbox w ∧ backs e o) ∨ (∃ m, m ∈ w_stream w ∧ backs_msg e m).

(** The three writes add their event and its outbox row together. *)
Definition log_grows (d d' : db) : Prop :=
  ∀ e, e ∈ appointment_events d' → e ∈ appointment_events d ∨ ∃ o, o ∈ outbox_events d' ∧ backs e o.

Lemma with_event_log g t a name type d d0 :
  name = event_title type → appointment_events d = appointment_events d0 → log_grows d0 (with_event g t a name type d).
Proof.
  intros -> H e [He|He]%elem_of_app; [left; by rewrite <- H|right].
  apply list_elem_of_singleton in He as ->. exists (new_outbox g t a type).
  split; [apply elem_of_app; right; by apply list_elem_of_singleton|done].
Qed.

Lemma log_grows_refl d : log_grows d d.
Proof. intros e He. by left. Qed.

Lemma log_grows_atomic {A} (m : M A) fs d :
  atomic m → (∀ a d', run m d = (Ok a, d') → log_grows d d') →
  (∀ e, (run m d).1 = Err e → (run m d).2 = d) → log_grows d (m fs d).2.2.
Proof.
  intros Hm Hok Herr. assert (log_grows d (run m d).2) as Hrun.
  { destruct (run m d) as [[a|e] d'] eqn:E; [by eapply Hok|]. cbn in *. rewrite (Herr e eq_refl). apply log_grows_refl. }
  destruct (Hm fs d) as [H|[_ [->| ->]]]; [by rewrite <- H in Hrun|apply log_grows_refl|done].
Qed.

Lemma request_log w w' :
  step w w' → wstep w w' ∨ log_grows (w_db w) (w_db w').
Proof.
  destruct 1; [right|right|right|left; apply step_in_tick];
    (apply log_grows_atomic; [auto with barber| |intros err; apply run_tx_err; solve_det]).
  - intros a d' [[-> _]|(_ & -> & _)]%Create_run; [apply log_grows_refl|by apply with_event_log].
  - intros a d' (r0 & r & _ & _ & Htr & _ & _ & ->)%Transition_run. apply with_event_log; [by eapply titles_event|done].
  - intros a d' (r0 & r & _ & _ & _ & _ & _ & ->)%Reschedule_run. by apply with_event_log.
Qed.

Lemma covered_relay w w' : wstep w w' → relay_ok w → covered w → covered w'.
Proof.
  intros Hs Hw Hc e He. destruct (Hs Hw) as (_ & Hdel & Hpre & _ & Hev). rewrite Hev in He.
  destruct (Hc e He) as [(o & Ho & Hb)|(m & Hm & Hb)].
  - destruct (Hdel o Ho) as [(o' & Ho' & [= _ Ht Ha Hy Hp Hcr])|Hm]; [left; exists o'|right; eexists].
    + split; [done|]. unfold backs in *. by rewrite Ht, Ha, Hy, Hp, Hcr.
    + split; [exact Hm|]. exact Hb.
  - right. exists m. split; [by eapply prefix_elem|done].
Qed.

Lemma covered_step w w' : step w w' → relay_ok w → covered w → covered w'.
Proof.
  intros Hstep Hw Hc. destruct (request_log _ _ Hstep) as [Hs|Hl]; [by eapply covered_relay|].
  destruct (good_step _ _ Hstep) as [(t & d & -> & Hg)|Hs]; [|by eapply covered_relay].
  destruct (request_step t d w Hg Hw) as (_ & _ & (l & Hgrow & _)).
  intros e He. destruct (Hl e He) as [He'|(o & Ho & Hb)]; [|left; by exists o].
  destruct (Hc e He') as [(o & Ho & Hb)|?]; [left|by right]. exists o. split; [|done].
  unfold outbox; cbn. rewrite Hgrow. apply elem_of_app. by left.
Qed.

Lemma reachable_covered w : reachable w → covered w.
Proof.
  intros H. assert (relay_ok w ∧ covered w) as [_ Hc]; [|done].
  apply (rtc_ind_r (λ w, relay_ok w ∧ covered w) init) in H; [done| |].
  - split; [apply init_ok|]. intros e He. cbn in He. set_solver.
  - intros w1 w2 _ Hs [Hw Hc]. split; [by apply (step_ok _ _ Hs)|by eapply covered_step].
Qed.

(** Terminal statuses have no way out. *)
Lemma terminal_absorbing s s' : rtc status_step s s' → live s = false → s' = s.
Proof.
  destruct 1 as [|s1 s2 s3 H]; [done|]. intros Hl. unfold status_step in H.
  apply transitions_live in H. congruence.
Qed.

(** * Properties *)

(** C1: no barber is ever double-booked: in every world reachable by any
    interleaving of requests of any tenants and of the relay, with any
    failures, two different pending or confirmed appointments of the same
    barber of the same tenant occupy disjoint time ranges, buffers
    included. *)
Theorem no_double_booking w a b :
  reachable w → a ∈ appointments (w_db w) → b ∈ appointments (w_db w) →
  ap_id a ≠ ap_id b → ap_tenant a = ap_tenant b → ap_barber a = ap_barber b →
  live (ap_status a) = true → live (ap_status b) = true →
  ap_occupied_end a <= ap_occupied_start b ∨ ap_occupied_end b <= ap_occupied_start a.
Proof.
  intros Hr Ha Hb Hne Ht Hbar Hla Hlb. apply overlaps_false_disjoint; try done.
  by apply (ok_no_overlap _ (ry_db w (reachable_ok w Hr))).
Qed.

Definition ex_step (g : Gen) (input : CreateInput) (s e : time) (key : string) (fs : list fault)
    (w : world) : world :=
  with_db (Repository_Create g 1 input e s e "guest:x" "create" key ex_fp fs (w_db w)).2.2 w.
Definition ex_input2 : CreateInput := mkCreateInput 11 12 13 "Bo" "bo@example.com" (32 * Hour) None.
Definition ex_world1 : world := ex_step (ex_gen 1) ex_input (30 * Hour) (31 * Hour) "k1" [] init.
Definition ex_world : world := ex_step (ex_gen 2) ex_input2 (32 * Hour) (33 * Hour) "k2" [FOk] ex_world1.

Lemma ex_reachable : reachable ex_world.
Proof.
  eapply rtc_l; [apply (step_Create init (ex_gen 1) 1 ex_input (31 * Hour) (30 * Hour) (31 * Hour)
    "guest:x" "create" "k1" ex_fp [])|].
  eapply rtc_l; [apply (step_Create ex_world1 (ex_gen 2) 1 ex_input2 (33 * Hour) (32 * Hour) (33 * Hour)
    "guest:x" "create" "k2" ex_fp [FOk])|].
  apply rtc_refl.
Defined.

Definition ex_row2 : appointment_row :=
  created_row (ex_gen 2) 1 ex_input2 (33 * Hour) (32 * Hour) (33 * Hour).

Lemma ex_world_rows : appointments (w_db ex_world) = [ex_row; ex_row2].
Proof. vm_compute. reflexivity. Defined.

Lemma no_double_booking_witness :
  ap_occupied_end ex_row <= ap_occupied_start ex_row2
  ∨ ap_occupied_end ex_row2 <= ap_occupied_start ex_row.
Proof.
  apply (no_double_booking ex_world ex_row ex_row2 ex_reachable).
  - rewrite ex_world_rows. apply list_elem_of_here.
  - rewrite ex_world_rows. apply list_elem_of_further, list_elem_of_here.
  - vm_compute. discriminate.
  - reflexivity.
  - reflexivity.
  - reflexivity.
  - reflexivity.
Defined.

(** C19: the life of an appointment: once created it is never deleted, its
    tenant, barber, service, customer and creation time never change, its
    status only moves along the transition table, and a cancelled, completed
    or no-show appointment never changes its status again. *)
Theorem appointment_lifecycle w w' r :
  reachable w → rtc step w w' → r ∈ appointments (w_db w) →
  ∃ r', r' ∈ appointments (w_db w') ∧ same_booking r r' ∧
    rtc status_step (ap_status r) (ap_status r') ∧
    (live (ap_status r) = false → ap_status r' = ap_status r).
Proof.
  intros Hr Hs Hin. destruct (steps_ok w w' Hs (reachable_ok w Hr)) as [_ [Hrows _]].
  destruct (Hrows r Hin) as (r' & Hin' & Hsame & Hst). exists r'. split; [done|]. split; [done|].
  split; [done|]. by apply terminal_absorbing.
Qed.

Lemma appointment_lifecycle_witness :
  ∃ r', r' ∈ appointments (w_db ex_world) ∧ same_booking ex_row r' ∧
    rtc status_step (ap_status ex_row) (ap_status r').
Proof.
  destruct (appointment_lifecycle ex_world1 ex_world ex_row) as (r' & H1 & H2 & H3 & _).
  - eapply rtc_l; [apply (step_Create init (ex_gen 1) 1 ex_input (31 * Hour) (30 * Hour) (31 * Hour)
      "guest:x" "create" "k1" ex_fp [])|apply rtc_refl].
  - eapply rtc_l; [apply (step_Create ex_world1 (ex_gen 2) 1 ex_input2 (33 * Hour) (32 * Hour) (33 * Hour)
      "guest:x" "create" "k2" ex_fp [FOk])|apply rtc_refl].
  - apply list_elem_of_here.
  - exists r'. split; [exact H1|]. split; [exact H2|exact H3].
Defined.

(** C17: events are neither lost nor invented: in every reachable world each
    event of the audit log is either still in the outbox or already in the
    stream, each row marked as published has its message in the stream, and
    each message of the stream announces an event of the log. *)
Theorem events_delivered w :
  reachable w →
  (∀ e, e ∈ appointment_events (w_db w) →
     (∃ o, o ∈ outbox w ∧ backs e o) ∨ (∃ m, m ∈ w_stream w ∧ backs_msg e m)) ∧
  (∀ o, o ∈ outbox w → ob_published o ≠ None → message (event_of o) ∈ w_stream w) ∧
  (∀ m, m ∈ w_stream w → ∃ e, e ∈ appointment_events (w_db w) ∧ backs_msg e m).
Proof.
  intros Hr. pose proof (reachable_ok w Hr). split_and!.
  - by apply reachable_covered.
  - by apply ry_published.
  - by apply ry_stream.
Qed.

Definition ex_published : world :=
  (tick (50 * Hour) false (mkBroker true true true) [] ex_world).2.2.

Definition ex_out : outbox_row :=
  new_outbox (ex_gen 1) 1 (scan ex_row) "appointment.created".

Lemma events_delivered_witness :
  ∃ e, e ∈ appointment_events (w_db ex_published) ∧ backs_msg e (message (event_of ex_out)).
Proof.
  assert (reachable ex_published) as Hr.
  { eapply rtc_r; [exact ex_reachable|].
    exact (step_relay ex_world (50 * Hour) false (mkBroker true true true) []). }
  apply (proj2 (proj2 (events_delivered ex_published Hr))).
  assert (w_stream ex_published = [message (event_of ex_out);
     message (event_of (new_outbox (ex_gen 2) 1 (scan ex_row2) "appointment.created"))]) as ->
    by (vm_compute; reflexivity).
  apply list_elem_of_here.
Defined.

(** ** The relay *)

Lemma tick_run now b w :
  IsConnected b = true → StreamInfo_ok b || AddStream_ok b = true →
  let candidates := take 50 (order_by ob_created (sel (claimable now) (outbox w))) in
  tick now false b [] w =
    cleanupRetention now []
      (mkWorld (mark_all now (map event_of candidates)
                 (set_outbox (upd (λ r, bool_decide (ob_id r ∈ map ob_id candidates))
                    (set_publishing (Some now)) (outbox w)) (w_db w)))
         (w_stream w ++ map message (map event_of candidates)) (set_ready true (w_pub w))).
Proof.
  intros Hc Hs candidates. unfold tick, ensureReady. rewrite Hc, Hs.
  cbn [negb orb andb]. unfold mbind, io_mbind, io_bind. cbn -[publishBatch cleanupRetention].
  unfold publishBatch. rewrite attempt_bind.
  change (on_db (Repository_ClaimOutbox now 50) [] (set_pub (set_ready true) w)) with
    (Ok (E:=repo_error) (map event_of candidates), ([] : list fault,
       mkWorld (set_outbox (upd (λ r, bool_decide (ob_id r ∈ map ob_id candidates))
                    (set_publishing (Some now)) (outbox w)) (w_db w)) (w_stream w) (set_ready true (w_pub w)))).
  cbn [fst snd]. by rewrite publishAll_run.
Qed.

(** the relay makes progress: with a connected broker and no failures, one
    iteration publishes the fifty oldest claimable events (all of them when
    there are no more): each has its message in the stream and its row is
    marked as published at that time. *)
Theorem relay_publishes now b w r :
  reachable w → IsConnected b = true → StreamInfo_ok b || AddStream_ok b = true →
  r ∈ take 50 (order_by ob_created (sel (claimable now) (outbox w))) →
  let w' := (tick now false b [] w).2.2 in
  message (event_of r) ∈ w_stream w' ∧
  ∃ r', r' ∈ outbox w' ∧ event_of r' = event_of r ∧ ob_published r' = Some now.
Proof.
  intros Hw Hb Hs Hr. cbn zeta. rewrite (tick_run now b w Hb Hs).
  set (c := take 50 _) in *. set (d1 := set_outbox _ _). set (w1 := mkWorld _ _ _).
  pose proof (reachable_ok w Hw) as Hok.
  assert (r ∈ outbox w ∧ ob_published r = None) as [Hin Hnp].
  { apply take_In, elem_of_order_by, elem_of_sel in Hr as [Hcl Hr]. split; [done|].
    unfold claimable in Hcl. bsimpl. by destruct (ob_published r). }
  assert (NoDup (map ob_id (outbox_events d1))) as Hnd.
  { unfold d1; cbn. rewrite map_upd by done. apply (ry_db w Hok). }
  assert (∀ es d, map ob_id (outbox_events (mark_all now es d)) = map ob_id (outbox_events d)) as Hids.
  { induction es as [|e es IH]; intros d; cbn [mark_all]; [done|]. rewrite IH. by apply map_upd. }
  destruct (mark_all_published now (map event_of c) d1 (set_publishing (Some now) r))
    as (r' & Hr' & He & Hp).
  { apply elem_of_upd. exists r. split; [done|]. rewrite bool_decide_true; [done|].
    apply list_elem_of_In, in_map, list_elem_of_In, Hr. }
  { right. split; [done|]. rewrite map_map.
    apply list_elem_of_In, (in_map (λ x, OutboxEvent_ID (event_of x))), list_elem_of_In, Hr. }
  assert (message (event_of r) ∈ w_stream w1) as Hm.
  { apply elem_of_app. right. rewrite map_map.
    apply list_elem_of_In, (in_map (λ x, message (event_of x))), list_elem_of_In, Hr. }
  unfold cleanupRetention. rewrite get_world_bind. cbn zeta.
  destruct (negb _ && _); [split; [done|]; exists r'; by split|].
  rewrite attempt_bind. cbn -[cleanup_published_outbox_events cleanup_expired_idempotency_keys].
  split; [done|]. exists r'. split; [|split; [done|exact Hp]].
  eapply (cleanup_keeps now 500 (set_keys _ (w_db w1))); [|exact Hr'|exact Hp|reflexivity].
  cbn. by rewrite Hids.
Qed.

Lemma relay_publishes_witness :
  message (event_of ex_out) ∈ w_stream ex_published.
Proof.
  apply (relay_publishes (50 * Hour) (mkBroker true true true) ex_world ex_out ex_reachable eq_refl eq_refl).
  assert (take 50 (order_by ob_created (sel (claimable (50 * Hour)) (outbox ex_world)))
          = [ex_out; new_outbox (ex_gen 2) 1 (scan ex_row2) "appointment.created"]) as ->
    by (vm_compute; reflexivity).
  apply list_elem_of_here.
Defined.

(** a claim is a lease: it returns at most 100 events, none of them
    published or terminal, and until a minute has passed since it no other
    claim returns any of them, even if every acknowledgement and release in
    between failed. *)
Theorem claim_lease now now' limit limit' d es d1 es' d2 :
  claim_outbox_events now limit d = Ok (es, d1) →
  now' <= now + Minute →
  claim_outbox_events now' limit' d1 = Ok (es', d2) →
  (length es <= 100)%nat ∧
  (∀ e, e ∈ es → ∃ r, r ∈ outbox_events d ∧ event_of r = e ∧ ob_published r = None ∧ ob_failed r = None) ∧
  (∀ e, e ∈ es → e ∈ es' → False).
Proof.
  intros H1 Hnow H2. split_and!.
  - injection H1 as <- _. rewrite length_map, length_take. unfold bounded_limit. lia.
  - injection H1 as <- _. intros e (r & <- & Hr)%list_elem_of_In%in_map_iff.
    apply list_elem_of_In, take_In, elem_of_order_by, elem_of_sel in Hr as [Hc Hr].
    exists r. unfold claimable in Hc. bsimpl.
    by destruct (ob_published r), (ob_failed r).
  - intros e He He'. injection H2 as <- _.
    apply list_elem_of_In, in_map_iff in He' as (r & <- & Hr).
    apply list_elem_of_In, take_In, elem_of_order_by, elem_of_sel in Hr as [Hc Hr].
    destruct (claim_ids _ _ _ _ _ H1 r Hr) as [r0 ->].
    + apply list_elem_of_In, (in_map OutboxEvent_ID) in He. by apply list_elem_of_In.
    + by rewrite claimable_lease in Hc.
Qed.

Lemma claim_lease_witness :
  ∃ es d1 es' d2,
    claim_outbox_events (50 * Hour) 50 (w_db ex_world) = Ok (es, d1) ∧ length es = 2%nat ∧
    claim_outbox_events (50 * Hour + Minute) 50 d1 = Ok (es', d2) ∧ es' = [] ∧
    (∀ e, e ∈ es → e ∈ es' → False).
Proof.
  do 4 eexists. split; [reflexivity|]. split; [vm_compute; reflexivity|]. split; [reflexivity|].
  split; [vm_compute; reflexivity|].
  refine (proj2 (proj2 (claim_lease (50 * Hour) (50 * Hour + Minute) 50 50 (w_db ex_world)
    _ _ _ _ eq_refl _ eq_refl))). apply Z.le_refl.
Defined.

(** the retry budget: a failed publication counts exactly one attempt and
    returns the row to the queue, the twentieth one makes it terminal instead,
    a terminal row is never claimed again, and a row that was already
    published cannot be released. *)
Theorem release_budget now id d r :
  db_ok d → r ∈ outbox_events d → ob_id r = id →
  (ob_published r = None →
     run (Repository_ReleaseOutbox now id) d =
       (Ok (ob_attempts r + 1, negb (is_none (ob_failed r)) || (20 <=? ob_attempts r + 1)),
        set_outbox (upd (λ x, ob_id x ==? id) (set_released now) (outbox_events d)) d)) ∧
  (ob_published r ≠ None → run (Repository_ReleaseOutbox now id) d = (Err (Pg NoRows), d)) ∧
  (∀ t, ob_published r = None → ob_failed r = None →
     claimable t (set_released now r) = (ob_attempts r <? 19)).
Proof.
  intros Hd Hr Hid.
  assert (∀ x, x ∈ outbox_events d → ob_id x = id → x = r) as Hu.
  { intros x Hx Hxi. apply (NoDup_map_eq ob_id (outbox_events d)); [apply Hd|done..|congruence]. }
  set (p := λ x, (ob_id x ==? id) && is_none (ob_published x)).
  split_and!.
  - intros Hp. unfold Repository_ReleaseOutbox, run, autocommit, release_outbox_event; cbn -[set_released].
    fold p. rewrite (head_sel_unique ob_id p (outbox_events d) r); try done.
    + assert (negb (is_none (ob_failed (set_released now r)))
              = negb (is_none (ob_failed r)) || (20 <=? ob_attempts r + 1)) as ->.
      { unfold set_released; cbn [ob_failed]. destruct (20 <=? ob_attempts r + 1); [by rewrite orb_true_r|by rewrite orb_false_r]. }
      cbn -[upd]. do 2 f_equal. unfold upd. apply map_ext_in. intros x Hx. apply list_elem_of_In in Hx.
      unfold p. destruct (bool_decide_reflect (ob_id x = id)) as [E|E]; [|done].
      by rewrite (Hu x Hx E), Hp.
    + apply Hd.
    + unfold p. intros y Hy. bsimpl. congruence.
    + unfold p. rewrite Hp. by bsimpl.
  - intros Hp. unfold Repository_ReleaseOutbox, run, autocommit, release_outbox_event; cbn -[set_released].
    fold p. destruct (head (sel p (outbox_events d))) as [x|] eqn:E; [|done].
    apply head_sel_Some in E as [Hpx Hx]. unfold p in Hpx.
    apply andb_true_iff in Hpx as [Hxi Hnone]. bsimpl. rewrite (Hu x Hx Hxi) in Hnone.
    by destruct (ob_published r).
  - intros t Hp Hf. unfold claimable; cbn. rewrite Hp, Hf; cbn.
    destruct (Z.leb_spec 20 (ob_attempts r + 1)); cbn; symmetry; [apply Z.ltb_ge|apply Z.ltb_lt]; lia.
Qed.

Lemma release_budget_witness :
  run (Repository_ReleaseOutbox (50 * Hour) 301) (w_db ex_world) =
    (Ok (1, false), set_outbox (upd (λ x, ob_id x ==? 301%N) (set_released (50 * Hour))
                                  (outbox_events (w_db ex_world))) (w_db ex_world)).
Proof.
  refine (proj1 (release_budget (50 * Hour) 301 (w_db ex_world) ex_out
    (ry_db _ (reachable_ok _ ex_reachable)) _ eq_refl) eq_refl).
  assert (outbox_events (w_db ex_world)
          = [ex_out; new_outbox (ex_gen 2) 1 (scan ex_row2) "appointment.created"]) as ->
    by (vm_compute; reflexivity).
  apply list_elem_of_here.
Defined.

(** the backlog gauges cannot work with the granted privileges: the
    application role may only INSERT into outbox_events, so the plain SELECT
    of [OutboxBacklogStats] is rejected on every database and the gauges
    report zero whatever the backlog is. *)
Theorem backlog_stats_denied now fs d :
  let '(r, (_, d')) := Repository_OutboxBacklogStats now fs d in
  d' = d ∧ (r = Err (Pg NoPrivilege) ∨ r = Err (Pg Infra)).
Proof.
  unfold Repository_OutboxBacklogStats, autocommit.
  replace (bool_decide (SELECT ∈ app_grants "outbox_events")) with false by reflexivity.
  destruct (pop fs) as [[] fs']; cbn; auto.
Qed.
