(* ===== verification/Notification.v ===== *)
(** * Notification: notification-service

    The table of e-mail notifications with the functions that claim and finish
    rows ([migrations]), the repository ([internal/repository]), the JetStream
    consumer ([internal/consumer]) and the delivery worker
    ([internal/worker]). *)
From S2P Require Import Prelude Effects GoTime Http Platform AppointmentRepo Outbox.

Local Open Scope Z_scope.

(** ** Data *)

(** [domain.Envelope]; [Env_StartAt] is [payload.start_at], the zero time when
    the payload does not carry it. *)
Record Envelope := mkEnvelope {
  Env_EventID : uuid;
  Env_EventType : string;
  Env_EventVersion : Z;
  Env_TenantID : uuid;
  Env_AggregateID : uuid;
  Env_StartAt : time
}.

Definition set_EventID (id : uuid) (e : Envelope) : Envelope :=
  mkEnvelope id (Env_EventType e) (Env_EventVersion e) (Env_TenantID e) (Env_AggregateID e) (Env_StartAt e).

(** The envelope of a message of the appointment service's relay. *)
Definition decode (e : Outbox.Envelope) : Envelope :=
  mkEnvelope (Envelope_EventID e) (Envelope_EventType e) (Envelope_EventVersion e)
    (Envelope_TenantID e) (Envelope_AggregateID e) (EventPayload_StartAt (Envelope_Payload e)).

(** A row of [email_notifications]. *)
Record note_row := mkNoteRow {
  en_id : uuid; en_tenant : uuid; en_event : uuid; en_appointment : uuid; en_type : string;
  en_email : string; en_template : string; en_language : string; en_status : string;
  en_attempts : Z; en_message_id : option string; en_scheduled : time; en_next : time;
  en_sent : option time; en_error : option string; en_claimed : option time;
  en_lease : option time; en_token : option uuid; en_updated : time
}.

Abbreviation ndb := (list note_row).

(** [domain.Notification] *)
Record Notification := mkNotification {
  N_ID : uuid; N_ClaimToken : uuid; N_TenantID : uuid; N_AppointmentID : uuid; N_Type : string;
  N_Email : string; N_Template : string; N_Language : string; N_Attempts : Z; N_Recovered : bool
}.

Definition note_types : list string :=
  ["appointment_created"; "appointment_rescheduled"; "appointment_cancelled";
   "appointment_confirmed"; "appointment_reminder"]%string.

(** The key of the UNIQUE constraint. *)
Definition note_key (r : note_row) : uuid * uuid * string := (en_tenant r, en_event r, en_type r).

(** ** Statements *)

(** INSERT ... ON CONFLICT(tenant_id,event_id,notification_type) DO ...:
    [on_conflict] is applied to the conflicting row. *)
Definition insert_note (tx : uuid) (r : note_row) (on_conflict : note_row -> note_row) (d : ndb)
  : res pg_error (Z * ndb) :=
  if negb (text_ok (en_email r) && text_ok (en_template r) && text_ok (en_language r)
           && match en_error r with Some e => text_ok e | None => true end) then Err BadEncoding
  else if en_tenant r !=? tx then Err RlsViolation
  else if negb (bool_decide (en_type r ∈ note_types)) then Err CheckViolation
  else if existsb (λ x, note_key x ==? note_key r) d
  then Ok (0, upd (λ x, note_key x ==? note_key r) on_conflict d)
  else if existsb (λ x, en_id x ==? en_id r) d then Err UniqueViolation
  else Ok (1, d ++ [r]).

(** Rows [claim_email_notifications_for_tenant] considers. *)
Definition due (now : time) (tenant : option uuid) (r : note_row) : bool :=
  match tenant with None => true | Some t => en_tenant r ==? t end
  && (((en_status r ==? "pending"%string) && (en_scheduled r <=? now) && (en_next r <=? now))
      || ((en_status r ==? "processing"%string)
          && match en_lease r with Some l => l <? now | None => false end)).

Definition claim_row (now : time) (tok : uuid -> uuid) (r : note_row) : note_row :=
  mkNoteRow (en_id r) (en_tenant r) (en_event r) (en_appointment r) (en_type r) (en_email r)
    (en_template r) (en_language r) "processing" (en_attempts r + 1) (en_message_id r)
    (en_scheduled r) (en_next r) (en_sent r) (en_error r) (Some now) (Some (now + 2 * Minute))
    (Some (tok (en_id r))) now.

(** One claimed row as the function returns it; [r] is the row before. *)
Definition claimed_item (tok : uuid -> uuid) (r : note_row) : Notification :=
  mkNotification (en_id r) (tok (en_id r)) (en_tenant r) (en_appointment r) (en_type r) (en_email r)
    (en_template r) (en_language r) (en_attempts r + 1) (en_status r ==? "processing"%string).

Definition claim_email_notifications_for_tenant (now : time) (tok : uuid -> uuid) (limit : Z)
    (tenant : option uuid) (d : ndb) : res pg_error (list Notification * ndb) :=
  let c := take (bounded_limit limit 100) (order_by en_scheduled (sel (due now tenant) d)) in
  let ids := map en_id c in
  Ok (map (claimed_item tok) c, upd (λ r, bool_decide (en_id r ∈ ids)) (claim_row now tok) d).

Definition finish_row (now : time) (messageID problem : string) (retryAt : option time) (r : note_row)
  : note_row :=
  let sent := messageID !=? EmptyString in
  mkNoteRow (en_id r) (en_tenant r) (en_event r) (en_appointment r) (en_type r) (en_email r)
    (en_template r) (en_language r)
    (if sent then "sent" else match retryAt with Some _ => "pending" | None => "failed" end)
    (en_attempts r)
    (if sent then Some messageID else en_message_id r)
    (en_scheduled r)
    (match retryAt with Some t => pg_ts t | None => en_next r end)
    (if sent then Some now else en_sent r) (Some problem) None None None now.

Definition finish_email_notification (now : time) (id claim : uuid) (messageID problem : string)
    (retryAt : option time) (d : ndb) : res pg_error (unit * ndb) :=
  if negb (text_ok messageID && text_ok problem) then Err BadEncoding
  else Ok (tt, upd (λ r, (en_id r ==? id) && (en_status r ==? "processing"%string)
                         && (en_token r ==? Some claim))
                 (finish_row now messageID problem retryAt) d).

(** ** Repository *)

Inductive note_error :=
| Malformed
| NoResolver
| RecipientFailed
| OffsetsFailed
| InvalidRecipient
| NPg (e : pg_error).
#[export] Instance note_error_eq_dec : EqDecision note_error.
Proof. solve_decision. Defined.
#[export] Instance note_from_pg : FromPg note_error := NPg.

Abbreviation NM := (IO ndb note_error).

(** What the database draws for one insertion: id and clock. *)
Record NGen := mkNGen { ng_id : uuid; ng_now : time }.

Definition planned_row (g : NGen) (tenant : uuid) (event : Envelope)
    (kind recipient template language : string) (scheduled : time) : note_row :=
  mkNoteRow (ng_id g) tenant (Env_EventID event) (Env_AggregateID event) kind recipient template
    language "pending" 0 None (pg_ts scheduled) (pg_ts scheduled) None None None None None (ng_now g).

Definition NRepository_Plan (g : NGen) (tenant : uuid) (event : Envelope)
    (kind recipient template language : string) (scheduled : time) : NM bool :=
  if recipient ==? EmptyString then io_fail InvalidRecipient
  else
    WithTenantTx tenant (λ tx,
      n ← stmt (insert_note tx (planned_row g tenant event kind recipient template language scheduled)
                  (λ r, r));
      mret (n =? 1)).

Definition terminalRecipientPlaceholder : string := "undeliverable@notification-service.invalid".

Definition set_failed (now : time) (reason : string) (r : note_row) : note_row :=
  if (en_status r ==? "sent"%string) || (en_status r ==? "cancelled"%string) then r
  else
    mkNoteRow (en_id r) (en_tenant r) (en_event r) (en_appointment r) (en_type r) (en_email r)
      (en_template r) (en_language r) "failed" (en_attempts r) (en_message_id r) (en_scheduled r)
      (en_next r) (en_sent r) (Some reason) (en_claimed r) (en_lease r) (en_token r) now.

Definition NRepository_Fail (g : NGen) (tenant : uuid) (event : Envelope)
    (kind template language reason : string) : NM unit :=
  WithTenantTx tenant (λ tx,
    stmt (insert_note tx
      (mkNoteRow (ng_id g) tenant (Env_EventID event) (Env_AggregateID event) kind
         terminalRecipientPlaceholder template language "failed" 0 None (ng_now g) (ng_now g) None
         (Some reason) None None None (ng_now g))
      (set_failed (ng_now g) reason)) ;;
    mret tt).

Definition set_cancelled (now : time) (r : note_row) : note_row :=
  mkNoteRow (en_id r) (en_tenant r) (en_event r) (en_appointment r) (en_type r) (en_email r)
    (en_template r) (en_language r) "cancelled" (en_attempts r) (en_message_id r) (en_scheduled r)
    (en_next r) (en_sent r) (en_error r) (en_claimed r) (en_lease r) (en_token r) now.

Definition pending_reminder (tenant appointment : uuid) (r : note_row) : bool :=
  (en_tenant r ==? tenant) && (en_appointment r ==? appointment)
  && (en_type r ==? "appointment_reminder"%string) && (en_status r ==? "pending"%string).

Definition NRepository_CancelReminders (now : time) (tenant appointment : uuid) : NM unit :=
  WithTenantTx tenant (λ tx,
    stmt (λ d, Ok (tt, upd (rls en_tenant tx (pending_reminder tenant appointment)) (set_cancelled now) d))).

(** [claim]: one statement outside a transaction. *)
Definition NRepository_Claim (now : time) (tok : uuid -> uuid) (limit : Z) : NM (list Notification) :=
  autocommit (claim_email_notifications_for_tenant now tok limit None).

Definition NRepository_ClaimForTenant (now : time) (tok : uuid -> uuid) (tenant : uuid) (limit : Z)
  : NM (list Notification) :=
  autocommit (claim_email_notifications_for_tenant now tok limit (Some tenant)).

Definition NRepository_Finish (now : time) (id claim : uuid) (messageID problem : string)
    (retryAt : option time) : NM unit :=
  autocommit (finish_email_notification now id claim messageID problem retryAt).

(** ** Consumer *)

(** [uuid.NewSHA1] and [time.Duration.String]. *)
Class ReminderIds := mkReminderIds {
  NewSHA1 : uuid -> string -> uuid;
  Duration_String : duration -> string
}.

(** [strings.ReplaceAll(t, ".", "_")] *)
Fixpoint mapType (t : string) : string :=
  match t with
  | EmptyString => EmptyString
  | String c t' => String (if c ==? "."%char then "_"%char else c) (mapType t')
  end.

Definition defaultMaxDeliver : Z := 20.

Definition maxDeliverFromEnv (getenv : string -> string) : Z :=
  let v := getenv "NOTIFICATION_CONSUMER_MAX_DELIVER"%string in
  if v !=? EmptyString then
    match Atoi v with
    | Some n => if 0 <? n then n else defaultMaxDeliver
    | None => defaultMaxDeliver
    end
  else defaultMaxDeliver.

(** The [templates] map. *)
Definition templates_of (getenv : string -> string) (event_type : string) : option string :=
  if event_type ==? "appointment.created"%string
  then Some (value getenv "EMAIL_TEMPLATE_APPOINTMENT_CREATED" "appointment_created")
  else if event_type ==? "appointment.rescheduled"%string
  then Some (value getenv "EMAIL_TEMPLATE_APPOINTMENT_RESCHEDULED" "appointment_rescheduled")
  else if event_type ==? "appointment.cancelled"%string
  then Some (value getenv "EMAIL_TEMPLATE_APPOINTMENT_CANCELLED" "appointment_cancelled")
  else if event_type ==? "appointment.confirmed"%string
  then Some (value getenv "EMAIL_TEMPLATE_APPOINTMENT_CONFIRMED" "appointment_confirmed")
  else if event_type ==? "appointment.reminder_due"%string
  then Some (value getenv "EMAIL_TEMPLATE_APPOINTMENT_REMINDER" "appointment_reminder")
  else None.

Record Consumer := mkConsumer {
  c_templates : string -> option string;
  c_language : string;
  c_offsets : uuid -> res settings_error (list duration);
  c_recipients : option (uuid -> uuid -> res unit string);
  c_maxDeliver : Z
}.

(** [offsets]: the reminder offsets of the environment, used when there is no
    provider; [ParseDuration] is [time.ParseDuration]. *)
Fixpoint split_comma (s cur : string) : list string :=
  match s with
  | EmptyString => [cur]
  | String c s' => if c ==? ","%char then cur :: split_comma s' EmptyString
                   else split_comma s' (cur +:+ String c EmptyString)
  end.
Definition env_offsets (ParseDuration : string -> option duration) (getenv : string -> string)
  : list duration :=
  List.flat_map (λ x, match ParseDuration (TrimSpace x) with
                      | Some d => if 0 <? d then [d] else []
                      | None => []
                      end)
    (split_comma (value getenv "REMINDER_OFFSETS" "24h,2h") EmptyString).
Definition staticOffsets (offsets : list duration) (tenant : uuid) : res settings_error (list duration) :=
  Ok offsets.

(** [NewWithConfigAndReminderOffsets] with a provider and a resolver. *)
Definition NewConsumer (getenv : string -> string) (offsets : uuid -> res settings_error (list duration))
    (recipients : option (uuid -> uuid -> res unit string)) : Consumer :=
  mkConsumer (templates_of getenv) (value getenv "EMAIL_TEMPLATE_LANGUAGE" "en") offsets recipients
    (maxDeliverFromEnv getenv).

(** [AppointmentRecipientClient.Email]; [send] is the exchange with the
    appointment service. *)
Definition RecipientClient_Email `{GoLib} (token : string) (send : Outgoing -> exchange string)
    (tenant appointment : uuid) : res unit string :=
  match send (mkOutgoing ["internal"; "v1"; "appointments"; uuid_String appointment;
                          "notification-recipient"] [] token (uuid_String tenant) "booking"
                EmptyString EmptyString) with
  | Replied status body =>
      if status !=? 200 then Err tt
      else
        match body with
        | None => Err tt
        | Some email =>
            let email := ToLower (TrimSpace email) in
            if negb (Contains email "@") then Err tt else Ok email
        end
  | _ => Err tt
  end.

Section Consumer.
Context `{ReminderIds} (c : Consumer).

(** The loop over the offsets; [gen n] is what the database draws for the n-th
    insertion of the message. *)
Fixpoint plan_reminders (gen : nat -> NGen) (n : nat) (now : time) (e : Envelope)
    (recipient : string) (offsets : list duration) : NM unit :=
  match offsets with
  | [] => mret tt
  | off :: rest =>
      let scheduledAt := Add (Env_StartAt e) (int64 (- off)) in
      if negb (After scheduledAt now) then plan_reminders gen (S n) now e recipient rest
      else
        NRepository_Plan (gen n) (Env_TenantID e)
          (set_EventID (NewSHA1 (Env_EventID e) (Duration_String off)) e)
          "appointment_reminder" recipient
          (default EmptyString (c_templates c "appointment.reminder_due"%string)) (c_language c) scheduledAt ;;
        plan_reminders gen (S n) now e recipient rest
  end.

Definition moves (t : string) : bool :=
  (t ==? "appointment.rescheduled"%string) || (t ==? "appointment.cancelled"%string).
Definition reminds (t : string) : bool :=
  (t ==? "appointment.created"%string) || (t ==? "appointment.rescheduled"%string).

Definition well_formed (e : Envelope) : bool :=
  negb ((Env_EventID e ==? uuid_Nil) || (Env_TenantID e ==? uuid_Nil)
        || (Env_AggregateID e ==? uuid_Nil) || (Env_EventVersion e !=? 1)).

(** [handle]; [data] is [None] when the body does not decode. *)
Definition handle (gen : nat -> NGen) (now : time) (data : option Envelope) : NM unit :=
  match data with
  | None => io_fail Malformed
  | Some e =>
      if negb (well_formed e) then io_fail Malformed
      else
        match c_templates c (Env_EventType e) with
        | None => mret tt
        | Some tmpl =>
            match c_recipients c with
            | None => io_fail NoResolver
            | Some email =>
                match email (Env_TenantID e) (Env_AggregateID e) with
                | Err _ => io_fail RecipientFailed
                | Ok recipient =>
                    NRepository_Plan (gen 0%nat) (Env_TenantID e) e (mapType (Env_EventType e)) recipient
                      tmpl (c_language c) now ;;
                    (if moves (Env_EventType e)
                     then NRepository_CancelReminders (ng_now (gen 0%nat)) (Env_TenantID e) (Env_AggregateID e)
                     else mret tt) ;;
                    if reminds (Env_EventType e) && negb (IsZero (Env_StartAt e)) then
                      match c_offsets c (Env_TenantID e) with
                      | Err _ => io_fail OffsetsFailed
                      | Ok offsets => plan_reminders gen 1 now e recipient offsets
                      end
                    else mret tt
                end
            end
        end
  end.

(** [markTerminal]; failures are only logged. *)
Definition markTerminal (g : NGen) (data : option Envelope) (cause : string) : NM unit :=
  match data with
  | None => mret tt
  | Some e =>
      if (Env_EventID e ==? uuid_Nil) || (Env_TenantID e ==? uuid_Nil) || (Env_AggregateID e ==? uuid_Nil)
      then mret tt
      else
        match c_templates c (Env_EventType e) with
        | None => mret tt
        | Some tmpl =>
            attempt (F:=note_error) (NRepository_Fail g (Env_TenantID e) e (mapType (Env_EventType e)) tmpl
                       (c_language c) cause) ;;
            mret tt
        end
  end.

Inductive verdict := Ack | Nak | Term.
#[export] Instance verdict_eq_dec : EqDecision verdict.
Proof. solve_decision. Defined.

(** What [Run] does with one fetched message; [delivered] is the metadata's
    [NumDelivered], [text] the error's message, [g] what the database draws
    for the audit row. *)
Definition consume (gen : nat -> NGen) (g : NGen) (now : time) (text : note_error -> string)
    (delivered : option Z) (data : option Envelope) : NM verdict :=
  r ← attempt (handle gen now data);
  match r with
  | Ok _ => mret Ack
  | Err cause =>
      if match delivered with
         | Some n => (0 <? c_maxDeliver c) && (c_maxDeliver c <=? n)
         | None => false
         end
      then markTerminal g data (text cause) ;; mret Term
      else mret Nak
  end.
End Consumer.

(** ** Worker *)

(** How one [Send] ends; [temporary] covers an exceeded deadline. *)
Inductive send_outcome := Sent (messageID : string) | SendFailed (temporary : bool).

Definition delivery_problem (temporary : bool) : string :=
  if temporary then "email delivery temporarily unavailable" else "email delivery failed".

(** The body of [Once]'s loop for one item; errors of [Finish] are ignored. *)
Definition deliver (now dbnow : time) (item : Notification) (outcome : send_outcome) : NM unit :=
  let finish msg problem retry :=
    attempt (F:=note_error) (NRepository_Finish dbnow (N_ID item) (N_ClaimToken item) msg problem retry) ;; mret tt in
  match outcome with
  | Sent messageID => finish messageID EmptyString None
  | SendFailed temporary =>
      if temporary && (N_Attempts item <? 5) then
        let next := Add now (Minutes (Z.shiftl 1 (Z.min (N_Attempts item) 5))) in
        finish EmptyString (delivery_problem temporary) (Some next)
      else finish EmptyString (delivery_problem temporary) None
  end.

(** The loop stops when the context is cancelled, which [cancelled] decides
    before each item. *)
Fixpoint deliver_all (now dbnow : time) (cancelled : Notification -> bool)
    (send : Notification -> send_outcome) (items : list Notification) : NM unit :=
  match items with
  | [] => mret tt
  | item :: rest =>
      if cancelled item then mret tt
      else deliver now dbnow item (send item) ;; deliver_all now dbnow cancelled send rest
  end.

Definition Worker_Once (now dbnow : time) (tok : uuid -> uuid) (cancelled : Notification -> bool)
    (send : Notification -> send_outcome) : NM unit :=
  r ← attempt (NRepository_Claim dbnow tok 50);
  match r with
  | Err _ => mret tt
  | Ok items => deliver_all now dbnow cancelled send items
  end.

(** * Lemmas *)

(** ** Rows keep their identity and their final status *)

Definition final (status : string) : bool :=
  (status ==? "sent"%string) || (status ==? "cancelled"%string) || (status ==? "failed"%string).

Record note_le (r r' : note_row) : Prop := mkNoteLe {
  nl_id : en_id r' = en_id r;
  nl_key : note_key r' = note_key r;
  nl_content : (en_appointment r', en_email r', en_template r', en_scheduled r')
               = (en_appointment r, en_email r, en_template r, en_scheduled r);
  nl_final : final (en_status r) = true → en_status r' = en_status r
}.

Definition note_evolves (d d' : ndb) : Prop := ∀ r, r ∈ d → ∃ r', r' ∈ d' ∧ note_le r r'.

#[export] Instance note_le_preorder : PreOrder note_le.
Proof.
  split; [by intros r; constructor|]. intros a b c [H1 H2 H3 H4] [K1 K2 K3 K4].
  constructor; [congruence..|]. intros Hf. rewrite K4; [auto|]. by rewrite H4.
Qed.
#[export] Instance note_evolves_preorder : PreOrder note_evolves.
Proof.
  split; [intros d r Hr; by exists r|]. intros a b c H1 H2 r Hr.
  destruct (H1 r Hr) as (r1 & Hr1 & L1). destruct (H2 r1 Hr1) as (r2 & Hr2 & L2).
  exists r2. split; [done|]. by etrans.
Qed.

(** ** The invariant, relative to the claims workers hold *)

Definition row_ok (held : list Notification) (r : note_row) : Prop :=
  0 <= en_attempts r ∧ (en_status r = "pending"%string → en_attempts r <= 4) ∧
  ∀ it, it ∈ held → en_id r = N_ID it → en_token r = Some (N_ClaimToken it) →
    en_attempts r = N_Attempts it.

Record note_ok (held : list Notification) (d : ndb) : Prop := mkNoteOk {
  no_ids : NoDup (map en_id d);
  no_keys : NoDup (map note_key d);
  no_rows : ∀ r, r ∈ d → row_ok held r
}.

Definition note_good (held : list Notification) (d d' : ndb) : Prop :=
  note_ok held d → note_ok held d' ∧ note_evolves d d'.
#[export] Instance note_good_preorder held : PreOrder (note_good held).
Proof.
  split; [by intros d H; split|]. intros a b c H1 H2 H. destruct (H1 H) as [Hb E1].
  destruct (H2 Hb) as [Hc E2]. split; [done|]. by etrans.
Qed.

Lemma upd_note_ok held d q f :
  note_ok held d →
  (∀ x, x ∈ d → q x = true → note_le x (f x) ∧ row_ok held (f x)) →
  note_ok held (upd q f d) ∧ note_evolves d (upd q f d).
Proof.
  intros [Hi Hk Hr] Hf. split.
  - constructor.
    + rewrite map_upd; [done|]. intros x Hx Hq. apply (Hf x Hx Hq).
    + rewrite map_upd; [done|]. intros x Hx Hq. apply (Hf x Hx Hq).
    + intros x (y & Hy & ->)%elem_of_upd. destruct (q y) eqn:E; [by apply Hf|auto].
  - intros x Hx. exists (if q x then f x else x). split; [apply elem_of_upd; by exists x|].
    destruct (q x) eqn:E; [by apply Hf|done].
Qed.

Lemma snoc_note_ok held d r :
  note_ok held d → row_ok held r →
  existsb (λ x, en_id x ==? en_id r) d = false → existsb (λ x, note_key x ==? note_key r) d = false →
  note_ok held (d ++ [r]) ∧ note_evolves d (d ++ [r]).
Proof.
  intros [Hi Hk Hr] Hrow E1 E2. rewrite (existsb_fresh en_id) in E1. rewrite (existsb_fresh note_key) in E2. split.
  - constructor.
    + by apply NoDup_map_snoc.
    + by apply NoDup_map_snoc.
    + intros x [Hx|Hx%list_elem_of_singleton]%elem_of_app; [auto|by subst].
  - intros x Hx. exists x. split; [apply elem_of_app; by left|done].
Qed.

(** A change of a row that leaves claim and attempts alone. *)
Lemma row_ok_same held x y :
  row_ok held x → en_id y = en_id x → en_attempts y = en_attempts x → en_token y = en_token x →
  (en_status y = "pending"%string → en_status x = "pending"%string) → row_ok held y.
Proof.
  intros (H1 & H2 & H3) Ei Ea Et Es. unfold row_ok. rewrite Ei, Ea, Et. auto.
Qed.

Lemma insert_note_good held tx r f d n d' :
  insert_note tx r f d = Ok (n, d') →
  en_attempts r = 0 → en_token r = None →
  (∀ x, row_ok held x → note_le x (f x) ∧ row_ok held (f x)) → note_good held d d'.
Proof.
  intros E Ha Ht Hf Hd. unfold insert_note in E.
  do 3 (destruct (negb _); [done|]). destruct (existsb _ d) eqn:Ek;
    [|destruct (existsb _ d) eqn:Ei in E; [done|]]; simplify_eq.
  - apply upd_note_ok; [done|]. intros x Hx _. apply Hf. by apply Hd.
  - apply snoc_note_ok; [done| |done|done]. unfold row_ok. rewrite Ha, Ht.
    split; [lia|]. split; [lia|]. by intros it _ _ [=].
Qed.

Lemma set_failed_good held now reason x :
  row_ok held x → note_le x (set_failed now reason x) ∧ row_ok held (set_failed now reason x).
Proof.
  intros Hx. unfold set_failed. destruct (_ || _) eqn:E; [done|]. split.
  - constructor; try done. cbn. unfold final. rewrite E. cbn. intros Hf. by bsimpl.
  - by eapply row_ok_same.
Qed.

Lemma step_in_note_stmt {A} held (f : ndb -> res pg_error (A * ndb)) :
  (∀ d a d', f d = Ok (a, d') → note_good held d d') → step_in (note_good held) (E:=note_error) (stmt f).
Proof. intros Hf. apply step_in_stmt; [apply _|done]. Qed.

Section Good.
Context (held : list Notification).

Lemma good_Plan g t e k r tm l s :
  step_in (note_good held) (NRepository_Plan g t e k r tm l s).
Proof.
  unfold NRepository_Plan. destruct (_ ==? _); [solve_step|]. solve_step.
  apply step_in_note_stmt. intros d a d' E. by eapply insert_note_good; [exact E|..].
Qed.

Lemma good_Fail g t e k tm l reason : step_in (note_good held) (NRepository_Fail g t e k tm l reason).
Proof.
  unfold NRepository_Fail. solve_step. apply step_in_note_stmt. intros d a d' E.
  eapply insert_note_good; [exact E|done|done|]. intros x. apply set_failed_good.
Qed.

Lemma good_CancelReminders now t a : step_in (note_good held) (NRepository_CancelReminders now t a).
Proof.
  unfold NRepository_CancelReminders. solve_step. apply step_in_note_stmt.
  intros d u d' [= _ <-] Hd. apply upd_note_ok; [done|]. intros x Hx Hq.
  unfold rls, pending_reminder in Hq. bsimpl. split.
  - constructor; try done. cbn. match goal with H : en_status x = _ |- _ => rewrite H end. done.
  - eapply row_ok_same; [by apply Hd|done..].
Qed.
#[local] Hint Resolve good_Plan good_Fail good_CancelReminders : barber.

Context `{ReminderIds} (c : Consumer).

Lemma good_plan_reminders gen n now e r offs :
  step_in (note_good held) (plan_reminders c gen n now e r offs).
Proof.
  revert n. induction offs as [|off offs IH]; intros n; cbn [plan_reminders]; [solve_step|].
  cbn zeta. solve_step; auto with barber.
Qed.
#[local] Hint Resolve good_plan_reminders : barber.

Lemma good_handle gen now data : step_in (note_good held) (handle c gen now data).
Proof. unfold handle. cbn zeta. solve_step; auto with barber. Qed.

Lemma good_consume gen g now text n data : step_in (note_good held) (consume c gen g now text n data).
Proof.
  unfold consume, markTerminal. solve_step; auto using good_handle with barber.
Qed.
End Good.

(** ** Claiming and finishing *)

(** Tokens the database draws are new. *)
Definition fresh_tokens (held : list Notification) (tok : uuid -> uuid) (d : ndb) : Prop :=
  (∀ u r, r ∈ d → en_token r ≠ Some (tok u)) ∧ (∀ u it, it ∈ held → N_ClaimToken it ≠ tok u).

Lemma claim_good held now tok limit tenant d items d' :
  claim_email_notifications_for_tenant now tok limit tenant d = Ok (items, d') →
  fresh_tokens held tok d → note_ok held d →
  note_ok (items ++ held) d' ∧ note_evolves d d'.
Proof.
  intros [= <- <-] [Hft Hfh] Hd. set (c := take _ _).
  assert (∀ z, z ∈ c → z ∈ d ∧ due now tenant z = true) as Hc.
  { intros z Hz. apply (subseteq_take (bounded_limit limit 100)) in Hz.
    rewrite elem_of_order_by, elem_of_sel in Hz. tauto. }
  assert (∀ x, x ∈ d → bool_decide (en_id x ∈ map en_id c) = true → x ∈ c) as Hin.
  { intros x Hx E. bsimpl. apply list_elem_of_In, in_map_iff in E as (z & Ez & Hz).
    apply list_elem_of_In in Hz. assert (z = x) as <-; [|done].
    eapply NoDup_map_eq; [apply (no_ids held d Hd)|by apply Hc|done|done]. }
  assert (note_evolves d (upd (λ r, bool_decide (en_id r ∈ map en_id c)) (claim_row now tok) d)) as He.
  { intros x Hx. exists (if bool_decide (en_id x ∈ map en_id c) then claim_row now tok x else x).
    split; [apply elem_of_upd; by exists x|]. destruct (bool_decide _) eqn:E; [|done].
    constructor; try done. cbn. apply Hin, Hc in E as [_ E]; [|done]. unfold due in E. bsimpl.
    match goal with H : _ || _ = true |- _ => apply orb_true_iff in H as [H|H] end; bsimpl;
      match goal with H : en_status x = _ |- _ => rewrite H end; done. }
  split; [|exact He]. destruct Hd as [Hi Hk Hr]. constructor.
  - by rewrite map_upd.
  - by rewrite map_upd.
  - intros y (x & Hx & ->)%elem_of_upd. destruct (Hr x Hx) as (Ha & Hp & Ht).
    destruct (bool_decide (en_id x ∈ map en_id c)) eqn:E.
    + split; [cbn; lia|]. split; [done|]. intros it [Hit|Hit]%elem_of_app Eid Etok.
      * apply list_elem_of_In, in_map_iff in Hit as (z & <- & Hz). apply list_elem_of_In in Hz. cbn in *.
        assert (z = x) as ->; [|done]. eapply NoDup_map_eq; [exact Hi|by apply Hc|done|done].
      * cbn in Etok. exfalso. eapply Hfh; [exact Hit|]. by injection Etok as <-.
    + split; [done|]. split; [done|]. intros it [Hit|Hit]%elem_of_app Eid Etok; [|by apply Ht].
      bsimpl. exfalso. apply E. apply list_elem_of_In, in_map_iff in Hit as (z & <- & Hz). cbn in Eid.
      rewrite Eid. by apply list_elem_of_In, in_map.
Qed.

Lemma good_deliver held now dbnow item outcome :
  item ∈ held → step_in (note_good held) (deliver now dbnow item outcome).
Proof.
  intros Hit.
  assert (∀ msg problem retry, (retry ≠ None → msg = EmptyString → N_Attempts item < 5) →
    step_in (note_good held) (NRepository_Finish dbnow (N_ID item) (N_ClaimToken item) msg problem retry)) as Hfin.
  { intros msg problem retry Hretry. apply step_in_autocommit; [apply _|]. intros d u d'.
    unfold finish_email_notification. destruct (negb _); [done|]. intros [= _ <-] Hd.
    apply upd_note_ok; [done|]. intros x Hx Hq. bsimpl. split.
    - constructor; try done. cbn. match goal with H : en_status x = _ |- _ => rewrite H end. done.
    - destruct (no_rows held d Hd x Hx) as (Ha & _ & Ht). split; [done|]. split; [|done].
      cbn. intros Hs. rewrite (Ht item) by done. destruct (msg ==? EmptyString) eqn:Em; [|done].
      bsimpl. cbn in Hs. destruct retry; [|done]. assert (N_Attempts item < 5) by (by apply Hretry). lia. }
  unfold deliver. cbn zeta. destruct outcome as [m|temporary].
  - solve_step. by apply Hfin.
  - destruct (_ && _) eqn:E; solve_step; apply Hfin; [|done]. bsimpl. lia.
Qed.

(** ** The service as a state machine

    A world is the table and the claims workers hold; any number of consumers
    and workers interleave, a worker may crash at any time and forget its
    claims, and a claim may take effect although its reply is lost. *)
Section System.
Context `{ReminderIds} (c : Consumer).

Inductive nstep : ndb * list Notification -> ndb * list Notification -> Prop :=
| n_consume gen g now text n data fs d held :
    nstep (d, held) ((consume c gen g now text n data fs d).2.2, held)
| n_claim now tok limit fs d held :
    fresh_tokens held tok d →
    nstep (d, held)
      ((NRepository_Claim now tok limit fs d).2.2,
       match (NRepository_Claim now tok limit fs d).1 with Ok items => items ++ held | Err _ => held end)
| n_deliver now dbnow item outcome fs d held :
    item ∈ held → nstep (d, held) ((deliver now dbnow item outcome fs d).2.2, held)
| n_crash d held held' : (∀ it, it ∈ held' → it ∈ held) → nstep (d, held) (d, held').

Lemma note_ok_weaken held held' d : (∀ it, it ∈ held' → it ∈ held) → note_ok held d → note_ok held' d.
Proof.
  intros Hs [Hi Hk Hr]. constructor; [done..|]. intros r Hin. destruct (Hr r Hin) as (Ha & Hp & Ht).
  split; [done|]. split; [done|]. intros it Hit. by apply Ht, Hs.
Qed.

Lemma nstep_good w w' :
  nstep w w' → note_ok w.2 w.1 → note_ok w'.2 w'.1 ∧ note_evolves w.1 w'.1.
Proof.
  intros Hs Hd. destruct Hs as [gen g now text n data fs d held|now tok limit fs d held Hf
    |now dbnow item outcome fs d held Hit|d held held' Hsub]; cbn in *.
  - by apply good_consume.
  - unfold NRepository_Claim, autocommit.
    destruct (claim_email_notifications_for_tenant now tok limit None d) as [[items d']|e] eqn:E; [|done].
    destruct (claim_good held now tok limit None d items d' E Hf Hd) as [Hok He].
    destruct (pop fs) as [[] fs']; cbn; [by split|by split; [|reflexivity]|].
    split; [|done]. eapply note_ok_weaken; [|exact Hok]. intros it Hin. apply elem_of_app. by right.
  - by apply good_deliver.
  - split; [by eapply note_ok_weaken|reflexivity].
Qed.

Lemma nsteps_good w w' :
  rtc nstep w w' → note_ok w.2 w.1 → note_ok w'.2 w'.1 ∧ note_evolves w.1 w'.1.
Proof.
  induction 1 as [|x y z Hxy _ IH]; intros Hd; [by split; [|reflexivity]|].
  destruct (nstep_good x y Hxy Hd) as [Hy E1]. destruct (IH Hy) as [Hz E2].
  split; [done|]. by etrans.
Qed.

(** [Once] is a claim followed by deliveries. *)
Lemma Once_steps now dbnow tok cancelled send fs d held :
  fresh_tokens held tok d →
  ∃ held', rtc nstep (d, held) ((Worker_Once now dbnow tok cancelled send fs d).2.2, held').
Proof.
  intros Hf. unfold Worker_Once. rewrite attempt_bind.
  pose proof (n_claim dbnow tok 50 fs d held Hf) as Hstep.
  destruct (NRepository_Claim dbnow tok 50 fs d) as [[items|e] [fs1 d1]]; cbn in *.
  2:{ eexists. by apply rtc_once. }
  exists (items ++ held). eapply rtc_l; [exact Hstep|]. clear Hstep Hf.
  assert (∀ it, it ∈ items → it ∈ items ++ held) as Hsub by (intros; apply elem_of_app; by left).
  revert Hsub fs1 d1. generalize (items ++ held). intros all.
  induction items as [|it items IH]; intros Hsub fs1 d1; cbn [deliver_all]; [reflexivity|].
  destruct (cancelled it); [reflexivity|]. rewrite bind_eq.
  pose proof (n_deliver now dbnow it (send it) fs1 d1 all ltac:(apply Hsub; set_solver)) as Hstep.
  destruct (deliver now dbnow it (send it) fs1 d1) as [[u|e] [fs2 d2]]; cbn in *.
  - eapply rtc_l; [exact Hstep|]. apply IH. intros x Hx. apply Hsub. set_solver.
  - by apply rtc_once.
Qed.

(** C23: whatever messages arrive however often, whatever fails, and however
    many consumers and workers interleave or crash: there is at most one
    notification per tenant, event and type; a notification that waits for
    delivery has been tried at most four times; a notification is never
    deleted, keeps its recipient and schedule, and once sent, cancelled or
    failed it stays so; and an iteration of the worker is a sequence of these
    steps. *)
Theorem notifications_consistent d held d' held' :
  rtc nstep ([], []) (d, held) → rtc nstep (d, held) (d', held') →
  NoDup (map note_key d') ∧
  (∀ r, r ∈ d' → en_status r = "pending"%string → 0 <= en_attempts r <= 4) ∧
  (∀ r, r ∈ d → ∃ r', r' ∈ d' ∧ note_le r r') ∧
  (∀ now dbnow tok cancelled send fs, fresh_tokens held' tok d' →
     ∃ h, rtc nstep (d', held') ((Worker_Once now dbnow tok cancelled send fs d').2.2, h)).
Proof.
  intros H0 H1. assert (note_ok [] ([] : ndb)) as Hempty by (constructor; [constructor|constructor|set_solver]).
  destruct (nsteps_good _ _ H0 Hempty) as [Hd _]. destruct (nsteps_good _ _ H1 Hd) as [Hd' He].
  cbn in *. split; [apply Hd'|]. split; [|split; [exact He|intros; by apply Once_steps]].
  intros r Hr Hp. destruct (no_rows held' d' Hd' r Hr) as (Ha & Hb & _). auto.
Qed.
End System.

(** ** Planning *)

Definition plan_valid (kind recipient template language : string) : Prop :=
  recipient ≠ EmptyString ∧ text_ok recipient && text_ok template && text_ok language = true ∧
  kind ∈ note_types.

Definition has_key (t e : uuid) (kind : string) (d : ndb) : Prop :=
  ∃ r, r ∈ d ∧ note_key r = (t, e, kind).

Lemma det_Plan g t e k r tm l s : det (NRepository_Plan g t e k r tm l s).
Proof. unfold NRepository_Plan. destruct (_ ==? _); solve_det. Qed.

Lemma run_Plan g t e k r tm l s d :
  plan_valid k r tm l → (∀ x, x ∈ d → en_id x ≠ ng_id g) →
  run (NRepository_Plan g t e k r tm l s) d =
    if existsb (λ x, note_key x ==? (t, Env_EventID e, k)) d then (Ok false, d)
    else (Ok true, d ++ [planned_row g t e k r tm l s]).
Proof.
  intros (Hr & Ht & Hk) Hid. unfold NRepository_Plan. rewrite bool_decide_false by done.
  rewrite run_tx by solve_det. rewrite run_bind, run_stmt by apply det_stmt.
  unfold insert_note. cbn [planned_row en_email en_template en_language en_error en_tenant en_type].
  rewrite Ht. cbn [andb negb]. rewrite bool_decide_refl. cbn [negb].
  rewrite bool_decide_true by done. cbn [negb].
  change (note_key (planned_row g t e k r tm l s)) with (t, Env_EventID e, k).
  destruct (existsb _ d) eqn:E; [by rewrite upd_same, run_ret by done|].
  rewrite (proj2 (existsb_fresh en_id (ng_id g) d)) by done. by rewrite run_ret.
Qed.

Lemma has_key_existsb t e k d : existsb (λ x, note_key x ==? (t, e, k)) d = true ↔ has_key t e k d.
Proof.
  rewrite existsb_elem. unfold has_key. split; intros (x & Hx & E); exists x; split; try done; by bsimpl.
Qed.

Section Planning.
Context `{ReminderIds} (c : Consumer) (e : Envelope) (recipient tmpl : string) (offs : list duration).
#[local] Abbreviation T := (Env_TenantID e).
#[local] Abbreviation reminder_tmpl := (default EmptyString (c_templates c "appointment.reminder_due"%string)).

Definition reminder_at (off : duration) : time := Env_StartAt e + int64 (- off).
Definition reminder_event (off : duration) : uuid := NewSHA1 (Env_EventID e) (Duration_String off).

(** The ids the database draws from the n-th insertion on are new. *)
Definition fresh_ids (gen : nat -> NGen) (n : nat) (d : ndb) : Prop :=
  (∀ i j, ng_id (gen i) = ng_id (gen j) → i = j) ∧
  (∀ i x, (n <= i)%nat → x ∈ d → en_id x ≠ ng_id (gen i)).

Lemma fresh_ids_snoc gen n d r :
  fresh_ids gen n d → en_id r = ng_id (gen n) → fresh_ids gen (S n) (d ++ [r]).
Proof.
  intros [Hinj Hf] Hr. split; [done|]. intros i x Hi [Hx|Hx%list_elem_of_singleton]%elem_of_app.
  - apply Hf; [lia|done].
  - subst x. rewrite Hr. intros E%Hinj. lia.
Qed.
Lemma fresh_ids_le gen n m d : (n <= m)%nat → fresh_ids gen n d → fresh_ids gen m d.
Proof. intros Hle [Hinj Hf]. split; [done|]. intros i x Hi. apply Hf. lia. Qed.

Lemma has_key_app t ev k d rows : has_key t ev k d → has_key t ev k (d ++ rows).
Proof. intros (r & Hr & E). exists r. split; [apply elem_of_app; by left|done]. Qed.

(** A row of the n-th insertion on for one of the offsets. *)
Definition reminder_row (now : time) (r : note_row) : Prop :=
  ∃ g off, off ∈ offs ∧ now < reminder_at off ∧
    r = planned_row g T (set_EventID (reminder_event off) e) "appointment_reminder" recipient
          reminder_tmpl (c_language c) (reminder_at off).

Definition reminders_planned (now : time) (d : ndb) : Prop :=
  ∀ off, off ∈ offs → now < reminder_at off → has_key T (reminder_event off) "appointment_reminder" d.

Lemma run_plan_reminders gen n now d l :
  plan_valid "appointment_reminder" recipient reminder_tmpl (c_language c) →
  (∀ off, off ∈ l → off ∈ offs) → fresh_ids gen n d →
  ∃ rows, run (plan_reminders c gen n now e recipient l) d = (Ok tt, d ++ rows) ∧
    Forall (reminder_row now) rows ∧
    (∀ off, off ∈ l → now < reminder_at off →
       has_key T (reminder_event off) "appointment_reminder" (d ++ rows)) ∧
    ((∀ off, off ∈ l → now < reminder_at off →
       has_key T (reminder_event off) "appointment_reminder" d) → rows = []).
Proof.
  intros Hv. revert n d. induction l as [|off l IH]; intros n d Hl Hf.
  { exists []. rewrite app_nil_r. split; [done|]. split; [constructor|]. split; [set_solver|done]. }
  assert (∀ o, o ∈ l → o ∈ offs) as Hl' by set_solver.
  cbn [plan_reminders]. cbv zeta. unfold After, Add. fold (reminder_at off).
  destruct (Z.ltb_spec now (reminder_at off)) as [Hlt|Hge]; cbn [negb].
  - rewrite run_bind by apply det_Plan. rewrite run_Plan; [|done|intros x Hx; by apply Hf].
    cbn [set_EventID Env_EventID]. fold (reminder_event off).
    destruct (existsb _ d) eqn:Ek.
    + destruct (IH (S n) d Hl' (fresh_ids_le _ _ _ _ (Nat.le_succ_diag_r n) Hf)) as (rows & Hrun & Hrows & Hkeys & Hnil).
      exists rows. split; [exact Hrun|]. split; [done|]. apply has_key_existsb in Ek. split.
      * intros o [->|Ho]%elem_of_cons Hfut; [by apply has_key_app|by apply Hkeys].
      * intros Hall. apply Hnil. intros o Ho. apply Hall. set_solver.
    + set (row := planned_row _ _ _ _ _ _ _ _).
      destruct (IH (S n) (d ++ [row]) Hl' (fresh_ids_snoc gen n d row Hf eq_refl)) as (rows & Hrun & Hrows & Hkeys & _).
      exists (row :: rows). rewrite <- app_assoc in Hrun, Hkeys. cbn [app] in Hrun, Hkeys.
      split; [exact Hrun|]. split.
      { constructor; [|done]. exists (gen n), off. split; [apply Hl; set_solver|]. by split. }
      split.
      * intros o [->|Ho]%elem_of_cons Hfut; [|by apply Hkeys].
        exists row. split; [set_solver|done].
      * intros Hall. exfalso. apply not_true_iff_false in Ek. apply Ek, has_key_existsb, Hall; [set_solver|done].
  - destruct (IH (S n) d Hl' (fresh_ids_le _ _ _ _ (Nat.le_succ_diag_r n) Hf)) as (rows & Hrun & Hrows & Hkeys & Hnil).
    exists rows. split; [exact Hrun|]. split; [done|]. split.
    + intros o [->|Ho]%elem_of_cons Hfut; [lia|by apply Hkeys].
    + intros Hall. apply Hnil. intros o Ho. apply Hall. set_solver.
Qed.

Lemma det_plan_reminders gen n now l : det (plan_reminders c gen n now e recipient l).
Proof.
  revert n. induction l as [|off l IH]; intros n; cbn [plan_reminders]; [apply det_ret|]. cbv zeta.
  destruct (negb _); [apply IH|]. apply det_bind; [apply det_Plan|intros ?; apply IH].
Qed.

Lemma run_CancelReminders now t a d :
  run (NRepository_CancelReminders now t a) d = (Ok tt, upd (pending_reminder t a) (set_cancelled now) d).
Proof.
  unfold NRepository_CancelReminders. rewrite run_tx by solve_det. rewrite run_stmt. f_equal.
  unfold upd. apply map_ext. intros r. unfold rls, pending_reminder. by destruct (en_tenant r ==? t).
Qed.

(** What a message needs to be handled: it is well formed, of a type with a
    template, and the other services answer. *)
Record Handleable : Prop := mkHandleable {
  ha_ok : well_formed e = true;
  ha_tmpl : c_templates c (Env_EventType e) = Some tmpl;
  ha_recipient : ∃ email, c_recipients c = Some email ∧ email T (Env_AggregateID e) = Ok recipient;
  ha_valid : plan_valid (mapType (Env_EventType e)) recipient tmpl (c_language c);
  ha_valid' : plan_valid "appointment_reminder" recipient reminder_tmpl (c_language c);
  ha_offsets : c_offsets c T = Ok offs;
  ha_start : IsZero (Env_StartAt e) = false
}.

Context (Hh : Handleable).

(** The table after the first two steps of [handle]. *)
Definition after_head (g : NGen) (now : time) (d : ndb) : ndb :=
  let d1 := if existsb (λ x, note_key x ==? (T, Env_EventID e, mapType (Env_EventType e))) d then d
            else d ++ [planned_row g T e (mapType (Env_EventType e)) recipient tmpl (c_language c) now] in
  if moves (Env_EventType e) then upd (pending_reminder T (Env_AggregateID e)) (set_cancelled (ng_now g)) d1
  else d1.

Lemma run_handle gen now d :
  fresh_ids gen 0 d →
  run (handle c gen now (Some e)) d
  = if reminds (Env_EventType e)
    then run (plan_reminders c gen 1 now e recipient offs) (after_head (gen 0%nat) now d)
    else (Ok tt, after_head (gen 0%nat) now d).
Proof using Hh.
  intros Hf. destruct Hh as [Hok Htm (email & Hem & Hrec) Hv Hv' Hoff Hst].
  unfold handle. rewrite Hok. cbn [negb]. rewrite Htm, Hem, Hrec, Hst. cbn [negb].
  rewrite andb_true_r. rewrite run_bind by apply det_Plan.
  rewrite run_Plan; [|done|intros x Hx; apply Hf; [lia|done]]. unfold after_head. cbv zeta.
  set (d1 := if existsb _ d then d else _).
  assert ((if existsb (λ x, note_key x ==? (T, Env_EventID e, mapType (Env_EventType e))) d then (Ok false, d)
    else (Ok true, d ++ [planned_row (gen 0%nat) T e (mapType (Env_EventType e)) recipient tmpl (c_language c) now]))
    = (Ok (E:=note_error) (negb (existsb (λ x, note_key x ==? (T, Env_EventID e, mapType (Env_EventType e))) d)), d1)) as ->
    by (unfold d1; by destruct (existsb _ d)).
  destruct (moves (Env_EventType e)).
  - rewrite run_bind by (unfold NRepository_CancelReminders; solve_det). rewrite run_CancelReminders.
    destruct (reminds _); [by rewrite Hoff|done].
  - rewrite run_bind by apply det_ret. rewrite run_ret. destruct (reminds _); [by rewrite Hoff|done].
Qed.

Lemma after_head_key g now d : has_key T (Env_EventID e) (mapType (Env_EventType e)) (after_head g now d).
Proof.
  unfold after_head. cbv zeta. set (d1 := if existsb _ d then d else _).
  assert (has_key T (Env_EventID e) (mapType (Env_EventType e)) d1) as (r & Hr & E).
  { unfold d1. destruct (existsb _ d) eqn:E; [by apply has_key_existsb|].
    eexists. split; [apply elem_of_app; right; by apply list_elem_of_singleton|done]. }
  destruct (moves _); [|by exists r].
  exists (if pending_reminder T (Env_AggregateID e) r then set_cancelled (ng_now g) r else r).
  split; [apply elem_of_upd; by exists r|]. by destruct (pending_reminder _ _ r).
Qed.

Lemma after_head_ids gen now d : fresh_ids gen 0 d → fresh_ids gen 1 (after_head (gen 0%nat) now d).
Proof.
  intros Hf. unfold after_head. cbv zeta. set (d1 := if existsb _ d then d else _).
  assert (fresh_ids gen 1 d1) as [Hinj Hf1].
  { unfold d1. destruct (existsb _ d); [by eapply fresh_ids_le; [|exact Hf]; lia|by apply fresh_ids_snoc]. }
  destruct (moves _); [|by split]. split; [done|]. intros i x Hi (y & Hy & ->)%elem_of_upd.
  destruct (pending_reminder _ _ y); exact (Hf1 i y Hi Hy).
Qed.

(** The second delivery finds everything. *)
Lemma after_head_present g now d :
  has_key T (Env_EventID e) (mapType (Env_EventType e)) d →
  after_head g now d
  = if moves (Env_EventType e) then upd (pending_reminder T (Env_AggregateID e)) (set_cancelled (ng_now g)) d else d.
Proof. intros Hk%has_key_existsb. unfold after_head. cbv zeta. by rewrite Hk. Qed.

(** The reminders of [handle], from the table after its first two steps. *)
Lemma run_handle_rows gen now d :
  fresh_ids gen 0 d →
  ∃ rows, run (handle c gen now (Some e)) d = (Ok tt, after_head (gen 0%nat) now d ++ rows) ∧
    Forall (reminder_row now) rows ∧
    (reminds (Env_EventType e) = true →
       reminders_planned now (after_head (gen 0%nat) now d ++ rows) ∧
       (reminders_planned now (after_head (gen 0%nat) now d) → rows = [])) ∧
    (reminds (Env_EventType e) = false → rows = []).
Proof using Hh.
  intros Hf. rewrite run_handle by done. destruct (reminds (Env_EventType e)).
  - destruct (run_plan_reminders gen 1 now (after_head (gen 0%nat) now d) offs) as (rows & Hrun & Hr & Hk & Hn);
      [apply Hh|done|by apply after_head_ids|].
    exists rows. split; [done|]. split; [done|]. by split.
  - exists []. rewrite app_nil_r. by split.
Qed.

Lemma reminder_row_pending now r :
  reminder_row now r → en_status r = "pending"%string ∧ en_tenant r = T ∧ en_appointment r = Env_AggregateID e.
Proof. by intros (g & off & _ & _ & ->). Qed.

Lemma reminders_planned_later now now' d :
  now <= now' → reminders_planned now d → reminders_planned now' d.
Proof. intros Hle Hp off Hoff Hlt. apply Hp; [done|lia]. Qed.
End Planning.

(** the notification for an event is planned exactly once.  A first,
    fault-free delivery of a well-formed event that does not move the
    appointment appends the notification of the event and a reminder for each
    offset that lies in the future, all pending, leaving the other rows alone;
    a second delivery at any later time succeeds and changes nothing. *)
Theorem redelivery_idempotent `{ReminderIds} c e recipient tmpl offs gen now d :
  Handleable c e recipient tmpl offs → moves (Env_EventType e) = false → fresh_ids gen 0 d →
  ∃ rows, run (handle c gen now (Some e)) d = (Ok tt, d ++ rows) ∧
    Forall (λ r, en_status r = "pending"%string ∧ en_tenant r = Env_TenantID e ∧
                 en_appointment r = Env_AggregateID e) rows ∧
    has_key (Env_TenantID e) (Env_EventID e) (mapType (Env_EventType e)) (d ++ rows) ∧
    (reminds (Env_EventType e) = true → reminders_planned e offs now (d ++ rows)) ∧
    (∀ gen' now', now <= now' → fresh_ids gen' 0 (d ++ rows) →
       run (handle c gen' now' (Some e)) (d ++ rows) = (Ok tt, d ++ rows)).
Proof.
  intros Hh Hm Hf.
  destruct (run_handle_rows c e recipient tmpl offs Hh gen now d Hf) as (rows & Hrun & Hrows & Hrem & Hnorem).
  assert (∃ head, after_head c e recipient tmpl (gen 0%nat) now d = d ++ head ∧
    Forall (λ r, en_status r = "pending"%string ∧ en_tenant r = Env_TenantID e ∧
                 en_appointment r = Env_AggregateID e) head) as (head & Eh & Hhead).
  { unfold after_head. cbv zeta. rewrite Hm. destruct (existsb _ d).
    - exists []. by rewrite app_nil_r.
    - eexists. split; [done|]. by repeat constructor. }
  pose proof (after_head_key c e recipient tmpl (gen 0%nat) now d) as Hkey.
  rewrite Eh in *. rewrite <- app_assoc in Hrun, Hrem. exists (head ++ rows). split; [done|].
  split. { apply Forall_app. split; [done|]. eapply Forall_impl; [exact Hrows|]. intros r. apply reminder_row_pending. }
  assert (has_key (Env_TenantID e) (Env_EventID e) (mapType (Env_EventType e)) (d ++ head ++ rows)) as Hkey'.
  { rewrite app_assoc. by apply has_key_app. }
  split; [exact Hkey'|]. split; [intros E; by apply Hrem|].
  intros gen' now' Hle Hf'.
  destruct (run_handle_rows c e recipient tmpl offs Hh gen' now' _ Hf') as (rows' & Hrun' & _ & Hrem' & Hnorem').
  rewrite (after_head_present c e recipient tmpl _ now' _ Hkey'), Hm in Hrun', Hrem'.
  assert (rows' = []) as ->; [|by rewrite app_nil_r in Hrun'].
  destruct (reminds (Env_EventType e)); [|by apply Hnorem'].
  apply Hrem'; [done|]. eapply reminders_planned_later; [exact Hle|]. by apply Hrem.
Qed.

Lemma upd_key {K} (key : note_row -> K) q f d k :
  (∀ x, key (f x) = key x) → (∃ r, r ∈ upd q f d ∧ key r = k) ↔ ∃ r, r ∈ d ∧ key r = k.
Proof.
  intros Hf. split.
  - intros (r & (x & Hx & ->)%elem_of_upd & E). exists x. split; [done|].
    by destruct (q x); [rewrite Hf in E|].
  - intros (x & Hx & E). exists (if q x then f x else x). split; [apply elem_of_upd; by exists x|].
    by destruct (q x); [rewrite Hf|].
Qed.

(** The first steps of [handle] plan no reminder of the event. *)
Lemma after_head_reminders `{ReminderIds} c e recipient tmpl g now d ev :
  mapType (Env_EventType e) ≠ "appointment_reminder"%string →
  has_key (Env_TenantID e) ev "appointment_reminder" (after_head c e recipient tmpl g now d) →
  has_key (Env_TenantID e) ev "appointment_reminder" d.
Proof.
  intros Hk. unfold after_head. cbv zeta. set (d1 := if existsb _ d then d else _).
  intros Hin. assert (has_key (Env_TenantID e) ev "appointment_reminder" d1) as (r & Hr & E).
  { destruct (moves _); [|done]. by apply upd_key in Hin. }
  unfold d1 in Hr. destruct (existsb _ d); [by exists r|].
  apply elem_of_app in Hr as [Hr|Hr%list_elem_of_singleton]; [by exists r|]. subst r. by injection E.
Qed.

(** a rescheduling event that is delivered twice loses its reminders.
    The first delivery plans a pending reminder for every future offset; the
    second one, which at-least-once delivery allows, reports success, but it
    cancels the pending reminders of the appointment and plans nothing
    instead, since the keys of the new reminders are taken: afterwards no
    reminder of the appointment is pending. *)
Theorem reschedule_redelivery_loses_reminders `{ReminderIds} c e recipient tmpl offs gen now d :
  Handleable c e recipient tmpl offs → Env_EventType e = "appointment.rescheduled"%string →
  fresh_ids gen 0 d →
  (∀ off, off ∈ offs → now < reminder_at e off →
     ¬ has_key (Env_TenantID e) (reminder_event e off) "appointment_reminder" d) →
  ∃ d1, run (handle c gen now (Some e)) d = (Ok tt, d1) ∧
    (∀ off, off ∈ offs → now < reminder_at e off →
       ∃ r, r ∈ d1 ∧ note_key r = (Env_TenantID e, reminder_event e off, "appointment_reminder"%string) ∧
            pending_reminder (Env_TenantID e) (Env_AggregateID e) r = true) ∧
    ∀ gen' now', now <= now' → fresh_ids gen' 0 d1 →
      ∃ d2, run (handle c gen' now' (Some e)) d1 = (Ok tt, d2) ∧
        ∀ r, r ∈ d2 → pending_reminder (Env_TenantID e) (Env_AggregateID e) r = false.
Proof.
  intros Hh Et Hf Hnew.
  assert (reminds (Env_EventType e) = true) as Hrm by by rewrite Et.
  assert (moves (Env_EventType e) = true) as Hmv by by rewrite Et.
  assert (mapType (Env_EventType e) ≠ "appointment_reminder"%string) as Hmt by by rewrite Et.
  destruct (run_handle_rows c e recipient tmpl offs Hh gen now d Hf) as (rows & Hrun & Hrows & Hrem & _).
  destruct (Hrem Hrm) as [Hpl _]. eexists. split; [exact Hrun|]. split.
  - intros off Hoff Hfut. destruct (Hpl off Hoff Hfut) as (r & Hr & Ek). exists r. split; [done|]. split; [done|].
    apply elem_of_app in Hr as [Hr|Hr].
    + exfalso. apply (Hnew off Hoff Hfut). eapply after_head_reminders; [exact Hmt|]. by exists r.
    + rewrite Forall_forall in Hrows. apply Hrows in Hr as (g & o & _ & _ & ->).
      unfold pending_reminder. cbn. by rewrite !bool_decide_refl.
  - intros gen' now' Hle Hf'.
    destruct (run_handle_rows c e recipient tmpl offs Hh gen' now' _ Hf') as (rows' & Hrun' & _ & Hrem' & _).
    rewrite (after_head_present c e recipient tmpl _ now'), Hmv in Hrun', Hrem'
      by (apply has_key_app, after_head_key).
    destruct (Hrem' Hrm) as [_ Hnil]. rewrite Hnil, app_nil_r in Hrun'.
    + eexists. split; [exact Hrun'|]. intros r (x & Hx & ->)%elem_of_upd.
      destruct (pending_reminder _ _ x) eqn:Ex; [|done]. unfold pending_reminder. cbn. by rewrite andb_false_r.
    + intros off Hoff Hfut. apply upd_key; [done|]. by apply (reminders_planned_later e offs now now').
Qed.

(** ** Messages that cannot be handled *)

(** [handle] only adds rows with the ids drawn for it. *)
Definition ids_in (P : uuid -> Prop) (d d' : ndb) : Prop :=
  (∀ x, x ∈ d → P (en_id x)) → ∀ x, x ∈ d' → P (en_id x).
#[export] Instance ids_in_preorder P : PreOrder (ids_in P).
Proof. split; [by intros d H|]. intros a b c H1 H2 H. auto. Qed.

Lemma insert_note_ids P tx r f d n d' :
  insert_note tx r f d = Ok (n, d') → P (en_id r) → (∀ x, en_id (f x) = en_id x) → ids_in P d d'.
Proof.
  intros E Hr Hf Hd. unfold insert_note in E.
  do 3 (destruct (negb _); [done|]). destruct (existsb _ d);
    [|destruct (existsb _ d) in E; [done|]]; simplify_eq; intros x Hx.
  - apply elem_of_upd in Hx as (y & Hy & ->). destruct (_ ==? _); [rewrite Hf|]; auto.
  - apply elem_of_app in Hx as [Hx|Hx%list_elem_of_singleton]; [auto|by subst].
Qed.

Section Poison.
Context `{ReminderIds} (c : Consumer).

Lemma ids_Plan P g t e k r tm l s :
  P (ng_id g) → step_in (ids_in P) (NRepository_Plan g t e k r tm l s).
Proof.
  intros Hg. unfold NRepository_Plan. destruct (_ ==? _); [solve_step|]. solve_step.
  apply step_in_stmt; [apply _|]. intros d a d' E. by eapply insert_note_ids; [exact E|..].
Qed.

Lemma ids_CancelReminders P now t a : step_in (ids_in P) (NRepository_CancelReminders now t a).
Proof.
  unfold NRepository_CancelReminders. solve_step. apply step_in_stmt; [apply _|].
  intros d u d' [= _ <-] Hd x (y & Hy & ->)%elem_of_upd. destruct (rls _ _ _ y); exact (Hd y Hy).
Qed.

Lemma ids_plan_reminders P gen n now e r offs :
  (∀ i, P (ng_id (gen i))) → step_in (ids_in P) (plan_reminders c gen n now e r offs).
Proof.
  intros Hg. revert n. induction offs as [|off offs IH]; intros n; cbn [plan_reminders]; [solve_step|].
  cbn zeta. solve_step; auto using ids_Plan.
Qed.

Lemma ids_handle P gen now data :
  (∀ i, P (ng_id (gen i))) → step_in (ids_in P) (handle c gen now data).
Proof.
  intros Hg. unfold handle. cbn zeta. solve_step; auto using ids_Plan, ids_CancelReminders, ids_plan_reminders.
Qed.

Lemma quiet_handle gen now data : quiet (handle c gen now data).
Proof.
  apply det_quiet. unfold handle. cbn zeta.
  repeat (det_step; cbn beta); try apply det_Plan; try apply det_plan_reminders.
  all: unfold NRepository_CancelReminders; solve_det.
Qed.

(** An audit row can be written for the message. *)
Record attributable (e : Envelope) (tmpl cause : string) : Prop := mkAttributable {
  at_ids : (Env_EventID e ==? uuid_Nil) || (Env_TenantID e ==? uuid_Nil)
           || (Env_AggregateID e ==? uuid_Nil) = false;
  at_tmpl : c_templates c (Env_EventType e) = Some tmpl;
  at_kind : mapType (Env_EventType e) ∈ note_types;
  at_text : text_ok tmpl && text_ok (c_language c) && text_ok cause = true
}.

Lemma run_markTerminal g e tmpl cause d :
  attributable e tmpl cause → (∀ x, x ∈ d → en_id x ≠ ng_id g) →
  ∃ d', run (markTerminal c g (Some e) cause) d = (Ok tt, d') ∧
    ∃ r, r ∈ d' ∧ note_key r = (Env_TenantID e, Env_EventID e, mapType (Env_EventType e)) ∧
         final (en_status r) = true.
Proof.
  intros [Hids Ht Hk Htx] Hg. unfold markTerminal. rewrite Hids, Ht.
  set (F := NRepository_Fail _ _ _ _ _ _ _).
  assert (det F) as HF by (unfold F, NRepository_Fail; solve_det).
  rewrite run_attempt_bind by apply HF. rewrite run_ret. eexists. split; [done|].
  unfold F, NRepository_Fail. rewrite run_tx by solve_det. rewrite run_bind, run_stmt by apply det_stmt.
  unfold insert_note. cbn [en_email en_template en_language en_error en_tenant en_type].
  apply andb_true_iff in Htx as [[Htx1 Htx2]%andb_true_iff Htx3]. rewrite Htx1, Htx2, Htx3.
  change (text_ok terminalRecipientPlaceholder) with true. cbn [andb negb].
  rewrite bool_decide_refl. cbn [negb]. rewrite bool_decide_true by done. cbn [negb].
  destruct (existsb _ d) eqn:E.
  - rewrite run_ret. cbn [snd].
    apply existsb_elem in E as (x & Hx & Ex). exists (set_failed (ng_now g) cause x). split.
    { apply elem_of_upd. exists x. split; [done|]. by rewrite Ex. }
    bsimpl. change (note_key x = (Env_TenantID e, Env_EventID e, mapType (Env_EventType e))) in Ex.
    unfold set_failed. destruct (_ || _) eqn:Es; [|by split].
    split; [done|]. unfold final. by rewrite Es.
  - cbn [en_id]. rewrite (proj2 (existsb_fresh en_id (ng_id g) d)) by done. rewrite run_ret. cbn [snd].
    eexists. split; [apply elem_of_app; right; by apply list_elem_of_singleton|done].
Qed.
End Poison.


(** ** One iteration of the worker *)

(** What a delivery makes of the claimed row. *)
Definition settled (now dbnow : time) (outcome : send_outcome) (r : note_row) : note_row :=
  match outcome with
  | Sent messageID => finish_row dbnow messageID EmptyString None r
  | SendFailed temporary =>
      finish_row dbnow EmptyString (delivery_problem temporary)
        (if temporary && (en_attempts r <? 5)
         then Some (Add now (Minutes (Z.shiftl 1 (Z.min (en_attempts r) 5)))) else None) r
  end.

Lemma det_autocommit_quiet {D E A} `{!FromPg E} (f : D -> res pg_error (A * D)) : quiet (E:=E) (autocommit f).
Proof. intros d. unfold autocommit. cbn. by destruct (f d) as [[]|]. Qed.

Definition sendable (o : send_outcome) : Prop :=
  match o with Sent m => m ≠ EmptyString ∧ text_ok m = true | SendFailed _ => True end.

(** What the worker makes of the result of the configured sender; [deadline]
    says that the error is an exceeded deadline. *)
Definition outcome_of (deadline : bool) (r : res send_error string) : send_outcome :=
  match r with Ok id => Sent id | Err e => SendFailed (IsTemporary e || deadline) end.

(** Both senders answer with message ids the worker can store. *)
Lemma Send_sendable s deadline ctx_done ok m :
  text_ok (Message_IdempotencyKey m) = true → sendable (outcome_of deadline (Send s ctx_done ok m)).
Proof.
  intros Hk. destruct s as [|c]; cbn [Send].
  - unfold LoggingSender_Send. by destruct (_ || _).
  - unfold SMTPSender_Send. destruct ctx_done; [done|]. destruct (SplitHostPort _); [|done].
    destruct (_ || _); [done|]. cbv zeta. destruct (smtp_run ok _) as [opened [|]]; [done|].
    destruct (smtp_run ok _) as [cmds [[]|]]; try done.
Qed.

Lemma run_deliver now dbnow item outcome d :
  sendable outcome →
  (∀ r, r ∈ d → en_id r = N_ID item → en_token r = Some (N_ClaimToken item) → en_attempts r = N_Attempts item) →
  run (deliver now dbnow item outcome) d
  = (Ok tt, upd (λ r, (en_id r ==? N_ID item) && (en_status r ==? "processing"%string)
                      && (en_token r ==? Some (N_ClaimToken item))) (settled now dbnow outcome) d).
Proof.
  intros Hs Ha. assert (∀ msg problem retry, text_ok msg && text_ok problem = true →
    run (attempt (F:=note_error) (NRepository_Finish dbnow (N_ID item) (N_ClaimToken item) msg problem retry) ;;
         mret (M:=IO ndb note_error) tt) d
    = (Ok tt, upd (λ r, (en_id r ==? N_ID item) && (en_status r ==? "processing"%string)
                      && (en_token r ==? Some (N_ClaimToken item))) (finish_row dbnow msg problem retry) d)) as Hfin.
  { intros msg problem retry Ht. unfold NRepository_Finish.
    rewrite run_attempt_bind by apply det_autocommit_quiet. rewrite run_ret. f_equal.
    unfold run, autocommit, finish_email_notification. cbn. by rewrite Ht. }
  assert (∀ f g : note_row -> note_row, (∀ r, r ∈ d → en_id r = N_ID item →
    en_token r = Some (N_ClaimToken item) → f r = g r) →
    upd (λ r, (en_id r ==? N_ID item) && (en_status r ==? "processing"%string)
              && (en_token r ==? Some (N_ClaimToken item))) f d
    = upd (λ r, (en_id r ==? N_ID item) && (en_status r ==? "processing"%string)
              && (en_token r ==? Some (N_ClaimToken item))) g d) as Hext.
  { intros f g Hfg. apply map_ext_in. intros r Hr%list_elem_of_In. destruct (_ && _) eqn:E; [|done].
    bsimpl. by apply Hfg. }
  unfold deliver. cbv zeta. destruct outcome as [m|t]; cbn [settled].
  - rewrite Hfin; [done|]. rewrite andb_true_r. apply Hs.
  - destruct (t && (N_Attempts item <? 5)) eqn:E; rewrite Hfin by (by destruct t); f_equal;
      apply Hext; intros r Hr E1 E2; unfold settled; by rewrite (Ha r Hr E1 E2), E.
Qed.

Lemma quiet_deliver now dbnow item o : quiet (deliver now dbnow item o).
Proof.
  unfold deliver. cbv zeta. destruct o as [m|t]; [|destruct (_ && _)];
    (apply quiet_bind; [apply quiet_attempt, det_autocommit_quiet|intros; apply quiet_ret]).
Qed.

Section Once.
Context (now dbnow : time) (tok : uuid -> uuid) (send : Notification -> send_outcome) (d : ndb).
Context (Hd : NoDup (map en_id d)) (Hsend : ∀ r, r ∈ d → sendable (send (claimed_item tok r))).

(** The table while the worker delivers: [fin] are done, [todo] are claimed. *)
Definition mid_row (fin todo : list uuid) (r : note_row) : note_row :=
  if bool_decide (en_id r ∈ fin) then settled now dbnow (send (claimed_item tok r)) (claim_row dbnow tok r)
  else if bool_decide (en_id r ∈ todo) then claim_row dbnow tok r else r.

Lemma settled_id o r : en_id (settled now dbnow o r) = en_id r.
Proof. by destruct o. Qed.

Lemma mid_row_id fin todo r : en_id (mid_row fin todo r) = en_id r.
Proof. unfold mid_row. destruct (bool_decide _); [by rewrite settled_id|]. by destruct (bool_decide _). Qed.

Lemma run_deliver_all l fin :
  (∀ r, r ∈ l → r ∈ d) → NoDup (map en_id l) → (∀ r, r ∈ l → en_id r ∉ fin) →
  run (deliver_all now dbnow (λ _, false) send (map (claimed_item tok) l)) (map (mid_row fin (map en_id l)) d)
  = (Ok tt, map (mid_row (reverse (map en_id l) ++ fin) []) d).
Proof using Hd Hsend.
  revert fin. induction l as [|x l IH]; intros fin Hl Hnd Hfin; [done|].
  cbn [map deliver_all]. apply NoDup_cons in Hnd as [Hx Hnd].
  assert (x ∈ d) as Hxd by (apply Hl; set_solver).
  assert (en_id x ∉ fin) as Hxf by (apply Hfin; set_solver).
  assert (∀ y, y ∈ d → en_id y = en_id x → y = x) as Huniq
    by (intros y Hy Ey; by eapply (NoDup_map_eq en_id d); [exact Hd|..]).
  assert (mid_row fin (en_id x :: map en_id l) x = claim_row dbnow tok x) as Emid.
  { unfold mid_row. rewrite bool_decide_false by done. by rewrite bool_decide_true by set_solver. }
  rewrite runq_bind by apply quiet_deliver. rewrite run_deliver; [|by apply Hsend|].
  2:{ intros r Hr Eid _. apply list_elem_of_In, in_map_iff in Hr as (y & <- & Hy%list_elem_of_In).
      rewrite mid_row_id in Eid. rewrite (Huniq y Hy Eid), Emid. done. }
  etrans; [|etrans; [apply (IH (en_id x :: fin))|]].
  - f_equal. unfold upd. rewrite map_map. apply map_ext_in. intros y Hy%list_elem_of_In.
    rewrite mid_row_id. cbn [claimed_item N_ID N_ClaimToken]. destruct (en_id y ==? en_id x) eqn:E; bsimpl.
    + rewrite (Huniq y Hy E), Emid. cbn [andb claim_row en_status en_token].
      rewrite !bool_decide_refl. cbn [andb]. unfold mid_row. by rewrite bool_decide_true by set_solver.
    + cbn [andb]. unfold mid_row. rewrite (bool_decide_ext (en_id y ∈ en_id x :: fin) (en_id y ∈ fin)) by set_solver.
      rewrite (bool_decide_ext (en_id y ∈ en_id x :: map en_id l) (en_id y ∈ map en_id l)) by set_solver. done.
  - intros r Hr. apply Hl. set_solver.
  - done.
  - intros r Hr [Er|Er]%elem_of_cons; [|by eapply Hfin; [|exact Er]; set_solver].
    apply Hx. rewrite <- Er. by apply list_elem_of_In, in_map, list_elem_of_In.
  - do 2 f_equal. rewrite reverse_cons, <- app_assoc. done.
Qed.
End Once.

Lemma shift_minutes a : 1 <= a <= 4 → Minutes (Z.shiftl 1 (Z.min a 5)) = 2 ^ a * Minute.
Proof.
  intros Ha. rewrite Z.min_l, Z.shiftl_1_l by lia. apply Minutes_exact. split; [lia|].
  apply Z.pow_le_mono_r; lia.
Qed.

(** one fault-free iteration of the worker settles exactly the
    notifications it claims: at most fifty of the due ones, the earliest
    scheduled first.  Each claimed row has used one attempt and is released;
    it is sent with the provider's message id when the provider accepted it,
    it waits [2^attempts] minutes when the failure is temporary and fewer than
    five attempts were made, and it has failed for good otherwise.  Every
    other row is unchanged. *)
Theorem Once_settles held now dbnow tok send d :
  note_ok held d → (∀ r, r ∈ d → sendable (send (claimed_item tok r))) →
  let claimed := take 50 (order_by en_scheduled (sel (due dbnow None) d)) in
  ∃ f, run (Worker_Once now dbnow tok (λ _, false) send) d
       = (Ok tt, map (λ r, if bool_decide (en_id r ∈ map en_id claimed) then f r else r) d) ∧
    ∀ r, r ∈ claimed →
      note_le (claim_row dbnow tok r) (f r) ∧
      en_attempts (f r) = en_attempts r + 1 ∧ en_token (f r) = None ∧ en_lease (f r) = None ∧
      match send (claimed_item tok r) with
      | Sent m => en_status (f r) = "sent"%string ∧ en_message_id (f r) = Some m
      | SendFailed temporary =>
          if temporary && (en_attempts r + 1 <? 5)
          then en_status (f r) = "pending"%string ∧
               en_next (f r) = pg_ts (now + 2 ^ (en_attempts r + 1) * Minute)
          else en_status (f r) = "failed"%string
      end.
Proof.
  intros Hd Hsend claimed.
  assert (∀ r, r ∈ claimed → r ∈ d) as Hin.
  { intros z Hz%subseteq_take. rewrite elem_of_order_by, elem_of_sel in Hz. tauto. }
  exists (λ r, settled now dbnow (send (claimed_item tok r)) (claim_row dbnow tok r)). split.
  - unfold Worker_Once, NRepository_Claim. rewrite run_attempt_bind by apply det_autocommit_quiet.
    unfold run at 2 3, autocommit, claim_email_notifications_for_tenant. cbn [pop fst snd].
    change (bounded_limit 50 100) with 50%nat. fold claimed.
    pose proof (run_deliver_all now dbnow tok send d (no_ids _ _ Hd) Hsend claimed [] Hin) as Hall.
    unfold upd. etrans; [|etrans; [apply Hall|]].
    + reflexivity.
    + eapply sublist_NoDup; [|apply fmap_sublist, sublist_take].
      rewrite (fmap_Permutation en_id _ _ (order_by_perm _ _)). apply NoDup_map_sel, Hd.
    + set_solver.
    + f_equal. apply map_ext. intros r. unfold mid_row. rewrite app_nil_r.
      rewrite (bool_decide_ext (en_id r ∈ reverse _) (en_id r ∈ map en_id claimed)) by apply elem_of_reverse.
      destruct (bool_decide _); [done|]. by rewrite bool_decide_false by set_solver.
  - intros r Hr. destruct (no_rows _ _ Hd r (Hin r Hr)) as (Ha & _). pose proof (Hsend r (Hin r Hr)) as Hs.
    destruct (send (claimed_item tok r)) as [m|t]; cbn [settled].
    + destruct Hs as [Hm _]. unfold finish_row. rewrite bool_decide_false by done. by repeat split.
    + split; [by constructor|]. do 3 (split; [done|]). cbn [claim_row en_attempts].
      destruct (t && (en_attempts r + 1 <? 5)) eqn:E; [|done]. split; [done|]. bsimpl.
      cbn [finish_row en_next]. unfold Add. by rewrite shift_minutes by lia.
Qed.

(** ** Examples *)

#[local] Instance sample_ids : ReminderIds :=
  mkReminderIds (λ u _, (u + 1000)%N) (λ d, if d ==? 2 * Hour then "2h0m0s" else "24h0m0s")%string.

Definition sample_consumer : Consumer :=
  NewConsumer (λ _, EmptyString) (λ _, Ok [2 * Hour]) (Some (λ _ _, Ok "ada@example.org"%string)).

Definition sample_event (type : string) : Envelope := mkEnvelope 7%N type 1 1%N 5%N (100 * Hour).

Definition sample_gen (n : N) (i : nat) : NGen := mkNGen (n + N.of_nat i)%N 0.

Lemma sample_handleable type :
  type ∈ ["appointment.created"; "appointment.rescheduled"]%string →
  Handleable sample_consumer (sample_event type) "ada@example.org" (mapType type) [2 * Hour].
Proof.
  intros Ht. assert (type = "appointment.created" ∨ type = "appointment.rescheduled")%string as [-> | ->] by set_solver;
    (constructor; [done|done|by eexists|..|done|done]; (split; [done|]; split; [done|]; by vm_compute; set_solver)).
Qed.

Lemma sample_gen_fresh n d : Forall (λ x, (en_id x < n)%N) d → fresh_ids (sample_gen n) 0 d.
Proof.
  rewrite Forall_forall. intros Hd. split; [unfold sample_gen; cbn; intros; lia|].
  intros i x _ Hx%Hd. unfold sample_gen. cbn. lia.
Qed.

Lemma notifications_consistent_witness :
  let d := (consume sample_consumer (sample_gen 0) (mkNGen 50%N 0) 0 (λ _, EmptyString) (Some 1)
              (Some (sample_event "appointment.created")) [] []).2.2 in
  length d = 2%nat ∧ NoDup (map note_key d).
Proof.
  intros d. split; [by vm_compute|].
  exact (proj1 (notifications_consistent sample_consumer d [] d [] (rtc_once _ _ (n_consume sample_consumer
    (sample_gen 0) (mkNGen 50%N 0) 0 (λ _, EmptyString) (Some 1) (Some (sample_event "appointment.created")) [] [] []))
    (rtc_refl _ _))).
Defined.

Lemma redelivery_idempotent_witness :
  ∃ d, run (handle sample_consumer (sample_gen 0) 0 (Some (sample_event "appointment.created"))) [] = (Ok tt, d) ∧
    length d = 2%nat ∧
    run (handle sample_consumer (sample_gen 10) (5 * Hour) (Some (sample_event "appointment.created"))) d = (Ok tt, d).
Proof.
  destruct (redelivery_idempotent sample_consumer (sample_event "appointment.created") "ada@example.org"
    "appointment_created" [2 * Hour] (sample_gen 0) 0 []
    (sample_handleable "appointment.created" ltac:(set_solver)) eq_refl (sample_gen_fresh _ _ (Forall_nil_2 _)))
    as (rows & Hrun & _ & _ & _ & Hagain).
  exists ([] ++ rows). split; [exact Hrun|].
  assert (([] ++ rows) = (run (handle sample_consumer (sample_gen 0) 0 (Some (sample_event "appointment.created"))) []).2) as Erows
    by (rewrite Hrun; reflexivity).
  split; [rewrite Erows; by vm_compute|]. apply Hagain; [by vm_compute|]. apply sample_gen_fresh.
  rewrite Erows. by repeat constructor.
Defined.

Lemma reschedule_redelivery_loses_reminders_witness :
  ∃ d1 d2, run (handle sample_consumer (sample_gen 0) 0 (Some (sample_event "appointment.rescheduled"))) [] = (Ok tt, d1) ∧
    existsb (pending_reminder 1%N 5%N) d1 = true ∧
    run (handle sample_consumer (sample_gen 10) (5 * Hour) (Some (sample_event "appointment.rescheduled"))) d1 = (Ok tt, d2) ∧
    ∀ r, r ∈ d2 → pending_reminder 1%N 5%N r = false.
Proof.
  destruct (reschedule_redelivery_loses_reminders sample_consumer (sample_event "appointment.rescheduled")
    "ada@example.org" "appointment_rescheduled" [2 * Hour] (sample_gen 0) 0 []
    (sample_handleable "appointment.rescheduled" ltac:(set_solver)) eq_refl (sample_gen_fresh _ _ (Forall_nil_2 _))
    ltac:(intros off _ _ (r & Hr & _); set_solver)) as (d1 & Hrun & _ & Hagain).
  assert (d1 = (run (handle sample_consumer (sample_gen 0) 0 (Some (sample_event "appointment.rescheduled"))) []).2) as Ed
    by (rewrite Hrun; reflexivity).
  destruct (Hagain (sample_gen 10) (5 * Hour)) as (d2 & Hrun2 & Hnone);
    [by vm_compute|apply sample_gen_fresh; rewrite Ed; by repeat constructor|].
  exists d1, d2. split; [exact Hrun|]. split; [rewrite Ed; by vm_compute|]. by split.
Defined.

Lemma Once_settles_witness :
  let r := planned_row (mkNGen 1%N 0) 1%N (sample_event "appointment.created") "appointment_created" "ada@example.org"
             "appointment_created" "en" 0 in
  ∃ f, run (Worker_Once 0 Minute (λ _, 9%N) (λ _, false) (λ _, SendFailed true)) [r] = (Ok tt, [f r]) ∧
    en_status (f r) = "pending"%string ∧ en_next (f r) = 2 * Minute.
Proof.
  intros r. destruct (Once_settles [] 0 Minute (λ _, 9%N) (λ _, SendFailed true) [r]) as (f & Hrun & Hf).
  - constructor; [by repeat constructor; set_solver|by repeat constructor; set_solver|].
    intros x ->%list_elem_of_singleton. split; [by vm_compute|]. split; [by vm_compute|]. set_solver.
  - intros x _. exact I.
  - exists f. split; [exact Hrun|]. destruct (Hf r) as (_ & _ & _ & _ & Hs & Hn); [by vm_compute; constructor|].
    by split.
Defined.

