(* ===== verification/Gateway.v ===== *)
(** * Gateway: gateway-service

    The only service browsers reach: it resolves the host name to a tenant and
    an application type ([internal/service/resolver.go]) and forwards the
    request to the service behind the route ([internal/handler]); the platform
    health page asks all services for their state.  A handler is a state
    transformer over the list of requests the gateway has sent; the network
    answers with respect to that list.  Route matching is the router's: the
    theorems hold for every route of the table and every value of its
    parameters. *)
From S2P Require Import Prelude GoTime Http Platform.

Local Open Scope string_scope.

(** ** Strings *)

(** [strings.ReplaceAll(s, old, new)] for a non-empty [old]; [skip] bytes of a
    match remain to be dropped. *)
Fixpoint replace_from (old new : string) (skip : nat) (s : string) : string :=
  match s with
  | EmptyString => EmptyString
  | String c s' =>
      match skip with
      | S k => replace_from old new k s'
      | O => if String.prefix old s then new +:+ replace_from old new (String.length old - 1) s'
             else String c (replace_from old new 0 s')
      end
  end.
Definition ReplaceAll (s old new : string) : string := replace_from old new 0 s.

(** [strings.TrimRight(s, "/")] *)
Fixpoint TrimRightSlash (s : string) : string :=
  match s with
  | EmptyString => EmptyString
  | String c s' =>
      let r := TrimRightSlash s' in
      if (r ==? EmptyString) && (c ==? "/"%char) then EmptyString else String c r
  end.

Abbreviation HasPrefix s p := (String.prefix p s).

(** [strings.Fields]: the maximal runs of characters that are not white space;
    [cur] is the field being read. *)
Fixpoint fields_loop (fuel : nat) (l cur : list ascii) : list string :=
  let flush := match cur with [] => [] | _ => [string_of_list_ascii cur] end in
  match fuel, l with
  | O, _ | _, [] => flush
  | S fuel', c :: l' =>
      match space_len (map byte_of l) with
      | O => fields_loop fuel' l' (cur ++ [c])
      | S n => flush ++ fields_loop fuel' (drop n l') []
      end
  end.
Definition Fields (s : string) : list string :=
  let l := list_ascii_of_string s in fields_loop (S (length l)) l [].

(** [strings.SplitN(s, "{", 2)[0]] *)
Fixpoint before_brace (s : string) : string :=
  match s with
  | EmptyString => EmptyString
  | String c s' => if c ==? "{"%char then EmptyString else String c (before_brace s')
  end.

(** *** The health page's metrics *)

Section Totals.
Context {F : Type} (fzero : F) (fadd : F -> F -> F) (ParseFloat : string -> option F).

(** [result[name] += value] *)
Definition add_to (name : string) (v : F) (m : gmap string F) : gmap string F :=
  <[name := fadd (default fzero (m !! name)) v]> m.

(** One line of the text. *)
Definition total_line (names : list string) (line : string) (m : gmap string F) : gmap string F :=
  if (line ==? EmptyString) || HasPrefix line "#" then m
  else
    match Fields line with
    | [f0; f1] =>
        let metric := before_brace f0 in
        foldl (λ m name, if metric ==? name
                         then match ParseFloat f1 with Some v => add_to name v m | None => m end
                         else m) m names
    | _ => m
    end.

Definition metricTotals (raw : string) (names : list string) : gmap string F :=
  foldl (λ m line, total_line names line m) ∅ (Split "010" raw).
End Totals.

(** An entry of the health page. *)
Record health_entry (F : Type) := mkHealthEntry { he_ready : bool; he_indicators : option (gmap string F) }.
Arguments mkHealthEntry {F} he_ready he_indicators.
Arguments he_ready {F} h.
Arguments he_indicators {F} h.

(** The order in which Go walks a map: any permutation, given by the runtime's
    choices. *)
Fixpoint insert_at {A} (n : nat) (x : A) (l : list A) : list A :=
  match n, l with
  | S n', y :: l' => y :: insert_at n' x l'
  | _, _ => x :: l
  end.
Fixpoint walk {A} (choices : list nat) (l : list A) : list A :=
  match l with
  | [] => []
  | x :: l' => insert_at (hd 0%nat choices) x (walk (tl choices) l')
  end.

(** ** Requests, replies and the network *)

(** What a handler reads of [fiber.Ctx]; [Ctx_RequestID] is the local value
    [httpx.RequestID] stores. *)
Record Ctx := mkCtx {
  Ctx_Method : string;
  Ctx_Hostname : string;
  Ctx_Path : string;
  Ctx_OriginalURL : string;
  Ctx_QueryString : string;
  Ctx_Body : string;
  Ctx_RequestID : option string;
  Ctx_Get : string -> string;
  Ctx_Cookies : string -> string;
  Ctx_Params : string -> string
}.

(** A request to a backend; [up_rawquery] is an assignment to
    [URL.RawQuery]. *)
Record UpRequest := mkUpRequest {
  up_method : string;
  up_url : string;
  up_rawquery : option string;
  up_host : option string;
  up_header : list (string * string);
  up_body : string
}.

Inductive up_result :=
| UpErr (timeout : bool)
| UpReply (status : Z) (header : string -> string) (set_cookie : list string) (body : option string).

(** [Header.Set] *)
Fixpoint hset (k v : string) (h : list (string * string)) : list (string * string) :=
  match h with
  | [] => [(k, v)]
  | (k', v') :: h' => if k ==? k' then (k, v) :: h' else (k', v') :: hset k v h'
  end.
Fixpoint hget (k : string) (h : list (string * string)) : option string :=
  match h with
  | [] => None
  | (k', v) :: h' => if k ==? k' then Some v else hget k h'
  end.
Definition set_header (k v : string) (u : UpRequest) : UpRequest :=
  mkUpRequest (up_method u) (up_url u) (up_rawquery u) (up_host u) (hset k v (up_header u)) (up_body u).
(** [if v := ...; v != "" { Header.Set(k, v) }] *)
Definition set_nonempty (k v : string) (u : UpRequest) : UpRequest :=
  if v !=? EmptyString then set_header k v u else u.

Inductive gw_reply :=
| GStatus (status : Z)
| GError (status : Z) (code : string)
| GForward (status : Z) (header : list (string * string)) (set_cookie : list string) (body : string)
| GJSON (status : Z) (body : string)
| GPanic.

(** Functions of the Go library: [url.QueryEscape], whether
    [http.NewRequestWithContext] accepts method and URL, the JSON decoders of
    the two structs the gateway reads, [float64] with [strconv.ParseFloat], and
    the JSON encoder of the health page, which refuses numbers that JSON does
    not have.  [read_until u] is what was read of the reply to [u] when it broke
    off, and [map_choices log] how the runtime walks a map when [log] has been
    sent. *)
Class GatewayLib := mkGatewayLib {
  QueryEscape : string -> string;
  NewRequest_ok : string -> string -> bool;
  json_resolution : string -> option (string * string);
  json_id : string -> option string;
  Float : Type;
  Float_zero : Float;
  Float_add : Float -> Float -> Float;
  ParseFloat : string -> option Float;
  health_json : gmap string (health_entry Float) -> option string;
  read_until : UpRequest -> string;
  map_choices : list UpRequest -> list nat
}.

(** A library for examples that do not show the health page. *)
Definition PageLessLib (escape : string -> string) (accepts : string -> string -> bool)
    (resolution : string -> option (string * string)) (id : string -> option string) : GatewayLib :=
  mkGatewayLib escape accepts resolution id Z 0%Z Z.add (λ _, None) (λ _, None) (λ _, EmptyString) (λ _, []).

Definition GW (A : Type) : Type := list UpRequest -> A * list UpRequest.
#[export] Instance gw_ret : MRet GW := λ A a log, (a, log).
#[export] Instance gw_bind : MBind GW := λ A B k m log, let (a, log') := m log in k a log'.

Section Handlers.
Context `{GoLib, GatewayLib} (net : list UpRequest -> UpRequest -> up_result).

Definition Do (u : UpRequest) : GW up_result := λ log, (net log u, (log ++ [u])%list).

Definition NewRequest (method url body : string) : option UpRequest :=
  if NewRequest_ok method url then Some (mkUpRequest method url None None [] body) else None.

(** ** [service.Resolver] *)

Record Resolution := mkResolution { Res_TenantID : string; Res_AppType : string }.
Inductive resolve_error := ErrNotFound | ResolveFailed.
Record Resolver := mkResolver { Resolver_baseURL : string; Resolver_token : string }.
Definition NewResolver (baseURL token : string) : Resolver := mkResolver (TrimRightSlash baseURL) token.

Definition resolve_request (r : Resolver) (hostname : string) : UpRequest :=
  mkUpRequest "GET" (Resolver_baseURL r +:+ "/internal/v1/domains/resolve?hostname=" +:+ QueryEscape hostname)
    None None [(InternalTokenHeader, Resolver_token r)] EmptyString.

(** What the reply of tenant-service means. *)
Definition resolution_of (reply : up_result) : res resolve_error Resolution :=
  match reply with
  | UpErr _ => Err ResolveFailed
  | UpReply status _ _ body =>
      if status =? 404 then Err ErrNotFound
      else if negb (status =? 200) then Err ResolveFailed
      else
        match body with
        | None => Err ResolveFailed
        | Some b => match json_resolution b with
                    | Some (t, a) => Ok (mkResolution t a)
                    | None => Err ResolveFailed
                    end
        end
  end%Z.

Definition Resolve (r : Resolver) (hostname : string) : GW (res resolve_error Resolution) :=
  match NewRequest "GET" (Resolver_baseURL r +:+ "/internal/v1/domains/resolve?hostname=" +:+ QueryEscape hostname)
          EmptyString with
  | None => mret (Err ResolveFailed)
  | Some u =>
      response ← Do (set_header InternalTokenHeader (Resolver_token r) u);
      mret (resolution_of response)
  end.

Definition Resolver_Ready (r : Resolver) : GW bool :=
  x ← Resolve r "readiness-probe.invalid";
  mret (match x with Err ErrNotFound => true | Ok _ => true | Err ResolveFailed => false end).

(** ** [handler.Handler] *)

Record Handler := mkHandler {
  h_resolver : Resolver;
  tenantURL : string; authURL : string; barberURL : string; catalogURL : string;
  schedulingURL : string; appointmentURL : string; notificationURL : string; customerURL : string;
  h_token : string;
  adminWebURL : string; bookingWebURL : string;
  h_platformAuth : PlatformVerifier;
  h_timeout : duration
}.

Definition DefaultOutboundTimeout : duration := 9 * Second.

Definition or_default (v : option string) (fallback : string) : string :=
  match v with Some s => if s !=? EmptyString then s else fallback | None => fallback end.

Definition New (resolver : Resolver)
    (tenant auth barber catalog scheduling appointment notification customer token platformAdminToken : string)
    (outboundTimeout : duration) (frontendURLs : list string) : Handler :=
  mkHandler resolver (TrimRightSlash tenant) (TrimRightSlash auth) (TrimRightSlash barber)
    (TrimRightSlash catalog) (TrimRightSlash scheduling) (TrimRightSlash appointment)
    (TrimRightSlash notification) (TrimRightSlash customer) token
    (TrimRightSlash (or_default (frontendURLs !! 0%nat) "http://admin-web:3000"))
    (TrimRightSlash (or_default (frontendURLs !! 1%nat) "http://booking-web:3000"))
    (NewPlatformVerifier platformAdminToken)
    (if (outboundTimeout <=? 0)%Z then DefaultOutboundTimeout else outboundTimeout).

Definition requestID (c : Ctx) : string :=
  match Ctx_RequestID c with
  | Some id => if id !=? EmptyString then id else Ctx_Get c RequestIDHeader
  | None => Ctx_Get c RequestIDHeader
  end.

Definition upstreamError (timeout : bool) : gw_reply :=
  if timeout then GError 504 "gateway_timeout" else GError 502 "gateway_unavailable".

Definition hostname (c : Ctx) : string := TrimSuffixDot (ToLower (TrimSpace (Ctx_Hostname c))).

Definition PlatformTokenHeader : string := "X-Platform-Admin-Token".

Section Endpoints.
Context (h : Handler).

(** The reply of a backend as the client gets it. *)
Definition forward_body (reply : up_result) : gw_reply :=
  match reply with
  | UpErr timeout => upstreamError timeout
  | UpReply _ _ _ None => GStatus 502
  | UpReply status _ _ (Some body) => GForward status [] [] body
  end.
Definition forward_cookies (reply : up_result) : gw_reply :=
  match reply with
  | UpErr timeout => upstreamError timeout
  | UpReply _ _ _ None => GStatus 502
  | UpReply status _ cookies (Some body) => GForward status [] cookies body
  end.

(** What could be read of the body, for a handler that ignores the error. *)
Definition forward_read (req : UpRequest) (reply : up_result) : gw_reply :=
  match reply with
  | UpErr timeout => upstreamError timeout
  | UpReply status _ _ body => GForward status [] [] (default (read_until req) body)
  end.

Definition platformProxy (path : string) (c : Ctx) : GW gw_reply :=
  if negb (PlatformVerifier_Verify (h_platformAuth h) (Ctx_Get c PlatformTokenHeader))
  then mret (GStatus 401)
  else
    let target := ReplaceAll path ":id" (Ctx_Params c "id") in
    let target := ReplaceAll target ":domain_id" (Ctx_Params c "domain_id") in
    match NewRequest (Ctx_Method c) (tenantURL h +:+ target) (Ctx_Body c) with
    | None => mret (GStatus 502)
    | Some request =>
        let request := set_header InternalTokenHeader (h_token h) request in
        let request := set_header RequestIDHeader (requestID c) request in
        let request := set_header "Content-Type" (Ctx_Get c "Content-Type") request in
        let request := set_header "X-Platform-Actor" (Ctx_Get c "X-Platform-Actor") request in
        let request := mkUpRequest (up_method request) (up_url request) (Some (Ctx_QueryString c))
                         (up_host request) (up_header request) (up_body request) in
        response ← Do request;
        mret (forward_body response)
    end.

(** The error of [NewRequestWithContext] is ignored: the nil request is
    dereferenced.  A body that breaks off is sent as far as it came. *)
Definition platformServiceProxy (base path : string) (c : Ctx) : GW gw_reply :=
  if negb (PlatformVerifier_Verify (h_platformAuth h) (Ctx_Get c PlatformTokenHeader))
  then mret (GStatus 401)
  else
    let target := ReplaceAll path ":id" (Ctx_Params c "id") in
    match NewRequest (Ctx_Method c) (base +:+ target) EmptyString with
    | None => mret GPanic
    | Some req =>
        let req := set_header InternalTokenHeader (h_token h) req in
        let req := set_header RequestIDHeader (requestID c) req in
        resp ← Do req;
        mret (forward_read req resp)
    end.

(** [platformHealth]: the map of the services, and whether a reply says
    ready. *)
Definition services : list (string * string) :=
  [("tenant", tenantURL h); ("auth", authURL h); ("barber", barberURL h); ("catalog", catalogURL h);
   ("scheduling", schedulingURL h); ("appointment", appointmentURL h); ("notification", notificationURL h);
   ("customer", customerURL h)].
Definition answered_200 (r : up_result) : bool :=
  match r with UpReply 200 _ _ _ => true | _ => false end.

Definition indicator_names : list string :=
  ["outbox_backlog"; "outbox_terminal_total"; "outbox_publish_failures_total"; "notification_failed_total"].

(** One service; [None] is the panic of a request that could not be built. *)
Definition probe (name base : string) : GW (option (health_entry Float)) :=
  match NewRequest "GET" (base +:+ "/ready") EmptyString with
  | None => mret None
  | Some req =>
      resp ← Do req;
      let ready := answered_200 resp in
      if (name ==? "appointment") || (name ==? "notification") then
        match NewRequest "GET" (base +:+ "/metrics") EmptyString with
        | None => mret None
        | Some metricsReq =>
            metricsResp ← Do metricsReq;
            mret (Some (mkHealthEntry ready
              match metricsResp with
              | UpErr _ => None
              | UpReply _ _ _ body =>
                  Some (metricTotals Float_zero Float_add ParseFloat (default (read_until metricsReq) body) indicator_names)
              end))
        end
      else mret (Some (mkHealthEntry ready None))
  end.

Fixpoint probe_all (order : list (string * string)) (result : gmap string (health_entry Float)) : GW gw_reply :=
  match order with
  | [] => mret (match health_json result with Some body => GJSON 200 body | None => GStatus 500 end)
  | (name, base) :: rest =>
      e ← probe name base;
      match e with
      | None => mret GPanic
      | Some entry => probe_all rest (<[name := entry]> result)
      end
  end.

Definition platformHealth (c : Ctx) : GW gw_reply :=
  if negb (PlatformVerifier_Verify (h_platformAuth h) (Ctx_Get c PlatformTokenHeader))
  then mret (GStatus 401)
  else λ log, probe_all (walk (map_choices log) services) ∅ log.

(** Host resolution with its early returns. *)
Definition resolved (c : Ctx) (k : Resolution -> GW gw_reply) : GW gw_reply :=
  resolution ← Resolve (h_resolver h) (hostname c);
  match resolution with
  | Err ErrNotFound => mret (GStatus 404)
  | Err ResolveFailed => mret (GStatus 502)
  | Ok r => k r
  end.

(** The headers of the trusted context. *)
Definition with_context (r : Resolution) (c : Ctx) (u : UpRequest) : UpRequest :=
  let u := set_header InternalTokenHeader (h_token h) u in
  let u := set_header TenantIDHeader (Res_TenantID r) u in
  let u := set_header AppTypeHeader (Res_AppType r) u in
  set_header RequestIDHeader (requestID c) u.

Definition config (c : Ctx) : GW gw_reply :=
  resolved c (λ r,
    match NewRequest "GET" (tenantURL h +:+ "/internal/v1/public/config") EmptyString with
    | None => mret (GStatus 502)
    | Some request => response ← Do (with_context r c request); mret (forward_body response)
    end).

(** [auth]: [path] is the variable the closure captures; the handler assigns
    to it, and returns its new value. *)
Definition auth (path : string) (c : Ctx) : GW (gw_reply * string) :=
  resolution ← Resolve (h_resolver h) (hostname c);
  match resolution with
  | Err ErrNotFound => mret (GStatus 404, path)
  | Err ResolveFailed => mret (GStatus 502, path)
  | Ok r =>
      if Res_AppType r !=? "admin" then mret (GStatus 403, path)
      else
        let path := ReplaceAll path ":id" (Ctx_Params c "id") in
        match NewRequest (Ctx_Method c) (authURL h +:+ "/internal/v1/auth" +:+ path) (Ctx_Body c) with
        | None => mret (GStatus 502, path)
        | Some request =>
            let request := with_context r c request in
            let request := set_header "Content-Type" (Ctx_Get c "Content-Type") request in
            let request := set_nonempty "Cookie" (Ctx_Get c "Cookie") request in
            response ← Do request;
            mret (forward_cookies response, path)
        end
  end.

(** The customer id customer-service answers for the session cookie. *)
Definition session_cookie (c : Ctx) : string :=
  let session := Ctx_Cookies c "__Host-barber_customer_session" in
  if session ==? EmptyString then Ctx_Cookies c "barber_customer_session" else session.

Definition session_request (r : Resolution) (session : string) (u : UpRequest) : UpRequest :=
  let u := set_header InternalTokenHeader (h_token h) u in
  let u := set_header TenantIDHeader (Res_TenantID r) u in
  let u := set_header AppTypeHeader (Res_AppType r) u in
  set_header "X-Customer-Session" session u.

Definition customer_of (reply : up_result) : option string :=
  match reply with
  | UpReply status _ _ (Some body) =>
      if ((200 <=? status) && (status <? 300))%Z then
        match json_id body with
        | Some id => if id !=? EmptyString then Some id else None
        | None => None
        end
      else None
  | _ => None
  end.

Definition customer_header (base path : string) (r : Resolution) (c : Ctx) : GW (option string) :=
  if (base ==? appointmentURL h) && HasPrefix path "/internal/v1/public/appointments" then
    let session := session_cookie c in
    if session !=? EmptyString then
      match NewRequest "GET" (customerURL h +:+ "/internal/v1/internal/customer/session") EmptyString with
      | None => mret None
      | Some check => reply ← Do (session_request r session check); mret (customer_of reply)
      end
    else mret None
  else mret None.

Definition proxy_target (path : string) (c : Ctx) : string :=
  let target := ReplaceAll path ":id" (Ctx_Params c "id") in
  let target := ReplaceAll target ":barber_id" (Ctx_Params c "barber_id") in
  let target := ReplaceAll target ":service_id" (Ctx_Params c "service_id") in
  let query := Ctx_QueryString c in
  if query !=? EmptyString then target +:+ "?" +:+ query else target.

Definition proxy (base path appType : string) (c : Ctx) : GW gw_reply :=
  resolved c (λ r,
    if Res_AppType r !=? appType then mret (GStatus 403)
    else
      match NewRequest (Ctx_Method c) (base +:+ proxy_target path c) (Ctx_Body c) with
      | None => mret (GStatus 502)
      | Some req =>
          let req := with_context r c req in
          let req := set_header "Content-Type" (Ctx_Get c "Content-Type") req in
          let req := set_nonempty "Idempotency-Key" (Ctx_Get c "Idempotency-Key") req in
          let req := set_nonempty "Cookie" (Ctx_Get c "Cookie") req in
          customer ← customer_header base path r c;
          let req := match customer with Some id => set_header "X-Customer-ID" id req | None => req end in
          res ← Do req;
          mret (forward_cookies res)
      end).

Definition browser_headers : list string :=
  ["Accept"; "Accept-Language"; "Cookie"; "Next-Router-Prefetch"; "Next-Router-State-Tree"; "Next-Url"; "Rsc"].
Definition page_headers : list string := ["Content-Type"; "Cache-Control"; "Location"; "Vary"].

(** Headers copied when they are not empty. *)
Definition copied (names : list string) (get : string -> string) : list (string * string) :=
  map (λ k, (k, get k)) (List.filter (λ k, get k !=? EmptyString) names).

Definition frontend (c : Ctx) : GW gw_reply :=
  if (Ctx_Method c !=? "GET") && (Ctx_Method c !=? "HEAD") then mret (GStatus 404)
  else if HasPrefix (Ctx_Path c) "/api/" || HasPrefix (Ctx_Path c) "/webhooks/" then mret (GStatus 404)
  else
    resolved c (λ r,
      match (if Res_AppType r ==? "admin" then Some (adminWebURL h)
             else if Res_AppType r ==? "booking" then Some (bookingWebURL h) else None) with
      | None => mret (GStatus 404)
      | Some base =>
          match NewRequest (Ctx_Method c) (base +:+ Ctx_OriginalURL c) EmptyString with
          | None => mret (GStatus 502)
          | Some req =>
              let req := mkUpRequest (up_method req) (up_url req) None (Some (Ctx_Get c "Host"))
                           (copied browser_headers (Ctx_Get c)) EmptyString in
              res ← Do req;
              mret (match res with
                    | UpErr timeout => upstreamError timeout
                    | UpReply _ _ _ None => GStatus 502
                    | UpReply status header cookies (Some body) =>
                        GForward status (copied page_headers header) cookies body
                    end)
          end
      end).
End Endpoints.
End Handlers.

(** ** The route table *)

Inductive endpoint :=
| PlatformProxy (path : string)
| PlatformServiceProxy (base path : string)
| PlatformHealth
| Config
| Auth (path : string)
| Proxy (base path appType : string)
| Frontend.

Record Route := mkRoute { r_method : string; r_pattern : string; r_endpoint : endpoint }.

Local Open Scope list_scope.

Definition registerCustomerRoutes (h : Handler) : list Route :=
  [mkRoute "POST" "/api/v1/public/customer/auth/register" (Proxy (customerURL h) "/internal/v1/public/customer/auth/register" "booking");
   mkRoute "POST" "/api/v1/public/customer/auth/login" (Proxy (customerURL h) "/internal/v1/public/customer/auth/login" "booking");
   mkRoute "POST" "/api/v1/public/customer/auth/logout" (Proxy (customerURL h) "/internal/v1/public/customer/auth/logout" "booking");
   mkRoute "GET" "/api/v1/public/customer/auth/me" (Proxy (customerURL h) "/internal/v1/public/customer/auth/me" "booking");
   mkRoute "POST" "/api/v1/public/customer/auth/change-password" (Proxy (customerURL h) "/internal/v1/public/customer/auth/change-password" "booking");
   mkRoute "POST" "/api/v1/public/customer/auth/forgot-password" (Proxy (customerURL h) "/internal/v1/public/customer/auth/forgot-password" "booking");
   mkRoute "GET" "/api/v1/public/customer/profile" (Proxy (customerURL h) "/internal/v1/public/customer/profile" "booking");
   mkRoute "PATCH" "/api/v1/public/customer/profile" (Proxy (customerURL h) "/internal/v1/public/customer/profile" "booking");
   mkRoute "GET" "/api/v1/public/customer/appointments/upcoming" (Proxy (customerURL h) "/internal/v1/public/customer/appointments/upcoming" "booking");
   mkRoute "GET" "/api/v1/public/customer/appointments/history" (Proxy (customerURL h) "/internal/v1/public/customer/appointments/history" "booking");
   mkRoute "GET" "/api/v1/public/customer/appointments/:id" (Proxy (customerURL h) "/internal/v1/public/customer/appointments/:id" "booking");
   mkRoute "POST" "/api/v1/public/customer/appointments/:id/cancel" (Proxy (customerURL h) "/internal/v1/public/customer/appointments/:id/cancel" "booking")].

Definition registerAuthRoutes (h : Handler) : list Route :=
  [mkRoute "POST" "/api/v1/admin/auth/login" (Auth "/login");
   mkRoute "POST" "/api/v1/admin/auth/logout" (Auth "/logout");
   mkRoute "GET" "/api/v1/admin/auth/me" (Auth "/me");
   mkRoute "POST" "/api/v1/admin/auth/register" (Auth "/register");
   mkRoute "GET" "/api/v1/admin/members" (Auth "/members");
   mkRoute "GET" "/api/v1/admin/members/:id" (Auth "/members/:id");
   mkRoute "POST" "/api/v1/admin/members" (Auth "/members");
   mkRoute "PATCH" "/api/v1/admin/members/:id/role" (Auth "/members/:id/role");
   mkRoute "POST" "/api/v1/admin/members/:id/activate" (Auth "/members/:id/activate");
   mkRoute "POST" "/api/v1/admin/members/:id/deactivate" (Auth "/members/:id/deactivate");
   mkRoute "POST" "/api/v1/admin/auth/change-password" (Auth "/change-password");
   mkRoute "POST" "/api/v1/admin/auth/forgot-password" (Auth "/forgot-password")].

Definition registerTenantRoutes (h : Handler) : list Route :=
  [mkRoute "GET" "/api/v1/admin/settings" (Proxy (tenantURL h) "/internal/v1/admin/settings" "admin");
   mkRoute "PATCH" "/api/v1/admin/settings" (Proxy (tenantURL h) "/internal/v1/admin/settings" "admin");
   mkRoute "GET" "/api/v1/public/branches" (Proxy (barberURL h) "/internal/v1/public/branches" "booking");
   mkRoute "GET" "/api/v1/public/barbers" (Proxy (barberURL h) "/internal/v1/public/barbers" "booking");
   mkRoute "GET" "/api/v1/public/services" (Proxy (catalogURL h) "/internal/v1/public/services" "booking");
   mkRoute "GET" "/api/v1/public/barber-services" (Proxy (catalogURL h) "/internal/v1/public/barber-services" "booking");
   mkRoute "GET" "/api/v1/public/availability" (Proxy (schedulingURL h) "/internal/v1/public/availability" "booking");
   mkRoute "GET" "/api/v1/admin/availability" (Proxy (schedulingURL h) "/internal/v1/admin/availability" "admin")].

Definition registerAppointmentRoutes (h : Handler) : list Route :=
  [mkRoute "POST" "/api/v1/public/appointments" (Proxy (appointmentURL h) "/internal/v1/public/appointments" "booking");
   mkRoute "GET" "/api/v1/public/appointments/:id" (Proxy (appointmentURL h) "/internal/v1/public/appointments/:id" "booking");
   mkRoute "POST" "/api/v1/public/appointments/:id/cancel" (Proxy (appointmentURL h) "/internal/v1/public/appointments/:id/cancel" "booking");
   mkRoute "GET" "/api/v1/admin/appointments" (Proxy (appointmentURL h) "/internal/v1/admin/appointments" "admin");
   mkRoute "GET" "/api/v1/admin/appointments/:id" (Proxy (appointmentURL h) "/internal/v1/admin/appointments/:id" "admin");
   mkRoute "POST" "/api/v1/admin/appointments" (Proxy (appointmentURL h) "/internal/v1/admin/appointments" "admin")]
  ++ map (λ operation, mkRoute "POST" ("/api/v1/admin/appointments/:id/" +:+ operation)
            (Proxy (appointmentURL h) ("/internal/v1/admin/appointments/:id/" +:+ operation) "admin"))
       ["cancel"; "confirm"; "complete"; "no-show"; "reschedule"].

Definition registerBarberRoutes (h : Handler) : list Route :=
  [mkRoute "POST" "/api/v1/admin/branches" (Proxy (barberURL h) "/internal/v1/admin/branches" "admin");
   mkRoute "GET" "/api/v1/admin/branches" (Proxy (barberURL h) "/internal/v1/admin/branches" "admin");
   mkRoute "GET" "/api/v1/admin/branches/:id" (Proxy (barberURL h) "/internal/v1/admin/branches/:id" "admin");
   mkRoute "PATCH" "/api/v1/admin/branches/:id" (Proxy (barberURL h) "/internal/v1/admin/branches/:id" "admin");
   mkRoute "POST" "/api/v1/admin/barbers" (Proxy (barberURL h) "/internal/v1/admin/barbers" "admin");
   mkRoute "GET" "/api/v1/admin/barbers" (Proxy (barberURL h) "/internal/v1/admin/barbers" "admin");
   mkRoute "GET" "/api/v1/admin/barbers/:id" (Proxy (barberURL h) "/internal/v1/admin/barbers/:id" "admin");
   mkRoute "PATCH" "/api/v1/admin/barbers/:id" (Proxy (barberURL h) "/internal/v1/admin/barbers/:id" "admin");
   mkRoute "POST" "/api/v1/admin/barbers/:barber_id/link-identity" (Proxy (barberURL h) "/internal/v1/admin/barbers/:barber_id/link-identity" "admin");
   mkRoute "DELETE" "/api/v1/admin/barbers/:barber_id/link-identity" (Proxy (barberURL h) "/internal/v1/admin/barbers/:barber_id/link-identity" "admin")].

Definition registerCatalogRoutes (h : Handler) : list Route :=
  [mkRoute "POST" "/api/v1/admin/services" (Proxy (catalogURL h) "/internal/v1/admin/services" "admin");
   mkRoute "GET" "/api/v1/admin/services" (Proxy (catalogURL h) "/internal/v1/admin/services" "admin");
   mkRoute "GET" "/api/v1/admin/services/:id" (Proxy (catalogURL h) "/internal/v1/admin/services/:id" "admin");
   mkRoute "PATCH" "/api/v1/admin/services/:id" (Proxy (catalogURL h) "/internal/v1/admin/services/:id" "admin");
   mkRoute "POST" "/api/v1/admin/barbers/:barber_id/services" (Proxy (catalogURL h) "/internal/v1/admin/barbers/:barber_id/services" "admin");
   mkRoute "GET" "/api/v1/admin/barbers/:barber_id/services" (Proxy (catalogURL h) "/internal/v1/admin/barbers/:barber_id/services" "admin");
   mkRoute "DELETE" "/api/v1/admin/barbers/:barber_id/services/:service_id" (Proxy (catalogURL h) "/internal/v1/admin/barbers/:barber_id/services/:service_id" "admin")].

Definition registerSchedulingRoutes (h : Handler) : list Route :=
  [mkRoute "GET" "/api/v1/admin/barbers/:barber_id/schedule" (Proxy (schedulingURL h) "/internal/v1/admin/barbers/:barber_id/schedule" "admin");
   mkRoute "PUT" "/api/v1/admin/barbers/:barber_id/working-hours" (Proxy (schedulingURL h) "/internal/v1/admin/barbers/:barber_id/working-hours" "admin");
   mkRoute "GET" "/api/v1/admin/barbers/:barber_id/overrides" (Proxy (schedulingURL h) "/internal/v1/admin/barbers/:barber_id/overrides" "admin");
   mkRoute "POST" "/api/v1/admin/barbers/:barber_id/overrides" (Proxy (schedulingURL h) "/internal/v1/admin/barbers/:barber_id/overrides" "admin");
   mkRoute "PATCH" "/api/v1/admin/barbers/:barber_id/overrides/:id" (Proxy (schedulingURL h) "/internal/v1/admin/barbers/:barber_id/overrides/:id" "admin");
   mkRoute "DELETE" "/api/v1/admin/barbers/:barber_id/overrides/:id" (Proxy (schedulingURL h) "/internal/v1/admin/barbers/:barber_id/overrides/:id" "admin");
   mkRoute "GET" "/api/v1/admin/barbers/:barber_id/blocked-periods" (Proxy (schedulingURL h) "/internal/v1/admin/barbers/:barber_id/blocked-periods" "admin");
   mkRoute "POST" "/api/v1/admin/barbers/:barber_id/blocked-periods" (Proxy (schedulingURL h) "/internal/v1/admin/barbers/:barber_id/blocked-periods" "admin");
   mkRoute "DELETE" "/api/v1/admin/barbers/:barber_id/blocked-periods/:id" (Proxy (schedulingURL h) "/internal/v1/admin/barbers/:barber_id/blocked-periods/:id" "admin")].

(** The routes in the order of their registration, and the handler that
    [app.Use] registers after them: it gets the requests of any method that no
    route matches. *)
Definition Register (h : Handler) : list Route * endpoint :=
  ([mkRoute "POST" "/api/v1/platform/tenants" (PlatformProxy "/internal/v1/platform/tenants");
   mkRoute "GET" "/api/v1/platform/tenants" (PlatformProxy "/internal/v1/platform/tenants");
   mkRoute "GET" "/api/v1/platform/tenants/:id" (PlatformProxy "/internal/v1/platform/tenants/:id");
   mkRoute "POST" "/api/v1/platform/tenants/:id/activate" (PlatformProxy "/internal/v1/platform/tenants/:id/activate");
   mkRoute "POST" "/api/v1/platform/tenants/:id/suspend" (PlatformProxy "/internal/v1/platform/tenants/:id/suspend");
   mkRoute "GET" "/api/v1/platform/audit" (PlatformProxy "/internal/v1/platform/audit");
   mkRoute "GET" "/api/v1/platform/tenants/:id/owners" (PlatformServiceProxy (authURL h) "/internal/v1/platform/tenants/:id/owners");
   mkRoute "GET" "/api/v1/platform/health" PlatformHealth;
   mkRoute "POST" "/api/v1/platform/tenants/:id/domains" (PlatformProxy "/internal/v1/platform/tenants/:id/domains");
   mkRoute "GET" "/api/v1/platform/tenants/:id/domains" (PlatformProxy "/internal/v1/platform/tenants/:id/domains");
   mkRoute "POST" "/api/v1/platform/tenants/:id/domains/:domain_id/verify" (PlatformProxy "/internal/v1/platform/tenants/:id/domains/:domain_id/verify");
   mkRoute "POST" "/api/v1/platform/tenants/:id/domains/:domain_id/activate" (PlatformProxy "/internal/v1/platform/tenants/:id/domains/:domain_id/activate");
   mkRoute "POST" "/api/v1/platform/tenants/:id/domains/:domain_id/deactivate" (PlatformProxy "/internal/v1/platform/tenants/:id/domains/:domain_id/deactivate");
   mkRoute "GET" "/api/v1/public/config" Config]
  ++ registerCustomerRoutes h ++ registerAuthRoutes h ++ registerTenantRoutes h
  ++ registerAppointmentRoutes h ++ registerBarberRoutes h ++ registerCatalogRoutes h
  ++ registerSchedulingRoutes h, Frontend).
Abbreviation routes h := (Register h).1.
Abbreviation fallback h := (Register h).2.

(** The handler behind an endpoint; for [Auth] the path is the current value
    of the captured variable. *)
Definition serve `{GoLib, GatewayLib} (net : list UpRequest -> UpRequest -> up_result) (h : Handler)
    (e : endpoint) (c : Ctx) : GW gw_reply :=
  match e with
  | PlatformProxy path => platformProxy net h path c
  | PlatformServiceProxy base path => platformServiceProxy net h base path c
  | PlatformHealth => platformHealth net h c
  | Config => config net h c
  | Auth path => r ← auth net h path c; mret r.1
  | Proxy base path appType => proxy net h base path appType c
  | Frontend => frontend net h c
  end.

(** ** [config] *)

Record GatewayConfig := mkGatewayConfig {
  gc_service : ServiceConfig;
  TenantServiceURL : string; AuthServiceURL : string; BarberServiceURL : string;
  CatalogServiceURL : string; SchedulingServiceURL : string; AppointmentServiceURL : string;
  NotificationServiceURL : string; CustomerServiceURL : string;
  AdminWebURL : string; BookingWebURL : string; PlatformAdminToken : string;
  OutboundTimeout : duration
}.

Definition defaultOutboundTimeoutMS : Z := 9000.

Definition outboundTimeout (getenv : string -> string) (key : string) (fallbackMS : Z) : duration :=
  let v := getenv key in
  let fallback := int64 (fallbackMS * Millisecond)%Z in
  if v !=? EmptyString then
    match Atoi v with
    | Some ms => if (0 <? ms)%Z then int64 (ms * Millisecond)%Z else fallback
    | None => fallback
    end
  else fallback.

Definition gateway_Load (getenv : string -> string) : GatewayConfig :=
  mkGatewayConfig (Load getenv "gateway-service")
    (value getenv "TENANT_SERVICE_URL" "http://tenant-service:8080")
    (value getenv "AUTH_SERVICE_URL" "http://auth-service:8080")
    (value getenv "BARBER_SERVICE_URL" "http://barber-service:8080")
    (value getenv "CATALOG_SERVICE_URL" "http://catalog-service:8080")
    (value getenv "SCHEDULING_SERVICE_URL" "http://scheduling-service:8080")
    (value getenv "APPOINTMENT_SERVICE_URL" "http://appointment-service:8080")
    (value getenv "NOTIFICATION_SERVICE_URL" "http://notification-service:8080")
    (value getenv "CUSTOMER_SERVICE_URL" "http://customer-service:8080")
    (value getenv "ADMIN_WEB_URL" "http://admin-web:3000")
    (value getenv "BOOKING_WEB_URL" "http://booking-web:3000")
    (value getenv "PLATFORM_ADMIN_TOKEN" "")
    (outboundTimeout getenv "GATEWAY_OUTBOUND_TIMEOUT_MS" defaultOutboundTimeoutMS).

(** [main]: the start-up check and the handler it registers. *)
Definition gateway_main `{GoLib} (production : bool) (getenv : string -> string) : option Handler :=
  let cfg := gateway_Load getenv in
  match ServiceConfig_Validate production (gc_service cfg) with
  | Err _ => None
  | Ok _ =>
      let token := InternalAuthToken (gc_service cfg) in
      if (token ==? EmptyString) || (PlatformAdminToken cfg ==? EmptyString) then None
      else
        Some (New (NewResolver (TenantServiceURL cfg) token) (TenantServiceURL cfg) (AuthServiceURL cfg)
                (BarberServiceURL cfg) (CatalogServiceURL cfg) (SchedulingServiceURL cfg)
                (AppointmentServiceURL cfg) (NotificationServiceURL cfg) (CustomerServiceURL cfg) token
                (PlatformAdminToken cfg) (OutboundTimeout cfg) [AdminWebURL cfg; BookingWebURL cfg])
  end.

(** * Lemmas *)

Lemma hget_hset k k' v h : hget k (hset k' v h) = if k ==? k' then Some v else hget k h.
Proof.
  induction h as [|[k0 v0] h IH]; cbn; [done|]. destruct (k' ==? k0) eqn:E0; cbn; bsimpl.
  - subst. by destruct (k ==? k0).
  - destruct (k ==? k0) eqn:E1; bsimpl; [|done]. subst. by rewrite bool_decide_false by done.
Qed.

Lemma hget_set k k' v u : hget k (up_header (set_header k' v u)) = if k ==? k' then Some v else hget k (up_header u).
Proof. apply hget_hset. Qed.

Lemma hget_nonempty k k' v u : k ≠ k' → hget k (up_header (set_nonempty k' v u)) = hget k (up_header u).
Proof. intros Hk. unfold set_nonempty. destruct (_ !=? _); [|done]. rewrite hget_set. by rewrite bool_decide_false. Qed.

Lemma hget_copied k names get : k ∉ names → hget k (copied names get) = None.
Proof.
  unfold copied. induction names as [|x names IH]; intros Hk; [done|]. apply not_elem_of_cons in Hk as [Hx Hn].
  cbn. destruct (get x !=? EmptyString); cbn; [|auto]. rewrite bool_decide_false by done. auto.
Qed.

(** Headers leave the rest of a request alone. *)
Lemma set_nonempty_method k v u : up_method (set_nonempty k v u) = up_method u.
Proof. unfold set_nonempty. by destruct (_ !=? _). Qed.
Lemma set_nonempty_url k v u : up_url (set_nonempty k v u) = up_url u.
Proof. unfold set_nonempty. by destruct (_ !=? _). Qed.
Lemma set_nonempty_query k v u : up_rawquery (set_nonempty k v u) = up_rawquery u.
Proof. unfold set_nonempty. by destruct (_ !=? _). Qed.
Lemma set_nonempty_body k v u : up_body (set_nonempty k v u) = up_body u.
Proof. unfold set_nonempty. by destruct (_ !=? _). Qed.
Ltac fields := rewrite ?set_nonempty_method, ?set_nonempty_url, ?set_nonempty_query, ?set_nonempty_body; done.

(** Look a header up in a request built step by step. *)
Ltac solve_hget :=
  repeat first [rewrite hget_nonempty by done | rewrite hget_set; rewrite ?bool_decide_refl];
  vm_compute; reflexivity.

Section Edge.
Context `{GoLib, GatewayLib} (net : list UpRequest -> UpRequest -> up_result) (h : Handler).

Definition host_lookup (c : Ctx) : UpRequest := resolve_request (h_resolver h) (hostname c).

(** The tenant context tenant-service answers for the host of [c]. *)
Definition resolves (c : Ctx) (log : list UpRequest) (r : Resolution) : Prop :=
  resolution_of (net log (host_lookup c)) = Ok r.

(** The host types an endpoint serves. *)
Definition allowed (e : endpoint) (r : Resolution) : Prop :=
  match e with
  | Proxy _ _ appType => Res_AppType r = appType
  | Auth _ => Res_AppType r = "admin"%string
  | Config => True
  | _ => False
  end.

(** The endpoints behind the platform credential. *)
Definition platform_only (e : endpoint) : bool :=
  match e with PlatformProxy _ | PlatformServiceProxy _ _ | PlatformHealth => true | _ => false end.

Definition carries (u : UpRequest) (token tenant app : option string) : Prop :=
  hget InternalTokenHeader (up_header u) = token ∧ hget TenantIDHeader (up_header u) = tenant ∧
  hget AppTypeHeader (up_header u) = app.

Abbreviation customer_id u := (hget "X-Customer-ID" (up_header u)).

(** The customer id that customer-service gave for the session cookie of [c]
    and the tenant of [r]. *)
Definition session_answer (c : Ctx) (log : list UpRequest) (r : Resolution) (id : string) : Prop :=
  ∃ u, carries u (Some (h_token h)) (Some (Res_TenantID r)) (Some (Res_AppType r)) ∧
    hget "X-Customer-Session" (up_header u) = Some (session_cookie c) ∧
    customer_of (net (log ++ [host_lookup c]) u) = Some id.

(** A bare question to one of the services: no header at all, so neither token
    nor context. *)
Definition health_probe (u : UpRequest) : Prop :=
  ∃ name base, (name, base) ∈ services h ∧
    (u = mkUpRequest "GET" (base +:+ "/ready") None None [] EmptyString ∨
     u = mkUpRequest "GET" (base +:+ "/metrics") None None [] EmptyString).

(** The page of the client, from the web server of the host's type, without
    token and context. *)
Definition page_request (c : Ctx) (log : list UpRequest) (u : UpRequest) : Prop :=
  (∃ r, resolves c log r ∧
     (Res_AppType r = "admin"%string ∧ up_url u = (adminWebURL h +:+ Ctx_OriginalURL c)%string ∨
      Res_AppType r = "booking"%string ∧ up_url u = (bookingWebURL h +:+ Ctx_OriginalURL c)%string)) ∧
  carries u None None None ∧ customer_id u = None.

(** What the gateway may send on behalf of [c] when it has sent [log]. *)
Inductive edge_request (e : endpoint) (c : Ctx) (log : list UpRequest) (u : UpRequest) : Prop :=
| e_lookup : platform_only e = false → u = host_lookup c → edge_request e c log u
| e_session r :
    resolves c log r → allowed e r →
    carries u (Some (h_token h)) (Some (Res_TenantID r)) (Some (Res_AppType r)) →
    customer_id u = None → up_url u = customerURL h +:+ "/internal/v1/internal/customer/session" →
    edge_request e c log u
| e_tenant r :
    resolves c log r → allowed e r →
    carries u (Some (h_token h)) (Some (Res_TenantID r)) (Some (Res_AppType r)) →
    (∀ id, customer_id u = Some id → session_answer c log r id) → edge_request e c log u
| e_platform :
    PlatformVerifier_Verify (h_platformAuth h) (Ctx_Get c PlatformTokenHeader) = true →
    platform_only e = true → carries u (Some (h_token h)) None None → customer_id u = None → edge_request e c log u
| e_probe :
    PlatformVerifier_Verify (h_platformAuth h) (Ctx_Get c PlatformTokenHeader) = true →
    e = PlatformHealth → health_probe u → edge_request e c log u
| e_page :
    e = Frontend → page_request c log u → edge_request e c log u.

Definition sends (P : UpRequest -> Prop) {A} (m : GW A) (log : list UpRequest) : Prop :=
  ∃ sent, (m log).2 = log ++ sent ∧ Forall P sent.

Lemma sends_ret P {A} (a : A) log : sends P (mret a) log.
Proof. exists []. by rewrite app_nil_r. Qed.

Lemma sends_do P {A} u (k : up_result -> GW A) log :
  P u → sends P (k (net log u)) (log ++ [u]) → sends P (Do net u ≫= k) log.
Proof.
  intros Hu (sent & E & Hs). exists (u :: sent). split; [|by constructor].
  change (log ++ u :: sent) with (log ++ [u] ++ sent). rewrite app_assoc, <- E. done.
Qed.

Lemma sends_resolve P {A} c (k : res resolve_error Resolution -> GW A) log :
  P (host_lookup c) →
  (∀ e, sends P (k (Err e)) log) →
  sends P (k (resolution_of (net log (host_lookup c)))) (log ++ [host_lookup c]) →
  sends P (Resolve net (h_resolver h) (hostname c) ≫= k) log.
Proof.
  intros Hl Herr Hk. unfold Resolve, NewRequest. destruct (NewRequest_ok _ _); [|apply Herr].
  change (set_header InternalTokenHeader (Resolver_token (h_resolver h)) _) with (host_lookup c).
  destruct Hk as (sent & E & Hs). exists (host_lookup c :: sent). split; [|by constructor].
  change (log ++ host_lookup c :: sent) with (log ++ [host_lookup c] ++ sent). rewrite app_assoc, <- E. done.
Qed.

Lemma sends_resolved P c (k : Resolution -> GW gw_reply) log :
  P (host_lookup c) →
  (∀ r, resolves c log r → sends P (k r) (log ++ [host_lookup c])) → sends P (resolved net h c k) log.
Proof.
  intros Hl Hk. unfold resolved. apply sends_resolve; [done|intros []; apply sends_ret|].
  destruct (resolution_of _) as [r|[]] eqn:E; [by apply Hk|apply sends_ret..].
Qed.

Lemma edge_platform path c log :
  sends (edge_request (PlatformProxy path) c log) (platformProxy net h path c) log.
Proof.
  unfold platformProxy. destruct (PlatformVerifier_Verify _ _) eqn:Ev; cbn [negb]; [|apply sends_ret].
  cbv zeta. unfold NewRequest. destruct (NewRequest_ok _ _); [|apply sends_ret].
  apply sends_do; [|apply sends_ret]. apply e_platform; [done|done| |]; [repeat split|]; cbn [up_header]; solve_hget.
Qed.

Lemma edge_platform_service base path c log :
  sends (edge_request (PlatformServiceProxy base path) c log) (platformServiceProxy net h base path c) log.
Proof.
  unfold platformServiceProxy. destruct (PlatformVerifier_Verify _ _) eqn:Ev; cbn [negb]; [|apply sends_ret].
  cbv zeta. unfold NewRequest. destruct (NewRequest_ok _ _); [|apply sends_ret].
  apply sends_do; [|apply sends_ret]. apply e_platform; [done|done| |]; [repeat split|]; solve_hget.
Qed.

Lemma insert_at_perm {A} n (x : A) l : insert_at n x l ≡ₚ x :: l.
Proof. revert l. induction n as [|n IH]; intros [|y l]; cbn; [done..|]. rewrite IH. apply Permutation_swap. Qed.
Lemma walk_perm {A} choices (l : list A) : walk choices l ≡ₚ l.
Proof. revert choices. induction l as [|x l IH]; intros choices; cbn; [done|]. by rewrite insert_at_perm, IH. Qed.

Lemma sends_bind P {A B} (m : GW A) (k : A -> GW B) log :
  sends P m log → (∀ a log', sends P (k a) log') → sends P (m ≫= k) log.
Proof.
  intros (sent & E & Hs) Hk. unfold sends, mbind, gw_bind. destruct (m log) as [a log1]. cbn in E. subst log1.
  destruct (Hk a (log ++ sent)) as (sent' & E' & Hs'). exists (sent ++ sent'). rewrite E', app_assoc. split; [done|].
  by apply Forall_app.
Qed.

Lemma sends_probe P name base log :
  (name, base) ∈ services h → (∀ u, health_probe u → P u) → sends P (probe net name base) log.
Proof.
  intros Hin HP. unfold probe, NewRequest. destruct (NewRequest_ok _ _); [|apply sends_ret].
  apply sends_do; [apply HP; exists name, base; auto|]. cbv zeta. destruct (_ || _); [|apply sends_ret].
  destruct (NewRequest_ok _ _); [|apply sends_ret]. apply sends_do; [apply HP; exists name, base; auto|apply sends_ret].
Qed.

Lemma sends_probe_all P order result log :
  (∀ p, p ∈ order → p ∈ services h) → (∀ u, health_probe u → P u) → sends P (probe_all net order result) log.
Proof.
  intros Hin HP. revert result log. induction order as [|[name base] order IH]; intros result log; cbn [probe_all];
    [apply sends_ret|].
  apply sends_bind; [apply sends_probe; [apply Hin; left|done]|]. intros [entry|] log'; [|apply sends_ret].
  apply IH. intros p Hp. apply Hin. by right.
Qed.

Lemma sends_platformHealth P c log :
  (PlatformVerifier_Verify (h_platformAuth h) (Ctx_Get c PlatformTokenHeader) = true → ∀ u, health_probe u → P u) →
  sends P (platformHealth net h c) log.
Proof.
  intros HP. unfold platformHealth. destruct (PlatformVerifier_Verify _ _); cbn [negb]; [|apply sends_ret].
  destruct (sends_probe_all P (walk (map_choices log) (services h)) ∅ log) as (sent & E & Hs); [|auto|by exists sent].
  intros p. by rewrite walk_perm.
Qed.

(** A request without customer id that carries the context of the host. *)
Lemma edge_context e c log r u :
  resolves c log r → allowed e r →
  carries u (Some (h_token h)) (Some (Res_TenantID r)) (Some (Res_AppType r)) →
  customer_id u = None → edge_request e c log u.
Proof. intros Hr Ha Hc Hn. eapply e_tenant; [done..|]. by rewrite Hn. Qed.

Lemma edge_config c log : sends (edge_request Config c log) (config net h c) log.
Proof.
  apply sends_resolved; [by apply e_lookup|]. intros r Hr. unfold NewRequest.
  destruct (NewRequest_ok _ _); [|apply sends_ret]. apply sends_do; [|apply sends_ret].
  eapply edge_context; [done|done| |]; [repeat split|]; solve_hget.
Qed.

Lemma edge_auth path c log :
  sends (edge_request (Auth path) c log) (auth net h path c) log.
Proof.
  unfold auth. apply sends_resolve; [by apply e_lookup|intros []; apply sends_ret|].
  destruct (resolution_of _) as [r|[]] eqn:Hr; [|apply sends_ret..].
  destruct (Res_AppType r ==? "admin"%string) eqn:Ea; cbn [negb]; [|apply sends_ret]. bsimpl.
  cbv zeta. unfold NewRequest. destruct (NewRequest_ok _ _); [|apply sends_ret].
  apply sends_do; [|apply sends_ret].
  eapply edge_context; [exact Hr|done| |]; [repeat split|]; solve_hget.
Qed.

Lemma edge_frontend c log : sends (edge_request Frontend c log) (frontend net h c) log.
Proof.
  unfold frontend. destruct (_ && _); [apply sends_ret|]. destruct (_ || _); [apply sends_ret|].
  apply sends_resolved; [by apply e_lookup|]. intros r Hr.
  destruct (if _ ==? _ then _ else _) as [base|] eqn:Eb; [|apply sends_ret]. unfold NewRequest.
  destruct (NewRequest_ok _ _); [|apply sends_ret]. cbv zeta. apply sends_do; [|apply sends_ret].
  apply e_page; [done|]. split; [|split; [repeat split|]; cbn [up_header]; apply hget_copied; by vm_compute; set_solver].
  exists r. split; [done|]. destruct (Res_AppType r ==? "admin"%string) eqn:E1; bsimpl; [left; by simplify_eq|].
  destruct (Res_AppType r ==? "booking"%string) eqn:E2; bsimpl; [right; by simplify_eq|done].
Qed.

(** The session check sends at most one request and yields what
    customer-service answered. *)
Lemma customer_header_cases base path r c log :
  (customer_header net h base path r c log) = (None, log) ∨
  ∃ u, carries u (Some (h_token h)) (Some (Res_TenantID r)) (Some (Res_AppType r)) ∧
    hget "X-Customer-Session" (up_header u) = Some (session_cookie c) ∧ customer_id u = None ∧
    up_method u = "GET"%string ∧ up_url u = (customerURL h +:+ "/internal/v1/internal/customer/session")%string ∧
    customer_header net h base path r c log = (customer_of (net log u), log ++ [u]).
Proof.
  unfold customer_header. destruct (_ && _); [|by left]. cbv zeta.
  destruct (session_cookie c !=? EmptyString); [|by left].
  unfold NewRequest. destruct (NewRequest_ok _ _); [|by left]. right. eexists.
  split; [|split; [|split; [|split; [|split; [|reflexivity]]]]]; [repeat split|..]; solve_hget.
Qed.

Lemma edge_proxy base path appType c log :
  sends (edge_request (Proxy base path appType) c log) (proxy net h base path appType c) log.
Proof.
  apply sends_resolved; [by apply e_lookup|]. intros r Hr.
  destruct (Res_AppType r ==? appType) eqn:Ea; cbn [negb]; [|apply sends_ret]. bsimpl.
  unfold NewRequest. destruct (NewRequest_ok _ _); [|apply sends_ret]. cbv zeta.
  set (req := set_nonempty "Cookie" _ _).
  assert (carries req (Some (h_token h)) (Some (Res_TenantID r)) (Some (Res_AppType r)) ∧ customer_id req = None)
    as [Hreq Hnone] by (split; [repeat split|]; unfold req; solve_hget).
  destruct (customer_header_cases base path r c (log ++ [host_lookup c])) as [E|(u & Hu & Hsess & Hcu & _ & Hurl & E)].
  - unfold sends, mbind, gw_bind. rewrite E. apply sends_do; [|apply sends_ret]. by eapply edge_context.
  - unfold sends, mbind, gw_bind. rewrite E.
    destruct (sends_do (edge_request (Proxy base path appType) c log)
      (match customer_of (net (log ++ [host_lookup c]) u) with
       | Some id => set_header "X-Customer-ID" id req | None => req end)
      (λ res, mret (forward_cookies res)) ((log ++ [host_lookup c]) ++ [u])) as (sent & Es & Hs).
    + destruct (customer_of _) as [id|] eqn:Eid; [|by eapply edge_context].
      eapply (e_tenant _ _ _ _ r); [done|done| |].
      * destruct Hreq as (H1 & H2 & H3). split; [|split]; rewrite hget_set; by rewrite bool_decide_false.
      * intros id'. rewrite hget_set, bool_decide_refl. intros [= <-]. by exists u.
    + apply sends_ret.
    + exists (u :: sent). split; [|constructor; [by eapply e_session|done]].
      etrans; [exact Es|]. by rewrite <- app_assoc.
Qed.

Lemma edge_serve e c log : sends (edge_request e c log) (serve net h e c) log.
Proof.
  destruct e; cbn [serve].
  - apply edge_platform.
  - apply edge_platform_service.
  - apply sends_platformHealth. intros Hv u Hu. by apply e_probe.
  - apply edge_config.
  - destruct (edge_auth path c log) as (sent & E & Hs). exists sent. split; [|done]. rewrite <- E.
    unfold mbind, gw_bind. by destruct (auth net h path c log).
  - apply edge_proxy.
  - apply edge_frontend.
Qed.
End Edge.

(** A gateway that starts has a non-empty internal token and platform
    credential, and its requests to the services time out. *)
Lemma gateway_main_ready `{GoLib} production getenv h :
  gateway_main production getenv = Some h →
  h_token h ≠ EmptyString ∧ PlatformVerifier_expected (h_platformAuth h) ≠ EmptyString ∧ (0 < h_timeout h)%Z.
Proof.
  unfold gateway_main. cbv zeta. destruct (ServiceConfig_Validate _ _); [|done].
  destruct (_ || _) eqn:E; [done|]. intros [= <-]. apply orb_false_iff in E as [E1 E2].
  cbn [New h_token h_platformAuth PlatformVerifier_expected h_timeout]. bsimpl. split; [exact E1|]. split; [exact E2|].
  destruct (Z.leb_spec (outboundTimeout getenv "GATEWAY_OUTBOUND_TIMEOUT_MS" defaultOutboundTimeoutMS) 0); [done|lia].
Qed.

(** ** Headers a client can forge *)

Definition forged : list string :=
  [InternalTokenHeader; TenantIDHeader; AppTypeHeader; "X-Customer-ID"; "X-Customer-Session"]%string.

Definition with_headers (get : string -> string) (c : Ctx) : Ctx :=
  mkCtx (Ctx_Method c) (Ctx_Hostname c) (Ctx_Path c) (Ctx_OriginalURL c) (Ctx_QueryString c) (Ctx_Body c)
    (Ctx_RequestID c) get (Ctx_Cookies c) (Ctx_Params c).

Lemma copied_ext names f g : (∀ k, k ∈ names → f k = g k) → copied names f = copied names g.
Proof.
  unfold copied. induction names as [|x names IH]; intros Hfg; [done|]. cbn.
  rewrite (Hfg x) by set_solver. destruct (g x !=? EmptyString); cbn; rewrite ?(Hfg x) by set_solver;
    rewrite IH by set_solver; done.
Qed.

Lemma serve_forged `{GoLib, GatewayLib} net h e c get log :
  (∀ k, k ∉ forged → get k = Ctx_Get c k) → serve net h e (with_headers get c) log = serve net h e c log.
Proof.
  intros Hget.
  assert (∀ k, bool_decide (k ∉ forged) = true → get k = Ctx_Get c k) as Hk
    by (intros k Hk; apply Hget; by bsimpl).
  assert (requestID (with_headers get c) = requestID c) as Hid
    by (unfold requestID; cbn [with_headers Ctx_RequestID Ctx_Get]; by rewrite (Hk RequestIDHeader)).
  assert (copied browser_headers get = copied browser_headers (Ctx_Get c)) as Hcopied.
  { apply copied_ext. intros k Hin. apply Hk.
    assert (Forall (λ k, bool_decide (k ∉ forged) = true) browser_headers) as Hall by by repeat constructor.
    by apply (proj1 (Forall_forall _ _) Hall). }
  destruct e; cbn [serve]; unfold platformProxy, platformServiceProxy, platformHealth, config, auth, proxy, frontend, with_context;
    cbv zeta; rewrite ?Hid; cbn [with_headers Ctx_Method Ctx_Path Ctx_OriginalURL Ctx_QueryString Ctx_Body Ctx_Get Ctx_Params];
    rewrite ?(Hk PlatformTokenHeader), ?(Hk "Content-Type"%string), ?(Hk "X-Platform-Actor"%string),
      ?(Hk "Cookie"%string), ?(Hk "Idempotency-Key"%string), ?(Hk "Host"%string), ?Hcopied by done; done.
Qed.

(** The application type of the routes of an area. *)
Definition area_of (e : endpoint) : option string :=
  match e with Proxy _ _ appType => Some appType | Auth _ => Some "admin"%string | _ => None end.

Lemma admin_routes h rt :
  rt ∈ routes h → HasPrefix (r_pattern rt) "/api/v1/admin/" = true →
  area_of (r_endpoint rt) = Some "admin"%string.
Proof.
  assert (forallb (λ rt, negb (HasPrefix (r_pattern rt) "/api/v1/admin/")
    || (area_of (r_endpoint rt) ==? Some "admin"%string)) (routes h) = true) as Hall by by vm_compute.
  rewrite forallb_forall in Hall. intros Hin Hp. specialize (Hall rt (proj1 (list_elem_of_In _ _) Hin)).
  rewrite Hp in Hall. cbn [negb orb] in Hall. by bsimpl.
Qed.

Lemma platform_routes h rt :
  rt ∈ routes h → HasPrefix (r_pattern rt) "/api/v1/platform/" = platform_only (r_endpoint rt).
Proof.
  assert (forallb (λ rt, Bool.eqb (HasPrefix (r_pattern rt) "/api/v1/platform/") (platform_only (r_endpoint rt)))
    (routes h) = true) as Hall by by vm_compute.
  rewrite forallb_forall in Hall. intros Hin. by apply Bool.eqb_prop, Hall, list_elem_of_In.
Qed.

(** C9: the gateway is the trust boundary.  For every endpoint, the health page
    and the web pages included, and every request of a client, each request the
    gateway sends is one of these: the lookup of the host, on endpoints that are
    not the platform's; a request with the internal token and exactly the tenant
    and the application type tenant-service answered for that host, only if that
    type is the one the endpoint serves, and with a customer id only if
    customer-service gave it for the session cookie within that tenant; on the
    platform's endpoints, and only after the platform credential verified, a
    request with the token and no tenant, or, for the health page, a bare GET of
    /ready or /metrics of one of the eight services, without token, tenant or
    any other header; or the page of the client from the web server of the
    host's type, without token and context.  Routes below /api/v1/admin/ reach a
    service only on hosts of type admin and routes below /api/v1/platform/ only
    with the credential.  Forged values of the internal headers have no effect
    at all. *)
Theorem gateway_trust `{GoLib, GatewayLib} net h e c log :
  (∃ sent, (serve net h e c log).2 = log ++ sent ∧ Forall (edge_request net h e c log) sent) ∧
  (∀ rt r, rt ∈ routes h → HasPrefix (r_pattern rt) "/api/v1/admin/" = true →
     allowed (r_endpoint rt) r → Res_AppType r = "admin"%string) ∧
  (∀ rt, rt ∈ routes h → HasPrefix (r_pattern rt) "/api/v1/platform/" = platform_only (r_endpoint rt)) ∧
  (∀ get, (∀ k, k ∉ forged → get k = Ctx_Get c k) →
     serve net h e (with_headers get c) log = serve net h e c log).
Proof.
  split; [apply edge_serve|]. split; [|split; [intros rt; apply platform_routes|intros get; apply serve_forged]].
  intros rt r Hin Hp Ha. pose proof (admin_routes h rt Hin Hp) as Harea.
  by destruct (r_endpoint rt); cbn in *; simplify_eq.
Qed.

(** ** The captured path of [auth] *)

(** A string without a colon has no placeholder. *)
Fixpoint no_colon (s : string) : bool :=
  match s with EmptyString => true | String c s' => (c !=? ":"%char) && no_colon s' end.

Lemma replace_no_colon s new : no_colon s = true → ReplaceAll s ":id" new = s.
Proof.
  unfold ReplaceAll. induction s as [|c s IH]; [done|]. cbn [no_colon]. intros Hs. bsimpl.
  cbn [replace_from String.prefix]. destruct (ascii_dec ":" c) as [<-|_]; [done|]. by rewrite IH.
Qed.

Lemma no_colon_app s t : no_colon (s +:+ t) = no_colon s && no_colon t.
Proof. induction s as [|c s IH]; [done|].
  change (String c s +:+ t) with (String c (s +:+ t)). cbn [no_colon]. by rewrite IH, andb_assoc.
Qed.

Lemma Resolve_run `{GoLib, GatewayLib} net h c log :
  NewRequest_ok "GET" (up_url (host_lookup h c)) = true →
  Resolve net (h_resolver h) (hostname c) log = (resolution_of (net log (host_lookup h c)), log ++ [host_lookup h c]).
Proof. unfold Resolve, NewRequest. cbn [host_lookup resolve_request up_url]. by intros ->. Qed.

Lemma auth_forwards `{GoLib, GatewayLib} net h path c log r :
  NewRequest_ok "GET" (up_url (host_lookup h c)) = true →
  resolves net h c log r → Res_AppType r = "admin"%string →
  let path' := ReplaceAll path ":id" (Ctx_Params c "id") in
  NewRequest_ok (Ctx_Method c) (authURL h +:+ "/internal/v1/auth" +:+ path') = true →
  ∃ u, auth net h path c log = ((forward_cookies (net (log ++ [host_lookup h c]) u), path'), log ++ [host_lookup h c; u]) ∧
    up_method u = Ctx_Method c ∧ up_url u = authURL h +:+ "/internal/v1/auth" +:+ path' ∧
    up_rawquery u = None ∧ up_body u = Ctx_Body c.
Proof.
  intros Hlook Hr Ha. cbv zeta. intros Hok. unfold auth, mbind, gw_bind.
  rewrite Resolve_run by done. unfold resolves in Hr. rewrite Hr, Ha. rewrite bool_decide_refl. cbn [negb].
  unfold NewRequest. rewrite Hok. unfold mbind, gw_bind, mret, gw_ret, Do. cbn [fst snd].
  eexists. split; [by rewrite <- app_assoc|]. repeat split; fields.
Qed.

(** a member route of the gateway keeps the member of its first request.
    The handler substitutes the id in the path variable it captures, so after
    a first forwarded request for member [id1], every later request of the
    route, whatever member it names, is forwarded for [id1]: a request to
    deactivate or to change the role of one member acts on another. *)
Theorem auth_keeps_first_id `{GoLib, GatewayLib} net h suffix c1 c2 log log1 reply1 path1 r1 r2 :
  suffix ∈ [""; "/role"; "/activate"; "/deactivate"]%string →
  let path := ("/members/:id" +:+ suffix)%string in
  let id1 := Ctx_Params c1 "id" in
  let target := (authURL h +:+ "/internal/v1/auth/members/" +:+ id1 +:+ suffix)%string in
  no_colon id1 = true →
  NewRequest_ok "GET" (up_url (host_lookup h c1)) = true → NewRequest_ok "GET" (up_url (host_lookup h c2)) = true →
  NewRequest_ok (Ctx_Method c1) target = true → NewRequest_ok (Ctx_Method c2) target = true →
  resolves net h c1 log r1 → Res_AppType r1 = "admin"%string →
  auth net h path c1 log = ((reply1, path1), log1) →
  resolves net h c2 log1 r2 → Res_AppType r2 = "admin"%string →
  Auth path ∈ map r_endpoint (routes h) ∧
  ∃ u, (auth net h path1 c2 log1).2 = log1 ++ [host_lookup h c2; u] ∧ up_method u = Ctx_Method c2 ∧ up_url u = target.
Proof.
  intros Hs path id1 target Hid Hl1 Hl2 Hok1 Hok2 Hr1 Ha1 E Hr2 Ha2. subst id1. set (v := Ctx_Params c1 "id") in *.
  assert (Auth path ∈ map r_endpoint (routes h) ∧ no_colon suffix = true ∧
    ReplaceAll path ":id" v = ("/members/" +:+ v +:+ suffix)%string) as (Hroute & Hsuf & Hrep).
  { unfold path. rewrite !elem_of_cons in Hs. destruct Hs as [-> |[-> |[-> |[-> |Hs]]]]; [..|set_solver];
      (split; [by apply list_elem_of_In; cbn; tauto|]; split; [done|]; reflexivity). }
  split; [exact Hroute|].
  assert (∀ p, authURL h +:+ "/internal/v1/auth" +:+ "/members/" +:+ p = authURL h +:+ "/internal/v1/auth/members/" +:+ p)%string
    as Hurl by done.
  destruct (auth_forwards net h path c1 log r1 Hl1 Hr1 Ha1) as (u1 & Ep & _);
    fold v; [by rewrite Hrep|]. fold v in Ep; rewrite Hrep, E in Ep. injection Ep as _ -> _.
  assert (ReplaceAll ("/members/" +:+ v +:+ suffix) ":id" (Ctx_Params c2 "id") = "/members/" +:+ v +:+ suffix)%string
    as Hkeep by (apply replace_no_colon; by rewrite !no_colon_app, Hid, Hsuf).
  destruct (auth_forwards net h ("/members/" +:+ v +:+ suffix)%string c2 log1 r2 Hl2 Hr2 Ha2) as (u & Elog & Em & Eu & _);
    [by rewrite Hkeep|]. exists u. rewrite Elog. split; [done|]. split; [exact Em|]. by rewrite Eu, Hkeep.
Qed.

(** ** Examples *)

Section Examples.
#[local] Instance sample_lib : GoLib := TestLib.
#[local] Instance sample_gateway_lib : GatewayLib :=
  PageLessLib (λ s, s) (λ _ _, true) (λ _, Some ("1", "admin")%string) (λ s, Some s).

Definition sample_net (log : list UpRequest) (u : UpRequest) : up_result :=
  UpReply 200 (λ _, EmptyString) [] (Some "body"%string).

Definition sample_handler : Handler :=
  New (NewResolver "http://tenant" "token") "http://tenant" "http://auth/" "http://barber" "http://catalog"
    "http://scheduling" "http://appointment" "http://notification" "http://customer" "token" "platform" 0 [].

Definition sample_ctx (method id : string) : Ctx :=
  mkCtx method "admin.shop.example" EmptyString EmptyString EmptyString EmptyString None (λ _, EmptyString)
    (λ _, EmptyString) (λ k, if k ==? "id"%string then id else EmptyString).

Lemma auth_keeps_first_id_witness :
  let first := auth sample_net sample_handler "/members/:id/deactivate" (sample_ctx "POST" "alice") [] in
  ∃ u, (auth sample_net sample_handler first.1.2 (sample_ctx "POST" "bob") first.2).2
       = first.2 ++ [host_lookup sample_handler (sample_ctx "POST" "bob"); u] ∧
    up_url u = "http://auth/internal/v1/auth/members/alice/deactivate"%string.
Proof.
  intros first.
  destruct (auth_keeps_first_id sample_net sample_handler "/deactivate" (sample_ctx "POST" "alice")
    (sample_ctx "POST" "bob") [] first.2 first.1.1 first.1.2 (mkResolution "1" "admin") (mkResolution "1" "admin"))
    as (_ & u & Hlog & _ & Hurl); [set_solver|done|done|done|done|done|done|done|by vm_compute|done|done|].
  exists u. split; [exact Hlog|]. rewrite Hurl. reflexivity.
Defined.
End Examples.
