(* ===== verification/Catalog.v ===== *)
(** * Catalog: catalog-service

    The services a shop offers with their prices and their assignment to
    barbers: the tables of [migrations], [internal/domain],
    [internal/repository], [internal/application] and [internal/handler]. *)
From S2P Require Import Prelude Effects GoTime Http Platform.

Local Open Scope Z_scope.

(** ** Data *)

Record CService := mkCService {
  CService_ID : uuid; CService_Name : string; CService_Duration : Z; CService_Before : Z;
  CService_After : Z; CService_Price : string; CService_Currency : string; CService_Active : bool
}.

Record ServiceInput := mkServiceInput {
  SI_Name : string; SI_Duration : Z; SI_Before : Z; SI_After : Z; SI_Price : string;
  SI_Currency : string; SI_Active : option bool
}.

Record PublicBarberServices := mkPublicBarberServices {
  PBS_BarberID : uuid; PBS_ServiceIDs : list uuid
}.

Record service_row := mkServiceRow {
  sv_id : uuid; sv_tenant : uuid; sv_name : string; sv_duration : Z; sv_before : Z; sv_after : Z;
  sv_active : bool; sv_updated : time
}.
(** [pr_amount] is a number of hundredths: the column is numeric(12,2). *)
Record pricing_row := mkPricingRow {
  pr_service : uuid; pr_tenant : uuid; pr_amount : Z; pr_currency : string
}.
Record assignment_row := mkAssignmentRow {
  bs_tenant : uuid; bs_barber : uuid; bs_service : uuid; bs_active : bool
}.

Record cdb := mkCdb {
  services : list service_row;
  pricing : list pricing_row;
  barber_services : list assignment_row
}.
Definition set_services l d := mkCdb l (pricing d) (barber_services d).
Definition set_pricing l d := mkCdb (services d) l (barber_services d).
Definition set_assignments l d := mkCdb (services d) (pricing d) l.

(** ** Prices *)

(** The value of the texts [^[0-9]+(\.[0-9]{1,2})?$] matches, in hundredths. *)
Definition parse_amount (s : string) : option Z :=
  match split_at "." s with
  | None =>
      match list_ascii_of_string s with
      | [] => None
      | l => match atoi_digits 0 l with Some n => Some (n * 100) | None => None end
      end
  | Some (i, f) =>
      match list_ascii_of_string i with
      | [] => None
      | l =>
          match atoi_digits 0 l, map digit (list_ascii_of_string f) with
          | Some n, [Some a] => Some (n * 100 + a * 10)
          | Some n, [Some a; Some b] => Some (n * 100 + a * 10 + b)
          | _, _ => None
          end
      end
  end.

(** The decimal digits of a number below [10^fuel]. *)
Fixpoint dec (fuel : nat) (n : Z) : list ascii :=
  match fuel with
  | O => []
  | S fuel' => (if n / 10 =? 0 then [] else dec fuel' (n / 10)) ++ [digit_char (n mod 10)]
  end.

(** [amount::text]; the integer part of numeric(12,2) has at most ten digits. *)
Definition amount_text (c : Z) : string :=
  string_of_list_ascii (dec 10 (c / 100) ++ "."%char :: digits2 (c mod 100)).

(** [^[A-Z]{3}$] *)
Definition upper (c : ascii) : bool := (65 <=? byte_of c) && (byte_of c <=? 90).
Definition currency_ok (s : string) : bool :=
  match s with
  | String a (String b (String c EmptyString)) => upper a && upper b && upper c
  | _ => false
  end.

(** ** Statements *)

Inductive cat_error := CNoService | CPg (e : pg_error).
#[export] Instance cat_error_eq_dec : EqDecision cat_error.
Proof. solve_decision. Defined.
#[export] Instance cat_from_pg : FromPg cat_error := CPg.
Abbreviation CM := (IO cdb cat_error).

(** The columns of a service row that have CHECK constraints or a range. *)
Definition service_range (r : service_row) : bool :=
  int4 (sv_duration r) && int4 (sv_before r) && int4 (sv_after r).
Definition service_check (r : service_row) : bool :=
  (0 <=? sv_duration r) && (0 <=? sv_before r) && (0 <=? sv_after r).
Definition service_key (r : service_row) : uuid * string := (sv_tenant r, sv_name r).

Definition insert_service (tx : uuid) (r : service_row) (d : cdb) : res pg_error (service_row * cdb) :=
  if negb (service_range r) then Err OutOfRange
  else if negb (text_ok (sv_name r)) then Err BadEncoding
  else if sv_tenant r !=? tx then Err RlsViolation
  else if negb (service_check r) then Err CheckViolation
  else if existsb (λ x, sv_id x ==? sv_id r) (services d) then Err UniqueViolation
  else if existsb (λ x, service_key x ==? service_key r) (services d) then Err UniqueViolation
  else Ok (r, set_services (services d ++ [r]) d).

Definition service_of (tx t id : uuid) (s : service_row) : bool :=
  rls sv_tenant tx (λ s, (sv_tenant s ==? t) && (sv_id s ==? id)) s.

(** [new id tenant] is the row with the values of the SET clause. *)
Definition update_service (tx t id : uuid) (new : uuid -> uuid -> service_row) (d : cdb)
  : res pg_error (service_row * cdb) :=
  let r := new id t in
  if negb (service_range r) then Err OutOfRange
  else if negb (text_ok (sv_name r)) then Err BadEncoding
  else if negb (existsb (service_of tx t id) (services d)) then Err NoRows
  else if negb (service_check r) then Err CheckViolation
  else if existsb (λ x, (sv_id x !=? id) && (service_key x ==? service_key r)) (services d)
  then Err UniqueViolation
  else Ok (r, set_services (upd (service_of tx t id) (λ s, new (sv_id s) (sv_tenant s)) (services d)) d).

(** The input of a price: [None] when the text is not a number. *)
Definition price_of (price currency : string) : res pg_error Z :=
  match parse_amount price with
  | None => Err InvalidText
  | Some a => if 10 ^ 12 <=? a then Err OutOfRange
              else if negb (currency_ok currency) then Err CheckViolation else Ok a
  end.

Definition insert_price (tx service t : uuid) (price currency : string) (d : cdb)
  : res pg_error (unit * cdb) :=
  match price_of price currency with
  | Err e => Err e
  | Ok a =>
      if t !=? tx then Err RlsViolation
      else if existsb (λ x, pr_service x ==? service) (pricing d) then Err UniqueViolation
      else if negb (existsb (λ s, (sv_tenant s ==? t) && (sv_id s ==? service)) (services d))
      then Err ForeignKeyViolation
      else Ok (tt, set_pricing (pricing d ++ [mkPricingRow service t a currency]) d)
  end.

Definition price_for (tx t service : uuid) (p : pricing_row) : bool :=
  rls pr_tenant tx (λ p, (pr_tenant p ==? t) && (pr_service p ==? service)) p.

Definition update_price (tx t service : uuid) (price currency : string) (d : cdb)
  : res pg_error (unit * cdb) :=
  match price_of price currency with
  | Err e => Err e
  | Ok a =>
      Ok (tt, set_pricing (upd (price_for tx t service)
                (λ p, mkPricingRow (pr_service p) (pr_tenant p) a currency) (pricing d)) d)
  end.

Definition assignment_for (t b s : uuid) (x : assignment_row) : bool :=
  (bs_tenant x ==? t) && (bs_barber x ==? b) && (bs_service x ==? s).

(** INSERT ... ON CONFLICT DO UPDATE SET active=true *)
Definition insert_assignment (tx t b s : uuid) (d : cdb) : res pg_error (unit * cdb) :=
  if t !=? tx then Err RlsViolation
  else if existsb (assignment_for t b s) (barber_services d)
  then Ok (tt, set_assignments (upd (assignment_for t b s)
                 (λ x, mkAssignmentRow (bs_tenant x) (bs_barber x) (bs_service x) true) (barber_services d)) d)
  else if negb (existsb (λ x, (sv_tenant x ==? t) && (sv_id x ==? s)) (services d))
  then Err ForeignKeyViolation
  else Ok (tt, set_assignments (barber_services d ++ [mkAssignmentRow t b s true]) d).

Definition to_service (s : service_row) (p : pricing_row) : CService :=
  mkCService (sv_id s) (sv_name s) (sv_duration s) (sv_before s) (sv_after s) (amount_text (pr_amount p))
    (pr_currency p) (sv_active s).

(** services JOIN pricing ... WHERE ... ORDER BY name *)
Definition joined `{Collation} (tx t : uuid) (where_ : service_row -> bool) (d : cdb) : list CService :=
  List.flat_map
    (λ s, map (to_service s) (sel (rls pr_tenant tx (λ p, (pr_service p ==? sv_id s)
                                                          && (pr_tenant p ==? sv_tenant s))) (pricing d)))
    (order_by (λ s, name_rank (sv_name s))
       (sel (rls sv_tenant tx (λ s, (sv_tenant s ==? t) && where_ s)) (services d))).

(** ** Repository *)

Section Repository.
Context `{Collation}.

(** The query ListActiveServices of sqlc. *)
Definition ListActiveServices (tx t : uuid) : cdb -> list CService := joined tx t sv_active.

Definition CRepository_Services (t : uuid) (activeOnly : bool) : CM (list CService) :=
  WithTenantTx t (λ tx,
    if activeOnly then query (ListActiveServices tx t) else query (joined tx t (λ _, true))).

Fixpoint add_service (b s : uuid) (out : list PublicBarberServices) : list PublicBarberServices :=
  match out with
  | [] => [mkPublicBarberServices b [s]]
  | x :: out' =>
      if PBS_BarberID x ==? b then mkPublicBarberServices b (PBS_ServiceIDs x ++ [s]) :: out'
      else x :: add_service b s out'
  end.

Definition group_services (rows : list assignment_row) : list PublicBarberServices :=
  fold_left (λ out x, add_service (bs_barber x) (bs_service x) out) rows [].

Definition CRepository_PublicBarberServices (t : uuid) : CM (list PublicBarberServices) :=
  WithTenantTx t (λ tx,
    query (λ d, group_services
      (order_by (λ x, Z.of_N (bs_barber x) * 2 ^ 128 + Z.of_N (bs_service x))
         (sel (rls bs_tenant tx (λ x, (bs_tenant x ==? t) && bs_active x
                 && existsb (rls sv_tenant tx (λ s, (sv_tenant s ==? bs_tenant x) && (sv_id s ==? bs_service x)
                                                    && sv_active s)) (services d)))
            (barber_services d))))).

Definition one_service (l : cdb -> list CService) : CM CService :=
  r ← attempt (stmt (λ d, match head (l d) with Some v => Ok (v, d) | None => Err NoRows end));
  match r with
  | Ok v => mret v
  | Err (CPg NoRows) => io_fail CNoService
  | Err e => io_fail e
  end.

Definition CRepository_Service (t id : uuid) : CM CService :=
  WithTenantTx t (λ tx, one_service (joined tx t (λ s, sv_id s ==? id))).

(** The returned row with the price as it was given. *)
Definition saved (r : service_row) (input : ServiceInput) : CService :=
  mkCService (sv_id r) (sv_name r) (sv_duration r) (sv_before r) (sv_after r) (SI_Price input)
    (SI_Currency input) (sv_active r).

Definition CRepository_Save (newID : uuid) (now : time) (t id : uuid) (input : ServiceInput) : CM CService :=
  WithTenantTx t (λ tx,
    let a := match SI_Active input with Some b => b | None => true end in
    if id ==? uuid_Nil then
      r ← stmt (insert_service tx (mkServiceRow newID t (SI_Name input) (SI_Duration input)
                  (SI_Before input) (SI_After input) a now));
      stmt (insert_price tx (sv_id r) t (SI_Price input) (SI_Currency input)) ;;
      mret (saved r input)
    else
      x ← attempt (stmt (update_service tx t id (λ i o, mkServiceRow i o (SI_Name input) (SI_Duration input)
                           (SI_Before input) (SI_After input) a now)));
      match x with
      | Err (CPg NoRows) => io_fail CNoService
      | Err e => io_fail e
      | Ok r =>
          stmt (update_price tx t id (SI_Price input) (SI_Currency input)) ;;
          mret (saved r input)
      end).

Definition CRepository_Assign (t b s : uuid) : CM unit :=
  WithTenantTx t (λ tx,
    ok ← query (λ d, existsb (rls sv_tenant tx (λ x, (sv_tenant x ==? t) && (sv_id x ==? s))) (services d));
    if negb ok then io_fail CNoService else stmt (insert_assignment tx t b s)).

(** At most one assignment joins a service: its columns are the primary key. *)
Definition assigned (tx t b : uuid) (d : cdb) (s : service_row) : bool :=
  existsb (rls bs_tenant tx (λ x, (bs_service x ==? sv_id s) && (bs_tenant x ==? t) && (bs_barber x ==? b)
                                  && bs_active x)) (barber_services d).

Definition CRepository_Assignments (t b : uuid) : CM (list CService) :=
  WithTenantTx t (λ tx, query (λ d, joined tx t (assigned tx t b d) d)).

Definition CRepository_Unassign (t b s : uuid) : CM unit :=
  WithTenantTx t (λ tx,
    n ← stmt (λ d, let p := rls bs_tenant tx (assignment_for t b s) in
                   Ok (Z.of_nat (length (sel p (barber_services d))),
                       set_assignments (del p (barber_services d)) d));
    if n =? 0 then io_fail CNoService else mret tt).

Definition CRepository_ActiveAssignedService (t b s : uuid) : CM CService :=
  WithTenantTx t (λ tx,
    one_service (λ d, joined tx t (λ x, (sv_id x ==? s) && assigned tx t b d x && sv_active x) d)).
End Repository.

(** ** Application *)

Inductive capp_error :=
  CErrInvalid | CErrUnauthorized | CErrForbidden | CErrNotFound | CErrConflict | CErrUnavailable
| CErrOther (e : cat_error).
Abbreviation CApp := (IO cdb capp_error).

(** [application.Service]: the clients of the auth and of the barber service. *)
Record CatalogService := mkCatalogService {
  cs_auth : TenantContext -> string -> option AdminPrincipal;
  cs_barber : TenantContext -> uuid -> res barber_error unit
}.

Definition cat_mapRepo (e : cat_error) : capp_error :=
  match e with CNoService => CErrNotFound | _ => CErrOther e end.

Definition cat_valid (input : ServiceInput) : bool :=
  (TrimSpace (SI_Name input) !=? EmptyString) && (0 <=? SI_Duration input) && (0 <=? SI_Before input)
  && (0 <=? SI_After input) && match parse_amount (SI_Price input) with Some _ => true | None => false end
  && currency_ok (SI_Currency input).

Definition set_name (n : string) (i : ServiceInput) : ServiceInput :=
  mkServiceInput n (SI_Duration i) (SI_Before i) (SI_After i) (SI_Price i) (SI_Currency i) (SI_Active i).

Section Application.
Context `{Collation} (s : CatalogService).

Definition cat_authorize (t : TenantContext) (cookie : string) (write : bool) : res capp_error unit :=
  if AppType t !=? "admin"%string then Err CErrUnauthorized
  else
    match cs_auth s t cookie with
    | None => if write then Err CErrForbidden else Err CErrUnauthorized
    | Some p =>
        if negb (CanRead (AdminPrincipal_Role p)) then
          if negb write then Err CErrUnauthorized else Err CErrForbidden
        else if write && negb (CanWrite (AdminPrincipal_Role p)) then Err CErrForbidden
        else Ok tt
    end.

Definition Catalog_Public (t : TenantContext) : CApp (list CService) :=
  if AppType t !=? "booking"%string then io_fail CErrUnauthorized
  else calling CErrOther (CRepository_Services (TenantID t) true).

Definition Catalog_PublicBarberServices (t : TenantContext) : CApp (list PublicBarberServices) :=
  if AppType t !=? "booking"%string then io_fail CErrUnauthorized
  else calling CErrOther (CRepository_PublicBarberServices (TenantID t)).

Definition Catalog_Available (t : TenantContext) (b id : uuid) : CApp CService :=
  if (AppType t !=? "booking"%string) && (AppType t !=? "admin"%string) then io_fail CErrUnauthorized
  else calling cat_mapRepo (CRepository_ActiveAssignedService (TenantID t) b id).

Definition Catalog_List (t : TenantContext) (cookie : string) : CApp (list CService) :=
  lift (cat_authorize t cookie false) ;;
  calling CErrOther (CRepository_Services (TenantID t) false).

Definition Catalog_Get (t : TenantContext) (cookie : string) (id : uuid) : CApp CService :=
  lift (cat_authorize t cookie false) ;;
  calling cat_mapRepo (CRepository_Service (TenantID t) id).

Definition Catalog_Save (newID : uuid) (now : time) (t : TenantContext) (cookie : string) (id : uuid)
    (input : ServiceInput) : CApp CService :=
  lift (cat_authorize t cookie true) ;;
  let input := set_name (TrimSpace (SI_Name input)) input in
  if negb (cat_valid input) then io_fail CErrInvalid
  else
    calling (λ e, if e !=? CNoService then CErrConflict else cat_mapRepo e)
      (CRepository_Save newID now (TenantID t) id input).

Definition ensureBarber (t : TenantContext) (id : uuid) : res capp_error unit :=
  match cs_barber s t id with
  | Err BarberNotFound => Err CErrNotFound
  | Err _ => Err CErrUnavailable
  | Ok _ => Ok tt
  end.

Definition Catalog_Assign (t : TenantContext) (cookie : string) (b service : uuid) : CApp unit :=
  lift (cat_authorize t cookie true) ;;
  if service ==? uuid_Nil then io_fail CErrInvalid
  else
    lift (ensureBarber t b) ;;
    calling (λ e, if e ==? CNoService then CErrNotFound else CErrConflict)
      (CRepository_Assign (TenantID t) b service).

Definition Catalog_Assignments (t : TenantContext) (cookie : string) (b : uuid) : CApp (list CService) :=
  lift (cat_authorize t cookie false) ;;
  lift (ensureBarber t b) ;;
  calling CErrOther (CRepository_Assignments (TenantID t) b).

Definition Catalog_Unassign (t : TenantContext) (cookie : string) (b service : uuid) : CApp unit :=
  lift (cat_authorize t cookie true) ;;
  lift (ensureBarber t b) ;;
  calling cat_mapRepo (CRepository_Unassign (TenantID t) b service).
End Application.

(** ** Handlers *)

Definition cat_result {A} (e : capp_error) : Response A :=
  match e with
  | CErrInvalid => SendStatus 400
  | CErrUnauthorized => SendStatus 401
  | CErrForbidden => SendStatus 403
  | CErrNotFound => SendStatus 404
  | CErrConflict => SendStatus 409
  | CErrUnavailable => SendStatus 502
  | CErrOther _ => SendStatus 500
  end.

Record CatalogHandler := mkCatalogHandler { ch_app : CatalogService; ch_verify : MultiTokenVerifier }.

Section CatalogHandlers.
Context `{GoLib, Collation} (h : CatalogHandler).

Definition tenant {B} (r : Request B) : option TenantContext := adminauth_Context r (ch_verify h).

(** The reply for the outcome of a use case. *)
Definition replying {A R} (m : CApp A) (ok : A -> Response R) : CApp (Response R) :=
  r ← attempt m; mret (match r with Ok a => ok a | Err e => cat_result e end).

Definition public {B} (r : Request B) : CApp (Response (list CService)) :=
  match tenant r with
  | None => mret (SendStatus 401)
  | Some t => replying (Catalog_Public t) (SendJSON 200)
  end.

Definition publicBarberServices {B} (r : Request B) : CApp (Response (list PublicBarberServices)) :=
  match tenant r with
  | None => mret (SendStatus 401)
  | Some t => replying (Catalog_PublicBarberServices t) (SendJSON 200)
  end.

Definition availabilityService {B} (r : Request B) : CApp (Response CService) :=
  match tenant r, uuid_Parse (Params r "barber_id"%string), uuid_Parse (Params r "service_id"%string) with
  | Some t, Some b, Some s => replying (Catalog_Available t b s) (SendJSON 200)
  | _, _, _ => mret (SendStatus 401)
  end.

Definition cat_list {B} (r : Request B) : CApp (Response (list CService)) :=
  match tenant r with
  | None => mret (SendStatus 401)
  | Some t => replying (Catalog_List (ch_app h) t (Header r "Cookie"%string)) (SendJSON 200)
  end.

Definition cat_get {B} (r : Request B) : CApp (Response CService) :=
  match tenant r with
  | None => mret (SendStatus 401)
  | Some t =>
      match uuid_Parse (Params r "id"%string) with
      | None => mret (SendStatus 400)
      | Some i => replying (Catalog_Get (ch_app h) t (Header r "Cookie"%string) i) (SendJSON 200)
      end
  end.

Definition cat_save (newID : uuid) (now : time) (r : Request ServiceInput) : CApp (Response CService) :=
  match tenant r with
  | None => mret (SendStatus 403)
  | Some t =>
      match Body r with
      | None => mret (SendStatus 400)
      | Some input =>
          let save i := replying (Catalog_Save (ch_app h) newID now t (Header r "Cookie"%string) i input)
                          (SendJSON (if i ==? uuid_Nil then 201 else 200)) in
          if Method r ==? "PATCH"%string then
            match uuid_Parse (Params r "id"%string) with
            | None => mret (SendStatus 400)
            | Some i => save i
            end
          else save uuid_Nil
      end
  end.

Definition cat_assign (r : Request uuid) : CApp (Response unit) :=
  match tenant r with
  | None => mret (SendStatus 403)
  | Some t =>
      match uuid_Parse (Params r "barber_id"%string) with
      | None => mret (SendStatus 400)
      | Some b =>
          match Body r with
          | None => mret (SendStatus 400)
          | Some service =>
              replying (Catalog_Assign (ch_app h) t (Header r "Cookie"%string) b service) (λ _, SendStatus 201)
          end
      end
  end.

Definition cat_assignments {B} (r : Request B) : CApp (Response (list CService)) :=
  match tenant r with
  | None => mret (SendStatus 401)
  | Some t =>
      match uuid_Parse (Params r "barber_id"%string) with
      | None => mret (SendStatus 400)
      | Some b => replying (Catalog_Assignments (ch_app h) t (Header r "Cookie"%string) b) (SendJSON 200)
      end
  end.

Definition cat_unassign {B} (r : Request B) : CApp (Response unit) :=
  match tenant r with
  | None => mret (SendStatus 403)
  | Some t =>
      match uuid_Parse (Params r "barber_id"%string), uuid_Parse (Params r "service_id"%string) with
      | Some b, Some s =>
          replying (Catalog_Unassign (ch_app h) t (Header r "Cookie"%string) b s) (λ _, SendStatus 204)
      | _, _ => mret (SendStatus 400)
      end
  end.
End CatalogHandlers.

(** * Lemmas *)

(** ** Prices *)

Lemma atoi_nonneg l acc n : 0 <= acc → atoi_digits acc l = Some n → 0 <= n.
Proof.
  revert acc. induction l as [|c l IH]; cbn; intros acc Ha E; [by simplify_eq|].
  destruct (digit c) as [k|] eqn:Ek; [|done]. apply digit_bounds in Ek. eapply IH; [|exact E]. lia.
Qed.

Lemma parse_amount_nonneg s a : parse_amount s = Some a → 0 <= a.
Proof.
  unfold parse_amount. destruct (split_at "." s) as [[i f]|].
  - destruct (list_ascii_of_string i) as [|c0 l0]; [done|].
    destruct (atoi_digits 0 _) as [n|] eqn:En; [|done]. apply atoi_nonneg in En; [|lia].
    destruct (list_ascii_of_string f) as [|x [|y [|z f']]]; cbn; try done.
    + destruct (digit x) as [p|] eqn:Ex; [|done]. apply digit_bounds in Ex. intros [= <-]. lia.
    + destruct (digit x) as [p|] eqn:Ex; [|done]. destruct (digit y) as [q|] eqn:Ey; [|done].
      apply digit_bounds in Ex, Ey. intros [= <-]. lia.
    + destruct (digit x); [|done]. by destruct (digit y).
  - destruct (list_ascii_of_string s) as [|c0 l0]; [done|].
    destruct (atoi_digits 0 _) as [n|] eqn:En; [|done]. apply atoi_nonneg in En; [|lia]. intros [= <-]. lia.
Qed.

Lemma atoi_app a l k :
  atoi_digits a (l ++ k) = match atoi_digits a l with Some b => atoi_digits b k | None => None end.
Proof. revert a. induction l as [|c l IH]; intros a; cbn; [done|]. by destruct (digit c). Qed.

Lemma dec_spec fuel n :
  (0 < fuel)%nat → 0 <= n < 10 ^ Z.of_nat fuel →
  atoi_digits 0 (dec fuel n) = Some n ∧ (∀ c, c ∈ dec fuel n → digit c ≠ None) ∧ dec fuel n ≠ [].
Proof.
  revert n. induction fuel as [|fuel IH]; intros n Hf Hn; [lia|].
  assert (0 <= n mod 10 <= 9) as Hm by (pose proof (Z.mod_pos_bound n 10); lia).
  assert (n = 10 * (n / 10) + n mod 10) as Hdm by (apply Z.div_mod; lia).
  cbn [dec]. rewrite atoi_app. split; [|split; [|intros E; by apply app_eq_nil in E as [_ ?]]].
  - destruct (Z.eqb_spec (n / 10) 0) as [E|E]; cbn [atoi_digits].
    + rewrite digit_digit_char by lia. f_equal. lia.
    + destruct fuel as [|fuel]; [cbn in Hn; lia|].
      destruct (IH (n / 10)) as [-> _]; [lia| |rewrite digit_digit_char by lia; f_equal; lia].
      rewrite Nat2Z.inj_succ, Z.pow_succ_r in Hn by lia. lia.
  - intros c [Hc|Hc%list_elem_of_singleton]%elem_of_app; [|subst c; by rewrite digit_digit_char by lia].
    destruct (Z.eqb_spec (n / 10) 0) as [E|E]; [set_solver|].
    destruct fuel as [|fuel]; [cbn in Hn; lia|].
    destruct (IH (n / 10)) as (_ & Hd & _); [lia| |by apply Hd].
    rewrite Nat2Z.inj_succ, Z.pow_succ_r in Hn by lia. lia.
Qed.

Lemma split_at_app x l f :
  x ∉ l → split_at x (string_of_list_ascii (l ++ x :: f)) = Some (string_of_list_ascii l, string_of_list_ascii f).
Proof.
  induction l as [|c l IH]; intros Hx; cbn; [by rewrite bool_decide_refl|].
  apply not_elem_of_cons in Hx as [Hc Hl]. rewrite bool_decide_false by done. by rewrite IH.
Qed.

(** The text of a price denotes the stored amount. *)
Lemma parse_amount_text c : 0 <= c < 10 ^ 12 → parse_amount (amount_text c) = Some c.
Proof.
  intros Hc. change (10 ^ 12) with 1000000000000 in Hc.
  assert (0 <= c / 100 < 10 ^ Z.of_nat 10) as Hi by (change (10 ^ Z.of_nat 10) with 10000000000; Z.to_euclidean_division_equations; lia).
  destruct (dec_spec 10 (c / 100) ltac:(lia) Hi) as (Hv & Hd & Hne).
  unfold parse_amount, amount_text. rewrite split_at_app by (intros Hin; by apply (Hd _ Hin)).
  rewrite !list_ascii_of_string_of_list_ascii.
  destruct (dec 10 (c / 100)) as [|x l] eqn:E; [done|]. rewrite Hv. unfold digits2. cbn [map].
  rewrite !digit_digit_char by (Z.to_euclidean_division_equations; lia). f_equal.
  Z.to_euclidean_division_equations; lia.
Qed.

Lemma price_of_Ok price currency a :
  price_of price currency = Ok a →
  parse_amount price = Some a ∧ 0 <= a < 10 ^ 12 ∧ currency_ok currency = true.
Proof.
  unfold price_of. destruct (parse_amount price) as [n|] eqn:E; [|done]. pose proof (parse_amount_nonneg _ _ E).
  destruct (Z.leb_spec (10 ^ 12) n); [done|]. destruct (currency_ok currency); [|done]. by intros [= <-].
Qed.

(** ** The invariant *)

Definition akey (x : assignment_row) : uuid * uuid * uuid := (bs_tenant x, bs_barber x, bs_service x).
Definition prices (s : service_row) (p : pricing_row) : Prop :=
  pr_service p = sv_id s ∧ pr_tenant p = sv_tenant s.

Record cat_ok (d : cdb) : Prop := mkCatOk {
  co_ids : NoDup (map sv_id (services d));
  co_names : NoDup (map service_key (services d));
  co_prices : NoDup (map pr_service (pricing d));
  co_priced : ∀ s, s ∈ services d → ∃ p, p ∈ pricing d ∧ prices s p;
  co_service : ∀ p, p ∈ pricing d → ∃ s, s ∈ services d ∧ prices s p;
  co_rows : ∀ s, s ∈ services d → service_range s = true ∧ service_check s = true;
  co_amounts : ∀ p, p ∈ pricing d → 0 <= pr_amount p < 10 ^ 12 ∧ currency_ok (pr_currency p) = true;
  co_akeys : NoDup (map akey (barber_services d));
  co_assigned : ∀ x, x ∈ barber_services d →
    ∃ s, s ∈ services d ∧ sv_id s = bs_service x ∧ sv_tenant s = bs_tenant x
}.

(** The rows of the other tenants. *)
Definition others (t : uuid) (d : cdb) : list service_row * list pricing_row * list assignment_row :=
  (sel (λ s, sv_tenant s !=? t) (services d), sel (λ p, pr_tenant p !=? t) (pricing d),
   sel (λ x, bs_tenant x !=? t) (barber_services d)).

(** A change made for tenant [t]. *)
Definition cat_good (t : uuid) (d d' : cdb) : Prop := cat_ok d → cat_ok d' ∧ others t d' = others t d.
#[export] Instance cat_good_preorder t : PreOrder (cat_good t).
Proof.
  split; [by intros d H|]. intros a b c H1 H2 H. destruct (H1 H) as [Hb E1]. destruct (H2 Hb) as [Hc E2].
  split; [done|]. by rewrite E2.
Qed.

(** A new service with its price. *)
Lemma insert_good t r p d :
  sv_tenant r = t → prices r p → service_range r = true → service_check r = true →
  0 <= pr_amount p < 10 ^ 12 → currency_ok (pr_currency p) = true →
  (∀ x, x ∈ services d → sv_id x ≠ sv_id r) → (∀ x, x ∈ services d → service_key x ≠ service_key r) →
  (∀ x, x ∈ pricing d → pr_service x ≠ pr_service p) →
  cat_good t d (mkCdb (services d ++ [r]) (pricing d ++ [p]) (barber_services d)).
Proof.
  intros Ht [Hp1 Hp2] Hr Hc Ha Hcur Hid Hkey Hpr [Hi Hn Hp Hpd Hsv Hrow Ham Hak Has]. split.
  - constructor; cbn.
    + by apply NoDup_map_snoc.
    + by apply NoDup_map_snoc.
    + by apply NoDup_map_snoc.
    + intros s [Hs|Hs%list_elem_of_singleton]%elem_of_app.
      * destruct (Hpd s Hs) as (q & Hq & E). exists q. split; [apply elem_of_app; by left|done].
      * subst s. exists p. split; [set_solver|done].
    + intros q [Hq|Hq%list_elem_of_singleton]%elem_of_app.
      * destruct (Hsv q Hq) as (s & Hs & E). exists s. split; [apply elem_of_app; by left|done].
      * subst q. exists r. split; [set_solver|done].
    + intros s [Hs|Hs%list_elem_of_singleton]%elem_of_app; [auto|by subst].
    + intros q [Hq|Hq%list_elem_of_singleton]%elem_of_app; [auto|by subst].
    + done.
    + intros x Hx. destruct (Has x Hx) as (s & Hs & E). exists s. split; [apply elem_of_app; by left|done].
  - unfold others. cbn. by rewrite !sel_app, (sel_nothing _ [r]), (sel_nothing _ [p]), !app_nil_r
      by (intros x ->%list_elem_of_singleton; rewrite ?Hp2, Ht; by rewrite bool_decide_refl).
Qed.

(** A changed service and its price. *)
Lemma update_good t id (f : service_row -> service_row) (g : pricing_row -> pricing_row) d :
  (∀ s, sv_id (f s) = sv_id s ∧ sv_tenant (f s) = sv_tenant s) →
  (∀ p, pr_service (g p) = pr_service p ∧ pr_tenant (g p) = pr_tenant p) →
  (∀ s, s ∈ services d → service_of t t id s = true → service_range (f s) = true ∧ service_check (f s) = true ∧
     ∀ x, x ∈ services d → sv_id x ≠ sv_id s → service_key x ≠ service_key (f s)) →
  (∀ p, 0 <= pr_amount (g p) < 10 ^ 12 ∧ currency_ok (pr_currency (g p)) = true) →
  cat_good t d (mkCdb (upd (service_of t t id) f (services d)) (upd (price_for t t id) g (pricing d))
                  (barber_services d)).
Proof.
  intros Hf Hg Hs Hgp [Hi Hn Hp Hpd Hsv Hrow Ham Hak Has].
  assert (∀ s, sv_id (if service_of t t id s then f s else s) = sv_id s ∧
               sv_tenant (if service_of t t id s then f s else s) = sv_tenant s) as Hfs
    by (intros s; destruct (service_of _ _ _ s); [apply Hf|done]).
  assert (∀ p, pr_service (if price_for t t id p then g p else p) = pr_service p ∧
               pr_tenant (if price_for t t id p then g p else p) = pr_tenant p) as Hgs
    by (intros p; destruct (price_for _ _ _ p); [apply Hg|done]).
  split.
  - constructor; cbn.
    + rewrite map_upd; [done|]. intros s _ _. apply Hf.
    + apply (NoDup_map_upd_one sv_id); [done|done| |].
      * intros s x _ _ Es Ex. unfold service_of, rls in *. bsimpl. congruence.
      * intros s x Hin Hx Es Hne. by apply (Hs s Hin Es).
    + rewrite map_upd; [done|]. intros p _ _. apply Hg.
    + intros s (x & Hx & ->)%elem_of_upd. destruct (Hpd x Hx) as (p & Hin & E1 & E2).
      exists (if price_for t t id p then g p else p). split; [apply elem_of_upd; by exists p|].
      unfold prices. destruct (Hfs x) as [-> ->], (Hgs p) as [-> ->]. done.
    + intros p (x & Hx & ->)%elem_of_upd. destruct (Hsv x Hx) as (s & Hin & E1 & E2).
      exists (if service_of t t id s then f s else s). split; [apply elem_of_upd; by exists s|].
      unfold prices. destruct (Hfs s) as [-> ->], (Hgs x) as [-> ->]. done.
    + intros s (x & Hx & ->)%elem_of_upd. destruct (service_of t t id x) eqn:E; [|auto].
      by destruct (Hs x Hx E) as (? & ? & _).
    + intros p (x & Hx & ->)%elem_of_upd. destruct (price_for t t id x); auto.
    + done.
    + intros x Hx. destruct (Has x Hx) as (s & Hin & E1 & E2).
      exists (if service_of t t id s then f s else s). split; [apply elem_of_upd; by exists s|].
      by destruct (Hfs s) as [-> ->].
  - unfold others. cbn. f_equal. f_equal; apply sel_upd_id.
    + intros s _ Hne. unfold service_of, rls. bsimpl. by rewrite bool_decide_false.
    + intros s _ Hq. unfold service_of, rls in Hq. destruct (Hf s) as [_ ->]. by bsimpl.
    + intros p _ Hne. unfold price_for, rls. bsimpl. by rewrite bool_decide_false.
    + intros p _ Hq. unfold price_for, rls in Hq. destruct (Hg p) as [_ ->]. by bsimpl.
Qed.

(** ** Successful writes *)

Definition active_of (input : ServiceInput) : bool := match SI_Active input with Some b => b | None => true end.
Definition new_row (newID : uuid) (now : time) (t : uuid) (input : ServiceInput) : service_row :=
  mkServiceRow newID t (SI_Name input) (SI_Duration input) (SI_Before input) (SI_After input)
    (active_of input) now.
Definition changed_row (now : time) (input : ServiceInput) (s : service_row) : service_row :=
  mkServiceRow (sv_id s) (sv_tenant s) (SI_Name input) (SI_Duration input) (SI_Before input)
    (SI_After input) (active_of input) now.
Definition changed_price (a : Z) (input : ServiceInput) (p : pricing_row) : pricing_row :=
  mkPricingRow (pr_service p) (pr_tenant p) a (SI_Currency input).

Record created (newID : uuid) (now : time) (t : uuid) (input : ServiceInput) (a : Z) (d d' : cdb) : Prop :=
  mkCreated {
    cr_rows : service_range (new_row newID now t input) = true ∧ service_check (new_row newID now t input) = true;
    cr_id : ∀ x, x ∈ services d → sv_id x ≠ newID;
    cr_key : ∀ x, x ∈ services d → service_key x ≠ (t, SI_Name input);
    cr_price : ∀ x, x ∈ pricing d → pr_service x ≠ newID;
    cr_db : d' = mkCdb (services d ++ [new_row newID now t input])
                  (pricing d ++ [mkPricingRow newID t a (SI_Currency input)]) (barber_services d)
  }.

Record changed (now : time) (t id : uuid) (input : ServiceInput) (a : Z) (r : service_row) (d d' : cdb) : Prop :=
  mkChanged {
    ch_row : r ∈ services d ∧ sv_tenant r = t ∧ sv_id r = id;
    ch_rows : service_range (changed_row now input r) = true ∧ service_check (changed_row now input r) = true;
    ch_key : ∀ x, x ∈ services d → sv_id x ≠ id → service_key x ≠ (t, SI_Name input);
    ch_db : d' = mkCdb (upd (service_of t t id) (changed_row now input) (services d))
                  (upd (price_for t t id) (changed_price a input) (pricing d)) (barber_services d)
  }.

Lemma det_Save newID now t id input : det (CRepository_Save newID now t id input).
Proof. unfold CRepository_Save. cbv zeta. solve_det. Qed.

Lemma Save_run newID now t id input d v d' :
  run (CRepository_Save newID now t id input) d = (Ok v, d') →
  ∃ a, price_of (SI_Price input) (SI_Currency input) = Ok a ∧
    if id ==? uuid_Nil
    then created newID now t input a d d' ∧ v = saved (new_row newID now t input) input
    else ∃ r, changed now t id input a r d d' ∧ v = saved (changed_row now input r) input.
Proof.
  unfold CRepository_Save. cbv zeta. rewrite run_tx by (cbv zeta; solve_det). fold (active_of input).
  destruct (id ==? uuid_Nil) eqn:Eid.
  - rewrite run_bind, run_stmt by apply det_stmt. fold (new_row newID now t input). unfold insert_service.
    destruct (service_range _) eqn:Er; [|done]. destruct (text_ok _); [|done]. cbn [negb sv_tenant new_row].
    rewrite bool_decide_refl. cbn [negb]. destruct (service_check _) eqn:Ec; [|done]. cbn [negb].
    destruct (existsb _ (services d)) eqn:E1; [done|]. destruct (existsb _ (services d)) eqn:E2 in |- *; [done|].
    rewrite run_bind, run_stmt by apply det_stmt. unfold insert_price.
    destruct (price_of _ _) as [a|]; [|done]. rewrite bool_decide_refl. cbn [negb pricing set_services sv_id new_row].
    destruct (existsb _ (pricing d)) eqn:E3; [done|]. destruct (negb _); [done|]. rewrite run_ret.
    intros [= <- <-]. exists a. split; [done|]. rewrite (existsb_fresh sv_id) in E1.
    rewrite (existsb_fresh service_key) in E2. rewrite (existsb_fresh pr_service) in E3. by split.
  - rewrite run_attempt_bind by apply det_stmt. rewrite run_stmt. unfold update_service. cbv zeta.
    fold (new_row id now t input). destruct (service_range _) eqn:Er; [|done]. destruct (text_ok _); [|done]. cbn [negb].
    destruct (existsb (service_of t t id) _) eqn:Eh; [|done]. cbn [negb].
    destruct (service_check _) eqn:Ec; [|done]. cbn [negb].
    match goal with |- context [if existsb ?p _ then _ else _] => destruct (existsb p (services d)) eqn:E1 end; [done|]. cbn [fst snd].
    rewrite run_bind, run_stmt by apply det_stmt. unfold update_price.
    destruct (price_of _ _) as [a|]; [|done]. rewrite run_ret. intros [= <- <-]. exists a. split; [done|].
    apply existsb_elem in Eh as (r & Hin & Hr). unfold service_of, rls in Hr. bsimpl.
    exists r. split; [|by subst]. constructor; [done|done| |done].
    rewrite existsb_none in E1. intros x Hx Hne. specialize (E1 x Hx).
    cbn beta in E1. rewrite bool_decide_false in E1 by done. cbn [negb andb] in E1. by bsimpl.
Qed.

Lemma good_Save newID now t id input : step_in (cat_good t) (CRepository_Save newID now t id input).
Proof.
  apply step_in_tx_run; [apply _|cbv zeta; solve_det|]. intros d v d' (a & Ha & E)%Save_run.
  apply price_of_Ok in Ha as (_ & Ham & Hcur). destruct (id ==? uuid_Nil).
  - destruct E as [[[Hr Hc] Hid Hk Hp ->] _]. by apply insert_good.
  - destruct E as (r & [(Hin & Ht & Hi) [Hr Hc] Hk ->] & _). apply update_good; [done|done| |done].
    intros s Hs Es. unfold service_of, rls in Es. bsimpl. split; [exact Hr|]. split; [exact Hc|].
    intros x Hx Hne. unfold service_key at 2. cbn [changed_row sv_tenant sv_name].
    replace (sv_tenant s) with t by congruence. apply Hk; [done|]. congruence.
Qed.

Lemma Assign_run t b s d d' :
  run (CRepository_Assign t b s) d = (Ok tt, d') →
  (∃ x, x ∈ services d ∧ sv_tenant x = t ∧ sv_id x = s) ∧
  d' = set_assignments
         (if existsb (assignment_for t b s) (barber_services d)
          then upd (assignment_for t b s)
                 (λ x, mkAssignmentRow (bs_tenant x) (bs_barber x) (bs_service x) true) (barber_services d)
          else barber_services d ++ [mkAssignmentRow t b s true]) d.
Proof.
  unfold CRepository_Assign. rewrite run_tx by solve_det. unfold query. rewrite run_bind, run_stmt by apply det_stmt.
  destruct (existsb _ (services d)) eqn:E; cbn [negb]; [|done]. apply existsb_elem in E as (x & Hx & Ex).
  unfold rls in Ex. bsimpl. rewrite run_stmt. unfold insert_assignment. rewrite bool_decide_refl. cbn [negb].
  assert (∃ x, x ∈ services d ∧ sv_tenant x = t ∧ sv_id x = s) by eauto.
  destruct (existsb (assignment_for t b s) _); [by intros [= <-]|]. destruct (negb _); [done|by intros [= <-]].
Qed.

Lemma assign_good t b s d :
  (∃ x, x ∈ services d ∧ sv_tenant x = t ∧ sv_id x = s) →
  cat_good t d (set_assignments
         (if existsb (assignment_for t b s) (barber_services d)
          then upd (assignment_for t b s)
                 (λ x, mkAssignmentRow (bs_tenant x) (bs_barber x) (bs_service x) true) (barber_services d)
          else barber_services d ++ [mkAssignmentRow t b s true]) d).
Proof.
  intros (x0 & Hx0 & Ht & Hs) [Hi Hn Hp Hpd Hsv Hrow Ham Hak Has].
  destruct (existsb (assignment_for t b s) _) eqn:E; (split; [constructor; cbn; try done|unfold others; cbn; f_equal]).
  - by rewrite map_upd.
  - intros x (y & Hy & ->)%elem_of_upd. destruct (Has y Hy) as (z & Hz & E1 & E2). exists z.
    by destruct (assignment_for t b s y).
  - apply sel_upd_id; intros x _ Hx; unfold assignment_for in *; bsimpl; [by rewrite bool_decide_false|done].
  - rewrite existsb_none in E. apply NoDup_map_snoc; [done|]. intros y Hy Ey. specialize (E y Hy).
    unfold assignment_for in E. injection Ey as E1 E2 E3.
    cbn in E1, E2, E3. by rewrite E1, E2, E3, !bool_decide_refl in E.
  - intros x [Hx|Hx%list_elem_of_singleton]%elem_of_app; [auto|]. subst x. by exists x0.
  - rewrite sel_app, (sel_nothing _ [_]), app_nil_r; [done|]. intros x ->%list_elem_of_singleton. cbn.
    by rewrite bool_decide_refl.
Qed.

Lemma good_Assign t b s : step_in (cat_good t) (CRepository_Assign t b s).
Proof.
  apply step_in_tx_run; [apply _|solve_det|]. intros d [] d' [Hex ->]%Assign_run. by apply assign_good.
Qed.

Lemma good_Unassign t b s : step_in (cat_good t) (CRepository_Unassign t b s).
Proof.
  apply step_in_tx_run; [apply _|solve_det|]. intros d [] d'. rewrite run_tx by solve_det.
  rewrite run_bind, run_stmt by apply det_stmt. cbv zeta.
  cbn beta iota. match goal with |- context [Z.eqb ?x 0] => destruct (Z.eqb x 0) end; [done|]. rewrite run_ret. intros [= <-]. intros [Hi Hn Hp Hpd Hsv Hrow Ham Hak Has]. split; [constructor; cbn; try done|unfold others; cbn; f_equal].
  - by apply (NoDup_map_sel akey (λ x, negb (rls bs_tenant t (assignment_for t b s) x))).
  - intros x [_ Hx]%elem_of_del. auto.
  - apply sel_del_id. intros x _ Hx. unfold rls in Hx. by bsimpl.
Qed.

(** ** Reading *)

Section Reading.
Context `{Collation}.

Lemma price_sel d s p :
  cat_ok d → p ∈ pricing d → prices s p →
  sel (rls pr_tenant (sv_tenant s) (λ p, (pr_service p ==? sv_id s) && (pr_tenant p ==? sv_tenant s))) (pricing d) = [p].
Proof.
  intros Hd Hp [E1 E2]. apply (sel_one pr_service); [apply Hd|done| |].
  - unfold rls. by rewrite E1, E2, !bool_decide_refl.
  - intros y _ Hy. unfold rls in Hy. bsimpl. congruence.
Qed.

(** No service is lost and none appears twice in a join with the prices. *)
Lemma joined_ids d t w :
  cat_ok d →
  map CService_ID (joined t t w d)
  = map sv_id (order_by (λ s, name_rank (sv_name s)) (sel (λ s, (sv_tenant s ==? t) && w s) (services d))).
Proof.
  intros Hd. unfold joined.
  rewrite (proj1 (rls_tenant sv_tenant t (λ s, (sv_tenant s ==? t) && w s) ltac:(intros s Hs; cbn beta in Hs; by bsimpl))).
  set (l := order_by _ _). assert (∀ s, s ∈ l → s ∈ services d ∧ sv_tenant s = t) as Hl.
  { intros s Hs. unfold l in Hs. apply elem_of_order_by, elem_of_sel in Hs as [Hs Hin]. by bsimpl. }
  clearbody l. induction l as [|s l IH]; [done|]. cbn [flat_map map].
  destruct (Hl s) as [Hs Ht]; [set_solver|]. destruct (co_priced d Hd s Hs) as (p & Hp & Hsp).
  rewrite map_app, IH by set_solver. subst t. by rewrite (price_sel d s p Hd Hp Hsp).
Qed.

Lemma joined_one d s p t w :
  cat_ok d → s ∈ services d → sv_tenant s = t → p ∈ pricing d → prices s p → w s = true →
  (∀ x, w x = true → sv_id x = sv_id s) → joined t t w d = [to_service s p].
Proof.
  intros Hd Hs Ht Hp Hsp Hw Hu. unfold joined.
  rewrite (sel_one sv_id _ (services d) s); [|apply Hd|done| |].
  - rewrite (order_by_eq _ _ [s]); [|done|repeat constructor]. cbn [flat_map].
    subst t. by rewrite (price_sel d s p Hd Hp Hsp), app_nil_r.
  - unfold rls. by rewrite Ht, bool_decide_refl, Hw.
  - intros y _ Hy. unfold rls in Hy. bsimpl. auto.
Qed.

Lemma joined_none d t w : (∀ x, x ∈ services d → w x = false) → joined t t w d = [].
Proof.
  intros Hw. unfold joined. rewrite sel_nothing; [done|]. intros x Hx. unfold rls. by rewrite Hw, !andb_false_r.
Qed.

Lemma det_one_service l : det (one_service l).
Proof. unfold one_service. solve_det. Qed.

Lemma run_one_service t (l : uuid -> cdb -> list CService) d :
  run (WithTenantTx t (λ tx, one_service (l tx))) d
  = (match head (l t d) with Some v => Ok v | None => Err CNoService end, d).
Proof.
  rewrite run_tx by apply det_one_service. unfold one_service.
  rewrite run_attempt_bind by apply det_stmt. rewrite run_stmt. by destruct (head (l t d)).
Qed.

(** ** Authority *)

Lemma cat_authorize_write s t cookie :
  cat_authorize s t cookie true = Ok tt →
  AppType t = "admin"%string ∧
  (∃ p, cs_auth s t cookie = Some p ∧ CanWrite (AdminPrincipal_Role p) = true) ∧
  cat_authorize s t cookie false = Ok tt.
Proof.
  unfold cat_authorize. destruct (AppType t ==? "admin"%string) eqn:E; cbn [negb]; [|done]. bsimpl.
  destruct (cs_auth s t cookie) as [p|]; [|done]. destruct (CanRead _); cbn [negb andb]; [|done].
  destruct (CanWrite _) eqn:Ew; [|done]. intros _. split; [done|]. split; [by exists p|done].
Qed.

(** A use case that first checks the authority to write. *)
Lemma guarded_write {A} s t cookie (m : CApp A) fs d :
  step_in (cat_good (TenantID t)) m → cat_ok d →
  let d' := ((lift (cat_authorize s t cookie true) ;; m) fs d).2.2 in
  cat_ok d' ∧ (d' = d ∨ AppType t = "admin"%string ∧
    (∃ p, cs_auth s t cookie = Some p ∧ CanWrite (AdminPrincipal_Role p) = true) ∧
    others (TenantID t) d' = others (TenantID t) d).
Proof.
  intros Hm Hd. cbv zeta. rewrite bind_eq. unfold lift.
  destruct (cat_authorize s t cookie true) as [[]|e] eqn:E; [|by auto].
  destruct (Hm fs d Hd) as [Hok Ho]. split; [done|]. right.
  by destruct (cat_authorize_write s t cookie E) as (? & ? & _).
Qed.

End Reading.

Section CatalogTheorems.
Context `{GoLib, Collation}.

(** A handler changes the catalog only with the authority to write, only for
    the tenant of the request, and keeps it consistent. *)
Definition safe_write (h : CatalogHandler) {B A} (r : Request B) (m : CApp A) : Prop :=
  ∀ fs d, cat_ok d →
    let d' := (m fs d).2.2 in
    cat_ok d' ∧
    (d' = d ∨ ∃ t p, tenant h r = Some t ∧ AppType t = "admin"%string ∧
       cs_auth (ch_app h) t (Header r "Cookie"%string) = Some p ∧ CanWrite (AdminPrincipal_Role p) = true ∧
       others (TenantID t) d' = others (TenantID t) d).

Lemma replying_state {A R} (m : CApp A) (ok : A -> Response R) fs d :
  (replying m ok fs d).2.2 = (m fs d).2.2.
Proof. unfold replying. by rewrite attempt_bind. Qed.

Lemma safe_write_intro h {B A R} (r : Request B) t (m : CApp A) (ok : A -> Response R) :
  tenant h r = Some t → step_in (cat_good (TenantID t)) m →
  safe_write h r
    (replying (lift (cat_authorize (ch_app h) t (Header r "Cookie"%string) true) ;; m) ok).
Proof.
  intros Ht Hm fs d Hd. cbv zeta. rewrite replying_state.
  destruct (guarded_write (ch_app h) t (Header r "Cookie"%string) m fs d Hm Hd)
    as [Hok [E|(Ha & (p & Hp & Hw) & Ho)]]; (split; [done|]); [by left|]. right. by exists t, p.
Qed.

Lemma safe_write_ret h {B A} (r : Request B) (a : A) : safe_write h r (mret a).
Proof. intros fs d Hd. split; [done|by left]. Qed.

Lemma good_lift {A} t (x : res capp_error A) : step_in (cat_good t) (lift x).
Proof. apply step_in_lift; apply _. Qed.

Lemma safe_save h newID now r : safe_write h r (cat_save h newID now r).
Proof.
  unfold cat_save. destruct (tenant h r) as [t|] eqn:Et; [|apply safe_write_ret].
  destruct (Body r) as [input|]; [|apply safe_write_ret]. cbv zeta.
  assert (∀ i, safe_write h r (replying (Catalog_Save (ch_app h) newID now t (Header r "Cookie"%string) i input)
    (SendJSON (if i ==? uuid_Nil then 201 else 200)))) as Hsave.
  { intros i. unfold Catalog_Save. cbv zeta. apply safe_write_intro; [done|].
    destruct (negb _); [solve_step|]. apply step_in_calling; [apply _|]; apply good_Save. }
  destruct (_ ==? _); [|apply Hsave]. destruct (uuid_Parse _); [apply Hsave|apply safe_write_ret].
Qed.

Lemma safe_assign h r : safe_write h r (cat_assign h r).
Proof.
  unfold cat_assign. destruct (tenant h r) as [t|] eqn:Et; [|apply safe_write_ret].
  destruct (uuid_Parse _) as [b|]; [|apply safe_write_ret]. destruct (Body r) as [s|]; [|apply safe_write_ret].
  unfold Catalog_Assign. apply safe_write_intro; [done|]. destruct (_ ==? _); [solve_step|].
  apply step_in_bind; [apply _|apply good_lift|]. intros _. apply step_in_calling; [apply _|]; apply good_Assign.
Qed.

Lemma safe_unassign h {B} (r : Request B) : safe_write h r (cat_unassign h r).
Proof.
  unfold cat_unassign. destruct (tenant h r) as [t|] eqn:Et; [|apply safe_write_ret].
  destruct (uuid_Parse _) as [b|]; [|apply safe_write_ret]. destruct (uuid_Parse _) as [s|] in |- *; [|apply safe_write_ret].
  unfold Catalog_Unassign. apply safe_write_intro; [done|].
  apply step_in_bind; [apply _|apply good_lift|]. intros _. apply step_in_calling; [apply _|]; apply good_Unassign.
Qed.

(** C34: the catalog stays consistent, and only its owners change it.  From the
    empty catalog on, whatever fails: ids and names are unique, every service
    has exactly one price of at most two decimals, durations and buffers are
    not negative, and assignments refer to services; a handler changes it only
    for an admin session of an owner or manager and leaves the rows of all
    other tenants alone; and the lists, which join services with prices, show
    every service of the tenant exactly once in the order of the names. *)
Theorem catalog_writes_safe h :
  cat_ok (mkCdb [] [] []) ∧
  (∀ newID now r, safe_write h r (cat_save h newID now r)) ∧
  (∀ r, safe_write h r (cat_assign h r)) ∧
  (∀ B (r : Request B), safe_write h r (cat_unassign h r)) ∧
  (∀ d t w, cat_ok d →
     map CService_ID (joined t t w d)
     = map sv_id (order_by (λ s, name_rank (sv_name s)) (sel (λ s, (sv_tenant s ==? t) && w s) (services d)))).
Proof.
  split; [constructor; cbn; first [by constructor|set_solver]|].
  split; [apply safe_save|]. split; [apply safe_assign|]. split; [intros B; apply safe_unassign|].
  intros d t w. apply joined_ids.
Qed.
End CatalogTheorems.

(** ** What was saved is what is shown *)

(** The stored rows of a saved service. *)
Record stored (t : uuid) (input : ServiceInput) (a : Z) (v : CService) (d : cdb) (r : service_row) (p : pricing_row)
  : Prop := mkStored {
  st_ok : cat_ok d;
  st_row : r ∈ services d ∧ sv_tenant r = t;
  st_price : p ∈ pricing d ∧ prices r p;
  st_input : (sv_name r, sv_duration r, sv_before r, sv_after r, sv_active r)
             = (SI_Name input, SI_Duration input, SI_Before input, SI_After input, active_of input);
  st_amount : (pr_amount p, pr_currency p) = (a, SI_Currency input);
  st_value : v = saved r input
}.

Lemma Save_stored newID now t id input d v d' :
  cat_ok d → run (CRepository_Save newID now t id input) d = (Ok v, d') →
  CService_ID v = (if id ==? uuid_Nil then newID else id) ∧
  ∃ a r p, parse_amount (SI_Price input) = Some a ∧ 0 <= a < 10 ^ 12 ∧ stored t input a v d' r p.
Proof.
  intros Hd Hrun. assert (cat_ok d') as Hd'.
  { pose proof (step_in_run _ _ d (good_Save newID now t id input) Hd) as [Hok _]. by rewrite Hrun in Hok. }
  apply Save_run in Hrun as (a & Ha & E). apply price_of_Ok in Ha as (Hpa & Hr & _).
  destruct (id ==? uuid_Nil) eqn:Eid.
  - destruct E as [[_ _ _ _ Edb] ->]. split; [done|].
    exists a, (new_row newID now t input), (mkPricingRow newID t a (SI_Currency input)).
    split; [done|]. split; [done|]. constructor; [done|..|done|done|done]; subst d'; cbn; split; try done; set_solver.
  - destruct E as (r & [(Hin & Ht & Hi) _ _ Edb] & ->). split; [done|].
    destruct (co_priced d Hd r Hin) as (p & Hp & Hp1 & Hp2).
    exists a, (changed_row now input r), (changed_price a input p). split; [done|]. split; [done|].
    constructor; [done|..|done|done|done]; subst d'; cbn; split; try done.
    + apply elem_of_upd. exists r. split; [done|]. unfold service_of, rls. by rewrite Ht, Hi, !bool_decide_refl.
    + apply elem_of_upd. exists p. split; [done|]. unfold price_for, rls.
      by rewrite Hp1, Hp2, Ht, Hi, !bool_decide_refl.
Qed.

Section Shown.
Context `{Collation}.

Definition shown (input : ServiceInput) (a : Z) (id : uuid) : CService :=
  mkCService id (SI_Name input) (SI_Duration input) (SI_Before input) (SI_After input) (amount_text a)
    (SI_Currency input) (active_of input).

Lemma stored_shown t input a v d r p :
  stored t input a v d r p → to_service r p = shown input a (CService_ID v).
Proof.
  intros [_ _ _ Hi Ha ->]. unfold to_service, shown. injection Hi as -> -> -> -> ->. by injection Ha as -> ->.
Qed.

Lemma stored_get t input a v d r p :
  stored t input a v d r p →
  run (CRepository_Service t (CService_ID v)) d = (Ok (shown input a (CService_ID v)), d).
Proof.
  intros Hst. unfold CRepository_Service.
  rewrite (run_one_service t (λ tx, joined tx t (λ s, sv_id s ==? CService_ID v))).
  pose proof Hst as [Hd [Hr Ht] [Hp Hrp] _ _ Hv].
  rewrite (joined_one d r p); [|done..| |].
  - by rewrite (stored_shown t input a v d r p Hst).
  - subst v. apply bool_decide_refl.
  - intros x Hx. bsimpl. by subst v.
Qed.

(** Assigning keeps the saved service and makes it bookable when active. *)
Lemma stored_assign t input a v d r p b :
  stored t input a v d r p →
  ∃ d', run (CRepository_Assign t b (CService_ID v)) d = (Ok tt, d') ∧
    run (CRepository_ActiveAssignedService t b (CService_ID v)) d'
    = (if active_of input then Ok (shown input a (CService_ID v)) else Err CNoService, d').
Proof.
  intros Hst. pose proof Hst as [Hd [Hr Ht] [Hp Hrp] Hi _ Hv].
  assert (CService_ID v = sv_id r) as Hid by by subst v.
  destruct (run (CRepository_Assign t b (CService_ID v)) d) as [[[]|e] d'] eqn:E.
  - exists d'. split; [done|]. apply Assign_run in E as [Hex ->].
    destruct (assign_good t b (CService_ID v) d Hex Hd) as [Hd' _]. set (d' := set_assignments _ d) in *.
    unfold CRepository_ActiveAssignedService.
    rewrite (run_one_service t (λ tx d, joined tx t (λ x, (sv_id x ==? CService_ID v) && assigned tx t b d x && sv_active x) d)).
    assert (assigned t t b d' r = true) as Has.
    { unfold assigned. apply existsb_elem. exists (mkAssignmentRow t b (CService_ID v) true). split.
      - unfold d'. cbn. destruct (existsb _ _) eqn:Ex; [|set_solver].
        apply existsb_elem in Ex as (y & Hy & Ey). apply elem_of_upd. exists y. split; [done|]. rewrite Ey.
        unfold assignment_for in Ey. bsimpl. congruence.
      - unfold rls. cbn. by rewrite Hid, !bool_decide_refl. }
    injection Hi as _ _ _ _ Hact. destruct (active_of input) eqn:Ea.
    + rewrite (joined_one d' r p); [by rewrite (stored_shown t input a v d r p Hst)|done..| |].
      * by rewrite Hid, bool_decide_refl, Has, Hact.
      * intros x Hx. bsimpl. congruence.
    + rewrite joined_none; [done|]. intros x Hx. destruct (sv_id x ==? CService_ID v) eqn:Ex; [|done]. bsimpl.
      assert (x = r) as -> by (eapply NoDup_map_eq; [apply (co_ids d Hd)|done|done|congruence]).
      by rewrite Hact, !andb_false_r.
  - exfalso. revert E. unfold CRepository_Assign. rewrite run_tx by solve_det. unfold query.
    rewrite run_bind, run_stmt by apply det_stmt.
    rewrite (proj2 (existsb_elem _ (services d))); [|exists r; split; [done|]; unfold rls; by rewrite Hid, Ht, !bool_decide_refl].
    cbn [negb]. rewrite run_stmt. unfold insert_assignment. rewrite bool_decide_refl. cbn [negb].
    destruct (existsb (assignment_for t b (CService_ID v)) _); [done|].
    rewrite (proj2 (existsb_elem _ (services d))); [done|]. exists r. split; [done|]. by rewrite Hid, Ht, !bool_decide_refl.
Qed.
End Shown.

(** a service is shown and booked as it was saved.  After a successful
    save the admin sees the same values with a price that denotes the same
    amount; and once it is assigned to an existing barber, the scheduling and
    appointment services get exactly these durations and buffers when the
    service is active, and "not found" when it is not. *)
Theorem saved_service_shown `{Collation} s newID now t cookie id input d v d' :
  cat_ok d → newID ≠ uuid_Nil → run (Catalog_Save s newID now t cookie id input) d = (Ok v, d') →
  let input' := set_name (TrimSpace (SI_Name input)) input in
  ∃ a, parse_amount (SI_Price input) = Some a ∧ parse_amount (amount_text a) = Some a ∧
    run (Catalog_Get s t cookie (CService_ID v)) d' = (Ok (shown input' a (CService_ID v)), d') ∧
    ∀ b, cs_barber s t b = Ok tt →
      ∃ d'', run (Catalog_Assign s t cookie b (CService_ID v)) d' = (Ok tt, d'') ∧
        run (Catalog_Available t b (CService_ID v)) d''
        = (if active_of input then Ok (shown input' a (CService_ID v)) else Err CErrNotFound, d'').
Proof.
  intros Hd Hnew. unfold Catalog_Save. cbv zeta. rewrite run_lift_bind.
  destruct (cat_authorize s t cookie true) as [[]|e] eqn:Eau; [|done].
  destruct (cat_authorize_write s t cookie Eau) as (Happ & _ & Eread).
  set (input' := set_name _ input). destruct (negb (cat_valid input')); [done|].
  rewrite run_calling by apply det_quiet, det_Save.
  destruct (run (CRepository_Save newID now (TenantID t) id input') d) as [[x|e] d0] eqn:Es; [|done].
  intros [= -> ->]. destruct (Save_stored _ _ _ _ _ _ _ _ Hd Es) as (Hid & a & r & p & Hpa & Hr & Hst).
  exists a. split; [done|]. split; [by apply parse_amount_text|]. split.
  - unfold Catalog_Get. rewrite run_lift_bind, Eread, run_calling by (apply quiet_tx, det_one_service).
    by rewrite (stored_get _ _ _ _ _ _ _ Hst).
  - intros b Hb. destruct (stored_assign _ _ _ _ _ _ _ b Hst) as (d'' & Hassign & Hget). exists d''. split.
    + unfold Catalog_Assign, ensureBarber. rewrite run_lift_bind, Eau, Hb.
      rewrite bool_decide_false by (rewrite Hid; by destruct (id ==? uuid_Nil) eqn:E; bsimpl).
      cbv beta iota. rewrite run_lift_bind. cbv beta iota.
      rewrite run_calling by (apply quiet_tx; solve_det). by rewrite Hassign.
    + unfold Catalog_Available. rewrite Happ, (bool_decide_refl "admin"%string). cbn [negb].
      rewrite andb_false_r.
      rewrite run_calling by (apply quiet_tx, det_one_service). rewrite Hget.
      change (active_of input') with (active_of input). by destruct (active_of input).
Qed.

Section CatalogExample.
#[local] Instance sample_collation : Collation := λ s, Z.of_nat (String.length s).

Definition sample_catalog : CatalogService :=
  mkCatalogService (λ _ _, Some (mkAdminPrincipal "OWNER" "1" 4%N false)) (λ _ _, Ok tt).

Lemma saved_service_shown_witness :
  let t := mkTenantContext 1%N "admin" EmptyString in
  let input := mkServiceInput " Cut " 30 0 10 "12.5" "EUR" None in
  let d' := (run (Catalog_Save sample_catalog 9%N 0 t "session" uuid_Nil input) (mkCdb [] [] [])).2 in
  run (Catalog_Get sample_catalog t "session" 9%N) d'
  = (Ok (mkCService 9%N "Cut" 30 0 10 "12.50" "EUR" true), d').
Proof.
  intros t input d'.
  destruct (saved_service_shown sample_catalog 9%N 0 t "session" uuid_Nil input (mkCdb [] [] [])
    (mkCService 9%N "Cut" 30 0 10 "12.5" "EUR" true) d') as (a & Ha & _ & Hget & _).
  - constructor; cbn; first [by constructor|set_solver].
  - done.
  - by vm_compute.
  - cbn [CService_ID] in Hget. rewrite Hget. f_equal. vm_compute in Ha. injection Ha as <-. by vm_compute.
Defined.
End CatalogExample.
