(* ===== verification/Barber.v ===== *)
(** * Barber: barber-service

    The branches and barbers of a shop, which barber works in which branch and
    which login a barber has: the tables of [migrations], [internal/domain],
    [internal/repository], [internal/application] and [internal/handler], and
    an abstract roster that the repository refines. *)
From S2P Require Import Prelude Effects GoTime Http.

Local Open Scope Z_scope.

(** ** Data *)

Record Branch := mkBranch {
  Branch_ID : uuid; Branch_Name : string; Branch_Address : string; Branch_Active : bool
}.
Record BBarber := mkBBarber {
  BB_ID : uuid; BB_DisplayName : string; BB_Bio : string; BB_Active : bool; BB_IdentityID : option uuid;
  BB_BranchIDs : list uuid
}.
Record BranchInput := mkBranchInput { BI_Name : string; BI_Address : string; BI_Active : option bool }.
(** [RI_BranchIDs] is [None] for a nil slice: the key is absent or null. *)
Record BarberInput := mkBarberInput {
  RI_DisplayName : string; RI_Bio : string; RI_Active : option bool; RI_BranchIDs : option (list uuid)
}.

Record branch_row := mkBranchRow {
  br_id : uuid; br_tenant : uuid; br_name : string; br_address : string; br_active : bool; br_updated : time
}.
Record barber_row := mkBarberRow {
  bb_id : uuid; bb_tenant : uuid; bb_name : string; bb_active : bool; bb_identity : option uuid;
  bb_updated : time
}.
Record profile_row := mkProfileRow {
  pf_barber : uuid; pf_tenant : uuid; pf_bio : string; pf_updated : time
}.
Record branch_assignment := mkBranchAssignment {
  ba_tenant : uuid; ba_barber : uuid; ba_branch : uuid; ba_active : bool
}.

Record bdb := mkBdb {
  branches : list branch_row;
  barbers : list barber_row;
  profiles : list profile_row;
  assignments : list branch_assignment
}.
Definition set_branches l d := mkBdb l (barbers d) (profiles d) (assignments d).
Definition set_barbers l d := mkBdb (branches d) l (profiles d) (assignments d).
Definition set_profiles l d := mkBdb (branches d) (barbers d) l (assignments d).
Definition set_branch_assignments l d := mkBdb (branches d) (barbers d) (profiles d) l.

Inductive bar_error := BNotFound | BConflict | BPg (e : pg_error).
#[export] Instance bar_error_eq_dec : EqDecision bar_error.
Proof. solve_decision. Defined.
#[export] Instance bar_from_pg : FromPg bar_error := BPg.
Abbreviation BM := (IO bdb bar_error).

(** ** Statements *)

Definition branch_key (r : branch_row) : uuid * string := (br_tenant r, br_name r).
Definition branch_of (tx t id : uuid) : branch_row -> bool :=
  rls br_tenant tx (λ r, (br_tenant r ==? t) && (br_id r ==? id)).
Definition barber_of (tx t id : uuid) : barber_row -> bool :=
  rls bb_tenant tx (λ r, (bb_tenant r ==? t) && (bb_id r ==? id)).
Definition profile_of (tx t id : uuid) : profile_row -> bool :=
  rls pf_tenant tx (λ r, (pf_tenant r ==? t) && (pf_barber r ==? id)).

Definition insert_branch (tx : uuid) (r : branch_row) (d : bdb) : res pg_error (branch_row * bdb) :=
  if negb (text_ok (br_name r) && text_ok (br_address r)) then Err BadEncoding
  else if br_tenant r !=? tx then Err RlsViolation
  else if existsb (λ x, br_id x ==? br_id r) (branches d) then Err UniqueViolation
  else if existsb (λ x, branch_key x ==? branch_key r) (branches d) then Err UniqueViolation
  else Ok (r, set_branches (branches d ++ [r]) d).

Definition update_branch (tx t id : uuid) (name address : string) (active : bool) (now : time) (d : bdb)
  : res pg_error (branch_row * bdb) :=
  let f r := mkBranchRow (br_id r) (br_tenant r) name address active now in
  if negb (text_ok name && text_ok address) then Err BadEncoding
  else
    match head (sel (branch_of tx t id) (branches d)) with
    | None => Err NoRows
    | Some r =>
        if existsb (λ x, (br_id x !=? id) && (branch_key x ==? branch_key (f r))) (branches d)
        then Err UniqueViolation
        else Ok (f r, set_branches (upd (branch_of tx t id) f (branches d)) d)
    end.

Definition insert_barber (tx : uuid) (r : barber_row) (d : bdb) : res pg_error (barber_row * bdb) :=
  if negb (text_ok (bb_name r)) then Err BadEncoding
  else if bb_tenant r !=? tx then Err RlsViolation
  else if existsb (λ x, bb_id x ==? bb_id r) (barbers d) then Err UniqueViolation
  else Ok (r, set_barbers (barbers d ++ [r]) d).

Definition insert_profile (tx : uuid) (r : profile_row) (d : bdb) : res pg_error (unit * bdb) :=
  if negb (text_ok (pf_bio r)) then Err BadEncoding
  else if pf_tenant r !=? tx then Err RlsViolation
  else if existsb (λ x, pf_barber x ==? pf_barber r) (profiles d) then Err UniqueViolation
  else if negb (existsb (λ x, (bb_tenant x ==? pf_tenant r) && (bb_id x ==? pf_barber r)) (barbers d))
  then Err ForeignKeyViolation
  else Ok (tt, set_profiles (profiles d ++ [r]) d).

Definition update_barber (tx t id : uuid) (name : string) (active : bool) (now : time) (d : bdb)
  : res pg_error (barber_row * bdb) :=
  let f r := mkBarberRow (bb_id r) (bb_tenant r) name active (bb_identity r) now in
  if negb (text_ok name) then Err BadEncoding
  else
    match head (sel (barber_of tx t id) (barbers d)) with
    | None => Err NoRows
    | Some r => Ok (f r, set_barbers (upd (barber_of tx t id) f (barbers d)) d)
    end.

Definition update_profile (tx t id : uuid) (bio : string) (now : time) (d : bdb) : res pg_error (unit * bdb) :=
  if negb (text_ok bio) then Err BadEncoding
  else Ok (tt, set_profiles (upd (profile_of tx t id)
                 (λ r, mkProfileRow (pf_barber r) (pf_tenant r) bio now) (profiles d)) d).

(** UPDATE public.barbers SET identity_id=..., under the unique index on the
    identities that are not null. *)
Definition update_identity (tx t id : uuid) (identity : option uuid) (now : time) (d : bdb)
  : res pg_error (Z * bdb) :=
  let f r := mkBarberRow (bb_id r) (bb_tenant r) (bb_name r) (bb_active r) identity now in
  let rows := sel (barber_of tx t id) (barbers d) in
  if match identity with
     | None => false
     | Some i => (0 <? length rows)%nat
                 && existsb (λ x, (bb_id x !=? id) && (bb_tenant x ==? t) && (bb_identity x ==? Some i)) (barbers d)
     end
  then Err UniqueViolation
  else Ok (Z.of_nat (length rows), set_barbers (upd (barber_of tx t id) f (barbers d)) d).

Definition set_active (b : bool) (x : branch_assignment) : branch_assignment :=
  mkBranchAssignment (ba_tenant x) (ba_barber x) (ba_branch x) b.
Definition assigned_to (t b x : uuid) (a : branch_assignment) : bool :=
  (ba_tenant a ==? t) && (ba_barber a ==? b) && (ba_branch a ==? x).

Definition deactivate (tx t b : uuid) (d : bdb) : res pg_error (unit * bdb) :=
  Ok (tt, set_branch_assignments
            (upd (rls ba_tenant tx (λ a, (ba_tenant a ==? t) && (ba_barber a ==? b))) (set_active false)
               (assignments d)) d).

(** INSERT ... ON CONFLICT DO UPDATE SET active=true *)
Definition upsert_assignment (tx t b x : uuid) (d : bdb) : res pg_error (unit * bdb) :=
  if t !=? tx then Err RlsViolation
  else if existsb (assigned_to t b x) (assignments d)
  then Ok (tt, set_branch_assignments (upd (assigned_to t b x) (set_active true) (assignments d)) d)
  else if negb (existsb (λ r, (bb_tenant r ==? t) && (bb_id r ==? b)) (barbers d)
                && existsb (λ r, (br_tenant r ==? t) && (br_id r ==? x)) (branches d))
  then Err ForeignKeyViolation
  else Ok (tt, set_branch_assignments (assignments d ++ [mkBranchAssignment t b x true]) d).

(** ** Repository *)

Definition to_branch (r : branch_row) : Branch :=
  mkBranch (br_id r) (br_name r) (br_address r) (br_active r).

(** barbers JOIN barber_profiles; the branch ids are filled in later. *)
Definition to_barber (r : barber_row) (p : profile_row) : BBarber :=
  mkBBarber (bb_id r) (bb_name r) (pf_bio p) (bb_active r) (bb_identity r) [].
Definition with_profile (tx : uuid) (d : bdb) (r : barber_row) : list BBarber :=
  map (to_barber r)
    (sel (rls pf_tenant tx (λ p, (pf_barber p ==? bb_id r) && (pf_tenant p ==? bb_tenant r))) (profiles d)).

Definition set_branch_ids (ids : list uuid) (v : BBarber) : BBarber :=
  mkBBarber (BB_ID v) (BB_DisplayName v) (BB_Bio v) (BB_Active v) (BB_IdentityID v) ids.
Definition without_identity (v : BBarber) : BBarber :=
  mkBBarber (BB_ID v) (BB_DisplayName v) (BB_Bio v) (BB_Active v) None (BB_BranchIDs v).

(** The text of a uuid column always parses. *)
Definition branchIDs (tx t b : uuid) (d : bdb) : list uuid :=
  map ba_branch
    (order_by (λ a, Z.of_N (ba_branch a))
       (sel (rls ba_tenant tx (λ a, (ba_tenant a ==? t) && (ba_barber a ==? b) && ba_active a)) (assignments d))).

Definition BRepository_Assigned (t branchID barberID : uuid) : BM bool :=
  WithTenantTx t (λ tx,
    query (λ d, existsb (rls ba_tenant tx (λ a, (ba_tenant a ==? t) && (ba_branch a ==? branchID)
                           && (ba_barber a ==? barberID) && ba_active a)) (assignments d))).

Definition one_row {A} (f : bdb -> option A) : BM A :=
  r ← attempt (stmt (λ d, match f d with Some v => Ok (v, d) | None => Err NoRows end));
  match r with
  | Ok v => mret v
  | Err (BPg NoRows) => io_fail BNotFound
  | Err e => io_fail e
  end.

Definition BRepository_Branch (t id : uuid) : BM Branch :=
  WithTenantTx t (λ tx, one_row (λ d, to_branch <$> head (sel (branch_of tx t id) (branches d)))).

Section Listing.
Context `{Collation}.

(** The branches of a tenant by name: the query ListBranches of sqlc keeps all
    of them, the other one the active ones. *)
Definition ListBranches (tx t : uuid) (keep : branch_row -> bool) (d : bdb) : list Branch :=
  map to_branch (order_by (λ r, name_rank (br_name r))
                   (sel (rls br_tenant tx (λ r, (br_tenant r ==? t) && keep r)) (branches d))).

Definition BRepository_Branches (t : uuid) (activeOnly : bool) : BM (list Branch) :=
  WithTenantTx t (λ tx,
    if negb activeOnly then query (ListBranches tx t (λ _, true)) else query (ListBranches tx t br_active)).

(** Some active assignment leads to an active branch. *)
Definition has_branch (tx : uuid) (d : bdb) (r : barber_row) : bool :=
  existsb (rls ba_tenant tx (λ a,
    (ba_tenant a ==? bb_tenant r) && (ba_barber a ==? bb_id r) && ba_active a
    && existsb (rls br_tenant tx (λ x, (br_id x ==? ba_branch a) && (br_tenant x ==? ba_tenant a) && br_active x))
         (branches d))) (assignments d).

Fixpoint fill_branch_ids (tx t : uuid) (out : list BBarber) : BM (list BBarber) :=
  match out with
  | [] => mret []
  | v :: out' =>
      ids ← query (branchIDs tx t (BB_ID v));
      rest ← fill_branch_ids tx t out';
      mret (set_branch_ids ids v :: rest)
  end.

Definition BRepository_Barbers (t : uuid) (public : bool) : BM (list BBarber) :=
  WithTenantTx t (λ tx,
    rows ← query (λ d,
      List.flat_map (with_profile tx d)
        (order_by (λ r, name_rank (bb_name r))
           (sel (rls bb_tenant tx (λ r, (bb_tenant r ==? t)
                   && (if public then bb_active r && has_branch tx d r else true))) (barbers d))));
    fill_branch_ids tx t (if public then map without_identity rows else rows)).
End Listing.

Definition BRepository_Barber (t id : uuid) : BM BBarber :=
  WithTenantTx t (λ tx,
    v ← one_row (λ d, head (List.flat_map (with_profile tx d) (sel (barber_of tx t id) (barbers d))));
    ids ← query (branchIDs tx t id);
    mret (set_branch_ids ids v)).

Definition BRepository_SaveBranch (newID : uuid) (now : time) (t id : uuid) (input : BranchInput) : BM Branch :=
  WithTenantTx t (λ tx,
    let active := match BI_Active input with Some b => b | None => true end in
    r ← attempt (stmt (if id !=? uuid_Nil
          then update_branch tx t id (BI_Name input) (BI_Address input) active now
          else insert_branch tx (mkBranchRow newID t (BI_Name input) (BI_Address input) active now)));
    match r with
    | Ok v => mret (to_branch v)
    | Err (BPg NoRows) => io_fail BNotFound
    | Err e => io_fail e
    end).

Fixpoint check_branches (tx t : uuid) (l : list uuid) : BM unit :=
  match l with
  | [] => mret tt
  | x :: l' =>
      ok ← query (λ d, existsb (branch_of tx t x) (branches d));
      if negb ok then io_fail BNotFound else check_branches tx t l'
  end.

Fixpoint assign_branches (tx t b : uuid) (l : list uuid) : BM unit :=
  match l with
  | [] => mret tt
  | x :: l' => stmt (upsert_assignment tx t b x) ;; assign_branches tx t b l'
  end.

(** The first half of SaveBarber: the barber and the profile. *)
Definition save_person (newID : uuid) (now : time) (tx t id : uuid) (input : BarberInput) : BM BBarber :=
  let a := match RI_Active input with Some b => b | None => true end in
  if id ==? uuid_Nil then
    r ← stmt (insert_barber tx (mkBarberRow newID t (RI_DisplayName input) a None now));
    stmt (insert_profile tx (mkProfileRow (bb_id r) t (RI_Bio input) now)) ;;
    mret (mkBBarber (bb_id r) (bb_name r) (RI_Bio input) (bb_active r) (bb_identity r) [])
  else
    x ← attempt (stmt (update_barber tx t id (RI_DisplayName input) a now));
    match x with
    | Err (BPg NoRows) => io_fail BNotFound
    | Err e => io_fail e
    | Ok r =>
        stmt (update_profile tx t id (RI_Bio input) now) ;;
        mret (mkBBarber id (bb_name r) (RI_Bio input) (bb_active r) (bb_identity r) [])
    end.

(** The second half: the branches the barber works in. *)
Definition save_assignments (tx t : uuid) (v : BBarber) (ids : option (list uuid)) : BM BBarber :=
  current ← query (branchIDs tx t (BB_ID v));
  match ids with
  | None => mret (set_branch_ids current v)
  | Some l =>
      check_branches tx t l ;;
      stmt (deactivate tx t (BB_ID v)) ;;
      assign_branches tx t (BB_ID v) l ;;
      mret (set_branch_ids l v)
  end.

Definition BRepository_SaveBarber (newID : uuid) (now : time) (t id : uuid) (input : BarberInput) : BM BBarber :=
  WithTenantTx t (λ tx,
    v ← save_person newID now tx t id input;
    save_assignments tx t v (RI_BranchIDs input)).

Definition BRepository_LinkIdentity (now : time) (t barberID identityID : uuid) : BM unit :=
  WithTenantTx t (λ tx,
    linked ← one_row (λ d, bb_identity <$> head (sel (barber_of tx t barberID) (barbers d)));
    match linked with
    | Some i => if i ==? identityID then mret tt else io_fail BConflict
    | None =>
        r ← attempt (stmt (update_identity tx t barberID (Some identityID) now));
        match r with
        | Ok _ => mret tt
        | Err (BPg UniqueViolation) => io_fail BConflict
        | Err e => io_fail e
        end
    end).

Definition BRepository_UnlinkIdentity (now : time) (t barberID : uuid) : BM unit :=
  WithTenantTx t (λ tx,
    n ← stmt (update_identity tx t barberID None now);
    if n =? 1 then mret tt else io_fail BNotFound).

(** ** Application *)

Inductive bapp_error :=
  BErrInvalid | BErrUnauthorized | BErrForbidden | BErrNotFound | BErrConflict | BErrUnprocessable
| BErrOther (e : bar_error).
Abbreviation BApp := (IO bdb bapp_error).

(** [application.Service]: the client of the auth service. *)
Record BarberService := mkBarberService {
  bs_auth : TenantContext -> string -> option AdminPrincipal;
  bs_membership : TenantContext -> uuid -> res membership_error unit
}.

Definition repoError (e : bar_error) : bapp_error :=
  match e with BNotFound => BErrNotFound | BConflict => BErrConflict | _ => BErrOther e end.
Definition repoErrorOrNotFound (e : bar_error) : bapp_error :=
  match e with BNotFound => BErrNotFound | _ => BErrOther e end.
(** [if err != nil && !errors.Is(err, ErrNotFound) { return ErrConflict }] *)
Definition saveError (e : bar_error) : bapp_error :=
  match e with BNotFound => BErrNotFound | _ => BErrConflict end.

Section BarberApplication.
Context `{Collation} (s : BarberService).

Definition bar_authorize (t : TenantContext) (cookie : string) (write : bool) : res bapp_error unit :=
  if AppType t !=? "admin"%string then Err BErrUnauthorized
  else
    match bs_auth s t cookie with
    | None => if write then Err BErrForbidden else Err BErrUnauthorized
    | Some p =>
        if negb (CanRead (AdminPrincipal_Role p)) then
          if negb write then Err BErrUnauthorized else Err BErrForbidden
        else if write && negb (CanWrite (AdminPrincipal_Role p)) then Err BErrForbidden
        else Ok tt
    end.

Definition Barber_PublicBranches (t : TenantContext) : BApp (list Branch) :=
  if AppType t !=? "booking"%string then io_fail BErrUnauthorized
  else calling BErrOther (BRepository_Branches (TenantID t) true).

Definition Barber_PublicBarbers (t : TenantContext) : BApp (list BBarber) :=
  if AppType t !=? "booking"%string then io_fail BErrUnauthorized
  else calling BErrOther (BRepository_Barbers (TenantID t) true).

Definition Barber_Branches (t : TenantContext) (cookie : string) : BApp (list Branch) :=
  lift (bar_authorize t cookie false) ;;
  calling BErrOther (BRepository_Branches (TenantID t) false).

Definition Barber_Branch (t : TenantContext) (cookie : string) (id : uuid) : BApp Branch :=
  lift (bar_authorize t cookie false) ;;
  calling repoError (BRepository_Branch (TenantID t) id).

Definition Barber_SaveBranch (newID : uuid) (now : time) (t : TenantContext) (cookie : string) (id : uuid)
    (input : BranchInput) : BApp Branch :=
  lift (bar_authorize t cookie true) ;;
  let input := mkBranchInput (TrimSpace (BI_Name input)) (BI_Address input) (BI_Active input) in
  if BI_Name input ==? EmptyString then io_fail BErrInvalid
  else calling saveError (BRepository_SaveBranch newID now (TenantID t) id input).

Definition Barber_Barbers (t : TenantContext) (cookie : string) : BApp (list BBarber) :=
  lift (bar_authorize t cookie false) ;;
  calling BErrOther (BRepository_Barbers (TenantID t) false).

Definition Barber_Barber (t : TenantContext) (cookie : string) (id : uuid) : BApp BBarber :=
  lift (bar_authorize t cookie false) ;;
  calling repoError (BRepository_Barber (TenantID t) id).

Definition Barber_SaveBarber (newID : uuid) (now : time) (t : TenantContext) (cookie : string) (id : uuid)
    (input : BarberInput) : BApp BBarber :=
  lift (bar_authorize t cookie true) ;;
  let input := mkBarberInput (TrimSpace (RI_DisplayName input)) (RI_Bio input) (RI_Active input)
                 (RI_BranchIDs input) in
  if RI_DisplayName input ==? EmptyString then io_fail BErrInvalid
  else calling saveError (BRepository_SaveBarber newID now (TenantID t) id input).

Definition Barber_BookingAccess (t : TenantContext) (branchID barberID : uuid) : BApp unit :=
  if (AppType t !=? "admin"%string) && (AppType t !=? "booking"%string) then io_fail BErrUnauthorized
  else
    branch ← calling repoErrorOrNotFound (BRepository_Branch (TenantID t) branchID);
    if negb (Branch_Active branch) then io_fail BErrNotFound
    else
      barber ← calling repoErrorOrNotFound (BRepository_Barber (TenantID t) barberID);
      if negb (BB_Active barber) then io_fail BErrNotFound
      else
        assigned ← calling BErrOther (BRepository_Assigned (TenantID t) branchID barberID);
        if negb assigned then io_fail BErrNotFound else mret tt.

Definition Barber_SchedulingAccess (t : TenantContext) (id : uuid) : BApp (option uuid) :=
  if (AppType t !=? "admin"%string) && (AppType t !=? "booking"%string) then io_fail BErrUnauthorized
  else
    b ← calling repoErrorOrNotFound (BRepository_Barber (TenantID t) id);
    if negb (BB_Active b) then io_fail BErrNotFound else mret (BB_IdentityID b).

Definition Barber_Exists (t : TenantContext) (id : uuid) : BApp unit :=
  if AppType t !=? "admin"%string then io_fail BErrUnauthorized
  else calling repoError (BRepository_Barber (TenantID t) id) ;; mret tt.

Definition Barber_LinkIdentity (now : time) (t : TenantContext) (cookie : string) (barberID identityID : uuid)
  : BApp unit :=
  if identityID ==? uuid_Nil then io_fail BErrInvalid
  else
    lift (bar_authorize t cookie true) ;;
    match bs_membership s t identityID with
    | Err _ => io_fail BErrUnprocessable
    | Ok _ => calling repoError (BRepository_LinkIdentity now (TenantID t) barberID identityID)
    end.

Definition Barber_UnlinkIdentity (now : time) (t : TenantContext) (cookie : string) (barberID : uuid)
  : BApp unit :=
  lift (bar_authorize t cookie true) ;;
  calling repoError (BRepository_UnlinkIdentity now (TenantID t) barberID).
End BarberApplication.

(** ** Handlers *)

Definition bar_respond {A} (e : bapp_error) : Response A :=
  match e with
  | BErrInvalid => SendStatus 400
  | BErrUnauthorized => SendStatus 401
  | BErrForbidden => SendStatus 403
  | BErrNotFound => SendStatus 404
  | BErrConflict => SendStatus 409
  | BErrUnprocessable => SendStatus 422
  | BErrOther _ => SendStatus 500
  end.

Record BarberHandler := mkBarberHandler { bh_app : BarberService; bh_verifier : MultiTokenVerifier }.

(** The body of a barber: whether the object has a key [identity_id], and the
    decoded input. *)
Record BarberBody := mkBarberBody { body_identity : bool; body_input : option BarberInput }.

Section BarberHandlers.
Context `{GoLib, Collation} (h : BarberHandler).

Definition bar_tenant {B} (r : Request B) : option TenantContext := adminauth_Context r (bh_verifier h).
Definition cookie_of {B} (r : Request B) : string := Header r "Cookie"%string.
Definition bar_id {B} (r : Request B) (key : string) : option uuid := uuid_Parse (Params r key).

(** The reply for the outcome of a use case. *)
Definition bar_reply {A R} (m : BApp A) (ok : A -> Response R) : BApp (Response R) :=
  r ← attempt m; mret (match r with Ok a => ok a | Err e => bar_respond e end).

Definition publicBranches {B} (r : Request B) : BApp (Response (list Branch)) :=
  match bar_tenant r with
  | None => mret (SendStatus 401)
  | Some t => bar_reply (Barber_PublicBranches t) (SendJSON 200)
  end.

Definition publicBarbers {B} (r : Request B) : BApp (Response (list BBarber)) :=
  match bar_tenant r with
  | None => mret (SendStatus 401)
  | Some t => bar_reply (Barber_PublicBarbers t) (SendJSON 200)
  end.

Definition branchList {B} (r : Request B) : BApp (Response (list Branch)) :=
  match bar_tenant r with
  | None => mret (SendStatus 401)
  | Some t => bar_reply (Barber_Branches (bh_app h) t (cookie_of r)) (SendJSON 200)
  end.

Definition branchGet {B} (r : Request B) : BApp (Response Branch) :=
  match bar_tenant r with
  | None => mret (SendStatus 401)
  | Some t =>
      match bar_id r "id" with
      | None => mret (SendStatus 400)
      | Some i => bar_reply (Barber_Branch (bh_app h) t (cookie_of r) i) (SendJSON 200)
      end
  end.

Definition branchSave (newID : uuid) (now : time) (r : Request BranchInput) : BApp (Response Branch) :=
  match bar_tenant r with
  | None => mret (SendStatus 403)
  | Some t =>
      match Body r with
      | None => mret (SendStatus 400)
      | Some input =>
          let save i := bar_reply (Barber_SaveBranch (bh_app h) newID now t (cookie_of r) i input)
                          (SendJSON (if i ==? uuid_Nil then 201 else 200)) in
          if Method r ==? "PATCH"%string then
            match bar_id r "id" with
            | None => mret (SendStatus 400)
            | Some i => save i
            end
          else save uuid_Nil
      end
  end.

Definition barberList {B} (r : Request B) : BApp (Response (list BBarber)) :=
  match bar_tenant r with
  | None => mret (SendStatus 401)
  | Some t => bar_reply (Barber_Barbers (bh_app h) t (cookie_of r)) (SendJSON 200)
  end.

Definition barberGet {B} (r : Request B) : BApp (Response BBarber) :=
  match bar_tenant r with
  | None => mret (SendStatus 401)
  | Some t =>
      match bar_id r "id" with
      | None => mret (SendStatus 400)
      | Some i => bar_reply (Barber_Barber (bh_app h) t (cookie_of r) i) (SendJSON 200)
      end
  end.

Definition barberSave (newID : uuid) (now : time) (r : Request BarberBody) : BApp (Response BBarber) :=
  match bar_tenant r with
  | None => mret (SendStatus 403)
  | Some t =>
      match Body r with
      | Some (mkBarberBody false (Some input)) =>
          let save i := bar_reply (Barber_SaveBarber (bh_app h) newID now t (cookie_of r) i input)
                          (SendJSON (if i ==? uuid_Nil then 201 else 200)) in
          if Method r ==? "PATCH"%string then
            match bar_id r "id" with
            | None => mret (SendStatus 400)
            | Some i => save i
            end
          else save uuid_Nil
      | _ => mret (SendStatus 400)
      end
  end.

Definition branchBarberAccess {B} (r : Request B) : BApp (Response unit) :=
  match bar_tenant r, bar_id r "branch_id", bar_id r "barber_id" with
  | Some t, Some b, Some x => bar_reply (Barber_BookingAccess t b x) (λ _, SendStatus 204)
  | _, _, _ => mret (SendStatus 401)
  end.

Definition schedulingAccess {B} (r : Request B) : BApp (Response (option uuid)) :=
  match bar_tenant r, bar_id r "id" with
  | Some t, Some i => bar_reply (Barber_SchedulingAccess t i) (SendJSON 200)
  | _, _ => mret (SendStatus 401)
  end.

Definition barberExists {B} (r : Request B) : BApp (Response unit) :=
  match bar_tenant r, bar_id r "id" with
  | Some t, Some i => bar_reply (Barber_Exists t i) (λ _, SendStatus 204)
  | _, _ => mret (SendStatus 401)
  end.

Definition linkIdentity (now : time) (r : Request uuid) : BApp (Response unit) :=
  match bar_tenant r with
  | None => mret (SendStatus 401)
  | Some t =>
      match bar_id r "barber_id" with
      | None => mret (SendStatus 400)
      | Some b =>
          match Body r with
          | None => mret (SendStatus 400)
          | Some i =>
              bar_reply (Barber_LinkIdentity (bh_app h) now t (cookie_of r) b i) (λ _, SendStatus 204)
          end
      end
  end.

Definition unlinkIdentity {B} (now : time) (r : Request B) : BApp (Response unit) :=
  match bar_tenant r with
  | None => mret (SendStatus 401)
  | Some t =>
      match bar_id r "barber_id" with
      | None => mret (SendStatus 400)
      | Some b => bar_reply (Barber_UnlinkIdentity (bh_app h) now t (cookie_of r) b) (λ _, SendStatus 204)
      end
  end.
End BarberHandlers.

(** * Lemmas *)

(** ** Bodies are deterministic *)

Lemma det_one_row {A} (f : bdb -> option A) : det (one_row f).
Proof. unfold one_row. solve_det. Qed.
Lemma det_check_branches tx t l : det (check_branches tx t l).
Proof. induction l; cbn; solve_det; auto. Qed.
Lemma det_assign_branches tx t b l : det (assign_branches tx t b l).
Proof. induction l; cbn; solve_det; auto. Qed.
Lemma det_fill tx t l : det (fill_branch_ids tx t l).
Proof. induction l; cbn; solve_det; auto. Qed.
#[export] Hint Resolve det_one_row det_check_branches det_assign_branches det_fill : barber.
Lemma det_save_person newID now tx t id input : det (save_person newID now tx t id input).
Proof. unfold save_person. cbv zeta. solve_det. Qed.
Lemma det_save_assignments tx t v ids : det (save_assignments tx t v ids).
Proof. unfold save_assignments. solve_det. Qed.
#[export] Hint Resolve det_save_person det_save_assignments : barber.

(** ** The invariant *)

Definition assignment_key (a : branch_assignment) : uuid * uuid * uuid := (ba_tenant a, ba_barber a, ba_branch a).

Record ros_ok (d : bdb) : Prop := mkRosOk {
  ro_branch_ids : NoDup (map br_id (branches d));
  ro_branch_names : NoDup (map branch_key (branches d));
  ro_barber_ids : NoDup (map bb_id (barbers d));
  ro_identities : ∀ x y i, x ∈ barbers d → y ∈ barbers d → bb_tenant x = bb_tenant y →
    bb_identity x = Some i → bb_identity y = Some i → x = y;
  ro_profile_ids : NoDup (map pf_barber (profiles d));
  ro_profiled : ∀ x, x ∈ barbers d → ∃ p, p ∈ profiles d ∧ pf_barber p = bb_id x ∧ pf_tenant p = bb_tenant x;
  ro_profile : ∀ p, p ∈ profiles d → ∃ x, x ∈ barbers d ∧ bb_id x = pf_barber p ∧ bb_tenant x = pf_tenant p;
  ro_keys : NoDup (map assignment_key (assignments d));
  ro_assigned : ∀ a, a ∈ assignments d →
    (∃ x, x ∈ barbers d ∧ bb_id x = ba_barber a ∧ bb_tenant x = ba_tenant a) ∧
    ∃ x, x ∈ branches d ∧ br_id x = ba_branch a ∧ br_tenant x = ba_tenant a
}.

(** The rows of the other tenants. *)
Definition bothers (t : uuid) (d : bdb)
  : list branch_row * list barber_row * list profile_row * list branch_assignment :=
  (sel (λ r, br_tenant r !=? t) (branches d), sel (λ r, bb_tenant r !=? t) (barbers d),
   sel (λ r, pf_tenant r !=? t) (profiles d), sel (λ a, ba_tenant a !=? t) (assignments d)).

(** A change made for tenant [t]. *)
Definition ros_good (t : uuid) (d d' : bdb) : Prop := ros_ok d → ros_ok d' ∧ bothers t d' = bothers t d.
#[export] Instance ros_good_preorder t : PreOrder (ros_good t).
Proof.
  split; [by intros d H|]. intros a b c H1 H2 H. destruct (H1 H) as [Hb E1]. destruct (H2 Hb) as [Hc E2].
  split; [done|]. by rewrite E2.
Qed.

Lemma branch_of_iff t id r : branch_of t t id r = true ↔ br_tenant r = t ∧ br_id r = id.
Proof. unfold branch_of, rls. split; [intros H; by bsimpl|intros [-> ->]; by rewrite !bool_decide_refl]. Qed.
Lemma barber_of_iff t id r : barber_of t t id r = true ↔ bb_tenant r = t ∧ bb_id r = id.
Proof. unfold barber_of, rls. split; [intros H; by bsimpl|intros [-> ->]; by rewrite !bool_decide_refl]. Qed.
Lemma profile_of_iff t id r : profile_of t t id r = true ↔ pf_tenant r = t ∧ pf_barber r = id.
Proof. unfold profile_of, rls. split; [intros H; by bsimpl|intros [-> ->]; by rewrite !bool_decide_refl]. Qed.

(** *** Branches *)

Lemma insert_branch_good t r d :
  br_tenant r = t → (∀ x, x ∈ branches d → br_id x ≠ br_id r) →
  (∀ x, x ∈ branches d → branch_key x ≠ branch_key r) →
  ros_good t d (set_branches (branches d ++ [r]) d).
Proof.
  intros Ht Hi Hk [B1 B2 R1 R2 P1 P2 P3 A1 A2]. split.
  - constructor; cbn; try done; [by apply NoDup_map_snoc..|].
    intros a Ha. destruct (A2 a Ha) as [H1 (x & Hx & E)]. split; [done|]. exists x. set_solver.
  - unfold bothers. cbn. rewrite sel_snoc_id; [done|]. by rewrite Ht, bool_decide_refl.
Qed.

Lemma update_branch_good t id (f : branch_row -> branch_row) d :
  (∀ r, br_id (f r) = br_id r ∧ br_tenant (f r) = br_tenant r) →
  (∀ s x, s ∈ branches d → x ∈ branches d → branch_of t t id s = true → br_id x ≠ id →
     branch_key x ≠ branch_key (f s)) →
  ros_good t d (set_branches (upd (branch_of t t id) f (branches d)) d).
Proof.
  intros Hf Hk [B1 B2 R1 R2 P1 P2 P3 A1 A2]. split.
  - constructor; cbn; try done.
    + rewrite map_upd; [done|]. intros x _ _. apply Hf.
    + apply (NoDup_map_upd_one br_id); [done|done| |].
      * intros s x _ _ [_ ->]%branch_of_iff [_ ->]%branch_of_iff. done.
      * intros s x Hs Hx Es Hne. apply (Hk s x Hs Hx Es). by apply branch_of_iff in Es as [_ <-].
    + intros a Ha. destruct (A2 a Ha) as [H1 (x & Hx & E1 & E2)]. split; [done|].
      exists (if branch_of t t id x then f x else x). split; [apply elem_of_upd; by exists x|].
      rewrite (upd_keeps br_id), (upd_keeps br_tenant) by (intros _; apply Hf). done.
  - unfold bothers. cbn. rewrite sel_upd_id; [done| |].
    + intros x _ Hx. destruct (branch_of t t id x) eqn:E; [|done]. apply branch_of_iff in E as [E _].
      by rewrite E, bool_decide_refl in Hx.
    + intros x _ [E _]%branch_of_iff. by rewrite (proj2 (Hf x)), E, bool_decide_refl.
Qed.

(** *** Barbers *)

Lemma insert_barber_good t r p d :
  bb_tenant r = t → bb_identity r = None → pf_barber p = bb_id r → pf_tenant p = t →
  (∀ x, x ∈ barbers d → bb_id x ≠ bb_id r) →
  ros_good t d (mkBdb (branches d) (barbers d ++ [r]) (profiles d ++ [p]) (assignments d)).
Proof.
  intros Ht Hid Hp Hpt Hi [B1 B2 R1 R2 P1 P2 P3 A1 A2]. split.
  - constructor; cbn; try done.
    + by apply NoDup_map_snoc.
    + intros x y i [Hx|Hx%list_elem_of_singleton]%elem_of_app [Hy|Hy%list_elem_of_singleton]%elem_of_app; subst;
        [by apply R2|congruence..].
    + apply NoDup_map_snoc; [done|]. intros q Hq. destruct (P3 q Hq) as (x & Hx & <- & _). rewrite Hp. by apply Hi.
    + intros x [Hx|Hx%list_elem_of_singleton]%elem_of_app.
      * destruct (P2 x Hx) as (q & Hq & E). exists q. set_solver.
      * subst x. exists p. split; [set_solver|]. split; congruence.
    + intros q [Hq|Hq%list_elem_of_singleton]%elem_of_app.
      * destruct (P3 q Hq) as (x & Hx & E). exists x. set_solver.
      * subst q. exists r. split; [set_solver|]. split; congruence.
    + intros a Ha. destruct (A2 a Ha) as [(x & Hx & E) H2]. split; [|done]. exists x. set_solver.
  - unfold bothers. cbn. by rewrite !sel_snoc_id by (rewrite ?Ht, ?Hpt; by rewrite bool_decide_refl).
Qed.

(** A changed barber and profile; the new identity is not one of another barber
    of the tenant. *)
Lemma update_barber_good t id (f : barber_row -> barber_row) (g : profile_row -> profile_row) d :
  (∀ r, bb_id (f r) = bb_id r ∧ bb_tenant (f r) = bb_tenant r) →
  (∀ r, pf_barber (g r) = pf_barber r ∧ pf_tenant (g r) = pf_tenant r) →
  (∀ s x i, s ∈ barbers d → x ∈ barbers d → barber_of t t id s = true → bb_id x ≠ id → bb_tenant x = t →
     bb_identity (f s) = Some i → bb_identity x ≠ Some i) →
  ros_good t d (mkBdb (branches d) (upd (barber_of t t id) f (barbers d))
                  (upd (profile_of t t id) g (profiles d)) (assignments d)).
Proof.
  intros Hf Hg Hid [B1 B2 R1 R2 P1 P2 P3 A1 A2].
  assert (∀ r, bb_id (if barber_of t t id r then f r else r) = bb_id r ∧
               bb_tenant (if barber_of t t id r then f r else r) = bb_tenant r) as Hf'
    by (intros r; split; apply upd_keeps; intros _; apply Hf).
  assert (∀ r, pf_barber (if profile_of t t id r then g r else r) = pf_barber r ∧
               pf_tenant (if profile_of t t id r then g r else r) = pf_tenant r) as Hg'
    by (intros r; split; apply upd_keeps; intros _; apply Hg).
  split.
  - constructor; cbn; try done.
    + rewrite map_upd; [done|]. intros x _ _. apply Hf.
    + intros x' y' i (x & Hx & ->)%elem_of_upd (y & Hy & ->)%elem_of_upd Et E1 E2.
      rewrite (proj2 (Hf' x)), (proj2 (Hf' y)) in Et.
      assert (x = y) as ->; [|done]. apply (NoDup_map_eq bb_id (barbers d)); [done..|].
      destruct (decide (bb_id x = bb_id y)) as [|Hne]; [done|]. exfalso.
      destruct (barber_of t t id x) eqn:Ex, (barber_of t t id y) eqn:Ey.
      * apply barber_of_iff in Ex, Ey. apply Hne. destruct Ex, Ey. congruence.
      * pose proof (proj1 (barber_of_iff _ _ _) Ex) as [T I]. eapply (Hid x y i); eauto; congruence.
      * pose proof (proj1 (barber_of_iff _ _ _) Ey) as [T I]. eapply (Hid y x i); eauto; congruence.
      * apply Hne. by rewrite (R2 x y i).
    + rewrite map_upd; [done|]. intros x _ _. apply Hg.
    + intros x' (x & Hx & ->)%elem_of_upd. destruct (P2 x Hx) as (p & Hp & E1 & E2).
      eexists. split; [apply elem_of_upd; by exists p|]. destruct (Hf' x) as [-> ->], (Hg' p) as [-> ->]. done.
    + intros p' (p & Hp & ->)%elem_of_upd. destruct (P3 p Hp) as (x & Hx & E1 & E2).
      eexists. split; [apply elem_of_upd; by exists x|]. destruct (Hf' x) as [-> ->], (Hg' p) as [-> ->]. done.
    + intros a Ha. destruct (A2 a Ha) as [(x & Hx & E1 & E2) H2]. split; [|done].
      eexists. split; [apply elem_of_upd; by exists x|]. by destruct (Hf' x) as [-> ->].
  - unfold bothers. cbn. rewrite !sel_upd_id; [done| | | |].
    + intros x _ Hx. destruct (profile_of t t id x) eqn:E; [|done]. apply profile_of_iff in E as [E _].
      by rewrite E, bool_decide_refl in Hx.
    + intros x _ [E _]%profile_of_iff. by rewrite (proj2 (Hg x)), E, bool_decide_refl.
    + intros x _ Hx. destruct (barber_of t t id x) eqn:E; [|done]. apply barber_of_iff in E as [E _].
      by rewrite E, bool_decide_refl in Hx.
    + intros x _ [E _]%barber_of_iff. by rewrite (proj2 (Hf x)), E, bool_decide_refl.
Qed.

(** *** Assignments *)

Lemma flag_good t (q : branch_assignment -> bool) v d :
  (∀ a, q a = true → ba_tenant a = t) →
  ros_good t d (set_branch_assignments (upd q (set_active v) (assignments d)) d).
Proof.
  intros Hq [B1 B2 R1 R2 P1 P2 P3 A1 A2]. split.
  - constructor; cbn; try done; [by rewrite map_upd|]. intros a' (a & Ha & ->)%elem_of_upd.
    rewrite (upd_keeps ba_barber), (upd_keeps ba_tenant), (upd_keeps ba_branch) by done. auto.
  - unfold bothers. cbn. rewrite sel_upd_id; [done| |].
    + intros a _ Ha. destruct (q a) eqn:E; [|done]. by rewrite (Hq a E), bool_decide_refl in Ha.
    + intros a _ E. cbn. by rewrite (Hq a E), bool_decide_refl.
Qed.

Lemma deactivate_good t b d a d' : deactivate t t b d = Ok (a, d') → ros_good t d d'.
Proof.
  unfold deactivate. intros [= _ <-]. apply flag_good. intros a' Ha. unfold rls in Ha. by bsimpl.
Qed.

Lemma assigned_to_iff t b x a : assigned_to t b x a = true ↔ assignment_key a = (t, b, x).
Proof.
  unfold assigned_to, assignment_key. split; [intros H; bsimpl; congruence|].
  intros [= -> -> ->]. by rewrite !bool_decide_refl.
Qed.

Lemma upsert_good t b x d a d' : upsert_assignment t t b x d = Ok (a, d') → ros_good t d d'.
Proof.
  unfold upsert_assignment. rewrite bool_decide_refl. cbn [negb].
  destruct (existsb (assigned_to t b x) _) eqn:E.
  { intros [= _ <-]. apply flag_good. intros a' Ha%assigned_to_iff. by injection Ha. }
  destruct (existsb _ (barbers d)) eqn:E1; cbn [andb]; [|done].
  destruct (existsb _ (branches d)) eqn:E2; cbn [negb]; [|done]. intros [= _ <-].
  apply existsb_elem in E1 as (r & Hr & E1), E2 as (s & Hs & E2). bsimpl. rewrite existsb_none in E.
  intros [B1 B2 R1 R2 P1 P2 P3 A1 A2]. split.
  - constructor; cbn; try done.
    + apply NoDup_map_snoc; [done|]. intros y Hy Ey. specialize (E y Hy).
      by rewrite (proj2 (assigned_to_iff t b x y) Ey) in E.
    + intros y [Hy|Hy%list_elem_of_singleton]%elem_of_app; [auto|]. subst y. cbn. split; eauto.
  - unfold bothers. cbn. rewrite sel_snoc_id; [done|]. cbn. by rewrite bool_decide_refl.
Qed.

Lemma good_assign_branches t b l : step_in (ros_good t) (assign_branches t t b l).
Proof.
  induction l as [|x l IH]; cbn; [apply step_in_ret, _|]. apply step_in_bind; [apply _| |by intros _].
  apply step_in_stmt; [apply _|]. intros d a d'. apply upsert_good.
Qed.

Lemma good_check_branches t l : step_in (ros_good t) (check_branches t t l).
Proof. induction l as [|x l IH]; cbn; solve_step. Qed.

Lemma good_save_assignments t v ids : step_in (ros_good t) (save_assignments t t v ids).
Proof.
  unfold save_assignments. apply step_in_bind; [apply _|solve_step|]. intros current.
  destruct ids as [l|]; [|solve_step]. apply step_in_bind; [apply _|apply good_check_branches|]. intros _.
  apply step_in_bind; [apply _| |].
  - apply step_in_stmt; [apply _|]. intros d a d'. apply deactivate_good.
  - intros _. apply step_in_bind; [apply _|apply good_assign_branches|]. intros _. apply step_in_ret, _.
Qed.

(** *** Exact outcomes *)

Definition active_or_true (a : option bool) : bool := match a with Some b => b | None => true end.
Definition new_barber (newID : uuid) (now : time) (t : uuid) (input : BarberInput) : barber_row :=
  mkBarberRow newID t (RI_DisplayName input) (active_or_true (RI_Active input)) None now.
Definition changed_barber (now : time) (input : BarberInput) (r : barber_row) : barber_row :=
  mkBarberRow (bb_id r) (bb_tenant r) (RI_DisplayName input) (active_or_true (RI_Active input)) (bb_identity r) now.
Definition changed_profile (now : time) (bio : string) (p : profile_row) : profile_row :=
  mkProfileRow (pf_barber p) (pf_tenant p) bio now.
Definition find_barber (t id : uuid) (d : bdb) : option barber_row := head (sel (barber_of t t id) (barbers d)).
Definition find_branch (t id : uuid) (d : bdb) : option branch_row := head (sel (branch_of t t id) (branches d)).

(** Why the barber or the profile cannot be written. *)
Definition person_error (newID t id : uuid) (input : BarberInput) (d : bdb) : option bar_error :=
  if negb (text_ok (RI_DisplayName input)) then Some (BPg BadEncoding)
  else if if id ==? uuid_Nil then false else match find_barber t id d with None => true | Some _ => false end
  then Some BNotFound
  else if (id ==? uuid_Nil) && existsb (λ x, bb_id x ==? newID) (barbers d) then Some (BPg UniqueViolation)
  else if negb (text_ok (RI_Bio input)) then Some (BPg BadEncoding)
  else None.

Definition person_db (newID : uuid) (now : time) (t id : uuid) (input : BarberInput) (d : bdb) : bdb :=
  if id ==? uuid_Nil
  then mkBdb (branches d) (barbers d ++ [new_barber newID now t input])
         (profiles d ++ [mkProfileRow newID t (RI_Bio input) now]) (assignments d)
  else mkBdb (branches d) (upd (barber_of t t id) (changed_barber now input) (barbers d))
         (upd (profile_of t t id) (changed_profile now (RI_Bio input)) (profiles d)) (assignments d).

Definition person (newID t id : uuid) (input : BarberInput) (d : bdb) : BBarber :=
  mkBBarber (if id ==? uuid_Nil then newID else id) (RI_DisplayName input) (RI_Bio input)
    (active_or_true (RI_Active input))
    (if id ==? uuid_Nil then None else find_barber t id d ≫= bb_identity) [].

Lemma save_person_run newID now t id input d :
  ros_ok d →
  match person_error newID t id input d with
  | Some e => (run (save_person newID now t t id input) d).1 = Err e
  | None => run (save_person newID now t t id input) d
            = (Ok (person newID t id input d), person_db newID now t id input d)
  end.
Proof.
  intros Hd. unfold save_person, person_error, person, person_db, find_barber. cbv zeta.
  fold (active_or_true (RI_Active input)). destruct (id ==? uuid_Nil) eqn:Eid.
  - rewrite run_bind, run_stmt by apply det_stmt. unfold insert_barber. cbn [bb_name bb_tenant bb_id].
    destruct (text_ok (RI_DisplayName input)); [|done]. cbn [negb andb]. rewrite bool_decide_refl. cbn [negb].
    destruct (existsb (λ x, bb_id x ==? newID) (barbers d)) eqn:E1; [done|].
    rewrite run_bind, run_stmt by apply det_stmt. unfold insert_profile.
    cbn [pf_bio pf_tenant pf_barber bb_id profiles barbers set_barbers].
    destruct (text_ok (RI_Bio input)); [|done]. cbn [negb]. rewrite bool_decide_refl. cbn [negb].
    rewrite (existsb_fresh bb_id) in E1. rewrite (proj2 (existsb_fresh pf_barber newID (profiles d))).
    2:{ intros p Hp. destruct (ro_profile d Hd p Hp) as (x & Hx & <- & _). auto. }
    rewrite existsb_app. cbn [existsb bb_tenant bb_id]. rewrite !bool_decide_refl. cbn [andb orb].
    by rewrite orb_true_r.
  - rewrite run_attempt_bind by apply det_stmt. rewrite run_stmt. unfold update_barber. cbv zeta.
    destruct (text_ok (RI_DisplayName input)); [|done]. cbn [negb andb].
    destruct (head _) as [r|] eqn:Eh; [|done]. cbn [fst snd].
    rewrite run_bind, run_stmt by apply det_stmt. unfold update_profile.
    destruct (text_ok (RI_Bio input)); [|done]. done.
Qed.

Lemma person_good newID now t id input d :
  ros_ok d → person_error newID t id input d = None → ros_good t d (person_db newID now t id input d).
Proof.
  intros Hd. unfold person_error, person_db. destruct (text_ok (RI_DisplayName input)); [|done]. cbn [negb].
  destruct (id ==? uuid_Nil) eqn:Eid; cbn [andb].
  - destruct (existsb _ _) eqn:E; [done|]. rewrite (existsb_fresh bb_id) in E. intros _.
    by apply insert_barber_good.
  - intros _. apply update_barber_good; [done|done|]. intros s x i Hs Hx Es Hne Ht E1 E2. cbn in E1.
    apply barber_of_iff in Es as [T I]. apply Hne. rewrite <- I. f_equal.
    apply (ro_identities d Hd x s i); [done..|congruence|done|done].
Qed.

Lemma good_SaveBarber newID now t id input :
  step_in (ros_good t) (BRepository_SaveBarber newID now t id input).
Proof.
  apply step_in_tx_run; [apply _|solve_det|]. intros d v d'. rewrite run_tx by solve_det.
  rewrite run_bind by apply det_save_person. intros Hrun Hd.
  pose proof (save_person_run newID now t id input d Hd) as Hp.
  destruct (person_error newID t id input d) eqn:Ee.
  - destruct (run (save_person _ _ _ _ _ _) d) as [[] ?]; by cbn in *.
  - rewrite Hp in Hrun. pose proof (person_good newID now t id input d Hd Ee Hd) as [Hd1 E1].
    pose proof (step_in_run _ _ (person_db newID now t id input d)
      (good_save_assignments t (person newID t id input d) (RI_BranchIDs input)) Hd1) as [Hd2 E2].
    destruct (run (save_assignments _ _ _ _) _) as [[] d2]; [|done]. injection Hrun as _ <-.
    split; [done|]. by rewrite <- E1.
Qed.

Definition new_branch (newID : uuid) (now : time) (t : uuid) (input : BranchInput) : branch_row :=
  mkBranchRow newID t (BI_Name input) (BI_Address input) (active_or_true (BI_Active input)) now.
Definition changed_branch (now : time) (input : BranchInput) (r : branch_row) : branch_row :=
  mkBranchRow (br_id r) (br_tenant r) (BI_Name input) (BI_Address input) (active_or_true (BI_Active input)) now.

Definition branch_error (newID t id : uuid) (input : BranchInput) (d : bdb) : option bar_error :=
  if negb (text_ok (BI_Name input) && text_ok (BI_Address input)) then Some (BPg BadEncoding)
  else if if id ==? uuid_Nil then false else match find_branch t id d with None => true | Some _ => false end
  then Some BNotFound
  else if (id ==? uuid_Nil) && existsb (λ x, br_id x ==? newID) (branches d) then Some (BPg UniqueViolation)
  else if existsb (λ x, (br_id x !=? (if id ==? uuid_Nil then newID else id))
                        && (branch_key x ==? (t, BI_Name input))) (branches d)
  then Some (BPg UniqueViolation)
  else None.

Definition branch_db (newID : uuid) (now : time) (t id : uuid) (input : BranchInput) (d : bdb) : bdb :=
  set_branches (if id ==? uuid_Nil then branches d ++ [new_branch newID now t input]
                else upd (branch_of t t id) (changed_branch now input) (branches d)) d.

Definition saved_branch (newID id : uuid) (input : BranchInput) : Branch :=
  mkBranch (if id ==? uuid_Nil then newID else id) (BI_Name input) (BI_Address input)
    (active_or_true (BI_Active input)).

Lemma det_SaveBranch newID now t id input : det (BRepository_SaveBranch newID now t id input).
Proof. unfold BRepository_SaveBranch. cbv zeta. solve_det. Qed.

Lemma SaveBranch_run newID now t id input d :
  run (BRepository_SaveBranch newID now t id input) d
  = match branch_error newID t id input d with
    | Some e => (Err e, d)
    | None => (Ok (saved_branch newID id input), branch_db newID now t id input d)
    end.
Proof.
  unfold BRepository_SaveBranch, branch_error, branch_db, saved_branch, find_branch. cbv zeta.
  fold (active_or_true (BI_Active input)). rewrite run_tx by solve_det.
  rewrite run_attempt_bind by apply det_stmt. rewrite run_stmt.
  destruct (id ==? uuid_Nil) eqn:Eid; cbn [negb andb].
  - unfold insert_branch. cbn [br_name br_address br_tenant br_id].
    destruct (text_ok (BI_Name input) && text_ok (BI_Address input)); [|done]. cbn [negb].
    rewrite bool_decide_refl. cbn [negb]. destruct (existsb (λ x, br_id x ==? newID) (branches d)) eqn:E; [done|].
    rewrite (existsb_ext_in (λ x, (br_id x !=? newID) && (branch_key x ==? (t, BI_Name input)))
      (λ x, branch_key x ==? (t, BI_Name input))).
    + unfold branch_key. cbn [br_tenant br_name].
      match goal with |- context [if existsb ?p _ then _ else _] => by destruct (existsb p (branches d)) end.
    + rewrite (existsb_fresh br_id) in E. intros x Hx. by rewrite bool_decide_false by auto.
  - unfold update_branch. cbv zeta.
    destruct (text_ok (BI_Name input) && text_ok (BI_Address input)); [|done]. cbn [negb].
    destruct (head _) as [r|] eqn:Eh; [|done]. apply head_sel_Some in Eh as [[T I]%branch_of_iff _].
    unfold branch_key. cbn [br_tenant br_name]. rewrite T. fold (changed_branch now input).
    match goal with |- context [if existsb ?p _ then _ else _] => destruct (existsb p (branches d)); [done|] end.
    cbn [fst snd]. rewrite run_ret. unfold to_branch. cbn. by rewrite I.
Qed.

Lemma branch_good newID now t id input d :
  branch_error newID t id input d = None → ros_good t d (branch_db newID now t id input d).
Proof.
  unfold branch_error, branch_db. destruct (negb _); [done|].
  destruct (id ==? uuid_Nil) eqn:Eid; cbn [andb].
  - destruct (existsb _ _) eqn:E; [done|]. rewrite (existsb_fresh br_id) in E.
    destruct (existsb _ _) eqn:E2 in |- *; [done|]. intros _. apply insert_branch_good; [done..|].
    intros x Hx. rewrite existsb_none in E2. specialize (E2 x Hx). rewrite bool_decide_false in E2 by auto. cbn [negb andb] in E2. by bsimpl.
  - destruct (match find_branch t id d with None => _ | Some _ => _ end); [done|].
    destruct (existsb _ _) eqn:E2; [done|]. intros _. apply update_branch_good; [done|].
    intros s x Hs Hx [T I]%branch_of_iff Hne. rewrite existsb_none in E2. specialize (E2 x Hx).
    rewrite bool_decide_false in E2 by done. cbn [negb andb] in E2. bsimpl. unfold branch_key at 2. cbn. by rewrite T.
Qed.

Lemma good_SaveBranch newID now t id input : step_in (ros_good t) (BRepository_SaveBranch newID now t id input).
Proof.
  apply step_in_tx_run; [apply _|cbv zeta; solve_det|]. intros d v d' Hrun.
  change (run (BRepository_SaveBranch newID now t id input) d = (Ok v, d')) in Hrun. rewrite SaveBranch_run in Hrun.
  destruct (branch_error _ _ _ _ _) eqn:E; [done|]. injection Hrun as _ <-. by apply branch_good.
Qed.

Definition relinked (identityID : option uuid) (now : time) (r : barber_row) : barber_row :=
  mkBarberRow (bb_id r) (bb_tenant r) (bb_name r) (bb_active r) identityID now.

Definition relink_db (t id : uuid) (identityID : option uuid) (now : time) (d : bdb) : bdb :=
  set_barbers (upd (barber_of t t id) (relinked identityID now) (barbers d)) d.

(** Another barber of the tenant has the identity. *)
Definition identity_taken (t id identityID : uuid) (d : bdb) : bool :=
  existsb (λ x, (bb_id x !=? id) && (bb_tenant x ==? t) && (bb_identity x ==? Some identityID)) (barbers d).

Lemma run_one_row {A} (f : bdb -> option A) d :
  run (one_row f) d = (match f d with Some v => Ok v | None => Err BNotFound end, d).
Proof.
  unfold one_row. rewrite run_attempt_bind by apply det_stmt. rewrite run_stmt. by destruct (f d).
Qed.

Lemma Link_run now t id i d :
  run (BRepository_LinkIdentity now t id i) d
  = match find_barber t id d with
    | None => (Err BNotFound, d)
    | Some r =>
        match bb_identity r with
        | Some j => (if j ==? i then Ok tt else Err BConflict, d)
        | None => if identity_taken t id i d then (Err BConflict, d) else (Ok tt, relink_db t id (Some i) now d)
        end
    end.
Proof.
  unfold BRepository_LinkIdentity, find_barber. rewrite run_tx by solve_det.
  rewrite run_bind, run_one_row by apply det_one_row.
  destruct (head _) as [r|] eqn:Eh; [|done]. cbn [fmap option_fmap option_map].
  destruct (bb_identity r) as [j|] eqn:Ei; [by destruct (j ==? i)|].
  rewrite run_attempt_bind by apply det_stmt. rewrite run_stmt. unfold update_identity. cbv zeta.
  apply head_sel_Some in Eh as [Hr Hin].
  assert (0 < length (sel (barber_of t t id) (barbers d)))%nat as Hl.
  { destruct (sel _ _) eqn:E; cbn; [|lia]. exfalso. assert (r ∈ sel (barber_of t t id) (barbers d)) as H by (by apply elem_of_sel).
    rewrite E in H. set_solver. }
  rewrite (proj2 (Nat.ltb_lt _ _) Hl). cbn [andb]. fold (identity_taken t id i d). by destruct (identity_taken t id i d).
Qed.

Lemma barber_rows t id d :
  ros_ok d → length (sel (barber_of t t id) (barbers d)) = match find_barber t id d with Some _ => 1%nat | None => 0%nat end.
Proof.
  intros Hd. unfold find_barber. destruct (head _) as [r|] eqn:E.
  - apply head_sel_Some in E as [Hr Hin]. rewrite (sel_one bb_id _ _ r); [done|apply Hd|done|done|].
    apply barber_of_iff in Hr as [_ ->]. by intros y _ [_ ->]%barber_of_iff.
  - by destruct (sel _ _).
Qed.

Lemma Unlink_run now t id d :
  ros_ok d →
  run (BRepository_UnlinkIdentity now t id) d
  = match find_barber t id d with None => (Err BNotFound, d) | Some _ => (Ok tt, relink_db t id None now d) end.
Proof.
  intros Hd. unfold BRepository_UnlinkIdentity. rewrite run_tx by solve_det.
  rewrite run_bind, run_stmt by apply det_stmt. unfold update_identity. cbv zeta. rewrite barber_rows by done.
  by destruct (find_barber t id d).
Qed.

Lemma relink_good t id i now d :
  match i with Some i => identity_taken t id i d = false | None => True end → ros_good t d (relink_db t id i now d).
Proof.
  intros Hi. unfold relink_db, set_barbers. rewrite <- (upd_same (profile_of t t id) (λ p, p) (profiles d)) at 1 by done.
  destruct d as [brs bbs pfs ass]. cbn in *. apply (update_barber_good t id (relinked i now) (λ p, p) (mkBdb brs bbs pfs ass)); [done|done|].
  intros s x j Hs Hx Es Hne Ht Ej. cbn in Ej, Hx. subst i.
  unfold identity_taken in Hi. rewrite existsb_none in Hi. specialize (Hi x Hx).
  rewrite bool_decide_false, Ht, bool_decide_refl in Hi by done. cbn [negb andb] in Hi. by bsimpl.
Qed.

Lemma good_Link now t id i : step_in (ros_good t) (BRepository_LinkIdentity now t id i).
Proof.
  apply step_in_tx_run; [apply _|solve_det|]. intros d v d'. fold (BRepository_LinkIdentity now t id i).
  rewrite Link_run. destruct (find_barber t id d) as [r|]; [|done].
  destruct (bb_identity r) as [j|]; [destruct (j ==? i); [by intros [= _ <-]|done]|].
  destruct (identity_taken t id i d) eqn:E; [done|]. intros [= _ <-]. by apply relink_good.
Qed.

Lemma good_Unlink now t id : step_in (ros_good t) (BRepository_UnlinkIdentity now t id).
Proof.
  apply step_in_tx_run; [apply _|solve_det|]. intros d v d'. fold (BRepository_UnlinkIdentity now t id).
  intros E Hd. rewrite Unlink_run in E by done. destruct (find_barber t id d); [|done]. injection E as _ <-.
  by apply relink_good.
Qed.

(** ** Authority *)

Lemma bar_authorize_write s t cookie :
  bar_authorize s t cookie true = Ok tt →
  AppType t = "admin"%string ∧ ∃ p, bs_auth s t cookie = Some p ∧ CanWrite (AdminPrincipal_Role p) = true.
Proof.
  unfold bar_authorize. destruct (AppType t ==? "admin"%string) eqn:E; cbn [negb]; [|done]. bsimpl.
  destruct (bs_auth s t cookie) as [p|]; [|done]. destruct (CanRead _); cbn [negb andb]; [|done].
  destruct (CanWrite _) eqn:Ew; [|done]. intros _. split; [done|]. by exists p.
Qed.

Section RosterTheorems.
Context `{GoLib, Collation}.

(** The request carries the authority to write for tenant context [t]. *)
Definition may_write (h : BarberHandler) {B} (r : Request B) (t : TenantContext) : Prop :=
  bar_tenant h r = Some t ∧ AppType t = "admin"%string ∧
  ∃ p, bs_auth (bh_app h) t (cookie_of r) = Some p ∧ CanWrite (AdminPrincipal_Role p) = true.

(** A handler keeps the roster consistent, changes it only with the authority
    to write, and only for the tenant of the request. *)
Definition roster_write (h : BarberHandler) {B A} (r : Request B) (m : BApp A) : Prop :=
  ∀ fs d, ros_ok d →
    let d' := (m fs d).2.2 in
    ros_ok d' ∧ (d' = d ∨ ∃ t, may_write h r t ∧ bothers (TenantID t) d' = bothers (TenantID t) d).

Lemma roster_write_ret h {B A} (r : Request B) (a : A) : roster_write h r (mret a).
Proof. intros fs d Hd. split; [done|by left]. Qed.

(** A use case [m] behind the write check. *)
Lemma guarded_authorize h {B A} (r : Request B) t (m : unit -> BApp A) :
  bar_tenant h r = Some t → (∀ u, step_in (ros_good (TenantID t)) (m u)) →
  guarded (may_write h r t) (ros_good (TenantID t)) (lift (bar_authorize (bh_app h) t (cookie_of r) true) ≫= m).
Proof.
  intros Ht Hm. apply guarded_lift. intros [] (Ha & p & Hp)%bar_authorize_write. apply guarded_step; [|apply Hm].
  split; [done|]. split; [done|]. by exists p.
Qed.

Lemma roster_write_reply h {B A R} (r : Request B) t (m : BApp A) (ok : A -> Response R) :
  guarded (may_write h r t) (ros_good (TenantID t)) m → roster_write h r (bar_reply m ok).
Proof.
  intros Hm fs d Hd. cbv zeta.
  destruct (guarded_reply (E:=bapp_error) _ _ m (λ x, match x with Ok a => ok a | Err e => bar_respond e end) Hm fs d) as [E|[HP HI]];
    unfold bar_reply.
  - rewrite E. split; [done|by left].
  - destruct (HI Hd) as [Hok Ho]. split; [done|]. right. by exists t.
Qed.

Lemma write_branchSave h newID now r : roster_write h r (branchSave h newID now r).
Proof.
  unfold branchSave. destruct (bar_tenant h r) as [t|] eqn:Et; [|apply roster_write_ret].
  destruct (Body r) as [input|]; [|apply roster_write_ret]. cbv zeta.
  assert (∀ i, roster_write h r (bar_reply (Barber_SaveBranch (bh_app h) newID now t (cookie_of r) i input)
    (SendJSON (if i ==? uuid_Nil then 201 else 200)))) as Hsave.
  { intros i. apply (roster_write_reply h r t), guarded_authorize; [done|]. intros _. cbv zeta.
    destruct (_ ==? _); [solve_step|]. apply step_in_calling; [apply _|apply good_SaveBranch]. }
  destruct (_ ==? _); [|apply Hsave]. destruct (bar_id _ _); [apply Hsave|apply roster_write_ret].
Qed.

Lemma write_barberSave h newID now r : roster_write h r (barberSave h newID now r).
Proof.
  unfold barberSave. destruct (bar_tenant h r) as [t|] eqn:Et; [|apply roster_write_ret].
  destruct (Body r) as [[[] [input|]]|]; try apply roster_write_ret. cbv zeta.
  assert (∀ i, roster_write h r (bar_reply (Barber_SaveBarber (bh_app h) newID now t (cookie_of r) i input)
    (SendJSON (if i ==? uuid_Nil then 201 else 200)))) as Hsave.
  { intros i. apply (roster_write_reply h r t), guarded_authorize; [done|]. intros _. cbv zeta.
    destruct (_ ==? _); [solve_step|]. apply step_in_calling; [apply _|apply good_SaveBarber]. }
  destruct (_ ==? _); [|apply Hsave]. destruct (bar_id _ _); [apply Hsave|apply roster_write_ret].
Qed.

Lemma write_link h now r : roster_write h r (linkIdentity h now r).
Proof.
  unfold linkIdentity. destruct (bar_tenant h r) as [t|] eqn:Et; [|apply roster_write_ret].
  destruct (bar_id _ _) as [b|]; [|apply roster_write_ret]. destruct (Body r) as [i|]; [|apply roster_write_ret].
  apply (roster_write_reply h r t). unfold Barber_LinkIdentity. destruct (_ ==? _); [apply guarded_fail|].
  apply guarded_authorize; [done|]. intros _. destruct (bs_membership _ _ _); [|solve_step].
  apply step_in_calling; [apply _|apply good_Link].
Qed.

Lemma write_unlink h {B} now (r : Request B) : roster_write h r (unlinkIdentity h now r).
Proof.
  unfold unlinkIdentity. destruct (bar_tenant h r) as [t|] eqn:Et; [|apply roster_write_ret].
  destruct (bar_id _ _) as [b|]; [|apply roster_write_ret].
  apply (roster_write_reply h r t), guarded_authorize; [done|]. intros _.
  apply step_in_calling; [apply _|apply good_Unlink].
Qed.

(** the roster stays consistent, and only its owners change it.  From the
    empty roster on, whatever fails: ids, branch names and the logins linked to
    barbers are unique within a tenant, every barber has exactly one profile,
    and assignments refer to a barber and a branch of their tenant; a handler
    changes the roster only for an admin session of an owner or manager and
    leaves the rows of all other tenants alone. *)
Theorem roster_writes_safe h :
  ros_ok (mkBdb [] [] [] []) ∧
  (∀ newID now r, roster_write h r (branchSave h newID now r)) ∧
  (∀ newID now r, roster_write h r (barberSave h newID now r)) ∧
  (∀ now r, roster_write h r (linkIdentity h now r)) ∧
  (∀ B now (r : Request B), roster_write h r (unlinkIdentity h now r)).
Proof.
  split; [constructor; cbn; first [by constructor|set_solver]|]. split; [apply write_branchSave|].
  split; [apply write_barberSave|]. split; [apply write_link|]. intros B. apply write_unlink.
Qed.
End RosterTheorems.
