(* ===== verification/Roster.v ===== *)
(** * Roster: what the barber service promises

    An abstract roster per tenant: a map of branches and a map of barbers, each
    with the set of branches it works in.  The four tables of the barber
    service and its transactions refine it: every sequence of operations of any
    tenants gives the replies the abstract rosters give. *)
From S2P Require Import Prelude Effects GoTime Http Barber.

Local Open Scope Z_scope.

(** ** The abstract roster *)

Record ABarber := mkABarber {
  ab_name : string; ab_bio : string; ab_active : bool; ab_identity : option uuid; ab_branches : gset uuid
}.
Record roster := mkRoster { rs_branches : gmap uuid Branch; rs_barbers : gmap uuid ABarber }.
Definition empty_roster : roster := mkRoster ∅ ∅.

Inductive op :=
| OpSaveBranch (newID : uuid) (now : time) (id : uuid) (input : BranchInput)
| OpSaveBarber (newID : uuid) (now : time) (id : uuid) (input : BarberInput)
| OpLink (now : time) (barberID identityID : uuid)
| OpUnlink (now : time) (barberID : uuid)
| OpBranch (id : uuid)
| OpBarber (id : uuid)
| OpAccess (branchID barberID : uuid).

Inductive reply :=
| RBranch (r : res bar_error Branch)
| RBarber (r : res bar_error BBarber)
| RUnit (r : res bar_error unit)
| RAccess (r : res bapp_error unit).

(** The sorted members of a set of ids. *)
Definition ids_of (s : gset uuid) : list uuid := order_by Z.of_N (elements s).

Definition target (newID id : uuid) : uuid := if id ==? uuid_Nil then newID else id.

Definition spec_SaveBranch (newID id : uuid) (input : BranchInput) (R : roster) : res bar_error Branch * roster :=
  let i := target newID id in
  if negb (text_ok (BI_Name input) && text_ok (BI_Address input)) then (Err (BPg BadEncoding), R)
  else if (id !=? uuid_Nil) && bool_decide (rs_branches R !! id = None) then (Err BNotFound, R)
  else if bool_decide (map_Exists (λ j b, j ≠ i ∧ Branch_Name b = BI_Name input) (rs_branches R))
  then (Err (BPg UniqueViolation), R)
  else
    let b := mkBranch i (BI_Name input) (BI_Address input) (active_or_true (BI_Active input)) in
    (Ok b, mkRoster (<[i := b]> (rs_branches R)) (rs_barbers R)).

Definition spec_SaveBarber (newID id : uuid) (input : BarberInput) (R : roster) : res bar_error BBarber * roster :=
  let i := target newID id in
  let old := if id ==? uuid_Nil then None else rs_barbers R !! id in
  let bs := match old with Some a => ab_branches a | None => ∅ end in
  let save shown bs' :=
    (Ok (mkBBarber i (RI_DisplayName input) (RI_Bio input) (active_or_true (RI_Active input))
           (old ≫= ab_identity) shown),
     mkRoster (rs_branches R)
       (<[i := mkABarber (RI_DisplayName input) (RI_Bio input) (active_or_true (RI_Active input))
                 (old ≫= ab_identity) bs']> (rs_barbers R))) in
  if negb (text_ok (RI_DisplayName input)) then (Err (BPg BadEncoding), R)
  else if (id !=? uuid_Nil) && bool_decide (rs_barbers R !! id = None) then (Err BNotFound, R)
  else if negb (text_ok (RI_Bio input)) then (Err (BPg BadEncoding), R)
  else
    match RI_BranchIDs input with
    | None => save (ids_of bs) bs
    | Some l =>
        if forallb (λ x, bool_decide (is_Some (rs_branches R !! x))) l then save l (list_to_set l)
        else (Err BNotFound, R)
    end.

Definition set_ident (i : option uuid) (a : ABarber) : ABarber :=
  mkABarber (ab_name a) (ab_bio a) (ab_active a) i (ab_branches a).

Definition spec_Link (b i : uuid) (R : roster) : res bar_error unit * roster :=
  match rs_barbers R !! b with
  | None => (Err BNotFound, R)
  | Some a =>
      match ab_identity a with
      | Some j => (if j ==? i then Ok tt else Err BConflict, R)
      | None =>
          if bool_decide (map_Exists (λ c x, c ≠ b ∧ ab_identity x = Some i) (rs_barbers R))
          then (Err BConflict, R)
          else (Ok tt, mkRoster (rs_branches R) (<[b := set_ident (Some i) a]> (rs_barbers R)))
      end
  end.

Definition spec_Unlink (b : uuid) (R : roster) : res bar_error unit * roster :=
  match rs_barbers R !! b with
  | None => (Err BNotFound, R)
  | Some a => (Ok tt, mkRoster (rs_branches R) (<[b := set_ident None a]> (rs_barbers R)))
  end.

Definition spec_Barber (id : uuid) (R : roster) : res bar_error BBarber :=
  match rs_barbers R !! id with
  | None => Err BNotFound
  | Some a => Ok (mkBBarber id (ab_name a) (ab_bio a) (ab_active a) (ab_identity a) (ids_of (ab_branches a)))
  end.

(** A barber can be booked in a branch: both are active and it works there. *)
Definition bookable (R : roster) (branch barber : uuid) : bool :=
  match rs_branches R !! branch, rs_barbers R !! barber with
  | Some b, Some a => Branch_Active b && ab_active a && bool_decide (branch ∈ ab_branches a)
  | _, _ => false
  end.

Definition spec_step (o : op) (R : roster) : reply * roster :=
  match o with
  | OpSaveBranch newID _ id input => let (r, R') := spec_SaveBranch newID id input R in (RBranch r, R')
  | OpSaveBarber newID _ id input => let (r, R') := spec_SaveBarber newID id input R in (RBarber r, R')
  | OpLink _ b i => let (r, R') := spec_Link b i R in (RUnit r, R')
  | OpUnlink _ b => let (r, R') := spec_Unlink b R in (RUnit r, R')
  | OpBranch id => (RBranch (match rs_branches R !! id with Some b => Ok b | None => Err BNotFound end), R)
  | OpBarber id => (RBarber (spec_Barber id R), R)
  | OpAccess b x => (RAccess (if bookable R b x then Ok tt else Err BErrNotFound), R)
  end.

(** ** The implementation *)

Definition answer {A} (f : A -> reply) (p : A * bdb) : reply * bdb := (f p.1, p.2).

Definition exec (t : uuid) (o : op) (d : bdb) : reply * bdb :=
  match o with
  | OpSaveBranch newID now id input => answer RBranch (run (BRepository_SaveBranch newID now t id input) d)
  | OpSaveBarber newID now id input => answer RBarber (run (BRepository_SaveBarber newID now t id input) d)
  | OpLink now b i => answer RUnit (run (BRepository_LinkIdentity now t b i) d)
  | OpUnlink now b => answer RUnit (run (BRepository_UnlinkIdentity now t b) d)
  | OpBranch id => answer RBranch (run (BRepository_Branch t id) d)
  | OpBarber id => answer RBarber (run (BRepository_Barber t id) d)
  | OpAccess b x =>
      answer RAccess (run (Barber_BookingAccess (mkTenantContext t "booking" EmptyString) b x) d)
  end.

(** ** The refinement relation *)

Definition branch_set (t b : uuid) (l : list branch_assignment) : gset uuid :=
  list_to_set (map ba_branch (sel (λ a, (ba_tenant a ==? t) && (ba_barber a ==? b) && ba_active a) l)).

Definition bio_of (t id : uuid) (l : list profile_row) : string :=
  match head (sel (profile_of t t id) l) with Some p => pf_bio p | None => EmptyString end.

Definition view (t : uuid) (d : bdb) (r : barber_row) : ABarber :=
  mkABarber (bb_name r) (bio_of t (bb_id r) (profiles d)) (bb_active r) (bb_identity r)
    (branch_set t (bb_id r) (assignments d)).

Record refines (t : uuid) (d : bdb) (R : roster) : Prop := mkRefines {
  rf_branches : ∀ id, rs_branches R !! id = to_branch <$> find_branch t id d;
  rf_barbers : ∀ id, rs_barbers R !! id = view t d <$> find_barber t id d
}.

(** ** Sets of branches *)

Lemma elem_of_branch_set t b l x :
  x ∈ branch_set t b l ↔
  ∃ a, a ∈ l ∧ ba_tenant a = t ∧ ba_barber a = b ∧ ba_branch a = x ∧ ba_active a = true.
Proof.
  unfold branch_set. rewrite elem_of_list_to_set, list_elem_of_In, in_map_iff.
  setoid_rewrite <- list_elem_of_In. setoid_rewrite elem_of_sel. split.
  - intros (a & <- & Ha & Hin). bsimpl. by exists a.
  - intros (a & Hin & <- & <- & <- & Ha). exists a. by rewrite !bool_decide_refl, Ha.
Qed.

Lemma StronglySorted_map_lt {A} (f : A -> uuid) (l : list A) :
  StronglySorted (key_le (λ a, Z.of_N (f a))) l → NoDup (map f l) → StronglySorted (key_lt Z.of_N) (map f l).
Proof.
  induction 1 as [|a l _ IH Ha]; cbn; intros Hnd; [constructor|]. apply NoDup_cons in Hnd as [Hn Hnd].
  constructor; [auto|]. apply Forall_forall. intros x Hx.
  assert (x ≠ f a) as Hne by congruence. apply list_elem_of_In, in_map_iff in Hx as (b & <- & Hb%list_elem_of_In).
  pose proof (proj1 (Forall_forall _ _) Ha b Hb) as Hle. unfold key_le, key_lt in *. lia.
Qed.

Lemma branchIDs_set t b d : ros_ok d → branchIDs t t b d = ids_of (branch_set t b (assignments d)).
Proof.
  intros Hd. unfold branchIDs, ids_of.
  rewrite (proj1 (rls_tenant ba_tenant t (λ a, (ba_tenant a ==? t) && (ba_barber a ==? b) && ba_active a)
    ltac:(intros a Ha; cbn beta in Ha; by bsimpl))).
  set (l := sel _ (assignments d)).
  assert (NoDup (map ba_branch l)) as Hnd.
  { assert (∀ a, a ∈ l → a ∈ assignments d ∧ ba_tenant a = t ∧ ba_barber a = b) as Hl.
    { intros a Ha. apply elem_of_sel in Ha as [Ha Hin]. by bsimpl. }
    pose proof (NoDup_map_sel assignment_key (λ a, (ba_tenant a ==? t) && (ba_barber a ==? b) && ba_active a) _
      (ro_keys d Hd)) as Hk. fold l in Hk. clearbody l. induction l as [|a l IH]; [constructor|]. cbn in Hk |- *.
    apply NoDup_cons in Hk as [Hn Hk]. apply NoDup_cons. split; [|apply IH; [set_solver|done]].
    intros Hin. apply Hn. apply list_elem_of_In, in_map_iff in Hin as (x & Ex & Hx%list_elem_of_In).
    assert (assignment_key a = assignment_key x) as ->; [|by apply list_elem_of_In, in_map, list_elem_of_In].
    destruct (Hl a) as (_ & T1 & B1); [set_solver|]. destruct (Hl x) as (_ & T2 & B2); [set_solver|].
    unfold assignment_key. congruence. }
  assert (order_by (λ a, Z.of_N (ba_branch a)) l ≡ₚ l) as Hp by apply order_by_perm.
  symmetry. apply order_by_eq.
  - apply NoDup_Permutation; [apply NoDup_elements| |].
    + by rewrite Hp.
    + intros x. rewrite elem_of_elements. unfold branch_set. fold l. rewrite elem_of_list_to_set. by rewrite Hp.
  - apply StronglySorted_map_lt; [apply order_by_sorted|by rewrite Hp].
Qed.

Definition deactivated (t b : uuid) (l : list branch_assignment) : list branch_assignment :=
  upd (rls ba_tenant t (λ a, (ba_tenant a ==? t) && (ba_barber a ==? b))) (set_active false) l.

Lemma deactivated_iff t b a :
  rls ba_tenant t (λ a, (ba_tenant a ==? t) && (ba_barber a ==? b)) a = true ↔ ba_tenant a = t ∧ ba_barber a = b.
Proof. unfold rls. split; [intros H; by bsimpl|intros [-> ->]; by rewrite !bool_decide_refl]. Qed.

Lemma branch_set_deactivated t b l : branch_set t b (deactivated t b l) = ∅.
Proof.
  apply set_eq. intros x. rewrite elem_of_branch_set. split; [|set_solver].
  intros (a & (c & Hc & ->)%elem_of_upd & T & B & _ & Ha). exfalso.
  rewrite (upd_keeps ba_tenant) in T by done. rewrite (upd_keeps ba_barber) in B by done.
  by rewrite (proj2 (deactivated_iff t b c)) in Ha.
Qed.

Lemma branch_set_deactivated_other t b b' l :
  b' ≠ b → branch_set t b' (deactivated t b l) = branch_set t b' l.
Proof.
  intros Hne. unfold branch_set. f_equal. f_equal. apply sel_upd_id.
  - intros a _ Ha. destruct (rls _ _ _ a) eqn:E; [|done]. apply deactivated_iff in E as [_ E]. bsimpl. congruence.
  - intros a _ [_ E]%deactivated_iff. cbn. by rewrite andb_false_r.
Qed.

Definition upserted (t b x : uuid) (l : list branch_assignment) : list branch_assignment :=
  if existsb (assigned_to t b x) l then upd (assigned_to t b x) (set_active true) l
  else l ++ [mkBranchAssignment t b x true].

Lemma branch_set_upserted t b x l : branch_set t b (upserted t b x l) = {[x]} ∪ branch_set t b l.
Proof.
  apply set_eq. intros y. rewrite elem_of_union, elem_of_singleton, !elem_of_branch_set. unfold upserted.
  destruct (existsb (assigned_to t b x) l) eqn:E.
  - split.
    + intros (a & (c & Hc & ->)%elem_of_upd & T & B & X & Ha). destruct (assigned_to t b x c) eqn:Ec; [|right; by exists c].
      apply assigned_to_iff in Ec. injection Ec as _ _ Ec. left. cbn in X. congruence.
    + intros [->|(a & Hin & <- & <- & <- & Ha)].
      * apply existsb_elem in E as (a & Hin & Ea). exists (set_active true a). split.
        { apply elem_of_upd. exists a. by rewrite Ea. }
        apply assigned_to_iff in Ea. by injection Ea as <- <- <-.
      * exists (if assigned_to (ba_tenant a) (ba_barber a) x a then set_active true a else a).
        split; [apply elem_of_upd; by exists a|]. by destruct (assigned_to _ _ _ a).
  - setoid_rewrite elem_of_app. split.
    + intros (a & [Ha|Ha%list_elem_of_singleton] & T & B & X & Act); [right; by exists a|]. subst a. by left.
    + intros [->|(a & Hin & H)]; [|exists a; tauto].
      exists (mkBranchAssignment t b x true). split; [right; by apply list_elem_of_singleton|done].
Qed.

Lemma branch_set_upserted_other t b b' x l :
  b' ≠ b → branch_set t b' (upserted t b x l) = branch_set t b' l.
Proof.
  intros Hne. unfold branch_set, upserted. destruct (existsb (assigned_to t b x) l); f_equal; f_equal.
  - apply sel_upd_id.
    + intros a _ Ha. destruct (assigned_to t b x a) eqn:E; [|done]. apply assigned_to_iff in E. injection E as _ E _.
      bsimpl. congruence.
    + intros a _ E. apply assigned_to_iff in E. injection E as _ E _. cbn.
      rewrite (bool_decide_false (ba_barber a = b')) by congruence. by rewrite andb_false_r.
  - apply sel_snoc_id. cbn. rewrite (bool_decide_false (b = b')) by congruence. by rewrite andb_false_r.
Qed.

Definition reassigned (t b : uuid) (l : list uuid) (as_ : list branch_assignment) : list branch_assignment :=
  fold_left (λ acc x, upserted t b x acc) l as_.

Lemma branch_set_reassigned t b l as_ : branch_set t b (reassigned t b l as_) = list_to_set l ∪ branch_set t b as_.
Proof.
  revert as_. induction l as [|x l IH]; intros as_; [cbn; set_solver|].
  change (reassigned t b (x :: l) as_) with (reassigned t b l (upserted t b x as_)).
  rewrite IH, branch_set_upserted. set_solver.
Qed.

Lemma branch_set_reassigned_other t b b' l as_ :
  b' ≠ b → branch_set t b' (reassigned t b l as_) = branch_set t b' as_.
Proof.
  intros Hne. revert as_. induction l as [|x l IH]; intros as_; [done|].
  change (reassigned t b (x :: l) as_) with (reassigned t b l (upserted t b x as_)).
  by rewrite IH, branch_set_upserted_other.
Qed.

(** ** Exact runs of the assignments *)

Definition branch_exists (t : uuid) (d : bdb) (x : uuid) : bool := existsb (branch_of t t x) (branches d).

Lemma check_branches_run t l d :
  run (check_branches t t l) d = (if forallb (branch_exists t d) l then Ok tt else Err BNotFound, d).
Proof.
  induction l as [|x l IH]; [done|]. cbn [check_branches forallb]. unfold query.
  rewrite run_bind, run_stmt by apply det_stmt. fold (branch_exists t d x).
  destruct (branch_exists t d x); cbn [negb andb]; [apply IH|done].
Qed.

Definition has_barber (t b : uuid) (d : bdb) : Prop := ∃ r, r ∈ barbers d ∧ bb_tenant r = t ∧ bb_id r = b.

Lemma assign_branches_run t b l d :
  has_barber t b d → forallb (branch_exists t d) l = true →
  run (assign_branches t t b l) d = (Ok tt, set_branch_assignments (reassigned t b l (assignments d)) d).
Proof.
  revert d. induction l as [|x l IH]; intros d Hb Hl; [by destruct d|]. cbn [assign_branches forallb] in *. bsimpl.
  rewrite run_bind, run_stmt by apply det_stmt.
  assert (upsert_assignment t t b x d = Ok (tt, set_branch_assignments (upserted t b x (assignments d)) d)) as ->.
  { unfold upsert_assignment, upserted. rewrite bool_decide_refl. cbn [negb].
    destruct (existsb (assigned_to t b x) (assignments d)); [done|].
    rewrite (proj2 (existsb_elem _ (barbers d))).
    2:{ destruct Hb as (r & Hr & T & I). exists r. by rewrite T, I, !bool_decide_refl. }
    apply existsb_elem in H as (r & Hr & [T I]%branch_of_iff).
    rewrite (proj2 (existsb_elem _ (branches d))); [done|]. exists r. by rewrite T, I, !bool_decide_refl. }
  by rewrite IH.
Qed.

Definition with_assignments (t b : uuid) (l : list uuid) (d : bdb) : bdb :=
  set_branch_assignments (reassigned t b l (deactivated t b (assignments d))) d.

Lemma save_assignments_run t v ids d :
  has_barber t (BB_ID v) d →
  run (save_assignments t t v ids) d
  = match ids with
    | None => (Ok (set_branch_ids (branchIDs t t (BB_ID v) d) v), d)
    | Some l =>
        if forallb (branch_exists t d) l
        then (Ok (set_branch_ids l v), with_assignments t (BB_ID v) l d)
        else (Err BNotFound, d)
    end.
Proof.
  intros Hb. unfold save_assignments, query. rewrite run_bind, run_stmt by apply det_stmt.
  destruct ids as [l|]; [|done]. rewrite run_bind, check_branches_run by apply det_check_branches.
  destruct (forallb _ l) eqn:El; [|done]. rewrite run_bind, run_stmt by apply det_stmt. unfold deactivate.
  rewrite run_bind by apply det_assign_branches. rewrite assign_branches_run by done. by destruct d.
Qed.

Lemma person_has_barber newID now t id input d :
  person_error newID t id input d = None → has_barber t (target newID id) (person_db newID now t id input d).
Proof.
  unfold person_error, person_db, has_barber, target. destruct (negb _); [done|].
  destruct (id ==? uuid_Nil) eqn:Eid; cbn [andb barbers].
  - intros _. exists (new_barber newID now t input). split; [set_solver|done].
  - destruct (find_barber t id d) as [r|] eqn:Er; [|done]. intros _.
    apply head_sel_Some in Er as [Hr Hin]. pose proof Hr as [T I]%barber_of_iff.
    exists (changed_barber now input r). split; [|done]. apply elem_of_upd. exists r. by rewrite Hr.
Qed.

Lemma SaveBarber_run newID now t id input d :
  ros_ok d →
  run (BRepository_SaveBarber newID now t id input) d
  = match person_error newID t id input d with
    | Some e => (Err e, d)
    | None =>
        let d1 := person_db newID now t id input d in
        let v := person newID t id input d in
        match RI_BranchIDs input with
        | None => (Ok (set_branch_ids (branchIDs t t (BB_ID v) d) v), d1)
        | Some l =>
            if forallb (branch_exists t d) l then (Ok (set_branch_ids l v), with_assignments t (BB_ID v) l d1)
            else (Err BNotFound, d)
        end
    end.
Proof.
  intros Hd. unfold BRepository_SaveBarber.
  rewrite run_tx by (apply det_bind; [apply det_save_person|intros v; apply det_save_assignments]).
  rewrite run_bind by apply det_save_person.
  pose proof (save_person_run newID now t id input d Hd) as Hp.
  destruct (person_error newID t id input d) as [e|] eqn:Ee.
  { destruct (run (save_person _ _ _ _ _ _) d) as [[] ?]; cbn in Hp; [done|]. by injection Hp as ->. }
  rewrite Hp. cbv zeta. rewrite save_assignments_run by (by apply person_has_barber).
  assert (branchIDs t t (BB_ID (person newID t id input d)) (person_db newID now t id input d)
          = branchIDs t t (BB_ID (person newID t id input d)) d) as ->
    by (unfold branchIDs, person_db; by destruct (id ==? uuid_Nil)).
  assert (∀ x, branch_exists t (person_db newID now t id input d) x = branch_exists t d x) as Hx
    by (intros x; unfold branch_exists, person_db; by destruct (id ==? uuid_Nil)).
  destruct (RI_BranchIDs input) as [l|]; [|done].
  replace (forallb (branch_exists t (person_db newID now t id input d)) l) with (forallb (branch_exists t d) l).
  - by destruct (forallb _ l).
  - induction l as [|x l IH]; [done|]. cbn. by rewrite Hx, IH.
Qed.

(** ** Changing one entry *)

Lemma refines_barber t d d' R i a :
  refines t d R → branches d' = branches d →
  view t d' <$> find_barber t i d' = Some a →
  (∀ j, j ≠ i → view t d' <$> find_barber t j d' = view t d <$> find_barber t j d) →
  refines t d' (mkRoster (rs_branches R) (<[i := a]> (rs_barbers R))).
Proof.
  intros [Hbr Hba] Hb Hi Hj. split; cbn; intros id.
  - rewrite Hbr. unfold find_branch. by rewrite Hb.
  - destruct (decide (id = i)) as [->|Hne]; [by rewrite lookup_insert_eq|].
    rewrite lookup_insert_ne, Hba, Hj by done. done.
Qed.

Lemma refines_branch t d d' R i b :
  refines t d R → barbers d' = barbers d → profiles d' = profiles d → assignments d' = assignments d →
  to_branch <$> find_branch t i d' = Some b →
  (∀ j, j ≠ i → find_branch t j d' = find_branch t j d) →
  refines t d' (mkRoster (<[i := b]> (rs_branches R)) (rs_barbers R)).
Proof.
  intros [Hbr Hba] H1 H2 H3 Hi Hj. split; cbn; intros id.
  - destruct (decide (id = i)) as [->|Hne]; [by rewrite lookup_insert_eq|].
    by rewrite lookup_insert_ne, Hbr, Hj by done.
  - rewrite Hba. unfold find_barber, view. by rewrite H1, H2, H3.
Qed.

(** The rows found after an UPDATE of row [i]. *)
Lemma find_barber_upd t i f l j :
  (∀ r, bb_id (f r) = bb_id r ∧ bb_tenant (f r) = bb_tenant r) →
  head (sel (barber_of t t j) (upd (barber_of t t i) f l))
  = if decide (j = i) then f <$> head (sel (barber_of t t i) l) else head (sel (barber_of t t j) l).
Proof.
  intros Hf. destruct (decide (j = i)) as [->|Hne].
  - apply head_sel_upd. intros x Hx%barber_of_iff. apply barber_of_iff. by destruct (Hf x) as [-> ->].
  - rewrite sel_upd_id; [done| |].
    + intros x _ Hx%barber_of_iff. destruct (barber_of t t i x) eqn:E; [|done]. apply barber_of_iff in E as [_ E].
      destruct Hx. congruence.
    + intros x _ [_ E]%barber_of_iff. destruct (barber_of t t j (f x)) eqn:E'; [|done].
      apply barber_of_iff in E' as [_ E']. destruct (Hf x). congruence.
Qed.

Lemma bio_upd t i bio now l j :
  bio_of t j (upd (profile_of t t i) (changed_profile now bio) l)
  = if decide (j = i) then match head (sel (profile_of t t i) l) with Some _ => bio | None => EmptyString end
    else bio_of t j l.
Proof.
  unfold bio_of. destruct (decide (j = i)) as [->|Hne].
  - rewrite head_sel_upd; [by destruct (head _)|]. intros x Hx%profile_of_iff. by apply profile_of_iff.
  - rewrite sel_upd_id; [done| |].
    + intros x _ Hx%profile_of_iff. destruct (profile_of t t i x) eqn:E; [|done]. apply profile_of_iff in E as [_ E].
      destruct Hx. congruence.
    + intros x _ [_ E]%profile_of_iff. destruct (profile_of t t j (changed_profile now bio x)) eqn:E'; [|done].
      apply profile_of_iff in E' as [_ E']. cbn in E'. congruence.
Qed.

Lemma head_sel_fresh {A} (p : A -> bool) l r :
  (∀ x, x ∈ l → p x = false) → p r = true → head (sel p (l ++ [r])) = Some r.
Proof. intros H Hr. by rewrite head_sel_snoc, sel_nothing, Hr. Qed.

Lemma head_sel_skip {A} (p : A -> bool) l r : p r = false → head (sel p (l ++ [r])) = head (sel p l).
Proof. intros Hr. by rewrite sel_snoc_id. Qed.

Lemma no_assignments t i d : ros_ok d → (∀ x, x ∈ barbers d → bb_id x ≠ i) → branch_set t i (assignments d) = ∅.
Proof.
  intros Hd Hi. apply set_eq. intros x. rewrite elem_of_branch_set. split; [|set_solver].
  intros (a & Ha & _ & <- & _). destruct (ro_assigned d Hd a Ha) as [(r & Hr & E & _) _]. by destruct (Hi r Hr).
Qed.

(** What the person part of a save does to the views. *)
Lemma view_person newID now t id input d as_ j :
  ros_ok d → person_error newID t id input d = None →
  let d1 := set_branch_assignments as_ (person_db newID now t id input d) in
  view t d1 <$> find_barber t j d1
  = if decide (j = target newID id)
    then Some (mkABarber (RI_DisplayName input) (RI_Bio input) (active_or_true (RI_Active input))
                 (if id ==? uuid_Nil then None else find_barber t id d ≫= bb_identity) (branch_set t j as_))
    else view t (set_branch_assignments as_ d) <$> find_barber t j d.
Proof.
  intros Hd. unfold person_error, person_db, target, find_barber. cbv zeta. destruct (negb _); [done|].
  destruct (id ==? uuid_Nil) eqn:Eid; cbn [andb barbers profiles set_branch_assignments].
  - destruct (existsb _ (barbers d)) eqn:E; [done|]. rewrite (existsb_fresh bb_id) in E. intros _.
    destruct (decide (j = newID)) as [->|Hne].
    + rewrite head_sel_fresh.
      * cbn. unfold view. cbn. do 2 f_equal. unfold bio_of. rewrite head_sel_fresh; [done| |].
        { intros p Hp. destruct (profile_of _ _ _ p) eqn:Ep; [|done]. apply profile_of_iff in Ep as [_ Ep].
          destruct (ro_profile d Hd p Hp) as (x & Hx & Ex & _). destruct (E x Hx). congruence. }
        by apply profile_of_iff.
      * intros x Hx. destruct (barber_of _ _ _ x) eqn:Ex; [|done]. apply barber_of_iff in Ex as [_ Ex]. by destruct (E x Hx).
      * by apply barber_of_iff.
    + rewrite head_sel_skip.
      2:{ destruct (barber_of _ _ _ _) eqn:Ex; [|done]. apply barber_of_iff in Ex as [_ Ex]. by cbn in Ex. }
      destruct (head _) as [r|] eqn:Er; [|done]. apply head_sel_Some in Er as [[_ Ir]%barber_of_iff _].
      cbn. unfold view. cbn. do 2 f_equal. unfold bio_of. rewrite head_sel_skip; [done|].
      destruct (profile_of _ _ _ _) eqn:Ex; [|done]. apply profile_of_iff in Ex as [_ Ex]. cbn in Ex. congruence.
  - destruct (head _) as [r|] eqn:Er; [|done]. intros _. rewrite find_barber_upd by done.
    destruct (decide (j = id)) as [->|Hne].
    + rewrite Er. apply head_sel_Some in Er as [[Tr Ir]%barber_of_iff Hin]. cbn. unfold view. cbn. do 2 f_equal; [|by rewrite Ir].
      rewrite bio_upd. rewrite Ir. rewrite decide_True by done.
      destruct (ro_profiled d Hd r Hin) as (p & Hp & E1 & E2).
      rewrite (head_sel_unique pf_barber _ _ p); [done|apply Hd| |done|].
      * intros y [_ Ey]%profile_of_iff. congruence.
      * apply profile_of_iff. split; congruence.
    + destruct (head (sel (barber_of t t j) _)) as [s|] eqn:Es; [|done].
      apply head_sel_Some in Es as [[_ Is]%barber_of_iff _]. cbn. unfold view. cbn. do 2 f_equal.
      rewrite bio_upd, decide_False by congruence. done.
Qed.

(** ** Each operation simulates its specification *)

Definition new_id (o : op) : option uuid :=
  match o with
  | OpSaveBranch newID _ id _ | OpSaveBarber newID _ id _ => if id ==? uuid_Nil then Some newID else None
  | _ => None
  end.

Definition all_ids (d : bdb) : list uuid := map br_id (branches d) ++ map bb_id (barbers d).
Definition unused (o : op) (d : bdb) : Prop := ∀ i, new_id o = Some i → i ∉ all_ids d.

Lemma unused_iff i d :
  i ∉ all_ids d ↔ (∀ x, x ∈ branches d → br_id x ≠ i) ∧ (∀ x, x ∈ barbers d → bb_id x ≠ i).
Proof.
  unfold all_ids. rewrite not_elem_of_app, !list_elem_of_In, !in_map_iff. split.
  - intros [H1 H2]. split; intros x Hx E; [apply H1|apply H2]; exists x; by rewrite <- list_elem_of_In.
  - intros [H1 H2]. split; intros (x & E & Hx%list_elem_of_In); [by destruct (H1 x Hx)|by destruct (H2 x Hx)].
Qed.

Section Simulation.
Context (t : uuid) (d : bdb) (R : roster) (Hd : ros_ok d) (HR : refines t d R).

(** The operation gives the reply of the specification and its state. *)
Definition simulates (o : op) : Prop :=
  (exec t o d).1 = (spec_step o R).1 ∧ refines t (exec t o d).2 (spec_step o R).2.

Lemma found_branch id b :
  rs_branches R !! id = Some b ↔ ∃ r, r ∈ branches d ∧ br_tenant r = t ∧ br_id r = id ∧ b = to_branch r.
Proof.
  rewrite (rf_branches _ _ _ HR). unfold find_branch. split.
  - intros (r & Er & ->)%fmap_Some. apply head_sel_Some in Er as [[T I]%branch_of_iff Hin]. by exists r.
  - intros (r & Hin & T & I & ->). rewrite (head_sel_unique br_id _ _ r); [done|apply Hd| |done|].
    + intros y [_ Ey]%branch_of_iff. congruence.
    + by apply branch_of_iff.
Qed.

Lemma found_barber id a :
  rs_barbers R !! id = Some a ↔ ∃ r, r ∈ barbers d ∧ bb_tenant r = t ∧ bb_id r = id ∧ a = view t d r.
Proof.
  rewrite (rf_barbers _ _ _ HR). unfold find_barber. split.
  - intros (r & Er & ->)%fmap_Some. apply head_sel_Some in Er as [[T I]%barber_of_iff Hin]. by exists r.
  - intros (r & Hin & T & I & ->). rewrite (head_sel_unique bb_id _ _ r); [done|apply Hd| |done|].
    + intros y [_ Ey]%barber_of_iff. congruence.
    + by apply barber_of_iff.
Qed.

Lemma name_taken_iff i name :
  bool_decide (map_Exists (λ j b, j ≠ i ∧ Branch_Name b = name) (rs_branches R))
  = existsb (λ x, (br_id x !=? i) && (branch_key x ==? (t, name))) (branches d).
Proof.
  apply eq_bool_prop_intro. rewrite bool_decide_spec, Is_true_true, existsb_elem. split.
  - intros (j & b & Hb & Hj & Hn). apply found_branch in Hb as (r & Hr & T & I & ->). exists r. split; [done|].
    rewrite I, bool_decide_false by done. unfold branch_key. cbn in Hn. rewrite T, Hn. by rewrite bool_decide_refl.
  - intros (r & Hr & E). bsimpl. injection H0 as T Hn. exists (br_id r), (to_branch r).
    split; [|done]. apply found_branch. by exists r.
Qed.

Lemma sim_SaveBranch newID now id input :
  unused (OpSaveBranch newID now id input) d → simulates (OpSaveBranch newID now id input).
Proof.
  intros Hu. unfold simulates. cbn [exec spec_step]. unfold answer. rewrite SaveBranch_run.
  unfold branch_error, spec_SaveBranch. cbv zeta. destruct (negb _); [done|].
  rewrite name_taken_iff. fold (target newID id). rewrite (rf_branches _ _ _ HR).
  unfold unused in Hu. cbn [new_id] in Hu.
  destruct (id ==? uuid_Nil) eqn:Eid; cbn [negb andb].
  - destruct (proj1 (unused_iff _ _) (Hu newID eq_refl)) as [H1 _].
    rewrite (proj2 (existsb_fresh br_id newID (branches d)) H1).
    destruct (existsb _ (branches d)); [done|]. unfold saved_branch, branch_db, target. rewrite Eid. cbn [fst snd].
    split; [done|]. apply (refines_branch t d); [done..| |].
    + unfold find_branch. cbn. rewrite head_sel_fresh; [done| |by apply branch_of_iff].
      intros x Hx. destruct (branch_of _ _ _ x) eqn:Ex; [|done]. apply branch_of_iff in Ex as [_ Ex]. by destruct (H1 x Hx).
    + intros j Hj. unfold find_branch. cbn. apply head_sel_skip.
      destruct (branch_of _ _ _ _) eqn:Ex; [|done]. by apply branch_of_iff in Ex as [_ Ex].
  - destruct (find_branch t id d) as [r|] eqn:Er; cbn [fmap option_fmap option_map]; [|by rewrite bool_decide_true].
    rewrite bool_decide_false by done. destruct (existsb _ (branches d)); [done|].
    unfold saved_branch, branch_db, target. rewrite Eid. cbn [fst snd]. split; [done|].
    apply (refines_branch t d); [done..| |]; unfold find_branch in *; cbn [branches set_branches].
    + rewrite head_sel_upd; [rewrite Er|]; [|by intros x Hx%branch_of_iff; apply branch_of_iff].
      apply head_sel_Some in Er as [[_ Ir]%branch_of_iff _]. unfold to_branch. cbn. by rewrite Ir.
    + intros j Hj. rewrite sel_upd_id; [done| |].
      * intros x _ [_ Ex]%branch_of_iff. destruct (branch_of t t id x) eqn:E'; [|done].
        apply branch_of_iff in E' as [_ E']. congruence.
      * intros x _ [_ Ex]%branch_of_iff. destruct (branch_of t t j _) eqn:E'; [|done].
        apply branch_of_iff in E' as [_ E']. cbn in E'. congruence.
Qed.

Lemma branch_exists_iff x : branch_exists t d x = bool_decide (is_Some (rs_branches R !! x)).
Proof.
  rewrite (rf_branches _ _ _ HR). unfold branch_exists, find_branch.
  destruct (head _) as [r|] eqn:Er; cbn [fmap option_fmap option_map].
  - rewrite bool_decide_true by done. apply head_sel_Some in Er as [Hr Hin]. apply existsb_elem. eauto.
  - rewrite bool_decide_false by (intros []; done). apply existsb_none. by apply head_sel_None.
Qed.

Lemma view_assignments r l :
  branch_set t (bb_id r) l = branch_set t (bb_id r) (assignments d) → view t (set_branch_assignments l d) r = view t d r.
Proof. intros E. unfold view. cbn [profiles assignments set_branch_assignments]. by rewrite E. Qed.

(** A save of a barber whose assignments become [l]. *)
Lemma refines_person newID now id input l bs :
  person_error newID t id input d = None → branch_set t (target newID id) l = bs →
  (∀ j, j ≠ target newID id → branch_set t j l = branch_set t j (assignments d)) →
  refines t (set_branch_assignments l (person_db newID now t id input d))
    (mkRoster (rs_branches R)
       (<[target newID id := mkABarber (RI_DisplayName input) (RI_Bio input) (active_or_true (RI_Active input))
            (if id ==? uuid_Nil then None else find_barber t id d ≫= bb_identity) bs]> (rs_barbers R))).
Proof.
  intros He Hbs Hj. apply (refines_barber t d); [done| | |].
  - unfold person_db. by destruct (id ==? uuid_Nil).
  - rewrite view_person by done. rewrite decide_True by done. by rewrite Hbs.
  - intros j Hne. rewrite view_person by done. rewrite decide_False by done. unfold find_barber.
    destruct (head _) as [r|] eqn:Er; [|done]. apply head_sel_Some in Er as [[_ Ir]%barber_of_iff _].
    cbn. f_equal. apply view_assignments. rewrite Ir. auto.
Qed.

Lemma with_same_assignments (x : bdb) : set_branch_assignments (assignments x) x = x.
Proof. by destruct x. Qed.

Lemma sim_SaveBarber newID now id input :
  unused (OpSaveBarber newID now id input) d → simulates (OpSaveBarber newID now id input).
Proof.
  intros Hu. unfold simulates. cbn [exec spec_step]. unfold answer. rewrite SaveBarber_run by done.
  unfold unused in Hu. cbn [new_id] in Hu.
  set (old := if id ==? uuid_Nil then None else rs_barbers R !! id).
  assert (Hold : (if id ==? uuid_Nil then None else find_barber t id d ≫= bb_identity) = old ≫= ab_identity).
  { unfold old. destruct (id ==? uuid_Nil); [done|]. rewrite (rf_barbers _ _ _ HR). by destruct (find_barber t id d). }
  assert (Hset : person_error newID t id input d = None →
    branch_set t (target newID id) (assignments d) = match old with Some a => ab_branches a | None => ∅ end).
  { intros He. unfold old, target, person_error in *. destruct (negb _); [done|].
    destruct (id ==? uuid_Nil) eqn:Eid.
    - apply no_assignments; [done|]. by destruct (proj1 (unused_iff _ _) (Hu newID eq_refl)).
    - rewrite (rf_barbers _ _ _ HR). destruct (find_barber t id d) as [r|] eqn:Er; [|done]. cbn.
      by apply head_sel_Some in Er as [[_ ->]%barber_of_iff _]. }
  pose proof (refines_person newID now id input) as Hrf. rewrite Hold in Hrf. unfold person. rewrite Hold.
  fold (target newID id). cbn [BB_ID]. rewrite branchIDs_set by done. unfold set_branch_ids.
  cbn [BB_ID BB_DisplayName BB_Bio BB_Active BB_IdentityID].
  unfold spec_SaveBarber. cbv zeta. fold old. unfold person_error in *. destruct (negb _); [done|].
  assert ((id !=? uuid_Nil) && bool_decide (rs_barbers R !! id = None)
          = if id ==? uuid_Nil then false else match find_barber t id d with None => true | Some _ => false end) as ->.
  { rewrite (rf_barbers _ _ _ HR). destruct (id ==? uuid_Nil); [done|]. by destruct (find_barber t id d). }
  destruct (if id ==? uuid_Nil then false else _); [done|].
  assert ((id ==? uuid_Nil) && existsb (λ x, bb_id x ==? newID) (barbers d) = false) as Hnew.
  { destruct (id ==? uuid_Nil); [|done]. cbn. apply (existsb_fresh bb_id).
    by destruct (proj1 (unused_iff _ _) (Hu newID eq_refl)). }
  rewrite Hnew in *. destruct (negb _); [done|]. specialize (Hset eq_refl).
  destruct (RI_BranchIDs input) as [l|].
  - replace (forallb (λ x, bool_decide (is_Some (rs_branches R !! x))) l) with (forallb (branch_exists t d) l).
    2:{ induction l as [|x l IH]; [done|]. cbn. by rewrite branch_exists_iff, IH. }
    destruct (forallb _ l); [|done]. cbn [fst snd]. split; [done|]. apply Hrf; [done| |].
    + rewrite branch_set_reassigned. unfold person_db. destruct (id ==? uuid_Nil); cbn [assignments];
        rewrite branch_set_deactivated; apply union_empty_r_L.
    + intros j Hj. rewrite branch_set_reassigned_other by done. unfold person_db.
      destruct (id ==? uuid_Nil); cbn [assignments]; by rewrite branch_set_deactivated_other.
  - cbn [fst snd]. rewrite Hset. split; [done|].
    rewrite <- (with_same_assignments (person_db newID now t id input d)). apply Hrf; [done| |].
    + rewrite <- Hset. unfold person_db. by destruct (id ==? uuid_Nil).
    + intros j _. unfold person_db. by destruct (id ==? uuid_Nil).
Qed.

(** Relinking one barber. *)
Lemma refines_relink now b i a :
  rs_barbers R !! b = Some a →
  refines t (relink_db t b i now d) (mkRoster (rs_branches R) (<[b := set_ident i a]> (rs_barbers R))).
Proof.
  intros Ha. rewrite (rf_barbers _ _ _ HR) in Ha. apply fmap_Some in Ha as (r & Hr & ->). unfold find_barber in Hr.
  apply (refines_barber t d); [done..| |]; unfold find_barber, relink_db; cbn [barbers set_barbers].
  - rewrite find_barber_upd by done. rewrite decide_True, Hr by done. done.
  - intros j Hj. rewrite find_barber_upd by done. by rewrite decide_False.
Qed.

Lemma identity_taken_iff b i :
  identity_taken t b i d = bool_decide (map_Exists (λ c x, c ≠ b ∧ ab_identity x = Some i) (rs_barbers R)).
Proof.
  apply eq_bool_prop_intro. rewrite bool_decide_spec, Is_true_true. unfold identity_taken. rewrite existsb_elem. split.
  - intros (r & Hr & E). bsimpl. exists (bb_id r), (view t d r). split; [|done]. apply found_barber. by exists r.
  - intros (c & x & Hx & Hc & Hi). apply found_barber in Hx as (r & Hr & T & I & ->). exists r. split; [done|].
    cbn in Hi. by rewrite I, T, Hi, bool_decide_false, !bool_decide_refl.
Qed.

Lemma sim_Link now b i : simulates (OpLink now b i).
Proof.
  unfold simulates. cbn [exec spec_step]. unfold answer, spec_Link. rewrite Link_run, <- identity_taken_iff.
  pose proof (refines_relink now b (Some i)) as Hrl. rewrite (rf_barbers _ _ _ HR) in *.
  destruct (find_barber t b d) as [r|]; cbn [fmap option_fmap option_map] in *; [|done]. cbn [ab_identity view].
  destruct (bb_identity r) as [j|]; [done|]. destruct (identity_taken t b i d); [done|]. split; [done|]. by apply Hrl.
Qed.

Lemma sim_Unlink now b : simulates (OpUnlink now b).
Proof.
  unfold simulates. cbn [exec spec_step]. unfold answer, spec_Unlink. rewrite Unlink_run by done.
  pose proof (refines_relink now b None) as Hrl. rewrite (rf_barbers _ _ _ HR) in *.
  destruct (find_barber t b d) as [r|]; cbn [fmap option_fmap option_map] in *; [|done]. split; [done|]. by apply Hrl.
Qed.

Lemma Branch_run id :
  run (BRepository_Branch t id) d = (match rs_branches R !! id with Some b => Ok b | None => Err BNotFound end, d).
Proof.
  unfold BRepository_Branch. rewrite run_tx by apply det_one_row. rewrite run_one_row, (rf_branches _ _ _ HR).
  fold (find_branch t id d). by destruct (find_branch t id d).
Qed.

Lemma with_profile_view r :
  r ∈ barbers d → bb_tenant r = t →
  with_profile t d r = [mkBBarber (bb_id r) (bb_name r) (ab_bio (view t d r)) (bb_active r) (bb_identity r) []].
Proof.
  intros Hr Ht. destruct (ro_profiled d Hd r Hr) as (p & Hp & E1 & E2). unfold with_profile.
  rewrite (sel_one pf_barber _ _ p); [|apply Hd|done| |].
  - unfold to_barber. cbn. unfold bio_of. rewrite (head_sel_unique pf_barber _ _ p); [done|apply Hd| |done|].
    + intros y [_ ->]%profile_of_iff. done.
    + apply profile_of_iff. split; congruence.
  - unfold rls. by rewrite E1, E2, Ht, !bool_decide_refl.
  - intros y _ Hy. unfold rls in Hy. bsimpl. congruence.
Qed.

Lemma Barber_run id : run (BRepository_Barber t id) d = (spec_Barber id R, d).
Proof.
  unfold BRepository_Barber, query. rewrite run_tx by solve_det.
  rewrite run_bind by apply det_one_row. rewrite run_one_row. unfold spec_Barber. rewrite (rf_barbers _ _ _ HR).
  unfold find_barber. destruct (head (sel _ _)) as [r|] eqn:Er.
  - apply head_sel_Some in Er as [Hr Hin]. pose proof Hr as [T I]%barber_of_iff.
    rewrite (sel_one bb_id _ _ r); [|apply Hd|done|done|].
    2:{ intros y _ [_ Ey]%barber_of_iff. congruence. }
    cbn [flat_map]. rewrite with_profile_view, app_nil_r by done. cbn [head].
    rewrite run_bind, run_stmt by apply det_stmt. rewrite run_ret, branchIDs_set by done. unfold view. cbn. by rewrite I.
  - assert (sel (barber_of t t id) (barbers d) = []) as -> by (by destruct (sel _ _)). done.
Qed.

Lemma Assigned_run b x :
  run (BRepository_Assigned t b x) d = (Ok (bool_decide (b ∈ branch_set t x (assignments d))), d).
Proof.
  unfold BRepository_Assigned, query. rewrite run_tx by solve_det. rewrite run_stmt. do 2 f_equal.
  apply eq_bool_prop_intro. rewrite bool_decide_spec, Is_true_true, existsb_elem, elem_of_branch_set. split.
  - intros (a & Ha & E). unfold rls in E. bsimpl. by exists a.
  - intros (a & Ha & <- & <- & <- & E). exists a. unfold rls. by rewrite !bool_decide_refl, E.
Qed.

Lemma sim_Access b x : simulates (OpAccess b x).
Proof.
  unfold simulates. cbn [exec spec_step]. unfold answer, Barber_BookingAccess, bookable. cbn [AppType TenantID].
  change (("booking" !=? "admin") && ("booking" !=? "booking")) with false. cbv iota.
  assert (quiet (BRepository_Branch t b)) as Q1 by (apply quiet_tx, det_one_row).
  assert (quiet (BRepository_Barber t x)) as Q2
    by (apply quiet_tx; solve_det).
  assert (quiet (BRepository_Assigned t b x)) as Q3 by (apply quiet_tx; solve_det).
  rewrite runq_bind by (by apply quiet_calling). rewrite run_calling, Branch_run by done. cbn [fst snd].
  destruct (rs_branches R !! b) as [br|]; cbn [map_err repoErrorOrNotFound]; [|done].
  destruct (Branch_Active br); cbn [negb andb]; [|by destruct (rs_barbers R !! x)].
  rewrite runq_bind by (by apply quiet_calling). rewrite run_calling, Barber_run by done. cbn [fst snd]. unfold spec_Barber.
  destruct (rs_barbers R !! x) as [a|] eqn:Ea; cbn [map_err repoErrorOrNotFound]; [|done]. cbn [BB_Active].
  destruct (ab_active a); cbn [negb andb]; [|done].
  rewrite runq_bind by (by apply quiet_calling). rewrite run_calling, Assigned_run by done. cbn [fst snd map_err].
  apply found_barber in Ea as (r & Hr & T & I & ->). cbn [ab_branches view]. rewrite I.
  by destruct (bool_decide _).
Qed.

Lemma sim_step o : unused o d → simulates o.
Proof.
  destruct o; intros Hu.
  - by apply sim_SaveBranch.
  - by apply sim_SaveBarber.
  - apply sim_Link.
  - apply sim_Unlink.
  - unfold simulates. cbn [exec spec_step]. unfold answer. by rewrite Branch_run.
  - unfold simulates. cbn [exec spec_step]. unfold answer. by rewrite Barber_run.
  - apply sim_Access.
Qed.
End Simulation.

(** ** Sequences of operations of several tenants *)

Lemma read_one_row {A} (f : bdb -> option A) : readonly (one_row f).
Proof.
  unfold one_row. apply step_in_bind; [apply _| |intros [|[| |[]]]; solve_step]. apply step_in_attempt, step_in_stmt; [apply _|].
  intros d a d'. destruct (f d); [|done]. by intros [= _ <-].
Qed.

Lemma read_Branch t id : readonly (BRepository_Branch t id).
Proof. apply step_in_tx; [apply _|apply read_one_row]. Qed.

Lemma read_Barber t id : readonly (BRepository_Barber t id).
Proof. apply step_in_tx; [apply _|]. apply step_in_bind; [apply _|apply read_one_row|]. intros v. solve_step. Qed.

Lemma read_Access t b x : readonly (Barber_BookingAccess t b x).
Proof.
  unfold Barber_BookingAccess. destruct (_ && _); [solve_step|].
  apply step_in_bind; [apply _|apply step_in_calling; [apply _|apply read_Branch]|]. intros br. destruct (negb _); [solve_step|].
  apply step_in_bind; [apply _|apply step_in_calling; [apply _|apply read_Barber]|]. intros a. destruct (negb _); [solve_step|].
  apply step_in_bind; [apply _| |intros []; solve_step]. apply step_in_calling; [apply _|].
  apply step_in_tx; [apply _|solve_step].
Qed.

Lemma exec_read t o d :
  match o with OpBranch _ | OpBarber _ | OpAccess _ _ => (exec t o d).2 = d | _ => True end.
Proof.
  destruct o; try done; cbn [exec answer snd]; symmetry; apply (step_in_run eq); [apply read_Branch|apply read_Barber|apply read_Access].
Qed.

Lemma exec_good t o d : ros_good t d (exec t o d).2.
Proof.
  pose proof (exec_read t o d) as Hread.
  destruct o; [..|by rewrite Hread|by rewrite Hread|by rewrite Hread]; cbn [exec answer snd]; apply step_in_run.
  - apply good_SaveBranch.
  - apply good_SaveBarber.
  - apply good_Link.
  - apply good_Unlink.
Qed.

(** Other tenants do not notice. *)
Lemma refines_other t t' d d' R :
  t' ≠ t → bothers t d' = bothers t d → refines t' d R → refines t' d' R.
Proof.
  intros Hne E [H1 H2]. unfold bothers in E. injection E as E1 E2 E3 E4.
  assert (∀ id, find_branch t' id d' = find_branch t' id d) as F1.
  { intros id. unfold find_branch.
    rewrite <- (sel_sel _ (λ r, br_tenant r !=? t) (branches d')), E1, sel_sel; [done|..];
      intros x [-> _]%branch_of_iff; by rewrite bool_decide_false. }
  assert (∀ id, find_barber t' id d' = find_barber t' id d) as F2.
  { intros id. unfold find_barber.
    rewrite <- (sel_sel _ (λ r, bb_tenant r !=? t) (barbers d')), E2, sel_sel; [done|..];
      intros x [-> _]%barber_of_iff; by rewrite bool_decide_false. }
  assert (∀ r, view t' d' r = view t' d r) as F3.
  { intros r. unfold view. f_equal.
    - unfold bio_of. rewrite <- (sel_sel _ (λ r, pf_tenant r !=? t) (profiles d')), E3, sel_sel; [done|..];
        intros x [-> _]%profile_of_iff; by rewrite bool_decide_false.
    - unfold branch_set. rewrite <- (sel_sel _ (λ a, ba_tenant a !=? t) (assignments d')), E4, sel_sel; [done|..];
        intros x Hx; bsimpl; congruence. }
  split; intros id; [rewrite H1, F1; done|]. rewrite H2, F2. destruct (find_barber t' id d); [|done].
  cbn. by rewrite F3.
Qed.

(** The ids the database has drawn. *)
Lemma exec_ids t o d i : ros_ok d → i ∈ all_ids (exec t o d).2 → i ∈ all_ids d ∨ new_id o = Some i.
Proof.
  intros Hd.
  assert (∀ d', branches d' = branches d → map bb_id (barbers d') = map bb_id (barbers d) →
            i ∈ all_ids d' → i ∈ all_ids d) as Hsame by (intros d' E1 E2; unfold all_ids; by rewrite E1, E2).
  pose proof (exec_read t o d) as Hread.
  destruct o; [..|rewrite Hread; by left|rewrite Hread; by left|rewrite Hread; by left]; cbn [exec answer snd new_id].
  - rewrite SaveBranch_run. destruct (branch_error _ _ _ _ _); [by left|]. cbn [snd]. unfold branch_db, all_ids.
    destruct (id ==? uuid_Nil); cbn [branches barbers set_branches]; [rewrite map_app|rewrite map_upd by done]; set_solver.
  - rewrite SaveBarber_run by done. destruct (person_error _ _ _ _ _); [by left|]. cbv zeta.
    assert (i ∈ all_ids (person_db newID now t id input d) →
      i ∈ all_ids d ∨ (if id ==? uuid_Nil then Some newID else None) = Some i) as Hp.
    { unfold person_db, all_ids. destruct (id ==? uuid_Nil); cbn [branches barbers]; [rewrite map_app|rewrite map_upd by done]; set_solver. }
    destruct (RI_BranchIDs input) as [l|]; [|apply Hp]. destruct (forallb _ l); [apply Hp|by left].
  - rewrite Link_run. intros H. left. revert H. destruct (find_barber t barberID d) as [r|]; [|done].
    destruct (bb_identity r); [done|]. destruct (identity_taken _ _ _ _); [done|].
    apply Hsame; [done|]. cbn. by apply map_upd.
  - rewrite Unlink_run by done. intros H. left. revert H. destruct (find_barber t barberID d) as [r|]; [|done].
    apply Hsame; [done|]. cbn. by apply map_upd.
Qed.

Fixpoint impl_replies (ops : list (uuid * op)) (d : bdb) : list reply :=
  match ops with
  | [] => []
  | (t, o) :: ops' => let (r, d') := exec t o d in r :: impl_replies ops' d'
  end.

Fixpoint spec_replies (ops : list (uuid * op)) (S : uuid -> roster) : list reply :=
  match ops with
  | [] => []
  | (t, o) :: ops' =>
      let (r, R) := spec_step o (S t) in
      r :: spec_replies ops' (λ t', if decide (t' = t) then R else S t')
  end.

Definition drawn (ops : list (uuid * op)) : list uuid := omap (λ p, new_id p.2) ops.

Lemma replies_refine ops d S :
  ros_ok d → (∀ t, refines t d (S t)) → NoDup (drawn ops) → (∀ i, i ∈ drawn ops → i ∉ all_ids d) →
  impl_replies ops d = spec_replies ops S.
Proof.
  revert d S. induction ops as [|[t o] ops IH]; intros d S Hd HS Hnd Hfr; [done|]. cbn [impl_replies spec_replies].
  assert (unused o d) as Hu.
  { intros i Hi. apply Hfr. unfold drawn. cbn. rewrite Hi. set_solver. }
  destruct (sim_step t d (S t) Hd (HS t) o Hu) as [Hr HR]. destruct (exec_good t o d Hd) as [Hd' Ho].
  pose proof (λ i, exec_ids t o d i Hd) as Hids.
  destruct (exec t o d) as [r d'], (spec_step o (S t)) as [r' R']. cbn [fst snd] in *. subst r'. f_equal. apply IH.
  - done.
  - intros t'. destruct (decide (t' = t)) as [->|Hne]; [done|]. by apply (refines_other t t' d).
  - unfold drawn in *. cbn in Hnd. destruct (new_id o); [|done]. by apply NoDup_cons in Hnd as [_ Hnd].
  - intros i Hi [Hin|Hin]%Hids.
    + apply (Hfr i); [|done]. unfold drawn in *. cbn. destruct (new_id o); [|done]. set_solver.
    + unfold drawn in *. cbn in Hnd. rewrite Hin in Hnd. by apply NoDup_cons in Hnd as [? _].
Qed.

(** the barber service is a roster.  Any sequence of operations of any
    tenants - saving branches and barbers, linking and unlinking logins,
    reading them, and the booking check of the other services - gives on the
    four tables the replies, errors included, of one abstract roster per
    tenant, provided the database draws new ids. *)
Theorem roster_refinement ops :
  NoDup (drawn ops) → impl_replies ops (mkBdb [] [] [] []) = spec_replies ops (λ _, empty_roster).
Proof.
  intros Hnd. apply replies_refine; [constructor; cbn; first [by constructor|set_solver]| |done|set_solver].
  intros t. by split; intros id; cbn; rewrite lookup_empty.
Qed.

Lemma roster_refinement_witness :
  let ops := [ (1%N, OpSaveBranch 10%N 0 uuid_Nil (mkBranchInput "Center" "Main St" None));
               (1%N, OpSaveBarber 11%N 0 uuid_Nil (mkBarberInput "Ada" "" None (Some [10%N])));
               (2%N, OpAccess 10%N 11%N);
               (1%N, OpLink 0 11%N 7%N);
               (1%N, OpBarber 11%N);
               (1%N, OpAccess 10%N 11%N) ] in
  impl_replies ops (mkBdb [] [] [] [])
  = [ RBranch (Ok (mkBranch 10%N "Center" "Main St" true));
      RBarber (Ok (mkBBarber 11%N "Ada" "" true None [10%N]));
      RAccess (Err BErrNotFound); RUnit (Ok tt);
      RBarber (Ok (mkBBarber 11%N "Ada" "" true (Some 7%N) [10%N])); RAccess (Ok tt) ].
Proof.
  intros ops. rewrite (roster_refinement ops); [by vm_compute|].
  refine (bool_decide_eq_true_1 (NoDup (drawn ops)) _). by vm_compute.
Defined.

(** ** The public list *)

(** The rows a keyed lookup finds, as a map. *)
Lemma lookup_map {A B} (p : uuid -> A -> bool) (q : A -> bool) (k : A -> uuid) (f : A -> B) (l : list A) :
  (∀ id x, p id x = q x && (k x ==? id)) → ∃ m : gmap uuid B, ∀ id, m !! id = f <$> head (sel (p id) l).
Proof.
  intros Hp. induction l as [|x l [m IH]]; [by exists ∅|].
  exists (if q x then <[k x := f x]> m else m). intros id. cbn. unfold sel in *. cbn. rewrite Hp.
  destruct (q x); cbn [andb]; [|apply IH]. destruct (decide (k x = id)) as [E|E].
  - rewrite bool_decide_true by done. rewrite <- E. by rewrite lookup_insert_eq.
  - rewrite bool_decide_false by done. by rewrite lookup_insert_ne.
Qed.

Lemma refines_exists t d : ∃ R, refines t d R.
Proof.
  destruct (lookup_map (branch_of t t) (λ r, br_tenant r ==? t) br_id to_branch (branches d)) as [m1 H1].
  { intros id x. unfold branch_of, rls. by destruct (br_tenant x ==? t). }
  destruct (lookup_map (barber_of t t) (λ r, bb_tenant r ==? t) bb_id (view t d) (barbers d)) as [m2 H2].
  { intros id x. unfold barber_of, rls. by destruct (bb_tenant x ==? t). }
  by exists (mkRoster m1 m2).
Qed.

Section Public.
Context `{Collation} (t : uuid) (d : bdb) (Hd : ros_ok d).

Lemma fill_run l :
  run (fill_branch_ids t t l) d
  = (Ok (map (λ v, set_branch_ids (ids_of (branch_set t (BB_ID v) (assignments d))) v) l), d).
Proof.
  induction l as [|v l IH]; [done|]. cbn [fill_branch_ids]. unfold query. rewrite run_bind, run_stmt by apply det_stmt.
  rewrite run_bind, IH by apply det_fill. rewrite run_ret. cbn [map]. by rewrite branchIDs_set.
Qed.

(** The entry of a barber on the public list. *)
Definition entry (r : barber_row) : BBarber :=
  mkBBarber (bb_id r) (bb_name r) (bio_of t (bb_id r) (profiles d)) (bb_active r) None
    (ids_of (branch_set t (bb_id r) (assignments d))).

Lemma profiles_found l :
  (∀ r, r ∈ l → r ∈ barbers d ∧ bb_tenant r = t) →
  List.flat_map (with_profile t d) l
  = map (λ r, mkBBarber (bb_id r) (bb_name r) (bio_of t (bb_id r) (profiles d)) (bb_active r) (bb_identity r) []) l.
Proof.
  induction l as [|r l IH]; intros Hl; [done|]. cbn [flat_map map]. rewrite IH by set_solver.
  rewrite (with_profile_view t d Hd) by (apply Hl; set_solver). done.
Qed.

Lemma public_run :
  run (BRepository_Barbers t true) d
  = (Ok (map entry (order_by (λ r, name_rank (bb_name r))
                      (sel (λ r, (bb_tenant r ==? t) && (bb_active r && has_branch t d r)) (barbers d)))), d).
Proof.
  unfold BRepository_Barbers, query. rewrite run_tx by solve_det. rewrite run_bind, run_stmt by apply det_stmt.
  rewrite (proj1 (rls_tenant bb_tenant t (λ r, (bb_tenant r ==? t) && (bb_active r && has_branch t d r))
    ltac:(intros a Ha; cbn beta in Ha; by bsimpl))).
  rewrite profiles_found.
  - rewrite fill_run. by rewrite !map_map.
  - intros r Hr. apply elem_of_order_by, elem_of_sel in Hr as [Hr Hin]. by bsimpl.
Qed.

Lemma has_branch_iff R r :
  refines t d R → r ∈ barbers d → bb_tenant r = t → bb_active r = true →
  has_branch t d r = true ↔ ∃ b, bookable R b (bb_id r) = true.
Proof.
  intros HR Hr Ht Ha.
  assert (rs_barbers R !! bb_id r = Some (view t d r)) as Hv by (apply (found_barber t d R Hd HR); by exists r).
  unfold has_branch. rewrite existsb_elem. unfold bookable. split.
  - intros (a & Hin & E). unfold rls at 1 in E. bsimpl.
    match goal with Hb : existsb _ _ = true |- _ => apply existsb_elem in Hb as (x & Hx & Ex) end.
    unfold rls in Ex. bsimpl. exists (br_id x).
    assert (rs_branches R !! br_id x = Some (to_branch x)) as Hb
      by (apply (found_branch t d R Hd HR); exists x; repeat split; congruence).
    rewrite Hb, Hv. cbn. rewrite Ha. bsimpl; [done..|]. apply elem_of_branch_set. exists a. repeat split; congruence.
  - intros [b Hb]. rewrite Hv in Hb. destruct (rs_branches R !! b) as [br|] eqn:Eb; [|done]. cbn in Hb. bsimpl.
    apply (found_branch t d R Hd HR) in Eb as (x & Hx & T & I & ->).
    match goal with Hs : b ∈ _ |- _ => apply elem_of_branch_set in Hs as (a & Hin & Ta & Ba & Xa & Aa) end. exists a. split; [done|]. unfold rls at 1.
    rewrite Ta, Ba, Aa, Ht, !bool_decide_refl. cbn [andb]. apply existsb_elem. exists x. split; [done|].
    unfold rls. match goal with Hx : Branch_Active _ = true |- _ => cbn in Hx; rewrite Hx end.
    by rewrite T, I, Xa, !bool_decide_refl.
Qed.
End Public.

(** the public list offers exactly the barbers that can be booked.  A
    barber is on the list, once and without its login, if and only if the
    booking check of the other services accepts it in some branch, and its
    entry then shows what the admin sees. *)
Theorem public_barbers_bookable `{Collation} t req d :
  ros_ok d →
  ∃ l, run (Barber_PublicBarbers (mkTenantContext t "booking" req)) d = (Ok l, d) ∧ NoDup (map BB_ID l) ∧
    (∀ v, v ∈ l → BB_IdentityID v = None) ∧
    ∀ id, (∃ v, v ∈ l ∧ BB_ID v = id) ↔
          ∃ b, run (Barber_BookingAccess (mkTenantContext t "booking" EmptyString) b id) d = (Ok tt, d).
Proof.
  intros Hd. destruct (refines_exists t d) as [R HR]. unfold Barber_PublicBarbers. cbn [AppType TenantID].
  rewrite bool_decide_refl. cbn [negb].
  assert (quiet (BRepository_Barbers t true)) as Hq by (apply quiet_tx; solve_det).
  rewrite run_calling, public_run by done. eexists. split; [done|].
  assert (∀ b x, run (Barber_BookingAccess (mkTenantContext t "booking" EmptyString) b x) d = (Ok tt, d) ↔
            bookable R b x = true) as Hacc.
  { intros b x. destruct (sim_Access t d R Hd HR b x) as [Hs _]. pose proof (exec_read t (OpAccess b x) d) as Hr.
    cbn in Hs, Hr. destruct (run _ d) as [o d'] eqn:E. cbn in Hs, Hr. subst d'.
    destruct (bookable R b x); injection Hs as ->; [done|split; [|done]]. by intros [=]. }
  setoid_rewrite Hacc. split; [|split].
  - rewrite map_map. cbn. rewrite (map_ext _ bb_id) by done. rewrite order_by_perm. apply NoDup_map_sel, Hd.
  - intros v Hv. apply list_elem_of_In, in_map_iff in Hv as (r & <- & _). done.
  - intros id. split.
    + intros (v & Hv & <-). apply list_elem_of_In, in_map_iff in Hv as (r & <- & Hr%list_elem_of_In).
      apply elem_of_order_by, elem_of_sel in Hr as [Hr Hin]. bsimpl. by apply (has_branch_iff t d Hd R r).
    + intros [b Hb]. pose proof Hb as Hb'. unfold bookable in Hb. destruct (rs_branches R !! b); [|done].
      destruct (rs_barbers R !! id) as [a|] eqn:Ea; [|done]. apply (found_barber t d R Hd HR) in Ea as (r & Hr & T & I & ->).
      cbn in Hb. bsimpl. exists (entry t d r). split; [|done]. apply list_elem_of_In, in_map, list_elem_of_In.
      apply elem_of_order_by, elem_of_sel. split; [|done]. rewrite T, bool_decide_refl. cbn [andb]. bsimpl; [done|].
      apply (has_branch_iff t d Hd R r); [done..|]. exists b. by rewrite I.
Qed.

Section PublicExample.
#[local] Instance roster_collation : Collation := λ s, Z.of_nat (String.length s).

Definition sample_roster : bdb :=
  mkBdb [mkBranchRow 10%N 1%N "Center" "Main St" true 0] [mkBarberRow 11%N 1%N "Ada" true (Some 7%N) 0]
    [mkProfileRow 11%N 1%N "" 0] [mkBranchAssignment 1%N 11%N 10%N true].

Lemma sample_roster_ok : ros_ok sample_roster.
Proof.
  constructor; cbn; try (apply NoDup_singleton); intros *; rewrite ?list_elem_of_singleton; intros; subst; try done.
  - eexists. split; [by apply list_elem_of_singleton|done].
  - eexists. split; [by apply list_elem_of_singleton|done].
  - split; eexists; (split; [by apply list_elem_of_singleton|done]).
Qed.

Lemma public_barbers_bookable_witness :
  ∃ l, run (Barber_PublicBarbers (mkTenantContext 1%N "booking" EmptyString)) sample_roster = (Ok l, sample_roster) ∧
    ∃ v, v ∈ l ∧ BB_ID v = 11%N.
Proof.
  destruct (public_barbers_bookable 1%N EmptyString sample_roster sample_roster_ok) as (l & Hl & _ & _ & Hiff).
  exists l. split; [exact Hl|]. apply Hiff. exists 10%N. by vm_compute.
Defined.
End PublicExample.
