(* ===== verification/Accounts.v ===== *)
(** * Accounts: what the customer and the auth service have in common

    Both services keep password hashes, mail initial and temporary passwords,
    lease the delivery of the initial one, limit the rate of the unprotected
    routes and store session tokens as digests.  This file holds the world they
    run in (database, mailbox, Redis), the library functions they call, and the
    delivery state machine with its lease. *)
From S2P Require Import Prelude Effects GoTime Http Platform.

Local Open Scope Z_scope.

(** ** Library functions *)

Class AccountLib := mkAccountLib {
  (** [bcrypt.CompareHashAndPassword(hash, password) == nil] *)
  bcrypt_Compare : string -> string -> bool;
  (** [bcrypt.GenerateFromPassword] with the salt it draws; [None] is its error
      for passwords of more than 72 bytes *)
  bcrypt_Generate : string -> string -> option string;
  (** PostgreSQL's [lower] *)
  pg_lower : string -> string;
  (** The value of a cookie in a Cookie header *)
  cookie_value : string -> string -> string;
  (** [url.ParseQuery] succeeds *)
  ParseQuery_ok : string -> bool;
  (** [base64.RawURLEncoding] *)
  base64_Decode : string -> option string;
  base64_Encode : string -> string;
  (** [sha256.Sum256] *)
  sha256 : string -> string
}.

(** Documented laws, for the theorems that need them. *)
Class AccountLaws `{AccountLib} := {
  bcrypt_Generate_Compare : ∀ salt p h, bcrypt_Generate salt p = Some h → bcrypt_Compare h p = true;
  base64_roundtrip : ∀ b, base64_Decode (base64_Encode b) = Some b
}.

(** [btrim]: the spaces at both ends. *)
Fixpoint ltrim_space (l : list ascii) : list ascii :=
  match l with " "%char :: l' => ltrim_space l' | _ => l end.
Definition btrim (s : string) : string :=
  string_of_list_ascii (rev (ltrim_space (rev (ltrim_space (list_ascii_of_string s))))).

(** ** Values *)

(** Two rows clash in a unique column that is not null. *)
Definition same_text (a b : option string) : bool :=
  match a, b with Some x, Some y => x ==? y | _, _ => false end.
Lemma same_text_sym a b : same_text a b = same_text b a.
Proof. destruct a, b; try done. cbn. apply bool_decide_ext. naive_solver. Qed.
Definition opt_text (o : option string) : bool := match o with Some s => text_ok s | None => true end.

Definition or_empty (o : option string) : string := match o with Some s => s | None => EmptyString end.

Definition or_no_rows {A} (o : option A) : res pg_error A := match o with Some a => Ok a | None => Err NoRows end.
Definition newline : string := String "010" EmptyString.

(** What a call draws and meets: random strings ([None] when the source of
    randomness fails), the salt of bcrypt, ids, clock readings of the database
    in order, the clock of the process, and the attempts to send mail. *)
Record draw := mkDraw {
  dr_random : option string; dr_salt : string; dr_id : uuid; dr_claim : uuid; dr_key : string;
  dr_times : time * time * time; dr_clock : time; dr_mail : Z -> attempt_script
}.
Definition time1 (x : draw) : time := (dr_times x).1.1.
Definition time2 (x : draw) : time := (dr_times x).1.2.
Definition time3 (x : draw) : time := (dr_times x).2.

(** The attributes of the session cookie. *)
Record SetCookie := mkSetCookie { ck_name : string; ck_value : string; ck_secure : bool; ck_maxAge : Z }.

(** ** The world *)

Record world (D : Type) := mkWorld { w_db : D; w_mail : list Message; w_redis : redis }.
Arguments mkWorld {D} w_db w_mail w_redis.
Arguments w_db {D} w.
Arguments w_mail {D} w.
Arguments w_redis {D} w.
Definition set_db {D} (d : D) (w : world D) : world D := mkWorld d (w_mail w) (w_redis w).

Section World.
Context {D E F : Type}.

(** A repository call. *)
Definition on_db {A} (m : IO D E A) : IO (world D) E A :=
  λ fs w, match m fs (w_db w) with (r, (fs', d')) => (r, (fs', set_db d' w)) end.

(** A repository call whose error is translated, and one whose error is looked
    at. *)
Definition repo {A} (f : E -> F) (m : IO D E A) : IO (world D) F A := calling f (on_db m).
Definition try_repo {A} (m : IO D E A) : IO (world D) F (res E A) := attempt (on_db m).

(** [SendWithRetry] with three attempts; an accepted message is in the mailbox.
    The attempts and their outcomes are the script. *)
Definition deliver (script : Z -> attempt_script) (m : Message) : IO (world D) F bool :=
  λ fs w,
    match SendWithRetry 3 script with
    | (Ok _, _) => (Ok true, (fs, mkWorld (w_db w) (w_mail w ++ [m]) (w_redis w)))
    | (Err _, _) => (Ok false, (fs, w))
    end.

(** A call of the rate limiter; its error when Redis does not answer. *)
Definition allow (now : time) (key : string) : IO (world D) F (option bool) :=
  λ fs w,
    let '(b, r) := Allow now key 10 Minute (w_redis w) in
    match pop fs with
    | (FFail, fs') => (Ok None, (fs', w))
    | (FOk, fs') => (Ok (Some b), (fs', mkWorld (w_db w) (w_mail w) r))
    | (FLost, fs') => (Ok None, (fs', mkWorld (w_db w) (w_mail w) r))
    end.

(** A handler without a limiter refuses. *)
Definition limited (has_limiter : bool) (now : time) (key : string) : IO (world D) F (option bool) :=
  if has_limiter then allow now key else mret (Some false).
End World.

(** ** The delivery of the initial password *)

Record delivery := mkDelivery {
  dl_status : string; dl_attempts : Z; dl_error : option string; dl_token : option uuid;
  dl_until : option time; dl_updated : option time
}.

Definition delivery_check (x : delivery) : bool :=
  ((dl_status x ==? "pending"%string) || (dl_status x ==? "sending"%string) || (dl_status x ==? "sent"%string)
   || (dl_status x ==? "failed"%string)) && (0 <=? dl_attempts x).

(** A row in the state 'sending' has a claim, no other row has one. *)
Definition claim_check (x : delivery) : bool :=
  match dl_token x, dl_until x with
  | Some _, Some _ => dl_status x ==? "sending"%string
  | None, None => dl_status x !=? "sending"%string
  | _, _ => false
  end.

Definition claim_lease : duration := 2 * Minute.

(** The WHERE clause of ClaimInitialDelivery. *)
Definition claimable (now : time) (x : delivery) : bool :=
  (dl_status x ==? "pending"%string) || (dl_status x ==? "failed"%string)
  || (dl_status x ==? "sending"%string) && match dl_until x with Some u => u <? now | None => false end.

Definition claimed (now : time) (token : uuid) (x : delivery) : delivery :=
  mkDelivery "sending" (dl_attempts x) (dl_error x) (Some token) (Some (now + claim_lease)) (Some now).

Definition NULLIF_empty (s : string) : option string := if s ==? EmptyString then None else Some s.

Definition marked (now : time) (status problem : string) (x : delivery) : delivery :=
  mkDelivery status (dl_attempts x + 1) (NULLIF_empty problem) None None (Some now).

(** Within the lease nobody else can claim, and a sent password is final. *)
Lemma claimed_exclusive now token x now' : now' <= now + claim_lease → claimable now' (claimed now token x) = false.
Proof.
  intros H. unfold claimable, claimed. cbn [dl_status dl_until].
  rewrite (bool_decide_false ("sending"%string = "pending"%string)), (bool_decide_false ("sending"%string = "failed"%string)) by done.
  cbn [orb]. rewrite bool_decide_refl. cbn [andb]. apply Z.ltb_ge. lia.
Qed.

Lemma sent_final now x : dl_status x = "sent"%string → claimable now x = false.
Proof. intros E. unfold claimable. rewrite E. by vm_compute. Qed.

(** The states the operations leave behind satisfy the CHECK constraints. *)
Lemma state_checks status n error token until updated :
  0 <= n →
  (status = "sending"%string ∧ token ≠ None ∧ until ≠ None ∨
   (status = "pending"%string ∨ status = "sent"%string ∨ status = "failed"%string) ∧ token = None ∧ until = None) →
  let x := mkDelivery status n error token until updated in delivery_check x = true ∧ claim_check x = true.
Proof.
  intros Hn H. unfold delivery_check, claim_check. cbn [dl_status dl_attempts dl_token dl_until].
  rewrite (proj2 (Z.leb_le 0 n) Hn).
  destruct H as [(-> & Ht & Hu)|([->|[->| ->]] & -> & ->)]; [|by vm_compute..].
  destruct token as [token|]; [|done]. destruct until as [until|]; [|done]. split; by vm_compute.
Qed.

Lemma delivery_attempts x : delivery_check x = true → 0 <= dl_attempts x.
Proof. unfold delivery_check. intros [_ H]%andb_true_iff. by bsimpl. Qed.

Lemma claimed_checks now token x :
  delivery_check x = true → delivery_check (claimed now token x) = true ∧ claim_check (claimed now token x) = true.
Proof. intros H%delivery_attempts. apply state_checks; [done|]. by left. Qed.

Lemma marked_checks now status problem x :
  delivery_check x = true → status = "sent"%string ∨ status = "failed"%string →
  delivery_check (marked now status problem x) = true ∧ claim_check (marked now status problem x) = true.
Proof. intros H%delivery_attempts Hs. apply state_checks; [lia|]. right. tauto. Qed.

(** ** Reasoning about the world *)

Section WorldLemmas.
Context {D E F : Type}.

Lemma run_on_db {A} (m : IO D E A) w : run (on_db m) w = ((run m (w_db w)).1, set_db (run m (w_db w)).2 w).
Proof. unfold run, on_db. by destruct (m [] (w_db w)) as [r [fs d]]. Qed.

Lemma quiet_on_db {A} (m : IO D E A) : quiet m → quiet (on_db m).
Proof. intros Hm w. specialize (Hm (w_db w)). unfold on_db. by destruct (m [] (w_db w)) as [r [fs d]]. Qed.

Lemma quiet_mail script m : quiet (deliver (D:=D) (F:=F) script m).
Proof. intros w. unfold deliver. by destruct (SendWithRetry 3 script) as [[] ?]. Qed.

Lemma run_mail script m (w : world D) :
  run (E:=F) (deliver script m) w
  = match (SendWithRetry 3 script).1 with
    | Ok _ => (Ok true, mkWorld (w_db w) (w_mail w ++ [m]) (w_redis w))
    | Err _ => (Ok false, w)
    end.
Proof. unfold run, deliver. by destruct (SendWithRetry 3 script) as [[] ?]. Qed.

Lemma quiet_limited b now key : quiet (limited (D:=D) (F:=F) b now key).
Proof. intros w. unfold limited, allow. destruct b; [|done]. by destruct (Allow _ _ _ _ _). Qed.

Lemma run_repo_call {A} (f : E -> F) (m : IO D E A) w :
  quiet m → run (repo f m) w = (map_err f (run m (w_db w)).1, set_db (run m (w_db w)).2 w).
Proof. intros Hm. unfold repo. rewrite run_calling by (by apply quiet_on_db). by rewrite run_on_db. Qed.

Lemma run_repo_bind {A B} (f : E -> F) (m : IO D E A) (k : A -> IO (world D) F B) w :
  quiet m →
  run (repo f m ≫= k) w
  = match (run m (w_db w)).1 with
    | Ok a => run (k a) (set_db (run m (w_db w)).2 w)
    | Err e => (Err (f e), set_db (run m (w_db w)).2 w)
    end.
Proof.
  intros Hm. rewrite runq_bind by (by apply quiet_calling, quiet_on_db). rewrite run_repo_call by done.
  by destruct (run m (w_db w)) as [[] ?].
Qed.

Lemma run_try_bind {A B} (m : IO D E A) (k : res E A -> IO (world D) F B) w :
  quiet m → run (try_repo m ≫= k) w = run (k (run m (w_db w)).1) (set_db (run m (w_db w)).2 w).
Proof.
  intros Hm. unfold try_repo. rewrite run_attempt_bind by (by apply quiet_on_db). by rewrite run_on_db.
Qed.

Lemma set_db_same (w : world D) : set_db (w_db w) w = w.
Proof. by destruct w. Qed.
Lemma set_db_twice (d d' : D) w : set_db d (set_db d' w) = set_db d w.
Proof. done. Qed.

(** A change of the database, seen from the world. *)
Definition db_step (I : D -> D -> Prop) (w w' : world D) : Prop := I (w_db w) (w_db w').
#[global] Instance db_step_preorder I `{!PreOrder I} : PreOrder (db_step I).
Proof. unfold db_step. split; [intros w; reflexivity|]. intros a b c H1 H2. by etrans. Qed.

Lemma step_on_db {A} I (m : IO D E A) : step_in I m → step_in (db_step I) (on_db m).
Proof.
  intros Hm fs w. specialize (Hm fs (w_db w)). unfold on_db, db_step.
  by destruct (m fs (w_db w)) as [r [fs' d']].
Qed.

Lemma step_repo {A} I `{!PreOrder I} (f : E -> F) (m : IO D E A) : step_in I m → step_in (db_step I) (repo f m).
Proof. intros Hm. unfold repo. apply step_in_calling; [apply _|]. by apply step_on_db. Qed.
Lemma step_try {A} I (m : IO D E A) : step_in I m → step_in (db_step I) (try_repo (F:=F) m).
Proof. intros Hm. unfold try_repo. by apply step_in_attempt, step_on_db. Qed.

(** The result and the world after a repository call, with faults. *)
Lemma repo_result {A} (f : E -> F) (m : IO D E A) fs w :
  (repo f m fs w).1 = map_err f (m fs (w_db w)).1 ∧ (repo f m fs w).2.2 = set_db (m fs (w_db w)).2.2 w.
Proof.
  unfold repo, calling. rewrite attempt_bind. unfold on_db.
  by destruct (m fs (w_db w)) as [[v|e] [fs' d']].
Qed.

(** A repository call that only reads, with faults. *)
Lemma try_read_bind {A B} (m : IO D E A) (k : res E A -> IO (world D) F B) fs w :
  readonly m → ∃ fs', (try_repo m ≫= k) fs w = k (m fs (w_db w)).1 fs' w.
Proof.
  intros Hm. unfold try_repo. rewrite attempt_bind. unfold on_db. specialize (Hm fs (w_db w)).
  destruct (m fs (w_db w)) as [r [fs' d']]. cbn in *. subst d'. exists fs'. by rewrite set_db_same.
Qed.

Lemma repo_read {A} (f : E -> F) (m : IO D E A) fs w :
  readonly m → ∃ fs', repo f m fs w = (map_err f (m fs (w_db w)).1, (fs', w)).
Proof.
  intros Hm. unfold repo, calling. rewrite attempt_bind. unfold on_db. specialize (Hm fs (w_db w)).
  destruct (m fs (w_db w)) as [[v|e] [fs' d']]; cbn in *; subst d'; exists fs'; by rewrite set_db_same.
Qed.

Lemma repo_read_bind {A B} (f : E -> F) (m : IO D E A) (k : A -> IO (world D) F B) fs w :
  readonly m → ∃ fs', (repo f m ≫= k) fs w
    = match (m fs (w_db w)).1 with Ok v => k v fs' w | Err e => (Err (f e), (fs', w)) end.
Proof.
  intros Hm. rewrite bind_eq. destruct (repo_read f m fs w Hm) as [fs' ->]. exists fs'.
  by destruct (m fs (w_db w)).1.
Qed.

(** A repository call whose effect depends on the database it meets. *)
Lemma repo_step_bind {A B} I `{!PreOrder I} (f : E -> F) (m : IO D E A) (k : A -> IO (world D) F B) fs w :
  I (w_db w) (m fs (w_db w)).2.2 → (∀ v, step_in (db_step I) (k v)) → db_step I w ((repo f m ≫= k) fs w).2.2.
Proof.
  intros Hm Hk. rewrite bind_eq. unfold repo, calling. rewrite attempt_bind. unfold on_db.
  destruct (m fs (w_db w)) as [[v|e] [fs' d']]; cbn in *; [|done].
  transitivity (set_db d' w); [done|]. apply Hk.
Qed.

Lemma step_deliver I `{!PreOrder I} script m : step_in (db_step I) (deliver (F:=F) script m).
Proof. intros fs w. unfold deliver, db_step. by destruct (SendWithRetry 3 script) as [[] ?]. Qed.

Lemma step_limited I `{!PreOrder I} b now key : step_in (db_step I) (limited (F:=F) b now key).
Proof.
  intros fs w. unfold limited, allow, db_step. destruct b; [|done].
  destruct (Allow _ _ _ _ _) as [x r]. by destruct (pop fs) as [[] ?].
Qed.
End WorldLemmas.

(** Run a call that only reads; [fs'] are the faults that are left. *)
Ltac read_call R fs' :=
  match goal with
  | |- context [(try_repo ?m ≫= ?k) ?fs ?w] => destruct (try_read_bind m k fs w ltac:(apply R)) as [fs' ->]
  | |- context [(repo ?f ?m ≫= ?k) ?fs ?w] => destruct (repo_read_bind f m k fs w ltac:(apply R)) as [fs' ->]
  end.

(** ** A concrete library, for the witnesses *)

Definition TestAccounts : AccountLib :=
  mkAccountLib (λ hash p, hash ==? "$" +:+ p)
    (λ _ p, if (72 <? String.length p)%nat then None else Some ("$" +:+ p))
    ascii_lower (λ header _, header) (λ _, true) (λ s, Some s) (λ s, s) (λ s, s).

Lemma TestAccounts_laws : @AccountLaws TestAccounts.
Proof.
  split; [|done]. intros salt p h. unfold bcrypt_Generate, bcrypt_Compare, TestAccounts.
  destruct (72 <? String.length p)%nat; [done|]. intros E. apply bool_decide_eq_true. congruence.
Qed.

(** A mail server that accepts the first attempt. *)
Definition mail_up (_ : Z) : attempt_script := mkAttempt (Ok "id"%string) false 0 false.
Definition mail_down (_ : Z) : attempt_script := mkAttempt (Err (Permanent "refused"%string)) false 0 false.
