(* ===== verification/Customer.v ===== *)
(** * Customer: customer-service

    Customer accounts and their sessions: the tables of [migrations],
    [internal/domain], [internal/repository], [internal/application],
    [internal/client] and [internal/handler]. *)
From S2P Require Import Prelude Effects GoTime Http Platform Accounts.

Local Open Scope Z_scope.

(** ** Data *)

Record Customer := mkCustomer {
  Customer_ID : uuid; Customer_TenantID : uuid; Customer_Name : string; Customer_Email : string;
  Customer_Phone : string; Customer_Status : string; Customer_MustChange : bool;
  Customer_Delivery : string; Customer_ChangedAt : option time
}.

Record customer_row := mkCustomerRow {
  cu_id : uuid; cu_tenant : uuid; cu_name : string; cu_phone : option string; cu_email : option string;
  cu_hash : string; cu_status : string; cu_changed : option time; cu_must : bool; cu_delivery : delivery;
  cu_updated : time
}.
Record session_row := mkSessionRow {
  cs_tenant : uuid; cs_customer : uuid; cs_hash : string; cs_expires : time; cs_revoked : option time
}.
Record custdb := mkCustdb { customers : list customer_row; csessions : list session_row }.
Definition set_customers l d := mkCustdb l (csessions d).
Definition set_csessions l d := mkCustdb (customers d) l.

(** ** [domain.NormalizePhone] *)

Definition phone_noise (c : ascii) : bool :=
  (c ==? " "%char) || (c ==? "-"%char) || (c ==? "("%char) || (c ==? ")"%char).

Definition NormalizePhone (v : string) : option string :=
  let l := List.filter (λ c, negb (phone_noise c)) (list_ascii_of_string (TrimSpace v)) in
  match l with
  | "+"%char :: digits =>
      if (length l <? 9)%nat || (16 <? length l)%nat then None
      else if forallb (λ c, match digit c with Some _ => true | None => false end) digits
      then Some (string_of_list_ascii l) else None
  | _ => None
  end.

(** ** Statements *)

Inductive cust_error := CuNotFound | CuPg (e : pg_error).
#[export] Instance cust_error_eq_dec : EqDecision cust_error.
Proof. solve_decision. Defined.
#[export] Instance cust_from_pg : FromPg cust_error := CuPg.
Abbreviation CuM := (IO custdb cust_error).

Section Tables.
Context `{GoLib, AccountLib}.

Definition customer_check (r : customer_row) : bool :=
  (btrim (cu_name r) !=? EmptyString)
  && ((cu_status r ==? "active"%string) || (cu_status r ==? "inactive"%string))
  && match cu_email r with None => true | Some e => e ==? pg_lower (btrim e) end
  && delivery_check (cu_delivery r) && claim_check (cu_delivery r).

Definition same_email (r x : customer_row) : bool :=
  (cu_tenant x ==? cu_tenant r) && same_text (cu_email x) (cu_email r).
Definition same_phone (r x : customer_row) : bool :=
  (cu_tenant x ==? cu_tenant r) && same_text (cu_phone x) (cu_phone r).

(** INSERT, returning the row; [upsert] is ON CONFLICT (tenant_id,
    normalized_phone) DO UPDATE SET name=public.customers.name. *)
Definition insert_customer (tx : uuid) (upsert : bool) (r : customer_row) (d : custdb)
  : res pg_error (customer_row * custdb) :=
  if negb (text_ok (cu_name r) && opt_text (cu_email r) && opt_text (cu_phone r) && text_ok (cu_hash r))
  then Err BadEncoding
  else if cu_tenant r !=? tx then Err RlsViolation
  else if negb (customer_check r) then Err CheckViolation
  else
    match (if upsert then head (sel (same_phone r) (customers d)) else None) with
    | Some x => Ok (x, d)
    | None =>
        if existsb (λ x, cu_id x ==? cu_id r) (customers d) then Err UniqueViolation
        else if existsb (same_email r) (customers d) then Err UniqueViolation
        else if existsb (same_phone r) (customers d) then Err UniqueViolation
        else Ok (r, set_customers (customers d ++ [r]) d)
    end.

Definition customer_of (tx t id : uuid) (q : customer_row -> bool) : customer_row -> bool :=
  rls cu_tenant tx (λ r, (cu_tenant r ==? t) && (cu_id r ==? id) && q r).

(** UPDATE public.customers SET ... WHERE tenant_id=$1 AND id=$2 AND q with the
    texts [args]; no statement changes a unique column. *)
Definition update_customers (tx t id : uuid) (args : list string) (q : customer_row -> bool)
    (f : customer_row -> customer_row) (d : custdb) : res pg_error (Z * custdb) :=
  let p := customer_of tx t id q in
  if negb (forallb text_ok args) then Err BadEncoding
  else if existsb (λ r, p r && negb (customer_check (f r))) (customers d) then Err CheckViolation
  else Ok (Z.of_nat (length (sel p (customers d))), set_customers (upd p f (customers d)) d).

Definition with_delivery (x : delivery) (r : customer_row) : customer_row :=
  mkCustomerRow (cu_id r) (cu_tenant r) (cu_name r) (cu_phone r) (cu_email r) (cu_hash r) (cu_status r)
    (cu_changed r) (cu_must r) x (cu_updated r).
Definition touched (now : time) (r : customer_row) : customer_row :=
  mkCustomerRow (cu_id r) (cu_tenant r) (cu_name r) (cu_phone r) (cu_email r) (cu_hash r) (cu_status r)
    (cu_changed r) (cu_must r) (cu_delivery r) now.
Definition with_name (name : string) (r : customer_row) : customer_row :=
  mkCustomerRow (cu_id r) (cu_tenant r) name (cu_phone r) (cu_email r) (cu_hash r) (cu_status r)
    (cu_changed r) (cu_must r) (cu_delivery r) (cu_updated r).
Definition with_password (hash : string) (changed : option time) (must : bool) (r : customer_row) : customer_row :=
  mkCustomerRow (cu_id r) (cu_tenant r) (cu_name r) (cu_phone r) (cu_email r) hash (cu_status r)
    changed must (cu_delivery r) (cu_updated r).

Definition insert_csession (tx : uuid) (s : session_row) (d : custdb) : res pg_error (unit * custdb) :=
  if cs_tenant s !=? tx then Err RlsViolation
  else if existsb (λ x, (cs_tenant x ==? cs_tenant s) && (cs_hash x ==? cs_hash s)) (csessions d)
  then Err UniqueViolation
  else if negb (existsb (λ r, (cu_tenant r ==? cs_tenant s) && (cu_id r ==? cs_customer s)) (customers d))
  then Err ForeignKeyViolation
  else Ok (tt, set_csessions (csessions d ++ [s]) d).

(** UPDATE public.customer_sessions SET revoked_at=now() WHERE ... *)
Definition revoke (now : time) (s : session_row) : session_row :=
  mkSessionRow (cs_tenant s) (cs_customer s) (cs_hash s) (cs_expires s) (Some now).
Definition revoke_sessions (tx t : uuid) (now : time) (q : session_row -> bool) (d : custdb)
  : res pg_error (unit * custdb) :=
  Ok (tt, set_csessions (upd (rls cs_tenant tx (λ s, (cs_tenant s ==? t) && q s)) (revoke now) (csessions d)) d).

Definition not_revoked (s : session_row) : bool := match cs_revoked s with None => true | Some _ => false end.

(** ** Repository *)

Definition hashToken (v : string) : string := sha256_hex v.

Definition new_customer (newID t : uuid) (now : time) (name email phone hash : string) : customer_row :=
  mkCustomerRow newID t name (NULLIF_empty phone) (Some email) hash "active" (Some now) true
    (mkDelivery "pending" 0 None None None (Some now)) now.
Definition new_guest (newID t : uuid) (now : time) (name phone : string) : customer_row :=
  mkCustomerRow newID t name (Some phone) None "!guest-no-password!" "active" None false
    (mkDelivery "sent" 0 None None None None) now.

(** The columns a statement returns, as the value the repository builds. *)
Definition full_customer (t : uuid) (r : customer_row) : Customer :=
  mkCustomer (cu_id r) t (cu_name r) (or_empty (cu_email r)) (or_empty (cu_phone r)) (cu_status r) (cu_must r)
    (dl_status (cu_delivery r)) (cu_changed r).
Definition plain_customer (t : uuid) (r : customer_row) : Customer :=
  mkCustomer (cu_id r) t (cu_name r) (or_empty (cu_email r)) (or_empty (cu_phone r)) (cu_status r) (cu_must r)
    EmptyString (cu_changed r).
Definition guest_customer (t : uuid) (r : customer_row) : Customer :=
  mkCustomer (cu_id r) t (cu_name r) EmptyString (or_empty (cu_phone r)) (cu_status r) false EmptyString
    (cu_changed r).

Definition CuRepository_Create (newID : uuid) (now : time) (t : uuid) (name email phone passwordHash : string)
  : CuM Customer :=
  r ← WithTenantTx t (λ tx, stmt (insert_customer tx false (new_customer newID t now name email phone passwordHash)));
  mret (full_customer t r).

Definition CuRepository_EnsureGuest (newID : uuid) (now : time) (t : uuid) (name phone : string) : CuM Customer :=
  r ← WithTenantTx t (λ tx, stmt (insert_customer tx true (new_guest newID t now name phone)));
  mret (guest_customer t r).

(** A SELECT of one row; no row is [ErrNotFound]. *)
Definition cu_one {A} (f : custdb -> res pg_error A) : CuM A :=
  r ← attempt (stmt (λ d, match f d with Ok v => Ok (v, d) | Err e => Err e end));
  match r with
  | Ok v => mret v
  | Err (CuPg NoRows) => io_fail CuNotFound
  | Err e => io_fail e
  end.

Definition CuRepository_Find (t : uuid) (phone : string) : CuM (Customer * string) :=
  WithTenantTx t (λ tx, cu_one (λ d,
    if negb (text_ok phone) then Err BadEncoding
    else or_no_rows ((λ r, (guest_customer t r, cu_hash r)) <$>
      head (sel (rls cu_tenant tx (λ r, (cu_tenant r ==? t) && (cu_phone r ==? Some phone))) (customers d))))).

Definition CuRepository_FindByEmail (t : uuid) (email : string) : CuM (Customer * string) :=
  WithTenantTx t (λ tx, cu_one (λ d,
    if negb (text_ok email) then Err BadEncoding
    else or_no_rows ((λ r, (full_customer t r, cu_hash r)) <$>
      head (sel (rls cu_tenant tx (λ r, (cu_tenant r ==? t) && (cu_email r ==? Some email))) (customers d))))).

Definition CuRepository_ClaimInitialDelivery (token : uuid) (now : time) (t id : uuid) : CuM (uuid * bool) :=
  n ← WithTenantTx t (λ tx, stmt (update_customers tx t id [] (λ r, claimable now (cu_delivery r))
        (λ r, with_delivery (claimed now token (cu_delivery r)) r)));
  mret (token, n =? 1).

Definition claimed_by (claim : uuid) (r : customer_row) : bool := dl_token (cu_delivery r) ==? Some claim.

Definition CuRepository_MarkInitialDelivery (now : time) (t id claim : uuid) (status problem : string) : CuM unit :=
  WithTenantTx t (λ tx,
    n ← stmt (update_customers tx t id [status; problem] (claimed_by claim)
          (λ r, touched now (with_delivery (marked now status problem (cu_delivery r)) r)));
    if n =? 0 then io_fail CuNotFound else mret tt).

Definition CuRepository_ActivateRetriedCredential (now : time) (t id claim : uuid) (hash : string) : CuM unit :=
  WithTenantTx t (λ tx,
    n ← stmt (update_customers tx t id [hash]
          (λ r, claimed_by claim r && (dl_status (cu_delivery r) ==? "sending"%string))
          (λ r, touched now (with_password hash (cu_changed r) true
                  (with_delivery (marked now "sent" EmptyString (cu_delivery r)) r))));
    if n =? 0 then io_fail CuNotFound else mret tt).

Definition CuRepository_ByID (t id : uuid) : CuM Customer :=
  WithTenantTx t (λ tx, cu_one (λ d,
    or_no_rows (plain_customer t <$> head (sel (customer_of tx t id (λ _, true)) (customers d))))).

Definition CuRepository_UpdateName (now : time) (t id : uuid) (name : string) : CuM unit :=
  WithTenantTx t (λ tx,
    stmt (update_customers tx t id [name] (λ _, true) (λ r, touched now (with_name name r))) ;; mret tt).

Definition CuRepository_UpdatePassword (now : time) (t id : uuid) (hash : string) : CuM unit :=
  WithTenantTx t (λ tx,
    stmt (update_customers tx t id [hash] (λ _, true) (λ r, touched now (with_password hash (Some now) false r))) ;;
    mret tt).

Definition CuRepository_ResetPassword (now : time) (t id : uuid) (hash : string) : CuM unit :=
  WithTenantTx t (λ tx,
    stmt (update_customers tx t id [hash] (λ _, true) (λ r, touched now (with_password hash (Some now) true r))) ;;
    mret tt).

Definition CuRepository_CreateSession (t cid : uuid) (token : string) (expires : time) : CuM unit :=
  WithTenantTx t (λ tx, stmt (insert_csession tx (mkSessionRow t cid (hashToken token) (pg_ts expires) None))).

Definition live_session (now : time) (hash : string) (s : session_row) : bool :=
  (cs_hash s ==? hash) && not_revoked s && (now <? cs_expires s).

Definition CuRepository_Session (now : time) (t : uuid) (token : string) : CuM Customer :=
  id ← WithTenantTx t (λ tx, cu_one (λ d,
         or_no_rows (cs_customer <$> head (sel (rls cs_tenant tx (λ s,
           (cs_tenant s ==? t) && live_session now (hashToken token) s)) (csessions d)))));
  CuRepository_ByID t id.

Definition CuRepository_Revoke (now : time) (t : uuid) (token : string) : CuM unit :=
  WithTenantTx t (λ tx, stmt (revoke_sessions tx t now (λ s, cs_hash s ==? hashToken token))).

Definition CuRepository_RevokeOthers (now : time) (t cid : uuid) (token : string) : CuM unit :=
  WithTenantTx t (λ tx, stmt (revoke_sessions tx t now
    (λ s, (cs_customer s ==? cid) && (cs_hash s !=? hashToken token) && not_revoked s))).

Definition CuRepository_RevokeAll (now : time) (t cid : uuid) : CuM unit :=
  WithTenantTx t (λ tx, stmt (revoke_sessions tx t now (λ s, (cs_customer s ==? cid) && not_revoked s))).
End Tables.

(** ** Application *)

Inductive cuapp_error :=
  CuErrInvalid | CuErrUnauthorized | CuErrForbidden | CuErrNotFound | CuErrConflict | CuErrUnavailable
| CuErrOther.
#[export] Instance cuapp_error_eq_dec : EqDecision cuapp_error.
Proof. solve_decision. Defined.
Abbreviation CuApp := (IO (world custdb) cuapp_error).

Definition cu_mapRepo (e : cust_error) : cuapp_error :=
  match e with CuNotFound => CuErrNotFound | CuPg _ => CuErrOther end.
(** Every other error is passed on and answered with 500. *)
Definition passed (e : cust_error) : cuapp_error := CuErrOther.

Record CRegistration := mkCRegistration { Reg_Name : string; Reg_Email : string; Reg_Phone : string }.
Record CRegistrationResult := mkCRegistrationResult { RegR_Customer : Customer; RegR_Retried : bool }.
Record LoginResult := mkLoginResult { LoginR_Customer : Customer; LoginR_Token : string; LoginR_Expires : time }.

Section CustomerApplication.
Context `{GoLib, AccountLib}.

Definition normalizeEmail (value : string) : option string :=
  let value := ToLower (TrimSpace value) in
  match ParseAddress value with
  | None => None
  | Some address => if (address !=? value) || (320 <? Z.of_nat (String.length value)) then None else Some value
  end.

Definition initialEmail (to password : string) (id : uuid) : Message :=
  mkMessage to "Your initial password"
    ("Your initial password is: " +:+ password +:+ newline +:+ "You must change it after signing in.")
    "user_initial_password" (uuid_String id).
Definition resetEmail (to password key : string) : Message :=
  mkMessage to "Password reset"
    ("Your temporary password is: " +:+ password +:+ newline +:+ "You must change it after signing in.")
    "user_password_reset" key.

Definition name_ok (name : string) : bool :=
  (name !=? EmptyString) && (Z.of_nat (String.length name) <=? 200).

(** The customer a registration is for: a new one, or the one an earlier
    attempt left behind. *)
Definition register_customer (x : draw) (tenant : uuid) (name email phone hash : string) : CuApp (Customer * bool) :=
  created ← try_repo (CuRepository_Create (dr_id x) (time1 x) tenant name email phone hash);
  match created with
  | Ok customer => mret (customer, false)
  | Err _ =>
      found ← try_repo (CuRepository_FindByEmail tenant email);
      match found with
      | Err _ => io_fail CuErrConflict
      | Ok (customer, _) =>
          if Customer_Delivery customer ==? "sent"%string then io_fail CuErrConflict else mret (customer, true)
      end
  end.

Definition Cust_Register (x : draw) (tenant : uuid) (input : CRegistration) : CuApp CRegistrationResult :=
  let name := TrimSpace (Reg_Name input) in
  match normalizeEmail (Reg_Email input) with
  | None => io_fail CuErrInvalid
  | Some email =>
      if negb (name_ok name) then io_fail CuErrInvalid
      else
        match dr_random x with
        | None => io_fail CuErrOther
        | Some password =>
            match bcrypt_Generate (dr_salt x) password with
            | None => io_fail CuErrOther
            | Some hash =>
                cr ← register_customer x tenant name email (Reg_Phone input) hash;
                let '(customer, retried) := cr in
                cl ← repo passed (CuRepository_ClaimInitialDelivery (dr_claim x) (time2 x) tenant (Customer_ID customer));
                let '(claim, claimed) := cl in
                if negb (claimed : bool) then io_fail CuErrConflict
                else
                  sent ← deliver (dr_mail x) (initialEmail email password (Customer_ID customer));
                  if negb (sent : bool) then
                    try_repo (CuRepository_MarkInitialDelivery (time3 x) tenant (Customer_ID customer) claim
                                "failed" "email provider unavailable") ;;
                    io_fail CuErrUnavailable
                  else
                    (if retried : bool
                     then repo passed (CuRepository_ActivateRetriedCredential (time3 x) tenant (Customer_ID customer)
                                         claim hash)
                     else repo passed (CuRepository_MarkInitialDelivery (time3 x) tenant (Customer_ID customer) claim
                                         "sent" EmptyString)) ;;
                    mret (mkCRegistrationResult customer retried)
            end
        end
  end.

Definition session_lifetime : duration := 30 * 24 * Hour.

Definition Cust_Login (x : draw) (tenant : uuid) (email password : string) : CuApp LoginResult :=
  match normalizeEmail email with
  | None => io_fail CuErrUnauthorized
  | Some email =>
      found ← try_repo (CuRepository_FindByEmail tenant email);
      match found with
      | Err _ => io_fail CuErrUnauthorized
      | Ok (customer, hash) =>
          if (Customer_Status customer !=? "active"%string) || negb (bcrypt_Compare hash password)
          then io_fail CuErrUnauthorized
          else
            match dr_random x with
            | None => io_fail CuErrOther
            | Some token =>
                let expires := Add (dr_clock x) session_lifetime in
                repo passed (CuRepository_CreateSession tenant (Customer_ID customer) token expires) ;;
                mret (mkLoginResult customer token expires)
            end
      end
  end.

Definition Cust_Current (now : time) (tenant : uuid) (token : string) : CuApp Customer :=
  if token ==? EmptyString then io_fail CuErrUnauthorized
  else repo (λ _, CuErrUnauthorized) (CuRepository_Session now tenant token).

Definition Cust_Logout (now : time) (tenant : uuid) (token : string) : CuApp unit :=
  try_repo (CuRepository_Revoke now tenant token) ;; mret tt.

Definition Cust_Profile (now : time) (tenant : uuid) (token : string) : CuApp Customer :=
  c ← Cust_Current now tenant token;
  if Customer_MustChange c then io_fail CuErrForbidden else mret c.

Definition rename (name : string) (c : Customer) : Customer :=
  mkCustomer (Customer_ID c) (Customer_TenantID c) name (Customer_Email c) (Customer_Phone c) (Customer_Status c)
    (Customer_MustChange c) (Customer_Delivery c) (Customer_ChangedAt c).

Definition Cust_UpdateProfile (now : time) (tenant : uuid) (token name : string) : CuApp Customer :=
  c ← Cust_Profile now tenant token;
  let name := TrimSpace name in
  if negb (name_ok name) then io_fail CuErrInvalid
  else
    repo passed (CuRepository_UpdateName now tenant (Customer_ID c) name) ;;
    mret (rename name c).

Definition Cust_ChangePassword (x : draw) (tenant : uuid) (token current next : string) : CuApp unit :=
  c ← Cust_Current (time1 x) tenant token;
  if Z.of_nat (String.length next) <? 10 then io_fail CuErrInvalid
  else
    found ← try_repo (CuRepository_FindByEmail tenant (Customer_Email c));
    match found with
    | Err _ => io_fail CuErrUnauthorized
    | Ok (_, hash) =>
        if negb (bcrypt_Compare hash current) then io_fail CuErrUnauthorized
        else
          match bcrypt_Generate (dr_salt x) next with
          | None => io_fail CuErrOther
          | Some nextHash =>
              repo passed (CuRepository_UpdatePassword (time2 x) tenant (Customer_ID c) nextHash) ;;
              try_repo (CuRepository_RevokeOthers (time3 x) tenant (Customer_ID c) token) ;;
              mret tt
          end
    end.

Definition Cust_ForgotPassword (x : draw) (tenant : uuid) (value : string) : CuApp unit :=
  match normalizeEmail value with
  | None => mret tt
  | Some email =>
      found ← try_repo (CuRepository_FindByEmail tenant email);
      match found with
      | Err _ => mret tt
      | Ok (c, _) =>
          match dr_random x with
          | None => mret tt
          | Some password =>
              match bcrypt_Generate (dr_salt x) password with
              | None => mret tt
              | Some hash =>
                  sent ← deliver (dr_mail x) (resetEmail email password (dr_key x));
                  if negb (sent : bool) then io_fail CuErrUnavailable
                  else
                    repo (λ _, CuErrUnavailable) (CuRepository_ResetPassword (time2 x) tenant (Customer_ID c) hash) ;;
                    try_repo (CuRepository_RevokeAll (time3 x) tenant (Customer_ID c)) ;;
                    mret tt
              end
          end
      end
  end.

Definition Cust_ResolveGuest (newID : uuid) (now : time) (tenant : uuid) (name phone : string) : CuApp Customer :=
  let name := TrimSpace name in
  match NormalizePhone phone with
  | None => io_fail CuErrInvalid
  | Some normalized =>
      if negb (name_ok name) then io_fail CuErrInvalid
      else repo passed (CuRepository_EnsureGuest newID now tenant name normalized)
  end.

Definition Cust_ByID (tenant id : uuid) : CuApp Customer := repo cu_mapRepo (CuRepository_ByID tenant id).

Definition Cust_InternalSession (now : time) (tenant : uuid) (token : string) : CuApp Customer :=
  c ← Cust_Current now tenant token;
  if Customer_MustChange c then io_fail CuErrForbidden else mret c.

(** *** [client.Appointments] *)

Record ForwardRequest := mkForwardRequest {
  fr_method : string; fr_target : string; fr_token : string; fr_tenant : string; fr_app : string;
  fr_request_id : string; fr_customer : string
}.
Record ForwardResult := mkForwardResult { FR_Status : Z; FR_Body : string }.

(** [baseURL] has no trailing slash; [send] ends in [BuildFailed] when the
    request cannot be built. *)
Definition Forward (baseURL token : string) (send : ForwardRequest -> exchange string) (t : TenantContext)
    (customer : uuid) (method path rawQuery : string) : option ForwardResult :=
  if (rawQuery !=? EmptyString) && negb (ParseQuery_ok rawQuery) then None
  else
    let target := baseURL +:+ "/internal/v1/customer/appointments" +:+ path
                  +:+ (if rawQuery ==? EmptyString then EmptyString else "?" +:+ rawQuery) in
    match send (mkForwardRequest method target token (uuid_String (TenantID t)) "booking" (RequestID_ t)
                  (uuid_String customer)) with
    | Replied status (Some body) => Some (mkForwardResult status body)
    | _ => None
    end.

Definition Cust_Appointments (baseURL itoken : string) (send : ForwardRequest -> exchange string) (now : time)
    (t : TenantContext) (token method path rawQuery : string) : CuApp ForwardResult :=
  c ← Cust_Profile now (TenantID t) token;
  match Forward baseURL itoken send t (Customer_ID c) method path rawQuery with
  | None => io_fail CuErrUnavailable
  | Some result => mret result
  end.
End CustomerApplication.

(** ** Handlers *)

Definition cu_appError {A} (e : cuapp_error) : Response A :=
  match e with
  | CuErrInvalid => SendStatus 400
  | CuErrUnauthorized => SendStatus 401
  | CuErrForbidden => SendStatus 403
  | CuErrNotFound => SendStatus 404
  | CuErrConflict => SendStatus 409
  | CuErrUnavailable => SendStatus 503
  | CuErrOther => SendStatus 500
  end.

Record CustomerHandler := mkCustomerHandler {
  cuh_verify : MultiTokenVerifier; cuh_token : string; cuh_limiter : bool; cuh_development : bool;
  cuh_url : string; cuh_send : ForwardRequest -> exchange string
}.

Definition sessionCookieName (h : CustomerHandler) : string :=
  if cuh_development h then "barber_customer_session" else "__Host-barber_customer_session".

Section CustomerHandlers.
Context `{GoLib, AccountLib} (h : CustomerHandler).

Definition cu_tenant_of {B} (r : Request B) : option TenantContext :=
  match adminauth_Context r (cuh_verify h) with
  | Some t => if AppType t !=? "booking"%string then None else Some t
  | None => None
  end.

Definition cu_session {B} (r : Request B) : string :=
  cookie_value (Header r "Cookie"%string) (sessionCookieName h).

Definition cu_limited (now : time) (t : TenantContext) (operation : string) : CuApp (option bool) :=
  limited (cuh_limiter h) now ("customer-rate:" +:+ uuid_String (TenantID t) +:+ ":" +:+ operation).

(** The reply for the outcome of a use case. *)
Definition cu_reply {A R} (m : CuApp A) (ok : A -> Response R) : CuApp (Response R) :=
  r ← attempt m; mret (match r with Ok a => ok a | Err e => cu_appError e end).

(** The rate limit in front of a handler. *)
Definition cu_limit {R} (now : time) (t : TenantContext) (operation : string) (m : CuApp (Response R))
  : CuApp (Response R) :=
  allowed ← cu_limited now t operation;
  match allowed with
  | None => mret (SendStatus 503)
  | Some false => mret (SendStatus 429)
  | Some true => m
  end.

Definition cu_register (x : draw) (r : Request CRegistration) : CuApp (Response string) :=
  match cu_tenant_of r with
  | None => mret (SendStatus 403)
  | Some t =>
      cu_limit (dr_clock x) t "register"
        match Body r with
        | None => mret (SendStatus 400)
        | Some input =>
            cu_reply (Cust_Register x (TenantID t) input)
              (λ result, SendJSON (if RegR_Retried result then 200 else 201) "created"%string)
        end
  end.

Definition cu_login (x : draw) (r : Request (string * string)) : CuApp (Response (SetCookie * Customer)) :=
  match cu_tenant_of r with
  | None => mret (SendStatus 403)
  | Some t =>
      cu_limit (dr_clock x) t "login"
        match Body r with
        | None => mret (SendStatus 400)
        | Some (email, password) =>
            cu_reply (Cust_Login x (TenantID t) email password)
              (λ result, SendJSON 200
                 (mkSetCookie (sessionCookieName h) (LoginR_Token result) (negb (cuh_development h))
                    (Z.quot (LoginR_Expires result - dr_clock x) Second), LoginR_Customer result))
        end
  end.

Definition cu_logout {B} (now : time) (r : Request B) : CuApp (Response unit) :=
  match cu_tenant_of r with
  | None => mret (SendStatus 401)
  | Some t => Cust_Logout now (TenantID t) (cu_session r) ;; mret (SendStatus 204)
  end.

Definition cu_current {B} (r : Request B) : option (TenantContext * string) :=
  match cu_tenant_of r with
  | None => None
  | Some t => if cu_session r ==? EmptyString then None else Some (t, cu_session r)
  end.

Definition cu_me {B} (now : time) (r : Request B) : CuApp (Response Customer) :=
  match cu_current r with
  | None => mret (SendStatus 401)
  | Some (t, token) =>
      x ← attempt (Cust_Current now (TenantID t) token);
      mret (match x with Ok c => SendJSON 200 c | Err _ => SendStatus 401 end)
  end.

Definition cu_profile {B} (now : time) (r : Request B) : CuApp (Response Customer) :=
  match cu_current r with
  | None => mret (SendStatus 401)
  | Some (t, token) => cu_reply (Cust_Profile now (TenantID t) token) (SendJSON 200)
  end.

Definition cu_profilePatch (now : time) (r : Request string) : CuApp (Response Customer) :=
  match cu_current r with
  | None => mret (SendStatus 401)
  | Some (t, token) =>
      match Body r with
      | None => mret (SendStatus 400)
      | Some name => cu_reply (Cust_UpdateProfile now (TenantID t) token name) (SendJSON 200)
      end
  end.

Definition cu_changePassword (x : draw) (r : Request (string * string)) : CuApp (Response unit) :=
  match cu_current r with
  | None => mret (SendStatus 401)
  | Some (t, token) =>
      match Body r with
      | None => mret (SendStatus 400)
      | Some (current, next) =>
          cu_reply (Cust_ChangePassword x (TenantID t) token current next) (λ _, SendStatus 204)
      end
  end.

Definition cu_forgot (x : draw) (r : Request string) : CuApp (Response unit) :=
  match cu_tenant_of r with
  | None => mret (SendStatus 403)
  | Some t =>
      cu_limit (dr_clock x) t "forgot-password"
        match Body r with
        | None => mret (SendStatus 204)
        | Some email => cu_reply (Cust_ForgotPassword x (TenantID t) email) (λ _, SendStatus 204)
        end
  end.

Definition cu_internalSession {B} (now : time) (r : Request B) : CuApp (Response Customer) :=
  match cu_tenant_of r with
  | None => mret (SendStatus 401)
  | Some t =>
      cu_reply (Cust_InternalSession now (TenantID t) (Header r "X-Customer-Session"%string)) (SendJSON 200)
  end.

(** [strings.TrimPrefix] *)
Definition TrimPrefix (s p : string) : string :=
  if String.prefix p s then String.substring (String.length p) (String.length s - String.length p) s else s.

Definition cu_appointments {B} (now : time) (path rawQuery : string) (r : Request B) : CuApp (Response string) :=
  match cu_current r with
  | None => mret (SendStatus 401)
  | Some (t, token) =>
      let path := TrimPrefix path "/internal/v1/public/customer/appointments" in
      cu_reply (Cust_Appointments (cuh_url h) (cuh_token h) (cuh_send h) now t token (Method r) path rawQuery)
        (λ result, SendJSON (FR_Status result) (FR_Body result))
  end.

Definition cu_resolveGuest (newID : uuid) (now : time) (r : Request (string * string))
  : CuApp (Response Customer) :=
  if Header r InternalTokenHeader !=? cuh_token h then mret (SendStatus 401)
  else
    match adminauth_Context r (cuh_verify h) with
    | None => mret (SendStatus 401)
    | Some t =>
        match Body r with
        | None => mret (SendStatus 400)
        | Some (name, phone) => cu_reply (Cust_ResolveGuest newID now (TenantID t) name phone) (SendJSON 200)
        end
    end.

Definition cu_internalCustomer {B} (r : Request B) : CuApp (Response Customer) :=
  if Header r InternalTokenHeader !=? cuh_token h then mret (SendStatus 401)
  else
    match adminauth_Context r (cuh_verify h) with
    | None => mret (SendStatus 401)
    | Some t =>
        match uuid_Parse (Params r "id"%string) with
        | None => mret (SendStatus 400)
        | Some id => cu_reply (Cust_ByID (TenantID t) id) (SendJSON 200)
        end
    end.
End CustomerHandlers.
