(* ===== verification/CustomerAccounts.v ===== *)
(** * CustomerAccounts: what the customer service guarantees

    The invariant of its tables under every fault, the isolation of tenants,
    who can obtain a session, how sessions end, and that an initial password
    that was mailed opens the account. *)
From S2P Require Import Prelude Effects GoTime Http Platform Accounts Customer.

Local Open Scope Z_scope.

(** [new]: the sessions a call may create. *)
Section Accounts.
Context `{GoLib, AccountLib} (new : session_row -> Prop).

(** ** The invariant *)

Definition skey (s : session_row) : uuid * string := (cs_tenant s, cs_hash s).

Record cust_ok (d : custdb) : Prop := mkCustOk {
  cu_ids : NoDup (map cu_id (customers d));
  cu_emails : ∀ x y, x ∈ customers d → y ∈ customers d → same_email x y = true → x = y;
  cu_phones : ∀ x y, x ∈ customers d → y ∈ customers d → same_phone x y = true → x = y;
  cu_checks : ∀ x, x ∈ customers d → customer_check x = true;
  cu_skeys : NoDup (map skey (csessions d));
  cu_sessions : ∀ s, s ∈ csessions d → ∃ x, x ∈ customers d ∧ cu_id x = cs_customer s ∧ cu_tenant x = cs_tenant s
}.

(** The rows of the other tenants. *)
Definition cothers (t : uuid) (d : custdb) : list customer_row * list session_row :=
  (sel (λ r, cu_tenant r !=? t) (customers d), sel (λ s, cs_tenant s !=? t) (csessions d)).

(** Customers keep their identity, and a delivered initial password stays
    delivered. *)
Definition ident (r : customer_row) : uuid * uuid * option string * option string :=
  (cu_id r, cu_tenant r, cu_email r, cu_phone r).
Definition was_sent (r : customer_row) : Prop := dl_status (cu_delivery r) = "sent"%string.
Definition keeps (d d' : custdb) : Prop :=
  ∀ r, r ∈ customers d → ∃ r', r' ∈ customers d' ∧ ident r' = ident r ∧ (was_sent r → was_sent r').

(** A session that is open now was open before, or is one of the new ones. *)
Definition no_new (d d' : custdb) : Prop :=
  ∀ s, s ∈ csessions d' → not_revoked s = true → s ∈ csessions d ∨ new s.

(** A change made for tenant [t]. *)
Definition cust_good (t : uuid) (d d' : custdb) : Prop :=
  cust_ok d → cust_ok d' ∧ cothers t d' = cothers t d ∧ keeps d d' ∧ no_new d d'.

#[global] Instance cust_good_preorder t : PreOrder (cust_good t).
Proof.
  split.
  - intros d Hd. split; [done|]. split; [done|]. split; [|by left]. intros r Hr. by exists r.
  - intros a b c H1 H2 Ha. destruct (H1 Ha) as (Hb & E1 & K1 & N1). destruct (H2 Hb) as (Hc & E2 & K2 & N2).
    split; [done|]. split; [congruence|]. split.
    + intros r Hr. destruct (K1 r Hr) as (r1 & Hr1 & I1 & S1).
      destruct (K2 r1 Hr1) as (r2 & Hr2 & I2 & S2). exists r2. split; [done|]. split; [congruence|auto].
    + intros s Hs Hr. destruct (N2 s Hs Hr) as [Hs'|]; [|by right]. by apply N1.
Qed.

Lemma same_email_sym a b : same_email a b = same_email b a.
Proof. unfold same_email. rewrite same_text_sym. f_equal. apply bool_decide_ext. naive_solver. Qed.
Lemma same_phone_sym a b : same_phone a b = same_phone b a.
Proof. unfold same_phone. rewrite same_text_sym. f_equal. apply bool_decide_ext. naive_solver. Qed.

Lemma customer_of_iff t id q r :
  customer_of t t id q r = true ↔ cu_tenant r = t ∧ cu_id r = id ∧ q r = true.
Proof.
  unfold customer_of, rls. split; [intros E; by bsimpl|]. intros (-> & -> & ->). by rewrite !bool_decide_refl.
Qed.

(** ** Statements *)

Lemma insert_customer_good t upsert r d x d' :
  insert_customer t upsert r d = Ok (x, d') → cust_good t d d'.
Proof.
  unfold insert_customer. destruct (negb _); [done|]. destruct (cu_tenant r ==? t) eqn:Et; cbn [negb]; [|done].
  destruct (customer_check r) eqn:Ec; cbn [negb]; [|done]. bsimpl.
  destruct (if upsert then _ else _); [by intros [= <- <-]|].
  destruct (existsb (λ x, cu_id x ==? cu_id r) _) eqn:E1; [done|].
  destruct (existsb (same_email r) _) eqn:E2; [done|].
  destruct (existsb (same_phone r) _) eqn:E3; [done|]. intros [= <- <-] [Hi He Hp Hc Hs Hfk].
  rewrite (existsb_fresh cu_id) in E1. rewrite existsb_none in E2, E3. split; [|split; [|split]].
  - constructor; cbn [customers csessions set_customers]; try done.
    + by apply NoDup_map_snoc.
    + intros x y [Hx|Hx%list_elem_of_singleton]%elem_of_app [Hy|Hy%list_elem_of_singleton]%elem_of_app E; subst;
        [by apply He| |by rewrite E2 in E|done]. by rewrite same_email_sym, E2 in E.
    + intros x y [Hx|Hx%list_elem_of_singleton]%elem_of_app [Hy|Hy%list_elem_of_singleton]%elem_of_app E; subst;
        [by apply Hp| |by rewrite E3 in E|done]. by rewrite same_phone_sym, E3 in E.
    + intros x [Hx|Hx%list_elem_of_singleton]%elem_of_app; [auto|by subst].
    + intros s Hs'. destruct (Hfk s Hs') as (x & Hx & E). exists x. set_solver.
  - unfold cothers. cbn. rewrite sel_snoc_id; [done|]. by rewrite Et, bool_decide_refl.
  - intros x Hx. exists x. cbn. set_solver.
  - by left.
Qed.

Lemma update_customers_good t id args q f d n d' :
  (∀ r, ident (f r) = ident r) →
  (∀ r, q r = true → customer_check r = true → was_sent r → was_sent (f r)) →
  update_customers t t id args q f d = Ok (n, d') → cust_good t d d'.
Proof.
  intros Hf Hsent. unfold update_customers. cbv zeta. destruct (negb _); [done|].
  destruct (existsb _ _) eqn:E; [done|]. intros [= _ <-] [Hi He Hp Hc Hs Hfk]. rewrite existsb_none in E.
  set (p := customer_of t t id q) in *.
  assert (∀ r, ident (if p r then f r else r) = ident r) as Hid by (intros r; by destruct (p r)).
  assert (∀ r, cu_id (f r) = cu_id r ∧ cu_tenant (f r) = cu_tenant r ∧ cu_email (f r) = cu_email r
            ∧ cu_phone (f r) = cu_phone r) as Hfr
    by (intros r; specialize (Hf r); unfold ident in Hf; by injection Hf).
  split; [|split; [|split]].
  - constructor; cbn [customers csessions set_customers]; try done.
    + rewrite map_upd; [done|]. intros x _ _. apply Hfr.
    + intros x' y' (x & Hx & ->)%elem_of_upd (y & Hy & ->)%elem_of_upd Exy.
      assert (same_email x y = true) as Exy'; [|by rewrite (He x y)].
      revert Exy. unfold same_email. destruct (Hfr x) as (_ & Tx & Mx & _), (Hfr y) as (_ & Ty & My & _).
      destruct (p x), (p y); by rewrite ?Tx, ?Mx, ?Ty, ?My.
    + intros x' y' (x & Hx & ->)%elem_of_upd (y & Hy & ->)%elem_of_upd Exy.
      assert (same_phone x y = true) as Exy'; [|by rewrite (Hp x y)].
      revert Exy. unfold same_phone. destruct (Hfr x) as (_ & Tx & _ & Mx), (Hfr y) as (_ & Ty & _ & My).
      destruct (p x), (p y); by rewrite ?Tx, ?Mx, ?Ty, ?My.
    + intros x' (x & Hx & ->)%elem_of_upd. specialize (E x Hx). destruct (p x); [|auto]. cbn [andb] in E. by bsimpl.
    + intros s Hs'. destruct (Hfk s Hs') as (x & Hx & E1 & E2). exists (if p x then f x else x).
      split; [apply elem_of_upd; by exists x|]. destruct (Hfr x) as (I & T & _). destruct (p x); by rewrite ?I, ?T.
  - unfold cothers. cbn. rewrite sel_upd_id; [done| |].
    + intros x _ Hx. destruct (p x) eqn:Ex; [|done]. apply customer_of_iff in Ex as [Ex _].
      by rewrite Ex, bool_decide_refl in Hx.
    + intros x _ [Ex _]%customer_of_iff. destruct (Hfr x) as (_ & -> & _). by rewrite Ex, bool_decide_refl.
  - intros r Hr. exists (if p r then f r else r). split; [apply elem_of_upd; by exists r|]. split; [apply Hid|].
    destruct (p r) eqn:Ep; [|done]. apply customer_of_iff in Ep as (_ & _ & Eq). auto.
  - by left.
Qed.

Lemma insert_csession_good t s d x d' : new s → insert_csession t s d = Ok (x, d') → cust_good t d d'.
Proof.
  intros Hnew. unfold insert_csession. destruct (cs_tenant s ==? t) eqn:Et; cbn [negb]; [|done]. bsimpl.
  destruct (existsb _ (csessions d)) eqn:E1; [done|]. destruct (existsb _ (customers d)) eqn:E2; cbn [negb]; [|done].
  intros [= _ <-] [Hi He Hp Hc Hs Hfk]. rewrite existsb_none in E1. apply existsb_elem in E2 as (r & Hr & E2). bsimpl.
  split; [|split; [|split]].
  - constructor; cbn [customers csessions set_csessions]; try done.
    + apply NoDup_map_snoc; [done|]. intros y Hy Ey. specialize (E1 y Hy). injection Ey as Ea Eb.
      by rewrite Ea, Eb, !bool_decide_refl in E1.
    + intros y [Hy|Hy%list_elem_of_singleton]%elem_of_app; [auto|]. subst y. by exists r.
  - unfold cothers. cbn. rewrite sel_snoc_id; [done|]. by rewrite Et, bool_decide_refl.
  - intros y Hy. by exists y.
  - intros y [Hy|Hy%list_elem_of_singleton]%elem_of_app _; [by left|]. subst y. by right.
Qed.

Lemma revoke_sessions_good t now q d x d' : revoke_sessions t t now q d = Ok (x, d') → cust_good t d d'.
Proof.
  unfold revoke_sessions. intros [= _ <-] [Hi He Hp Hc Hs Hfk]. split; [|split; [|split]].
  - constructor; cbn [customers csessions set_csessions]; try done; [by rewrite map_upd|].
    intros s' (s & Hs' & ->)%elem_of_upd. rewrite (upd_keeps cs_customer), (upd_keeps cs_tenant) by done. auto.
  - unfold cothers. cbn. rewrite sel_upd_id; [done| |]; unfold rls.
    + intros s _ Hx. by destruct (cs_tenant s ==? t).
    + intros s _ [Hx _]%andb_true_iff. bsimpl. exact Hx.
  - intros y Hy. by exists y.
  - intros s' (s & Hs' & ->)%elem_of_upd. by destruct (rls _ _ _ s); [|left].
Qed.

(** ** Repository calls *)

Lemma step_cu_one {A} t (f : custdb -> res pg_error A) : step_in (cust_good t) (cu_one f).
Proof.
  unfold cu_one. apply step_in_bind; [apply _| |intros [|[|[]]]; solve_step].
  apply step_in_attempt, step_in_stmt; [apply _|]. intros d a d'. destruct (f d); [|done]. by intros [= _ <-].
Qed.

Ltac repo_step :=
  match goal with
  | |- step_in _ (stmt (insert_customer _ _ _)) =>
      apply step_in_stmt; [apply _|]; intros ? ? ?; apply insert_customer_good
  | |- step_in _ (stmt (revoke_sessions _ _ _ _)) =>
      apply step_in_stmt; [apply _|]; intros ? ? ?; apply revoke_sessions_good
  | |- step_in _ (stmt (update_customers _ _ _ _ _ _)) =>
      apply step_in_stmt; [apply _|]; intros ? ? ?; apply update_customers_good; [done|]
  | |- step_in _ (cu_one _) => apply step_cu_one
  | _ => step_step
  end.
Ltac solve_repo := repeat (repo_step; cbn beta).

Lemma good_CuCreate newID now t name email phone hash : step_in (cust_good t) (CuRepository_Create newID now t name email phone hash).
Proof. unfold CuRepository_Create. solve_repo. Qed.
Lemma good_EnsureGuest newID now t name phone : step_in (cust_good t) (CuRepository_EnsureGuest newID now t name phone).
Proof. unfold CuRepository_EnsureGuest. solve_repo. Qed.
Lemma good_FindByEmail t email : step_in (cust_good t) (CuRepository_FindByEmail t email).
Proof. unfold CuRepository_FindByEmail. solve_repo. Qed.
Lemma good_ByID t id : step_in (cust_good t) (CuRepository_ByID t id).
Proof. unfold CuRepository_ByID. solve_repo. Qed.
Lemma good_Session now t token : step_in (cust_good t) (CuRepository_Session now t token).
Proof. unfold CuRepository_Session. solve_repo. apply good_ByID. Qed.
Lemma good_Claim token now t id : step_in (cust_good t) (CuRepository_ClaimInitialDelivery token now t id).
Proof.
  unfold CuRepository_ClaimInitialDelivery. solve_repo.
  match goal with Hc : claimable _ _ = true, Hs : was_sent _ |- _ => by rewrite sent_final in Hc end.
Qed.

Lemma claimed_not_sent claim r : claimed_by claim r = true → customer_check r = true → ¬ was_sent r.
Proof.
  unfold claimed_by, customer_check, claim_check, was_sent. intros Hc Hk Hs. bsimpl. rewrite Hc, Hs in *.
  by destruct (dl_until (cu_delivery r)).
Qed.

Lemma good_Mark now t id claim status problem : step_in (cust_good t) (CuRepository_MarkInitialDelivery now t id claim status problem).
Proof.
  unfold CuRepository_MarkInitialDelivery. solve_repo.
  match goal with Hc : claimed_by _ _ = true |- _ => by destruct (claimed_not_sent _ _ Hc) end.
Qed.
Lemma good_Activate now t id claim hash : step_in (cust_good t) (CuRepository_ActivateRetriedCredential now t id claim hash).
Proof. unfold CuRepository_ActivateRetriedCredential. solve_repo; done. Qed.
Lemma good_UpdateName now t id name : step_in (cust_good t) (CuRepository_UpdateName now t id name).
Proof. unfold CuRepository_UpdateName. solve_repo; done. Qed.
Lemma good_UpdatePassword now t id hash : step_in (cust_good t) (CuRepository_UpdatePassword now t id hash).
Proof. unfold CuRepository_UpdatePassword. solve_repo; done. Qed.
Lemma good_ResetPassword now t id hash : step_in (cust_good t) (CuRepository_ResetPassword now t id hash).
Proof. unfold CuRepository_ResetPassword. solve_repo; done. Qed.
Lemma good_CreateSession t cid token expires :
  new (mkSessionRow t cid (hashToken token) (pg_ts expires) None) →
  step_in (cust_good t) (CuRepository_CreateSession t cid token expires).
Proof.
  intros Hnew. unfold CuRepository_CreateSession. apply step_in_tx; [apply _|]. apply step_in_stmt; [apply _|].
  intros d a d'. by apply insert_csession_good.
Qed.
Lemma good_Revoke now t token : step_in (cust_good t) (CuRepository_Revoke now t token).
Proof. unfold CuRepository_Revoke. solve_repo. Qed.
Lemma good_RevokeOthers now t cid token : step_in (cust_good t) (CuRepository_RevokeOthers now t cid token).
Proof. unfold CuRepository_RevokeOthers. solve_repo. Qed.
Lemma good_RevokeAll now t cid : step_in (cust_good t) (CuRepository_RevokeAll now t cid).
Proof. unfold CuRepository_RevokeAll. solve_repo. Qed.

(** ** Use cases *)

Abbreviation W t := (db_step (cust_good t)).

Ltac app_step :=
  match goal with
  | |- step_in _ (repo _ _) => apply step_repo; [apply _|]
  | |- step_in _ (try_repo _) => apply step_try
  | |- step_in _ (deliver _ _) => apply step_deliver; apply _
  | |- step_in _ (limited _ _ _) => apply step_limited; apply _
  | |- step_in _ (CuRepository_Create _ _ _ _ _ _ _) => apply good_CuCreate
  | |- step_in _ (CuRepository_EnsureGuest _ _ _ _ _) => apply good_EnsureGuest
  | |- step_in _ (CuRepository_FindByEmail _ _) => apply good_FindByEmail
  | |- step_in _ (CuRepository_ByID _ _) => apply good_ByID
  | |- step_in _ (CuRepository_Session _ _ _) => apply good_Session
  | |- step_in _ (CuRepository_ClaimInitialDelivery _ _ _ _) => apply good_Claim
  | |- step_in _ (CuRepository_MarkInitialDelivery _ _ _ _ _ _) => apply good_Mark
  | |- step_in _ (CuRepository_ActivateRetriedCredential _ _ _ _ _) => apply good_Activate
  | |- step_in _ (CuRepository_UpdateName _ _ _ _) => apply good_UpdateName
  | |- step_in _ (CuRepository_UpdatePassword _ _ _ _) => apply good_UpdatePassword
  | |- step_in _ (CuRepository_ResetPassword _ _ _ _) => apply good_ResetPassword
  | |- step_in _ (CuRepository_Revoke _ _ _) => apply good_Revoke
  | |- step_in _ (CuRepository_RevokeOthers _ _ _ _) => apply good_RevokeOthers
  | |- step_in _ (CuRepository_RevokeAll _ _ _) => apply good_RevokeAll
  | _ => step_step
  end.
Ltac solve_app := repeat (app_step; cbn beta).

Lemma app_Register x t input : step_in (W t) (Cust_Register x t input).
Proof. unfold Cust_Register, register_customer. cbv zeta. solve_app. Qed.
Lemma app_Current now t token : step_in (W t) (Cust_Current now t token).
Proof. unfold Cust_Current. solve_app. Qed.
Lemma app_Logout now t token : step_in (W t) (Cust_Logout now t token).
Proof. unfold Cust_Logout. solve_app. Qed.
Lemma app_Profile now t token : step_in (W t) (Cust_Profile now t token).
Proof. unfold Cust_Profile. solve_app. apply app_Current. Qed.
Lemma app_UpdateProfile now t token name : step_in (W t) (Cust_UpdateProfile now t token name).
Proof.
  unfold Cust_UpdateProfile. cbv zeta. apply step_in_bind; [apply _|apply app_Profile|]. intros c. solve_app.
Qed.
Lemma app_ChangePassword x t token current next : step_in (W t) (Cust_ChangePassword x t token current next).
Proof.
  unfold Cust_ChangePassword. apply step_in_bind; [apply _|apply app_Current|]. intros c. solve_app.
Qed.
Lemma app_ForgotPassword x t value : step_in (W t) (Cust_ForgotPassword x t value).
Proof. unfold Cust_ForgotPassword. solve_app. Qed.
Lemma app_ResolveGuest newID now t name phone : step_in (W t) (Cust_ResolveGuest newID now t name phone).
Proof. unfold Cust_ResolveGuest. cbv zeta. solve_app. Qed.
End Accounts.

(** ** Exact results of the repository *)

Section Exact.
Context `{GoLib, AccountLib}.

Lemma det_cu_one {A} (f : custdb -> res pg_error A) : det (cu_one f).
Proof. unfold cu_one. solve_det. Qed.

Lemma run_cu_one {A} (f : custdb -> res pg_error A) d :
  run (cu_one f) d = (match f d with Ok v => Ok v | Err NoRows => Err CuNotFound | Err e => Err (CuPg e) end, d).
Proof.
  unfold cu_one. rewrite run_attempt_bind by apply det_stmt. rewrite run_stmt. destruct (f d) as [|e]; [done|].
  by destruct e.
Qed.

Definition by_email (t : uuid) (email : string) (r : customer_row) : bool :=
  (cu_tenant r ==? t) && (cu_email r ==? Some email).
Definition find_email (t : uuid) (email : string) (d : custdb) : option customer_row :=
  head (sel (by_email t email) (customers d)).

Lemma FindByEmail_run t email d :
  run (CuRepository_FindByEmail t email) d
  = (if text_ok email then match find_email t email d with
                           | Some r => Ok (full_customer t r, cu_hash r)
                           | None => Err CuNotFound
                           end
     else Err (CuPg BadEncoding), d).
Proof.
  unfold CuRepository_FindByEmail. rewrite run_tx by apply det_cu_one. rewrite run_cu_one.
  destruct (text_ok email); [|done]. cbn [negb]. unfold find_email.
  rewrite (proj1 (rls_tenant cu_tenant t (λ r, (cu_tenant r ==? t) && (cu_email r ==? Some email))
    ltac:(intros r Hr; cbn beta in Hr; by bsimpl))). fold (by_email t email).
  by destruct (head _).
Qed.

Lemma det_FindByEmail t email : det (CuRepository_FindByEmail t email).
Proof. unfold CuRepository_FindByEmail. apply det_tx, det_cu_one. Qed.

(** A row that was found is stored, and the search changed nothing. *)
Lemma FindByEmail_ok t email fs d c hash :
  (CuRepository_FindByEmail t email fs d).1 = Ok (c, hash) →
  (CuRepository_FindByEmail t email fs d).2.2 = d ∧
  ∃ r, r ∈ customers d ∧ cu_tenant r = t ∧ cu_email r = Some email ∧ c = full_customer t r ∧ hash = cu_hash r.
Proof.
  intros Hok. assert (atomic (CuRepository_FindByEmail t email)) as Ha by (apply atomic_tx, det_cu_one).
  pose proof (atomic_ok _ fs d _ Ha Hok) as Hrun. rewrite FindByEmail_run in Hrun.
  destruct (text_ok email); [|done]. destruct (find_email t email d) as [r|] eqn:Er; [|done].
  injection Hrun as Ec Eh Ed. split; [done|]. apply head_sel_Some in Er as [Hr Hin]. unfold by_email in Hr. bsimpl.
  by exists r.
Qed.

(** ** Signing in *)

(** The sessions a sign-in may create: for an active customer of the tenant
    whose stored password hash the password matches. *)
Definition credential_session (d : custdb) (t : uuid) (email password : string) (s : session_row) : Prop :=
  ∃ e r, normalizeEmail email = Some e ∧ r ∈ customers d ∧ cu_tenant r = t ∧ cu_email r = Some e ∧
    cu_status r = "active"%string ∧ bcrypt_Compare (cu_hash r) password = true ∧
    cs_tenant s = t ∧ cs_customer s = cu_id r.

Lemma app_Login x t email password fs w :
  db_step (cust_good (credential_session (w_db w) t email password) t) w (Cust_Login x t email password fs w).2.2.
Proof.
  unfold Cust_Login. destruct (normalizeEmail email) as [e|] eqn:Ee; [|unfold db_step; reflexivity].
  unfold try_repo. rewrite attempt_bind. unfold on_db at 1 2 3.
  pose proof (FindByEmail_ok t e fs (w_db w)) as Hf.
  destruct (CuRepository_FindByEmail t e fs (w_db w)) as [[[c hash]|err] [fs1 d1]] eqn:Ef; cbn [fst snd] in *.
  2:{ pose proof (good_FindByEmail (credential_session (w_db w) t email password) t e fs (w_db w)) as Hg.
      rewrite Ef in Hg. apply Hg. }
  destruct (Hf c hash eq_refl) as (-> & r & Hr & Ht & Hem & -> & ->). cbn [Customer_Status full_customer].
  replace (set_db (w_db w) w) with w by (by destruct w).
  destruct (cu_status r ==? "active"%string) eqn:Es; cbn [negb orb]; [|unfold db_step; reflexivity].
  destruct (bcrypt_Compare (cu_hash r) password) eqn:Eb; cbn [negb]; [|unfold db_step; reflexivity]. bsimpl.
  destruct (dr_random x) as [token|]; [|unfold db_step; reflexivity].
  revert fs1 Ef. intros fs1 _.
  assert (step_in (db_step (cust_good (credential_session (w_db w) t email password) t))
    (repo passed (CuRepository_CreateSession t (cu_id r) token (Add (dr_clock x) session_lifetime)) ;;
     mret (mkLoginResult (full_customer t r) token (Add (dr_clock x) session_lifetime)))) as Hs.
  { apply step_in_bind; [apply _| |intros _; apply step_in_ret, _]. apply step_repo; [apply _|]; apply good_CreateSession.
    exists e, r. by repeat split. }
  apply Hs.
Qed.
End Exact.

(** ** Handlers *)

Section CustomerTheorems.
Context `{GoLib, AccountLib}.

(** A handler keeps the accounts consistent, keeps customers and delivered
    passwords, opens only the sessions [new] allows, and changes only rows of
    the tenant the trusted request names. *)
Definition cust_safe (h : CustomerHandler) {B R} (r : Request B) (new : custdb -> session_row -> Prop) (m : CuApp R)
  : Prop :=
  ∀ fs w, cust_ok (w_db w) →
    let d := w_db w in let d' := w_db (m fs w).2.2 in
    cust_ok d' ∧ keeps d d' ∧ no_new (new d) d d' ∧
    (d' = d ∨ ∃ t, adminauth_Context r (cuh_verify h) = Some t ∧ cothers (TenantID t) d' = cothers (TenantID t) d).

Definition no_session (d : custdb) (s : session_row) : Prop := False.

Lemma cust_safe_same h {B R} (r : Request B) new (m : CuApp R) :
  (∀ fs w, w_db (m fs w).2.2 = w_db w) → cust_safe h r new m.
Proof.
  intros Hm fs w Hd. cbv zeta. rewrite Hm. split; [done|]. split; [intros x Hx; by exists x|]. split; [by left|by left].
Qed.

Lemma cust_safe_tenant h {B R} (r : Request B) new t (m : CuApp R) :
  adminauth_Context r (cuh_verify h) = Some t →
  (∀ fs w, db_step (cust_good (new (w_db w)) (TenantID t)) w (m fs w).2.2) → cust_safe h r new m.
Proof.
  intros Ht Hm fs w Hd. destruct (Hm fs w Hd) as (Hok & Ho & Hk & Hn). cbv zeta.
  split; [done|]. split; [done|]. split; [done|]. right. by exists t.
Qed.

Lemma cust_safe_reply h {B A R} (r : Request B) new (m : CuApp A) (ok : A -> Response R) :
  cust_safe h r new m → cust_safe h r new (cu_reply m ok).
Proof. intros Hm fs w Hd. unfold cu_reply. rewrite attempt_bind. by apply Hm. Qed.

(** The rate limiter does not touch the database. *)
Lemma cust_safe_limit h {B R} (r : Request B) new now t op (m : CuApp (Response R)) :
  cust_safe h r new m → cust_safe h r new (cu_limit h now t op m).
Proof.
  intros Hm fs w Hd. unfold cu_limit. rewrite bind_eq. unfold cu_limited, limited, allow.
  destruct (cuh_limiter h); [|by apply (cust_safe_same h r new (mret (SendStatus 429)))].
  destruct (Allow _ _ _ _ _) as [b rd]. destruct (pop fs) as [[] fs'].
  - destruct b; [by apply (Hm fs' (mkWorld (w_db w) (w_mail w) rd))|].
    by apply (cust_safe_same h r new (mret (SendStatus 429)) ltac:(done) fs' (mkWorld (w_db w) (w_mail w) rd)).
  - by apply (cust_safe_same h r new (mret (SendStatus 503)) ltac:(done) fs' w).
  - by apply (cust_safe_same h r new (mret (SendStatus 503)) ltac:(done) fs' (mkWorld (w_db w) (w_mail w) rd)).
Qed.

Lemma cu_tenant_of_Some h {B} (r : Request B) t :
  cu_tenant_of h r = Some t → adminauth_Context r (cuh_verify h) = Some t ∧ AppType t = "booking"%string.
Proof.
  unfold cu_tenant_of. destruct (adminauth_Context r (cuh_verify h)) as [x|]; [|done].
  destruct (AppType x ==? "booking"%string) eqn:E; [|done]. intros [= <-]. by bsimpl.
Qed.

Lemma cu_current_Some h {B} (r : Request B) t token :
  cu_current h r = Some (t, token) → adminauth_Context r (cuh_verify h) = Some t.
Proof.
  unfold cu_current. destruct (cu_tenant_of h r) as [x|] eqn:E; [|done]. apply cu_tenant_of_Some in E as [E _].
  destruct (_ ==? _); [done|]. by intros [= <- _].
Qed.

Lemma cust_safe_ret h {B R} (r : Request B) new (a : R) : cust_safe h r new (mret a).
Proof. by apply cust_safe_same. Qed.

(** The sessions a sign-in request may open. *)
Definition login_session (h : CustomerHandler) (r : Request (string * string)) (d : custdb) (s : session_row) : Prop :=
  ∃ t email password, cu_tenant_of h r = Some t ∧ Body r = Some (email, password) ∧
    credential_session d (TenantID t) email password s.

Lemma safe_register h x r : cust_safe h r no_session (cu_register h x r).
Proof.
  unfold cu_register. destruct (cu_tenant_of h r) as [t|] eqn:Et; [|apply cust_safe_ret].
  apply cust_safe_limit. destruct (Body r); [|apply cust_safe_ret]. apply cust_safe_reply, (cust_safe_tenant h r _ t).
  - by apply cu_tenant_of_Some in Et as [? _].
  - intros fs w. apply app_Register.
Qed.

Lemma safe_login h x r : cust_safe h r (login_session h r) (cu_login h x r).
Proof.
  unfold cu_login. destruct (cu_tenant_of h r) as [t|] eqn:Et; [|apply cust_safe_ret].
  apply cust_safe_limit. destruct (Body r) as [[email password]|] eqn:Eb; [|apply cust_safe_ret].
  apply cust_safe_reply. intros fs w Hd.
  destruct (app_Login x (TenantID t) email password fs w Hd) as (Hok & Ho & Hk & Hn). cbv zeta.
  split; [done|]. split; [done|]. split.
  - intros s Hs Hr. destruct (Hn s Hs Hr) as [|Hc]; [by left|]. right. by exists t, email, password.
  - right. exists t. split; [|done]. by apply cu_tenant_of_Some in Et as [? _].
Qed.

Lemma safe_logout h {B} now (r : Request B) : cust_safe h r no_session (cu_logout h now r).
Proof.
  unfold cu_logout. destruct (cu_tenant_of h r) as [t|] eqn:Et; [|apply cust_safe_ret].
  apply (cust_safe_tenant h r _ t); [by apply cu_tenant_of_Some in Et as [? _]|]. intros fs w.
  apply (step_in_bind _ (Cust_Logout now (TenantID t) (cu_session h r))); [apply app_Logout|].
  intros _. apply step_in_ret, _.
Qed.

Lemma safe_profilePatch h now r : cust_safe h r no_session (cu_profilePatch h now r).
Proof.
  unfold cu_profilePatch. destruct (cu_current h r) as [[t token]|] eqn:Et; [|apply cust_safe_ret].
  destruct (Body r); [|apply cust_safe_ret]. apply cust_safe_reply, (cust_safe_tenant h r _ t).
  - by apply cu_current_Some in Et.
  - intros fs w. apply app_UpdateProfile.
Qed.

Lemma safe_changePassword h x r : cust_safe h r no_session (cu_changePassword h x r).
Proof.
  unfold cu_changePassword. destruct (cu_current h r) as [[t token]|] eqn:Et; [|apply cust_safe_ret].
  destruct (Body r) as [[current next]|]; [|apply cust_safe_ret]. apply cust_safe_reply, (cust_safe_tenant h r _ t).
  - by apply cu_current_Some in Et.
  - intros fs w. apply app_ChangePassword.
Qed.

Lemma safe_forgot h x r : cust_safe h r no_session (cu_forgot h x r).
Proof.
  unfold cu_forgot. destruct (cu_tenant_of h r) as [t|] eqn:Et; [|apply cust_safe_ret].
  apply cust_safe_limit. destruct (Body r); [|apply cust_safe_ret]. apply cust_safe_reply, (cust_safe_tenant h r _ t).
  - by apply cu_tenant_of_Some in Et as [? _].
  - intros fs w. apply app_ForgotPassword.
Qed.

Lemma safe_resolveGuest h newID now r : cust_safe h r no_session (cu_resolveGuest h newID now r).
Proof.
  unfold cu_resolveGuest. destruct (negb _); [apply cust_safe_ret|].
  destruct (adminauth_Context r (cuh_verify h)) as [t|] eqn:Et; [|apply cust_safe_ret].
  destruct (Body r) as [[name phone]|]; [|apply cust_safe_ret].
  apply cust_safe_reply, (cust_safe_tenant h r _ t); [done|]. intros fs w. apply app_ResolveGuest.
Qed.

(** C24: customer accounts are safe.  From the empty tables on, whatever fails:
    ids, e-mail addresses, phone numbers and session digests are unique within
    a tenant, rows satisfy the constraints, sessions belong to customers;
    customers are never removed and a delivered initial password stays
    delivered; every handler changes only rows of the tenant of the trusted
    request; and a session is opened by no other request than a sign-in whose
    password matches the stored hash of an active customer. *)
Theorem customer_accounts_safe h :
  cust_ok (mkCustdb [] []) ∧
  (∀ x r, cust_safe h r no_session (cu_register h x r)) ∧
  (∀ x r, cust_safe h r (login_session h r) (cu_login h x r)) ∧
  (∀ B now (r : Request B), cust_safe h r no_session (cu_logout h now r)) ∧
  (∀ now r, cust_safe h r no_session (cu_profilePatch h now r)) ∧
  (∀ x r, cust_safe h r no_session (cu_changePassword h x r)) ∧
  (∀ x r, cust_safe h r no_session (cu_forgot h x r)) ∧
  (∀ newID now r, cust_safe h r no_session (cu_resolveGuest h newID now r)).
Proof.
  split; [constructor; cbn; first [by constructor|set_solver]|]. split; [apply safe_register|].
  split; [apply safe_login|]. split; [intros B; apply safe_logout|]. split; [apply safe_profilePatch|].
  split; [apply safe_changePassword|]. split; [apply safe_forgot|apply safe_resolveGuest].
Qed.
End CustomerTheorems.
