(* ===== verification/CustomerSessions.v ===== *)
(** * CustomerSessions: how customers sign in and out

    The exact life of a session token, the way from a registration to a
    working password, and what the password-recovery route reveals. *)
From S2P Require Import Prelude Effects GoTime Http Platform Accounts Customer CustomerAccounts.

Local Open Scope Z_scope.

Section Sessions.
Context `{GoLib, AccountLib}.

(** ** Running use cases *)

Lemma quiet_stmt_tx {A} t (f : uuid -> custdb -> res pg_error (A * custdb)) :
  quiet (WithTenantTx (E:=cust_error) t (λ tx, stmt (f tx))).
Proof. apply quiet_tx, det_stmt. Qed.

Lemma run_stmt_tx {A} t (f : uuid -> custdb -> res pg_error (A * custdb)) d :
  run (WithTenantTx (E:=cust_error) t (λ tx, stmt (f tx))) d
  = match f t d with Ok (a, d') => (Ok a, d') | Err e => (Err (CuPg e), d) end.
Proof. rewrite run_tx by apply det_stmt. rewrite run_stmt. by destruct (f t d) as [[]|]. Qed.

Lemma quiet_one_tx {A} t (f : uuid -> custdb -> res pg_error A) : quiet (WithTenantTx t (λ tx, cu_one (f tx))).
Proof. apply quiet_tx, det_cu_one. Qed.

Lemma run_one_tx {A} t (f : uuid -> custdb -> res pg_error A) d :
  run (WithTenantTx t (λ tx, cu_one (f tx))) d
  = (match f t d with Ok v => Ok v | Err NoRows => Err CuNotFound | Err e => Err (CuPg e) end, d).
Proof. rewrite run_tx by apply det_cu_one. rewrite run_cu_one. by destruct (f t d) as [|[]]. Qed.

(** ** The session a token opens *)

Definition token_row (now : time) (t : uuid) (h : string) (d : custdb) : option session_row :=
  head (sel (λ s, (cs_tenant s ==? t) && live_session now h s) (csessions d)).

(** The customer a token authenticates. *)
Definition authenticates (now : time) (t : uuid) (token : string) (w : world custdb) : option uuid :=
  match (run (Cust_Current now t token) w).1 with Ok c => Some (Customer_ID c) | Err _ => None end.

Lemma quiet_ByID t id : quiet (CuRepository_ByID t id).
Proof. apply quiet_one_tx. Qed.

Lemma ByID_run t id d :
  run (CuRepository_ByID t id) d
  = (match head (sel (customer_of t t id (λ _, true)) (customers d)) with
     | Some r => Ok (plain_customer t r)
     | None => Err CuNotFound
     end, d).
Proof. unfold CuRepository_ByID. rewrite run_one_tx. by destruct (head _). Qed.

Lemma quiet_Session now t token : quiet (CuRepository_Session now t token).
Proof. apply quiet_bind; [apply quiet_one_tx|]. intros id. apply quiet_ByID. Qed.

Lemma customer_found t id d r :
  cust_ok d → r ∈ customers d → cu_tenant r = t → cu_id r = id →
  head (sel (customer_of t t id (λ _, true)) (customers d)) = Some r.
Proof.
  intros Hd Hr Ht Hi. apply (head_sel_unique cu_id); [apply Hd| |done|by apply customer_of_iff].
  intros y (_ & -> & _)%customer_of_iff. done.
Qed.

Lemma Session_run now t token d :
  cust_ok d →
  run (CuRepository_Session now t token) d
  = (match token_row now t (hashToken token) d with
     | Some s => match head (sel (customer_of t t (cs_customer s) (λ _, true)) (customers d)) with
                 | Some r => Ok (plain_customer t r)
                 | None => Err CuNotFound
                 end
     | None => Err CuNotFound
     end, d).
Proof.
  intros Hd. unfold CuRepository_Session. rewrite runq_bind by apply quiet_one_tx. rewrite run_one_tx.
  rewrite (proj1 (rls_tenant cs_tenant t (λ s, (cs_tenant s ==? t) && live_session now (hashToken token) s)
    ltac:(intros s Hs; cbn beta in Hs; by bsimpl))). fold (token_row now t (hashToken token) d).
  destruct (token_row now t (hashToken token) d) as [s|]; [|done]. cbn [fmap option_fmap option_map or_no_rows].
  apply ByID_run.
Qed.

Lemma token_row_Some now t h d s :
  token_row now t h d = Some s →
  s ∈ csessions d ∧ cs_tenant s = t ∧ cs_hash s = h ∧ not_revoked s = true ∧ now < cs_expires s.
Proof. intros [Hs Hin]%head_sel_Some. unfold live_session in Hs. by bsimpl. Qed.

Lemma token_row_unique now t h d s :
  cust_ok d → s ∈ csessions d → cs_tenant s = t → live_session now h s = true → token_row now t h d = Some s.
Proof.
  intros Hd Hs Ht Hl. apply (head_sel_unique skey); [apply Hd| |done|].
  - intros y Hy. unfold live_session in *. bsimpl. unfold skey. congruence.
  - by rewrite Ht, bool_decide_refl.
Qed.

Lemma authenticates_row now t token w :
  cust_ok (w_db w) → token ≠ EmptyString →
  authenticates now t token w = cs_customer <$> token_row now t (hashToken token) (w_db w).
Proof.
  intros Hd Ht. unfold authenticates, Cust_Current. rewrite bool_decide_false by done.
  rewrite run_repo_call by apply quiet_Session. rewrite Session_run by done. cbn [fst].
  destruct (token_row now t (hashToken token) (w_db w)) as [s|] eqn:Es; [|done]. cbn.
  apply token_row_Some in Es as (Hs & Hst & _). destruct (cu_sessions _ Hd s Hs) as (r & Hr & Hi & Hrt).
  rewrite (customer_found t _ _ r) by (done || congruence). cbn. by rewrite Hi.
Qed.

(** Revoking sessions. *)
Lemma token_row_revoke now now0 t t' h q d :
  cust_ok d →
  token_row now t' h
    (set_csessions (upd (rls cs_tenant t (λ s, (cs_tenant s ==? t) && q s)) (revoke now0) (csessions d)) d)
  = match token_row now t' h d with
    | Some s => if (t' ==? t) && q s then None else Some s
    | None => None
    end.
Proof.
  intros Hd. set (p := rls cs_tenant t _).
  assert (∀ s, p s = (cs_tenant s ==? t) && q s) as Hp
    by (intros s; unfold p, rls; by destruct (cs_tenant s ==? t)).
  destruct (revoke_sessions_good (λ _, False) t now0 q d tt _ eq_refl Hd) as [Hd' _].
  fold p in Hd'. change (cust_ok (set_csessions (upd p (revoke now0) (csessions d)) d)) in Hd'.
  set (d2 := set_csessions _ d) in *. destruct (token_row now t' h d) as [s|] eqn:Es.
  - pose proof (token_row_Some _ _ _ _ _ Es) as (Hs & Ht & Hh & Hr & Hn).
    destruct ((t' ==? t) && q s) eqn:E.
    + destruct (token_row now t' h d2) as [y|] eqn:Ey; [|done]. exfalso.
      apply token_row_Some in Ey as (Hy & Hyt & Hyh & Hyr & Hyn). cbn in Hy. apply elem_of_upd in Hy as (z & Hz & ->).
      destruct (p z) eqn:Ez; [done|]. assert (z = s) as ->.
      { apply (NoDup_map_eq skey (csessions d)); [apply Hd|done..|]. unfold skey. congruence. }
      rewrite Hp, Ht, E in Ez. done.
    + apply token_row_unique; [done| |done|].
      * apply elem_of_upd. exists s. by rewrite Hp, Ht, E.
      * unfold live_session. rewrite Hh, Hr, bool_decide_refl. cbn. by apply Z.ltb_lt.
  - destruct (token_row now t' h d2) as [y|] eqn:Ey; [|done]. exfalso.
    apply token_row_Some in Ey as (Hy & Hyt & Hyh & Hyr & Hyn). cbn in Hy. apply elem_of_upd in Hy as (z & Hz & ->).
    destruct (p z); [done|]. rewrite (token_row_unique now t' h d z) in Es; [done|done|done|done|].
    unfold live_session. rewrite Hyh, Hyr, bool_decide_refl. cbn. by apply Z.ltb_lt.
Qed.

(** Opening a session. *)
Lemma token_row_insert now t' h s d :
  (∀ x, x ∈ csessions d → skey x ≠ skey s) →
  token_row now t' h (set_csessions (csessions d ++ [s]) d)
  = if (t' ==? cs_tenant s) && (h ==? cs_hash s)
    then if live_session now h s then Some s else None
    else token_row now t' h d.
Proof.
  intros Hf. unfold token_row. cbn [csessions set_csessions]. rewrite head_sel_snoc.
  destruct ((t' ==? cs_tenant s) && (h ==? cs_hash s)) eqn:E.
  - bsimpl. subst t' h. rewrite sel_nothing.
    + rewrite bool_decide_refl. cbn. by destruct (live_session now (cs_hash s) s).
    + intros x Hx. destruct ((cs_tenant x ==? cs_tenant s) && _) eqn:Ex; [|done]. unfold live_session in Ex. bsimpl.
      destruct (Hf x Hx). unfold skey. congruence.
  - assert ((cs_tenant s ==? t') && live_session now h s = false) as ->.
    { unfold live_session. destruct (cs_tenant s ==? t') eqn:E1; [|done]. destruct (cs_hash s ==? h) eqn:E2; [|done].
      bsimpl. subst. by rewrite !bool_decide_refl in E. }
    by destruct (head _).
Qed.

(** ** The four operations on sessions *)

Lemma CreateSession_run t cid token expires d u d' :
  run (CuRepository_CreateSession t cid token expires) d = (Ok u, d') →
  let s := mkSessionRow t cid (hashToken token) (pg_ts expires) None in
  (∀ x, x ∈ csessions d → skey x ≠ skey s) ∧ d' = set_csessions (csessions d ++ [s]) d.
Proof.
  unfold CuRepository_CreateSession. rewrite run_stmt_tx. unfold insert_csession. cbn [cs_tenant cs_hash cs_customer].
  rewrite bool_decide_refl. cbn [negb]. destruct (existsb _ (csessions d)) eqn:E; [done|].
  destruct (negb _); [done|]. intros [= _ <-]. split; [|done]. rewrite existsb_none in E.
  intros x Hx Ex. specialize (E x Hx). injection Ex as E1 E2. by rewrite E1, E2, !bool_decide_refl in E.
Qed.

Lemma Login_run x t email password w r w' :
  run (Cust_Login x t email password) w = (Ok r, w') →
  ∃ e row token, normalizeEmail email = Some e ∧ find_email t e (w_db w) = Some row ∧
    cu_status row = "active"%string ∧ bcrypt_Compare (cu_hash row) password = true ∧ dr_random x = Some token ∧
    r = mkLoginResult (full_customer t row) token (Add (dr_clock x) session_lifetime) ∧
    let s := mkSessionRow t (cu_id row) (hashToken token) (pg_ts (Add (dr_clock x) session_lifetime)) None in
    (∀ y, y ∈ csessions (w_db w) → skey y ≠ skey s) ∧ w' = set_db (set_csessions (csessions (w_db w) ++ [s]) (w_db w)) w.
Proof.
  unfold Cust_Login. destruct (normalizeEmail email) as [e|]; [|done].
  rewrite run_try_bind by apply det_quiet, det_FindByEmail. rewrite FindByEmail_run. cbn [fst snd]. rewrite set_db_same.
  destruct (text_ok e); [|done]. destruct (find_email t e (w_db w)) as [row|] eqn:Er; [|done].
  cbn [Customer_Status full_customer]. destruct (cu_status row ==? "active"%string) eqn:Es; cbn [negb orb]; [|done].
  destruct (bcrypt_Compare (cu_hash row) password) eqn:Eb; cbn [negb]; [|done]. destruct (dr_random x) as [token|]; [|done].
  rewrite run_repo_bind by apply quiet_stmt_tx. cbn [Customer_ID full_customer].
  destruct (run (CuRepository_CreateSession _ _ _ _) (w_db w)) as [[u|] d'] eqn:Ec; [|done]. cbn [fst snd].
  rewrite run_ret. intros [= <- <-]. apply CreateSession_run in Ec as [Hf ->]. bsimpl.
  exists e, row, token. by repeat split.
Qed.

Lemma same_sessions now t token w w' :
  csessions (w_db w') = csessions (w_db w) →
  token_row now t (hashToken token) (w_db w') = token_row now t (hashToken token) (w_db w).
Proof. intros E. unfold token_row. by rewrite E. Qed.

Lemma update_sessions t id args q f d n d' :
  update_customers t t id args q f d = Ok (n, d') → csessions d' = csessions d.
Proof.
  unfold update_customers. cbv zeta. destruct (negb _); [done|]. destruct (existsb _ _); [done|]. by intros [= _ <-].
Qed.

(** A revocation after the database was changed without touching sessions. *)
Lemma revoked_after now now0 t t' token' q d1 w w' :
  cust_ok (w_db w) → cust_ok d1 → cust_ok (w_db w') → csessions d1 = csessions (w_db w) → token' ≠ EmptyString →
  w_db w' = set_csessions (upd (rls cs_tenant t (λ s, (cs_tenant s ==? t) && q s)) (revoke now0) (csessions d1)) d1 →
  authenticates now t' token' w'
  = match token_row now t' (hashToken token') (w_db w) with
    | Some s => if (t' ==? t) && q s then None else Some (cs_customer s)
    | None => None
    end.
Proof.
  intros Hw Hd1 Hw' Es Ht Ed. rewrite authenticates_row, Ed by done. rewrite token_row_revoke by done.
  assert (token_row now t' (hashToken token') d1 = token_row now t' (hashToken token') (w_db w)) as ->
    by (unfold token_row; by rewrite Es).
  destruct (token_row _ _ _ _) as [s|]; [|done]. by destruct ((t' ==? t) && q s).
Qed.

Lemma Logout_run now t token w :
  run (Cust_Logout now t token) w
  = (Ok tt, set_db (set_csessions (upd (rls cs_tenant t (λ s, (cs_tenant s ==? t) && (cs_hash s ==? hashToken token)))
      (revoke now) (csessions (w_db w))) (w_db w)) w).
Proof.
  unfold Cust_Logout. rewrite run_try_bind by apply quiet_stmt_tx. unfold CuRepository_Revoke. by rewrite run_stmt_tx.
Qed.

Lemma ChangePassword_run x t token current next w w' :
  cust_ok (w_db w) → run (Cust_ChangePassword x t token current next) w = (Ok tt, w') →
  ∃ s d1, token ≠ EmptyString ∧ token_row (time1 x) t (hashToken token) (w_db w) = Some s ∧
    csessions d1 = csessions (w_db w) ∧ cust_ok d1 ∧
    w' = set_db (set_csessions (upd (rls cs_tenant t (λ y, (cs_tenant y ==? t)
           && ((cs_customer y ==? cs_customer s) && (cs_hash y !=? hashToken token) && not_revoked y)))
           (revoke (time3 x)) (csessions d1)) d1) w.
Proof.
  intros Hd. unfold Cust_ChangePassword, Cust_Current. destruct (token ==? EmptyString) eqn:Et; [done|]. bsimpl.
  rewrite run_repo_bind by apply quiet_Session. rewrite Session_run by done. cbn [fst snd]. rewrite set_db_same.
  destruct (token_row _ _ _ _) as [s|] eqn:Es; [|done]. destruct (head _) as [r|] eqn:Er; [|done].
  apply head_sel_Some in Er as [(Hrt & Hri & _)%customer_of_iff Hin].
  destruct (_ <? 10); [done|]. rewrite run_try_bind by apply det_quiet, det_FindByEmail. rewrite FindByEmail_run.
  cbn [fst snd]. rewrite set_db_same.
  destruct (if text_ok _ then _ else _) as [[c hash]|]; [|done]. destruct (negb _); [done|].
  destruct (bcrypt_Generate _ _) as [nextHash|]; [|done].
  assert (∀ id h, quiet (CuRepository_UpdatePassword (time2 x) t id h)) as Hq by (intros; apply quiet_tx; solve_det).
  rewrite run_repo_bind by apply Hq. cbn [Customer_ID plain_customer].
  destruct (run (CuRepository_UpdatePassword _ _ _ _) (w_db w)) as [[u|] d1] eqn:Eu; [|done]. cbn [fst snd].
  rewrite run_try_bind by apply quiet_stmt_tx. cbn [w_db set_db]. unfold CuRepository_RevokeOthers. rewrite run_stmt_tx.
  unfold revoke_sessions. cbn [fst snd]. rewrite run_ret. intros [= <-]. exists s, d1. rewrite Hri.
  split; [done|]. split; [done|]. split; [|split; [|done]].
  - revert Eu. unfold CuRepository_UpdatePassword. rewrite run_tx by solve_det. rewrite run_bind, run_stmt by apply det_stmt.
    destruct (update_customers _ _ _ _ _ _ _) as [[n d2]|] eqn:Eup; [|done]. apply update_sessions in Eup.
    rewrite run_ret. by intros [= _ <-].
  - pose proof (step_in_run _ _ (w_db w) (good_UpdatePassword (λ _, False) (time2 x) t (cu_id r) nextHash) Hd) as [Hok _].
    by rewrite Eu in Hok.
Qed.

(** sessions live exactly as long as they should.  After a sign-in its
    token authenticates the customer, in that tenant and for thirty days, and
    all other tokens are as before; signing out ends exactly that token's
    session; a changed password ends every other session of the customer and
    keeps the one it was changed in. *)
Theorem session_lifecycle t w :
  cust_ok (w_db w) →
  (∀ x email password r w', run (Cust_Login x t email password) w = (Ok r, w') →
     ∀ now t' token', token' ≠ EmptyString →
       authenticates now t' token' w'
       = if (t' ==? t) && (hashToken token' ==? hashToken (LoginR_Token r))
         then if now <? pg_ts (Add (dr_clock x) session_lifetime) then Some (Customer_ID (LoginR_Customer r)) else None
         else authenticates now t' token' w) ∧
  (∀ now0 token now t' token', token' ≠ EmptyString →
     authenticates now t' token' (run (Cust_Logout now0 t token) w).2
     = if (t' ==? t) && (hashToken token' ==? hashToken token) then None else authenticates now t' token' w) ∧
  (∀ x token current next w', run (Cust_ChangePassword x t token current next) w = (Ok tt, w') →
     ∃ id, authenticates (time1 x) t token w = Some id ∧
       ∀ now t' token', token' ≠ EmptyString →
         authenticates now t' token' w'
         = if (t' ==? t) && (hashToken token' !=? hashToken token) && (authenticates now t' token' w ==? Some id)
           then None else authenticates now t' token' w).
Proof.
  intros Hd. split; [|split].
  - intros x email password r w' Hrun now t' token' Ht.
    pose proof (app_Login x t email password [] w Hd) as [Hd' _].
    assert (w_db (Cust_Login x t email password [] w).2.2 = w_db w') as Ew
      by (unfold run in Hrun; destruct (Cust_Login x t email password [] w) as [? [? ?]]; by injection Hrun as _ ->).
    rewrite Ew in Hd'. apply Login_run in Hrun as (e & row & token & _ & _ & _ & _ & _ & -> & Hf & ->).
    rewrite !authenticates_row by done. cbn [w_db set_db LoginR_Token LoginR_Customer Customer_ID full_customer].
    rewrite token_row_insert by done. cbn [cs_tenant cs_hash].
    destruct ((t' ==? t) && (hashToken token' ==? hashToken token)) eqn:E; [|done].
    unfold live_session. cbn [cs_hash cs_revoked cs_expires]. bsimpl. rewrite H2, bool_decide_refl. cbn [andb not_revoked cs_revoked].
    by destruct (now <? _).
  - intros now0 token now t' token' Ht. rewrite Logout_run. cbn [snd].
    pose proof (step_in_run _ _ w (app_Logout (λ _, False) now0 t token) Hd) as [Hd' _]. rewrite Logout_run in Hd'.
    rewrite (revoked_after now now0 t t' token' (λ s, cs_hash s ==? hashToken token) (w_db w) w) by done.
    rewrite authenticates_row by done. destruct (token_row _ _ _ _) as [s|] eqn:Es; [|by destruct (_ && _)].
    apply token_row_Some in Es as (_ & _ & -> & _). cbn. by destruct (_ && _).
  - intros x token current next w' Hrun.
    pose proof (step_in_run _ _ w (app_ChangePassword (λ _, False) x t token current next) Hd) as [Hd' _].
    rewrite Hrun in Hd'. cbn [snd] in Hd'.
    destruct (ChangePassword_run _ _ _ _ _ _ _ Hd Hrun) as (s & d1 & Htk & Es & Hss & Hd1 & ->).
    exists (cs_customer s). split; [by rewrite authenticates_row, Es by done|].
    intros now t' token' Ht.
    rewrite (revoked_after now (time3 x) t t' token'
      (λ y, (cs_customer y ==? cs_customer s) && (cs_hash y !=? hashToken token) && not_revoked y) d1 w) by done.
    rewrite authenticates_row by done. destruct (token_row now t' _ _) as [y|] eqn:Ey; cbn.
    2:{ by rewrite (bool_decide_false (None = Some (cs_customer s))), andb_false_r by done. }
    apply token_row_Some in Ey as (_ & _ & -> & -> & _). rewrite andb_true_r.
    rewrite (bool_decide_ext (Some (cs_customer y) = Some (cs_customer s)) (cs_customer y = cs_customer s)) by (split; [by intros [= ->]|by intros ->]).
    by destruct (t' ==? t), (cs_customer y ==? cs_customer s), (hashToken token' ==? hashToken token).
Qed.
End Sessions.

(** ** From a registration to a working password *)

Section Registering.
Context `{GoLib, AccountLib}.

Lemma update_customers_Ok t id args q f d n d' :
  update_customers t t id args q f d = Ok (n, d') →
  n = Z.of_nat (length (sel (customer_of t t id q) (customers d))) ∧
  d' = set_customers (upd (customer_of t t id q) f (customers d)) d.
Proof.
  unfold update_customers. cbv zeta. destruct (negb _); [done|]. destruct (existsb _ _); [done|]. by intros [= <- <-].
Qed.

(** A counted update that found a row. *)
Lemma counted_update t id args q f d u d' :
  run (WithTenantTx t (λ tx, n ← stmt (update_customers tx t id args q f);
                             if n =? 0 then io_fail CuNotFound else mret tt)) d = (Ok u, d') →
  ∃ r, r ∈ customers d ∧ cu_tenant r = t ∧ cu_id r = id ∧ q r = true ∧ f r ∈ customers d'.
Proof.
  rewrite run_tx by solve_det. rewrite run_bind, run_stmt by apply det_stmt.
  destruct (update_customers _ _ _ _ _ _ _) as [[n d1]|] eqn:E; [|done].
  apply update_customers_Ok in E as [-> ->]. destruct (Z.eqb_spec (Z.of_nat (length (sel (customer_of t t id q) (customers d)))) 0) as [|Hn]; [done|].
  rewrite run_ret. intros [= _ <-]. destruct (sel (customer_of t t id q) (customers d)) as [|r l] eqn:Es; [done|].
  assert (r ∈ sel (customer_of t t id q) (customers d)) as Hr by (rewrite Es; set_solver).
  apply elem_of_sel in Hr as [Hp Hin]. pose proof Hp as (Ht & Hi & Hq)%customer_of_iff. exists r.
  split; [done|]. split; [done|]. split; [done|]. split; [done|]. cbn. apply elem_of_upd. exists r. by rewrite Hp.
Qed.

(** Rows keep their e-mail address. *)
Lemma keeps_email new t d d' r r' :
  cust_ok d → cust_good new t d d' → r ∈ customers d → r' ∈ customers d' → cu_id r' = cu_id r → ident r' = ident r.
Proof.
  intros Hd Hg Hr Hr' E. destruct (Hg Hd) as (Hd' & _ & Hk & _). destruct (Hk r Hr) as (x & Hx & I & _).
  rewrite <- I. f_equal. apply (NoDup_map_eq cu_id (customers d')); [apply Hd'|done|done|].
  unfold ident in I. injection I as I _ _ _. congruence.
Qed.

(** A stored account that a mailed password opens. *)
Record opened (t : uuid) (email hash : string) (c : Customer) (r : customer_row) (d : custdb) : Prop := mkOpened {
  op_row : r ∈ customers d ∧ cu_tenant r = t ∧ cu_id r = Customer_ID c ∧ cu_email r = Some email;
  op_hash : cu_hash r = hash ∧ cu_must r = true;
  op_sent : was_sent r
}.

Lemma quiet_Create newID now t name email phone hash : quiet (CuRepository_Create newID now t name email phone hash).
Proof. apply quiet_bind; [apply quiet_stmt_tx|]. intros r. apply quiet_ret. Qed.

Lemma quiet_Claim token now t id : quiet (CuRepository_ClaimInitialDelivery token now t id).
Proof. apply quiet_bind; [apply quiet_stmt_tx|]. intros r. apply quiet_ret. Qed.

(** The row a registration is about. *)
Lemma register_customer_run x t name email phone hash w c retried w' :
  cust_ok (w_db w) → run (register_customer x t name email phone hash) w = (Ok (c, retried), w') →
  w_mail w' = w_mail w ∧ cust_ok (w_db w') ∧ text_ok email = true ∧
  ∃ r, r ∈ customers (w_db w') ∧ cu_tenant r = t ∧ cu_id r = Customer_ID c ∧ cu_email r = Some email ∧
    (retried = false → cu_hash r = hash ∧ cu_must r = true).
Proof.
  intros Hd. unfold register_customer. rewrite run_try_bind by apply quiet_Create.
  unfold CuRepository_Create. rewrite runq_bind by apply quiet_stmt_tx. rewrite run_stmt_tx.
  destruct (insert_customer _ _ _ _) as [[r d1]|e] eqn:Ei; cbn [fst snd].
  - rewrite run_ret. cbn [fst snd]. intros [= <- <- <-]. pose proof (insert_customer_good (λ _, False) _ _ _ _ _ _ Ei Hd) as [Hd1 _].
    split; [done|]. split; [done|]. revert Ei. unfold insert_customer. cbn [cu_name cu_email cu_phone cu_hash new_customer opt_text].
    destruct (text_ok email); [|by rewrite andb_false_r]. split; [done|]. revert Ei.
    repeat (destruct (negb _); [done|]). repeat (destruct (existsb _ _); [done|]). intros [= <- <-]. cbn [w_db set_db customers set_customers].
    exists (new_customer (dr_id x) t (time1 x) name email phone hash). split; [set_solver|done].
  - rewrite run_try_bind by apply det_quiet, det_FindByEmail. cbn [w_db set_db]. rewrite FindByEmail_run. cbn [fst snd].
    destruct (text_ok email); [|done]. destruct (find_email t email (w_db w)) as [r|] eqn:Er; [|done].
    destruct (_ ==? _); [done|]. rewrite run_ret. intros [= <- <- <-]. split; [done|]. split; [done|]. split; [done|].
    apply head_sel_Some in Er as [Hr Hin]. unfold by_email in Hr. bsimpl. by exists r.
Qed.

(** What a claim leaves of a row. *)
Lemma Claim_run token now t id d n d' :
  run (CuRepository_ClaimInitialDelivery token now t id) d = (Ok (token, n), d') →
  d' = set_customers (upd (customer_of t t id (λ r, claimable now (cu_delivery r)))
         (λ r, with_delivery (claimed now token (cu_delivery r)) r) (customers d)) d.
Proof.
  unfold CuRepository_ClaimInitialDelivery. rewrite runq_bind by apply quiet_stmt_tx. rewrite run_stmt_tx.
  destruct (update_customers _ _ _ _ _ _ _) as [[k d1]|] eqn:E; [|done]. apply update_customers_Ok in E as [_ ->].
  rewrite run_ret. by intros [= _ <-].
Qed.

(** After a claim, storing the outcome 'sent' or activating a new hash. *)
Lemma finish_run (x : draw) t (c : Customer) claim now hash email d0 d n d' (retried : bool) u r0 :
  cust_ok d0 → run (CuRepository_ClaimInitialDelivery claim now t (Customer_ID c)) d0 = (Ok (claim, n), d) →
  r0 ∈ customers d0 → cu_tenant r0 = t → cu_id r0 = Customer_ID c → cu_email r0 = Some email →
  (retried = false → cu_hash r0 = hash ∧ cu_must r0 = true) →
  run (if retried then CuRepository_ActivateRetriedCredential (time3 x) t (Customer_ID c) claim hash
       else CuRepository_MarkInitialDelivery (time3 x) t (Customer_ID c) claim "sent" EmptyString) d = (Ok u, d') →
  ∃ r, opened t email hash c r d'.
Proof.
  intros Hd0 Hclaim Hr0 Ht Hi He Hnew Hrun.
  pose proof (step_in_run _ _ d0 (good_Claim (λ _, False) claim now t (Customer_ID c))) as Hg. rewrite Hclaim in Hg. cbn [snd] in Hg.
  destruct (Hg Hd0) as [Hd _]. apply Claim_run in Hclaim as Ed.
  assert (∀ r, r ∈ customers d → cu_id r = Customer_ID c → cu_email r = Some email ∧
            (retried = false → cu_hash r = hash ∧ cu_must r = true)) as Hrow.
  { intros r Hr Hri. pose proof (keeps_email _ _ _ _ r0 r Hd0 Hg Hr0 Hr ltac:(congruence)) as Hid.
    unfold ident in Hid. injection Hid as _ _ Hem _. split; [congruence|]. intros Hret.
    rewrite Ed in Hr. cbn in Hr. apply elem_of_upd in Hr as (r1 & Hr1 & ->).
    assert (r1 = r0) as ->.
    { apply (NoDup_map_eq cu_id (customers d0)); [apply Hd0|done..|]. rewrite (upd_keeps cu_id) in Hri by done. congruence. }
    rewrite (upd_keeps cu_hash), (upd_keeps cu_must) by done. auto. }
  destruct retried; apply counted_update in Hrun as (r & Hr & Hrt & Hri & _ & Hf);
    destruct (Hrow r Hr Hri) as [Hem Hh]; eexists; (constructor; [split; [exact Hf|done]| |done]).
  - done.
  - by apply Hh.
Qed.

Lemma Register_run x t input w res w' :
  cust_ok (w_db w) → run (Cust_Register x t input) w = (Ok res, w') →
  ∃ email password hash, normalizeEmail (Reg_Email input) = Some email ∧ dr_random x = Some password ∧
    bcrypt_Generate (dr_salt x) password = Some hash ∧ text_ok email = true ∧
    w_mail w' = w_mail w ++ [initialEmail email password (Customer_ID (RegR_Customer res))] ∧
    ∃ r, opened t email hash (RegR_Customer res) r (w_db w').
Proof.
  intros Hd. unfold Cust_Register. cbv zeta. destruct (normalizeEmail (Reg_Email input)) as [email|]; [|done].
  destruct (negb _); [done|]. destruct (dr_random x) as [password|]; [|done].
  destruct (bcrypt_Generate (dr_salt x) password) as [hash|] eqn:Egen; [|done].
  assert (quiet (register_customer x t (TrimSpace (Reg_Name input)) email (Reg_Phone input) hash)) as Hq.
  { unfold register_customer. apply quiet_bind; [apply quiet_attempt, quiet_on_db, quiet_Create|].
    intros [a|e]; [apply quiet_ret|]. apply quiet_bind; [apply quiet_attempt, quiet_on_db, det_quiet, det_FindByEmail|].
    intros [[a b]|e']; [|apply quiet_fail]. destruct (_ ==? _); [apply quiet_fail|apply quiet_ret]. }
  rewrite runq_bind by done.
  destruct (run (register_customer _ _ _ _ _ _) w) as [[[c retried]|] w1] eqn:Er; [|done].
  destruct (register_customer_run _ _ _ _ _ _ _ _ _ _ Hd Er) as (Hmail & Hd1 & Htext & r0 & Hr0 & Ht & Hi & He & Hnew).
  rewrite run_repo_bind by apply quiet_Claim.
  destruct (run (CuRepository_ClaimInitialDelivery _ _ _ _) (w_db w1)) as [[[claim n]|] d2] eqn:Ec; [|done]. cbn [fst snd].
  assert (claim = dr_claim x) as ->.
  { revert Ec. unfold CuRepository_ClaimInitialDelivery. rewrite runq_bind by apply quiet_stmt_tx.
    rewrite run_stmt_tx. destruct (update_customers _ _ _ _ _ _ _) as [[k d3]|]; [|done]. rewrite run_ret. by intros [= <- _ _]. }
  destruct n; cbn [negb]; [|done]. rewrite runq_bind by apply quiet_mail. rewrite run_mail.
  destruct (SendWithRetry 3 (dr_mail x)).1; cbn [negb].
  2:{ rewrite run_try_bind by (apply quiet_tx; solve_det). by rewrite run_fail. }
  set (m := (if retried then CuRepository_ActivateRetriedCredential (time3 x) t (Customer_ID c) (dr_claim x) hash
       else CuRepository_MarkInitialDelivery (time3 x) t (Customer_ID c) (dr_claim x) "sent" EmptyString)).
  assert ((if retried then repo passed (CuRepository_ActivateRetriedCredential (time3 x) t (Customer_ID c) (dr_claim x) hash)
           else repo passed (CuRepository_MarkInitialDelivery (time3 x) t (Customer_ID c) (dr_claim x) "sent" EmptyString))
          = repo passed m) as -> by (by destruct retried).
  rewrite run_repo_bind by (unfold m; destruct retried; apply quiet_tx; solve_det). cbn [w_db w_mail set_db].
  destruct (run m d2) as [[u|] d3] eqn:Em; [|done]. cbn [fst snd]. rewrite run_ret. intros [= <- <-].
  exists email, password, hash. split; [done|]. split; [done|]. split; [done|]. split; [done|]. split; [by rewrite <- Hmail|].
  by apply (finish_run x t c (dr_claim x) (time2 x) hash email (w_db w1) d2 true d3 retried u r0).
Qed.

Lemma opened_found t email hash c r d : cust_ok d → opened t email hash c r d → find_email t email d = Some r.
Proof.
  intros Hd [(Hr & Ht & Hi & He) _ _]. unfold find_email. destruct (head _) as [y|] eqn:Ey.
  - apply head_sel_Some in Ey as [Hy Hin]. unfold by_email in Hy. bsimpl. f_equal. apply (cu_emails d Hd); [done..|].
    unfold same_email. rewrite Ht, He. cbn. match goal with E1 : cu_tenant y = t, E2 : cu_email y = _ |- _ => rewrite E1, E2 end.
    cbn. by rewrite !bool_decide_refl.
  - pose proof (head_sel_None _ _ Ey r Hr) as E. unfold by_email in E. by rewrite Ht, He, !bool_decide_refl in E.
Qed.

(** the mailed password opens the account.  When a registration succeeds
    exactly one message was sent, to the given address; the password in it
    signs the customer in, and the session it opens is good for nothing but
    changing that password. *)
Theorem registered_can_sign_in `{!AccountLaws} x t input w res w' :
  cust_ok (w_db w) → run (Cust_Register x t input) w = (Ok res, w') →
  ∃ email password, normalizeEmail (Reg_Email input) = Some email ∧ dr_random x = Some password ∧
    w_mail w' = w_mail w ++ [initialEmail email password (Customer_ID (RegR_Customer res))] ∧
    ∀ y token, dr_random y = Some token → token ≠ EmptyString →
      (∀ s, s ∈ csessions (w_db w') → skey s ≠ (t, hashToken token)) →
      (∀ r, r ∈ customers (w_db w') → cu_id r = Customer_ID (RegR_Customer res) → cu_status r = "active"%string) →
      ∃ c w'', run (Cust_Login y t (Reg_Email input) password) w'
               = (Ok (mkLoginResult c token (Add (dr_clock y) session_lifetime)), w'') ∧
        Customer_ID c = Customer_ID (RegR_Customer res) ∧
        ∀ now, now < pg_ts (Add (dr_clock y) session_lifetime) →
          run (Cust_Profile now t token) w'' = (Err CuErrForbidden, w'').
Proof.
  intros Hd Hrun. pose proof (step_in_run _ _ w (app_Register (λ _, False) x t input) Hd) as [Hd' _].
  rewrite Hrun in Hd'. cbn [snd] in Hd'.
  destruct (Register_run _ _ _ _ _ _ Hd Hrun) as (email & password & hash & Hem & Hpw & Hgen & Htext & Hmail & r & Hop).
  exists email, password. split; [done|]. split; [done|]. split; [done|]. intros y token Hy Htok Hfresh Hact.
  pose proof (opened_found _ _ _ _ _ _ Hd' Hop) as Hfind. destruct Hop as [(Hr & Ht & Hi & He) [Hh Hm] _].
  set (s := mkSessionRow t (cu_id r) (hashToken token) (pg_ts (Add (dr_clock y) session_lifetime)) None).
  exists (full_customer t r), (set_db (set_csessions (csessions (w_db w') ++ [s]) (w_db w')) w').
  assert (run (CuRepository_CreateSession t (cu_id r) token (Add (dr_clock y) session_lifetime)) (w_db w')
          = (Ok tt, set_csessions (csessions (w_db w') ++ [s]) (w_db w'))) as Hcs.
  { unfold CuRepository_CreateSession. rewrite run_stmt_tx. unfold insert_csession. cbn [cs_tenant cs_hash cs_customer].
    rewrite bool_decide_refl. cbn [negb]. rewrite (proj2 (existsb_none _ (csessions (w_db w')))).
    2:{ intros z Hz. destruct (cs_tenant z ==? t) eqn:E1; [|done]. destruct (cs_hash z ==? hashToken token) eqn:E2; [|done].
        bsimpl. destruct (Hfresh z Hz). unfold skey. congruence. }
    rewrite (proj2 (existsb_elem _ (customers (w_db w')))); [done|]. exists r. by rewrite Ht, !bool_decide_refl. }
  split; [|split; [done|]].
  - unfold Cust_Login. rewrite Hem. rewrite run_try_bind by apply det_quiet, det_FindByEmail. rewrite FindByEmail_run.
    cbn [fst snd]. rewrite set_db_same, Htext, Hfind. cbn [Customer_Status full_customer].
    rewrite (Hact r Hr Hi), bool_decide_refl, Hh, (bcrypt_Generate_Compare _ _ _ Hgen). cbn [negb orb]. rewrite Hy.
    rewrite run_repo_bind by apply quiet_stmt_tx. cbn [Customer_ID full_customer]. by rewrite Hcs.
  - intros now Hnow. pose proof (step_in_run _ _ (w_db w') (good_CreateSession (λ _, True) t (cu_id r) token
      (Add (dr_clock y) session_lifetime) I) Hd') as [Hd2 _]. rewrite Hcs in Hd2. cbn [snd] in Hd2.
    unfold Cust_Profile, Cust_Current. rewrite (bool_decide_false (token = EmptyString)) by done.
    rewrite run_repo_bind by apply quiet_Session. cbn [w_db set_db]. rewrite Session_run by done. cbn [fst snd].
    rewrite token_row_insert by done. unfold s. cbn [cs_tenant cs_hash]. rewrite !bool_decide_refl. cbn [andb].
    unfold live_session. cbn [cs_hash cs_expires cs_revoked not_revoked]. rewrite bool_decide_refl. cbn [andb].
    rewrite (proj2 (Z.ltb_lt _ _) Hnow). cbn [cs_customer customers set_csessions].
    rewrite (customer_found t (cu_id r) (w_db w') r) by done. cbn. rewrite Hm. by rewrite set_db_twice.
Qed.

(** A transaction that fails without faults fails with them, and has no effect. *)
Lemma failing_tx {A} t (fn : uuid -> CuM A) d e fs :
  det (fn t) → run (WithTenantTx t fn) d = (Err e, d) →
  (∃ e', (WithTenantTx t fn fs d).1 = Err e') ∧ (WithTenantTx t fn fs d).2.2 = d.
Proof.
  intros Hdet Hrun. destruct (atomic_tx t fn Hdet fs d) as [E|[E1 E2]].
  - rewrite Hrun in E. injection E as E1 E2. split; [by exists e|done].
  - rewrite Hrun in E2. split; [by eexists|]. by destruct E2 as [|].
Qed.

Lemma Create_taken newID now t name email phone hash fs d r :
  r ∈ customers d → cu_tenant r = t → cu_email r = Some email →
  let m := CuRepository_Create newID now t name email phone hash in
  (∃ e, (m fs d).1 = Err e) ∧ (m fs d).2.2 = d.
Proof.
  intros Hr Ht He. unfold CuRepository_Create. cbv zeta.
  set (fn := λ tx, stmt (insert_customer tx false (new_customer newID t now name email phone hash))).
  assert (∃ e, run (WithTenantTx t fn) d = (Err e, d)) as [e Hrun].
  { unfold fn. rewrite run_stmt_tx. destruct (insert_customer _ _ _ _) as [[x d']|e] eqn:E; [|by exists (CuPg e)]. exfalso.
    revert E. unfold insert_customer. repeat (destruct (negb _); [done|]). destruct (existsb _ _); [done|].
    rewrite (proj2 (existsb_elem _ (customers d))); [done|]. exists r. split; [done|].
    unfold same_email. cbn. rewrite Ht, He. cbn. by rewrite !bool_decide_refl. }
  destruct (failing_tx t fn d e fs (det_stmt _) Hrun) as [[e' He'] Hs]. rewrite bind_eq.
  destruct (WithTenantTx t fn fs d) as [[a|e1] [fs' d']]; cbn in *; [done|]. split; [by exists e1|done].
Qed.

Lemma FindByEmail_fails t email d r fs :
  cust_ok d → r ∈ customers d → cu_tenant r = t → cu_email r = Some email →
  let m := CuRepository_FindByEmail t email in
  (m fs d).2.2 = d ∧ ∀ c h, (m fs d).1 = Ok (c, h) → c = full_customer t r.
Proof.
  intros Hd Hr Ht He. cbv zeta. split.
  - assert (atomic (CuRepository_FindByEmail t email)) as Ha by (apply atomic_tx, det_cu_one).
    destruct (Ha fs d) as [E|[_ E]]; rewrite FindByEmail_run in E; [by injection E|by destruct E].
  - intros c h Hok. destruct (FindByEmail_ok _ _ _ _ _ _ Hok) as (_ & y & Hy & Hyt & Hye & -> & _). f_equal.
    apply (cu_emails d Hd); [done..|]. unfold same_email. rewrite Ht, Hyt, He, Hye. cbn. by rewrite !bool_decide_refl.
Qed.

(** an address is registered once.  After a successful registration, and
    whatever the service does in between, every further registration with the
    same address fails, changes nothing and sends no mail, whatever fails. *)
Theorem registered_once x t input w res w' w'' x' input' fs :
  cust_ok (w_db w) → run (Cust_Register x t input) w = (Ok res, w') →
  cust_ok (w_db w'') → keeps (w_db w') (w_db w'') →
  normalizeEmail (Reg_Email input') = normalizeEmail (Reg_Email input) →
  is_ok (Cust_Register x' t input' fs w'').1 = false ∧ (Cust_Register x' t input' fs w'').2.2 = w''.
Proof.
  intros Hd Hrun Hd2 Hk Hsame.
  destruct (Register_run _ _ _ _ _ _ Hd Hrun) as (email & password & hash & Hem & _ & _ & _ & _ & r & [(Hr & Ht & _ & He) _ Hs]).
  destruct (Hk r Hr) as (r2 & Hr2 & Hid & Hs2). unfold ident in Hid. injection Hid as _ Ht2 He2 _. specialize (Hs2 Hs).
  rewrite Ht in Ht2. rewrite He in He2. unfold Cust_Register. cbv zeta. rewrite Hsame, Hem. destruct (negb _); [done|].
  destruct (dr_random x') as [p'|]; [|done]. destruct (bcrypt_Generate (dr_salt x') p') as [h'|]; [|done].
  set (reg := register_customer _ _ _ _ _ _). assert (∃ e s', reg fs w'' = (Err e, (s', w''))) as (e & s' & Hreg).
  { unfold reg, register_customer, try_repo. rewrite attempt_bind. unfold on_db.
    destruct (Create_taken (dr_id x') (time1 x') t (TrimSpace (Reg_Name input')) email (Reg_Phone input') h' fs
      (w_db w'') r2 Hr2 Ht2 He2) as [[e1 He1] Hs1].
    destruct (CuRepository_Create _ _ _ _ _ _ _ fs (w_db w'')) as [o [fs1 d1]]. cbn in He1, Hs1. subst o d1. cbn [fst snd].
    rewrite attempt_bind. cbn [w_db set_db].
    destruct (FindByEmail_fails t email (w_db w'') r2 fs1 Hd2 Hr2 Ht2 He2) as [Hs3 Hc3].
    destruct (CuRepository_FindByEmail t email fs1 (w_db w'')) as [[[c h]|e2] [fs2 d2]]; cbn in Hs3, Hc3; subst d2; cbn [fst snd].
    - rewrite (Hc3 c h eq_refl). cbn [Customer_Delivery full_customer]. rewrite Hs2, bool_decide_refl.
      rewrite !set_db_twice, set_db_same. eauto.
    - rewrite !set_db_twice, set_db_same. eauto. }
  rewrite bind_eq, Hreg. done.
Qed.
End Registering.

(** ** Examples *)

Section Examples.
#[local] Instance test_lib : GoLib := TestLib.
#[local] Instance test_accounts : AccountLib := TestAccounts.
#[local] Instance test_laws : AccountLaws := TestAccounts_laws.

Definition empty_world : world custdb := mkWorld (mkCustdb [] []) [] ∅.
Definition sample_draw (s : string) : draw := mkDraw (Some s) EmptyString 5%N 6%N EmptyString (0, 0, 0) 0 mail_up.
Definition sample_registration : CRegistration := mkCRegistration "Ada" " Ada@example.com " EmptyString.

Lemma empty_ok : cust_ok (w_db empty_world).
Proof. constructor; cbn; first [by constructor|set_solver]. Qed.

(** The world after Ada has registered, and after she has signed in. *)
Definition registered_world : world custdb := (run (Cust_Register (sample_draw "secret") 1%N sample_registration) empty_world).2.
Definition sample_customer : Customer :=
  mkCustomer 5%N 1%N "Ada" "ada@example.com" EmptyString "active" true "pending" (Some 0).

Lemma registered_run :
  run (Cust_Register (sample_draw "secret") 1%N sample_registration) empty_world
  = (Ok (mkCRegistrationResult sample_customer false), registered_world).
Proof. by vm_compute. Qed.

Lemma registered_ok : cust_ok (w_db registered_world).
Proof. apply (step_in_run _ _ empty_world (app_Register (λ _, False) (sample_draw "secret") 1%N sample_registration) empty_ok). Qed.

Lemma registered_can_sign_in_witness :
  ∃ c w'', run (Cust_Login (sample_draw "token") 1%N " Ada@example.com " "secret") registered_world
           = (Ok (mkLoginResult c "token" session_lifetime), w'') ∧
    run (Cust_Profile 7 1%N "token") w'' = (Err CuErrForbidden, w'').
Proof.
  destruct (registered_can_sign_in (sample_draw "secret") 1%N sample_registration empty_world _ registered_world
    empty_ok registered_run) as (email & password & _ & Hpw & _ & Hall).
  injection Hpw as <-.
  destruct (Hall (sample_draw "token") "token"%string) as (c & w'' & Hlogin & _ & Hprofile).
  - done.
  - done.
  - intros s Hs. vm_compute in Hs. set_solver.
  - intros r Hr _. change (customers (w_db registered_world)) with
      [touched 0 (with_delivery (mkDelivery "sent" 1 None None None (Some 0))
        (new_customer 5%N 1%N 0 "Ada" "ada@example.com" EmptyString "$secret"))] in Hr.
    apply list_elem_of_singleton in Hr. by subst r.
  - exists c, w''. split; [exact Hlogin|]. apply Hprofile. by vm_compute.
Defined.

Lemma registered_once_witness :
  is_ok (Cust_Register (sample_draw "other") 1%N (mkCRegistration "Eve" "ADA@EXAMPLE.COM" EmptyString)
           [FOk; FFail] registered_world).1 = false.
Proof.
  apply (registered_once (sample_draw "secret") 1%N sample_registration empty_world
    (mkCRegistrationResult sample_customer false) registered_world registered_world (sample_draw "other")
    (mkCRegistration "Eve" "ADA@EXAMPLE.COM" EmptyString) [FOk; FFail] empty_ok registered_run registered_ok).
  - intros r Hr. by exists r.
  - by vm_compute.
Defined.

Lemma session_lifecycle_witness :
  let w := (run (Cust_Login (sample_draw "token") 1%N "ada@example.com" "secret") registered_world).2 in
  authenticates 7 1%N "token" w = Some 5%N ∧ authenticates 7 2%N "token" w = None.
Proof.
  intros w. destruct (session_lifecycle 1%N registered_world registered_ok) as [Hlogin _].
  destruct (run (Cust_Login (sample_draw "token") 1%N "ada@example.com" "secret") registered_world) as [[r|e] w'] eqn:E;
    [|by vm_compute in E].
  pose proof E as E'. vm_compute in E'. injection E' as Er _.
  split; subst w; cbn [snd]; rewrite (Hlogin _ _ _ _ _ E) by done; subst r; by vm_compute.
Defined.
End Examples.
