(* ===== verification/Auth.v ===== *)
(** * Auth: auth-service

    Global identities with their credentials, tenant memberships and sessions:
    the tables of [migrations], [internal/domain], [internal/repository],
    [internal/service], [internal/handler] and [internal/config]. *)
From S2P Require Import Prelude Effects GoTime Http Platform Accounts.

Local Open Scope Z_scope.

(** ** Data *)

Definition RoleOwner : string := "OWNER".
Definition RoleManager : string := "MANAGER".
Definition RoleBarber : string := "BARBER".
Definition RoleReceptionist : string := "RECEPTIONIST".

Definition Role_Valid (r : string) : bool :=
  (r ==? RoleOwner) || (r ==? RoleManager) || (r ==? RoleBarber) || (r ==? RoleReceptionist).

Record Principal := mkPrincipal {
  Pr_IdentityID : uuid; Pr_Name : string; Pr_Email : string; Pr_Phone : string; Pr_MustChange : bool;
  Pr_Role : string; Pr_TenantID : uuid; Pr_SessionID : uuid
}.
Record RegisterInput := mkRegisterInput { RI_Name : string; RI_Email : string; RI_Phone : string; RI_Role : string }.
Record Member := mkMember {
  Mem_IdentityID : uuid; Mem_Name : string; Mem_Email : string; Mem_Phone : string; Mem_Role : string;
  Mem_Status : string; Mem_CreatedAt : time
}.
Record OwnerState := mkOwnerState {
  Own_IdentityID : uuid; Own_Name : string; Own_Email : string; Own_IdentityStatus : string;
  Own_MembershipStatus : string; Own_MustChange : bool; Own_Delivery : string
}.
Record Registration := mkRegistration {
  Rg_IdentityID : uuid; Rg_MembershipCreated : bool; Rg_CredentialScheduled : bool; Rg_Role : string
}.
Record Session := mkSession { Se_Principal : Principal; Se_Token : string; Se_ExpiresAt : time }.

(** Rows; surrogate keys and time stamps that no statement reads are left out. *)
Record identity_row := mkIdentityRow {
  id_id : uuid; id_name : option string; id_email : option string; id_phone : option string; id_status : string
}.
Record credential_row := mkCredentialRow {
  cr_identity : uuid; cr_hash : string; cr_changed : time; cr_must : bool; cr_delivery : delivery; cr_updated : time
}.
Record membership_row := mkMembershipRow {
  mb_tenant : uuid; mb_identity : uuid; mb_role : string; mb_status : string; mb_created : time
}.
Record asession_row := mkASessionRow {
  se_id : uuid; se_tenant : uuid; se_identity : uuid; se_hash : string; se_expires : time; se_revoked : option time
}.
Record authdb := mkAuthdb {
  identities : list identity_row; credentials : list credential_row; memberships : list membership_row;
  asessions : list asession_row
}.
Definition set_identities l d := mkAuthdb l (credentials d) (memberships d) (asessions d).
Definition set_credentials l d := mkAuthdb (identities d) l (memberships d) (asessions d).
Definition set_memberships l d := mkAuthdb (identities d) (credentials d) l (asessions d).
Definition set_asessions l d := mkAuthdb (identities d) (credentials d) (memberships d) l.

(** The pattern ^\+[0-9]{8,15}$ *)
Definition e164 (s : string) : bool :=
  match list_ascii_of_string s with
  | "+"%char :: l =>
      forallb (λ c, match digit c with Some _ => true | None => false end) l
      && (8 <=? length l)%nat && (length l <=? 15)%nat
  | _ => false
  end.

(** ** Statements *)

Inductive auth_error := ANotFound | APg (e : pg_error).
#[export] Instance auth_error_eq_dec : EqDecision auth_error.
Proof. solve_decision. Defined.
#[export] Instance auth_from_pg : FromPg auth_error := APg.
Abbreviation AuM := (IO authdb auth_error).

Section Tables.
Context `{GoLib, AccountLib, Collation}.

Definition identity_check (r : identity_row) : bool :=
  match id_name r with None => true | Some n => (1 <=? rune_count n) && (rune_count n <=? 200) end
  && match id_phone r with None => true | Some p => e164 p end
  && ((id_status r ==? "active"%string) || (id_status r ==? "disabled"%string)).

Definition lower_email (r : identity_row) : option string := pg_lower <$> id_email r.

(** Rows that clash in the primary key or in one of the unique indexes. *)
Definition identity_clash (r x : identity_row) : bool :=
  (id_id x ==? id_id r) || same_text (id_email x) (id_email r) || same_text (lower_email x) (lower_email r)
  || same_text (id_phone x) (id_phone r).

(** INSERT ... ON CONFLICT DO NOTHING RETURNING id *)
Definition insert_identity (r : identity_row) (d : authdb) : res pg_error (uuid * authdb) :=
  if negb (opt_text (id_name r) && opt_text (id_email r) && opt_text (id_phone r)) then Err BadEncoding
  else if negb (identity_check r) then Err CheckViolation
  else if existsb (identity_clash r) (identities d) then Err NoRows
  else Ok (id_id r, set_identities (identities d ++ [r]) d).

Definition has_identity (d : authdb) (id : uuid) : bool := existsb (λ i, id_id i ==? id) (identities d).

Definition insert_credential (c : credential_row) (d : authdb) : res pg_error (unit * authdb) :=
  if negb (text_ok (cr_hash c)) then Err BadEncoding
  else if negb (delivery_check (cr_delivery c)) then Err CheckViolation
  else if existsb (λ x, cr_identity x ==? cr_identity c) (credentials d) then Err UniqueViolation
  else if negb (has_identity d (cr_identity c)) then Err ForeignKeyViolation
  else Ok (tt, set_credentials (credentials d ++ [c]) d).

Definition membership_check (m : membership_row) : bool :=
  Role_Valid (mb_role m) && ((mb_status m ==? "active"%string) || (mb_status m ==? "inactive"%string)).

Definition mkey (m : membership_row) : uuid * uuid := (mb_tenant m, mb_identity m).

(** INSERT ... ON CONFLICT(tenant_id,identity_id) DO NOTHING; the number of rows. *)
Definition insert_membership (tx : uuid) (m : membership_row) (d : authdb) : res pg_error (Z * authdb) :=
  if negb (text_ok (mb_role m)) then Err BadEncoding
  else if mb_tenant m !=? tx then Err RlsViolation
  else if negb (membership_check m) then Err CheckViolation
  else if existsb (λ x, mkey x ==? mkey m) (memberships d) then Ok (0, d)
  else if negb (has_identity d (mb_identity m)) then Err ForeignKeyViolation
  else Ok (1, set_memberships (memberships d ++ [m]) d).

(** The WHERE clause on a membership. *)
Definition member_of (tx t id : uuid) (q : membership_row -> bool) : membership_row -> bool :=
  rls mb_tenant tx (λ m, (mb_tenant m ==? t) && (mb_identity m ==? id) && q m).
Definition is_active (m : membership_row) : bool := mb_status m ==? "active"%string.

(** [JOIN public.identities AS i ON i.id=m.identity_id] *)
Definition join_identity (d : authdb) (l : list membership_row) : list (membership_row * identity_row) :=
  flat_map (λ m, map (pair m) (sel (λ i, id_id i ==? mb_identity m) (identities d))) l.

Definition to_member (x : membership_row * identity_row) : Member :=
  mkMember (id_id x.2) (or_empty (id_name x.2)) (or_empty (id_email x.2)) (or_empty (id_phone x.2)) (mb_role x.1)
    (mb_status x.1) (mb_created x.1).

(** The trigger [prevent_last_active_owner_change]. *)
Definition active_owner (m : membership_row) : bool := (mb_role m ==? RoleOwner) && is_active m.
Definition prevent_last_active_owner_change (d : authdb) (old new : membership_row) : bool :=
  active_owner old && ((mb_role new !=? RoleOwner) || negb (is_active new))
  && negb (existsb (λ m, (mb_tenant m ==? mb_tenant old) && (mb_identity m !=? mb_identity old) && active_owner m)
             (memberships d)).

(** UPDATE public.tenant_memberships ... FROM public.identities ... RETURNING *)
Definition update_membership (tx t id : uuid) (arg : string) (f : membership_row -> membership_row) (d : authdb)
  : res pg_error (Member * authdb) :=
  let p := member_of tx t id (λ m, has_identity d (mb_identity m)) in
  if negb (text_ok arg) then Err BadEncoding
  else if existsb (λ m, p m && prevent_last_active_owner_change d m (f m)) (memberships d) then Err CheckViolation
  else if existsb (λ m, p m && negb (membership_check (f m))) (memberships d) then Err CheckViolation
  else
    match head (join_identity d (map f (sel p (memberships d)))) with
    | None => Err NoRows
    | Some x => Ok (to_member x, set_memberships (upd p f (memberships d)) d)
    end.

Definition with_role (role : string) (m : membership_row) : membership_row :=
  mkMembershipRow (mb_tenant m) (mb_identity m) role (mb_status m) (mb_created m).
Definition with_status (status : string) (m : membership_row) : membership_row :=
  mkMembershipRow (mb_tenant m) (mb_identity m) (mb_role m) status (mb_created m).

(** UPDATE public.credentials SET ... WHERE identity_id=$1 AND q *)
Definition update_credential (id : uuid) (args : list string) (q : credential_row -> bool)
    (f : credential_row -> credential_row) (d : authdb) : res pg_error (Z * authdb) :=
  let p c := (cr_identity c ==? id) && q c in
  if negb (forallb text_ok args) then Err BadEncoding
  else if existsb (λ c, p c && negb (delivery_check (cr_delivery (f c)))) (credentials d) then Err CheckViolation
  else Ok (Z.of_nat (length (sel p (credentials d))), set_credentials (upd p f (credentials d)) d).

Definition cr_with_delivery (x : delivery) (c : credential_row) : credential_row :=
  mkCredentialRow (cr_identity c) (cr_hash c) (cr_changed c) (cr_must c) x (cr_updated c).
Definition cr_with_hash (hash : string) (changed : time) (must : bool) (updated : time) (c : credential_row)
  : credential_row :=
  mkCredentialRow (cr_identity c) hash changed must (cr_delivery c) updated.
Definition cr_claimed_by (claim : uuid) (c : credential_row) : bool := dl_token (cr_delivery c) ==? Some claim.

Definition skey (s : asession_row) : uuid * string := (se_tenant s, se_hash s).

Definition insert_asession (tx : uuid) (s : asession_row) (d : authdb) : res pg_error (uuid * authdb) :=
  if se_tenant s !=? tx then Err RlsViolation
  else if existsb (λ x, se_id x ==? se_id s) (asessions d) then Err UniqueViolation
  else if existsb (λ x, skey x ==? skey s) (asessions d) then Err UniqueViolation
  else if negb (has_identity d (se_identity s)) then Err ForeignKeyViolation
  else Ok (se_id s, set_asessions (asessions d ++ [s]) d).

Definition revoked (now : time) (s : asession_row) : asession_row :=
  mkASessionRow (se_id s) (se_tenant s) (se_identity s) (se_hash s) (se_expires s) (Some now).
Definition unrevoked (s : asession_row) : bool := match se_revoked s with None => true | Some _ => false end.

(** The function [revoke_identity_sessions], which runs with the rights of the
    owner of the tables and so sees the sessions of every tenant. *)
Definition revoke_identity_sessions (now : time) (id : uuid) (keep : option uuid) (d : authdb)
  : res pg_error (unit * authdb) :=
  Ok (tt, set_asessions
    (upd (λ s, (se_identity s ==? id) && unrevoked s && match keep with None => true | Some k => se_id s !=? k end)
       (revoked now) (asessions d)) d).

(** ** Repository *)

Record Credential := mkCredential {
  Cr_IdentityID : uuid; Cr_Name : string; Cr_Phone : string; Cr_Email : string; Cr_PasswordHash : string;
  Cr_MustChange : bool; Cr_Delivery : string; Cr_Active : bool
}.
Record RegistrationResult := mkRegistrationResult {
  RR_IdentityID : uuid; RR_CreatedIdentity : bool; RR_CreatedMembership : bool; RR_Role : string
}.

(** [pgx.ErrNoRows] is [ErrNotFound]. *)
Definition or_missing {A} (m : AuM A) : AuM A :=
  r ← attempt m;
  match r with
  | Ok v => mret v
  | Err (APg NoRows) => io_fail ANotFound
  | Err e => io_fail e
  end.

(** [public.identities i JOIN public.credentials c ON c.identity_id=i.id WHERE p] *)
Definition join_credential (p : identity_row -> bool) (d : authdb) : list (identity_row * credential_row) :=
  flat_map (λ i, map (pair i) (sel (λ c, cr_identity c ==? id_id i) (credentials d))) (sel p (identities d)).

Definition by_email (email : string) (i : identity_row) : bool :=
  same_text (lower_email i) (Some (pg_lower email)).

Definition to_credential (x : identity_row * credential_row) : Credential :=
  mkCredential (id_id x.1) (or_empty (id_name x.1)) (or_empty (id_phone x.1)) (or_empty (id_email x.1)) (cr_hash x.2)
    (cr_must x.2) (dl_status (cr_delivery x.2)) (id_status x.1 ==? "active"%string).

Definition ARepository_CredentialByEmail (email : string) : AuM Credential :=
  or_missing (autocommit (reading (λ d,
    if negb (text_ok email) then Err BadEncoding
    else or_no_rows (to_credential <$> head (join_credential (by_email email) d))))).

(** The identity a registration is for: a new one with its credential, or the
    stored one. *)
Definition register_identity (newID : uuid) (now : time) (name email phone hash : string) : AuM (uuid * bool) :=
  r ← attempt (stmt (insert_identity (mkIdentityRow newID (Some name) (Some email) (NULLIF_empty phone) "active")));
  match r with
  | Err (APg NoRows) =>
      id ← stmt (reading (λ d,
             if negb (text_ok email) then Err BadEncoding
             else or_no_rows (id_id <$> head (sel (by_email email) (identities d)))));
      mret (id, false)
  | Err e => io_fail e
  | Ok id =>
      stmt (insert_credential (mkCredentialRow id hash now true (mkDelivery "pending" 0 None None None (Some now)) now)) ;;
      mret (id, true)
  end.

Definition ARepository_Register (newID : uuid) (now : time) (t : uuid) (name email phone role hash : string)
  : AuM RegistrationResult :=
  WithTenantTx t (λ tx,
    x ← register_identity newID now name email phone hash;
    let '(id, createdIdentity) := x in
    n ← stmt (insert_membership tx (mkMembershipRow t id role "active" now));
    role ← stmt (reading (λ d,
             or_no_rows (mb_role <$> head (sel (member_of tx t id (λ _, true)) (memberships d)))));
    mret (mkRegistrationResult id createdIdentity (n =? 1) role)).

Definition ARepository_ClaimInitialDelivery (token : uuid) (now : time) (id : uuid) : AuM (uuid * bool) :=
  n ← autocommit (update_credential id [] (λ c, claimable now (cr_delivery c))
        (λ c, cr_with_delivery (claimed now token (cr_delivery c)) c));
  mret (token, n =? 1).

(** No row is [ErrNotFound]. *)
Definition some_row (n : Z) : AuM unit := if n =? 0 then io_fail ANotFound else mret tt.

Definition ARepository_MarkInitialDelivery (now : time) (id claim : uuid) (status problem : string) : AuM unit :=
  n ← autocommit (update_credential id [status; problem] (cr_claimed_by claim)
        (λ c, cr_with_delivery (marked now status problem (cr_delivery c)) c));
  some_row n.

Definition ARepository_ActivateRetriedCredential (now : time) (id claim : uuid) (hash : string) : AuM unit :=
  n ← autocommit (update_credential id [hash]
        (λ c, cr_claimed_by claim c && (dl_status (cr_delivery c) ==? "sending"%string))
        (λ c, cr_with_hash hash (cr_changed c) true now
                (cr_with_delivery (marked now "sent" EmptyString (cr_delivery c)) c)));
  some_row n.

(** ORDER BY i.name, i.email; NULLs come last. *)
Definition nulls_last (a b : option string) : bool :=
  match a, b with
  | Some x, Some y => name_rank x <=? name_rank y
  | None, Some _ => false
  | _, None => true
  end.
Definition name_email_le (x y : membership_row * identity_row) : bool :=
  nulls_last (id_name x.2) (id_name y.2)
  && (negb (nulls_last (id_name y.2) (id_name x.2)) || nulls_last (id_email x.2) (id_email y.2)).

Definition ARepository_Members (t : uuid) : AuM (list Member) :=
  WithTenantTx t (λ tx, query (λ d,
    map to_member (sort_with name_email_le
      (join_identity d (sel (rls mb_tenant tx (λ m, mb_tenant m ==? t)) (memberships d)))))).

(** A row of the owner list; a missing address cannot be scanned. *)
Definition to_owner (x : membership_row * identity_row * credential_row) : option OwnerState :=
  match id_email x.1.2 with
  | None => None
  | Some email =>
      Some (mkOwnerState (id_id x.1.2) (or_empty (id_name x.1.2)) email (id_status x.1.2) (mb_status x.1.1)
              (cr_must x.2) (dl_status (cr_delivery x.2)))
  end.

Definition ARepository_Owners (t : uuid) : AuM (list OwnerState) :=
  WithTenantTx t (λ tx, stmt (reading (λ d,
    let rows := flat_map (λ x, map (pair x) (sel (λ c, cr_identity c ==? id_id x.2) (credentials d)))
                  (join_identity d (sel (rls mb_tenant tx (λ m, (mb_tenant m ==? t) && (mb_role m ==? RoleOwner)))
                     (memberships d))) in
    match mapM to_owner (sort_with (λ x y, nulls_last (id_email x.1.2) (id_email y.1.2)) rows) with
    | Some l => Ok l
    | None => Err ScanError
    end))).

Definition ARepository_Member (t id : uuid) : AuM Member :=
  WithTenantTx t (λ tx, or_missing (stmt (reading (λ d,
    or_no_rows (to_member <$> head (join_identity d (sel (member_of tx t id (λ _, true)) (memberships d)))))))).

Definition ARepository_ChangeMemberRole (t id : uuid) (role : string) : AuM Member :=
  WithTenantTx t (λ tx, or_missing (stmt (update_membership tx t id role (with_role role)))).

Definition ARepository_SetMemberStatus (t id : uuid) (status : string) : AuM Member :=
  WithTenantTx t (λ tx, or_missing (stmt (update_membership tx t id status (with_status status)))).

Definition ARepository_BarberEligible (t id : uuid) : AuM bool :=
  WithTenantTx t (λ tx, query (λ d,
    existsb (member_of tx t id (λ m, (mb_role m ==? RoleBarber) && is_active m)) (memberships d))).

(** The generated query: the role of an active membership. *)
Definition FindActiveMembership (tx t id : uuid) : AuM string :=
  stmt (reading (λ d, or_no_rows (mb_role <$> head (sel (member_of tx t id is_active) (memberships d))))).

Definition active_identity (id : uuid) (i : identity_row) : bool :=
  (id_id i ==? id) && (id_status i ==? "active"%string).

Definition ARepository_CreateSession (newID t id : uuid) (tokenHash : string) (expires : time) : AuM Principal :=
  WithTenantTx t (λ tx,
    role ← or_missing (FindActiveMembership tx t id);
    x ← or_missing (stmt (reading (λ d, or_no_rows (head (join_credential (active_identity id) d)))));
    sid ← stmt (insert_asession tx (mkASessionRow newID t id tokenHash (pg_ts expires) None));
    mret (mkPrincipal id (or_empty (id_name x.1)) (or_empty (id_email x.1)) (or_empty (id_phone x.1)) (cr_must x.2)
            role t sid)).

(** The WHERE clause on a session; a NULL digest equals nothing. *)
Definition session_live (now : time) (tokenHash : option string) (s : asession_row) : bool :=
  match tokenHash with Some h => se_hash s ==? h | None => false end && unrevoked s && (now <? se_expires s).

(** The joins of Session. *)
Definition session_rows (now : time) (tx t : uuid) (tokenHash : option string) (d : authdb)
  : list (asession_row * (identity_row * credential_row) * membership_row) :=
  flat_map (λ s,
    flat_map (λ ic,
      map (pair (s, ic))
        (sel (rls mb_tenant tx (λ m, (mb_tenant m ==? se_tenant s) && (mb_identity m ==? se_identity s) && is_active m))
           (memberships d)))
      (join_credential (active_identity (se_identity s)) d))
    (sel (rls se_tenant tx (λ s, (se_tenant s ==? t) && session_live now tokenHash s)) (asessions d)).

Definition to_principal (t : uuid) (x : asession_row * (identity_row * credential_row) * membership_row) : Principal :=
  let '(s, (i, c), m) := x in
  mkPrincipal (se_identity s) (or_empty (id_name i)) (or_empty (id_email i)) (or_empty (id_phone i)) (cr_must c)
    (mb_role m) t (se_id s).

Definition ARepository_Session (now : time) (t : uuid) (tokenHash : option string) : AuM Principal :=
  WithTenantTx t (λ tx, or_missing (stmt (reading (λ d,
    or_no_rows (to_principal t <$> head (session_rows now tx t tokenHash d)))))).

Definition ARepository_RevokeSession (now : time) (t : uuid) (tokenHash : option string) : AuM unit :=
  WithTenantTx t (λ tx, stmt (λ d, Ok (tt, set_asessions
    (upd (rls se_tenant tx (λ s, (se_tenant s ==? t)
            && match tokenHash with Some h => se_hash s ==? h | None => false end && unrevoked s))
       (revoked now) (asessions d)) d))).

(** [SELECT EXISTS(...)] on an active membership. *)
Definition active_member (tx t id : uuid) : AuM bool :=
  query (λ d, existsb (member_of tx t id is_active) (memberships d)).

Definition ARepository_HasActiveMembership (t id : uuid) : AuM bool :=
  WithTenantTx t (λ tx, active_member tx t id).

Definition ARepository_ChangePassword (now : time) (t id keepSessionID : uuid) (hash : string) : AuM unit :=
  WithTenantTx t (λ tx,
    active ← active_member tx t id;
    if negb (active : bool) then io_fail ANotFound
    else
      stmt (update_credential id [hash] (λ _, true) (cr_with_hash hash now false now)) ;;
      stmt (revoke_identity_sessions now id (Some keepSessionID))).

Definition ARepository_ResetPassword (now : time) (t id : uuid) (hash : string) : AuM bool :=
  WithTenantTx t (λ tx,
    active ← active_member tx t id;
    if negb (active : bool) then mret false
    else
      stmt (update_credential id [hash] (λ _, true) (cr_with_hash hash now true now)) ;;
      stmt (revoke_identity_sessions now id None) ;;
      mret true).
End Tables.

(** ** Service *)

Inductive auapp_error :=
  AErrUnauthorized | AErrInvalidInput | AErrForbidden | AErrDeliveryUnavailable | AErrDeliveryInProgress
| AErrNotFound | AErrOther.
#[export] Instance auapp_error_eq_dec : EqDecision auapp_error.
Proof. solve_decision. Defined.
Abbreviation AuApp := (IO (world authdb) auapp_error).

(** An error of the repository that is passed on. *)
Definition apassed (e : auth_error) : auapp_error :=
  match e with ANotFound => AErrNotFound | APg _ => AErrOther end.
(** [ErrNotFound] of the repository is [ErrUnauthorized]. *)
Definition unauthorized (e : auth_error) : auapp_error :=
  match e with ANotFound => AErrUnauthorized | APg _ => AErrOther end.

(** [as_email]: a sender is configured. *)
Record AuthService := mkAuthService { as_sessionTTL : duration; as_email : bool }.

Section AuthApplication.
Context `{GoLib, AccountLib, Collation} (s : AuthService).

Definition auth_normalizeEmail (value : string) : option string :=
  let value := ToLower (TrimSpace value) in
  match ParseAddress value with
  | None => None
  | Some address => if (address !=? value) || (320 <? Z.of_nat (String.length value)) then None else Some value
  end.

Definition staffRole (role : string) : bool :=
  (role ==? RoleManager) || (role ==? RoleBarber) || (role ==? RoleReceptionist).

Definition validateNewPassword (password : string) : bool :=
  negb ((Z.of_nat (String.length password) <? 10) || (256 <? Z.of_nat (String.length password))).

Definition validateRegistration (input : RegisterInput) : option (string * string * string) :=
  let name := TrimSpace (RI_Name input) in
  if (name ==? EmptyString) || (200 <? rune_count name) then None
  else
    match auth_normalizeEmail (RI_Email input) with
    | None => None
    | Some email => if negb (staffRole (RI_Role input)) then None else Some (name, email, RI_Role input)
    end.

(** [dr_random] are the bytes drawn. *)
Definition newPassword (x : draw) : option string := base64_Encode <$> dr_random x.
Definition hashPassword (x : draw) (password : string) : option string := bcrypt_Generate (dr_salt x) password.
Definition newToken (x : draw) : option (string * string) := (λ b, (base64_Encode b, sha256 b)) <$> dr_random x.
Definition tokenDigest (token : string) : option string := sha256 <$> base64_Decode token.

Definition initialPasswordMessage (email password : string) (id : uuid) : Message :=
  mkMessage email "Your initial password"
    ("Your initial password is: " +:+ password +:+ newline +:+ "You must change it after signing in.")
    "user_initial_password" (uuid_String id).
Definition passwordResetMessage (email password key : string) : Message :=
  mkMessage email "Password reset"
    ("Your temporary password is: " +:+ password +:+ newline +:+ "You must change it after signing in.")
    "user_password_reset" key.

Definition Auth_Login (x : draw) (t : uuid) (email password : string) : AuApp Session :=
  match auth_normalizeEmail email with
  | None => io_fail AErrUnauthorized
  | Some email =>
      if password ==? EmptyString then io_fail AErrUnauthorized
      else
        found ← try_repo (ARepository_CredentialByEmail email);
        match found with
        | Err _ => io_fail AErrUnauthorized
        | Ok cred =>
            if negb (Cr_Active cred) || negb (bcrypt_Compare (Cr_PasswordHash cred) password)
            then io_fail AErrUnauthorized
            else
              match newToken x with
              | None => io_fail AErrOther
              | Some (token, tokenHash) =>
                  let expiresAt := Add (dr_clock x) (as_sessionTTL s) in
                  principal ← repo unauthorized
                    (ARepository_CreateSession (dr_id x) t (Cr_IdentityID cred) tokenHash expiresAt);
                  mret (mkSession principal token expiresAt)
              end
        end
  end.

(** Draw a password and its hash. *)
Definition fresh_password {A} (x : draw) (k : string -> string -> AuApp A) : AuApp A :=
  match newPassword x with
  | None => io_fail AErrOther
  | Some password =>
      match hashPassword x password with
      | None => io_fail AErrOther
      | Some hash => k password hash
      end
  end.

(** Mail the initial password of an identity, then [settle]. *)
Definition mail_initial {A} (x : draw) (email password : string) (id claim : uuid) (settle : AuApp A) : AuApp A :=
  sent ← deliver (dr_mail x) (initialPasswordMessage email password id);
  if negb (sent : bool) then
    try_repo (ARepository_MarkInitialDelivery (time3 x) id claim "failed" "email provider unavailable") ;;
    io_fail AErrDeliveryUnavailable
  else settle.

(** The branch for an address that is known. *)
Definition register_existing (x : draw) (t : uuid) (name email phone role : string) (existing : Credential)
  : AuApp Registration :=
  result ← repo apassed (ARepository_Register (dr_id x) (time1 x) t name email phone role EmptyString);
  let reply scheduled :=
    mkRegistration (RR_IdentityID result) (RR_CreatedMembership result) scheduled (RR_Role result) in
  if Cr_Delivery existing ==? "sent"%string then mret (reply false)
  else
    cl ← repo apassed (ARepository_ClaimInitialDelivery (dr_claim x) (time2 x) (RR_IdentityID result));
    let '(claim, claimed) := cl in
    if negb (claimed : bool) then io_fail AErrDeliveryInProgress
    else
      fresh_password x (λ password hash,
        mail_initial x email password (RR_IdentityID result) claim (
          repo apassed (ARepository_ActivateRetriedCredential (time3 x) (RR_IdentityID result) claim hash) ;;
          mret (reply true))).

(** The branch for a new address. *)
Definition register_new (x : draw) (t : uuid) (name email phone role : string) : AuApp Registration :=
  fresh_password x (λ password hash,
    result ← repo apassed (ARepository_Register (dr_id x) (time1 x) t name email phone role hash);
    let reply scheduled :=
      mkRegistration (RR_IdentityID result) (RR_CreatedMembership result) scheduled (RR_Role result) in
    if negb (RR_CreatedIdentity result) then mret (reply false)
    else
      cl ← repo apassed (ARepository_ClaimInitialDelivery (dr_claim x) (time2 x) (RR_IdentityID result));
      let '(claim, claimed) := cl in
      if negb (claimed : bool) then io_fail AErrDeliveryInProgress
      else
        mail_initial x email password (RR_IdentityID result) claim (
          repo apassed (ARepository_MarkInitialDelivery (time3 x) (RR_IdentityID result) claim "sent" EmptyString) ;;
          mret (reply true))).

Definition Auth_Register (x : draw) (t : uuid) (actor : Principal) (input : RegisterInput) : AuApp Registration :=
  if (Pr_TenantID actor !=? t) || (Pr_Role actor !=? RoleOwner) then io_fail AErrForbidden
  else
    match validateRegistration input with
    | None => io_fail AErrInvalidInput
    | Some (name, email, role) =>
        if negb (as_email s) then io_fail AErrDeliveryUnavailable
        else
          found ← try_repo (ARepository_CredentialByEmail email);
          match found with
          | Ok existing => register_existing x t name email (RI_Phone input) role existing
          | Err ANotFound => register_new x t name email (RI_Phone input) role
          | Err _ => io_fail AErrOther
          end
    end.

Definition Auth_Members (t : uuid) : AuApp (list Member) := repo apassed (ARepository_Members t).
Definition Auth_Owners (t : uuid) : AuApp (list OwnerState) := repo apassed (ARepository_Owners t).
Definition Auth_Member (t id : uuid) : AuApp Member := repo apassed (ARepository_Member t id).

Definition Auth_ChangeMemberRole (t : uuid) (actor : Principal) (target : uuid) (role : string) : AuApp Member :=
  if (Pr_TenantID actor !=? t) || (Pr_Role actor !=? RoleOwner) || (Pr_IdentityID actor ==? target)
     || negb (staffRole role)
  then io_fail AErrForbidden
  else
    m ← repo apassed (ARepository_Member t target);
    if Mem_Role m ==? RoleOwner then io_fail AErrForbidden
    else repo apassed (ARepository_ChangeMemberRole t target role).

Definition Auth_SetMemberStatus (t : uuid) (actor : Principal) (target : uuid) (active : bool) : AuApp Member :=
  if (Pr_TenantID actor !=? t) || (Pr_Role actor !=? RoleOwner) || (Pr_IdentityID actor ==? target)
  then io_fail AErrForbidden
  else
    m ← repo apassed (ARepository_Member t target);
    if Mem_Role m ==? RoleOwner then io_fail AErrForbidden
    else repo apassed (ARepository_SetMemberStatus t target (if active then "active" else "inactive")).

Definition Auth_BarberEligible (t id : uuid) : AuApp bool := repo apassed (ARepository_BarberEligible t id).

Definition Auth_ChangePassword (x : draw) (t : uuid) (principal : Principal) (current next : string) : AuApp unit :=
  if negb (validateNewPassword next) || (current ==? EmptyString) then io_fail AErrInvalidInput
  else
    found ← try_repo (ARepository_CredentialByEmail (Pr_Email principal));
    match found with
    | Err _ => io_fail AErrUnauthorized
    | Ok cred =>
        if (Cr_IdentityID cred !=? Pr_IdentityID principal) || negb (Cr_Active cred)
           || negb (bcrypt_Compare (Cr_PasswordHash cred) current)
        then io_fail AErrUnauthorized
        else
          match hashPassword x next with
          | None => io_fail AErrOther
          | Some hash =>
              repo unauthorized (ARepository_ChangePassword (time1 x) t (Pr_IdentityID principal)
                                   (Pr_SessionID principal) hash)
          end
    end.

(** Every failed lookup leaves [identity.Active] false, which is checked before
    the error. *)
Definition Auth_ForgotPassword (x : draw) (t : uuid) (email : string) : AuApp unit :=
  match auth_normalizeEmail email with
  | None => mret tt
  | Some email =>
      if negb (as_email s) then mret tt
      else
        found ← try_repo (ARepository_CredentialByEmail email);
        match found with
        | Err _ => mret tt
        | Ok cred =>
            if negb (Cr_Active cred) then mret tt
            else
              active ← repo apassed (ARepository_HasActiveMembership t (Cr_IdentityID cred));
              if negb (active : bool) then mret tt
              else
                fresh_password x (λ password hash,
                  sent ← deliver (dr_mail x) (passwordResetMessage email password (dr_key x));
                  if negb (sent : bool) then io_fail AErrDeliveryUnavailable
                  else
                    repo apassed (ARepository_ResetPassword (time1 x) t (Cr_IdentityID cred) hash) ;;
                    mret tt)
        end
  end.

Definition Auth_Current (now : time) (t : uuid) (token : string) : AuApp Principal :=
  if token ==? EmptyString then io_fail AErrUnauthorized
  else repo unauthorized (ARepository_Session now t (tokenDigest token)).

Definition Auth_Logout (now : time) (t : uuid) (token : string) : AuApp unit :=
  if token ==? EmptyString then mret tt
  else repo apassed (ARepository_RevokeSession now t (tokenDigest token)).
End AuthApplication.

(** ** Handlers *)

Record AuthHandler := mkAuthHandler {
  ah_service : AuthService; ah_verify : MultiTokenVerifier; ah_cookieName : string; ah_cookieSecure : bool;
  ah_limiter : bool
}.

(** The bodies of the replies. *)
Inductive auth_json :=
| JPrincipal (cookie : option SetCookie) (p : Principal)
| JRegistration (message : string) (r : Registration)
| JMembers (l : list Member)
| JMember (m : Member)
| JOwners (l : list OwnerState)
| JPasswordChangeRequired
| JCleared (cookie : SetCookie).
Abbreviation AuReply := (AuApp (Response auth_json)).

Section AuthHandlers.
Context `{GoLib, AccountLib, Collation} (h : AuthHandler).

Definition trustedContext {B} (r : Request B) : option TenantContext :=
  if negb (Verify (ah_verify h) (Header r InternalTokenHeader)) then None
  else
    match tenantctx_New (Header r TenantIDHeader) (Header r AppTypeHeader) (Header r RequestIDHeader) with
    | None => None
    | Some t => if AppType t !=? "admin"%string then None else Some t
    end.

Definition session_cookie {B} (r : Request B) : string :=
  cookie_value (Header r "Cookie"%string) (ah_cookieName h).

Definition setCookie (after : time) (value : string) (expiresAt : time) : SetCookie :=
  mkSetCookie (ah_cookieName h) value (ah_cookieSecure h) (Z.quot (expiresAt - after) Second).
Definition clearCookie : SetCookie := mkSetCookie (ah_cookieName h) EmptyString (ah_cookieSecure h) (-1).

(** The rate limit in front of a handler. *)
Definition au_limited (now : time) (t : TenantContext) (operation : string) (m : AuReply) : AuReply :=
  allowed ← limited (ah_limiter h) now ("auth-rate:" +:+ uuid_String (TenantID t) +:+ ":" +:+ operation);
  match allowed with
  | None => mret (SendStatus 503)
  | Some false => mret (SendStatus 429)
  | Some true => m
  end.

(** The reply for the outcome of a use case. *)
Definition au_reply {A} (m : AuApp A) (fail : auapp_error -> Z) (ok : A -> Response auth_json) : AuReply :=
  r ← attempt m; mret (match r with Ok a => ok a | Err e => SendStatus (fail e) end).

Definition platformOwners {B} (r : Request B) : AuReply :=
  if negb (Verify (ah_verify h) (Header r InternalTokenHeader)) then mret (SendStatus 401)
  else
    match uuid_Parse (Params r "id"%string) with
    | None => mret (SendStatus 400)
    | Some id => au_reply (Auth_Owners id) (λ _, 500) (λ l, SendJSON 200 (JOwners l))
    end.

(** [after] is the clock when the cookie is written. *)
Definition au_login (x : draw) (after : time) (r : Request (string * string)) : AuReply :=
  match trustedContext r with
  | None => mret (SendStatus 401)
  | Some t =>
      au_limited (dr_clock x) t "login"
        match Body r with
        | None => mret (SendStatus 400)
        | Some (email, password) =>
            if (email ==? EmptyString) || (password ==? EmptyString) then mret (SendStatus 400)
            else
              au_reply (Auth_Login (ah_service h) x (TenantID t) email password)
                (λ e, match e with AErrUnauthorized => 401 | _ => 500 end)
                (λ s, SendJSON 200 (JPrincipal (Some (setCookie after (Se_Token s) (Se_ExpiresAt s))) (Se_Principal s)))
        end
  end.

Definition register_status (e : auapp_error) : Z :=
  match e with
  | AErrInvalidInput => 400
  | AErrForbidden => 403
  | AErrDeliveryUnavailable => 503
  | AErrDeliveryInProgress => 409
  | _ => 500
  end.

Definition au_register (x : draw) (r : Request RegisterInput) (principal : Principal) : AuReply :=
  match trustedContext r with
  | None => mret (SendStatus 401)
  | Some t =>
      au_limited (dr_clock x) t "register"
        match Body r with
        | None => mret (SendStatus 400)
        | Some input =>
            au_reply (Auth_Register (ah_service h) x (TenantID t) principal input) register_status
              (λ g, SendJSON (if Rg_MembershipCreated g then 201 else 200)
                 (JRegistration (if Rg_CredentialScheduled g
                                 then "Initial login credentials have been sent to the user's email."
                                 else "Membership created for the existing identity.") g))
        end
  end.

Definition au_members {B} (r : Request B) : AuReply :=
  match trustedContext r with
  | None => mret (SendStatus 401)
  | Some t => au_reply (Auth_Members (TenantID t)) (λ _, 500) (λ l, SendJSON 200 (JMembers l))
  end.

Definition memberID {B} (r : Request B) : option uuid := uuid_Parse (Params r "id"%string).

Definition member_status (e : auapp_error) : Z :=
  match e with AErrForbidden => 403 | AErrNotFound => 404 | _ => 500 end.

(** The trusted tenant and the member a request names. *)
Definition on_member {B} (r : Request B) (k : TenantContext -> uuid -> AuReply) : AuReply :=
  match trustedContext r with
  | None => mret (SendStatus 401)
  | Some t => match memberID r with None => mret (SendStatus 400) | Some id => k t id end
  end.

Definition au_member {B} (r : Request B) : AuReply :=
  on_member r (λ t id, au_reply (Auth_Member (TenantID t) id) (λ e, match e with AErrNotFound => 404 | _ => 500 end)
                         (λ m, SendJSON 200 (JMember m))).

Definition changeMemberRole (r : Request string) (principal : Principal) : AuReply :=
  on_member r (λ t id,
    match Body r with
    | None => mret (SendStatus 400)
    | Some role =>
        au_reply (Auth_ChangeMemberRole (TenantID t) principal id role) member_status (λ m, SendJSON 200 (JMember m))
    end).

Definition setMemberStatus {B} (r : Request B) (principal : Principal) (active : bool) : AuReply :=
  on_member r (λ t id,
    au_reply (Auth_SetMemberStatus (TenantID t) principal id active) member_status (λ m, SendJSON 200 (JMember m))).
Definition activateMember {B} (r : Request B) (principal : Principal) : AuReply := setMemberStatus r principal true.
Definition deactivateMember {B} (r : Request B) (principal : Principal) : AuReply := setMemberStatus r principal false.

Definition barberEligibility {B} (r : Request B) : AuReply :=
  match trustedContext r, memberID r with
  | Some t, Some id =>
      au_reply (Auth_BarberEligible (TenantID t) id) (λ _, 500)
        (λ eligible, SendStatus (if eligible : bool then 204 else 404))
  | _, _ => mret (SendStatus 401)
  end.

Definition au_changePassword (x : draw) (r : Request (string * string)) (principal : Principal) : AuReply :=
  match trustedContext r with
  | None => mret (SendStatus 401)
  | Some t =>
      match Body r with
      | None => mret (SendStatus 400)
      | Some (current, next) =>
          au_reply (Auth_ChangePassword x (TenantID t) principal current next)
            (λ e, match e with AErrInvalidInput => 400 | AErrUnauthorized => 401 | _ => 500 end)
            (λ _, SendStatus 204)
      end
  end.

Definition forgotPassword (x : draw) (r : Request string) : AuReply :=
  match trustedContext r with
  | None => mret (SendStatus 401)
  | Some t =>
      au_limited (dr_clock x) t "forgot-password"
        match Body r with
        | None => mret (SendStatus 400)
        | Some email =>
            if email ==? EmptyString then mret (SendStatus 400)
            else au_reply (Auth_ForgotPassword (ah_service h) x (TenantID t) email) (λ _, 503) (λ _, SendStatus 204)
        end
  end.

Definition au_logout {B} (now : time) (r : Request B) : AuReply :=
  match trustedContext r with
  | None => mret (SendStatus 401)
  | Some t =>
      au_reply (Auth_Logout now (TenantID t) (session_cookie r)) (λ _, 500) (λ _, SendJSON 204 (JCleared clearCookie))
  end.

Definition au_me (principal : Principal) : AuReply := mret (SendJSON 200 (JPrincipal None principal)).

(** *** Middleware *)

Definition au_Authenticate {B} (now : time) (r : Request B) (next : Principal -> AuReply) : AuReply :=
  match trustedContext r with
  | None => mret (SendStatus 401)
  | Some t =>
      found ← attempt (Auth_Current now (TenantID t) (session_cookie r));
      match found with
      | Ok principal => next principal
      | Err AErrUnauthorized => mret (SendStatus 401)
      | Err _ => mret (SendStatus 500)
      end
  end.

Definition RequireCurrentPassword (next : Principal -> AuReply) (principal : Principal) : AuReply :=
  if Pr_MustChange principal then mret (SendJSON 403 JPasswordChangeRequired) else next principal.

Definition RequireRoles (allowed : list string) (next : Principal -> AuReply) (principal : Principal) : AuReply :=
  if existsb (λ role, Pr_Role principal ==? role) allowed then next principal else mret (SendStatus 403).

(** *** [Handler.Register] *)

Inductive auth_route :=
| PostLogin (r : Request (string * string))
| PostLogout (r : Request unit)
| GetMe (r : Request unit)
| PostRegister (r : Request RegisterInput)
| GetMembers (r : Request unit)
| GetMember (r : Request unit)
| PostMembers (r : Request RegisterInput)
| PatchMemberRole (r : Request string)
| PostActivate (r : Request unit)
| PostDeactivate (r : Request unit)
| GetBarberEligibility (r : Request unit)
| PostChangePassword (r : Request (string * string))
| PostForgotPassword (r : Request string)
| GetPlatformOwners (r : Request unit).

Definition owner_route {B} (now : time) (r : Request B) (next : Principal -> AuReply) : AuReply :=
  au_Authenticate now r (RequireCurrentPassword (RequireRoles [RoleOwner] next)).

(** [now] is the clock of the database at the first statement. *)
Definition au_serve (now after : time) (x : draw) (route : auth_route) : AuReply :=
  match route with
  | PostLogin r => au_login x after r
  | PostLogout r => au_logout now r
  | GetMe r => au_Authenticate now r au_me
  | PostRegister r => owner_route now r (au_register x r)
  | GetMembers r => owner_route now r (λ _, au_members r)
  | GetMember r => owner_route now r (λ _, au_member r)
  | PostMembers r => owner_route now r (au_register x r)
  | PatchMemberRole r => owner_route now r (changeMemberRole r)
  | PostActivate r => owner_route now r (activateMember r)
  | PostDeactivate r => owner_route now r (deactivateMember r)
  | GetBarberEligibility r => barberEligibility r
  | PostChangePassword r => au_Authenticate now r (au_changePassword x r)
  | PostForgotPassword r => forgotPassword x r
  | GetPlatformOwners r => platformOwners r
  end.
End AuthHandlers.

(** ** Configuration *)

Record AuthConfig := mkAuthConfig { ac_CookieName : string; ac_CookieSecure : bool; ac_SessionTTL : duration }.

(** [strconv.ParseBool] *)
Definition ParseBool (s : string) : option bool :=
  if existsb (String.eqb s) ["1"; "t"; "T"; "TRUE"; "true"; "True"]%string then Some true
  else if existsb (String.eqb s) ["0"; "f"; "F"; "FALSE"; "false"; "False"]%string then Some false
  else None.

Definition boolValue (getenv : string -> string) (key : string) (fallback : bool) : bool :=
  match ParseBool (getenv key) with Some b => b | None => fallback end.
Definition intValue (getenv : string -> string) (key : string) (fallback : Z) : Z :=
  match Atoi (getenv key) with Some n => if n <? 1 then fallback else n | None => fallback end.
Definition auth_value (getenv : string -> string) (key fallback : string) : string :=
  if getenv key !=? EmptyString then getenv key else fallback.

Definition auth_Load (getenv : string -> string) : AuthConfig :=
  mkAuthConfig (auth_value getenv "AUTH_COOKIE_NAME" "__Host-barber_session")
    (boolValue getenv "AUTH_COOKIE_SECURE" true)
    (int64 (intValue getenv "AUTH_SESSION_TTL_HOURS" 24 * Hour)).
