(* ===== verification/AuthAccounts.v ===== *)
(** * AuthAccounts: what no request to the auth service can break

    The invariant of its tables, and what a request may change: who is an
    owner stays as it is, memberships change only for an owner of the tenant,
    passwords only for someone who knows or receives one, and sessions are
    opened only by a sign-in. *)
From S2P Require Import Prelude Effects GoTime Http Platform Accounts Auth.

Local Open Scope Z_scope.

Section Accounts.
Context `{GoLib, AccountLib, Collation}.

(** ** The invariant *)

Record auth_ok (d : authdb) : Prop := mkAuthOk {
  au_ids : NoDup (map id_id (identities d));
  au_emails : ∀ x y, x ∈ identities d → y ∈ identities d → same_text (lower_email x) (lower_email y) = true → x = y;
  au_phones : ∀ x y, x ∈ identities d → y ∈ identities d → same_text (id_phone x) (id_phone y) = true → x = y;
  au_ichecks : ∀ x, x ∈ identities d → identity_check x = true;
  au_creds : NoDup (map cr_identity (credentials d));
  au_cchecks : ∀ c, c ∈ credentials d →
    delivery_check (cr_delivery c) = true ∧ claim_check (cr_delivery c) = true ∧ has_identity d (cr_identity c) = true;
  au_mkeys : NoDup (map mkey (memberships d));
  au_mchecks : ∀ m, m ∈ memberships d → membership_check m = true ∧ has_identity d (mb_identity m) = true;
  au_sids : NoDup (map se_id (asessions d));
  au_skeys : NoDup (map skey (asessions d));
  au_schecks : ∀ s, s ∈ asessions d → has_identity d (se_identity s) = true
}.

(** ** What a request may change *)

(** The tenants whose memberships may change, the identities whose password may
    be replaced, whether an undelivered initial password may be replaced, the
    sessions that may be opened and those that may be ended. *)
Record allowance := mkAllowance {
  al_members : uuid -> Prop; al_password : uuid -> Prop; al_redeliver : Prop;
  al_open : asession_row -> Prop; al_end : uuid -> uuid -> string -> Prop
}.

Definition owners (d : authdb) : list membership_row := sel (λ m, mb_role m ==? RoleOwner) (memberships d).
Definition members_of (u : uuid) (d : authdb) : list membership_row := sel (λ m, mb_tenant m ==? u) (memberships d).
Definition delivered (c : credential_row) : Prop := dl_status (cr_delivery c) = "sent"%string.

Record auth_moves (a : allowance) (d d' : authdb) : Prop := mkAuthMoves {
  mv_identities : ∃ l, identities d' = identities d ++ l;
  mv_owners : owners d' = owners d;
  mv_members : ∀ u, ¬ al_members a u → members_of u d' = members_of u d;
  mv_kept : ∀ m, m ∈ memberships d → ∃ m', m' ∈ memberships d' ∧ mkey m' = mkey m;
  mv_credentials : ∀ c, c ∈ credentials d → ∃ c', c' ∈ credentials d' ∧ cr_identity c' = cr_identity c ∧
    (delivered c → delivered c') ∧
    (cr_hash c' = cr_hash c ∨ al_password a (cr_identity c) ∨ ¬ delivered c ∧ al_redeliver a);
  mv_opened : ∀ s, s ∈ asessions d' → unrevoked s = true → s ∈ asessions d ∨ al_open a s;
  mv_ended : ∀ s, s ∈ asessions d → s ∈ asessions d' ∨
    ∃ now, revoked now s ∈ asessions d' ∧ al_end a (se_tenant s) (se_identity s) (se_hash s)
}.

Definition auth_good (a : allowance) (d d' : authdb) : Prop := auth_ok d → auth_ok d' ∧ auth_moves a d d'.

Lemma auth_moves_refl a d : auth_moves a d d.
Proof.
  constructor; try done; [exists []; by rewrite app_nil_r|by eauto| |by left|by left].
  intros c Hc. exists c. auto.
Qed.

Lemma auth_moves_trans a d1 d2 d3 : auth_moves a d1 d2 → auth_moves a d2 d3 → auth_moves a d1 d3.
Proof.
  intros [[l1 I1] O1 M1 K1 C1 S1 E1] [[l2 I2] O2 M2 K2 C2 S2 E2]. constructor.
  - exists (l1 ++ l2). by rewrite I2, I1, app_assoc.
  - congruence.
  - intros u Hu. by rewrite M2, M1.
  - intros m Hm. destruct (K1 m Hm) as (m1 & Hm1 & <-). destruct (K2 m1 Hm1) as (m2 & Hm2 & ?). eauto.
  - intros c Hc. destruct (C1 c Hc) as (c1 & Hc1 & I & D & P). destruct (C2 c1 Hc1) as (c2 & Hc2 & I' & D' & P').
    exists c2. split; [done|]. split; [congruence|]. split; [auto|].
    destruct P as [P|P]; [|by right]. destruct P' as [P'|[P'|[P' R]]]; [left; congruence|rewrite I in P'; auto|].
    right. right. split; [|done]. auto.
  - intros s Hs Hr. destruct (S2 s Hs Hr) as [Hs'|]; [|by right]. by apply S1.
  - intros s Hs. destruct (E1 s Hs) as [Hs1|(n1 & Hs1 & A)].
    + by apply E2.
    + right. destruct (E2 _ Hs1) as [Hs2|(n2 & Hs2 & _)]; [by exists n1|by exists n2].
Qed.

#[global] Instance auth_good_preorder a : PreOrder (auth_good a).
Proof.
  split.
  - intros d Hd. by split; [|apply auth_moves_refl].
  - intros x y z H1' H2' Hx. destruct (H1' Hx) as [Hy M1]. destruct (H2' Hy) as [Hz M2].
    split; [done|]. by eapply auth_moves_trans.
Qed.

(** ** Statements *)

Lemma has_identity_iff d id : has_identity d id = true ↔ ∃ i, i ∈ identities d ∧ id_id i = id.
Proof.
  unfold has_identity. rewrite existsb_elem. split; intros (i & Hi & E); exists i; (split; [done|]).
  - by bsimpl.
  - by rewrite E, bool_decide_refl.
Qed.

Lemma text_clash a b : same_text a b = true ↔ ∃ s, a = Some s ∧ b = Some s.
Proof.
  destruct a as [x|], b as [y|]; cbn; split; try done; try (intros (s & ? & ?); done).
  - intros E. bsimpl. subst. by exists y.
  - intros (s & [= ->] & [= ->]). apply bool_decide_refl.
Qed.

Lemma insert_identity_good a r d x d' : insert_identity r d = Ok (x, d') → auth_good a d d'.
Proof.
  unfold insert_identity. destruct (negb _); [done|]. destruct (identity_check r) eqn:Ec; cbn [negb]; [|done].
  destruct (existsb _ _) eqn:E; [done|]. intros [= <- <-] [Hi He Hp Hic Hc Hcc Hm Hmc Hsi Hsk Hsc].
  rewrite existsb_none in E.
  assert (∀ y, y ∈ identities d → id_id y ≠ id_id r ∧ same_text (lower_email y) (lower_email r) = false
            ∧ same_text (id_phone y) (id_phone r) = false) as Hf.
  { intros y Hy. specialize (E y Hy). unfold identity_clash in E. apply orb_false_iff in E as [E E3].
    apply orb_false_iff in E as [E E2]. apply orb_false_iff in E as [E _]. by bsimpl. }
  assert (∀ id, has_identity d id = true → has_identity (set_identities (identities d ++ [r]) d) id = true) as Hh.
  { intros id. rewrite !has_identity_iff. cbn. intros (i & Hin & ?). exists i. set_solver. }
  split.
  - constructor; cbn [identities credentials memberships asessions set_identities]; try done.
    + apply NoDup_map_snoc; [done|]. intros y Hy. by apply Hf.
    + intros y z [Hy|Hy%list_elem_of_singleton]%elem_of_app [Hz|Hz%list_elem_of_singleton]%elem_of_app E'; subst;
        [by apply He| | |done].
      * destruct (Hf y Hy) as (_ & E2 & _). by rewrite E2 in E'.
      * destruct (Hf z Hz) as (_ & E2 & _). by rewrite same_text_sym, E2 in E'.
    + intros y z [Hy|Hy%list_elem_of_singleton]%elem_of_app [Hz|Hz%list_elem_of_singleton]%elem_of_app E'; subst;
        [by apply Hp| | |done].
      * destruct (Hf y Hy) as (_ & _ & E2). by rewrite E2 in E'.
      * destruct (Hf z Hz) as (_ & _ & E2). by rewrite same_text_sym, E2 in E'.
    + intros y [Hy|Hy%list_elem_of_singleton]%elem_of_app; [auto|by subst].
    + intros c Hc'. destruct (Hcc c Hc') as (? & ? & ?). auto.
    + intros m Hm'. destruct (Hmc m Hm') as (? & ?). auto.
    + intros s Hs. auto.
  - destruct (auth_moves_refl a d). constructor; cbn [identities credentials memberships asessions set_identities]; eauto.
Qed.

(** A change of the credentials alone. *)
Lemma credentials_good a l d :
  NoDup (map cr_identity l) →
  (∀ c, c ∈ l → delivery_check (cr_delivery c) = true ∧ claim_check (cr_delivery c) = true
     ∧ has_identity d (cr_identity c) = true) →
  (∀ c, c ∈ credentials d → ∃ c', c' ∈ l ∧ cr_identity c' = cr_identity c ∧ (delivered c → delivered c') ∧
     (cr_hash c' = cr_hash c ∨ al_password a (cr_identity c) ∨ ¬ delivered c ∧ al_redeliver a)) →
  auth_ok d → auth_ok (set_credentials l d) ∧ auth_moves a d (set_credentials l d).
Proof.
  intros Hn Hc Hk [Hi He Hp Hic _ _ Hm Hmc Hsi Hsk Hsc]. split; [by constructor|].
  destruct (auth_moves_refl a d). by constructor.
Qed.

Lemma insert_credential_good a c d x d' :
  claim_check (cr_delivery c) = true → insert_credential c d = Ok (x, d') → auth_good a d d'.
Proof.
  intros Hcl. unfold insert_credential. destruct (negb (text_ok _)); [done|].
  destruct (delivery_check _) eqn:Ed; cbn [negb]; [|done]. destruct (existsb _ _) eqn:E; [done|].
  destruct (has_identity d (cr_identity c)) eqn:Eh; cbn [negb]; [|done]. intros [= _ <-] Hd.
  apply credentials_good; [..|done].
  - apply NoDup_map_snoc; [apply Hd|]. by rewrite (existsb_fresh cr_identity) in E.
  - intros y [Hy|Hy%list_elem_of_singleton]%elem_of_app; [by apply Hd|by subst].
  - intros y Hy. exists y. split; [set_solver|]. auto.
Qed.

Lemma update_credential_good a id args q f d n d' :
  (∀ c, cr_identity (f c) = cr_identity c) →
  (∀ c, q c = true → delivery_check (cr_delivery c) = true → claim_check (cr_delivery c) = true →
     claim_check (cr_delivery (f c)) = true ∧ (delivered c → delivered (f c)) ∧
     (cr_hash (f c) = cr_hash c ∨ al_password a id ∨ ¬ delivered c ∧ al_redeliver a)) →
  update_credential id args q f d = Ok (n, d') → auth_good a d d'.
Proof.
  intros Hf Hq. unfold update_credential. cbv zeta. destruct (negb _); [done|]. destruct (existsb _ _) eqn:E; [done|].
  intros [= _ <-] Hd. rewrite existsb_none in E. apply credentials_good; [..|done].
  - rewrite map_upd; [apply Hd|]. auto.
  - intros c' (c & Hc & ->)%elem_of_upd. specialize (E c Hc). destruct (au_cchecks d Hd c Hc) as (D1 & D2 & D3).
    destruct ((cr_identity c ==? id) && q c) eqn:Ep; [|done]. cbn [andb] in E.
    apply andb_true_iff in Ep as [_ Eq]. rewrite Hf. split; [by destruct (delivery_check _)|]. split; [by apply Hq|done].
  - intros c Hc. destruct (au_cchecks d Hd c Hc) as (D1 & D2 & D3).
    exists (if (cr_identity c ==? id) && q c then f c else c). split; [apply elem_of_upd; by exists c|].
    destruct ((cr_identity c ==? id) && q c) eqn:Ep; [|by auto]. apply andb_true_iff in Ep as [Ei Eq]. bsimpl.
    rewrite Ei. split; [by rewrite Hf|]. by apply Hq.
Qed.

(** A change of the memberships of one tenant alone. *)
Lemma memberships_good a t l d :
  al_members a t →
  NoDup (map mkey l) → (∀ m, m ∈ l → membership_check m = true ∧ has_identity d (mb_identity m) = true) →
  sel (λ m, mb_role m ==? RoleOwner) l = owners d →
  (∀ u, u ≠ t → sel (λ m, mb_tenant m ==? u) l = members_of u d) →
  (∀ m, m ∈ memberships d → ∃ m', m' ∈ l ∧ mkey m' = mkey m) →
  auth_ok d → auth_ok (set_memberships l d) ∧ auth_moves a d (set_memberships l d).
Proof.
  intros Ha Hn Hc Ho Hu Hk [Hi He Hp Hic Hcr Hcc _ _ Hsi Hsk Hsc]. split; [by constructor|].
  destruct (auth_moves_refl a d). constructor; try done. intros u Hnu. apply Hu. by intros ->.
Qed.

Lemma insert_membership_good a t m d n d' :
  al_members a t → mb_role m ≠ RoleOwner → insert_membership t m d = Ok (n, d') → auth_good a d d'.
Proof.
  intros Ha Hr. unfold insert_membership. destruct (negb (text_ok _)); [done|].
  destruct (mb_tenant m ==? t) eqn:Et; cbn [negb]; [|done]. destruct (membership_check m) eqn:Ec; cbn [negb]; [|done].
  destruct (existsb _ _) eqn:E; [by intros [= _ <-]|]. destruct (has_identity d _) eqn:Eh; cbn [negb]; [|done].
  intros [= _ <-] Hd. bsimpl. apply (memberships_good a t); [done|..|done].
  - apply NoDup_map_snoc; [apply Hd|]. by rewrite (existsb_fresh mkey) in E.
  - intros y [Hy|Hy%list_elem_of_singleton]%elem_of_app; [by apply Hd|by subst].
  - rewrite sel_snoc_id; [done|]. by apply bool_decide_false.
  - intros u Hu. rewrite sel_snoc_id; [done|]. apply bool_decide_false. congruence.
  - intros y Hy. exists y. split; [set_solver|done].
Qed.

Lemma member_of_iff t id q m :
  member_of t t id q m = true ↔ mb_tenant m = t ∧ mb_identity m = id ∧ q m = true.
Proof.
  unfold member_of, rls. split; [intros E; by bsimpl|]. intros (-> & -> & ->). by rewrite !bool_decide_refl.
Qed.

Lemma update_membership_good a t id arg f d x d' :
  al_members a t → (∀ m, mkey (f m) = mkey m ∧ (mb_role m ≠ RoleOwner → mb_role (f m) ≠ RoleOwner)) →
  (∀ m, m ∈ memberships d → mkey m = (t, id) → mb_role m ≠ RoleOwner) →
  update_membership t t id arg f d = Ok (x, d') → auth_good a d d'.
Proof.
  intros Ha Hf Hno. unfold update_membership. cbv zeta. destruct (negb _); [done|].
  destruct (existsb _ _); [done|]. destruct (existsb _ _) eqn:E; [done|]. destruct (head _) as [y|]; [|done].
  intros [= _ <-] Hd. rewrite existsb_none in E. set (p := member_of _ _ _ _) in *.
  assert (∀ m, m ∈ memberships d → p m = true → mb_tenant m = t ∧ mb_role m ≠ RoleOwner) as Hp.
  { intros m Hm (Et & Ei & _)%member_of_iff. split; [done|]. apply Hno; [done|]. unfold mkey. congruence. }
  assert (∀ m, mb_tenant (f m) = mb_tenant m ∧ mb_identity (f m) = mb_identity m) as Hk
    by (intros m; destruct (Hf m) as [Hk _]; unfold mkey in Hk; by injection Hk).
  apply (memberships_good a t); [done|..|done].
  - rewrite map_upd; [apply Hd|]. intros m _ _. apply Hf.
  - intros m' (m & Hm & ->)%elem_of_upd. specialize (E m Hm). destruct (au_mchecks d Hd m Hm) as [M1 M2].
    destruct (p m); [|done]. cbn [andb] in E. destruct (Hk m) as [_ ->]. split; [by destruct (membership_check _)|done].
  - unfold owners. apply sel_upd_id; intros m Hm Em.
    + destruct (p m) eqn:Ep; [|done]. destruct (Hp m Hm Ep) as [_ Hr]. by bsimpl.
    + destruct (Hp m Hm Em) as [_ Hr]. apply bool_decide_false. by apply Hf.
  - intros u Hu. unfold members_of. apply sel_upd_id; intros m Hm Em.
    + destruct (p m) eqn:Ep; [|done]. destruct (Hp m Hm Ep) as [Ht _]. bsimpl. congruence.
    + destruct (Hp m Hm Em) as [Ht _]. apply bool_decide_false. destruct (Hk m) as [-> _]. congruence.
  - intros m Hm. exists (if p m then f m else m). split; [apply elem_of_upd; by exists m|]. destruct (p m); [apply Hf|done].
Qed.

(** A change of the sessions alone. *)
Lemma asessions_good a l d :
  NoDup (map se_id l) → NoDup (map skey l) → (∀ s, s ∈ l → has_identity d (se_identity s) = true) →
  (∀ s, s ∈ l → unrevoked s = true → s ∈ asessions d ∨ al_open a s) →
  (∀ s, s ∈ asessions d → s ∈ l ∨ ∃ now, revoked now s ∈ l ∧ al_end a (se_tenant s) (se_identity s) (se_hash s)) →
  auth_ok d → auth_ok (set_asessions l d) ∧ auth_moves a d (set_asessions l d).
Proof.
  intros Hn Hk Hc Ho He [Hi Hem Hp Hic Hcr Hcc Hm Hmc _ _ _]. split; [by constructor|].
  destruct (auth_moves_refl a d). by constructor.
Qed.

Lemma insert_asession_good a t s d x d' : al_open a s → insert_asession t s d = Ok (x, d') → auth_good a d d'.
Proof.
  intros Ha. unfold insert_asession. destruct (negb (se_tenant s ==? t)); [done|].
  destruct (existsb (λ x, se_id x ==? _) _) eqn:E1; [done|]. destruct (existsb (λ x, skey x ==? _) _) eqn:E2; [done|].
  destruct (has_identity d _) eqn:Eh; cbn [negb]; [|done]. intros [= _ <-] Hd.
  rewrite (existsb_fresh se_id) in E1. rewrite (existsb_fresh skey) in E2. apply asessions_good; [..|done].
  - apply NoDup_map_snoc; [apply Hd|done].
  - apply NoDup_map_snoc; [apply Hd|done].
  - intros y [Hy|Hy%list_elem_of_singleton]%elem_of_app; [by apply Hd|by subst].
  - intros y [Hy|Hy%list_elem_of_singleton]%elem_of_app _; [by left|subst; by right].
  - intros y Hy. left. set_solver.
Qed.

Lemma revoke_good a now q d :
  (∀ s, s ∈ asessions d → q s = true → al_end a (se_tenant s) (se_identity s) (se_hash s)) →
  auth_good a d (set_asessions (upd q (revoked now) (asessions d)) d).
Proof.
  intros Hq Hd. apply asessions_good; [..|done].
  - rewrite map_upd; [apply Hd|done].
  - rewrite map_upd; [apply Hd|done].
  - intros s' (s & Hs & ->)%elem_of_upd. rewrite (upd_keeps se_identity) by done. by apply Hd.
  - intros s' (s & Hs & ->)%elem_of_upd. by destruct (q s); [|left].
  - intros s Hs. destruct (q s) eqn:Es.
    + right. exists now. split; [|auto]. apply elem_of_upd. exists s. by rewrite Es.
    + left. apply elem_of_upd. exists s. by rewrite Es.
Qed.

(** ** Repository calls *)

Lemma readonly_reading {A} (f : authdb -> res pg_error A) : readonly (stmt (reading f) : AuM A).
Proof.
  apply step_in_stmt; [apply _|]. intros d x d'. unfold reading. destruct (f d); [|done]. by intros [= _ <-].
Qed.
Lemma readonly_reading_auto {A} (f : authdb -> res pg_error A) : readonly (autocommit (reading f) : AuM A).
Proof.
  apply step_in_autocommit; [apply _|]. intros d x d'. unfold reading. destruct (f d); [|done]. by intros [= _ <-].
Qed.
Lemma step_or_missing {A} (I : authdb -> authdb -> Prop) `{!PreOrder I} (m : AuM A) : step_in I m → step_in I (or_missing m).
Proof. intros Hm. unfold or_missing. apply step_in_bind; [apply _| |intros [|[|[]]]; solve_step]. by apply step_in_attempt. Qed.

Lemma readonly_step {A} a (m : AuM A) : readonly m → step_in (auth_good a) m.
Proof. intros Hm fs d. rewrite <- (Hm fs d). reflexivity. Qed.

Ltac read_step :=
  match goal with
  | |- step_in eq (or_missing _) => apply step_or_missing; [apply _|]
  | |- step_in eq (stmt (reading _)) => apply readonly_reading
  | |- step_in eq (autocommit (reading _)) => apply readonly_reading_auto
  | _ => step_step
  end.
Ltac solve_read := repeat (read_step; cbn beta).

Lemma readonly_CredentialByEmail email : readonly (ARepository_CredentialByEmail email).
Proof. unfold ARepository_CredentialByEmail. solve_read. Qed.
Lemma readonly_Members t : readonly (ARepository_Members t).
Proof. unfold ARepository_Members. solve_read. Qed.
Lemma readonly_Owners t : readonly (ARepository_Owners t).
Proof. unfold ARepository_Owners. solve_read. Qed.
Lemma readonly_Member t id : readonly (ARepository_Member t id).
Proof. unfold ARepository_Member. solve_read. Qed.
Lemma readonly_BarberEligible t id : readonly (ARepository_BarberEligible t id).
Proof. unfold ARepository_BarberEligible. solve_read. Qed.
Lemma readonly_ASession now t hash : readonly (ARepository_Session now t hash).
Proof. unfold ARepository_Session. solve_read. Qed.
Lemma readonly_HasActive t id : readonly (ARepository_HasActiveMembership t id).
Proof. unfold ARepository_HasActiveMembership, active_member. solve_read. Qed.

Lemma good_ARegister a newID now t name email phone role hash :
  al_members a t → role ≠ RoleOwner →
  step_in (auth_good a) (ARepository_Register newID now t name email phone role hash).
Proof.
  intros Ha Hr. unfold ARepository_Register. apply step_in_tx; [apply _|]. apply step_in_bind; [apply _|..].
  - unfold register_identity. apply step_in_bind; [apply _|..].
    + apply step_in_attempt, step_in_stmt; [apply _|]. intros d x d'. apply insert_identity_good.
    + assert (∀ id, step_in (auth_good a) (stmt (insert_credential (mkCredentialRow id hash now true
        (mkDelivery "pending" 0 None None None (Some now)) now)) ;; mret (M:=AuM) (id, true))) as Hc.
      { intros id. apply step_in_bind; [apply _| |intros _; apply step_in_ret, _]. apply step_in_stmt; [apply _|].
        intros d x d'. by apply insert_credential_good. }
      intros [id|[|[]]]; try (apply step_in_fail, _); [apply Hc|].
      apply step_in_bind; [apply _|apply readonly_step, readonly_reading|]. intros id. apply step_in_ret, _.
  - intros [id created]. apply step_in_bind; [apply _|..].
    + apply step_in_stmt; [apply _|]. intros d x d'. by apply insert_membership_good.
    + intros n. apply step_in_bind; [apply _|apply readonly_step, readonly_reading|]. intros r. apply step_in_ret, _.
Qed.

Lemma claimed_undelivered claim c :
  cr_claimed_by claim c = true → claim_check (cr_delivery c) = true → ¬ delivered c.
Proof.
  unfold cr_claimed_by, claim_check, delivered. intros Hc Hk Hs. bsimpl. rewrite Hc, Hs in Hk.
  by destruct (dl_until (cr_delivery c)).
Qed.

Lemma good_AClaim a token now id : step_in (auth_good a) (ARepository_ClaimInitialDelivery token now id).
Proof.
  unfold ARepository_ClaimInitialDelivery. apply step_in_bind; [apply _| |intros n; apply step_in_ret, _].
  apply step_in_autocommit; [apply _|]. intros d n d'. apply update_credential_good; [done|].
  intros c Hc D1 D2. split; [by apply claimed_checks|]. split; [|by left].
  intros Hs. by rewrite sent_final in Hc.
Qed.

Lemma good_some_row a n : step_in (auth_good a) (some_row n).
Proof. unfold some_row. solve_step. Qed.

Lemma good_AMark a now id claim status problem :
  status = "sent"%string ∨ status = "failed"%string →
  step_in (auth_good a) (ARepository_MarkInitialDelivery now id claim status problem).
Proof.
  intros Hs. unfold ARepository_MarkInitialDelivery. apply step_in_bind; [apply _| |apply good_some_row].
  apply step_in_autocommit; [apply _|]. intros d n d'. apply update_credential_good; [done|].
  intros c Hc D1 D2. split; [by apply marked_checks|]. split; [|by left]. intros Hd. by destruct (claimed_undelivered _ _ Hc D2).
Qed.

Lemma good_AActivate a now id claim hash :
  al_redeliver a → step_in (auth_good a) (ARepository_ActivateRetriedCredential now id claim hash).
Proof.
  intros Ha. unfold ARepository_ActivateRetriedCredential. apply step_in_bind; [apply _| |apply good_some_row].
  apply step_in_autocommit; [apply _|]. intros d n d'. apply update_credential_good; [done|].
  intros c [Hc _]%andb_true_iff D1 D2. split; [apply marked_checks; auto|]. split; [done|].
  right. right. split; [by eapply claimed_undelivered|done].
Qed.

(** The two ways a password is replaced. *)
Lemma password_good a now id hash must :
  al_password a id →
  step_in (auth_good a) (E:=auth_error) (stmt (update_credential id [hash] (λ _, true) (cr_with_hash hash now must now))).
Proof.
  intros Ha. apply step_in_stmt; [apply _|]. intros d n d'. apply update_credential_good; [done|].
  intros c _ D1 D2. split; [done|]. split; [done|]. by right; left.
Qed.
Lemma revoke_identity_good a now id keep :
  (∀ u h, al_end a u id h) → step_in (auth_good a) (E:=auth_error) (stmt (revoke_identity_sessions now id keep)).
Proof.
  intros Ha. apply step_in_stmt; [apply _|]. intros d n d' [= _ <-]. apply revoke_good. intros s _ Hs. bsimpl.
  match goal with E : se_identity s = id |- _ => rewrite E end. apply Ha.
Qed.

Lemma good_AChangePassword a now t id keep hash :
  al_password a id → (∀ u h, al_end a u id h) → step_in (auth_good a) (ARepository_ChangePassword now t id keep hash).
Proof.
  intros Hp He. unfold ARepository_ChangePassword, active_member. apply step_in_tx; [apply _|].
  apply step_in_bind; [apply _|apply readonly_step; solve_step|]. intros b. destruct (negb b); [apply step_in_fail, _|].
  apply step_in_bind; [apply _|by apply password_good|]. intros _. by apply revoke_identity_good.
Qed.
Lemma good_AResetPassword a now t id hash :
  al_password a id → (∀ u h, al_end a u id h) → step_in (auth_good a) (ARepository_ResetPassword now t id hash).
Proof.
  intros Hp He. unfold ARepository_ResetPassword, active_member. apply step_in_tx; [apply _|].
  apply step_in_bind; [apply _|apply readonly_step; solve_step|]. intros b. destruct (negb b); [apply step_in_ret, _|].
  apply step_in_bind; [apply _|by apply password_good|]. intros _.
  apply step_in_bind; [apply _|by apply revoke_identity_good|]. intros _. apply step_in_ret, _.
Qed.

Lemma good_ARevoke a now t hash :
  (∀ id h, hash = Some h → al_end a t id h) → step_in (auth_good a) (ARepository_RevokeSession now t hash).
Proof.
  intros Ha. unfold ARepository_RevokeSession. apply step_in_tx; [apply _|]. apply step_in_stmt; [apply _|].
  intros d n d' [= _ <-]. apply revoke_good. intros s _ Hs. unfold rls in Hs. destruct hash as [h|].
  - bsimpl. match goal with E1 : se_tenant s = t, E2 : se_hash s = h |- _ => rewrite E1, E2 end. by apply Ha.
  - by rewrite !andb_false_r in Hs.
Qed.
End Accounts.
