(* ===== verification/AuthRequests.v ===== *)
(** * AuthRequests: the requests of the auth service

    The exact results of the lookups, the authority behind each route, and the
    theorem that no request, whatever fails, does more than its authority
    allows. *)
From S2P Require Import Prelude Effects GoTime Http Platform Accounts Auth AuthAccounts.

Local Open Scope Z_scope.

Section Requests.
Context `{GoLib, AccountLib, Collation}.

(** ** Joins *)

Lemma elem_of_join_credential p d i c :
  (i, c) ∈ join_credential p d ↔ i ∈ identities d ∧ p i = true ∧ c ∈ credentials d ∧ cr_identity c = id_id i.
Proof.
  unfold join_credential. rewrite list_elem_of_In, in_flat_map. split.
  - intros (x & Hx & Hc). apply list_elem_of_In in Hx, Hc. apply elem_of_sel in Hx as [Hp Hx].
    apply list_elem_of_fmap in Hc as (y & [= -> ->] & Hy). apply elem_of_sel in Hy as [Hi Hy]. by bsimpl.
  - intros (Hi & Hp & Hc & E). exists i. rewrite <- !list_elem_of_In. split; [by apply elem_of_sel|].
    apply list_elem_of_fmap. exists c. split; [done|]. apply elem_of_sel. by rewrite E, bool_decide_refl.
Qed.

Lemma elem_of_join_identity d l m i :
  (m, i) ∈ join_identity d l ↔ m ∈ l ∧ i ∈ identities d ∧ id_id i = mb_identity m.
Proof.
  unfold join_identity. rewrite list_elem_of_In, in_flat_map. split.
  - intros (x & Hx & Hc). apply list_elem_of_In in Hx, Hc.
    apply list_elem_of_fmap in Hc as (y & [= -> ->] & Hy). apply elem_of_sel in Hy as [Hi Hy]. by bsimpl.
  - intros (Hm & Hi & E). exists m. rewrite <- !list_elem_of_In. split; [done|].
    apply list_elem_of_fmap. exists i. split; [done|]. apply elem_of_sel. by rewrite E, bool_decide_refl.
Qed.

(** The rows behind a session. *)
Record live_rows (now : time) (t : uuid) (hash : option string) (d : authdb)
    (s : asession_row) (i : identity_row) (c : credential_row) (m : membership_row) : Prop := mkLiveRows {
  lv_session : s ∈ asessions d ∧ se_tenant s = t ∧ session_live now hash s = true;
  lv_identity : i ∈ identities d ∧ id_id i = se_identity s ∧ id_status i = "active"%string;
  lv_credential : c ∈ credentials d ∧ cr_identity c = id_id i;
  lv_member : m ∈ memberships d ∧ mkey m = (t, se_identity s) ∧ is_active m = true
}.

Lemma elem_of_session_rows now t hash d s i c m :
  (s, (i, c), m) ∈ session_rows now t t hash d ↔ live_rows now t hash d s i c m.
Proof.
  unfold session_rows. rewrite list_elem_of_In, in_flat_map. split.
  - intros (s' & Hs & Hr). apply in_flat_map in Hr as ([i' c'] & Hic & Hm). apply list_elem_of_In in Hs, Hic, Hm.
    apply list_elem_of_fmap in Hm as (m' & [= -> -> -> ->] & Hm). apply elem_of_sel in Hs as [Ps Hs].
    apply elem_of_sel in Hm as [Pm Hm]. apply elem_of_join_credential in Hic as (Hi & Pi & Hc & Ec).
    unfold rls, active_identity in *. bsimpl. by constructor; repeat split; try done; unfold mkey; congruence.
  - intros [(Hs & Ht & Hl) (Hi & Ei & Ea) (Hc & Ec) (Hm & Em & Eact)]. unfold mkey in Em. injection Em as Em1 Em2.
    exists s. rewrite <- list_elem_of_In, in_flat_map. split.
    + apply elem_of_sel. unfold rls. by rewrite Ht, bool_decide_refl, Hl.
    + exists (i, c). rewrite <- !list_elem_of_In. split.
      * apply elem_of_join_credential. unfold active_identity. by rewrite Ei, Ea, !bool_decide_refl, Ec, Ei.
      * apply list_elem_of_fmap. exists m. split; [done|]. apply elem_of_sel. unfold rls.
        by rewrite Em1, Em2, Ht, !bool_decide_refl, Eact.
Qed.

Lemma head_only {A} (x : A) l : x ∈ l → (∀ y, y ∈ l → y = x) → head l = Some x.
Proof. destruct l as [|y l]; [set_solver|]. intros _ Hy. cbn. f_equal. apply Hy. set_solver. Qed.

Lemma identity_unique d i j : auth_ok d → i ∈ identities d → j ∈ identities d → id_id i = id_id j → i = j.
Proof. intros Hd. apply NoDup_map_eq, Hd. Qed.
Lemma credential_unique d c c' :
  auth_ok d → c ∈ credentials d → c' ∈ credentials d → cr_identity c = cr_identity c' → c = c'.
Proof. intros Hd. apply NoDup_map_eq, Hd. Qed.
Lemma member_unique d m m' : auth_ok d → m ∈ memberships d → m' ∈ memberships d → mkey m = mkey m' → m = m'.
Proof. intros Hd. apply NoDup_map_eq, Hd. Qed.

(** A token belongs to one session. *)
Lemma live_unique now t hash d s i c m s' i' c' m' :
  auth_ok d → live_rows now t hash d s i c m → live_rows now t hash d s' i' c' m' →
  (s', (i', c'), m') = (s, (i, c), m).
Proof.
  intros Hd [(Hs & Ht & Hl) (Hi & Ei & _) (Hc & Ec) (Hm & Em & _)] [(Hs' & Ht' & Hl') (Hi' & Ei' & _) (Hc' & Ec') (Hm' & Em' & _)].
  assert (s' = s) as ->.
  { apply (NoDup_map_eq skey (asessions d)); [apply Hd|done..|]. unfold session_live in *. destruct hash as [h'|]; [|done].
    bsimpl. unfold skey. congruence. }
  assert (i' = i) as -> by (apply (identity_unique d); congruence).
  assert (c' = c) as -> by (apply (credential_unique d); congruence).
  assert (m' = m) as -> by (apply (member_unique d); congruence). done.
Qed.

(** ** Lookups *)

Lemma det_or_missing {A} (m : AuM A) : det m → det (or_missing m).
Proof. intros Hm. unfold or_missing. apply det_attempt; [done| |done]. intros [|[|[]]]; auto with barber. Qed.

Definition missing {A} (r : res auth_error A) : res auth_error A :=
  match r with Err (APg NoRows) => Err ANotFound | _ => r end.

Lemma run_or_missing {A} (m : AuM A) d :
  quiet m → run (or_missing m) d = (missing (run m d).1, (run m d).2).
Proof.
  intros Hm. unfold or_missing. rewrite run_attempt_bind by apply Hm.
  destruct (run m d) as [[a|[|[]]] d']; done.
Qed.

Lemma run_reading {A} (f : authdb -> res pg_error A) d :
  run (E:=auth_error) (stmt (reading f)) d = (map_err APg (f d), d).
Proof. rewrite run_stmt. unfold reading. by destruct (f d). Qed.

(** A lookup by the pool: what it returns when it succeeds, and without faults. *)
Lemma pool_lookup_ok {A} (f : authdb -> res pg_error A) fs d v :
  (or_missing (autocommit (reading f)) fs d).1 = Ok v → f d = Ok v.
Proof.
  unfold or_missing. rewrite attempt_bind. unfold autocommit, reading.
  destruct (pop fs) as [[] fs']; [|done|]; destruct (f d) as [a|e]; try done; cbn; [by intros [= ->]|by destruct e].
Qed.

Lemma quiet_or_missing {A} (m : AuM A) : quiet m → quiet (or_missing m).
Proof. intros Hm. unfold or_missing. apply quiet_bind; [by apply quiet_attempt|]. intros [|[|[]]]; auto with barber. Qed.
Lemma quiet_autocommit {A} (f : authdb -> res pg_error (A * authdb)) : quiet (E:=auth_error) (autocommit f).
Proof. intros d. unfold autocommit. cbn. by destruct (f d) as [[]|]. Qed.
Lemma run_autocommit {A} (f : authdb -> res pg_error (A * authdb)) d :
  run (E:=auth_error) (autocommit f) d = match f d with Ok (a, d') => (Ok a, d') | Err e => (Err (APg e), d) end.
Proof. unfold run, autocommit. cbn. by destruct (f d) as [[]|]. Qed.

(** The account of an address. *)
Definition account (d : authdb) (email : string) (i : identity_row) (c : credential_row) : Prop :=
  i ∈ identities d ∧ by_email email i = true ∧ c ∈ credentials d ∧ cr_identity c = id_id i.

Lemma CredentialByEmail_ok email fs d v :
  (ARepository_CredentialByEmail email fs d).1 = Ok v → ∃ i c, account d email i c ∧ v = to_credential (i, c).
Proof.
  intros Hv%pool_lookup_ok. destruct (negb _); [done|]. destruct (head _) as [[i c]|] eqn:E; [|done].
  injection Hv as <-. exists i, c. split; [|done]. by apply head_Some_elem_of, elem_of_join_credential in E.
Qed.

Lemma account_unique d email i c i' c' :
  auth_ok d → account d email i c → account d email i' c' → i' = i ∧ c' = c.
Proof.
  intros Hd (Hi & Ei & Hc & Ec) (Hi' & Ei' & Hc' & Ec').
  assert (i' = i) as ->; [|by split; [|apply (credential_unique d); congruence]].
  apply (au_emails d Hd); [done..|]. unfold by_email in *. apply text_clash in Ei as (e & E1 & [= E2]), Ei' as (e' & E1' & [= E2']).
  rewrite E1, E1', <- E2, <- E2'. apply text_clash. eauto.
Qed.

(** A lookup in a transaction. *)
Lemma tx_lookup_ok {A} t (f : uuid -> authdb -> res pg_error A) fs d v :
  (WithTenantTx t (λ tx, or_missing (stmt (reading (f tx)))) fs d).1 = Ok v → f t d = Ok v.
Proof.
  set (m := λ tx, or_missing (stmt (reading (f tx)))). intros Hok.
  assert (det (m t)) as Hdet by apply det_or_missing, det_stmt.
  pose proof (atomic_ok _ fs d v (atomic_tx t m Hdet) Hok) as Hrun. rewrite run_tx in Hrun by done.
  unfold m in Hrun. rewrite run_or_missing, run_reading in Hrun by apply det_quiet, det_stmt.
  destruct (f t d) as [a|[]]; cbn in Hrun; congruence.
Qed.

Lemma ASession_ok now t hash fs d p :
  (ARepository_Session now t hash fs d).1 = Ok p →
  ∃ s i c m, live_rows now t hash d s i c m ∧ p = to_principal t (s, (i, c), m).
Proof.
  unfold ARepository_Session. intros Hp%(tx_lookup_ok t (λ tx d, or_no_rows (to_principal t <$> head (session_rows now tx t hash d)))).
  destruct (head _) as [[[s [i c]] m]|] eqn:E; [|done]. injection Hp as <-. exists s, i, c, m. split; [|done].
  by apply head_Some_elem_of, elem_of_session_rows in E.
Qed.

Lemma Member_ok t id fs d v :
  (ARepository_Member t id fs d).1 = Ok v →
  ∃ m, m ∈ memberships d ∧ mkey m = (t, id) ∧ Mem_Role v = mb_role m.
Proof.
  unfold ARepository_Member. intros Hv%(tx_lookup_ok t (λ tx d,
    or_no_rows (to_member <$> head (join_identity d (sel (member_of tx t id (λ _, true)) (memberships d)))))).
  destruct (head _) as [[m i]|] eqn:E; [|done]. injection Hv as <-. exists m.
  apply head_Some_elem_of, elem_of_join_identity in E as (Hm & _ & _). apply elem_of_sel in Hm as [Hp Hm].
  apply member_of_iff in Hp as (Et & Ei & _). split; [done|]. split; [|done]. unfold mkey. congruence.
Qed.

(** ** Opening a session *)

Definition find_member (t id : uuid) (q : membership_row -> bool) (d : authdb) : option membership_row :=
  head (sel (member_of t t id q) (memberships d)).

Definition new_session (newID t id : uuid) (hash : string) (expires : time) : asession_row :=
  mkASessionRow newID t id hash (pg_ts expires) None.

Lemma det_CreateSession newID t id hash expires tx :
  det (role ← or_missing (FindActiveMembership tx t id);
       x ← or_missing (stmt (reading (λ d, or_no_rows (head (join_credential (active_identity id) d)))));
       sid ← stmt (insert_asession tx (new_session newID t id hash expires));
       mret (M:=AuM) (mkPrincipal id (or_empty (id_name x.1)) (or_empty (id_email x.1)) (or_empty (id_phone x.1))
         (cr_must x.2) role t sid)).
Proof.
  apply det_bind; [apply det_or_missing, det_stmt|]. intros role. apply det_bind; [apply det_or_missing, det_stmt|].
  intros y. solve_det.
Qed.

Lemma CreateSession_exact newID t id hash expires d :
  run (ARepository_CreateSession newID t id hash expires) d
  = match find_member t id is_active d, head (join_credential (active_identity id) d) with
    | Some m, Some (i, c) =>
        match insert_asession t (new_session newID t id hash expires) d with
        | Ok (sid, d') => (Ok (mkPrincipal id (or_empty (id_name i)) (or_empty (id_email i)) (or_empty (id_phone i))
                                 (cr_must c) (mb_role m) t sid), d')
        | Err e => (Err (APg e), d)
        end
    | _, _ => (Err ANotFound, d)
    end.
Proof.
  unfold ARepository_CreateSession. rewrite run_tx by apply det_CreateSession.
  assert (∀ A (f : authdb -> res pg_error A), quiet (or_missing (stmt (reading f)))) as Hq
    by (intros; apply quiet_or_missing, det_quiet, det_stmt).
  unfold FindActiveMembership. rewrite runq_bind by apply Hq. rewrite run_or_missing, run_reading by apply det_quiet, det_stmt.
  unfold find_member. destruct (head (sel _ (memberships d))) as [m|]; [|done]. cbn [fmap option_fmap option_map or_no_rows fst snd map_err missing].
  rewrite runq_bind by apply Hq. rewrite run_or_missing, run_reading by apply det_quiet, det_stmt.
  destruct (head (join_credential _ d)) as [[i c]|]; [|done]. cbn [or_no_rows fst snd map_err missing].
  rewrite run_bind, run_stmt by apply det_stmt. fold (new_session newID t id hash expires).
  by destruct (insert_asession _ _ _) as [[]|].
Qed.

Lemma find_member_Some t id q d m :
  find_member t id q d = Some m → m ∈ memberships d ∧ mkey m = (t, id) ∧ q m = true.
Proof. intros [(Et & Ei & Hq)%member_of_iff Hm]%head_sel_Some. unfold mkey. by rewrite Et, Ei. Qed.

Lemma find_member_of d t id q m :
  auth_ok d → m ∈ memberships d → mkey m = (t, id) → q m = true → find_member t id q d = Some m.
Proof.
  intros Hd Hm Ek Hq. unfold mkey in Ek. injection Ek as Et Ei.
  apply (head_sel_unique mkey); [apply Hd| |done|by apply member_of_iff].
  intros y (Ey1 & Ey2 & _)%member_of_iff. unfold mkey. congruence.
Qed.

Lemma good_ACreateSession a newID t id hash expires fs d :
  (∀ m, m ∈ memberships d → mkey m = (t, id) → is_active m = true → al_open a (new_session newID t id hash expires)) →
  auth_good a d (ARepository_CreateSession newID t id hash expires fs d).2.2.
Proof.
  intros Ha. apply (atomic_step (FromPg0:=auth_from_pg) (auth_good a)); [apply _|apply atomic_tx, det_CreateSession|]. rewrite CreateSession_exact.
  destruct (find_member t id is_active d) as [m|] eqn:Em; [|reflexivity].
  apply find_member_Some in Em as (Hm & Ek & Hact).
  destruct (head _) as [[i c]|]; [|reflexivity]. destruct (insert_asession _ _ _) as [[sid d']|] eqn:E; [|reflexivity].
  cbn [snd]. eapply insert_asession_good; [|exact E]. by apply (Ha m).
Qed.

(** ** The authority behind a request *)

Section Authority.
Context (h : AuthHandler) (now : time) (d : authdb).

(** The cookie of a trusted request is a live session of [p] in tenant [u]. *)
Definition signed_in {B} (r : Request B) (u : uuid) (p : Principal) : Prop :=
  ∃ t s i c m, trustedContext h r = Some t ∧ TenantID t = u ∧ session_cookie h r ≠ EmptyString ∧
    live_rows now u (tokenDigest (session_cookie h r)) d s i c m ∧ p = to_principal u (s, (i, c), m).

(** An owner who has set a password of their own. *)
Definition owner_request {B} (r : Request B) (u : uuid) : Prop :=
  ∃ p, signed_in r u p ∧ Pr_Role p = RoleOwner ∧ Pr_MustChange p = false.

(** An active account with an active membership in tenant [u]. *)
Definition active_account (email : string) (u : uuid) (i : identity_row) (c : credential_row) : Prop :=
  account d email i c ∧ id_status i = "active"%string ∧
  ∃ m, m ∈ memberships d ∧ mkey m = (u, id_id i) ∧ is_active m = true.

Definition login_opens (r : Request (string * string)) (s : asession_row) : Prop :=
  ∃ t email password e i c, trustedContext h r = Some t ∧ Body r = Some (email, password) ∧
    auth_normalizeEmail email = Some e ∧ active_account e (TenantID t) i c ∧
    bcrypt_Compare (cr_hash c) password = true ∧ se_tenant s = TenantID t ∧ se_identity s = id_id i.

Definition logout_ends (r : Request unit) (u id : uuid) (hash : string) : Prop :=
  ∃ t, trustedContext h r = Some t ∧ u = TenantID t ∧ tokenDigest (session_cookie h r) = Some hash.

(** The current password was given in a session of the identity. *)
Definition change_replaces (r : Request (string * string)) (id : uuid) : Prop :=
  ∃ u p current next i c, signed_in r u p ∧ Pr_IdentityID p = id ∧ Body r = Some (current, next) ∧
    account d (Pr_Email p) i c ∧ id_id i = id ∧ bcrypt_Compare (cr_hash c) current = true.

(** The address of an active member of the tenant was given. *)
Definition forgot_replaces (r : Request string) (id : uuid) : Prop :=
  ∃ t email e i c, trustedContext h r = Some t ∧ Body r = Some email ∧ auth_normalizeEmail email = Some e ∧
    active_account e (TenantID t) i c ∧ id_id i = id.

Definition nothing : allowance :=
  mkAllowance (λ _, False) (λ _, False) False (λ _, False) (λ _ _ _, False).
Definition managing {B} (r : Request B) : allowance :=
  mkAllowance (owner_request r) (λ _, False) (∃ u, owner_request r u) (λ _, False) (λ _ _ _, False).

Definition allowed_by (route : auth_route) : allowance :=
  match route with
  | PostLogin r => mkAllowance (λ _, False) (λ _, False) False (login_opens r) (λ _ _ _, False)
  | PostLogout r => mkAllowance (λ _, False) (λ _, False) False (λ _, False) (logout_ends r)
  | PostRegister r | PostMembers r => managing r
  | PatchMemberRole r => managing r
  | PostActivate r | PostDeactivate r => managing r
  | PostChangePassword r => mkAllowance (λ _, False) (change_replaces r) False (λ _, False) (λ _ id _, change_replaces r id)
  | PostForgotPassword r => mkAllowance (λ _, False) (forgot_replaces r) False (λ _, False) (λ _ id _, forgot_replaces r id)
  | _ => nothing
  end.
End Authority.

(** ** Use cases *)

Abbreviation W a := (db_step (auth_good a)).

Lemma W_refl a w : W a w w.
Proof. unfold db_step. reflexivity. Qed.
Hint Resolve W_refl : core.

Lemma app_ALogin a s x t email password fs w :
  (∀ e i c y, auth_normalizeEmail email = Some e → active_account (w_db w) e t i c →
     bcrypt_Compare (cr_hash c) password = true → se_tenant y = t → se_identity y = id_id i → al_open a y) →
  W a w (Auth_Login s x t email password fs w).2.2.
Proof.
  intros Ha. unfold Auth_Login. destruct (auth_normalizeEmail email) as [e|] eqn:Ee; [|done].
  destruct (password ==? EmptyString); [done|].
  read_call readonly_CredentialByEmail fs'.
  destruct (ARepository_CredentialByEmail e fs (w_db w)).1 as [v|] eqn:Ev; [|done].
  apply CredentialByEmail_ok in Ev as (i & c & Hacc & ->). cbn [Cr_Active Cr_PasswordHash Cr_IdentityID to_credential fst snd].
  destruct (id_status i ==? "active"%string) eqn:Es; cbn [negb orb]; [|done].
  destruct (bcrypt_Compare (cr_hash c) password) eqn:Eb; cbn [negb]; [|done].
  destruct (newToken x) as [[token hash]|]; [|done]. bsimpl.
  apply repo_step_bind; [apply _| |intros v; apply step_in_ret, _]. apply good_ACreateSession.
  intros m Hm Ek Hact. apply (Ha e i c); [done| |done..]. split; [done|]. split; [done|]. by exists m.
Qed.

Lemma step_fresh {A} a x (k : string -> string -> AuApp A) :
  (∀ p h, step_in (W a) (k p h)) → step_in (W a) (fresh_password x k).
Proof. intros Hk. unfold fresh_password. destruct (newPassword x); [|solve_step]. destruct (hashPassword x _); solve_step. Qed.

Lemma step_mail_initial {A} a x email password id claim (settle : AuApp A) :
  step_in (W a) settle → step_in (W a) (mail_initial x email password id claim settle).
Proof.
  intros Hs. unfold mail_initial. apply step_in_bind; [apply _|apply step_deliver, _|]. intros b.
  destruct (negb b); [|done]. apply step_in_bind; [apply _| |intros; apply step_in_fail, _].
  apply step_try, good_AMark. by right.
Qed.

Lemma staff_not_owner role : staffRole role = true → role ≠ RoleOwner.
Proof. intros Hs ->. by vm_compute in Hs. Qed.

Lemma app_register_existing a x t name email phone role cred :
  al_members a t → al_redeliver a → role ≠ RoleOwner →
  step_in (W a) (register_existing x t name email phone role cred).
Proof.
  intros Hm Hr Ho. unfold register_existing. apply step_in_bind; [apply _|apply step_repo; [apply _|by apply good_ARegister]|].
  intros g. cbv zeta. destruct (_ ==? _); [apply step_in_ret, _|].
  apply step_in_bind; [apply _|apply step_repo; [apply _|apply good_AClaim]|]. intros [claim b].
  destruct (negb b); [apply step_in_fail, _|]. apply step_fresh. intros p hs. apply step_mail_initial.
  apply step_in_bind; [apply _|apply step_repo; [apply _|by apply good_AActivate]|]. intros _. apply step_in_ret, _.
Qed.

Lemma app_register_new a x t name email phone role :
  al_members a t → role ≠ RoleOwner → step_in (W a) (register_new x t name email phone role).
Proof.
  intros Hm Ho. unfold register_new. apply step_fresh. intros p hs.
  apply step_in_bind; [apply _|apply step_repo; [apply _|by apply good_ARegister]|].
  intros g. cbv zeta. destruct (negb _); [apply step_in_ret, _|].
  apply step_in_bind; [apply _|apply step_repo; [apply _|apply good_AClaim]|]. intros [claim b].
  destruct (negb b); [apply step_in_fail, _|]. apply step_mail_initial.
  apply step_in_bind; [apply _|apply step_repo; [apply _|apply good_AMark; by left]|]. intros _. apply step_in_ret, _.
Qed.

Lemma app_ARegister a s x t actor input :
  (Pr_TenantID actor = t → al_members a t) → al_redeliver a → step_in (W a) (Auth_Register s x t actor input).
Proof.
  intros Hm Hr. unfold Auth_Register. destruct (Pr_TenantID actor ==? t) eqn:Et; cbn [negb orb]; [|apply step_in_fail, _].
  destruct (negb _); [apply step_in_fail, _|]. bsimpl. specialize (Hm Et).
  destruct (validateRegistration input) as [[[name email] role]|] eqn:Ev; [|apply step_in_fail, _].
  assert (role ≠ RoleOwner) as Ho.
  { revert Ev. unfold validateRegistration. cbv zeta. destruct (_ || _); [done|].
    destruct (auth_normalizeEmail _); [|done]. destruct (staffRole (RI_Role input)) eqn:Es; [|done].
    intros [= _ _ <-]. by apply staff_not_owner. }
  destruct (negb _); [apply step_in_fail, _|].
  apply step_in_bind; [apply _|apply step_try, readonly_step, readonly_CredentialByEmail|].
  intros [v|[]]; [by apply app_register_existing|by apply app_register_new|apply step_in_fail, _].
Qed.

(** Both member updates look at the member first. *)
Lemma app_update a t target (m : AuM Member) fs w :
  (∀ d, (∀ y, y ∈ memberships d → mkey y = (t, target) → mb_role y ≠ RoleOwner) →
     ∀ fs', auth_good a d (m fs' d).2.2) →
  W a w ((v ← repo apassed (ARepository_Member t target);
          if Mem_Role v ==? RoleOwner then io_fail AErrForbidden else repo apassed m) fs w).2.2.
Proof.
  intros Hm. read_call readonly_Member fs'.
  destruct (ARepository_Member t target fs (w_db w)).1 as [v|] eqn:Ev; [|done].
  apply Member_ok in Ev as (y & Hy & Ek & Er). rewrite Er. destruct (mb_role y ==? RoleOwner) eqn:Eo; [done|]. bsimpl.
  assert (∀ A (m' : AuM A) fs0, W a w ((repo apassed m' ≫= mret) fs0 w).2.2 = W a w (repo apassed m' fs0 w).2.2) as E.
  { intros. rewrite bind_eq. by destruct (repo apassed m' fs0 w) as [[] []]. }
  rewrite <- E. apply repo_step_bind; [apply _| |intros v'; apply step_in_ret, _].
  intros Hd. apply Hm; [|done]. intros z Hz Ez. rewrite (member_unique (w_db w) z y) by (done || congruence). done.
Qed.

Lemma good_update a t id arg f fs d :
  al_members a t → (∀ m, mkey (f m) = mkey m ∧ (mb_role m ≠ RoleOwner → mb_role (f m) ≠ RoleOwner)) →
  (∀ y, y ∈ memberships d → mkey y = (t, id) → mb_role y ≠ RoleOwner) →
  auth_good a d (WithTenantTx t (λ tx, or_missing (stmt (update_membership tx t id arg f))) fs d).2.2.
Proof.
  intros Ha Hf Hno. apply (atomic_step (FromPg0:=auth_from_pg) (auth_good a)); [apply _|apply atomic_tx, det_or_missing, det_stmt|].
  rewrite run_tx by apply det_or_missing, det_stmt. rewrite run_or_missing, run_stmt by apply det_quiet, det_stmt.
  destruct (update_membership _ _ _ _ _ _) as [[v d']|[]] eqn:E; try reflexivity. cbn. by eapply update_membership_good.
Qed.

Lemma app_ChangeRole a t actor target role fs w :
  (Pr_TenantID actor = t → al_members a t) → W a w (Auth_ChangeMemberRole t actor target role fs w).2.2.
Proof.
  intros Ha. unfold Auth_ChangeMemberRole. destruct (Pr_TenantID actor ==? t) eqn:Et; cbn [negb orb]; [|done].
  destruct (negb (_ ==? RoleOwner)); [done|]. destruct (_ ==? target); [done|].
  destruct (staffRole role) eqn:Es; cbn [negb orb]; [|done]. bsimpl. apply app_update. intros d Hno fs'.
  apply good_update; [auto| |done]. intros m. split; [done|]. intros _. by apply staff_not_owner.
Qed.

Lemma app_SetStatus a t actor target active fs w :
  (Pr_TenantID actor = t → al_members a t) → W a w (Auth_SetMemberStatus t actor target active fs w).2.2.
Proof.
  intros Ha. unfold Auth_SetMemberStatus. destruct (Pr_TenantID actor ==? t) eqn:Et; cbn [negb orb]; [|done].
  destruct (negb (_ ==? RoleOwner)); [done|]. destruct (_ ==? target); [done|]. cbn [orb]. bsimpl.
  apply app_update. intros d Hno fs'. apply good_update; [auto| |done]. intros m. by split.
Qed.

Lemma app_AChangePassword a x t p current next fs w :
  (∀ i c, account (w_db w) (Pr_Email p) i c → id_id i = Pr_IdentityID p → bcrypt_Compare (cr_hash c) current = true →
     al_password a (Pr_IdentityID p) ∧ ∀ u hs, al_end a u (Pr_IdentityID p) hs) →
  W a w (Auth_ChangePassword x t p current next fs w).2.2.
Proof.
  intros Ha. unfold Auth_ChangePassword. destruct (_ || _); [done|].
  read_call readonly_CredentialByEmail fs'.
  destruct (ARepository_CredentialByEmail _ fs (w_db w)).1 as [v|] eqn:Ev; [|done].
  apply CredentialByEmail_ok in Ev as (i & c & Hacc & ->). cbn [Cr_Active Cr_PasswordHash Cr_IdentityID to_credential fst snd].
  destruct (id_id i ==? Pr_IdentityID p) eqn:Ei; cbn [negb orb]; [|done].
  destruct (id_status i ==? "active"%string); cbn [negb orb]; [|done].
  destruct (bcrypt_Compare (cr_hash c) current) eqn:Eb; cbn [negb]; [|done]. bsimpl.
  destruct (Ha i c Hacc Ei Eb) as [Hp He]. destruct (hashPassword x next) as [hash|]; [|done].
  assert (step_in (W a) (repo unauthorized (ARepository_ChangePassword (time1 x) t (Pr_IdentityID p) (Pr_SessionID p) hash))) as Hs
    by (apply step_repo; [apply _|by apply good_AChangePassword]).
  apply Hs.
Qed.

Lemma HasActive_ok t id fs d : (ARepository_HasActiveMembership t id fs d).1 = Ok true →
  ∃ m, m ∈ memberships d ∧ mkey m = (t, id) ∧ is_active m = true.
Proof.
  unfold ARepository_HasActiveMembership. intros Hok.
  assert (∀ tx, det (active_member tx t id)) as Hdet by (intros; apply det_query).
  pose proof (atomic_ok _ fs d true (atomic_tx t _ (Hdet t)) Hok) as Hrun. rewrite run_tx in Hrun by done.
  unfold active_member, query in Hrun. rewrite run_stmt in Hrun. injection Hrun as Hrun _.
  apply existsb_elem in Hrun as (m & Hm & (Et & Ei & Ha)%member_of_iff). exists m. unfold mkey. by rewrite Et, Ei.
Qed.

Lemma app_AForgot a s x t email fs w :
  (∀ e i c, auth_normalizeEmail email = Some e → active_account (w_db w) e t i c →
     al_password a (id_id i) ∧ ∀ u hs, al_end a u (id_id i) hs) →
  W a w (Auth_ForgotPassword s x t email fs w).2.2.
Proof.
  intros Ha. unfold Auth_ForgotPassword. destruct (auth_normalizeEmail email) as [e|] eqn:Ee; [|done].
  destruct (negb (as_email s)); [done|].
  read_call readonly_CredentialByEmail fs'.
  destruct (ARepository_CredentialByEmail e fs (w_db w)).1 as [v|] eqn:Ev; [|done].
  apply CredentialByEmail_ok in Ev as (i & c & Hacc & ->). cbn [Cr_Active Cr_PasswordHash Cr_IdentityID to_credential fst snd].
  destruct (id_status i ==? "active"%string) eqn:Es; cbn [negb]; [|done].
  read_call readonly_HasActive fs2.
  destruct (ARepository_HasActiveMembership _ _ fs' (w_db w)).1 as [[]|] eqn:Ev2; cbn [negb]; [|done|done].
  apply HasActive_ok in Ev2. bsimpl. destruct (Ha e i c eq_refl) as [Hp He]; [by split|].
  revert fs2. intros fs2. eapply (step_fresh a x). intros p hs. apply step_in_bind; [apply _|apply step_deliver, _|].
  intros b. destruct (negb b); [apply step_in_fail, _|].
  apply step_in_bind; [apply _|apply step_repo; [apply _|by apply good_AResetPassword]|]. intros _. apply step_in_ret, _.
Qed.

(** ** Handlers *)

Lemma reply_state {A} (m : AuApp A) fail ok fs w : (au_reply m fail ok fs w).2.2 = (m fs w).2.2.
Proof. unfold au_reply. by rewrite attempt_bind. Qed.

Lemma limited_step a h now t op (m : AuReply) fs w :
  (∀ fs' w', w_db w' = w_db w → W a w' (m fs' w').2.2) → W a w (au_limited h now t op m fs w).2.2.
Proof.
  intros Hm. unfold au_limited. rewrite bind_eq. unfold limited, allow. destruct (ah_limiter h); [|done].
  destruct (Allow _ _ _ _ _) as [b rd].
  destruct (pop fs) as [[] fs']; [|done|unfold db_step; reflexivity].
  destruct b; [|unfold db_step; reflexivity]. by apply (Hm fs' (mkWorld (w_db w) (w_mail w) rd)).
Qed.

(** The middleware lets through requests of a live session only. *)
Lemma Authenticate_step a h now {B} (r : Request B) (next : Principal -> AuReply) fs w :
  (∀ fs' t p, trustedContext h r = Some t → signed_in h now (w_db w) r (TenantID t) p → W a w (next p fs' w).2.2) →
  W a w (au_Authenticate h now r next fs w).2.2.
Proof.
  intros Hn. unfold au_Authenticate. destruct (trustedContext h r) as [t|] eqn:Et; [|done].
  rewrite attempt_bind. unfold Auth_Current. destruct (session_cookie h r ==? EmptyString) eqn:Ec; [done|].
  destruct (repo_read unauthorized (ARepository_Session now (TenantID t) (tokenDigest (session_cookie h r))) fs w
    ltac:(apply readonly_ASession)) as [fs' ->]. cbn [fst snd].
  destruct (ARepository_Session _ _ _ fs (w_db w)).1 as [p|[]] eqn:Ep; [|done..]. cbn. bsimpl.
  apply ASession_ok in Ep as (s & i & c & m & Hl & ->). apply (Hn fs' t); [done|]. by exists t, s, i, c, m.
Qed.

Lemma owner_step a h now {B} (r : Request B) (next : Principal -> AuReply) fs w :
  (∀ fs' t p, trustedContext h r = Some t → Pr_TenantID p = TenantID t → owner_request h now (w_db w) r (TenantID t) →
     W a w (next p fs' w).2.2) →
  W a w (owner_route h now r next fs w).2.2.
Proof.
  intros Hn. apply Authenticate_step. intros fs' t p Ht Hs. unfold RequireCurrentPassword, RequireRoles.
  destruct (Pr_MustChange p) eqn:Em; [done|]. cbn [existsb]. destruct (Pr_Role p ==? RoleOwner) eqn:Er; [|done]. cbn [orb].
  bsimpl. apply (Hn fs' t); [done| |by exists p]. by destruct Hs as (? & s & i & c & m & _ & _ & _ & _ & ->).
Qed.

Lemma managing_register h now x r fs w :
  W (managing h now (w_db w) r) w (owner_route h now r (au_register h x r) fs w).2.2.
Proof.
  apply owner_step. intros fs' t p Ht Hp Ho. unfold au_register. rewrite Ht. apply limited_step. intros fs2 w2 Ew.
  destruct (Body r) as [input|]; [|done]. rewrite reply_state.
  apply (app_ARegister (managing h now (w_db w) r)); [by intros _|]. by exists (TenantID t).
Qed.

Lemma managing_member a h now {B} (r : Request B) (k : Principal -> TenantContext -> uuid -> AuReply) fs w :
  (∀ fs' t p id, Pr_TenantID p = TenantID t → owner_request h now (w_db w) r (TenantID t) → W a w (k p t id fs' w).2.2) →
  W a w (owner_route h now r (λ p, on_member h r (k p)) fs w).2.2.
Proof.
  intros Hk. apply owner_step. intros fs' t p Ht Hp Ho. unfold on_member. rewrite Ht.
  destruct (memberID r) as [id|]; [|done]. by apply Hk.
Qed.

(** Routes that only read. *)
Lemma reads_step {A} a (m : AuM A) f fail ok fs w :
  readonly m → W a w (au_reply (repo f m) fail ok fs w).2.2.
Proof. intros Hm. rewrite reply_state. by destruct (repo_read f m fs w Hm) as [fs' ->]. Qed.

Lemma serve_moves h now after x route fs w :
  W (allowed_by h now (w_db w) route) w (au_serve h now after x route fs w).2.2.
Proof.
  destruct route as [r|r|r|r|r|r|r|r|r|r|r|r|r|r]; cbn [au_serve].
  - unfold au_login. destruct (trustedContext h r) as [t|] eqn:Et; [|done]. apply limited_step. intros fs' w' Ew.
    destruct (Body r) as [[email password]|] eqn:Eb; [|done]. destruct (_ || _); [done|]. rewrite reply_state.
    apply app_ALogin. rewrite Ew. intros e i c y Ee Hacc Hb Hy1 Hy2. by exists t, email, password, e, i, c.
  - unfold au_logout. destruct (trustedContext h r) as [t|] eqn:Et; [|done]. rewrite reply_state. unfold Auth_Logout.
    destruct (_ ==? EmptyString); [done|]. apply (step_repo (auth_good _)), good_ARevoke. intros id hs E. by exists t.
  - apply Authenticate_step. done.
  - apply managing_register.
  - apply owner_step. intros fs' t p Ht _ _. unfold au_members. rewrite Ht. apply reads_step, readonly_Members.
  - apply managing_member. intros fs' t p id _ _. apply reads_step, readonly_Member.
  - apply managing_register.
  - apply managing_member. intros fs' t p id Hp Ho. destruct (Body r) as [role|]; [|done]. rewrite reply_state.
    apply app_ChangeRole. by intros _.
  - apply managing_member. intros fs' t p id Hp Ho. rewrite reply_state. apply app_SetStatus. by intros _.
  - apply managing_member. intros fs' t p id Hp Ho. rewrite reply_state. apply app_SetStatus. by intros _.
  - unfold barberEligibility. destruct (trustedContext h r) as [t|]; [|done]. destruct (memberID r) as [id|]; [|done].
    apply reads_step, readonly_BarberEligible.
  - apply Authenticate_step. intros fs' t p Ht Hs. unfold au_changePassword. rewrite Ht.
    destruct (Body r) as [[current next]|] eqn:Eb; [|done]. rewrite reply_state. apply app_AChangePassword.
    intros i c Hacc Hi Hb. assert (change_replaces h now (w_db w) r (Pr_IdentityID p)) as Hc; [|by split].
    by exists (TenantID t), p, current, next, i, c.
  - unfold forgotPassword. destruct (trustedContext h r) as [t|] eqn:Et; [|done]. apply limited_step. intros fs' w' Ew.
    destruct (Body r) as [email|] eqn:Eb; [|done]. destruct (_ ==? _); [done|]. rewrite reply_state.
    apply app_AForgot. rewrite Ew. intros e i c Ee Hacc.
    assert (forgot_replaces h (w_db w) r (id_id i)) as Hf; [|by split]. by exists t, email, e, i, c.
  - unfold platformOwners. destruct (negb _); [done|]. destruct (uuid_Parse _) as [id|]; [|done].
    apply reads_step, readonly_Owners.
Qed.

(** ** Histories *)

(** A request with the clocks, the draws and the faults it meets. *)
Record auth_event := mkAuthEvent {
  ev_now : time; ev_after : time; ev_draw : draw; ev_route : auth_route; ev_faults : list fault
}.
Definition serve_event (h : AuthHandler) (w : world authdb) (e : auth_event) : world authdb :=
  (au_serve h (ev_now e) (ev_after e) (ev_draw e) (ev_route e) (ev_faults e) w).2.2.

(** C8: the auth service does what the caller is entitled to and nothing else,
    whatever fails and in whatever order requests come.  Its tables stay
    consistent; who is an owner of which tenant never changes, so that no
    sequence of requests makes, demotes or deactivates an owner; identities are
    only ever added; memberships of a tenant change only on a request of an
    owner of that tenant in a live session with a password of their own;
    a password is replaced only in a session of its identity by someone who
    gave the current one, by the recovery route for an active member, or, on
    an owner's request, when the initial one was never delivered; a session is
    opened only by a sign-in with the right password of an active identity with
    an active membership in the tenant; and a session is ended only by its own
    sign-out or with the password of its identity. *)
Theorem auth_requests_safe h :
  auth_ok (mkAuthdb [] [] [] []) ∧
  (∀ e w, auth_ok (w_db w) →
     auth_ok (w_db (serve_event h w e)) ∧
     auth_moves (allowed_by h (ev_now e) (w_db w) (ev_route e)) (w_db w) (w_db (serve_event h w e))) ∧
  (∀ events w, auth_ok (w_db w) →
     auth_ok (w_db (foldl (serve_event h) w events)) ∧
     owners (w_db (foldl (serve_event h) w events)) = owners (w_db w)).
Proof.
  split; [constructor; cbn; first [by constructor|set_solver]|].
  assert (∀ e w, auth_good (allowed_by h (ev_now e) (w_db w) (ev_route e)) (w_db w) (w_db (serve_event h w e))) as Hs
    by (intros e w; apply serve_moves).
  split; [intros e w; apply Hs|]. intros events. induction events as [|e l IH]; intros w Hw; [done|]. cbn [foldl].
  destruct (Hs e w Hw) as [Hw' Hm]. destruct (IH _ Hw') as [Hok E]. split; [done|]. rewrite E. apply (mv_owners _ _ _ Hm).
Qed.
End Requests.
