(* ===== verification/AuthSessions.v ===== *)
(** * AuthSessions: who is signed in

    The exact set of tokens the auth service accepts, before and after every
    operation that changes it, also when the operation is interrupted; the way
    from a registration to a working password; and what the recovery route
    gives away. *)
From S2P Require Import Prelude Effects GoTime Http Platform Accounts Auth AuthAccounts AuthRequests.

Local Open Scope Z_scope.

Section Sessions.
Context `{GoLib, AccountLib, Collation}.

(** ** Accepted tokens *)

(** The principal a token stands for. *)
Definition principal_of (now : time) (t : uuid) (token : string) (w : world authdb) : option Principal :=
  match (run (Auth_Current now t token) w).1 with Ok p => Some p | Err _ => None end.

(** The rows a token leads to, whether or not the membership is active. *)
Record held_rows (now : time) (t : uuid) (hash : option string) (d : authdb)
    (s : asession_row) (i : identity_row) (c : credential_row) (m : membership_row) : Prop := mkHeldRows {
  hd_session : s ∈ asessions d ∧ se_tenant s = t ∧ session_live now hash s = true;
  hd_identity : i ∈ identities d ∧ id_id i = se_identity s ∧ id_status i = "active"%string;
  hd_credential : c ∈ credentials d ∧ cr_identity c = id_id i;
  hd_member : m ∈ memberships d ∧ mkey m = (t, se_identity s)
}.

Lemma exist_iff {A} (P Q : A -> Prop) : (∀ x, P x ↔ Q x) → (∃ x, P x) ↔ ∃ x, Q x.
Proof. intros E. split; intros [x Hx]; exists x; by apply E. Qed.

Lemma live_held now t hash d s i c m :
  live_rows now t hash d s i c m ↔ held_rows now t hash d s i c m ∧ is_active m = true.
Proof.
  split.
  - intros [L1 L2 L3 (Hm & Ek & Ha)]. by split; [constructor|].
  - intros [[L1 L2 L3 [Hm Ek]] Ha]. by constructor.
Qed.

Lemma ASession_run now t hash d :
  run (ARepository_Session now t hash) d
  = (match head (session_rows now t t hash d) with Some x => Ok (to_principal t x) | None => Err ANotFound end, d).
Proof.
  unfold ARepository_Session. rewrite run_tx by apply det_or_missing, det_stmt.
  rewrite run_or_missing, run_reading by apply det_quiet, det_stmt. by destruct (head _).
Qed.

Lemma quiet_ASession now t hash : quiet (ARepository_Session now t hash).
Proof. apply quiet_tx, det_or_missing, det_stmt. Qed.

Lemma principal_of_iff now t token w p :
  auth_ok (w_db w) →
  principal_of now t token w = Some p ↔
    token ≠ EmptyString ∧ ∃ s i c m, live_rows now t (tokenDigest token) (w_db w) s i c m ∧
      p = to_principal t (s, (i, c), m).
Proof.
  intros Hd. unfold principal_of, Auth_Current. destruct (token ==? EmptyString) eqn:Et; bsimpl.
  { cbn. split; [done|]. by intros [? _]. }
  rewrite run_repo_call by apply quiet_ASession. rewrite ASession_run. cbn [fst].
  destruct (head _) as [[[s [i c]] m]|] eqn:E; cbn.
  - apply head_Some_elem_of, elem_of_session_rows in E. split.
    + intros [= <-]. split; [done|]. by exists s, i, c, m.
    + intros (_ & s' & i' & c' & m' & L & ->). by pose proof (live_unique _ _ _ _ _ _ _ _ _ _ _ _ Hd E L) as [= -> -> -> ->].
  - split; [done|]. intros (_ & s & i & c & m & L & _). apply elem_of_session_rows in L.
    destruct (session_rows now t t (tokenDigest token) (w_db w)); [set_solver|done].
Qed.

(** ** Memberships *)

Lemma update_membership_exact t id arg f d v d' :
  auth_ok d → update_membership t t id arg f d = Ok (v, d') →
  d' = set_memberships (upd (λ m, mkey m ==? (t, id)) f (memberships d)) d.
Proof.
  intros Hd. unfold update_membership. cbv zeta. destruct (negb _); [done|]. destruct (existsb _ _); [done|].
  destruct (existsb _ _); [done|]. destruct (head _) as [y|]; [|done]. intros [= _ <-]. f_equal.
  unfold upd. apply map_ext_in. intros m Hm%list_elem_of_In. destruct (au_mchecks d Hd m Hm) as [_ Hi].
  assert (member_of t t id (λ m, has_identity d (mb_identity m)) m = (mkey m ==? (t, id))) as ->; [|done].
  unfold member_of, rls, mkey. rewrite Hi. destruct m as [mt mi]. cbn.
  destruct (decide (mt = t)) as [->|]; [|by rewrite (bool_decide_false (mt = t)), (bool_decide_false ((_, _) = _)) by congruence].
  rewrite bool_decide_refl. cbn. destruct (decide (mi = id)) as [->|]; [|by rewrite (bool_decide_false (mi = id)), (bool_decide_false ((_, _) = _)) by congruence].
  by rewrite !bool_decide_refl.
Qed.

Lemma member_update_run t id arg f d v d' :
  auth_ok d → run (WithTenantTx t (λ tx, or_missing (stmt (update_membership tx t id arg f)))) d = (Ok v, d') →
  d' = set_memberships (upd (λ m, mkey m ==? (t, id)) f (memberships d)) d.
Proof.
  intros Hd. rewrite run_tx by apply det_or_missing, det_stmt. rewrite run_or_missing, run_stmt by apply det_quiet, det_stmt.
  destruct (update_membership _ _ _ _ _ _) as [[v' d2]|[]] eqn:E; [|done..]. cbn. intros [= _ <-].
  by eapply update_membership_exact.
Qed.

Lemma quiet_Member t id : quiet (ARepository_Member t id).
Proof. apply quiet_tx, det_or_missing, det_stmt. Qed.

Lemma readonly_run {D E A} (m : IO D E A) d : readonly m → (run m d).2 = d.
Proof. intros Hm. specialize (Hm [] d). unfold run. by destruct (m [] d) as [? []]. Qed.

Lemma checked_update_run t target (m : AuM Member) w v w' :
  quiet m →
  run (v ← repo apassed (ARepository_Member t target);
       if Mem_Role v ==? RoleOwner then io_fail AErrForbidden else repo apassed m) w = (Ok v, w') →
  ∃ d', run m (w_db w) = (Ok v, d') ∧ w' = set_db d' w.
Proof.
  intros Hq. rewrite run_repo_bind by apply quiet_Member. rewrite (readonly_run _ _ (readonly_Member t target)), set_db_same.
  destruct (run (ARepository_Member t target) (w_db w)).1 as [x|]; [|done]. destruct (_ ==? _); [done|].
  rewrite run_repo_call by done. destruct (run m (w_db w)) as [[y|] d']; [|done]. cbn. intros [= <- <-]. by exists d'.
Qed.

(** Everything may change: for reasoning about consistency alone. *)
Definition anything : allowance := mkAllowance (λ _, True) (λ _, True) True (λ _, True) (λ _ _ _, True).

Lemma state_of_run {A} (m : AuApp A) w : (m [] w).2.2 = (run m w).2.
Proof. unfold run. by destruct (m [] w) as [? []]. Qed.

Lemma state_of_run_fst {A} (m : AuApp A) w : (m [] w).1 = (run m w).1.
Proof. unfold run. by destruct (m [] w) as [? []]. Qed.

(** The accepted tokens after memberships were updated. *)
Lemma principal_after_update t target f w d' now t' token p :
  (∀ m, mkey (f m) = mkey m) →
  auth_ok d' → d' = set_memberships (upd (λ m, mkey m ==? (t, target)) f (memberships (w_db w))) (w_db w) →
  principal_of now t' token (set_db d' w) = Some p ↔
    token ≠ EmptyString ∧ ∃ s i c m, held_rows now t' (tokenDigest token) (w_db w) s i c m ∧
      is_active (if mkey m ==? (t, target) then f m else m) = true ∧
      p = to_principal t' (s, (i, c), if mkey m ==? (t, target) then f m else m).
Proof.
  intros Hf Hok Hd'. rewrite principal_of_iff by done. cbn [w_db set_db].
  assert (∀ m, mkey (if mkey m ==? (t, target) then f m else m) = mkey m) as Hk by (intros m; by destruct (_ ==? _)).
  split; intros (Ht & s & i & c & m & L & E); (split; [done|]).
  - apply live_held in L as [[L1 L2 L3 [Hm Ek]] Ha]. rewrite Hd' in L1, L2, L3, Hm.
    apply elem_of_upd in Hm as (y & Hy & ->). rewrite Hk in Ek. exists s, i, c, y. by split; [constructor|].
  - exists s, i, c, (if mkey m ==? (t, target) then f m else m). destruct E as [Ha ->]. split; [|done].
    apply live_held. split; [|done]. destruct L as [L1 L2 L3 [Hm Ek]]. rewrite Hd'. constructor; [done..|].
    split; [|by rewrite Hk]. apply elem_of_upd. by exists m.
Qed.

(** memberships govern access at once.  When an owner's change of a
    membership has succeeded, a token is accepted in a tenant exactly if it is
    one of a live session of an active identity whose membership is active
    after the change, with the role it has after the change; so a deactivated
    member is locked out of the tenant with all sessions, an activated member's
    unexpired sessions work again, and everybody else is as before. *)
Theorem membership_governs_access t actor target w v w' :
  auth_ok (w_db w) →
  (∀ active, run (Auth_SetMemberStatus t actor target active) w = (Ok v, w') →
     ∀ now t' token p, principal_of now t' token w' = Some p ↔
       token ≠ EmptyString ∧ ∃ s i c m, held_rows now t' (tokenDigest token) (w_db w) s i c m ∧
         (if mkey m ==? (t, target) then active else is_active m) = true ∧ p = to_principal t' (s, (i, c), m)) ∧
  (∀ role, run (Auth_ChangeMemberRole t actor target role) w = (Ok v, w') →
     ∀ now t' token p, principal_of now t' token w' = Some p ↔
       token ≠ EmptyString ∧ ∃ s i c m, held_rows now t' (tokenDigest token) (w_db w) s i c m ∧ is_active m = true ∧
         p = to_principal t' (s, (i, c), if mkey m ==? (t, target) then with_role role m else m)).
Proof.
  intros Hd. split; intros arg Hrun now t' token p.
  - assert (auth_ok (w_db w')) as Hd'.
    { pose proof (app_SetStatus anything t actor target arg [] w (λ _, I) Hd) as [Hok _].
      by rewrite state_of_run, Hrun in Hok. }
    revert Hrun. unfold Auth_SetMemberStatus. destruct (_ || _); [done|]. intros Hrun.
    apply checked_update_run in Hrun as (d' & Hm & ->); [|apply quiet_tx, det_or_missing, det_stmt].
    apply member_update_run in Hm; [|done].
    rewrite (principal_after_update t target (with_status (if arg then "active" else "inactive")) w d') by done.
    apply and_iff_compat_l. do 4 (apply exist_iff; intros ?).
    by destruct (_ ==? _), arg.
  - assert (auth_ok (w_db w')) as Hd'.
    { pose proof (app_ChangeRole anything t actor target arg [] w (λ _, I) Hd) as [Hok _].
      by rewrite state_of_run, Hrun in Hok. }
    revert Hrun. unfold Auth_ChangeMemberRole. destruct (_ || _); [done|]. intros Hrun.
    apply checked_update_run in Hrun as (d' & Hm & ->); [|apply quiet_tx, det_or_missing, det_stmt].
    apply member_update_run in Hm; [|done]. rewrite (principal_after_update t target (with_role arg) w d') by done.
    apply and_iff_compat_l. do 4 (apply exist_iff; intros ?).
    by destruct (_ ==? _).
Qed.

(** ** Signing in and out *)

Lemma CredentialByEmail_run email d :
  run (ARepository_CredentialByEmail email) d
  = (if text_ok email then match head (join_credential (by_email email) d) with
                           | Some x => Ok (to_credential x)
                           | None => Err ANotFound
                           end
     else Err (APg BadEncoding), d).
Proof.
  unfold ARepository_CredentialByEmail. rewrite run_or_missing by apply quiet_autocommit. rewrite run_autocommit.
  unfold reading. destruct (text_ok email); [|done]. cbn [negb]. by destruct (head _).
Qed.

Lemma quiet_CredentialByEmail email : quiet (ARepository_CredentialByEmail email).
Proof. apply quiet_or_missing, quiet_autocommit. Qed.

Lemma quiet_CreateSession newID t id hash expires : quiet (ARepository_CreateSession newID t id hash expires).
Proof. apply quiet_tx, det_CreateSession. Qed.

Lemma insert_asession_exact t s d x d' :
  insert_asession t s d = Ok (x, d') →
  x = se_id s ∧ (∀ y, y ∈ asessions d → skey y ≠ skey s) ∧ d' = set_asessions (asessions d ++ [s]) d.
Proof.
  unfold insert_asession. destruct (negb (se_tenant s ==? t)); [done|].
  destruct (existsb (λ x, se_id x ==? _) _); [done|]. destruct (existsb (λ x, skey x ==? _) _) eqn:E; [done|].
  destruct (negb _); [done|]. intros [= <- <-]. by rewrite (existsb_fresh skey) in E.
Qed.

(** What a successful sign-in did. *)
Lemma ALogin_run s x t email password w r w' :
  auth_ok (w_db w) → run (Auth_Login s x t email password) w = (Ok r, w') →
  ∃ e i c m bytes, let y := new_session (dr_id x) t (id_id i) (sha256 bytes) (Add (dr_clock x) (as_sessionTTL s)) in
    auth_normalizeEmail email = Some e ∧ account (w_db w) e i c ∧ id_status i = "active"%string ∧
    bcrypt_Compare (cr_hash c) password = true ∧ dr_random x = Some bytes ∧
    (m ∈ memberships (w_db w) ∧ mkey m = (t, id_id i) ∧ is_active m = true) ∧
    r = mkSession (to_principal t (y, (i, c), m)) (base64_Encode bytes) (Add (dr_clock x) (as_sessionTTL s)) ∧
    (∀ z, z ∈ asessions (w_db w) → skey z ≠ skey y) ∧
    w' = set_db (set_asessions (asessions (w_db w) ++ [y]) (w_db w)) w.
Proof.
  intros Hd. unfold Auth_Login. destruct (auth_normalizeEmail email) as [e|]; [|done]. destruct (password ==? _); [done|].
  rewrite run_try_bind by apply quiet_CredentialByEmail. rewrite CredentialByEmail_run. cbn [fst snd]. rewrite set_db_same.
  destruct (text_ok e); [|done]. destruct (head _) as [[i c]|] eqn:Ec; [|done].
  apply head_Some_elem_of, elem_of_join_credential in Ec. fold (account (w_db w) e i c) in Ec.
  cbn [Cr_Active Cr_PasswordHash Cr_IdentityID to_credential fst snd].
  destruct (id_status i ==? "active"%string) eqn:Es; cbn [negb orb]; [|done].
  destruct (bcrypt_Compare (cr_hash c) password) eqn:Eb; cbn [negb]; [|done].
  unfold newToken. destruct (dr_random x) as [bytes|] eqn:Ex; [|done]. cbn [fmap option_fmap option_map].
  rewrite run_repo_bind by apply quiet_CreateSession. rewrite CreateSession_exact.
  destruct (find_member t (id_id i) is_active (w_db w)) as [m|] eqn:Em; [|done].
  destruct (head _) as [[i' c']|] eqn:Eh; [|done]. destruct (insert_asession _ _ _) as [[sid d']|] eqn:Ei; [|done].
  apply insert_asession_exact in Ei as (-> & Hf & ->). cbn [fst snd]. rewrite run_ret. intros [= <- <-]. bsimpl.
  apply head_Some_elem_of, elem_of_join_credential in Eh as (Hi' & Ei' & Hc' & Ec'). unfold active_identity in Ei'. bsimpl.
  pose proof Ec as (Hi & _ & Hc & Ecc).
  assert (i' = i) as -> by (by apply (identity_unique (w_db w))).
  assert (c' = c) as -> by (apply (credential_unique (w_db w)); congruence).
  apply find_member_Some in Em. exists e, i, c, m, bytes. cbv zeta. split_and!; try done; by destruct Em as (? & ? & ?).
Qed.

(** The accepted tokens after a session was opened. *)
Lemma principal_after_open t y i c m w now t' token :
  auth_ok (w_db w) → auth_ok (set_asessions (asessions (w_db w) ++ [y]) (w_db w)) →
  se_tenant y = t → se_revoked y = None → (∀ z, z ∈ asessions (w_db w) → skey z ≠ skey y) →
  (i ∈ identities (w_db w) ∧ id_id i = se_identity y ∧ id_status i = "active"%string) →
  (c ∈ credentials (w_db w) ∧ cr_identity c = id_id i) →
  (m ∈ memberships (w_db w) ∧ mkey m = (t, se_identity y) ∧ is_active m = true) → token ≠ EmptyString →
  principal_of now t' token (set_db (set_asessions (asessions (w_db w) ++ [y]) (w_db w)) w)
  = if (t' ==? t) && (tokenDigest token ==? Some (se_hash y))
    then if now <? se_expires y then Some (to_principal t (y, (i, c), m)) else None
    else principal_of now t' token w.
Proof.
  intros Hd Hd' Ht Hr Hf Hi Hc Hm Htok. apply option_eq. intros q. rewrite principal_of_iff by done. cbn [w_db set_db].
  assert (∀ z, z ∈ asessions (w_db w) → session_live now (tokenDigest token) z = true → se_tenant z = t' →
    (t' ==? t) && (tokenDigest token ==? Some (se_hash y)) = false) as Hold.
  { intros z Hz Hl Hzt. destruct (_ && _) eqn:E; [|done]. exfalso. bsimpl. apply (Hf z Hz). unfold skey, session_live in *.
    destruct (tokenDigest token) as [h|]; [|done]. bsimpl. congruence. }
  split.
  - intros (_ & s & i' & c' & m' & L & ->). pose proof L as [(Hs & Hst & Hl) Li Lc Lm].
    apply elem_of_app in Hs as [Hs|Hs%list_elem_of_singleton].
    + rewrite (Hold s Hs Hl Hst). apply principal_of_iff; [done|]. split; [done|]. by exists s, i', c', m'; split; [constructor|].
    + subst s. unfold session_live in Hl. destruct (tokenDigest token) as [h|] eqn:Eh; [|done]. bsimpl.
      assert (t' = t) as -> by congruence. assert (h = se_hash y) as -> by congruence.
      rewrite !bool_decide_refl. cbn [andb]. rewrite (proj2 (Z.ltb_lt now (se_expires y))) by done. do 2 f_equal.
      destruct Li as (Hi1 & Hi2 & Hi3), Lc as [Hc1 Hc2], Lm as (Hm1 & Hm2 & _), Hi as (Hi & Hie & _), Hc as [Hc Hce], Hm as (Hm & Hme & _).
      assert (i' = i) as -> by (apply (identity_unique (w_db w)); (done || congruence)).
      assert (c' = c) as -> by (apply (credential_unique (w_db w)); (done || congruence)).
      assert (m' = m) as -> by (apply (member_unique (w_db w)); (done || congruence)). done.
  - destruct ((t' ==? t) && (tokenDigest token ==? Some (se_hash y))) eqn:E.
    + bsimpl. subst t'. match goal with Eh : tokenDigest token = _ |- _ => rewrite Eh end.
      destruct (Z.ltb_spec now (se_expires y)) as [Hn|]; [|done]. intros [= <-]. split; [done|]. exists y, i, c, m.
      split; [|done]. constructor; [|done..]. split; [cbn; set_solver|]. split; [done|]. unfold session_live, unrevoked.
      rewrite Hr, bool_decide_refl. cbn. by apply Z.ltb_lt.
    + intros Hp. apply principal_of_iff in Hp as (_ & s & i' & c' & m' & [(Hs & Hst & Hl) Li Lc Lm] & ->); [|done].
      split; [done|]. exists s, i', c', m'. split; [|done]. constructor; [|done..]. cbn. set_solver.
Qed.

(** The accepted tokens after sessions were ended. *)
Lemma live_after_revoke now t hash n q d s i c m :
  live_rows now t hash (set_asessions (upd q (revoked n) (asessions d)) d) s i c m ↔
  live_rows now t hash d s i c m ∧ q s = false.
Proof.
  split.
  - intros [(Hs & Ht & Hl) Li Lc Lm]. cbn in Hs. apply elem_of_upd in Hs as (z & Hz & ->). destruct (q z) eqn:Eq.
    + unfold session_live, unrevoked in Hl. cbn in Hl. by rewrite andb_false_r in Hl.
    + by split; [constructor|].
  - intros [[(Hs & Ht & Hl) Li Lc Lm] Eq]. constructor; [|done..]. split; [|done]. cbn. apply elem_of_upd.
    exists s. by rewrite Eq.
Qed.

Lemma ALogout_run now t token w :
  token ≠ EmptyString →
  run (Auth_Logout now t token) w
  = (Ok tt, set_db (set_asessions (upd (rls se_tenant t (λ s, (se_tenant s ==? t)
       && match tokenDigest token with Some h => se_hash s ==? h | None => false end && unrevoked s))
       (revoked now) (asessions (w_db w))) (w_db w)) w).
Proof.
  intros Ht. unfold Auth_Logout. rewrite bool_decide_false by done.
  rewrite run_repo_call by apply quiet_tx, det_stmt. unfold ARepository_RevokeSession. rewrite run_tx by apply det_stmt.
  by rewrite run_stmt.
Qed.

Lemma digest_encode `{!AccountLaws} bytes : tokenDigest (base64_Encode bytes) = Some (sha256 bytes).
Proof. unfold tokenDigest. by rewrite (base64_roundtrip bytes). Qed.

(** signing in opens one session and signing out ends it.  After a
    successful sign-in the token that was handed out stands for the principal
    in the reply, in that tenant and until it expires, and every other token is
    as before; signing out ends exactly the session of the token. *)
Theorem sign_in_and_out `{!AccountLaws} t w :
  auth_ok (w_db w) →
  (∀ s x email password r w', run (Auth_Login s x t email password) w = (Ok r, w') →
     ∀ now t' token, token ≠ EmptyString →
       principal_of now t' token w'
       = if (t' ==? t) && (tokenDigest token ==? tokenDigest (Se_Token r))
         then if now <? pg_ts (Se_ExpiresAt r) then Some (Se_Principal r) else None
         else principal_of now t' token w) ∧
  (∀ now0 token w', run (Auth_Logout now0 t token) w = (Ok tt, w') → token ≠ EmptyString →
     ∀ now t' token', token' ≠ EmptyString →
       principal_of now t' token' w'
       = if (t' ==? t) && (tokenDigest token' ==? tokenDigest token) then None else principal_of now t' token' w).
Proof.
  intros Hd. split.
  - intros s x email password r w' Hrun now t' token Ht.
    pose proof (app_ALogin anything s x t email password [] w (λ _ _ _ _ _ _ _ _ _, I) Hd) as [Hd' _].
    rewrite state_of_run, Hrun in Hd'. cbn [snd] in Hd'.
    apply ALogin_run in Hrun as (e & i & c & m & bytes & _ & (Hi & _ & Hc & Hce) & Hact & _ & _ & Hm & -> & Hf & ->); [|done].
    cbn [Se_Token Se_Principal Se_ExpiresAt]. rewrite digest_encode.
    by rewrite (principal_after_open t _ i c m).
  - intros now0 token w' Hrun Ht now t' token' Ht'. rewrite ALogout_run in Hrun by done. injection Hrun as <-.
    set (q := rls _ _ _). assert (auth_ok (set_asessions (upd q (revoked now0) (asessions (w_db w))) (w_db w))) as Hd'
      by (by apply (revoke_good anything)).
    apply option_eq. intros p. rewrite principal_of_iff by done. cbn [w_db set_db].
    assert (∀ s i c m, live_rows now t' (tokenDigest token') (w_db w) s i c m →
      q s = (t' ==? t) && (tokenDigest token' ==? tokenDigest token)) as Hq.
    { intros s i c m [(Hs & Hst & Hl) _ _ _]. unfold q, rls. unfold session_live in Hl. rewrite Hst.
      destruct (tokenDigest token') as [h'|]; [|done]. bsimpl. subst h'.
      match goal with Hu : unrevoked s = true |- _ => rewrite Hu end. destruct (t' ==? t); [|done]. cbn.
      destruct (tokenDigest token) as [h|]; cbn.
      - rewrite andb_true_r. apply bool_decide_ext. split; congruence.
      - symmetry. by apply bool_decide_false. }
    destruct ((t' ==? t) && _) eqn:E.
    + split; [|done]. intros (_ & s & i & c & m & L & _). apply live_after_revoke in L as [L Eq].
      by rewrite (Hq s i c m L) in Eq.
    + rewrite principal_of_iff by done. apply and_iff_compat_l. do 4 (apply exist_iff; intros ?).
      rewrite live_after_revoke. split; [tauto|]. intros [L ->]. split; [|done]. split; [done|]. by erewrite Hq.
Qed.

(** ** Replacing a password *)

(** The database with a new password for [id] and its sessions ended, but for
    one that is kept. *)
Definition replaced (ts : time) (id : uuid) (keep : option uuid) (hash : string) (must : bool) (d : authdb) : authdb :=
  let d1 := set_credentials (upd (λ c, (cr_identity c ==? id) && true) (cr_with_hash hash ts must ts) (credentials d)) d in
  set_asessions
    (upd (λ s, (se_identity s ==? id) && unrevoked s && match keep with None => true | Some k => se_id s !=? k end)
       (revoked ts) (asessions d)) d1.

Lemma replaced_ok ts id keep hash must d : auth_ok d → auth_ok (replaced ts id keep hash must d).
Proof.
  intros Hd. unfold replaced. cbv zeta. set (d1 := set_credentials _ d). assert (auth_ok d1) as Hd1.
  { apply (credentials_good anything); [..|done].
    - rewrite map_upd; [apply Hd|done].
    - intros c' (c & Hc & ->)%elem_of_upd. destruct (au_cchecks d Hd c Hc) as (D1 & D2 & D3). by destruct (_ && _).
    - intros c Hc. exists (if (cr_identity c ==? id) && true then cr_with_hash hash ts must ts c else c).
      split; [apply elem_of_upd; by exists c|]. destruct (_ && _); (split; [done|]); (split; [done|]); cbn; auto. }
  change (asessions d) with (asessions d1). by apply (revoke_good anything).
Qed.

(** The accepted tokens afterwards. *)
Lemma principal_after_replaced ts id keep hash must w now t' token q :
  auth_ok (w_db w) →
  principal_of now t' token (set_db (replaced ts id keep hash must (w_db w)) w) = Some q ↔
    token ≠ EmptyString ∧ ∃ s i c m, live_rows now t' (tokenDigest token) (w_db w) s i c m ∧
      (se_identity s ≠ id ∨ keep = Some (se_id s)) ∧
      q = to_principal t' (s, (i, if cr_identity c ==? id then cr_with_hash hash ts must ts c else c), m).
Proof.
  intros Hd. rewrite principal_of_iff by (cbn; by apply replaced_ok). cbn [w_db set_db]. unfold replaced. cbv zeta.
  set (d1 := set_credentials _ (w_db w)). change (asessions (w_db w)) with (asessions d1). apply and_iff_compat_l.
  assert (∀ s, unrevoked s = true →
    ((se_identity s ==? id) && unrevoked s && match keep with None => true | Some k => se_id s !=? k end = false ↔
     se_identity s ≠ id ∨ keep = Some (se_id s))) as Hq.
  { intros s Hu. rewrite Hu. destruct (se_identity s ==? id) eqn:E; bsimpl; cbn [andb]; [|tauto]. destruct keep as [k|].
    - destruct (se_id s ==? k) eqn:Ek; bsimpl; cbn.
      + subst k. split; [by right|done].
      + split; [done|]. by intros [|[= ->]].
    - split; [done|]. by intros [|]. }
  assert (∀ s i c m h n, live_rows n t' h d1 s i c m → unrevoked s = true) as Hu.
  { intros s i c m h n [(_ & _ & Hl) _ _ _]. unfold session_live in Hl. by bsimpl. }
  split.
  - intros (s & i & c' & m & L & ->). apply live_after_revoke in L as [L Eq]. rewrite Hq in Eq by (by eapply Hu).
    destruct L as [Ls Li [Hc Hce] Lm]. cbn in Hc. apply elem_of_upd in Hc as (c & Hc & ->). rewrite andb_true_r in *.
    assert (cr_identity c = id_id i) as Hci by (by destruct (_ ==? _)).
    exists s, i, c, m. by split; [constructor|split].
  - intros (s & i & c & m & [Ls Li [Hc Hce] Lm] & Eq & ->).
    exists s, i, (if cr_identity c ==? id then cr_with_hash hash ts must ts c else c), m. split; [|done].
    assert (live_rows now t' (tokenDigest token) d1 s i (if cr_identity c ==? id then cr_with_hash hash ts must ts c else c) m) as L.
    { constructor; try done. split; [|by destruct (_ ==? _)]. cbn. apply elem_of_upd. exists c. by rewrite andb_true_r. }
    apply live_after_revoke. split; [done|]. apply Hq; [|done]. by eapply Hu.
Qed.

Lemma update_credential_exact id hash ts must d n d' :
  update_credential id [hash] (λ _, true) (cr_with_hash hash ts must ts) d = Ok (n, d') →
  d' = set_credentials (upd (λ c, (cr_identity c ==? id) && true) (cr_with_hash hash ts must ts) (credentials d)) d.
Proof. unfold update_credential. cbv zeta. destruct (negb _); [done|]. destruct (existsb _ _); [done|]. by intros [= _ <-]. Qed.

Lemma det_ChangePassword ts t id keep hash tx :
  det (active ← active_member tx t id;
       if negb (active : bool) then io_fail ANotFound
       else stmt (update_credential id [hash] (λ _, true) (cr_with_hash hash ts false ts)) ;;
            stmt (E:=auth_error) (revoke_identity_sessions ts id (Some keep))).
Proof. unfold active_member. solve_det. Qed.

Lemma ChangePassword_exact ts t id keep hash d :
  (∃ e, run (ARepository_ChangePassword ts t id keep hash) d = (Err e, d)) ∨
  run (ARepository_ChangePassword ts t id keep hash) d = (Ok tt, replaced ts id (Some keep) hash false d).
Proof.
  unfold ARepository_ChangePassword. rewrite run_tx by apply det_ChangePassword.
  unfold active_member, query. rewrite run_bind, run_stmt by apply det_stmt.
  destruct (existsb _ _); cbn [negb]; [|left; by eexists]. rewrite run_bind, run_stmt by apply det_stmt.
  destruct (update_credential _ _ _ _ _) as [[n d1]|] eqn:E; [|left; by eexists].
  apply update_credential_exact in E as ->. rewrite run_stmt. by right.
Qed.

(** Under faults. *)
Lemma ChangePassword_atomic ts t id keep hash fs d :
  let r := ARepository_ChangePassword ts t id keep hash fs d in
  ((∃ e, r.1 = Err e) ∧ r.2.2 = d) ∨
  (r.1 = Ok tt ∨ r.1 = Err (APg Infra)) ∧ r.2.2 = replaced ts id (Some keep) hash false d.
Proof.
  cbv zeta. assert (atomic (ARepository_ChangePassword ts t id keep hash)) as Ha by apply atomic_tx, det_ChangePassword.
  destruct (Ha fs d) as [E|[E1 E2]];
    destruct (ChangePassword_exact ts t id keep hash d) as [[e R]|R]; rewrite R in *.
  - injection E as E1 E2. left. rewrite E1, E2. eauto.
  - injection E as E1 E2. right. auto.
  - left. split; [eauto|]. by destruct E2.
  - destruct E2 as [E2|E2]; [left|right]; eauto.
Qed.

Lemma det_ResetPassword ts t id hash tx :
  det (active ← active_member tx t id;
       if negb (active : bool) then mret false
       else stmt (update_credential id [hash] (λ _, true) (cr_with_hash hash ts true ts)) ;;
            stmt (revoke_identity_sessions ts id None) ;; mret (M:=AuM) true).
Proof. unfold active_member. solve_det. Qed.

Lemma ResetPassword_exact ts t id hash d :
  (run (ARepository_ResetPassword ts t id hash) d).2 = d ∨
  run (ARepository_ResetPassword ts t id hash) d = (Ok true, replaced ts id None hash true d).
Proof.
  unfold ARepository_ResetPassword. rewrite run_tx by apply det_ResetPassword.
  unfold active_member, query. rewrite run_bind, run_stmt by apply det_stmt.
  destruct (existsb _ _); cbn [negb]; [|by left]. rewrite run_bind, run_stmt by apply det_stmt.
  destruct (update_credential _ _ _ _ _) as [[n d1]|] eqn:E; [|by left].
  apply update_credential_exact in E as ->. rewrite run_bind, run_stmt by apply det_stmt. by right.
Qed.

Lemma ResetPassword_atomic ts t id hash fs d :
  let d' := (ARepository_ResetPassword ts t id hash fs d).2.2 in d' = d ∨ d' = replaced ts id None hash true d.
Proof.
  cbv zeta. assert (atomic (ARepository_ResetPassword ts t id hash)) as Ha by apply atomic_tx, det_ResetPassword.
  destruct (Ha fs d) as [E|[_ E]];
    destruct (ResetPassword_exact ts t id hash d) as [R|R].
  - left. by rewrite <- E in R.
  - right. rewrite R in E. by injection E.
  - left. rewrite R in E. by destruct E.
  - rewrite R in E. destruct E; auto.
Qed.
End Sessions.
