(* ===== verification/AuthPasswords.v ===== *)
(** * AuthPasswords: how passwords come and go

    Replacing a password is one step, also when it is interrupted; the mailed
    initial password opens the account; the recovery route betrays who is a
    member; and the other services see exactly the sessions of this one. *)
From S2P Require Import Prelude Effects GoTime Http Platform Accounts Auth AuthAccounts AuthRequests AuthSessions.

Local Open Scope Z_scope.

Section Passwords.
Context `{GoLib, AccountLib, Collation}.

(** ** Replacing a password *)

Lemma change_password_result x t p current next fs w :
  let r := Auth_ChangePassword x t p current next fs w in
  (r.2.2 = w ∧ is_ok r.1 = false) ∨
  ∃ hash i c, account (w_db w) (Pr_Email p) i c ∧ id_id i = Pr_IdentityID p ∧
    bcrypt_Compare (cr_hash c) current = true ∧ bcrypt_Generate (dr_salt x) next = Some hash ∧
    (r.1 = Ok tt ∨ r.1 = Err AErrOther) ∧
    r.2.2 = set_db (replaced (time1 x) (Pr_IdentityID p) (Some (Pr_SessionID p)) hash false (w_db w)) w.
Proof.
  cbv zeta. unfold Auth_ChangePassword. destruct (_ || _); [by left|].
  read_call readonly_CredentialByEmail fs'.
  destruct (ARepository_CredentialByEmail _ fs (w_db w)).1 as [v|] eqn:Ev; [|by left].
  apply CredentialByEmail_ok in Ev as (i & c & Hacc & ->). cbn [Cr_Active Cr_PasswordHash Cr_IdentityID to_credential fst snd].
  destruct (id_id i ==? Pr_IdentityID p) eqn:Ei; cbn [negb orb]; [|by left].
  destruct (id_status i ==? "active"%string); cbn [negb orb]; [|by left].
  destruct (bcrypt_Compare (cr_hash c) current) eqn:Eb; cbn [negb]; [|by left]. bsimpl.
  unfold hashPassword. destruct (bcrypt_Generate (dr_salt x) next) as [hash|] eqn:Eh; [|by left].
  destruct (repo_result unauthorized (ARepository_ChangePassword (time1 x) t (Pr_IdentityID p) (Pr_SessionID p) hash) fs' w) as [-> ->].
  destruct (ChangePassword_atomic (time1 x) t (Pr_IdentityID p) (Pr_SessionID p) hash fs' (w_db w)) as [[[e ->] ->]|[Hr ->]].
  - left. by rewrite set_db_same.
  - right. exists hash, i, c. split_and!; try done. destruct Hr as [-> | ->]; auto.
Qed.

Lemma forgot_result s x t email fs w :
  let w' := (Auth_ForgotPassword s x t email fs w).2.2 in
  w_db w' = w_db w ∨
  ∃ e i c password hash, auth_normalizeEmail email = Some e ∧ active_account (w_db w) e t i c ∧
    newPassword x = Some password ∧ bcrypt_Generate (dr_salt x) password = Some hash ∧
    w' = mkWorld (replaced (time1 x) (id_id i) None hash true (w_db w))
           (w_mail w ++ [passwordResetMessage e password (dr_key x)]) (w_redis w).
Proof.
  cbv zeta. unfold Auth_ForgotPassword. destruct (auth_normalizeEmail email) as [e|] eqn:Ee; [|by left].
  destruct (negb (as_email s)); [by left|].
  read_call readonly_CredentialByEmail fs'.
  destruct (ARepository_CredentialByEmail e fs (w_db w)).1 as [v|] eqn:Ev; [|by left].
  apply CredentialByEmail_ok in Ev as (i & c & Hacc & ->). cbn [Cr_Active Cr_PasswordHash Cr_IdentityID to_credential fst snd].
  destruct (id_status i ==? "active"%string) eqn:Es; cbn [negb]; [|by left].
  read_call readonly_HasActive fs2.
  destruct (ARepository_HasActiveMembership _ _ fs' (w_db w)).1 as [[]|] eqn:Ev2; cbn [negb]; [|by left|by left].
  apply HasActive_ok in Ev2. unfold fresh_password. destruct (newPassword x) as [password|] eqn:Ep; [|by left].
  unfold hashPassword. destruct (bcrypt_Generate (dr_salt x) password) as [hash|] eqn:Eh; [|by left].
  rewrite bind_eq. unfold deliver. destruct (SendWithRetry 3 (dr_mail x)) as [[|] ?]; [|by left]. cbn [negb].
  rewrite bind_eq. match goal with |- context [repo ?f ?m ?fs ?w] => destruct (repo_result f m fs w) as [_ Hs] end.
  destruct (repo _ _ _ _) as [o [fs3 w3]]. cbn [fst snd w_db] in Hs.
  destruct (ResetPassword_atomic (time1 x) t (id_id i) hash fs2 (w_db w)) as [E|E]; rewrite E in Hs.
  - left. by destruct o; cbn [snd mret io_mret io_ret]; rewrite Hs.
  - right. exists e, i, c, password, hash. bsimpl. split_and!; try done. by destruct o; cbn [snd mret io_mret io_ret]; rewrite Hs.
Qed.

(** C31: replacing a password is one step.  Whatever fails, a change of
    password either has no effect and reports an error, or it needed the
    current password of the account, and then the new password is in force, the
    obligation to change it is gone, and all other sessions of the identity are
    over, in every tenant; the reply can be wrong only in claiming a failure.
    The recovery route leaves the database as it was or, for an active member,
    puts the mailed password in force and ends all sessions of the identity.
    After a replacement exactly the tokens of the other identities and of the
    kept session are accepted. *)
Theorem password_replacement t w :
  auth_ok (w_db w) →
  (∀ x p current next fs,
     let r := Auth_ChangePassword x t p current next fs w in
     (r.2.2 = w ∧ is_ok r.1 = false) ∨
     ∃ hash i c, account (w_db w) (Pr_Email p) i c ∧ id_id i = Pr_IdentityID p ∧
       bcrypt_Compare (cr_hash c) current = true ∧ bcrypt_Generate (dr_salt x) next = Some hash ∧
       (r.1 = Ok tt ∨ r.1 = Err AErrOther) ∧
       r.2.2 = set_db (replaced (time1 x) (Pr_IdentityID p) (Some (Pr_SessionID p)) hash false (w_db w)) w) ∧
  (∀ s x email fs,
     let w' := (Auth_ForgotPassword s x t email fs w).2.2 in
     w_db w' = w_db w ∨
     ∃ e i c password hash, auth_normalizeEmail email = Some e ∧ active_account (w_db w) e t i c ∧
       newPassword x = Some password ∧ bcrypt_Generate (dr_salt x) password = Some hash ∧
       w' = mkWorld (replaced (time1 x) (id_id i) None hash true (w_db w))
              (w_mail w ++ [passwordResetMessage e password (dr_key x)]) (w_redis w)) ∧
  (∀ ts id keep hash must now t' token q,
     principal_of now t' token (set_db (replaced ts id keep hash must (w_db w)) w) = Some q ↔
       token ≠ EmptyString ∧ ∃ s i c m, live_rows now t' (tokenDigest token) (w_db w) s i c m ∧
         (se_identity s ≠ id ∨ keep = Some (se_id s)) ∧
         q = to_principal t' (s, (i, if cr_identity c ==? id then cr_with_hash hash ts must ts c else c), m)).
Proof.
  intros Hd. split; [intros; apply change_password_result|]. split; [intros; apply forgot_result|].
  intros. by apply principal_after_replaced.
Qed.

(** ** From a registration to a working password *)

Lemma det_register_identity newID now name email phone hash : det (register_identity newID now name email phone hash).
Proof.
  unfold register_identity. apply det_attempt; [apply det_stmt| |done]. intros [id|[|[]]]; solve_det.
Qed.

Lemma by_email_own i email : id_email i = Some email → by_email email i = true.
Proof. intros E. unfold by_email, lower_email. rewrite E. cbn. apply bool_decide_refl. Qed.

(** The identity of an address after a registration: the stored one, as it was,
    or, when there was none, a new and active one. *)
Definition identity_for (d : authdb) (email : string) (i : identity_row) : Prop :=
  i ∈ identities d ∧ by_email email i = true ∨
  (∀ j, j ∈ identities d → by_email email j = false) ∧ id_email i = Some email ∧ id_status i = "active"%string.

(** The membership after a registration for [role]: a new and active one with
    that role, or, when there was one, that one as it was. *)
Definition member_for (d : authdb) (t id : uuid) (role : string) (created : bool) (m : membership_row) : Prop :=
  mkey m = (t, id) ∧
  if created then (∀ m', m' ∈ memberships d → mkey m' ≠ (t, id)) ∧ mb_role m = role ∧ is_active m = true
  else m ∈ memberships d.

Lemma register_identity_run newID now name email phone hash d id created d' :
  run (register_identity newID now name email phone hash) d = (Ok (id, created), d') →
  memberships d' = memberships d ∧
  (∃ i, i ∈ identities d' ∧ by_email email i = true ∧ id_id i = id ∧ identity_for d email i) ∧
  (created = true → ∃ c, c ∈ credentials d' ∧ cr_identity c = id ∧ cr_hash c = hash ∧ cr_must c = true).
Proof.
  unfold register_identity. rewrite run_attempt_bind by apply det_quiet, det_stmt. rewrite run_stmt.
  set (row := mkIdentityRow _ _ _ _ _). destruct (insert_identity row d) as [[id0 d0]|e] eqn:Ei.
  - cbn [fst snd]. revert Ei. unfold insert_identity. destruct (negb _); [done|]. destruct (negb _); [done|].
    destruct (existsb _ _) eqn:Eclash; [done|].
    assert (∀ j, j ∈ identities d → by_email email j = false) as Hnone.
    { intros j Hj. apply not_true_iff_false. intros Hb. apply not_true_iff_false in Eclash. apply Eclash, existsb_exists.
      exists j. split; [by apply list_elem_of_In|]. unfold identity_clash, by_email in *.
      change (lower_email row) with (Some (pg_lower email)). by rewrite Hb, orb_true_r. }
    clear Eclash. intros [= <- <-]. rewrite run_bind, run_stmt by apply det_stmt.
    unfold insert_credential. destruct (negb _); [done|]. destruct (negb _); [done|]. destruct (existsb _ _); [done|].
    destruct (negb _); [done|]. rewrite run_ret. intros [= <- <- <-]. split; [done|]. split.
    + exists row. split; [cbn; set_solver|]. split; [by apply by_email_own|]. split; [done|]. by right.
    + intros _. eexists. split; [cbn; apply elem_of_app; right; by apply list_elem_of_singleton|done].
  - cbn [fst snd]. unfold from_pg, auth_from_pg. destruct e; try done. rewrite run_bind by apply det_stmt. rewrite run_reading.
    destruct (negb _); [done|]. destruct (head _) as [i|] eqn:Eh; [|done]. cbn. intros [= <- <- <-].
    apply head_sel_Some in Eh as [He Hi]. split; [done|]. split; [|done]. exists i. split_and!; try done. by left.
Qed.

Lemma det_ARegister newID now t name email phone role hash tx :
  det (x ← register_identity newID now name email phone hash;
       let '(id, createdIdentity) := x in
       n ← stmt (insert_membership tx (mkMembershipRow t id role "active" now));
       role ← stmt (reading (λ d, or_no_rows (mb_role <$> head (sel (member_of tx t id (λ _, true)) (memberships d)))));
       mret (M:=AuM) (mkRegistrationResult id createdIdentity (n =? 1) role)).
Proof. apply det_bind; [apply det_register_identity|]. intros [id created]. solve_det. Qed.

Lemma ARegister_run newID now t name email phone role hash d g d' :
  run (ARepository_Register newID now t name email phone role hash) d = (Ok g, d') →
  (∃ i, i ∈ identities d' ∧ by_email email i = true ∧ id_id i = RR_IdentityID g ∧ identity_for d email i) ∧
  (∃ m, m ∈ memberships d' ∧ member_for d t (RR_IdentityID g) role (RR_CreatedMembership g) m ∧ mb_role m = RR_Role g) ∧
  (RR_CreatedIdentity g = true →
     ∃ c, c ∈ credentials d' ∧ cr_identity c = RR_IdentityID g ∧ cr_hash c = hash ∧ cr_must c = true).
Proof.
  unfold ARepository_Register. rewrite run_tx by apply det_ARegister. rewrite run_bind by apply det_register_identity.
  destruct (run (register_identity _ _ _ _ _ _) d) as [[[id created]|] d1] eqn:E; [|done].
  apply register_identity_run in E as (Hmem & Hi & Hc). rewrite run_bind, run_stmt by apply det_stmt.
  destruct (insert_membership _ _ _) as [[n d2]|] eqn:Em; [|done].
  rewrite run_bind by apply det_stmt. rewrite run_reading. destruct (head _) as [m|] eqn:Eh; [|done].
  cbn [fmap option_fmap option_map or_no_rows map_err]. rewrite run_ret. intros [= <- <-]. cbn [RR_IdentityID RR_Role RR_CreatedIdentity].
  apply head_sel_Some in Eh as [(Et & Eid & _)%member_of_iff Hm]. cbn [RR_CreatedMembership].
  revert Em. unfold insert_membership. repeat (destruct (negb _); [done|]). cbn [mkey mb_tenant mb_identity].
  destruct (existsb _ _) eqn:Eold.
  - intros [= <- <-]. split; [done|]. split; [|done]. exists m. split; [done|].
    split; [|done]. split; [by unfold mkey; rewrite Et, Eid|by rewrite <- Hmem].
  - destruct (negb _); [done|]. intros [= <- <-]. split; [done|]. split; [|done]. exists m. split; [done|].
    split; [|done]. split; [by unfold mkey; rewrite Et, Eid|]. cbn in Hm. rewrite Hmem in *. assert (∀ m', m' ∈ memberships d → mkey m' ≠ (t, id)) as Hnew.
    { intros m' Hm' Ek. apply not_true_iff_false in Eold. apply Eold, existsb_exists. exists m'.
      split; [by apply list_elem_of_In|]. by bsimpl. }
    split; [done|]. apply elem_of_app in Hm as [Hm|Hm%list_elem_of_singleton]; [|subst m; split; [done|apply bool_decide_refl]].
    destruct (Hnew m Hm). unfold mkey. by rewrite Et, Eid.
Qed.

(** Updates of the delivery state keep the password. *)
Definition password_stored (d : authdb) (id : uuid) (hash : string) : Prop :=
  ∃ c, c ∈ credentials d ∧ cr_identity c = id ∧ cr_hash c = hash ∧ cr_must c = true.

Lemma update_credential_Ok id args q f d n d' :
  update_credential id args q f d = Ok (n, d') →
  n = Z.of_nat (length (sel (λ c, (cr_identity c ==? id) && q c) (credentials d))) ∧
  d' = set_credentials (upd (λ c, (cr_identity c ==? id) && q c) f (credentials d)) d.
Proof. unfold update_credential. cbv zeta. destruct (negb _); [done|]. destruct (existsb _ _); [done|]. by intros [= <- <-]. Qed.

Lemma AClaim_run token now id d claim b d' :
  run (ARepository_ClaimInitialDelivery token now id) d = (Ok (claim, b), d') →
  claim = token ∧ identities d' = identities d ∧ memberships d' = memberships d ∧ asessions d' = asessions d ∧
  ∀ i hash, password_stored d i hash → password_stored d' i hash.
Proof.
  unfold ARepository_ClaimInitialDelivery. rewrite runq_bind by apply quiet_autocommit. rewrite run_autocommit.
  destruct (update_credential _ _ _ _ _) as [[n d1]|] eqn:E; [|done]. apply update_credential_Ok in E as [_ ->].
  rewrite run_ret. intros [= <- _ <-]. split_and!; try done. intros i hash (c & Hc & Ei & Eh & Em).
  eexists. split; [cbn; apply elem_of_upd; by exists c|]. by destruct (_ && _).
Qed.

Lemma quiet_AClaim token now id : quiet (ARepository_ClaimInitialDelivery token now id).
Proof. apply quiet_bind; [apply quiet_autocommit|]. intros n. apply quiet_ret. Qed.
Lemma quiet_some_row n : quiet (some_row n).
Proof. unfold some_row. destruct (_ =? 0); [apply quiet_fail|apply quiet_ret]. Qed.
Lemma quiet_AMark now id claim status problem : quiet (ARepository_MarkInitialDelivery now id claim status problem).
Proof. apply quiet_bind; [apply quiet_autocommit|]. intros n. apply quiet_some_row. Qed.
Lemma quiet_AActivate now id claim hash : quiet (ARepository_ActivateRetriedCredential now id claim hash).
Proof. apply quiet_bind; [apply quiet_autocommit|]. intros n. apply quiet_some_row. Qed.

Lemma AMark_run now id claim status problem d u d' :
  run (ARepository_MarkInitialDelivery now id claim status problem) d = (Ok u, d') →
  identities d' = identities d ∧ memberships d' = memberships d ∧ asessions d' = asessions d ∧
  ∀ i hash, password_stored d i hash → password_stored d' i hash.
Proof.
  unfold ARepository_MarkInitialDelivery. rewrite runq_bind by apply quiet_autocommit. rewrite run_autocommit.
  destruct (update_credential _ _ _ _ _) as [[n d1]|] eqn:E; [|done]. apply update_credential_Ok in E as [_ ->].
  unfold some_row. destruct (_ =? 0); [done|]. rewrite run_ret. intros [= _ <-]. split_and!; try done.
  intros i hash (c & Hc & Ei & Eh & Em). eexists. split; [cbn; apply elem_of_upd; by exists c|]. by destruct (_ && _).
Qed.

Lemma AActivate_run now id claim hash d u d' :
  run (ARepository_ActivateRetriedCredential now id claim hash) d = (Ok u, d') →
  identities d' = identities d ∧ memberships d' = memberships d ∧ asessions d' = asessions d ∧ password_stored d' id hash.
Proof.
  unfold ARepository_ActivateRetriedCredential. rewrite runq_bind by apply quiet_autocommit. rewrite run_autocommit.
  set (q := λ c, cr_claimed_by claim c && _). set (f := λ c, cr_with_hash _ _ _ _ _).
  destruct (update_credential _ _ _ _ _) as [[n d1]|] eqn:E; [|done]. apply update_credential_Ok in E as [-> ->].
  unfold some_row. destruct (sel (λ c, (cr_identity c ==? id) && q c) (credentials d)) as [|c l] eqn:Es; [done|].
  destruct (_ =? 0); [done|]. rewrite run_ret. intros [= _ <-]. split_and!; try done.
  assert (c ∈ sel (λ c, (cr_identity c ==? id) && q c) (credentials d)) as Hc by (rewrite Es; set_solver).
  apply elem_of_sel in Hc as [Hp Hc]. exists (f c). split; [cbn; apply elem_of_upd; exists c; by rewrite Hp|].
  split; [|done]. apply andb_true_iff in Hp as [Hp _]. by bsimpl.
Qed.

(** The database holds the account of the address with the mailed password. *)
Record opened (t : uuid) (email role hash : string) (d0 : authdb) (g : Registration) (d : authdb) : Prop := mkOpened {
  op_identity : ∃ i, i ∈ identities d ∧ by_email email i = true ∧ id_id i = Rg_IdentityID g ∧ identity_for d0 email i;
  op_member : ∃ m, m ∈ memberships d ∧ member_for d0 t (Rg_IdentityID g) role (Rg_MembershipCreated g) m ∧ mb_role m = Rg_Role g;
  op_password : password_stored d (Rg_IdentityID g) hash
}.

Lemma quiet_ARegister newID now t name email phone role hash : quiet (ARepository_Register newID now t name email phone role hash).
Proof. apply quiet_tx, det_ARegister. Qed.

(** Mailing succeeded. *)
Lemma mail_initial_run {A} x email password id claim (settle : AuApp A) w a w' :
  run (mail_initial x email password id claim settle) w = (Ok a, w') →
  run settle (mkWorld (w_db w) (w_mail w ++ [initialPasswordMessage email password id]) (w_redis w)) = (Ok a, w').
Proof.
  unfold mail_initial. rewrite runq_bind by apply quiet_mail. rewrite run_mail.
  destruct (SendWithRetry 3 (dr_mail x)).1; cbn [negb]; [done|]. rewrite run_try_bind by apply quiet_AMark. by rewrite run_fail.
Qed.

Lemma register_existing_run x t name email phone role cred w g w' :
  run (register_existing x t name email phone role cred) w = (Ok g, w') → Rg_CredentialScheduled g = true →
  ∃ password hash, newPassword x = Some password ∧ bcrypt_Generate (dr_salt x) password = Some hash ∧
    opened t email role hash (w_db w) g (w_db w') ∧ w_mail w' = w_mail w ++ [initialPasswordMessage email password (Rg_IdentityID g)].
Proof.
  unfold register_existing. rewrite run_repo_bind by apply quiet_ARegister.
  destruct (run (ARepository_Register _ _ _ _ _ _ _ _) (w_db w)) as [[r|] d1] eqn:Er; [|done]. cbn [fst snd]. cbv zeta.
  apply ARegister_run in Er as (Hi & Hm & _). destruct (_ ==? _); [rewrite run_ret; intros [= <- <-]; done|].
  rewrite run_repo_bind by apply quiet_AClaim. cbn [w_db set_db].
  destruct (run (ARepository_ClaimInitialDelivery _ _ _) d1) as [[[claim b]|] d2] eqn:Ec; [|done]. cbn [fst snd].
  apply AClaim_run in Ec as (-> & I2 & M2 & S2 & P2). destruct b; cbn [negb]; [|done].
  unfold fresh_password. destruct (newPassword x) as [password|]; [|done].
  unfold hashPassword. destruct (bcrypt_Generate (dr_salt x) password) as [hash|] eqn:Eh; [|done].
  intros Hrun Hs. apply mail_initial_run in Hrun. rewrite run_repo_bind in Hrun by apply quiet_AActivate. cbn [w_db w_mail set_db] in Hrun.
  destruct (run (ARepository_ActivateRetriedCredential _ _ _ _) d2) as [[u|] d3] eqn:Ea; [|done]. cbn [fst snd] in Hrun.
  rewrite run_ret in Hrun. injection Hrun as <- <-. apply AActivate_run in Ea as (I3 & M3 & S3 & P3).
  exists password, hash. split_and!; try done. constructor; cbn; [by rewrite I3, I2|by rewrite M3, M2|done].
Qed.

Lemma register_new_run x t name email phone role w g w' :
  run (register_new x t name email phone role) w = (Ok g, w') → Rg_CredentialScheduled g = true →
  ∃ password hash, newPassword x = Some password ∧ bcrypt_Generate (dr_salt x) password = Some hash ∧
    opened t email role hash (w_db w) g (w_db w') ∧ w_mail w' = w_mail w ++ [initialPasswordMessage email password (Rg_IdentityID g)].
Proof.
  unfold register_new, fresh_password. destruct (newPassword x) as [password|]; [|done].
  unfold hashPassword. destruct (bcrypt_Generate (dr_salt x) password) as [hash|] eqn:Eh; [|done].
  rewrite run_repo_bind by apply quiet_ARegister.
  destruct (run (ARepository_Register _ _ _ _ _ _ _ _) (w_db w)) as [[r|] d1] eqn:Er; [|done]. cbn [fst snd]. cbv zeta.
  apply ARegister_run in Er as (Hi & Hm & Hc). destruct (RR_CreatedIdentity r); cbn [negb]; [|rewrite run_ret; intros [= <- <-]; done].
  specialize (Hc eq_refl). rewrite run_repo_bind by apply quiet_AClaim. cbn [w_db set_db].
  destruct (run (ARepository_ClaimInitialDelivery _ _ _) d1) as [[[claim b]|] d2] eqn:Ec; [|done]. cbn [fst snd].
  apply AClaim_run in Ec as (-> & I2 & M2 & S2 & P2). destruct b; cbn [negb]; [|done].
  intros Hrun Hs. apply mail_initial_run in Hrun. rewrite run_repo_bind in Hrun by apply quiet_AMark. cbn [w_db w_mail set_db] in Hrun.
  destruct (run (ARepository_MarkInitialDelivery _ _ _ _ _) d2) as [[u|] d3] eqn:Ea; [|done]. cbn [fst snd] in Hrun.
  rewrite run_ret in Hrun. injection Hrun as <- <-. apply AMark_run in Ea as (I3 & M3 & S3 & P3).
  exists password, hash. split_and!; try done. constructor; cbn; [by rewrite I3, I2|by rewrite M3, M2|by apply P3, P2].
Qed.

Lemma ARegister_ok s x t actor input w g w' :
  run (Auth_Register s x t actor input) w = (Ok g, w') → Rg_CredentialScheduled g = true →
  ∃ email password hash, auth_normalizeEmail (RI_Email input) = Some email ∧ text_ok email = true ∧
    newPassword x = Some password ∧ bcrypt_Generate (dr_salt x) password = Some hash ∧
    opened t email (RI_Role input) hash (w_db w) g (w_db w') ∧
    w_mail w' = w_mail w ++ [initialPasswordMessage email password (Rg_IdentityID g)].
Proof.
  unfold Auth_Register. destruct (_ || _); [done|]. destruct (validateRegistration input) as [[[name email] role]|] eqn:Ev; [|done].
  assert (auth_normalizeEmail (RI_Email input) = Some email ∧ RI_Role input = role) as [Ee ->].
  { revert Ev. unfold validateRegistration. cbv zeta. destruct (_ || _); [done|].
    destruct (auth_normalizeEmail _); [|done]. destruct (negb _); [done|]. by intros [= _ -> ->]. }
  destruct (negb _); [done|]. rewrite run_try_bind by apply quiet_CredentialByEmail. rewrite CredentialByEmail_run.
  cbn [fst snd]. rewrite set_db_same. destruct (text_ok email) eqn:Et; [|done]. intros Hrun Hs. exists email.
  destruct (head _) as [ic|].
  - destruct (register_existing_run _ _ _ _ _ _ _ _ _ _ Hrun Hs) as (p & hs & ?). by exists p, hs.
  - destruct (register_new_run _ _ _ _ _ _ _ _ _ Hrun Hs) as (p & hs & ?). by exists p, hs.
Qed.

(** Signing in with the password of an account and a fresh session: it succeeds
    exactly for an active identity with an active membership. *)
Lemma login_exact `{!AccountLaws} s y bytes t address email password w i c m :
  auth_ok (w_db w) → auth_normalizeEmail address = Some email → text_ok email = true → password ≠ EmptyString →
  account (w_db w) email i c → bcrypt_Compare (cr_hash c) password = true →
  m ∈ memberships (w_db w) → mkey m = (t, id_id i) → dr_random y = Some bytes →
  (∀ z, z ∈ asessions (w_db w) → se_id z ≠ dr_id y ∧ skey z ≠ (t, sha256 bytes)) →
  let row := new_session (dr_id y) t (id_id i) (sha256 bytes) (Add (dr_clock y) (as_sessionTTL s)) in
  run (Auth_Login s y t address password) w
  = if (id_status i ==? "active"%string) && is_active m
    then (Ok (mkSession (to_principal t (row, (i, c), m)) (base64_Encode bytes) (Add (dr_clock y) (as_sessionTTL s))),
          set_db (set_asessions (asessions (w_db w) ++ [row]) (w_db w)) w)
    else (Err AErrUnauthorized, w).
Proof.
  intros Hd He Ht Hne Hacc Hcmp Hm Hmk Hy Hfresh row. pose proof Hacc as (Hi & _ & Hc & Hci). unfold Auth_Login. rewrite He.
  rewrite (bool_decide_false (password = EmptyString)) by done.
  rewrite run_try_bind by apply quiet_CredentialByEmail. rewrite CredentialByEmail_run. cbn [fst snd]. rewrite set_db_same, Ht.
  rewrite (head_only (i, c)).
  2:{ by apply elem_of_join_credential. }
  2:{ intros [i' c'] Hic%elem_of_join_credential. by destruct (account_unique _ _ _ _ _ _ Hd Hacc Hic) as [-> ->]. }
  cbn [Cr_Active Cr_PasswordHash Cr_IdentityID to_credential fst snd]. rewrite Hcmp.
  destruct (id_status i ==? "active"%string) eqn:Ea; cbn [negb orb andb]; [|by rewrite run_fail].
  unfold newToken. rewrite Hy. cbn [fmap option_fmap option_map]. rewrite run_repo_bind by apply quiet_CreateSession.
  rewrite CreateSession_exact. destruct (is_active m) eqn:Em.
  2:{ destruct (find_member t (id_id i) is_active (w_db w)) as [m'|] eqn:Ef; [exfalso|cbn; by rewrite set_db_same].
      apply head_sel_Some in Ef as [(Et & Eid & Eact)%member_of_iff Hm'].
      assert (m' = m) as -> by (apply (member_unique (w_db w)); [done..|]; rewrite Hmk; unfold mkey; congruence). congruence. }
  rewrite (find_member_of (w_db w) t (id_id i) is_active m) by done.
  rewrite (head_only (i, c)).
  2:{ apply elem_of_join_credential. unfold active_identity. rewrite Ea, !bool_decide_refl. by split_and!. }
  2:{ intros [i' c'] (Hi' & Ea' & Hc' & Ec')%elem_of_join_credential. unfold active_identity in Ea'. bsimpl.
      assert (i' = i) as -> by (by apply (identity_unique (w_db w))).
      by assert (c' = c) as -> by (apply (credential_unique (w_db w)); congruence). }
  fold row. assert (insert_asession t row (w_db w) = Ok (dr_id y, set_asessions (asessions (w_db w) ++ [row]) (w_db w))) as ->.
  { unfold insert_asession. cbn [se_tenant se_id se_identity row new_session]. rewrite bool_decide_refl. cbn [negb].
    rewrite (proj2 (existsb_fresh se_id (dr_id y) (asessions (w_db w)))) by (intros z Hz; by apply Hfresh).
    rewrite (proj2 (existsb_fresh skey (skey row) (asessions (w_db w)))) by (intros z Hz; by apply Hfresh).
    by rewrite (proj2 (has_identity_iff (w_db w) (id_id i))) by (by exists i). }
  cbn [fst snd]. rewrite run_ret. done.
Qed.

(** C33: the mailed password opens the account.  When an owner's registration of
    a member has scheduled a credential, exactly one message was sent, to the
    member's address.  The account is the one the tables before determine: an
    address without identity gets a new and active one, a member without
    membership a new and active one with the requested role; a stored identity
    or membership stays as it was.  The password of the message then signs in to
    the tenant exactly if identity and membership are active, so always for a
    new member, with the role of the membership and the obligation to change the
    password; for a member who had been deactivated it is refused. *)
Theorem staff_can_sign_in `{!AccountLaws} s x t actor input w g w' :
  auth_ok (w_db w) → run (Auth_Register s x t actor input) w = (Ok g, w') → Rg_CredentialScheduled g = true →
  ∃ email password i m, auth_normalizeEmail (RI_Email input) = Some email ∧ newPassword x = Some password ∧
    w_mail w' = w_mail w ++ [initialPasswordMessage email password (Rg_IdentityID g)] ∧
    id_id i = Rg_IdentityID g ∧ identity_for (w_db w) email i ∧
    member_for (w_db w) t (Rg_IdentityID g) (RI_Role input) (Rg_MembershipCreated g) m ∧ Rg_Role g = mb_role m ∧
    ∀ y bytes, dr_random y = Some bytes → password ≠ EmptyString →
      (∀ z, z ∈ asessions (w_db w') → se_id z ≠ dr_id y ∧ skey z ≠ (t, sha256 bytes)) →
      let login := run (Auth_Login s y t (RI_Email input) password) w' in
      if (id_status i ==? "active"%string) && is_active m then
        ∃ p w'', login = (Ok (mkSession p (base64_Encode bytes) (Add (dr_clock y) (as_sessionTTL s))), w'') ∧
          Pr_IdentityID p = id_id i ∧ Pr_Role p = mb_role m ∧ Pr_TenantID p = t ∧ Pr_MustChange p = true
      else login = (Err AErrUnauthorized, w').
Proof.
  intros Hd Hrun Hs. pose proof (step_in_run _ _ w (app_ARegister anything s x t actor input (λ _, I) I) Hd) as [Hd' _].
  rewrite Hrun in Hd'. cbn [snd] in Hd'.
  destruct (ARegister_ok _ _ _ _ _ _ _ _ Hrun Hs) as (email & password & hash & He & Ht & Hp & Hh & [Hi Hm Hc] & Hmail).
  destruct Hi as (i & Hi & Hie & Hid & Hif), Hm as (m & Hm & Hmf & Hmr), Hc as (c & Hc & Hci & Hch & Hcm).
  exists email, password, i, m. split_and!; try done. intros y bytes Hy Hne Hfresh. cbv zeta.
  assert (account (w_db w') email i c) as Hacc by (by split_and!; [..|congruence]).
  rewrite (login_exact s y bytes t (RI_Email input) email password w' i c m); try done.
  - destruct (_ && _); [|done]. eexists _, _. split; [reflexivity|]. by cbn; rewrite Hcm.
  - rewrite Hch. by eapply bcrypt_Generate_Compare.
  - destruct Hmf as [-> _]. by rewrite Hid.
Qed.

(** ** What the recovery route gives away *)

Lemma HasActive_run t id d :
  run (ARepository_HasActiveMembership t id) d = (Ok (existsb (member_of t t id is_active) (memberships d)), d).
Proof. unfold ARepository_HasActiveMembership. rewrite run_tx by apply det_query. unfold active_member, query. by rewrite run_stmt. Qed.

(** while mail cannot be sent, the recovery route tells members from
    strangers.  It reports an error exactly for the address of an active member
    of the tenant and success for every other address, although the reply is
    meant to be the same for both. *)
Theorem recovery_reveals_members s x t email e password hash w :
  auth_ok (w_db w) → auth_normalizeEmail email = Some e → text_ok e = true → as_email s = true →
  newPassword x = Some password → hashPassword x password = Some hash →
  is_ok (SendWithRetry 3 (dr_mail x)).1 = false →
  let r := (run (Auth_ForgotPassword s x t email) w).1 in
  (r = Err AErrDeliveryUnavailable ↔ ∃ i c, active_account (w_db w) e t i c) ∧
  (r = Ok tt ↔ ¬ ∃ i c, active_account (w_db w) e t i c).
Proof.
  intros Hd He Ht Hs Hp Hh Hmail r. assert (r = Err AErrDeliveryUnavailable ∧ (∃ i c, active_account (w_db w) e t i c) ∨
    r = Ok tt ∧ ¬ ∃ i c, active_account (w_db w) e t i c) as Hr; [|destruct Hr as [[-> ?]|[-> ?]]; by split].
  subst r. unfold Auth_ForgotPassword. rewrite He, Hs. cbn [negb].
  rewrite run_try_bind by apply quiet_CredentialByEmail. rewrite CredentialByEmail_run, Ht. cbn [fst snd]. rewrite set_db_same.
  destruct (head _) as [[i c]|] eqn:Eh.
  2:{ right. split; [done|]. intros (i & c & Hacc & _). apply elem_of_join_credential in Hacc.
      destruct (join_credential _ _); [set_solver|done]. }
  apply head_Some_elem_of, elem_of_join_credential in Eh.
  assert (∀ i' c', active_account (w_db w) e t i' c' → i' = i) as Hu.
  { intros i' c' [Hacc _]. by destruct (account_unique _ _ _ _ _ _ Hd Eh Hacc). }
  cbn [Cr_Active Cr_IdentityID to_credential fst snd]. destruct (id_status i ==? "active"%string) eqn:Es; cbn [negb]; bsimpl.
  2:{ right. split; [done|]. intros (i' & c' & Ha). pose proof (Hu _ _ Ha) as ->. by destruct Ha as (_ & ? & _). }
  rewrite run_repo_bind by apply quiet_tx, det_query. rewrite HasActive_run. cbn [fst snd]. rewrite set_db_same.
  destruct (existsb _ _) eqn:Em; cbn [negb].
  - left. apply existsb_elem in Em as (m & Hm & (E1 & E2 & Ha)%member_of_iff). split.
    + unfold fresh_password. rewrite Hp, Hh. rewrite runq_bind by apply quiet_mail. rewrite run_mail.
      by destruct (SendWithRetry 3 (dr_mail x)).1.
    + exists i, c. split; [done|]. split; [done|]. exists m. unfold mkey. by rewrite E1, E2.
  - right. split; [done|]. intros (i' & c' & Ha). pose proof (Hu _ _ Ha) as ->.
    destruct Ha as (_ & _ & m & Hm & Ek & Ha). unfold mkey in Ek. injection Ek as E1 E2.
    rewrite existsb_none in Em. specialize (Em m Hm). by rewrite (proj2 (member_of_iff _ _ _ _)) in Em.
Qed.

(** ** The auth service behind the client of the other services *)

(** A request of the client as the handler receives it. *)
Definition incoming (o : Outgoing) (params : string -> string) : Request unit :=
  mkRequest "GET" (λ name,
    if name ==? InternalTokenHeader then out_token o
    else if name ==? TenantIDHeader then out_tenant o
    else if name ==? AppTypeHeader then out_app o
    else if name ==? RequestIDHeader then out_request_id o
    else if name ==? "Cookie"%string then out_cookie o
    else EmptyString) params (λ _, EmptyString) None.

(** The members of a principal that the client decodes. *)
Definition to_admin (p : Principal) : AdminPrincipal :=
  mkAdminPrincipal (Pr_Role p) (uuid_String (Pr_TenantID p)) (Pr_IdentityID p) (Pr_MustChange p).

(** The exchange with the auth service in world [w], with the faults [fs]. *)
Definition ask_me (h : AuthHandler) (now after : time) (x : draw) (fs : list fault) (w : world authdb) (o : Outgoing)
  : exchange AdminPrincipal :=
  match (au_serve h now after x (GetMe (incoming o (λ _, EmptyString))) fs w).1 with
  | Ok (SendJSON status (JPrincipal _ p)) => Replied status (Some (to_admin p))
  | Ok r => Replied (status_of r) None
  | Err _ => TransportFailed
  end.
Definition ask_eligible (h : AuthHandler) (now after : time) (x : draw) (fs : list fault) (w : world authdb) (id : uuid)
    (o : Outgoing) : exchange unit :=
  match (au_serve h now after x (GetBarberEligibility (incoming o (λ _, uuid_String id))) fs w).1 with
  | Ok r => Replied (status_of r) None
  | Err _ => TransportFailed
  end.

Lemma trusted_incoming `{!GoLibLaws} h token t path query cookie params :
  Verify (ah_verify h) token = true → AppType t = "admin"%string →
  trustedContext h (incoming (outgoing path query token t cookie) params) = Some t.
Proof.
  intros Hv Ha. set (r := incoming _ _). unfold trustedContext. change (Header r InternalTokenHeader) with token.
  change (Header r TenantIDHeader) with (uuid_String (TenantID t)). change (Header r AppTypeHeader) with (AppType t).
  change (Header r RequestIDHeader) with (RequestID_ t). rewrite Hv. cbn [negb]. unfold tenantctx_New.
  rewrite uuid_Parse_String, Ha. cbn. destruct t as [id app rid]. cbn in *. by subst.
Qed.

Lemma BarberEligible_ok t id fs d b :
  (ARepository_BarberEligible t id fs d).1 = Ok b →
  b = existsb (member_of t t id (λ m, (mb_role m ==? RoleBarber) && is_active m)) (memberships d).
Proof.
  unfold ARepository_BarberEligible. intros Hok.
  set (fn := λ tx, query _ : AuM bool) in Hok.
  assert (det (fn t)) as Hdet by apply det_query.
  pose proof (atomic_ok _ fs d b (atomic_tx t fn Hdet) Hok) as Hrun. rewrite run_tx in Hrun by done.
  unfold fn, query in Hrun. rewrite run_stmt in Hrun. by injection Hrun as <- _.
Qed.

Lemma current_ok now t token fs w p :
  auth_ok (w_db w) → (Auth_Current now t token fs w).1 = Ok p →
  (Auth_Current now t token [] w).1 = Ok p ∧ principal_of now t token w = Some p ∧ Pr_TenantID p = t.
Proof.
  intros Hd. unfold Auth_Current. destruct (token ==? EmptyString) eqn:Et; [done|].
  destruct (repo_result unauthorized (ARepository_Session now t (tokenDigest token)) fs w) as [-> _].
  destruct (ARepository_Session _ _ _ fs (w_db w)).1 as [q|] eqn:Eq; [|done]. cbn. intros [= ->].
  apply ASession_ok in Eq as (s & i & c & m & L & ->). bsimpl.
  assert (principal_of now t token w = Some (to_principal t (s, (i, c), m))) as Hp.
  { apply principal_of_iff; [done|]. split; [done|]. by exists s, i, c, m. }
  split; [|done]. revert Hp. unfold principal_of, Auth_Current. rewrite (bool_decide_false (token = EmptyString)) by done.
  rewrite <- state_of_run_fst. by destruct (repo _ _ [] w).1; [intros [= ->]|].
Qed.

Lemma current_principal now t token w p :
  auth_ok (w_db w) → (Auth_Current now t token [] w).1 = Ok p ↔ principal_of now t token w = Some p.
Proof.
  intros Hd. split; [intros Hp; by destruct (current_ok now t token [] w p Hd Hp) as (_ & ? & _)|].
  unfold principal_of. rewrite <- state_of_run_fst. by destruct (Auth_Current now t token [] w).1; [intros [= ->]|].
Qed.

(** What the client makes of the reply. *)
Lemma asked_me `{!GoLibLaws} h token t cookie now after x fs w a :
  auth_ok (w_db w) → Verify (ah_verify h) token = true → AppType t = "admin"%string → cookie ≠ EmptyString →
  Authenticate token (ask_me h now after x fs w) t cookie = Some a ↔
    ∃ p, (Auth_Current now (TenantID t) (cookie_value cookie (ah_cookieName h)) fs w).1 = Ok p ∧
      Pr_MustChange p = false ∧ a = to_admin p.
Proof.
  intros Hd Hv Ha Hc. unfold Authenticate. rewrite Ha, (bool_decide_false (cookie = EmptyString)) by done. cbn [negb orb].
  unfold ask_me. cbn [au_serve]. set (r := incoming _ _). unfold au_Authenticate.
  assert (trustedContext h r = Some t) as -> by (by apply trusted_incoming).
  rewrite attempt_bind. change (session_cookie h r) with (cookie_value cookie (ah_cookieName h)).
  pose proof (current_ok now (TenantID t) (cookie_value cookie (ah_cookieName h)) fs w) as Hok.
  destruct (Auth_Current _ _ _ fs w) as [[p|e] [fs' w']]; cbn [fst snd] in *.
  - destruct (Hok p Hd eq_refl) as (_ & _ & Ht). cbn. rewrite Ht, (bool_decide_refl (uuid_String (TenantID t))). cbn.
    destruct (Pr_MustChange p) eqn:Em; (split; [|intros (q & [= <-] & Hm & ->)]); try done; try congruence.
    intros [= <-]. by exists p.
  - split; [by destruct e|]. by intros (p & ? & _).
Qed.

Lemma asked_eligible `{!GoLibLaws} h token t now after x fs w id :
  Verify (ah_verify h) token = true → AppType t = "admin"%string → id ≠ uuid_Nil →
  EnsureBarberMembership token (ask_eligible h now after x fs w id) t id = Ok tt ↔
    (ARepository_BarberEligible (TenantID t) id fs (w_db w)).1 = Ok true.
Proof.
  intros Hv Ha Hn. unfold EnsureBarberMembership. rewrite Ha, (bool_decide_false (id = uuid_Nil)) by done. cbn [negb orb].
  unfold ask_eligible. cbn [au_serve]. set (r := incoming _ _). unfold barberEligibility.
  assert (trustedContext h r = Some t) as -> by (by apply trusted_incoming).
  unfold memberID. change (Params r "id"%string) with (uuid_String id). rewrite uuid_Parse_String.
  unfold au_reply. rewrite attempt_bind. unfold Auth_BarberEligible.
  destruct (repo_result apassed (ARepository_BarberEligible (TenantID t) id) fs w) as [E1 _].
  destruct (repo apassed (ARepository_BarberEligible (TenantID t) id) fs w) as [o [fs' w']]. cbn in E1. subst o.
  destruct (ARepository_BarberEligible (TenantID t) id fs (w_db w)).1 as [[]|]; cbn; naive_solver.
Qed.

(** C32: the other services see exactly the sessions of the auth service.  With
    the admin client of a service connected to the auth service, a cookie
    authenticates as some principal exactly if its token stands for that
    principal in the tenant and the password is not due for a change; the
    lookup of barber-service succeeds exactly for active members with the role
    BARBER; and when anything fails on the way, both refuse rather than accept
    more. *)
Theorem services_see_sessions `{!GoLibLaws} h token t cookie now after x w :
  auth_ok (w_db w) → Verify (ah_verify h) token = true → AppType t = "admin"%string → cookie ≠ EmptyString →
  (∀ a, Authenticate token (ask_me h now after x [] w) t cookie = Some a ↔
     ∃ p, principal_of now (TenantID t) (cookie_value cookie (ah_cookieName h)) w = Some p ∧
       Pr_MustChange p = false ∧ a = to_admin p) ∧
  (∀ fs a, Authenticate token (ask_me h now after x fs w) t cookie = Some a →
     Authenticate token (ask_me h now after x [] w) t cookie = Some a) ∧
  (∀ id fs, id ≠ uuid_Nil →
     EnsureBarberMembership token (ask_eligible h now after x fs w id) t id = Ok tt →
     ∃ m, m ∈ memberships (w_db w) ∧ mkey m = (TenantID t, id) ∧ mb_role m = RoleBarber ∧ is_active m = true) ∧
  (∀ id m, id ≠ uuid_Nil → m ∈ memberships (w_db w) → mkey m = (TenantID t, id) → mb_role m = RoleBarber →
     is_active m = true → EnsureBarberMembership token (ask_eligible h now after x [] w id) t id = Ok tt).
Proof.
  intros Hd Hv Ha Hc. set (tok := cookie_value cookie (ah_cookieName h)).
  assert (∀ fs a, Authenticate token (ask_me h now after x fs w) t cookie = Some a ↔
    ∃ p, (Auth_Current now (TenantID t) tok fs w).1 = Ok p ∧ Pr_MustChange p = false ∧ a = to_admin p) as Hask
    by (intros; by apply asked_me).
  split; [|split; [|split]].
  - intros a. rewrite Hask. apply exist_iff. intros p. by rewrite current_principal.
  - intros fs a. rewrite !Hask. intros (p & Hp & ?). exists p. split; [|done]. by apply (current_ok now (TenantID t) tok fs w p).
  - intros id fs Hn He. apply (asked_eligible h token t now after x fs w id Hv Ha Hn) in He.
    apply BarberEligible_ok in He. symmetry in He. apply existsb_elem in He as (m & Hm & (E1 & E2 & E3)%member_of_iff).
    exists m. bsimpl. unfold mkey. by rewrite E1, E2.
  - intros id m Hn Hm Ek Er Hact. apply (asked_eligible h token t now after x [] w id Hv Ha Hn).
    assert (run (ARepository_BarberEligible (TenantID t) id) (w_db w) = (Ok true, w_db w)) as Hrun.
    { unfold ARepository_BarberEligible. rewrite run_tx by apply det_query. unfold query. rewrite run_stmt.
      rewrite (proj2 (existsb_elem _ (memberships (w_db w)))); [done|]. exists m. split; [done|].
      unfold mkey in Ek. injection Ek as E1 E2. apply member_of_iff. by rewrite Er, Hact, bool_decide_refl. }
    unfold run in Hrun. destruct (ARepository_BarberEligible _ _ _ _) as [? []]. cbn. by injection Hrun as ->.
Qed.
End Passwords.

(** ** Examples *)

Section Examples.
#[local] Instance test_lib : GoLib := TestLib.
#[local] Instance test_lib_laws : GoLibLaws := TestLib_laws.
#[local] Instance test_accounts : AccountLib := TestAccounts.
#[local] Instance test_laws : AccountLaws := TestAccounts_laws.
#[local] Instance test_collation : Collation := λ _, 0.

(** A tenant with an owner and a barber, both signed in. *)
Definition plain_delivery : delivery := mkDelivery "sent" 0 None None None None.
Definition sample_identity (id : uuid) (email : string) : identity_row :=
  mkIdentityRow id (Some "N"%string) (Some email) None "active".
Definition sample_credential (id : uuid) (hash : string) : credential_row := mkCredentialRow id hash 0 false plain_delivery 0.
Definition sample_authdb : authdb :=
  mkAuthdb [sample_identity 1%N "o@example.com"; sample_identity 2%N "b@example.com"]
    [sample_credential 1%N "$owner-pass"; sample_credential 2%N "$barber-pass"]
    [mkMembershipRow 9%N 1%N RoleOwner "active" 0; mkMembershipRow 9%N 2%N RoleBarber "active" 0]
    [mkASessionRow 11%N 9%N 1%N "tok1" 1000 None; mkASessionRow 12%N 9%N 2%N "tok2" 1000 None].
Definition sample_auth_world : world authdb := mkWorld sample_authdb [] ∅.
Definition sample_service : AuthService := mkAuthService (24 * Hour) true.
Definition sample_owner : Principal := mkPrincipal 1%N "N" "o@example.com" EmptyString false RoleOwner 9%N 11%N.
Definition sample_barber : Principal := mkPrincipal 2%N "N" "b@example.com" EmptyString false RoleBarber 9%N 12%N.
Definition auth_draw (bytes : string) (mail : Z -> attempt_script) : draw :=
  mkDraw (Some bytes) EmptyString 5%N 6%N EmptyString (0, 0, 0) 0 mail.

Lemma sample_authdb_ok : auth_ok sample_authdb.
Proof.
  constructor; try (by apply (bool_decide_unpack _); vm_compute).
  - intros x y Hx%list_elem_of_In Hy%list_elem_of_In. cbn in Hx, Hy.
    destruct Hx as [<-|[<-|[]]], Hy as [<-|[<-|[]]]; by vm_compute.
  - intros x y Hx%list_elem_of_In Hy%list_elem_of_In. cbn in Hx, Hy.
    destruct Hx as [<-|[<-|[]]], Hy as [<-|[<-|[]]]; by vm_compute.
  - intros x Hx%list_elem_of_In. cbn in Hx. destruct Hx as [<-|[<-|[]]]; by vm_compute.
  - intros x Hx%list_elem_of_In. cbn in Hx. destruct Hx as [<-|[<-|[]]]; by vm_compute.
  - intros x Hx%list_elem_of_In. cbn in Hx. destruct Hx as [<-|[<-|[]]]; by vm_compute.
  - intros x Hx%list_elem_of_In. cbn in Hx. destruct Hx as [<-|[<-|[]]]; by vm_compute.
Qed.

Lemma membership_governs_access_witness :
  let w' := (run (Auth_SetMemberStatus 9%N sample_owner 2%N false) sample_auth_world).2 in
  principal_of 5 9%N "tok2" sample_auth_world = Some sample_barber ∧ principal_of 5 9%N "tok2" w' = None.
Proof.
  intros w'. split; [by vm_compute|].
  destruct (run (Auth_SetMemberStatus 9%N sample_owner 2%N false) sample_auth_world) as [[v|e] w2] eqn:E; [|by vm_compute in E].
  destruct (membership_governs_access 9%N sample_owner 2%N sample_auth_world v w2 sample_authdb_ok) as [Hs _].
  subst w'. cbn [snd]. destruct (principal_of 5 9%N "tok2" w2) as [p|] eqn:Ep; [exfalso|done].
  apply (Hs false E) in Ep as (_ & s & i & c & m & [(Hin & _ & Hl) _ _ [_ Ek]] & Ha & _).
  apply list_elem_of_In in Hin. cbn in Hin. destruct Hin as [<-|[<-|[]]]; [by vm_compute in Hl|].
  cbn [se_identity] in Ek. by rewrite Ek in Ha.
Defined.

Lemma sign_in_and_out_witness :
  let w' := (run (Auth_Login sample_service (auth_draw "new" mail_up) 9%N "B@example.com" "barber-pass") sample_auth_world).2 in
  principal_of 5 9%N "new" w' = Some (mkPrincipal 2%N "N" "b@example.com" EmptyString false RoleBarber 9%N 5%N) ∧
  principal_of 5 9%N "tok1" w' = Some sample_owner.
Proof.
  intros w'. destruct (sign_in_and_out 9%N sample_auth_world sample_authdb_ok) as [Hin _].
  destruct (run (Auth_Login sample_service (auth_draw "new" mail_up) 9%N "B@example.com" "barber-pass") sample_auth_world)
    as [[r|e] w2] eqn:E; [|by vm_compute in E].
  subst w'. cbn [snd]. pose proof E as E'. vm_compute in E'. injection E' as Er _.
  split; rewrite (Hin _ _ _ _ _ _ E) by done; subst r; by vm_compute.
Defined.

Lemma password_replacement_witness :
  let r := Auth_ChangePassword (auth_draw "x" mail_up) 9%N sample_barber "barber-pass" "a-new-password" [] sample_auth_world in
  is_ok r.1 = true ∧ r.2.2 = set_db (replaced 0 2%N (Some 12%N) "$a-new-password" false sample_authdb) sample_auth_world.
Proof.
  intros r. assert (is_ok r.1 = true) as Hok by (by vm_compute). split; [done|].
  destruct (password_replacement 9%N sample_auth_world sample_authdb_ok) as [Hc _].
  destruct (Hc (auth_draw "x" mail_up) sample_barber "barber-pass"%string "a-new-password"%string []) as [[_ Hf]|(hash & i & c & _ & _ & _ & Hh & _ & Hw)].
  - change (is_ok r.1 = false) in Hf. congruence.
  - assert (hash = "$a-new-password"%string) as -> by (vm_compute in Hh; congruence). exact Hw.
Defined.

Lemma staff_can_sign_in_witness :
  let input := mkRegisterInput "New" "New@example.com" EmptyString RoleManager in
  let w' := (run (Auth_Register sample_service (auth_draw "secret" mail_up) 9%N sample_owner input) sample_auth_world).2 in
  ∃ p w'', run (Auth_Login sample_service (mkDraw (Some "tok3"%string) EmptyString 7%N 8%N EmptyString (0, 0, 0) 0 mail_up)
                  9%N "New@example.com" "secret") w' = (Ok (mkSession p "tok3" (24 * Hour)), w'') ∧
    Pr_Role p = RoleManager ∧ Pr_MustChange p = true.
Proof.
  intros input w'.
  destruct (run (Auth_Register sample_service (auth_draw "secret" mail_up) 9%N sample_owner input) sample_auth_world)
    as [[g|e] w2] eqn:E; [|by vm_compute in E].
  pose proof E as E'. vm_compute in E'. injection E' as Eg Ew. subst w'. cbn [snd].
  destruct (staff_can_sign_in sample_service (auth_draw "secret" mail_up) 9%N sample_owner input sample_auth_world g w2
    sample_authdb_ok E) as (email & password & i & m & He & Hp & _ & Hid & Hi & [_ Hm] & _ & Hall); [by subst g|]. injection Hp as <-.
  assert (Rg_MembershipCreated g = true) as Ec by by subst g. rewrite Ec in Hm. destruct Hm as (_ & Hrole & Hact).
  assert (id_status i = "active"%string) as Est.
  { destruct Hi as [[Hi%list_elem_of_In _]|(_ & _ & Hi)]; [|done]. cbn in Hi. by destruct Hi as [<-|[<-|[]]]. }
  specialize (Hall (mkDraw (Some "tok3"%string) EmptyString 7%N 8%N EmptyString (0, 0, 0) 0 mail_up) "tok3"%string eq_refl).
  cbv zeta in Hall. rewrite Est, Hact in Hall. destruct Hall as (p & w'' & Hrun & _ & Hr & _ & Hmust).
  - done.
  - intros z Hz%list_elem_of_In. rewrite <- Ew in Hz. cbn in Hz. destruct Hz as [<-|[<-|[]]]; by vm_compute.
  - exists p, w''. split; [exact Hrun|]. split; [by rewrite Hr, Hrole|done].
Defined.

Lemma recovery_reveals_members_witness :
  (run (Auth_ForgotPassword sample_service (auth_draw "x" mail_down) 9%N "b@example.com") sample_auth_world).1
    = Err AErrDeliveryUnavailable ∧
  (run (Auth_ForgotPassword sample_service (auth_draw "x" mail_down) 9%N "z@example.com") sample_auth_world).1 = Ok tt.
Proof.
  split.
  - apply (recovery_reveals_members sample_service (auth_draw "x" mail_down) 9%N "b@example.com" "b@example.com" "x" "$x"
      sample_auth_world sample_authdb_ok); try (by vm_compute).
    exists (sample_identity 2%N "b@example.com"), (sample_credential 2%N "$barber-pass").
    split; [split_and!; [right; left|by vm_compute|right; left|done]|]. split; [done|].
    exists (mkMembershipRow 9%N 2%N RoleBarber "active" 0). split; [right; left|by vm_compute].
  - apply (recovery_reveals_members sample_service (auth_draw "x" mail_down) 9%N "z@example.com" "z@example.com" "x" "$x"
      sample_auth_world sample_authdb_ok); try (by vm_compute).
    intros (i & c & (Hi%list_elem_of_In & He & _) & _). cbn in Hi. destruct Hi as [<-|[<-|[]]]; by vm_compute in He.
Defined.

Lemma services_see_sessions_witness :
  let h := mkAuthHandler sample_service (mkMultiTokenVerifier ["t"%string]) "sid" true true in
  Authenticate "t" (ask_me h 5 5 (auth_draw "x" mail_up) [] sample_auth_world) (mkTenantContext 9%N "admin" "r") "tok2"
  = Some (to_admin sample_barber).
Proof.
  intros h.
  destruct (services_see_sessions h "t" (mkTenantContext 9%N "admin" "r") "tok2" 5 5 (auth_draw "x" mail_up)
    sample_auth_world sample_authdb_ok) as [Hme _]; [by vm_compute|done|done|].
  apply Hme. exists sample_barber. split; [by vm_compute|done].
Defined.
End Examples.
