(* ===== verification/Tenant.v ===== *)
(** * Tenant: tenant-service

    Tenants with their settings, the hostnames that lead to them and the audit
    log of the platform: the tables of [migrations], the queries of
    [generated], [internal/domain], [internal/repository] with its Redis cache,
    [internal/service], [internal/handler] and [internal/config]. *)
From S2P Require Import Prelude Effects GoTime Http Platform Accounts.

Local Open Scope Z_scope.

(** ** Data *)

Record DomainResolution := mkDomainResolution { DR_TenantID : uuid; DR_AppType : string }.

(** [ReminderOffsetsMinutes] is [None] for a nil slice. *)
Record Settings := mkSettings {
  S_TenantID : uuid; S_Timezone : string; S_Interval : Z; S_Offsets : option (list Z); S_Policy : string;
  S_CancelNotice : Z; S_Horizon : Z; S_MinNotice : Z
}.
Record UpdateSettingsInput := mkUpdateSettingsInput {
  UI_Timezone : option string; UI_Interval : option Z; UI_Offsets : option (list Z); UI_Policy : option string;
  UI_Horizon : option Z; UI_MinNotice : option Z
}.
Record Tenant := mkTenant {
  Tn_ID : uuid; Tn_Name : string; Tn_Status : string; Tn_CreatedAt : time; Tn_Settings : Settings
}.
Record PlatformAudit := mkPlatformAudit {
  Pa_ID : uuid; Pa_Actor : string; Pa_Action : string; Pa_TenantID : option uuid; Pa_RequestID : string;
  Pa_Metadata : list (string * string); Pa_CreatedAt : time
}.
Record CreateTenantInput := mkCreateTenantInput { CT_Name : string; CT_Settings : Settings }.
Record CreateDomainInput := mkCreateDomainInput { CD_Hostname : string; CD_DomainType : string }.
Record TenantDomain := mkTenantDomain {
  Td_ID : uuid; Td_TenantID : uuid; Td_Hostname : string; Td_DomainType : string; Td_Verified : bool;
  Td_Active : bool; Td_State : string; Td_Record : string; Td_Token : string; Td_Value : string;
  Td_RequestedAt : option time; Td_AttemptAt : option time; Td_VerifiedAt : option time;
  Td_ActivatedAt : option time; Td_DeactivatedAt : option time; Td_CreatedAt : time
}.

Definition DomainTypeAdmin : string := "admin".
Definition DomainTypeBooking : string := "booking".

(** The zero values of Go. *)
Definition no_settings : Settings := mkSettings uuid_Nil EmptyString 0 None EmptyString 0 0 0.
Definition no_domain : TenantDomain :=
  mkTenantDomain uuid_Nil uuid_Nil EmptyString EmptyString false false EmptyString EmptyString EmptyString EmptyString
    None None None None None zero_time.

(** Rows; columns no statement reads ([ssl_status], [updated_at]) are left out.
    A [bytea] is a string. *)
Record tenant_row := mkTenantRow { tn_id : uuid; tn_name : string; tn_status : string; tn_created : time }.
Record domain_row := mkDomainRow {
  dm_id : uuid; dm_tenant : uuid; dm_host : string; dm_type : string; dm_verified : bool; dm_active : bool;
  dm_state : string; dm_token : option string; dm_requested : option time; dm_attempt : option time;
  dm_verified_at : option time; dm_activated : option time; dm_deactivated : option time; dm_created : time
}.
Record settings_row := mkSettingsRow {
  st_tenant : uuid; st_timezone : string; st_interval : Z; st_offsets : list Z; st_policy : string;
  st_cancel : Z; st_horizon : Z; st_minimum : Z
}.
Record audit_row := mkAuditRow {
  pa_id : uuid; pa_actor : string; pa_action : string; pa_tenant : option uuid; pa_request : string;
  pa_metadata : list (string * string); pa_created : time
}.
Record tenantdb := mkTenantdb {
  tenants : list tenant_row; domains : list domain_row; settings : list settings_row; audit : list audit_row
}.
Definition set_tenants l d := mkTenantdb l (domains d) (settings d) (audit d).
Definition set_domains l d := mkTenantdb (tenants d) l (settings d) (audit d).
Definition set_settings l d := mkTenantdb (tenants d) (domains d) l (audit d).
Definition set_audit l d := mkTenantdb (tenants d) (domains d) (settings d) l.

(** ** Statements *)

Inductive tenant_error := TNotFound | TConflict | TInactive | TPg (e : pg_error).
#[export] Instance tenant_error_eq_dec : EqDecision tenant_error.
Proof. solve_decision. Defined.
#[export] Instance tenant_from_pg : FromPg tenant_error := TPg.
Abbreviation TdM := (IO tenantdb tenant_error).

Definition between (a b x : Z) : bool := (a <=? x) && (x <=? b).
Definition valid_status (s : string) : bool := (s ==? "active"%string) || (s ==? "suspended"%string).
Definition valid_policy (s : string) : bool := (s ==? "allow_until_notice"%string) || (s ==? "no_cancellation"%string).
Definition tenant_live (t : tenant_row) : bool := tn_status t ==? "active"%string.

(** [integer_array_is_unique] *)
Definition integer_array_is_unique (l : list Z) : bool := bool_decide (NoDup l).

(** The CHECK constraints of [tenant_settings]. *)
Definition settings_check (r : settings_row) : bool :=
  between 1 120 (st_interval r)
  && negb (length (st_offsets r) =? 0)%nat && forallb (λ o, 0 <? o) (st_offsets r)
  && forallb (λ o, o <=? 10080) (st_offsets r) && integer_array_is_unique (st_offsets r)
  && valid_policy (st_policy r) && between 0 10080 (st_cancel r) && between 1 365 (st_horizon r)
  && between 0 10080 (st_minimum r).

Definition valid_type (s : string) : bool := (s ==? DomainTypeBooking) || (s ==? DomainTypeAdmin).

Section Tables.
Context `{AccountLib}.

Definition find_tenant (t : uuid) (d : tenantdb) : option tenant_row := head (sel (λ r, tn_id r ==? t) (tenants d)).

(** INSERT INTO public.tenants (name, status) VALUES ($1, 'active') *)
Definition CreateTenant (id : uuid) (now : time) (name : string) (d : tenantdb) : res pg_error (tenant_row * tenantdb) :=
  let r := mkTenantRow id name "active" now in
  if negb (text_ok name) then Err BadEncoding
  else if existsb (λ x, tn_id x ==? id) (tenants d) then Err UniqueViolation
  else Ok (r, set_tenants (tenants d ++ [r]) d).

Definition GetTenant (t : uuid) (d : tenantdb) : res pg_error tenant_row := or_no_rows (find_tenant t d).

Definition GetTenantSettings (tx t : uuid) (d : tenantdb) : res pg_error settings_row :=
  or_no_rows (head (sel (rls st_tenant tx (λ r, st_tenant r ==? t)) (settings d))).

Definition settings_text_ok (r : settings_row) : bool := text_ok (st_timezone r) && text_ok (st_policy r).

Definition InitializeTenantSettings (tx : uuid) (r : settings_row) (d : tenantdb)
  : res pg_error (settings_row * tenantdb) :=
  if negb (settings_text_ok r) then Err BadEncoding
  else if st_tenant r !=? tx then Err RlsViolation
  else if negb (settings_check r) then Err CheckViolation
  else if existsb (λ x, st_tenant x ==? st_tenant r) (settings d) then Err UniqueViolation
  else if negb (existsb (λ x, tn_id x ==? st_tenant r) (tenants d)) then Err ForeignKeyViolation
  else Ok (r, set_settings (settings d ++ [r]) d).

(** The new row replaces the one of its tenant. *)
Definition UpdateTenantSettings (tx : uuid) (r : settings_row) (d : tenantdb) : res pg_error (settings_row * tenantdb) :=
  let p := rls st_tenant tx (λ x, st_tenant x ==? st_tenant r) in
  if negb (settings_text_ok r) then Err BadEncoding
  else
    match sel p (settings d) with
    | [] => Err NoRows
    | _ :: _ =>
        if negb (settings_check r) then Err CheckViolation
        else Ok (r, set_settings (upd p (λ _, r) (settings d)) d)
    end.

(** INSERT INTO public.tenant_domains ... SELECT ... WHERE EXISTS an active
    tenant; the hostname is unique among all tenants. *)
Definition CreateTenantDomain (id : uuid) (now : time) (tx t : uuid) (host kind hash : string) (d : tenantdb)
  : res pg_error (domain_row * tenantdb) :=
  let r := mkDomainRow id t host kind false false "pending" (Some hash) (Some now) None None None None now in
  if negb (text_ok host && text_ok kind) then Err BadEncoding
  else if negb (existsb (λ x, (tn_id x ==? t) && tenant_live x) (tenants d)) then Err NoRows
  else if t !=? tx then Err RlsViolation
  else if negb (valid_type kind) then Err CheckViolation
  else if existsb (λ x, dm_id x ==? id) (domains d) then Err UniqueViolation
  else if existsb (λ x, dm_host x ==? host) (domains d) then Err UniqueViolation
  else Ok (r, set_domains (domains d ++ [r]) d).

(** The WHERE clause on a domain. *)
Definition domain_of (tx t id : uuid) (q : domain_row -> bool) : domain_row -> bool :=
  rls dm_tenant tx (λ r, (dm_tenant r ==? t) && (dm_id r ==? id) && q r).
Definition every (_ : domain_row) : bool := true.

Definition GetTenantDomain (tx t id : uuid) (d : tenantdb) : res pg_error domain_row :=
  or_no_rows (head (sel (domain_of tx t id every) (domains d))).
Definition GetTenantDomainForVerification (tx t id : uuid) (d : tenantdb) : res pg_error domain_row :=
  or_no_rows (head (sel (domain_of tx t id every) (domains d))).

(** ORDER BY created_at, id *)
Definition domain_le (x y : domain_row) : bool :=
  (dm_created x <? dm_created y) || ((dm_created x =? dm_created y) && (dm_id x <=? dm_id y)%N).
Definition ListTenantDomains (tx t : uuid) (d : tenantdb) : list domain_row :=
  sort_with domain_le (sel (rls dm_tenant tx (λ r, dm_tenant r ==? t)) (domains d)).

(** UPDATE public.tenant_domains SET f WHERE tenant_id=$1 AND id=$2 AND q RETURNING *)
Definition update_domain (tx t id : uuid) (q : domain_row -> bool) (f : domain_row -> domain_row) (d : tenantdb)
  : res pg_error (domain_row * tenantdb) :=
  let p := domain_of tx t id q in
  match head (sel p (domains d)) with
  | None => Err NoRows
  | Some r => Ok (f r, set_domains (upd p f (domains d)) d)
  end.

Definition COALESCE (o : option time) (now : time) : option time := match o with Some x => Some x | None => Some now end.

Definition verified (now : time) (r : domain_row) : domain_row :=
  mkDomainRow (dm_id r) (dm_tenant r) (dm_host r) (dm_type r) true (dm_active r) "verified" None (dm_requested r)
    (Some now) (COALESCE (dm_verified_at r) now) (dm_activated r) (dm_deactivated r) (dm_created r).
Definition MarkDomainVerificationSucceeded (now : time) (tx t id : uuid) : tenantdb -> res pg_error (domain_row * tenantdb) :=
  update_domain tx t id every (verified now).

Definition failed (now : time) (r : domain_row) : domain_row :=
  mkDomainRow (dm_id r) (dm_tenant r) (dm_host r) (dm_type r) (dm_verified r) (dm_active r) "failed" (dm_token r)
    (dm_requested r) (Some now) (dm_verified_at r) (dm_activated r) (dm_deactivated r) (dm_created r).
Definition MarkDomainVerificationFailed (now : time) (tx t id : uuid) : tenantdb -> res pg_error (domain_row * tenantdb) :=
  update_domain tx t id (λ r, negb (dm_verified r)) (failed now).

Definition activated (now : time) (r : domain_row) : domain_row :=
  mkDomainRow (dm_id r) (dm_tenant r) (dm_host r) (dm_type r) (dm_verified r) true (dm_state r) (dm_token r)
    (dm_requested r) (dm_attempt r) (dm_verified_at r) (COALESCE (dm_activated r) now) None (dm_created r).
(** UPDATE ... FROM public.tenants t WHERE d.tenant_id = t.id AND t.status = 'active' AND d.verified *)
Definition ActivateTenantDomain (now : time) (tx t id : uuid) (d : tenantdb) : res pg_error (domain_row * tenantdb) :=
  update_domain tx t id
    (λ r, existsb (λ x, (tn_id x ==? dm_tenant r) && tenant_live x) (tenants d) && dm_verified r) (activated now) d.

Definition deactivated (now : time) (r : domain_row) : domain_row :=
  mkDomainRow (dm_id r) (dm_tenant r) (dm_host r) (dm_type r) (dm_verified r) false (dm_state r) (dm_token r)
    (dm_requested r) (dm_attempt r) (dm_verified_at r) (dm_activated r) (Some now) (dm_created r).
Definition DeactivateTenantDomain (now : time) (tx t id : uuid) : tenantdb -> res pg_error (domain_row * tenantdb) :=
  update_domain tx t id every (deactivated now).

(** The function [resolve_verified_domain], which runs with the rights of the
    owner of the tables. *)
Definition resolve_verified_domain (p_hostname : string) (d : tenantdb) : option DomainResolution :=
  (λ r, mkDomainResolution (dm_tenant r) (dm_type r)) <$>
  head (sel (λ r, (dm_host r ==? pg_lower p_hostname) && dm_verified r && dm_active r
                  && existsb (λ x, (tn_id x ==? dm_tenant r) && tenant_live x) (tenants d)) (domains d)).

(** UPDATE public.tenants SET status=$2 WHERE id=$1 RETURNING *)
Definition tn_with_status (status : string) (r : tenant_row) : tenant_row :=
  mkTenantRow (tn_id r) (tn_name r) status (tn_created r).
Definition update_status (t : uuid) (status : string) (d : tenantdb) : res pg_error (tenant_row * tenantdb) :=
  match find_tenant t d with
  | None => Err NoRows
  | Some r =>
      if negb (valid_status status) then Err CheckViolation
      else Ok (tn_with_status status r, set_tenants (upd (λ x, tn_id x ==? t) (tn_with_status status) (tenants d)) d)
  end.

Definition insert_audit (r : audit_row) (d : tenantdb) : res pg_error (unit * tenantdb) :=
  if negb (text_ok (pa_actor r) && text_ok (pa_action r) && text_ok (pa_request r)) then Err BadEncoding
  else if existsb (λ x, pa_id x ==? pa_id r) (audit d) then Err UniqueViolation
  else if match pa_tenant r with Some t => negb (existsb (λ x, tn_id x ==? t) (tenants d)) | None => false end
  then Err ForeignKeyViolation
  else Ok (tt, set_audit (audit d ++ [r]) d).
End Tables.

(** ** The database and the cache *)

(** A JSON text in Redis, by the struct it was made from.  Unmarshalling takes
    the fields of the same name and leaves the others zero. *)
Inductive cached := CachedResolution (r : DomainResolution) | CachedSettings (s : Settings).
Definition as_resolution (v : cached) : DomainResolution :=
  match v with
  | CachedResolution r => r
  | CachedSettings s => mkDomainResolution (S_TenantID s) EmptyString
  end.
Definition as_settings (v : cached) : Settings :=
  match v with
  | CachedSettings s => s
  | CachedResolution r => mkSettings (DR_TenantID r) EmptyString 0 None EmptyString 0 0 0
  end.

(** The value of a key and the time it expires at. *)
Abbreviation tcache := (gmap string (cached * time)).
Record tworld := mkTWorld { tw_db : tenantdb; tw_cache : tcache }.
Abbreviation TM := (IO tworld tenant_error).

Definition tdb {A} (m : TdM A) : TM A :=
  λ fs w, match m fs (tw_db w) with (r, (fs', d')) => (r, (fs', mkTWorld d' (tw_cache w))) end.

(** [cache_on]: a Redis client is configured. *)
Record TenantRepository := mkTenantRepository { cache_on : bool }.

Definition cache_ttl : duration := 5 * Minute.
Definition live (now : time) (key : string) (c : tcache) : option cached :=
  match c !! key with
  | Some (v, expires) => if expires <=? now then None else Some v
  | None => None
  end.

(** One command to Redis; its error is ignored. *)
Definition cache_do (f : tcache -> tcache) : TM unit :=
  λ fs w,
    match pop fs with
    | (FFail, fs') => (Ok tt, (fs', w))
    | (_, fs') => (Ok tt, (fs', mkTWorld (tw_db w) (f (tw_cache w))))
    end.

Section Cache.
Context (r : TenantRepository).

(** A failed GET is a miss. *)
Definition cache_get (now : time) (key : string) : TM (option cached) :=
  if cache_on r then
    λ fs w,
      match pop fs with
      | (FOk, fs') => (Ok (live now key (tw_cache w)), (fs', w))
      | (_, fs') => (Ok None, (fs', w))
      end
  else mret None.
Definition cache_set (now : time) (key : string) (v : cached) : TM unit :=
  if cache_on r then cache_do <[key := (v, now + cache_ttl)]> else mret tt.
Definition cache_del (key : string) : TM unit := if cache_on r then cache_do (delete key) else mret tt.
End Cache.

(** ** Repository *)

Definition translate (e : tenant_error) : tenant_error :=
  match e with
  | TPg NoRows => TNotFound
  | TPg UniqueViolation => TConflict
  | _ => e
  end.
Definition no_rows (e : tenant_error) : tenant_error := match e with TPg NoRows => TNotFound | _ => e end.

(** [int32(x)] *)
Definition int32 (x : Z) : Z := (x + 2 ^ 31) mod 2 ^ 32 - 2 ^ 31.
Definition intsToInt32 (l : option (list Z)) : list Z := match l with Some l => map int32 l | None => [] end.

Definition settings_params (t : uuid) (s : Settings) : settings_row :=
  mkSettingsRow t (S_Timezone s) (int32 (S_Interval s)) (intsToInt32 (S_Offsets s)) (S_Policy s)
    (int32 (S_CancelNotice s)) (int32 (S_Horizon s)) (int32 (S_MinNotice s)).
Definition settingsFrom (r : settings_row) : Settings :=
  mkSettings (st_tenant r) (st_timezone r) (st_interval r) (Some (st_offsets r)) (st_policy r) (st_cancel r)
    (st_horizon r) (st_minimum r).

Definition verification_record (host : string) : string := "_barber-verify." +:+ host.
Definition newDomain (r : domain_row) : TenantDomain :=
  mkTenantDomain (dm_id r) (dm_tenant r) (dm_host r) (dm_type r) (dm_verified r) (dm_active r) (dm_state r)
    (verification_record (dm_host r)) EmptyString EmptyString (dm_requested r) (dm_attempt r) (dm_verified_at r)
    (dm_activated r) (dm_deactivated r) (dm_created r).
Record VerificationDomain := mkVerificationDomain { VD_Domain : TenantDomain; VD_TokenHash : string }.

Definition domainCacheKey (host : string) : string := "tenant-domain:" +:+ host.

(** The clock of Redis when a value is looked up and when it is stored. *)
Record stamp := mkStamp { st_get : time; st_set : time }.

Section Repository.
Context `{GoLib, AccountLib} (r : TenantRepository).

Definition settingsCacheKey (t : uuid) : string := "tenant-settings:" +:+ uuid_String t.

(** A statement on the domains or the settings of a tenant. *)
Definition tenant_tx {A} (t : uuid) (f : uuid -> tenantdb -> res pg_error (A * tenantdb)) : TdM A :=
  calling translate (WithTenantTx t (λ tx, calling translate (stmt (f tx)))).

Definition TRepository_ResolveDomain (x : stamp) (host : string) : TM DomainResolution :=
  hit ← cache_get r (st_get x) (domainCacheKey host);
  match hit with
  | Some v => mret (as_resolution v)
  | None =>
      result ← tdb (calling no_rows (autocommit (reading (λ d,
                 if negb (text_ok host) then Err BadEncoding else or_no_rows (resolve_verified_domain host d)))));
      cache_set r (st_set x) (domainCacheKey host) (CachedResolution result) ;;
      mret result
  end.

Definition invalidateDomain (host : string) : TM unit := cache_del r (domainCacheKey host).

Definition cacheSettings (now : time) (s : Settings) : TM unit :=
  if S_TenantID s ==? uuid_Nil then mret tt
  else cache_set r now (settingsCacheKey (S_TenantID s)) (CachedSettings s).

Definition load_settings (now : time) (t : uuid) : TM Settings :=
  row ← tdb (tenant_tx t (λ tx, reading (GetTenantSettings tx t)));
  cacheSettings now (settingsFrom row) ;;
  mret (settingsFrom row).

Definition TRepository_Settings (x : stamp) (t : uuid) : TM Settings :=
  hit ← cache_get r (st_get x) (settingsCacheKey t);
  match option_map as_settings hit with
  | Some s => if S_TenantID s ==? t then mret s else load_settings (st_set x) t
  | None => load_settings (st_set x) t
  end.

Definition TRepository_UpdateSettings (now : time) (t : uuid) (s : Settings) : TM Settings :=
  row ← tdb (tenant_tx t (λ tx, UpdateTenantSettings tx (settings_params t s)));
  cacheSettings now (settingsFrom row) ;;
  mret (settingsFrom row).

(** The transaction of [CreateTenant]; only the INSERTs' errors are translated. *)
Definition create_tenant_tx (id : uuid) (now : time) (name : string) (s : Settings) : TdM (tenant_row * settings_row) :=
  WithTx (
    created ← calling translate (stmt (CreateTenant id now name));
    tx ← set_config (tn_id created);
    initialized ← calling translate (stmt (InitializeTenantSettings tx (settings_params (tn_id created) s)));
    mret (created, initialized)).

Definition TRepository_CreateTenant (id : uuid) (now after : time) (name : string) (s : Settings) : TM Tenant :=
  x ← tdb (create_tenant_tx id now name s);
  let '(created, initialized) := x in
  cacheSettings after (settingsFrom initialized) ;;
  mret (mkTenant (tn_id created) (tn_name created) (tn_status created) (tn_created created) (settingsFrom initialized)).

Definition pool_GetTenant (t : uuid) : TdM tenant_row := calling translate (autocommit (reading (GetTenant t))).

Definition TRepository_Tenant (x : stamp) (t : uuid) : TM Tenant :=
  row ← tdb (pool_GetTenant t);
  s ← TRepository_Settings x t;
  mret (mkTenant (tn_id row) (tn_name row) (tn_status row) (tn_created row) s).

(** ORDER BY created_at DESC,id *)
Definition tenant_le (x y : tenant_row) : bool :=
  (tn_created y <? tn_created x) || ((tn_created x =? tn_created y) && (tn_id x <=? tn_id y)%N).
Definition bare_tenant (t : tenant_row) : Tenant :=
  mkTenant (tn_id t) (tn_name t) (tn_status t) (tn_created t) no_settings.
Definition TRepository_Tenants : TM (list Tenant) :=
  tdb (autocommit (reading (λ d, Ok (map bare_tenant (sort_with tenant_le (tenants d)))))).

(** The transaction of [SetTenantStatus]: the new status, the hostnames of the
    tenant and the entry of the audit log. *)
Definition set_status_tx (id : uuid) (now : time) (t : uuid) (status actor requestID : string)
  : TdM (tenant_row * list string) :=
  WithTx (
    row ← calling no_rows (stmt (update_status t status));
    tx ← set_config t;
    hostnames ← query (λ d, map dm_host (sel (rls dm_tenant tx (λ x, dm_tenant x ==? t)) (domains d)));
    stmt (insert_audit (mkAuditRow id actor ("tenant." +:+ status) (Some t) requestID [("status"%string, status)] now)) ;;
    mret (row, hostnames)).

Fixpoint invalidate_all (hostnames : list string) : TM unit :=
  match hostnames with
  | [] => mret tt
  | h :: rest => invalidateDomain h ;; invalidate_all rest
  end.

Definition TRepository_SetTenantStatus (id : uuid) (now : time) (t : uuid) (status actor requestID : string) : TM Tenant :=
  x ← tdb (set_status_tx id now t status actor requestID);
  let '(row, hostnames) := x in
  invalidate_all hostnames ;;
  mret (bare_tenant row).

(** ORDER BY created_at DESC LIMIT 200 *)
Definition to_audit (a : audit_row) : PlatformAudit :=
  mkPlatformAudit (pa_id a) (pa_actor a) (pa_action a) (pa_tenant a) (pa_request a) (pa_metadata a) (pa_created a).
Definition TRepository_PlatformAudit (t : option uuid) : TM (list PlatformAudit) :=
  tdb (autocommit (reading (λ d,
    Ok (map to_audit (take 200 (sort_with (λ x y, pa_created y <=? pa_created x)
          (sel (λ a, match t with None => true | Some _ => pa_tenant a ==? t end) (audit d)))))))).

Definition activeTenant (t : uuid) : TdM tenant_row :=
  row ← pool_GetTenant t;
  if negb (tenant_live row) then io_fail TInactive else mret row.

Definition TRepository_CreateDomain (id : uuid) (now : time) (t : uuid) (host kind hash : string) : TM TenantDomain :=
  tdb (activeTenant t) ;;
  row ← tdb (tenant_tx t (λ tx, CreateTenantDomain id now tx t host kind hash));
  mret (newDomain row).

Definition TRepository_Domains (t : uuid) : TM (list TenantDomain) :=
  tdb (pool_GetTenant t) ;;
  rows ← tdb (tenant_tx t (λ tx, reading (λ d, Ok (ListTenantDomains tx t d))));
  mret (map newDomain rows).

Definition TRepository_Domain (t id : uuid) : TM TenantDomain :=
  row ← tdb (tenant_tx t (λ tx, reading (GetTenantDomain tx t id)));
  mret (newDomain row).

Definition TRepository_DomainForVerification (t id : uuid) : TM VerificationDomain :=
  row ← tdb (tenant_tx t (λ tx, reading (GetTenantDomainForVerification tx t id)));
  mret (mkVerificationDomain (newDomain row) (or_empty (dm_token row))).

(** A change of a domain and the invalidation of its hostname. *)
Definition change_domain (t : uuid) (f : uuid -> tenantdb -> res pg_error (domain_row * tenantdb)) : TM TenantDomain :=
  row ← tdb (tenant_tx t f);
  invalidateDomain (dm_host row) ;;
  mret (newDomain row).

Definition TRepository_MarkVerificationSucceeded (now : time) (t id : uuid) : TM TenantDomain :=
  change_domain t (λ tx, MarkDomainVerificationSucceeded now tx t id).
Definition TRepository_MarkVerificationFailed (now : time) (t id : uuid) : TM TenantDomain :=
  change_domain t (λ tx, MarkDomainVerificationFailed now tx t id).
Definition TRepository_ActivateDomain (now : time) (t id : uuid) : TM TenantDomain :=
  change_domain t (λ tx, ActivateTenantDomain now tx t id).
Definition TRepository_DeactivateDomain (now : time) (t id : uuid) : TM TenantDomain :=
  change_domain t (λ tx, DeactivateTenantDomain now tx t id).
End Repository.

(** ** Service *)

(** Errors; a few are returned together with the domain they are about. *)
Inductive tapp_error :=
| TErrInvalidInput
| TErrForbidden
| TErrVerificationFailed (d : TenantDomain)
| TErrVerificationRequired (d : TenantDomain)
| TErrVerificationUnavailable (d : TenantDomain)
| TErrRepo (e : tenant_error)
| TErrOther.
Abbreviation TApp := (IO tworld tapp_error).

(** *** Hostnames *)

(** [strings.ContainsAny(s, chars)] *)
Fixpoint ContainsAny (s : string) (chars : list ascii) : bool :=
  match s with
  | EmptyString => false
  | String c s' => bool_decide (c ∈ chars) || ContainsAny s' chars
  end.

(** A decimal number up to 255 without leading zeros. *)
Definition is_octet (s : string) : bool :=
  let l := list_ascii_of_string s in
  match l with
  | [] => false
  | c :: rest =>
      match atoi_digits 0 l with
      | Some n => (n <=? 255) && ((c !=? "0"%char) || (length rest =? 0)%nat)
      | None => false
      end
  end.
(** [net.ParseIP(s) != nil] for a text without a colon. *)
Definition is_ipv4 (s : string) : bool :=
  let fields := Split "." s in (length fields =? 4)%nat && forallb is_octet fields.

Definition host_char (c : ascii) : bool :=
  (97 <=? byte_of c) && (byte_of c <=? 122) || (48 <=? byte_of c) && (byte_of c <=? 57) || (c ==? "-"%char).
Definition label_ok (label : string) : bool :=
  let l := list_ascii_of_string label in
  negb (label ==? EmptyString) && (length l <=? 63)%nat && negb (head l ==? Some "-"%char)
  && negb (last l ==? Some "-"%char) && forallb host_char l.

Section Validation.
Context `{GoLib}.

Definition NormalizeHostname (input : string) (allowLocalhost : bool) : option string :=
  let hostname := TrimSuffixDot (ToLower (TrimSpace input)) in
  if (hostname ==? EmptyString) || (253 <? Z.of_nat (String.length hostname))
     || ContainsAny hostname [":"; "/"; "?"; "#"; "@"; "*"; "\"]%char || is_ipv4 hostname
  then None
  else if negb allowLocalhost && ((hostname ==? "localhost"%string) || HasSuffix hostname ".localhost") then None
  else
    let labels := Split "." hostname in
    if (length labels <? 2)%nat && (hostname !=? "localhost"%string) then None
    else if forallb label_ok labels then Some hostname else None.

(** *** Settings *)

Definition DefaultSettings : Settings :=
  mkSettings uuid_Nil "Europe/Istanbul" 15 (Some [1440; 120]) "allow_until_notice" 120 60 60.

Fixpoint offsets_ok (seen : gset Z) (l : list Z) : bool :=
  match l with
  | [] => true
  | o :: l' =>
      if (o <? 1) || (10080 <? o) then false
      else if bool_decide (o ∈ seen) then false
      else offsets_ok ({[o]} ∪ seen) l'
  end.

Definition len {A} (l : option (list A)) : nat := match l with Some l => length l | None => 0%nat end.
Definition set_timezone (tz : string) (s : Settings) : Settings :=
  mkSettings (S_TenantID s) tz (S_Interval s) (S_Offsets s) (S_Policy s) (S_CancelNotice s) (S_Horizon s) (S_MinNotice s).

Definition validateSettings (s : Settings) : option Settings :=
  let s := set_timezone (TrimSpace (S_Timezone s)) s in
  if (S_Timezone s ==? EmptyString) || (S_Timezone s ==? "Local"%string) then None
  else
    match LoadLocation (S_Timezone s) with
    | None => None
    | Some _ =>
        if (S_Interval s <? 1) || (120 <? S_Interval s) then None
        else if (len (S_Offsets s) =? 0)%nat then None
        else if negb (offsets_ok ∅ (default [] (S_Offsets s))) then None
        else if (S_Policy s !=? "allow_until_notice"%string) && (S_Policy s !=? "no_cancellation"%string) then None
        else if (S_CancelNotice s <? 0) || (10080 <? S_CancelNotice s) then None
        else if (S_Horizon s <? 1) || (365 <? S_Horizon s) then None
        else if (S_MinNotice s <? 0) || (10080 <? S_MinNotice s) then None
        else Some s
    end.

Definition or_text (s fallback : string) : string := if s ==? EmptyString then fallback else s.
Definition or_number (n fallback : Z) : Z := if n =? 0 then fallback else n.

Definition normalizeSettings (input : Settings) : option Settings :=
  let d := DefaultSettings in
  validateSettings (mkSettings (S_TenantID input) (or_text (S_Timezone input) (S_Timezone d))
    (or_number (S_Interval input) (S_Interval d))
    (match S_Offsets input with Some l => Some l | None => S_Offsets d end)
    (or_text (S_Policy input) (S_Policy d)) (or_number (S_CancelNotice input) (S_CancelNotice d))
    (or_number (S_Horizon input) (S_Horizon d)) (or_number (S_MinNotice input) (S_MinNotice d))).

Definition mergeSettings (current : Settings) (i : UpdateSettingsInput) : option Settings :=
  match UI_Timezone i, UI_Interval i, UI_Offsets i, UI_Policy i, UI_Horizon i, UI_MinNotice i with
  | None, None, None, None, None, None => None
  | tz, interval, offsets, policy, horizon, minimum =>
      validateSettings (mkSettings (S_TenantID current)
        (match tz with Some v => TrimSpace v | None => S_Timezone current end)
        (default (S_Interval current) interval)
        (match offsets with Some [] => None | Some l => Some l | None => S_Offsets current end)
        (match policy with Some v => TrimSpace v | None => S_Policy current end)
        (S_CancelNotice current) (default (S_Horizon current) horizon) (default (S_MinNotice current) minimum))
  end.
End Validation.

(** *** Use cases *)

(** What a request draws and meets: a generated id, 32 random bytes ([None]
    when the source of randomness fails), the clock of the database, the clock
    of Redis around the first and the second cached read, the DNS, and the auth
    service. *)
Record tdraw := mkTDraw {
  td_id : uuid; td_random : option string; td_now : time; td_first : stamp; td_second : stamp;
  td_dns : string -> option (list string); td_auth : Outgoing -> exchange AdminPrincipal
}.

Record TenantService := mkTenantService { ts_repo : TenantRepository; ts_allowLocalhost : bool }.

Section TenantApplication.
Context `{GoLib, AccountLib} (s : TenantService).

(** A repository call. *)
Definition trepo {A} (m : TM A) : TApp A := calling TErrRepo m.

Definition with_id {A} (bad : tapp_error) (value : string) (k : uuid -> TApp A) : TApp A :=
  match uuid_Parse value with None => io_fail bad | Some id => k id end.
Definition parseIDs {A} (tenantID domainID : string) (k : uuid -> uuid -> TApp A) : TApp A :=
  with_id TErrInvalidInput tenantID (λ t, with_id TErrInvalidInput domainID (k t)).

Definition Tenant_Resolve (x : tdraw) (hostname : string) : TApp DomainResolution :=
  match NormalizeHostname hostname (ts_allowLocalhost s) with
  | None => io_fail TErrInvalidInput
  | Some normalized => trepo (TRepository_ResolveDomain (ts_repo s) (td_first x) normalized)
  end.

Definition Tenant_TLSAuthorized (x : tdraw) (hostname : string) : TApp bool :=
  match NormalizeHostname hostname (ts_allowLocalhost s) with
  | None => mret false
  | Some normalized =>
      found ← attempt (TRepository_ResolveDomain (ts_repo s) (td_first x) normalized);
      match found with
      | Ok _ => mret true
      | Err TNotFound => mret false
      | Err e => io_fail (TErrRepo e)
      end
  end.

Definition Tenant_Settings (x : stamp) (tenantID : string) : TApp Settings :=
  with_id TErrOther tenantID (λ t, trepo (TRepository_Settings (ts_repo s) x t)).

Definition Tenant_UpdateSettings (x : tdraw) (tenantID : string) (input : UpdateSettingsInput) : TApp Settings :=
  with_id TErrInvalidInput tenantID (λ t,
    current ← trepo (TRepository_Settings (ts_repo s) (td_first x) t);
    match mergeSettings current input with
    | None => io_fail TErrInvalidInput
    | Some updated => trepo (TRepository_UpdateSettings (ts_repo s) (st_set (td_second x)) t updated)
    end).

Definition Tenant_CreateTenant (x : tdraw) (input : CreateTenantInput) : TApp Tenant :=
  let name := TrimSpace (CT_Name input) in
  if (name ==? EmptyString) || (160 <? rune_count name) then io_fail TErrInvalidInput
  else
    match normalizeSettings (CT_Settings input) with
    | None => io_fail TErrInvalidInput
    | Some settings =>
        trepo (TRepository_CreateTenant (ts_repo s) (td_id x) (td_now x) (st_set (td_first x)) name settings)
    end.

Definition Tenant_Tenant (x : stamp) (tenantID : string) : TApp Tenant :=
  with_id TErrInvalidInput tenantID (λ t, trepo (TRepository_Tenant (ts_repo s) x t)).

Definition Tenant_Tenants : TApp (list Tenant) := trepo TRepository_Tenants.

Definition Tenant_SetTenantStatus (x : tdraw) (tenantID status actor requestID : string) : TApp Tenant :=
  with_id TErrInvalidInput tenantID (λ t,
    if negb (valid_status status) || (TrimSpace actor ==? EmptyString) || (TrimSpace requestID ==? EmptyString)
    then io_fail TErrInvalidInput
    else
      trepo (TRepository_SetTenantStatus (ts_repo s) (td_id x) (td_now x) t status (TrimSpace actor)
               (TrimSpace requestID))).

Definition Tenant_PlatformAudit (tenantID : string) : TApp (list PlatformAudit) :=
  if tenantID ==? EmptyString then trepo (TRepository_PlatformAudit None)
  else with_id TErrInvalidInput tenantID (λ t, trepo (TRepository_PlatformAudit (Some t))).

Definition verificationToken (x : tdraw) : option string := base64_Encode <$> td_random x.
Definition verificationValue (token : string) : string := "barber-verify=" +:+ token.
Definition verificationHash (value : string) : string := sha256 value.

Definition with_token (token : string) (d : TenantDomain) : TenantDomain :=
  mkTenantDomain (Td_ID d) (Td_TenantID d) (Td_Hostname d) (Td_DomainType d) (Td_Verified d) (Td_Active d) (Td_State d)
    (Td_Record d) token (verificationValue token) (Td_RequestedAt d) (Td_AttemptAt d) (Td_VerifiedAt d)
    (Td_ActivatedAt d) (Td_DeactivatedAt d) (Td_CreatedAt d).

Definition Tenant_CreateDomain (x : tdraw) (tenantID : string) (input : CreateDomainInput) : TApp TenantDomain :=
  with_id TErrInvalidInput tenantID (λ t,
    match NormalizeHostname (CD_Hostname input) (ts_allowLocalhost s) with
    | None => io_fail TErrInvalidInput
    | Some hostname =>
        if negb (valid_type (CD_DomainType input)) then io_fail TErrInvalidInput
        else
          match verificationToken x with
          | None => io_fail TErrOther
          | Some token =>
              created ← trepo (TRepository_CreateDomain (td_id x) (td_now x) t hostname (CD_DomainType input)
                                 (verificationHash (verificationValue token)));
              mret (with_token token created)
          end
    end).

Definition Tenant_Domains (tenantID : string) : TApp (list TenantDomain) :=
  with_id TErrInvalidInput tenantID (λ t, trepo (TRepository_Domains t)).

(** A TXT record carries the value whose hash is stored. *)
Definition dns_confirms (x : tdraw) (c : VerificationDomain) : bool :=
  match td_dns x (Td_Record (VD_Domain c)) with
  | None => false
  | Some answers => existsb (λ a, ConstantTimeCompare (verificationHash a) (VD_TokenHash c)) answers
  end.

Definition Tenant_VerifyDomain (x : tdraw) (tenantID domainID : string) : TApp TenantDomain :=
  parseIDs tenantID domainID (λ t id,
    candidate ← trepo (TRepository_DomainForVerification t id);
    if Td_Verified (VD_Domain candidate) then mret (VD_Domain candidate)
    else if VD_TokenHash candidate ==? EmptyString then io_fail (TErrVerificationUnavailable (VD_Domain candidate))
    else if dns_confirms x candidate then trepo (TRepository_MarkVerificationSucceeded (ts_repo s) (td_now x) t id)
    else
      updated ← attempt (TRepository_MarkVerificationFailed (ts_repo s) (td_now x) t id);
      match updated with
      | Ok d => io_fail (TErrVerificationFailed d)
      | Err TNotFound =>
          current ← attempt (TRepository_Domain t id);
          match current with
          | Ok d => if Td_Verified d then mret d else io_fail (TErrRepo TNotFound)
          | Err _ => io_fail (TErrRepo TNotFound)
          end
      | Err e => io_fail (TErrRepo e)
      end).

Definition Tenant_ActivateDomain (x : tdraw) (tenantID domainID : string) : TApp TenantDomain :=
  parseIDs tenantID domainID (λ t id,
    current ← trepo (TRepository_Domain t id);
    if negb (Td_Verified current) then io_fail (TErrVerificationRequired current)
    else trepo (TRepository_ActivateDomain (ts_repo s) (td_now x) t id)).

Definition Tenant_DeactivateDomain (x : tdraw) (tenantID domainID : string) : TApp TenantDomain :=
  parseIDs tenantID domainID (λ t id, trepo (TRepository_DeactivateDomain (ts_repo s) (td_now x) t id)).
End TenantApplication.

(** ** Handlers *)

(** [th_token] is the token of the auth client. *)
Record TenantHandler := mkTenantHandler { th_service : TenantService; th_verify : MultiTokenVerifier; th_token : string }.

(** The bodies of the replies. *)
Inductive tenant_json :=
| JTenants (l : list Tenant)
| JTenant (t : Tenant)
| JAudit (l : list PlatformAudit)
| JSettings (s : Settings)
| JEligible (b : bool)
| JResolution (r : DomainResolution)
| JConfig (t : uuid) (app name timezone : string) (interval : Z) (s : Settings)
| JDomain (d : TenantDomain)
| JDomains (l : list TenantDomain).
Abbreviation TReply := (TApp (Response tenant_json)).

Inductive admin_refusal := Untrusted | Forbidden.

Section TenantHandlers.
Context `{GoLib, AccountLib} (h : TenantHandler).

Definition internal {B} (r : Request B) : bool := Verify (th_verify h) (Header r InternalTokenHeader).

(** A handler for callers with the internal token. *)
Definition internal_only {B} (r : Request B) (m : TReply) : TReply :=
  if negb (internal r) then mret (SendStatus 401) else m.

(** The reply for the outcome of a use case. *)
Definition t_reply {A} (m : TApp A) (fail : tapp_error -> Response tenant_json) (ok : A -> Response tenant_json)
  : TReply :=
  v ← attempt m; mret (match v with Ok a => ok a | Err e => fail e end).

Definition th_tenants {B} (r : Request B) : TReply :=
  internal_only r (t_reply Tenant_Tenants (λ _, SendStatus 500) (λ l, SendJSON 200 (JTenants l))).

Definition plain_status (e : tapp_error) : Response tenant_json :=
  match e with
  | TErrInvalidInput => SendStatus 400
  | TErrRepo TNotFound => SendStatus 404
  | _ => SendStatus 500
  end.

Definition th_setTenantStatus {B} (status : string) (x : tdraw) (r : Request B) : TReply :=
  internal_only r
    (t_reply (Tenant_SetTenantStatus (th_service h) x (Params r "id"%string) status (Header r "X-Platform-Actor"%string)
                (Header r RequestIDHeader)) plain_status (λ t, SendJSON 200 (JTenant t))).

Definition th_platformAudit {B} (r : Request B) : TReply :=
  internal_only r
    (t_reply (Tenant_PlatformAudit (Query r "tenant_id"%string))
       (λ e, match e with TErrInvalidInput => SendStatus 400 | _ => SendStatus 500 end)
       (λ l, SendJSON 200 (JAudit l))).

Definition settings_status (e : tapp_error) : Response tenant_json :=
  match e with TErrRepo TNotFound => SendStatus 404 | _ => SendStatus 500 end.

(** The tenant of the headers. *)
Definition with_context {B} (r : Request B) (k : TenantContext -> TReply) : TReply :=
  match tenantctx_New (Header r TenantIDHeader) (Header r AppTypeHeader) (Header r RequestIDHeader) with
  | None => mret (SendStatus 400)
  | Some t => k t
  end.

Definition th_internalSettings {B} (x : tdraw) (r : Request B) : TReply :=
  internal_only r (with_context r (λ t,
    t_reply (Tenant_Settings (th_service h) (td_first x) (uuid_String (TenantID t))) settings_status
      (λ s, SendJSON 200 (JSettings s)))).

Definition adminContext {B} (x : tdraw) (r : Request B) (write : bool) : res admin_refusal TenantContext :=
  match adminauth_Context r (th_verify h) with
  | None => Err Untrusted
  | Some t =>
      if AppType t !=? "admin"%string then Err Untrusted
      else
        match Authenticate (th_token h) (td_auth x) t (Header r "Cookie"%string) with
        | None => Err Untrusted
        | Some p =>
            if (AdminPrincipal_TenantID p !=? uuid_String (TenantID t)) || negb (CanRead (AdminPrincipal_Role p))
            then Err Untrusted
            else if write && negb (CanManageTenantSettings (AdminPrincipal_Role p)) then Err Forbidden
            else Ok t
        end
  end.

Definition th_adminSettings {B} (x : tdraw) (r : Request B) : TReply :=
  match adminContext x r false with
  | Err _ => mret (SendStatus 401)
  | Ok t =>
      t_reply (Tenant_Settings (th_service h) (td_first x) (uuid_String (TenantID t))) settings_status
        (λ s, SendJSON 200 (JSettings s))
  end.

Definition th_updateAdminSettings (x : tdraw) (r : Request UpdateSettingsInput) : TReply :=
  match adminContext x r true with
  | Err Forbidden => mret (SendStatus 403)
  | Err Untrusted => mret (SendStatus 401)
  | Ok t =>
      match Body r with
      | None => mret (SendError 400 "invalid settings payload")
      | Some input =>
          t_reply (Tenant_UpdateSettings (th_service h) x (uuid_String (TenantID t)) input)
            (λ e, match e with
                  | TErrInvalidInput => SendError 400 "invalid settings"
                  | TErrRepo TNotFound => SendStatus 404
                  | _ => SendStatus 500
                  end)
            (λ s, SendJSON 200 (JSettings s))
      end
  end.

Definition th_tlsAuthorize {B} (x : tdraw) (r : Request B) : TReply :=
  internal_only r (
    let caddyDomain := Query r "domain"%string in
    let hostname := if Query r "hostname"%string ==? EmptyString then caddyDomain else Query r "hostname"%string in
    if (hostname ==? EmptyString)
       || (caddyDomain !=? EmptyString) && (Query r "hostname"%string !=? EmptyString)
          && (caddyDomain !=? Query r "hostname"%string)
    then mret (SendJSON 403 (JEligible false))
    else
      t_reply (Tenant_TLSAuthorized (th_service h) x hostname) (λ _, SendStatus 503)
        (λ eligible, SendJSON (if eligible : bool then 200 else 403) (JEligible eligible))).

Definition th_resolve {B} (x : tdraw) (r : Request B) : TReply :=
  internal_only r (
    t_reply (Tenant_Resolve (th_service h) x (Query r "hostname"%string))
      (λ e, match e with
            | TErrRepo TNotFound => SendStatus 404
            | TErrInvalidInput => SendError 400 "invalid hostname"
            | _ => SendStatus 500
            end)
      (λ v, SendJSON 200 (JResolution v))).

Definition th_publicConfig {B} (x : tdraw) (r : Request B) : TReply :=
  internal_only r (with_context r (λ t,
    t_reply
      (settings ← Tenant_Settings (th_service h) (td_first x) (uuid_String (TenantID t));
       tenant ← Tenant_Tenant (th_service h) (td_second x) (uuid_String (TenantID t));
       mret (settings, tenant))
      settings_status
      (λ v, SendJSON 200 (JConfig (TenantID t) (AppType t) (Tn_Name v.2) (S_Timezone v.1) (S_Interval v.1) v.1)))).

Definition th_createTenant (x : tdraw) (r : Request CreateTenantInput) : TReply :=
  internal_only r
    match Body r with
    | None => mret (SendStatus 400)
    | Some input =>
        t_reply (Tenant_CreateTenant (th_service h) x input)
          (λ e, match e with TErrInvalidInput => SendStatus 400 | _ => SendStatus 500 end)
          (λ t, SendJSON 201 (JTenant t))
    end.

Definition th_tenant {B} (x : tdraw) (r : Request B) : TReply :=
  internal_only r
    (t_reply (Tenant_Tenant (th_service h) (td_first x) (Params r "id"%string)) plain_status
       (λ t, SendJSON 200 (JTenant t))).

Definition domainResponse (e : tapp_error) : Response tenant_json :=
  match e with
  | TErrInvalidInput => SendStatus 400
  | TErrRepo TNotFound => SendStatus 404
  | TErrRepo TConflict => SendStatus 409
  | TErrRepo TInactive => SendJSON 409 (JDomain no_domain)
  | TErrVerificationRequired d | TErrVerificationUnavailable d => SendJSON 409 (JDomain d)
  | TErrVerificationFailed d => SendJSON 422 (JDomain d)
  | _ => SendStatus 500
  end.

Definition th_createDomain (x : tdraw) (r : Request CreateDomainInput) : TReply :=
  internal_only r
    match Body r with
    | None => mret (SendStatus 400)
    | Some input =>
        t_reply (Tenant_CreateDomain (th_service h) x (Params r "id"%string) input) domainResponse
          (λ d, SendJSON 201 (JDomain d))
    end.

Definition th_domains {B} (r : Request B) : TReply :=
  internal_only r
    (t_reply (Tenant_Domains (Params r "id"%string)) plain_status (λ l, SendJSON 200 (JDomains l))).

(** A change of one domain. *)
Definition domain_handler {B} (m : string -> string -> TApp TenantDomain) (r : Request B) : TReply :=
  internal_only r
    (t_reply (m (Params r "id"%string) (Params r "domain_id"%string)) domainResponse (λ d, SendJSON 200 (JDomain d))).
Definition th_verifyDomain {B} (x : tdraw) : Request B -> TReply := domain_handler (Tenant_VerifyDomain (th_service h) x).
Definition th_activateDomain {B} (x : tdraw) : Request B -> TReply :=
  domain_handler (Tenant_ActivateDomain (th_service h) x).
Definition th_deactivateDomain {B} (x : tdraw) : Request B -> TReply :=
  domain_handler (Tenant_DeactivateDomain (th_service h) x).

(** *** [Handler.Register] *)

Inductive tenant_route :=
| GetResolve (r : Request unit)
| GetTLSAuthorize (r : Request unit)
| GetPublicConfig (r : Request unit)
| GetSettings (r : Request unit)
| GetAdminSettings (r : Request unit)
| PatchAdminSettings (r : Request UpdateSettingsInput)
| PostTenant (r : Request CreateTenantInput)
| GetTenants (r : Request unit)
| GetTenant_ (r : Request unit)
| PostActivateTenant (r : Request unit)
| PostSuspendTenant (r : Request unit)
| GetAudit (r : Request unit)
| PostDomain (r : Request CreateDomainInput)
| GetDomains (r : Request unit)
| PostVerifyDomain (r : Request unit)
| PostActivateDomain (r : Request unit)
| PostDeactivateDomain (r : Request unit).

Definition tn_serve (x : tdraw) (route : tenant_route) : TReply :=
  match route with
  | GetResolve r => th_resolve x r
  | GetTLSAuthorize r => th_tlsAuthorize x r
  | GetPublicConfig r => th_publicConfig x r
  | GetSettings r => th_internalSettings x r
  | GetAdminSettings r => th_adminSettings x r
  | PatchAdminSettings r => th_updateAdminSettings x r
  | PostTenant r => th_createTenant x r
  | GetTenants r => th_tenants r
  | GetTenant_ r => th_tenant x r
  | PostActivateTenant r => th_setTenantStatus "active" x r
  | PostSuspendTenant r => th_setTenantStatus "suspended" x r
  | GetAudit r => th_platformAudit r
  | PostDomain r => th_createDomain x r
  | GetDomains r => th_domains r
  | PostVerifyDomain r => th_verifyDomain x r
  | PostActivateDomain r => th_activateDomain x r
  | PostDeactivateDomain r => th_deactivateDomain x r
  end.
End TenantHandlers.

(** ** Configuration *)

Record TenantConfig := mkTenantConfig {
  tc_service : ServiceConfig; tc_migrationURL : string; tc_ownerRole : string; tc_migrationsDir : string;
  tc_allowLocalhost : bool; tc_authURL : string
}.
Definition tenant_Load (getenv : string -> string) : TenantConfig :=
  mkTenantConfig (Load getenv "tenant-service") (getenv "MIGRATION_DATABASE_URL"%string)
    (value getenv "DATABASE_OWNER_ROLE" "tenant_db_owner") (value getenv "MIGRATIONS_DIR" "migrations")
    (value getenv "APP_ENV" "development" ==? "development"%string)
    (value getenv "AUTH_SERVICE_URL" "http://auth-service:8080").
