(* ===== verification/TenantRegistry.v ===== *)
(** * TenantRegistry: what a request to the tenant service does to its tables

    An abstract registry with eight commands.  Every request, whatever fails
    while it is served, leaves the tables as they were or executes one command
    of the registry, and only a command its caller may issue; the commands keep
    the invariant of the tables. *)
From S2P Require Import Prelude Effects GoTime Http Platform Accounts Tenant.

Local Open Scope Z_scope.

(** ** The invariant *)

Definition has_tenant (t : uuid) (d : tenantdb) : bool := existsb (λ x, tn_id x ==? t) (tenants d).
Definition live_tenant (t : uuid) (d : tenantdb) : bool := existsb (λ x, (tn_id x ==? t) && tenant_live x) (tenants d).

(** A domain routes only after it was verified, and a verified domain keeps no
    token. *)
Definition domain_ok (r : domain_row) : Prop :=
  valid_type (dm_type r) = true ∧
  (dm_active r = true → dm_verified r = true) ∧
  (dm_verified r = true ↔ dm_state r = "verified"%string) ∧
  (dm_verified r = true → dm_token r = None ∧ dm_verified_at r ≠ None).

Record tenant_ok (d : tenantdb) : Prop := mkTenantOk {
  to_ids : NoDup (map tn_id (tenants d));
  to_status : ∀ t, t ∈ tenants d → valid_status (tn_status t) = true;
  to_domains : NoDup (map dm_id (domains d));
  to_hosts : NoDup (map dm_host (domains d));
  to_drows : ∀ r, r ∈ domains d → domain_ok r ∧ has_tenant (dm_tenant r) d = true;
  to_settings : NoDup (map st_tenant (settings d));
  to_srows : ∀ r, r ∈ settings d → settings_check r = true ∧ has_tenant (st_tenant r) d = true;
  to_audit : NoDup (map pa_id (audit d));
  to_arows : ∀ a t, a ∈ audit d → pa_tenant a = Some t → has_tenant t d = true
}.

(** ** The abstract registry *)

Inductive command :=
| Open (t : tenant_row) (s : settings_row)
| Configure (s : settings_row)
| SetStatus (t : uuid) (status : string) (entry : audit_row)
| RegisterDomain (r : domain_row)
| Confirm (t id : uuid) (now : time)
| Reject (t id : uuid) (now : time)
| Activate (t id : uuid) (now : time)
| Deactivate (t id : uuid) (now : time).

Definition at_domain (t id : uuid) (r : domain_row) : bool := (dm_tenant r ==? t) && (dm_id r ==? id).
Definition find_domain (t id : uuid) (d : tenantdb) : option domain_row := head (sel (at_domain t id) (domains d)).

(** Change one domain that satisfies a guard. *)
Definition change (t id : uuid) (guard : domain_row -> bool) (f : domain_row -> domain_row) (d : tenantdb)
  : option tenantdb :=
  match find_domain t id d with
  | Some r => if guard r then Some (set_domains (upd (at_domain t id) f (domains d)) d) else None
  | None => None
  end.

Definition exec (c : command) (d : tenantdb) : option tenantdb :=
  match c with
  | Open t s =>
      if has_tenant (tn_id t) d || existsb (λ x, st_tenant x ==? tn_id t) (settings d) then None
      else Some (set_settings (settings d ++ [s]) (set_tenants (tenants d ++ [t]) d))
  | Configure s =>
      if existsb (λ x, st_tenant x ==? st_tenant s) (settings d)
      then Some (set_settings (upd (λ x, st_tenant x ==? st_tenant s) (λ _, s) (settings d)) d) else None
  | SetStatus t status entry =>
      if has_tenant t d && negb (existsb (λ x, pa_id x ==? pa_id entry) (audit d))
      then Some (set_audit (audit d ++ [entry])
                   (set_tenants (upd (λ x, tn_id x ==? t) (tn_with_status status) (tenants d)) d))
      else None
  | RegisterDomain r =>
      if live_tenant (dm_tenant r) d && negb (existsb (λ x, dm_id x ==? dm_id r) (domains d))
         && negb (existsb (λ x, dm_host x ==? dm_host r) (domains d))
      then Some (set_domains (domains d ++ [r]) d) else None
  | Confirm t id now => change t id every (verified now) d
  | Reject t id now => change t id (λ r, negb (dm_verified r)) (failed now) d
  | Activate t id now => change t id (λ r, live_tenant t d && dm_verified r) (activated now) d
  | Deactivate t id now => change t id every (deactivated now) d
  end.

(** The rows a command brings are sound in themselves. *)
Definition sound (c : command) : Prop :=
  match c with
  | Open t s => tn_status t = "active"%string ∧ st_tenant s = tn_id t ∧ settings_check s = true
  | Configure s => settings_check s = true
  | SetStatus t status entry => valid_status status = true ∧ pa_tenant entry = Some t
  | RegisterDomain r => domain_ok r ∧ dm_verified r = false
  | _ => True
  end.

(** *** The commands keep the invariant *)

Lemma has_tenant_iff t d : has_tenant t d = true ↔ ∃ x, x ∈ tenants d ∧ tn_id x = t.
Proof.
  unfold has_tenant. rewrite existsb_elem. split; intros (x & Hx & E); exists x; (split; [done|]); by bsimpl.
Qed.

(** The tenants may grow and change in their status. *)
Lemma has_tenant_mono t d d' :
  (∀ x, x ∈ tenants d → ∃ x', x' ∈ tenants d' ∧ tn_id x' = tn_id x) → has_tenant t d = true → has_tenant t d' = true.
Proof. rewrite !has_tenant_iff. intros Hm (x & Hx & <-). destruct (Hm x Hx) as (x' & ? & ?). eauto. Qed.

Lemma change_Some t id guard f d d' :
  change t id guard f d = Some d' →
  ∃ r, find_domain t id d = Some r ∧ guard r = true ∧ d' = set_domains (upd (at_domain t id) f (domains d)) d.
Proof.
  unfold change. destruct (find_domain t id d) as [r|] eqn:E; [|done]. destruct (guard r) eqn:Eg; [|done].
  intros [= <-]. by exists r.
Qed.

Lemma find_domain_Some t id d r : find_domain t id d = Some r → r ∈ domains d ∧ dm_tenant r = t ∧ dm_id r = id.
Proof.
  intros [Hp Hr]%head_sel_Some. unfold at_domain in Hp. by bsimpl.
Qed.

(** The rows with the id of a found domain are that domain. *)
Lemma find_domain_unique t id d r x :
  tenant_ok d → find_domain t id d = Some r → x ∈ domains d → at_domain t id x = true → x = r.
Proof.
  intros Hd (Hr & _ & Ei)%find_domain_Some Hx Hp. unfold at_domain in Hp. bsimpl.
  eapply (NoDup_map_eq dm_id); [apply Hd|done..|congruence].
Qed.

Lemma domains_ok l d :
  tenant_ok d → NoDup (map dm_id l) → NoDup (map dm_host l) →
  (∀ r, r ∈ l → domain_ok r ∧ has_tenant (dm_tenant r) d = true) → tenant_ok (set_domains l d).
Proof. intros [] ???. by constructor. Qed.

Lemma change_ok t id guard f d d' :
  tenant_ok d →
  (∀ r, dm_id (f r) = dm_id r ∧ dm_host (f r) = dm_host r ∧ dm_tenant (f r) = dm_tenant r) →
  (∀ r, domain_ok r → guard r = true → domain_ok (f r)) →
  change t id guard f d = Some d' → tenant_ok d'.
Proof.
  intros Hd Hf Hg (r & Hr & Eg & ->)%change_Some. apply domains_ok; [done|..].
  - rewrite map_upd; [apply Hd|]. intros. apply Hf.
  - rewrite map_upd; [apply Hd|]. intros. apply Hf.
  - intros x' (x & Hx & ->)%elem_of_upd. destruct (at_domain t id x) eqn:Ep; [|by apply Hd].
    assert (x = r) as -> by (by eapply find_domain_unique).
    destruct (to_drows d Hd r Hx). split; [by apply Hg|]. by destruct (Hf r) as (_ & _ & ->).
Qed.

Lemma domain_changes_ok now r :
  domain_ok r →
  domain_ok (verified now r) ∧ domain_ok (deactivated now r) ∧
  (dm_verified r = false → domain_ok (failed now r)) ∧ (dm_verified r = true → domain_ok (activated now r)).
Proof.
  intros (Ht & Ha & Hs & Hv). unfold domain_ok. cbn. split; [|split; [|split]].
  - split; [done|]. split; [done|]. split; [done|]. intros _. split; [done|]. by destruct (dm_verified_at r).
  - done.
  - intros E. rewrite E in *. split; [done|]. split; [done|]. split; [|done]. split; [done|]. intros [=].
  - intros E. rewrite E in *. auto.
Qed.

Lemma open_ok t s d d' : tenant_ok d → sound (Open t s) → exec (Open t s) d = Some d' → tenant_ok d'.
Proof.
  intros Hd (Es & Et & Hs). cbn [exec]. destruct (_ || _) eqn:E; [done|]. intros [= <-].
  apply orb_false_iff in E as [E1 E2]. rewrite (existsb_fresh st_tenant) in E2.
  unfold has_tenant in E1. rewrite (existsb_fresh tn_id) in E1.
  assert (∀ u, has_tenant u d = true → has_tenant u (set_settings (settings d ++ [s]) (set_tenants (tenants d ++ [t]) d)) = true)
    as Hm. { intros u. apply has_tenant_mono. cbn. intros x Hx. exists x. set_solver. }
  destruct Hd as [Hi Hst Hdi Hdh Hdr Hse Hsr Hau Har].
  constructor; cbn [tenants domains settings audit set_settings set_tenants]; try done.
  - by apply NoDup_map_snoc.
  - intros x [Hx|Hx%list_elem_of_singleton]%elem_of_app; [by apply Hst|]. subst. unfold valid_status. by rewrite Es.
  - intros r Hr. destruct (Hdr r Hr). auto.
  - apply NoDup_map_snoc; [done|]. by rewrite Et.
  - intros r [Hr|Hr%list_elem_of_singleton]%elem_of_app; [destruct (Hsr r Hr); auto|]. subst. split; [done|].
    rewrite Et. apply has_tenant_iff. exists t. cbn. set_solver.
  - intros a u Ha E. eauto.
Qed.

Lemma configure_ok s d d' : tenant_ok d → sound (Configure s) → exec (Configure s) d = Some d' → tenant_ok d'.
Proof.
  intros Hd Hs. cbn [exec]. destruct (existsb _ _) eqn:E; [|done]. intros [= <-].
  apply existsb_elem in E as (x & Hx & E). bsimpl. destruct (to_srows d Hd x Hx) as [_ Hxt]. rewrite E in Hxt.
  destruct Hd as [Hi Hst Hdi Hdh Hdr Hse Hsr Hau Har].
  constructor; cbn [tenants domains settings audit set_settings]; try done.
  - rewrite map_upd; [done|]. intros y _ Hp. by bsimpl.
  - intros r' (r & Hr & ->)%elem_of_upd. destruct (st_tenant r ==? st_tenant s); [done|by apply Hsr].
Qed.

Lemma set_status_ok t status entry d d' :
  tenant_ok d → sound (SetStatus t status entry) → exec (SetStatus t status entry) d = Some d' → tenant_ok d'.
Proof.
  intros Hd (Hv & He). cbn [exec]. destruct (_ && _) eqn:E; [|done]. intros [= <-].
  apply andb_true_iff in E as [E1 E2]. bsimpl. rewrite (existsb_fresh pa_id) in E2.
  match goal with |- tenant_ok ?d' => assert (∀ u, has_tenant u d = true → has_tenant u d' = true) as Hm end.
  { intros u. apply has_tenant_mono. cbn. intros x Hx.
    exists (if tn_id x ==? t then tn_with_status status x else x). split; [apply elem_of_upd; by exists x|].
    by destruct (tn_id x ==? t). }
  destruct Hd as [Hi Hst Hdi Hdh Hdr Hse Hsr Hau Har].
  constructor; cbn [tenants domains settings audit set_audit set_tenants]; try done.
  - by rewrite map_upd.
  - intros x' (x & Hx & ->)%elem_of_upd. destruct (tn_id x ==? t); [done|by apply Hst].
  - intros r Hr. destruct (Hdr r Hr). auto.
  - intros r Hr. destruct (Hsr r Hr). auto.
  - by apply NoDup_map_snoc.
  - intros a u [Ha|Ha%list_elem_of_singleton]%elem_of_app Eu; [eauto|]. subst. apply Hm. congruence.
Qed.

Lemma register_ok r d d' : tenant_ok d → sound (RegisterDomain r) → exec (RegisterDomain r) d = Some d' → tenant_ok d'.
Proof.
  intros Hd (Hr & _). cbn [exec]. destruct (_ && _) eqn:E; [|done]. intros [= <-].
  apply andb_true_iff in E as [E E3]. apply andb_true_iff in E as [E1 E2]. bsimpl.
  rewrite (existsb_fresh dm_id) in E2. rewrite (existsb_fresh dm_host) in E3.
  apply domains_ok; [done|by apply NoDup_map_snoc; [apply Hd|]..|].
  intros x [Hx|Hx%list_elem_of_singleton]%elem_of_app; [by apply Hd|]. subst. split; [done|].
  apply existsb_elem in E1 as (y & Hy & Ey). bsimpl. apply has_tenant_iff. eauto.
Qed.

Lemma exec_ok c d d' : tenant_ok d → sound c → exec c d = Some d' → tenant_ok d'.
Proof.
  intros Hd Hs. destruct c; [by apply open_ok|by apply configure_ok|by apply set_status_ok|by apply register_ok|..];
    cbn [exec]; apply change_ok; try done; intros r Hr Hg; pose proof (domain_changes_ok now r Hr); bsimpl; tauto.
Qed.

(** ** Transactions *)

(** Whatever fails, [m] leaves the tables alone or has its whole effect, and
    the latter when it succeeds. *)
Definition commits {A} (m : TdM A) : Prop :=
  ∀ fs d, ((m fs d).2.2 = d ∨ ∃ a, run m d = (Ok a, (m fs d).2.2)) ∧
    ∀ a, (m fs d).1 = Ok a → run m d = (Ok a, (m fs d).2.2).

Lemma commits_atomic {A} (m : TdM A) :
  atomic m → (∀ d e, (run m d).1 = Err e → (run m d).2 = d) → commits m.
Proof.
  intros Ha He fs d. specialize (Ha fs d). specialize (He d).
  destruct (m fs d) as [v [fs' d']], (run m d) as [v0 d0]. cbn in *. destruct Ha as [[= -> ->]|[-> Ha]].
  - split; [|by intros a ->]. destruct v0 as [a|e]; [by right; exists a|]. left. by eapply He.
  - split; [|done]. destruct Ha as [->| ->]; [by left|]. destruct v0 as [a|e]; [by right; exists a|].
    left. by eapply He.
Qed.

Lemma commits_calling {A} f (m : TdM A) : quiet m → commits m → commits (calling f m).
Proof.
  intros Hq Hm fs d. specialize (Hm fs d). rewrite run_calling by done. unfold calling. rewrite attempt_bind.
  destruct (m fs d) as [v [fs' d']], (run m d) as [v0 d0]. cbn in *. destruct Hm as [H1 H2]. split.
  - destruct v as [a|e]; cbn; (destruct H1 as [H1|(a0 & [= -> ->])]; [by left|right; by exists a0]).
  - intros a. destruct v as [a'|e]; cbn; [|done]. intros [= ->]. by injection (H2 a eq_refl) as -> ->.
Qed.

Lemma det_tenant_stmt {A} (f : tenantdb -> res pg_error (A * tenantdb)) : det (calling translate (stmt f)).
Proof. unfold calling. solve_det. Qed.

Lemma commits_tenant_tx {A} t (f : uuid -> tenantdb -> res pg_error (A * tenantdb)) : commits (tenant_tx t f).
Proof.
  apply commits_calling; [apply quiet_tx, det_tenant_stmt|].
  apply commits_atomic; [apply atomic_tx, det_tenant_stmt|]. intros d e. apply run_tx_err, det_tenant_stmt.
Qed.

Lemma run_tenant_tx {A} t (f : uuid -> tenantdb -> res pg_error (A * tenantdb)) d :
  run (tenant_tx t f) d
  = match f t d with Ok (a, d') => (Ok a, d') | Err e => (Err (translate (TPg e)), d) end.
Proof.
  unfold tenant_tx. rewrite run_calling by apply quiet_tx, det_tenant_stmt. rewrite run_tx by apply det_tenant_stmt.
  rewrite run_calling by apply det_quiet, det_stmt. rewrite run_stmt. destruct (f t d) as [[a d']|e]; [done|].
  cbn. unfold from_pg, tenant_from_pg. by destruct e.
Qed.

Lemma commits_read {A} (g : tenant_error -> tenant_error) (f : tenantdb -> res pg_error A) : commits (calling g (autocommit (reading f))).
Proof.
  assert (quiet (D:=tenantdb) (E:=tenant_error) (autocommit (reading f))) as Hq.
  { intros d. unfold autocommit, reading; cbn. by destruct (f d). }
  apply commits_calling; [done|]. apply commits_atomic; [apply atomic_autocommit|].
  intros d e. unfold run, autocommit, reading; cbn. by destruct (f d).
Qed.

Lemma run_read {A} (g : tenant_error -> tenant_error) (f : tenantdb -> res pg_error A) d :
  run (calling g (autocommit (reading f))) d = (map_err (λ e, g (TPg e)) (f d), d).
Proof.
  rewrite run_calling by (intros d0; unfold autocommit, reading; cbn; by destruct (f d0)).
  unfold run, autocommit, reading; cbn. by destruct (f d).
Qed.

Lemma det_create_tenant id now name s :
  det (created ← calling translate (stmt (CreateTenant id now name));
       tx ← set_config (tn_id created);
       initialized ← calling translate (stmt (InitializeTenantSettings tx (settings_params (tn_id created) s)));
       mret (M:=TdM) (created, initialized)).
Proof. apply det_bind; [apply det_tenant_stmt|]. intros c. apply det_bind; [apply det_stmt|]. intros tx.
  apply det_bind; [apply det_tenant_stmt|]. intros i. apply det_ret. Qed.

Lemma det_set_status id now t status actor requestID :
  det (row ← calling no_rows (stmt (update_status t status));
       tx ← set_config t;
       hostnames ← query (λ d, map dm_host (sel (rls dm_tenant tx (λ x, dm_tenant x ==? t)) (domains d)));
       stmt (insert_audit (mkAuditRow id actor ("tenant." +:+ status) (Some t) requestID [("status"%string, status)] now)) ;;
       mret (M:=TdM) (row, hostnames)).
Proof.
  apply det_bind; [unfold calling; solve_det|]. intros row. apply det_bind; [apply det_stmt|]. intros tx.
  apply det_bind; [apply det_query|]. intros l. apply det_bind; [apply det_stmt|]. intros _. apply det_ret.
Qed.

Lemma commits_WithTx {A} (m : TdM A) : det m → commits (WithTx m).
Proof.
  intros Hm. apply commits_atomic; [by apply atomic_WithTx|]. intros d e. rewrite run_WithTx by done.
  by destruct (run m d) as [[] ?].
Qed.

(** ** Statements and commands *)

Lemma open_command id now name s d a d' :
  run (create_tenant_tx id now name s) d = (Ok a, d') →
  let t := mkTenantRow id name "active" now in
  a = (t, settings_params id s) ∧ sound (Open t (settings_params id s)) ∧ exec (Open t (settings_params id s)) d = Some d'.
Proof.
  unfold create_tenant_tx. rewrite run_WithTx by apply det_create_tenant.
  rewrite run_bind by apply det_tenant_stmt. rewrite run_calling by apply det_quiet, det_stmt. rewrite run_stmt.
  unfold CreateTenant. cbv zeta. destruct (negb (text_ok name)); [done|]. destruct (existsb _ (tenants d)) eqn:Et; [done|].
  cbn [map_err fst snd]. rewrite run_bind by apply det_stmt. unfold set_config. rewrite run_stmt. cbn [tn_id].
  rewrite run_bind by apply det_tenant_stmt. rewrite run_calling by apply det_quiet, det_stmt. rewrite run_stmt.
  unfold InitializeTenantSettings. destruct (negb (settings_text_ok _)); [done|]. destruct (_ !=? id); [done|].
  destruct (settings_check _) eqn:Ec; cbn [negb]; [|done]. destruct (existsb _ (settings _)) eqn:Es; [done|].
  destruct (negb _); [done|]. cbn [map_err fst snd]. rewrite run_ret. intros [= <- <-]. cbn in Es.
  split; [done|]. split; [done|]. cbn [exec tn_id]. unfold has_tenant. by rewrite Et, Es.
Qed.

Lemma sel_exists {A} (p : A -> bool) l x rest : sel p l = x :: rest → existsb p l = true.
Proof.
  intros E. apply existsb_elem. exists x.
  assert (x ∈ sel p l) as Hx by (rewrite E; set_solver). apply elem_of_sel in Hx. tauto.
Qed.

Lemma configure_command t r d a d' :
  st_tenant r = t → UpdateTenantSettings t r d = Ok (a, d') →
  a = r ∧ sound (Configure r) ∧ exec (Configure r) d = Some d'.
Proof.
  intros Et. unfold UpdateTenantSettings. cbv zeta. destruct (negb _); [done|].
  assert (∀ x, rls st_tenant t (λ x, st_tenant x ==? st_tenant r) x = (st_tenant x ==? st_tenant r)) as Hp.
  { intros x. unfold rls. rewrite Et. by destruct (st_tenant x ==? t). }
  destruct (sel _ _) as [|x rest] eqn:E; [done|]. apply sel_exists in E.
  destruct (settings_check r) eqn:Ec; cbn [negb]; [|done]. intros [= <- <-].
  split; [done|]. split; [done|]. cbn [exec]. rewrite <- (existsb_ext_in _ _ _ (λ x _, Hp x)), E. do 2 f_equal.
  apply map_ext. intros y. by rewrite Hp.
Qed.

Lemma status_command id now t status actor requestID d a d' :
  valid_status status = true →
  run (set_status_tx id now t status actor requestID) d = (Ok a, d') →
  let entry := mkAuditRow id actor ("tenant." +:+ status) (Some t) requestID [("status"%string, status)] now in
  a.2 = map dm_host (sel (λ x, dm_tenant x ==? t) (domains d)) ∧
  sound (SetStatus t status entry) ∧ exec (SetStatus t status entry) d = Some d'.
Proof.
  intros Hv. unfold set_status_tx. rewrite run_WithTx by apply det_set_status.
  rewrite run_bind by (unfold calling; solve_det). rewrite run_calling by apply det_quiet, det_stmt. rewrite run_stmt.
  unfold update_status. destruct (find_tenant t d) as [r|] eqn:Ef; [|done]. rewrite Hv. cbn [negb map_err fst snd].
  rewrite run_bind by apply det_stmt. unfold set_config. rewrite run_stmt.
  rewrite run_bind by apply det_query. unfold query. rewrite run_stmt. rewrite run_bind by apply det_stmt. rewrite run_stmt.
  unfold insert_audit. destruct (negb _); [done|]. cbn [pa_id]. destruct (existsb _ (audit _)) eqn:Ea; [done|].
  cbn [pa_tenant]. destruct (negb _); [done|]. rewrite run_ret. intros [= <- <-]. cbn [snd]. cbn in Ea.
  split; [|split; [done|]].
  - f_equal. apply filter_ext. intros x. unfold rls. cbn [domains set_tenants]. by destruct (dm_tenant x ==? t).
  - cbn [exec pa_id]. apply head_sel_Some in Ef as [Ep Hr]. bsimpl.
    rewrite (proj2 (has_tenant_iff t d)) by eauto. by rewrite Ea.
Qed.

Lemma register_command id now t host kind hash d a d' :
  CreateTenantDomain id now t t host kind hash d = Ok (a, d') →
  a = mkDomainRow id t host kind false false "pending" (Some hash) (Some now) None None None None now ∧
  sound (RegisterDomain a) ∧ exec (RegisterDomain a) d = Some d'.
Proof.
  unfold CreateTenantDomain. cbv zeta. destruct (negb _); [done|]. destruct (existsb _ (tenants d)) eqn:Et; [|done].
  cbn [negb]. rewrite bool_decide_refl. cbn [negb]. destruct (valid_type kind) eqn:Ek; [|done]. cbn [negb].
  destruct (existsb (λ x, dm_id x ==? id) _) eqn:E1; [done|].
  destruct (existsb (λ x, dm_host x ==? host) _) eqn:E2; [done|].
  intros [= <- <-]. split; [done|].
  split; [split; [|done]; by repeat split|].
  cbn [exec dm_tenant dm_id dm_host]. unfold live_tenant. by rewrite Et, E1, E2.
Qed.

(** An UPDATE of a domain is the change of that domain. *)
Lemma change_command t id q f d a d' :
  tenant_ok d → update_domain t t id q f d = Ok (a, d') →
  ∃ r, find_domain t id d = Some r ∧ a = f r ∧ change t id q f d = Some d'.
Proof.
  intros Hd. unfold update_domain. cbv zeta. destruct (head _) as [r|] eqn:E; [|done]. intros [= <- <-].
  apply head_sel_Some in E as [Ep Hr].
  assert (∀ x, domain_of t t id q x = at_domain t id x && q x) as Hp.
  { intros x. unfold domain_of, rls, at_domain. by destruct (dm_tenant x ==? t). }
  rewrite Hp in Ep. apply andb_true_iff in Ep as [Ea Eq].
  assert (find_domain t id d = Some r) as Ef.
  { unfold find_domain. apply (head_sel_unique dm_id); [apply Hd| |done..]. intros y Hy.
    unfold at_domain in Hy, Ea. bsimpl. congruence. }
  exists r. split; [done|]. split; [done|]. unfold change. rewrite Ef, Eq. do 2 f_equal.
  apply map_ext_in. intros x Hx%list_elem_of_In. rewrite Hp. destruct (at_domain t id x) eqn:Ex; [|done].
  assert (x = r) as -> by (by eapply find_domain_unique). by rewrite Eq.
Qed.

(** ** Repository calls *)

Definition keeps_db (w w' : tworld) : Prop := tw_db w' = tw_db w.
#[export] Instance keeps_db_preorder : PreOrder keeps_db.
Proof. unfold keeps_db. split; [done|]. intros x y z. congruence. Qed.

Lemma tdb_eq {A} (m : TdM A) fs w :
  tdb m fs w = ((m fs (tw_db w)).1, ((m fs (tw_db w)).2.1, mkTWorld (m fs (tw_db w)).2.2 (tw_cache w))).
Proof. unfold tdb. by destruct (m fs (tw_db w)) as [v [fs' d']]. Qed.

Lemma keeps_tdb {A} (m : TdM A) : readonly m → step_in keeps_db (tdb m).
Proof. intros Hm fs w. rewrite tdb_eq. unfold keeps_db. cbn. by rewrite <- (Hm fs (tw_db w)). Qed.

Lemma readonly_commits {A} (m : TdM A) : commits m → (∀ d a d', run m d = (Ok a, d') → d' = d) → readonly m.
Proof. intros Hm Hr fs d. destruct (Hm fs d) as [[->|[a Ha]] _]; [done|]. symmetry. by eapply Hr. Qed.

Lemma readonly_tenant_tx {A} t (f : uuid -> tenantdb -> res pg_error A) : readonly (tenant_tx t (λ tx, reading (f tx))).
Proof.
  apply readonly_commits; [apply commits_tenant_tx|]. intros d a d'. rewrite run_tenant_tx. unfold reading.
  destruct (f t d); [|done]. by intros [= _ <-].
Qed.
Lemma readonly_read {A} (g : tenant_error -> tenant_error) (f : tenantdb -> res pg_error A) :
  readonly (calling g (autocommit (reading f))).
Proof. apply readonly_commits; [apply commits_read|]. intros d a d'. rewrite run_read. by intros [= _ <-]. Qed.

Lemma keeps_cache_do f : step_in keeps_db (cache_do f).
Proof. intros fs w. unfold cache_do, keeps_db. by destruct (pop fs) as [[] ?]. Qed.
Lemma keeps_cache_get r now key : step_in keeps_db (cache_get r now key).
Proof.
  intros fs w. unfold cache_get, keeps_db. destruct (cache_on r); [|done]. by destruct (pop fs) as [[] ?].
Qed.
Lemma keeps_cache_set r now key v : step_in keeps_db (cache_set r now key v).
Proof. unfold cache_set. destruct (cache_on r); [apply keeps_cache_do|apply step_in_ret, _]. Qed.
Lemma keeps_cache_del r key : step_in keeps_db (cache_del r key).
Proof. unfold cache_del. destruct (cache_on r); [apply keeps_cache_do|apply step_in_ret, _]. Qed.
#[local] Hint Resolve keeps_tdb keeps_cache_get keeps_cache_set keeps_cache_del readonly_tenant_tx readonly_read : barber.

Section Requests.
Context `{GoLib, AccountLib}.

Lemma keeps_cacheSettings r now s : step_in keeps_db (cacheSettings r now s).
Proof. unfold cacheSettings. solve_step. Qed.
#[local] Hint Resolve keeps_cacheSettings : barber.
Lemma keeps_invalidate r l : step_in keeps_db (invalidate_all r l).
Proof. induction l; cbn [invalidate_all]; unfold invalidateDomain; solve_step. Qed.
#[local] Hint Resolve keeps_invalidate : barber.

Lemma keeps_Settings r x t : step_in keeps_db (TRepository_Settings r x t).
Proof. unfold TRepository_Settings, load_settings. solve_step. Qed.
Lemma keeps_ResolveDomain r x host : step_in keeps_db (TRepository_ResolveDomain r x host).
Proof. unfold TRepository_ResolveDomain. solve_step. Qed.
Lemma keeps_pool_GetTenant t : step_in keeps_db (tdb (pool_GetTenant t)).
Proof. unfold pool_GetTenant. apply keeps_tdb, readonly_read. Qed.
Lemma keeps_activeTenant t : step_in keeps_db (tdb (activeTenant t)).
Proof. apply keeps_tdb. unfold activeTenant, pool_GetTenant. solve_step. Qed.
Lemma keeps_Domain t id : step_in keeps_db (TRepository_Domain t id).
Proof. unfold TRepository_Domain. solve_step. Qed.
Lemma keeps_DomainForVerification t id : step_in keeps_db (TRepository_DomainForVerification t id).
Proof. unfold TRepository_DomainForVerification. solve_step. Qed.
#[local] Hint Resolve keeps_Settings keeps_ResolveDomain keeps_pool_GetTenant keeps_activeTenant keeps_Domain
  keeps_DomainForVerification : barber.
Lemma keeps_Tenant r x t : step_in keeps_db (TRepository_Tenant r x t).
Proof. unfold TRepository_Tenant. solve_step. Qed.
Lemma keeps_Tenants : step_in keeps_db TRepository_Tenants.
Proof.
  apply keeps_tdb. intros fs d. unfold autocommit, reading. by destruct (pop fs) as [[] ?].
Qed.
Lemma keeps_PlatformAudit t : step_in keeps_db (TRepository_PlatformAudit t).
Proof.
  apply keeps_tdb. intros fs d. unfold autocommit, reading. by destruct (pop fs) as [[] ?].
Qed.
Lemma keeps_Domains t : step_in keeps_db (TRepository_Domains t).
Proof. unfold TRepository_Domains. solve_step. Qed.
#[local] Hint Resolve keeps_Tenant keeps_Tenants keeps_PlatformAudit keeps_Domains : barber.

(** ** What a call started in the tables [d] may do *)

Definition may {E A} (d : tenantdb) (P : tenantdb -> Prop) (m : IO tworld E A) : Prop :=
  ∀ fs w, tw_db w = d → tw_db (m fs w).2.2 = d ∨ P (tw_db (m fs w).2.2).

Lemma may_keeps {E A} d P (m : IO tworld E A) : step_in keeps_db m → may d P m.
Proof. intros Hm fs w <-. left. apply Hm. Qed.
Lemma may_fail {E A} d P e : may d P (io_fail (E:=E) (A:=A) e).
Proof. by left. Qed.
Lemma may_ret {E A} d P (a : A) : may d P (mret (M:=IO tworld E) a).
Proof. by left. Qed.
Lemma may_then {E A B} d P (m : IO tworld E A) (k : A -> IO tworld E B) :
  may d P m → (∀ a, step_in keeps_db (k a)) → may d P (m ≫= k).
Proof.
  intros Hm Hk fs w Hw. specialize (Hm fs w Hw). rewrite bind_eq.
  destruct (m fs w) as [[a|e] [fs' w']]; cbn in *; [|done]. by rewrite (Hk a fs' w').
Qed.
(** After a call that read the tables. *)
Lemma may_after {E A B} d P (m : IO tworld E A) (k : A -> IO tworld E B) :
  step_in keeps_db m → (∀ fs w a, tw_db w = d → (m fs w).1 = Ok a → may d P (k a)) → may d P (m ≫= k).
Proof.
  intros Hm Hk fs w Hw. specialize (Hm fs w). specialize (Hk fs w). rewrite bind_eq.
  destruct (m fs w) as [[a|e] [fs' w']]; cbn in *; [|left; congruence]. apply (Hk a); [done..|congruence].
Qed.
Lemma may_attempt {E F A} d P (m : IO tworld F A) : may d P m → may d P (attempt (E:=E) m).
Proof. intros Hm fs w Hw. specialize (Hm fs w Hw). unfold attempt. by destruct (m fs w) as [v [fs' w']]. Qed.
Lemma may_calling {E F A} d P (f : F -> E) (m : IO tworld F A) : may d P m → may d P (calling f m).
Proof. intros Hm. apply may_then; [by apply may_attempt|]. intros []; solve_step. Qed.
Lemma may_commits {A} d P (m : TdM A) : commits m → (∀ a d', run m d = (Ok a, d') → P d') → may d P (tdb m).
Proof.
  intros Hm HP fs w <-. rewrite tdb_eq. cbn. destruct (Hm fs (tw_db w)) as [[->|[a Ha]] _]; [by left|right; eauto].
Qed.
Lemma may_weaken {E A} d (P Q : tenantdb -> Prop) (m : IO tworld E A) : (∀ d', P d' → Q d') → may d P m → may d Q m.
Proof. intros HPQ Hm fs w Hw. destruct (Hm fs w Hw); [by left|right; auto]. Qed.

(** ** Who may issue which command *)

Definition executes (Q : command -> Prop) (d d' : tenantdb) : Prop := ∃ c, Q c ∧ sound c ∧ exec c d = Some d'.

(** The session of an owner or a manager of the tenant the request is for. *)
Definition settings_authority {B} (h : TenantHandler) (x : tdraw) (r : Request B) (t : TenantContext) : Prop :=
  adminauth_Context r (th_verify h) = Some t ∧ AppType t = "admin"%string ∧
  ∃ p, Authenticate (th_token h) (td_auth x) t (Header r "Cookie"%string) = Some p ∧
    AdminPrincipal_TenantID p = uuid_String (TenantID t) ∧ CanManageTenantSettings (AdminPrincipal_Role p) = true.

(** The domain a platform request names. *)
Definition names {B} (r : Request B) (t id : uuid) : Prop :=
  uuid_Parse (Params r "id"%string) = Some t ∧ uuid_Parse (Params r "domain_id"%string) = Some id.

(** A TXT answer for the domain carries the value whose hash is stored. *)
Definition dns_proof (x : tdraw) (row : domain_row) : Prop :=
  ∃ answers a, td_dns x (verification_record (dm_host row)) = Some answers ∧ a ∈ answers ∧
    dm_token row = Some (verificationHash a).

Definition status_change {B} (x : tdraw) (r : Request B) (status : string) (c : command) : Prop :=
  ∃ t, uuid_Parse (Params r "id"%string) = Some t ∧
    TrimSpace (Header r "X-Platform-Actor"%string) ≠ EmptyString ∧ TrimSpace (Header r RequestIDHeader) ≠ EmptyString ∧
    c = SetStatus t status
          (mkAuditRow (td_id x) (TrimSpace (Header r "X-Platform-Actor"%string)) ("tenant." +:+ status) (Some t)
             (TrimSpace (Header r RequestIDHeader)) [("status"%string, status)] (td_now x)).

Definition issues (h : TenantHandler) (x : tdraw) (route : tenant_route) (d : tenantdb) (c : command) : Prop :=
  match route with
  | PatchAdminSettings r =>
      ∃ t input current new, settings_authority h x r t ∧ Body r = Some input ∧
        mergeSettings current input = Some new ∧ c = Configure (settings_params (TenantID t) new)
  | PostTenant r =>
      internal h r = true ∧ ∃ input s, Body r = Some input ∧ normalizeSettings (CT_Settings input) = Some s ∧
        c = Open (mkTenantRow (td_id x) (TrimSpace (CT_Name input)) "active" (td_now x)) (settings_params (td_id x) s)
  | PostActivateTenant r => internal h r = true ∧ status_change x r "active" c
  | PostSuspendTenant r => internal h r = true ∧ status_change x r "suspended" c
  | PostDomain r =>
      internal h r = true ∧ ∃ t input host token, uuid_Parse (Params r "id"%string) = Some t ∧ Body r = Some input ∧
        NormalizeHostname (CD_Hostname input) (ts_allowLocalhost (th_service h)) = Some host ∧
        verificationToken x = Some token ∧
        c = RegisterDomain (mkDomainRow (td_id x) t host (CD_DomainType input) false false "pending"
              (Some (verificationHash (verificationValue token))) (Some (td_now x)) None None None None (td_now x))
  | PostVerifyDomain r =>
      internal h r = true ∧ ∃ t id row, names r t id ∧ find_domain t id d = Some row ∧ dm_verified row = false ∧
        (dns_proof x row ∧ c = Confirm t id (td_now x) ∨ c = Reject t id (td_now x))
  | PostActivateDomain r => internal h r = true ∧ ∃ t id, names r t id ∧ c = Activate t id (td_now x)
  | PostDeactivateDomain r => internal h r = true ∧ ∃ t id, names r t id ∧ c = Deactivate t id (td_now x)
  | _ => False
  end.

(** ** Use cases *)

Lemma may_with_id {A} d P bad v (k : uuid -> TApp A) :
  (∀ t, uuid_Parse v = Some t → may d P (k t)) → may d P (with_id bad v k).
Proof. intros Hk. unfold with_id. destruct (uuid_Parse v); [by apply Hk|apply may_fail]. Qed.
Lemma may_parseIDs {A} d P v v' (k : uuid -> uuid -> TApp A) :
  (∀ t id, uuid_Parse v = Some t → uuid_Parse v' = Some id → may d P (k t id)) → may d P (parseIDs v v' k).
Proof. intros Hk. apply may_with_id. intros t Ht. apply may_with_id. auto. Qed.

Lemma may_CreateTenant s x input d :
  may d (executes (λ c, ∃ st, normalizeSettings (CT_Settings input) = Some st ∧
    c = Open (mkTenantRow (td_id x) (TrimSpace (CT_Name input)) "active" (td_now x)) (settings_params (td_id x) st)) d)
    (Tenant_CreateTenant s x input).
Proof.
  unfold Tenant_CreateTenant. cbv zeta. destruct (_ || _); [apply may_fail|].
  destruct (normalizeSettings _) as [st|] eqn:E; [|apply may_fail]. apply may_calling.
  unfold TRepository_CreateTenant. apply may_then; [|intros []; solve_step].
  apply may_commits; [apply commits_WithTx, det_create_tenant|].
  intros a d' (_ & Hs & Hx)%open_command. eexists; eauto.
Qed.

Lemma may_UpdateSettings s x v input d :
  may d (executes (λ c, ∃ t current new, uuid_Parse v = Some t ∧ mergeSettings current input = Some new ∧
    c = Configure (settings_params t new)) d) (Tenant_UpdateSettings s x v input).
Proof.
  unfold Tenant_UpdateSettings. apply may_with_id. intros t Et.
  apply may_after; [unfold trepo; apply step_in_calling; [apply _|apply keeps_Settings]|].
  intros fs w current _ _. destruct (mergeSettings current input) as [new|] eqn:Em; [|apply may_fail].
  apply may_calling. unfold TRepository_UpdateSettings. apply may_then; [|intros row; solve_step].
  apply may_commits; [apply commits_tenant_tx|]. intros a d'. rewrite run_tenant_tx.
  destruct (UpdateTenantSettings _ _ _) as [[a' d'']|] eqn:Eu; [|done]. intros [= -> ->].
  apply configure_command in Eu as (_ & Hs & Hx); [|done]. eexists; eauto 10.
Qed.

Lemma may_SetTenantStatus {B} s x (r : Request B) status d :
  may d (executes (status_change x r status) d)
    (Tenant_SetTenantStatus s x (Params r "id"%string) status (Header r "X-Platform-Actor"%string) (Header r RequestIDHeader)).
Proof.
  unfold Tenant_SetTenantStatus. apply may_with_id. intros t Et. destruct (_ || _) eqn:E; [apply may_fail|].
  apply orb_false_iff in E as [E E3]. apply orb_false_iff in E as [E1 E2]. bsimpl.
  apply may_calling. unfold TRepository_SetTenantStatus. apply may_then; [|intros []; solve_step].
  apply may_commits; [apply commits_WithTx, det_set_status|].
  intros a d' (_ & Hs & Hx)%status_command; [|done]. eexists. split; [|by split; [exact Hs|exact Hx]].
  exists t. eauto.
Qed.

Lemma may_CreateDomain s x v input d :
  may d (executes (λ c, ∃ t host token, uuid_Parse v = Some t ∧
    NormalizeHostname (CD_Hostname input) (ts_allowLocalhost s) = Some host ∧ verificationToken x = Some token ∧
    c = RegisterDomain (mkDomainRow (td_id x) t host (CD_DomainType input) false false "pending"
          (Some (verificationHash (verificationValue token))) (Some (td_now x)) None None None None (td_now x))) d)
    (Tenant_CreateDomain s x v input).
Proof.
  unfold Tenant_CreateDomain. apply may_with_id. intros t Et.
  destruct (NormalizeHostname _ _) as [host|] eqn:En; [|apply may_fail]. destruct (negb _); [apply may_fail|].
  destruct (verificationToken x) as [token|] eqn:Ev; [|apply may_fail].
  apply may_then; [|intros; solve_step]. apply may_calling. unfold TRepository_CreateDomain.
  apply may_after; [apply keeps_activeTenant|]. intros _ _ _ _ _. apply may_then; [|intros; solve_step].
  apply may_commits; [apply commits_tenant_tx|]. intros a d'. rewrite run_tenant_tx.
  destruct (CreateTenantDomain _ _ _ _ _ _ _ _) as [[a' d'']|] eqn:Eu; [|done]. intros [= -> ->].
  apply register_command in Eu as (-> & Hs & Hx). eexists. split; [|by split; [exact Hs|exact Hx]]. eauto 10.
Qed.

(** A change of a domain. *)
Lemma may_change_domain r t id q f d (Q : command -> Prop) c :
  tenant_ok d → Q c → sound c → (∀ d', change t id (q d) f d = Some d' → exec c d = Some d') →
  may d (executes Q d) (change_domain r t (λ tx d, update_domain tx t id (q d) f d)).
Proof.
  intros Hd HQ Hs Hx. unfold change_domain, invalidateDomain. apply may_then; [|intros row; solve_step].
  apply may_commits; [apply commits_tenant_tx|]. intros a d'. rewrite run_tenant_tx.
  destruct (update_domain _ _ _ _ _ _) as [[a' d'']|] eqn:Eu; [|done]. intros [= -> ->].
  apply change_command in Eu as (row & _ & _ & Hc); [|done]. exists c. auto.
Qed.

Lemma tdb_Ok {A} (m : TdM A) fs w a :
  commits m → (tdb m fs w).1 = Ok a → run m (tw_db w) = (Ok a, tw_db (tdb m fs w).2.2).
Proof. intros Hm. rewrite tdb_eq. cbn. apply Hm. Qed.

(** What is read of a domain is the stored row. *)
Lemma DomainForVerification_reads t id fs w c :
  (TRepository_DomainForVerification t id fs w).1 = Ok c →
  ∃ row, find_domain t id (tw_db w) = Some row ∧ VD_Domain c = newDomain row ∧ VD_TokenHash c = or_empty (dm_token row).
Proof.
  unfold TRepository_DomainForVerification. rewrite bind_eq.
  pose proof (tdb_Ok (tenant_tx t (λ tx, reading (GetTenantDomainForVerification tx t id))) fs w) as Hr.
  destruct (tdb _ fs w) as [[row|e] [fs' w']]; cbn in *; [|done]. intros [= <-].
  specialize (Hr row (commits_tenant_tx _ _) eq_refl). rewrite run_tenant_tx in Hr.
  unfold reading, GetTenantDomainForVerification, or_no_rows in Hr.
  destruct (head _) as [row'|] eqn:E; [|done]. injection Hr as -> _. exists row. split; [|done].
  unfold find_domain. rewrite <- E. f_equal. apply filter_ext. intros y.
  unfold domain_of, rls, at_domain, every. destruct (dm_tenant y ==? t); cbn; [|done]. by rewrite andb_true_r.
Qed.

Lemma may_VerifyDomain s x v v' d :
  tenant_ok d →
  may d (executes (λ c, ∃ t id row, (uuid_Parse v = Some t ∧ uuid_Parse v' = Some id) ∧ find_domain t id d = Some row ∧
    dm_verified row = false ∧ (dns_proof x row ∧ c = Confirm t id (td_now x) ∨ c = Reject t id (td_now x))) d)
    (Tenant_VerifyDomain s x v v').
Proof.
  intros Hd. unfold Tenant_VerifyDomain. apply may_parseIDs. intros t id Et Ei.
  apply may_after; [unfold trepo; apply step_in_calling; [apply _|apply keeps_DomainForVerification]|].
  intros fs w c <- Hc. unfold trepo, calling in Hc. rewrite attempt_bind in Hc.
  pose proof (DomainForVerification_reads t id fs w) as Hr.
  destruct (TRepository_DomainForVerification t id fs w) as [[c'|e] [fs' w']]; cbn in *; [|done].
  injection Hc as ->. destruct (Hr c eq_refl) as (row & Ef & Ed & Eh). clear Hr.
  rewrite Ed. cbn [Td_Verified newDomain]. destruct (dm_verified row) eqn:Ev; [apply may_ret|].
  destruct (VD_TokenHash c ==? EmptyString) eqn:Eh0; [apply may_fail|].
  destruct (dns_confirms x c) eqn:En.
  - apply may_calling. unfold TRepository_MarkVerificationSucceeded, MarkDomainVerificationSucceeded.
    apply (may_change_domain _ t id (λ _, every) _ _ _ (Confirm t id (td_now x))); [done| |done..].
    exists t, id, row. split; [done|]. split; [done|]. split; [done|]. left. split; [|done].
    unfold dns_confirms in En. rewrite Ed in En. cbn [Td_Record newDomain] in En.
    destruct (td_dns x _) as [answers|] eqn:Ea; [|done]. apply existsb_elem in En as (a & Ha & En).
    exists answers, a. split; [done|]. split; [done|]. unfold ConstantTimeCompare in En. bsimpl.
    rewrite Eh in En, Eh0. destruct (dm_token row); [|done]. cbn in En. congruence.
  - apply may_then.
    + apply may_attempt. unfold TRepository_MarkVerificationFailed, MarkDomainVerificationFailed.
      apply (may_change_domain _ t id (λ _ r, negb (dm_verified r)) _ _ _ (Reject t id (td_now x))); [done| |done..].
      exists t, id, row. tauto.
    + intros [d|[]]; solve_step.
Qed.

Lemma may_ActivateDomain s x v v' d :
  tenant_ok d →
  may d (executes (λ c, ∃ t id, (uuid_Parse v = Some t ∧ uuid_Parse v' = Some id) ∧ c = Activate t id (td_now x)) d)
    (Tenant_ActivateDomain s x v v').
Proof.
  intros Hd. unfold Tenant_ActivateDomain. apply may_parseIDs. intros t id Et Ei.
  apply may_after; [unfold trepo; apply step_in_calling; [apply _|apply keeps_Domain]|]. intros _ _ c _ _.
  destruct (negb _); [apply may_fail|]. apply may_calling. unfold TRepository_ActivateDomain, ActivateTenantDomain.
  apply (may_change_domain _ t id
    (λ d r, existsb (λ x, (tn_id x ==? dm_tenant r) && tenant_live x) (tenants d) && dm_verified r) _ _ _
    (Activate t id (td_now x))); [done|by eauto|done|].
  intros d' (r & Hf & Hg & ->)%change_Some. cbn [exec]. unfold change. rewrite Hf.
  apply find_domain_Some in Hf as (_ & <- & _). unfold live_tenant. by rewrite Hg.
Qed.

Lemma may_DeactivateDomain s x v v' d :
  tenant_ok d →
  may d (executes (λ c, ∃ t id, (uuid_Parse v = Some t ∧ uuid_Parse v' = Some id) ∧ c = Deactivate t id (td_now x)) d)
    (Tenant_DeactivateDomain s x v v').
Proof.
  intros Hd. unfold Tenant_DeactivateDomain. apply may_parseIDs. intros t id Et Ei. apply may_calling.
  unfold TRepository_DeactivateDomain, DeactivateTenantDomain.
  apply (may_change_domain _ t id (λ _, every) _ _ _ (Deactivate t id (td_now x))); [done|by eauto|done..].
Qed.

(** ** Requests *)

Lemma may_reply {A} d P (m : TApp A) fail ok : may d P m → may d P (t_reply m fail ok).
Proof. intros Hm. apply may_then; [by apply may_attempt|]. intros; solve_step. Qed.
Lemma may_internal {B} d P h (r : Request B) m : (internal h r = true → may d P m) → may d P (internal_only h r m).
Proof. intros Hm. unfold internal_only. destruct (internal h r); cbn [negb]; [by apply Hm|apply may_ret]. Qed.

Lemma adminContext_authority {B} h x (r : Request B) t : adminContext h x r true = Ok t → settings_authority h x r t.
Proof.
  unfold adminContext, settings_authority. destruct (adminauth_Context r (th_verify h)) as [t'|]; [|done].
  destruct (AppType t' ==? "admin"%string) eqn:Ea; cbn [negb]; [|done].
  destruct (Authenticate _ _ _ _) as [p|] eqn:Ep; [|done]. destruct (_ || _) eqn:E; [done|].
  destruct (CanManageTenantSettings _) eqn:Ec; cbn; [|done]. intros [= ->].
  apply orb_false_iff in E as [E _]. bsimpl. eauto 10.
Qed.

Lemma keeps_reply {A} (m : TApp A) fail ok : step_in keeps_db m → step_in keeps_db (t_reply m fail ok).
Proof. intros Hm. unfold t_reply. solve_step. Qed.
Lemma keeps_internal {B} h (r : Request B) m : step_in keeps_db m → step_in keeps_db (internal_only h r m).
Proof. intros Hm. unfold internal_only. solve_step. Qed.
Lemma keeps_context {B} (r : Request B) k : (∀ t, step_in keeps_db (k t)) → step_in keeps_db (with_context r k).
Proof. intros Hk. unfold with_context. solve_step. Qed.
Lemma keeps_trepo {A} (m : TM A) : step_in keeps_db m → step_in keeps_db (trepo m).
Proof. intros Hm. apply step_in_calling; [apply _|done]. Qed.
#[local] Hint Resolve keeps_reply keeps_internal keeps_context keeps_trepo : barber.

Definition changes_nothing (route : tenant_route) : bool :=
  match route with
  | PatchAdminSettings _ | PostTenant _ | PostActivateTenant _ | PostSuspendTenant _ | PostDomain _
  | PostVerifyDomain _ | PostActivateDomain _ | PostDeactivateDomain _ => false
  | _ => true
  end.

(** The routes that only read. *)
Lemma keeps_route h x route : changes_nothing route = true → step_in keeps_db (tn_serve h x route).
Proof.
  destruct route; intros E; try done; clear E;
    unfold tn_serve, th_resolve, th_tlsAuthorize, th_publicConfig, th_internalSettings, th_adminSettings, th_tenants,
      th_tenant, th_platformAudit, th_domains, Tenant_Resolve, Tenant_TLSAuthorized, Tenant_Settings, Tenant_Tenant,
      Tenant_Tenants, Tenant_PlatformAudit, Tenant_Domains, with_id; cbv zeta.
  all: repeat first [step_step | progress (apply keeps_reply || apply keeps_internal || apply keeps_context || apply keeps_trepo)].
Qed.

Lemma request_moves `{!GoLibLaws} h x route d :
  tenant_ok d → may d (executes (issues h x route d) d) (tn_serve h x route).
Proof.
  intros Hd. destruct (changes_nothing route) eqn:Er; [by apply may_keeps, keeps_route|].
  destruct route as [r|r|r|r|r|r|r|r|r|r|r|r|r|r|r|r|r]; try done; clear Er; cbn [tn_serve issues].
  - unfold th_updateAdminSettings. destruct (adminContext h x r true) as [t|[]] eqn:Ea; [|apply may_ret..].
    apply adminContext_authority in Ea. destruct (Body r) as [input|] eqn:Eb; [|apply may_ret]. apply may_reply.
    eapply may_weaken; [|apply may_UpdateSettings]. intros d' (c & (u & cur & new & Eu & Em & ->) & Hs & Hx).
    rewrite uuid_Parse_String in Eu. injection Eu as <-. eexists. split; [|by split; [exact Hs|exact Hx]]. by exists t, input, cur, new.
  - apply may_internal. intros Hi. destruct (Body r) as [input|] eqn:Eb; [|apply may_ret]. apply may_reply.
    eapply may_weaken; [|apply may_CreateTenant]. intros d' (c & (st & En & ->) & Hs & Hx).
    eexists. split; [|by split; [exact Hs|exact Hx]]. split; [done|]. by exists input, st.
  - apply may_internal. intros Hi. apply may_reply. eapply may_weaken; [|apply may_SetTenantStatus].
    intros d' (c & Hc & Hs & Hx). by exists c.
  - apply may_internal. intros Hi. apply may_reply. eapply may_weaken; [|apply may_SetTenantStatus].
    intros d' (c & Hc & Hs & Hx). by exists c.
  - apply may_internal. intros Hi. destruct (Body r) as [input|] eqn:Eb; [|apply may_ret]. apply may_reply.
    eapply may_weaken; [|apply may_CreateDomain]. intros d' (c & (t & host & token & Et & En & Ev & ->) & Hs & Hx).
    eexists. split; [|by split; [exact Hs|exact Hx]]. split; [done|]. by exists t, input, host, token.
  - apply may_internal. intros Hi. apply may_reply. eapply may_weaken; [|by apply may_VerifyDomain].
    intros d' (c & Hc & Hs & Hx). by exists c.
  - apply may_internal. intros Hi. apply may_reply. eapply may_weaken; [|by apply may_ActivateDomain].
    intros d' (c & Hc & Hs & Hx). by exists c.
  - apply may_internal. intros Hi. apply may_reply. eapply may_weaken; [|by apply may_DeactivateDomain].
    intros d' (c & Hc & Hs & Hx). by exists c.
Qed.

(** C21: A request to the tenant service refines the abstract registry: whatever
    fails while it is served, in the database or in Redis, the tables are as
    before or one command of the registry was executed; the command is one the
    route stands for and its caller may issue (the settings of a tenant change
    only for a signed-in owner or manager of that tenant, everything else only
    for a caller with the internal token; a domain is confirmed only on a TXT
    answer with the value whose hash is stored; a status changes together with
    its entry of the audit log), and the invariant of the tables holds
    afterwards: hostnames are unique, a domain routes only after it was
    verified, and the settings satisfy the constraints of their table. *)
Theorem tenant_requests `{!GoLibLaws} h x route fs w :
  tenant_ok (tw_db w) →
  let d' := tw_db (tn_serve h x route fs w).2.2 in
  tenant_ok d' ∧ (d' = tw_db w ∨ executes (issues h x route (tw_db w)) (tw_db w) d').
Proof.
  intros Hd d'. subst d'. destruct (request_moves h x route (tw_db w) Hd fs w eq_refl) as [->|Hc]; [by auto|].
  split; [|by right]. destruct Hc as (c & _ & Hs & Hx). by eapply exec_ok.
Qed.

(** ** Histories *)

Definition no_tables : tenantdb := mkTenantdb [] [] [] [].

(** The tables a history of requests can lead to, with any failures and with
    any contents of the cache. *)
Inductive served (h : TenantHandler) : list (tdraw * tenant_route) -> tenantdb -> Prop :=
| served_nil : served h [] no_tables
| served_request hist x route fs w :
    served h hist (tw_db w) → served h (hist ++ [(x, route)]) (tw_db (tn_serve h x route fs w).2.2).

(** The platform registered the domain and issued the token. *)
Definition registered (h : TenantHandler) (hist : list (tdraw * tenant_route)) (r : domain_row) (token : string) : Prop :=
  ∃ x q input, (x, PostDomain q) ∈ hist ∧ internal h q = true ∧ uuid_Parse (Params q "id"%string) = Some (dm_tenant r) ∧
    Body q = Some input ∧ NormalizeHostname (CD_Hostname input) (ts_allowLocalhost (th_service h)) = Some (dm_host r) ∧
    verificationToken x = Some token.

(** A verification met a TXT answer with the hash of the token. *)
Definition confirmed (h : TenantHandler) (hist : list (tdraw * tenant_route)) (host token : string) : Prop :=
  ∃ x q answers a, (x, PostVerifyDomain q) ∈ hist ∧ internal h q = true ∧
    td_dns x (verification_record host) = Some answers ∧ a ∈ answers ∧
    verificationHash a = verificationHash (verificationValue token).

Definition switched_on (h : TenantHandler) (hist : list (tdraw * tenant_route)) (t id : uuid) : Prop :=
  ∃ x q, (x, PostActivateDomain q) ∈ hist ∧ internal h q = true ∧ names q t id.

Definition explained (h : TenantHandler) (hist : list (tdraw * tenant_route)) (r : domain_row) : Prop :=
  ∃ token, registered h hist r token ∧
    (dm_verified r = false → dm_token r = Some (verificationHash (verificationValue token))) ∧
    (dm_verified r = true → confirmed h hist (dm_host r) token) ∧
    (dm_active r = true → switched_on h hist (dm_tenant r) (dm_id r)).

Lemma explained_mono h hist more r : explained h hist r → explained h (hist ++ more) r.
Proof.
  intros (token & (x & q & i & Hin & Hreg) & Ht & Hc & Ha). exists token. split; [|split; [done|split]].
  - exists x, q, i. split; [set_solver|done].
  - intros Hv. destruct (Hc Hv) as (x' & q' & l & a & Hin' & Hrest). exists x', q', l, a. split; [set_solver|done].
  - intros Hv. destruct (Ha Hv) as (x' & q' & Hin' & Hrest). exists x', q'. split; [set_solver|done].
Qed.

(** A change of one domain, seen from a row of the new tables. *)
Lemma change_rows t id guard f d d' r' :
  tenant_ok d → change t id guard f d = Some d' → r' ∈ domains d' →
  r' ∈ domains d ∨ ∃ r, r ∈ domains d ∧ find_domain t id d = Some r ∧ r' = f r ∧ guard r = true.
Proof.
  intros Hd (r & Hf & Hg & ->)%change_Some. cbn [domains set_domains]. intros (x & Hx & ->)%elem_of_upd.
  destruct (at_domain t id x) eqn:Ea; [|by left]. right.
  assert (x = r) as -> by (by eapply find_domain_unique). eauto.
Qed.

(** The requests behind the commands on a domain. *)
Ltac issued Hi :=
  destruct Hi as [];
  repeat match goal with
  | Hs : ∃ _, _ |- _ => destruct Hs
  | Hs : _ ∧ _ |- _ => destruct Hs
  | Hs : _ ∨ _ |- _ => destruct Hs
  | Hs : status_change _ _ _ _ |- _ => unfold status_change in Hs
  end; simplify_eq.

Lemma issued_register h x route d r :
  issues h x route d (RegisterDomain r) →
  ∃ token, registered h [(x, route)] r token ∧ dm_verified r = false ∧ dm_active r = false ∧
    dm_token r = Some (verificationHash (verificationValue token)).
Proof.
  destruct route; cbn [issues]; intros Hi; issued Hi. eexists. split; [|done]. do 3 eexists.
  split; [by apply list_elem_of_singleton|]. cbn. eauto 10.
Qed.
Lemma issued_confirm h x route d t id now row :
  issues h x route d (Confirm t id now) → find_domain t id d = Some row →
  ∃ q, route = PostVerifyDomain q ∧ internal h q = true ∧ dm_verified row = false ∧ dns_proof x row.
Proof. destruct route; cbn [issues]; intros Hi Hf; issued Hi. eauto. Qed.
Lemma issued_activate h x route d t id now :
  issues h x route d (Activate t id now) → switched_on h [(x, route)] t id.
Proof.
  destruct route; cbn [issues]; intros Hi; issued Hi. do 2 eexists. split; [by apply list_elem_of_singleton|done].
Qed.

(** A request explains the domains it changes. *)
Lemma request_explains h hist x route d c d' :
  tenant_ok d → (∀ r, r ∈ domains d → explained h hist r) → issues h x route d c → exec c d = Some d' →
  ∀ r, r ∈ domains d' → explained h (hist ++ [(x, route)]) r.
Proof.
  intros Hd Hall Hi Hx r' Hr'.
  assert (∀ r, r ∈ domains d → explained h (hist ++ [(x, route)]) r) as Hold.
  { intros r Hr. by apply explained_mono, Hall. }
  destruct c as [t s|s|t status entry|r|t id now|t id now|t id now|t id now]; cbn [exec] in Hx.
  1-3: case_match; [done || by injection Hx as <-; apply Hold|done || by injection Hx as <-; apply Hold].
  2-5: destruct (change_rows _ _ _ _ _ _ _ Hd Hx Hr') as [|(r & Hr & Hf & -> & _)]; [by apply Hold|];
       destruct (Hold r Hr) as (token & Hreg & Ht & Hc & Ha).
  - case_match; [|done]. injection Hx as <-. cbn in Hr'.
    apply elem_of_app in Hr' as [Hr'|Hr'%list_elem_of_singleton]; [by apply Hold|subst r'].
    destruct (issued_register _ _ _ _ _ Hi) as (token & (x' & q & i & Hin & Hreg) & Ev & Ea & Et).
    exists token. split; [|by rewrite Ev, Ea]. exists x', q, i. split; [set_solver|done].
  - exists token. split; [done|]. split; [done|]. split; [|done]. intros _. cbn [dm_host verified].
    destruct (issued_confirm _ _ _ _ _ _ _ r Hi Hf) as (q & -> & Hq & Ev & (answers & a & Hdns & Hans & Htok)).
    rewrite Ht in Htok by done. injection Htok as Htok. exists x, q, answers, a. split; [set_solver|done].
  - by exists token.
  - exists token. split; [done|]. split; [done|]. split; [done|]. intros _. cbn [dm_tenant dm_id activated].
    apply find_domain_Some in Hf as (_ & <- & <-). destruct (issued_activate _ _ _ _ _ _ _ Hi) as (x' & q & Hin & Hq).
    exists x', q. split; [set_solver|done].
  - by exists token.
Qed.

Lemma served_explained `{!GoLibLaws} h hist d :
  served h hist d → tenant_ok d ∧ ∀ r, r ∈ domains d → explained h hist r.
Proof.
  induction 1 as [|hist x route fs w _ [Hd Hall]]; [split; [|by intros r Hr%elem_of_nil]|].
  { constructor; cbn; try constructor; set_solver. }
  destruct (request_moves h x route (tw_db w) Hd fs w eq_refl) as [->|(c & Hi & Hs & Hx)].
  - split; [done|]. intros r Hr. by apply explained_mono, Hall.
  - split; [by eapply exec_ok|]. by eapply request_explains.
Qed.

(** The way of a hostname to its tenant. *)
Lemma routing_proof `{!GoLibLaws} h hist d host v :
  served h hist d → resolve_verified_domain host d = Some v →
  ∃ r token, r ∈ domains d ∧ dm_host r = pg_lower host ∧ v = mkDomainResolution (dm_tenant r) (dm_type r) ∧
    registered h hist r token ∧ confirmed h hist (dm_host r) token ∧ switched_on h hist (dm_tenant r) (dm_id r) ∧
    ∀ r', r' ∈ domains d → dm_host r' = dm_host r → r' = r.
Proof.
  intros [Hd Hall]%served_explained. unfold resolve_verified_domain. destruct (head _) as [r|] eqn:E; [|done].
  intros [= <-]. apply head_sel_Some in E as [Hp Hr]. bsimpl. destruct (Hall r Hr) as (token & Hreg & _ & Hc & Ha).
  exists r, token. split; [done|]. split; [done|]. split; [done|]. split; [done|]. split; [auto|]. split; [auto|].
  intros r' Hr' Eh. eapply (NoDup_map_eq dm_host); [apply Hd|done..].
Qed.
End Requests.
