(* ===== verification/TenantCache.v ===== *)
(** * TenantCache: the cache of the tenant service is invisible

    Without failures, and with requests served one after the other, the service
    with a Redis cache answers every request as the service without one, and
    leaves the same tables. *)
From S2P Require Import Prelude Effects GoTime Http Platform Accounts Tenant TenantRegistry.

Local Open Scope Z_scope.

(** ** Hostnames *)

Definition plain_host (s : string) : Prop := Forall (λ c, host_char c = true ∨ c = "."%char) (list_ascii_of_string s).

(** PostgreSQL's [lower] leaves lower-case letters, digits, hyphens and dots alone. *)
Class LowerLaws `{AccountLib} := pg_lower_plain : ∀ s, plain_host s → pg_lower s = s.

Lemma Split_plain sep s :
  Forall (λ label, forallb host_char (list_ascii_of_string label) = true) (Split sep s) →
  Forall (λ c, host_char c = true ∨ c = sep) (list_ascii_of_string s).
Proof.
  induction s as [|c s IH]; cbn; [constructor|]. destruct (c ==? sep) eqn:E.
  - bsimpl. inversion 1; subst. constructor; auto.
  - destruct (Split sep s) as [|label rest]; inversion 1 as [|? ? Hl Hr]; subst; cbn in Hl;
      apply andb_true_iff in Hl as [Hc Hl]; constructor; auto.
Qed.

Lemma NormalizeHostname_plain `{GoLib} input allow h : NormalizeHostname input allow = Some h → plain_host h.
Proof.
  unfold NormalizeHostname. cbv zeta. destruct (_ || _); [done|]. destruct (_ && _); [done|]. destruct (_ && _); [done|].
  destruct (forallb label_ok _) eqn:E; [|done]. intros [= <-]. apply Split_plain. apply Forall_forall. intros l Hl.
  rewrite forallb_forall in E. specialize (E l (proj1 (list_elem_of_In _ _) Hl)). unfold label_ok in E.
  by apply andb_true_iff in E as [_ E].
Qed.

(** ** Coherence *)

Section Coherence.
Context `{GoLib, AccountLib, !GoLibLaws, !LowerLaws}.

(** The domain a hostname leads to. *)
Definition routes (h : string) (d : tenantdb) (r : domain_row) : Prop :=
  r ∈ domains d ∧ dm_host r = h ∧ dm_verified r = true ∧ dm_active r = true ∧ live_tenant (dm_tenant r) d = true.

Lemma resolve_iff h d v :
  tenant_ok d → plain_host h →
  resolve_verified_domain h d = Some v ↔ ∃ r, routes h d r ∧ v = mkDomainResolution (dm_tenant r) (dm_type r).
Proof.
  intros Hd Hh. unfold resolve_verified_domain. rewrite pg_lower_plain by done. split.
  - destruct (head _) as [r|] eqn:E; [|done]. intros [= <-]. apply head_sel_Some in E as [Hp Hr]. bsimpl.
    exists r. by split.
  - intros (r & (Hr & <- & Hv & Ha & Hl) & ->).
    rewrite (head_sel_unique dm_host _ _ r); [done|apply Hd| |done|].
    + intros y Hy. by bsimpl.
    + unfold live_tenant in Hl. by rewrite bool_decide_refl, Hv, Ha, Hl.
Qed.

(** What the tables say of a key. *)
Definition entry_ok (d : tenantdb) (key : string) (v : cached) : Prop :=
  (∃ h r, key = domainCacheKey h ∧ plain_host h ∧ routes h d r ∧
     v = CachedResolution (mkDomainResolution (dm_tenant r) (dm_type r))) ∨
  (∃ r, key = settingsCacheKey (st_tenant r) ∧ st_tenant r ≠ uuid_Nil ∧ r ∈ settings d ∧ v = CachedSettings (settingsFrom r)).

(** Every value in the cache, but for some keys, is what the tables say. *)
Definition coherent_but (bad : string -> Prop) (d : tenantdb) (c : tcache) : Prop :=
  ∀ key v expires, c !! key = Some (v, expires) → bad key ∨ entry_ok d key v.
Definition coherent (w : tworld) : Prop := coherent_but (λ _, False) (tw_db w) (tw_cache w).

Lemma live_cached now key c v : live now key c = Some v → ∃ expires, c !! key = Some (v, expires).
Proof. unfold live. destruct (c !! key) as [[v' e]|]; [|done]. case_match; [done|]. intros [= ->]. eauto. Qed.

Lemma domainCacheKey_inj h h' : domainCacheKey h = domainCacheKey h' → h = h'.
Proof. unfold domainCacheKey. cbn. intros [= E]. exact E. Qed.
Lemma uuid_String_inj u u' : uuid_String u = uuid_String u' → u = u'.
Proof. intros E. pose proof (uuid_Parse_String u) as Hu. rewrite E, uuid_Parse_String in Hu. congruence. Qed.
Lemma settingsCacheKey_inj u u' : settingsCacheKey u = settingsCacheKey u' → u = u'.
Proof. unfold settingsCacheKey. cbn. intros [= E]. by apply uuid_String_inj. Qed.
Lemma keys_differ h u : domainCacheKey h ≠ settingsCacheKey u.
Proof. unfold domainCacheKey, settingsCacheKey. cbn. intros [=]. Qed.

Lemma coherent_resolution w now h v :
  tenant_ok (tw_db w) → coherent w → plain_host h → live now (domainCacheKey h) (tw_cache w) = Some v →
  resolve_verified_domain h (tw_db w) = Some (as_resolution v).
Proof.
  intros Hd Hc Hh (e & Hk)%live_cached. destruct (Hc _ _ _ Hk) as [[]|[(h' & r & E & _ & Hr & ->)|(r & E & _)]].
  - apply domainCacheKey_inj in E as <-. apply resolve_iff; eauto.
  - by apply keys_differ in E.
Qed.

Lemma coherent_settings w now t v :
  tenant_ok (tw_db w) → coherent w → live now (settingsCacheKey t) (tw_cache w) = Some v →
  ∃ r, r ∈ settings (tw_db w) ∧ st_tenant r = t ∧ as_settings v = settingsFrom r.
Proof.
  intros Hd Hc (e & Hk)%live_cached. destruct (Hc _ _ _ Hk) as [[]|[(h' & r & E & _)|(r & E & _ & Hr & ->)]].
  - symmetry in E. by apply keys_differ in E.
  - apply settingsCacheKey_inj in E as ->. eauto.
Qed.

(** *** Commands and commands to Redis *)

Lemma coherent_insert bad d c key v e : coherent_but bad d c → entry_ok d key v → coherent_but bad d (<[key := (v, e)]> c).
Proof. intros Hc Hv k v' e' [[-> [= -> ->]]|[_ Hk]]%lookup_insert_Some; [by right|by eapply Hc]. Qed.

(** A stored value repairs its key, a deletion too. *)
Lemma coherent_repair (bad : string -> Prop) key v e d c :
  (∀ k, bad k → k = key) → coherent_but bad d c → entry_ok d key v → coherent_but (λ _, False) d (<[key := (v, e)]> c).
Proof.
  intros Hb Hc Hv k v' e' [[-> [= -> ->]]|[Hn Hk]]%lookup_insert_Some; [by right|].
  destruct (Hc _ _ _ Hk) as [Hk'%Hb|]; [done|by right].
Qed.
Lemma coherent_delete (bad : string -> Prop) key d c :
  coherent_but (λ k, k = key ∨ bad k) d c → coherent_but bad d (delete key c).
Proof.
  intros Hc k v e [Hn Hk]%lookup_delete_Some. destruct (Hc _ _ _ Hk) as [[->|]|]; [done|by left|by right].
Qed.

(** New tables leave the entries of the other keys right. *)
Lemma coherent_step (bad : string -> Prop) d d' c :
  coherent_but (λ _, False) d c →
  (∀ h r, routes h d r → bad (domainCacheKey h) ∨ routes h d' r) →
  (∀ r, st_tenant r ≠ uuid_Nil → r ∈ settings d → bad (settingsCacheKey (st_tenant r)) ∨ r ∈ settings d') →
  coherent_but bad d' c.
Proof.
  intros Hc Hr Hs key v e Hk. destruct (Hc _ _ _ Hk) as [[]|[(h & r & -> & Hh & Hro & ->)|(r & -> & Hnil & Hin & ->)]].
  - destruct (Hr h r Hro); [by left|right; left; eauto 10].
  - destruct (Hs r Hnil Hin); [by left|right; right; eauto 10].
Qed.

Lemma live_mono t d d' :
  (∀ x, x ∈ tenants d → tn_id x = t → x ∈ tenants d') → live_tenant t d = true → live_tenant t d' = true.
Proof.
  unfold live_tenant. rewrite !existsb_elem. intros Hm (x & Hx & E). exists x. split; [|done]. bsimpl. auto.
Qed.

Lemma change_coherent t id guard f d d' c r :
  tenant_ok d → coherent_but (λ _, False) d c → find_domain t id d = Some r → change t id guard f d = Some d' →
  coherent_but (λ k, k = domainCacheKey (dm_host r) ∨ False) d' c.
Proof.
  intros Hd Hc Hf (r' & Hf' & _ & ->)%change_Some. apply coherent_step with d; [done|..].
  - intros h x (Hx & <- & Hrest). destruct (at_domain t id x) eqn:Ea.
    + left. left. by rewrite (find_domain_unique t id d r x).
    + right. split; [|done]. cbn. apply elem_of_upd. exists x. by rewrite Ea.
  - intros x _ Hx. by right.
Qed.

Lemma status_coherent t status entry d d' c :
  coherent_but (λ _, False) d c → exec (SetStatus t status entry) d = Some d' →
  coherent_but (λ k, k ∈ map domainCacheKey (map dm_host (sel (λ x, dm_tenant x ==? t) (domains d)))) d' c.
Proof.
  intros Hc. cbn [exec]. case_match; [|done]. intros [= <-]. apply coherent_step with d; [done|..].
  - intros h x (Hx & <- & Hv & Ha & Hl). destruct (dm_tenant x ==? t) eqn:Et.
    + left. apply list_elem_of_In, in_map, in_map, list_elem_of_In, elem_of_sel. done.
    + right. split; [done|]. split; [done|]. split; [done|]. split; [done|]. apply live_mono with d; [|done].
      intros y Hy Ey. cbn. apply elem_of_upd. exists y. split; [done|]. by rewrite Ey, Et.
  - intros x _ Hx. by right.
Qed.

Lemma open_coherent t s d d' c :
  coherent_but (λ _, False) d c → exec (Open t s) d = Some d' → coherent_but (λ _, False) d' c.
Proof.
  intros Hc. cbn [exec]. case_match; [done|]. intros [= <-]. apply coherent_step with d; [done|..].
  - intros h x (Hx & <- & Hv & Ha & Hl). right. split; [done|]. split; [done|]. split; [done|]. split; [done|].
    apply live_mono with d; [|done]. cbn. set_solver.
  - intros x _ Hx. right. cbn. set_solver.
Qed.

Lemma register_coherent r d d' c :
  coherent_but (λ _, False) d c → exec (RegisterDomain r) d = Some d' → coherent_but (λ _, False) d' c.
Proof.
  intros Hc. cbn [exec]. case_match; [|done]. intros [= <-]. apply coherent_step with d; [done|..].
  - intros h x (Hx & Hrest). right. split; [cbn; set_solver|done].
  - intros x _ Hx. by right.
Qed.

Lemma configure_coherent s d d' c :
  coherent_but (λ _, False) d c → exec (Configure s) d = Some d' →
  coherent_but (λ k, k = settingsCacheKey (st_tenant s) ∧ st_tenant s ≠ uuid_Nil) d' c ∧ s ∈ settings d'.
Proof.
  intros Hc. cbn [exec]. destruct (existsb _ _) eqn:E; [|done]. intros [= <-]. split.
  - apply coherent_step with d; [done|..].
    + intros h x Hx. by right.
    + intros x Hnil Hx. destruct (st_tenant x ==? st_tenant s) eqn:Et; [left; bsimpl; by rewrite <- Et|].
      right. cbn. apply elem_of_upd. exists x. by rewrite Et.
  - apply existsb_elem in E as (x & Hx & Ex). cbn. apply elem_of_upd. exists x. by rewrite Ex.
Qed.

(** ** Simulation *)

Record matched (wc wu : tworld) : Prop := mkMatched {
  ma_db : tw_db wc = tw_db wu; ma_ok : tenant_ok (tw_db wc); ma_cache : coherent wc
}.

(** Without failures both programs return the same and stay matched. *)
Definition sim {E A} (m m' : IO tworld E A) : Prop :=
  ∀ wc wu, matched wc wu →
    ∃ v wc' wu', m [] wc = (v, ([], wc')) ∧ m' [] wu = (v, ([], wu')) ∧ matched wc' wu'.

Lemma sim_ret {E A} (a : A) : sim (E:=E) (mret a) (mret a).
Proof. intros wc wu Hm. by exists (Ok a), wc, wu. Qed.
Lemma sim_fail {E A} (e : E) : sim (A:=A) (io_fail e) (io_fail e).
Proof. intros wc wu Hm. by exists (Err e), wc, wu. Qed.
Lemma sim_bind {E A B} (m m' : IO tworld E A) (k k' : A -> IO tworld E B) :
  sim m m' → (∀ a, sim (k a) (k' a)) → sim (m ≫= k) (m' ≫= k').
Proof.
  intros Hm Hk wc wu Hw. destruct (Hm wc wu Hw) as (v & wc' & wu' & E1 & E2 & Hw'). rewrite !bind_eq, E1, E2.
  destruct v as [a|e]; [by apply Hk|]. by exists (Err e), wc', wu'.
Qed.
Lemma sim_attempt {E F A} (m m' : IO tworld F A) : sim m m' → sim (attempt (E:=E) m) (attempt m').
Proof.
  intros Hm wc wu Hw. destruct (Hm wc wu Hw) as (v & wc' & wu' & E1 & E2 & Hw'). unfold attempt. rewrite E1, E2.
  by exists (Ok v), wc', wu'.
Qed.
Lemma sim_calling {E F A} (f : F -> E) (m m' : IO tworld F A) : sim m m' → sim (calling f m) (calling f m').
Proof. intros Hm. apply sim_bind; [by apply sim_attempt|]. intros []; [apply sim_ret|apply sim_fail]. Qed.

Lemma quiet_eq {D E A} (m : IO D E A) d : quiet m → m [] d = ((run m d).1, ([], (run m d).2)).
Proof. intros Hm. specialize (Hm d). unfold run. destruct (m [] d) as [v [fs d']]. cbn in *. by subst. Qed.

Lemma tdb_quiet {A} (m : TdM A) w :
  quiet m → tdb m [] w = ((run m (tw_db w)).1, ([], mkTWorld (run m (tw_db w)).2 (tw_cache w))).
Proof. intros Hm. unfold tdb. by rewrite quiet_eq. Qed.

Lemma sim_read {A} (m : TdM A) : quiet m → readonly m → sim (tdb m) (tdb m).
Proof.
  intros Hq Hr wc wu Hw. rewrite !tdb_quiet by done. pose proof (Hr [] (tw_db wc)) as Hd.
  rewrite quiet_eq in Hd by done. cbn in Hd. rewrite <- (ma_db _ _ Hw), <- Hd. do 3 eexists. split; [done|].
  split; [done|]. destruct Hw as [E Hok Hc]. constructor; cbn; auto.
Qed.

(** A change of the tables and what follows it. *)
Lemma sim_write {A B} (m : TdM A) (k k' : A -> TM B) :
  quiet m → commits m →
  (∀ d c c' a d', tenant_ok d → coherent_but (λ _, False) d c → run m d = (Ok a, d') →
     ∃ v wc' wu', k a [] (mkTWorld d' c) = (v, ([], wc')) ∧ k' a [] (mkTWorld d' c') = (v, ([], wu')) ∧ matched wc' wu') →
  sim (tdb m ≫= k) (tdb m ≫= k').
Proof.
  intros Hq Hm Hk wc wu Hw. rewrite !bind_eq, !tdb_quiet by done. destruct Hw as [E Hok Hc]. rewrite <- E.
  pose proof (proj1 (Hm [] (tw_db wc))) as Hd1. rewrite quiet_eq in Hd1 by done.
  destruct (run m (tw_db wc)) as [[a|e] d'] eqn:Er; cbn [fst snd] in *; [by eapply Hk|].
  destruct Hd1 as [Hd1|(a & [=])]. subst d'. do 3 eexists. split; [done|]. split; [done|]. constructor; cbn; auto.
Qed.

Lemma quiet_tenant_tx {A} t (f : uuid -> tenantdb -> res pg_error (A * tenantdb)) : quiet (tenant_tx t f).
Proof. apply quiet_calling, quiet_tx, det_tenant_stmt. Qed.
Lemma quiet_read {A} (g : tenant_error -> tenant_error) (f : tenantdb -> res pg_error A) :
  quiet (calling g (autocommit (reading f))).
Proof. apply quiet_calling. intros d. unfold autocommit, reading; cbn. by destruct (f d). Qed.
Lemma sim_tenant_read {A} t (f : uuid -> tenantdb -> res pg_error A) :
  sim (tdb (tenant_tx t (λ tx, reading (f tx)))) (tdb (tenant_tx t (λ tx, reading (f tx)))).
Proof. apply sim_read; [apply quiet_tenant_tx|apply readonly_tenant_tx]. Qed.
Lemma sim_pool_read {A} (g : tenant_error -> tenant_error) (f : tenantdb -> res pg_error A) :
  sim (tdb (calling g (autocommit (reading f)))) (tdb (calling g (autocommit (reading f)))).
Proof. apply sim_read; [apply quiet_read|apply readonly_read]. Qed.

(** *** The repository with a cache and the one without *)

Definition with_cache : TenantRepository := mkTenantRepository true.
Definition without_cache : TenantRepository := mkTenantRepository false.

Lemma plain_text_ok s : plain_host s → text_ok s = true.
Proof.
  unfold plain_host. induction s as [|c s IH]; [done|]. cbn [list_ascii_of_string text_ok].
  intros [Hc Hs]%Forall_cons_1. rewrite (IH Hs), andb_true_r. bsimpl. intros ->. by destruct Hc.
Qed.

Lemma sim_ResolveDomain x h :
  plain_host h → sim (TRepository_ResolveDomain with_cache x h) (TRepository_ResolveDomain without_cache x h).
Proof.
  intros Hh wc wu Hw. unfold TRepository_ResolveDomain, cache_get, cache_set. cbn [cache_on with_cache without_cache].
  rewrite !bind_eq. cbn [pop mret io_mret io_ret].
  destruct (live _ _ _) as [v|] eqn:El.
  - destruct Hw as [E Hok Hc]. pose proof (coherent_resolution wc _ h v Hok Hc Hh El) as Hv.
    exists (Ok (as_resolution v)), wc, wu. split; [done|]. split; [|by constructor].
    rewrite bind_eq, tdb_quiet by apply quiet_read. rewrite run_read. cbn [fst snd]. rewrite plain_text_ok by done.
    cbn [negb]. rewrite <- E, Hv. cbn. by destruct wu; cbn in E; subst.
  - destruct Hw as [E Hok Hc]. rewrite !bind_eq, !tdb_quiet by apply quiet_read. rewrite !run_read. cbn [fst snd].
    rewrite plain_text_ok by done. cbn [negb]. rewrite <- E.
    destruct (resolve_verified_domain h (tw_db wc)) as [v|] eqn:Ev; cbn.
    + do 3 eexists. split; [done|]. split; [done|]. constructor; [done..|]. cbn. apply coherent_insert; [done|].
      apply resolve_iff in Ev as (r & Hr & ->); [|done..]. left. eauto 10.
    + do 3 eexists. split; [done|]. split; [done|]. by constructor.
Qed.

Lemma cacheSettings_off now s w : cacheSettings without_cache now s [] w = (Ok tt, ([], w)).
Proof. unfold cacheSettings. by destruct (_ ==? _). Qed.
Lemma cacheSettings_on now s w :
  cacheSettings with_cache now s [] w
  = (Ok tt, ([], if S_TenantID s ==? uuid_Nil then w
                 else mkTWorld (tw_db w) (<[settingsCacheKey (S_TenantID s) := (CachedSettings s, now + cache_ttl)]> (tw_cache w)))).
Proof. unfold cacheSettings. by destruct (_ ==? _). Qed.

(** Storing the settings of a row repairs its key. *)
Lemma sim_cacheSettings {B} now r (b : B) d c c' :
  tenant_ok d → r ∈ settings d →
  coherent_but (λ k, k = settingsCacheKey (st_tenant r) ∧ st_tenant r ≠ uuid_Nil) d c →
  ∃ v wc' wu', (cacheSettings with_cache now (settingsFrom r) ;; mret b) [] (mkTWorld d c) = (v, ([], wc'))
    ∧ (cacheSettings without_cache now (settingsFrom r) ;; mret (M:=TM) b) [] (mkTWorld d c') = (v, ([], wu'))
    ∧ matched wc' wu'.
Proof.
  intros Hd Hr Hc. rewrite !bind_eq, cacheSettings_off, cacheSettings_on. do 3 eexists. split; [done|]. split; [done|].
  cbn [S_TenantID settingsFrom]. destruct (st_tenant r ==? uuid_Nil) eqn:En; constructor; try done; bsimpl.
  - intros k v e Hk. destruct (Hc k v e Hk) as [[_ Hnil]|]; [done|by right].
  - eapply coherent_repair; [|exact Hc|]; [by intros k [-> _]|]. right. eauto 10.
Qed.

Lemma coherent_weaken (bad : string -> Prop) d c : coherent_but (λ _, False) d c → coherent_but bad d c.
Proof. intros Hc k v e Hk. destruct (Hc k v e Hk); [done|by right]. Qed.

Lemma sim_load_settings now t : sim (load_settings with_cache now t) (load_settings without_cache now t).
Proof.
  apply sim_write; [apply quiet_tenant_tx|apply commits_tenant_tx|]. intros d c c' a d' Hd Hc.
  rewrite run_tenant_tx. unfold reading, GetTenantSettings, or_no_rows. destruct (head _) as [r|] eqn:E; [|done].
  intros [= <- <-]. apply head_sel_Some in E as [_ Hr]. apply sim_cacheSettings; [done..|]. by apply coherent_weaken.
Qed.

Lemma sim_Settings x t : sim (TRepository_Settings with_cache x t) (TRepository_Settings without_cache x t).
Proof.
  intros wc wu Hw. unfold TRepository_Settings, cache_get. cbn [cache_on with_cache without_cache].
  rewrite !bind_eq. cbn [pop mret io_mret io_ret option_map].
  destruct (live _ _ _) as [v|] eqn:El; cbn [option_map]; [|by apply sim_load_settings].
  destruct (S_TenantID (as_settings v) ==? t); [|by apply sim_load_settings].
  destruct Hw as [E Hok Hc]. destruct (coherent_settings wc _ t v Hok Hc El) as (r & Hr & <- & Hv).
  exists (Ok (as_settings v)), wc, wu. split; [done|]. split; [|by constructor].
  unfold load_settings. rewrite bind_eq, tdb_quiet by apply quiet_tenant_tx. rewrite run_tenant_tx. rewrite <- E.
  unfold reading, GetTenantSettings.
  rewrite (head_sel_unique st_tenant _ _ r); [|apply Hok| |done|].
  - cbn [or_no_rows fst snd]. rewrite bind_eq, cacheSettings_off, Hv. by destruct wu; cbn in E; subst.
  - intros y Hy. unfold rls in Hy. by bsimpl.
  - unfold rls. by rewrite bool_decide_refl.
Qed.

Lemma sim_UpdateSettings now t s :
  sim (TRepository_UpdateSettings with_cache now t s) (TRepository_UpdateSettings without_cache now t s).
Proof.
  apply sim_write; [apply quiet_tenant_tx|apply commits_tenant_tx|]. intros d c c' a d' Hd Hc. rewrite run_tenant_tx.
  destruct (UpdateTenantSettings _ _ _) as [[a' d'']|] eqn:Eu; [|done]. intros [= -> ->].
  apply configure_command in Eu as (-> & Hs & Hx); [|done].
  destruct (configure_coherent _ _ _ _ Hc Hx) as [Hc' Hin]. apply sim_cacheSettings; [by eapply exec_ok|done..].
Qed.

Lemma sim_CreateTenant id now after name s :
  sim (TRepository_CreateTenant with_cache id now after name s) (TRepository_CreateTenant without_cache id now after name s).
Proof.
  apply sim_write; [apply det_quiet, det_WithTx, det_create_tenant|apply commits_WithTx, det_create_tenant|].
  intros d c c' a d' Hd Hc Hr. destruct (open_command _ _ _ _ _ _ _ Hr) as (-> & Hs & Hx).
  apply sim_cacheSettings; [by eapply exec_ok| |by eapply coherent_weaken, open_coherent].
  cbn [exec] in Hx. case_match; [done|]. injection Hx as <-. cbn. set_solver.
Qed.

Lemma sim_invalidate l d c c' b :
  tenant_ok d → coherent_but (λ k, k ∈ map domainCacheKey l) d c →
  ∃ v wc' wu', (invalidate_all with_cache l ;; mret (M:=TM) (b : Tenant)) [] (mkTWorld d c) = (v, ([], wc'))
    ∧ (invalidate_all without_cache l ;; mret (M:=TM) b) [] (mkTWorld d c') = (v, ([], wu')) ∧ matched wc' wu'.
Proof.
  intros Hd. revert c. induction l as [|h l IH]; intros c Hc.
  - exists (Ok b), (mkTWorld d c), (mkTWorld d c'). split; [done|]. split; [done|]. constructor; [done..|].
    intros k v e Hk. destruct (Hc k v e Hk) as [Hin%elem_of_nil|]; [done|by right].
  - destruct (IH (delete (domainCacheKey h) c)) as (v & wc' & wu' & E1 & E2 & Hw).
    { apply coherent_delete. intros k v e Hk. destruct (Hc k v e Hk) as [Hin|]; [|by right]. left. cbn in Hin. set_solver. }
    exists v, wc', wu'. split; [|split; [|done]].
    + rewrite <- E1. done.
    + rewrite <- E2. done.
Qed.

Lemma sim_SetTenantStatus id now t status actor requestID :
  valid_status status = true →
  sim (TRepository_SetTenantStatus with_cache id now t status actor requestID)
    (TRepository_SetTenantStatus without_cache id now t status actor requestID).
Proof.
  intros Hv. apply sim_write; [apply det_quiet, det_WithTx, det_set_status|apply commits_WithTx, det_set_status|].
  intros d c c' [row hostnames] d' Hd Hc Hr. destruct (status_command _ _ _ _ _ _ _ _ _ Hv Hr) as (El & Hs & Hx).
  cbn [snd] in El. subst hostnames. apply sim_invalidate; [by eapply exec_ok|]. by eapply status_coherent.
Qed.

Lemma sim_CreateDomain id now t host kind hash :
  sim (TRepository_CreateDomain id now t host kind hash) (TRepository_CreateDomain id now t host kind hash).
Proof.
  unfold TRepository_CreateDomain. apply sim_bind.
  { apply sim_read.
    - unfold activeTenant, pool_GetTenant. apply quiet_bind; [apply quiet_read|]. intros r. by case_match.
    - unfold activeTenant, pool_GetTenant. apply step_in_bind; [apply _|apply readonly_read|]. intros r. solve_step. }
  intros _. apply sim_write; [apply quiet_tenant_tx|apply commits_tenant_tx|]. intros d c c' a d' Hd Hc.
  rewrite run_tenant_tx. destruct (CreateTenantDomain _ _ _ _ _ _ _ _) as [[a' d'']|] eqn:Eu; [|done]. intros [= -> ->].
  apply register_command in Eu as (_ & Hs & Hx). do 3 eexists. split; [done|]. split; [done|].
  constructor; cbn; [done|by eapply exec_ok|by eapply register_coherent].
Qed.

(** A change of a domain and the invalidation of its hostname. *)
Lemma sim_change_domain t id q f :
  (∀ r, dm_id (f r) = dm_id r ∧ dm_host (f r) = dm_host r ∧ dm_tenant (f r) = dm_tenant r) →
  (∀ d r, domain_ok r → q d r = true → domain_ok (f r)) →
  sim (change_domain with_cache t (λ tx d, update_domain tx t id (q d) f d))
    (change_domain without_cache t (λ tx d, update_domain tx t id (q d) f d)).
Proof.
  intros Hf Hq. apply sim_write; [apply quiet_tenant_tx|apply commits_tenant_tx|]. intros d c c' a d' Hd Hc.
  rewrite run_tenant_tx. destruct (update_domain _ _ _ _ _ _) as [[a' d'']|] eqn:Eu; [|done]. intros [= -> ->].
  apply change_command in Eu as (r & Hr & -> & Hx); [|done]. do 3 eexists. split; [done|]. split; [done|].
  constructor; cbn; [done|by apply (change_ok t id (q d) f d); [|..|apply Hq|]|]. destruct (Hf r) as (_ & -> & _).
  apply coherent_delete. by eapply change_coherent.
Qed.

(** *** Use cases *)

Section UseCases.
Context (allow : bool).
Abbreviation sc := (mkTenantService with_cache allow).
Abbreviation su := (mkTenantService without_cache allow).

Lemma sim_with_id {A} bad v (k k' : uuid -> TApp A) :
  (∀ t, sim (k t) (k' t)) → sim (with_id bad v k) (with_id bad v k').
Proof. intros Hk. unfold with_id. destruct (uuid_Parse v); [apply Hk|apply sim_fail]. Qed.
Lemma sim_parseIDs {A} v v' (k k' : uuid -> uuid -> TApp A) :
  (∀ t id, sim (k t id) (k' t id)) → sim (parseIDs v v' k) (parseIDs v v' k').
Proof. intros Hk. apply sim_with_id. intros t. apply sim_with_id. auto. Qed.

Lemma sim_Resolve x v : sim (Tenant_Resolve sc x v) (Tenant_Resolve su x v).
Proof.
  unfold Tenant_Resolve. cbn [ts_allowLocalhost ts_repo]. destruct (NormalizeHostname v allow) as [h|] eqn:E; [|apply sim_fail].
  apply sim_calling, sim_ResolveDomain. by eapply NormalizeHostname_plain.
Qed.
Lemma sim_TLSAuthorized x v : sim (Tenant_TLSAuthorized sc x v) (Tenant_TLSAuthorized su x v).
Proof.
  unfold Tenant_TLSAuthorized. cbn [ts_allowLocalhost ts_repo].
  destruct (NormalizeHostname v allow) as [h|] eqn:E; [|apply sim_ret].
  apply sim_bind; [by eapply sim_attempt, sim_ResolveDomain, NormalizeHostname_plain|].
  intros [r|[]]; apply sim_ret || apply sim_fail.
Qed.
Lemma sim_Tenant_Settings x v : sim (Tenant_Settings sc x v) (Tenant_Settings su x v).
Proof. apply sim_with_id. intros t. apply sim_calling, sim_Settings. Qed.
Lemma sim_Tenant_UpdateSettings x v i : sim (Tenant_UpdateSettings sc x v i) (Tenant_UpdateSettings su x v i).
Proof.
  apply sim_with_id. intros t. apply sim_bind; [apply sim_calling, sim_Settings|]. intros cur.
  destruct (mergeSettings cur i); [apply sim_calling, sim_UpdateSettings|apply sim_fail].
Qed.
Lemma sim_Tenant_CreateTenant x i : sim (Tenant_CreateTenant sc x i) (Tenant_CreateTenant su x i).
Proof.
  unfold Tenant_CreateTenant. cbv zeta. destruct (_ || _); [apply sim_fail|].
  destruct (normalizeSettings _); [apply sim_calling, sim_CreateTenant|apply sim_fail].
Qed.
Lemma sim_Tenant_Tenant x v : sim (Tenant_Tenant sc x v) (Tenant_Tenant su x v).
Proof.
  apply sim_with_id. intros t. apply sim_calling, sim_bind; [apply sim_pool_read|]. intros r.
  apply sim_bind; [apply sim_Settings|]. intros s. apply sim_ret.
Qed.
Lemma sim_Tenant_Tenants : sim Tenant_Tenants Tenant_Tenants.
Proof.
  apply sim_calling, sim_read; [|apply step_in_autocommit; [apply _|by intros ??? [= _ <-]]]. by intros d.
Qed.
Lemma sim_Tenant_SetTenantStatus x v status actor id :
  sim (Tenant_SetTenantStatus sc x v status actor id) (Tenant_SetTenantStatus su x v status actor id).
Proof.
  apply sim_with_id. intros t. destruct (_ || _) eqn:E; [apply sim_fail|].
  apply orb_false_iff in E as [E _]. apply orb_false_iff in E as [E _]. bsimpl. by apply sim_calling, sim_SetTenantStatus.
Qed.
Lemma sim_PlatformAudit t : sim (TRepository_PlatformAudit t) (TRepository_PlatformAudit t).
Proof. apply sim_read; [by intros d|apply step_in_autocommit; [apply _|by intros ??? [= _ <-]]]. Qed.
Lemma sim_Tenant_PlatformAudit v : sim (Tenant_PlatformAudit v) (Tenant_PlatformAudit v).
Proof.
  unfold Tenant_PlatformAudit. destruct (_ ==? _); [apply sim_calling, sim_PlatformAudit|].
  apply sim_with_id. intros t. apply sim_calling, sim_PlatformAudit.
Qed.
Lemma sim_Tenant_CreateDomain x v i : sim (Tenant_CreateDomain sc x v i) (Tenant_CreateDomain su x v i).
Proof.
  apply sim_with_id. intros t. cbn [ts_allowLocalhost]. destruct (NormalizeHostname _ _); [|apply sim_fail].
  destruct (negb _); [apply sim_fail|]. destruct (verificationToken x); [|apply sim_fail].
  apply sim_bind; [apply sim_calling, sim_CreateDomain|]. intros d. apply sim_ret.
Qed.
Lemma sim_Tenant_Domains v : sim (Tenant_Domains v) (Tenant_Domains v).
Proof.
  apply sim_with_id. intros t. apply sim_calling, sim_bind; [apply sim_pool_read|]. intros _.
  apply sim_bind; [apply (sim_tenant_read t (λ tx d, Ok (ListTenantDomains tx t d)))|]. intros l. apply sim_ret.
Qed.
Lemma sim_Domain t id : sim (TRepository_Domain t id) (TRepository_Domain t id).
Proof. apply sim_bind; [apply (sim_tenant_read t (λ tx, GetTenantDomain tx t id))|]. intros r. apply sim_ret. Qed.

(** The four changes of a domain. *)
Lemma sim_domain_changes now t id :
  sim (TRepository_MarkVerificationSucceeded with_cache now t id) (TRepository_MarkVerificationSucceeded without_cache now t id) ∧
  sim (TRepository_MarkVerificationFailed with_cache now t id) (TRepository_MarkVerificationFailed without_cache now t id) ∧
  sim (TRepository_ActivateDomain with_cache now t id) (TRepository_ActivateDomain without_cache now t id) ∧
  sim (TRepository_DeactivateDomain with_cache now t id) (TRepository_DeactivateDomain without_cache now t id).
Proof.
  split; [|split; [|split]].
  - apply (sim_change_domain t id (λ _, every) (verified now)); [done|]. intros d r Hr _. by apply domain_changes_ok.
  - apply (sim_change_domain t id (λ _ r, negb (dm_verified r)) (failed now)); [done|].
    intros d r Hr Hv. apply domain_changes_ok; [done|]. by bsimpl.
  - apply (sim_change_domain t id
      (λ d r, existsb (λ x, (tn_id x ==? dm_tenant r) && tenant_live x) (tenants d) && dm_verified r) (activated now)); [done|].
    intros d r Hr Hv. apply domain_changes_ok; [done|]. by bsimpl.
  - apply (sim_change_domain t id (λ _, every) (deactivated now)); [done|]. intros d r Hr _. by apply domain_changes_ok.
Qed.

Lemma sim_Tenant_VerifyDomain x v v' : sim (Tenant_VerifyDomain sc x v v') (Tenant_VerifyDomain su x v v').
Proof.
  apply sim_parseIDs. intros t id. destruct (sim_domain_changes (td_now x) t id) as (Hs & Hf & _).
  apply sim_bind.
  { apply sim_calling, sim_bind; [apply (sim_tenant_read t (λ tx, GetTenantDomainForVerification tx t id))|].
    intros r. apply sim_ret. }
  intros c. destruct (Td_Verified _); [apply sim_ret|]. destruct (_ ==? _); [apply sim_fail|].
  destruct (dns_confirms x c); [by apply sim_calling|]. apply sim_bind; [by apply sim_attempt|].
  intros [d|[]]; try apply sim_fail. apply sim_bind; [apply sim_attempt, sim_Domain|].
  intros [d|e]; [destruct (Td_Verified d); [apply sim_ret|apply sim_fail]|apply sim_fail].
Qed.
Lemma sim_Tenant_ActivateDomain x v v' : sim (Tenant_ActivateDomain sc x v v') (Tenant_ActivateDomain su x v v').
Proof.
  apply sim_parseIDs. intros t id. apply sim_bind; [apply sim_calling, sim_Domain|]. intros d.
  destruct (negb _); [apply sim_fail|apply sim_calling, sim_domain_changes].
Qed.
Lemma sim_Tenant_DeactivateDomain x v v' : sim (Tenant_DeactivateDomain sc x v v') (Tenant_DeactivateDomain su x v v').
Proof. apply sim_parseIDs. intros t id. apply sim_calling, sim_domain_changes. Qed.
End UseCases.

(** *** Requests *)

(** A handler with its repository exchanged. *)
Definition on_repository (r : TenantRepository) (h : TenantHandler) : TenantHandler :=
  mkTenantHandler (mkTenantService r (ts_allowLocalhost (th_service h))) (th_verify h) (th_token h).

Lemma sim_reply {A} (m m' : TApp A) fail ok : sim m m' → sim (t_reply m fail ok) (t_reply m' fail ok).
Proof. intros Hm. apply sim_bind; [by apply sim_attempt|]. intros v. apply sim_ret. Qed.
Lemma sim_internal {B} h h' (r : Request B) m m' :
  th_verify h = th_verify h' → sim m m' → sim (internal_only h r m) (internal_only h' r m').
Proof.
  intros E Hm. unfold internal_only, internal. rewrite E. destruct (Verify _ _); [exact Hm|apply sim_ret].
Qed.
Lemma sim_context {B} (r : Request B) k k' : (∀ t, sim (k t) (k' t)) → sim (with_context r k) (with_context r k').
Proof. intros Hk. unfold with_context. destruct (tenantctx_New _ _ _); [apply Hk|apply sim_ret]. Qed.

Lemma adminContext_on {B} r h x (q : Request B) b : adminContext (on_repository r h) x q b = adminContext h x q b.
Proof. done. Qed.

#[local] Hint Resolve sim_Resolve sim_TLSAuthorized sim_Tenant_Settings sim_Tenant_UpdateSettings sim_Tenant_CreateTenant
  sim_Tenant_Tenant sim_Tenant_Tenants sim_Tenant_SetTenantStatus sim_Tenant_PlatformAudit sim_Tenant_CreateDomain
  sim_Tenant_Domains sim_Tenant_VerifyDomain sim_Tenant_ActivateDomain sim_Tenant_DeactivateDomain : barber.

Lemma sim_serve h x route :
  sim (tn_serve (on_repository with_cache h) x route) (tn_serve (on_repository without_cache h) x route).
Proof.
  destruct route; cbn [tn_serve].
  6: { unfold th_updateAdminSettings. rewrite !adminContext_on.
    destruct (adminContext _ _ _ _) as [t|[]]; [|apply sim_ret..]. destruct (Body r); [|apply sim_ret].
    apply sim_reply; cbn [th_service on_repository]; auto with barber nocore. }
  5: { unfold th_adminSettings. rewrite !adminContext_on.
    destruct (adminContext _ _ _ _) as [t|[]]; [|apply sim_ret..]. apply sim_reply; cbn [th_service on_repository]; auto with barber nocore. }
  all: apply sim_internal; [done|]; try apply sim_context; intros; try (apply sim_reply; cbn [th_service on_repository]; auto with barber nocore; fail).
  - cbv zeta. case_match; [apply sim_ret|]. apply sim_reply; cbn [th_service on_repository]; auto with barber nocore.
  - apply sim_reply, sim_bind; [cbn [th_service on_repository]; auto with barber nocore|]. intros s. apply sim_bind; [cbn [th_service on_repository]; auto with barber nocore|].
    intros t0. apply sim_ret.
  - destruct (Body r); [|apply sim_ret]. apply sim_reply; cbn [th_service on_repository]; auto with barber nocore.
  - destruct (Body r); [|apply sim_ret]. apply sim_reply; cbn [th_service on_repository]; auto with barber nocore.
Qed.

(** Requests served one after the other, without failures. *)
Fixpoint replay (h : TenantHandler) (l : list (tdraw * tenant_route)) (w : tworld)
  : list (res tapp_error (Response tenant_json)) * tworld :=
  match l with
  | [] => ([], w)
  | (x, route) :: rest =>
      let '(v, w') := run (tn_serve h x route) w in
      let '(vs, w'') := replay h rest w' in (v :: vs, w'')
  end.

Lemma replay_matched h l wc wu :
  matched wc wu →
  let cached := replay (on_repository with_cache h) l wc in
  let direct := replay (on_repository without_cache h) l wu in
  cached.1 = direct.1 ∧ matched cached.2 direct.2.
Proof.
  cbv zeta. revert wc wu. induction l as [|[x route] l IH]; intros wc wu Hw; [done|].
  cbn [replay]. destruct (sim_serve h x route wc wu Hw) as (v & wc' & wu' & E1 & E2 & Hw').
  unfold run. rewrite E1, E2. specialize (IH wc' wu' Hw'). destruct (replay _ l wc') as [vs1 w1].
  destruct (replay _ l wu') as [vs2 w2]. cbn in *. by destruct IH as (-> & ?).
Qed.

(** C20: The cache of the tenant service is invisible: without failures, any
    sequence of requests served one after the other gets from the service with
    a Redis cache the answers of the service without one, and leaves the same
    tables, when the cache holds nothing at first (or nothing but what the
    tables say), whatever the clocks of the requests are.  So every change of
    a domain, of a status and of the settings evicts or replaces the entries it
    makes wrong. *)
Theorem cache_invisible h l w :
  tenant_ok (tw_db w) → coherent w →
  let cached := replay (on_repository with_cache h) l w in
  let direct := replay (on_repository without_cache h) l w in
  cached.1 = direct.1 ∧ tw_db cached.2 = tw_db direct.2 ∧ coherent cached.2.
Proof.
  intros Hok Hc. cbv zeta. destruct (replay_matched h l w w) as (E & [Ed Ho Hc']); [by constructor|]. done.
Qed.
End Coherence.
