(* ===== verification/TenantSettings.v ===== *)
(** * TenantSettings: the settings of a tenant

    What the service accepts is what the table accepts, an update changes the
    named settings and no others when the cache is right, and undoes another
    update when it is not. *)
From S2P Require Import Prelude Effects GoTime Http Platform Accounts Tenant TenantRegistry TenantCache.

Local Open Scope Z_scope.

Section Settings.
Context `{GoLib}.

(** ** Validation *)

Lemma offsets_ok_iff seen l :
  offsets_ok seen l = true ↔ Forall (λ o, 1 <= o <= 10080) l ∧ NoDup l ∧ ∀ o, o ∈ l → o ∉ seen.
Proof.
  revert seen. induction l as [|o l IH]; intros seen; cbn.
  { split; [|done]. intros _. split; [constructor|]. split; [constructor|]. by intros o ?%elem_of_nil. }
  rewrite Forall_cons, NoDup_cons. destruct (_ || _) eqn:E1.
  { split; [done|]. intros [[? _] _]. apply orb_true_iff in E1 as [E1|E1]; bsimpl; lia. }
  apply orb_false_iff in E1 as [E1 E1']. bsimpl. destruct (decide (o ∈ seen)) as [Hs|Hs].
  { rewrite bool_decide_true by done. split; [done|]. intros (_ & _ & Hn). by destruct (Hn o); [set_solver|]. }
  rewrite bool_decide_false by done. rewrite IH. split.
  - intros (Hf & Hnd & Hn). split; [split; [lia|done]|]. split; [split; [|done]; intros Hin; apply (Hn o Hin); set_solver|].
    intros o' [->|Ho']%elem_of_cons; [done|]. specialize (Hn o' Ho'). set_solver.
  - intros ([_ Hf] & [Hno Hnd] & Hn). split; [done|]. split; [done|]. intros o' Ho'.
    assert (o' ≠ o) by (by intros ->). specialize (Hn o'). set_solver.
Qed.

Definition timezone_ok (tz : string) : Prop :=
  TrimSpace tz = tz ∧ tz ≠ EmptyString ∧ tz ≠ "Local"%string ∧ LoadLocation tz ≠ None ∧ text_ok tz = true.

Lemma int32_small x : 0 <= x <= 10080 → int32 x = x.
Proof. intros Hx. unfold int32. rewrite Z.mod_small; lia. Qed.

Lemma ints_small l : Forall (λ o, 1 <= o <= 10080) l → map int32 l = l.
Proof. induction 1 as [|o l Ho _ IH]; [done|]. cbn. rewrite IH, int32_small by lia. done. Qed.

Definition set_tenant (t : uuid) (s : Settings) : Settings :=
  mkSettings t (S_Timezone s) (S_Interval s) (S_Offsets s) (S_Policy s) (S_CancelNotice s) (S_Horizon s) (S_MinNotice s).

(** What the service accepts satisfies the constraints of the table, and its
    numbers survive the conversion to 32 bits. *)
Lemma validateSettings_sound t s s' :
  validateSettings s = Some s' →
  s' = set_timezone (TrimSpace (S_Timezone s)) s ∧ LoadLocation (S_Timezone s') ≠ None ∧
  settings_check (settings_params t s') = true ∧ settingsFrom (settings_params t s') = set_tenant t s' ∧
  text_ok (S_Policy s') = true.
Proof.
  unfold validateSettings. cbv zeta. remember (set_timezone (TrimSpace (S_Timezone s)) s) as s1 eqn:Es1. destruct ((S_Timezone s1 ==? _) || _); [done|].
  destruct (LoadLocation (S_Timezone s1)) as [z|] eqn:El; [|done]. destruct ((S_Interval s1 <? 1) || _) eqn:E1; [done|].
  destruct (len (S_Offsets s1) =? 0)%nat eqn:E2; [done|]. destruct (offsets_ok ∅ _) eqn:E3; cbn [negb]; [|done].
  destruct (_ && _) eqn:E4; [done|]. destruct ((S_CancelNotice s1 <? 0) || _) eqn:E5; [done|].
  destruct ((S_Horizon s1 <? 1) || _) eqn:E6; [done|]. destruct ((S_MinNotice s1 <? 0) || _) eqn:E7; [done|].
  intros [= <-]. apply orb_false_iff in E1, E5, E6, E7. bsimpl.
  destruct (S_Offsets s1) as [l|] eqn:Eo; [|done]. cbn in E2, E3. apply offsets_ok_iff in E3 as (Hf & Hnd & _).
  assert (valid_policy (S_Policy s1) = true) as Hp by (unfold valid_policy; by destruct (S_Policy s1 ==? _), (S_Policy s1 ==? _)).
  split; [done|]. split; [by rewrite El|].
  assert (settings_params t s1 = mkSettingsRow t (S_Timezone s1) (S_Interval s1) l (S_Policy s1) (S_CancelNotice s1)
            (S_Horizon s1) (S_MinNotice s1)) as ->.
  { unfold settings_params. rewrite Eo. cbn. rewrite ints_small, !int32_small by (done || lia). done. }
  split; [|split; [unfold settingsFrom, set_tenant; cbn; by rewrite Eo|]].
  - unfold settings_check, between, integer_array_is_unique. cbn. rewrite E2, Hp, (bool_decide_true (NoDup l)) by done.
    assert (∀ a b x, a <= x <= b → (a <=? x) && (x <=? b) = true) as Hb by (intros; bsimpl; lia).
    rewrite !Hb by lia. cbn. assert (forallb (λ o, 0 <? o) l = true ∧ forallb (λ o, o <=? 10080) l = true) as [-> ->]; [|done].
    split; apply forallb_forall; intros o Ho%list_elem_of_In; rewrite Forall_forall in Hf; specialize (Hf o Ho); bsimpl; lia.
  - unfold valid_policy in Hp. by apply orb_true_iff in Hp as [Hp|Hp]; bsimpl; rewrite Hp.
Qed.

(** A new tenant never starts with a notice of zero, although the table and the
    validation allow it: an explicit zero is taken for a missing value. *)
Lemma new_tenant_notices s s' : normalizeSettings s = Some s' → S_CancelNotice s' ≠ 0 ∧ S_MinNotice s' ≠ 0.
Proof.
  unfold normalizeSettings. cbv zeta. intros (-> & _)%(validateSettings_sound 0). cbn. unfold or_number.
  split; destruct (_ =? 0) eqn:E; zeqs; done.
Qed.

(** What the table holds is accepted. *)
Lemma validateSettings_complete r :
  settings_check r = true → timezone_ok (st_timezone r) → validateSettings (settingsFrom r) = Some (settingsFrom r).
Proof.
  intros Hc (Ht & Hne & Hlo & Hz & _). unfold validateSettings. cbn [S_Timezone settingsFrom]. rewrite Ht. cbv zeta.
  change (set_timezone (st_timezone r) (settingsFrom r)) with (settingsFrom r).
  unfold settings_check, between, integer_array_is_unique in Hc.
  rewrite !andb_true_iff in Hc. destruct Hc as [[[[[[[[Hi Ho] Hp] Hq] Hu] Hpol] Hcn] Hh] Hm].
  assert (offsets_ok ∅ (st_offsets r) = true) as Hoff.
  { apply offsets_ok_iff. rewrite forallb_forall in Hp, Hq. bsimpl. split; [|split; [done|set_solver]].
    apply Forall_forall. intros o Hin%list_elem_of_In. specialize (Hp o Hin). specialize (Hq o Hin). bsimpl. lia. }
  cbn. rewrite (bool_decide_false (st_timezone r = _)), (bool_decide_false (st_timezone r = "Local"%string)) by done. cbn.
  destruct (LoadLocation _); [|done]. cbn in Hoff. rewrite Hoff. cbn.
  assert (∀ a b x, (a <=? x) = true ∧ (x <=? b) = true → (x <? a) || (b <? x) = false) as Hb by (intros; bsimpl; lia).
  rewrite (Hb 1 120 (st_interval r)), (Hb 0 10080 (st_cancel r)), (Hb 1 365 (st_horizon r)), (Hb 0 10080 (st_minimum r)) by done.
  apply negb_true_iff in Ho. rewrite Ho.
  unfold valid_policy in Hpol. by destruct (st_policy r ==? _), (st_policy r ==? _).
Qed.
End Settings.

(** ** Updates *)

Definition patch_interval (i : Z) : UpdateSettingsInput := mkUpdateSettingsInput None (Some i) None None None None.
Definition patch_horizon (n : Z) : UpdateSettingsInput := mkUpdateSettingsInput None None None None (Some n) None.
Definition with_interval (i : Z) (r : settings_row) : settings_row :=
  mkSettingsRow (st_tenant r) (st_timezone r) i (st_offsets r) (st_policy r) (st_cancel r) (st_horizon r) (st_minimum r).
Definition with_horizon (n : Z) (r : settings_row) : settings_row :=
  mkSettingsRow (st_tenant r) (st_timezone r) (st_interval r) (st_offsets r) (st_policy r) (st_cancel r) n (st_minimum r).

(** The stored settings of a tenant. *)
Definition stored (t : uuid) (d : tenantdb) : option settings_row := head (sel (λ r, st_tenant r ==? t) (settings d)).

Section Updates.
Context `{GoLib, AccountLib, !GoLibLaws}.

Lemma settings_check_fields r :
  settings_check r = true →
  between 1 120 (st_interval r) = true ∧ Forall (λ o, 1 <= o <= 10080) (st_offsets r) ∧ between 0 10080 (st_cancel r) = true ∧
  between 1 365 (st_horizon r) = true ∧ between 0 10080 (st_minimum r) = true ∧ valid_policy (st_policy r) = true.
Proof.
  unfold settings_check. rewrite !andb_true_iff. intros [[[[[[[[Hi Ho] Hp] Hq] Hu] Hpol] Hcn] Hh] Hm].
  split; [done|]. split; [|done]. rewrite forallb_forall in Hp, Hq. apply Forall_forall. intros o Hin%list_elem_of_In.
  specialize (Hp o Hin). specialize (Hq o Hin). bsimpl. lia.
Qed.

(** A valid row survives the way through the service. *)
Lemma settings_params_row r : settings_check r = true → settings_params (st_tenant r) (settingsFrom r) = r.
Proof.
  intros (Hi & Ho & Hc & Hh & Hm & _)%settings_check_fields. unfold settings_params, settingsFrom, between in *. cbn. bsimpl.
  rewrite ints_small by done. rewrite !int32_small by lia. by destruct r.
Qed.

Lemma merge_interval i r :
  settings_check r = true → timezone_ok (st_timezone r) → 1 <= i <= 120 →
  mergeSettings (settingsFrom r) (patch_interval i) = Some (settingsFrom (with_interval i r)) ∧
  settings_check (with_interval i r) = true.
Proof.
  intros Hc Ht Hi. assert (settings_check (with_interval i r) = true) as Hc'.
  { unfold settings_check in *. rewrite !andb_true_iff in *. cbn. assert (between 1 120 i = true) by (unfold between; bsimpl; lia).
    tauto. }
  split; [|done]. by apply (validateSettings_complete (with_interval i r)).
Qed.
Lemma merge_horizon n r :
  settings_check r = true → timezone_ok (st_timezone r) → 1 <= n <= 365 →
  mergeSettings (settingsFrom r) (patch_horizon n) = Some (settingsFrom (with_horizon n r)) ∧
  settings_check (with_horizon n r) = true.
Proof.
  intros Hc Ht Hi. assert (settings_check (with_horizon n r) = true) as Hc'.
  { unfold settings_check in *. rewrite !andb_true_iff in *. cbn. assert (between 1 365 n = true) by (unfold between; bsimpl; lia).
    tauto. }
  split; [|done]. by apply (validateSettings_complete (with_horizon n r)).
Qed.

(** The UPDATE of a valid row of a tenant that has settings. *)
Lemma update_row t r r' d :
  stored t d = Some r → st_tenant r' = t → settings_check r' = true → timezone_ok (st_timezone r') →
  ∃ d', UpdateTenantSettings t r' d = Ok (r', d') ∧ stored t d' = Some r'.
Proof.
  intros Hs Et Hc (_ & _ & _ & _ & Htext). unfold stored in *.
  assert (text_ok (st_policy r') = true) as Hp.
  { apply settings_check_fields in Hc as (_ & _ & _ & _ & _ & Hp). unfold valid_policy in Hp.
    by apply orb_true_iff in Hp as [Hp|Hp]; bsimpl; rewrite Hp. }
  unfold UpdateTenantSettings, settings_text_ok. rewrite Htext, Hp. cbn [andb negb]. cbv zeta.
  assert (∀ x, rls st_tenant t (λ x, st_tenant x ==? st_tenant r') x = (st_tenant x ==? t)) as Hr.
  { intros x. unfold rls. rewrite Et. by destruct (st_tenant x ==? t). }
  assert (sel (rls st_tenant t (λ x, st_tenant x ==? st_tenant r')) (settings d) = sel (λ x, st_tenant x ==? t) (settings d)) as ->
    by (apply filter_ext; done).
  destruct (sel (λ x, st_tenant x ==? t) (settings d)) as [|x rest] eqn:E; [done|]. rewrite Hc. eexists. split; [done|].
  cbn [settings set_settings]. assert (upd (rls st_tenant t (λ x, st_tenant x ==? st_tenant r')) (λ _, r') (settings d)
    = upd (λ x, st_tenant x ==? t) (λ _, r') (settings d)) as -> by (apply map_ext; intros y; by rewrite Hr).
  rewrite head_sel_upd, E; [done|]. intros y _. rewrite Et. apply bool_decide_refl.
Qed.

(** A script that lets the first [n] statements succeed. *)
Definition good_for (n : nat) (fs fs' : list fault) : Prop := fs = replicate n FOk ++ fs' ∨ fs = [] ∧ fs' = [].

Lemma good_pop n fs fs' : good_for (S n) fs fs' → ∃ fs1, pop fs = (FOk, fs1) ∧ good_for n fs1 fs'.
Proof. intros [->|[-> ->]]; eexists; (split; [done|]); [by left|by right]. Qed.
Lemma good_done fs fs' : good_for 0 fs fs' → fs = fs'.
Proof. by intros [->|[-> ->]]. Qed.

Lemma tenant_tx_good {A} t (f : uuid -> tenantdb -> res pg_error (A * tenantdb)) fs fs' d a d' :
  good_for 4 fs fs' → f t d = Ok (a, d') → tenant_tx t f fs d = (Ok a, (fs', d')).
Proof.
  intros (fs1 & E1 & (fs2 & E2 & (fs3 & E3 & (fs4 & E4 & ->%good_done)%good_pop)%good_pop)%good_pop)%good_pop Hf.
  unfold tenant_tx. unfold calling at 1. rewrite attempt_bind. unfold WithTenantTx. rewrite E1, E2.
  unfold calling. rewrite attempt_bind. unfold stmt. rewrite E3, Hf. unfold mret, io_mret, io_ret. cbn. by rewrite E4.
Qed.

(** An update that finds the settings in the cache; [fs'] decides what happens
    to the SET at its end. *)
Lemma update_from_cache s x t input c r r' fs fs' w :
  cache_on (ts_repo s) = true →
  live (st_get (td_first x)) (settingsCacheKey t) (tw_cache w) = Some (CachedSettings c) → S_TenantID c = t →
  mergeSettings c input = Some (settingsFrom r') → st_tenant r' = t → settings_check r' = true →
  timezone_ok (st_timezone r') → stored t (tw_db w) = Some r → good_for 5 fs fs' →
  ∃ d', stored t d' = Some r' ∧
    Tenant_UpdateSettings s x (uuid_String t) input fs w
    = (Ok (settingsFrom r'),
       (cacheSettings (ts_repo s) (st_set (td_second x)) (settingsFrom r') fs' (mkTWorld d' (tw_cache w))).2).
Proof.
  intros Hon Hl Ec Hm Et Hc Htz Hs (fs1 & Ep & Hfs)%good_pop.
  destruct (update_row t r r' (tw_db w)) as (d' & Hu & Hd'); [done..|].
  exists d'. split; [done|]. unfold Tenant_UpdateSettings, with_id. rewrite uuid_Parse_String.
  assert (TRepository_Settings (ts_repo s) (td_first x) t fs w = (Ok c, (fs1, w))) as Hread.
  { unfold TRepository_Settings, cache_get. rewrite Hon, bind_eq, Ep, Hl. cbn. by rewrite Ec, bool_decide_refl. }
  rewrite bind_eq. unfold trepo at 1, calling. rewrite attempt_bind, Hread. cbn [fst snd].
  unfold mret, io_mret, io_ret. rewrite Hm. unfold trepo, calling. rewrite attempt_bind.
  unfold TRepository_UpdateSettings. rewrite bind_eq. rewrite <- Et, (settings_params_row r') by done. rewrite Et, tdb_eq.
  erewrite (tenant_tx_good t _ fs1 fs') by done. cbn [fst snd]. rewrite bind_eq.
  unfold cacheSettings, cache_set, cache_do. rewrite Hon.
  destruct (S_TenantID _ ==? _); [done|]. by destruct (pop fs') as [[] ?].
Qed.

(** An acknowledged update of the settings can be undone.  The service
    merges a PATCH with the settings it finds in the cache: when one update
    could not write its result through to Redis, the next one (within the
    life of the old entry) answers success and stores the old value of what
    the first had changed, although its request does not name it. *)
Theorem acknowledged_update_lost s x1 x2 t r e i n w :
  cache_on (ts_repo s) = true → t ≠ uuid_Nil →
  stored t (tw_db w) = Some r → settings_check r = true → timezone_ok (st_timezone r) →
  tw_cache w !! settingsCacheKey t = Some (CachedSettings (settingsFrom r), e) →
  st_get (td_first x1) < e → st_get (td_first x2) < e → 1 <= i <= 120 → 1 <= n <= 365 →
  ∃ w1 w2,
    Tenant_UpdateSettings s x1 (uuid_String t) (patch_interval i) (replicate 5 FOk ++ [FFail]) w
      = (Ok (settingsFrom (with_interval i r)), ([], w1)) ∧
    stored t (tw_db w1) = Some (with_interval i r) ∧
    run (Tenant_UpdateSettings s x2 (uuid_String t) (patch_horizon n)) w1 = (Ok (settingsFrom (with_horizon n r)), w2) ∧
    stored t (tw_db w2) = Some (with_horizon n r).
Proof.
  intros Hon Hnil Hs Hc Htz Hk Hx1 Hx2 Hi Hn.
  assert (st_tenant r = t) as Et by (unfold stored in Hs; apply head_sel_Some in Hs as [Hs _]; by bsimpl).
  assert (∀ now, now < e → live now (settingsCacheKey t) (tw_cache w) = Some (CachedSettings (settingsFrom r))) as Hl.
  { intros now Hnow. unfold live. rewrite Hk. destruct (e <=? now) eqn:E; [|done]. bsimpl. lia. }
  destruct (merge_interval i r Hc Htz Hi) as [Hm1 Hc1]. destruct (merge_horizon n r Hc Htz Hn) as [Hm2 Hc2].
  destruct (update_from_cache s x1 t (patch_interval i) (settingsFrom r) r (with_interval i r) (replicate 5 FOk ++ [FFail])
    [FFail] w) as (d1 & Hd1 & E1); [done|by apply Hl|done..|by left|].
  destruct (update_from_cache s x2 t (patch_horizon n) (settingsFrom r) (with_interval i r) (with_horizon n r) [] []
    (mkTWorld d1 (tw_cache w))) as (d2 & Hd2 & E2); [done|by apply Hl|done..|by right|].
  exists (mkTWorld d1 (tw_cache w)). unfold run. rewrite E1, E2. unfold cacheSettings, cache_set, cache_do. rewrite Hon.
  cbn [S_TenantID settingsFrom with_interval with_horizon st_tenant]. rewrite Et, (bool_decide_false (t = uuid_Nil)) by done.
  eexists. cbn. eauto.
Qed.
End Updates.
