(* ===== verification/TenantStaleness.v ===== *)
(** * TenantStaleness: what the cache of the tenant service can get wrong

    Requests to the tenant service run concurrently and Redis can fail, so the
    cache can hold what is no longer true.  A resolution is never older than the
    time to live of an entry and the time a request takes between reading the
    tables and storing what it read; and an update of the settings can start
    from old settings and undo another. *)
From S2P Require Import Prelude Effects GoTime Http Platform Accounts Tenant TenantRegistry TenantCache.

Local Open Scope Z_scope.

(** ** Concurrent resolutions *)

(** Where a call of [ResolveDomain] is: before the look-up in the cache, before
    the query, and with the answer of the query (and the time of the query)
    before it is stored. *)
Inductive reader :=
| Looking (h : string)
| Missed (h : string)
| Fetched (h : string) (v : option DomainResolution) (at_ : time).

Record sys := mkSys { sy_now : time; sy_db : tenantdb; sy_cache : tcache; sy_readers : list reader }.

(** A hostname and what it was resolved to. *)
Definition answer : Type := time * (string * option DomainResolution).

Section Interleaving.
Context `{GoLib, AccountLib}.

(** One step of the system.  [delay] bounds the time between the query of a
    call and its answer.  The tables change by the commands of the registry;
    keys are evicted by any request, or lost; a GET and a SET can fail. *)
Inductive sys_step (delay : duration) : sys -> list answer -> sys -> Prop :=
| Tick now d c l dt : 0 <= dt → sys_step delay (mkSys now d c l) [] (mkSys (now + dt) d c l)
| Command now d c l cmd d' : exec cmd d = Some d' → sys_step delay (mkSys now d c l) [] (mkSys now d' c l)
| Evict now d c l key : sys_step delay (mkSys now d c l) [] (mkSys now d (delete key c) l)
| StoreSettings now d c l t v :
    sys_step delay (mkSys now d c l) [] (mkSys now d (<[settingsCacheKey t := (v, now + cache_ttl)]> c) l)
| Arrive now d c l h : sys_step delay (mkSys now d c l) [] (mkSys now d c (Looking h :: l))
| Hit now d c l1 l2 h v :
    live now (domainCacheKey h) c = Some v →
    sys_step delay (mkSys now d c (l1 ++ Looking h :: l2)) [(now, (h, Some (as_resolution v)))] (mkSys now d c (l1 ++ l2))
| Miss now d c l1 l2 h : sys_step delay (mkSys now d c (l1 ++ Looking h :: l2)) [] (mkSys now d c (l1 ++ Missed h :: l2))
| Fetch now d c l1 l2 h :
    sys_step delay (mkSys now d c (l1 ++ Missed h :: l2)) []
      (mkSys now d c (l1 ++ Fetched h (resolve_verified_domain h d) now :: l2))
| FetchFails now d c l1 l2 h : sys_step delay (mkSys now d c (l1 ++ Missed h :: l2)) [] (mkSys now d c (l1 ++ l2))
| Store now d c l1 l2 h v at_ :
    now <= at_ + delay →
    sys_step delay (mkSys now d c (l1 ++ Fetched h (Some v) at_ :: l2)) [(now, (h, Some v))]
      (mkSys now d (<[domainCacheKey h := (CachedResolution v, now + cache_ttl)]> c) (l1 ++ l2))
| StoreFails now d c l1 l2 h v at_ :
    now <= at_ + delay →
    sys_step delay (mkSys now d c (l1 ++ Fetched h v at_ :: l2)) [(now, (h, v))] (mkSys now d c (l1 ++ l2)).

(** The states of an execution, latest first, and the answers given. *)
Inductive execution (delay : duration) : list sys -> list answer -> Prop :=
| ex_start now d : execution delay [mkSys now d ∅ []] []
| ex_step s past out a s' :
    execution delay (s :: past) out → sys_step delay s a s' → execution delay (s' :: s :: past) (a ++ out).

(** *** A call of the code is a path of steps *)

Inductive path (delay : duration) : sys -> list answer -> sys -> Prop :=
| path_refl s : path delay s [] s
| path_step s a s' out s'' : sys_step delay s a s' → path delay s' out s'' → path delay s (a ++ out) s''.

Definition answered (now : time) (h : string) (v : res tenant_error DomainResolution) : list answer :=
  match v with
  | Ok r => [(now, (h, Some r))]
  | Err TNotFound => [(now, (h, None))]
  | Err _ => []
  end.

Lemma path_one delay s a s' : sys_step delay s a s' → path delay s a s'.
Proof. intros Hs. rewrite <- (app_nil_r a). econstructor; [exact Hs|constructor]. Qed.

Lemma path_silent delay s s' out s'' : sys_step delay s [] s' → path delay s' out s'' → path delay s out s''.
Proof. intros Hs Hp. change out with ([] ++ out). by econstructor. Qed.

(** After a miss: the query, and the answer that is stored or not. *)
Lemma path_fetch x h d c out s :
  st_get x <= st_set x →
  path (st_set x - st_get x) (mkSys (st_set x) d c [Fetched h (resolve_verified_domain h d) (st_get x)]) out s →
  path (st_set x - st_get x) (mkSys (st_get x) d c [Missed h]) out s.
Proof.
  intros Hx Hp. eapply path_silent; [apply (Fetch _ _ _ _ [] [] h)|].
  eapply path_silent; [apply (Tick _ _ _ _ _ (st_set x - st_get x)); lia|].
  by replace (st_get x + (st_set x - st_get x)) with (st_set x) by lia.
Qed.

(** The code with its faults takes the steps of a reader. *)
Lemma resolve_is_path x h fs w :
  st_get x <= st_set x → plain_host h →
  let r := TRepository_ResolveDomain with_cache x h fs w in
  ∃ now now', path (st_set x - st_get x) (mkSys (st_get x) (tw_db w) (tw_cache w) [Looking h]) (answered now h r.1)
    (mkSys now' (tw_db r.2.2) (tw_cache r.2.2) []).
Proof.
  intros Hx Hh. cbv zeta. unfold TRepository_ResolveDomain, cache_get. cbn [cache_on with_cache]. rewrite bind_eq.
  set (hit := match pop fs with (FOk, fs') => _ | (_, fs') => _ end).
  assert (∃ fs1 o, hit = (Ok o, (fs1, w)) ∧ (o = None ∨ o = live (st_get x) (domainCacheKey h) (tw_cache w))) as
    (fs1 & o & -> & Ho) by (unfold hit; destruct (pop fs) as [[] fs1]; eauto).
  destruct o as [v|].
  - destruct Ho as [[=]|Ho]. exists (st_get x), (st_get x). apply path_one. by apply (Hit _ _ _ _ [] [] h v).
  - clear Ho. exists (st_set x). rewrite bind_eq. unfold tdb, calling. rewrite attempt_bind.
    unfold autocommit, reading. rewrite plain_text_ok by done. cbn [negb].
    assert (∀ e, e ≠ TNotFound → ∃ now', path (st_set x - st_get x)
      (mkSys (st_get x) (tw_db w) (tw_cache w) [Looking h]) (answered (st_set x) h (Err e))
      (mkSys now' (tw_db w) (tw_cache w) [])) as Hfail.
    { intros e He. exists (st_get x). eapply path_silent; [apply (Miss _ _ _ _ [] [])|]. cbn [app].
      destruct e; try done; apply path_one, (FetchFails _ _ _ _ [] []). }
    destruct (pop fs1) as [[] fs2]; [|by apply (Hfail (TPg Infra))|].
    2: { destruct (resolve_verified_domain h (tw_db w)); by apply (Hfail (TPg Infra)). }
    destruct (resolve_verified_domain h (tw_db w)) as [r|] eqn:Er; cbn [or_no_rows]; exists (st_set x);
      (eapply path_silent; [apply (Miss _ _ _ _ [] [])|]; cbn [app]; apply path_fetch; [done|]); rewrite Er;
      apply path_one.
    + unfold mret, io_mret, io_ret. cbn. rewrite bind_eq. unfold cache_set, cache_do. cbn.
      destruct (pop fs2) as [[] fs3]; cbn.
      * apply (Store _ _ _ _ [] [] h r (st_get x)). lia.
      * apply (StoreFails _ _ _ _ [] [] h (Some r) (st_get x)). lia.
      * apply (Store _ _ _ _ [] [] h r (st_get x)). lia.
    + cbn. apply (StoreFails _ _ _ _ [] [] h None (st_get x)). lia.
Qed.

(** *** How old an answer can be *)

(** Some state of the execution, not after [now], resolved the hostname so. *)
Definition once (tr : list sys) (h : string) (v : option DomainResolution) (P : time -> Prop) : Prop :=
  ∃ p, p ∈ tr ∧ resolve_verified_domain h (sy_db p) = v ∧ P (sy_now p).

Lemma once_later s tr h v (P : time -> Prop) : once tr h v P → once (s :: tr) h v P.
Proof. intros (p & Hp & Hv & Ht). exists p. split; [set_solver|]. auto. Qed.

Record traced (delay : duration) (s : sys) (past : list sys) (out : list answer) : Prop := mkTraced {
  tr_time : ∀ p, p ∈ past → sy_now p <= sy_now s;
  tr_cache : ∀ h v e, sy_cache s !! domainCacheKey h = Some (v, e) → ∃ r, v = CachedResolution r ∧
    once (s :: past) h (Some r) (λ t, e <= t + delay + cache_ttl);
  tr_reader : ∀ h v a, Fetched h v a ∈ sy_readers s → once (s :: past) h v (λ t, t = a);
  tr_out : ∀ now h v, (now, (h, v)) ∈ out → once (s :: past) h v (λ t, now - (cache_ttl + delay) < t <= now)
}.

(** A state whose cache and readers are among those of the state before. *)
Lemma traced_keep delay s past out s' :
  traced delay s past out → sy_now s <= sy_now s' →
  (∀ h, sy_cache s' !! domainCacheKey h = sy_cache s !! domainCacheKey h ∨ sy_cache s' !! domainCacheKey h = None) →
  (∀ h v a, Fetched h v a ∈ sy_readers s' → Fetched h v a ∈ sy_readers s) →
  traced delay s' (s :: past) out.
Proof.
  intros [Ht Hc Hr Ho] Hnow Hcache Hread. constructor.
  - intros p [->|Hp]%elem_of_cons; [done|]. specialize (Ht p Hp). lia.
  - intros h v e Hk. destruct (Hcache h) as [E|E]; rewrite E in Hk; [|done].
    destruct (Hc h v e Hk) as (r & -> & Hp). exists r. split; [done|]. by apply once_later.
  - intros h v a Ha. by apply once_later, Hr, Hread.
  - intros now h v Hin. by apply once_later, Ho.
Qed.

(** A new answer of an earlier state. *)
Lemma traced_answer delay s past out now h v :
  traced delay s past out → once (s :: past) h v (λ t, now - (cache_ttl + delay) < t <= now) →
  traced delay s past ([(now, (h, v))] ++ out).
Proof.
  intros [Ht Hc Hr Ho] Hv. constructor; [done..|]. intros now' h' v' [[= -> -> ->]|Hin]%elem_of_cons; [done|auto].
Qed.

Lemma time_bound delay s past out p : traced delay s past out → p ∈ s :: past → sy_now p <= sy_now s.
Proof. intros [Ht _ _ _] [->|Hp]%elem_of_cons; [lia|auto]. Qed.

(** What a reader fetched is an answer. *)
Lemma fetched_answer delay s past out h v a :
  traced delay s past out → Fetched h v a ∈ sy_readers s → sy_now s <= a + delay →
  once (s :: past) h v (λ t, sy_now s - (cache_ttl + delay) < t <= sy_now s).
Proof.
  intros Htr Hin Hd. destruct (tr_reader _ _ _ _ Htr h v a Hin) as (p & Hp & Hv & <-). exists p. split; [done|].
  split; [done|]. split; [|by eapply time_bound]. unfold cache_ttl, Minute, Second. lia.
Qed.

Lemma traced_store delay now d c l1 l2 h v a past out :
  now <= a + delay →
  traced delay (mkSys now d c (l1 ++ Fetched h (Some v) a :: l2)) past out →
  traced delay (mkSys now d (<[domainCacheKey h := (CachedResolution v, now + cache_ttl)]> c) (l1 ++ l2))
    (mkSys now d c (l1 ++ Fetched h (Some v) a :: l2) :: past) out.
Proof.
  intros Hd [Ht Hc Hr Ho]. constructor.
  - intros p [->|Hp]%elem_of_cons; [done|]. by apply Ht.
  - intros h' v' e. cbn [sy_cache]. intros [[Eh [= <- <-]]|[_ Hk]]%lookup_insert_Some.
    + apply domainCacheKey_inj in Eh as <-. exists v. split; [done|].
      destruct (Hr h (Some v) a) as (p & Hp & Hv & Ea); [cbn; set_solver|]. apply once_later. exists p.
      split; [done|]. split; [done|]. lia.
    + destruct (Hc h' v' e Hk) as (r & -> & Hp). exists r. split; [done|]. by apply once_later.
  - intros h' v' a' Ha. apply once_later, Hr. cbn in *. set_solver.
  - intros now' h' v' Hin. by apply once_later, Ho.
Qed.

Lemma traced_fetch delay now d c l1 l2 h past out :
  traced delay (mkSys now d c (l1 ++ Missed h :: l2)) past out →
  traced delay (mkSys now d c (l1 ++ Fetched h (resolve_verified_domain h d) now :: l2))
    (mkSys now d c (l1 ++ Missed h :: l2) :: past) out.
Proof.
  intros [Ht Hc Hr Ho]. constructor.
  - intros p [->|Hp]%elem_of_cons; [done|]. by apply Ht.
  - intros h' v' e Hk. destruct (Hc h' v' e Hk) as (r & -> & Hp). exists r. split; [done|]. by apply once_later.
  - intros h' v' a' Ha. cbn in Ha. apply elem_of_app in Ha as [Ha|[[= -> -> ->]|Ha]%elem_of_cons].
    + apply once_later, Hr. cbn. set_solver.
    + eexists. split; [by apply elem_of_cons; left|done].
    + apply once_later, Hr. cbn. set_solver.
  - intros now' h' v' Hin. by apply once_later, Ho.
Qed.

Lemma traced_hit delay now d c l1 l2 h v past out :
  live now (domainCacheKey h) c = Some v →
  traced delay (mkSys now d c (l1 ++ Looking h :: l2)) past out →
  once (mkSys now d c (l1 ++ Looking h :: l2) :: past) h (Some (as_resolution v))
    (λ t, now - (cache_ttl + delay) < t <= now).
Proof.
  unfold live. destruct (c !! domainCacheKey h) as [[v' e]|] eqn:Ek; [|done]. destruct (e <=? now) eqn:Ee; [done|].
  intros [= ->] Htr. destruct (tr_cache _ _ _ _ Htr h v e Ek) as (r & -> & p & Hp & Hv & Hage). exists p.
  split; [done|]. split; [done|]. split; [bsimpl; lia|]. by apply (time_bound _ _ _ _ p Htr).
Qed.

Lemma traced_step delay s past out a s' :
  traced delay s past out → sys_step delay s a s' → traced delay s' (s :: past) (a ++ out).
Proof.
  intros Htr Hs.
  destruct Hs as [now d c l dt Hdt|now d c l cmd d' Hx|now d c l key|now d c l t v|now d c l h|now d c l1 l2 h v Hl
    |now d c l1 l2 h|now d c l1 l2 h|now d c l1 l2 h|now d c l1 l2 h v a Ha|now d c l1 l2 h v a Ha]; cbn [app].
  - apply traced_keep; cbn; [done|lia|by left|done].
  - apply traced_keep; cbn; [done|lia|by left|done].
  - apply traced_keep; cbn; [done|lia| |done]. intros h. destruct (decide (domainCacheKey h = key)) as [->|Hk].
    + right. by apply lookup_delete_eq.
    + left. by apply lookup_delete_ne.
  - apply traced_keep; cbn; [done|lia| |done]. intros h. left. apply lookup_insert_ne. intros E. by eapply keys_differ.
  - apply traced_keep; cbn; [done|lia|by left|set_solver].
  - apply (traced_answer _ _ _ _ now h); [|by apply once_later, (traced_hit _ _ _ _ _ _ _ _ _ out)].
    apply traced_keep; cbn; [done|lia|by left|set_solver].
  - apply traced_keep; cbn; [done|lia|by left|set_solver].
  - by apply traced_fetch.
  - apply traced_keep; cbn; [done|lia|by left|set_solver].
  - apply (traced_answer _ _ _ _ now h); [by apply traced_store|].
    eapply once_later, (fetched_answer _ _ _ _ _ _ _ Htr); [|done]. cbn. set_solver.
  - apply (traced_answer _ _ _ _ now h); [apply traced_keep; cbn; [done|lia|by left|set_solver]|].
    eapply once_later, (fetched_answer _ _ _ _ _ _ _ Htr); [|done]. cbn. set_solver.
Qed.

Lemma execution_traced delay tr out :
  execution delay tr out → ∃ s past, tr = s :: past ∧ traced delay s past out.
Proof.
  induction 1 as [now d|s past out a s' _ (s0 & past0 & [= <- <-] & Htr) Hs].
  - do 2 eexists. split; [done|]. constructor; cbn.
    + by intros p ?%elem_of_nil.
    + intros h v e. by rewrite lookup_empty.
    + by intros h v a ?%elem_of_nil.
    + by intros t h v ?%elem_of_nil.
  - do 2 eexists. split; [done|]. by apply traced_step.
Qed.

(** C27: A resolution of the tenant service is at most five minutes old, plus
    the time a request takes between its query and its answer: in every
    execution in which resolutions, changes of the tables and evictions
    interleave in any way, and in which Redis and the database may fail at any
    point, an answer (a tenant or none) is what the tables said at some moment
    of that window.  So five minutes and that time after a tenant was suspended
    or a domain was switched off, even if Redis never obeyed, nobody is led to
    it. *)
Theorem resolution_age_bounded delay tr out now h v :
  execution delay tr out → (now, (h, v)) ∈ out →
  (∃ p, p ∈ tr ∧ resolve_verified_domain h (sy_db p) = v ∧ now - (5 * Minute + delay) < sy_now p <= now) ∧
  ∀ since, (∀ p, p ∈ tr → since <= sy_now p → resolve_verified_domain h (sy_db p) = None) →
    since + 5 * Minute + delay <= now → v = None.
Proof.
  intros (s & past & -> & Htr)%execution_traced Hin. destruct (tr_out _ _ _ _ Htr now h v Hin) as (p & Hp & Hv & Ht).
  unfold cache_ttl in Ht. split; [by exists p|]. intros since Hnone Hlate. rewrite <- Hv. apply Hnone; [done|lia].
Qed.
End Interleaving.
