(* ===== verification/TenantOnboarding.v ===== *)
(** * TenantOnboarding: from a new tenant to a hostname that leads to it

    Creating a tenant, registering a hostname for it, proving control of the
    name in the DNS and switching the hostname on makes the service resolve it
    to the tenant; and suspending the tenant makes it stop.  With concrete
    requests that show that the theorems about the tenant service apply. *)
From S2P Require Import Prelude Effects GoTime Http Platform Accounts Tenant TenantRegistry TenantCache TenantSettings TenantStaleness.

Local Open Scope Z_scope.

(** ** Statements that succeed *)

Lemma run_tdb {A} (m : TdM A) w :
  run (tdb m) w = ((run m (tw_db w)).1, mkTWorld (run m (tw_db w)).2 (tw_cache w)).
Proof. unfold run, tdb. by destruct (m [] (tw_db w)) as [v [fs d]]. Qed.
Lemma quiet_tdb {A} (m : TdM A) : quiet m → quiet (tdb m).
Proof. intros Hm w. rewrite tdb_quiet by done. done. Qed.

Section Onboarding.
Context `{GoLib, AccountLib, !GoLibLaws, !LowerLaws}.

Lemma get_domain d r :
  tenant_ok d → r ∈ domains d → head (sel (domain_of (dm_tenant r) (dm_tenant r) (dm_id r) every) (domains d)) = Some r.
Proof.
  intros Hd Hr. apply (head_sel_unique dm_id); [apply Hd| |done|].
  - intros y Hy. unfold domain_of, rls in Hy. by bsimpl.
  - unfold domain_of, rls, every. by rewrite !bool_decide_refl.
Qed.

Lemma update_succeeds d r q f :
  tenant_ok d → r ∈ domains d → q r = true →
  (∀ x, dm_id (f x) = dm_id x ∧ dm_host (f x) = dm_host x ∧ dm_tenant (f x) = dm_tenant x) →
  (∀ x, domain_ok x → q x = true → domain_ok (f x)) →
  ∃ d', update_domain (dm_tenant r) (dm_tenant r) (dm_id r) q f d = Ok (f r, d') ∧ tenant_ok d' ∧ f r ∈ domains d' ∧
    tenants d' = tenants d ∧ audit d' = audit d ∧ settings d' = settings d.
Proof.
  intros Hd Hr Hq Hf Hok.
  assert (∀ x, domain_of (dm_tenant r) (dm_tenant r) (dm_id r) q x = true ↔ at_domain (dm_tenant r) (dm_id r) x && q x = true) as Hp.
  { intros x. unfold domain_of, rls, at_domain. by destruct (dm_tenant x ==? dm_tenant r). }
  assert (head (sel (domain_of (dm_tenant r) (dm_tenant r) (dm_id r) q) (domains d)) = Some r) as Hh.
  { apply (head_sel_unique dm_id); [apply Hd| |done|].
    - intros y Hy. unfold domain_of, rls in Hy. by bsimpl.
    - unfold domain_of, rls. by rewrite !bool_decide_refl, Hq. }
  assert (update_domain (dm_tenant r) (dm_tenant r) (dm_id r) q f d
    = Ok (f r, set_domains (upd (domain_of (dm_tenant r) (dm_tenant r) (dm_id r) q) f (domains d)) d)) as Hu.
  { unfold update_domain. cbv zeta. by rewrite Hh. }
  eexists. split; [exact Hu|]. split; [|split; [|done]].
  - apply change_command in Hu as (r' & _ & _ & Hc); [|done]. by eapply change_ok.
  - cbn. apply elem_of_upd. exists r. split; [done|]. apply head_sel_Some in Hh as [-> _]. done.
Qed.

Lemma open_succeeds id now name s s' d :
  has_tenant id d = false → tenant_ok d → text_ok name = true → validateSettings s = Some s' → text_ok (S_Timezone s') = true →
  ∃ d', run (create_tenant_tx id now name s') d = (Ok (mkTenantRow id name "active" now, settings_params id s'), d') ∧
    tenant_ok d' ∧ domains d' = domains d ∧ audit d' = audit d ∧ live_tenant id d' = true ∧ stored id d' = Some (settings_params id s').
Proof.
  intros Hf Hd Hn Hv Htz. destruct (validateSettings_sound id s s' Hv) as (_ & _ & Hc & _ & Hp).
  assert (existsb (λ x, st_tenant x ==? id) (settings d) = false) as Hs.
  { apply (existsb_fresh st_tenant). intros x Hx E. destruct (to_srows d Hd x Hx) as [_ Hx']. congruence. }
  assert (∃ d', run (create_tenant_tx id now name s') d
    = (Ok (mkTenantRow id name "active" now, settings_params id s'), d')) as [d' Hr].
  { unfold create_tenant_tx. rewrite run_WithTx by apply det_create_tenant.
    rewrite run_bind by apply det_tenant_stmt. rewrite run_calling by apply det_quiet, det_stmt. rewrite run_stmt.
    unfold CreateTenant. cbv zeta. rewrite Hn. cbn [negb]. unfold has_tenant in Hf. rewrite Hf.
    cbn [map_err fst snd]. rewrite run_bind by apply det_stmt. unfold set_config. rewrite run_stmt. cbn [tn_id].
    rewrite run_bind by apply det_tenant_stmt. rewrite run_calling by apply det_quiet, det_stmt. rewrite run_stmt.
    unfold InitializeTenantSettings, settings_text_ok. cbn [st_timezone st_policy st_tenant settings_params].
    rewrite Htz, Hp, bool_decide_refl. cbn [andb negb]. rewrite Hc. cbn [negb settings set_tenants tenants].
    rewrite Hs, existsb_app. cbn. rewrite bool_decide_refl, orb_true_r. cbn. eauto. }
  exists d'. split; [done|]. destruct (open_command _ _ _ _ _ _ _ Hr) as (_ & Hsound & Hx). split; [by eapply exec_ok|].
  cbn [exec] in Hx. case_match; [done|]. injection Hx as <-. split; [done|]. split; [done|]. split.
  - unfold live_tenant. cbn. rewrite existsb_app. cbn. by rewrite bool_decide_refl, orb_true_r.
  - unfold stored. cbn. rewrite head_sel_snoc. cbn. rewrite bool_decide_refl.
    destruct (head _) as [x|] eqn:E; [|done]. apply head_sel_Some in E as [E Hx]. bsimpl.
    rewrite (existsb_fresh st_tenant) in Hs. by destruct (Hs x Hx).
Qed.

Lemma register_succeeds id now t host kind hash d :
  tenant_ok d → live_tenant t d = true → text_ok host = true → valid_type kind = true →
  (∀ r, r ∈ domains d → dm_id r ≠ id ∧ dm_host r ≠ host) →
  let row := mkDomainRow id t host kind false false "pending" (Some hash) (Some now) None None None None now in
  ∃ d', CreateTenantDomain id now t t host kind hash d = Ok (row, d') ∧ tenant_ok d' ∧ row ∈ domains d' ∧
    tenants d' = tenants d ∧ audit d' = audit d ∧ settings d' = settings d.
Proof.
  intros Hd Hl Hh Hk Hf row.
  assert (∃ d', CreateTenantDomain id now t t host kind hash d = Ok (row, d')) as [d' Hr].
  { unfold CreateTenantDomain. cbv zeta. rewrite Hh.
    assert (text_ok kind = true) as ->.
    { unfold valid_type in Hk. by apply orb_true_iff in Hk as [Hk|Hk]; bsimpl; rewrite Hk. }
    cbn [andb negb]. unfold live_tenant in Hl. rewrite Hl, bool_decide_refl, Hk. cbn [negb].
    rewrite (proj2 (existsb_fresh dm_id id (domains d))), (proj2 (existsb_fresh dm_host host (domains d))); [by eauto|..];
      intros x Hx; by apply Hf. }
  exists d'. split; [done|]. destruct (register_command _ _ _ _ _ _ _ _ _ Hr) as (_ & Hs & Hx).
  split; [by eapply exec_ok|]. cbn [exec] in Hx. case_match; [|done]. injection Hx as <-. cbn. set_solver.
Qed.

(** ** Use cases without a cache *)

Abbreviation su allow := (mkTenantService without_cache allow).

Lemma trepo_returns {A} (m : TM A) fs w v fs' w' : m fs w = (Ok v, (fs', w')) → trepo m fs w = (Ok v, (fs', w')).
Proof. intros E. unfold trepo, calling. by rewrite attempt_bind, E. Qed.
Lemma tdb_returns {A} (m : TdM A) w v d' : quiet m → run m (tw_db w) = (Ok v, d') → tdb m [] w = (Ok v, ([], mkTWorld d' (tw_cache w))).
Proof. intros Hq E. by rewrite tdb_quiet, E. Qed.
Lemma tx_returns {A} t (f : uuid -> tenantdb -> res pg_error (A * tenantdb)) w a d' :
  f t (tw_db w) = Ok (a, d') → tdb (tenant_tx t f) [] w = (Ok a, ([], mkTWorld d' (tw_cache w))).
Proof. intros E. apply tdb_returns; [apply quiet_tenant_tx|]. by rewrite run_tenant_tx, E. Qed.
Lemma reply_returns {A} (m : TApp A) fail ok w v w' :
  m [] w = (v, ([], w')) → t_reply m fail ok [] w = (Ok (match v with Ok a => ok a | Err e => fail e end), ([], w')).
Proof. intros E. unfold t_reply. by rewrite attempt_bind, E. Qed.
Lemma internal_returns {B} h (r : Request B) m w : internal h r = true → internal_only h r m [] w = m [] w.
Proof. intros E. unfold internal_only. by rewrite E. Qed.

Lemma quiet_create_tenant_tx id now name s : quiet (create_tenant_tx id now name s).
Proof. apply det_quiet, det_WithTx, det_create_tenant. Qed.
Lemma quiet_set_status_tx id now t status actor requestID : quiet (set_status_tx id now t status actor requestID).
Proof. apply det_quiet, det_WithTx, det_set_status. Qed.

Lemma CreateTenant_returns allow x input s w :
  let name := TrimSpace (CT_Name input) in
  name ≠ EmptyString → rune_count name <= 160 → text_ok name = true → normalizeSettings (CT_Settings input) = Some s →
  text_ok (S_Timezone s) = true → has_tenant (td_id x) (tw_db w) = false → tenant_ok (tw_db w) →
  ∃ d', Tenant_CreateTenant (su allow) x input [] w
    = (Ok (mkTenant (td_id x) name "active" (td_now x) (set_tenant (td_id x) s)), ([], mkTWorld d' (tw_cache w))) ∧
    tenant_ok d' ∧ domains d' = domains (tw_db w) ∧ audit d' = audit (tw_db w) ∧ live_tenant (td_id x) d' = true ∧
    stored (td_id x) d' = Some (settings_params (td_id x) s).
Proof.
  intros name Hne Hr Ht Hs Htz Hf Hd. unfold name in *.
  destruct (validateSettings_sound (td_id x) _ s Hs) as (_ & _ & _ & Hrow & _).
  destruct (open_succeeds (td_id x) (td_now x) (TrimSpace (CT_Name input)) _ s (tw_db w) Hf Hd Ht Hs Htz)
    as (d' & Hrun & Hrest).
  exists d'. split; [|done]. unfold Tenant_CreateTenant. cbv zeta.
  rewrite (bool_decide_false (TrimSpace (CT_Name input) = EmptyString)) by done.
  rewrite (proj2 (Z.ltb_ge 160 (rune_count (TrimSpace (CT_Name input))))) by lia. cbn [orb].
  rewrite Hs. apply trepo_returns. unfold TRepository_CreateTenant.
  rewrite bind_eq, (tdb_returns _ w _ d' (quiet_create_tenant_tx _ _ _ _) Hrun).
  rewrite bind_eq. cbn [ts_repo]. rewrite cacheSettings_off. by rewrite Hrow.
Qed.

Lemma pool_GetTenant_returns t w r :
  tenant_ok (tw_db w) → r ∈ tenants (tw_db w) → tn_id r = t → pool_GetTenant t [] (tw_db w) = (Ok r, ([], tw_db w)).
Proof.
  intros Hd Hr <-. rewrite quiet_eq by apply quiet_read. unfold pool_GetTenant. rewrite run_read. unfold GetTenant, find_tenant.
  rewrite (head_sel_unique tn_id _ _ r); [done|apply Hd| |done|apply bool_decide_refl]. intros y Hy. by bsimpl.
Qed.

Lemma CreateDomain_returns allow x v t input host token w :
  uuid_Parse v = Some t → NormalizeHostname (CD_Hostname input) allow = Some host → valid_type (CD_DomainType input) = true →
  verificationToken x = Some token → tenant_ok (tw_db w) → live_tenant t (tw_db w) = true →
  (∀ r, r ∈ domains (tw_db w) → dm_id r ≠ td_id x ∧ dm_host r ≠ host) →
  let row := mkDomainRow (td_id x) t host (CD_DomainType input) false false "pending"
    (Some (verificationHash (verificationValue token))) (Some (td_now x)) None None None None (td_now x) in
  ∃ d', Tenant_CreateDomain (su allow) x v input [] w
    = (Ok (with_token token (newDomain row)), ([], mkTWorld d' (tw_cache w))) ∧
    tenant_ok d' ∧ row ∈ domains d' ∧ tenants d' = tenants (tw_db w) ∧ audit d' = audit (tw_db w) ∧ settings d' = settings (tw_db w).
Proof.
  intros Hv Hn Hk Ht Hd Hl Hf row.
  destruct (register_succeeds (td_id x) (td_now x) t host (CD_DomainType input) (verificationHash (verificationValue token))
    (tw_db w)) as (d' & Hc & Hrest); [done|done|by eapply plain_text_ok, NormalizeHostname_plain|done..|].
  exists d'. split; [|done]. unfold Tenant_CreateDomain, with_id. rewrite Hv. cbn [ts_allowLocalhost].
  rewrite Hn, Hk, Ht. cbn [negb]. rewrite bind_eq.
  rewrite (trepo_returns _ [] w (newDomain row) [] (mkTWorld d' (tw_cache w))); [reflexivity|]. unfold TRepository_CreateDomain.
  rewrite bind_eq. unfold live_tenant in Hl. apply existsb_elem in Hl as (tr & Htr & E).
  apply andb_true_iff in E as [Ei El]. bsimpl. rewrite tdb_eq. unfold activeTenant. rewrite bind_eq, (pool_GetTenant_returns t w tr) by done.
  rewrite El. cbn [negb]. unfold mret, io_mret, io_ret. cbn [fst snd].
  rewrite bind_eq. erewrite tx_returns by exact Hc. done.
Qed.

Lemma VerifyDomain_returns allow x v v' r token w :
  uuid_Parse v = Some (dm_tenant r) → uuid_Parse v' = Some (dm_id r) → tenant_ok (tw_db w) → r ∈ domains (tw_db w) →
  dm_verified r = false → dm_token r = Some (verificationHash (verificationValue token)) →
  verificationHash (verificationValue token) ≠ EmptyString →
  (∃ answers, td_dns x (verification_record (dm_host r)) = Some answers ∧ verificationValue token ∈ answers) →
  ∃ d', Tenant_VerifyDomain (su allow) x v v' [] w
    = (Ok (newDomain (verified (td_now x) r)), ([], mkTWorld d' (tw_cache w))) ∧
    tenant_ok d' ∧ verified (td_now x) r ∈ domains d' ∧ tenants d' = tenants (tw_db w) ∧ audit d' = audit (tw_db w) ∧ settings d' = settings (tw_db w).
Proof.
  intros Hv Hv' Hd Hr Hver Htok Hne (answers & Hdns & Hans).
  destruct (update_succeeds (tw_db w) r every (verified (td_now x))) as (d' & Hu & Hrest); [done..| |].
  { intros y Hy _. by apply domain_changes_ok. }
  exists d'. split; [|done]. unfold Tenant_VerifyDomain, parseIDs, with_id. rewrite Hv, Hv', bind_eq.
  rewrite (trepo_returns _ [] w (mkVerificationDomain (newDomain r) (or_empty (dm_token r))) [] (mkTWorld (tw_db w) (tw_cache w))).
  2: { unfold TRepository_DomainForVerification. rewrite bind_eq. erewrite tx_returns; [done|].
    unfold reading, GetTenantDomainForVerification. by rewrite get_domain. }
  cbn [or_no_rows VD_Domain VD_TokenHash newDomain Td_Verified]. rewrite Hver, Htok. cbn [or_empty].
  rewrite (bool_decide_false (_ = EmptyString)) by done.
  assert (dns_confirms x (mkVerificationDomain (newDomain r) (verificationHash (verificationValue token))) = true) as ->.
  { unfold dns_confirms. cbn [VD_Domain newDomain Td_Record VD_TokenHash]. rewrite Hdns. apply existsb_elem.
    exists (verificationValue token). split; [done|]. apply bool_decide_refl. }
  destruct w as [d c]. apply trepo_returns. unfold TRepository_MarkVerificationSucceeded, change_domain.
  rewrite bind_eq. by erewrite tx_returns.
Qed.

Lemma ActivateDomain_returns allow x v v' r w :
  uuid_Parse v = Some (dm_tenant r) → uuid_Parse v' = Some (dm_id r) → tenant_ok (tw_db w) → r ∈ domains (tw_db w) →
  dm_verified r = true → live_tenant (dm_tenant r) (tw_db w) = true →
  ∃ d', Tenant_ActivateDomain (su allow) x v v' [] w
    = (Ok (newDomain (activated (td_now x) r)), ([], mkTWorld d' (tw_cache w))) ∧
    tenant_ok d' ∧ activated (td_now x) r ∈ domains d' ∧ tenants d' = tenants (tw_db w) ∧ audit d' = audit (tw_db w) ∧ settings d' = settings (tw_db w).
Proof.
  intros Hv Hv' Hd Hr Hver Hl.
  destruct (update_succeeds (tw_db w) r
    (λ r, existsb (λ x, (tn_id x ==? dm_tenant r) && tenant_live x) (tenants (tw_db w)) && dm_verified r)
    (activated (td_now x))) as (d' & Hu & Hrest); [done|done| | | |].
  { unfold live_tenant in Hl. by rewrite Hl. }
  { done. }
  { intros y Hy Hg. apply domain_changes_ok; [done|]. by bsimpl. }
  exists d'. split; [|done]. unfold Tenant_ActivateDomain, parseIDs, with_id. rewrite Hv, Hv', bind_eq.
  rewrite (trepo_returns _ [] w (newDomain r) [] (mkTWorld (tw_db w) (tw_cache w))).
  2: { unfold TRepository_Domain. rewrite bind_eq. erewrite tx_returns; [done|].
    unfold reading, GetTenantDomain. by rewrite get_domain. }
  cbn [newDomain Td_Verified]. rewrite Hver. cbn [negb].
  destruct w as [d c]. apply trepo_returns. unfold TRepository_ActivateDomain, change_domain.
  rewrite bind_eq. by erewrite tx_returns.
Qed.

Lemma SetTenantStatus_returns allow x v t status actor requestID w :
  uuid_Parse v = Some t → valid_status status = true → TrimSpace actor ≠ EmptyString → TrimSpace requestID ≠ EmptyString →
  text_ok (TrimSpace actor) = true → text_ok (TrimSpace requestID) = true → tenant_ok (tw_db w) →
  has_tenant t (tw_db w) = true → (∀ a, a ∈ audit (tw_db w) → pa_id a ≠ td_id x) →
  ∃ tenant d', Tenant_SetTenantStatus (su allow) x v status actor requestID [] w
    = (Ok tenant, ([], mkTWorld d' (tw_cache w))) ∧ Tn_ID tenant = t ∧ Tn_Status tenant = status ∧
    exec (SetStatus t status (mkAuditRow (td_id x) (TrimSpace actor) ("tenant." +:+ status) (Some t) (TrimSpace requestID)
      [("status"%string, status)] (td_now x))) (tw_db w) = Some d'.
Proof.
  intros Hv Hs Ha Hq Hta Htq Hd Hh Hf.
  assert (∃ row, find_tenant t (tw_db w) = Some row ∧ tn_id row = t) as (row & Hrow & Eid).
  { apply has_tenant_iff in Hh as (row & Hr & <-). exists row. split; [|done]. unfold find_tenant.
    apply (head_sel_unique tn_id); [apply Hd| |done|apply bool_decide_refl]. intros y Hy. by bsimpl. }
  assert (∃ d', run (set_status_tx (td_id x) (td_now x) t status (TrimSpace actor) (TrimSpace requestID)) (tw_db w)
    = (Ok (tn_with_status status row, map dm_host (sel (rls dm_tenant t (λ x, dm_tenant x ==? t)) (domains (tw_db w)))), d')) as [d' Hr].
  { unfold set_status_tx. rewrite run_WithTx by apply det_set_status.
    rewrite run_bind by (unfold calling; solve_det). rewrite run_calling by apply det_quiet, det_stmt. rewrite run_stmt.
    unfold update_status. rewrite Hrow, Hs. cbn [negb map_err fst snd].
    rewrite run_bind by apply det_stmt. unfold set_config. rewrite run_stmt.
    rewrite run_bind by apply det_query. unfold query. rewrite run_stmt. rewrite run_bind by apply det_stmt. rewrite run_stmt.
    unfold insert_audit. cbn [pa_actor pa_action pa_request pa_id pa_tenant]. rewrite Hta, Htq.
    assert (text_ok ("tenant." +:+ status) = true) as ->.
    { unfold valid_status in Hs. by apply orb_true_iff in Hs as [Hs|Hs]; bsimpl; rewrite Hs. }
    cbn [andb negb audit set_tenants tenants]. rewrite (proj2 (existsb_fresh pa_id (td_id x) (audit (tw_db w)))) by done.
    assert (existsb (λ y, tn_id y ==? t) (upd (λ y, tn_id y ==? t) (tn_with_status status) (tenants (tw_db w))) = true) as ->.
    { apply existsb_elem. unfold find_tenant in Hrow. apply head_sel_Some in Hrow as [Hp Hin].
      exists (tn_with_status status row). split; [apply elem_of_upd; exists row; by rewrite Hp|by rewrite <- Eid, bool_decide_refl]. }
    cbn. eauto. }
  exists (bare_tenant (tn_with_status status row)), d'. split; [|split; [done|split; [done|]]].
  - unfold Tenant_SetTenantStatus, with_id. rewrite Hv, Hs. cbn [negb orb].
    rewrite (bool_decide_false (TrimSpace actor = _)), (bool_decide_false (TrimSpace requestID = _)) by done. cbn [orb].
    apply trepo_returns. unfold TRepository_SetTenantStatus.
    rewrite bind_eq, (tdb_returns _ w _ d' (quiet_set_status_tx _ _ _ _ _ _) Hr). rewrite bind_eq.
    assert (∀ l w', invalidate_all without_cache l [] w' = (Ok tt, ([], w'))) as -> by (by induction l). done.
  - by destruct (status_command _ _ _ _ _ _ _ _ _ Hs Hr) as (_ & _ & Hx).
Qed.

Lemma Resolve_returns allow x v host w :
  NormalizeHostname v allow = Some host →
  Tenant_Resolve (su allow) x v [] w
  = (match resolve_verified_domain host (tw_db w) with Some r => Ok r | None => Err (TErrRepo TNotFound) end, ([], w)).
Proof.
  intros Hn. unfold Tenant_Resolve. cbn [ts_allowLocalhost ts_repo]. rewrite Hn. unfold trepo, calling. rewrite attempt_bind.
  unfold TRepository_ResolveDomain, cache_get, cache_set. cbn [cache_on without_cache]. rewrite bind_eq.
  cbn [mret io_mret io_ret]. rewrite bind_eq, tdb_quiet by apply quiet_read. rewrite run_read. cbn [fst snd].
  rewrite plain_text_ok by (by eapply NormalizeHostname_plain). cbn [negb]. destruct w as [d c]. cbn [tw_db].
  by destruct (resolve_verified_domain host d).
Qed.

(** ** The way of a tenant *)

(** The requests of the platform and of the gateway, and what they meet. *)
Record steps := mkSteps {
  p_open : tdraw * Request CreateTenantInput; p_register : tdraw * Request CreateDomainInput;
  p_verify : tdraw * Request unit; p_activate : tdraw * Request unit; p_ask : tdraw * Request unit;
  p_suspend : tdraw * Request unit; p_ask_again : tdraw * Request unit
}.
Definition p_tenant (p : steps) : uuid := td_id (p_open p).1.
Definition p_domain (p : steps) : uuid := td_id (p_register p).1.

Definition history (p : steps) : list (tdraw * tenant_route) :=
  [((p_open p).1, PostTenant (p_open p).2); ((p_register p).1, PostDomain (p_register p).2);
   ((p_verify p).1, PostVerifyDomain (p_verify p).2); ((p_activate p).1, PostActivateDomain (p_activate p).2);
   ((p_ask p).1, GetResolve (p_ask p).2); ((p_suspend p).1, PostSuspendTenant (p_suspend p).2);
   ((p_ask_again p).1, GetResolve (p_ask_again p).2)].

Definition at_tenant {B} (p : steps) (r : Request B) : Prop := Params r "id"%string = uuid_String (p_tenant p).
Definition at_hostname {B} (p : steps) (r : Request B) : Prop :=
  at_tenant p r ∧ Params r "domain_id"%string = uuid_String (p_domain p).

(** A tenant with valid settings, a new hostname, a DNS that shows the value the
    registration returned, and callers with the internal token. *)
Record well_planned (h : TenantHandler) (d : tenantdb) (p : steps) (input : CreateTenantInput) (s : Settings)
    (dinput : CreateDomainInput) (host token : string) : Prop := {
  wp_internal : internal h (p_open p).2 = true ∧ internal h (p_register p).2 = true ∧ internal h (p_verify p).2 = true ∧
    internal h (p_activate p).2 = true ∧ internal h (p_ask p).2 = true ∧ internal h (p_suspend p).2 = true ∧
    internal h (p_ask_again p).2 = true;
  wp_body : Body (p_open p).2 = Some input ∧ Body (p_register p).2 = Some dinput;
  wp_name : TrimSpace (CT_Name input) ≠ EmptyString ∧ rune_count (TrimSpace (CT_Name input)) <= 160 ∧
    text_ok (TrimSpace (CT_Name input)) = true;
  wp_settings : normalizeSettings (CT_Settings input) = Some s ∧ text_ok (S_Timezone s) = true;
  wp_fresh : has_tenant (p_tenant p) d = false ∧ (∀ r, r ∈ domains d → dm_id r ≠ p_domain p ∧ dm_host r ≠ host) ∧
    (∀ a, a ∈ audit d → pa_id a ≠ td_id (p_suspend p).1);
  wp_params : at_tenant p (p_register p).2 ∧ at_hostname p (p_verify p).2 ∧ at_hostname p (p_activate p).2 ∧
    at_tenant p (p_suspend p).2;
  wp_host : NormalizeHostname (CD_Hostname dinput) (ts_allowLocalhost (th_service h)) = Some host ∧
    NormalizeHostname (Query (p_ask p).2 "hostname"%string) (ts_allowLocalhost (th_service h)) = Some host ∧
    NormalizeHostname (Query (p_ask_again p).2 "hostname"%string) (ts_allowLocalhost (th_service h)) = Some host;
  wp_type : valid_type (CD_DomainType dinput) = true;
  wp_token : verificationToken (p_register p).1 = Some token ∧ verificationHash (verificationValue token) ≠ EmptyString;
  wp_dns : ∃ answers, td_dns (p_verify p).1 (verification_record host) = Some answers ∧ verificationValue token ∈ answers;
  wp_actor : let actor := Header (p_suspend p).2 "X-Platform-Actor"%string in
    let request := Header (p_suspend p).2 RequestIDHeader in
    TrimSpace actor ≠ EmptyString ∧ TrimSpace request ≠ EmptyString ∧ text_ok (TrimSpace actor) = true ∧
    text_ok (TrimSpace request) = true
}.

Lemma serve_eq h l w v w' x route :
  tn_serve h x route [] w = (v, ([], w')) → replay h ((x, route) :: l) w = (v :: (replay h l w').1, (replay h l w').2).
Proof. intros E. cbn [replay]. unfold run. rewrite E. by destruct (replay h l w'). Qed.

(** *** The requests without a cache *)

Section Direct.
Context (h : TenantHandler) (p : steps) (input : CreateTenantInput) (s : Settings) (dinput : CreateDomainInput)
  (host token : string).
Abbreviation hu := (on_repository without_cache h).
Abbreviation tenant := (p_tenant p).

(** The registered row. *)
Definition pending : domain_row :=
  mkDomainRow (p_domain p) tenant host (CD_DomainType dinput) false false "pending"
    (Some (verificationHash (verificationValue token))) (Some (td_now (p_register p).1)) None None None None
    (td_now (p_register p).1).
Definition proven : domain_row := verified (td_now (p_verify p).1) pending.
Definition switched : domain_row := activated (td_now (p_activate p).1) proven.

Lemma serves_open w :
  tenant_ok (tw_db w) → well_planned h (tw_db w) p input s dinput host token →
  ∃ d', tn_serve hu (p_open p).1 (PostTenant (p_open p).2) [] w
    = (Ok (SendJSON 201 (JTenant (mkTenant tenant (TrimSpace (CT_Name input)) "active" (td_now (p_open p).1) (set_tenant tenant s)))),
       ([], mkTWorld d' (tw_cache w))) ∧
    tenant_ok d' ∧ domains d' = domains (tw_db w) ∧ audit d' = audit (tw_db w) ∧ live_tenant tenant d' = true.
Proof.
  intros Hd Hp. destruct (wp_name _ _ _ _ _ _ _ _ Hp) as (Hn1 & Hn2 & Hn3), (wp_settings _ _ _ _ _ _ _ _ Hp) as [Hs Htz],
    (wp_fresh _ _ _ _ _ _ _ _ Hp) as (Hf & _).
  destruct (CreateTenant_returns (ts_allowLocalhost (th_service h)) (p_open p).1 input s w Hn1 Hn2 Hn3 Hs Htz Hf Hd)
    as (d' & E & Hd' & Hdom & Hau & Hl & _).
  exists d'. split; [|done]. cbn [tn_serve]. unfold th_createTenant. rewrite internal_returns by apply Hp.
  rewrite (proj1 (wp_body _ _ _ _ _ _ _ _ Hp)). by rewrite (reply_returns _ _ _ _ _ _ E).
Qed.

Lemma serves_register w d0 :
  well_planned h d0 p input s dinput host token → tenant_ok (tw_db w) → domains (tw_db w) = domains d0 →
  live_tenant tenant (tw_db w) = true →
  ∃ d', tn_serve hu (p_register p).1 (PostDomain (p_register p).2) [] w
    = (Ok (SendJSON 201 (JDomain (with_token token (newDomain pending)))), ([], mkTWorld d' (tw_cache w))) ∧
    tenant_ok d' ∧ pending ∈ domains d' ∧ tenants d' = tenants (tw_db w) ∧ audit d' = audit (tw_db w).
Proof.
  intros Hp Hd Hdom Hl. destruct (wp_params _ _ _ _ _ _ _ _ Hp) as (Hpar & _), (wp_host _ _ _ _ _ _ _ _ Hp) as (Hh & _),
    (wp_token _ _ _ _ _ _ _ _ Hp) as [Ht _], (wp_fresh _ _ _ _ _ _ _ _ Hp) as (_ & Hf & _).
  destruct (CreateDomain_returns (ts_allowLocalhost (th_service h)) (p_register p).1 (Params (p_register p).2 "id") tenant
    dinput host token w) as (d' & E & Hd' & Hr & HT & HA & _);
    [by rewrite Hpar, uuid_Parse_String|done|apply Hp|done|done|done|by rewrite Hdom|].
  exists d'. split; [|done]. cbn [tn_serve]. unfold th_createDomain. rewrite internal_returns by apply Hp.
  rewrite (proj2 (wp_body _ _ _ _ _ _ _ _ Hp)). by rewrite (reply_returns _ _ _ _ _ _ E).
Qed.

Lemma serves_verify w d0 :
  well_planned h d0 p input s dinput host token → tenant_ok (tw_db w) → pending ∈ domains (tw_db w) →
  ∃ d', tn_serve hu (p_verify p).1 (PostVerifyDomain (p_verify p).2) [] w
    = (Ok (SendJSON 200 (JDomain (newDomain proven))), ([], mkTWorld d' (tw_cache w))) ∧
    tenant_ok d' ∧ proven ∈ domains d' ∧ tenants d' = tenants (tw_db w) ∧ audit d' = audit (tw_db w).
Proof.
  intros Hp Hd Hr. destruct (wp_params _ _ _ _ _ _ _ _ Hp) as (_ & [Hpar Hpar'] & _), (wp_token _ _ _ _ _ _ _ _ Hp) as [_ Ht].
  destruct (VerifyDomain_returns (ts_allowLocalhost (th_service h)) (p_verify p).1 (Params (p_verify p).2 "id")
    (Params (p_verify p).2 "domain_id") pending token w) as (d' & E & Hd' & Hr' & HT & HA & _);
    [by rewrite Hpar, uuid_Parse_String|by rewrite Hpar', uuid_Parse_String|done..|apply Hp|].
  exists d'. split; [|done]. cbn [tn_serve]. unfold th_verifyDomain, domain_handler. rewrite internal_returns by apply Hp.
  by rewrite (reply_returns _ _ _ _ _ _ E).
Qed.

Lemma serves_activate w d0 :
  well_planned h d0 p input s dinput host token → tenant_ok (tw_db w) → proven ∈ domains (tw_db w) →
  live_tenant tenant (tw_db w) = true →
  ∃ d', tn_serve hu (p_activate p).1 (PostActivateDomain (p_activate p).2) [] w
    = (Ok (SendJSON 200 (JDomain (newDomain switched))), ([], mkTWorld d' (tw_cache w))) ∧
    tenant_ok d' ∧ switched ∈ domains d' ∧ tenants d' = tenants (tw_db w) ∧ audit d' = audit (tw_db w).
Proof.
  intros Hp Hd Hr Hl. destruct (wp_params _ _ _ _ _ _ _ _ Hp) as (_ & _ & [Hpar Hpar'] & _).
  destruct (ActivateDomain_returns (ts_allowLocalhost (th_service h)) (p_activate p).1 (Params (p_activate p).2 "id")
    (Params (p_activate p).2 "domain_id") proven w) as (d' & E & Hd' & Hr' & HT & HA & _);
    [by rewrite Hpar, uuid_Parse_String|by rewrite Hpar', uuid_Parse_String|done..|].
  exists d'. split; [|done]. cbn [tn_serve]. unfold th_activateDomain, domain_handler. rewrite internal_returns by apply Hp.
  by rewrite (reply_returns _ _ _ _ _ _ E).
Qed.

Lemma serves_ask x (q : Request unit) w :
  internal h q = true → NormalizeHostname (Query q "hostname"%string) (ts_allowLocalhost (th_service h)) = Some host →
  tn_serve hu x (GetResolve q) [] w
  = (Ok (match resolve_verified_domain host (tw_db w) with Some r => SendJSON 200 (JResolution r) | None => SendStatus 404 end),
     ([], w)).
Proof.
  intros Hi Hn. cbn [tn_serve]. unfold th_resolve. rewrite internal_returns by done. cbn [th_service on_repository].
  erewrite reply_returns by (by apply Resolve_returns). by destruct (resolve_verified_domain host (tw_db w)).
Qed.

Lemma serves_suspend w d0 :
  well_planned h d0 p input s dinput host token → tenant_ok (tw_db w) → live_tenant tenant (tw_db w) = true →
  audit (tw_db w) = audit d0 →
  ∃ t d', tn_serve hu (p_suspend p).1 (PostSuspendTenant (p_suspend p).2) [] w
    = (Ok (SendJSON 200 (JTenant t)), ([], mkTWorld d' (tw_cache w))) ∧ Tn_Status t = "suspended"%string ∧
    domains d' = domains (tw_db w) ∧ live_tenant tenant d' = false ∧ tenant_ok d'.
Proof.
  intros Hp Hd Hl Ha. destruct (wp_params _ _ _ _ _ _ _ _ Hp) as (_ & _ & _ & Hpar),
    (wp_actor _ _ _ _ _ _ _ _ Hp) as (Ha1 & Ha2 & Ha3 & Ha4), (wp_fresh _ _ _ _ _ _ _ _ Hp) as (_ & _ & Hf).
  destruct (SetTenantStatus_returns (ts_allowLocalhost (th_service h)) (p_suspend p).1 (Params (p_suspend p).2 "id") tenant
    "suspended" (Header (p_suspend p).2 "X-Platform-Actor") (Header (p_suspend p).2 RequestIDHeader) w)
    as (t & d' & E & _ & Es & Hx); [by rewrite Hpar, uuid_Parse_String|done..| |by rewrite Ha|].
  { apply existsb_elem in Hl as (y & Hy & Ey). bsimpl. apply has_tenant_iff. eauto. }
  exists t, d'. split; [|split; [done|]].
  - cbn [tn_serve]. unfold th_setTenantStatus. rewrite internal_returns by apply Hp. by rewrite (reply_returns _ _ _ _ _ _ E).
  - assert (tenant_ok d') as Hok by (by eapply exec_ok; [exact Hd| |exact Hx]). cbn [exec] in Hx. case_match; [|done].
    injection Hx as <-. split; [done|]. split; [|done].
    apply existsb_none. intros y' (y & Hy & ->)%elem_of_upd. destruct (tn_id y ==? tenant) eqn:Ey; [|by rewrite Ey].
    unfold tenant_live. cbn [tn_status tn_with_status]. rewrite andb_comm. by rewrite (bool_decide_false (_ = _)).
Qed.
End Direct.

Lemma live_same t d d' : tenants d' = tenants d → live_tenant t d' = live_tenant t d.
Proof. unfold live_tenant. by intros ->. Qed.

(** The hostname leads to the tenant as long as it is active. *)
Lemma switched_resolves d p dinput host token :
  tenant_ok d → plain_host host → switched p dinput host token ∈ domains d →
  resolve_verified_domain host d
  = if live_tenant (p_tenant p) d then Some (mkDomainResolution (p_tenant p) (CD_DomainType dinput)) else None.
Proof.
  intros Hd Hh Hr. destruct (live_tenant (p_tenant p) d) eqn:El.
  - apply resolve_iff; [done..|]. by exists (switched p dinput host token).
  - destruct (resolve_verified_domain host d) as [v|] eqn:E; [|done].
    apply resolve_iff in E as (r & (Hr' & Eh & _ & _ & Hl) & _); [|done..].
    assert (r = switched p dinput host token) as -> by (by eapply (NoDup_map_eq dm_host); [apply Hd|..]).
    cbn in Hl. congruence.
Qed.

(** The answers to the history. *)
Definition answers_of (p : steps) (input : CreateTenantInput) (s : Settings) (dinput : CreateDomainInput)
    (host token : string) (suspended : Tenant) : list (res tapp_error (Response tenant_json)) :=
  [Ok (SendJSON 201 (JTenant (mkTenant (p_tenant p) (TrimSpace (CT_Name input)) "active" (td_now (p_open p).1)
                                (set_tenant (p_tenant p) s))));
   Ok (SendJSON 201 (JDomain (with_token token (newDomain (pending p dinput host token)))));
   Ok (SendJSON 200 (JDomain (newDomain (proven p dinput host token))));
   Ok (SendJSON 200 (JDomain (newDomain (switched p dinput host token))));
   Ok (SendJSON 200 (JResolution (mkDomainResolution (p_tenant p) (CD_DomainType dinput))));
   Ok (SendJSON 200 (JTenant suspended));
   Ok (SendStatus 404)].

Lemma onboarding_direct h w p input s dinput host token :
  tenant_ok (tw_db w) → well_planned h (tw_db w) p input s dinput host token →
  ∃ suspended, (replay (on_repository without_cache h) (history p) w).1 = answers_of p input s dinput host token suspended ∧
    Tn_Status suspended = "suspended"%string.
Proof.
  intros Hd Hp. destruct (wp_host _ _ _ _ _ _ _ _ Hp) as (Hh & Hh1 & Hh2), (wp_internal _ _ _ _ _ _ _ _ Hp) as (_ & _ & _ & _ & I4 & _ & I6).
  pose proof (NormalizeHostname_plain _ _ _ Hh) as Hplain.
  destruct (serves_open h p input s dinput host token w Hd Hp) as (d1 & E1 & H1d & H1dom & H1a & H1l).
  destruct (serves_register h p input s dinput host token (mkTWorld d1 (tw_cache w)) _ Hp H1d H1dom H1l)
    as (d2 & E2 & H2d & H2r & H2t & H2a). cbn [tw_db tw_cache] in *.
  destruct (serves_verify h p input s dinput host token (mkTWorld d2 (tw_cache w)) _ Hp H2d H2r)
    as (d3 & E3 & H3d & H3r & H3t & H3a). cbn [tw_db tw_cache] in *.
  destruct (serves_activate h p input s dinput host token (mkTWorld d3 (tw_cache w)) _ Hp H3d H3r)
    as (d4 & E4 & H4d & H4r & H4t & H4a); [cbn; by rewrite (live_same _ _ _ H3t), (live_same _ _ _ H2t)|].
  cbn [tw_db tw_cache] in *. assert (live_tenant (p_tenant p) d4 = true) as H4l.
  { by rewrite (live_same _ _ _ H4t), (live_same _ _ _ H3t), (live_same _ _ _ H2t). }
  destruct (serves_suspend h p input s dinput host token (mkTWorld d4 (tw_cache w)) _ Hp H4d H4l)
    as (t & d5 & E5 & Hst & H5dom & H5l & H5d); [cbn; congruence|]. cbn [tw_db tw_cache] in *.
  exists t. split; [|done]. unfold history.
  rewrite (serve_eq _ _ _ _ _ _ _ E1), (serve_eq _ _ _ _ _ _ _ E2), (serve_eq _ _ _ _ _ _ _ E3), (serve_eq _ _ _ _ _ _ _ E4).
  rewrite (serve_eq _ _ _ _ _ _ _ (serves_ask h host (p_ask p).1 (p_ask p).2 (mkTWorld d4 (tw_cache w)) I4 Hh1)).
  rewrite (serve_eq _ _ _ _ _ _ _ E5).
  rewrite (serve_eq _ _ _ _ _ _ _ (serves_ask h host (p_ask_again p).1 (p_ask_again p).2 (mkTWorld d5 (tw_cache w)) I6 Hh2)).
  cbn [tw_db fst replay]. rewrite (switched_resolves d4 p dinput host token) by done.
  rewrite (switched_resolves d5 p dinput host token) by (done || by rewrite H5dom). by rewrite H4l, H5l.
Qed.

(** The way of a tenant through the service: with valid input and no
    failures, with the cache or without it, creating the tenant, registering a
    new hostname for it, publishing the value the registration returned in the
    DNS, verifying and activating are all answered with success, the hostname
    then resolves to the tenant with the registered type, and once the tenant
    is suspended the same question is answered "not found". *)
Theorem tenant_way r h w p input s dinput host token :
  tenant_ok (tw_db w) → coherent w → well_planned h (tw_db w) p input s dinput host token →
  ∃ suspended, (replay (on_repository r h) (history p) w).1 = answers_of p input s dinput host token suspended ∧
    Tn_Status suspended = "suspended"%string.
Proof.
  intros Hd Hc Hp. destruct (onboarding_direct h w p input s dinput host token Hd Hp) as (t & E & Hs). exists t. split; [|done].
  destruct r as [[]]; [|exact E]. rewrite <- E. apply (replay_matched h (history p) w w). by constructor.
Qed.
End Onboarding.

(** ** Concrete requests *)

Section Examples.
#[local] Instance sample_lib : GoLib := TestLib.
#[local] Instance sample_accounts : AccountLib := TestAccounts.
#[local] Instance sample_lib_laws : GoLibLaws := TestLib_laws.

Lemma ascii_lower_plain s : plain_host s → ascii_lower s = s.
Proof.
  unfold plain_host. induction s as [|c s IH]; [done|]. cbn [list_ascii_of_string ascii_lower]. intros [Hc Hs]%Forall_cons_1.
  rewrite IH by done. destruct (_ && _) eqn:E; [|done]. exfalso. bsimpl. destruct Hc as [Hc| ->]; [|by vm_compute in *].
  unfold host_char in Hc. apply orb_true_iff in Hc as [Hc|Hc]; [apply orb_true_iff in Hc as [Hc|Hc]; bsimpl; lia|].
  bsimpl. subst c. by vm_compute in *.
Qed.
#[local] Instance sample_lower : LowerLaws := ascii_lower_plain.

Definition sample_handler : TenantHandler :=
  mkTenantHandler (mkTenantService with_cache true) (NewMultiTokenVerifier ["t"%string]) "t".
Definition sample_request {B} (body : option B) : Request B :=
  mkRequest "POST"
    (λ name, if name ==? InternalTokenHeader then "t"%string else if name ==? RequestIDHeader then "req-1"%string
             else if name ==? "X-Platform-Actor"%string then "operator"%string else EmptyString)
    (λ name, if name ==? "id"%string then digits_of 1 else if name ==? "domain_id"%string then digits_of 2 else EmptyString)
    (λ name, if name ==? "hostname"%string then "shop.example"%string else EmptyString)
    body.
(** The DNS shows the value of the token "abc". *)
Definition sample_dns (name : string) : option (list string) :=
  if name ==? "_barber-verify.shop.example"%string then Some ["v=spf1"; "barber-verify=abc"]%string else None.
Definition sample_draw (id : uuid) (now : time) : tdraw :=
  mkTDraw id (Some "abc"%string) now (mkStamp now now) (mkStamp now now) sample_dns (λ _, TransportFailed).

Definition sample_input : CreateTenantInput := mkCreateTenantInput " Shop " no_settings.
Definition sample_domain : CreateDomainInput := mkCreateDomainInput "Shop.Example." "booking".
Definition sample_steps : steps :=
  mkSteps (sample_draw 1 0, sample_request (Some sample_input)) (sample_draw 2 1, sample_request (Some sample_domain))
    (sample_draw 3 2, sample_request (Some tt)) (sample_draw 4 3, sample_request (Some tt))
    (sample_draw 5 4, sample_request (Some tt)) (sample_draw 6 5, sample_request (Some tt))
    (sample_draw 7 6, sample_request (Some tt)).
Definition empty_world : tworld := mkTWorld no_tables ∅.

Lemma no_tables_ok : tenant_ok no_tables.
Proof. constructor; cbn; try constructor; set_solver. Qed.
Lemma empty_coherent : coherent empty_world.
Proof. intros k v e Hk. cbn in Hk. by rewrite lookup_empty in Hk. Qed.

Lemma sample_planned :
  well_planned sample_handler no_tables sample_steps sample_input DefaultSettings sample_domain "shop.example" "abc".
Proof.
  constructor; cbn [p_open p_register p_verify p_activate p_ask p_suspend p_ask_again sample_steps fst snd];
    try (repeat split; by vm_compute).
  - split; [done|]. split; cbn; set_solver.
  - eexists. split; [by vm_compute|]. apply list_elem_of_In. right. by left.
Qed.

Lemma tenant_way_witness :
  ∃ suspended, (replay (on_repository with_cache sample_handler) (history sample_steps) empty_world).1
    = answers_of sample_steps sample_input DefaultSettings sample_domain "shop.example" "abc" suspended.
Proof.
  destruct (tenant_way with_cache sample_handler empty_world sample_steps sample_input DefaultSettings sample_domain
    "shop.example" "abc" no_tables_ok empty_coherent sample_planned) as (t & E & _).
  exists t. exact E.
Defined.

Lemma cache_invisible_witness :
  (replay (on_repository with_cache sample_handler) (history sample_steps) empty_world).1
  = (replay (on_repository without_cache sample_handler) (history sample_steps) empty_world).1.
Proof. exact (proj1 (cache_invisible sample_handler (history sample_steps) empty_world no_tables_ok empty_coherent)). Defined.

(** The first request opens the tenant. *)
Lemma tenant_requests_witness :
  let w' := (tn_serve sample_handler (sample_draw 1 0) (PostTenant (sample_request (Some sample_input))) [] empty_world).2.2 in
  tenant_ok (tw_db w') ∧ tw_db w' ≠ no_tables ∧
  executes (issues sample_handler (sample_draw 1 0) (PostTenant (sample_request (Some sample_input))) no_tables) no_tables (tw_db w').
Proof.
  intros w'. assert (tw_db w' ≠ no_tables) as Hne by (by vm_compute).
  destruct (tenant_requests sample_handler (sample_draw 1 0) (PostTenant (sample_request (Some sample_input))) [] empty_world
    no_tables_ok) as [Hok [E|Hx]]; [by destruct Hne|]. by split; [|split].
Defined.

Lemma served_replay h l hist w :
  served h hist (tw_db w) → served h (hist ++ l) (tw_db (replay h l w).2).
Proof.
  revert hist w. induction l as [|[x route] l IH]; intros hist w Hs; cbn [replay]; [by rewrite app_nil_r|].
  pose proof (served_request h hist x route [] w Hs) as Hs'. unfold run.
  destruct (tn_serve h x route [] w) as [v [fs w']]. cbn in Hs'.
  specialize (IH _ w' Hs'). destruct (replay h l w') as [vs w'']. cbn in *. by rewrite <- app_assoc in IH.
Qed.

(** After the activation the hostname leads to the tenant. *)
Definition sample_history : list (tdraw * tenant_route) := take 4 (history sample_steps).
Definition sample_world : tworld := (replay sample_handler sample_history empty_world).2.
Definition sample_resolution : DomainResolution := mkDomainResolution 1 "booking".

(** The settings are in the cache after the tenant was created. *)
Lemma acknowledged_update_lost_witness :
  let row := settings_params 1 DefaultSettings in
  ∃ w1 w2,
    (Tenant_UpdateSettings (th_service sample_handler) (sample_draw 8 10) (uuid_String 1%N) (patch_interval 30)
       (replicate 5 FOk ++ [FFail]) sample_world).1 = Ok (settingsFrom (with_interval 30 row)) ∧
    stored 1 (tw_db w1) = Some (with_interval 30 row) ∧ stored 1 (tw_db w2) = Some (with_horizon 90 row).
Proof.
  intros row.
  destruct (acknowledged_update_lost (th_service sample_handler) (sample_draw 8 10) (sample_draw 9 20) 1 row
    (0 + cache_ttl) 30 90 sample_world) as (w1 & w2 & E1 & H1 & _ & H2);
    [by vm_compute|done|by vm_compute|by vm_compute|by repeat split; vm_compute|by vm_compute|by vm_compute..|lia|lia|].
  exists w1, w2. by rewrite E1.
Defined.

(** *** A race

    A resolution reads the tables, the tenant is suspended and its hostname
    evicted from the cache, then the resolution stores what it read: the
    hostname leads to the suspended tenant until the entry expires. *)
Definition race_host : string := "shop.example".
Definition race_db : tenantdb := tw_db sample_world.
Definition race_entry : audit_row := mkAuditRow 6 "operator" "tenant.suspended" (Some 1%N) "req-1" [("status"%string, "suspended"%string)] Second.
Definition race_suspended : tenantdb := default race_db (exec (SetStatus 1 "suspended" race_entry) race_db).
Definition race_cache : tcache := <[domainCacheKey race_host := (CachedResolution sample_resolution, Second + cache_ttl)]> ∅.
Definition race : list sys :=
  [mkSys (241 * Second) race_suspended race_cache [];
   mkSys (241 * Second) race_suspended race_cache [Looking race_host];
   mkSys (241 * Second) race_suspended race_cache [];
   mkSys Second race_suspended race_cache [];
   mkSys Second race_suspended (delete (domainCacheKey race_host) ∅) [Fetched race_host (Some sample_resolution) 0];
   mkSys Second race_suspended ∅ [Fetched race_host (Some sample_resolution) 0];
   mkSys Second race_db ∅ [Fetched race_host (Some sample_resolution) 0];
   mkSys 0 race_db ∅ [Fetched race_host (Some sample_resolution) 0];
   mkSys 0 race_db ∅ [Missed race_host];
   mkSys 0 race_db ∅ [Looking race_host];
   mkSys 0 race_db ∅ []].
Definition race_answers : list answer :=
  [(241 * Second, (race_host, Some sample_resolution)); (Second, (race_host, Some sample_resolution))].

Lemma race_execution : execution (2 * Second) race race_answers.
Proof.
  assert (resolve_verified_domain race_host race_db = Some sample_resolution) as Hr by (by vm_compute).
  unfold race, race_answers.
  apply (ex_step _ _ _ [(Second, (race_host, Some sample_resolution))] [(241 * Second, (race_host, Some sample_resolution))]);
    [|by apply (Hit _ _ _ _ [] [] race_host (CachedResolution sample_resolution)); vm_compute].
  apply (ex_step _ _ _ _ []); [|apply Arrive].
  apply (ex_step _ _ _ _ []); [|by apply (Tick _ Second _ _ _ (240 * Second))].
  apply (ex_step _ _ _ [] [(Second, (race_host, Some sample_resolution))]).
  2: { unfold race_cache. replace (∅ : tcache) with (delete (domainCacheKey race_host) (∅ : tcache)) by apply delete_empty.
    by apply (Store _ _ _ _ [] [] race_host sample_resolution 0). }
  apply (ex_step _ _ _ _ []); [|apply Evict].
  apply (ex_step _ _ _ _ []); [|apply (Command _ _ _ _ _ (SetStatus 1 "suspended" race_entry)); by vm_compute].
  apply (ex_step _ _ _ _ []); [|by apply (Tick _ 0 _ _ _ Second)].
  apply (ex_step _ _ _ _ []); [|rewrite <- Hr; by apply (Fetch _ _ _ _ [] [] race_host)].
  apply (ex_step _ _ _ _ []); [|by apply (Miss _ _ _ _ [] [] race_host)].
  apply (ex_step _ _ _ _ []); [|apply Arrive]. apply ex_start.
Qed.

(** Four minutes after the suspension and the eviction the hostname still leads
    to the tenant. *)
Lemma suspended_tenant_still_resolves :
  execution (2 * Second) race race_answers ∧
  resolve_verified_domain race_host race_suspended = None ∧
  (241 * Second, (race_host, Some sample_resolution)) ∈ race_answers.
Proof. split; [apply race_execution|]. split; [by vm_compute|]. apply list_elem_of_In. by left. Qed.

Lemma resolution_age_bounded_witness :
  ∃ p, p ∈ race ∧ resolve_verified_domain race_host (sy_db p) = Some sample_resolution ∧
    241 * Second - (5 * Minute + 2 * Second) < sy_now p <= 241 * Second.
Proof.
  exact (proj1 (resolution_age_bounded (2 * Second) race race_answers (241 * Second) race_host (Some sample_resolution)
    race_execution (proj2 (proj2 suspended_tenant_still_resolves)))).
Defined.
End Examples.
