(* ===== verification/FrontDoor.v ===== *)
(** * FrontDoor: the gateway connected to the tenant service

    The gateway asks the tenant service which tenant a host name belongs to
    ([gateway-service/internal/service/resolver.go] calls the route
    [/internal/v1/domains/resolve] of [tenant-service/internal/handler]).  Here
    the network between them is filled in: a resolution is answered by
    [tn_serve] in a state the tenant service can be in, cache included, or it
    fails.  The connection goes through the query of the URL and a JSON body,
    whose encoders are the class [Wire]. *)
From S2P Require Import Prelude Effects GoTime Http Platform Accounts Gateway Tenant TenantRegistry TenantCache TenantOnboarding.

Local Open Scope Z_scope.

(** ** Where cached resolutions come from *)

Section Provenance.
Context `{GoLib, AccountLib}.

(** The resolution [v] is cached for [host]. *)
Definition remembers (w : tworld) (host : string) (v : cached) : Prop :=
  ∃ e, tw_cache w !! domainCacheKey host = Some (v, e).

(** No resolution enters the cache. *)
Definition forgets (w w' : tworld) : Prop := ∀ host v, remembers w' host v → remembers w host v.

(** A resolution enters the cache only as the tables have it. *)
Definition learns (w w' : tworld) : Prop :=
  tw_db w' = tw_db w ∧
  ∀ host v, remembers w' host v →
    remembers w host v ∨ ∃ r, v = CachedResolution r ∧ resolve_verified_domain host (tw_db w) = Some r.

#[export] Instance forgets_preorder : PreOrder forgets.
Proof. split; [by intros w h v|]. intros w1 w2 w3 H1 H2 h v Hv. by apply H1, H2. Qed.
#[export] Instance learns_preorder : PreOrder learns.
Proof.
  split; [by split; [|auto]|]. intros w1 w2 w3 [E1 H1] [E2 H2]. split; [congruence|]. intros h v Hv.
  destruct (H2 h v Hv) as [Hv'|(r & -> & Hr)]; [by apply H1|]. right. exists r. by rewrite <- E1.
Qed.

Lemma forgets_tdb {A} (m : TdM A) : step_in forgets (tdb m).
Proof. intros fs w host v. rewrite tdb_eq. done. Qed.
Lemma learns_tdb {A} (m : TdM A) : readonly m → step_in learns (tdb m).
Proof.
  intros Hm fs w. specialize (Hm fs (tw_db w)). rewrite tdb_eq. split; [by symmetry|]. intros host v Hv. by left.
Qed.

Lemma cache_do_cases f fs w : (cache_do f fs w).2.2 = w ∨ (cache_do f fs w).2.2 = mkTWorld (tw_db w) (f (tw_cache w)).
Proof. unfold cache_do. destruct (pop fs) as [[] fs']; cbn; auto. Qed.
Lemma forgets_cache_do f :
  (∀ c host, f c !! domainCacheKey host = c !! domainCacheKey host ∨ f c !! domainCacheKey host = None) →
  step_in forgets (cache_do f).
Proof.
  intros Hf fs w host v. destruct (cache_do_cases f fs w) as [->| ->]; [done|]. intros (e & He). cbn in He.
  destruct (Hf (tw_cache w) host) as [E|E]; rewrite E in He; [by exists e|done].
Qed.

Lemma same_cache_get r now key fs w : (cache_get r now key fs w).2.2 = w.
Proof. unfold cache_get. destruct (cache_on r); [|done]. by destruct (pop fs) as [[] fs']. Qed.
Lemma forgets_cache_get r now key : step_in forgets (cache_get r now key).
Proof. intros fs w. by rewrite same_cache_get. Qed.
Lemma learns_cache_get r now key : step_in learns (cache_get r now key).
Proof. intros fs w. rewrite same_cache_get. reflexivity. Qed.
Lemma forgets_cache_del r key : step_in forgets (cache_del r key).
Proof.
  unfold cache_del. destruct (cache_on r); [|by apply step_in_ret, _]. apply forgets_cache_do. intros c host.
  destruct (decide (key = domainCacheKey host)) as [->|Hne]; [right; apply lookup_delete_eq|left; by apply lookup_delete_ne].
Qed.
Lemma forgets_cacheSettings r now s : step_in forgets (cacheSettings r now s).
Proof.
  unfold cacheSettings, cache_set. case_match; [by apply step_in_ret, _|]. destruct (cache_on r); [|by apply step_in_ret, _].
  apply forgets_cache_do. intros c host. left. apply lookup_insert_ne. intros E. symmetry in E. by apply keys_differ in E.
Qed.
#[local] Hint Resolve forgets_tdb forgets_cache_get forgets_cache_del forgets_cacheSettings : barber.

Lemma forgets_invalidate r l : step_in forgets (invalidate_all r l).
Proof. induction l; cbn [invalidate_all]; unfold invalidateDomain; solve_step. Qed.
#[local] Hint Resolve forgets_invalidate : barber.

Lemma forgets_Settings r x t : step_in forgets (TRepository_Settings r x t).
Proof. unfold TRepository_Settings, load_settings. solve_step. Qed.
#[local] Hint Resolve forgets_Settings : barber.

Lemma forgets_change_domain r t f : step_in forgets (change_domain r t f).
Proof. unfold change_domain, invalidateDomain. solve_step. Qed.
#[local] Hint Resolve forgets_change_domain : barber.

Lemma forgets_calling {E F A} (f : E -> F) (m : IO tworld E A) : step_in forgets m → step_in forgets (calling f m).
Proof. apply (step_in_calling forgets). Qed.
#[local] Hint Resolve forgets_calling : barber.

(** The routes that look a hostname up. *)
Definition looks_up (route : tenant_route) : bool :=
  match route with GetResolve _ | GetTLSAuthorize _ => true | _ => false end.

Lemma forgets_reply {A} (m : TApp A) fail ok : step_in forgets m → step_in forgets (t_reply m fail ok).
Proof. intros Hm. unfold t_reply. solve_step. Qed.
Lemma forgets_internal {B} h (r : Request B) m : step_in forgets m → step_in forgets (internal_only h r m).
Proof. intros Hm. unfold internal_only. solve_step. Qed.
Lemma forgets_context {B} (r : Request B) k : (∀ t, step_in forgets (k t)) → step_in forgets (with_context r k).
Proof. intros Hk. unfold with_context. solve_step. Qed.
#[local] Hint Resolve forgets_reply forgets_internal forgets_context : barber.

Lemma forgets_route h x route : looks_up route = false → step_in forgets (tn_serve h x route).
Proof.
  destruct route; intros E; try done; clear E;
    unfold tn_serve, th_publicConfig, th_internalSettings, th_adminSettings, th_updateAdminSettings, th_tenants,
      th_tenant, th_setTenantStatus, th_createTenant, th_platformAudit, th_domains, th_createDomain, th_verifyDomain,
      th_activateDomain, th_deactivateDomain, domain_handler, Tenant_Settings, Tenant_UpdateSettings,
      Tenant_CreateTenant, Tenant_Tenant, Tenant_Tenants, Tenant_SetTenantStatus, Tenant_PlatformAudit,
      Tenant_CreateDomain, Tenant_Domains, Tenant_VerifyDomain, Tenant_ActivateDomain, Tenant_DeactivateDomain,
      parseIDs, with_id, trepo, TRepository_UpdateSettings, TRepository_CreateTenant, TRepository_Tenant,
      TRepository_Tenants, TRepository_SetTenantStatus, TRepository_PlatformAudit, TRepository_CreateDomain,
      TRepository_Domains, TRepository_Domain, TRepository_DomainForVerification,
      TRepository_MarkVerificationSucceeded, TRepository_MarkVerificationFailed, TRepository_ActivateDomain,
      TRepository_DeactivateDomain; cbv zeta.
  all: repeat first [step_step | progress (apply forgets_reply || apply forgets_internal || apply forgets_context || apply forgets_calling)].
Qed.

(** What a lookup answers and remembers. *)
Lemma cache_get_remembers r now host fs w :
  ∃ hit fs', cache_get r now (domainCacheKey host) fs w = (Ok hit, (fs', w)) ∧ ∀ v, hit = Some v → remembers w host v.
Proof.
  unfold cache_get. destruct (cache_on r); [|by exists None, fs]. destruct (pop fs) as [[] fs']; [|by exists None, fs'..].
  eexists _, _. split; [done|]. intros v (e & He)%live_cached. by exists e.
Qed.
Lemma learns_cache_set r now host v w fs :
  resolve_verified_domain host (tw_db w) = Some v →
  learns w (cache_set r now (domainCacheKey host) (CachedResolution v) fs w).2.2.
Proof.
  intros Hv. unfold cache_set. destruct (cache_on r); [|done].
  destruct (cache_do_cases <[domainCacheKey host := (CachedResolution v, now + cache_ttl)]> fs w) as [->| ->]; [done|].
  split; [done|]. intros host' v' (e & He). cbn in He.
  destruct (decide (host' = host)) as [->|Hne].
  - rewrite lookup_insert_eq in He. injection He as <- _. eauto.
  - rewrite lookup_insert_ne in He by (intros E; by apply domainCacheKey_inj in E). left. by exists e.
Qed.

Definition lookup_answer (w : tworld) (host : string) (v : DomainResolution) : Prop :=
  (∃ c, remembers w host c ∧ v = as_resolution c) ∨ resolve_verified_domain host (tw_db w) = Some v.

Lemma ResolveDomain_learns r x host fs w :
  let o := TRepository_ResolveDomain r x host fs w in
  learns w o.2.2 ∧ ∀ v, o.1 = Ok v → lookup_answer w host v.
Proof.
  cbv zeta. unfold TRepository_ResolveDomain. rewrite bind_eq.
  destruct (cache_get_remembers r (st_get x) host fs w) as (hit & fs1 & -> & Hhit).
  destruct hit as [c|]; [split; [reflexivity|]; intros v [= <-]; left; eauto|].
  rewrite bind_eq. set (m := calling no_rows _).
  pose proof (learns_tdb m (readonly_read _ _) fs1 w) as Hw.
  pose proof (λ a, tdb_Ok m fs1 w a (commits_read _ _)) as Hr.
  destruct (tdb m fs1 w) as [[v|e] [fs2 w']]; cbn [fst snd] in *; [|by split].
  specialize (Hr v eq_refl). subst m. rewrite run_read in Hr.
  assert (resolve_verified_domain host (tw_db w) = Some v) as Hv.
  { destruct (negb (text_ok host)); [done|]. unfold or_no_rows in Hr. destruct (resolve_verified_domain host (tw_db w)); [|done].
    by injection Hr as ->. }
  rewrite bind_eq. destruct Hw as [Ed Hw]. pose proof (learns_cache_set r (st_set x) host v w' fs2) as Hs.
  rewrite Ed in Hs. specialize (Hs Hv). destruct (cache_set _ _ _ _ fs2 w') as [[[]|e] [fs3 w3]]; cbn in *;
    (split; [transitivity w'; [by split|done]|]); [|done]. intros v' [= <-]. by right.
Qed.
Lemma learns_ResolveDomain r x host : step_in learns (TRepository_ResolveDomain r x host).
Proof. intros fs w. apply ResolveDomain_learns. Qed.
Lemma learns_lookup h x route : looks_up route = true → step_in learns (tn_serve h x route).
Proof.
  destruct route; intros E; try done; clear E;
    unfold tn_serve, th_resolve, th_tlsAuthorize, internal_only, t_reply, Tenant_Resolve, Tenant_TLSAuthorized, trepo, calling;
    cbv zeta; repeat first [step_step | apply learns_ResolveDomain].
Qed.
End Provenance.

(** ** States of the tenant service *)

Section Histories.
Context `{GoLib, AccountLib}.

(** The tables and the cache after a history of requests, with any failures;
    Redis may drop entries at any time. *)
Inductive reached (h : TenantHandler) : list (tdraw * tenant_route) -> tworld -> Prop :=
| reached_nil : reached h [] (mkTWorld no_tables ∅)
| reached_request hist x route fs w :
    reached h hist w → reached h (hist ++ [(x, route)]) (tn_serve h x route fs w).2.2
| reached_evict hist w c : reached h hist w → c ⊆ tw_cache w → reached h hist (mkTWorld (tw_db w) c).

(** At some point of the history the tables resolved the host name so. *)
Definition vouched (h : TenantHandler) (hist : list (tdraw * tenant_route)) (host : string) (v : DomainResolution) : Prop :=
  ∃ before d, before `prefix_of` hist ∧ served h before d ∧ resolve_verified_domain host d = Some v.

Lemma vouched_mono h hist more host v : vouched h hist host v → vouched h (hist ++ more) host v.
Proof. intros (before & d & Hp & Hs & Hr). exists before, d. split; [by apply prefix_app_r|done]. Qed.

Lemma reached_vouched h hist w :
  reached h hist w →
  served h hist (tw_db w) ∧ ∀ host c, remembers w host c → ∃ v, c = CachedResolution v ∧ vouched h hist host v.
Proof.
  induction 1 as [|hist x route fs w _ [Hs Hc]|hist w c _ [Hs Hc] Hsub].
  - split; [constructor|]. intros host c (e & He). cbn in He. by rewrite lookup_empty in He.
  - split; [by constructor|]. intros host c Hr. destruct (looks_up route) eqn:El.
    + destruct (learns_lookup h x route El fs w) as [_ Hl]. destruct (Hl host c Hr) as [Hr'|(v & -> & Hv)].
      * destruct (Hc host c Hr') as (v & -> & Hv). exists v. split; [done|]. by apply vouched_mono.
      * exists v. split; [done|]. exists hist, (tw_db w). split; [by apply prefix_app_r|done].
    + destruct (Hc host c (forgets_route h x route El fs w host c Hr)) as (v & -> & Hv).
      exists v. split; [done|]. by apply vouched_mono.
  - split; [done|]. intros host v (e & He). apply (Hc host v). exists e. by eapply lookup_weaken.
Qed.

(** The route that resolves host names answers only with such resolutions. *)
Lemma resolve_vouched h hist w x q fs status v :
  reached h hist w → (tn_serve h x (GetResolve q) fs w).1 = Ok (SendJSON status (JResolution v)) →
  ∃ host, NormalizeHostname (Query q "hostname"%string) (ts_allowLocalhost (th_service h)) = Some host ∧
    vouched h hist host v.
Proof.
  intros [Hs Hc]%reached_vouched. cbn [tn_serve]. unfold th_resolve, internal_only. destruct (negb _); [done|].
  unfold t_reply. rewrite attempt_bind. cbn. unfold Tenant_Resolve.
  destruct (NormalizeHostname _ _) as [host|]; [|done]. intros E. exists host. split; [done|].
  unfold trepo, calling in E. rewrite attempt_bind in E.
  destruct (ResolveDomain_learns (ts_repo (th_service h)) (td_first x) host fs w) as [_ Hv].
  destruct (TRepository_ResolveDomain _ _ _ fs w) as [[v'|e] [fs' w']]; cbn in *; [|by destruct e].
  injection E as _ ->. destruct (Hv v eq_refl) as [(c & Hr & ->)|Hd].
  - by destruct (Hc host c Hr) as (v & -> & Hv').
  - exists hist, (tw_db w). by split; [|split].
Qed.

(** The platform registered the domain, its owner proved control of it, and it
    was switched on. *)
Definition proven (h : TenantHandler) (hist : list (tdraw * tenant_route)) (r : domain_row) : Prop :=
  ∃ token, registered h hist r token ∧ confirmed h hist (dm_host r) token ∧ switched_on h hist (dm_tenant r) (dm_id r).

Lemma proven_prefix h before hist r : before `prefix_of` hist → proven h before r → proven h hist r.
Proof.
  intros [more ->] (token & (x & q & i & Hin & Hreg) & (x' & q' & l & a & Hin' & Hc) & (x2 & q2 & Hin2 & Ha)).
  exists token. split; [exists x, q, i; split; [set_solver|done]|].
  split; [exists x', q', l, a; split; [set_solver|done]|exists x2, q2; split; [set_solver|done]].
Qed.

Lemma vouched_proven `{!GoLibLaws, !LowerLaws} h hist host v :
  plain_host host → vouched h hist host v →
  ∃ r, dm_host r = host ∧ v = mkDomainResolution (dm_tenant r) (dm_type r) ∧ proven h hist r.
Proof.
  intros Hp (before & d & Hb & Hs & Hr).
  destruct (routing_proof h before d host v Hs Hr) as (r & token & _ & Eh & -> & Hreg & Hc & Ha & _).
  rewrite pg_lower_plain in Eh by done. exists r. split; [done|]. split; [done|].
  eapply proven_prefix; [done|]. by exists token.
Qed.
End Histories.

(** ** The connection *)

(** The query of a URL and the JSON of a resolution on both ends. *)
Class Wire := mkWire {
  QueryUnescape : string -> option string;
  resolution_json : string -> string -> string;
  other_json : Response tenant_json -> string
}.
Class WireLaws `{GatewayLib, Wire} := {
  QueryUnescape_Escape : ∀ s, QueryUnescape (QueryEscape s) = Some s;
  json_resolution_json : ∀ t a, json_resolution (resolution_json t a) = Some (t, a)
}.

Fixpoint cut_prefix (p s : string) : option string :=
  match p, s with
  | EmptyString, _ => Some s
  | String c p', String c' s' => if c ==? c' then cut_prefix p' s' else None
  | _, _ => None
  end.
Lemma cut_prefix_app p s : cut_prefix p (p +:+ s) = Some s.
Proof.
  induction p as [|c p IH]; [done|]. change (String c p +:+ s) with (String c (p +:+ s)). cbn [cut_prefix].
  by rewrite bool_decide_refl.
Qed.

Section Connected.
Context `{GoLib, AccountLib, GatewayLib, Wire}.

Definition no_headers (_ : string) : string := EmptyString.

(** The request as the route of the tenant service sees it. *)
Definition incoming (u : UpRequest) (host : string) : Request unit :=
  mkRequest (up_method u) (λ k, default EmptyString (hget k (up_header u))) no_headers
    (λ k, if k ==? "hostname"%string then host else EmptyString) None.

Definition sent_back (v : res tapp_error (Response tenant_json)) : up_result :=
  match v with
  | Ok (SendJSON status (JResolution r)) =>
      UpReply status no_headers [] (Some (resolution_json (uuid_String (DR_TenantID r)) (DR_AppType r)))
  | Ok reply => UpReply (status_of reply) no_headers [] (Some (other_json reply))
  | Err _ => UpReply 500 no_headers [] (Some EmptyString)
  end.

(** The tenant service behind [base] answers a lookup. *)
Definition answer_lookup (th : TenantHandler) (base : string) (x : tdraw) (fs : list fault) (w : tworld) (u : UpRequest)
  : option (up_result * tworld) :=
  match cut_prefix (base +:+ "/internal/v1/domains/resolve?hostname=") (up_url u) with
  | None => None
  | Some raw =>
      match QueryUnescape raw with
      | None => None
      | Some host =>
          let '(v, (_, w')) := tn_serve th x (GetResolve (incoming u host)) fs w in Some (sent_back v, w')
      end
  end.

(** What the gateway, having sent [log], asks of the tenant service fails in
    the network or is answered by it in the state [w]. *)
Definition connected (gh : Handler) (th : TenantHandler) (w : tworld) (net : list UpRequest -> UpRequest -> up_result)
    (log : list UpRequest) : Prop :=
  ∀ host, let u := resolve_request (h_resolver gh) host in
    (∃ timeout, net log u = UpErr timeout) ∨
    ∃ x fs reply w', answer_lookup th (Resolver_baseURL (h_resolver gh)) x fs w u = Some (reply, w') ∧ net log u = reply.

Lemma answer_host_lookup `{!WireLaws} th gh x fs w host :
  let u := resolve_request (h_resolver gh) host in
  answer_lookup th (Resolver_baseURL (h_resolver gh)) x fs w u
  = let o := tn_serve th x (GetResolve (incoming u host)) fs w in Some (sent_back o.1, o.2.2).
Proof.
  cbv zeta. unfold answer_lookup. cbn [up_url resolve_request].
  replace (Resolver_baseURL (h_resolver gh) +:+ "/internal/v1/domains/resolve?hostname=" +:+ QueryEscape host)%string
    with ((Resolver_baseURL (h_resolver gh) +:+ "/internal/v1/domains/resolve?hostname=") +:+ QueryEscape host)%string
    by (by rewrite string_app_assoc).
  rewrite cut_prefix_app, QueryUnescape_Escape. by destruct (tn_serve _ _ _ fs w) as [v [fs' w']].
Qed.

(** What the gateway makes of the answer. *)
Lemma resolve_replies th x q fs w :
  (∃ v, (tn_serve th x (GetResolve q) fs w).1 = Ok (SendJSON 200 (JResolution v))) ∨
  ∃ status reply, (tn_serve th x (GetResolve q) fs w).1 = Ok reply ∧ status_of reply = status ∧ status ≠ 200 ∧
    sent_back (Ok reply) = UpReply status no_headers [] (Some (other_json reply)).
Proof.
  cbn [tn_serve]. unfold th_resolve, internal_only. destruct (negb _); [right; by eexists _, _|].
  unfold t_reply. rewrite attempt_bind. cbn [fst mret io_mret io_ret].
  destruct (Tenant_Resolve _ _ _ fs w).1 as [v|e]; [left; by eexists|]. right.
  destruct e as [| | | | |[]|]; by eexists _, _.
Qed.

Lemma lookup_vouched `{!WireLaws, !GoLibLaws} gh th hist w net log c r :
  reached th hist w → connected gh th w net log → resolves net gh c log r →
  ∃ host v, NormalizeHostname (hostname c) (ts_allowLocalhost (th_service th)) = Some host ∧ vouched th hist host v ∧
    r = mkResolution (uuid_String (DR_TenantID v)) (DR_AppType v).
Proof.
  intros Hw Hnet Hr. unfold resolves, host_lookup in Hr. destruct (Hnet (hostname c)) as [[t E]|(x & fs & reply & w' & E & En)].
  { rewrite E in Hr. done. }
  rewrite En in Hr. rewrite answer_host_lookup in E. cbv zeta in E. injection E as <- _.
  set (q := incoming _ _) in *. change (th_resolve th x q) with (tn_serve th x (GetResolve q)) in Hr.
  destruct (resolve_replies th x q fs w) as [[v Ev]|(status & reply & Ev & _ & Hne & Es)]; rewrite Ev in Hr.
  - destruct (resolve_vouched th hist w x q fs 200 v Hw Ev) as (host & Hn & Hv). exists host, v.
    split; [exact Hn|]. split; [done|]. cbn in Hr. rewrite json_resolution_json in Hr. by injection Hr as <-.
  - rewrite Es in Hr. cbn in Hr. destruct (status =? 404); [done|]. destruct (status =? 200) eqn:E2; [|done]. by zeqs.
Qed.
End Connected.

(** C3: A browser reaches a tenant only through a host name whose owner proved
    control of it.  Whatever requests the tenant service served before, with any
    failures of its database and of Redis, and whatever Redis forgot: when the
    gateway, connected to it, serves any endpoint for any request, everything it
    sends that carries a tenant carries the tenant and the application type of a
    domain with exactly the (normalised) host name of the request; that domain
    was registered for the tenant by a caller with the internal token, a DNS
    answer for it matched the issued token, and it was switched on; and the
    endpoint serves hosts of that type. *)
Theorem front_door `{GoLib, AccountLib, GatewayLib, Wire, !WireLaws, !GoLibLaws, !LowerLaws}
    gh th hist w net e c log u tenant :
  reached th hist w → connected gh th w net log →
  u ∈ drop (length log) (serve net gh e c log).2 → hget TenantIDHeader (up_header u) = Some tenant →
  ∃ host r, NormalizeHostname (hostname c) (ts_allowLocalhost (th_service th)) = Some host ∧
    dm_host r = host ∧ tenant = uuid_String (dm_tenant r) ∧ hget AppTypeHeader (up_header u) = Some (dm_type r) ∧
    allowed e (mkResolution tenant (dm_type r)) ∧ proven th hist r.
Proof.
  intros Hw Hnet Hu Ht. destruct (edge_serve net gh e c log) as (sent & E & Hs). rewrite E, drop_app_length in Hu.
  rewrite Forall_forall in Hs. specialize (Hs u Hu).
  assert (∃ r, resolves net gh c log r ∧ allowed e r ∧ Res_TenantID r = tenant ∧
    hget AppTypeHeader (up_header u) = Some (Res_AppType r)) as (r & Hr & Ha & <- & Ea).
  { destruct Hs as [_ ->|r Hr Ha (_ & Et & Ea) _ _|r Hr Ha (_ & Et & Ea) _|_ _ (_ & Et & _) _
      |_ _ (name & base & _ & [->| ->])|_ (_ & (_ & Et & _) & _)]; rewrite ?Et in Ht; try done; exists r; simplify_eq; auto. }
  destruct (lookup_vouched gh th hist w net log c r Hw Hnet Hr) as (host & v & Hn & Hv & ->).
  destruct (vouched_proven th hist host v) as (row & Eh & -> & Hp); [by eapply NormalizeHostname_plain|done|].
  exists host, row. cbn in *. auto 10.
Qed.

(** ** What the front door does without failures *)

Section Fault_free.
Context `{GoLib, AccountLib, GatewayLib, Wire, !WireLaws, !GoLibLaws, !LowerLaws}.

(** Every lookup is answered, without failures, in the state [w]. *)
Definition healthy (gh : Handler) (th : TenantHandler) (w : tworld) (net : list UpRequest -> UpRequest -> up_result)
    (log : list UpRequest) : Prop :=
  ∀ host, let u := resolve_request (h_resolver gh) host in
    ∃ x reply w', answer_lookup th (Resolver_baseURL (h_resolver gh)) x [] w u = Some (reply, w') ∧ net log u = reply.

Lemma resolve_exact th x q w host :
  tenant_ok (tw_db w) → coherent w → internal th q = true →
  NormalizeHostname (Query q "hostname"%string) (ts_allowLocalhost (th_service th)) = Some host →
  (tn_serve th x (GetResolve q) [] w).1
  = Ok (match resolve_verified_domain host (tw_db w) with Some v => SendJSON 200 (JResolution v) | None => SendStatus 404 end).
Proof.
  intros Hok Hc Hi Hn. pose proof (serves_ask th host x q w Hi Hn) as Hu.
  assert (th = on_repository with_cache th ∨ th = on_repository without_cache th) as [E|E].
  { destruct th as [[[[]] allow] verify token]; [by left|by right]. }
  - destruct (sim_serve th x (GetResolve q) w w) as (v & wc & wu & E1 & E2 & _); [by constructor|].
    rewrite E2 in Hu. rewrite <- E in E1. rewrite E1. by injection Hu as ->.
  - rewrite <- E in Hu. by rewrite Hu.
Qed.

Lemma lookup_exact gh th w net log c host :
  tenant_ok (tw_db w) → coherent w → healthy gh th w net log →
  Verify (th_verify th) (Resolver_token (h_resolver gh)) = true →
  NormalizeHostname (hostname c) (ts_allowLocalhost (th_service th)) = Some host →
  resolution_of (net log (host_lookup gh c))
  = match resolve_verified_domain host (tw_db w) with
    | Some v => Ok (mkResolution (uuid_String (DR_TenantID v)) (DR_AppType v))
    | None => Err ErrNotFound
    end.
Proof.
  intros Hok Hc Hnet Hv Hn. destruct (Hnet (hostname c)) as (x & reply & w' & E & En). unfold host_lookup. rewrite En.
  rewrite answer_host_lookup in E. cbv zeta in E. injection E as <- _.
  change (th_resolve th x) with (λ q, tn_serve th x (GetResolve q)). cbv beta.
  rewrite (resolve_exact th x _ w host Hok Hc) by done.
  destruct (resolve_verified_domain host (tw_db w)) as [v|]; [|done]. cbn. by rewrite json_resolution_json.
Qed.

(** The request a service route stands for. *)
Definition forwards (gh : Handler) (base path : string) (c : Ctx) (r : Resolution) (u : UpRequest) : Prop :=
  up_method u = Ctx_Method c ∧ up_url u = (base +:+ proxy_target path c)%string ∧ up_body u = Ctx_Body c ∧
  carries u (Some (h_token gh)) (Some (Res_TenantID r)) (Some (Res_AppType r)) ∧ up_rawquery u = None.

(** At most the check of the customer's session. *)
Definition session_check (gh : Handler) (session : list UpRequest) : Prop :=
  session = [] ∨ ∃ s, session = [s] ∧ up_method s = "GET"%string ∧
    up_url s = (customerURL gh +:+ "/internal/v1/internal/customer/session")%string.

Lemma proxy_forwards gh net base path c log r :
  NewRequest_ok "GET" (up_url (host_lookup gh c)) = true → resolves net gh c log r →
  NewRequest_ok (Ctx_Method c) (base +:+ proxy_target path c) = true →
  ∃ session u,
    let before := log ++ [host_lookup gh c] ++ session in
    proxy net gh base path (Res_AppType r) c log = (forward_cookies (net before u), before ++ [u]) ∧
    session_check gh session ∧ forwards gh base path c r u.
Proof.
  intros Hlook Hr Hok. unfold proxy, resolved. unfold mbind at 1, gw_bind at 1. rewrite Resolve_run, Hr by done.
  rewrite bool_decide_refl. cbn [negb]. unfold NewRequest. rewrite Hok. cbv zeta.
  set (req := set_nonempty "Cookie" _ _).
  assert (forwards gh base path c r req) as Hreq.
  { split; [subst req; fields|]. split; [subst req; fields|]. split; [subst req; fields|].
    split; [repeat split; subst req; solve_hget|subst req; fields]. }
  assert (∀ o, forwards gh base path c r (match o with Some id => set_header "X-Customer-ID" id req | None => req end)) as Ho.
  { intros [id|]; [|done]. destruct Hreq as (E1 & E2 & E3 & (C1 & C2 & C3) & E4). repeat split; try done; cbn [up_header set_header];
      rewrite hget_hset; by rewrite bool_decide_false. }
  unfold mbind, gw_bind.
  destruct (customer_header_cases net gh base path r c (log ++ [host_lookup gh c])) as [E|(u & _ & _ & _ & Em & Eu & E)]; rewrite E; cbn.
  - exists [], req. split; [done|]. split; [by left|exact Hreq].
  - exists [u]. eexists. split; [by rewrite <- (app_assoc log)|]. split; [right; by exists u|apply Ho].
Qed.

End Fault_free.

(** ** Concrete requests *)

Lemma reached_replay `{GoLib, AccountLib} h l hist w :
  reached h hist w → reached h (hist ++ l) (replay h l w).2.
Proof.
  revert hist w. induction l as [|[x route] l IH]; intros hist w Hs; cbn [replay]; [by rewrite app_nil_r|].
  pose proof (reached_request h hist x route [] w Hs) as Hs'. unfold run.
  destruct (tn_serve h x route [] w) as [v [fs w']]. cbn in Hs'.
  specialize (IH _ w' Hs'). destruct (replay h l w') as [vs w'']. cbn in *. by rewrite <- app_assoc in IH.
Qed.

Section Examples.
#[local] Instance sample_lib : GoLib := TestLib.
#[local] Instance sample_accounts : AccountLib := TestAccounts.
#[local] Instance sample_lib_laws : GoLibLaws := TestLib_laws.
#[local] Instance sample_lower : LowerLaws := ascii_lower_plain.

(** A pair of texts as one text: the first with an [x] before every byte, a
    dot, and the second. *)
Fixpoint pair_text (t a : string) : string :=
  match t with
  | EmptyString => String "." a
  | String c t' => String "x" (String c (pair_text t' a))
  end.
Fixpoint text_pair (s : string) : option (string * string) :=
  match s with
  | String "."%char a => Some (EmptyString, a)
  | String "x"%char (String c s') =>
      match text_pair s' with Some (t, a) => Some (String c t, a) | None => None end
  | _ => None
  end.
Lemma text_pair_text t a : text_pair (pair_text t a) = Some (t, a).
Proof. induction t as [|c t IH]; [done|]. cbn. by rewrite IH. Qed.

#[local] Instance sample_gateway_lib : GatewayLib := PageLessLib (λ s, s) (λ _ _, true) text_pair (λ _, None).
#[local] Instance sample_wire : Wire := mkWire Some pair_text (λ _, EmptyString).
#[local] Instance sample_wire_laws : WireLaws.
Proof. split; [done|apply text_pair_text]. Qed.

Definition sample_gateway : Handler :=
  New (NewResolver "http://tenant/" "t") "http://tenant" "http://auth" "http://barber" "http://catalog"
    "http://scheduling" "http://appointment" "http://notification" "http://customer" "t" "p" 0 [].
Definition sample_network (log : list UpRequest) (u : UpRequest) : up_result :=
  match answer_lookup TenantOnboarding.sample_handler "http://tenant" (sample_draw 5 4) [] sample_world u with
  | Some (reply, _) => reply
  | None => UpReply 200 no_headers [] (Some EmptyString)
  end.
Definition sample_visit (host : string) : Ctx :=
  mkCtx "GET" host "/" "/" EmptyString EmptyString (Some "req-9"%string) (λ _, EmptyString) (λ _, EmptyString) (λ _, EmptyString).

Lemma sample_reached : reached TenantOnboarding.sample_handler sample_history sample_world.
Proof. apply (reached_replay _ sample_history [] empty_world), reached_nil. Qed.
Lemma sample_healthy log : healthy sample_gateway TenantOnboarding.sample_handler sample_world sample_network log.
Proof.
  intros host u. exists (sample_draw 5 4). unfold sample_network.
  change "http://tenant"%string with (Resolver_baseURL (h_resolver sample_gateway)). subst u.
  rewrite answer_host_lookup. cbv zeta. by eexists _, _.
Qed.
Lemma sample_connected log : connected sample_gateway TenantOnboarding.sample_handler sample_world sample_network log.
Proof. intros host u. right. destruct (sample_healthy log host) as (x & reply & w' & E). by exists x, [], reply, w'. Qed.
Lemma sample_matched : matched sample_world (replay (on_repository without_cache TenantOnboarding.sample_handler) sample_history empty_world).2.
Proof.
  apply (replay_matched TenantOnboarding.sample_handler sample_history empty_world empty_world).
  constructor; [done|apply no_tables_ok|apply empty_coherent].
Qed.

Definition sample_proxy : endpoint := Proxy "http://barber" "/internal/v1/public/branches" "booking".

(** The page of the shop asks for its branches. *)
Lemma front_door_witness :
  ∃ u r, u ∈ (serve sample_network sample_gateway sample_proxy (sample_visit "Shop.Example.") []).2 ∧
    hget TenantIDHeader (up_header u) = Some (digits_of 1) ∧ dm_host r = "shop.example"%string ∧
    proven TenantOnboarding.sample_handler sample_history r.
Proof.
  set (sent := (serve sample_network sample_gateway sample_proxy (sample_visit "Shop.Example.") []).2).
  assert (∃ u, sent !! 1%nat = Some u ∧ hget TenantIDHeader (up_header u) = Some (digits_of 1)) as (u & Hu & Ht).
  { eexists. split; vm_compute; reflexivity. }
  apply list_elem_of_lookup_2 in Hu.
  destruct (front_door sample_gateway TenantOnboarding.sample_handler sample_history sample_world sample_network
    sample_proxy (sample_visit "Shop.Example.") [] u (digits_of 1) sample_reached (sample_connected []) Hu Ht)
    as (host & r & Hn & Eh & _ & _ & _ & Hp).
  exists u, r. split; [done|]. split; [done|]. split; [|done]. rewrite Eh. vm_compute in Hn. by injection Hn as <-.
Defined.

End Examples.
