(* ===== verification/Links.v ===== *)
(** * Links: the clients of the platform connected to the services they call

    [platform/schedulingdeps], [platform/barberclient] and
    [platform/tenantsettings] are how the scheduling, appointment, catalog and
    notification services learn about barbers, services and settings.  Here
    each method of these clients sends its request to the handler of the
    barber, the catalog or the tenant service that answers it, with the faults
    of that service's database. *)
From S2P Require Import Prelude Effects GoTime Http Platform Availability SchedulingRepo SchedulingApp Catalog Barber Roster.
From S2P Require Import Accounts Tenant TenantRegistry TenantCache TenantSettings TenantOnboarding FrontDoor.

Local Open Scope Z_scope.

(** ** The wire *)

(** A path matches the pattern of a route; the values of its parameters. *)
Fixpoint match_path (pattern path : list string) : option (list (string * string)) :=
  match pattern, path with
  | [], [] => Some []
  | p :: pattern', s :: path' =>
      match p with
      | String ":"%char name => cons (name, s) <$> match_path pattern' path'
      | _ => if p ==? s then match_path pattern' path' else None
      end
  | _, _ => None
  end.

Fixpoint param (l : list (string * string)) (name : string) : string :=
  match l with
  | [] => EmptyString
  | (k, v) :: l' => if k ==? name then v else param l' name
  end.

(** A request as the handler reads it. *)
Definition received (o : Outgoing) (params : list (string * string)) : Request unit :=
  mkRequest "GET"
    (λ name, if name ==? InternalTokenHeader then out_token o
             else if name ==? TenantIDHeader then out_tenant o
             else if name ==? AppTypeHeader then out_app o
             else if name ==? RequestIDHeader then out_request_id o
             else if name ==? "Cookie"%string then out_cookie o
             else EmptyString)
    (param params) (λ _, EmptyString) None.

(** What the client gets of the reply; [body] decodes the JSON it is sent. *)
Definition replied {E A B} (body : A -> option B) (v : res E (Response A)) : exchange B :=
  match v with
  | Ok (SendJSON status a) => Replied status (body a)
  | Ok r => Replied (status_of r) None
  | Err _ => TransportFailed
  end.

(** A route, its handler, and the state and the faults it runs with. *)
Definition ask {D E A B} (pattern : list string) (handler : Request unit -> IO D E (Response A))
    (body : A -> option B) (fs : list fault) (d : D) (o : Outgoing) : exchange B :=
  match match_path pattern (out_path o) with
  | None => Replied 404 None
  | Some params => replied body (handler (received o params) fs d).1
  end.

Lemma adminauth_received `{GoLibLaws} (v : MultiTokenVerifier) path token t params :
  Verify v token = true → AppType t = "booking"%string ∨ AppType t = "admin"%string →
  adminauth_Context (received (outgoing path [] token t EmptyString) params) v = Some t.
Proof.
  intros Hv Ha. unfold adminauth_Context. change (Header _ InternalTokenHeader) with token. rewrite Hv. cbn [negb].
  unfold tenantctx_New. change (Header _ TenantIDHeader) with (uuid_String (TenantID t)). rewrite uuid_Parse_String.
  change (Header _ AppTypeHeader) with (AppType t). change (Header _ RequestIDHeader) with (RequestID_ t).
  destruct t as [id app req]; cbn in *. by destruct Ha as [-> | ->].
Qed.

(** ** Operations that answer under failures only what they answer without *)

Definition honest {D E A} (m : IO D E A) : Prop := ∀ fs d a, (m fs d).1 = Ok a → (run m d).1 = Ok a.

Section Honest.
Context {D E : Type}.

Lemma honest_det `{!FromPg E} {A} (m : IO D E A) : det m → honest m.
Proof. intros [_ Hm] fs d a Ha. destruct (Hm fs d) as [<-|Hf]; [done|congruence]. Qed.
Lemma honest_ret {A} (a : A) : honest (mret (M:=IO D E) a).
Proof. by intros fs d b [= <-]. Qed.
Lemma honest_fail {A} (e : E) : honest (A:=A) (io_fail (D:=D) e).
Proof. by intros fs d b. Qed.
Lemma honest_calling {F A} (f : F -> E) (m : IO D F A) : quiet m → honest m → honest (calling f m).
Proof.
  intros Hq Hm fs d a. rewrite run_calling by done. unfold calling. rewrite attempt_bind.
  specialize (Hm fs d). destruct (m fs d) as [[b|e] [fs' d']]; cbn in *; [|done]. intros [= <-].
  rewrite (Hm b eq_refl). done.
Qed.
Lemma honest_bind {A B} (m : IO D E A) (k : A -> IO D E B) :
  quiet m → readonly m → honest m → (∀ a, honest (k a)) → honest (m ≫= k).
Proof.
  intros Hq Hr Hm Hk fs d b. rewrite runq_bind, bind_eq by done. specialize (Hm fs d). pose proof (Hr fs d) as E1.
  pose proof (Hr [] d) as E2. unfold run in *. destruct (m fs d) as [[a|e] [fs' d']], (m [] d) as [v [fs2 d2]]; cbn in *; [|done].
  intros Hb. specialize (Hm a eq_refl). subst. by eapply Hk.
Qed.
End Honest.

(** ** The barber service *)

Section RosterLinks.
Context `{GoLib, !GoLibLaws}.

Definition ask_scheduling_access (h : BarberHandler) : list fault -> bdb -> Outgoing -> exchange Platform.Barber :=
  ask ["internal"; "v1"; "barbers"; ":id"; "scheduling-access"]%string (schedulingAccess h) (λ i, Some (mkBarber i)).
Definition ask_booking_access (h : BarberHandler) : list fault -> bdb -> Outgoing -> exchange unit :=
  ask ["internal"; "v1"; "branches"; ":branch_id"; "barbers"; ":barber_id"; "booking-access"]%string
    (branchBarberAccess h) Some.
Definition ask_exists (h : BarberHandler) : list fault -> bdb -> Outgoing -> exchange unit :=
  ask ["internal"; "v1"; "barbers"; ":id"; "exists"]%string (barberExists h) Some.

Definition scheduling_barber (R : roster) (id : uuid) : res dep_error Platform.Barber :=
  match rs_barbers R !! id with
  | Some a => if ab_active a then Ok (mkBarber (ab_identity a)) else Err DepNotFound
  | None => Err DepNotFound
  end.

(** The reply of a route for its parameters. *)
Ltac route := unfold ask; cbn [match_path out_path outgoing]; rewrite ?bool_decide_refl; cbn [fmap option_fmap option_map].

Definition service_found {A} (v : res bapp_error A) : res dep_error A :=
  match v with Ok a => Ok a | Err BErrNotFound => Err DepNotFound | Err _ => Err DepFailed end.

Lemma asked_scheduling h token t id fs d :
  Verify (bh_verifier h) token = true → AppType t = "booking"%string ∨ AppType t = "admin"%string →
  schedulingdeps_Barber token (ask_scheduling_access h fs d) t id
  = match service_found (Barber_SchedulingAccess t id fs d).1 with Ok i => Ok (mkBarber i) | Err e => Err e end.
Proof.
  intros Hv Ha. unfold schedulingdeps_Barber, dep_request, ask_scheduling_access. route.
  unfold schedulingAccess, bar_tenant, bar_id. rewrite adminauth_received by done.
  cbn [Params received param]. rewrite bool_decide_refl, uuid_Parse_String. unfold bar_reply. rewrite attempt_bind.
  destruct (Barber_SchedulingAccess t id fs d).1 as [i|[]]; done.
Qed.
Lemma asked_booking h token t b x fs d :
  Verify (bh_verifier h) token = true → AppType t = "booking"%string ∨ AppType t = "admin"%string →
  schedulingdeps_BranchBarber token (ask_booking_access h fs d) t b x
  = service_found (Barber_BookingAccess t b x fs d).1.
Proof.
  intros Hv Ha. unfold schedulingdeps_BranchBarber, dep_request_nil, ask_booking_access. route.
  unfold branchBarberAccess, bar_tenant, bar_id. rewrite adminauth_received by done.
  cbn [Params received param]. rewrite !bool_decide_refl, (bool_decide_false ("branch_id" = "barber_id")%string) by done.
  rewrite !uuid_Parse_String. unfold bar_reply. rewrite attempt_bind.
  destruct (Barber_BookingAccess t b x fs d).1 as [[]|[]]; done.
Qed.
Lemma asked_exists h token t id fs d :
  Verify (bh_verifier h) token = true → AppType t = "admin"%string → id ≠ uuid_Nil →
  EnsureExists token (ask_exists h fs d) t id
  = match (Barber_Exists t id fs d).1 with
    | Ok _ => Ok tt
    | Err BErrNotFound => Err BarberNotFound
    | Err _ => Err BarberFailed
    end.
Proof.
  intros Hv Ha Hid. unfold EnsureExists. rewrite Ha, (bool_decide_false (id = uuid_Nil)) by done. cbn [negb orb].
  unfold ask_exists. route. unfold barberExists, bar_tenant, bar_id. rewrite adminauth_received by auto.
  cbn [Params received param]. rewrite bool_decide_refl, uuid_Parse_String. unfold bar_reply. rewrite attempt_bind.
  destruct (Barber_Exists t id fs d).1 as [[]|[]]; done.
Qed.

(** The three lookups without failures, on the abstract roster. *)
Section Exact.
Context (d : bdb) (R : roster) (t : TenantContext) (Hd : ros_ok d) (HR : refines (TenantID t) d R)
  (Ha : AppType t = "booking"%string ∨ AppType t = "admin"%string).

Lemma quiet_Barber id : quiet (BRepository_Barber (TenantID t) id).
Proof. apply quiet_tx. solve_det. Qed.
Lemma app_accepted : (AppType t !=? "admin"%string) && (AppType t !=? "booking"%string) = false.
Proof. by destruct Ha as [-> | ->]. Qed.

Lemma SchedulingAccess_run id :
  (run (Barber_SchedulingAccess t id) d).1
  = match rs_barbers R !! id with
    | Some a => if ab_active a then Ok (ab_identity a) else Err BErrNotFound
    | None => Err BErrNotFound
    end.
Proof using Hd HR Ha.
  unfold Barber_SchedulingAccess. rewrite app_accepted. rewrite runq_bind by apply quiet_calling, quiet_Barber.
  rewrite run_calling, (Barber_run _ d R Hd HR) by apply quiet_Barber. cbn [fst snd]. unfold spec_Barber.
  destruct (rs_barbers R !! id) as [a|]; [|done]. cbn. by destruct (ab_active a).
Qed.
Lemma BookingAccess_run b x :
  (run (Barber_BookingAccess t b x) d).1 = if bookable R b x then Ok tt else Err BErrNotFound.
Proof using Hd HR Ha.
  destruct (sim_Access (TenantID t) d R Hd HR b x) as [Hs _]. cbn in Hs.
  assert (run (Barber_BookingAccess (mkTenantContext (TenantID t) "booking" EmptyString) b x) d
    = run (Barber_BookingAccess t b x) d) as E.
  { unfold Barber_BookingAccess. rewrite app_accepted. done. }
  rewrite E in Hs. destruct (run _ d) as [o d']. cbn in Hs. by destruct (bookable R b x); injection Hs as ->.
Qed.
Lemma Exists_run id :
  AppType t = "admin"%string →
  (run (Barber_Exists t id) d).1 = match rs_barbers R !! id with Some _ => Ok tt | None => Err BErrNotFound end.
Proof using Hd HR Ha.
  intros Hadmin. unfold Barber_Exists. rewrite Hadmin, bool_decide_refl. cbn [negb].
  rewrite runq_bind by apply quiet_calling, quiet_Barber.
  rewrite run_calling, (Barber_run _ d R Hd HR) by apply quiet_Barber. cbn [fst snd]. unfold spec_Barber.
  by destruct (rs_barbers R !! id) as [a|].
Qed.
End Exact.

(** Failures never turn a refusal into an acceptance. *)
Lemma honest_Barber t id : honest (BRepository_Barber t id).
Proof. apply honest_det, det_tx. solve_det. Qed.
#[local] Hint Resolve honest_Barber honest_ret honest_fail quiet_Barber read_Barber read_Branch : barber.

Lemma honest_Scheduling t id : honest (Barber_SchedulingAccess t id).
Proof.
  unfold Barber_SchedulingAccess. destruct (_ && _); [apply honest_fail|].
  apply honest_bind; [apply quiet_calling, quiet_Barber|apply step_in_calling; [apply _|apply read_Barber]| |].
  - apply honest_calling; [apply quiet_Barber|apply honest_Barber].
  - intros a. destruct (negb _); [apply honest_fail|apply honest_ret].
Qed.
Lemma honest_Booking t b x : honest (Barber_BookingAccess t b x).
Proof.
  unfold Barber_BookingAccess. destruct (_ && _); [apply honest_fail|].
  assert (quiet (BRepository_Branch (TenantID t) b)) as Q1 by (apply quiet_tx, det_one_row).
  assert (quiet (BRepository_Assigned (TenantID t) b x)) as Q3 by (apply quiet_tx; solve_det).
  apply honest_bind; [by apply quiet_calling|apply step_in_calling; [apply _|apply read_Branch]| |].
  { apply honest_calling; [done|]. apply honest_det, det_tx, det_one_row. }
  intros br. destruct (negb _); [apply honest_fail|].
  apply honest_bind; [apply quiet_calling, quiet_Barber|apply step_in_calling; [apply _|apply read_Barber]| |].
  { apply honest_calling; [apply quiet_Barber|apply honest_Barber]. }
  intros a. destruct (negb _); [apply honest_fail|].
  apply honest_bind; [by apply quiet_calling| | |intros []; [apply honest_ret|apply honest_fail]].
  - apply step_in_calling; [apply _|]. apply step_in_tx; [apply _|solve_step].
  - apply honest_calling; [done|]. apply honest_det, det_tx. solve_det.
Qed.
Lemma honest_Exists t id : honest (Barber_Exists t id).
Proof.
  unfold Barber_Exists. destruct (negb _); [apply honest_fail|].
  apply honest_bind; [apply quiet_calling, quiet_Barber|apply step_in_calling; [apply _|apply read_Barber]| |intros _; apply honest_ret].
  apply honest_calling; [apply quiet_Barber|apply honest_Barber].
Qed.

Lemma run_first {D E A} (m : IO D E A) d : (m [] d).1 = (run m d).1.
Proof. unfold run. by destruct (m [] d) as [v [fs d']]. Qed.

Lemma barber_exact h token t d R id :
  ros_ok d → refines (TenantID t) d R → Verify (bh_verifier h) token = true →
  AppType t = "booking"%string ∨ AppType t = "admin"%string →
  schedulingdeps_Barber token (ask_scheduling_access h [] d) t id = scheduling_barber R id.
Proof.
  intros Hd HR Hv Ha. rewrite asked_scheduling, run_first, (SchedulingAccess_run d R t Hd HR Ha) by done.
  unfold scheduling_barber. destruct (rs_barbers R !! id) as [a|]; [|done]. by destruct (ab_active a).
Qed.

(** C28: The other services see exactly the roster of the barber service.  With
    the clients of the scheduling, the appointment and the catalog service
    connected to it and without failures: the scheduling lookup finds a barber,
    with its login, exactly if it is active; the booking check accepts a branch
    and a barber exactly if both are active and the barber works there; the
    existence check accepts exactly the barbers of the tenant; everything else
    is reported as not found.  When the database of the barber service fails,
    none of them accepts more. *)
Theorem clients_see_roster h token t d R :
  ros_ok d → refines (TenantID t) d R → Verify (bh_verifier h) token = true →
  AppType t = "booking"%string ∨ AppType t = "admin"%string →
  (∀ id, schedulingdeps_Barber token (ask_scheduling_access h [] d) t id = scheduling_barber R id) ∧
  (∀ b x, schedulingdeps_BranchBarber token (ask_booking_access h [] d) t b x
          = if bookable R b x then Ok tt else Err DepNotFound) ∧
  (∀ id, AppType t = "admin"%string → id ≠ uuid_Nil →
     EnsureExists token (ask_exists h [] d) t id
     = match rs_barbers R !! id with Some _ => Ok tt | None => Err BarberNotFound end) ∧
  ∀ fs, (∀ id v, schedulingdeps_Barber token (ask_scheduling_access h fs d) t id = Ok v → scheduling_barber R id = Ok v) ∧
    (∀ b x, schedulingdeps_BranchBarber token (ask_booking_access h fs d) t b x = Ok tt → bookable R b x = true) ∧
    ∀ id, AppType t = "admin"%string → id ≠ uuid_Nil →
      EnsureExists token (ask_exists h fs d) t id = Ok tt → is_Some (rs_barbers R !! id).
Proof.
  intros Hd HR Hv Ha. pose proof (SchedulingAccess_run d R t Hd HR Ha) as H1.
  pose proof (BookingAccess_run d R t Hd HR Ha) as H2. pose proof (Exists_run d R t Hd HR Ha) as H3.
  split; [|split; [|split]].
  - intros id. by apply barber_exact.
  - intros b x. rewrite asked_booking, run_first, H2 by done. by destruct (bookable R b x).
  - intros id Hadmin Hid. rewrite asked_exists, run_first, H3 by done. by destruct (rs_barbers R !! id).
  - intros fs. split; [|split].
    + intros id v. rewrite asked_scheduling by done. pose proof (honest_Scheduling t id fs d) as Hh.
      destruct (Barber_SchedulingAccess t id fs d).1 as [i|[]]; try done. intros [= <-]. specialize (Hh i eq_refl).
      rewrite H1 in Hh. unfold scheduling_barber. destruct (rs_barbers R !! id) as [a|]; [|done].
      destruct (ab_active a); [by injection Hh as ->|done].
    + intros b x. rewrite asked_booking by done. pose proof (honest_Booking t b x fs d) as Hh.
      destruct (Barber_BookingAccess t b x fs d).1 as [[]|[]]; try done. intros _. specialize (Hh tt eq_refl).
      rewrite H2 in Hh. by destruct (bookable R b x).
    + intros id Hadmin Hid. rewrite asked_exists by done. pose proof (honest_Exists t id fs d) as Hh.
      destruct (Barber_Exists t id fs d).1 as [[]|[]]; try done. intros _. specialize (Hh tt eq_refl).
      rewrite H3 in Hh by done. by destruct (rs_barbers R !! id).
Qed.
End RosterLinks.

(** ** The catalog service *)

Section CatalogLinks.
Context `{GoLib, !GoLibLaws, Collation}.

Definition ask_service (h : CatalogHandler) : list fault -> cdb -> Outgoing -> exchange Service :=
  ask ["internal"; "v1"; "barbers"; ":barber_id"; "services"; ":service_id"; "availability"]%string (availabilityService h)
    (λ v, Some (mkService (CService_Duration v) (CService_Before v) (CService_After v))).

(** The barber offers the service. *)
Definition offers (t b s : uuid) (d : cdb) (r : service_row) : Prop :=
  r ∈ services d ∧ sv_tenant r = t ∧ sv_id r = s ∧ sv_active r = true ∧
  ∃ x, x ∈ barber_services d ∧ bs_tenant x = t ∧ bs_barber x = b ∧ bs_service x = s ∧ bs_active x = true.

Definition timing (r : service_row) : Service := mkService (sv_duration r) (sv_before r) (sv_after r).

Lemma asked_service h token t b s fs d :
  Verify (ch_verify h) token = true → AppType t = "booking"%string ∨ AppType t = "admin"%string →
  schedulingdeps_Service token (ask_service h fs d) t b s
  = match (CRepository_ActiveAssignedService (TenantID t) b s fs d).1 with
    | Ok v => Ok (mkService (CService_Duration v) (CService_Before v) (CService_After v))
    | Err CNoService => Err DepNotFound
    | Err _ => Err DepFailed
    end.
Proof.
  intros Hv Ha. unfold schedulingdeps_Service, dep_request, ask_service, ask. cbn [match_path out_path outgoing].
  rewrite ?bool_decide_refl. cbn [fmap option_fmap option_map].
  unfold availabilityService, Catalog.tenant. rewrite adminauth_received by done.
  cbn [Params received param]. rewrite !bool_decide_refl, (bool_decide_false ("barber_id" = "service_id")%string) by done.
  rewrite !uuid_Parse_String. unfold replying. rewrite attempt_bind. unfold Catalog_Available.
  assert ((AppType t !=? "booking"%string) && (AppType t !=? "admin"%string) = false) as -> by (by destruct Ha as [-> | ->]).
  unfold calling. rewrite attempt_bind. destruct (CRepository_ActiveAssignedService _ _ _ fs d) as [[v|[|e]] [fs' d']]; done.
Qed.

Lemma offered_where t b s d r :
  offers t b s d r ↔ r ∈ services d ∧ sv_tenant r = t ∧ (sv_id r ==? s) && assigned t t b d r && sv_active r = true.
Proof.
  unfold offers, assigned. split.
  - intros (Hr & Ht & Hs & Ha & (x & Hx & T & B & S & A)). split; [done|]. split; [done|].
    rewrite Ha, Hs, bool_decide_refl, andb_true_r. cbn. apply existsb_elem. exists x. split; [done|].
    unfold rls. by rewrite T, B, S, A, !bool_decide_refl.
  - intros (Hr & Ht & E). bsimpl. match goal with Hb : existsb _ _ = true |- _ => apply existsb_elem in Hb as (x & Hx & Ex) end.
    unfold rls in Ex. bsimpl. split_and!; try done. exists x. split_and!; congruence.
Qed.

Lemma ActiveAssignedService_run t b s d :
  cat_ok d →
  (∃ r v, offers t b s d r ∧ run (CRepository_ActiveAssignedService t b s) d = (Ok v, d) ∧
     timing r = mkService (CService_Duration v) (CService_Before v) (CService_After v)) ∨
  (∀ r, ¬ offers t b s d r) ∧ run (CRepository_ActiveAssignedService t b s) d = (Err CNoService, d).
Proof.
  intros Hd. unfold CRepository_ActiveAssignedService. rewrite run_one_service.
  set (w := λ x, (sv_id x ==? s) && assigned t t b d x && sv_active x).
  destruct (head (sel (λ r, (sv_tenant r ==? t) && w r) (services d))) as [r|] eqn:E.
  - apply head_sel_Some in E as [E Hr]. apply andb_true_iff in E as [Et Ew]. bsimpl.
    destruct (co_priced d Hd r Hr) as (p & Hp & Hrp). left. exists r, (to_service r p).
    rewrite (joined_one d r p t w); try done.
    + split; [by apply offered_where|]. done.
    + intros x Hx. unfold w in Hx, Ew. bsimpl. congruence.
  - right. assert (∀ r, ¬ offers t b s d r) as Hno.
    { intros r (Hr & Ht & Hw)%offered_where. pose proof (head_sel_None _ _ E r Hr) as E'. cbn in E'.
      rewrite Ht, bool_decide_refl in E'. unfold w in E'. cbn in E'. congruence. }
    split; [done|]. assert (joined t t w d = []) as ->; [|done].
    unfold joined. rewrite sel_nothing; [done|]. intros x Hx. unfold rls.
    pose proof (head_sel_None _ _ E x Hx) as E'. cbn in E'. destruct (sv_tenant x ==? t); [|done]. exact E'.
Qed.

Lemma service_exact h token t d b s :
  cat_ok d → Verify (ch_verify h) token = true → AppType t = "booking"%string ∨ AppType t = "admin"%string →
  (∃ r, offers (TenantID t) b s d r ∧ schedulingdeps_Service token (ask_service h [] d) t b s = Ok (timing r)) ∨
  (∀ r, ¬ offers (TenantID t) b s d r) ∧ schedulingdeps_Service token (ask_service h [] d) t b s = Err DepNotFound.
Proof.
  intros Hd Hv Ha. rewrite asked_service, run_first by done.
  destruct (ActiveAssignedService_run (TenantID t) b s d Hd) as [(r & v & Ho & -> & Et)|[Hno ->]]; [left|by right].
  exists r. split; [done|]. cbn. by rewrite Et.
Qed.

(** The other services see exactly the services of the catalog.  With the
    client of the scheduling and the appointment service connected to the
    catalog service and without failures, the lookup for a barber and a service
    returns the duration and the buffers of the stored service, exactly if the
    service is active and assigned to the barber, within the tenant, and is
    otherwise reported as not found; the numbers are not negative and fit 32
    bits.  When the database of the catalog fails nothing else is returned. *)
Theorem clients_see_services h token t d b s :
  cat_ok d → Verify (ch_verify h) token = true → AppType t = "booking"%string ∨ AppType t = "admin"%string →
  ((∃ r, offers (TenantID t) b s d r ∧ schedulingdeps_Service token (ask_service h [] d) t b s = Ok (timing r)) ∨
   (∀ r, ¬ offers (TenantID t) b s d r) ∧ schedulingdeps_Service token (ask_service h [] d) t b s = Err DepNotFound) ∧
  ∀ fs svc, schedulingdeps_Service token (ask_service h fs d) t b s = Ok svc →
    (∃ r, offers (TenantID t) b s d r ∧ svc = timing r) ∧
    0 <= DurationMinutes svc < 2 ^ 31 ∧ 0 <= BufferBeforeMinutes svc < 2 ^ 31 ∧ 0 <= BufferAfterMinutes svc < 2 ^ 31.
Proof.
  intros Hd Hv Ha. pose proof (ActiveAssignedService_run (TenantID t) b s d Hd) as Hr.
  split; [by apply service_exact|].
  intros fs svc. rewrite asked_service by done.
    assert (honest (CRepository_ActiveAssignedService (TenantID t) b s)) as Hh
      by (apply honest_det, det_tx, det_one_service).
    specialize (Hh fs d). destruct (CRepository_ActiveAssignedService _ _ _ fs d).1 as [v|[]]; try done. intros [= <-].
    specialize (Hh v eq_refl). destruct Hr as [(r & v' & Ho & E & Et)|[_ E]]; rewrite E in Hh; [|done].
    injection Hh as ->. rewrite <- Et. split; [by exists r|]. destruct Ho as (Hin & _).
    destruct (co_rows d Hd r Hin) as [R1 R2]. unfold service_range, int4, service_check in R1, R2. bsimpl. cbn. lia.
Qed.
End CatalogLinks.

(** ** The tenant service *)

Section SettingsLinks.
Context `{GoLib, AccountLib, !GoLibLaws, !LowerLaws}.

Definition config_body (j : tenant_json) : option PublicConfig :=
  match j with
  | JConfig _ _ _ timezone interval s => Some (mkPublicConfig timezone interval (S_Policy s) (S_CancelNotice s))
  | _ => None
  end.
Definition settings_body (j : tenant_json) : option ReminderSettings :=
  match j with
  | JSettings s => Some (mkReminderSettings (S_Timezone s) (S_Interval s) (default [] (S_Offsets s)))
  | _ => None
  end.
Definition ask_config (h : TenantHandler) (x : tdraw) : list fault -> tworld -> Outgoing -> exchange PublicConfig :=
  ask ["internal"; "v1"; "public"; "config"]%string (λ r, tn_serve h x (GetPublicConfig r)) config_body.
Definition ask_settings (h : TenantHandler) (x : tdraw) : list fault -> tworld -> Outgoing -> exchange ReminderSettings :=
  ask ["internal"; "v1"; "settings"]%string (λ r, tn_serve h x (GetSettings r)) settings_body.

(** *** Stored time zones can be loaded *)

Definition zones_load (d : tenantdb) : Prop := ∀ r, r ∈ settings d → LoadLocation (st_timezone r) ≠ None.

Lemma issued_zone h x route d s :
  issues h x route d (Configure s) ∨ (∃ t, issues h x route d (Open t s)) → LoadLocation (st_timezone s) ≠ None.
Proof.
  intros [Hi|[t Hi]]; destruct route; cbn [issues] in Hi; unfold status_change in Hi; try (naive_solver; fail).
  - destruct Hi as (u & input & current & new & _ & _ & Hm & [= ->]). unfold mergeSettings in Hm.
    split_match_in Hm; try done; by apply (validateSettings_sound 0) in Hm as (_ & ? & _).
  - destruct Hi as (_ & input & new & _ & Hm & [= _ ->]). by apply (validateSettings_sound 0) in Hm as (_ & ? & _).
Qed.

Lemma command_zones h x route d c d' :
  issues h x route d c → exec c d = Some d' → zones_load d → zones_load d'.
Proof.
  intros Hi Hx Hz r Hr. destruct c as [t s|s|t status entry|r0|t id now|t id now|t id now|t id now]; cbn [exec] in Hx.
  4-8: try (case_match; [|done]; injection Hx as <-; by apply Hz).
  4-7: apply change_Some in Hx as (r1 & _ & _ & ->); by apply Hz.
  - case_match; [done|]. injection Hx as <-. cbn in Hr. apply elem_of_app in Hr as [Hr|Hr%list_elem_of_singleton]; [by apply Hz|].
    subst r. eapply issued_zone. right. by exists t.
  - case_match; [|done]. injection Hx as <-. cbn in Hr. apply elem_of_upd in Hr as (r0 & Hr0 & ->).
    case_match; [|by apply Hz]. eapply issued_zone. by left.
  - case_match; [|done]. injection Hx as <-. by apply Hz.
Qed.

Lemma served_zones h hist d : served h hist d → tenant_ok d ∧ zones_load d.
Proof.
  intros Hs. split; [by apply served_explained in Hs as [? _]|].
  induction Hs as [|hist x route fs w Hs IH]; [by intros r Hr%elem_of_nil|].
  apply served_explained in Hs as [Hd _].
  destruct (request_moves h x route (tw_db w) Hd fs w eq_refl) as [->|(c & Hi & _ & Hx)]; [done|]. by eapply command_zones.
Qed.

(** *** What the routes answer *)

Lemma Settings_direct x t w :
  TRepository_Settings without_cache x t [] w
  = (match stored t (tw_db w) with Some r => Ok (settingsFrom r) | None => Err TNotFound end, ([], w)).
Proof.
  unfold TRepository_Settings, cache_get. cbn [cache_on without_cache]. rewrite bind_eq. cbn [mret io_mret io_ret option_map].
  unfold load_settings. rewrite bind_eq, tdb_quiet by apply quiet_tenant_tx. rewrite run_tenant_tx.
  unfold reading, GetTenantSettings, stored.
  assert (sel (rls st_tenant t (λ r, st_tenant r ==? t)) (settings (tw_db w)) = sel (λ r, st_tenant r ==? t) (settings (tw_db w))) as ->.
  { apply filter_ext. intros r. unfold rls. by destruct (st_tenant r ==? t). }
  destruct w as [d c]. cbn [tw_db tw_cache]. destruct (head _) as [r|]; [|done]. cbn [or_no_rows fst snd].
  by rewrite bind_eq, cacheSettings_off.
Qed.

(** Without failures the routes answer from the cache what the tables say. *)
Lemma serve_direct h x route w v :
  tenant_ok (tw_db w) → coherent w →
  (tn_serve (on_repository without_cache h) x route [] w).1 = v → (tn_serve h x route [] w).1 = v.
Proof.
  intros Hok Hc <-. assert (h = on_repository with_cache h ∨ h = on_repository without_cache h) as [E|E].
  { destruct h as [[[[]] allow] verify token]; [by left|by right]. }
  - destruct (sim_serve h x route w w) as (v & wc & wu & E1 & E2 & _); [by constructor|]. rewrite E2, <- E, E1 in *. done.
  - by rewrite <- E.
Qed.

Lemma context_received token t path params :
  AppType t = "booking"%string ∨ AppType t = "admin"%string →
  let r := received (outgoing path [] token t EmptyString) params in
  tenantctx_New (Header r TenantIDHeader) (Header r AppTypeHeader) (Header r RequestIDHeader) = Some t.
Proof.
  intros Ha. cbv zeta. unfold tenantctx_New. change (Header _ TenantIDHeader) with (uuid_String (TenantID t)).
  change (Header _ AppTypeHeader) with (AppType t). change (Header _ RequestIDHeader) with (RequestID_ t).
  rewrite uuid_Parse_String. destruct t as [id app req]; cbn in *. by destruct Ha as [-> | ->].
Qed.

Lemma settings_returns allow x t w :
  Tenant_Settings (mkTenantService without_cache allow) x (uuid_String t) [] w
  = (match stored t (tw_db w) with Some r => Ok (settingsFrom r) | None => Err (TErrRepo TNotFound) end, ([], w)).
Proof.
  unfold Tenant_Settings, with_id. rewrite uuid_Parse_String. unfold trepo, calling. cbn [ts_repo].
  rewrite attempt_bind, Settings_direct. by destruct (stored t (tw_db w)).
Qed.
Lemma tenant_returns allow x t w r row :
  stored t (tw_db w) = Some r → find_tenant t (tw_db w) = Some row →
  ∃ v, Tenant_Tenant (mkTenantService without_cache allow) x (uuid_String t) [] w = (Ok v, ([], w)).
Proof.
  intros Hs Ht. unfold Tenant_Tenant, with_id. rewrite uuid_Parse_String. unfold trepo, calling. cbn [ts_repo].
  rewrite attempt_bind. unfold TRepository_Tenant. rewrite bind_eq.
  unfold pool_GetTenant. rewrite tdb_quiet by apply quiet_read. rewrite run_read. unfold GetTenant. rewrite Ht. cbn [fst snd or_no_rows map_err].
  destruct w as [d c]. cbn [tw_db tw_cache] in *. rewrite bind_eq, Settings_direct. cbn [tw_db]. rewrite Hs. by eexists.
Qed.

Lemma asked_config h token x t w :
  tenant_ok (tw_db w) → coherent w → Verify (th_verify h) token = true →
  AppType t = "booking"%string ∨ AppType t = "admin"%string →
  schedulingdeps_Settings token (ask_config h x [] w) t
  = match stored (TenantID t) (tw_db w) with
    | Some r => Ok (mkTenantSettings (st_timezone r) (st_interval r) (st_policy r) (st_cancel r))
    | None => Err DepNotFound
    end.
Proof.
  intros Hok Hc Hv Ha. unfold schedulingdeps_Settings, dep_request, ask_config, ask. cbn [match_path out_path outgoing].
  rewrite ?bool_decide_refl. cbn [fmap option_fmap option_map].
  set (q := received _ _). assert (internal h q = true) as Hi by exact Hv.
  erewrite (serve_direct h x (GetPublicConfig q) w); [|done|done|reflexivity].
  cbn [tn_serve]. unfold th_publicConfig, internal_only. change (internal (on_repository _ h) q) with (internal h q). rewrite Hi.
  cbn [negb]. unfold with_context. assert (tenantctx_New (Header q TenantIDHeader) (Header q AppTypeHeader) (Header q RequestIDHeader) = Some t) as ->
    by (by apply context_received). unfold t_reply. rewrite attempt_bind, bind_eq.
  cbn [th_service on_repository]. rewrite settings_returns. destruct (stored (TenantID t) (tw_db w)) as [r|] eqn:Es; [|done].
  pose proof Es as Es'. unfold stored in Es'. apply head_sel_Some in Es' as [Et Hr]. bsimpl.
  destruct (to_srows _ Hok r Hr) as [_ Hten]. rewrite Et in Hten. apply has_tenant_iff in Hten as (row & Hrow & Eid).
  assert (find_tenant (TenantID t) (tw_db w) = Some row) as Hf.
  { apply (head_sel_unique tn_id); [apply Hok| |done|]; [intros y Hy; by bsimpl; congruence|by rewrite Eid, bool_decide_refl]. }
  destruct (tenant_returns (ts_allowLocalhost (th_service h)) (td_second x) (TenantID t) w r row Es Hf) as [v Ev].
  rewrite bind_eq, Ev. done.
Qed.

Lemma asked_settings h token x t w :
  tenant_ok (tw_db w) → coherent w → Verify (th_verify h) token = true →
  AppType t = "booking"%string ∨ AppType t = "admin"%string →
  ask_settings h x [] w (outgoing ["internal"; "v1"; "settings"] [] token t EmptyString)
  = match stored (TenantID t) (tw_db w) with
    | Some r => Replied 200 (Some (mkReminderSettings (st_timezone r) (st_interval r) (st_offsets r)))
    | None => Replied 404 None
    end.
Proof.
  intros Hok Hc Hv Ha. unfold ask_settings, ask. cbn [match_path out_path outgoing]. rewrite ?bool_decide_refl.
  cbn [fmap option_fmap option_map]. set (q := received _ _). assert (internal h q = true) as Hi by exact Hv.
  erewrite (serve_direct h x (GetSettings q) w); [|done|done|reflexivity].
  cbn [tn_serve]. unfold th_internalSettings, internal_only. change (internal (on_repository _ h) q) with (internal h q). rewrite Hi.
  cbn [negb]. unfold with_context. assert (tenantctx_New (Header q TenantIDHeader) (Header q AppTypeHeader) (Header q RequestIDHeader) = Some t) as ->
    by (by apply context_received). unfold t_reply. rewrite attempt_bind.
  cbn [th_service on_repository]. rewrite settings_returns. by destruct (stored (TenantID t) (tw_db w)) as [r|].
Qed.

Lemma offsets_loop_positive l : Forall (λ o, 1 <= o <= 10080) l → offsets_loop l = Ok (map Minutes l).
Proof.
  induction 1 as [|o l Ho _ IH]; [done|]. cbn. rewrite IH. destruct (o <=? 0) eqn:E; [|done]. bsimpl. lia.
Qed.

(** The other services see exactly the settings of the tenant service,
    and can use them.  After any history of requests to it, while its cache
    agrees with its tables and nothing fails: the client of the scheduling and
    the appointment service gets the stored time zone, interval and
    cancellation rule, and the client of the notification service the stored
    reminder offsets (in nanoseconds, without overflow); the time zone can be
    loaded, the interval lies between a minute and two hours, and the offsets
    are positive, different, at most a week and at least one, so that neither
    client reports invalid settings; a tenant without settings is reported as
    not found. *)
Theorem clients_see_settings h hist token base x t w :
  served h hist (tw_db w) → coherent w → Verify (th_verify h) token = true →
  AppType t = "booking"%string ∨ AppType t = "admin"%string →
  match stored (TenantID t) (tw_db w) with
  | None => schedulingdeps_Settings token (ask_config h x [] w) t = Err DepNotFound
  | Some r =>
      schedulingdeps_Settings token (ask_config h x [] w) t
      = Ok (mkTenantSettings (st_timezone r) (st_interval r) (st_policy r) (st_cancel r)) ∧
      (TenantID t ≠ uuid_Nil → base ≠ EmptyString →
       ReminderOffsets base token (ask_settings h x [] w) (TenantID t) = Ok (map (λ m, m * Minute) (st_offsets r))) ∧
      LoadLocation (st_timezone r) ≠ None ∧ 1 <= st_interval r <= 120 ∧ 0 <= st_cancel r <= 10080 ∧
      st_offsets r ≠ [] ∧ NoDup (st_offsets r) ∧ Forall (λ o, 1 <= o <= 10080) (st_offsets r)
  end.
Proof.
  intros [Hok Hz]%served_zones Hc Hv Ha. pose proof (asked_config h token x t w Hok Hc Hv Ha) as Hconf.
  pose proof (asked_settings h token x (mkTenantContext (TenantID t) "booking" EmptyString) w Hok Hc Hv (or_introl eq_refl)) as Hset.
  cbn [TenantID] in Hset. destruct (stored (TenantID t) (tw_db w)) as [r|] eqn:Es; [|done]. split; [done|].
  unfold stored in Es. apply head_sel_Some in Es as [Et Hr]. destruct (to_srows _ Hok r Hr) as [Hcheck _].
  destruct (settings_check_fields r Hcheck) as (Hi & Hoff & Hcan & _). unfold between in Hi, Hcan. bsimpl.
  assert (st_offsets r ≠ [] ∧ NoDup (st_offsets r)) as [Hne Hnd].
  { unfold settings_check, integer_array_is_unique in Hcheck. rewrite !andb_true_iff in Hcheck.
    destruct Hcheck as [[[[[[[[_ Ho] _] _] Hu] _] _] _] _]. bsimpl. split; [|done]. intros E. by rewrite E in Ho. }
  split; [|split; [by apply Hz|]; split_and!; done || lia].
  intros Hnil Hbase. unfold ReminderOffsets, tenantsettings_Settings. cbn [TenantID].
  assert (token ≠ EmptyString) as Htok by (by intros ->).
  rewrite !bool_decide_false by done. cbn [orb]. rewrite Hset. cbn -[offsets_loop].
  destruct (st_offsets r) as [|o l] eqn:El; [done|]. rewrite offsets_loop_positive by done. f_equal.
  apply map_ext_in. intros m Hm%list_elem_of_In. rewrite Forall_forall in Hoff. specialize (Hoff m Hm).
  unfold Minutes, int64. rewrite Z.mod_small; [lia|]. unfold Minute, Second. lia.
Qed.
End SettingsLinks.

(** ** An availability query across four services *)

Section Across.
Context `{GoLib, AccountLib, Collation, PgText, !GoLibLaws, !LowerLaws}.

(** The dependencies of the scheduling service, connected. *)
Definition linked (token : string) (bh : BarberHandler) (bd : bdb) (ch : CatalogHandler) (cd : cdb) (th : TenantHandler)
    (x : tdraw) (w : tworld) : SchedulingApp.Dependencies :=
  SchedulingApp.mkDependencies (schedulingdeps_Barber token (ask_scheduling_access bh [] bd))
    (schedulingdeps_Service token (ask_service ch [] cd)) (schedulingdeps_Settings token (ask_config th x [] w)).

(** Services that accept the token, in states they can be in. *)
Record running (token : string) (bh : BarberHandler) (bd : bdb) (ch : CatalogHandler) (cd : cdb) (th : TenantHandler)
    (w : tworld) : Prop := mkRunning {
  rn_roster : ros_ok bd; rn_catalog : cat_ok cd; rn_tenants : ∃ hist, served th hist (tw_db w); rn_cache : coherent w;
  rn_barber_token : Verify (bh_verifier bh) token = true; rn_catalog_token : Verify (ch_verify ch) token = true;
  rn_tenant_token : Verify (th_verify th) token = true
}.

Definition well_formed (q : AvailabilityQuery) : Prop :=
  match Q_Principal q with None => True | Some p => CanRead (Principal_Role p) = true end ∧
  (Q_BarberID q ≠ uuid_Nil ∧ Q_ServiceID q ≠ uuid_Nil) ∧ IsZero (Date (Q_Date q) UTC) = false.

Lemma Availability_refused s now q d :
  well_formed q →
  (∃ e, dep_Barber (s_deps s) (Q_Tenant q) (Q_BarberID q) = Err e) ∨
  (∃ b e, dep_Barber (s_deps s) (Q_Tenant q) (Q_BarberID q) = Ok b ∧
          dep_Service (s_deps s) (Q_Tenant q) (Q_BarberID q) (Q_ServiceID q) = Err e) →
  run (AppService_Availability s now q) d = (Err ErrNotFound, d).
Proof.
  intros (Hp & [Hb Hs] & Hz) Hdep. unfold AppService_Availability. cbv zeta.
  rewrite (proj2 (role_guard _) Hp), Hz, !bool_decide_false by done. cbn [orb].
  by destruct Hdep as [[e ->]|(b & e & -> & ->)].
Qed.

(** C14: An availability query is answered across the four services it needs.
    With the scheduling service connected to the barber, the catalog and the
    tenant service, each in a state it can be in, and without failures, a
    well-formed query for a tenant with settings is answered with slots exactly
    if the barber is active and the service is active and assigned to it, and
    with "not found" otherwise; the slots are the free slots of the barber's
    hours of that date in the stored time zone of the tenant, on the grid of
    its stored interval, for the stored duration and buffers of the service,
    that meet no blocked and no occupied period. *)
Theorem availability_across_services token bh bd ch cd th x w R s now q d row :
  running token bh bd ch cd th w → refines (TenantID (Q_Tenant q)) bd R →
  s_deps s = linked token bh bd ch cd th x w →
  AppType (Q_Tenant q) = "booking"%string ∨ AppType (Q_Tenant q) = "admin"%string → well_formed q →
  stored (TenantID (Q_Tenant q)) (tw_db w) = Some row →
  (∀ from to, ∃ l, s_occupancy s (Q_Tenant q) (Q_BarberID q) from to = Ok l) →
  let answer := run (AppService_Availability s now q) d in
  (∃ a r zone occupied hours over blocked,
     rs_barbers R !! Q_BarberID q = Some a ∧ ab_active a = true ∧
     offers (TenantID (Q_Tenant q)) (Q_BarberID q) (Q_ServiceID q) cd r ∧ LoadLocation (st_timezone row) = Some zone ∧
     s_occupancy s (Q_Tenant q) (Q_BarberID q) (Date (Q_Date q) zone - 24 * Hour)
       (AddDays zone (Date (Q_Date q) zone) 1 + 24 * Hour) = Ok occupied ∧
     run (SRepository_Hours (TenantID (Q_Tenant q)) (Q_BarberID q)) d = (Ok hours, d) ∧
     run (SRepository_Day (TenantID (Q_Tenant q)) (Q_BarberID q) (Date (Q_Date q) zone) zone) d = (Ok (over, blocked), d) ∧
     answer = (Ok (Some (free_slots (IntervalsForDate hours over (Date (Q_Date q) zone) zone) (blocked ++ occupied)
                 (sv_duration r) (sv_before r) (sv_after r) (st_interval row) now)), d)) ∨
  ((∀ a, rs_barbers R !! Q_BarberID q = Some a → ab_active a = false) ∨
   (∀ r, ¬ offers (TenantID (Q_Tenant q)) (Q_BarberID q) (Q_ServiceID q) cd r)) ∧ answer = (Err ErrNotFound, d).
Proof.
  intros [Hros Hcat [hist Hserved] Hc Hbt Hct Htt] HR Hdeps Happ Hq Hrow Hocc answer. subst answer.
  apply served_zones in Hserved as [Hok Hzones]. pose proof (Availability_refused s now q d Hq) as Href. rewrite Hdeps in Href.
  cbn [dep_Barber dep_Service linked] in Href. rewrite (barber_exact bh token (Q_Tenant q) bd R) in Href by done.
  pose proof (barber_exact bh token (Q_Tenant q) bd R (Q_BarberID q) Hros HR Hbt Happ) as Hbar.
  pose proof (asked_config th token x (Q_Tenant q) w Hok Hc Htt Happ) as Hset. rewrite Hrow in Hset.
  unfold scheduling_barber in Hbar, Href. destruct (rs_barbers R !! Q_BarberID q) as [a|] eqn:Ea; [|right; split; [by left|by eauto]].
  destruct (ab_active a) eqn:Eact; [|right; split; [left; by intros b [= <-]|by eauto]].
  destruct (service_exact ch token (Q_Tenant q) cd (Q_BarberID q) (Q_ServiceID q) Hcat Hct Happ) as [(r & Ho & Hsvc)|[Hno Hsvc]];
    [|right; split; [by right|by eauto 6]].
  destruct Hq as (Hp & [Hb Hs] & Hz).
  left. pose proof Hrow as Hin. unfold stored in Hin. apply head_sel_Some in Hin as [_ Hin].
  destruct (LoadLocation (st_timezone row)) as [zone|] eqn:Ez; [|by destruct (Hzones row Hin)].
  destruct (Hocc (Date (Q_Date q) zone - 24 * Hour) (AddDays zone (Date (Q_Date q) zone) 1 + 24 * Hour)) as [occupied Ho'].
  destruct (run_Availability s now q d (timing r) (mkTenantSettings (st_timezone row) (st_interval row) (st_policy row) (st_cancel row))
    zone occupied) as (hours & over & blocked & Hh & Hday & Hrun).
  { constructor; rewrite ?Hdeps; cbn [dep_Barber dep_Service dep_Settings linked]; eauto. }
  exists a, r, zone, occupied, hours, over, blocked. split_and!; try done. rewrite Hrun.
  assert (step_of s (mkTenantSettings (st_timezone row) (st_interval row) (st_policy row) (st_cancel row)) = st_interval row ∧
    1 <= st_interval row <= 120) as [-> Hi].
  { destruct (to_srows _ Hok row Hin) as [(Hi & _)%settings_check_fields _]. unfold between in Hi. bsimpl. unfold step_of. cbn.
    destruct (st_interval row <? 1) eqn:E; bsimpl; lia. }
  rewrite Available_free_slots by (apply step_positive; lia). done.
Qed.
End Across.

(** ** Concrete lookups *)

Section Examples.
#[local] Instance sample_lib : GoLib := TestLib.
#[local] Instance sample_accounts : AccountLib := TestAccounts.
#[local] Instance sample_lib_laws : GoLibLaws := TestLib_laws.
#[local] Instance sample_lower : LowerLaws := ascii_lower_plain.
#[local] Instance sample_collation : Collation := λ s, Z.of_nat (String.length s).
#[local] Instance sample_pg : PgText := TestPg.

Definition link_roster : bdb :=
  mkBdb [mkBranchRow 10%N 1%N "Center" "Main St" true 0] [mkBarberRow 12%N 1%N "Ada" true (Some 7%N) 0]
    [mkProfileRow 12%N 1%N "" 0] [mkBranchAssignment 1%N 12%N 10%N true].
Definition link_catalog : cdb :=
  mkCdb [mkServiceRow 13%N 1%N "Cut" 30 0 10 true 0] [mkPricingRow 13%N 1%N 1000 "EUR"] [mkAssignmentRow 1%N 12%N 13%N true].

Ltac singletons :=
  constructor; cbn; try (apply NoDup_singleton); intros *; rewrite ?list_elem_of_singleton; intros; subst; try done;
  repeat split; try (eexists; (split; [by apply list_elem_of_singleton|done])); try done.
Lemma link_roster_ok : ros_ok link_roster.
Proof. singletons. Qed.
Lemma link_catalog_ok : cat_ok link_catalog.
Proof. singletons. Qed.

Definition link_barbers : BarberHandler := mkBarberHandler (mkBarberService (λ _ _, None) (λ _ _, Err MembershipFailed)) (NewMultiTokenVerifier ["t"%string]).
Definition link_services : CatalogHandler := mkCatalogHandler (mkCatalogService (λ _ _, None) (λ _ _, Err BarberFailed)) (NewMultiTokenVerifier ["t"%string]).
Definition link_tenants : TenantHandler := TenantOnboarding.sample_handler.

Lemma link_served : served link_tenants sample_history (tw_db sample_world).
Proof. apply (served_replay link_tenants sample_history [] empty_world), served_nil. Qed.

Lemma clients_see_roster_witness :
  schedulingdeps_Barber "t" (ask_scheduling_access link_barbers [] link_roster) ex_admin 12 = Ok (mkBarber (Some 7%N)) ∧
  schedulingdeps_BranchBarber "t" (ask_booking_access link_barbers [] link_roster) ex_admin 10 12 = Ok tt.
Proof.
  destruct (refines_exists 1 link_roster) as [R HR].
  destruct (clients_see_roster link_barbers "t" ex_admin link_roster R link_roster_ok HR ltac:(by vm_compute) (or_intror eq_refl))
    as (Hb & Ha & _).
  assert (rs_barbers R !! 12%N = Some (view 1 link_roster (mkBarberRow 12%N 1%N "Ada" true (Some 7%N) 0))) as E
    by (rewrite (rf_barbers _ _ _ HR); by vm_compute).
  split; [rewrite Hb; unfold scheduling_barber; by rewrite E|]. rewrite Ha. unfold bookable. rewrite E.
  rewrite (rf_branches _ _ _ HR). by vm_compute.
Defined.

Lemma clients_see_services_witness :
  schedulingdeps_Service "t" (ask_service link_services [] link_catalog) ex_admin 12 13 = Ok (mkService 30 0 10).
Proof.
  destruct (clients_see_services link_services "t" ex_admin link_catalog 12 13 link_catalog_ok ltac:(by vm_compute)
    (or_intror eq_refl)) as [[(r & (Hr & _) & E)|[Hno _]] _].
  - rewrite E. apply list_elem_of_singleton in Hr as ->. done.
  - destruct (Hno (mkServiceRow 13%N 1%N "Cut" 30 0 10 true 0)). split; [by apply list_elem_of_singleton|].
    split_and!; try done. eexists. split; [by apply list_elem_of_singleton|done].
Defined.

Lemma clients_see_settings_witness :
  schedulingdeps_Settings "t" (ask_config link_tenants (sample_draw 9 9) [] sample_world) ex_admin
  = Ok (mkTenantSettings "Europe/Istanbul" 15 "allow_until_notice" 120) ∧
  ReminderOffsets "http://tenant" "t" (ask_settings link_tenants (sample_draw 9 9) [] sample_world) 1
  = Ok [1440 * Minute; 120 * Minute].
Proof.
  pose proof (clients_see_settings link_tenants sample_history "t" "http://tenant" (sample_draw 9 9) ex_admin sample_world
    link_served (ma_cache _ _ sample_matched) ltac:(by vm_compute) (or_intror eq_refl)) as Hs.
  assert (stored (TenantID ex_admin) (tw_db sample_world)
    = Some (mkSettingsRow 1 "Europe/Istanbul" 15 [1440; 120] "allow_until_notice" 120 60 60)) as E by (by vm_compute).
  rewrite E in Hs. destruct Hs as (H1 & H2 & _). split; [exact H1|]. by apply H2.
Defined.

Definition link_scheduling : AppService :=
  mkAppService (linked "t" link_barbers link_roster link_services link_catalog link_tenants (sample_draw 9 9) sample_world)
    (s_occupancy ex_service) 15.

Lemma availability_across_services_witness :
  ∃ slots, run (AppService_Availability link_scheduling 0 ex_query) ex_custom_db = (Ok (Some slots), ex_custom_db).
Proof.
  destruct (refines_exists 1 link_roster) as [R HR].
  assert (running "t" link_barbers link_roster link_services link_catalog link_tenants sample_world) as Hrun.
  { constructor; [exact link_roster_ok|exact link_catalog_ok|by exists sample_history; apply link_served|exact (ma_cache _ _ sample_matched)|by vm_compute..]. }
  destruct (availability_across_services "t" link_barbers link_roster link_services link_catalog link_tenants (sample_draw 9 9)
    sample_world R link_scheduling 0 ex_query ex_custom_db
    (mkSettingsRow 1 "Europe/Istanbul" 15 [1440; 120] "allow_until_notice" 120 60 60) Hrun HR eq_refl (or_intror eq_refl))
    as [(a & r & zone & occupied & hours & over & blocked & _ & _ & _ & _ & _ & _ & _ & E)|[[Hno|Hno] _]].
  - by repeat split.
  - by vm_compute.
  - intros from to. by eexists.
  - by eexists.
  - specialize (Hno (view 1 link_roster (mkBarberRow 12%N 1%N "Ada" true (Some 7%N) 0))). exfalso.
    assert (true = false) as E by (apply Hno; rewrite (rf_barbers _ _ _ HR); by vm_compute). done.
  - destruct (Hno (mkServiceRow 13%N 1%N "Cut" 30 0 10 true 0)). split; [by apply list_elem_of_singleton|].
    split_and!; try done. eexists. split; [by apply list_elem_of_singleton|done].
Defined.
End Examples.
