(* ===== verification/Migrate.v ===== *)
(** * Migrate: the migration job

    platform/migrate/migrate.go.  A job connects with retries, assumes the owner
    of the database, creates the table of applied versions and then applies the
    files of a directory in the order of their names, each in a transaction that
    also records its version.  What a migration file does to the schema is a
    parameter; jobs may be interrupted at every statement and may run at the
    same time. *)
From S2P Require Import Prelude Effects GoTime Http.
Open Scope string_scope.

(** ** Data *)

(** What [os.ReadDir] says of an entry. *)
Record DirEntry := mkEntry { Name : string; IsDir : bool }.

Inductive mig_error :=
| MigConnect (e : pg_error)              (* connect migration database: %w *)
| MigCancelled                           (* ctx.Err() *)
| MigPg (e : pg_error)
| MigOS
| MigApply (name : string) (e : pg_error). (* apply %s: %w *)

#[export] Instance mig_from_pg : FromPg mig_error := MigPg.

(** The database of a job: everything but the table of versions, and that table
    once it exists. *)
Record mig_db {Sch : Type} := mkMigDb { mg_schema : Sch; schema_migrations : option (list string) }.
Arguments mig_db : clear implicits.
Arguments mkMigDb {Sch} _ _.

(** ** Connecting *)

(** One attempt of [pgx.Connect]: its error, the clock after it, and whether the
    context was cancelled while the job waited. *)
Record attempt_of_connect := mkConnectAttempt { at_err : option pg_error; at_now : time; at_done : bool }.

(** The retry loop; [n] counts the attempts. *)
Fixpoint connect_loop (fuel : nat) (net : nat -> attempt_of_connect) (deadline : time) (n : nat)
    : option (res mig_error unit) :=
  match fuel with
  | O => None
  | S fuel' =>
      let a := net n in
      match at_err a with
      | None => Some (Ok tt)
      | Some e =>
          if After (at_now a) deadline then Some (Err (MigConnect e))
          else if at_done a then Some (Err MigCancelled)
          else connect_loop fuel' net deadline (S n)
      end
  end.

(** An attempt is made every second for 45 seconds. *)
Definition connect_fuel : nat := 47.

(** ** The job *)
Section Job.
Context {Sch : Type}.
(** What PostgreSQL does with the text of a migration file, run by a role. *)
Context (exec_sql : string -> string -> Sch -> res pg_error Sch).
(** The roles the migrator is a member of. *)
Context (member_of : string -> bool).
(** The directory and its files; [None] is an error of the operating system. *)
Context (ReadDir : string -> option (list DirEntry)).
Context (ReadFile : string -> string -> option string).
Context (ownerRole directory : string).

Abbreviation MIO := (IO (mig_db Sch) mig_error).

(** A call of the operating system, which can fail as a statement can. *)
Definition os_call {A} (r : option A) : MIO A :=
  fun fs d => match pop fs, r with
              | (FOk, fs'), Some a => (Ok a, (fs', d))
              | (_, fs'), _ => (Err MigOS, (fs', d))
              end.

(** [SET ROLE "owner"] *)
Definition set_role : MIO unit :=
  stmt (fun d => if member_of ownerRole then Ok (tt, d) else Err NoPrivilege).

(** [CREATE TABLE IF NOT EXISTS public.schema_migrations] *)
Definition create_tracking : MIO unit :=
  autocommit (fun d => Ok (tt, mkMigDb (mg_schema d) (Some (default [] (schema_migrations d))))).

(** [sort.Slice(entries, ...)] by name. *)
Definition name_le (a b : DirEntry) : Prop := String.le (Name a) (Name b).
#[global] Instance name_le_dec : RelDecision name_le := λ a b, decide (String.le (Name a) (Name b)).
Definition sort_entries : list DirEntry -> list DirEntry := merge_sort name_le.

Definition is_migration (e : DirEntry) : bool := negb (IsDir e || negb (HasSuffix (Name e) ".up.sql")).
Definition version_of (e : DirEntry) : string := TrimSuffix (Name e) ".up.sql".

(** [SELECT EXISTS(SELECT 1 FROM public.schema_migrations WHERE version=$1)] *)
Definition is_applied (version : string) : MIO bool :=
  stmt (reading (fun d => match schema_migrations d with
                          | Some vs => Ok (existsb (λ v, v ==? version) vs)
                          | None => Err UndefinedTable
                          end)).

(** [INSERT INTO public.schema_migrations (version) VALUES ($1)] *)
Definition insert_version (version : string) (d : mig_db Sch) : res pg_error (unit * mig_db Sch) :=
  match schema_migrations d with
  | Some vs => if existsb (λ v, v ==? version) vs then Err UniqueViolation
               else Ok (tt, mkMigDb (mg_schema d) (Some (vs ++ [version])%list))
  | None => Err UndefinedTable
  end.

(** The text of the file. *)
Definition exec_file (sql : string) (d : mig_db Sch) : res pg_error (unit * mig_db Sch) :=
  match exec_sql ownerRole sql (mg_schema d) with
  | Ok s => Ok (tt, mkMigDb s (schema_migrations d))
  | Err e => Err e
  end.

(** The transaction of one file. *)
Definition apply_entry (e : DirEntry) (sql : string) : MIO unit :=
  WithTx (calling (MigApply (Name e))
    (stmt (exec_file sql) ≫= λ _ : unit, stmt (insert_version (version_of e)))).

(** The loop over the entries. *)
Fixpoint migrate_entries (entries : list DirEntry) : MIO unit :=
  match entries with
  | [] => mret tt
  | e :: rest =>
      if IsDir e || negb (HasSuffix (Name e) ".up.sql") then migrate_entries rest
      else
        exists_ ← is_applied (version_of e);
        if exists_ : bool then migrate_entries rest
        else
          sql ← os_call (ReadFile directory (Name e));
          _ ← apply_entry e sql;
          migrate_entries rest
  end.

Definition migrate : MIO unit :=
  _ ← set_role;
  _ ← create_tracking;
  entries ← os_call (ReadDir directory);
  migrate_entries (sort_entries entries).

(** [Apply]: [None] would be a job that is still trying to connect. *)
Definition Apply (net : nat -> attempt_of_connect) (start : time) : option (MIO unit) :=
  match connect_loop connect_fuel net (Add start (45 * Second)) 0 with
  | None => None
  | Some (Err e) => Some (io_fail e)
  | Some (Ok _) => Some migrate
  end.

(** ** What a complete run does *)

(** The migration files of a directory, in the order of their names. *)
Definition files (entries : list DirEntry) : list DirEntry := sel is_migration (sort_entries entries).

(** The files whose versions are not recorded. *)
Definition pending (vs : list string) (l : list DirEntry) : list DirEntry :=
  sel (λ e, negb (existsb (λ v, v ==? version_of e) vs)) l.

(** The schema after some files. *)
Fixpoint replay (l : list DirEntry) (s : Sch) : option Sch :=
  match l with
  | [] => Some s
  | e :: l' =>
      match ReadFile directory (Name e) with
      | Some sql => match exec_sql ownerRole sql s with Ok s' => replay l' s' | Err _ => None end
      | None => None
      end
  end.

Lemma replay_app l k s :
  replay (l ++ k)%list s = match replay l s with Some s' => replay k s' | None => None end.
Proof.
  revert s. induction l as [|e l IH]; intros s; [done|]. cbn.
  destruct (ReadFile directory (Name e)) as [sql|]; [|done]. by destruct (exec_sql ownerRole sql s).
Qed.

Lemma version_name a b :
  is_migration a = true → is_migration b = true → version_of a = version_of b → Name a = Name b.
Proof.
  unfold is_migration, version_of. intros Ha Hb E. bsimpl.
  rewrite <- (TrimSuffix_app (Name a) ".up.sql"), <- (TrimSuffix_app (Name b) ".up.sql") by done. by rewrite E.
Qed.

Lemma sort_entries_perm entries : sort_entries entries ≡ₚ entries.
Proof. apply merge_sort_Permutation. Qed.

Lemma files_NoDup entries : NoDup (map Name entries) → NoDup (map version_of (files entries)).
Proof.
  intros Hnd. assert (NoDup (map Name (files entries))) as Hf.
  { apply NoDup_map_sel. by rewrite sort_entries_perm. }
  assert (∀ e, e ∈ files entries → is_migration e = true) as Hm by (by intros e [He _]%elem_of_sel).
  revert Hf Hm. generalize (files entries). intros l. induction l as [|e l IH]; [constructor|]. cbn.
  intros [He Hl]%NoDup_cons Hm. apply NoDup_cons. split; [|apply IH; set_solver].
  intros (e' & E & Hin%list_elem_of_In)%list_elem_of_In%in_map_iff. apply He.
  rewrite <- (version_name e' e) by set_solver. by apply list_elem_of_In, in_map, list_elem_of_In.
Qed.

(** Recording a version leaves the other files pending. *)
Lemma pending_snoc vs l v : v ∉ map version_of l → pending (vs ++ [v])%list l = pending vs l.
Proof.
  intros Hv. unfold pending, sel. apply List.filter_ext_in. intros e He.
  rewrite existsb_app. cbn. rewrite orb_false_r. rewrite (bool_decide_eq_false_2 (v = version_of e)), orb_false_r; [done|].
  intros ->. apply Hv. by apply list_elem_of_In, in_map.
Qed.

(** The pending files one after the other, from a schema and recorded versions. *)
Fixpoint run_pending (l : list DirEntry) (s : Sch) (vs : list string) : res mig_error unit * mig_db Sch :=
  match l with
  | [] => (Ok tt, mkMigDb s (Some vs))
  | e :: l' =>
      match ReadFile directory (Name e) with
      | None => (Err MigOS, mkMigDb s (Some vs))
      | Some sql =>
          match exec_sql ownerRole sql s with
          | Ok s' => run_pending l' s' (vs ++ [version_of e])%list
          | Err x => (Err (MigApply (Name e) x), mkMigDb s (Some vs))
          end
      end
  end.

Lemma quiet_os_call {A} (r : option A) : quiet (os_call r).
Proof. intros d. by destruct r. Qed.
Lemma run_os_call {A} (r : option A) d :
  run (os_call r) d = match r with Some a => (Ok a, d) | None => (Err MigOS, d) end.
Proof. by destruct r. Qed.

Lemma apply_body_det e sql :
  det (E:=pg_error) (stmt (exec_file sql) ≫= λ _ : unit, stmt (insert_version (version_of e))).
Proof. solve_det. Qed.

Lemma quiet_apply_entry e sql : quiet (apply_entry e sql).
Proof.
  intros d. unfold apply_entry, WithTx. cbn [pop].
  pose proof (quiet_calling (MigApply (Name e)) _ (det_quiet _ (apply_body_det e sql)) d) as Hq.
  destruct (calling _ _ [] d) as [[a|x] [fs d']]; cbn in *; by subst.
Qed.

(** What the transaction of a file does. *)
Definition applied (e : DirEntry) (sql : string) (d : mig_db Sch) : res pg_error (mig_db Sch) :=
  match exec_sql ownerRole sql (mg_schema d), schema_migrations d with
  | Ok s, Some vs =>
      if existsb (λ v, v ==? version_of e) vs then Err UniqueViolation
      else Ok (mkMigDb s (Some (vs ++ [version_of e])%list))
  | Ok _, None => Err UndefinedTable
  | Err x, _ => Err x
  end.

Lemma run_apply_body e sql d :
  run (E:=pg_error) (stmt (exec_file sql) ≫= λ _ : unit, stmt (insert_version (version_of e))) d
  = match applied e sql d with
    | Ok d' => (Ok tt, d')
    | Err x => (Err x, match exec_sql ownerRole sql (mg_schema d) with
                       | Ok s => mkMigDb s (schema_migrations d) | Err _ => d end)
    end.
Proof.
  rewrite run_bind, run_stmt by auto with barber. unfold exec_file, applied.
  destruct (exec_sql ownerRole sql (mg_schema d)) as [s|x]; [|done].
  rewrite run_stmt. unfold insert_version. cbn. destruct (schema_migrations d) as [vs|]; [|done].
  by destruct (existsb _ vs).
Qed.

(** Whatever fails, the transaction is done or it is not. *)
Lemma apply_entry_cases e sql fs d :
  match (apply_entry e sql fs d).1 with
  | Ok _ => applied e sql d = Ok (apply_entry e sql fs d).2.2
  | Err _ => (apply_entry e sql fs d).2.2 = d ∨ applied e sql d = Ok (apply_entry e sql fs d).2.2
  end.
Proof.
  unfold apply_entry, WithTx. destruct (pop fs) as [[] fs1]; [|by left..].
  unfold calling. rewrite attempt_bind. destruct (apply_body_det e sql) as [_ Hd]. specialize (Hd fs1 d).
  rewrite run_apply_body in Hd.
  destruct ((stmt (exec_file sql) ≫= λ _ : (), stmt (insert_version (version_of e))) fs1 d) as [r [fs2 d2]].
  cbn in *. destruct r as [[]|x]; [|by left]. destruct Hd as [Hd|]; [|done].
  destruct (applied e sql d) as [d'|]; [|done]. injection Hd as ->.
  destruct fs2 as [|[] ?]; cbn; auto.
Qed.

Lemma run_apply_entry e sql d :
  run (apply_entry e sql) d
  = match applied e sql d with Ok d' => (Ok tt, d') | Err x => (Err (MigApply (Name e) x), d) end.
Proof.
  unfold run, apply_entry, WithTx. cbn [pop]. unfold calling. rewrite attempt_bind.
  pose proof (run_apply_body e sql d) as Hr. destruct (apply_body_det e sql) as [Hq _]. specialize (Hq d).
  unfold run in Hr.
  destruct ((stmt (exec_file sql) ≫= λ _ : (), stmt (insert_version (version_of e))) [] d) as [r [fs2 d2]].
  cbn in *. subst fs2. destruct (applied e sql d) as [d'|x]; by simplify_eq.
Qed.

Lemma run_is_applied v vs s :
  run (is_applied v) (mkMigDb s (Some vs)) = (Ok (existsb (λ v', v' ==? v) vs), mkMigDb s (Some vs)).
Proof. unfold is_applied. by rewrite run_stmt. Qed.

Lemma skips_entry e : IsDir e || negb (HasSuffix (Name e) ".up.sql") = negb (is_migration e).
Proof. unfold is_migration. by rewrite negb_involutive. Qed.

Lemma run_migrate_entries l vs s :
  NoDup (map version_of (sel is_migration l)) →
  run (migrate_entries l) (mkMigDb s (Some vs)) = run_pending (pending vs (sel is_migration l)) s vs.
Proof.
  revert vs s. induction l as [|e l IH]; intros vs s Hnd; [done|]. cbn [migrate_entries].
  rewrite skips_entry. unfold sel in *. cbn [List.filter] in *.
  destruct (is_migration e) eqn:Hm; cbn [negb].
  - cbn in Hnd. apply NoDup_cons in Hnd as [He Hnd].
    rewrite runq_bind by (apply det_quiet; unfold is_applied; solve_det). rewrite run_is_applied.
    unfold pending at 1, sel. cbn [List.filter].
    destruct (existsb _ vs) eqn:Ev; cbn [negb]; [by apply IH|].
    rewrite runq_bind by apply quiet_os_call. rewrite run_os_call. cbn [run_pending].
    destruct (ReadFile directory (Name e)) as [sql|]; [|done].
    rewrite runq_bind by apply quiet_apply_entry. rewrite run_apply_entry. unfold applied. cbn [mg_schema schema_migrations].
    destruct (exec_sql ownerRole sql s) as [s'|x]; [|done]. rewrite Ev, IH by done. by rewrite pending_snoc.
  - by apply IH.
Qed.

Lemma run_migrate entries d :
  member_of ownerRole = true → ReadDir directory = Some entries → NoDup (map Name entries) →
  let vs := default [] (schema_migrations d) in
  run migrate d = run_pending (pending vs (files entries)) (mg_schema d) vs.
Proof.
  intros Hm Hr Hnd vs. unfold migrate.
  rewrite runq_bind by (apply det_quiet; unfold set_role; solve_det). unfold set_role. rewrite run_stmt, Hm. cbn beta iota.
  rewrite (runq_bind create_tracking) by done.
  change (run create_tracking d) with (@Ok mig_error _ tt, mkMigDb (mg_schema d) (Some vs)). cbn beta iota.
  rewrite runq_bind by apply quiet_os_call. rewrite run_os_call, Hr.
  apply run_migrate_entries. by apply (files_NoDup entries).
Qed.

Lemma run_pending_ok l s vs s' :
  replay l s = Some s' → run_pending l s vs = (Ok tt, mkMigDb s' (Some (vs ++ map version_of l)%list)).
Proof.
  revert s vs. induction l as [|e l IH]; intros s vs; cbn; [intros [= ->]; by rewrite app_nil_r|].
  destruct (ReadFile directory (Name e)) as [sql|]; [|done].
  destruct (exec_sql ownerRole sql s) as [s1|]; [|done]. intros Hl. rewrite (IH _ _ Hl).
  by rewrite <- app_assoc.
Qed.

Lemma run_pending_app l k s vs s1 :
  replay l s = Some s1 → run_pending (l ++ k)%list s vs = run_pending k s1 (vs ++ map version_of l)%list.
Proof.
  revert s vs. induction l as [|e l IH]; intros s vs; cbn; [intros [= ->]; by rewrite app_nil_r|].
  destruct (ReadFile directory (Name e)) as [sql|]; [|done].
  destruct (exec_sql ownerRole sql s) as [s2|]; [|done]. intros Hl. rewrite (IH _ _ Hl).
  by rewrite <- app_assoc.
Qed.

(** ** Several jobs at once

    A job as the sequence of its statements; between two of them other jobs
    run theirs. *)
Inductive job :=
| Connected
| Creating
| Listing
| Looping (rest : list DirEntry)
| Reading (e : DirEntry) (rest : list DirEntry)
| Applying (e : DirEntry) (sql : string) (rest : list DirEntry)
| Stopped (r : res mig_error unit).

(** Go on with the result of a statement, or stop with its error. *)
Definition proceed {A} (k : A -> job) (o : res mig_error A * (list fault * mig_db Sch))
    : job * (list fault * mig_db Sch) :=
  match o with (Ok a, s) => (k a, s) | (Err x, s) => (Stopped (Err x), s) end.

Definition job_step (j : job) (fs : list fault) (d : mig_db Sch) : job * (list fault * mig_db Sch) :=
  match j with
  | Connected => proceed (λ _, Creating) (set_role fs d)
  | Creating => proceed (λ _, Listing) (create_tracking fs d)
  | Listing => proceed (λ entries, Looping (sort_entries entries)) (os_call (ReadDir directory) fs d)
  | Looping [] => (Stopped (Ok tt), (fs, d))
  | Looping (e :: rest) =>
      if IsDir e || negb (HasSuffix (Name e) ".up.sql") then (Looping rest, (fs, d))
      else proceed (λ b : bool, if b then Looping rest else Reading e rest) (is_applied (version_of e) fs d)
  | Reading e rest => proceed (λ sql, Applying e sql rest) (os_call (ReadFile directory (Name e)) fs d)
  | Applying e sql rest => proceed (λ _, Looping rest) (apply_entry e sql fs d)
  | Stopped r => (Stopped r, (fs, d))
  end.

(** The steps of one job, undisturbed. *)
Inductive job_run : job * (list fault * mig_db Sch) -> job * (list fault * mig_db Sch) -> Prop :=
| jr_step j fs d : job_run (j, (fs, d)) (job_step j fs d).

Lemma entries_job l fs d :
  rtc job_run (Looping l, (fs, d)) (Stopped (migrate_entries l fs d).1, (migrate_entries l fs d).2).
Proof.
  revert fs d. induction l as [|e l IH]; intros fs d; [eapply rtc_l; [constructor|]; done|]. cbn [migrate_entries].
  eapply rtc_l; [constructor|]. cbn [job_step]. destruct (IsDir e || _); [done|].
  rewrite bind_eq. destruct (is_applied (version_of e) fs d) as [[[]|x] [fs1 d1]]; cbn [proceed]; [done| |done].
  eapply rtc_l; [constructor|]. cbn [job_step]. rewrite bind_eq.
  destruct (os_call (ReadFile directory (Name e)) fs1 d1) as [[sql|x] [fs2 d2]]; cbn [proceed]; [|done].
  eapply rtc_l; [constructor|]. cbn [job_step]. rewrite bind_eq.
  destruct (apply_entry e sql fs2 d2) as [[[]|x] [fs3 d3]]; cbn [proceed]; done.
Qed.

(** The steps are those of the code. *)
Lemma migrate_job fs d : rtc job_run (Connected, (fs, d)) (Stopped (migrate fs d).1, (migrate fs d).2).
Proof.
  unfold migrate. eapply rtc_l; [constructor|]. cbn [job_step]. rewrite bind_eq.
  destruct (set_role fs d) as [[[]|x] [fs1 d1]]; cbn [proceed]; [|done].
  eapply rtc_l; [constructor|]. cbn [job_step]. rewrite bind_eq.
  destruct (create_tracking fs1 d1) as [[[]|x] [fs2 d2]]; cbn [proceed]; [|done].
  eapply rtc_l; [constructor|]. cbn [job_step]. rewrite bind_eq.
  destruct (os_call (ReadDir directory) fs2 d2) as [[l|x] [fs3 d3]]; cbn [proceed]; [|done].
  apply entries_job.
Qed.

(** Jobs start at any time and take turns; a job that is killed takes no more. *)
Inductive jobs_step : list job * mig_db Sch -> list job * mig_db Sch -> Prop :=
| js_start js d : jobs_step (js, d) ((js ++ [Connected])%list, d)
| js_turn js d i j fs :
    js !! i = Some j → jobs_step (js, d) (<[i := (job_step j fs d).1]> js, (job_step j fs d).2.2).

(** One job alone is a run of the system. *)
Lemma job_run_jobs a b : rtc job_run a b → rtc jobs_step ([a.1], a.2.2) ([b.1], b.2.2).
Proof.
  induction 1 as [|a b c Hab _ IH]; [done|]. eapply rtc_l; [|exact IH]. destruct Hab as [j fs d]. cbn.
  apply (js_turn [j] d 0 j fs). done.
Qed.

(** *** The invariant *)
Section Invariant.
Context (entries : list DirEntry) (d0 : mig_db Sch).
Hypothesis Hdir : ReadDir directory = Some entries.
Hypothesis Hnames : NoDup (map Name entries).

Definition recorded0 : list string := default [] (schema_migrations d0).
Definition todo : list DirEntry := pending recorded0 (files entries).

(** The first [k] of the files to do are done, and recorded. *)
Definition at_prefix (k : nat) (d : mig_db Sch) : Prop :=
  replay (take k todo) (mg_schema d0) = Some (mg_schema d) ∧
  (k = 0%nat ∧ schema_migrations d = schema_migrations d0 ∨
   schema_migrations d = Some (recorded0 ++ map version_of (take k todo))%list).

(** What a job knows: the files before its position are recorded. *)
Definition passed (d : mig_db Sch) (rest : list DirEntry) : Prop :=
  ∃ before vs, sort_entries entries = (before ++ rest)%list ∧ schema_migrations d = Some vs ∧
    ∀ e, e ∈ before → is_migration e = true → version_of e ∈ vs.

Definition job_ok (d : mig_db Sch) (j : job) : Prop :=
  match j with
  | Connected | Creating => True
  | Stopped r => is_ok r = true → passed d []
  | Listing => is_Some (schema_migrations d)
  | Looping rest => passed d rest
  | Reading e rest => passed d (e :: rest) ∧ is_migration e = true
  | Applying e sql rest =>
      passed d (e :: rest) ∧ is_migration e = true ∧ ReadFile directory (Name e) = Some sql
  end.

(** Recorded versions stay. *)
Definition grows (d d' : mig_db Sch) : Prop :=
  ∀ vs, schema_migrations d = Some vs → ∃ vs', schema_migrations d' = Some vs' ∧ vs ⊆ vs'.

Lemma job_ok_grows d d' j : grows d d' → job_ok d j → job_ok d' j.
Proof.
  intros Hg. assert (∀ rest, passed d rest → passed d' rest) as Hp.
  { intros rest (b & vs & Hs & Ht & Hin). destruct (Hg vs Ht) as (vs' & Ht' & Hsub).
    exists b, vs'. split_and!; [done|done|]. intros e He Hm. apply Hsub. by apply Hin. }
  destruct j; cbn; try tauto; [|naive_solver..]. intros [vs Hvs]. destruct (Hg vs Hvs) as (vs' & Ht & _). eauto.
Qed.

(** A prefix of distinct rows that holds the rows before [e] and not [e]. *)
Lemma prefix_split {A B} (f : A -> B) (a : list A) e b k :
  NoDup (map f (a ++ e :: b)%list) →
  (∀ x, x ∈ a → f x ∈ map f (take k (a ++ e :: b)%list)) →
  f e ∉ map f (take k (a ++ e :: b)%list) →
  k = length a.
Proof.
  intros Hnd Ha He. destruct (Nat.lt_trichotomy k (length a)) as [Hk|[Hk|Hk]]; [|done|]; exfalso.
  - destruct (lookup_lt_is_Some_2 a k Hk) as [x Hx].
    assert (f x ∈ map f (take k (a ++ e :: b)%list)) as Hin by (apply Ha; by eapply list_elem_of_lookup_2).
    rewrite <- (take_drop_middle a k x Hx), <- app_assoc, map_app in Hnd. cbn in Hnd.
    apply NoDup_app in Hnd as (_ & Hd & _). apply (Hd (f x)); [|left].
    rewrite take_app_le in Hin by lia. done.
  - apply He. rewrite take_app_ge by lia. rewrite map_app. apply elem_of_app. right.
    destruct (k - length a)%nat eqn:E; [lia|]. left.
Qed.

Lemma todo_NoDup : NoDup (map version_of todo).
Proof using All. apply NoDup_map_sel. by apply files_NoDup. Qed.

(** The file a job applies is the next one. *)
Lemma applied_next k d e sql rest d' :
  at_prefix k d → passed d (e :: rest) → is_migration e = true → ReadFile directory (Name e) = Some sql →
  applied e sql d = Ok d' → at_prefix (S k) d' ∧ grows d d'.
Proof using All.
  intros [Hr Ht] (before & vs & Hs & Hvs & Hb) Hm Hsql Ha. unfold applied in Ha. rewrite Hvs in Ha.
  destruct (exec_sql ownerRole sql (mg_schema d)) as [s|] eqn:Ex; [|done].
  destruct (existsb _ vs) eqn:Ev; [done|]. injection Ha as <-.
  assert (vs = recorded0 ++ map version_of (take k todo))%list as Evs.
  { unfold recorded0 in *. destruct Ht as [[-> Ht]|Ht]; [|congruence].
    rewrite <- Ht, Hvs. cbn. by rewrite app_nil_r. }
  assert (version_of e ∉ vs) as Hnew by (intros Hin; rewrite existsb_fresh in Ev; by apply (Ev _ Hin)).
  clear Ht Ev. subst vs. set (a := pending recorded0 (sel is_migration before)).
  assert (todo = a ++ e :: pending recorded0 (sel is_migration rest))%list as Et.
  { unfold todo, files, pending, a. rewrite Hs, !sel_app. unfold sel at 4. cbn [List.filter]. rewrite Hm.
    unfold pending, sel at 3. cbn [List.filter].
    destruct (existsb _ recorded0) eqn:Ee; [|done]. exfalso. apply Hnew.
    apply existsb_elem in Ee as (v & Hv & E). bsimpl. subst v. set_solver. }
  assert (k = length a) as Ek.
  { pose proof todo_NoDup as Hnd. rewrite Et in Hnd, Hnew, Hb. eapply prefix_split; [exact Hnd| |].
    - intros x Hx. unfold a in Hx. apply elem_of_sel in Hx as [Hx1 Hx2]. apply elem_of_sel in Hx2 as [Hx2 Hx3].
      specialize (Hb x Hx3 Hx2). apply elem_of_app in Hb as [Hb|Hb]; [|done].
      bsimpl. rewrite existsb_fresh in Hx1. by destruct (Hx1 _ Hb).
    - set_solver. }
  assert (take (S k) todo = take k todo ++ [e])%list as Etk.
  { rewrite Et, Ek, firstn_app, firstn_all2 by lia. replace (S (length a) - length a)%nat with 1%nat by lia.
    rewrite take_app_length. done. }
  split; [split|].
  - rewrite Etk, replay_app, Hr. cbn. by rewrite Hsql, Ex.
  - right. cbn. by rewrite Etk, map_app, app_assoc.
  - intros vs' Hvs'. rewrite Hvs in Hvs'. injection Hvs' as <-. eexists. split; [done|]. set_solver.
Qed.

Lemma created_prefix k d :
  at_prefix k d → at_prefix k (mkMigDb (mg_schema d) (Some (default [] (schema_migrations d)))).
Proof.
  intros [Hr Ht]. split; [done|]. right. cbn. destruct Ht as [[-> Ht]| ->]; [|done]. rewrite Ht.
  cbn. by rewrite app_nil_r.
Qed.

Lemma grows_refl d : grows d d.
Proof. intros vs Hvs. by exists vs. Qed.

Lemma create_cases fs d :
  let o := create_tracking fs d in
  (o.2.2 = d ∧ ¬ is_ok o.1 ∨ o.2.2 = mkMigDb (mg_schema d) (Some (default [] (schema_migrations d)))).
Proof. unfold create_tracking, autocommit. destruct (pop fs) as [[] ?]; cbn; auto. Qed.

Lemma role_keeps fs d : (set_role fs d).2.2 = d.
Proof. unfold set_role, stmt. destruct (pop fs) as [[] ?], (member_of ownerRole); done. Qed.
Lemma os_cases {A} (r : option A) fs d :
  (os_call r fs d).2.2 = d ∧ ∀ a, (os_call r fs d).1 = Ok a → r = Some a.
Proof. unfold os_call. destruct (pop fs) as [[] ?], r; cbn; naive_solver. Qed.
Lemma is_applied_cases v fs d :
  (is_applied v fs d).2.2 = d ∧
  ((is_applied v fs d).1 = Ok true → ∃ vs, schema_migrations d = Some vs ∧ v ∈ vs).
Proof.
  unfold is_applied, stmt, reading. destruct (pop fs) as [[] ?]; [|done..].
  destruct (schema_migrations d) as [vs|]; [|done]. cbn. split; [done|]. intros [= E].
  exists vs. split; [done|]. apply existsb_elem in E as (x & Hx & E). bsimpl. by subst.
Qed.

Lemma passed_next d e rest :
  passed d (e :: rest) → (is_migration e = true → ∃ vs, schema_migrations d = Some vs ∧ version_of e ∈ vs) →
  passed d rest.
Proof.
  intros (b & vs & Hs & Ht & Hb) He. exists (b ++ [e])%list, vs. rewrite <- app_assoc. split_and!; [done|done|].
  intros x [Hx|Hx%list_elem_of_singleton]%elem_of_app Hm; [by apply Hb|]. subst x.
  destruct (He Hm) as (vs' & Ht' & Hin). congruence.
Qed.

Lemma applied_records e sql d d' :
  applied e sql d = Ok d' → ∃ vs, schema_migrations d' = Some vs ∧ version_of e ∈ vs.
Proof.
  unfold applied. destruct (exec_sql _ _ _); [|done]. destruct (schema_migrations d); [|done].
  destruct (existsb _ _); [done|]. intros [= <-]. eexists. split; [done|]. set_solver.
Qed.

Definition step_ok (d : mig_db Sch) (o : job * (list fault * mig_db Sch)) : Prop :=
  (∃ k, at_prefix k o.2.2) ∧ grows d o.2.2 ∧ job_ok o.2.2 o.1.

(** A statement that changes nothing. *)
Lemma proceed_same {A} (c : A -> job) o k d :
  at_prefix k d → o.2.2 = d → (∀ a, o.1 = Ok a → job_ok d (c a)) → step_ok d (proceed c o).
Proof.
  intros Hk Hd Hc. unfold step_ok, proceed. destruct o as [[a|x] [fs d']]; cbn in *; subst d';
    (split_and!; [eauto|apply grows_refl|]); [by apply Hc|done].
Qed.

Lemma job_step_ok j fs d k : at_prefix k d → job_ok d j → step_ok d (job_step j fs d).
Proof using All.
  intros Hk Hj. destruct j as [| | |[|e rest]|e rest|e sql rest|r]; cbn [job_step job_ok] in *.
  - eapply proceed_same; [done|apply role_keeps|done].
  - pose proof (create_cases fs d) as Hc. pose proof (created_prefix k d Hk) as Hk'.
    destruct (create_tracking fs d) as [[a|x] [fs' d']]; cbn in *.
    + destruct Hc as [[_ []]| ->]; [done|]. split_and!; cbn; [by eauto| |by eauto].
      intros vs Hvs. cbn. rewrite Hvs. by exists vs.
    + destruct Hc as [[-> _]| ->]; (split_and!; cbn; [by eauto| |done]); [apply grows_refl|].
      intros vs Hvs. cbn. rewrite Hvs. by exists vs.
  - eapply proceed_same; [done|apply os_cases|]. intros l Hl%os_cases. rewrite Hdir in Hl. injection Hl as <-.
    destruct Hj as [vs Hvs]. exists [], vs. split_and!; [done|done|]. intros e He. by apply elem_of_nil in He.
  - by split_and!; cbn; [eauto|apply grows_refl|].
  - rewrite skips_entry. destruct (is_migration e) eqn:Hm; cbn [negb].
    + eapply proceed_same; [done|apply is_applied_cases|]. intros [] Hb; [|done].
      eapply passed_next; [done|]. intros _. eapply is_applied_cases. exact Hb.
    + split_and!; cbn; [eauto|apply grows_refl|]. eapply passed_next; [done|]. by rewrite Hm.
  - destruct Hj as [Hp Hm]. eapply proceed_same; [done|apply os_cases|]. intros sql Hs%os_cases. done.
  - destruct Hj as (Hp & Hm & Hs). pose proof (apply_entry_cases e sql fs d) as Hc.
    destruct (apply_entry e sql fs d) as [[a|x] [fs' d']]; cbn in Hc.
    + destruct (applied_next k d e sql rest d') as [Hk' Hg]; [done..|]. split_and!; cbn; [eauto|done|].
      eapply passed_next; [eapply (job_ok_grows d d' (Looping (e :: rest))); done|]. intros _. by eapply applied_records.
    + destruct Hc as [->|Hc]; [split_and!; cbn; [eauto|apply grows_refl|done]|].
      destruct (applied_next k d e sql rest d') as [Hk' Hg]; [done..|]. split_and!; cbn; [eauto|done|done].
  - split_and!; cbn; [eauto|apply grows_refl|done].
Qed.

Definition jobs_inv (s : list job * mig_db Sch) : Prop := (∃ k, at_prefix k s.2) ∧ Forall (job_ok s.2) s.1.

Lemma jobs_inv_step s s' : jobs_inv s → jobs_step s s' → jobs_inv s'.
Proof using All.
  intros [[k Hk] Hj] Hs. destruct Hs as [js d|js d i j fs Hi]; cbn in *.
  - split; cbn; [eauto|]. apply Forall_app. split; [done|]. by constructor.
  - rewrite Forall_lookup in Hj. destruct (job_step_ok j fs d k Hk (Hj _ _ Hi)) as (Hk' & Hg & Hok).
    split; cbn; [done|]. apply Forall_insert; [|done]. rewrite Forall_lookup. intros i' j' Hi'.
    eapply job_ok_grows; eauto.
Qed.

Lemma jobs_inv_reach s : rtc jobs_step ([], d0) s → jobs_inv s.
Proof using All.
  assert (jobs_inv ([], d0)) as H0.
  { split; [|constructor]. exists 0%nat. split; [done|]. by left. }
  intros Hs. revert H0. induction Hs as [|? ? ? Hst _ IH]; intros H0; [done|]. apply IH. by eapply jobs_inv_step.
Qed.

Lemma pending_app vs ws l : pending (vs ++ ws)%list l = pending ws (pending vs l).
Proof.
  unfold pending, sel. induction l as [|e l IH]; [done|]. cbn [List.filter]. rewrite existsb_app.
  destruct (existsb _ vs); cbn; [exact IH|]. destruct (existsb _ ws); cbn; by rewrite IH.
Qed.

Lemma pending_take l k :
  NoDup (map version_of l) → pending (map version_of (take k l)) l = drop k l.
Proof.
  intros Hnd. rewrite <- (take_drop k l) at 2. rewrite <- (take_drop k l), map_app in Hnd.
  apply NoDup_app in Hnd as (_ & Hd & _). unfold pending. rewrite sel_app, (sel_nothing _ (take k l)), sel_all; [done|..].
  - intros e He. bsimpl. apply existsb_fresh. intros v Hv ->. apply (Hd _ Hv).
    by apply list_elem_of_In, in_map, list_elem_of_In.
  - intros e He. bsimpl. apply existsb_elem. exists (version_of e).
    split; [by apply list_elem_of_In, in_map, list_elem_of_In|]. by bsimpl.
Qed.

(** A complete run from a state on the way. *)
Lemma prefix_completes k d s :
  member_of ownerRole = true → at_prefix k d → replay todo (mg_schema d0) = Some s →
  run migrate d = (Ok tt, mkMigDb s (Some (recorded0 ++ map version_of todo)%list)).
Proof using All.
  intros Hm [Hr Ht] Hall. rewrite (run_migrate entries d Hm Hdir Hnames).
  assert (default [] (schema_migrations d) = recorded0 ++ map version_of (take k todo))%list as ->.
  { destruct Ht as [[-> ->]| ->]; cbn; by rewrite ?app_nil_r. }
  rewrite pending_app. fold todo. rewrite pending_take by apply todo_NoDup.
  rewrite <- (take_drop k todo), replay_app, Hr in Hall. rewrite (run_pending_ok _ _ _ s Hall).
  by rewrite <- app_assoc, <- map_app, take_drop.
Qed.

(** A job that succeeded leaves nothing to do. *)
Lemma passed_all k d : at_prefix k d → passed d [] → take k todo = todo.
Proof using All.
  intros [_ Ht] (b & vs & Hs & Hvs & Hb). rewrite app_nil_r in Hs.
  assert (vs = recorded0 ++ map version_of (take k todo))%list as Evs.
  { unfold recorded0 in *. destruct Ht as [[-> Ht]|Ht]; [|congruence].
    rewrite <- Ht, Hvs. cbn. by rewrite app_nil_r. }
  destruct (drop k todo) as [|e l] eqn:Ed; [by rewrite <- (take_drop k todo) at 2; rewrite Ed, app_nil_r|]. exfalso.
  assert (e ∈ todo) as He by (rewrite <- (take_drop k todo), Ed; set_solver).
  pose proof todo_NoDup as Hnd. rewrite <- (take_drop k todo), Ed, map_app in Hnd.
  apply NoDup_app in Hnd as (_ & Hd & _).
  apply elem_of_sel in He as [He1 He2]. apply elem_of_sel in He2 as [He2 He3]. rewrite Hs in He3.
  specialize (Hb e He3 He2). rewrite Evs in Hb. bsimpl. rewrite existsb_fresh in He1.
  apply elem_of_app in Hb as [Hb|Hb]; [by apply (He1 _ Hb)|]. apply (Hd _ Hb). left.
Qed.
End Invariant.

(** ** Properties *)

(** C12: migration jobs may run at the same time, be killed between any two
    statements, and lose a connection at any statement, acknowledgements of
    commits included: at every moment the files applied since the start are the
    first ones of those that were pending, in the order of their names, each
    exactly once, and the schema is what they make of the schema at the start;
    a job that reported success leaves no file pending; and if the pending files
    are sound, a later job that is not disturbed completes the migration. *)
Theorem concurrent_migrations entries d0 js d :
  ReadDir directory = Some entries → NoDup (map Name entries) →
  rtc jobs_step ([], d0) (js, d) →
  let before := default [] (schema_migrations d0) in
  let P := pending before (files entries) in
  ∃ k, replay (take k P) (mg_schema d0) = Some (mg_schema d) ∧
    (schema_migrations d = Some (before ++ map version_of (take k P))%list
     ∨ k = 0%nat ∧ schema_migrations d = schema_migrations d0) ∧
    (Stopped (Ok tt) ∈ js → take k P = P) ∧
    (∀ s, member_of ownerRole = true → replay P (mg_schema d0) = Some s →
       run migrate d = (Ok tt, mkMigDb s (Some (before ++ map version_of P)%list))).
Proof.
  intros Hdir Hnames Hs before P. destruct (jobs_inv_reach entries d0 Hdir Hnames _ Hs) as [[k Hk] Hj].
  cbn in *. exists k. pose proof Hk as [Hr Ht]. split_and!; [done|tauto| |].
  - intros Hin. rewrite Forall_forall in Hj. by eapply passed_all; [..|apply (Hj _ Hin)].
  - intros s Hm Hall. by eapply prefix_completes.
Qed.

(** a run that nothing disturbs applies exactly the pending files in the
    order of their names and records their versions; a file PostgreSQL refuses
    stops it with an error that names the file, the files before it stay
    applied and the file itself has had no effect. *)
Theorem migration_exact entries d :
  member_of ownerRole = true → ReadDir directory = Some entries → NoDup (map Name entries) →
  let before := default [] (schema_migrations d) in
  let P := pending before (files entries) in
  (∀ s, replay P (mg_schema d) = Some s →
     run migrate d = (Ok tt, mkMigDb s (Some (before ++ map version_of P)%list))) ∧
  (∀ l e k s sql x, P = (l ++ e :: k)%list → replay l (mg_schema d) = Some s →
     ReadFile directory (Name e) = Some sql → exec_sql ownerRole sql s = Err x →
     run migrate d = (Err (MigApply (Name e) x), mkMigDb s (Some (before ++ map version_of l)%list))).
Proof.
  intros Hm Hdir Hnames before P. rewrite (run_migrate entries d Hm Hdir Hnames). fold before P.
  split; [intros s; apply run_pending_ok|]. intros l e k s sql x -> Hl Hsql Hx.
  rewrite (run_pending_app _ _ _ _ s Hl). cbn. by rewrite Hsql, Hx.
Qed.

(** The clock of a job advances by a second between two attempts. *)
Definition ticking (net : nat -> attempt_of_connect) (start : time) : Prop :=
  (start <= at_now (net 0%nat))%Z ∧
  ∀ n, (at_now (net n) + Second <= at_now (net (S n)))%Z.

Lemma ticking_now net start n :
  ticking net start → (start + Z.of_nat n * Second <= at_now (net n))%Z.
Proof. intros [H0 Hs]. induction n as [|n IH]; [lia|]. specialize (Hs n). lia. Qed.

(** The attempt that ends the loop, and how. *)
Definition ends_with (net : nat -> attempt_of_connect) (deadline : time) (n : nat) (r : res mig_error unit) : Prop :=
  match at_err (net n) with
  | None => r = Ok tt
  | Some e => After (at_now (net n)) deadline = true ∧ r = Err (MigConnect e) ∨
              After (at_now (net n)) deadline = false ∧ at_done (net n) = true ∧ r = Err MigCancelled
  end.
Definition goes_on (net : nat -> attempt_of_connect) (deadline : time) (n : nat) : Prop :=
  at_err (net n) ≠ None ∧ After (at_now (net n)) deadline = false ∧ at_done (net n) = false.

Lemma connect_loop_ends fuel net start n :
  ticking net start → (n + fuel = 46)%nat →
  ∃ m r, (n <= m <= 46)%nat ∧ (∀ i, (n <= i < m)%nat → goes_on net (Add start (45 * Second)) i) ∧
    ends_with net (Add start (45 * Second)) m r ∧
    connect_loop (S fuel) net (Add start (45 * Second)) n = Some r.
Proof.
  intros Ht. revert n. induction fuel as [|fuel IH]; intros n Hn.
  - assert (n = 46%nat) as -> by lia. pose proof (ticking_now net start 46 Ht) as H46.
    assert (After (at_now (net 46%nat)) (Add start (45 * Second)) = true) as Ha
      by (unfold After, Add, Second in *; bsimpl; lia).
    cbn [connect_loop]. unfold ends_with. rewrite Ha.
    destruct (at_err (net 46%nat)) as [e|] eqn:E; eexists 46%nat, _; rewrite E; (split_and!; [lia|lia|lia|..]); auto.
  - remember (S fuel) as f eqn:Ef. cbn [connect_loop].
    destruct (at_err (net n)) as [e|] eqn:E; [|exists n, (Ok tt); unfold ends_with; rewrite E; split_and!; auto; lia].
    destruct (After (at_now (net n)) (Add start (45 * Second))) eqn:Ea;
      [exists n, (Err (MigConnect e)); unfold ends_with; rewrite E; split_and!; auto; lia|].
    destruct (at_done (net n)) eqn:Ed;
      [exists n, (Err MigCancelled); unfold ends_with; rewrite E; split_and!; auto; lia|].
    subst f. destruct (IH (S n)) as (m & r & Hm & Hg & He & Hr); [lia|]. exists m, r. split_and!; [lia|lia| |done|done].
    intros i Hi. destruct (decide (i = n)) as [->|]; [by split_and!; [rewrite E|..]|apply Hg; lia].
Qed.

(** the job stops trying to connect: at most 47 attempts are made, the job
    migrates after the first that succeeds, and otherwise reports the error of
    the first attempt that failed after 45 seconds, or that it was cancelled. *)
Theorem connect_bounded net start :
  ticking net start →
  ∃ n r, (n <= 46)%nat ∧ (∀ i, (i < n)%nat → goes_on net (Add start (45 * Second)) i) ∧
    ends_with net (Add start (45 * Second)) n r ∧
    Apply net start = Some (match r with Ok _ => migrate | Err e => io_fail e end).
Proof.
  intros Ht. destruct (connect_loop_ends 46 net start 0 Ht) as (n & r & Hn & Hg & He & Hr); [done|].
  exists n, r. split_and!; [lia|intros i Hi; apply Hg; lia|done|]. unfold Apply, connect_fuel. rewrite Hr. by destruct r.
Qed.
End Job.

(** ** A concrete directory *)

Definition ex_entries : list DirEntry :=
  [mkEntry "000002_rows.up.sql" false; mkEntry "archive.up.sql" true; mkEntry "000001_base.up.sql" false;
   mkEntry "000002_rows.down.sql" false].
Definition ex_ReadDir (dir : string) : option (list DirEntry) :=
  if dir ==? "migrations" then Some ex_entries else None.
Definition ex_ReadFile (dir name : string) : option string := Some (name ++ " of " ++ dir).
(** The schema is the list of the texts that were run. *)
Definition ex_exec (role sql : string) (s : list string) : res pg_error (list string) := Ok (s ++ [sql])%list.
Definition ex_member (role : string) : bool := role ==? "owner".
Definition ex_empty : mig_db (list string) := mkMigDb [] None.
Definition ex_first : mig_db (list string) :=
  mkMigDb ["000001_base.up.sql of migrations"] (Some ["000001_base"]).

Definition ex_stopped : list job :=
  [Stopped (Err (MigPg Infra)); Stopped (Err (MigApply "000001_base.up.sql" UniqueViolation))].

Abbreviation ex_step := (jobs_step ex_exec ex_member ex_ReadDir ex_ReadFile "owner" "migrations").
Abbreviation ex_run := (run (migrate ex_exec ex_member ex_ReadDir ex_ReadFile "owner" "migrations")).

Ltac turn i fs := eapply rtc_l; [eapply (js_turn _ _ _ _ _ _ _ _ i _ fs); reflexivity|]; cbv beta delta [insert] iota; vm_compute.

(** Two jobs reach the first file; the acknowledgement of the first commit is
    lost and the second job finds the version recorded. *)
Lemma ex_jobs :
  rtc ex_step ([], ex_empty) (ex_stopped, ex_first).
Proof.
  do 2 (eapply rtc_l; [constructor|]); cbn [app].
  turn 0%nat (@nil fault). turn 1%nat (@nil fault). turn 0%nat (@nil fault). turn 1%nat (@nil fault).
  turn 0%nat (@nil fault). turn 1%nat (@nil fault). turn 0%nat (@nil fault). turn 1%nat (@nil fault).
  turn 0%nat (@nil fault). turn 1%nat (@nil fault).
  turn 0%nat [FOk; FOk; FOk; FLost]. turn 1%nat (@nil fault). constructor.
Qed.

(** A later job completes the migration. *)
Lemma concurrent_migrations_witness :
  ex_run ex_first
  = (Ok tt, mkMigDb ["000001_base.up.sql of migrations"; "000002_rows.up.sql of migrations"]
              (Some ["000001_base"; "000002_rows"])).
Proof.
  destruct (concurrent_migrations ex_exec ex_member ex_ReadDir ex_ReadFile "owner" "migrations"
              ex_entries ex_empty ex_stopped ex_first) as (k & _ & _ & _ & Hk); [done| |apply ex_jobs|].
  - apply (bool_decide_unpack _). by vm_compute.
  - by apply Hk.
Defined.

Lemma migration_exact_witness :
  ex_run ex_empty
  = (Ok tt, mkMigDb ["000001_base.up.sql of migrations"; "000002_rows.up.sql of migrations"]
              (Some ["000001_base"; "000002_rows"])).
Proof.
  apply (migration_exact ex_exec ex_member ex_ReadDir ex_ReadFile "owner" "migrations" ex_entries ex_empty);
    [done|done| |done]. apply (bool_decide_unpack _). by vm_compute.
Defined.

(** A database that comes up in the fourth second. *)
Definition ex_net (n : nat) : attempt_of_connect :=
  mkConnectAttempt (if (n <? 3)%nat then Some Infra else None) (Z.of_nat n * Second) false.

Lemma connect_bounded_witness :
  ∃ n r, (n <= 46)%nat ∧ (∀ i, (i < n)%nat → goes_on ex_net (45 * Second) i) ∧ ends_with ex_net (45 * Second) n r.
Proof.
  destruct (connect_bounded ex_exec ex_member ex_ReadDir ex_ReadFile "owner" "migrations" ex_net 0)
    as (n & r & Hn & Hg & He & _).
  - split; [done|]. intros n. unfold ex_net, at_now. lia.
  - by exists n, r.
Defined.
