(* ===== verification/Server.v ===== *)
(** * Server: what every service installs in front of its routes

    platform/httpx (request ids, the status of a request, its route pattern,
    health routes, graceful shutdown), platform/logging, platform/obsmetrics and
    platform/otelsetup.  A handler of fiber is a function of the context of a
    request and of what the process has recorded; a middleware is a function of
    the rest of the chain.  Routing, the error handler of fiber, the W3C
    propagator and the tracer are parameters. *)
From stdpp Require Import pretty.
From S2P Require Import Prelude GoTime Http Platform.
Open Scope Z_scope.

(** ** Contexts and records *)

(** [fiber.Ctx]: the request, and what the chain has set so far. *)
Record FCtx := mkFCtx {
  fc_method : string;
  fc_path : string;                    (* the raw path and query *)
  fc_body : string;
  fc_get : string -> string;           (* request headers *)
  fc_status : Z;                       (* Response().StatusCode() *)
  fc_route : option string;            (* Route().Path; None for a nil route *)
  fc_local_id : option string;         (* Locals("request_id") *)
  fc_out_id : string;                  (* response header X-Request-ID *)
  fc_trace : option string             (* the valid trace id in c.Context() *)
}.

Definition with_status (s : Z) (c : FCtx) : FCtx :=
  mkFCtx (fc_method c) (fc_path c) (fc_body c) (fc_get c) s (fc_route c) (fc_local_id c) (fc_out_id c) (fc_trace c).
Definition with_id (i : string) (c : FCtx) : FCtx :=
  mkFCtx (fc_method c) (fc_path c) (fc_body c) (fc_get c) (fc_status c) (fc_route c) (Some i) i (fc_trace c).
Definition with_trace (t : option string) (c : FCtx) : FCtx :=
  mkFCtx (fc_method c) (fc_path c) (fc_body c) (fc_get c) (fc_status c) (fc_route c) (fc_local_id c) (fc_out_id c) t.

(** A value of a log line or of a span. *)
Inductive attr := AStr (s : string) | AInt (n : Z).
#[export] Instance attr_eq_dec : EqDecision attr.
Proof. solve_decision. Defined.

Definition log_line := list (string * attr).

Record Span := mkSpan { sp_name : string; sp_trace : option string; sp_attrs : list (string * attr) }.

(** [obsmetrics.Registry], the lines the logger wrote and the spans that ended. *)
Record Obs := mkObs {
  ob_log : list log_line;
  ob_spans : list Span;
  ob_requests : gmap (string * string * string * string) Z;   (* http_requests_total *)
  ob_durations : gmap (string * string * string) (list Z);    (* http_request_duration_seconds *)
  ob_up : gmap (string * string) Z;                           (* dependency_up *)
  ob_allowed : gmap (string * string) Z;                      (* rate_limit_*_total *)
  ob_blocked : gmap (string * string) Z;
  ob_errors : gmap (string * string) Z
}.

(** [obsmetrics.New]: nothing is recorded yet. *)
Definition Registry_New : Obs := mkObs [] [] ∅ ∅ ∅ ∅ ∅ ∅.

(** [WithLabelValues(...).Inc()] *)
Definition inc {K} `{Countable K} (k : K) (m : gmap K Z) : gmap K Z :=
  <[k := default 0 (m !! k) + 1]> m.
(** [WithLabelValues(...).Observe(v)] *)
Definition observe {K} `{Countable K} (k : K) (v : Z) (m : gmap K (list Z)) : gmap K (list Z) :=
  <[k := (default [] (m !! k) ++ [v])%list]> m.

Definition SetDependencyUp (service dependency : string) (up : bool) (o : Obs) : Obs :=
  let v := if up then 1 else 0 in
  mkObs (ob_log o) (ob_spans o) (ob_requests o) (ob_durations o) (<[(service, dependency) := v]> (ob_up o))
    (ob_allowed o) (ob_blocked o) (ob_errors o).
Definition RateLimitAllowed (service operation : string) (o : Obs) : Obs :=
  mkObs (ob_log o) (ob_spans o) (ob_requests o) (ob_durations o) (ob_up o)
    (inc (service, operation) (ob_allowed o)) (ob_blocked o) (ob_errors o).
Definition RateLimitBlocked (service operation : string) (o : Obs) : Obs :=
  mkObs (ob_log o) (ob_spans o) (ob_requests o) (ob_durations o) (ob_up o)
    (ob_allowed o) (inc (service, operation) (ob_blocked o)) (ob_errors o).
Definition RateLimitError (service operation : string) (o : Obs) : Obs :=
  mkObs (ob_log o) (ob_spans o) (ob_requests o) (ob_durations o) (ob_up o)
    (ob_allowed o) (ob_blocked o) (inc (service, operation) (ob_errors o)).

(** A handler of fiber, and the rest of a chain. *)
Definition FHandler : Type := FCtx -> Obs -> option chain_error * (FCtx * Obs).

(** What fiber does with the error of a chain; the flag is an error of its own. *)
Class Fiber := ErrorHandler : FCtx -> chain_error -> bool * FCtx.

(** The W3C propagator and the tracer: the trace id in the headers of a
    request, and the trace id of a span started under it. *)
Class Tracing := mkTracing {
  Extract : (string -> string) -> option string;
  Start : option string -> string -> option string
}.

(** ** Middlewares *)
Section Middlewares.
Context `{!Fiber, !Tracing}.

(** [httpx.ResolveStatus] *)
Definition ResolveStatus (c : FCtx) (chainErr : option chain_error) : Z * FCtx :=
  let c' := match chainErr with
            | None => c
            | Some e => let '(failed, c1) := ErrorHandler c e in
                        if failed then with_status 500 c1 else c1
            end in
  (fc_status c', c').

(** [httpx.RequestID] *)
Definition RequestIDMiddleware (fresh : string) (next : FHandler) : FHandler := fun c o =>
  let requestID := RequestID (fc_get c "X-Request-ID"%string) fresh in
  next (with_id requestID c) o.

(** [otelsetup.TraceID] *)
Definition TraceID (trace : option string) : string := default EmptyString trace.

(** [otelsetup.Middleware] *)
Definition TracingMiddleware (next : FHandler) : FHandler := fun c o =>
  let trace := Start (Extract (fc_get c)) (fc_method c +:+ " request") in
  let '(err, (c1, o1)) := next (with_trace trace c) o in
  let route := RoutePattern (fc_route c1) err in
  let '(status, c2) := ResolveStatus c1 err in
  let span := mkSpan (fc_method c1 +:+ " " +:+ route) trace
                [("http.method", AStr (fc_method c1)); ("http.route", AStr route);
                 ("http.status_code", AInt status)]%string in
  (err, (c2, mkObs (ob_log o1) (ob_spans o1 ++ [span])%list (ob_requests o1) (ob_durations o1) (ob_up o1)
               (ob_allowed o1) (ob_blocked o1) (ob_errors o1))).

(** [logging.HTTPCompletionMiddleware]; [ms] is the time the chain took. *)
Definition HTTPCompletionMiddleware (ms : Z) (next : FHandler) : FHandler := fun c o =>
  let '(err, (c1, o1)) := next c o in
  let route := RoutePattern (fc_route c1) err in
  let requestID := default EmptyString (fc_local_id c1) in
  let '(status, c2) := ResolveStatus c1 err in
  let attrs := [("request_id", AStr requestID); ("trace_id", AStr (TraceID (fc_trace c1)));
                ("method", AStr (fc_method c1)); ("route", AStr route); ("status", AInt status);
                ("duration_ms", AInt ms)]%string in
  let tenantID := fc_get c1 TenantIDHeader in
  let attrs := if tenantID !=? EmptyString then (attrs ++ [("tenant_id", AStr tenantID)])%list else attrs in
  (err, (c2, mkObs (ob_log o1 ++ [attrs])%list (ob_spans o1) (ob_requests o1) (ob_durations o1) (ob_up o1)
               (ob_allowed o1) (ob_blocked o1) (ob_errors o1))).

(** [Registry.HTTPMiddleware]; [elapsed] is the time the chain took. *)
Definition HTTPMiddleware (service : string) (elapsed : Z) (next : FHandler) : FHandler := fun c o =>
  let '(err, (c1, o1)) := next c o in
  let route := RoutePattern (fc_route c1) err in
  let '(status, c2) := ResolveStatus c1 err in
  (err, (c2, mkObs (ob_log o1) (ob_spans o1)
               (inc (service, fc_method c1, route, pretty status) (ob_requests o1))
               (observe (service, fc_method c1, route) elapsed (ob_durations o1)) (ob_up o1)
               (ob_allowed o1) (ob_blocked o1) (ob_errors o1))).

(** The chain every [main] installs, in its order. *)
Definition chain (service fresh : string) (ms elapsed : Z) (routes : FHandler) : FHandler :=
  RequestIDMiddleware fresh (TracingMiddleware (HTTPCompletionMiddleware ms (HTTPMiddleware service elapsed routes))).

(** The answer the client gets: fiber gives the error of the chain to the error
    handler as well. *)
Definition answer (r : option chain_error * (FCtx * Obs)) : Z * FCtx := ResolveStatus r.2.1 r.1.

(** ** Health *)

Definition health : FHandler := fun c o => (None, (c, o)).
(** [ready] is the check of the service; it records what it finds. *)
Definition readiness (ready : Obs -> bool * Obs) : FHandler := fun c o =>
  let '(ok, o1) := ready o in
  (None, (if ok : bool then c else with_status 503 c, o1)).
End Middlewares.

(** ** Laws *)

(** The error handler answers with a status that depends on the error only. *)
Class FiberLaws `{!Fiber} := mkFiberLaws {
  eh_fails : chain_error -> bool;
  eh_status : chain_error -> Z;
  eh_spec : ∀ c e, ErrorHandler c e = (eh_fails e, with_status (eh_status e) c)
}.

(** The routes leave to the chain what is the chain's. *)
Definition framed (routes : FHandler) : Prop := ∀ c o,
  let '(_, (c1, o1)) := routes c o in
  fc_method c1 = fc_method c ∧ fc_get c1 = fc_get c ∧ fc_local_id c1 = fc_local_id c ∧
  fc_out_id c1 = fc_out_id c ∧ fc_trace c1 = fc_trace c ∧
  ob_log o1 = ob_log o ∧ ob_spans o1 = ob_spans o ∧ ob_requests o1 = ob_requests o ∧
  ob_durations o1 = ob_durations o.

(** The router reports the pattern of the route it ran, or that there is none. *)
Definition routed (patterns : list string) (routes : FHandler) : Prop := ∀ c o,
  let '(err, (c1, _)) := routes c o in
  RoutePattern (fc_route c1) err = "unmatched"%string ∨ RoutePattern (fc_route c1) err ∈ patterns.

Section Chain.
Context `{!Fiber, !FiberLaws, !Tracing}.

Lemma with_status_id c : with_status (fc_status c) c = c.
Proof. by destruct c. Qed.

(** The status of a request once its error is handled. *)
Definition final_status (c : FCtx) (err : option chain_error) : Z :=
  match err with None => fc_status c | Some e => if eh_fails e then 500 else eh_status e end.

Lemma ResolveStatus_eq c err :
  ResolveStatus c err = (final_status c err, with_status (final_status c err) c).
Proof.
  unfold ResolveStatus, final_status. destruct err as [e|]; [|by rewrite with_status_id].
  rewrite eh_spec. by destruct (eh_fails e).
Qed.

Lemma final_status_idem c err : final_status (with_status (final_status c err) c) err = final_status c err.
Proof. by destruct err. Qed.

(** Handling an error twice changes nothing: every middleware and the client
    see the same status. *)
Lemma ResolveStatus_idem c err :
  ResolveStatus (ResolveStatus c err).2 err = ResolveStatus c err.
Proof. rewrite !ResolveStatus_eq. cbn [snd]. rewrite final_status_idem. by destruct c. Qed.

(** What the chain hands to the routes. *)
Definition entering (fresh : string) (c : FCtx) : FCtx :=
  with_trace (Start (Extract (fc_get c)) (fc_method c +:+ " request"))
    (with_id (RequestID (fc_get c "X-Request-ID"%string) fresh) c).

Definition line_of (c : FCtx) (route : string) (status ms : Z) : log_line :=
  ([("request_id", AStr (default EmptyString (fc_local_id c))); ("trace_id", AStr (TraceID (fc_trace c)));
    ("method", AStr (fc_method c)); ("route", AStr route); ("status", AInt status); ("duration_ms", AInt ms)]%string
   ++ if fc_get c TenantIDHeader !=? EmptyString then [("tenant_id"%string, AStr (fc_get c TenantIDHeader))] else [])%list.
Definition span_of (c : FCtx) (trace : option string) (route : string) (status : Z) : Span :=
  mkSpan (fc_method c +:+ " " +:+ route) trace
    [("http.method", AStr (fc_method c)); ("http.route", AStr route); ("http.status_code", AInt status)]%string.

Lemma chain_eq service fresh ms elapsed routes c o :
  chain service fresh ms elapsed routes c o =
  let '(err, (c1, o1)) := routes (entering fresh c) o in
  let route := RoutePattern (fc_route c1) err in
  let status := final_status c1 err in
  (err, (with_status status c1,
    mkObs (ob_log o1 ++ [line_of c1 route status ms])%list
      (ob_spans o1 ++ [span_of c1 (fc_trace (entering fresh c)) route status])%list
      (inc (service, fc_method c1, route, pretty status) (ob_requests o1))
      (observe (service, fc_method c1, route) elapsed (ob_durations o1))
      (ob_up o1) (ob_allowed o1) (ob_blocked o1) (ob_errors o1))).
Proof.
  unfold chain, RequestIDMiddleware, TracingMiddleware, HTTPCompletionMiddleware, HTTPMiddleware.
  change (with_trace _ (with_id _ c)) with (entering fresh c).
  destruct (routes (entering fresh c) o) as [err [c1 o1]].
  repeat (rewrite ResolveStatus_eq; cbv beta iota zeta;
    change (fc_route (with_status ?n c1)) with (fc_route c1);
    change (fc_method (with_status ?n c1)) with (fc_method c1);
    rewrite ?final_status_idem). cbn -[pretty].
  unfold line_of. by destruct err, (fc_get c1 TenantIDHeader !=? EmptyString).
Qed.

(** ** A sequence of requests *)

(** A request with the values the process drew while serving it. *)
Record Served := mkServed { sv_ctx : FCtx; sv_fresh : string; sv_ms : Z; sv_elapsed : Z }.

(** The requests in the order in which they complete; of each, the error of the
    chain and the context fiber answers from. *)
Fixpoint serve_all (service : string) (routes : FHandler) (reqs : list Served) (o : Obs)
    : list (option chain_error * FCtx) * Obs :=
  match reqs with
  | [] => ([], o)
  | r :: rest =>
      let '(err, (c, o1)) := chain service (sv_fresh r) (sv_ms r) (sv_elapsed r) routes (sv_ctx r) o in
      let '(replies, o2) := serve_all service routes rest o1 in
      ((err, c) :: replies, o2)
  end.

(** The method, the route and the status the client got. *)
Definition reply_labels (a : option chain_error * FCtx) : string * string * Z :=
  (fc_method a.2, RoutePattern (fc_route a.2) a.1, (ResolveStatus a.2 a.1).1).

Definition field (k : string) (l : list (string * attr)) : option attr :=
  snd <$> List.find (λ kv, kv.1 ==? k) l.
Definition labels (km kr ks : string) (l : list (string * attr)) : option (string * string * Z) :=
  match field km l, field kr l, field ks l with
  | Some (AStr m), Some (AStr r), Some (AInt s) => Some (m, r, s)
  | _, _, _ => None
  end.
Definition line_labels : log_line -> option (string * string * Z) := labels "method" "route" "status".
Definition span_labels (s : Span) : option (string * string * Z) :=
  labels "http.method" "http.route" "http.status_code" (sp_attrs s).

Definition count (k : string * string * Z) (l : list (string * string * Z)) : Z :=
  Z.of_nat (length (sel (λ x, x ==? k) l)).

Lemma count_cons k x l : count k (x :: l) = (if x ==? k then 1 else 0) + count k l.
Proof. unfold count, sel. cbn. case_bool_decide; cbn; lia. Qed.

Lemma inc_count (service : string) (m r m' r' : string) (s s' : Z) (q : gmap (string * string * string * string) Z) :
  default 0 (inc (service, m, r, pretty s) q !! (service, m', r', pretty s'))
  = (if (m, r, s) ==? (m', r', s') then 1 else 0) + default 0 (q !! (service, m', r', pretty s')).
Proof.
  unfold inc. case_bool_decide as E.
  - injection E as -> -> ->. rewrite lookup_insert_eq. cbn. lia.
  - rewrite lookup_insert_ne; [done|]. intros [= -> -> Hs]. apply E. f_equal. by apply (inj pretty).
Qed.

(** What one request adds. *)
Lemma chain_adds (service : string) r routes o :
  framed routes →
  let '(err, (c, o1)) := chain service (sv_fresh r) (sv_ms r) (sv_elapsed r) routes (sv_ctx r) o in
  ∃ line span,
    ob_log o1 = (ob_log o ++ [line])%list ∧ ob_spans o1 = (ob_spans o ++ [span])%list ∧
    line_labels line = Some (reply_labels (err, c)) ∧ span_labels span = Some (reply_labels (err, c)) ∧
    field "request_id" line = Some (AStr (fc_out_id c)) ∧
    field "trace_id" line = Some (AStr (TraceID (sp_trace span))) ∧
    fc_out_id c = RequestID (fc_get (sv_ctx r) "X-Request-ID"%string) (sv_fresh r) ∧
    ∀ (m' r' : string) (s' : Z), default 0 (ob_requests o1 !! (service, m', r', pretty s'))
      = (if reply_labels (err, c) ==? (m', r', s') then 1 else 0)
        + default 0 (ob_requests o !! (service, m', r', pretty s')).
Proof using Type*.
  intros Hf. rewrite chain_eq. specialize (Hf (entering (sv_fresh r) (sv_ctx r)) o).
  destruct (routes (entering (sv_fresh r) (sv_ctx r)) o) as [err [c1 o1]]. cbv zeta.
  destruct Hf as (Hm & Hg & Hl & Hi & Ht & Hlog & Hsp & Hrq & Hd).
  assert (reply_labels (err, with_status (final_status c1 err) c1)
          = (fc_method c1, RoutePattern (fc_route c1) err, final_status c1 err)) as Hlab.
  { unfold reply_labels. cbn [fst snd]. rewrite ResolveStatus_eq. cbn [fst]. by rewrite final_status_idem. }
  rewrite Hlab. eexists _, _. cbn [ob_log ob_spans ob_requests]. rewrite Hlog, Hsp. split_and!; [done..| | | |].
  - cbn. rewrite Hl, Hi. done.
  - cbn. by rewrite Ht.
  - cbn. by rewrite Hi.
  - intros m' r' s'. rewrite inc_count. by rewrite Hrq.
Qed.

Lemma serve_all_spec (service : string) routes reqs o replies o' :
  framed routes → serve_all service routes reqs o = (replies, o') →
  ∃ lines spans,
    ob_log o' = (ob_log o ++ lines)%list ∧ ob_spans o' = (ob_spans o ++ spans)%list ∧
    map line_labels lines = map (λ a, Some (reply_labels a)) replies ∧
    map span_labels spans = map (λ a, Some (reply_labels a)) replies ∧
    map (field "request_id") lines = map (λ a, Some (AStr (fc_out_id a.2))) replies ∧
    map (field "trace_id") lines = map (λ s, Some (AStr (TraceID (sp_trace s)))) spans ∧
    map (λ a, fc_out_id a.2) replies
      = map (λ r, RequestID (fc_get (sv_ctx r) "X-Request-ID"%string) (sv_fresh r)) reqs ∧
    ∀ (m r : string) (s : Z), default 0 (ob_requests o' !! (service, m, r, pretty s))
      = count (m, r, s) (map reply_labels replies) + default 0 (ob_requests o !! (service, m, r, pretty s)).
Proof using Type*.
  intros Hf. revert o replies o'. induction reqs as [|r reqs IH]; intros o replies o' E; cbn [serve_all] in E.
  { injection E as <- <-. exists [], []. rewrite !app_nil_r. by split_and!. }
  pose proof (chain_adds service r routes o Hf) as Hc.
  destruct (chain service _ _ _ routes (sv_ctx r) o) as [err [c o1]].
  destruct (serve_all service routes reqs o1) as [rs o2] eqn:E2. injection E as <- <-.
  destruct (IH o1 rs o2 E2) as (ls & ss & D1 & D2 & D3 & D4 & D5 & D6 & D7 & D8).
  destruct Hc as (l & s & C1 & C2 & C3 & C4 & C5 & C6 & C7 & C8).
  exists (l :: ls), (s :: ss). cbn [map]. rewrite D1, D2, C1, C2, <- !app_assoc, C3, C4, C5, C6, D3, D4, D5, D6.
  split_and!; try done; [cbn [snd]; by rewrite C7, D7|].
  intros m' r' s'. rewrite D8, C8, count_cons. lia.
Qed.

Lemma serve_all_routed patterns service routes reqs o :
  routed patterns routes →
  ∀ a, a ∈ (serve_all service routes reqs o).1 →
    RoutePattern (fc_route a.2) a.1 = "unmatched"%string ∨ RoutePattern (fc_route a.2) a.1 ∈ patterns.
Proof using Type*.
  intros Hr. revert o. induction reqs as [|r reqs IH]; intros o a Ha; cbn [serve_all] in Ha; [by apply elem_of_nil in Ha|].
  rewrite chain_eq in Ha. specialize (Hr (entering (sv_fresh r) (sv_ctx r)) o).
  destruct (routes (entering (sv_fresh r) (sv_ctx r)) o) as [err [c1 o1]]. cbv beta iota zeta in Ha.
  match type of Ha with context [serve_all _ _ _ ?x] => specialize (IH x); destruct (serve_all service routes reqs x) as [rs o2] end.
  apply elem_of_cons in Ha as [->|Ha]; [done|by apply IH].
Qed.

(** C25: the log, the traces and the request metric of a service tell the same
    story, and it is what the clients saw: whatever requests it serves and
    whatever its handlers return, there is one log line and one span per request
    with the method, the route pattern and the status the client got, the
    counter of a label set is the number of requests with these labels, the
    line carries the request id the client received and the trace id of the
    span, and a route label is the pattern of a route or "unmatched", never a
    path a client made up. *)
Theorem observers_agree (service : string) patterns routes reqs replies o :
  framed routes → routed patterns routes →
  serve_all service routes reqs Registry_New = (replies, o) →
  length replies = length reqs ∧
  map line_labels (ob_log o) = map (λ a, Some (reply_labels a)) replies ∧
  map span_labels (ob_spans o) = map (λ a, Some (reply_labels a)) replies ∧
  map (field "request_id") (ob_log o) = map (λ a, Some (AStr (fc_out_id a.2))) replies ∧
  map (field "trace_id") (ob_log o) = map (λ s, Some (AStr (TraceID (sp_trace s)))) (ob_spans o) ∧
  (∀ (m r : string) (s : Z),
     default 0 (ob_requests o !! (service, m, r, pretty s)) = count (m, r, s) (map reply_labels replies)) ∧
  (∀ a, a ∈ replies → (reply_labels a).1.2 = "unmatched"%string ∨ (reply_labels a).1.2 ∈ patterns).
Proof using Type*.
  intros Hf Hr E. destruct (serve_all_spec service routes reqs _ _ _ Hf E)
    as (ls & ss & D1 & D2 & D3 & D4 & D5 & D6 & D7 & D8). cbn in D1, D2. rewrite D1, D2. split_and!; try done.
  - apply (f_equal (@length string)) in D7. by rewrite !length_map in D7.
  - intros m r s. rewrite D8. unfold Registry_New, ob_requests. rewrite lookup_empty. apply Z.add_0_r.
  - intros a Ha. pose proof (serve_all_routed patterns service routes reqs Registry_New Hr a) as Hx. rewrite E in Hx.
    by apply Hx.
Qed.

(** nothing of a request but its method, its request id, its tenant header
    and its trace headers can reach the log, the traces or the metrics: two
    requests that agree on these, and that their handlers answer with the same
    route, error and status, leave the same records, whatever their paths,
    bodies, cookies and other headers are. *)
Theorem observations_allowlisted service fresh ms elapsed routes1 routes2 c1 c2 o :
  framed routes1 → framed routes2 →
  fc_method c1 = fc_method c2 →
  fc_get c1 "X-Request-ID"%string = fc_get c2 "X-Request-ID"%string →
  fc_get c1 TenantIDHeader = fc_get c2 TenantIDHeader →
  Extract (fc_get c1) = Extract (fc_get c2) →
  (let '(e1, (d1, o1)) := routes1 (entering fresh c1) o in
   let '(e2, (d2, o2)) := routes2 (entering fresh c2) o in
   e1 = e2 ∧ fc_route d1 = fc_route d2 ∧ fc_status d1 = fc_status d2 ∧ o1 = o2) →
  (chain service fresh ms elapsed routes1 c1 o).2.2 = (chain service fresh ms elapsed routes2 c2 o).2.2.
Proof using Type*.
  intros Hf1 Hf2 Hm Hi Ht Hx Hr. rewrite !chain_eq.
  specialize (Hf1 (entering fresh c1) o). specialize (Hf2 (entering fresh c2) o).
  destruct (routes1 (entering fresh c1) o) as [e1 [d1 o1]], (routes2 (entering fresh c2) o) as [e2 [d2 o2]].
  destruct Hr as (-> & Hro & Hs & ->).
  destruct Hf1 as (M1 & G1 & L1 & _ & T1 & _), Hf2 as (M2 & G2 & L2 & _ & T2 & _).
  assert (final_status d1 e2 = final_status d2 e2) as Hst by (unfold final_status; by destruct e2).
  unfold line_of, span_of. rewrite M1, M2, G1, G2, L1, L2, T1, T2, Hro, Hst.
  unfold entering. cbn. by rewrite Hm, Hi, Ht, Hx.
Qed.
End Chain.

(** ** Graceful shutdown *)

(** The error [app.Listen] or [app.ShutdownWithContext] returned. *)
Inductive server_error := ErrNotRunning | ServerFailed (e : string).
Definition not_running (e : option server_error) : bool :=
  match e with None | Some ErrNotRunning => true | Some (ServerFailed _) => false end.

(** What the two selects of [run] receive. *)
Inductive first_event := ServerReturned (e : option server_error) | SignalReceived.
Inductive last_event := ServerClosed (e : option server_error) | ShutdownDeadline.
Inductive run_error := RunFailed (e : server_error) | RunDeadlineExceeded.

(** [httpx.run]; the flag says whether the server was asked to stop. *)
Definition httpx_run (first : first_event) (shutdown : option server_error) (last : last_event)
    : option run_error * bool :=
  match first with
  | ServerReturned None | ServerReturned (Some ErrNotRunning) => (None, false)
  | ServerReturned (Some e) => (Some (RunFailed e), false)
  | SignalReceived =>
      match shutdown with
      | Some (ServerFailed e) => (Some (RunFailed (ServerFailed e)), true)
      | _ =>
          match last with
          | ServerClosed _ => (None, true)
          | ShutdownDeadline => (Some RunDeadlineExceeded, true)
          end
      end
  end.

(** A process that was not asked to stop and whose server failed reports the
    error; a signal leads to a clean exit exactly when the server could be shut
    down and returned before the deadline. *)
Lemma httpx_run_clean first shutdown last :
  (httpx_run first shutdown last).1 = None ↔
  match first with
  | ServerReturned e => not_running e = true
  | SignalReceived => not_running shutdown = true ∧ last ≠ ShutdownDeadline
  end.
Proof.
  destruct first as [[[]|]|]; cbn; [done..|].
  destruct shutdown as [[]|], last; cbn; split; naive_solver.
Qed.

(** ** Tracing *)

(** A [float64], as far as comparisons tell. *)
Inductive float64 := Finite (num : Z) (den : positive) | PosInf | NegInf | NaN.
Definition float_lt (a b : float64) : bool :=
  match a, b with
  | Finite n d, Finite n' d' => n * Zpos d' <? n' * Zpos d
  | NegInf, Finite _ _ | NegInf, PosInf | Finite _ _, PosInf => true
  | _, _ => false
  end.

(** [sampleRatio]: the ratio of traces to keep. *)
Definition sampleRatio (ParseFloat : string -> option float64) (getenv : string -> string) : float64 :=
  let v := getenv "OTEL_TRACES_SAMPLER_RATIO"%string in
  if v ==? EmptyString then Finite 1 1
  else match ParseFloat v with
       | None => Finite 1 1
       | Some f => if float_lt f (Finite 0 1) || float_lt (Finite 1 1) f then Finite 1 1 else f
       end.

(** A ratio is between 0 and 1, unless the text is the one [strconv.ParseFloat]
    reads as not a number. *)
Lemma sampleRatio_range ParseFloat getenv :
  match sampleRatio ParseFloat getenv with
  | Finite n d => 0 <= n <= Zpos d
  | NaN => ParseFloat (getenv "OTEL_TRACES_SAMPLER_RATIO"%string) = Some NaN
  | _ => False
  end.
Proof.
  unfold sampleRatio. case_bool_decide; [lia|]. destruct (ParseFloat _) as [[n d| | |]|]; cbn; [|lia|lia|done|lia].
  destruct (_ || _) eqn:E; [lia|]. apply orb_false_iff in E as [E1 E2]. lia.
Qed.

(** [Init]: without an endpoint or without an exporter there is no tracing, and
    the service starts all the same. *)
Inductive tracer := NoopTracer | ExportingTracer (endpoint : string) (ratio : float64).
Definition Init (ParseFloat : string -> option float64) (getenv : string -> string) (exporter : string -> bool)
    : tracer :=
  let endpoint := getenv "OTEL_EXPORTER_OTLP_ENDPOINT"%string in
  if endpoint ==? EmptyString then NoopTracer
  else if exporter endpoint then ExportingTracer endpoint (sampleRatio ParseFloat getenv)
  else NoopTracer.

(** The span of a statement: it is ended once, with a mark when the statement
    failed; neither the text of the statement nor its arguments occur in it. *)
Definition TraceQueryStart `{!Tracing} (parent : option string) (sql : string) (args : list string) : Span :=
  mkSpan "pgx.query" (Start parent "pgx.query") [("db.system", AStr "postgresql")]%string.
Definition TraceQueryEnd (span : option Span) (err : option string) (ended : list Span) : list Span :=
  match span with
  | None => ended
  | Some s =>
      let s' := match err with
                | Some e => mkSpan (sp_name s) (sp_trace s)
                              (sp_attrs s ++ [("exception.message", AStr e); ("status", AStr "query failed")])%list%string
                | None => s
                end in
      (ended ++ [s'])%list
  end.

(** Messages: the headers of a message and what the propagator does to them. *)
Class NatsPropagation := mkNatsPropagation {
  InjectH : option string -> list (string * string) -> list (string * string);
  ExtractH : list (string * string) -> option string
}.
Record NatsMsg := mkNatsMsg { msg_header : option (list (string * string)); msg_data : string }.
Definition InjectNATSHeaders `{!NatsPropagation} (trace : option string) (m : NatsMsg) : NatsMsg :=
  mkNatsMsg (Some (InjectH trace (default [] (msg_header m)))) (msg_data m).
(** The trace the message came with, or the one of the receiver. *)
Definition ExtractNATSContext `{!NatsPropagation} (own : option string) (m : NatsMsg) : option string :=
  match msg_header m with
  | None => own
  | Some h => match ExtractH h with Some t => Some t | None => own end
  end.
Definition StartConsumerSpan `{!NatsPropagation, !Tracing} (own : option string) (m : NatsMsg) (name : string)
    : option string :=
  Start (ExtractNATSContext own m) name.

(** A consumer continues the trace of the publisher. *)
Lemma trace_continues `{!NatsPropagation, !Tracing} t own m name :
  (∀ h, ExtractH (InjectH (Some t) h) = Some t) → (∀ n, Start (Some t) n = Some t) →
  StartConsumerSpan own (InjectNATSHeaders (Some t) m) name = Some t.
Proof. intros Hx Hs. unfold StartConsumerSpan, ExtractNATSContext. cbn. by rewrite Hx, Hs. Qed.

(** ** A concrete service *)

Definition default_status (e : chain_error) : Z :=
  match e with ErrRouteNotFound => 404 | ErrMethodNotAllowed => 405 | OtherError s => s end.
#[local] Instance sample_fiber : Fiber := λ c e, (false, with_status (default_status e) c).
#[local] Instance sample_fiber_laws : FiberLaws := mkFiberLaws _ (λ _, false) default_status (λ c e, eq_refl).
#[local] Instance sample_tracing : Tracing :=
  mkTracing (λ get, if get "traceparent"%string ==? EmptyString then None else Some (get "traceparent"%string))
    (λ parent _, Some (default "new trace"%string parent)).

Definition sample_routes : FHandler := λ c o,
  if fc_path c ==? "/widgets/7"%string
  then (None, (mkFCtx (fc_method c) (fc_path c) (fc_body c) (fc_get c) 201 (Some "/widgets/:id"%string)
                 (fc_local_id c) (fc_out_id c) (fc_trace c), o))
  else (Some ErrRouteNotFound, (c, o)).

Lemma sample_framed : framed sample_routes.
Proof. intros c o. unfold sample_routes. by case_bool_decide. Qed.
Lemma sample_routed : routed ["/widgets/:id"%string] sample_routes.
Proof. intros c o. unfold sample_routes. case_bool_decide; [right; left|by left]. Qed.

Definition sample_request (path body : string) : FCtx :=
  mkFCtx "POST" path body (λ k, if k ==? "X-Request-ID"%string then "r-1" else "")%string 200 (Some "/"%string)
    None EmptyString None.
Definition sample_served : list Served :=
  [mkServed (sample_request "/widgets/7" "a") "id-1" 3 3;
   mkServed (sample_request "/widgets/7?token=secret" "b") "id-2" 4 4].

(** The second request matched no route: the raw path is not recorded. *)
Lemma observers_agree_witness :
  map line_labels (ob_log (serve_all "svc" sample_routes sample_served Registry_New).2)
  = [Some ("POST", "/widgets/:id", 201); Some ("POST", "unmatched", 404)]%string.
Proof.
  destruct (observers_agree "svc" ["/widgets/:id"%string] sample_routes sample_served
    (serve_all "svc" sample_routes sample_served Registry_New).1
    (serve_all "svc" sample_routes sample_served Registry_New).2) as (_ & Hl & _);
    [apply sample_framed|apply sample_routed|by destruct (serve_all _ _ _ _)|]. by rewrite Hl.
Defined.

Lemma observations_allowlisted_witness :
  (chain "svc" "id" 3 3 sample_routes (sample_request "/a?secret" "password") Registry_New).2.2
  = (chain "svc" "id" 3 3 sample_routes (sample_request "/b" "") Registry_New).2.2.
Proof.
  apply (observations_allowlisted "svc" "id" 3 3 sample_routes sample_routes);
    [apply sample_framed|apply sample_framed|done..].
Defined.
