(* ===== verification/Daemons.v ===== *)
(** * Daemons: the loops of the appointment and the notification service

    The loop of notification-service/internal/consumer (Run), which subscribes,
    fetches and settles messages, over a durable pull consumer of JetStream whose
    redelivery is the class [JetStream]; the loop of internal/worker (Run); and
    the life of the outbox publisher of the appointment service (New, Start,
    Close, its gauges). *)
From S2P Require Import Prelude Effects GoTime Http Platform AppointmentRepo Outbox AppointmentSystem Notification.
Open Scope Z_scope.

(** ** The consumer *)

(** A message the durable consumer has not settled: its body and how often it
    was delivered. *)
Record delivery := mkDelivery { dl_data : option Envelope; dl_count : Z }.

(** The queue of the durable, the table, and the messages that were settled. *)
Record cworld := mkCworld {
  cw_queue : list delivery;
  cw_db : ndb;
  cw_settled : list (delivery * verdict)
}.

Inductive fetch_result := FetchTimeout | FetchFailed | Fetched.

(** One attempt of [PullSubscribe]: whether it worked, and whether the context
    ended while the loop waited. *)
Record sub_attempt := mkSubAttempt { sa_ok : bool; sa_done : bool }.

(** One round of the loop: the context before and after the fetch, how the fetch
    ended, the messages that arrived before it, what the database and the clock
    answer while a message is handled, and whether the broker hears of its
    acknowledgement (Run ignores the error of Ack). *)
Record round := mkRound {
  rd_done : bool;
  rd_new : list (option Envelope);
  rd_fetch : fetch_result;
  rd_done_after : bool;
  rd_gen : nat -> nat -> NGen;
  rd_audit : nat -> NGen;
  rd_now : nat -> time;
  rd_text : note_error -> string;
  rd_heard : nat -> bool
}.

(** The broker: whether a message that was delivered [n] times is delivered
    again, given the limit of its consumer, what the consumer said and whether
    that arrived.  Of its documented behaviour the service relies on this: it
    stops at the limit, and before that it delivers a refused message again.  An
    acknowledged message may be delivered again. *)
Class JetStream := redelivers : ∀ (limit n : Z) (said : verdict) (heard : bool), bool.
Class JetStreamLaws `{JetStream} := mkJetStreamLaws {
  redelivers_limit : ∀ limit n said heard, limit <= n → redelivers limit n said heard = false;
  redelivers_nak : ∀ limit n heard, n < limit → redelivers limit n Nak heard = true
}.

Section Consumer.
Context `{ReminderIds, JetStream} (c : Consumer).

(** The subscription loop: [None] while it is still waiting. *)
Fixpoint subscribe (l : list sub_attempt) : option bool :=
  match l with
  | [] => None
  | a :: rest => if sa_ok a then Some true else if sa_done a then Some false else subscribe rest
  end.

(** The messages of one fetch, in order, with those the broker will deliver
    again. *)
Fixpoint consume_batch (rd : round) (i : nat) (batch : list delivery) (fs : list fault) (d : ndb)
    : list delivery * list (delivery * verdict) * (list fault * ndb) :=
  match batch with
  | [] => ([], [], (fs, d))
  | m :: rest =>
      let m' := mkDelivery (dl_data m) (dl_count m + 1) in
      let '(r, (fs1, d1)) :=
        consume c (rd_gen rd i) (rd_audit rd i) (rd_now rd i) (rd_text rd) (Some (dl_count m')) (dl_data m) fs d in
      let '(again, settled, s) := consume_batch rd (S i) rest fs1 d1 in
      match r with
      | Ok said =>
          if redelivers (c_maxDeliver c) (dl_count m') said (rd_heard rd i) then (m' :: again, settled, s)
          else (again, (m', said) :: settled, s)
      | Err _ => (m' :: again, settled, s)
      end
  end.

Definition fetch_size : nat := 10.

(** One round; the flag says whether the loop goes on. *)
Definition run_round (rd : round) (fs : list fault) (w : cworld) : bool * (list fault * cworld) :=
  let w := mkCworld (cw_queue w ++ map (λ b, mkDelivery b 0) (rd_new rd)) (cw_db w) (cw_settled w) in
  if rd_done rd then (false, (fs, w))
  else
    match rd_fetch rd with
    | FetchTimeout => (negb (rd_done_after rd), (fs, w))
    | FetchFailed => (negb (rd_done_after rd), (fs, w))
    | Fetched =>
        let '(again, settled, (fs', d')) := consume_batch rd 0 (take fetch_size (cw_queue w)) fs (cw_db w) in
        (true, (fs', mkCworld (drop fetch_size (cw_queue w) ++ again) d' (cw_settled w ++ settled)))
    end.

Fixpoint run_rounds (rounds : list round) (fs : list fault) (w : cworld) : list fault * cworld :=
  match rounds with
  | [] => (fs, w)
  | rd :: rest =>
      let '(go_on, (fs', w')) := run_round rd fs w in
      if go_on then run_rounds rest fs' w' else (fs', w')
  end.

Definition Consumer_Run (subs : list sub_attempt) (rounds : list round) (fs : list fault) (w : cworld)
    : list fault * cworld :=
  match subscribe subs with
  | Some true => run_rounds rounds fs w
  | _ => (fs, w)
  end.

(** *** Every message is settled once *)

Lemma consume_verdict gen g now text n data fs d :
  0 < c_maxDeliver c →
  ∃ v, (consume c gen g now text (Some n) data fs d).1 = Ok v ∧ (v = Nak → n < c_maxDeliver c) ∧
    (v = Term → c_maxDeliver c <= n) ∧ (v = Ack → (handle c gen now data fs d).1 = Ok tt).
Proof.
  intros Hpos. unfold consume. rewrite attempt_bind.
  destruct (handle c gen now data fs d) as [[[]|cause] [fs' d']]; cbn [fst snd]; [by exists Ack|].
  replace (0 <? c_maxDeliver c) with true by (symmetry; lia). cbn [andb].
  destruct (Z.leb_spec (c_maxDeliver c) n); [|exists Nak; by split_and!].
  exists Term. split; [|by split_and!]. rewrite bind_eq. unfold markTerminal.
  destruct data as [e|]; [|done]. destruct (_ || _); [done|]. destruct (c_templates c (Env_EventType e)); [|done].
  rewrite attempt_bind. by destruct (NRepository_Fail _ _ _ _ _ _ _ fs' d') as [? []].
Qed.

(** A message that may still be delivered. *)
Definition deliverable (m : delivery) : Prop := 0 <= dl_count m < c_maxDeliver c.
(** A message that was settled: handled, or given up after its last delivery. *)
Definition settled_ok (x : delivery * verdict) : Prop :=
  x.2 = Ack ∧ 0 < dl_count x.1 <= c_maxDeliver c ∨ x.2 = Term ∧ dl_count x.1 = c_maxDeliver c.

(** The deliveries a queue can still cause. *)
Definition budget (l : list delivery) : Z := foldr (λ m n, c_maxDeliver c - dl_count m + n) 0 l.

Lemma budget_app l k : budget (l ++ k) = budget l + budget k.
Proof. unfold budget. induction l as [|m l IH]; cbn; [done|]. rewrite IH. lia. Qed.

Lemma budget_nonneg l : Forall deliverable l → Z.of_nat (length l) <= budget l.
Proof. unfold budget. induction 1 as [|m l [H1 H2] _ IH]; cbn; lia. Qed.

Context `{!JetStreamLaws}.

Lemma consume_batch_spec rd i batch fs d again settled s :
  0 < c_maxDeliver c → Forall deliverable batch → consume_batch rd i batch fs d = (again, settled, s) →
  map dl_data again ++ map (dl_data ∘ fst) settled ≡ₚ map dl_data batch ∧
  Forall deliverable again ∧ Forall settled_ok settled ∧
  budget again + Z.of_nat (length batch) <= budget batch.
Proof.
  intros Hpos. revert i fs d again settled s. induction batch as [|m batch IH]; intros i fs d again settled s Hb E.
  { cbn in E. simplify_eq. by split_and!. }
  apply Forall_cons in Hb as [Hm Hb]. cbn [consume_batch dl_count] in E.
  destruct (consume_verdict (rd_gen rd i) (rd_audit rd i) (rd_now rd i) (rd_text rd) (dl_count m + 1) (dl_data m) fs d Hpos)
    as (v & Hv & Hn & Ht & _).
  destruct (consume c _ _ _ _ _ _ fs d) as [r [fs1 d1]]. cbn [fst] in Hv. subst r.
  destruct (consume_batch rd (S i) batch fs1 d1) as [[again' settled'] s'] eqn:E'.
  destruct (IH _ _ _ _ _ _ Hb E') as (Hp & Ha & Hs & Hbu). unfold deliverable in Hm.
  destruct (redelivers (c_maxDeliver c) (dl_count m + 1) v (rd_heard rd i)) eqn:Er; simplify_eq; unfold budget in *; cbn.
  - assert (dl_count m + 1 < c_maxDeliver c) as Hlt.
    { destruct (Z.lt_ge_cases (dl_count m + 1) (c_maxDeliver c)) as [|Hge]; [done|]. by rewrite redelivers_limit in Er. }
    split_and!; [by rewrite <- Hp| |done|lia]. constructor; [unfold deliverable; cbn; lia|done].
  - split_and!; [|done| |lia].
    + rewrite <- Hp. by rewrite Permutation_middle.
    + constructor; [|done]. unfold settled_ok. cbn. destruct v; [left; split; [done|lia]| |right].
      * rewrite redelivers_nak in Er by auto. done.
      * assert (c_maxDeliver c <= dl_count m + 1) by auto. split; [done|lia].
Qed.

(** The bodies of a world: those in the queue and those that were settled. *)
Definition bodies (w : cworld) : list (option Envelope) :=
  map dl_data (cw_queue w) ++ map (dl_data ∘ fst) (cw_settled w).
Definition cworld_ok (w : cworld) : Prop := Forall deliverable (cw_queue w) ∧ Forall settled_ok (cw_settled w).

Lemma shuffle {A} (a b x y : list A) : (a ++ b) ++ x ++ y ≡ₚ ((b ++ y) ++ a) ++ x.
Proof. rewrite (Permutation_app_comm a b), <- !app_assoc. f_equiv. by rewrite app_assoc, Permutation_app_comm. Qed.

Lemma run_round_spec rd fs w :
  0 < c_maxDeliver c → cworld_ok w →
  let w' := (run_round rd fs w).2.2 in
  bodies w' ≡ₚ bodies w ++ rd_new rd ∧ cworld_ok w' ∧
  (rd_done rd = false → rd_fetch rd = Fetched → rd_new rd = [] →
     (run_round rd fs w).1 = true ∧
     budget (cw_queue w') + Z.of_nat (length (take fetch_size (cw_queue w))) <= budget (cw_queue w)).
Proof.
  intros Hpos [Hq Hs]. unfold run_round, bodies, cworld_ok. cbn [cw_queue cw_db cw_settled].
  set (q := cw_queue w ++ map (λ b, mkDelivery b 0) (rd_new rd)).
  assert (Forall deliverable q) as Hq'.
  { apply Forall_app. split; [done|]. apply Forall_forall. intros m (b & <- & _)%list_elem_of_In%in_map_iff.
    unfold deliverable. cbn. lia. }
  assert (map dl_data q = map dl_data (cw_queue w) ++ rd_new rd) as Eq.
  { unfold q. rewrite map_app, map_map. by rewrite map_id. }
  assert (map dl_data q ++ map (dl_data ∘ fst) (cw_settled w) ≡ₚ
          (map dl_data (cw_queue w) ++ map (dl_data ∘ fst) (cw_settled w)) ++ rd_new rd) as Hperm.
  { rewrite Eq, <- !app_assoc. f_equiv. apply Permutation_app_comm. }
  destruct (rd_done rd); [by split_and!|]. destruct (rd_fetch rd); [by split_and!|by split_and!|].
  destruct (consume_batch rd 0 (take fetch_size q) fs (cw_db w)) as [[again settled] [fs' d']] eqn:E.
  apply consume_batch_spec in E as (Hp & Ha & Hst & Hb); [|done|by apply Forall_take]. cbn.
  split; [|split].
  - rewrite <- Hperm. rewrite <- (take_drop fetch_size q) at 2. rewrite !map_app, <- Hp. apply shuffle.
  - split; apply Forall_app; split; [by apply Forall_drop|done|done|done].
  - intros _ _ Hnew. split; [done|]. assert (q = cw_queue w) as Hqq by (unfold q; rewrite Hnew; cbn; apply app_nil_r).
    rewrite Hqq in *. rewrite budget_app.
    assert (budget (cw_queue w) = budget (take fetch_size (cw_queue w)) + budget (drop fetch_size (cw_queue w))) as ->
      by (by rewrite <- budget_app, take_drop). unfold fetch_size in *. lia.
Qed.

(** *** The loop *)
Lemma run_rounds_safe rounds fs w :
  0 < c_maxDeliver c → cworld_ok w →
  let w' := (run_rounds rounds fs w).2 in
  cworld_ok w' ∧ ∃ k, bodies w' ≡ₚ bodies w ++ concat (map rd_new (take k rounds)).
Proof.
  intros Hpos. revert fs w. induction rounds as [|rd rounds IH]; intros fs w Hw; cbn [run_rounds].
  { split; [done|]. exists 0%nat. by rewrite app_nil_r. }
  destruct (run_round_spec rd fs w Hpos Hw) as (Hb & Hok & _).
  destruct (run_round rd fs w) as [go_on [fs' w']]. cbn in Hb, Hok. destruct go_on.
  - destruct (IH fs' w' Hok) as (Hok' & k & Hk). split; [done|]. exists (S k). cbn. by rewrite Hk, Hb, app_assoc.
  - split; [done|]. exists 1%nat. cbn. by rewrite app_nil_r, Hb.
Qed.

(** A round in which the broker answers. *)
Definition healthy_round (rd : round) : Prop := rd_done rd = false ∧ rd_fetch rd = Fetched ∧ rd_new rd = [].

Lemma run_rounds_settles rounds fs w :
  0 < c_maxDeliver c → cworld_ok w → Forall healthy_round rounds →
  budget (cw_queue w) <= Z.of_nat (length rounds) → cw_queue (run_rounds rounds fs w).2 = [].
Proof.
  intros Hpos. revert fs w. induction rounds as [|rd rounds IH]; intros fs w Hw Hr Hlen; cbn [run_rounds].
  { pose proof (budget_nonneg _ (proj1 Hw)). cbn in *. destruct (cw_queue w); [done|cbn in *; lia]. }
  apply Forall_cons in Hr as [(Hd & Hf & Hn) Hr].
  destruct (run_round_spec rd fs w Hpos Hw) as (Hb & Hok & Hgo). destruct (Hgo Hd Hf Hn) as [Hg Hbu].
  destruct (run_round rd fs w) as [go_on [fs' w']]. cbn [fst snd] in *. subst go_on. apply IH; [done|done|].
  cbn [length] in Hlen. destruct (cw_queue w) as [|m l] eqn:E.
  - change (budget []) with 0 in *. lia.
  - assert (1 <= length (take fetch_size (m :: l)))%nat by (cbn; lia). lia.
Qed.
End Consumer.

Lemma maxDeliver_positive getenv : 0 < maxDeliverFromEnv getenv.
Proof.
  unfold maxDeliverFromEnv, defaultMaxDeliver. cbn zeta. destruct (_ !=? _); [|lia].
  destruct (Atoi _) as [k|]; [|lia]. destruct (Z.ltb_spec 0 k); lia.
Qed.

(** C18: the consumer of the notification service loses no message and is never
    stuck with one.  Whatever its rounds are (arrivals, fetches that time out or
    fail, cancellation, lost acknowledgements) and whatever fails in them, every
    message is still queued or was settled exactly once, by acknowledging it or,
    at its last permitted delivery, by terminating it; and once the broker
    answers, the queue is empty after as many rounds as there are deliveries
    left. *)
Theorem consumer_settles `{ReminderIds, JetStream, !JetStreamLaws} getenv offsets recipients subs rounds fs w :
  let c := NewConsumer getenv offsets recipients in
  cworld_ok c w →
  let w' := (Consumer_Run c subs rounds fs w).2 in
  (∃ k, bodies w' ≡ₚ bodies w ++ concat (map rd_new (take k rounds))) ∧
  Forall (settled_ok c) (cw_settled w') ∧
  (subscribe subs = Some true → Forall healthy_round rounds →
   budget c (cw_queue w) <= Z.of_nat (length rounds) → cw_queue w' = []).
Proof.
  intros c Hw. pose proof (maxDeliver_positive getenv) as Hpos. change (0 < c_maxDeliver c) in Hpos.
  cbn zeta. unfold Consumer_Run. destruct (subscribe subs) as [[]|] eqn:E.
  - destruct (run_rounds_safe c rounds fs w Hpos Hw) as [[_ Hs] Hk]. split_and!; [done|done|].
    intros _ Hr Hl. by apply run_rounds_settles.
  - split_and!; [|apply Hw|done]. exists 0%nat. by rewrite app_nil_r.
  - split_and!; [|apply Hw|done]. exists 0%nat. by rewrite app_nil_r.
Qed.

(** ** The worker *)

Definition NewWithTimeout (timeout : duration) : duration := if timeout <=? 0 then 10 * Second else timeout.
Definition worker_New : duration := NewWithTimeout (10 * Second).

(** One iteration of [Worker.Run], and whether the context ended before the
    next tick of the second. *)
Record wround := mkWround {
  wr_now : time; wr_dbnow : time; wr_tok : uuid -> uuid;
  wr_cancelled : Notification -> bool; wr_send : Notification -> send_outcome; wr_done : bool
}.

Fixpoint Worker_Run (rounds : list wround) : IO ndb note_error unit :=
  match rounds with
  | [] => mret tt
  | r :: rest =>
      Worker_Once (wr_now r) (wr_dbnow r) (wr_tok r) (wr_cancelled r) (wr_send r) ;;
      if wr_done r then mret tt else Worker_Run rest
  end.

(** ** The publisher *)

(** [registerMetrics]: without a registry nothing is counted. *)
Definition registerMetrics (registered : bool) (p : Publisher) : Publisher :=
  if registered then mkPublisher (ready p) (lastCleanup p) (Some 0) (Some 0) (Some 0) else p.

(** [outbox.New]; [jetstream] is whether the connection has a JetStream context. *)
Definition Publisher_New (jetstream registered : bool) : option Publisher :=
  if jetstream then Some (registerMetrics registered (mkPublisher false zero_time None None None)) else None.

(** The gauges of [registerMetrics], evaluated at a scrape. *)
Definition outbox_backlog (now : time) (fs : list fault) (d : db) : Z :=
  match (Repository_OutboxBacklogStats now fs d).1 with Ok (n, _) => n | Err _ => 0 end.
Definition outbox_oldest_pending_age (now : time) (fs : list fault) (d : db) : duration :=
  match (Repository_OutboxBacklogStats now fs d).1 with Ok (_, age) => age | Err _ => 0 end.

(** One iteration of the loop of [Start], and whether the context ended before
    the next tick. *)
Record ptick := mkPtick { pt_now : time; pt_err : bool; pt_broker : Broker; pt_done : bool }.

Fixpoint publisher_loop (ticks : list ptick) : W unit :=
  match ticks with
  | [] => mret tt
  | t :: rest =>
      if pt_err t then mret tt
      else tick (pt_now t) false (pt_broker t) ;; if pt_done t then mret tt else publisher_loop rest
  end.

(** The goroutine runs at most once, and [Close] takes effect at most once: it
    withdraws the readiness, cancels the context of the loop and waits for it;
    [last] is what the loop still does meanwhile. *)
Record Life := mkLife { lf_started : bool; lf_closed : bool }.
Definition Publisher_Start (l : Life) (ticks : list ptick) : Life * W unit :=
  if lf_started l then (l, mret tt) else (mkLife true (lf_closed l), publisher_loop ticks).
Definition Publisher_Close (l : Life) (last : list ptick) : Life * W unit :=
  if lf_closed l then (l, mret tt)
  else (mkLife (lf_started l) true,
        modify (set_pub (set_ready false)) ;; if lf_started l then publisher_loop last else mret tt).

Lemma step_in_publisher_loop ticks : step_in wstep (publisher_loop ticks).
Proof.
  induction ticks as [|t ticks IH]; cbn [publisher_loop]; [solve_step|].
  destruct (pt_err t); [solve_step|]. apply step_in_bind; [apply _|apply step_in_tick|]. intros _.
  destruct (pt_done t); [solve_step|done].
Qed.

(** The loop and its end keep what the system theorems rest on. *)
Lemma publisher_life_ok l ticks last fs w :
  relay_ok w →
  relay_ok ((Publisher_Start l ticks).2 fs w).2.2 ∧ relay_ok ((Publisher_Close l last).2 fs w).2.2.
Proof.
  intros Hw. split.
  - unfold Publisher_Start. destruct (lf_started l); [done|]. by apply step_in_publisher_loop.
  - unfold Publisher_Close. destruct (lf_closed l); [done|]. cbn [snd].
    assert (step_in wstep (modify (set_pub (set_ready false)) ;; if lf_started l then publisher_loop last else mret tt)) as Hs.
    { apply step_in_bind; [apply _| |].
      - intros fs' w'. apply wstep_pub.
      - intros _. destruct (lf_started l); [apply step_in_publisher_loop|solve_step]. }
    by apply Hs.
Qed.

(** The gauges show zero, however many events wait. *)
Lemma backlog_gauges_zero now fs d : outbox_backlog now fs d = 0 ∧ outbox_oldest_pending_age now fs d = 0.
Proof.
  unfold outbox_backlog, outbox_oldest_pending_age. pose proof (backlog_stats_denied now fs d) as Hd.
  destruct (Repository_OutboxBacklogStats now fs d) as [r [fs' d']]. by destruct Hd as [_ [->| ->]].
Qed.

(** ** A concrete queue *)

#[local] Instance daemon_ids : ReminderIds := mkReminderIds (λ _ _, 9%N) (λ _, EmptyString).
(** A broker that leaves a message alone once it hears of its settlement. *)
#[local] Instance daemon_broker : JetStream :=
  λ limit n said heard, (n <? limit) && negb (heard && (said !=? Nak)).
#[local] Instance daemon_broker_laws : JetStreamLaws.
Proof.
  split; unfold redelivers, daemon_broker.
  - intros limit n said heard Hn. by replace (n <? limit) with false by lia.
  - intros limit n heard Hn. replace (n <? limit) with true by lia. by destruct heard.
Qed.
Definition daemon_env (k : string) : string :=
  if k ==? "NOTIFICATION_CONSUMER_MAX_DELIVER"%string then "2"%string else EmptyString.
Definition daemon_round : round :=
  mkRound false [] Fetched false (λ _ _, mkNGen 1 0) (λ _, mkNGen 2 0) (λ _, 0) (λ _, "broken"%string)
    (λ _, true).

(** Two messages that cannot be read are terminated at their second delivery. *)
Lemma consumer_settles_witness :
  let c := NewConsumer daemon_env (λ _, Ok []) None in
  cw_queue (Consumer_Run c [mkSubAttempt false false; mkSubAttempt true false]
              (replicate 4 daemon_round) [] (mkCworld [mkDelivery None 0; mkDelivery None 0] [] [])).2 = [].
Proof.
  intros c. apply (consumer_settles daemon_env (λ _, Ok []) None).
  - split; [|constructor]. by repeat constructor.
  - done.
  - by repeat constructor.
  - by vm_compute.
Defined.
