(* ===== verification/Startup.v ===== *)
(** * Startup: how the processes start, report readiness and stop

    platform/db/pool.go, platform/infra/optional.go and cmd/api/main.go of the
    nine services.  A [main] is a program over the trace of what it does to the
    outside (pools, connections, goroutines, the server) and the names of the
    metrics it has registered; what the machine answers is a parameter. *)
From S2P Require Import Prelude Effects GoTime Http Platform Gateway Auth Tenant SchedulingApp Migrate Server Daemons.
Open Scope Z_scope.

(** ** Pools *)

Record PoolConfig := mkPoolConfig {
  MaxConns : Z; MinConns : Z;                                  (* int32 *)
  MaxConnLifetime : duration; MaxConnIdleTime : duration;
  HealthCheckPeriod : duration; ConnectTimeout : duration
}.

Inductive pool_error :=
| NotAnInteger (name : string) | NotADuration (name : string) | InvalidPool
| URLRequired | BadURL | PoolFailed | PingFailed.

(** [strconv.ParseInt(value, 10, 32)] *)
Definition ParseInt32 (s : string) : option Z :=
  match Atoi s with Some n => if int4 n then Some n else None | None => None end.

Section Env.
Context (ParseDuration : string -> option duration) (getenv : string -> string).

Definition int32Env (name : string) (fallback : Z) : res pool_error Z :=
  if getenv name ==? EmptyString then Ok fallback
  else match ParseInt32 (getenv name) with Some n => Ok n | None => Err (NotAnInteger name) end.

Definition durationEnv (name : string) (fallback : duration) : res pool_error duration :=
  if getenv name ==? EmptyString then Ok fallback
  else match ParseDuration (getenv name) with Some d => Ok d | None => Err (NotADuration name) end.

Definition res_bind {E A B} (r : res E A) (k : A -> res E B) : res E B :=
  match r with Ok a => k a | Err e => Err e end.

Definition PoolConfigFromEnvironment : res pool_error PoolConfig :=
  res_bind (int32Env "DB_MAX_CONNS" 10) (λ maxConns,
  res_bind (int32Env "DB_MIN_CONNS" 1) (λ minConns,
  res_bind (durationEnv "DB_MAX_CONN_LIFETIME" Hour) (λ lifetime,
  res_bind (durationEnv "DB_MAX_CONN_IDLE_TIME" (15 * Minute)) (λ idle,
  res_bind (durationEnv "DB_HEALTH_CHECK_PERIOD" (30 * Second)) (λ period,
  res_bind (durationEnv "DB_CONNECT_TIMEOUT" (5 * Second)) (λ timeout,
  if (maxConns <=? 0) || (minConns <? 0) || (maxConns <? minConns) || (lifetime <=? 0) || (idle <=? 0)
     || (period <=? 0) || (timeout <=? 0)
  then Err InvalidPool
  else Ok (mkPoolConfig maxConns minConns lifetime idle period timeout))))))).
End Env.

(** What a configuration that was accepted satisfies. *)
Definition pool_valid (c : PoolConfig) : Prop :=
  0 < MaxConns c < 2 ^ 31 ∧ 0 <= MinConns c <= MaxConns c ∧ 0 < MaxConnLifetime c ∧ 0 < MaxConnIdleTime c ∧
  0 < HealthCheckPeriod c ∧ 0 < ConnectTimeout c.

Lemma int32Env_range getenv name fallback n :
  int4 fallback = true → int32Env getenv name fallback = Ok n → int4 n = true.
Proof.
  unfold int32Env, ParseInt32. intros Hf. case_bool_decide; [by intros [= <-]|].
  destruct (Atoi _) as [k|]; [|done]. destruct (int4 k) eqn:E; [by intros [= <-]|done].
Qed.

Lemma PoolConfig_valid ParseDuration getenv c :
  PoolConfigFromEnvironment ParseDuration getenv = Ok c → pool_valid c.
Proof.
  unfold PoolConfigFromEnvironment, res_bind. intros E.
  repeat match type of E with
  | match ?x with _ => _ end = _ => destruct x eqn:?; [|done]
  end.
  destruct (_ || _) eqn:Eb in E; [done|]. injection E as <-. bsimpl.
  match goal with H : int32Env _ "DB_MAX_CONNS" _ = _ |- _ => apply int32Env_range in H as Hm; [|done] end.
  unfold int4 in Hm. bsimpl. unfold pool_valid. cbn. lia.
Qed.

(** ** Processes *)

(** What a handler or client of a service is given. *)
Record served := mkServed_ {
  sd_verifier : list string;            (* the tokens of the internal verifier *)
  sd_platform : option string;          (* the platform token, of the gateway *)
  sd_token : string;                    (* the token of outgoing calls *)
  sd_urls : list (string * string);     (* the services it calls *)
  sd_ready : list string                (* the dependencies its readiness asks *)
}.

Inductive event :=
| EMigrate (dsn role dir : string)
| ETracer (t : tracer) | ETracerShutdown
| EPoolOpen (url : string) (c : PoolConfig) | EPoolClose
| ERedisOpen (url : string) | ERedisClose
| ENatsOpen (url : string) | ENatsClose
| EPublisherStart | EPublisherClose
| EConsumerStart (stream subject durable : string) | EWorkerStart (timeout : duration) | EDaemonsStop (drained : bool)
| EServe (s : served)
| EListen (port : string).

Record bstate := mkBstate { bt_trace : list event; bt_collectors : list string }.

(** A program returns, or the process exits ([log.Fatal] and [os.Exit] run no
    deferred function). *)
Inductive outcome (A : Type) := Returned (a : A) | Exited (code : Z).
Arguments Returned {A} a.
Arguments Exited {A} code.
Definition Boot (A : Type) : Type := bstate -> outcome A * bstate.

#[export] Instance boot_ret : MRet Boot := λ A a s, (Returned a, s).
#[export] Instance boot_bind : MBind Boot := λ A B k m s,
  match m s with (Returned a, s') => k a s' | (Exited n, s') => (Exited n, s') end.
Definition emit (e : event) : Boot unit := λ s, (Returned tt, mkBstate (bt_trace s ++ [e]) (bt_collectors s)).
Definition os_Exit {A} (code : Z) : Boot A := λ s, (Exited code, s).
Definition log_Fatal {A} : Boot A := os_Exit 1.
(** [defer d] *)
Definition deferring (d : Boot unit) (body : Boot unit) : Boot unit := body ;; d.
(** [promauto.With(reg).New...]: a name that is taken panics. *)
Definition register (names : list string) : Boot unit := λ s,
  if bool_decide (NoDup (bt_collectors s ++ names))
  then (Returned tt, mkBstate (bt_trace s) (bt_collectors s ++ names))
  else (Exited 2, s).

(** The loop of the notification service that waits for its goroutines: a
    channel that was received from is set to nil and does not fire again, and the
    deadline, which comes at last, gives up on both.  The number counts the
    iterations. *)
Inductive drain_event := ConsumerDone | WorkerDone | DrainDeadline.
Fixpoint drain (events : list drain_event) (consumer worker : bool) : bool * nat :=
  if negb consumer && negb worker then (true, 0%nat)
  else
    match events with
    | [] | DrainDeadline :: _ => (false, 1%nat)
    | ConsumerDone :: rest =>
        if consumer then let (r, n) := drain rest false worker in (r, S n) else drain rest consumer worker
    | WorkerDone :: rest =>
        if worker then let (r, n) := drain rest consumer false in (r, S n) else drain rest consumer worker
    end.

(** At most two iterations; the goroutines have ended unless the deadline came
    first. *)
Lemma drain_bounded events consumer worker :
  ((drain events consumer worker).2 <= Nat.b2n consumer + Nat.b2n worker)%nat ∧
  ((drain events consumer worker).1 = true →
   (consumer = true → ConsumerDone ∈ events) ∧ (worker = true → WorkerDone ∈ events)).
Proof.
  revert consumer worker. induction events as [|e events IH]; intros consumer worker.
  { destruct consumer, worker; cbn; (split; [lia|]); done. }
  destruct e, consumer, worker; cbn;
    try (match goal with |- context [drain events ?a ?b] => specialize (IH a b); destruct (drain events a b) as [r n] end;
         cbn in *; destruct IH as [IH1 IH2]; split; [lia|set_solver]);
    (split; [lia|set_solver]).
Qed.

(** What the machine answers. *)
Record Machine := mkMachine {
  m_getenv : string -> string;
  m_ParseDuration : string -> option duration;
  m_ParseFloat : string -> option float64;
  m_EqualFold : string -> string -> bool;
  m_migrateOnly : bool;                                  (* the flag -migrate-only *)
  m_migrate : string -> string -> string -> res mig_error unit;
  m_exporter : string -> bool;
  m_ParseConfig : string -> bool;
  m_NewWithConfig : PoolConfig -> bool;
  m_Ping : bool;
  m_redis_ParseURL : string -> bool;
  m_redis_Ping : bool;
  m_nats_Connect : string -> bool;
  m_JetStream : bool;
  m_first : first_event; m_shutdown : option server_error; m_last : last_event;
  m_drain : list drain_event
}.

(** The collectors each package registers. *)
Definition base_collectors : list string :=
  ["http_requests_total"; "http_request_duration_seconds"; "dependency_up"; "rate_limit_allowed_total";
   "rate_limit_blocked_total"; "rate_limit_errors_total"]%string.
Definition pgx_collectors : list string :=
  ["pgx_pool_total_conns"; "pgx_pool_idle_conns"; "pgx_pool_acquired_conns"; "pgx_pool_max_conns"]%string.
Definition redis_collectors : list string := ["redis_pool_total_conns"; "redis_pool_idle_conns"]%string.
Definition outbox_collectors : list string :=
  ["outbox_publish_failures_total"; "outbox_publish_retries_total"; "outbox_terminal_total"; "outbox_backlog";
   "outbox_oldest_pending_age_seconds"]%string.
Definition consumer_collectors : list string :=
  ["notification_planned_total"; "nats_messages_redelivered_total"; "nats_messages_terminal_total"]%string.
Definition worker_collectors : list string :=
  ["notification_sent_total"; "notification_failed_total"; "notification_retried_total";
   "notification_claim_recovered_total"]%string.

Section Machine.
Context `{GoLib} (m : Machine).
Abbreviation getenv := (m_getenv m).
Abbreviation env := (value (m_getenv m)).

(** [db.OpenPool] *)
Definition OpenPool (databaseURL : string) : Boot (res pool_error PoolConfig) :=
  if databaseURL ==? EmptyString then mret (Err URLRequired)
  else
    match PoolConfigFromEnvironment (m_ParseDuration m) getenv with
    | Err e => mret (Err e)
    | Ok settings =>
        if negb (m_ParseConfig m databaseURL) then mret (Err BadURL)
        else if negb (m_NewWithConfig m settings) then mret (Err PoolFailed)
        else
          emit (EPoolOpen databaseURL settings) ;;
          if m_Ping m then mret (Ok settings)
          else emit EPoolClose ;; mret (Err PingFailed)
    end.

(** [infra.ConnectRedis]: [Ok false] is a nil client. *)
Definition ConnectRedis (url : string) : Boot (res unit bool) :=
  if url ==? EmptyString then mret (Ok false)
  else if negb (m_redis_ParseURL m url) then mret (Err tt)
  else
    emit (ERedisOpen url) ;;
    if m_redis_Ping m then mret (Ok true)
    else emit ERedisClose ;; mret (Err tt).

(** [infra.ConnectNATS] *)
Definition ConnectNATS (url : string) : Boot (res unit bool) :=
  if url ==? EmptyString then mret (Ok false)
  else if m_nats_Connect m url then emit (ENatsOpen url) ;; mret (Ok true)
  else mret (Err tt).

(** [httpx.Run] *)
Definition httpx_Run (port : string) : Boot (option run_error) :=
  emit (EListen port) ;; mret (httpx_run (m_first m) (m_shutdown m) (m_last m)).1.

Definition production : bool := m_EqualFold m (getenv "APP_ENV"%string) "production".

(** What every [main] but the gateway's begins with: the migration job, the
    configuration, tracing, metrics and the pool, which is closed at the end. *)
Definition with_service (cfg : ServiceConfig) (migrationURL ownerRole dir : string) (body : Boot unit) : Boot unit :=
  if m_migrateOnly m then
    emit (EMigrate migrationURL ownerRole dir) ;;
    match m_migrate m migrationURL ownerRole dir with Ok _ => mret tt | Err _ => log_Fatal end
  else
    match ServiceConfig_Validate production cfg with
    | Err _ => log_Fatal
    | Ok _ =>
        emit (ETracer (Init (m_ParseFloat m) getenv (m_exporter m))) ;;
        deferring (emit ETracerShutdown) (
          register base_collectors ;;
          pool ← OpenPool (DatabaseURL cfg);
          match pool with
          | Err _ => log_Fatal
          | Ok _ => deferring (emit EPoolClose) (register pgx_collectors ;; body)
          end)
    end.

(** The end of the mains that only serve: a failed server ends the process
    without running the deferred functions. *)
Definition serve_until_stopped (s : served) (port : string) : Boot unit :=
  emit (EServe s) ;;
  r ← httpx_Run port;
  match r with None => mret tt | Some _ => os_Exit 1 end.

Definition tokens (cfg : ServiceConfig) : list string := [InternalAuthToken cfg; ServiceInternalToken cfg].
Definition auth_url : string * string := ("auth"%string, env "AUTH_SERVICE_URL" "http://auth-service:8080").
Definition barber_url : string * string := ("barber"%string, env "BARBER_SERVICE_URL" "http://barber-service:8080").
Definition catalog_url : string * string := ("catalog"%string, env "CATALOG_SERVICE_URL" "http://catalog-service:8080").
Definition tenant_url : string * string := ("tenant"%string, env "TENANT_SERVICE_URL" "http://tenant-service:8080").
Definition scheduling_url : string * string :=
  ("scheduling"%string, env "SCHEDULING_SERVICE_URL" "http://scheduling-service:8080").
Definition customer_url : string * string :=
  ("customer"%string, env "CUSTOMER_SERVICE_URL" "http://customer-service:8080").
Definition appointment_url : string * string :=
  ("appointment"%string, env "APPOINTMENT_SERVICE_URL" "http://appointment-service:8080").

(** The mains whose migration job reads the environment itself. *)
Definition with_env_service (name role : string) (body : ServiceConfig -> Boot unit) : Boot unit :=
  let cfg := Load getenv name in
  with_service cfg (getenv "MIGRATION_DATABASE_URL"%string) (env "DATABASE_OWNER_ROLE" role) (env "MIGRATIONS_DIR" "migrations")
    (body cfg).

Definition barber_main : Boot unit :=
  with_env_service "barber-service" "barber_db_owner" (λ cfg,
    serve_until_stopped (mkServed_ (tokens cfg) None (ServiceInternalToken cfg) [auth_url] ["postgres"%string]) (Port cfg)).

Definition catalog_main : Boot unit :=
  with_env_service "catalog-service" "catalog_db_owner" (λ cfg,
    serve_until_stopped
      (mkServed_ (tokens cfg) None (ServiceInternalToken cfg) [auth_url; barber_url] ["postgres"%string]) (Port cfg)).

Definition scheduling_main : Boot unit :=
  with_env_service "scheduling-service" "scheduling_db_owner" (λ cfg,
    serve_until_stopped
      (mkServed_ (tokens cfg) None (ServiceInternalToken cfg)
         [barber_url; catalog_url; tenant_url; appointment_url; auth_url] ["postgres"%string]) (Port cfg)).

(** The part the auth and the customer service share: Redis is required, and so
    is a mail sender. *)
Definition with_redis_and_mail (cfg : ServiceConfig) (body : Boot unit) : Boot unit :=
  if RedisURL cfg ==? EmptyString then log_Fatal
  else
    r ← ConnectRedis (RedisURL cfg);
    match r with
    | Err _ => log_Fatal
    | Ok _ =>
        deferring (emit ERedisClose) (
          register redis_collectors ;;
          match FromEnvironment (m_ParseDuration m) (m_EqualFold m) getenv with
          | Err _ => log_Fatal
          | Ok _ => body
          end)
    end.

Definition customer_main : Boot unit :=
  with_env_service "customer-service" "customer_db_owner" (λ cfg,
    with_redis_and_mail cfg (
      serve_until_stopped
        (mkServed_ (tokens cfg) None (ServiceInternalToken cfg) [appointment_url] ["postgres"; "redis"]%string)
        (Port cfg))).

Definition auth_main : Boot unit :=
  with_env_service "auth-service" "auth_db_owner" (λ cfg,
    with_redis_and_mail cfg (
      serve_until_stopped (mkServed_ (tokens cfg) None (ServiceInternalToken cfg) [] ["postgres"; "redis"]%string)
        (Port cfg))).

Definition tenant_main : Boot unit :=
  let cfg := tenant_Load getenv in
  let sc := tc_service cfg in
  with_service sc (tc_migrationURL cfg) (tc_ownerRole cfg) (tc_migrationsDir cfg) (
    r ← ConnectRedis (RedisURL sc);
    match r with
    | Err _ => log_Fatal
    | Ok cache =>
        let s := mkServed_ (tokens sc) None (ServiceInternalToken sc) [("auth"%string, tc_authURL cfg)]
                   (if cache : bool then ["postgres"; "redis"] else ["postgres"])%string in
        if cache then deferring (emit ERedisClose) (register redis_collectors ;; serve_until_stopped s (Port sc))
        else serve_until_stopped s (Port sc)
    end).

Definition appointment_main : Boot unit :=
  with_env_service "appointment-service" "appointment_db_owner" (λ cfg,
    if NATSURL cfg ==? EmptyString then log_Fatal
    else
      r ← ConnectNATS (NATSURL cfg);
      match r with
      | Err _ => log_Fatal
      | Ok _ =>
          match Publisher_New (m_JetStream m) true with
          | None => log_Fatal
          | Some _ =>
              register outbox_collectors ;;
              emit EPublisherStart ;;
              emit (EServe (mkServed_ (tokens cfg) None (ServiceInternalToken cfg)
                      [barber_url; catalog_url; tenant_url; scheduling_url; customer_url; auth_url]
                      ["postgres"; "nats"]%string)) ;;
              r ← httpx_Run (Port cfg);
              emit EPublisherClose ;;
              emit ENatsClose ;;
              match r with None => mret tt | Some _ => os_Exit 1 end
          end
      end).

Definition notification_main : Boot unit :=
  with_env_service "notification-service" "notification_db_owner" (λ cfg,
    if NATSURL cfg ==? EmptyString then log_Fatal
    else if InternalAuthToken cfg ==? EmptyString then log_Fatal
    else
      r ← ConnectNATS (NATSURL cfg);
      match r with
      | Err _ => log_Fatal
      | Ok _ =>
          if negb (m_JetStream m) then log_Fatal
          else
            match FromEnvironment (m_ParseDuration m) (m_EqualFold m) getenv with
            | Err _ => log_Fatal
            | Ok _ =>
                register consumer_collectors ;;
                emit (EConsumerStart "APPOINTMENTS" "appointments.v1.appointment.*" "notification-email-v1") ;;
                register worker_collectors ;;
                emit (EWorkerStart worker_New) ;;
                emit (EServe (mkServed_ [] None (ServiceInternalToken cfg) [tenant_url; appointment_url]
                        ["postgres"; "nats"]%string)) ;;
                r ← httpx_Run (Port cfg);
                emit (EDaemonsStop (drain (m_drain m) true true).1) ;;
                emit ENatsClose ;;
                match r with None => mret tt | Some _ => os_Exit 1 end
            end
      end).

(** The gateway has no database and no migration job; [gateway_main] is its
    check and the handler it builds. *)
Definition gateway_process : Boot unit :=
  match gateway_main production getenv with
  | None => log_Fatal
  | Some h =>
      let cfg := gateway_Load getenv in
      emit (ETracer (Init (m_ParseFloat m) getenv (m_exporter m))) ;;
      deferring (emit ETracerShutdown) (
        register base_collectors ;;
        serve_until_stopped
          (mkServed_ [] (Some (PlatformAdminToken cfg)) (InternalAuthToken (gc_service cfg))
             [("tenant", TenantServiceURL cfg); ("auth", AuthServiceURL cfg); ("barber", BarberServiceURL cfg);
              ("catalog", CatalogServiceURL cfg); ("scheduling", SchedulingServiceURL cfg);
              ("appointment", AppointmentServiceURL cfg); ("notification", NotificationServiceURL cfg);
              ("customer", CustomerServiceURL cfg); ("admin-web", AdminWebURL cfg);
              ("booking-web", BookingWebURL cfg)]%string ["tenant"%string])
          (Port (gc_service cfg)))
  end.
End Machine.

(** ** Properties of the mains *)

Inductive process :=
  PTenant | PAuth | PCustomer | PBarber | PCatalog | PScheduling | PAppointment | PNotification | PGateway.

Definition main_of `{GoLib} (p : process) (m : Machine) : Boot unit :=
  match p with
  | PTenant => tenant_main m | PAuth => auth_main m | PCustomer => customer_main m | PBarber => barber_main m
  | PCatalog => catalog_main m | PScheduling => scheduling_main m | PAppointment => appointment_main m
  | PNotification => notification_main m | PGateway => gateway_process m
  end.

Definition boot0 : bstate := mkBstate [] [].

(** Configurations may be read under another name only. *)
Definition config_of (p : process) (getenv : string -> string) : ServiceConfig :=
  Load getenv (match p with
    | PTenant => "tenant-service" | PAuth => "auth-service" | PCustomer => "customer-service"
    | PBarber => "barber-service" | PCatalog => "catalog-service" | PScheduling => "scheduling-service"
    | PAppointment => "appointment-service" | PNotification => "notification-service" | PGateway => "gateway-service"
    end)%string.

(** No part of a secret is one of the words of a template. *)
Definition not_a_placeholder `{GoLib} (secret : string) : Prop :=
  ∀ word, word ∈ unsafe_words → Contains (ToLower secret) word = false.

(** What holds of each thing a process does. *)
Definition event_ok `{GoLib} (p : process) (m : Machine) (e : event) : Prop :=
  match e with
  | EPoolOpen url c => url = DatabaseURL (config_of p (m_getenv m)) ∧ url ≠ EmptyString ∧ pool_valid c
  | EServe s =>
      MultiTokenVerifier_Verify (NewMultiTokenVerifier (sd_verifier s)) EmptyString = false ∧
      sd_token s ≠ EmptyString ∧
      (∀ t, MultiTokenVerifier_Verify (NewMultiTokenVerifier (sd_verifier s)) t = true →
         t = InternalAuthToken (config_of p (m_getenv m)) ∨ t = ServiceInternalToken (config_of p (m_getenv m))) ∧
      (∀ t, sd_platform s = Some t → t ≠ EmptyString) ∧
      (production m = true →
         not_a_placeholder (InternalAuthToken (config_of p (m_getenv m))) ∧
         not_a_placeholder (ServiceInternalToken (config_of p (m_getenv m))) ∧
         not_a_placeholder (DatabaseURL (config_of p (m_getenv m))))
  | _ => True
  end.

(** Opened and not closed yet: pools, Redis clients, NATS connections, tracers. *)
Definition opened (e : event) : Z * Z * Z * Z :=
  match e with
  | EPoolOpen _ _ => (1, 0, 0, 0) | EPoolClose => (-1, 0, 0, 0)
  | ERedisOpen _ => (0, 1, 0, 0) | ERedisClose => (0, -1, 0, 0)
  | ENatsOpen _ => (0, 0, 1, 0) | ENatsClose => (0, 0, -1, 0)
  | ETracer _ => (0, 0, 0, 1) | ETracerShutdown => (0, 0, 0, -1)
  | _ => (0, 0, 0, 0)
  end.
Definition add4 (a b : Z * Z * Z * Z) : Z * Z * Z * Z :=
  let '(a1, a2, a3, a4) := a in let '(b1, b2, b3, b4) := b in (a1 + b1, a2 + b2, a3 + b3, a4 + b4).
Definition held (t : list event) : Z * Z * Z * Z := foldr (λ e n, add4 (opened e) n) (0, 0, 0, 0) t.

Definition is_serve (e : event) : bool := match e with EServe _ => true | _ => false end.
Definition is_listen (e : event) : bool := match e with EListen _ => true | _ => false end.
Definition is_pool (e : event) : bool := match e with EPoolOpen _ _ => true | _ => false end.
Definition is_migration_job (e : event) : bool := match e with EMigrate _ _ _ => true | _ => false end.

(** The server listens only after the routes are installed and, where there is
    one, the database answered. *)
Fixpoint listens_when_ready (p : process) (pool serve : bool) (t : list event) : bool :=
  match t with
  | [] => true
  | e :: rest =>
      (if is_listen e then serve && (pool || match p with PGateway => true | _ => false end) else true)
      && listens_when_ready p (match e with EPoolOpen _ _ => true | EPoolClose => false | _ => pool end)
           (serve || is_serve e) rest
  end.

(** A process that follows the rules. *)
Record boot_ok `{GoLib} (p : process) (m : Machine) (r : outcome unit * bstate) : Prop := mkBootOk {
  bo_code : r.1 = Returned tt ∨ r.1 = Exited 1;
  bo_events : Forall (event_ok p m) (bt_trace r.2);
  bo_listens : listens_when_ready p false false (bt_trace r.2) = true;
  bo_closed : r.1 = Returned tt → held (bt_trace r.2) = (0, 0, 0, 0);
  bo_migrates : existsb is_migration_job (bt_trace r.2) = true → existsb is_listen (bt_trace r.2) = false
}.

Section Proofs.
Context `{GoLib}.

Lemma Validate_ok prod cfg u :
  ServiceConfig_Validate prod cfg = Ok u →
  InternalAuthToken cfg ≠ EmptyString ∧
  (ServiceName cfg ≠ "gateway-service"%string → DatabaseURL cfg ≠ EmptyString) ∧
  (prod = true → not_a_placeholder (InternalAuthToken cfg) ∧ not_a_placeholder (ServiceInternalToken cfg) ∧
                 not_a_placeholder (DatabaseURL cfg)).
Proof.
  unfold ServiceConfig_Validate. case_bool_decide as Ht; [done|]. destruct (_ && _) eqn:Ed; [done|]. intros E.
  split_and!; [done| |].
  - intros Hn Hd. rewrite (bool_decide_true _ Hd), (bool_decide_false _ Hn) in Ed. done.
  - intros ->. cbn zeta in E. destruct (existsb _ unsafe_words) eqn:Ex; [done|]. rewrite existsb_none in Ex.
    assert (∀ s, s ∈ [InternalAuthToken cfg; ServiceInternalToken cfg; DatabaseURL cfg; RedisURL cfg; NATSURL cfg] →
      not_a_placeholder s) as Hs.
    { intros s Hin word Hw. specialize (Ex word Hw). rewrite existsb_none in Ex. apply Ex.
      apply list_elem_of_In, in_map. by apply list_elem_of_In. }
    split_and!; apply Hs, list_elem_of_In; cbn; tauto.
Qed.

Lemma service_token_set getenv name :
  InternalAuthToken (Load getenv name) ≠ EmptyString → ServiceInternalToken (Load getenv name) ≠ EmptyString.
Proof. unfold Load, value. cbn. case_bool_decide; cbn; done. Qed.

Lemma verify_in tokens t :
  MultiTokenVerifier_Verify (NewMultiTokenVerifier tokens) t = true → t ∈ tokens.
Proof.
  unfold MultiTokenVerifier_Verify, NewMultiTokenVerifier, ConstantTimeCompare. cbn. case_bool_decide; [done|].
  intros (x & Hx & E)%existsb_elem. bsimpl. subst. apply list_elem_of_In, filter_In in Hx as [Hx _].
  by apply list_elem_of_In.
Qed.

Lemma serve_ok p m s u :
  ServiceConfig_Validate (production m) (config_of p (m_getenv m)) = Ok u →
  sd_verifier s ∈ [[]; tokens (config_of p (m_getenv m))] →
  sd_token s ∈ tokens (config_of p (m_getenv m)) →
  (∀ t, sd_platform s = Some t → t ≠ EmptyString) → event_ok p m (EServe s).
Proof.
  intros Hv Hver Htok Hpl. apply Validate_ok in Hv as (Hi & _ & Hprod).
  pose proof (service_token_set _ _ Hi) as Hs. cbn [event_ok]. split_and!; [done| | |done|done].
  - apply list_elem_of_In in Htok as [<-|[<-|[]]]; done.
  - intros t Ht%verify_in. apply list_elem_of_In in Hver as [E|[E|[]]]; rewrite <- E in Ht;
      apply list_elem_of_In in Ht; cbn in Ht; naive_solver.
Qed.
End Proofs.

(** *** Weakest preconditions *)

Definition wp {A} (b : Boot A) (s : bstate) (Q : outcome A -> bstate -> Prop) : Prop := Q (b s).1 (b s).2.

Definition with_event (e : event) (s : bstate) : bstate := mkBstate (bt_trace s ++ [e]) (bt_collectors s).

Section Wp.
Context `{GoLib} (m : Machine).

Lemma wp_boot p b s : wp b s (λ o s', boot_ok p m (o, s')) → boot_ok p m (b s).
Proof. unfold wp. by destruct (b s). Qed.
Lemma wp_bind {A B} (b : Boot A) (k : A -> Boot B) s Q :
  wp b s (λ o s', match o with Returned a => wp (k a) s' Q | Exited n => Q (Exited n) s' end) → wp (b ≫= k) s Q.
Proof. unfold wp, mbind, boot_bind. by destruct (b s) as [[] ?]. Qed.
Lemma wp_ret {A} (a : A) s Q : Q (Returned a) s → wp (mret a) s Q.
Proof. done. Qed.
Lemma wp_emit e s Q : Q (Returned tt) (with_event e s) → wp (emit e) s Q.
Proof. done. Qed.
Lemma wp_exit {A} n s Q : Q (Exited n) s → wp (os_Exit (A:=A) n) s Q.
Proof. done. Qed.
Lemma wp_fatal {A} s Q : Q (Exited 1) s → wp (log_Fatal (A:=A)) s Q.
Proof. done. Qed.
Lemma wp_register names s Q :
  bool_decide (NoDup (bt_collectors s ++ names)) = true →
  Q (Returned tt) (mkBstate (bt_trace s) (bt_collectors s ++ names)) → wp (register names) s Q.
Proof. unfold wp, register. by intros ->. Qed.
Lemma wp_Run port s Q :
  (∀ r, Q (Returned r) (with_event (EListen port) s)) → wp (httpx_Run m port) s Q.
Proof. intros HQ. apply HQ. Qed.
Lemma wp_OpenPool url s (Q : outcome (res pool_error PoolConfig) -> bstate -> Prop) :
  (∀ e, Q (Returned (Err e)) s) →
  (∀ c, url ≠ EmptyString → pool_valid c → Q (Returned (Ok c)) (with_event (EPoolOpen url c) s)) →
  (∀ c e, url ≠ EmptyString → pool_valid c →
     Q (Returned (Err e)) (with_event EPoolClose (with_event (EPoolOpen url c) s))) →
  wp (OpenPool m url) s Q.
Proof.
  intros H1 H2 H3. unfold OpenPool. case_bool_decide as Hu; [apply H1|].
  destruct (PoolConfigFromEnvironment _ _) as [c|e] eqn:E; [|apply H1]. apply PoolConfig_valid in E.
  destruct (negb _); [apply H1|]. destruct (negb _); [apply H1|]. apply wp_bind, wp_emit.
  destruct (m_Ping m); [by apply H2|]. apply wp_bind, wp_emit, wp_ret. by apply H3.
Qed.
Lemma wp_ConnectRedis url s (Q : outcome (res unit bool) -> bstate -> Prop) :
  (url = EmptyString → Q (Returned (Ok false)) s) → Q (Returned (Err tt)) s →
  (url ≠ EmptyString → Q (Returned (Ok true)) (with_event (ERedisOpen url) s)) →
  Q (Returned (Err tt)) (with_event ERedisClose (with_event (ERedisOpen url) s)) →
  wp (ConnectRedis m url) s Q.
Proof.
  intros H1 H2 H3 H4. unfold ConnectRedis. case_bool_decide; [by apply H1|]. destruct (negb _); [apply H2|].
  apply wp_bind, wp_emit. destruct (m_redis_Ping m); [by apply H3|]. apply wp_bind, wp_emit, wp_ret. apply H4.
Qed.
Lemma wp_ConnectNATS url s (Q : outcome (res unit bool) -> bstate -> Prop) :
  (url = EmptyString → Q (Returned (Ok false)) s) → Q (Returned (Err tt)) s →
  (url ≠ EmptyString → Q (Returned (Ok true)) (with_event (ENatsOpen url) s)) → wp (ConnectNATS m url) s Q.
Proof.
  intros H1 H2 H3. unfold ConnectNATS. case_bool_decide; [by apply H1|].
  destruct (m_nats_Connect m url); [|apply H2]. by apply wp_bind, wp_emit, H3.
Qed.
End Wp.

(** Follow the shape of a program. *)
Ltac wp_step :=
  cbv beta iota;
  match goal with
  | |- wp (_ ≫= _) _ _ => apply wp_bind
  | |- wp (mret _) _ _ => apply wp_ret
  | |- wp (emit _) _ _ => apply wp_emit
  | |- wp (os_Exit _) _ _ => apply wp_exit
  | |- wp log_Fatal _ _ => apply wp_fatal
  | |- wp (deferring _ _) _ _ => unfold deferring
  | |- wp (serve_until_stopped _ _ _) _ _ => unfold serve_until_stopped
  | |- wp (with_redis_and_mail _ _ _) _ _ => unfold with_redis_and_mail
  | |- wp (register _) _ _ => apply wp_register; [reflexivity|]
  | |- wp (httpx_Run _ _) _ _ => apply wp_Run; intros ?
  | |- wp (OpenPool _ _) _ _ => apply wp_OpenPool; [intros ?|intros ? ? ?|intros ? ? ? ?]
  | |- wp (ConnectRedis _ _) _ _ => apply wp_ConnectRedis; [intros ?| |intros ?|]
  | |- wp (ConnectNATS _ _) _ _ => apply wp_ConnectNATS; [intros ?| |intros ?]
  | |- wp (match ?x with _ => _ end) _ _ => destruct x eqn:?
  end.

(** The end of a path: a concrete trace. *)
Ltac event_leaf :=
  match goal with
  | |- event_ok _ _ (EPoolOpen _ _) => split_and!; done
  | Hv : ServiceConfig_Validate _ _ = Ok ?u |- event_ok ?p ?m (EServe ?s) =>
      apply (serve_ok p m s u Hv);
      [apply list_elem_of_In; first [left; reflexivity|right; left; reflexivity]
      |apply list_elem_of_In; first [left; reflexivity|right; left; reflexivity]|cbn; try done]
  | |- event_ok _ _ _ => exact I
  end.
Ltac wp_leaf :=
  constructor; cbn [fst snd bt_trace with_event app];
    [by auto | repeat (apply Forall_cons; split); try apply Forall_nil_2; event_leaf
    | reflexivity || done | reflexivity || done | reflexivity || done].
Ltac wp_main := repeat wp_step; cbv beta iota; first [wp_leaf | exfalso; bsimpl; congruence].

Section Mains.
Context `{GoLib} (m : Machine).

Lemma barber_ok : boot_ok PBarber m (barber_main m boot0).
Proof. apply wp_boot. unfold barber_main, with_env_service, with_service, boot0. wp_main. Qed.
Lemma catalog_ok : boot_ok PCatalog m (catalog_main m boot0).
Proof. apply wp_boot. unfold catalog_main, with_env_service, with_service, boot0. wp_main. Qed.
Lemma scheduling_ok : boot_ok PScheduling m (scheduling_main m boot0).
Proof. apply wp_boot. unfold scheduling_main, with_env_service, with_service, boot0. wp_main. Qed.
Lemma customer_ok : boot_ok PCustomer m (customer_main m boot0).
Proof. apply wp_boot. unfold customer_main, with_env_service, with_service, boot0. wp_main. Qed.
Lemma auth_ok : boot_ok PAuth m (auth_main m boot0).
Proof. apply wp_boot. unfold auth_main, with_env_service, with_service, boot0. wp_main. Qed.
Lemma tenant_ok : boot_ok PTenant m (tenant_main m boot0).
Proof. apply wp_boot. unfold tenant_main, with_service, boot0. cbv zeta. wp_main. Qed.
Lemma appointment_ok : boot_ok PAppointment m (appointment_main m boot0).
Proof. apply wp_boot. unfold appointment_main, with_env_service, with_service, boot0. wp_main. Qed.
Lemma notification_ok : boot_ok PNotification m (notification_main m boot0).
Proof. apply wp_boot. unfold notification_main, with_env_service, with_service, boot0. wp_main. Qed.
Lemma gateway_ok : boot_ok PGateway m (gateway_process m boot0).
Proof.
  apply wp_boot. unfold gateway_process, boot0. destruct (gateway_main _ _) as [h|] eqn:Eg; [|wp_main].
  unfold gateway_main in Eg. cbv zeta in *.
  destruct (ServiceConfig_Validate _ _) eqn:Ev in Eg; [|done]. destruct (_ || _) eqn:Et in Eg; [done|]. bsimpl.
  change (gc_service (gateway_Load (m_getenv m))) with (Load (m_getenv m) "gateway-service") in *.
  wp_main; intros ? [= <-]; done.
Qed.
End Mains.

(** C6: a process that is up is properly set up.  Whatever the environment is
    and whatever the machine answers, each of the nine services ends normally or
    with code 1 (no metric is registered twice, which would be a panic); it
    listens only after its routes are installed and, if it has one, its database
    answered, with a pool whose limits are sound; its internal verifier accepts
    the configured tokens only, never an empty one, and no call goes out without
    a token; in production none of these secrets is a placeholder; a migration
    job never listens; and a process that returns has closed what it opened. *)
Theorem startup_safe `{GoLib} p m : boot_ok p m (main_of p m boot0).
Proof.
  destruct p; [apply tenant_ok|apply auth_ok|apply customer_ok|apply barber_ok|apply catalog_ok|apply scheduling_ok
    |apply appointment_ok|apply notification_ok|apply gateway_ok].
Qed.

(** ** Readiness *)

(** What the probes of one call of /ready find. *)
Record probes := mkProbes { pr_postgres : bool; pr_redis : bool; pr_nats : bool; pr_tenant : bool }.

Definition service_name (p : process) : string := ServiceName (config_of p (λ _, EmptyString)).

(** The readiness function each [main] passes to [httpx.Health]; [cache] is
    whether the tenant service has a Redis client. *)
Definition process_ready (p : process) (cache : bool) (pr : probes) (o : Obs) : bool * Obs :=
  let set dep up o := SetDependencyUp (service_name p) dep up o in
  match p with
  | PBarber | PCatalog | PScheduling => (pr_postgres pr, set "postgres"%string (pr_postgres pr) o)
  | PTenant =>
      let o := set "postgres"%string (pr_postgres pr) o in
      if negb (pr_postgres pr) then (false, o)
      else if cache then (pr_redis pr, set "redis"%string (pr_redis pr) o) else (true, o)
  | PAuth | PCustomer =>
      let o := set "postgres"%string (pr_postgres pr) o in
      if negb (pr_postgres pr) then (false, o) else (pr_redis pr, set "redis"%string (pr_redis pr) o)
  | PNotification =>
      let o := set "postgres"%string (pr_postgres pr) o in
      if negb (pr_postgres pr) then (false, o) else (pr_nats pr, set "nats"%string (pr_nats pr) o)
  | PAppointment =>
      let o := set "nats"%string (pr_nats pr) (set "postgres"%string (pr_postgres pr) o) in
      if negb (pr_postgres pr) then (false, o) else (pr_nats pr, o)
  | PGateway => (pr_tenant pr, o)
  end.

(** The dependencies of a process, with what the probes say of them. *)
Definition dependencies (p : process) (cache : bool) (pr : probes) : list (string * bool) :=
  (match p with
   | PBarber | PCatalog | PScheduling => [("postgres", pr_postgres pr)]
   | PTenant => ("postgres", pr_postgres pr) :: if cache then [("redis", pr_redis pr)] else []
   | PAuth | PCustomer => [("postgres", pr_postgres pr); ("redis", pr_redis pr)]
   | PNotification | PAppointment => [("postgres", pr_postgres pr); ("nats", pr_nats pr)]
   | PGateway => [("tenant", pr_tenant pr)]
   end)%string.

(** The dependencies whose gauge a call of /ready sets.  The appointment service
    looks at all of them and the gateway records none; the other services stop
    at the first one that is down. *)
Fixpoint until_down (l : list (string * bool)) : list (string * bool) :=
  match l with
  | [] => []
  | d :: rest => d :: if d.2 : bool then until_down rest else []
  end.
Definition recorded (p : process) (cache : bool) (pr : probes) : list (string * bool) :=
  match p with
  | PGateway => []
  | PAppointment => dependencies p cache pr
  | _ => until_down (dependencies p cache pr)
  end.

Definition gauge_value (up : bool) : Z := if up then 1 else 0.
(** The gauges after setting those of a list of dependencies. *)
Definition set_gauges (service : string) (l : list (string * bool)) (up : gmap (string * string) Z)
  : gmap (string * string) Z :=
  foldl (λ m d, <[(service, d.1) := gauge_value d.2]> m) up l.

Lemma set_gauges_lookup service l up dep :
  NoDup l.*1 →
  set_gauges service l up !! (service, dep)
  = match list_find (λ d, d.1 = dep) l with Some (_, d) => Some (gauge_value d.2) | None => up !! (service, dep) end.
Proof.
  revert up. induction l as [|[k v] l IH]; intros up Hnd; [done|]. cbn in Hnd. apply NoDup_cons in Hnd as [Hk Hnd].
  unfold set_gauges in *. cbn [foldl]. rewrite IH by done. cbn [list_find fst]. destruct (decide (k = dep)) as [->|Hne].
  - rewrite (proj2 (list_find_None _ _)); [by rewrite lookup_insert_eq|]. apply Forall_forall. intros [k' v'] Hin E. cbn in E. subst.
    apply Hk, (list_elem_of_fmap_2 fst _ _ Hin).
  - rewrite lookup_insert_ne by congruence. by destruct (list_find _ l) as [[]|].
Qed.

Lemma readiness_gauges p cache pr c o :
  fc_status c = 200 →
  let '(err, (c', o')) := readiness (process_ready p cache pr) c o in
  err = None ∧ fc_status c' = (if forallb snd (dependencies p cache pr) then 200 else 503) ∧
  ob_up o' = set_gauges (service_name p) (recorded p cache pr) (ob_up o).
Proof.
  intros Hc. unfold readiness, process_ready. cbv zeta. generalize (service_name p) as s. intros s.
  destruct pr as [a b x y]. destruct p; cbn -[SetDependencyUp]; try destruct cache; destruct a, b, x, y; cbn; by rewrite ?Hc.
Qed.

Lemma recorded_names p cache pr : NoDup (recorded p cache pr).*1.
Proof.
  destruct pr as [a b x y]. destruct p; try destruct cache; destruct a, b, x, y; apply (bool_decide_unpack _); vm_compute; exact I.
Qed.

Lemma first_down l :
  forallb snd l = false →
  ∃ before d after, l = (before ++ d :: after)%list ∧ Forall (λ d, d.2 = true) before ∧ d.2 = false ∧ until_down l = (before ++ [d])%list.
Proof.
  induction l as [|[k v] l IH]; cbn; [done|]. destruct v; cbn.
  - intros (before & d & after & -> & Hb & Hd & ->)%IH. exists ((k, true) :: before), d, after.
    split; [done|]. split; [by constructor|done].
  - intros _. by exists [], (k, false), l.
Qed.
Lemma until_all_up l : forallb snd l = true → until_down l = l.
Proof. induction l as [|[k v] l IH]; cbn; [done|]. destruct v; cbn; [|done]. intros Hl. by rewrite IH. Qed.

Lemma dependency_names p cache pr : NoDup (dependencies p cache pr).*1.
Proof. destruct p; try destruct cache; cbn; apply (bool_decide_unpack _); vm_compute; exact I. Qed.
Lemma recorded_cases p cache pr :
  p ≠ PGateway → recorded p cache pr = until_down (dependencies p cache pr) ∨
  p = PAppointment ∧ recorded p cache pr = dependencies p cache pr.
Proof. destruct p; auto; done. Qed.

(** What a call of /ready leaves in a gauge. *)
Lemma gauge_set p cache pr up dep v :
  (dep, v) ∈ recorded p cache pr → set_gauges (service_name p) (recorded p cache pr) up !! (service_name p, dep) = Some (gauge_value v).
Proof.
  intros [i Hi]%list_elem_of_lookup. pose proof (recorded_names p cache pr) as Hnd. rewrite set_gauges_lookup by done.
  assert (list_find (λ d, d.1 = dep) (recorded p cache pr) = Some (i, (dep, v))) as ->; [|done].
  apply list_find_Some. split; [done|]. split; [done|]. intros j y Hj Hlt E.
  apply (NoDup_lookup _ i j dep) in Hnd; [lia|..]; rewrite list_lookup_fmap; [by rewrite Hi|by rewrite Hj; cbn; rewrite E].
Qed.
Lemma gauge_kept p cache pr up dep :
  dep ∉ (recorded p cache pr).*1 →
  set_gauges (service_name p) (recorded p cache pr) up !! (service_name p, dep) = up !! (service_name p, dep).
Proof.
  intros Hn. rewrite set_gauges_lookup by apply recorded_names. rewrite (proj2 (list_find_None _ _)); [done|].
  apply Forall_forall. intros d Hd E. subst. apply Hn. by apply list_elem_of_fmap_2.
Qed.

(** C40: /ready answers 200 exactly when every dependency of the service, the
    tenant service for the gateway, is up, and 503 otherwise.  The gauges
    dependency_up are exact too: a call sets the gauges of the dependencies it
    looks at to what it found and leaves every other gauge as it was.  The
    appointment service looks at all its dependencies, the other services only
    up to the first that is down, the gateway records none.  So after a 200 of a
    service other than the gateway all its gauges are 1, after a 503 the first
    dependency that is down has gauge 0, and a dependency behind it keeps the
    gauge it had, whatever its state: there the metric and /ready can
    disagree. *)
Theorem readiness_truthful p cache pr c o :
  fc_status c = 200 →
  let '(err, (c', o')) := readiness (process_ready p cache pr) c o in
  let gauge dep := ob_up o' !! (service_name p, dep) in
  err = None ∧
  fc_status c' = (if forallb snd (dependencies p cache pr) then 200 else 503) ∧
  ob_up o' = set_gauges (service_name p) (recorded p cache pr) (ob_up o) ∧
  (∀ dep up, (dep, up) ∈ recorded p cache pr → gauge dep = Some (gauge_value up)) ∧
  (∀ dep, dep ∉ (recorded p cache pr).*1 → gauge dep = ob_up o !! (service_name p, dep)) ∧
  (fc_status c' = 200 → p ≠ PGateway → Forall (λ d, gauge d.1 = Some 1) (dependencies p cache pr)) ∧
  (fc_status c' = 503 → p ≠ PGateway →
     ∃ before d after, dependencies p cache pr = (before ++ d :: after)%list ∧ Forall (λ d, d.2 = true) before ∧ d.2 = false ∧
       gauge d.1 = Some 0 ∧
       (p ≠ PAppointment → Forall (λ d', gauge d'.1 = ob_up o !! (service_name p, d'.1)) after)).
Proof.
  intros Hc. pose proof (readiness_gauges p cache pr c o Hc) as Hg.
  destruct (readiness _ _ _) as [err [c' o']]. destruct Hg as (Herr & Hst & Hup). cbv zeta. rewrite Hup, Hst.
  split; [done|]. split; [done|]. split; [done|]. split; [intros dep up; apply gauge_set|]. split; [intros dep; apply gauge_kept|].
  split; destruct (forallb snd (dependencies p cache pr)) eqn:Eall; try done; intros _ Hp.
  - assert (recorded p cache pr = dependencies p cache pr) as Er
      by (destruct (recorded_cases p cache pr Hp) as [->|[_ ->]]; [by apply until_all_up|done]).
    apply Forall_forall. intros [dep v] Hd. rewrite forallb_forall in Eall.
    assert (v = true) as -> by (by apply (Eall (dep, v)), list_elem_of_In). apply (gauge_set p cache pr _ dep true). by rewrite Er.
  - destruct (first_down _ Eall) as (before & [dep v] & after & El & Hb & Hv & Eu). cbn in Hv. subst v.
    exists before, (dep, false), after. split; [done|]. split; [done|]. split; [done|].
    split; [apply (gauge_set p cache pr _ dep false); destruct (recorded_cases p cache pr Hp) as [->|[_ ->]]; [rewrite Eu|rewrite El]; set_solver|].
    intros Hna. destruct (recorded_cases p cache pr Hp) as [Er|[-> _]]; [|done]. apply Forall_forall. intros d' Hd'.
    apply gauge_kept. rewrite Er, Eu. pose proof (dependency_names p cache pr) as Hnd. rewrite El in Hnd.
    change (before ++ (dep, false) :: after)%list with (before ++ [(dep, false)] ++ after)%list in Hnd. rewrite app_assoc, fmap_app in Hnd.
    apply NoDup_app in Hnd as (_ & Hdis & _). intros Hin. apply (Hdis _ Hin). by apply list_elem_of_fmap_2.
Qed.

(** The database of the tenant service is down: 503, and its gauge is 0; that of
    Redis still says up, although Redis is down as well. *)
Definition down_probes : probes := mkProbes false false true true.
Lemma readiness_truthful_witness :
  let '(_, (c', o')) :=
    readiness (process_ready PTenant true down_probes) (sample_request "/ready" EmptyString)
      (SetDependencyUp "tenant-service" "redis" true Registry_New) in
  fc_status c' = 503 ∧ ob_up o' !! ("tenant-service", "postgres")%string = Some 0 ∧
  ob_up o' !! ("tenant-service", "redis")%string = Some 1.
Proof.
  pose proof (readiness_truthful PTenant true down_probes (sample_request "/ready" EmptyString)
    (SetDependencyUp "tenant-service" "redis" true Registry_New) eq_refl) as Hr.
  destruct (readiness _ _ _) as [err [c' o']]. cbv zeta in Hr. destruct Hr as (_ & Hs & _ & Hset & Hkept & _).
  split; [exact Hs|]. split; [apply (Hset "postgres"%string false); left|].
  change ("tenant-service"%string) with (service_name PTenant). rewrite Hkept; [reflexivity|].
  apply (bool_decide_unpack _). vm_compute. exact I.
Defined.

(** ** A process that comes up *)

Definition good_env (k : string) : string :=
  if existsb (String.eqb k) ["INTERNAL_AUTH_TOKEN"; "PLATFORM_ADMIN_TOKEN"]%string then "s3cret-token"
  else if existsb (String.eqb k) ["DATABASE_URL"; "REDIS_URL"; "NATS_URL"]%string then "proto://user:pw@host"
  else EmptyString.
Definition good_machine : Machine :=
  mkMachine good_env (λ _, None) (λ _, None) String.eqb false (λ _ _ _, Ok tt) (λ _, true) (λ _, true) (λ _, true) true
    (λ _, true) true (λ _, true) true SignalReceived None (ServerClosed None) [WorkerDone; ConsumerDone].

(** With a sound environment every service listens, and a signal ends it in an
    orderly way. *)
Lemma all_come_up :
  Forall (λ p, let '(o, s) := main_of (H:=TestLib) p good_machine boot0 in
               o = Returned tt ∧ existsb is_listen (bt_trace s) = true)
    [PTenant; PAuth; PCustomer; PBarber; PCatalog; PScheduling; PAppointment; PNotification; PGateway].
Proof. repeat (apply Forall_cons; split); try apply Forall_nil_2; vm_compute; done. Qed.
