(* ===== verification/Delivery.v ===== *)
(** * Delivery: the way of an event from the outbox to a mailbox

    The relay of the appointment service, the stream, the consumer and the
    worker of the notification service connected; the consumer asks the handler
    of the appointment service for the recipient. *)
From S2P Require Import Links.
From S2P Require Import Prelude Effects GoTime Http Platform AppointmentRepo Outbox AppointmentApp AppointmentSystem Notification Daemons.
Local Open Scope Z_scope.

(** ** Asking for the recipient *)

Section Recipient.
Context `{GoLib, !GoLibLaws}.

(** The route of the appointment service the recipient client calls. *)
Definition ask_recipient (h : AppointmentApp.Handler) : list fault -> db -> Outgoing -> exchange string :=
  ask ["internal"; "v1"; "appointments"; ":id"; "notification-recipient"]%string
    (AppointmentApp.notificationRecipient h) Some.

(** An address as bookings store it. *)
Definition mailable (contact : string) : Prop :=
  ToLower (TrimSpace contact) = contact ∧ ParseAddress contact = Some contact ∧ Contains contact "@" = true.

(** Reading without failures uses up no fault. *)
Lemma run_det {D E A} `{!FromPg E} (m : IO D E A) d : det m → m [] d = ((run m d).1, ([], (run m d).2)).
Proof. intros [Hq _]. specialize (Hq d). unfold run. destruct (m [] d) as [r [fs d']]. cbn in *. by subst. Qed.

Lemma run_Get d a :
  db_ok d → a ∈ appointments d → run (Repository_Get (ap_tenant a) (ap_id a)) d = (Ok (scan a), d).
Proof.
  intros Hd Ha. unfold Repository_Get. rewrite run_tx by solve_det. rewrite run_bind by auto with barber.
  by rewrite or_not_found_found.
Qed.

Lemma recipient_query d a :
  db_ok d → a ∈ appointments d → mailable (ap_customer_contact a) →
  (QueryService_NotificationRecipient (ap_tenant a) (ap_id a) [] d).1 = Ok (ap_customer_contact a).
Proof.
  intros Hd Ha (Hn & Hp & _). unfold QueryService_NotificationRecipient, QueryService_Get, repo. rewrite bind_eq, attempt_bind.
  rewrite (run_det _ d (det_Get _ _)), (run_Get d a Hd Ha). cbn -[TrimSpace]. by rewrite Hn, Hp, bool_decide_refl.
Qed.

Lemma trusted_received h path token t params :
  Verify (h_verify h) token = true →
  trusted h (received (mkOutgoing path [] token (uuid_String t) "booking" EmptyString EmptyString) params) "booking"
  = Some (mkTenantContext t "booking" EmptyString).
Proof.
  intros Hv. pose proof (adminauth_received (h_verify h) path token (mkTenantContext t "booking" EmptyString) params Hv
    (or_introl eq_refl)) as E. unfold trusted. unfold outgoing in E. cbn [TenantID AppType RequestID_] in E. rewrite E. done.
Qed.

Lemma recipient_of h token d a :
  db_ok d → a ∈ appointments d → Verify (h_verify h) token = true → mailable (ap_customer_contact a) →
  RecipientClient_Email token (ask_recipient h [] d) (ap_tenant a) (ap_id a) = Ok (ap_customer_contact a).
Proof.
  intros Hd Ha Hv Hm. pose proof Hm as (Hn & _ & Hat). unfold RecipientClient_Email, ask_recipient, ask. cbn [match_path out_path].
  rewrite !bool_decide_refl. cbn [fmap option_fmap option_map].
  unfold notificationRecipient. rewrite trusted_received by done. cbn [Params received param TenantID].
  rewrite bool_decide_refl, uuid_Parse_String, attempt_bind, (recipient_query d a Hd Ha Hm).
  cbn -[TrimSpace Contains]. by rewrite Hn, Hat.
Qed.
End Recipient.

(** ** Publishing *)

Lemma tick_stream now b w r :
  IsConnected b = true → StreamInfo_ok b || AddStream_ok b = true →
  r ∈ take 50 (order_by ob_created (sel (claimable now) (outbox w))) →
  message (event_of r) ∈ w_stream (tick now false b [] w).2.2.
Proof.
  intros Hb Hs Hr. rewrite (tick_run now b w Hb Hs). set (w1 := mkWorld _ _ _).
  assert (message (event_of r) ∈ w_stream w1) as Hm.
  { apply elem_of_app. right. rewrite map_map.
    apply list_elem_of_In, (in_map (λ x, message (event_of x))), list_elem_of_In, Hr. }
  unfold cleanupRetention. rewrite get_world_bind. cbn zeta. destruct (negb _ && _); [done|].
  rewrite attempt_bind. cbn -[cleanup_published_outbox_events cleanup_expired_idempotency_keys]. done.
Qed.

(** ** Mailing *)

(** The message [Once] hands to the sender. *)
Definition worker_mail `{GoLib} (item : Notification) : Message :=
  mkMessage (N_Email item) ("Appointment update: " +:+ N_Type item)
    ("There is an update to your appointment: " +:+ N_Type item +:+ ".") (N_Template item) (uuid_String (N_ID item)).
(** What it makes of the answer; the send timed out when [late]. *)
Definition worker_send `{GoLib} (s : sender) (late : bool) (ok : smtp_command -> bool) (item : Notification) : send_outcome :=
  outcome_of late (Send s false ok (worker_mail item)).

Section Pipeline.
Context `{GoLib, !GoLibLaws, !ReminderIds}.
Context (getenv : string -> string) (h : AppointmentApp.Handler) (token : string).
Context (offs : list duration) (w' : world).

(** The consumer of production, its resolver connected to the service. *)
Definition connected_consumer : Consumer :=
  NewConsumer getenv (λ _, Ok offs) (Some (RecipientClient_Email token (ask_recipient h [] (w_db w')))).

Definition event_envelope (r : outbox_row) : Envelope := decode (Msg_Data (message (event_of r))).

(** What the consumer needs of an event. *)
Record announces (r : outbox_row) (tmpl : string) : Prop := mkAnnounces {
  an_ids : well_formed (event_envelope r) = true;
  an_start : IsZero (EventPayload_StartAt (ob_payload r)) = false;
  an_tmpl : templates_of getenv (ob_type r) = Some tmpl;
  an_kind : mapType (ob_type r) ∈ note_types;
  an_text : text_ok tmpl && text_ok (value getenv "EMAIL_TEMPLATE_LANGUAGE" "en") = true;
  an_text' : text_ok (value getenv "EMAIL_TEMPLATE_APPOINTMENT_REMINDER" "appointment_reminder") = true
}.

Lemma connected_handleable r tmpl a :
  db_ok (w_db w') → a ∈ appointments (w_db w') → ap_tenant a = ob_tenant r → ap_id a = ob_aggregate r →
  Verify (h_verify h) token = true → mailable (ap_customer_contact a) → text_ok (ap_customer_contact a) = true →
  announces r tmpl →
  Handleable connected_consumer (event_envelope r) (ap_customer_contact a) tmpl offs.
Proof.
  intros Hd Ha Ht Hi Hv Hm Hx [Hids Hst Htm Hk Htx Htx']. bsimpl.
  assert (ap_customer_contact a ≠ EmptyString) as Hne by (intros E; destruct Hm as (_ & _ & Hc); by rewrite E in Hc).
  constructor; try done.
  - eexists. split; [done|]. cbn. rewrite <- Ht, <- Hi. by apply recipient_of.
  - split_and!; [done| |done]. cbn. by bsimpl.
  - split_and!; [done| |apply list_elem_of_In; cbn; tauto]. cbn -[text_ok]. by bsimpl.
Qed.

(** After the message is handled the notification waits in the table. *)
Lemma handled_waits r tmpl a gen g now text k n held :
  Handleable connected_consumer (event_envelope r) (ap_customer_contact a) tmpl offs →
  note_ok held n → fresh_ids gen 0 n → ¬ has_key (ob_tenant r) (ob_id r) (mapType (ob_type r)) n →
  let o := run (consume connected_consumer gen g now text (Some k) (Some (event_envelope r))) n in
  o.1 = Ok Ack ∧ note_ok held o.2 ∧
  planned_row (gen 0%nat) (ob_tenant r) (event_envelope r) (mapType (ob_type r)) (ap_customer_contact a) tmpl
    (value getenv "EMAIL_TEMPLATE_LANGUAGE" "en") now ∈ o.2.
Proof.
  intros Hh Hn Hf Hnew.
  destruct (run_handle_rows _ _ _ _ _ Hh gen now n Hf) as (rows & Hrun & _).
  assert (note_ok held (run (consume connected_consumer gen g now text (Some k) (Some (event_envelope r))) n).2) as Hok.
  { pose proof (step_in_run _ _ n (good_consume held connected_consumer gen g now text (Some k) (Some (event_envelope r)))) as Hg.
    by apply Hg. }
  revert Hok. unfold consume. rewrite run_attempt_bind by apply quiet_handle. rewrite Hrun. cbn [fst snd]. rewrite run_ret.
  cbn [fst snd]. intros Hok. split_and!; [done|done|]. apply elem_of_app. left. unfold after_head. cbv zeta.
  destruct (existsb _ n) eqn:E.
  { exfalso. apply Hnew. by apply has_key_existsb. }
  destruct (moves _) eqn:Em; [|apply elem_of_app; right; by apply list_elem_of_singleton].
  apply elem_of_upd. eexists. split; [apply elem_of_app; right; by apply list_elem_of_singleton|].
  assert (mapType (ob_type r) ≠ "appointment_reminder"%string) as Hk.
  { unfold moves in Em. cbn in Em. apply orb_true_iff in Em as [Em|Em]; bsimpl; by rewrite Em. }
  unfold pending_reminder. cbn. rewrite (bool_decide_false _ Hk). by rewrite ?andb_false_r.
Qed.
End Pipeline.

(** The worker settles what is due, when at most fifty are. *)
Lemma waiting_sent `{GoLib} held n x now dbnow tok send :
  note_ok held n → (∀ y, y ∈ n → sendable (send (claimed_item tok y))) →
  x ∈ n → due dbnow None x = true → (length (sel (due dbnow None) n) <= 50)%nat →
  (∃ id, send (claimed_item tok x) = Sent id) →
  ∃ y, y ∈ (run (Worker_Once now dbnow tok (λ _, false) send) n).2 ∧
    note_key y = note_key x ∧ en_email y = en_email x ∧ en_status y = "sent"%string.
Proof.
  intros Hn Hs Hx Hdue Hlen [id Hid]. destruct (Once_settles held now dbnow tok send n Hn Hs) as (f & Hrun & Hf).
  set (claimed := take 50 _) in *.
  assert (x ∈ claimed) as Hc.
  { unfold claimed. rewrite firstn_all2.
    - apply elem_of_order_by. by apply elem_of_sel.
    - by rewrite (Permutation_length (order_by_perm _ _)). }
  destruct (Hf x Hc) as ([_ Hk Hcon _] & _ & _ & _ & Hst). rewrite Hid in Hst. exists (f x). rewrite Hrun. cbn [snd].
  split_and!; [|by rewrite Hk|by injection Hcon|apply Hst].
  apply list_elem_of_In, in_map_iff. exists x. split; [|by apply list_elem_of_In].
  rewrite bool_decide_true; [done|]. by apply list_elem_of_In, in_map, list_elem_of_In.
Qed.


(** ** A booking that is mailed *)

#[local] Instance delivery_lib : GoLib := TestLib.
#[local] Instance delivery_lib_laws : GoLibLaws := TestLib_laws.
#[local] Instance delivery_ids : ReminderIds := mkReminderIds (λ u _, (u + 1000)%N) (λ _, "24h0m0s"%string).

Definition delivery_handler : AppointmentApp.Handler :=
  mkHandler (mkDependencies (λ _ _ _, Err DepFailed) (λ _ _, Err DepFailed) (λ _ _ _, Err DepFailed) (λ _, Err DepFailed)
               (λ _ _ _, Err DepFailed) (λ _ _, Err DepFailed))
    (NewMultiTokenVerifier ["secret"%string]) (λ _ _, None).
Definition delivery_env (k : string) : string := EmptyString.
Definition delivery_gen (i : nat) : NGen := mkNGen (N.of_nat i) (60 * Hour).

Lemma digits_text u : text_ok (digits_of u) = true.
Proof.
  assert (∀ p, text_ok (pos_digits p) = true) as Hp by (induction p as [p IH|p IH|]; cbn; done).
  destruct u as [|p]; [done|apply Hp].
Qed.

