(* ===== verification/HealthPage.v ===== *)
(** * HealthPage: what the platform health page of the gateway shows

    The theorems on platformHealth and metricTotals of
    gateway-service/internal/handler/http.go, which [Gateway] defines: the page
    asks every service whether it is ready and sums up the failure indicators in
    the metrics of two of them. *)
From S2P Require Import Prelude GoTime Http Platform Gateway Tenant.
Local Open Scope list_scope.

(** ** Reading what a service exposes *)

(** A character that is neither white space nor part of a multi-byte one. *)
Definition graphic (c : ascii) : bool := ((33 <=? byte_of c) && (byte_of c <=? 126))%Z.
Fixpoint word (s : string) : bool :=
  match s with EmptyString => true | String c s' => graphic c && word s' end.

(** A sample of the exposition format, and the other lines. *)
Record sample := mkSample { sm_name : string; sm_labels : string; sm_value : string }.
Inductive exposed := Comment (text : string) | Sample (s : sample).

Definition line_text (e : exposed) : string :=
  match e with
  | Comment text => "#" +:+ text
  | Sample s => sm_name s +:+ sm_labels s +:+ " " +:+ sm_value s
  end.
(** A page of metrics: every line ends with a newline. *)
Definition exposition (l : list exposed) : string :=
  foldr (λ e s, line_text e +:+ String "010" s) EmptyString l.

Definition exposed_ok (e : exposed) : Prop :=
  match e with
  | Comment text => has_char "010" text = false
  | Sample s =>
      word (sm_name s) = true ∧ word (sm_labels s) = true ∧ word (sm_value s) = true ∧
      sm_name s ≠ EmptyString ∧ sm_value s ≠ EmptyString ∧ has_char "{" (sm_name s) = false ∧
      HasPrefix (sm_name s) "#" = false ∧ (sm_labels s = EmptyString ∨ ∃ rest, sm_labels s = String "{" rest)
  end.

Lemma split_line l rest : has_char "010" l = false → Split "010" (l +:+ String "010" rest) = l :: Split "010" rest.
Proof.
  induction l as [|c l IH]; cbn; intros Hl; [done|]. apply orb_false_iff in Hl as [Hc Hl].
  change (Split "010" (String c (l +:+ String "010" rest)) = String c l :: Split "010" rest).
  cbn [Split]. rewrite Hc. by rewrite IH.
Qed.

Lemma word_no_newline s : word s = true → has_char "010" s = false.
Proof.
  induction s as [|c s IH]; cbn; [done|]. intros Hw. apply andb_true_iff in Hw as [Hc Hw]. rewrite (IH Hw), orb_false_r.
  apply bool_decide_eq_false. intros ->. by vm_compute in Hc.
Qed.

Lemma graphic_space c l : graphic c = true → space_len (map byte_of (c :: l)) = 0%nat.
Proof.
  unfold graphic. intros Hg. cbn [map]. set (x := byte_of c) in *.
  assert (33 <= x <= 126)%Z as Hx by lia. unfold space_len.
  assert (∀ k, ¬ (33 <= k <= 126) → (x =? k) = false)%Z as Hne by (intros k Hk; apply Z.eqb_neq; lia).
  replace (((9 <=? x) && (x <=? 13)) || (x =? 32))%Z with false by (symmetry; lia).
  rewrite !Hne by lia. by destruct (map byte_of l) as [|b1 [|b2 l']].
Qed.

(** A word is read as one field. *)
Lemma fields_word w l fuel cur :
  word w = true → (String.length w <= fuel)%nat →
  fields_loop fuel (list_ascii_of_string w ++ l) cur
  = fields_loop (fuel - String.length w) l (cur ++ list_ascii_of_string w).
Proof.
  revert fuel cur. induction w as [|c w IH]; intros fuel cur Hw Hf; cbn in *.
  { by rewrite Nat.sub_0_r, app_nil_r. }
  apply andb_true_iff in Hw as [Hc Hw]. destruct fuel as [|fuel]; [lia|]. cbn [fields_loop].
  rewrite (graphic_space c) by done. rewrite (IH fuel) by (done || lia). by rewrite <- app_assoc.
Qed.

Lemma list_ascii_app a b : list_ascii_of_string (a +:+ b) = list_ascii_of_string a ++ list_ascii_of_string b.
Proof. induction a as [|c a IH]; [done|]. change (String c a +:+ b) with (String c (a +:+ b)). cbn. by rewrite IH. Qed.

Lemma length_list_ascii s : length (list_ascii_of_string s) = String.length s.
Proof. induction s as [|c s IH]; cbn; congruence. Qed.

Lemma fields_blank fuel l cur :
  cur ≠ [] → fields_loop (S fuel) (" "%char :: l) cur = string_of_list_ascii cur :: fields_loop fuel l [].
Proof. by destruct cur. Qed.

Lemma Fields_two a b :
  word a = true → word b = true → a ≠ EmptyString → b ≠ EmptyString → Fields (a +:+ " " +:+ b) = [a; b].
Proof.
  intros Ha Hb Hna Hnb. unfold Fields. rewrite !list_ascii_app.
  change (list_ascii_of_string " ") with [" "%char]. cbn [app].
  rewrite length_app. cbn [length]. rewrite !length_list_ascii.
  rewrite fields_word by (done || lia). cbn [app].
  replace (S (String.length a + S (String.length b)) - String.length a)%nat with (S (S (String.length b))) by lia.
  rewrite fields_blank by (by destruct a). rewrite string_of_list_ascii_of_string. f_equal.
  rewrite <- (app_nil_r (list_ascii_of_string b)), fields_word by (done || lia).
  replace (S (String.length b) - String.length b)%nat with 1%nat by lia. cbn [fields_loop app].
  destruct b as [|cb b]; [done|]. rewrite <- (string_of_list_ascii_of_string (String cb b)) at 2. done.
Qed.

Lemma before_brace_name name labels :
  has_char "{" name = false → labels = EmptyString ∨ (∃ rest, labels = String "{" rest) →
  before_brace (name +:+ labels) = name.
Proof.
  intros Hn Hl. induction name as [|c name IH]; cbn in *.
  - by destruct Hl as [->|[rest ->]].
  - apply orb_false_iff in Hn as [Hc Hn]. change (String c name +:+ labels) with (String c (name +:+ labels)).
    cbn [before_brace]. rewrite Hc. by rewrite IH.
Qed.

Lemma starts_with_hash c a b : HasPrefix (String c a) "#" = HasPrefix (String c b) "#".
Proof. unfold String.prefix. by destruct (ascii_dec _ _), a, b. Qed.

Lemma word_app a b : word (a +:+ b) = word a && word b.
Proof.
  induction a as [|c a IH]; [done|]. change (graphic c && word (a +:+ b) = graphic c && word a && word b).
  by rewrite IH, andb_assoc.
Qed.

Lemma foldl_same {A B} (f g : A -> B -> A) l a : (∀ a b, f a b = g a b) → foldl f a l = foldl g a l.
Proof. intros E. revert a. induction l as [|b l IH]; intros a; cbn; [done|]. by rewrite E, IH. Qed.

Section Exact.
Context {F : Type} (fzero : F) (fadd : F -> F -> F) (ParseFloat : string -> option F).

(** What a line adds to a metric. *)
Definition contribution (name : string) (e : exposed) : option F :=
  match e with
  | Comment _ => None
  | Sample s => if sm_name s ==? name then ParseFloat (sm_value s) else None
  end.
(** The total of a metric: [None] when no line adds to it. *)
Definition total_of (name : string) (l : list exposed) : option F :=
  foldl (λ acc e, match contribution name e with Some v => Some (fadd (default fzero acc) v) | None => acc end) None l.

Lemma total_line_comment names text m : total_line fzero fadd ParseFloat names (line_text (Comment text)) m = m.
Proof. unfold total_line. cbn [line_text]. rewrite orb_comm. by destruct text. Qed.

Lemma total_line_sample names s m :
  exposed_ok (Sample s) →
  total_line fzero fadd ParseFloat names (line_text (Sample s)) m
  = foldl (λ m name, match contribution name (Sample s) with Some v => add_to fzero fadd name v m | None => m end) m names.
Proof.
  intros (Hn & Hl & Hv & Hne & Hve & Hb & Hh & Hlab). unfold total_line. cbn [line_text].
  assert (HasPrefix (sm_name s +:+ sm_labels s +:+ " " +:+ sm_value s) "#" = false) as ->.
  { destruct (sm_name s) as [|c n]; [done|]. etrans; [|exact Hh]. apply (starts_with_hash c _ n). }
  rewrite bool_decide_eq_false_2 by (by destruct (sm_name s)). cbn [orb].
  rewrite <- string_app_assoc. rewrite Fields_two; [|by rewrite word_app, Hn, Hl|done| |done]; [|by destruct (sm_name s)].
  rewrite before_brace_name by done. apply foldl_same. intros m' name. cbn [contribution]. by destruct (_ ==? _).
Qed.

(** Adding one line to the metrics of interest. *)
Lemma add_names_lookup e name names m :
  NoDup names →
  foldl (λ m name, match contribution name e with Some v => add_to fzero fadd name v m | None => m end) m names !! name
  = match (if bool_decide (name ∈ names) then contribution name e else None) with
    | Some v => Some (fadd (default fzero (m !! name)) v)
    | None => m !! name
    end.
Proof.
  intros Hnd. revert m. induction Hnd as [|n names Hn Hnd IH]; intros m; [done|]. cbn [foldl]. rewrite IH.
  destruct (decide (n = name)) as [->|Hne].
  - rewrite (bool_decide_eq_false_2 (name ∈ names)), (bool_decide_eq_true_2 (name ∈ name :: names)) by (set_solver || done).
    destruct (contribution name e); [unfold add_to; by rewrite lookup_insert_eq|done].
  - rewrite (bool_decide_ext (name ∈ n :: names) (name ∈ names)) by set_solver.
    destruct (contribution n e); [|done]. unfold add_to. by rewrite lookup_insert_ne.
Qed.

Lemma exposed_one_line e : exposed_ok e → has_char "010" (line_text e) = false.
Proof.
  destruct e as [text|s]; cbn [line_text]; [done|]. intros (Hn & Hl & Hv & _).
  by rewrite !has_char_app, (word_no_newline _ Hn), (word_no_newline _ Hl), (word_no_newline _ Hv).
Qed.

Lemma totals_loop names l name m :
  NoDup names → Forall exposed_ok l →
  foldl (λ m line, total_line fzero fadd ParseFloat names line m) m (Split "010" (exposition l)) !! name
  = if bool_decide (name ∈ names)
    then foldl (λ acc e, match contribution name e with Some v => Some (fadd (default fzero acc) v) | None => acc end)
           (m !! name) l
    else m !! name.
Proof.
  intros Hnd Hl. revert m. induction Hl as [|e l He Hl IH]; intros m.
  { cbn. by destruct (bool_decide _). }
  change (exposition (e :: l)) with (line_text e +:+ String "010" (exposition l)).
  rewrite split_line by by apply exposed_one_line. cbn [foldl]. rewrite IH. clear IH. destruct e as [text|s].
  - by rewrite total_line_comment.
  - rewrite total_line_sample, add_names_lookup by done.
    destruct (bool_decide (name ∈ names)); [|done]. by destruct (contribution _ _).
Qed.

(** the failure indicators are exact: from the metrics a service exposes,
    comments and samples with or without labels, metricTotals gives for every
    requested name the sum, in order, of the values of its samples that parse,
    has no entry for a name without such a sample, and none for a name that was
    not requested. *)
Theorem metric_totals_exact names l :
  NoDup names → Forall exposed_ok l →
  ∀ name, metricTotals fzero fadd ParseFloat (exposition l) names !! name
          = if bool_decide (name ∈ names) then total_of name l else None.
Proof. intros Hnd Hl name. unfold metricTotals. by rewrite totals_loop. Qed.
End Exact.

(** Digits as numbers, for an example. *)
Definition parse_digit (s : string) : option Z :=
  match s with
  | String c EmptyString => if ((48 <=? byte_of c) && (byte_of c <=? 57))%Z then Some (byte_of c - 48)%Z else None
  | _ => None
  end.
Definition example_metrics : list exposed :=
  [Comment " HELP outbox_backlog events"; Sample (mkSample "outbox_backlog" EmptyString "3");
   Sample (mkSample "outbox_terminal_total" "{reason=max}" "2"); Sample (mkSample "outbox_terminal_total" "{reason=age}" "4");
   Sample (mkSample "outbox_terminal" EmptyString "9"); Sample (mkSample "notification_failed_total" EmptyString "NaN")].

Lemma metric_totals_exact_witness :
  metricTotals 0%Z Z.add parse_digit (exposition example_metrics) indicator_names !! "outbox_terminal_total"%string = Some 6%Z.
Proof.
  rewrite (metric_totals_exact 0%Z Z.add parse_digit); [reflexivity| |].
  - apply (bool_decide_unpack _). vm_compute. exact I.
  - unfold example_metrics, exposed_ok. repeat apply Forall_cons_2; cbn; repeat split; try discriminate; eauto using Forall_nil_2.
Defined.

(** ** The page for any order of the services *)

(** Every order of a map is one the runtime can choose. *)
Lemma walk_any {A} (l l' : list A) : l ≡ₚ l' → ∃ choices, walk choices l = l'.
Proof.
  revert l'. induction l as [|x l IH]; intros l' Hp.
  { exists []. by apply Permutation_nil_l in Hp. }
  assert (x ∈ l') as (a & b & ->)%list_elem_of_split by (rewrite <- Hp; left).
  rewrite <- Permutation_middle in Hp. apply (inj (cons x)) in Hp as (choices & E)%IH.
  exists (length a :: choices). cbn. rewrite E. clear. induction a as [|y a IH]; [done|]. cbn. by rewrite IH.
Qed.

Section Served.
Context `{GoLib, GatewayLib} (reply : UpRequest -> up_result) (h : Handler).

Definition bare_get (url : string) : UpRequest := mkUpRequest "GET" url None None [] EmptyString.
Definition has_indicators (name : string) : bool := (name ==? "appointment"%string) || (name ==? "notification"%string).

(** What the page says of a service. *)
Definition entry_of (name base : string) : health_entry Float :=
  mkHealthEntry (answered_200 (reply (bare_get (base +:+ "/ready"))))
    (let metrics := bare_get (base +:+ "/metrics") in
     match has_indicators name, reply metrics with
     | true, UpReply _ _ _ body =>
         Some (metricTotals Float_zero Float_add ParseFloat (default (read_until metrics) body) indicator_names)
     | _, _ => None
     end).
(** The requests it takes. *)
Definition asked (p : string * string) : list UpRequest :=
  bare_get (p.2 +:+ "/ready") :: (if has_indicators p.1 then [bare_get (p.2 +:+ "/metrics")] else []).
Definition page_of (order : list (string * string)) : list (string * health_entry Float) :=
  map (λ p, (p.1, entry_of p.1 p.2)) order.

(** The URLs of a service parse. *)
Definition asks_ok (p : string * string) : Prop := Forall (λ u, NewRequest_ok "GET" (up_url u) = true) (asked p).

Lemma probe_answer name base log :
  asks_ok (name, base) →
  probe (λ _, reply) name base log = (Some (entry_of name base), log ++ asked (name, base)).
Proof.
  unfold asks_ok, probe, NewRequest, entry_of, asked, has_indicators, mbind, gw_bind, Do. cbn [fst snd up_url bare_get].
  intros [Hr Hm]%Forall_cons. cbn [up_url bare_get] in Hr. rewrite Hr. destruct (_ || _); cbn; [|done].
  apply Forall_cons in Hm as [Hm _]. cbn [up_url bare_get] in Hm. rewrite Hm, <- app_assoc.
  fold (bare_get (base +:+ "/metrics")). by destruct (reply (bare_get (base +:+ "/metrics"))).
Qed.

Definition page_reply_of (page : gmap string (health_entry Float)) : gw_reply :=
  match health_json page with Some body => GJSON 200 body | None => GStatus 500 end.

Lemma probe_all_answer order page log :
  Forall asks_ok order →
  probe_all (λ _, reply) order page log
  = (page_reply_of (foldl (λ m e, <[e.1 := e.2]> m) page (page_of order)), log ++ concat (map asked order)).
Proof.
  intros Hok. revert page log. induction Hok as [|[name base] order Hp Hok IH]; intros page log;
    cbn [probe_all page_of map foldl concat].
  { by rewrite app_nil_r. }
  unfold mbind, gw_bind. rewrite probe_answer, IH by done. cbn [fst snd]. by rewrite app_assoc.
Qed.

(** Inserting distinct keys one after another is the map of the list. *)
Lemma page_map (l : list (string * health_entry Float)) :
  NoDup l.*1 → foldl (λ m e, <[e.1 := e.2]> m) ∅ l = (list_to_map l : gmap string (health_entry Float)).
Proof.
  intros Hnd. enough (∀ m : gmap string (health_entry Float), foldl (λ m e, <[e.1 := e.2]> m) m l = list_to_map l ∪ m) as Hm
    by (by rewrite Hm, (right_id_L ∅ (∪))).
  induction l as [|[k v] l IH]; intros m; cbn [foldl]; [symmetry; apply (left_id_L ∅ (∪))|].
  cbn in Hnd. apply NoDup_cons in Hnd as [Hk Hnd]. rewrite (IH Hnd). cbn [fst snd list_to_map].
  change (list_to_map ((k, v) :: l)) with (<[k := v]> (list_to_map l : gmap string (health_entry Float))).
  rewrite <- insert_union_r by (by apply not_elem_of_list_to_map_1). apply insert_union_l.
Qed.

(** the health page is complete and independent of the order in which Go
    walks the map of the services: without the platform token no request is
    sent; with it, when the URLs of the services parse, the page has one entry
    for each of the eight services (whether /ready answered 200, so an
    unreachable service never hides the others; and the totals of /metrics for
    the appointment and the notification service), and the requests sent are, up
    to order, exactly the ten bare GETs that need no credential.  A total that
    JSON cannot express makes the whole page a 500. *)
Theorem health_page_exact c log :
  Forall asks_ok (services h) →
  let token_ok := PlatformVerifier_Verify (h_platformAuth h) (Ctx_Get c PlatformTokenHeader) in
  let '(page, sent) := Gateway.serve (λ _, reply) h PlatformHealth c log in
  (token_ok = false → page = GStatus 401 ∧ sent = log) ∧
  (token_ok = true →
     page = page_reply_of (list_to_map (page_of (services h))) ∧
     ∃ asked_now, sent = log ++ asked_now ∧ asked_now ≡ₚ concat (map asked (services h)) ∧
       length asked_now = 10%nat ∧ Forall (λ u, up_method u = "GET"%string ∧ up_header u = [] ∧ up_body u = EmptyString) asked_now).
Proof.
  intros Hok. cbv zeta. cbn [Gateway.serve]. unfold platformHealth. destruct (PlatformVerifier_Verify _ _) eqn:E; cbn [negb].
  2: by split.
  set (order := walk (map_choices log) (services h)). pose proof (walk_perm (map_choices log) (services h)) as Hord.
  fold order in Hord. rewrite probe_all_answer by (by rewrite Hord). split; [done|]. intros _. split.
  - assert (page_of order ≡ₚ page_of (services h)) as Hp by (unfold page_of; by rewrite Hord).
    assert (NoDup (page_of (services h)).*1) as Hnd by (apply (bool_decide_unpack _); vm_compute; exact I).
    assert (NoDup (page_of order).*1) as Hnd' by (by rewrite Hp).
    rewrite page_map by done. f_equal. by apply list_to_map_proper.
  - exists (concat (map asked order)). assert (concat (map asked order) ≡ₚ concat (map asked (services h))) as Hp
      by (by rewrite Hord).
    split_and!; [done|done|by rewrite Hp|]. rewrite Hp. cbn. by repeat constructor.
Qed.
End Served.

Section PageExample.
#[local] Instance page_lib : GoLib := TestLib.
(** A page is written as the names of the services that are ready. *)
#[local] Instance page_gateway_lib : GatewayLib :=
  mkGatewayLib (λ s, s) (λ _ _, true) (λ _, None) (λ _, None) Z 0%Z Z.add parse_digit
    (λ page, Some (Join " " (map fst (List.filter (λ e, he_ready e.2) (map_to_list page))))) (λ _, EmptyString) (λ _, [7; 1; 2; 0]%nat).

Definition page_handler : Handler :=
  New (NewResolver "http://tenant" "token") "http://tenant" "http://auth" "http://barber" "http://catalog"
    "http://scheduling" "http://appointment" "http://notification" "http://customer" "token" "platform" 0 [].
(** Only the appointment service and the customer service are up. *)
Definition page_reply (u : UpRequest) : up_result :=
  if HasPrefix (up_url u) "http://appointment" || HasPrefix (up_url u) "http://customer"
  then UpReply 200 (λ _, EmptyString) [] (Some (exposition example_metrics)) else UpErr false.
Definition page_ctx (token : string) : Ctx :=
  mkCtx "GET" "platform.example" EmptyString EmptyString EmptyString EmptyString None
    (λ k, if k ==? PlatformTokenHeader then token else EmptyString) (λ _, EmptyString) (λ _, EmptyString).

Lemma health_page_exact_witness :
  ∃ body, (Gateway.serve (λ _, page_reply) page_handler PlatformHealth (page_ctx "platform") []).1 = GJSON 200 body ∧
    body ∈ ["appointment customer"; "customer appointment"]%string.
Proof.
  pose proof (health_page_exact page_reply page_handler (page_ctx "platform") []) as Hp.
  cbv zeta in Hp. destruct (Gateway.serve _ _ _ _ _) as [page sent].
  destruct Hp as [_ Hp]; [by repeat constructor|]. destruct Hp as [-> _]; [reflexivity|]. eexists. split; [reflexivity|].
  apply (bool_decide_unpack _). vm_compute. exact I.
Defined.
End PageExample.
