(* ===== verification/Counters.v ===== *)
(** * Counters: the metrics of the notification service

    The consumer and the worker count what they do once
    [WithObservability] has registered their counters ([newMetrics] of
    [internal/consumer] and [internal/worker]).  The operations of
    [Notification] are given here with their counters: the state is the table
    and the counters, which are [None] while none are registered.  Erasing the
    counters gives the operations of [Notification]; the counters tell what
    happened to the table. *)
From S2P Require Import Prelude Effects GoTime Http Platform AppointmentRepo Outbox Notification.
Local Open Scope Z_scope.

(** ** Counters *)

(** A counter with a label, and its increment. *)
Abbreviation CounterVec := (string -> Z).
Definition Inc (label : string) (v : CounterVec) : CounterVec := λ l, if l ==? label then v l + 1 else v l.

Record consumer_metrics := mkConsumerMetrics { cm_planned : CounterVec; cm_redelivered : Z; cm_terminal : Z }.
Definition consumer_newMetrics : consumer_metrics := mkConsumerMetrics (λ _, 0) 0 0.
Definition consumer_WithObservability (_ : option consumer_metrics) : option consumer_metrics := Some consumer_newMetrics.
Definition inc_planned (kind : string) (m : consumer_metrics) : consumer_metrics :=
  mkConsumerMetrics (Inc kind (cm_planned m)) (cm_redelivered m) (cm_terminal m).
Definition inc_redelivered (m : consumer_metrics) : consumer_metrics :=
  mkConsumerMetrics (cm_planned m) (cm_redelivered m + 1) (cm_terminal m).
Definition inc_terminal (m : consumer_metrics) : consumer_metrics :=
  mkConsumerMetrics (cm_planned m) (cm_redelivered m) (cm_terminal m + 1).

Record worker_metrics := mkWorkerMetrics {
  wm_sent : CounterVec; wm_failed : CounterVec; wm_retried : CounterVec; wm_claimRecovered : Z
}.
Definition worker_newMetrics : worker_metrics := mkWorkerMetrics (λ _, 0) (λ _, 0) (λ _, 0) 0.
Definition worker_WithObservability (_ : option worker_metrics) : option worker_metrics := Some worker_newMetrics.
Definition inc_sent (kind : string) (m : worker_metrics) : worker_metrics :=
  mkWorkerMetrics (Inc kind (wm_sent m)) (wm_failed m) (wm_retried m) (wm_claimRecovered m).
Definition inc_failed (kind : string) (m : worker_metrics) : worker_metrics :=
  mkWorkerMetrics (wm_sent m) (Inc kind (wm_failed m)) (wm_retried m) (wm_claimRecovered m).
Definition inc_retried (kind : string) (m : worker_metrics) : worker_metrics :=
  mkWorkerMetrics (wm_sent m) (wm_failed m) (Inc kind (wm_retried m)) (wm_claimRecovered m).
Definition inc_recovered (m : worker_metrics) : worker_metrics :=
  mkWorkerMetrics (wm_sent m) (wm_failed m) (wm_retried m) (wm_claimRecovered m + 1).

(** ** Operations that count *)

Abbreviation Counting M := (IO (ndb * option M) note_error).

(** An operation on the table. *)
Definition on_table {M A} (m : NM A) : Counting M A :=
  λ fs s, let '(r, (fs', d')) := m fs s.1 in (r, (fs', (d', s.2))).

(** [if metrics != nil { ...Inc() }] *)
Definition counting {M} (inc : M -> M) : Counting M unit := λ fs s, (Ok tt, (fs, (s.1, inc <$> s.2))).
Definition counting_if {M} (b : bool) (inc : M -> M) : Counting M unit := if b then counting inc else mret tt.

Section ConsumerCounts.
Context `{ReminderIds} (c : Consumer).
Abbreviation CM := (Counting consumer_metrics).

(** [c.r.Plan] and the counter behind it. *)
Definition plan_counted (g : NGen) (tenant : uuid) (e : Envelope) (kind recipient tmpl language : string)
    (scheduled : time) : CM unit :=
  created ← on_table (NRepository_Plan g tenant e kind recipient tmpl language scheduled);
  counting_if created (inc_planned kind).

Fixpoint plan_reminders_counted (gen : nat -> NGen) (n : nat) (now : time) (e : Envelope)
    (recipient : string) (offsets : list duration) : CM unit :=
  match offsets with
  | [] => mret tt
  | off :: rest =>
      let scheduledAt := Add (Env_StartAt e) (int64 (- off)) in
      if negb (After scheduledAt now) then plan_reminders_counted gen (S n) now e recipient rest
      else
        plan_counted (gen n) (Env_TenantID e) (set_EventID (NewSHA1 (Env_EventID e) (Duration_String off)) e)
          "appointment_reminder" recipient
          (default EmptyString (c_templates c "appointment.reminder_due"%string)) (c_language c) scheduledAt ;;
        plan_reminders_counted gen (S n) now e recipient rest
  end.

Definition handle_counted (gen : nat -> NGen) (now : time) (data : option Envelope) : CM unit :=
  match data with
  | None => io_fail Malformed
  | Some e =>
      if negb (well_formed e) then io_fail Malformed
      else
        match c_templates c (Env_EventType e) with
        | None => mret tt
        | Some tmpl =>
            match c_recipients c with
            | None => io_fail NoResolver
            | Some email =>
                match email (Env_TenantID e) (Env_AggregateID e) with
                | Err _ => io_fail RecipientFailed
                | Ok recipient =>
                    plan_counted (gen 0%nat) (Env_TenantID e) e (mapType (Env_EventType e)) recipient tmpl
                      (c_language c) now ;;
                    (if moves (Env_EventType e)
                     then on_table (NRepository_CancelReminders (ng_now (gen 0%nat)) (Env_TenantID e) (Env_AggregateID e))
                     else mret tt) ;;
                    if reminds (Env_EventType e) && negb (IsZero (Env_StartAt e)) then
                      match c_offsets c (Env_TenantID e) with
                      | Err _ => io_fail OffsetsFailed
                      | Ok offsets => plan_reminders_counted gen 1 now e recipient offsets
                      end
                    else mret tt
                end
            end
        end
  end.

Definition is_redelivery (delivered : option Z) : bool := match delivered with Some n => 1 <? n | None => false end.

Definition consume_counted (gen : nat -> NGen) (g : NGen) (now : time) (text : note_error -> string)
    (delivered : option Z) (data : option Envelope) : CM verdict :=
  counting_if (is_redelivery delivered) inc_redelivered ;;
  r ← attempt (handle_counted gen now data);
  match r with
  | Ok _ => mret Ack
  | Err cause =>
      if match delivered with
         | Some n => (0 <? c_maxDeliver c) && (c_maxDeliver c <=? n)
         | None => false
         end
      then on_table (markTerminal c g data (text cause)) ;; counting inc_terminal ;; mret Term
      else mret Nak
  end.
End ConsumerCounts.

Section WorkerCounts.
Abbreviation WM := (Counting worker_metrics).

Definition outcome_inc (item : Notification) (outcome : send_outcome) : worker_metrics -> worker_metrics :=
  match outcome with
  | Sent _ => inc_sent (N_Type item)
  | SendFailed temporary =>
      if temporary && (N_Attempts item <? 5) then inc_retried (N_Type item) else inc_failed (N_Type item)
  end.

(** The counter follows [Finish], whatever that returns. *)
Definition deliver_counted (now dbnow : time) (item : Notification) (outcome : send_outcome) : WM unit :=
  counting_if (N_Recovered item) inc_recovered ;;
  on_table (deliver now dbnow item outcome) ;;
  counting (outcome_inc item outcome).

Fixpoint deliver_all_counted (now dbnow : time) (cancelled : Notification -> bool)
    (send : Notification -> send_outcome) (items : list Notification) : WM unit :=
  match items with
  | [] => mret tt
  | item :: rest =>
      if cancelled item then mret tt
      else deliver_counted now dbnow item (send item) ;; deliver_all_counted now dbnow cancelled send rest
  end.

Definition Worker_Once_counted (now dbnow : time) (tok : uuid -> uuid) (cancelled : Notification -> bool)
    (send : Notification -> send_outcome) : WM unit :=
  r ← attempt (on_table (NRepository_Claim dbnow tok 50));
  match r with
  | Err _ => mret tt
  | Ok items => deliver_all_counted now dbnow cancelled send items
  end.
End WorkerCounts.

(** * Lemmas *)

(** ** Erasing the counters *)

Section Erasure.
Context {M : Type}.

(** [m'] does to the table what [m] does. *)
Definition erases {A} (m' : Counting M A) (m : NM A) : Prop :=
  ∀ fs d k, ∃ k', m' fs (d, k) = ((m fs d).1, ((m fs d).2.1, ((m fs d).2.2, k'))).

Lemma erases_on_table {A} (m : NM A) : erases (on_table m) m.
Proof. intros fs d k. exists k. unfold on_table. cbn. by destruct (m fs d) as [r [fs' d']]. Qed.
Lemma erases_ret {A} (a : A) : erases (mret a) (mret a).
Proof. intros fs d k. by exists k. Qed.
Lemma erases_fail {A} e : erases (A:=A) (io_fail e) (io_fail e).
Proof. intros fs d k. by exists k. Qed.

Lemma erases_bind {A B} (m' : Counting M A) (m : NM A) (k' : A -> Counting M B) (k : A -> NM B) :
  erases m' m → (∀ a, erases (k' a) (k a)) → erases (m' ≫= k') (m ≫= k).
Proof.
  intros Hm Hk fs d s. destruct (Hm fs d s) as [s' E]. rewrite !bind_eq, E.
  destruct (m fs d) as [[a|e] [fs' d']]; cbn; [apply Hk|by exists s'].
Qed.

Lemma erases_attempt {A} (m' : Counting M A) (m : NM A) :
  erases m' m → erases (attempt (E:=note_error) m') (attempt (E:=note_error) m).
Proof.
  intros Hm fs d k. destruct (Hm fs d k) as [k' E]. exists k'. unfold attempt. rewrite E.
  by destruct (m fs d) as [r [fs' d']].
Qed.

(** Counting leaves the table alone. *)
Lemma erases_count {A} b inc (m' : Counting M A) (m : NM A) :
  erases m' m → erases (counting_if b inc ;; m') m.
Proof. intros Hm fs d k. rewrite bind_eq. destruct b; cbn; apply Hm. Qed.

(** An operation whose result is discarded, with or without a counter. *)
Lemma erases_discard {A B} (m' : Counting M unit) (m : NM A) (k' : Counting M B) (k : NM B) :
  erases m' (m ;; mret tt) → erases k' k → erases (m' ;; k') (m ;; k).
Proof.
  intros Hm Hk fs d s. destruct (Hm fs d s) as [s' E]. rewrite (bind_eq m) in E. rewrite !bind_eq, E.
  destruct (m fs d) as [[a|e] [fs' d']]; cbn; [apply Hk|by exists s'].
Qed.
End Erasure.

Lemma plan_erases g t e kind recipient tmpl language at_ :
  erases (plan_counted g t e kind recipient tmpl language at_)
    (NRepository_Plan g t e kind recipient tmpl language at_ ;; mret tt).
Proof.
  apply erases_bind; [apply erases_on_table|]. intros created fs d k. destruct created; by eexists.
Qed.

Section ConsumerErasure.
Context `{ReminderIds} (c : Consumer).

Lemma reminders_erase gen n now e recipient offsets :
  erases (plan_reminders_counted c gen n now e recipient offsets) (plan_reminders c gen n now e recipient offsets).
Proof.
  revert n. induction offsets as [|off rest IH]; intros n; cbn; [apply erases_ret|].
  destruct (negb _); [apply IH|]. apply erases_discard; [apply plan_erases|apply IH].
Qed.

Lemma handle_erases gen now data : erases (handle_counted c gen now data) (handle c gen now data).
Proof.
  unfold handle_counted, handle. destruct data as [e|]; [|apply erases_fail].
  destruct (negb (well_formed e)); [apply erases_fail|]. destruct (c_templates c _); [|apply erases_ret].
  destruct (c_recipients c); [|apply erases_fail]. destruct (_ _ _); [|apply erases_fail].
  apply erases_discard; [apply plan_erases|]. apply erases_bind; [destruct (moves _); [apply erases_on_table|apply erases_ret]|].
  intros _. destruct (_ && _); [|apply erases_ret]. destruct (c_offsets c _); [|apply erases_fail]. apply reminders_erase.
Qed.

Lemma consume_erases gen g now text delivered data :
  erases (consume_counted c gen g now text delivered data) (consume c gen g now text delivered data).
Proof.
  apply erases_count. apply erases_bind; [apply erases_attempt, handle_erases|]. intros [r|cause]; [apply erases_ret|].
  destruct (match delivered with _ => _ end); [|apply erases_ret].
  apply erases_bind; [apply erases_on_table|]. intros _. apply (erases_count true), erases_ret.
Qed.
End ConsumerErasure.

Lemma deliver_erases now dbnow item outcome :
  erases (deliver_counted now dbnow item outcome) (deliver now dbnow item outcome).
Proof.
  apply erases_count. intros fs d k. rewrite bind_eq. unfold on_table. cbn.
  destruct (deliver now dbnow item outcome fs d) as [[[]|e] [fs' d']]; by eexists.
Qed.

Lemma deliveries_erase now dbnow cancelled send items :
  erases (deliver_all_counted now dbnow cancelled send items) (deliver_all now dbnow cancelled send items).
Proof.
  induction items as [|item rest IH]; cbn; [apply erases_ret|]. destruct (cancelled item); [apply erases_ret|].
  apply erases_bind; [apply deliver_erases|]. intros _. apply IH.
Qed.

Lemma once_erases now dbnow tok cancelled send :
  erases (Worker_Once_counted now dbnow tok cancelled send) (Worker_Once now dbnow tok cancelled send).
Proof.
  apply erases_bind; [apply erases_attempt, erases_on_table|]. intros [items|]; [apply deliveries_erase|apply erases_ret].
Qed.

(** ** What the consumer's counters tell *)

(** The rows of a type. *)
Definition rows (kind : string) (d : ndb) : Z := Z.of_nat (length (sel (λ r, en_type r ==? kind) d)).

Lemma rows_snoc kind d r : rows kind (d ++ [r]) = rows kind d + (if en_type r ==? kind then 1 else 0).
Proof. unfold rows. rewrite sel_app, length_app. unfold sel. cbn. destruct (_ ==? _); cbn; lia. Qed.

Lemma rows_upd kind q f d : (∀ r, en_type (f r) = en_type r) → rows kind (upd q f d) = rows kind d.
Proof.
  intros Hf. unfold rows. f_equal. induction d as [|r d IH]; [done|]. unfold sel, upd in *. cbn.
  destruct (q r); rewrite ?Hf; destruct (_ ==? kind); cbn; by rewrite IH.
Qed.

(** Scripts in which, if [exact], no acknowledgement is lost. *)
Definition script_ok (exact : bool) (fs : list fault) : Prop := exact = true → Forall (λ f, f ≠ FLost) fs.

Lemma script_pop exact fs : script_ok exact fs → script_ok exact (pop fs).2 ∧ (exact = true → (pop fs).1 ≠ FLost).
Proof.
  intros Hs. split.
  - intros He. specialize (Hs He). destruct Hs; [constructor|done].
  - intros He. specialize (Hs He). by destruct Hs.
Qed.

(** The planned notifications are at most the new rows of their type, and
    exactly these if no acknowledgement was lost. *)
Definition counted (exact : bool) (s s' : ndb * option consumer_metrics) : Prop :=
  match s.2, s'.2 with
  | Some m, Some m' =>
      cm_redelivered m' = cm_redelivered m ∧ cm_terminal m' = cm_terminal m ∧
      ∀ kind, let planned := cm_planned m' kind - cm_planned m kind in
        let new := rows kind s'.1 - rows kind s.1 in
        if exact then planned = new else planned <= new
  | None, None => True
  | _, _ => False
  end.

#[local] Instance counted_preorder exact : PreOrder (counted exact).
Proof.
  split.
  - intros [d [m|]]; [|done]. split; [done|]. split; [done|]. intros kind. cbn. destruct exact; lia.
  - intros [d1 [m1|]] [d2 [m2|]] [d3 [m3|]] H12 H23; try done. destruct H12 as (A1 & A2 & A3), H23 as (B1 & B2 & B3).
    cbn in *. split; [congruence|]. split; [congruence|]. intros kind. specialize (A3 kind). specialize (B3 kind).
    cbn in *. destruct exact; lia.
Qed.

Lemma counted_same exact d m : counted exact (d, m) (d, m).
Proof. reflexivity. Qed.

(** [m] keeps to the count on the scripts considered. *)
Definition keeps_count (exact : bool) {A} (m : Counting consumer_metrics A) : Prop :=
  ∀ fs s, script_ok exact fs → script_ok exact (m fs s).2.1 ∧ counted exact s (m fs s).2.2.

Lemma keeps_ret exact {A} (a : A) : keeps_count exact (mret a).
Proof. by intros fs s Hs. Qed.
Lemma keeps_fail exact {A} e : keeps_count (A:=A) exact (io_fail e).
Proof. by intros fs s Hs. Qed.
Lemma keeps_bind exact {A B} (m : Counting consumer_metrics A) (k : A -> Counting consumer_metrics B) :
  keeps_count exact m → (∀ a, keeps_count exact (k a)) → keeps_count exact (m ≫= k).
Proof.
  intros Hm Hk fs s Hs. rewrite bind_eq. destruct (Hm fs s Hs) as [Hs' Hc].
  destruct (m fs s) as [[a|e] [fs' s']]; cbn in *; [|done]. destruct (Hk a fs' s' Hs') as [Hs2 Hc2].
  split; [done|]. by etrans.
Qed.
#[local] Hint Resolve keeps_ret keeps_fail keeps_bind : barber.

(** The insertion adds a row of its type or none. *)
Lemma insert_rows tx r d n d' :
  insert_note tx r (λ x, x) d = Ok (n, d') →
  n = 0 ∧ (∀ kind, rows kind d' = rows kind d) ∨
  n = 1 ∧ ∀ kind, rows kind d' = rows kind d + (if en_type r ==? kind then 1 else 0).
Proof.
  unfold insert_note. destruct (negb _); [done|]. destruct (en_tenant r !=? tx); [done|].
  destruct (negb _); [done|]. destruct (existsb (λ x, note_key x ==? note_key r) d).
  - intros [= <- <-]. left. split; [done|]. intros kind. by apply rows_upd.
  - destruct (existsb (λ x, en_id x ==? en_id r) d); [done|]. intros [= <- <-]. right. split; [done|]. intros kind.
    apply rows_snoc.
Qed.

(** Counting one row that was added. *)
Lemma counted_new exact d d' m kind :
  (∀ k, rows k d' = rows k d + (if kind ==? k then 1 else 0)) →
  counted exact (d, m) (d', inc_planned kind <$> m).
Proof.
  intros Hr. destruct m as [m|]; [|done]. split; [done|]. split; [done|]. intros k. cbn. unfold Inc. rewrite Hr.
  rewrite (bool_decide_ext (k = kind) (kind = k)) by done. destruct (kind ==? k), exact; lia.
Qed.

Lemma counted_more d d' m : (∀ k, rows k d <= rows k d') → counted false (d, m) (d', m).
Proof. intros Hr. destruct m as [m|]; [|done]. split; [done|]. split; [done|]. intros k. cbn. specialize (Hr k). lia. Qed.

Lemma counted_rows exact d d' m : (∀ k, rows k d' = rows k d) → counted exact (d, m) (d', m).
Proof.
  intros Hr. destruct m as [m|]; [|done]. split; [done|]. split; [done|]. intros k. cbn. rewrite Hr. destruct exact; lia.
Qed.

Lemma keeps_plan exact g t e kind recipient tmpl language at_ :
  keeps_count exact (plan_counted g t e kind recipient tmpl language at_).
Proof.
  unfold plan_counted, NRepository_Plan. destruct (recipient ==? EmptyString).
  { intros fs [d k] Hs. by split. }
  intros fs [d k] Hs. rewrite bind_eq. unfold on_table, WithTenantTx. cbn [fst snd].
  destruct (script_pop exact fs Hs) as [H1 _]. destruct (pop fs) as [[] fs1]; cbn in *; [|by split..].
  destruct (script_pop exact fs1 H1) as [H2 _]. destruct (pop fs1) as [[] fs2]; cbn in *; [|by split..].
  rewrite bind_eq. unfold stmt.
  destruct (script_pop exact fs2 H2) as [H3 _]. destruct (pop fs2) as [[] fs3]; cbn in *; [|by split..].
  destruct (insert_note t _ (λ r, r) d) as [[n d']|err] eqn:Ei; cbn; [|by split].
  destruct (script_pop exact fs3 H3) as [H4 Hlost]. destruct (pop fs3) as [[] fs4]; cbn in *; [| |].
  - apply insert_rows in Ei as [[-> Hr]|[-> Hr]]; cbn; (split; [done|]).
    + by apply counted_rows.
    + by apply counted_new.
  - by split.
  - split; [done|]. destruct exact; [by destruct Hlost|]. apply counted_more. intros k0.
    apply insert_rows in Ei as [[_ Hr]|[_ Hr]]; rewrite Hr; [|destruct (_ ==? _)]; lia.
Qed.

Lemma keeps_cancel exact now t a : keeps_count exact (on_table (NRepository_CancelReminders now t a)).
Proof.
  intros fs [d k] Hs. unfold on_table, NRepository_CancelReminders, WithTenantTx, stmt. cbn [fst snd].
  destruct (script_pop exact fs Hs) as [H1 _]. destruct (pop fs) as [[] fs1]; cbn in *; [|by split..].
  destruct (script_pop exact fs1 H1) as [H2 _]. destruct (pop fs1) as [[] fs2]; cbn in *; [|by split..].
  destruct (script_pop exact fs2 H2) as [H3 _]. destruct (pop fs2) as [[] fs3]; cbn in *; [|by split..].
  destruct (script_pop exact fs3 H3) as [H4 _]. destruct (pop fs3) as [[] fs4]; cbn in *; (split; [done|]);
    [|done|]; apply counted_rows; intros kind; by apply rows_upd.
Qed.
#[local] Hint Resolve keeps_plan keeps_cancel : barber.

Section ConsumerCounters.
Context `{ReminderIds} (c : Consumer).

Lemma keeps_reminders exact gen n now e recipient offsets :
  keeps_count exact (plan_reminders_counted c gen n now e recipient offsets).
Proof.
  revert n. induction offsets as [|off rest IH]; intros n; cbn; [apply keeps_ret|].
  destruct (negb _); [apply IH|]. apply keeps_bind; [apply keeps_plan|]. intros _. apply IH.
Qed.

Lemma keeps_handle exact gen now data : keeps_count exact (handle_counted c gen now data).
Proof.
  unfold handle_counted. destruct data as [e|]; [|apply keeps_fail].
  destruct (negb (well_formed e)); [apply keeps_fail|]. destruct (c_templates c _); [|apply keeps_ret].
  destruct (c_recipients c); [|apply keeps_fail]. destruct (_ _ _); [|apply keeps_fail].
  apply keeps_bind; [apply keeps_plan|]. intros _.
  apply keeps_bind; [destruct (moves _); [apply keeps_cancel|apply keeps_ret]|]. intros _.
  destruct (_ && _); [|apply keeps_ret]. destruct (c_offsets c _); [|apply keeps_fail]. apply keeps_reminders.
Qed.

(** The counters after the handler. *)
Lemma handled_counts gen now data fs d m :
  ∃ r fs1 d1 m1, handle_counted c gen now data fs (d, Some m) = (r, (fs1, (d1, Some m1))) ∧
    cm_redelivered m1 = cm_redelivered m ∧ cm_terminal m1 = cm_terminal m ∧
    ∀ kind, cm_planned m1 kind - cm_planned m kind <= rows kind d1 - rows kind d ∧
      (Forall (λ f, f ≠ FLost) fs → cm_planned m1 kind - cm_planned m kind = rows kind d1 - rows kind d).
Proof.
  assert (script_ok false fs) as Hf by done.
  destruct (keeps_handle false gen now data fs (d, Some m) Hf) as [_ Hle].
  pose proof (keeps_handle true gen now data fs (d, Some m)) as Heq.
  destruct (handle_counted c gen now data fs (d, Some m)) as [r [fs1 [d1 k1]]]. cbn in *.
  destruct k1 as [m1|]; [|done]. destruct Hle as (Hr & Ht & Hle). exists r, fs1, d1, m1. split; [done|].
  split; [done|]. split; [done|]. intros kind. split; [apply Hle|]. intros Hs.
  destruct (Heq (λ _, Hs)) as [_ (_ & _ & Heq')]. apply Heq'.
Qed.

Lemma markTerminal_ok g data cause fs d : (markTerminal c g data cause fs d).1 = Ok tt.
Proof.
  unfold markTerminal. destruct data as [e|]; [|done]. destruct (_ || _); [done|].
  destruct (c_templates c _); [|done]. by rewrite attempt_bind.
Qed.

(** What giving a message up leaves in the table: nothing, or the notification of
    its key marked as failed, or one more row, failed, with its key. *)
Definition envelope_key (e : Envelope) : uuid * uuid * string :=
  (Env_TenantID e, Env_EventID e, mapType (Env_EventType e)).
Definition audited (data : option Envelope) (d d' : ndb) : Prop :=
  d' = d ∨
  ∃ e, data = Some e ∧
    ((∃ now reason, d' = upd (λ x, note_key x ==? envelope_key e) (set_failed now reason) d) ∨
     ∃ r, d' = d ++ [r] ∧ en_status r = "failed"%string ∧ note_key r = envelope_key e).

Lemma markTerminal_audits g data cause fs d : audited data d (markTerminal c g data cause fs d).2.2.
Proof.
  unfold markTerminal. destruct data as [e|]; [|by left]. destruct (_ || _); [by left|].
  destruct (c_templates c _) as [tmpl|]; [|by left]. rewrite attempt_bind. cbn [snd].
  assert (∀ d', d' = d ∨ (∃ n, insert_note (Env_TenantID e)
      (mkNoteRow (ng_id g) (Env_TenantID e) (Env_EventID e) (Env_AggregateID e) (mapType (Env_EventType e))
         terminalRecipientPlaceholder tmpl (c_language c) "failed" 0 None (ng_now g) (ng_now g) None
         (Some cause) None None None (ng_now g)) (set_failed (ng_now g) cause) d = Ok (n, d')) → audited (Some e) d d') as Hd.
  { intros d' [->|[n Hi]]; [by left|]. right. exists e. split; [done|]. revert Hi. unfold insert_note.
    destruct (negb _); [done|]. destruct (_ !=? _); [done|]. destruct (negb _); [done|].
    destruct (existsb _ d); [intros [= _ <-]; left; by eexists _, _|].
    destruct (existsb _ d); [done|]. intros [= _ <-]. right. by eexists. }
  unfold NRepository_Fail, WithTenantTx.
  destruct (pop fs) as [[] fs1]; cbn; [|apply Hd; by left..].
  destruct (pop fs1) as [[] fs2]; cbn; [|apply Hd; by left..].
  rewrite bind_eq. unfold stmt. destruct (pop fs2) as [[] fs3]; cbn; [|apply Hd; by left..].
  destruct (insert_note _ _ _ d) as [[n d']|err] eqn:Ei; cbn; [|apply Hd; by left].
  destruct (pop fs3) as [[] fs4]; cbn; apply Hd; [right; by exists n|by left|right; by exists n].
Qed.

(** What follows the handler: a verdict, or the audit row and the counter. *)
Lemma consume_from gen g now text delivered data fs d m r fs1 d1 m1 :
  handle_counted c gen now data fs (d, Some (if is_redelivery delivered then inc_redelivered m else m))
  = (r, (fs1, (d1, Some m1))) →
  let o := consume_counted c gen g now text delivered data fs (d, Some m) in
  (∃ v, v ≠ Term ∧ o = (Ok v, (fs1, (d1, Some m1)))) ∨
  ∃ fs2 d2, audited data d1 d2 ∧ o = (Ok Term, (fs2, (d2, Some (inc_terminal m1)))).
Proof.
  intros Eh. cbv zeta. unfold consume_counted. rewrite bind_eq.
  replace (counting_if (is_redelivery delivered) inc_redelivered fs (d, Some m))
    with (Ok (E:=note_error) tt, (fs, (d, Some (if is_redelivery delivered then inc_redelivered m else m))))
    by by destruct (is_redelivery delivered).
  cbn beta iota. rewrite attempt_bind, Eh. cbn [fst snd]. destruct r as [u|cause]; [left; by exists Ack|].
  match goal with |- context [if ?b then on_table _ ≫= _ else _] => destruct b end; [|left; by exists Nak]. right.
  rewrite bind_eq. unfold on_table.
  cbn [fst snd]. pose proof (markTerminal_ok g data (text cause) fs1 d1) as Hm.
  pose proof (markTerminal_audits g data (text cause) fs1 d1) as Ha.
  destruct (markTerminal c g data (text cause) fs1 d1) as [r' [fs2 d2]]. cbn in Hm, Ha. subst. by exists fs2, d2.
Qed.

(** C36: the consumer does to the table what it does without counters, whatever
    fails, and its counters tell what happened: one redelivery for a message
    delivered before, one terminal message for a message given up, and as many
    planned notifications of each type as rows of that type the handler added,
    or fewer when the acknowledgement of a commit was lost.  For a message that
    is acknowledged or retried the handler's rows are all there is; a message
    that is given up adds at most one more row, which is not counted as planned:
    the failed row of its own tenant, event and type. *)
Theorem consumer_counters_exact gen g now text delivered data fs d m :
  let o := consume c gen g now text delivered data fs d in
  ∃ v m' d1, o.1 = Ok v ∧
    consume_counted c gen g now text delivered data fs (d, Some m) = (Ok v, (o.2.1, (o.2.2, Some m'))) ∧
    cm_redelivered m' = cm_redelivered m + (if is_redelivery delivered then 1 else 0) ∧
    cm_terminal m' = cm_terminal m + (if v ==? Term then 1 else 0) ∧
    d1 = (handle c gen now data fs d).2.2 ∧
    (∀ kind,
       cm_planned m' kind - cm_planned m kind <= rows kind d1 - rows kind d ∧
       (Forall (λ f, f ≠ FLost) fs → cm_planned m' kind - cm_planned m kind = rows kind d1 - rows kind d)) ∧
    if v ==? Term then audited data d1 o.2.2 else o.2.2 = d1.
Proof.
  intros o. destruct (consume_erases c gen g now text delivered data fs d (Some m)) as [k' E]. fold o in E.
  destruct (handled_counts gen now data fs d (if is_redelivery delivered then inc_redelivered m else m))
    as (r & fs1 & d1 & m1 & Eh & Hred & Hterm & Hplan).
  assert (cm_redelivered m1 = cm_redelivered m + (if is_redelivery delivered then 1 else 0)) as Hr.
  { rewrite Hred. destruct (is_redelivery delivered); cbn; lia. }
  assert (cm_terminal m1 = cm_terminal m) as Ht by (rewrite Hterm; by destruct (is_redelivery delivered)).
  assert (∀ kind, cm_planned m1 kind - cm_planned m kind <= rows kind d1 - rows kind d ∧
    (Forall (λ f, f ≠ FLost) fs → cm_planned m1 kind - cm_planned m kind = rows kind d1 - rows kind d)) as Hp.
  { intros kind. specialize (Hplan kind). by destruct (is_redelivery delivered). }
  assert (d1 = (handle c gen now data fs d).2.2) as Ehd.
  { destruct (handle_erases c gen now data fs d (Some (if is_redelivery delivered then inc_redelivered m else m))) as [k1 Ee].
    rewrite Eh in Ee. by injection Ee as _ _ -> _. }
  destruct (consume_from gen g now text delivered data fs d m r fs1 d1 m1 Eh)
    as [(v & Hv & Ec)|(fs2 & d2 & Ha & Ec)]; rewrite Ec in E; injection E as Ev Ef Ed Ek.
  - exists v, m1, d1. rewrite <- Ev, <- Ef, <- Ed. rewrite bool_decide_false by done. by rewrite Z.add_0_r.
  - exists Term, (inc_terminal m1), d1. rewrite <- Ev, <- Ef, <- Ed. rewrite bool_decide_refl. cbn. by rewrite Ht.
Qed.
End ConsumerCounters.

(** ** What the worker's counters tell *)

(** The items the worker gets to before its context is cancelled. *)
Fixpoint reached (cancelled : Notification -> bool) (items : list Notification) : list Notification :=
  match items with
  | [] => []
  | item :: rest => if cancelled item then [] else item :: reached cancelled rest
  end.

Definition tally (p : Notification -> bool) (items : list Notification) : Z := Z.of_nat (length (List.filter p items)).

(** How the delivery of an item ends. *)
Definition was_sent (send : Notification -> send_outcome) (item : Notification) : bool :=
  match send item with Sent _ => true | SendFailed _ => false end.
Definition is_retried (send : Notification -> send_outcome) (item : Notification) : bool :=
  match send item with Sent _ => false | SendFailed temporary => temporary && (N_Attempts item <? 5) end.

(** The counters of a round over [items]. *)
Definition tallied (send : Notification -> send_outcome) (items : list Notification) (m : worker_metrics)
  : worker_metrics :=
  fold_left (λ m item, outcome_inc item (send item) (if N_Recovered item then inc_recovered m else m)) items m.

Lemma deliver_ok now dbnow item outcome fs d : (deliver now dbnow item outcome fs d).1 = Ok tt.
Proof.
  unfold deliver. destruct outcome as [id|temporary]; [by rewrite attempt_bind|].
  destruct (_ && _); by rewrite attempt_bind.
Qed.

Lemma deliveries_tallied now dbnow cancelled send items fs d m :
  (deliver_all_counted now dbnow cancelled send items fs (d, Some m)).2.2.2
  = Some (tallied send (reached cancelled items) m).
Proof.
  revert fs d m. induction items as [|item rest IH]; intros fs d m; [done|]. cbn [deliver_all_counted reached].
  destruct (cancelled item); [done|]. unfold deliver_counted. rewrite !bind_eq.
  replace (counting_if (N_Recovered item) inc_recovered fs (d, Some m))
    with (Ok (E:=note_error) tt, (fs, (d, Some (if N_Recovered item then inc_recovered m else m))))
    by by destruct (N_Recovered item).
  cbn beta iota. rewrite bind_eq. unfold on_table. cbn [fst snd].
  pose proof (deliver_ok now dbnow item (send item) fs d) as Hd.
  destruct (deliver now dbnow item (send item) fs d) as [r [fs1 d1]]. cbn in Hd. subst. cbn. apply IH.
Qed.

Definition of_type (kind : string) (item : Notification) : bool := N_Type item ==? kind.

Lemma tally_cons p item items : tally p (item :: items) = (if p item then 1 else 0) + tally p items.
Proof. unfold tally. cbn. destruct (p item); cbn; lia. Qed.

(** Every item is counted once, under its type and its end. *)
Lemma tallied_exact send items m :
  let m' := tallied send items m in
  (∀ kind,
     wm_sent m' kind = wm_sent m kind + tally (λ i, was_sent send i && of_type kind i) items ∧
     wm_retried m' kind = wm_retried m kind + tally (λ i, is_retried send i && of_type kind i) items ∧
     wm_failed m' kind
     = wm_failed m kind + tally (λ i, negb (was_sent send i) && negb (is_retried send i) && of_type kind i) items) ∧
  wm_claimRecovered m' = wm_claimRecovered m + tally N_Recovered items.
Proof.
  unfold tallied. revert m. induction items as [|item items IH]; intros m; cbn [fold_left].
  { unfold tally. split; [intros kind; cbn; lia|cbn; lia]. }
  match goal with |- context [fold_left _ items ?x] => destruct (IH x) as [IHk IHr] end. cbv zeta in *.
  split; [intros kind; destruct (IHk kind) as (-> & -> & ->)|rewrite IHr]; rewrite !tally_cons;
    unfold outcome_inc, was_sent, is_retried, of_type;
    rewrite ?(bool_decide_ext (N_Type item = kind) (kind = N_Type item)) by done;
    destruct (N_Recovered item), (send item) as [id|temporary]; cbn;
    try (destruct (temporary && (N_Attempts item <? 5)); cbn);
    unfold Inc; try (destruct (kind ==? N_Type item)); cbn; lia.
Qed.

(** The worker does to the table what it does without counters, whatever fails,
    and its counters tell the round: each item it gets to is counted once under
    its type, as sent when the mail server took it, as retried when it will be
    tried again, as failed otherwise, and the claims taken over from a worker
    that stalled are counted as recovered. *)
Theorem worker_counters_exact now dbnow tok cancelled send fs d m :
  let o := Worker_Once now dbnow tok cancelled send fs d in
  let items := match (NRepository_Claim dbnow tok 50 fs d).1 with Ok l => reached cancelled l | Err _ => [] end in
  ∃ m', Worker_Once_counted now dbnow tok cancelled send fs (d, Some m) = (o.1, (o.2.1, (o.2.2, Some m'))) ∧
    (∀ kind,
       wm_sent m' kind = wm_sent m kind + tally (λ i, was_sent send i && of_type kind i) items ∧
       wm_retried m' kind = wm_retried m kind + tally (λ i, is_retried send i && of_type kind i) items ∧
       wm_failed m' kind
       = wm_failed m kind + tally (λ i, negb (was_sent send i) && negb (is_retried send i) && of_type kind i) items) ∧
    wm_claimRecovered m' = wm_claimRecovered m + tally N_Recovered items.
Proof.
  intros o items. destruct (once_erases now dbnow tok cancelled send fs d (Some m)) as [k' E]. fold o in E.
  assert (k' = Some (tallied send items m)) as ->.
  { assert ((Worker_Once_counted now dbnow tok cancelled send fs (d, Some m)).2.2.2 = k') as <- by by rewrite E.
    unfold Worker_Once_counted, items. rewrite attempt_bind. unfold on_table. cbn [fst snd].
    destruct (NRepository_Claim dbnow tok 50 fs d) as [[l|e] [fs1 d1]]; cbn [fst snd]; [|done].
    apply deliveries_tallied. }
  exists (tallied send items m). split; [exact E|]. apply tallied_exact.
Qed.
