(* ===== verification/Router.v ===== *)
(** * Router: what the services rely on of the router of fiber

    Every service registers its handlers with patterns such as
    /internal/v1/barbers/:id/exists.  The router is third-party code: the class
    [Router] is its interface and [RouterLaws] its documented behaviour under
    the default configuration (the first registered route that matches wins, a
    parameter stands for one non-empty segment, letter case and trailing slashes
    do not matter).  Tables are analysed by computation: [reachable] and
    [decided] say which handlers a request to a path template can reach, and two
    theorems show that the analysis is sound. *)
From S2P Require Import Prelude GoTime Http.
Local Open Scope list_scope.

Record row (H : Type) := mkRow { rw_method : string; rw_pattern : string; rw_handler : H }.
Arguments mkRow {H} rw_method rw_pattern rw_handler.
Arguments rw_method {H} r.
Arguments rw_pattern {H} r.
Arguments rw_handler {H} r.

(** ** Matching *)

(** The segments of a path without the empty ones at its end. *)
Fixpoint trim_tail (l : list string) : list string :=
  match l with
  | [] => []
  | s :: l' =>
      match trim_tail l' with
      | [] => if s ==? EmptyString then [] else [s]
      | t => s :: t
      end
  end.
Definition segments (path : string) : list string := trim_tail (Split "/" path).

(** A parameter of a pattern, and its name. *)
Definition param_name (p : string) : option string :=
  match p with String ":"%char name => Some name | _ => None end.

Definition same_text (a b : string) : bool := ascii_lower a ==? ascii_lower b.

Fixpoint match_segments (pattern path : list string) : option (list (string * string)) :=
  match pattern, path with
  | [], [] => Some []
  | p :: pattern', s :: path' =>
      match param_name p with
      | Some name => if s ==? EmptyString then None else cons (name, s) <$> match_segments pattern' path'
      | None => if same_text p s then match_segments pattern' path' else None
      end
  | _, _ => None
  end.

(** The first route that matches, with the values of its parameters. *)
Fixpoint first_match {H} (table : list (row H)) (method : string) (path : list string)
    : option (H * list (string * string)) :=
  match table with
  | [] => None
  | r :: table' =>
      if rw_method r ==? method then
        match match_segments (segments (rw_pattern r)) path with
        | Some values => Some (rw_handler r, values)
        | None => first_match table' method path
        end
      else first_match table' method path
  end.

Class Router := mkRouter {
  Dispatch : ∀ {H : Type}, list (row H) -> string -> string -> option (H * list (string * string));
  (** [app.GetRoutes(true)] of an application that has not started *)
  GetRoutes : ∀ {H : Type}, list (row H) -> list (string * string)
}.

(** HEAD requests, which fiber answers with GET routes, are left aside. *)
Class RouterLaws `{Router} := mkRouterLaws {
  dispatch_first : ∀ (H : Type) (table : list (row H)) method path,
    method ≠ "HEAD"%string → Dispatch table method path = first_match table method (segments path);
  routes_listed : ∀ (H : Type) (table : list (row H)) method pattern,
    (method, pattern) ∈ GetRoutes table ↔ ∃ r, r ∈ table ∧ rw_method r = method ∧ rw_pattern r = pattern
}.

(** [c.Params(name)] *)
Fixpoint Param (values : list (string * string)) (name : string) : string :=
  match values with
  | [] => EmptyString
  | (k, v) :: values' => if k ==? name then v else Param values' name
  end.

(** ** Path templates *)

(** A path of which some segments are known. *)
Inductive template_segment := Fixed (s : string) | Free.
Definition template (pattern : string) : list template_segment :=
  map (λ p, match param_name p with Some _ => Free | None => Fixed p end) (Split "/" pattern).

Definition fits (q : template_segment) (s : string) : Prop := match q with Fixed t => s = t | Free => True end.
Definition instance_of (q : list template_segment) (l : list string) : Prop := Forall2 fits q l.

(** The template without some of its last free segments, which may be empty. *)
Fixpoint cut_tail (q : list template_segment) : list (list template_segment) :=
  match q with
  | [] => [[]]
  | x :: q' =>
      let cuts := map (cons x) (cut_tail q') in
      if forallb (λ y, match y with Free => true | Fixed s => s ==? EmptyString end) q then [] :: cuts else cuts
  end.

(** A pattern may match an instance of the template. *)
Fixpoint may_match (pattern : list string) (q : list template_segment) : bool :=
  match pattern, q with
  | [], [] => true
  | p :: pattern', x :: q' =>
      match param_name p, x with
      | Some _, _ | None, Free => may_match pattern' q'
      | None, Fixed s => same_text p s && may_match pattern' q'
      end
  | _, _ => false
  end.

(** The handlers an instance of the template can reach. *)
Definition reachable {H} (table : list (row H)) (method : string) (q : list template_segment) : list H :=
  map rw_handler (List.filter (λ r, (rw_method r ==? method)
    && existsb (may_match (segments (rw_pattern r))) (cut_tail q)) table).

Lemma forallb_free_instance q l :
  instance_of q l →
  Forall (λ s, s = EmptyString) l →
  forallb (λ y, match y with Free => true | Fixed s => s ==? EmptyString end) q = true.
Proof.
  induction 1 as [|x s q l Hx Hq IH]; cbn; [done|]. intros [Hs Hl]%Forall_cons. rewrite (IH Hl), andb_true_r.
  destruct x; [|done]. cbn in Hx. subst. by apply bool_decide_eq_true.
Qed.

Lemma trim_tail_nil l : trim_tail l = [] → Forall (λ s, s = EmptyString) l.
Proof.
  induction l as [|s l IH]; cbn; [by constructor|]. destruct (trim_tail l); [|done].
  case_bool_decide; [|done]. intros _. constructor; [done|by apply IH].
Qed.

(** Trimming an instance gives an instance of one of the shorter templates. *)
Lemma trim_instance q l : instance_of q l → ∃ q', q' ∈ cut_tail q ∧ instance_of q' (trim_tail l).
Proof.
  intros Hq. induction Hq as [|x s q l Hx Hq IH]; cbn [cut_tail trim_tail].
  { exists []. split; [set_solver|constructor]. }
  destruct IH as (q' & Hin & Hi).
  assert (x :: q' ∈ map (cons x) (cut_tail q)) as Hcons by (by apply (list_elem_of_fmap_2 (cons x))).
  assert (∀ cuts : list (list template_segment), x :: q' ∈ cuts →
    x :: q' ∈ (if forallb (λ y, match y with Free => true | Fixed s => s ==? EmptyString end) (x :: q)
               then [] :: cuts else cuts)) as Hif by (intros cuts Hc; destruct (forallb _ _); [by right|done]).
  destruct (trim_tail l) as [|s' t] eqn:E.
  - case_bool_decide as Hs; [|exists (x :: q'); split; [by apply Hif|by constructor]].
    exists []. split; [|constructor]. rewrite forallb_free_instance with (l := s :: l).
    + left.
    + by constructor.
    + constructor; [done|]. by apply trim_tail_nil.
  - exists (x :: q'). split; [by apply Hif|by constructor].
Qed.

Lemma may_match_sound pattern q l values :
  instance_of q l → match_segments pattern l = Some values → may_match pattern q = true.
Proof.
  intros Hq. revert pattern values. induction Hq as [|x s q l Hx Hq IH]; intros [|p pattern] values; cbn; try done.
  destruct (param_name p).
  - case_bool_decide; [done|]. destruct (match_segments pattern l) eqn:E; [|done]. intros _. by eapply IH.
  - destruct (same_text p s) eqn:Es; [|done]. intros E. destruct x; cbn in Hx; subst; [rewrite Es; cbn|]; by eapply IH.
Qed.

(** Whatever the free segments are, only the computed handlers are reached. *)
Theorem reachable_sound {H} (table : list (row H)) method q l h values :
  instance_of q l → first_match table method (trim_tail l) = Some (h, values) → h ∈ reachable table method q.
Proof.
  intros Hq. destruct (trim_instance q l Hq) as (q' & Hin & Hi). unfold reachable.
  induction table as [|r table IH]; cbn [first_match]; [done|]. intros E. cbn [List.filter].
  destruct (rw_method r ==? method); cbn [andb]; [|by apply IH].
  destruct (match_segments (segments (rw_pattern r)) (trim_tail l)) as [v|] eqn:Em.
  - injection E as <- _. replace (existsb _ (cut_tail q)) with true; [by left|]. symmetry. apply existsb_exists.
    exists q'. split; [by apply list_elem_of_In|]. by eapply may_match_sound.
  - specialize (IH E). destruct (existsb _ _); [by right|done].
Qed.

(** ** Paths with ordinary values *)

(** The words of the patterns of a table. *)
Definition words {H} (table : list (row H)) : list string :=
  concat (map (λ r, List.filter (λ p, match param_name p with None => true | _ => false end)
                      (segments (rw_pattern r))) table).

(** A value that is not mistaken for a word of the table. *)
Definition ordinary {H} (table : list (row H)) (v : string) : Prop :=
  v ≠ EmptyString ∧ Forall (λ w, same_text w v = false) (words table).

Definition fits_ordinary {H} (table : list (row H)) (q : template_segment) (s : string) : Prop :=
  match q with Fixed t => s = t | Free => ordinary table s end.

Fixpoint must_match (pattern : list string) (q : list template_segment) : bool :=
  match pattern, q with
  | [], [] => true
  | p :: pattern', x :: q' =>
      match param_name p, x with
      | Some _, Free => must_match pattern' q'
      | Some _, Fixed s => (s !=? EmptyString) && must_match pattern' q'
      | None, Fixed s => same_text p s && must_match pattern' q'
      | None, Free => false
      end
  | _, _ => false
  end.

(** The route such a path is sent to. *)
Fixpoint decided {H} (table : list (row H)) (method : string) (q : list template_segment) : option (row H) :=
  match table with
  | [] => None
  | r :: table' =>
      if (rw_method r ==? method) && must_match (segments (rw_pattern r)) q then Some r else decided table' method q
  end.

(** The values the parameters of a pattern get. *)
Fixpoint bind_params (pattern path : list string) : list (string * string) :=
  match pattern, path with
  | p :: pattern', s :: path' =>
      match param_name p with Some name => (name, s) :: bind_params pattern' path' | None => bind_params pattern' path' end
  | _, _ => []
  end.

Definition ends_full (q : list template_segment) : bool :=
  match last q with Some (Fixed s) => s !=? EmptyString | Some Free => true | None => true end.

Lemma trim_tail_full l : match last l with Some s => s ≠ EmptyString | None => True end → trim_tail l = l.
Proof.
  induction l as [|s l IH]; [done|]. destruct l as [|s' l].
  - intros Hs. cbn in *. by rewrite bool_decide_eq_false_2.
  - intros Hs. cbn [trim_tail] in *. rewrite last_cons_cons in Hs. by rewrite (IH Hs).
Qed.

Section Decided.
Context {H : Type} (whole : list (row H)).

Lemma ordinary_last q l :
  ends_full q = true → Forall2 (fits_ordinary whole) q l →
  match last l with Some s => s ≠ EmptyString | None => True end.
Proof.
  intros Hq Hl. unfold ends_full in Hq. induction Hl as [|x s q l Hx Hl IH]; [done|].
  destruct Hl as [|x' s' q' l' Hx' Hl'].
  - cbn in *. destruct x; cbn in Hx; [subst; bsimpl; done|]. apply Hx.
  - rewrite last_cons_cons in *. by apply IH.
Qed.

Lemma must_match_spec pattern q l :
  Forall (λ p, param_name p = None → p ∈ words whole) pattern →
  Forall2 (fits_ordinary whole) q l →
  match_segments pattern l = if must_match pattern q then Some (bind_params pattern l) else None.
Proof.
  intros Hp Hl. revert pattern Hp. induction Hl as [|x s q l Hx Hl IH]; intros [|p pattern] Hp; cbn; try done.
  apply Forall_cons in Hp as [Hp0 Hp]. rewrite (IH _ Hp). destruct (param_name p) as [name|].
  - destruct x as [t|]; cbn in Hx.
    + subst. case_bool_decide as Ht; cbn; [done|]. by destruct (must_match pattern q).
    + destruct Hx as [Hne _]. rewrite bool_decide_eq_false_2 by done. by destruct (must_match pattern q).
  - destruct x as [t|]; cbn in Hx.
    + subst. by destruct (same_text p t).
    + destruct Hx as [_ Hw]. by rewrite (proj1 (Forall_forall _ _) Hw p (Hp0 eq_refl)).
Qed.

Lemma pattern_words r :
  r ∈ whole → Forall (λ p, param_name p = None → p ∈ words whole) (segments (rw_pattern r)).
Proof.
  intros Hr. apply Forall_forall. intros p Hp Hn. apply list_elem_of_In, in_concat.
  eexists. split; [apply in_map, list_elem_of_In, Hr|]. apply filter_In. rewrite Hn. split; [by apply list_elem_of_In|done].
Qed.

(** The computed route is the one the router takes. *)
Theorem decided_sound table method q l :
  (∀ r, r ∈ table → r ∈ whole) → ends_full q = true → Forall2 (fits_ordinary whole) q l →
  first_match table method (trim_tail l)
  = (λ r, (rw_handler r, bind_params (segments (rw_pattern r)) l)) <$> decided table method q.
Proof.
  intros Hsub Hq Hl. rewrite trim_tail_full by by eapply ordinary_last.
  induction table as [|r table IH]; cbn [first_match decided]; [done|].
  destruct (rw_method r ==? method); cbn [andb]; [|apply IH; set_solver].
  rewrite (must_match_spec _ q l) by (done || (apply pattern_words, Hsub; left)).
  destruct (must_match _ q); [done|]. apply IH. set_solver.
Qed.
End Decided.

(** ** A router with these laws *)

Definition FirstRouter : Router :=
  mkRouter (λ H table method path, first_match table method (segments path))
    (λ H table, map (λ r, (rw_method r, rw_pattern r)) table).

Lemma FirstRouter_laws : @RouterLaws FirstRouter.
Proof.
  split; [done|]. intros H table method pattern. cbn. rewrite list_elem_of_In, in_map_iff.
  setoid_rewrite <- list_elem_of_In. split; [intros (r & [= <- <-] & Hr)|intros (r & Hr & <- & <-)]; by exists r.
Qed.
