(* ===== verification/Services.v ===== *)
(** * Services: the routes of the seven services behind the gateway

    [Handler.Register] of every [services/*-service/internal/handler/http.go] as
    a table, and what a request that the router sends to a row runs.  A service
    is a [backend]; [serve] composes the router with its handlers.  The class
    [Guarded] states what a service promises to the network: a request without
    the internal token, or without a tenant where the handler needs one, is
    refused before anything is read or written.  [backends] are the seven
    services. *)
From S2P Require Import Prelude Effects GoTime Http Platform Availability SchedulingRepo SchedulingApp AppointmentRepo.
From S2P Require Import AppointmentApp Catalog Barber Accounts Customer Auth Tenant Router.
Local Open Scope Z_scope.

(** ** Requests as they arrive *)

Record Incoming := mkIncoming {
  in_method : string; in_path : string; in_query : string; in_header : string -> string; in_body : string
}.

(** [json.Unmarshal] into the input of each handler, the values of a query
    string and [time.Parse(time.RFC3339, _)]. *)
Class Decoders := mkDecoders {
  query_value_of : string -> string -> string;
  ParseRFC3339 : string -> option time;
  json_branch : string -> option BranchInput;
  json_barber : string -> option BarberBody;
  json_identity_id : string -> option uuid;
  json_service : string -> option ServiceInput;
  json_service_id : string -> option uuid;
  json_hours : string -> option WorkingHoursInput;
  json_override : string -> option OverrideInput;
  json_block : string -> option BlockedPeriodInput;
  json_create : string -> option CreateInput;
  json_start_at : string -> option time;
  json_registration : string -> option CRegistration;
  json_credentials : string -> option (string * string);
  json_passwords : string -> option (string * string);
  json_email : string -> option string;
  json_guest : string -> option (string * string);
  json_name : string -> option string;
  json_member : string -> option RegisterInput;
  json_role : string -> option string;
  json_settings : string -> option UpdateSettingsInput;
  json_tenant : string -> option CreateTenantInput;
  json_domain : string -> option CreateDomainInput
}.

(** What a handler sees of a request: the parameters come from the router. *)
Definition request `{Decoders} {B} (decode : string -> option B) (w : Incoming) (values : list (string * string))
  : Request B :=
  mkRequest (in_method w) (in_header w) (Param values) (query_value_of (in_query w)) (decode (in_body w)).

Definition no_body : string -> option unit := λ _, Some tt.

(** A reply whose body is one of the bodies of the service. *)
Definition map_response {A J} (f : A -> J) (x : Response A) : Response J :=
  match x with
  | SendStatus c => SendStatus c
  | SendError c e => SendError c e
  | SendJSON c a => SendJSON c (f a)
  end.
Definition rendering {D E A J} (f : A -> J) (m : IO D E (Response A)) : IO D E (Response J) :=
  x ← m; mret (map_response f x).

(** ** Services *)

Record backend := mkBackend {
  bk_db : Type;
  bk_error : Type;
  bk_json : Type;
  bk_draw : Type;
  bk_action : Type;
  bk_routes : list (row bk_action);
  bk_verify : MultiTokenVerifier;
  bk_handle : bk_draw -> bk_action -> Incoming -> list (string * string) -> IO bk_db bk_error (Response bk_json)
}.

(** [None] when no route matches. *)
Definition serve `{Router} (b : backend) (x : bk_draw b) (w : Incoming)
  : option (IO (bk_db b) (bk_error b) (Response (bk_json b))) :=
  match Dispatch (bk_routes b) (in_method w) (in_path w) with
  | None => None
  | Some (action, values) => Some (bk_handle b x action w values)
  end.

(** *** barber-service *)

Inductive barber_action :=
  BarberExists | SchedulingAccess | BranchBarberAccess | PublicBranches | PublicBarbers | BranchSave | BranchList
| BranchGet | BarberSave | BarberList | BarberGet | LinkIdentity | UnlinkIdentity.

Definition barber_Register : list (row barber_action) :=
  [ mkRow "GET" "/internal/v1/barbers/:id/exists" BarberExists;
    mkRow "GET" "/internal/v1/barbers/:id/scheduling-access" SchedulingAccess;
    mkRow "GET" "/internal/v1/branches/:branch_id/barbers/:barber_id/booking-access" BranchBarberAccess;
    mkRow "GET" "/internal/v1/public/branches" PublicBranches;
    mkRow "GET" "/internal/v1/public/barbers" PublicBarbers;
    mkRow "POST" "/internal/v1/admin/branches" BranchSave;
    mkRow "GET" "/internal/v1/admin/branches" BranchList;
    mkRow "GET" "/internal/v1/admin/branches/:id" BranchGet;
    mkRow "PATCH" "/internal/v1/admin/branches/:id" BranchSave;
    mkRow "POST" "/internal/v1/admin/barbers" BarberSave;
    mkRow "GET" "/internal/v1/admin/barbers" BarberList;
    mkRow "GET" "/internal/v1/admin/barbers/:id" BarberGet;
    mkRow "PATCH" "/internal/v1/admin/barbers/:id" BarberSave;
    mkRow "POST" "/internal/v1/admin/barbers/:barber_id/link-identity" LinkIdentity;
    mkRow "DELETE" "/internal/v1/admin/barbers/:barber_id/link-identity" UnlinkIdentity ]%string.

Inductive barber_json :=
| JBranches (l : list Branch) | JBranch (b : Branch) | JBarbers (l : list BBarber) | JBarber (b : BBarber)
| JIdentity (i : option uuid) | JNoBarberBody (u : unit).

Section Backends.
Context `{GoLib, AccountLib, Collation, PgText, Decoders}.

(** A draw is an id and the clock of the database. *)
Definition barber_handle (h : BarberHandler) (x : uuid * time) (a : barber_action) (w : Incoming)
    (values : list (string * string)) : BApp (Response barber_json) :=
  let r := request no_body w values in
  match a with
  | BarberExists => rendering JNoBarberBody (barberExists h r)
  | SchedulingAccess => rendering JIdentity (schedulingAccess h r)
  | BranchBarberAccess => rendering JNoBarberBody (branchBarberAccess h r)
  | PublicBranches => rendering JBranches (publicBranches h r)
  | PublicBarbers => rendering JBarbers (publicBarbers h r)
  | BranchSave => rendering JBranch (branchSave h x.1 x.2 (request json_branch w values))
  | BranchList => rendering JBranches (branchList h r)
  | BranchGet => rendering JBranch (branchGet h r)
  | BarberSave => rendering JBarber (barberSave h x.1 x.2 (request json_barber w values))
  | BarberList => rendering JBarbers (barberList h r)
  | BarberGet => rendering JBarber (barberGet h r)
  | LinkIdentity => rendering JNoBarberBody (linkIdentity h x.2 (request json_identity_id w values))
  | UnlinkIdentity => rendering JNoBarberBody (unlinkIdentity h x.2 r)
  end.

Definition barber_backend (h : BarberHandler) : backend :=
  mkBackend bdb bapp_error barber_json (uuid * time) barber_action barber_Register (bh_verifier h) (barber_handle h).

(** *** catalog-service *)

Inductive catalog_action :=
  CatPublic | CatPublicBarberServices | CatAvailabilityService | CatSave | CatList | CatGet | CatAssign
| CatAssignments | CatUnassign.

Definition catalog_Register : list (row catalog_action) :=
  [ mkRow "GET" "/internal/v1/public/services" CatPublic;
    mkRow "GET" "/internal/v1/public/barber-services" CatPublicBarberServices;
    mkRow "GET" "/internal/v1/barbers/:barber_id/services/:service_id/availability" CatAvailabilityService;
    mkRow "POST" "/internal/v1/admin/services" CatSave;
    mkRow "GET" "/internal/v1/admin/services" CatList;
    mkRow "GET" "/internal/v1/admin/services/:id" CatGet;
    mkRow "PATCH" "/internal/v1/admin/services/:id" CatSave;
    mkRow "POST" "/internal/v1/admin/barbers/:barber_id/services" CatAssign;
    mkRow "GET" "/internal/v1/admin/barbers/:barber_id/services" CatAssignments;
    mkRow "DELETE" "/internal/v1/admin/barbers/:barber_id/services/:service_id" CatUnassign ]%string.

Inductive catalog_json :=
| JServices (l : list CService) | JService (s : CService) | JBarberServices (l : list PublicBarberServices)
| JNoCatalogBody (u : unit).

Definition catalog_handle (h : CatalogHandler) (x : uuid * time) (a : catalog_action) (w : Incoming)
    (values : list (string * string)) : CApp (Response catalog_json) :=
  let r := request no_body w values in
  match a with
  | CatPublic => rendering JServices (public h r)
  | CatPublicBarberServices => rendering JBarberServices (publicBarberServices h r)
  | CatAvailabilityService => rendering JService (availabilityService h r)
  | CatSave => rendering JService (cat_save h x.1 x.2 (request json_service w values))
  | CatList => rendering JServices (cat_list h r)
  | CatGet => rendering JService (cat_get h r)
  | CatAssign => rendering JNoCatalogBody (cat_assign h (request json_service_id w values))
  | CatAssignments => rendering JServices (cat_assignments h r)
  | CatUnassign => rendering JNoCatalogBody (cat_unassign h r)
  end.

Definition catalog_backend (h : CatalogHandler) : backend :=
  mkBackend cdb capp_error catalog_json (uuid * time) catalog_action catalog_Register (ch_verify h) (catalog_handle h).

(** *** scheduling-service *)

Inductive scheduling_action :=
  SchAvailability | SchAdminAvailability | SchSchedule | SchHours | SchOverrides | SchSaveOverride
| SchDeleteOverride | SchBlocks | SchSaveBlock | SchDeleteBlock.

Definition scheduling_Register : list (row scheduling_action) :=
  [ mkRow "GET" "/internal/v1/public/availability" SchAvailability;
    mkRow "GET" "/internal/v1/admin/availability" SchAdminAvailability;
    mkRow "GET" "/internal/v1/admin/barbers/:barber_id/schedule" SchSchedule;
    mkRow "PUT" "/internal/v1/admin/barbers/:barber_id/working-hours" SchHours;
    mkRow "GET" "/internal/v1/admin/barbers/:barber_id/overrides" SchOverrides;
    mkRow "POST" "/internal/v1/admin/barbers/:barber_id/overrides" SchSaveOverride;
    mkRow "PATCH" "/internal/v1/admin/barbers/:barber_id/overrides/:id" SchSaveOverride;
    mkRow "DELETE" "/internal/v1/admin/barbers/:barber_id/overrides/:id" SchDeleteOverride;
    mkRow "GET" "/internal/v1/admin/barbers/:barber_id/blocked-periods" SchBlocks;
    mkRow "POST" "/internal/v1/admin/barbers/:barber_id/blocked-periods" SchSaveBlock;
    mkRow "DELETE" "/internal/v1/admin/barbers/:barber_id/blocked-periods/:id" SchDeleteBlock ]%string.

Inductive scheduling_json :=
| JSlots (l : option (list Slot)) | JSchedule (s : Schedule) | JOverrides (l : list Override)
| JOverride (o : Override) | JBlocks (l : list BlockedPeriod) | JBlock (b : BlockedPeriod)
| JNoSchedulingBody (u : unit).

(** A draw is the ids of the rows and the clock of the process. *)
Definition scheduling_handle (h : SchedulingApp.Handler) (x : SGen * time) (a : scheduling_action) (w : Incoming)
    (values : list (string * string)) : SchedulingApp.App (Response scheduling_json) :=
  let r := request no_body w values in
  match a with
  | SchAvailability => rendering JSlots (availability h x.2 r)
  | SchAdminAvailability => rendering JSlots (adminAvailability h x.2 r)
  | SchSchedule => rendering JSchedule (schedule h r)
  | SchHours => rendering JNoSchedulingBody (hours h x.1 (request json_hours w values))
  | SchOverrides => rendering JOverrides (overrides h r)
  | SchSaveOverride => rendering JOverride (saveOverride h x.1 (request json_override w values))
  | SchDeleteOverride => rendering JNoSchedulingBody (deleteOverride h r)
  | SchBlocks => rendering JBlocks (blocks h r)
  | SchSaveBlock => rendering JBlock (saveBlock h x.1 (request json_block w values))
  | SchDeleteBlock => rendering JNoSchedulingBody (deleteBlock h r)
  end.

Definition scheduling_backend (h : SchedulingApp.Handler) : backend :=
  mkBackend sdb SchedulingApp.app_error scheduling_json (SGen * time) scheduling_action scheduling_Register
    (SchedulingApp.h_verify h) (scheduling_handle h).

(** *** appointment-service *)

Inductive appointment_action :=
| AptOcc | AptNotificationRecipient | AptPubCreate | AptPubGet | AptPubCancel | AptCustomerList (upcoming : bool)
| AptCustomerGet | AptCustomerCancel | AptList | AptGet | AptAdmCreate | AptReschedule | AptTransition (status : string).

Definition appointment_transitions : list (string * string) :=
  [("cancel", "cancelled"); ("confirm", "confirmed"); ("complete", "completed"); ("no-show", "no_show")]%string.

Definition appointment_Register : list (row appointment_action) :=
  ([ mkRow "GET" "/internal/v1/occupancy" AptOcc;
     mkRow "GET" "/internal/v1/appointments/:id/notification-recipient" AptNotificationRecipient;
     mkRow "POST" "/internal/v1/public/appointments" AptPubCreate;
     mkRow "GET" "/internal/v1/public/appointments/:id" AptPubGet;
     mkRow "POST" "/internal/v1/public/appointments/:id/cancel" AptPubCancel;
     mkRow "GET" "/internal/v1/customer/appointments/upcoming" (AptCustomerList true);
     mkRow "GET" "/internal/v1/customer/appointments/history" (AptCustomerList false);
     mkRow "GET" "/internal/v1/customer/appointments/:id" AptCustomerGet;
     mkRow "POST" "/internal/v1/customer/appointments/:id/cancel" AptCustomerCancel;
     mkRow "GET" "/internal/v1/admin/appointments" AptList;
     mkRow "GET" "/internal/v1/admin/appointments/:id" AptGet;
     mkRow "POST" "/internal/v1/admin/appointments" AptAdmCreate;
     mkRow "POST" "/internal/v1/admin/appointments/:id/reschedule" AptReschedule ]%string
   ++ map (λ t, mkRow "POST" ("/internal/v1/admin/appointments/:id/" +:+ t.1) (AptTransition t.2))
        appointment_transitions)%list.

Inductive appointment_json :=
| JAppointment (a : Appointment) | JAppointments (l : list Appointment) | JOccupied (l : list (time * time))
| JRecipient (email : string).

(** A draw is what the repository draws, and the clocks of the database and of
    the process. *)
Definition appointment_handle (h : AppointmentApp.Handler) (x : Gen * time * time) (a : appointment_action)
    (w : Incoming) (values : list (string * string)) : AppointmentApp.App (Response appointment_json) :=
  let r := request no_body w values in
  let '(g, dbnow, now) := x in
  match a with
  | AptOcc =>
      rendering JOccupied (occ h (ParseRFC3339 (Query r "from"%string)) (ParseRFC3339 (Query r "to"%string)) r)
  | AptNotificationRecipient => rendering JRecipient (notificationRecipient h r)
  | AptPubCreate => rendering JAppointment (pubCreate h g (request json_create w values))
  | AptPubGet => rendering JAppointment (pubGet h r)
  | AptPubCancel => rendering JAppointment (pubCancel h g now r)
  | AptCustomerList upcoming => rendering JAppointments (customerList h dbnow now upcoming r)
  | AptCustomerGet => rendering JAppointment (customerGet h r)
  | AptCustomerCancel => rendering JAppointment (customerCancel h g now r)
  | AptList => rendering JAppointments (list_ h r)
  | AptGet => rendering JAppointment (AppointmentApp.get h r)
  | AptAdmCreate => rendering JAppointment (admCreate h g (request json_create w values))
  | AptReschedule => rendering JAppointment (reschedule h g (request json_start_at w values))
  | AptTransition status => rendering JAppointment (transition h g status r)
  end.

Definition appointment_backend (h : AppointmentApp.Handler) : backend :=
  mkBackend db AppointmentApp.app_error appointment_json (Gen * time * time) appointment_action appointment_Register
    (AppointmentApp.h_verify h) (appointment_handle h).

(** *** customer-service *)

Inductive customer_action :=
  CusRegister | CusLogin | CusLogout | CusMe | CusChangePassword | CusForgot | CusResolveGuest | CusInternalCustomer
| CusProfile | CusProfilePatch | CusAppointments | CusInternalSession.

Definition customer_Register : list (row customer_action) :=
  [ mkRow "POST" "/internal/v1/public/customer/auth/register" CusRegister;
    mkRow "POST" "/internal/v1/public/customer/auth/login" CusLogin;
    mkRow "POST" "/internal/v1/public/customer/auth/logout" CusLogout;
    mkRow "GET" "/internal/v1/public/customer/auth/me" CusMe;
    mkRow "POST" "/internal/v1/public/customer/auth/change-password" CusChangePassword;
    mkRow "POST" "/internal/v1/public/customer/auth/forgot-password" CusForgot;
    mkRow "POST" "/internal/v1/customer/resolve" CusResolveGuest;
    mkRow "GET" "/internal/v1/customer/:id" CusInternalCustomer;
    mkRow "GET" "/internal/v1/public/customer/profile" CusProfile;
    mkRow "PATCH" "/internal/v1/public/customer/profile" CusProfilePatch;
    mkRow "GET" "/internal/v1/public/customer/appointments/upcoming" CusAppointments;
    mkRow "GET" "/internal/v1/public/customer/appointments/history" CusAppointments;
    mkRow "GET" "/internal/v1/public/customer/appointments/:id" CusAppointments;
    mkRow "POST" "/internal/v1/public/customer/appointments/:id/cancel" CusAppointments;
    mkRow "GET" "/internal/v1/internal/customer/session" CusInternalSession ]%string.

Inductive customer_json :=
| JCreated (message : string) | JLogin (l : SetCookie * Customer) | JCustomer (c : Customer)
| JForwarded (body : string) | JNoCustomerBody (u : unit).

(** A draw is what the use case draws, and the clock of the database. *)
Definition customer_handle (h : CustomerHandler) (x : draw * time) (a : customer_action) (w : Incoming)
    (values : list (string * string)) : CuApp (Response customer_json) :=
  let r := request no_body w values in
  match a with
  | CusRegister => rendering JCreated (cu_register h x.1 (request json_registration w values))
  | CusLogin => rendering JLogin (cu_login h x.1 (request json_credentials w values))
  | CusLogout => rendering JNoCustomerBody (cu_logout h x.2 r)
  | CusMe => rendering JCustomer (cu_me h x.2 r)
  | CusChangePassword => rendering JNoCustomerBody (cu_changePassword h x.1 (request json_passwords w values))
  | CusForgot => rendering JNoCustomerBody (cu_forgot h x.1 (request json_email w values))
  | CusResolveGuest => rendering JCustomer (cu_resolveGuest h (dr_id x.1) x.2 (request json_guest w values))
  | CusInternalCustomer => rendering JCustomer (cu_internalCustomer h r)
  | CusProfile => rendering JCustomer (cu_profile h x.2 r)
  | CusProfilePatch => rendering JCustomer (cu_profilePatch h x.2 (request json_name w values))
  | CusAppointments => rendering JForwarded (cu_appointments h x.2 (in_path w) (in_query w) r)
  | CusInternalSession => rendering JCustomer (cu_internalSession h x.2 r)
  end.

Definition customer_backend (h : CustomerHandler) : backend :=
  mkBackend (world custdb) cuapp_error customer_json (draw * time) customer_action customer_Register (cuh_verify h)
    (customer_handle h).

(** *** auth-service *)

Inductive auth_action :=
  AuLogin | AuLogout | AuMe | AuRegister | AuMembers | AuMember | AuPostMembers | AuChangeMemberRole | AuActivate
| AuDeactivate | AuBarberEligibility | AuChangePassword | AuForgotPassword | AuPlatformOwners.
#[export] Instance auth_action_eq_dec : EqDecision auth_action.
Proof. solve_decision. Defined.

Definition auth_Register : list (row auth_action) :=
  [ mkRow "POST" "/internal/v1/auth/login" AuLogin;
    mkRow "POST" "/internal/v1/auth/logout" AuLogout;
    mkRow "GET" "/internal/v1/auth/me" AuMe;
    mkRow "POST" "/internal/v1/auth/register" AuRegister;
    mkRow "GET" "/internal/v1/auth/members" AuMembers;
    mkRow "GET" "/internal/v1/auth/members/:id" AuMember;
    mkRow "POST" "/internal/v1/auth/members" AuPostMembers;
    mkRow "PATCH" "/internal/v1/auth/members/:id/role" AuChangeMemberRole;
    mkRow "POST" "/internal/v1/auth/members/:id/activate" AuActivate;
    mkRow "POST" "/internal/v1/auth/members/:id/deactivate" AuDeactivate;
    mkRow "GET" "/internal/v1/auth/members/:id/barber-eligibility" AuBarberEligibility;
    mkRow "POST" "/internal/v1/auth/change-password" AuChangePassword;
    mkRow "POST" "/internal/v1/auth/forgot-password" AuForgotPassword;
    mkRow "GET" "/internal/v1/platform/tenants/:id/owners" AuPlatformOwners ]%string.

(** The request [au_serve] answers. *)
Definition auth_request (a : auth_action) (w : Incoming) (values : list (string * string)) : auth_route :=
  let r := request no_body w values in
  match a with
  | AuLogin => PostLogin (request json_credentials w values)
  | AuLogout => PostLogout r
  | AuMe => GetMe r
  | AuRegister => PostRegister (request json_member w values)
  | AuMembers => GetMembers r
  | AuMember => GetMember r
  | AuPostMembers => PostMembers (request json_member w values)
  | AuChangeMemberRole => PatchMemberRole (request json_role w values)
  | AuActivate => PostActivate r
  | AuDeactivate => PostDeactivate r
  | AuBarberEligibility => GetBarberEligibility r
  | AuChangePassword => PostChangePassword (request json_passwords w values)
  | AuForgotPassword => PostForgotPassword (request json_email w values)
  | AuPlatformOwners => GetPlatformOwners r
  end.

(** A draw is what the use case draws, and the clocks of the database and of
    the process. *)
Definition auth_handle (h : AuthHandler) (x : draw * time * time) (a : auth_action) (w : Incoming)
    (values : list (string * string)) : AuReply :=
  let '(d, now, after) := x in au_serve h now after d (auth_request a w values).

Definition auth_backend (h : AuthHandler) : backend :=
  mkBackend (world authdb) auapp_error auth_json (draw * time * time) auth_action auth_Register (ah_verify h)
    (auth_handle h).

(** *** tenant-service *)

Inductive tenant_action :=
| TnResolve | TnTLSAuthorize | TnPublicConfig | TnInternalSettings | TnAdminSettings | TnUpdateAdminSettings
| TnCreateTenant | TnTenants | TnTenant | TnSetTenantStatus (status : string) | TnPlatformAudit | TnCreateDomain
| TnDomains | TnVerifyDomain | TnActivateDomain | TnDeactivateDomain.

Definition tenant_Register : list (row tenant_action) :=
  [ mkRow "GET" "/internal/v1/domains/resolve" TnResolve;
    mkRow "GET" "/internal/v1/domains/tls-authorize" TnTLSAuthorize;
    mkRow "GET" "/internal/v1/public/config" TnPublicConfig;
    mkRow "GET" "/internal/v1/settings" TnInternalSettings;
    mkRow "GET" "/internal/v1/admin/settings" TnAdminSettings;
    mkRow "PATCH" "/internal/v1/admin/settings" TnUpdateAdminSettings;
    mkRow "POST" "/internal/v1/platform/tenants" TnCreateTenant;
    mkRow "GET" "/internal/v1/platform/tenants" TnTenants;
    mkRow "GET" "/internal/v1/platform/tenants/:id" TnTenant;
    mkRow "POST" "/internal/v1/platform/tenants/:id/activate" (TnSetTenantStatus "active");
    mkRow "POST" "/internal/v1/platform/tenants/:id/suspend" (TnSetTenantStatus "suspended");
    mkRow "GET" "/internal/v1/platform/audit" TnPlatformAudit;
    mkRow "POST" "/internal/v1/platform/tenants/:id/domains" TnCreateDomain;
    mkRow "GET" "/internal/v1/platform/tenants/:id/domains" TnDomains;
    mkRow "POST" "/internal/v1/platform/tenants/:id/domains/:domain_id/verify" TnVerifyDomain;
    mkRow "POST" "/internal/v1/platform/tenants/:id/domains/:domain_id/activate" TnActivateDomain;
    mkRow "POST" "/internal/v1/platform/tenants/:id/domains/:domain_id/deactivate" TnDeactivateDomain ]%string.

Definition tenant_handle (h : TenantHandler) (x : tdraw) (a : tenant_action) (w : Incoming)
    (values : list (string * string)) : TReply :=
  let r := request no_body w values in
  match a with
  | TnResolve => th_resolve h x r
  | TnTLSAuthorize => th_tlsAuthorize h x r
  | TnPublicConfig => th_publicConfig h x r
  | TnInternalSettings => th_internalSettings h x r
  | TnAdminSettings => th_adminSettings h x r
  | TnUpdateAdminSettings => th_updateAdminSettings h x (request json_settings w values)
  | TnCreateTenant => th_createTenant h x (request json_tenant w values)
  | TnTenants => th_tenants h r
  | TnTenant => th_tenant h x r
  | TnSetTenantStatus status => th_setTenantStatus h status x r
  | TnPlatformAudit => th_platformAudit h r
  | TnCreateDomain => th_createDomain h x (request json_domain w values)
  | TnDomains => th_domains h r
  | TnVerifyDomain => th_verifyDomain h x r
  | TnActivateDomain => th_activateDomain h x r
  | TnDeactivateDomain => th_deactivateDomain h x r
  end.

Definition tenant_backend (h : TenantHandler) : backend :=
  mkBackend tworld tapp_error tenant_json tdraw tenant_action tenant_Register (th_verify h) (tenant_handle h).

(** *** The services behind the gateway *)

Record fleet := mkFleet {
  fl_barber : BarberHandler; fl_catalog : CatalogHandler; fl_scheduling : SchedulingApp.Handler;
  fl_appointment : AppointmentApp.Handler; fl_customer : CustomerHandler; fl_auth : AuthHandler;
  fl_tenant : TenantHandler
}.

Definition backends (f : fleet) : list backend :=
  [ barber_backend (fl_barber f); catalog_backend (fl_catalog f); scheduling_backend (fl_scheduling f);
    appointment_backend (fl_appointment f); customer_backend (fl_customer f); auth_backend (fl_auth f);
    tenant_backend (fl_tenant f) ]%list.
End Backends.

(** ** What a service promises to the network *)

Definition trusts (b : backend) (w : Incoming) : bool := Verify (bk_verify b) (in_header w InternalTokenHeader).

(** A handler that answers with a status and touches nothing. *)
Definition refuses {D E A} (m : IO D E (Response A)) (status : Z) : Prop :=
  ∀ fs d, m fs d = (Ok (SendStatus status), (fs, d)).

(** [bk_no_tenant] is [None] for a handler that needs no tenant. *)
Class Guarded `{GoLib} (b : backend) := mkGuarded {
  bk_untrusted : bk_action b -> Z;
  bk_no_tenant : bk_action b -> option Z;
  bk_untrusted_status : ∀ a, bk_untrusted a ∈ [400; 401; 403];
  bk_untrusted_refused : ∀ x a w values, trusts b w = false → refuses (bk_handle b x a w values) (bk_untrusted a);
  bk_no_tenant_refused : ∀ x a w values status,
    trusts b w = true → uuid_Parse (in_header w TenantIDHeader) = None → bk_no_tenant a = Some status →
    refuses (bk_handle b x a w values) status
}.

Lemma refuses_rendering {D E A J} (f : A -> J) (m : IO D E (Response A)) status :
  refuses m status → refuses (rendering f m) status.
Proof. intros Hm fs d. cbv [rendering mbind io_mbind io_bind]. by rewrite Hm. Qed.

Section Promises.
Context `{GoLib, AccountLib, Collation, PgText, Decoders}.

(** The token and the tenant a handler asks for first. *)
Definition contextless (v : MultiTokenVerifier) (w : Incoming) : Prop :=
  ∀ (B : Type) (decode : string -> option B) values, adminauth_Context (request decode w values) v = None.

Lemma untrusted_contextless b w : trusts b w = false → contextless (bk_verify b) w.
Proof. intros Hv B decode values. unfold adminauth_Context. cbn. unfold trusts in Hv. by rewrite Hv. Qed.

Lemma tenant_missing a app rid : uuid_Parse a = None → tenantctx_New a app rid = None.
Proof. intros Ha. unfold tenantctx_New. by rewrite Ha. Qed.

Lemma tenantless_contextless v w : uuid_Parse (in_header w TenantIDHeader) = None → contextless v w.
Proof.
  intros Ht B decode values. unfold adminauth_Context. cbn. rewrite tenant_missing by done. by destruct (negb _).
Qed.

(** A service whose handlers all ask for the tenant. *)
Definition refusing_guarded (b : backend) (refusal : bk_action b -> Z) (Hstatus : ∀ a, refusal a ∈ [400; 401; 403])
    (Hguard : ∀ x a w values, contextless (bk_verify b) w → refuses (bk_handle b x a w values) (refusal a))
  : Guarded b.
Proof.
  refine (mkGuarded _ b refusal (Some ∘ refusal) Hstatus _ _).
  - intros x a w values Hw. by apply Hguard, untrusted_contextless.
  - intros x a w values status _ Ht [= <-]. by apply Hguard, tenantless_contextless.
Defined.

(** *** barber-service *)

Definition barber_refusal (a : barber_action) : Z := match a with BranchSave | BarberSave => 403 | _ => 401 end.

Lemma barber_guard h x a w values :
  contextless (bh_verifier h) w → refuses (barber_handle h x a w values) (barber_refusal a).
Proof.
  intros Hc. destruct a; apply refuses_rendering; intros fs d;
    unfold barberExists, schedulingAccess, branchBarberAccess, publicBranches, publicBarbers, branchSave, branchList,
      branchGet, barberSave, barberList, barberGet, linkIdentity, unlinkIdentity, bar_tenant; by rewrite Hc.
Qed.

#[export] Instance barber_guarded h : Guarded (barber_backend h).
Proof. refine (refusing_guarded (barber_backend h) barber_refusal _ (barber_guard h)). intros []; set_solver. Defined.

(** *** catalog-service *)

Definition catalog_refusal (a : catalog_action) : Z :=
  match a with CatSave | CatAssign | CatUnassign => 403 | _ => 401 end.

Lemma catalog_guard h x a w values :
  contextless (ch_verify h) w → refuses (catalog_handle h x a w values) (catalog_refusal a).
Proof.
  intros Hc. destruct a; apply refuses_rendering; intros fs d;
    unfold public, publicBarberServices, availabilityService, cat_save, cat_list, cat_get, cat_assign,
      cat_assignments, cat_unassign, Catalog.tenant; by rewrite Hc.
Qed.

#[export] Instance catalog_guarded h : Guarded (catalog_backend h).
Proof. refine (refusing_guarded (catalog_backend h) catalog_refusal _ (catalog_guard h)). intros []; set_solver. Defined.

(** *** scheduling-service *)

Definition scheduling_refusal (a : scheduling_action) : Z :=
  match a with SchAvailability | SchAdminAvailability => 401 | _ => 403 end.

Lemma scheduling_guard h x a w values :
  contextless (SchedulingApp.h_verify h) w → refuses (scheduling_handle h x a w values) (scheduling_refusal a).
Proof.
  intros Hc. destruct a; apply refuses_rendering; intros fs d;
    unfold availability, adminAvailability, schedule, hours, overrides, saveOverride, deleteOverride, blocks,
      saveBlock, deleteBlock, SchedulingApp.admin; by rewrite Hc.
Qed.

#[export] Instance scheduling_guarded h : Guarded (scheduling_backend h).
Proof. refine (refusing_guarded (scheduling_backend h) scheduling_refusal _ (scheduling_guard h)). intros []; set_solver. Defined.

(** *** appointment-service *)

Definition appointment_refusal (a : appointment_action) : Z :=
  match a with
  | AptOcc => 400
  | AptList | AptGet | AptAdmCreate | AptReschedule | AptTransition _ => 403
  | _ => 401
  end.

Lemma appointment_guard h x a w values :
  contextless (AppointmentApp.h_verify h) w → refuses (appointment_handle h x a w values) (appointment_refusal a).
Proof.
  intros Hc. destruct x as [[g dbnow] now]. destruct a; apply refuses_rendering; intros fs d;
    unfold occ, notificationRecipient, pubCreate, pubGet, pubCancel, customerList, customerGet, customerCancel,
      list_, AppointmentApp.get, admCreate, reschedule, transition, AppointmentApp.admin, AppointmentApp.customer,
      trusted; by rewrite Hc.
Qed.

#[export] Instance appointment_guarded h : Guarded (appointment_backend h).
Proof. refine (refusing_guarded (appointment_backend h) appointment_refusal _ (appointment_guard h)). intros []; set_solver. Defined.

(** *** customer-service *)

Definition customer_refusal (a : customer_action) : Z :=
  match a with CusRegister | CusLogin | CusForgot => 403 | _ => 401 end.

Lemma customer_guard h x a w values :
  contextless (cuh_verify h) w → refuses (customer_handle h x a w values) (customer_refusal a).
Proof.
  intros Hc. destruct a; apply refuses_rendering; intros fs d;
    unfold cu_register, cu_login, cu_logout, cu_me, cu_changePassword, cu_forgot, cu_resolveGuest,
      cu_internalCustomer, cu_profile, cu_profilePatch, cu_appointments, cu_internalSession, cu_current,
      cu_tenant_of; rewrite Hc; try done; by destruct (_ !=? _).
Qed.

#[export] Instance customer_guarded h : Guarded (customer_backend h).
Proof. refine (refusing_guarded (customer_backend h) customer_refusal _ (customer_guard h)). intros []; set_solver. Defined.

(** *** auth-service *)

Lemma auth_contextless h w {B} (decode : string -> option B) values :
  contextless (ah_verify h) w → trustedContext h (request decode w values) = None.
Proof.
  intros Hc. specialize (Hc B decode values). unfold adminauth_Context in Hc. unfold trustedContext.
  destruct (negb _); [done|]. by rewrite Hc.
Qed.

Lemma auth_guard h x a w values :
  a ≠ AuPlatformOwners → contextless (ah_verify h) w → refuses (auth_handle h x a w values) 401.
Proof.
  intros Ha Hc fs d. destruct x as [[x now] after]. pose proof (@auth_contextless h w) as Ht.
  destruct a; try done;
    cbn [auth_handle auth_request au_serve]; unfold au_login, au_logout, owner_route, au_Authenticate,
      barberEligibility, forgotPassword; by rewrite Ht.
Qed.

(** The owners of a tenant are asked for by the platform, without a tenant. *)
Definition auth_no_tenant (a : auth_action) : option Z := match a with AuPlatformOwners => None | _ => Some 401 end.

#[export] Instance auth_guarded h : Guarded (auth_backend h).
Proof.
  refine (mkGuarded _ (auth_backend h) (λ _, 401) auth_no_tenant _ _ _).
  - intros _. set_solver.
  - intros x a w values Hw. destruct (decide (a = AuPlatformOwners)) as [->|Ha].
    + intros fs d. destruct x as [[x now] after]. cbn. unfold platformOwners. cbn. unfold trusts in Hw. cbn in Hw.
      by rewrite Hw.
    + apply auth_guard; [done|]. by apply (untrusted_contextless (auth_backend h)).
  - intros x a w values status _ Ht Ha. destruct a; cbn in Ha; simplify_eq;
      (by apply auth_guard; [done|apply tenantless_contextless]).
Defined.

(** *** tenant-service *)

(** Reading the settings or the public configuration asks for the token and
    then for the tenant; the settings page goes through the admin session. *)
Definition tenant_no_tenant (a : tenant_action) : option Z :=
  match a with
  | TnPublicConfig | TnInternalSettings => Some 400
  | TnAdminSettings | TnUpdateAdminSettings => Some 401
  | _ => None
  end.

Lemma tenant_untrusted h x a w values :
  Verify (th_verify h) (in_header w InternalTokenHeader) = false → refuses (tenant_handle h x a w values) 401.
Proof.
  intros Hw fs d. pose proof (untrusted_contextless (tenant_backend h) w Hw) as Hc. cbn in Hc.
  destruct a; cbn [tenant_handle];
    unfold th_resolve, th_tlsAuthorize, th_publicConfig, th_internalSettings, th_adminSettings,
      th_updateAdminSettings, th_createTenant, th_tenants, th_tenant, th_setTenantStatus, th_platformAudit,
      th_createDomain, th_domains, th_verifyDomain, th_activateDomain, th_deactivateDomain, domain_handler,
      adminContext, internal_only, Tenant.internal; cbn [Header request]; (by rewrite Hw) || by rewrite Hc.
Qed.

#[export] Instance tenant_guarded h : Guarded (tenant_backend h).
Proof.
  refine (mkGuarded _ (tenant_backend h) (λ _, 401) tenant_no_tenant _ _ _).
  - intros _. set_solver.
  - intros x a w values. apply tenant_untrusted.
  - intros x a w values status Hw Ht Ha fs d. unfold trusts in Hw. cbn in Hw.
    pose proof (tenantless_contextless (th_verify h) w Ht) as Hc.
    destruct a; cbn in Ha; simplify_eq; cbn [bk_handle tenant_backend tenant_handle];
      unfold th_publicConfig, th_internalSettings, th_adminSettings, th_updateAdminSettings, adminContext,
        internal_only, Tenant.internal, Tenant.with_context; cbn [Header request];
      (by rewrite Hw, (tenant_missing _ _ _ Ht)) || by rewrite Hc.
Defined.

Lemma backends_guarded f b : b ∈ backends f → inhabited (Guarded b).
Proof.
  intros Hb. unfold backends in Hb. repeat (apply elem_of_cons in Hb as [->|Hb]; [constructor; apply _|]).
  by apply elem_of_nil in Hb.
Qed.

End Promises.

(** ** Examples *)

(** Ids written like UUIDs: at least 36 characters. *)
Definition long_prefix : string := "00000000-0000-0000-0000-000000000000".
Fixpoint strip (p s : string) : option string :=
  match p, s with
  | EmptyString, _ => Some s
  | String c p', String c' s' => if c ==? c' then strip p' s' else None
  | _, _ => None
  end.
Definition LongLib : GoLib :=
  mkGoLib (λ s, match strip long_prefix s with Some r => parse_digits r | None => None end)
    (λ u, long_prefix +:+ digits_of u) ascii_lower (λ s, Some s) (λ _, test_digest)
    (foldr (λ a b, a +:+ b) EmptyString) (λ _, EmptyString) (λ _, Some UTC).

Definition NoDecoders : Decoders :=
  mkDecoders (λ _ _, EmptyString) (λ _, None) (λ _, None) (λ _, None) (λ _, None) (λ _, None) (λ _, None) (λ _, None)
    (λ _, None) (λ _, None) (λ _, None) (λ _, None) (λ _, None) (λ _, None) (λ _, None) (λ _, None) (λ _, None)
    (λ _, None) (λ _, None) (λ _, None) (λ _, None) (λ _, None) (λ _, None).

(** Services that share a token and reach nothing else. *)
Definition sample_fleet (token : string) : fleet :=
  let v := NewMultiTokenVerifier [token] in
  mkFleet (mkBarberHandler (mkBarberService (λ _ _, None) (λ _ _, Err MembershipFailed)) v)
    (mkCatalogHandler (mkCatalogService (λ _ _, None) (λ _ _, Err BarberFailed)) v)
    (SchedulingApp.mkHandler (SchedulingApp.h_app ex_handler) v (λ _ _, None))
    (AppointmentApp.mkHandler ex_deps v (λ _ _, None))
    (mkCustomerHandler v token true false "http://appointments" (λ _, TransportFailed))
    (mkAuthHandler (mkAuthService (24 * Hour) true) v "session" true true)
    (mkTenantHandler (mkTenantService (mkTenantRepository true) true) v token).

Section Examples.
#[local] Instance sample_lib : GoLib := LongLib.
#[local] Instance sample_accounts : AccountLib := TestAccounts.
#[local] Instance sample_collation : Collation := λ _, 0.
#[local] Instance sample_pg : PgText := TestPg.
#[local] Instance sample_decoders : Decoders := NoDecoders.
#[local] Instance sample_router : Router := FirstRouter.

Definition forged_booking : Incoming :=
  mkIncoming "POST" "/internal/v1/public/appointments" EmptyString
    (λ name, if name ==? InternalTokenHeader then "guess"%string
             else if name ==? TenantIDHeader then uuid_String 1%N
             else if name ==? AppTypeHeader then "booking"%string else EmptyString) "{}".

End Examples.
