(* ===== verification/Contract.v ===== *)
(** * Contract: the harness that pins the trust boundary of the private routes

    [platform/authcontract] and the tables the services run it on
    ([TestInternalAuthContract] of every service).  [Run] sends each declared
    route requests without a token, with a wrong token, without a tenant and
    with a malformed tenant, compares the replies with the contract, and
    compares the declared routes with the registered ones.  The services of
    [Services] pass it, whatever their data and their dependencies. *)
From S2P Require Import Prelude Effects GoTime Http Platform Availability SchedulingRepo SchedulingApp AppointmentRepo.
From S2P Require Import AppointmentApp Catalog Barber Accounts Customer Auth Tenant Router Services.
Local Open Scope Z_scope.

Definition ValidToken : string := "internal-contract-secret".

Record ContractRoute := NewRoute {
  cr_Method : string; cr_Path : string; cr_TenantScoped : bool; cr_AppType : string;
  cr_MissingStatus : Z; cr_NoTenantStatus : Z; cr_BadTenantStatus : Z
}.

Definition contract_Verifier : TokenVerifier := NewTokenVerifier ValidToken.

Definition materialize (path : string) : string :=
  Join "/" (map (λ part, if String.prefix ":" part then "00000000-0000-0000-0000-000000000099"%string else part)
              (Split "/" path)).

(** [req.Header.Set] *)
Definition with_header (k v : string) (get : string -> string) : string -> string :=
  λ name, if name ==? k then v else get name.
Definition set_present (k v : string) (get : string -> string) : string -> string :=
  if v !=? EmptyString then with_header k v get else get.

Definition contract_request (route : ContractRoute) (token tenant : string) : Incoming :=
  mkIncoming (cr_Method route) (materialize (cr_Path route)) EmptyString
    (set_present AppTypeHeader (cr_AppType route)
       (set_present TenantIDHeader tenant (set_present InternalTokenHeader token (λ _, EmptyString)))) EmptyString.

(** What the harness reports. *)
Inductive failure :=
| NotRegistered (key : string)
| RequestFailed (key : string)
| StatusMismatch (key : string) (got want : Z)
| Disclosed (key : string)
| NoContract (key : string).

Definition route_key (method path : string) : string := method +:+ " " +:+ path.

Section Harness.
(** [app.Test] on an application with state, and its routes. *)
Context {S : Type} (Test : Incoming -> S -> option (Z * string) * S) (routes_of : list (string * string)).

Definition assertRequest (route : ContractRoute) (token tenant : string) (want : Z) (s : S) : option failure * S :=
  let key := route_key (cr_Method route) (cr_Path route) in
  match Test (contract_request route token tenant) s with
  | (None, s') => (Some (RequestFailed key), s')
  | (Some (status, whole), s') =>
      let body := String.substring 0 4096 whole in
      if negb (status =? want) then (Some (StatusMismatch key status want), s')
      else if Contains body ValidToken || Contains body "invalid-internal-token"
      then (Some (Disclosed key), s')
      else (None, s')
  end.

(** A failed assertion ends the test of the route. *)
Fixpoint assert_all (route : ContractRoute) (l : list (string * string * Z)) (s : S) : list failure * S :=
  match l with
  | [] => ([], s)
  | (token, tenant, want) :: l' =>
      match assertRequest route token tenant want s with
      | (Some f, s') => ([f], s')
      | (None, s') => assert_all route l' s'
      end
  end.

Definition assertions (route : ContractRoute) : list (string * string * Z) :=
  ([(EmptyString, EmptyString, cr_MissingStatus route);
    ("invalid-internal-token"%string, EmptyString, cr_MissingStatus route)]
   ++ if cr_TenantScoped route
      then [(ValidToken, EmptyString, cr_NoTenantStatus route); (ValidToken, "invalid"%string, cr_BadTenantStatus route)]
      else [])%list.

Definition registered_keys : gset string :=
  list_to_set (map (λ r, route_key r.1 r.2) (List.filter (λ r, String.prefix "/internal/" r.2) routes_of)).

Fixpoint run_routes (routes : list ContractRoute) (s : S) : list failure * S :=
  match routes with
  | [] => ([], s)
  | route :: routes' =>
      let key := route_key (cr_Method route) (cr_Path route) in
      let missing := if bool_decide (key ∈ registered_keys) then [] else [NotRegistered key] in
      let '(failed, s1) := assert_all route (assertions route) s in
      let '(rest, s2) := run_routes routes' s1 in
      ((missing ++ failed ++ rest)%list, s2)
  end.

Definition Run (routes : list ContractRoute) (s : S) : list failure * S :=
  let declared : gset string := list_to_set (map (λ r, route_key (cr_Method r) (cr_Path r)) routes) in
  let '(failed, s') := run_routes routes s in
  ((failed ++ map NoContract (elements (registered_keys ∖ declared)))%list, s').
End Harness.

(** ** The contracts of the services *)

Definition barber_contract : list ContractRoute :=
  [ NewRoute "GET" "/internal/v1/barbers/:id/exists" true "booking" 401 401 401;
    NewRoute "GET" "/internal/v1/barbers/:id/scheduling-access" true "admin" 401 401 401;
    NewRoute "GET" "/internal/v1/branches/:branch_id/barbers/:barber_id/booking-access" true "booking" 401 401 401;
    NewRoute "GET" "/internal/v1/public/branches" true "booking" 401 401 401;
    NewRoute "GET" "/internal/v1/public/barbers" true "booking" 401 401 401;
    NewRoute "POST" "/internal/v1/admin/branches" true "admin" 403 403 403;
    NewRoute "GET" "/internal/v1/admin/branches" true "admin" 401 401 401;
    NewRoute "GET" "/internal/v1/admin/branches/:id" true "admin" 401 401 401;
    NewRoute "PATCH" "/internal/v1/admin/branches/:id" true "admin" 403 403 403;
    NewRoute "POST" "/internal/v1/admin/barbers" true "admin" 403 403 403;
    NewRoute "GET" "/internal/v1/admin/barbers" true "admin" 401 401 401;
    NewRoute "GET" "/internal/v1/admin/barbers/:id" true "admin" 401 401 401;
    NewRoute "PATCH" "/internal/v1/admin/barbers/:id" true "admin" 403 403 403;
    NewRoute "POST" "/internal/v1/admin/barbers/:barber_id/link-identity" true "admin" 401 401 401;
    NewRoute "DELETE" "/internal/v1/admin/barbers/:barber_id/link-identity" true "admin" 401 401 401 ]%string.

Definition catalog_contract : list ContractRoute :=
  [ NewRoute "GET" "/internal/v1/public/services" true "booking" 401 401 401;
    NewRoute "GET" "/internal/v1/public/barber-services" true "booking" 401 401 401;
    NewRoute "GET" "/internal/v1/barbers/:barber_id/services/:service_id/availability" true "booking" 401 401 401;
    NewRoute "POST" "/internal/v1/admin/services" true "admin" 403 403 403;
    NewRoute "GET" "/internal/v1/admin/services" true "admin" 401 401 401;
    NewRoute "GET" "/internal/v1/admin/services/:id" true "admin" 401 401 401;
    NewRoute "PATCH" "/internal/v1/admin/services/:id" true "admin" 403 403 403;
    NewRoute "POST" "/internal/v1/admin/barbers/:barber_id/services" true "admin" 403 403 403;
    NewRoute "GET" "/internal/v1/admin/barbers/:barber_id/services" true "admin" 401 401 401;
    NewRoute "DELETE" "/internal/v1/admin/barbers/:barber_id/services/:service_id" true "admin" 403 403 403 ]%string.

Definition scheduling_contract : list ContractRoute :=
  [ NewRoute "GET" "/internal/v1/public/availability" true "booking" 401 401 401;
    NewRoute "GET" "/internal/v1/admin/availability" true "admin" 401 401 401;
    NewRoute "GET" "/internal/v1/admin/barbers/:barber_id/schedule" true "admin" 403 403 403;
    NewRoute "PUT" "/internal/v1/admin/barbers/:barber_id/working-hours" true "admin" 403 403 403;
    NewRoute "GET" "/internal/v1/admin/barbers/:barber_id/overrides" true "admin" 403 403 403;
    NewRoute "POST" "/internal/v1/admin/barbers/:barber_id/overrides" true "admin" 403 403 403;
    NewRoute "PATCH" "/internal/v1/admin/barbers/:barber_id/overrides/:id" true "admin" 403 403 403;
    NewRoute "DELETE" "/internal/v1/admin/barbers/:barber_id/overrides/:id" true "admin" 403 403 403;
    NewRoute "GET" "/internal/v1/admin/barbers/:barber_id/blocked-periods" true "admin" 403 403 403;
    NewRoute "POST" "/internal/v1/admin/barbers/:barber_id/blocked-periods" true "admin" 403 403 403;
    NewRoute "DELETE" "/internal/v1/admin/barbers/:barber_id/blocked-periods/:id" true "admin" 403 403 403 ]%string.

Definition appointment_contract : list ContractRoute :=
  [ NewRoute "GET" "/internal/v1/occupancy" true "booking" 400 400 400;
    NewRoute "GET" "/internal/v1/appointments/:id/notification-recipient" true "booking" 401 401 401;
    NewRoute "POST" "/internal/v1/public/appointments" true "booking" 401 401 401;
    NewRoute "GET" "/internal/v1/public/appointments/:id" true "booking" 401 401 401;
    NewRoute "POST" "/internal/v1/public/appointments/:id/cancel" true "booking" 401 401 401;
    NewRoute "GET" "/internal/v1/customer/appointments/upcoming" true "booking" 401 401 401;
    NewRoute "GET" "/internal/v1/customer/appointments/history" true "booking" 401 401 401;
    NewRoute "GET" "/internal/v1/customer/appointments/:id" true "booking" 401 401 401;
    NewRoute "POST" "/internal/v1/customer/appointments/:id/cancel" true "booking" 401 401 401;
    NewRoute "GET" "/internal/v1/admin/appointments" true "admin" 403 403 403;
    NewRoute "GET" "/internal/v1/admin/appointments/:id" true "admin" 403 403 403;
    NewRoute "POST" "/internal/v1/admin/appointments" true "admin" 403 403 403;
    NewRoute "POST" "/internal/v1/admin/appointments/:id/reschedule" true "admin" 403 403 403;
    NewRoute "POST" "/internal/v1/admin/appointments/:id/cancel" true "admin" 403 403 403;
    NewRoute "POST" "/internal/v1/admin/appointments/:id/confirm" true "admin" 403 403 403;
    NewRoute "POST" "/internal/v1/admin/appointments/:id/complete" true "admin" 403 403 403;
    NewRoute "POST" "/internal/v1/admin/appointments/:id/no-show" true "admin" 403 403 403 ]%string.

Definition customer_contract : list ContractRoute :=
  [ NewRoute "POST" "/internal/v1/public/customer/auth/register" true "booking" 403 403 403;
    NewRoute "POST" "/internal/v1/public/customer/auth/login" true "booking" 403 403 403;
    NewRoute "POST" "/internal/v1/public/customer/auth/logout" true "booking" 401 401 401;
    NewRoute "GET" "/internal/v1/public/customer/auth/me" true "booking" 401 401 401;
    NewRoute "POST" "/internal/v1/public/customer/auth/change-password" true "booking" 401 401 401;
    NewRoute "POST" "/internal/v1/public/customer/auth/forgot-password" true "booking" 403 403 403;
    NewRoute "POST" "/internal/v1/customer/resolve" true "booking" 401 401 401;
    NewRoute "GET" "/internal/v1/customer/:id" true "booking" 401 401 401;
    NewRoute "GET" "/internal/v1/public/customer/profile" true "booking" 401 401 401;
    NewRoute "PATCH" "/internal/v1/public/customer/profile" true "booking" 401 401 401;
    NewRoute "GET" "/internal/v1/public/customer/appointments/upcoming" true "booking" 401 401 401;
    NewRoute "GET" "/internal/v1/public/customer/appointments/history" true "booking" 401 401 401;
    NewRoute "GET" "/internal/v1/public/customer/appointments/:id" true "booking" 401 401 401;
    NewRoute "POST" "/internal/v1/public/customer/appointments/:id/cancel" true "booking" 401 401 401;
    NewRoute "GET" "/internal/v1/internal/customer/session" true "booking" 401 401 401 ]%string.

Definition auth_contract : list ContractRoute :=
  [ NewRoute "POST" "/internal/v1/auth/login" true "admin" 401 401 401;
    NewRoute "POST" "/internal/v1/auth/logout" true "admin" 401 401 401;
    NewRoute "GET" "/internal/v1/auth/me" true "admin" 401 401 401;
    NewRoute "POST" "/internal/v1/auth/register" true "admin" 401 401 401;
    NewRoute "GET" "/internal/v1/auth/members" true "admin" 401 401 401;
    NewRoute "GET" "/internal/v1/auth/members/:id" true "admin" 401 401 401;
    NewRoute "POST" "/internal/v1/auth/members" true "admin" 401 401 401;
    NewRoute "PATCH" "/internal/v1/auth/members/:id/role" true "admin" 401 401 401;
    NewRoute "POST" "/internal/v1/auth/members/:id/activate" true "admin" 401 401 401;
    NewRoute "POST" "/internal/v1/auth/members/:id/deactivate" true "admin" 401 401 401;
    NewRoute "GET" "/internal/v1/auth/members/:id/barber-eligibility" true "admin" 401 401 401;
    NewRoute "POST" "/internal/v1/auth/change-password" true "admin" 401 401 401;
    NewRoute "POST" "/internal/v1/auth/forgot-password" true "admin" 401 401 401;
    NewRoute "GET" "/internal/v1/platform/tenants/:id/owners" false "" 401 0 0 ]%string.

Definition tenant_contract : list ContractRoute :=
  [ NewRoute "GET" "/internal/v1/domains/resolve" false "" 401 0 0;
    NewRoute "GET" "/internal/v1/domains/tls-authorize" false "" 401 0 0;
    NewRoute "GET" "/internal/v1/public/config" true "booking" 401 400 400;
    NewRoute "GET" "/internal/v1/settings" true "booking" 401 400 400;
    NewRoute "GET" "/internal/v1/admin/settings" true "admin" 401 401 401;
    NewRoute "PATCH" "/internal/v1/admin/settings" true "admin" 401 401 401;
    NewRoute "POST" "/internal/v1/platform/tenants" false "" 401 0 0;
    NewRoute "GET" "/internal/v1/platform/tenants" false "" 401 0 0;
    NewRoute "POST" "/internal/v1/platform/tenants/:id/activate" false "" 401 0 0;
    NewRoute "POST" "/internal/v1/platform/tenants/:id/suspend" false "" 401 0 0;
    NewRoute "GET" "/internal/v1/platform/audit" false "" 401 0 0;
    NewRoute "GET" "/internal/v1/platform/tenants/:id" false "" 401 0 0;
    NewRoute "POST" "/internal/v1/platform/tenants/:id/domains" false "" 401 0 0;
    NewRoute "GET" "/internal/v1/platform/tenants/:id/domains" false "" 401 0 0;
    NewRoute "POST" "/internal/v1/platform/tenants/:id/domains/:domain_id/verify" false "" 401 0 0;
    NewRoute "POST" "/internal/v1/platform/tenants/:id/domains/:domain_id/activate" false "" 401 0 0;
    NewRoute "POST" "/internal/v1/platform/tenants/:id/domains/:domain_id/deactivate" false "" 401 0 0 ]%string.

(** ** The application under test *)

(** What the harness meets of a service: its state is the data and what the
    outside world does next, and the number of requests answered, which tells
    their draws apart. *)
Section Application.
Context `{Router} (b : backend) (draws : nat -> bk_draw b).
(** The body fiber writes, its reply when no route matches, and its error
    handler. *)
Context (text : Response (bk_json b) -> string) (unmatched : Incoming -> Z * string) (on_error : bk_error b -> Z * string).

Abbreviation app_state := (nat * (list fault * bk_db b))%type.

Definition app_Test (w : Incoming) (s : app_state) : option (Z * string) * app_state :=
  match serve b (draws s.1) w with
  | None => (Some (unmatched w), (Datatypes.S s.1, s.2))
  | Some m =>
      match m s.2.1 s.2.2 with
      | (Ok x, s') => (Some (status_of x, text x), (Datatypes.S s.1, s'))
      | (Err e, s') => (Some (on_error e), (Datatypes.S s.1, s'))
      end
  end.
End Application.


(** The harness on a service. *)
Definition run_contract `{Router} (b : backend) (draws : nat -> bk_draw b) (text : Response (bk_json b) -> string)
    (unmatched : Incoming -> Z * string) (on_error : bk_error b -> Z * string) (routes : list ContractRoute)
    (s : nat * (list fault * bk_db b)) : list failure * (nat * (list fault * bk_db b)) :=
  Run (app_Test b draws text unmatched on_error) (GetRoutes (bk_routes b)) routes s.

(** ** The services pass *)

(** The text [SendStatus] writes, and the length of the texts [uuid.Parse]
    accepts, 32 characters and more. *)
Class StatusTexts := StatusMessage : Z -> string.
Class StatusTextLaws `{StatusTexts} := {
  message_400 : StatusMessage 400 = "Bad Request"%string;
  message_401 : StatusMessage 401 = "Unauthorized"%string;
  message_403 : StatusMessage 403 = "Forbidden"%string
}.
Class UuidLength `{GoLib} := uuid_length : ∀ s u, uuid_Parse s = Some u → (32 <= String.length s)%nat.

(** The token verifier of the harness accepts what the verifier of the services
    accepts when it is given the same secret. *)
Lemma contract_Verifier_multi presented :
  Verify contract_Verifier presented = Verify (NewMultiTokenVerifier [ValidToken]) presented.
Proof.
  unfold Verify, TokenVerifier_verifier, MultiTokenVerifier_verifier, TokenVerifier_Verify, MultiTokenVerifier_Verify.
  cbn. replace (ValidToken ==? EmptyString) with false by reflexivity.
  destruct (presented ==? EmptyString); cbn; [done|]. by rewrite negb_involutive, orb_false_r.
Qed.

Lemma request_token route token tenant : in_header (contract_request route token tenant) InternalTokenHeader = token.
Proof.
  unfold contract_request, set_present, with_header. cbn [in_header].
  destruct (cr_AppType route !=? EmptyString), (tenant !=? EmptyString), (token !=? EmptyString) eqn:E; cbn; bsimpl; done.
Qed.

Lemma request_tenant route token tenant : in_header (contract_request route token tenant) TenantIDHeader = tenant.
Proof.
  unfold contract_request, set_present, with_header. cbn [in_header].
  destruct (cr_AppType route !=? EmptyString), (tenant !=? EmptyString) eqn:E, (token !=? EmptyString); cbn; bsimpl; done.
Qed.

Section Passing.
Context `{Router, !RouterLaws, GoLib, !UuidLength, StatusTexts, !StatusTextLaws}.

Definition refusals : list Z := [400; 401; 403].

(** The reply of a refusal discloses nothing. *)
Lemma refusal_clean status :
  status ∈ refusals →
  let body := String.substring 0 4096 (StatusMessage status) in
  Contains body ValidToken || Contains body "invalid-internal-token" = false.
Proof.
  intros Hs. unfold refusals in Hs. rewrite !elem_of_cons, elem_of_nil in Hs.
  destruct Hs as [->|[->|[->|[]]]]; [rewrite message_400|rewrite message_401|rewrite message_403]; vm_compute; done.
Qed.

(** The contract of a route agrees with the guards of the handler the router
    sends its requests to. *)
Definition agrees (b : backend) `{!Guarded b} (route : ContractRoute) : bool :=
  (cr_Method route !=? "HEAD"%string)
  && match first_match (bk_routes b) (cr_Method route) (segments (materialize (cr_Path route))) with
     | None => false
     | Some (a, _) =>
         (bk_untrusted a =? cr_MissingStatus route)
         && (negb (cr_TenantScoped route)
             || match bk_no_tenant a with
                | None => false
                | Some c => bool_decide (c ∈ refusals) && (c =? cr_NoTenantStatus route) && (c =? cr_BadTenantStatus route)
                end)
     end.

(** The declared and the registered routes are the same. *)
Definition covers (b : backend) (routes : list ContractRoute) : bool :=
  let declared := map (λ r, route_key (cr_Method r) (cr_Path r)) routes in
  let registered := map (λ r, route_key (rw_method r) (rw_pattern r)) (bk_routes b) in
  forallb (λ r, String.prefix "/internal/" (rw_pattern r)) (bk_routes b)
  && forallb (λ k, existsb (String.eqb k) registered) declared
  && forallb (λ k, existsb (String.eqb k) declared) registered.

Section Backend.
Context (b : backend) `{!Guarded b} (draws : nat -> bk_draw b) (text : Response (bk_json b) -> string).
Context (unmatched : Incoming -> Z * string) (on_error : bk_error b -> Z * string).
Context (Htext : ∀ status, text (SendStatus status) = StatusMessage status).
Context (Hverify : bk_verify b = NewMultiTokenVerifier [ValidToken]).

Abbreviation Test := (app_Test b draws text unmatched on_error).

(** A refused request passes its assertion. *)
Lemma assertion_passes route token tenant want s :
  want ∈ refusals →
  (∀ x, ∃ m, serve b x (contract_request route token tenant) = Some m ∧ refuses m want) →
  assertRequest Test route token tenant want s = (None, (Datatypes.S s.1, s.2)).
Proof.
  intros Hwant Hm. destruct s as [n [fs d]]. destruct (Hm (draws n)) as (m & Hs & Hr).
  unfold assertRequest, app_Test. cbn [fst snd]. rewrite Hs, Hr. cbn [status_of].
  rewrite Z.eqb_refl, Htext. cbn [negb]. by rewrite refusal_clean.
Qed.

Lemma trusts_request route token tenant :
  trusts b (contract_request route token tenant) = (token ==? ValidToken).
Proof.
  unfold trusts. rewrite request_token, Hverify, <- contract_Verifier_multi.
  unfold Verify, TokenVerifier_verifier, TokenVerifier_Verify, ConstantTimeCompare. cbn.
  replace (ValidToken ==? EmptyString) with false by reflexivity. cbn.
  case_bool_decide; case_bool_decide; cbn; try (subst; done); by case_bool_decide; subst.
Qed.

Lemma malformed_tenant tenant : tenant ∈ [EmptyString; "invalid"%string] → uuid_Parse tenant = None.
Proof.
  intros Ht. destruct (uuid_Parse tenant) as [u|] eqn:E; [|done]. apply uuid_length in E.
  rewrite !elem_of_cons, elem_of_nil in Ht. destruct Ht as [->|[->|[]]]; cbn in E; lia.
Qed.

(** Every assertion the harness makes of an agreeing route passes. *)
Lemma agreed_assertion route token tenant want s :
  agrees b route = true → (token, tenant, want) ∈ assertions route →
  assertRequest Test route token tenant want s = (None, (Datatypes.S s.1, s.2)).
Proof.
  intros Ha Hin. unfold agrees in Ha. apply andb_true_iff in Ha as [Hhead Ha]. bsimpl.
  destruct (first_match _ _ _) as [[a values]|] eqn:Hf; [|done]. apply andb_true_iff in Ha as [Hu Ht].
  apply Z.eqb_eq in Hu.
  assert (∀ tok ten (x : bk_draw b),
    serve b x (contract_request route tok ten) = Some (bk_handle b x a (contract_request route tok ten) values)) as Hserve.
  { intros tok ten x. unfold serve. cbn [in_method in_path contract_request]. by rewrite dispatch_first, Hf. }
  unfold assertions in Hin. apply elem_of_app in Hin as [Hin|Hin].
  - assert (token ≠ ValidToken ∧ want = cr_MissingStatus route) as [Htok ->]
      by (rewrite !elem_of_cons, elem_of_nil in Hin; by destruct Hin as [[= -> -> ->]|[[= -> -> ->]|[]]]).
    apply assertion_passes; [rewrite <- Hu; apply bk_untrusted_status|]. intros x. eexists. split; [done|].
    rewrite <- Hu. apply bk_untrusted_refused. rewrite trusts_request. by apply bool_decide_eq_false_2.
  - destruct (cr_TenantScoped route); [|by apply elem_of_nil in Hin]. cbn in Ht.
    destruct (bk_no_tenant a) as [c|] eqn:Hc; [|done]. apply andb_true_iff in Ht as [Ht Hbad].
    apply andb_true_iff in Ht as [Hcr Hno]. apply bool_decide_eq_true in Hcr. apply Z.eqb_eq in Hbad, Hno.
    assert (token = ValidToken ∧ tenant ∈ [EmptyString; "invalid"%string] ∧ want = c) as (-> & Hten & ->).
    { rewrite !elem_of_cons, elem_of_nil in Hin. destruct Hin as [[= -> -> ->]|[[= -> -> ->]|[]]]; set_solver. }
    apply assertion_passes; [done|]. intros x. eexists. split; [done|]. apply bk_no_tenant_refused; [|
      by rewrite request_tenant, malformed_tenant|done]. rewrite trusts_request. by apply bool_decide_eq_true_2.
Qed.

Lemma agreed_route route s :
  agrees b route = true → ∃ n, assert_all Test route (assertions route) s = ([], (n, s.2)).
Proof.
  intros Ha. assert (∀ p, p ∈ assertions route → p ∈ assertions route) as Hsub by done. revert s Hsub.
  generalize (assertions route) at 1 3. intros l. induction l as [|[[token tenant] want] l IH]; intros s Hsub; cbn.
  - exists s.1. by destruct s.
  - rewrite (agreed_assertion route token tenant want s Ha) by (apply Hsub; left).
    destruct (IH (Datatypes.S s.1, s.2)) as [n Hn]; [intros p Hp; apply Hsub; by right|]. by exists n.
Qed.

Lemma registered_spec key :
  forallb (λ r, String.prefix "/internal/" (rw_pattern r)) (bk_routes b) = true →
  key ∈ registered_keys (GetRoutes (bk_routes b))
  ↔ key ∈ map (λ r, route_key (rw_method r) (rw_pattern r)) (bk_routes b).
Proof.
  intros Hp. unfold registered_keys. rewrite elem_of_list_to_set, !list_elem_of_In, !in_map_iff.
  setoid_rewrite filter_In. setoid_rewrite <- list_elem_of_In. split.
  - intros ([m p] & <- & Hin & _). apply routes_listed in Hin as (r & Hr & <- & <-). by exists r.
  - intros (r & <- & Hr). exists (rw_method r, rw_pattern r). split; [done|]. split; [apply routes_listed; by exists r|].
    rewrite forallb_forall in Hp. apply Hp. by apply list_elem_of_In.
Qed.

Lemma existsb_key key l : existsb (String.eqb key) l = true → key ∈ l.
Proof. intros (k & Hk & ->%String.eqb_eq)%existsb_exists. by apply list_elem_of_In. Qed.

Lemma contract_passes routes s :
  forallb (agrees b) routes = true → covers b routes = true →
  ∃ n, run_contract b draws text unmatched on_error routes s = ([], (n, s.2)).
Proof.
  intros Ha Hc. unfold covers in Hc. apply andb_true_iff in Hc as [Hc Hreg]. apply andb_true_iff in Hc as [Hp Hdec].
  rewrite forallb_forall in Hreg, Hdec. unfold run_contract, Run.
  assert (∃ n, run_routes Test (GetRoutes (bk_routes b)) routes s = ([], (n, s.2))) as [n Hn].
  { rewrite forallb_forall in Ha.
    assert (∀ r, r ∈ routes → r ∈ routes) as Hsub by done. revert s Hsub.
    generalize routes at 1 3. intros l. induction l as [|r l IH]; intros s Hsub; cbn [run_routes].
    - exists s.1. by destruct s.
    - assert (r ∈ routes) as Hr by (apply Hsub; left). rewrite bool_decide_eq_true_2.
      + destruct (agreed_route r s) as [n Hn]; [by apply Ha, list_elem_of_In|]. rewrite Hn.
        destruct (IH (n, s.2)) as [n' Hn']; [intros r' Hr'; apply Hsub; by right|]. rewrite Hn'. by exists n'.
      + apply registered_spec; [done|]. apply existsb_key, Hdec, in_map_iff. exists r. split; [done|].
        by apply list_elem_of_In. }
  exists n. rewrite Hn. cbn. replace (_ ∖ _) with (∅ : gset string); [by rewrite elements_empty|]. symmetry.
  apply leibniz_equiv, equiv_empty. intros key [Hin Hnot]%elem_of_difference. destruct Hnot. rewrite elem_of_list_to_set.
  apply existsb_key, Hreg, list_elem_of_In. by apply registered_spec.
Qed.
End Backend.

Context `{AccountLib, Collation, PgText, Decoders}.

(** Every service is given the secret of the harness. *)
Definition contract_fleet (f : fleet) : Prop :=
  Forall (λ b, bk_verify b = NewMultiTokenVerifier [ValidToken]) (backends f).

(** The seven tests. *)
Definition contracts : list (list ContractRoute) :=
  [barber_contract; catalog_contract; scheduling_contract; appointment_contract; customer_contract; auth_contract;
   tenant_contract].

(** A service passes the harness from any state, which the run leaves alone. *)
Definition passes (b : backend) (routes : list ContractRoute) : Prop :=
  ∀ draws text unmatched on_error s,
    (∀ status, text (SendStatus status) = StatusMessage status) →
    ∃ n, run_contract b draws text unmatched on_error routes s = ([], (n, s.2)).

Lemma passes_checked b `{!Guarded b} routes :
  bk_verify b = NewMultiTokenVerifier [ValidToken] → forallb (agrees b) routes && covers b routes = true →
  passes b routes.
Proof. intros Hv [Ha Hc]%andb_true_iff draws text unmatched on_error s Htext. by eapply contract_passes. Qed.

(** C39: the contract tests of the seven services pass, for every data, fault and
    dependency the services can meet: each declared route is registered, each
    registered route is declared, requests without the token, with a wrong
    token, without a tenant or with a malformed one get the declared status, no
    reply discloses a token, and the run leaves the services' data alone. *)
Theorem contracts_hold f : contract_fleet f → Forall2 passes (backends f) contracts.
Proof.
  intros Hf. unfold contract_fleet, backends in Hf. unfold backends, contracts.
  repeat (apply Forall_cons in Hf as [? Hf]; constructor; [refine (passes_checked _ _ _ _); [done|vm_compute; reflexivity]|]).
  constructor.
Qed.
End Passing.

(** ** Examples *)

Section Examples.
#[local] Instance sample_lib : GoLib := LongLib.
#[local] Instance sample_accounts : AccountLib := TestAccounts.
#[local] Instance sample_collation : Collation := λ _, 0.
#[local] Instance sample_pg : PgText := TestPg.
#[local] Instance sample_decoders : Decoders := NoDecoders.
#[local] Instance sample_router : Router := FirstRouter.
#[local] Instance sample_router_laws : RouterLaws := FirstRouter_laws.
#[local] Instance sample_texts : StatusTexts :=
  λ status, if status =? 400 then "Bad Request"%string else if status =? 401 then "Unauthorized"%string else "Forbidden"%string.
#[local] Instance sample_texts_laws : StatusTextLaws.
Proof. by split. Qed.

Lemma strip_length p s r : strip p s = Some r → (String.length p <= String.length s)%nat.
Proof.
  revert s. induction p as [|c p IH]; intros [|c' s]; cbn; [lia|lia|done|].
  destruct (c ==? c'); [|done]. intros Hs%IH. lia.
Qed.
#[local] Instance sample_length : UuidLength.
Proof.
  intros s u. cbn -[strip]. destruct (strip long_prefix s) as [r|] eqn:E; [|done]. intros _.
  apply strip_length in E. cbn in E. lia.
Qed.

Lemma contracts_hold_witness :
  Forall (λ b, bk_verify b = NewMultiTokenVerifier [ValidToken]) (backends (sample_fleet ValidToken)) ∧
  Forall2 passes (backends (sample_fleet ValidToken)) contracts.
Proof.
  assert (contract_fleet (sample_fleet ValidToken)) as Hf.
  { unfold contract_fleet, backends. repeat (apply Forall_cons_2; [reflexivity|]). apply Forall_nil_2. }
  split; [exact Hf|]. apply (contracts_hold (sample_fleet ValidToken)). exact Hf.
Defined.
End Examples.
