(* ===== verification/Exposure.v ===== *)
(** * Exposure: what the gateway lets clients reach

    The gateway forwards a request to the path of a route with the parameters of
    the client's path filled in, and the service behind it matches that path
    against its own table.  This file composes the two tables: whatever a client
    puts into the parameters, a route for customers reaches handlers for
    customers, a route for staff handlers for staff, a route for the platform
    handlers for the platform, and no route reaches a handler that only services
    call; the probes of the health page reach no handler; and a request that may
    pass and has ordinary values is sent on to the handler whose pattern is the
    path of the route, with the values of the client, and its answer handed
    back. *)
From S2P Require Import Prelude Effects GoTime Http Platform Gateway Accounts Tenant FrontDoor Router Services.
Local Open Scope string_scope.

(** ** Filling in parameters *)

(** [s] up to its first slash is [g]. *)
Lemma Split_step c s :
  Split "/" (String c s) = if c ==? "/"%char then EmptyString :: Split "/" s
                           else match Split "/" s with
                                | g :: rest => String c g :: rest
                                | [] => [String c EmptyString]
                                end.
Proof. done. Qed.

(** A prefix without slashes is a prefix of the first segment. *)
Lemma prefix_segment old s g rest :
  has_char "/" old = false → Split "/" s = g :: rest → String.prefix old s = String.prefix old g.
Proof.
  revert old g rest. induction s as [|c s IH]; intros old g rest Ho E.
  { cbn in E. injection E as <- <-. done. }
  destruct old as [|o old]; [by destruct g|]. cbn [has_char] in Ho. apply orb_false_iff in Ho as [Hoc Ho].
  rewrite Split_step in E. destruct (Split_cons "/" s) as (g' & rest' & Es). rewrite Es in E.
  destruct (c ==? "/"%char) eqn:Ec; injection E as <- <-.
  - apply bool_decide_eq_true in Ec as ->. cbn. destruct (ascii_dec o "/") as [->|]; [|done].
    by rewrite bool_decide_refl in Hoc.
  - cbn. destruct (ascii_dec o c); [|done]. by eapply IH.
Qed.

Lemma prefix_length a b : String.prefix a b = true → (String.length a <= String.length b)%nat.
Proof.
  revert b. induction a as [|x a IH]; intros [|y b]; cbn; [lia|lia|done|]. destruct (ascii_dec x y); [|done].
  intros Hp%IH. lia.
Qed.

(** Filling in a text without slashes acts on each segment. *)
Lemma replace_from_segments old new skip s g rest :
  old ≠ EmptyString → has_char "/" old = false → has_char "/" new = false →
  Split "/" s = g :: rest → (skip <= String.length g)%nat →
  Split "/" (replace_from old new skip s)
  = replace_from old new skip g :: map (replace_from old new 0) rest.
Proof.
  intros Hne Ho Hn. revert skip g rest. induction s as [|c s IH]; intros skip g rest E Hk.
  { cbn in E. injection E as <- <-. done. }
  pose proof (prefix_segment old (String c s) g rest Ho E) as Hp.
  rewrite Split_step in E. destruct (Split_cons "/" s) as (g' & rest' & Es). rewrite Es in E.
  destruct (c ==? "/"%char) eqn:Ec; injection E as <- <-.
  - apply bool_decide_eq_true in Ec as ->. cbn in Hk. destruct skip; [|lia]. cbn [replace_from]. rewrite Hp.
    replace (String.prefix old EmptyString) with false by by destruct old. rewrite Split_step, bool_decide_refl.
    f_equal. rewrite (IH 0%nat g' rest' Es) by lia. done.
  - cbn [replace_from]. destruct skip as [|skip]; [|cbn in Hk; apply IH; [done|lia]]. rewrite Hp.
    destruct (String.prefix old (String c g')) eqn:Epre.
    + apply prefix_length in Epre. cbn in Epre.
      apply Split_app; [done|]. apply IH; [done|lia].
    + rewrite Split_step, Ec, (IH 0%nat g' rest' Es) by lia. done.
Qed.

Lemma ReplaceAll_segments old new s :
  old ≠ EmptyString → has_char "/" old = false → has_char "/" new = false →
  Split "/" (ReplaceAll s old new) = map (λ g, ReplaceAll g old new) (Split "/" s).
Proof.
  intros Hne Ho Hn. destruct (Split_cons "/" s) as (g & rest & E). rewrite E. unfold ReplaceAll.
  rewrite (replace_from_segments old new 0 s g rest) by (done || lia). done.
Qed.

(** A text without colons has no parameter to fill in. *)
Lemma ReplaceAll_plain s name new : has_char ":" s = false → ReplaceAll s (String ":" name) new = s.
Proof.
  unfold ReplaceAll. induction s as [|c s IH]; [done|]. cbn [has_char]. intros [Hc Hs]%orb_false_iff.
  cbn [replace_from String.prefix]. destruct (ascii_dec ":" c) as [<-|_]; [by rewrite bool_decide_refl in Hc|].
  by rewrite IH.
Qed.

Lemma ReplaceAll_free x s old new :
  has_char x s = false → has_char x new = false → has_char x (ReplaceAll s old new) = false.
Proof.
  unfold ReplaceAll. generalize 0%nat. induction s as [|c s IH]; intros skip Hs Hn; [done|]. cbn in Hs.
  apply orb_false_iff in Hs as [Hc Hs]. cbn [replace_from]. destruct skip; [|by apply IH].
  destruct (String.prefix _ _); [rewrite has_char_app, Hn; by apply IH|]. cbn. by rewrite Hc, IH.
Qed.

(** ** The services behind the gateway *)

Inductive upstream := UTenant | UAuth | UBarber | UCatalog | UScheduling | UAppointment | UCustomer.

Definition base_of (h : Handler) (svc : upstream) : string :=
  match svc with
  | UTenant => tenantURL h
  | UAuth => authURL h
  | UBarber => barberURL h
  | UCatalog => catalogURL h
  | UScheduling => schedulingURL h
  | UAppointment => appointmentURL h
  | UCustomer => customerURL h
  end.

Inductive any_action :=
| OfTenant (a : tenant_action) | OfAuth (a : auth_action) | OfBarber (a : barber_action)
| OfCatalog (a : catalog_action) | OfScheduling (a : scheduling_action) | OfAppointment (a : appointment_action)
| OfCustomer (a : customer_action).

Definition map_row {A B} (f : A -> B) (r : row A) : row B := mkRow (rw_method r) (rw_pattern r) (f (rw_handler r)).

Definition routes_of (svc : upstream) : list (row any_action) :=
  match svc with
  | UTenant => map (map_row OfTenant) tenant_Register
  | UAuth => map (map_row OfAuth) auth_Register
  | UBarber => map (map_row OfBarber) barber_Register
  | UCatalog => map (map_row OfCatalog) catalog_Register
  | UScheduling => map (map_row OfScheduling) scheduling_Register
  | UAppointment => map (map_row OfAppointment) appointment_Register
  | UCustomer => map (map_row OfCustomer) customer_Register
  end.

(** ** Audiences *)

(** Whom a handler is for: customers and guests of a shop, its staff, the
    operators of the platform, or only other services. *)
Inductive audience := ForCustomers | ForStaff | ForPlatform | ForServices.
#[export] Instance audience_eq_dec : EqDecision audience.
Proof. solve_decision. Defined.

Definition audience_of (a : any_action) : audience :=
  match a with
  | OfTenant (TnResolve | TnTLSAuthorize | TnInternalSettings) => ForServices
  | OfTenant TnPublicConfig => ForCustomers
  | OfTenant (TnAdminSettings | TnUpdateAdminSettings) => ForStaff
  | OfTenant _ => ForPlatform
  | OfAuth AuBarberEligibility => ForServices
  | OfAuth AuPlatformOwners => ForPlatform
  | OfAuth _ => ForStaff
  | OfBarber (BarberExists | SchedulingAccess | BranchBarberAccess) => ForServices
  | OfBarber (PublicBranches | PublicBarbers) => ForCustomers
  | OfBarber _ => ForStaff
  | OfCatalog CatAvailabilityService => ForServices
  | OfCatalog (CatPublic | CatPublicBarberServices) => ForCustomers
  | OfCatalog _ => ForStaff
  | OfScheduling SchAvailability => ForCustomers
  | OfScheduling _ => ForStaff
  | OfAppointment (AptPubCreate | AptPubGet | AptPubCancel) => ForCustomers
  | OfAppointment (AptList | AptGet | AptAdmCreate | AptReschedule | AptTransition _) => ForStaff
  | OfAppointment _ => ForServices
  | OfCustomer (CusResolveGuest | CusInternalCustomer | CusInternalSession) => ForServices
  | OfCustomer _ => ForCustomers
  end.

(** Whom a route that forwards requests is for: hosts of the booking or of the
    admin application, or holders of the platform credential.  The health page
    and the web pages are not forwarded to a handler of a service. *)
Definition area (e : endpoint) : option audience :=
  match e with
  | PlatformProxy _ | PlatformServiceProxy _ _ => Some ForPlatform
  | Config => Some ForCustomers
  | Auth _ => Some ForStaff
  | Proxy _ _ appType => Some (if appType ==? "booking" then ForCustomers else ForStaff)
  | PlatformHealth | Frontend => None
  end.

(** The path of a route at the service behind it, and that service. *)
Definition endpoint_path (e : endpoint) : string :=
  match e with
  | PlatformProxy path | PlatformServiceProxy _ path | Proxy _ path _ => path
  | Config => "/internal/v1/public/config"
  | Auth path => "/internal/v1/auth" +:+ path
  | PlatformHealth | Frontend => EmptyString
  end.
Definition endpoint_base (h : Handler) (e : endpoint) : string :=
  match e with
  | PlatformProxy _ | Config => tenantURL h
  | PlatformServiceProxy base _ | Proxy base _ _ => base
  | Auth _ => authURL h
  | PlatformHealth | Frontend => EmptyString
  end.

(** ** The path a service receives *)

(** How a segment of a URL arrives. *)
Class SegmentWire := wire_segment : string -> string.

Definition word_char (c : ascii) : bool :=
  let n := nat_of_ascii c in
  ((97 <=? n) && (n <=? 122) || (48 <=? n) && (n <=? 57))%nat || (c ==? "-"%char).
Definition word (s : string) : bool := forallb word_char (list_ascii_of_string s).

(** Escaping works on each segment, and leaves words as they are. *)
Class SegmentWireLaws `{SegmentWire} := {
  wire_no_slash : ∀ s, has_char "/" s = false → has_char "/" (wire_segment s) = false;
  wire_word : ∀ s, word s = true → wire_segment s = s
}.

(** The path of a URL ends at the query or the fragment. *)
Fixpoint path_part (s : string) : string :=
  match s with
  | EmptyString => EmptyString
  | String c s' => if (c ==? "?"%char) || (c ==? "#"%char) then EmptyString else String c (path_part s')
  end.

Definition on_wire `{SegmentWire} (path : string) : string := Join "/" (map wire_segment (Split "/" path)).

(** The path the service at [base], an address without a path, receives. *)
Definition received `{SegmentWire} (base url : string) : option string :=
  (λ rest, on_wire (path_part rest)) <$> cut_prefix base url.

(** ** What the gateway forwards *)

(** The parameters an endpoint fills in, in order. *)
Definition endpoint_params (e : endpoint) : list string :=
  match e with
  | PlatformProxy _ => ["id"; "domain_id"]
  | PlatformServiceProxy _ _ | Auth _ => ["id"]
  | Proxy _ _ _ => ["id"; "barber_id"; "service_id"]
  | Config | PlatformHealth | Frontend => []
  end%list.

Definition fill (names : list string) (params : string -> string) (path : string) : string :=
  fold_left (λ target name, ReplaceAll target (String ":" name) (params name)) names path.

Definition filled (e : endpoint) (c : Ctx) : string := fill (endpoint_params e) (Ctx_Params c) (endpoint_path e).

Definition forward_method (e : endpoint) (method : string) : string := match e with Config => "GET" | _ => method end.

(** The URL of the request at the service; [proxy] appends the query of the
    client. *)
Definition query_part (e : endpoint) (c : Ctx) : string :=
  match e with
  | Proxy _ _ _ => if Ctx_QueryString c !=? EmptyString then "?" +:+ Ctx_QueryString c else EmptyString
  | _ => EmptyString
  end.
Definition target_url (h : Handler) (e : endpoint) (c : Ctx) : string :=
  endpoint_base h e +:+ filled e c +:+ query_part e c.

(** The request of the client, at the service behind the route. *)
Definition forwarded (h : Handler) (e : endpoint) (c : Ctx) (u : UpRequest) : Prop :=
  up_method u = forward_method e (Ctx_Method c) ∧ up_url u = target_url h e c.

Definition session_url (h : Handler) : string := customerURL h +:+ "/internal/v1/internal/customer/session".

(** The platform credential of the request. *)
Definition platform_ok (h : Handler) (c : Ctx) : bool :=
  PlatformVerifier_Verify (h_platformAuth h) (Ctx_Get c PlatformTokenHeader).

(** All the gateway sends for a request: the lookup of the host, the check of
    the customer's session, and the request itself, or the probes of the health
    page or the request for a web page. *)
Inductive gateway_sends `{GoLib, GatewayLib} net (h : Handler) (e : endpoint) (c : Ctx) log (u : UpRequest) : Prop :=
| s_lookup : platform_only e = false → u = host_lookup h c → gateway_sends net h e c log u
| s_session base path app :
    e = Proxy base path app → up_method u = "GET" → up_url u = session_url h → gateway_sends net h e c log u
| s_forwarded who : area e = Some who → forwarded h e c u → gateway_sends net h e c log u
| s_probe : e = PlatformHealth → platform_ok h c = true → health_probe h u → gateway_sends net h e c log u
| s_page : e = Frontend → page_request net h c log u → gateway_sends net h e c log u.

Section Forwarding.
Context `{GoLib, GatewayLib} (net : list UpRequest -> UpRequest -> up_result) (h : Handler).

Lemma auth_path_filled path v :
  ReplaceAll ("/internal/v1/auth" +:+ path) ":id" v = "/internal/v1/auth" +:+ ReplaceAll path ":id" v.
Proof. done. Qed.

Lemma plain_target base s : base +:+ s = base +:+ s +:+ EmptyString.
Proof. by rewrite string_app_nil. Qed.

Lemma proxy_target_url base path app c :
  base +:+ proxy_target path c = target_url h (Proxy base path app) c.
Proof.
  unfold target_url, proxy_target. cbn [query_part endpoint_base].
  destruct (Ctx_QueryString c !=? EmptyString); [done|apply plain_target].
Qed.

Lemma proxy_sends base path appType c log :
  sends (gateway_sends net h (Proxy base path appType) c log) (proxy net h base path appType c) log.
Proof.
  apply sends_resolved; [by apply s_lookup|]. intros r _. destruct (_ !=? _); [apply sends_ret|].
  unfold NewRequest. destruct (NewRequest_ok _ _); [|apply sends_ret]. cbv zeta.
  set (req := set_nonempty "Cookie" _ _). apply sends_bind.
  - destruct (customer_header_cases net h base path r c (log ++ [host_lookup h c])%list) as [E|(u & _ & _ & _ & Em & Eu & E)];
      unfold sends; rewrite E; [exists []; by rewrite app_nil_r|]. exists [u]. split; [done|].
    constructor; [by eapply s_session|constructor].
  - intros id log'. apply sends_do; [|apply sends_ret]. eapply s_forwarded; [done|]. split.
    + destruct id; cbn [up_method set_header]; subst req; fields.
    + rewrite <- proxy_target_url. destruct id; cbn [up_url set_header]; subst req; fields.
Qed.

(** The gateway sends nothing else. *)
Lemma serve_sends e c log : sends (gateway_sends net h e c log) (Gateway.serve net h e c) log.
Proof.
  destruct e as [path|base path| | |path|base path appType|]; cbn [Gateway.serve].
  - unfold platformProxy. destruct (negb _); [apply sends_ret|]. cbv zeta. unfold NewRequest.
    destruct (NewRequest_ok _ _); [|apply sends_ret]. apply sends_do; [|apply sends_ret].
    eapply s_forwarded; [done|]. split; [done|]. apply plain_target.
  - unfold platformServiceProxy. destruct (negb _); [apply sends_ret|]. cbv zeta. unfold NewRequest.
    destruct (NewRequest_ok _ _); [|apply sends_ret]. apply sends_do; [|apply sends_ret].
    eapply s_forwarded; [done|]. split; [done|]. apply plain_target.
  - apply sends_platformHealth. intros Hv u Hu. by apply s_probe.
  - apply sends_resolved; [by apply s_lookup|]. intros r _. unfold NewRequest.
    destruct (NewRequest_ok _ _); [|apply sends_ret].
    apply sends_do; [|apply sends_ret]. eapply s_forwarded; [done|]. split; [done|]. apply plain_target.
  - assert (sends (gateway_sends net h (Auth path) c log) (auth net h path c) log) as (sent & E & Hs).
    { unfold auth. apply sends_resolve; [by apply s_lookup|intros []; apply sends_ret|].
      destruct (resolution_of _) as [r|[]]; [|apply sends_ret..]. destruct (_ !=? _); [apply sends_ret|]. cbv zeta.
      unfold NewRequest. destruct (NewRequest_ok _ _); [|apply sends_ret]. apply sends_do; [|apply sends_ret].
      eapply s_forwarded; [done|]. split; [fields|]. rewrite set_nonempty_url. apply plain_target. }
    exists sent. split; [|done]. rewrite <- E. unfold mbind, gw_bind. by destruct (auth net h path c log).
  - apply proxy_sends.
  - destruct (edge_frontend net h c log) as (sent & E & Hs). exists sent. split; [exact E|].
    eapply Forall_impl; [exact Hs|]. intros u [? ->|? ? []|? ? []|? ?|?|? Hp]; try done; [by apply s_lookup|by apply s_page].
Qed.

(** ** What the gateway must send *)

(** The request may pass: the platform credential verifies, or the host leads to
    a tenant and a type that the route serves. *)
Definition admitted (e : endpoint) (c : Ctx) (log : list UpRequest) : Prop :=
  match e with
  | PlatformProxy _ | PlatformServiceProxy _ _ => platform_ok h c = true
  | Config | Auth _ | Proxy _ _ _ =>
      NewRequest_ok "GET" (up_url (host_lookup h c)) = true ∧ ∃ r, resolves net h c log r ∧ allowed e r
  | PlatformHealth | Frontend => False
  end.

(** The query and the body of the client, as each kind of route forwards them:
    [proxy] puts the query into the URL, [auth] drops it, and the owners of a
    tenant are a GET without either. *)
Definition as_written (e : endpoint) (c : Ctx) (u : UpRequest) : Prop :=
  match e with
  | PlatformProxy _ => up_rawquery u = Some (Ctx_QueryString c) ∧ up_body u = Ctx_Body c
  | Auth _ | Proxy _ _ _ => up_rawquery u = None ∧ up_body u = Ctx_Body c
  | _ => up_rawquery u = None ∧ up_body u = EmptyString
  end.

(** How the answer of the service goes back to the client. *)
Definition handed_back (e : endpoint) (u : UpRequest) (reply : up_result) : gw_reply :=
  match e with
  | PlatformServiceProxy _ _ => forward_read u reply
  | Auth _ | Proxy _ _ _ => forward_cookies reply
  | _ => forward_body reply
  end.

Definition preliminary (c : Ctx) (u : UpRequest) : Prop :=
  u = host_lookup h c ∨ up_method u = "GET" ∧ up_url u = session_url h.

(** The gateway passes the request on and hands the answer back. *)
Definition passes_on (e : endpoint) (c : Ctx) (log : list UpRequest) (P : UpRequest -> Prop) : Prop :=
  ∃ before u, Gateway.serve net h e c log
              = (handed_back e u (net (log ++ before)%list u), (log ++ before ++ [u])%list) ∧
    Forall (preliminary c) before ∧ as_written e c u ∧ P u.

Lemma platform_passes path c log :
  platform_ok h c = true → NewRequest_ok (Ctx_Method c) (target_url h (PlatformProxy path) c) = true →
  passes_on (PlatformProxy path) c log (forwarded h (PlatformProxy path) c).
Proof.
  intros Ha Hok. unfold passes_on. cbn [Gateway.serve]. unfold platformProxy, NewRequest. unfold platform_ok in Ha.
  rewrite Ha. cbn [negb]. unfold target_url in Hok. cbn [query_part] in Hok. rewrite <- plain_target in Hok.
  cbv zeta. change (tenantURL h +:+ ReplaceAll _ _ _) with (endpoint_base h (PlatformProxy path) +:+ filled (PlatformProxy path) c).
  rewrite Hok. eexists [], _. rewrite app_nil_r. split; [reflexivity|]. split; [constructor|]. split; [done|].
  split; [done|]. apply plain_target.
Qed.

Lemma platform_service_passes base path c log :
  platform_ok h c = true → NewRequest_ok (Ctx_Method c) (target_url h (PlatformServiceProxy base path) c) = true →
  passes_on (PlatformServiceProxy base path) c log (forwarded h (PlatformServiceProxy base path) c).
Proof.
  intros Ha Hok. unfold passes_on. cbn [Gateway.serve]. unfold platformServiceProxy, NewRequest. unfold platform_ok in Ha.
  rewrite Ha. cbn [negb]. unfold target_url in Hok. cbn [query_part] in Hok. rewrite <- plain_target in Hok.
  cbv zeta. change (base +:+ ReplaceAll _ _ _)
    with (endpoint_base h (PlatformServiceProxy base path) +:+ filled (PlatformServiceProxy base path) c).
  rewrite Hok. eexists [], _. rewrite app_nil_r. split; [reflexivity|]. split; [constructor|]. split; [done|].
  split; [done|]. apply plain_target.
Qed.

Lemma config_passes c log :
  admitted Config c log → NewRequest_ok "GET" (target_url h Config c) = true →
  passes_on Config c log (forwarded h Config c).
Proof.
  intros (Hl & r & Hr & _) Hok. unfold passes_on. cbn [Gateway.serve]. unfold config, resolved, mbind at 1, gw_bind at 1.
  rewrite Resolve_run, Hr by done. unfold NewRequest. unfold target_url in Hok. cbn [query_part] in Hok.
  rewrite <- plain_target in Hok. cbn in Hok. rewrite Hok. eexists [host_lookup h c], _.
  split; [by rewrite app_assoc|]. split; [repeat constructor|]. split; [done|]. split; [done|]. apply plain_target.
Qed.

Lemma auth_passes path c log :
  admitted (Auth path) c log → NewRequest_ok (Ctx_Method c) (target_url h (Auth path) c) = true →
  passes_on (Auth path) c log (forwarded h (Auth path) c).
Proof.
  intros (Hl & r & Hr & Ha) Hok. unfold passes_on. cbn [Gateway.serve]. unfold mbind, gw_bind.
  unfold target_url in Hok. cbn [query_part] in Hok. rewrite <- plain_target in Hok.
  destruct (auth_forwards net h path c log r Hl Hr Ha Hok) as (u & E & Em & Eu & Eq & Eb). rewrite E.
  exists [host_lookup h c], u. split; [done|]. split; [repeat constructor|]. split; [done|]. split; [done|].
  rewrite Eu. apply plain_target.
Qed.

Lemma proxy_passes base path app c log :
  admitted (Proxy base path app) c log → NewRequest_ok (Ctx_Method c) (target_url h (Proxy base path app) c) = true →
  passes_on (Proxy base path app) c log (forwarded h (Proxy base path app) c).
Proof.
  intros (Hl & r & Hr & <-) Hok. rewrite <- proxy_target_url in Hok. unfold passes_on. cbn [Gateway.serve].
  destruct (proxy_forwards h net base path c log r Hl Hr Hok) as (session & u & E & Hs & (Em & Eu & Eb & _ & Eq)).
  exists ([host_lookup h c] ++ session)%list, u. split; [by rewrite E, <- (app_assoc log)|].
  split; [|split; [done|split; [done|by rewrite Eu, (proxy_target_url _ _ (Res_AppType r))]]].
  constructor; [by left|]. destruct Hs as [->|(s & -> & ?)]; [constructor|]. constructor; [by right|constructor].
Qed.

Lemma admitted_passes e c log :
  admitted e c log → NewRequest_ok (forward_method e (Ctx_Method c)) (target_url h e c) = true →
  passes_on e c log (forwarded h e c).
Proof.
  destruct e; intros Ha; [apply platform_passes|apply platform_service_passes|done|apply config_passes|apply auth_passes
    |apply proxy_passes|done]; done.
Qed.
End Forwarding.

(** *** Filling in one segment *)

Lemma replace_from_skip old new s : replace_from old new (String.length s) s = EmptyString.
Proof. induction s as [|c s IH]; [done|]. cbn. exact IH. Qed.

Lemma prefix_refl s : String.prefix s s = true.
Proof. induction s as [|c s IH]; [done|]. cbn. by destruct (ascii_dec c c). Qed.

Lemma ReplaceAll_same name v : ReplaceAll (String ":" name) (String ":" name) v = v.
Proof.
  unfold ReplaceAll. cbn [replace_from String.length]. rewrite prefix_refl, Nat.sub_succ, Nat.sub_0_r.
  by rewrite replace_from_skip, string_app_nil.
Qed.

Lemma ReplaceAll_other name other v :
  has_char ":" name = false → String.prefix other name = false →
  ReplaceAll (String ":" name) (String ":" other) v = String ":" name.
Proof.
  intros Hn Hp. unfold ReplaceAll. cbn [replace_from String.prefix].
  destruct (ascii_dec ":" ":"); [|done]. rewrite Hp. f_equal. by apply ReplaceAll_plain.
Qed.

Lemma fill_plain names params s : has_char ":" s = false → fill names params s = s.
Proof.
  intros Hs. unfold fill. induction names as [|n names IH]; [done|]. cbn. by rewrite ReplaceAll_plain.
Qed.

(** No other name is confused with [name]. *)
Definition fills (names : list string) (name : string) : bool :=
  negb (has_char ":" name) && existsb (String.eqb name) names
  && forallb (λ m, String.eqb m name || negb (String.prefix m name)) names.

Lemma fill_param names params name :
  fills names name = true → has_char ":" (params name) = false →
  fill names params (String ":" name) = params name.
Proof.
  intros Hf Hv. unfold fills in Hf. apply andb_true_iff in Hf as [Hf Hall]. apply andb_true_iff in Hf as [Hc Hin].
  apply negb_true_iff in Hc. induction names as [|m names IH]; [done|]. cbn in Hin, Hall.
  apply andb_true_iff in Hall as [Hm Hall]. unfold fill in *. cbn [fold_left].
  destruct (String.eqb_spec m name) as [->|Hne].
  - rewrite ReplaceAll_same. by apply (fill_plain names params).
  - cbn in Hm. apply negb_true_iff in Hm. rewrite ReplaceAll_other by done. apply IH; [|done].
    destruct (String.eqb_spec name m) as [->|]; [done|]. exact Hin.
Qed.

Lemma fill_segments names params s :
  Forall (λ n, has_char "/" n = false) names → (∀ n, has_char "/" (params n) = false) →
  Split "/" (fill names params s) = map (fill names params) (Split "/" s).
Proof.
  intros Hn Hp. unfold fill. revert s. induction Hn as [|n names Hn _ IH]; intros s; cbn [fold_left].
  { by rewrite map_id. }
  rewrite IH, ReplaceAll_segments, map_map by (done || by cbn; rewrite Hn). done.
Qed.

(** ** Instances of the path of a route *)

(** A value of a parameter: one segment of the path of the client's request. *)
Definition path_value (v : string) : Prop :=
  has_char "/" v = false ∧ has_char "?" v = false ∧ has_char "#" v = false.

(** [path] is the route's path [pattern] with some parameters filled in. *)
Definition filling (pattern path : string) : Prop :=
  instance_of (template pattern) (Split "/" path) ∧ has_char "?" path = false ∧ has_char "#" path = false.

Definition fixed_plain (pattern : string) : bool :=
  forallb (λ x, match x with Fixed t => negb (has_char ":" t) && word t | Free => true end) (template pattern)
  && negb (has_char "?" pattern) && negb (has_char "#" pattern).

Lemma filling_start pattern : fixed_plain pattern = true → filling pattern pattern.
Proof.
  intros Hp. unfold fixed_plain in Hp. apply andb_true_iff in Hp as [Hp H3]. apply andb_true_iff in Hp as [_ H2].
  apply negb_true_iff in H2, H3. split; [|done]. unfold template. induction (Split "/" pattern) as [|p l IH]; constructor;
    [by destruct (param_name p)|done].
Qed.

Lemma filling_replace pattern path name v :
  fixed_plain pattern = true → has_char "/" name = false → path_value v →
  filling pattern path → filling pattern (ReplaceAll path (String ":" name) v).
Proof.
  intros Hp Hname (Hv1 & Hv2 & Hv3) (Hi & Hq & Hf). split; [|split; by apply ReplaceAll_free].
  rewrite ReplaceAll_segments by done. unfold fixed_plain in Hp.
  apply andb_true_iff in Hp as [Hp _]. apply andb_true_iff in Hp as [Hp _]. unfold instance_of in *.
  induction Hi as [|x s q l Hx Hl IH]; [constructor|]. cbn in Hp. apply andb_true_iff in Hp as [Hx' Hp].
  constructor; [|by apply IH]. destruct x as [t|]; [|done]. cbn in Hx. subst.
  apply andb_true_iff in Hx' as [Ht _]. apply negb_true_iff in Ht. cbn. by apply ReplaceAll_plain.
Qed.

Lemma filling_fill pattern names params path :
  fixed_plain pattern = true → Forall (λ n, has_char "/" n = false) names → (∀ n, path_value (params n)) →
  filling pattern path → filling pattern (fill names params path).
Proof.
  intros Hp Hn Hv. revert path. induction Hn as [|n names Hn _ IH]; intros path Hf; [done|].
  cbn. apply IH. by apply filling_replace.
Qed.

(** The escaped path is an instance too. *)
Lemma on_wire_instance `{SegmentWireLaws} pattern path :
  fixed_plain pattern = true → filling pattern path →
  instance_of (template pattern) (Split "/" (on_wire path)).
Proof.
  intros Hp (Hi & _). unfold on_wire. unfold fixed_plain in Hp.
  apply andb_true_iff in Hp as [Hp _]. apply andb_true_iff in Hp as [Hp _]. rewrite Split_Join.
  - unfold instance_of in *. clear - Hi Hp H0. induction Hi as [|x s q l Hx Hl IH]; [constructor|].
    cbn in Hp. apply andb_true_iff in Hp as [Hx' Hp]. constructor; [|by apply IH].
    destruct x as [t|]; [|done]. cbn in Hx. subst. apply andb_true_iff in Hx' as [_ Ht]. cbn. by apply wire_word.
  - destruct (Split_cons "/" path) as (g & rest & E). by rewrite E.
  - pose proof (Split_char_free "/" path) as Hs. clear Hi Hp.
    induction Hs; cbn; constructor; [by apply wire_no_slash|done].
Qed.

Lemma path_part_app path suffix :
  has_char "?" path = false → has_char "#" path = false → suffix = EmptyString ∨ (∃ q, suffix = String "?" q) →
  path_part (path +:+ suffix) = path.
Proof.
  intros Hq Hf Hs. induction path as [|c path IH].
  { destruct Hs as [->|[q ->]]; done. }
  cbn in Hq, Hf. apply orb_false_iff in Hq as [Hq1 Hq], Hf as [Hf1 Hf].
  change (String c path +:+ suffix) with (String c (path +:+ suffix)). cbn [path_part]. rewrite Hq1, Hf1. cbn.
  by rewrite IH.
Qed.

(** ** The handlers a route reaches *)

Definition pattern_params (pattern : string) : list string := omap param_name (Split "/" pattern).

(** The route of the gateway is at a service, can reach only handlers for its
    audience there, and the handler of its path for ordinary values. *)
Definition well_placed (method pattern : string) (who : audience) (svc : upstream) : bool :=
  fixed_plain pattern && (method !=? "HEAD")
  && forallb (λ a, audience_of a ==? who) (reachable (routes_of svc) method (template pattern))
  && ends_full (template pattern)
  && match decided (routes_of svc) method (template pattern) with
     | Some r => rw_pattern r ==? pattern
     | None => false
     end.

Definition route_placed (h : Handler) (rt : Route) : Prop :=
  ∃ svc who, endpoint_base h (r_endpoint rt) = base_of h svc ∧ area (r_endpoint rt) = Some who ∧
    forward_method (r_endpoint rt) (r_method rt) = r_method rt ∧
    forallb (λ n, fills (endpoint_params (r_endpoint rt)) n && existsb (String.eqb n) (pattern_params (r_pattern rt)))
      (pattern_params (endpoint_path (r_endpoint rt))) = true ∧
    well_placed (r_method rt) (endpoint_path (r_endpoint rt)) who svc = true.

(** All routes but the health page. *)
Ltac place_at svc :=
  exists svc; eexists; split; [reflexivity|]; split; [reflexivity|]; split; [reflexivity|];
  split; vm_compute; reflexivity.

Lemma routes_placed h : Forall (λ rt, r_endpoint rt = PlatformHealth ∨ route_placed h rt) (routes h).
Proof.
  repeat (constructor; [first [by left | right; first [place_at UTenant | place_at UAuth | place_at UBarber | place_at UCatalog
    | place_at UScheduling | place_at UAppointment | place_at UCustomer]]|]).
  constructor.
Qed.

Lemma well_placed_spec method pattern who svc :
  well_placed method pattern who svc = true →
  fixed_plain pattern = true ∧ method ≠ "HEAD" ∧
  (∀ a, a ∈ reachable (routes_of svc) method (template pattern) → audience_of a = who) ∧
  ends_full (template pattern) = true ∧
  ∃ r, decided (routes_of svc) method (template pattern) = Some r ∧ rw_pattern r = pattern.
Proof.
  intros Hw. unfold well_placed in Hw. apply andb_true_iff in Hw as [Hw Hd]. apply andb_true_iff in Hw as [Hw He].
  apply andb_true_iff in Hw as [Hw Hr]. apply andb_true_iff in Hw as [Hp Hm]. split; [done|]. split; [by bsimpl|].
  split; [|split; [done|]].
  - intros a Hin. rewrite forallb_forall in Hr. by apply list_elem_of_In, Hr, bool_decide_eq_true in Hin.
  - destruct (decided _ _ _) as [r|]; [|done]. exists r. split; [done|]. by apply bool_decide_eq_true in Hd.
Qed.

Lemma area_open e who : area e = Some who → who ≠ ForServices.
Proof. destruct e as [| | | | |base path app|]; cbn; intros [= <-]; try done. by destruct (app ==? "booking"). Qed.

(** The endpoint a route runs: the handlers of the auth routes write the filled
    path back into the variable they captured. *)
Inductive runs (e : endpoint) : endpoint -> Prop :=
| runs_first : runs e e
| runs_after path v :
    runs e (Auth path) → path_value v → runs e (Auth (ReplaceAll path ":id" v)).

Lemma runs_cases e e' :
  fixed_plain (endpoint_path e) = true → runs e e' →
  (∀ h, endpoint_base h e' = endpoint_base h e) ∧ area e' = area e ∧ (∀ m, forward_method e' m = forward_method e m) ∧
  filling (endpoint_path e) (endpoint_path e').
Proof.
  intros Hp Hr. induction Hr as [|path v Hr IH Hv].
  { split; [done|]. split; [done|]. split; [done|]. by apply filling_start. }
  destruct IH as (Hb & Ha & Hm & Hf). split; [done|]. split; [done|]. split; [done|]. cbn [endpoint_path].
  rewrite <- auth_path_filled. by apply filling_replace.
Qed.

Lemma filled_filling e e' c :
  fixed_plain (endpoint_path e) = true → runs e e' → (∀ n, path_value (Ctx_Params c n)) →
  filling (endpoint_path e) (filled e' c).
Proof.
  intros Hp Hr Hv. destruct (runs_cases e e' Hp Hr) as (_ & _ & _ & Hf). unfold filled.
  apply filling_fill; [done| |done|done]. destruct e'; repeat constructor.
Qed.

(** ** What a match yields *)

Lemma match_segments_values pattern path values :
  match_segments pattern path = Some values → Forall (λ kv, kv.2 ∈ path) values.
Proof.
  revert path values. induction pattern as [|p pattern IH]; intros [|s path] values; cbn; try done.
  { intros [= <-]. constructor. }
  destruct (param_name p).
  - case_bool_decide; [done|]. destruct (match_segments pattern path) as [v|] eqn:E; [|done]. intros [= <-].
    constructor; [by left|]. eapply Forall_impl; [by apply IH|]. intros kv. by right.
  - destruct (same_text p s); [|done]. intros Hv%IH. eapply Forall_impl; [exact Hv|]. intros kv. by right.
Qed.

Lemma first_match_in {A} (table : list (row A)) method path a values :
  first_match table method path = Some (a, values) →
  ∃ r, r ∈ table ∧ method = rw_method r ∧ rw_handler r = a ∧ Forall (λ kv, kv.2 ∈ path) values.
Proof.
  induction table as [|r table IH]; cbn; [done|]. case_bool_decide as Hm.
  - destruct (match_segments _ _) as [v|] eqn:E.
    + intros [= <- <-]. exists r. split; [by left|]. split; [done|]. split; [done|]. by eapply match_segments_values.
    + intros (r' & Hr & ?)%IH. exists r'. split; [by right|done].
  - intros (r' & Hr & ?)%IH. exists r'. split; [by right|done].
Qed.

Lemma Param_free x values n :
  Forall (λ kv, has_char x kv.2 = false) values → has_char x (Param values n) = false.
Proof. induction 1 as [|[k v] l Hv _ IH]; cbn; [done|]. by destruct (k ==? n). Qed.

Lemma Split_keeps_free x s : has_char x s = false → Forall (λ g, has_char x g = false) (Split "/" s).
Proof.
  induction s as [|c s IH]; intros Hs; [by constructor|]. cbn in Hs. apply orb_false_iff in Hs as [Hc Hs].
  specialize (IH Hs). rewrite Split_step. destruct (c ==? "/"%char); [by constructor|].
  destruct (Split "/" s) as [|g rest]; [by constructor; [cbn; by rewrite Hc|]|]. apply Forall_cons in IH as [Hg Hr].
  constructor; [cbn; by rewrite Hc|done].
Qed.

Lemma trim_tail_subset l s : s ∈ trim_tail l → s ∈ l.
Proof.
  induction l as [|x l IH]; cbn; [done|]. destruct (trim_tail l) as [|y t].
  - case_bool_decide; [by intros ?%elem_of_nil|]. rewrite !elem_of_cons, elem_of_nil. intuition.
  - rewrite !elem_of_cons in *. intuition.
Qed.

Lemma segments_free x path v :
  v ∈ segments path → x = "/"%char ∨ has_char x path = false → has_char x v = false.
Proof.
  intros Hv%trim_tail_subset [->|Hx].
  - by apply (proj1 (Forall_forall _ _) (Split_char_free "/" path)).
  - by apply (proj1 (Forall_forall _ _) (Split_keeps_free x path Hx)).
Qed.

Lemma decided_in {A} (table : list (row A)) method q r :
  decided table method q = Some r → r ∈ table ∧ rw_method r = method.
Proof.
  induction table as [|r' table IH]; cbn; [done|]. destruct (rw_method r' ==? method) eqn:Em; cbn.
  - destruct (must_match _ q); [|intros [? ?]%IH; split; [by right|done]]. intros [= <-].
    apply bool_decide_eq_true in Em. split; [by left|done].
  - intros [? ?]%IH. split; [by right|done].
Qed.

Lemma ends_full_last pattern :
  ends_full (template pattern) = true →
  match last (Split "/" pattern) with Some s => s ≠ EmptyString | None => True end.
Proof.
  unfold ends_full, template. change (map ?f ?l) with (f <$> l). rewrite fmap_last.
  destruct (last (Split "/" pattern)) as [p|]; [|done]. cbn. destruct (param_name p) as [n|] eqn:E.
  - intros _ ->. done.
  - intros Hp. by bsimpl.
Qed.

Section Exposed.
Context `{GoLib, GatewayLib, SegmentWire, !SegmentWireLaws, Router, !RouterLaws}.

(** The path the service receives of a forwarded request. *)
Lemma forwarded_path h e e' c u :
  fixed_plain (endpoint_path e) = true → runs e e' → (∀ n, path_value (Ctx_Params c n)) → forwarded h e' c u →
  received (endpoint_base h e) (up_url u) = Some (on_wire (filled e' c)).
Proof.
  intros Hp Hr Hv (_ & ->). destruct (runs_cases e e' Hp Hr) as (Hb & _).
  destruct (filled_filling e e' c Hp Hr Hv) as (_ & Hq & Hf).
  unfold target_url. rewrite Hb. unfold received. rewrite cut_prefix_app. cbn. rewrite path_part_app; [done..|].
  destruct e'; cbn [query_part]; try by left. destruct (_ !=? _); [right; by eexists|by left].
Qed.

(** The request reaches only handlers for the audience of the route. *)
Definition stays_in (h : Handler) (who : audience) (u : UpRequest) : Prop :=
  ∃ svc path, received (base_of h svc) (up_url u) = Some path ∧
    ∀ a values, Dispatch (routes_of svc) (up_method u) path = Some (a, values) → audience_of a = who.

(** ** Requests of clients *)

Definition gateway_rows (h : Handler) : list (row Route) :=
  map (λ rt, mkRow (r_method rt) (r_pattern rt) rt) (routes h).

(** The router of the gateway sends the request of [c] to [rt]; a path has
    neither query nor fragment. *)
Definition client_request (h : Handler) (c : Ctx) (rt : Route) : Prop :=
  Ctx_Method c ≠ "HEAD" ∧ has_char "?" (Ctx_Path c) = false ∧ has_char "#" (Ctx_Path c) = false ∧
  ∃ values, Dispatch (gateway_rows h) (Ctx_Method c) (Ctx_Path c) = Some (rt, values) ∧
    ∀ n, Ctx_Params c n = Param values n.

Lemma client_request_spec h c rt :
  client_request h c rt → rt ∈ routes h ∧ Ctx_Method c = r_method rt ∧ ∀ n, path_value (Ctx_Params c n).
Proof.
  intros (Hm & Hq & Hf & values & Hd & Hp). rewrite dispatch_first in Hd by done.
  apply first_match_in in Hd as (r & Hr & Hmeth & Hh & Hval). unfold gateway_rows in Hr.
  apply list_elem_of_In, in_map_iff in Hr as (rt' & <- & Hin%list_elem_of_In). cbn in Hmeth, Hh. subst rt'.
  split; [done|]. split; [done|]. intros n. rewrite Hp. unfold path_value.
  split; [|split]; apply Param_free; (eapply Forall_impl; [exact Hval|]); cbn; intros v Hv; apply (segments_free _ _ _ Hv); auto.
Qed.

(** What runs for the request of [c]: the handler of the route, or the handler
    that [app.Use] registered when no route matches. *)
Inductive gateway_runs (h : Handler) (c : Ctx) : endpoint -> Prop :=
| by_route rt e : client_request h c rt → runs (r_endpoint rt) e → gateway_runs h c e
| by_use : Dispatch (gateway_rows h) (Ctx_Method c) (Ctx_Path c) = None → gateway_runs h c (fallback h).

(** The pages of every service that are not in its table of routes. *)
Lemma probe_pages_unrouted svc page :
  page ∈ ["/ready"; "/metrics"]%list → Dispatch (routes_of svc) "GET" page = None.
Proof.
  intros Hp. rewrite dispatch_first by done. apply list_elem_of_In in Hp as [<-|[<-|[]]]; by destruct svc; vm_compute.
Qed.

(** What a request of the gateway can reach. *)
Inductive exposed_to net (h : Handler) (e : endpoint) (c : Ctx) log (u : UpRequest) : Prop :=
| x_lookup : platform_only e = false → u = host_lookup h c → exposed_to net h e c log u
| x_session base path app :
    e = Proxy base path app → up_method u = "GET" → up_url u = session_url h → exposed_to net h e c log u
| x_handler who : area e = Some who → who ≠ ForServices → stays_in h who u → exposed_to net h e c log u
| x_probe name base page :
    e = PlatformHealth → platform_ok h c = true →
    (name, base) ∈ services h → page ∈ ["/ready"; "/metrics"]%list →
    u = mkUpRequest "GET" (base +:+ page) None None [] EmptyString →
    (∀ svc, Dispatch (routes_of svc) "GET" page = None) → exposed_to net h e c log u
| x_page : e = Frontend → page_request net h c log u → exposed_to net h e c log u.

Lemma forwarded_stays h rt e c u who :
  client_request h c rt → runs (r_endpoint rt) e → area e = Some who → forwarded h e c u → stays_in h who u.
Proof.
  intros (Hrt & Hm & Hv)%client_request_spec Hrun Hw Hu.
  destruct (proj1 (Forall_forall _ _) (routes_placed h) rt Hrt) as [Eh|(svc & who' & Hb & Ha & Hg & _ & Hpl)].
  { rewrite Eh in Hrun. inversion Hrun as [|path v Hrun' _]; subst; [done|]. clear -Hrun'.
    exfalso. remember PlatformHealth as e0 eqn:E0. remember (Auth path) as e1 eqn:E1. revert path E1.
    induction Hrun' as [|path' v' Hr IH Hv']; intros path E1; [congruence|]. by eapply IH. }
  apply well_placed_spec in Hpl as (Hplain & Hhead & Hreach & _).
  destruct (runs_cases (r_endpoint rt) e Hplain Hrun) as (_ & Ha' & Hmeth & _).
  assert (who' = who) as -> by congruence.
  exists svc, (on_wire (filled e c)). rewrite <- Hb. split; [by eapply forwarded_path|]. intros a values.
  destruct Hu as [-> _]. rewrite Hmeth, Hm, Hg, dispatch_first by done. intros Hd.
  apply Hreach. eapply reachable_sound; [|exact Hd]. apply on_wire_instance; [done|]. by apply filled_filling.
Qed.


(** ** Ordinary values *)

(** A value such as an id: a word that no table of the services mentions. *)
Definition plain_value (v : string) : Prop := word v = true ∧ ∀ svc, ordinary (routes_of svc) v.

Lemma ordinary_checked {A} (table : list (row A)) v :
  (v !=? EmptyString) && forallb (λ w, negb (same_text w v)) (words table) = true → ordinary table v.
Proof.
  intros [Hv Hw]%andb_true_iff. split; [by bsimpl|]. rewrite forallb_forall in Hw. apply Forall_forall.
  intros w Hin. by apply negb_true_iff, Hw, list_elem_of_In.
Qed.

Lemma word_free x v : word_char x = false → word v = true → has_char x v = false.
Proof.
  intros Hx. unfold word. induction v as [|c v IH]; [done|]. cbn. intros [Hc Hv]%andb_true_iff.
  rewrite (IH Hv), orb_false_r. apply bool_decide_eq_false. intros ->. by rewrite Hx in Hc.
Qed.

(** The segments of the pattern with the values in place of the parameters. *)
Definition put (params : string -> string) (p : string) : string :=
  match param_name p with Some n => params n | None => p end.

Lemma param_name_Some p n : param_name p = Some n → p = String ":" n.
Proof. destruct p as [|[[] [] [] [] [] [] [] []] p]; cbn; intros E; by simplify_eq. Qed.

Lemma wire_segments path : Split "/" (on_wire path) = map wire_segment (Split "/" path).
Proof.
  unfold on_wire. apply Split_Join.
  - destruct (Split_cons "/" path) as (g & rest & E). by rewrite E.
  - pose proof (Split_char_free "/" path) as Hs. induction Hs; cbn; constructor; [by apply wire_no_slash|done].
Qed.

(** With ordinary values the path arrives as it was meant. *)
Lemma filled_wire pattern names params :
  fixed_plain pattern = true → Forall (λ n, has_char "/" n = false) names → (∀ n, has_char "/" (params n) = false) →
  Forall (λ n, fills names n = true ∧ plain_value (params n)) (pattern_params pattern) →
  Split "/" (on_wire (fill names params pattern)) = map (put params) (Split "/" pattern).
Proof.
  intros Hp Hn Hs Hv. rewrite wire_segments, fill_segments, map_map by done. unfold pattern_params in Hv.
  unfold fixed_plain, template in Hp. apply andb_true_iff in Hp as [Hp _]. apply andb_true_iff in Hp as [Hp _].
  induction (Split "/" pattern) as [|p l IH]; [done|]. cbn in Hp, Hv. apply andb_true_iff in Hp as [Hp0 Hp].
  cbn [map]. unfold put at 1. destruct (param_name p) as [n|] eqn:E.
  - apply Forall_cons in Hv as [[Hf [Hw _]] Hv]. apply param_name_Some in E as ->.
    rewrite fill_param, wire_word by (done || by apply word_free). f_equal. by apply IH.
  - apply andb_true_iff in Hp0 as [Hc Hw]. apply negb_true_iff in Hc.
    rewrite fill_plain, wire_word by done. f_equal. by apply IH.
Qed.

Lemma put_ordinary svc params pattern :
  Forall (λ n, plain_value (params n)) (pattern_params pattern) →
  Forall2 (fits_ordinary (routes_of svc)) (template pattern) (map (put params) (Split "/" pattern)).
Proof.
  unfold pattern_params, template. induction (Split "/" pattern) as [|p l IH]; cbn [map]; [constructor|].
  cbn. unfold put at 1. destruct (param_name p) as [n|] eqn:E.
  - intros [[_ Ho] Hv]%Forall_cons. constructor; [apply Ho|by apply IH].
  - intros Hv. constructor; [done|by apply IH].
Qed.

Lemma bind_put params l n :
  n ∈ omap param_name l → Param (bind_params l (map (put params) l)) n = params n.
Proof.
  induction l as [|p l IH]; [by intros ?%elem_of_nil|]. cbn. unfold put at 1. destruct (param_name p) as [m|]; cbn.
  - intros [->|Hn]%elem_of_cons; [by rewrite bool_decide_refl|]. case_bool_decide; [by subst|by apply IH].
  - apply IH.
Qed.

(** The request arrives at the handler whose pattern is the route's path, with
    the values of the client. *)
Definition delivered (h : Handler) (rt : Route) (c : Ctx) (u : UpRequest) : Prop :=
  ∃ svc r path values,
    endpoint_base h (r_endpoint rt) = base_of h svc ∧ received (base_of h svc) (up_url u) = Some path ∧
    r ∈ routes_of svc ∧ rw_method r = r_method rt ∧ rw_pattern r = endpoint_path (r_endpoint rt) ∧
    Dispatch (routes_of svc) (up_method u) path = Some (rw_handler r, values) ∧
    ∀ n, n ∈ pattern_params (rw_pattern r) → Param values n = Ctx_Params c n.

Lemma forwarded_delivered h rt c u :
  rt ∈ routes h → r_endpoint rt ≠ PlatformHealth →
  Ctx_Method c = r_method rt → (∀ n, path_value (Ctx_Params c n)) →
  Forall (λ n, plain_value (Ctx_Params c n)) (pattern_params (r_pattern rt)) →
  forwarded h (r_endpoint rt) c u → delivered h rt c u.
Proof.
  intros Hrt Hnh Hm Hv Hplain Hu.
  destruct (proj1 (Forall_forall _ _) (routes_placed h) rt Hrt) as [|(svc & who & Hb & _ & Hg & Hfills & Hw)]; [done|].
  apply well_placed_spec in Hw as (Hp & Hhead & _ & Hfull & r & Hr & Hpat).
  assert (Forall (λ n, fills (endpoint_params (r_endpoint rt)) n = true ∧ plain_value (Ctx_Params c n))
    (pattern_params (endpoint_path (r_endpoint rt)))) as Hvals.
  { rewrite forallb_forall in Hfills. apply Forall_forall. intros n Hn%list_elem_of_In%Hfills.
    apply andb_true_iff in Hn as [Hn (m & Hin & ->%String.eqb_eq)%existsb_exists]. split; [done|].
    apply (proj1 (Forall_forall _ _) Hplain). by apply list_elem_of_In. }
  pose proof (forwarded_path h _ _ c u Hp (runs_first _) Hv Hu) as Hpath. rewrite Hb in Hpath.
  exists svc, r, (on_wire (filled (r_endpoint rt) c)), (bind_params (segments (rw_pattern r))
    (map (put (Ctx_Params c)) (Split "/" (endpoint_path (r_endpoint rt))))).
  split; [done|]. split; [done|]. destruct (decided_in _ _ _ _ Hr) as [Hin Hmeth]. split; [done|].
  split; [done|]. split; [done|]. split.
  - destruct Hu as [-> _]. rewrite Hm, Hg, dispatch_first by done. unfold segments at 1, filled.
    rewrite filled_wire; [|done|by destruct (r_endpoint rt); repeat constructor|by intros n; apply Hv|done].
    rewrite (decided_sound (routes_of svc) _ _ (template (endpoint_path (r_endpoint rt)))); [by rewrite Hr|done|done|].
    apply put_ordinary. eapply Forall_impl; [exact Hvals|]. by intros n [_ ?].
  - intros n Hn. rewrite Hpat in *. unfold segments. rewrite trim_tail_full; [by apply bind_put|].
    by apply ends_full_last.
Qed.

End Exposed.

(** ** From the tables to the services *)

Lemma first_match_map {A B} (f : A -> B) (table : list (row A)) method path :
  first_match (map (map_row f) table) method path = (λ av, (f av.1, av.2)) <$> first_match table method path.
Proof.
  induction table as [|r table IH]; [done|]. cbn. destruct (rw_method r ==? method); [|exact IH].
  by destruct (match_segments _ _).
Qed.

(** A service runs the handler its table gives: [name] names its actions among
    those of all services. *)
Lemma serve_routed `{Router, !RouterLaws} svc b (name : bk_action b -> any_action) `{!Inj (=) (=) name} x w a values :
  routes_of svc = map (map_row name) (bk_routes b) → in_method w ≠ "HEAD" →
  Dispatch (routes_of svc) (in_method w) (in_path w) = Some (name a, values) →
  Services.serve b x w = Some (bk_handle b x a w values).
Proof.
  intros Hr Hm. unfold Services.serve. rewrite !dispatch_first, Hr, first_match_map by done.
  destruct (first_match (bk_routes b) _ _) as [[a' v]|]; [|done]. cbn. intros [= E ->]. by apply (inj name) in E as ->.
Qed.

(** ** Examples *)

Section Examples.
#[local] Instance sample_lib : GoLib := LongLib.
#[local] Instance sample_gateway_lib : GatewayLib :=
  PageLessLib (λ s, s) (λ _ _, true) (λ _, Some ("1", "booking")) (λ s, Some s).
#[local] Instance sample_router : Router := FirstRouter.
#[local] Instance sample_router_laws : RouterLaws := FirstRouter_laws.

(** A wire that leaves every segment as it is. *)
Definition PlainWire : SegmentWire := λ s, s.
Lemma PlainWire_laws : @SegmentWireLaws PlainWire.
Proof. by split. Qed.
#[local] Instance sample_wire : SegmentWire := PlainWire.
#[local] Instance sample_wire_laws : SegmentWireLaws := PlainWire_laws.

(** A customer asks for an appointment; the id tries to look like a route. *)
Definition booking_ctx (id : string) : Ctx :=
  mkCtx "GET" "shop.example" ("/api/v1/public/appointments/" +:+ id) EmptyString EmptyString EmptyString None
    (λ _, EmptyString) (λ _, EmptyString) (λ k, if k ==? "id" then id else EmptyString).
Definition booking_route : Route :=
  mkRoute "GET" "/api/v1/public/appointments/:id"
    (Proxy (appointmentURL sample_handler) "/internal/v1/public/appointments/:id" "booking").


End Examples.
