(* ===== verification/Calls.v ===== *)
(** * Calls: where the services' calls to each other arrive

    The clients of [platform] and of the services build their paths by
    concatenation and the services match them against their tables.  Each client
    asks one question of one service: [calls] says which request it sends and
    which handler answers it, with which parameters.  The compositions of
    [Booking], [Links] and [Delivery] rely on these routes. *)
From S2P Require Import Prelude Effects GoTime Http Platform Availability SchedulingRepo SchedulingApp AppointmentRepo AppointmentApp.
From S2P Require Import Accounts Customer Notification Gateway FrontDoor Router Services Exposure.
Local Open Scope string_scope.

(** [uuid.UUID.String] writes 36 characters: digits, letters a to f and hyphens.
    No route of the services has a segment as long. *)
Class UuidTexts `{GoLib} := mkUuidTexts {
  uuid_text_length : ∀ u, (36 <= String.length (uuid_String u))%nat;
  uuid_text_word : ∀ u, word (uuid_String u) = true
}.

(** [baseURL + path] *)
Definition call_path (o : Outgoing) : string := "/" +:+ Join "/" (out_path o).

(** A client whose outcome depends on the reply to one request only. *)
Definition asks {A R} (client : (Outgoing -> exchange A) -> R) (o : Outgoing) : Prop :=
  ∀ send send', send o = send' o → client send = client send'.

Lemma ascii_lower_length s : String.length (ascii_lower s) = String.length s.
Proof. induction s as [|c s IH]; cbn; [done|]. by rewrite IH. Qed.

Lemma long_ordinary {H} (table : list (row H)) v :
  forallb (λ w, String.length w <? 36)%nat (words table) = true → (36 <= String.length v)%nat → ordinary table v.
Proof.
  intros Hw Hv. split; [intros ->; cbn in Hv; lia|]. rewrite forallb_forall in Hw. apply Forall_forall.
  intros w Hin%list_elem_of_In%Hw. apply Nat.ltb_lt in Hin. unfold same_text.
  apply bool_decide_eq_false. intros E. apply (f_equal String.length) in E. rewrite !ascii_lower_length in E. lia.
Qed.

Section Calls.
Context `{GoLib, !UuidTexts, SegmentWire, !SegmentWireLaws, Router, !RouterLaws}.

(** An id is an ordinary value. *)
Lemma uuid_plain u : plain_value (uuid_String u).
Proof.
  split; [apply uuid_text_word|]. intros svc. apply long_ordinary; [|apply uuid_text_length].
  by destruct svc; vm_compute.
Qed.

Definition routed (svc : upstream) (method path : string) (action : any_action) (values : list (string * string)) : Prop :=
  Dispatch (routes_of svc) method (on_wire path) = Some (action, values).

(** The client asks the handler [action] of [svc], and nothing else. *)
Definition calls {A R} (client : (Outgoing -> exchange A) -> R) (svc : upstream) (action : any_action)
    (values : list (string * string)) : Prop :=
  ∃ o, asks client o ∧ routed svc "GET" (call_path o) action values.

Lemma call_segments l :
  l ≠ [] → Forall (λ s, word s = true) l → Split "/" (on_wire (String "/" (Join "/" l))) = EmptyString :: l.
Proof.
  intros Hne Hw. rewrite wire_segments, Split_step, bool_decide_refl.
  rewrite Split_Join; [|done|eapply Forall_impl; [exact Hw|]; intros s Hs; by apply word_free].
  cbn. rewrite wire_word by done. f_equal. clear Hne. induction Hw as [|s l Hs Hl IH]; [done|]. cbn.
  rewrite wire_word by done. by f_equal.
Qed.

(** A path that instantiates a pattern reaches the handler the table gives. *)
Lemma routed_path svc method l pattern r :
  method ≠ "HEAD" → l ≠ [] → Forall (λ s, word s = true) l → ends_full (template pattern) = true →
  Forall2 (fits_ordinary (routes_of svc)) (template pattern) (EmptyString :: l) →
  decided (routes_of svc) method (template pattern) = Some r →
  routed svc method (String "/" (Join "/" l)) (rw_handler r) (bind_params (segments (rw_pattern r)) (EmptyString :: l)).
Proof.
  intros Hm Hne Hw Hfull Hfit Hr. unfold routed. rewrite dispatch_first by done. unfold segments at 1.
  rewrite call_segments by done. rewrite (decided_sound (routes_of svc) _ _ (template pattern)) by done. by rewrite Hr.
Qed.

Lemma calls_to {A R} (client : (Outgoing -> exchange A) -> R) o svc pattern r action values :
  asks client o → out_path o ≠ [] → Forall (λ s, word s = true) (out_path o) → ends_full (template pattern) = true →
  Forall2 (fits_ordinary (routes_of svc)) (template pattern) (EmptyString :: out_path o) →
  decided (routes_of svc) "GET" (template pattern) = Some r → rw_handler r = action →
  bind_params (segments (rw_pattern r)) (EmptyString :: out_path o) = values →
  calls client svc action values.
Proof. intros Ha Hne Hw Hfull Hfit Hr <- <-. exists o. split; [done|]. by eapply routed_path. Qed.

(** The segments of a path are words, and instantiate the pattern. *)
Ltac path_words :=
  cbn [out_path outgoing];
  repeat (apply Forall_cons_2;
    [match goal with |- word (uuid_String _) = true => apply uuid_text_word | _ => first [assumption|reflexivity] end|]);
  apply Forall_nil_2.
Ltac path_fits pattern :=
  cbn [out_path outgoing]; let q := eval vm_compute in (template pattern) in change (template pattern) with q;
  repeat (apply Forall2_cons; split;
    [match goal with |- fits_ordinary _ Free _ => first [assumption|apply uuid_plain] | _ => reflexivity end|]);
  apply Forall2_nil; exact I.

(** The booking client with the network of one dependency replaced. *)
Definition with_scheduling (net : Network) (send : Outgoing -> exchange (list time)) : Network :=
  mkNetwork (net_branch net) (net_barber net) (net_service net) (net_config net) send (net_customer net).
Definition with_customer (net : Network) (send : Outgoing -> exchange CustomerSnapshot) : Network :=
  mkNetwork (net_branch net) (net_barber net) (net_service net) (net_config net) (net_scheduling net) send.

(** [call_to o pattern]: the client sends [o], which was built for [pattern]. *)
Ltac call_to o pattern :=
  refine (calls_to _ o _ pattern _ _ _ _ _ _ _ _ _ _ _);
  [ first [assumption|let E := fresh "E" in intros send send' E;
    unfold client_Customer, Authenticate, EnsureBarberMembership, schedulingdeps_Barber,
      schedulingdeps_BranchBarber, schedulingdeps_Service, schedulingdeps_Settings, dep_request, dep_request_nil,
      tenantsettings_Settings, EnsureExists, HTTPOccupancy_Occupied, RecipientClient_Email;
    cbn [net_customer with_customer]; by rewrite E]
  | discriminate
  | path_words | reflexivity | path_fits pattern
  | vm_compute; reflexivity | reflexivity | reflexivity ].

Lemma available_asks token net t input start :
  ∃ query, asks (λ send, client_Available token (with_scheduling net send) t input start)
    (outgoing ["internal"; "v1"; "public"; "availability"]%list query token t EmptyString).
Proof.
  unfold asks, client_Available. cbn [net_config net_scheduling with_scheduling].
  destruct (schedulingdeps_Settings _ _ _) as [settings|]; [|by exists []].
  destruct (LoadLocation _); [|by exists []]. eexists. intros send send' E. by rewrite E.
Qed.

(** C16: every question a service asks another one arrives at the handler it is
    meant for, with the ids it asks about: the session and the eligibility of
    staff at auth-service, the barbers of a shop at barber-service, the service
    of a barber at catalog-service, the settings of a tenant at tenant-service,
    the free slots at scheduling-service, the occupied times and the recipient of
    a reminder at appointment-service, and the booker at customer-service. *)
Theorem service_calls_arrive token t cookie baseURL barber branch service identity appointment customer from to net input :
  calls (λ send, Authenticate token send t cookie) UAuth (OfAuth AuMe) [] ∧
  calls (λ send, EnsureBarberMembership token send t identity) UAuth (OfAuth AuBarberEligibility)
    [("id", uuid_String identity)] ∧
  calls (λ send, EnsureExists token send t barber) UBarber (OfBarber BarberExists) [("id", uuid_String barber)] ∧
  calls (λ send, schedulingdeps_Barber token send t barber) UBarber (OfBarber SchedulingAccess)
    [("id", uuid_String barber)] ∧
  calls (A := unit) (λ send, schedulingdeps_BranchBarber token send t branch barber) UBarber (OfBarber BranchBarberAccess)
    [("branch_id", uuid_String branch); ("barber_id", uuid_String barber)] ∧
  calls (λ send, schedulingdeps_Service token send t barber service) UCatalog (OfCatalog CatAvailabilityService)
    [("barber_id", uuid_String barber); ("service_id", uuid_String service)] ∧
  calls (λ send, schedulingdeps_Settings token send t) UTenant (OfTenant TnPublicConfig) [] ∧
  calls (λ send, tenantsettings_Settings baseURL token send t) UTenant (OfTenant TnInternalSettings) [] ∧
  calls (λ send, HTTPOccupancy_Occupied token send t barber from to) UAppointment (OfAppointment AptOcc) [] ∧
  calls (λ send, RecipientClient_Email token send (TenantID t) appointment) UAppointment
    (OfAppointment AptNotificationRecipient) [("id", uuid_String appointment)] ∧
  calls (λ send, client_Available token (with_scheduling net send) t input from) UScheduling
    (OfScheduling SchAvailability) [] ∧
  calls (λ send, client_Customer token (with_customer net send) t customer) UCustomer (OfCustomer CusInternalCustomer)
    [("id", uuid_String customer)].
Proof.
  split; [call_to (outgoing ["internal"; "v1"; "auth"; "me"]%list [] token t cookie) "/internal/v1/auth/me"|].
  split; [call_to (outgoing ["internal"; "v1"; "auth"; "members"; uuid_String identity; "barber-eligibility"]%list []
    token t EmptyString) "/internal/v1/auth/members/:id/barber-eligibility"|].
  split; [call_to (outgoing ["internal"; "v1"; "barbers"; uuid_String barber; "exists"]%list [] token t EmptyString)
    "/internal/v1/barbers/:id/exists"|].
  split; [call_to (outgoing ["internal"; "v1"; "barbers"; uuid_String barber; "scheduling-access"]%list [] token t
    EmptyString) "/internal/v1/barbers/:id/scheduling-access"|].
  split; [call_to (outgoing ["internal"; "v1"; "branches"; uuid_String branch; "barbers"; uuid_String barber;
    "booking-access"]%list [] token t EmptyString) "/internal/v1/branches/:branch_id/barbers/:barber_id/booking-access"|].
  split; [call_to (outgoing ["internal"; "v1"; "barbers"; uuid_String barber; "services"; uuid_String service;
    "availability"]%list [] token t EmptyString) "/internal/v1/barbers/:barber_id/services/:service_id/availability"|].
  split; [call_to (outgoing ["internal"; "v1"; "public"; "config"]%list [] token t EmptyString) "/internal/v1/public/config"|].
  split; [call_to (outgoing ["internal"; "v1"; "settings"]%list [] token t EmptyString) "/internal/v1/settings"|].
  split; [call_to (outgoing ["internal"; "v1"; "occupancy"]%list [("barber_id", QText (uuid_String barber));
    ("from", QTime (rfc3339 from)); ("to", QTime (rfc3339 to))]%list token t EmptyString) "/internal/v1/occupancy"|].
  split; [call_to (mkOutgoing ["internal"; "v1"; "appointments"; uuid_String appointment; "notification-recipient"]%list []
    token (uuid_String (TenantID t)) "booking" EmptyString EmptyString)
    "/internal/v1/appointments/:id/notification-recipient"|].
  split.
  - destruct (available_asks token net t input from) as [query Hq].
    call_to (outgoing ["internal"; "v1"; "public"; "availability"]%list query token t EmptyString)
      "/internal/v1/public/availability".
  - call_to (outgoing ["internal"; "v1"; "customer"; uuid_String customer]%list [] token t EmptyString)
      "/internal/v1/customer/:id".
Qed.

(** *** The gateway's own questions and the customer's appointments *)

Lemma prefix_app p s : String.prefix p (p +:+ s) = true.
Proof.
  induction p as [|c p IH]; [by destruct s|]. change (String c p +:+ s) with (String c (p +:+ s)). cbn.
  by destruct (ascii_dec c c).
Qed.
Lemma string_app_length a b : String.length (a +:+ b) = (String.length a + String.length b)%nat.
Proof.
  induction a as [|c a IH]; [done|]. change (String c a +:+ b) with (String c (a +:+ b)). cbn. by rewrite IH.
Qed.
Lemma substring_whole s : String.substring 0 (String.length s) s = s.
Proof. induction s as [|c s IH]; [done|]. cbn. by rewrite IH. Qed.
Lemma substring_app p s n : String.substring (String.length p) n (p +:+ s) = String.substring 0 n s.
Proof. induction p as [|c p IH]; [done|]. change (String c p +:+ s) with (String c (p +:+ s)). cbn. exact IH. Qed.

Lemma TrimPrefix_app p s : TrimPrefix (p +:+ s) p = s.
Proof.
  unfold TrimPrefix. rewrite prefix_app, string_app_length, substring_app.
  replace (String.length p + String.length s - String.length p)%nat with (String.length s) by lia.
  apply substring_whole.
Qed.

Context `{AccountLib, GatewayLib}.

(** What customer-service asks of appointment-service for a path of its own. *)
Definition customer_prefix : string := "/internal/v1/public/customer/appointments".
Definition forward_path (path : string) : string :=
  "/internal/v1/customer/appointments" +:+ TrimPrefix path customer_prefix.

(** The appointments of a customer are asked of appointment-service at
    [forward_path], and of nothing else. *)
Definition forwards (method path : string) (action : any_action) (values : list (string * string)) : Prop :=
  (∀ baseURL token t customer query, ∃ q,
     (q = EmptyString ∨ ∃ raw, q = String "?" raw) ∧
     ∀ send send',
       (∀ r : ForwardRequest, fr_method r = method → fr_target r = baseURL +:+ forward_path path +:+ q → send r = send' r) →
       Forward baseURL token send t customer method (TrimPrefix path customer_prefix) query
       = Forward baseURL token send' t customer method (TrimPrefix path customer_prefix) query) ∧
  routed UAppointment method (forward_path path) action values.

Lemma forwards_intro method path action values :
  routed UAppointment method (forward_path path) action values → forwards method path action values.
Proof.
  intros Hr. split; [|done]. intros baseURL token t customer query.
  exists (if query ==? EmptyString then EmptyString else "?" +:+ query). split.
  { destruct (query ==? EmptyString); [by left|]. right. by exists query. }
  intros send send' E. unfold Forward. destruct (_ && _); [done|]. cbv zeta. by rewrite E.
Qed.

(** The request of the gateway arrives at [action]. *)
Definition arrives (base : string) (u : UpRequest) (svc : upstream) (action : any_action) : Prop :=
  ∃ path, received base (up_url u) = Some path ∧ Dispatch (routes_of svc) (up_method u) path = Some (action, []).

Lemma arrives_at base u svc l suffix pattern r action :
  up_url u = base +:+ String "/" (Join "/" l) +:+ suffix →
  suffix = EmptyString ∨ (∃ q, suffix = String "?" q) →
  up_method u ≠ "HEAD" → l ≠ [] → Forall (λ s, word s = true) l → ends_full (template pattern) = true →
  Forall2 (fits_ordinary (routes_of svc)) (template pattern) (EmptyString :: l) →
  decided (routes_of svc) (up_method u) (template pattern) = Some r → rw_handler r = action →
  bind_params (segments (rw_pattern r)) (EmptyString :: l) = [] →
  has_char "?" (String "/" (Join "/" l)) || has_char "#" (String "/" (Join "/" l)) = false →
  arrives base u svc action.
Proof.
  intros Hu Hs Hm Hne Hw Hfull Hfit Hr <- Hb [Hq Hf]%orb_false_iff.
  exists (on_wire (String "/" (Join "/" l))). split.
  - rewrite Hu. unfold received. rewrite cut_prefix_app. cbn [fmap option_fmap option_map]. by rewrite path_part_app.
  - rewrite <- Hb. by apply routed_path with pattern.
Qed.

(** The paths under which customers see their appointments. *)
Lemma forward_path_app rest : forward_path (customer_prefix +:+ rest) = "/internal/v1/customer/appointments" +:+ rest.
Proof. unfold forward_path. by rewrite TrimPrefix_app. Qed.

Lemma forwards_to method rest l pattern r action values :
  "/internal/v1/customer/appointments" +:+ rest = String "/" (Join "/" l) →
  method ≠ "HEAD" → l ≠ [] → Forall (λ s, word s = true) l → ends_full (template pattern) = true →
  Forall2 (fits_ordinary (routes_of UAppointment)) (template pattern) (EmptyString :: l) →
  decided (routes_of UAppointment) method (template pattern) = Some r → rw_handler r = action →
  bind_params (segments (rw_pattern r)) (EmptyString :: l) = values →
  forwards method (customer_prefix +:+ rest) action values.
Proof.
  intros Hp Hm Hne Hw Hfull Hfit Hr <- <-. apply forwards_intro. rewrite forward_path_app, Hp. by eapply routed_path.
Qed.

Ltac forward_to l pattern :=
  refine (forwards_to _ _ l pattern _ _ _ _ _ _ _ _ _ _ _ _);
  [ reflexivity | done | discriminate | path_words | reflexivity | path_fits pattern
  | vm_compute; reflexivity | reflexivity | reflexivity ].

Ltac arrive_at l suffix pattern :=
  refine (arrives_at _ _ _ l suffix pattern _ _ _ _ _ _ _ _ _ _ _ _ _);
  [ | | done | discriminate | path_words | reflexivity | path_fits pattern
  | vm_compute; reflexivity | reflexivity | reflexivity | reflexivity ].

(** The gateway's lookup of a host arrives at the resolver of
    tenant-service, its session check at customer-service, and the requests
    customer-service forwards for a customer arrive at the handlers of
    appointment-service for that customer's appointments, with the id the
    customer asked for. *)
Theorem edge_calls_arrive h c id :
  plain_value id →
  arrives (Resolver_baseURL (h_resolver h)) (host_lookup h c) UTenant (OfTenant TnResolve) ∧
  (∀ r session, arrives (customerURL h)
     (session_request h r session (mkUpRequest "GET" (session_url h) None None [] EmptyString))
     UCustomer (OfCustomer CusInternalSession)) ∧
  forwards "GET" (customer_prefix +:+ "/upcoming") (OfAppointment (AptCustomerList true)) [] ∧
  forwards "GET" (customer_prefix +:+ "/history") (OfAppointment (AptCustomerList false)) [] ∧
  forwards "GET" (customer_prefix +:+ "/" +:+ id) (OfAppointment AptCustomerGet) [("id", id)] ∧
  forwards "POST" (customer_prefix +:+ "/" +:+ id +:+ "/cancel") (OfAppointment AptCustomerCancel) [("id", id)].
Proof.
  intros [Hw Hall]. pose proof (Hall UAppointment) as Ho.
  split; [arrive_at ["internal"; "v1"; "domains"; "resolve"]%list (String "?" ("hostname=" +:+ QueryEscape (hostname c)))
    "/internal/v1/domains/resolve"; [reflexivity|right; by eexists]|].
  split; [intros r session; arrive_at ["internal"; "v1"; "internal"; "customer"; "session"]%list EmptyString
    "/internal/v1/internal/customer/session"; [cbn [up_url session_request set_header]; by rewrite string_app_nil|by left]|].
  split; [forward_to ["internal"; "v1"; "customer"; "appointments"; "upcoming"]%list "/internal/v1/customer/appointments/upcoming"|].
  split; [forward_to ["internal"; "v1"; "customer"; "appointments"; "history"]%list "/internal/v1/customer/appointments/history"|].
  split; [forward_to ["internal"; "v1"; "customer"; "appointments"; id]%list "/internal/v1/customer/appointments/:id"|].
  forward_to ["internal"; "v1"; "customer"; "appointments"; id; "cancel"]%list "/internal/v1/customer/appointments/:id/cancel".
Qed.
End Calls.

(** ** Examples *)

Section Examples.
#[local] Instance sample_lib : GoLib := LongLib.
#[local] Instance sample_accounts : AccountLib := TestAccounts.
#[local] Instance sample_gateway_lib : GatewayLib :=
  PageLessLib (λ s, s) (λ _ _, true) (λ _, Some ("1", "booking")) (λ s, Some s).
#[local] Instance sample_router : Router := FirstRouter.
#[local] Instance sample_router_laws : RouterLaws := FirstRouter_laws.
#[local] Instance sample_wire : SegmentWire := PlainWire.
#[local] Instance sample_wire_laws : SegmentWireLaws := PlainWire_laws.

Lemma segment_word_app a b : word (a +:+ b) = word a && word b.
Proof.
  unfold word. induction a as [|c a IH]; [done|]. change (String c a +:+ b) with (String c (a +:+ b)). cbn.
  by rewrite IH, andb_assoc.
Qed.
#[local] Instance sample_uuids : UuidTexts.
Proof.
  split; intros u; cbn [uuid_String sample_lib LongLib].
  - rewrite string_app_length. cbn. lia.
  - rewrite segment_word_app. cbn. destruct u as [|p]; [done|]. cbn. induction p as [p IH|p IH|]; [exact IH|exact IH|done].
Qed.

Lemma service_calls_arrive_witness :
  calls (λ send, EnsureExists "t" send (mkTenantContext 1%N "admin" EmptyString) 5%N) UBarber (OfBarber BarberExists)
    [("id", uuid_String 5%N)].
Proof.
  apply (service_calls_arrive "t" (mkTenantContext 1%N "admin" EmptyString) EmptyString EmptyString 5%N 6%N 7%N 8%N 9%N 10%N
    0 0 (mkNetwork (λ _, TransportFailed) (λ _, TransportFailed) (λ _, TransportFailed) (λ _, TransportFailed)
          (λ _, TransportFailed) (λ _, TransportFailed)) ex_input).
Defined.

Lemma edge_calls_arrive_witness :
  forwards "GET" (customer_prefix +:+ "/" +:+ uuid_String 5%N) (OfAppointment AptCustomerGet) [("id", uuid_String 5%N)].
Proof.
  apply (edge_calls_arrive sample_handler (booking_ctx "a1") (uuid_String 5%N)). apply uuid_plain.
Defined.
End Examples.
